(* ===== verification/_CoqProject ===== *)
-Q . S2P
Prelude.v
Indexing.v
PyRegex.v
PyText.v
Outcomes.v
Json.v
WireJson.v
Identity.v
Chronology.v
MarketData.v
MarketDataTheorems.v
Checksum.v
Numbering.v
Economics.v
Commission.v
Execution.v
Messages.v
Orders.v
Wire.v
Decoders.v
Risk.v
OrderAuthority.v
ExecutionState.v
FactAuthority.v
OrderLifecycle.v
Portfolio.v
RiskAuthority.v
RiskSpec.v
Reconciliation.v
Observation.v
ReconciliationAuthority.v
Runtime.v
Queue.v
RuntimeSpec.v
Integration.v
Ledger.v
Adjustment.v
Canonical.v
MarketCodec.v
Strategy.v
Streaming.v
PaperBroker.v
StrategyAuthority.v
StreamingSpec.v
StrategySpec.v
PortfolioPlanning.v
PlanningAuthority.v
PlanningSpec.v
PlanningLog.v
RoundTrip.v
MessageCodec.v
OrderCodec.v
OrderSpec.v
RiskReach.v
LedgerLemmas.v
FactInvariant.v
FactProjection.v
FactTracking.v
LedgerSpec.v
LedgerInvariant.v
LedgerReach.v
LedgerExample.v
LedgerTheorems.v
ReconciliationSpec.v
ReconciliationReach.v
ReconciliationTheorems.v
OrderExample.v
RiskTheorems.v
StrategyTheorems.v
StreamingTheorems.v
PlanningTheorems.v
Pipeline.v
PipelineTheorems.v
OrderTheorems.v
PaperTheorems.v
FactTheorems.v
RuntimeTheorems.v
Composition.v
MessageTheorems.v
ValueTheorems.v
