(* ===== verification/Prelude.v ===== *)
(** * EA: the deterministic core of the backtest engine

    This library models the core of the [ea] package ([src/ea] in the repository): the
    values a run exchanges, the queue that orders them and the authorities that own the
    state of a run.  Everything an authority accepts or issues is an immutable value with
    one canonical JSON text and a digest over it; an authority computes its whole next
    state and publishes it in one assignment, or raises and keeps what it had.  The model
    follows that shape: a value is a record with the checks of its constructor, an
    operation is a function from a state to [Ok (result, next state)] or [Raise error].

    ** How the parts interact

    In a backtest a bounded plan of _roots_ (market events, timers, broker facts,
    observations, the end of the run) is put in one global order and handed out by the
    queue, one dispatch at a time; in a paper run the live ingress receives the events and
    dispatches what is due.  Market events reach the strategy, whose signals the planning authority turns
    into order intents; the risk authority decides them; the Order authority numbers an
    Order for every executable decision; the command tracker sends it once; the venue
    answers with facts; the fact authority
    processes each fact once, numbers the fills and projects the state of every Order; the
    ledger books the fills as balanced transactions; the reconciliation authority compares
    the ledger with what the broker reports.

    ** Files and what they model

    - [Prelude], [Indexing], [Numbering]: the error monad, notation, tactics, and the two
      structures every authority shares: maps read off a log, and gap-free numbering.
    - [PyRegex], [PyText]: Python's [re.fullmatch] on the patterns of the program, [str]
      and [int] of integers.
    - [Outcomes] (core/outcomes.py), [Identity] (core/run.py, core/identity.py,
      core/time.py, core/execution_identity.py), [Chronology]: codes and errors,
      identifiers, instants.
    - [Json], [WireJson]: the canonical encoder and the strict decoder; [Checksum] is the
      executable SHA-256 and the cheap digest concrete runs use.
    - [MarketData] (core/market_data.py) with [MarketDataTheorems];
      [MarketCodec] (core/market_data_codec.py): the bytes of a bar.
    - [Economics], [Commission], [Execution] (core/economics.py, core/commission.py,
      core/execution.py): decimals, rounding, commission, settlement.
    - [Messages], [Orders], [Wire], [Decoders] (core/execution_messages.py),
      [ExecutionState] (core/execution_state.py), [Portfolio] (core/portfolio.py), [Risk]
      (core/risk.py), [Reconciliation], [Observation] (core/reconciliation.py),
      [Integration] (core/ledger_integration.py): the values with their documents and
      digests; [Canonical], [RoundTrip], [MessageCodec], [OrderCodec] with
      [MessageTheorems], [ValueTheorems]: canonical bytes determine a value, and decoders
      invert encoders.
    - [Runtime] (core/runtime.py), [Queue] (runtime/queue.py) with [RuntimeSpec],
      [RuntimeTheorems]: the bounded plan of a backtest.
    - [Streaming] (runtime/streaming.py) with [StreamingSpec], [StreamingTheorems]: the
      live market ingress of a paper run.
    - [Strategy] (core/strategy.py, the dispatch proofs of core/runtime.py),
      [StrategyAuthority] (strategy/authority.py) with [StrategySpec], [StrategyTheorems].
    - [PortfolioPlanning] (core/portfolio_planning.py), [PlanningAuthority]
      (portfolio/planning.py) with [PlanningSpec], [PlanningLog],
      [PlanningTheorems].
    - [RiskAuthority] (risk/authority.py) with [RiskSpec], [RiskReach],
      [RiskTheorems].
    - [OrderAuthority] (execution/authority.py) with [OrderSpec],
      [OrderExample], [OrderTheorems]; [Pipeline], [PipelineTheorems]: both authorities
      joined; [OrderLifecycle] (execution/order_lifecycle.py): the commands sent to the
      transport, with their theorems in [OrderTheorems].
    - [PaperBroker] (execution/paper_broker.py, and the price of a fill of
      core/historical_matching.py) with [PaperTheorems]: the venue of a paper run.
    - [FactAuthority] (execution/fact_authority.py) with [FactInvariant],
      [FactProjection], [FactTracking], [FactTheorems].
    - [Ledger], [Adjustment] (portfolio/ledger.py) with [LedgerLemmas], [LedgerSpec],
      [LedgerInvariant], [LedgerReach], [LedgerExample], [LedgerTheorems];
      [Composition]: the fact authority feeding the ledger.
    - [ReconciliationAuthority] (reconciliation/authority.py, and the factories of
      core/reconciliation.py for the command and the authorization) with
      [ReconciliationSpec] (payload sizes, exact subtraction, what a comparison finds),
      [ReconciliationReach] (the correction of one balance, from its outcome to the
      ledger, and the log of an authority's calls) and [ReconciliationTheorems].

    A model file keeps the names of the source.  A [*Spec] file states the abstract
    specification and the reachable states, a [*Theorems] file the claims, numbered [C1]
    on, and a concrete run with an instance of each claim on it; [LedgerExample] and
    [OrderExample] hold the values the runs share.

    ** What the theorems show

    - Values: decimals are the bounded integers of their scale; settlement and commission
      round half to even; canonical bytes determine the value; decoders accept exactly
      what was issued.
    - Order of events: a batch has one canonical order whatever order it arrives in;
      admission never looks ahead and is never stuck; a plan is the strictly ordered
      permutation of its roots; the queue hands out each root once and terminates.
    - Live ingress: dispatches are numbered without gaps, market events strictly advance,
      what is running is proved exactly and nothing else is, a stopped runtime never
      dispatches the market again, and it drains its facts and closes.
    - Signals: they are numbered in the order of their dispatches; joined with the live
      ingress every signal is about an event that was dispatched when it was visible, and
      the running dispatch gets its signal.
    - Planning: a plan closes the gap between the position and the target, targets and
      intents are numbered, every signal that fits is planned, and what the risk authority
      approves of a plan never overshoots its target.
    - Risk: decisions are numbered without gaps, an approval never exceeds the limits, an
      identity is settled once, a halt is final.
    - Orders: every Order carries one issued approval, and every issued executable result
      becomes its Order; a command about an Order is sent at most once, its transport result
      is settled, and every issued Order can be sent.
    - Paper venue: an issued Order ends at most once, by a cancellation or one trade of all
      of it after its latency; a market event fills what is due at the nearest tick of the
      slipped close; the venue vouches for exactly what it issued; a query tells what
      happened.  The runs have no restart: they exclude [restore_filled].
    - Facts: an outcome is settled and replayed, a fact is processed once, fills are
      numbered, an Order's projection follows the lifecycle and sums its fills.
    - Ledger: balances are the sums of the journal's postings, a fill is booked at most
      once and settles as the price, quantity and fee say, funded cash is never negative,
      every operation publishes all or nothing.
    - Reconciliation: a comparison lists exactly the balances that differ; a single
      difference is repaired by the command and the authorization that are issued for it,
      after which the comparison finds nothing; every authorization is of a proposed
      command, and every command corrects what an admitted observation reports.
    - Composition: the fills of the fact authority are exactly those the ledger books.

    ** Choices, bounds and fuel

    - [hashlib.sha256] is the class [Sha256]; every theorem holds of every digest function,
      and none assumes that it has no collisions.  A port of an authority (an issuance or
      audit verifier) is a parameter and answers a boolean: exceptions a port may raise,
      and what it changes elsewhere, are not represented.
    - An object with a private seal is a value built by its factory; the tests of exact
      types are the types of the model, so a [TypeError] for a wrong type cannot arise.  A
      record may hold any field values where a theorem does not say the factory made it.
    - An operation that recomputes a state only to compare it with the one it is about to
      publish is represented by one computation.
    - Clocks and the UTC offset of a datetime are arguments; [datetime] years below 1000
      print without padding where the C library does so.  A float is an IEEE binary64
      value of [SpecFloat].  A poll of the live ingress is its beginning, the calls its
      callback makes and its end; draining takes as many polls as facts are pending.
    - An identity test between objects that one registry holds is equality of the values;
      where a caller chooses the object (a market event, a verifier) the object has a name.
    - A lock makes each operation of the command tracker one step.
    - [WireJson] bounds the recursion of the JSON parser by the length of the text plus
      one, which is enough for every text; Python's recursion limit is not represented.
      The integer printers recurse on the number of digits.  The runs of the queue take
      as many steps as the plan has roots.
    - A frozen [Mapping] proxy is the map it wraps; a lease of the queue is the identity
      of its object, which [pop] is given.

    ** Not modelled

    The matcher of a backtest (execution/matcher.py, and core/historical_matching.py but
    for its price), the polling of a broker for observations (reconciliation/broker.py),
    the audit journal (core/audit.py: what it says of a run, its binding and its
    acknowledgement of a payload, is a parameter), the run lifecycle (core/lifecycle.py), the kill
    switch (risk/kill_switch.py) and the coordinator (runtime/coordinator.py) that calls
    the authorities through capability ports; the authorities are composed directly
    instead.  The packages data, config, experiments,
    composition, plugin, product, web and cli are files, databases, processes and user
    interface around this core. *)

From stdpp Require Export base decidable list gmap strings countable sorting.
From Stdlib Require Export ZArith Lia Ascii.
From Stdlib Require String.


(** ** Results: a Python call returns a value or raises an exception *)

Inductive result (E A : Type) : Type :=
| Ok (a : A)
| Raise (e : E).
Arguments Ok {E A} a.
Arguments Raise {E A} e.

#[export] Instance result_eq_dec `{EqDecision E, EqDecision A} :
  EqDecision (result E A).
Proof. solve_decision. Defined.

Definition rbind {E A B} (m : result E A) (k : A -> result E B) : result E B :=
  match m with
  | Ok a => k a
  | Raise e => Raise e
  end.

Fixpoint rmap {E A B} (f : A -> result E B) (l : list A) : result E (list B) :=
  match l with
  | [] => Ok []
  | x :: l => rbind (f x) (fun y => rbind (rmap f l) (fun ys => Ok (y :: ys)))
  end.

(** [x is None]. *)
Definition absent {A} (x : option A) : bool := match x with None => true | Some _ => false end.

Definition is_ok {E A} (m : result E A) : bool :=
  match m with Ok _ => true | Raise _ => false end.

Declare Scope res_scope.
Delimit Scope res_scope with res.
Notation "'let*' x := m 'in' k" := (rbind m (fun x => k))
  (at level 10, x pattern, m at level 100, k at level 200,
   format "'[v' 'let*'  x  :=  m  'in' '/' k ']'") : res_scope.
(** The guard [if b: raise e], then [k]. *)
Notation "'raise_if' b 'with' e ';;' k" := (if b then Raise e else k)
  (at level 10, b at level 99, e at level 99, k at level 200,
   format "'[v' 'raise_if'  b  'with'  e  ';;' '/' k ']'") : res_scope.
Open Scope res_scope.

Section ResultLemmas.
Context {E A B : Type}.

Lemma rbind_Ok (m : result E A) (k : A -> result E B) b :
  rbind m k = Ok b <-> exists a, m = Ok a /\ k a = Ok b.
Proof.
  destruct m; simpl; split.
  - eauto.
  - intros (a' & [= ->] & H). exact H.
  - done.
  - by intros (? & ? & _).
Qed.

Lemma rbind_Raise (m : result E A) (k : A -> result E B) e :
  rbind m k = Raise e <-> m = Raise e \/ exists a, m = Ok a /\ k a = Raise e.
Proof.
  destruct m as [a|e']; simpl; split.
  - intros Hk. right. by exists a.
  - by intros [? | (a' & [= ->] & Hk)].
  - intros [= ->]. auto.
  - intros [[= ->] | (a' & ? & _)]; done.
Qed.
End ResultLemmas.

Lemma Ok_inj {E A} (a b : A) : @Ok E A a = Ok b -> a = b.
Proof. by intros [= ?]. Qed.

Lemma rmap_Ok {E A B} (f : A -> result E B) l ys :
  rmap f l = Ok ys <-> Forall2 (fun x y => f x = Ok y) l ys.
Proof.
  revert ys; induction l as [|x l IH]; intros ys; simpl.
  - split; [intros [= <-]; constructor | by inversion 1].
  - split.
    + intros (y & Hy & (ys' & Hys & [= <-])%rbind_Ok)%rbind_Ok.
      constructor; [done | by apply IH].
    + inversion 1 as [|? y ? ys' Hy Hys]; subst. rewrite Hy. simpl.
      apply IH in Hys. by rewrite Hys.
Qed.


(** [res_inv H] opens every [let*], guard and match of a hypothesis
    [... = Ok _] (or [Raise _]) and closes the impossible branches. *)
Ltac res_step H :=
  match type of H with
  | rbind ?m _ = _ => let E := fresh "E" in destruct m eqn:E; simpl in H
  | (if ?b then _ else _) = _ => let E := fresh "E" in destruct b eqn:E
  | (match ?m with _ => _ end) = _ => let E := fresh "E" in destruct m eqn:E
  end; try discriminate H.
Ltac res_inv H := repeat res_step H.

(** ** Python's [<=] on the keys the program sorts by, and [sorted] *)

Class PyOrd (K : Type) := {
  py_le : K -> K -> bool;
  py_le_total x y : py_le x y = true \/ py_le y x = true;
  py_le_trans x y z : py_le x y = true -> py_le y z = true -> py_le x z = true;
  py_le_antisym x y : py_le x y = true -> py_le y x = true -> x = y
}.

Lemma py_le_refl `{PyOrd K} x : py_le x x = true.
Proof. by destruct (py_le_total x x). Qed.

#[export] Program Instance py_ord_Z : PyOrd Z := {| py_le := Z.leb |}.
Solve Obligations with (intros; lia).

#[export] Program Instance py_ord_string : PyOrd string := {| py_le := String.leb |}.
Next Obligation. intros x y. destruct (String.leb_total x y); auto. Qed.
Next Obligation.
  intros x y z Hxy Hyz. apply Is_true_true.
  apply Is_true_true in Hxy, Hyz. change (String.le x z).
  etrans; [exact Hxy | exact Hyz].
Qed.
Next Obligation. intros x y. apply String.leb_antisym. Qed.

(** Tuples compare lexicographically. *)
#[export] Program Instance py_ord_prod `{EqDecision A, PyOrd A, PyOrd B} : PyOrd (A * B) :=
  {| py_le x y := if decide (x.1 = y.1) then py_le x.2 y.2 else py_le x.1 y.1 |}.
Next Obligation.
  intros A ? ? B ? [a b] [c d]; simpl.
  repeat case_decide; subst; try done; apply py_le_total.
Qed.
Next Obligation.
  intros A ? ? B ? [a b] [c d] [e f]; simpl.
  repeat case_decide; subst; try done.
  - eauto using py_le_trans.
  - intros Hac Hce. by rewrite (py_le_antisym _ _ Hac Hce) in *.
  - eauto using py_le_trans.
Qed.
Next Obligation.
  intros A ? ? B ? [a b] [c d]; simpl. repeat case_decide; subst; try done.
  - intros Hbd Hdb. f_equal. by apply py_le_antisym.
  - intros Hac Hca. by pose proof (py_le_antisym _ _ Hac Hca).
Qed.

Section Sorted.
Context `{PyOrd K} {A : Type} (key : A -> K).

Fixpoint insert_by (x : A) (l : list A) : list A :=
  match l with
  | [] => [x]
  | y :: l' => if py_le (key x) (key y) then x :: l else y :: insert_by x l'
  end.

(** [sorted(l, key=key)]: stable, by insertion from the right. *)
Definition py_sorted (l : list A) : list A := foldr insert_by [] l.

Definition sorted_by (l : list A) : Prop :=
  StronglySorted (fun x y => py_le (key x) (key y) = true) l.

Lemma insert_by_perm x l : insert_by x l ≡ₚ x :: l.
Proof.
  induction l as [|y l IH]; simpl; [done|]. case_match; [done|].
  rewrite IH. by rewrite Permutation_swap.
Qed.

Lemma py_sorted_perm l : py_sorted l ≡ₚ l.
Proof. induction l; simpl; [done|]. by rewrite insert_by_perm, IHl. Qed.

Lemma insert_by_sorted x l : sorted_by l -> sorted_by (insert_by x l).
Proof.
  induction l as [|y l IH]; simpl; intros Hl; [repeat constructor|].
  inversion Hl as [|? ? Hs Hy]; subst. case_match eqn:Hle.
  - constructor; [done|]. constructor; [done|].
    eapply Forall_impl; [exact Hy|]. intros z Hz. by eapply py_le_trans.
  - constructor; [by apply IH|].
    assert (py_le (key y) (key x) = true) as Hyx
      by (destruct (py_le_total (key x) (key y)); congruence).
    rewrite insert_by_perm. by constructor.
Qed.

Lemma py_sorted_sorted l : sorted_by (py_sorted l).
Proof. induction l; simpl; [constructor|]. by apply insert_by_sorted. Qed.

Lemma py_sorted_id l : sorted_by l -> py_sorted l = l.
Proof.
  induction 1 as [|x l Hl IH Hx]; simpl; [done|]. rewrite IH.
  destruct l as [|y l]; simpl; [done|]. inversion Hx; subst. by rewrite H2.
Qed.

Lemma elem_of_py_sorted x l : x ∈ py_sorted l <-> x ∈ l.
Proof. by rewrite py_sorted_perm. Qed.

(** With pairwise distinct keys a sorted permutation is unique. *)
Lemma sorted_by_unique l1 l2 :
  sorted_by l1 -> sorted_by l2 -> NoDup (key <$> l1) -> l1 ≡ₚ l2 -> l1 = l2.
Proof.
  intros Hs1. revert l2. induction Hs1 as [|x l1 Hl1 IH Hx1]; intros l2 Hs2 Hnd Hp.
  { by apply Permutation_nil_l in Hp. }
  destruct l2 as [|y l2]; [by apply Permutation_nil_r in Hp|].
  inversion Hs2 as [|? ? Hl2 Hy2]; subst.
  assert (x = y) as ->.
  { assert (x ∈ y :: l2) as Hx by (rewrite <-Hp; left).
    assert (y ∈ x :: l1) as Hy by (rewrite Hp; left).
    inversion Hx as [|? ? ? Hx']; subst; [done|].
    inversion Hy as [|? ? ? Hy']; subst; [done|].
    rewrite Forall_forall in Hx1, Hy2.
    assert (key x = key y) as Hk by (apply py_le_antisym; auto).
    apply NoDup_cons in Hnd as [Hnd _]. destruct Hnd.
    rewrite Hk. by apply list_elem_of_fmap_2. }
  f_equal. apply IH; [done| |].
  - by apply NoDup_cons in Hnd as [_ ?].
  - by apply Permutation_cons_inv in Hp.
Qed.
End Sorted.

(** A key-preserving map commutes with sorting. *)
Lemma py_sorted_map `{PyOrd K} {A B} (f : A -> B) (ka : A -> K) (kb : B -> K) (l : list A) :
  (forall x, kb (f x) = ka x) -> py_sorted kb (map f l) = map f (py_sorted ka l).
Proof.
  intros Hk. induction l as [|x l IH]; simpl; [done|]. rewrite IH.
  generalize (py_sorted ka l) as m. induction m as [|y m IHm]; simpl; [done|].
  rewrite !Hk. destruct (py_le (ka x) (ka y)); simpl; [done|]. by rewrite IHm.
Qed.

(** [keys == tuple(sorted(keys))] as the program tests it. *)
Definition is_sorted_keys `{PyOrd K, EqDecision K} (keys : list K) : bool :=
  bool_decide (keys = py_sorted id keys).
(** [len(keys) == len(set(keys))]. *)
Definition no_duplicates `{EqDecision K} (keys : list K) : bool :=
  bool_decide (NoDup keys).

Lemma sorted_by_fmap `{PyOrd K} {A B} (f : A -> B) (key : B -> K) (l : list A) :
  sorted_by (fun x => key (f x)) l -> sorted_by key (f <$> l).
Proof.
  induction 1 as [|x l Hl IH Hx]; simpl; constructor; [done|].
  rewrite Forall_fmap. exact Hx.
Qed.

Lemma is_sorted_keys_py_sorted `{PyOrd K, EqDecision K} {A} (key : A -> K) l :
  is_sorted_keys (key <$> py_sorted key l) = true.
Proof.
  apply bool_decide_eq_true. symmetry. apply py_sorted_id.
  apply sorted_by_fmap. apply py_sorted_sorted.
Qed.

Lemma is_sorted_keys_spec `{PyOrd K, EqDecision K} (l : list K) :
  is_sorted_keys l = true <-> sorted_by id l.
Proof.
  unfold is_sorted_keys. rewrite bool_decide_eq_true. split.
  - intros ->. apply py_sorted_sorted.
  - intros Hs. by rewrite py_sorted_id.
Qed.

(** ** Powers of ten *)

Lemma pow10_pos n : (0 < 10 ^ n)%Z \/ (n < 0)%Z.
Proof. destruct (Z_lt_le_dec n 0); [auto|]. left. by apply Z.pow_pos_nonneg. Qed.

Lemma pow10_gt0 n : (0 <= n)%Z -> (0 < 10 ^ n)%Z.
Proof. intros. by apply Z.pow_pos_nonneg. Qed.

Lemma pow10_add m n : (0 <= m)%Z -> (0 <= n)%Z -> (10 ^ (m + n) = 10 ^ m * 10 ^ n)%Z.
Proof. intros. by apply Z.pow_add_r. Qed.

Lemma pow10_split m n : (0 <= n <= m)%Z -> (10 ^ m = 10 ^ (m - n) * 10 ^ n)%Z.
Proof. intros. rewrite <-pow10_add by lia. f_equal. lia. Qed.

Lemma pow10_succ n : (0 <= n)%Z -> (10 ^ (n + 1) = 10 * 10 ^ n)%Z.
Proof. intros. rewrite pow10_add by lia. lia. Qed.

Create HintDb pow10.
#[export] Hint Resolve pow10_gt0 : pow10.
