(* ===== verification/Indexing.v ===== *)
(** Indexes read off a log: a finite map that holds, under the key of every entry of a
    list, the value of that entry and nothing else. *)

From S2P Require Import Prelude.

(** Elements of a list that agree on a key the list does not repeat are the same. *)
Lemma NoDup_map_eq {A B} (f : A -> B) l x y : NoDup (map f l) -> x ∈ l -> y ∈ l -> f x = f y -> x = y.
Proof.
  intros Hnd [i Hi]%list_elem_of_lookup_1 [j Hj]%list_elem_of_lookup_1 Hf. change (map f l) with (f <$> l) in Hnd.
  assert (i = j) as ->; [|congruence].
  apply (NoDup_lookup _ _ _ (f x) Hnd); rewrite list_lookup_fmap; [by rewrite Hi|by rewrite Hj, Hf].
Qed.
Lemma omap_map {A B C} (g : B -> option C) (h : A -> B) l : omap g (map h l) = omap (fun x => g (h x)) l.
Proof. induction l as [|x l IH]; [done|]. cbn. destruct (g (h x)); [by f_equal|done]. Qed.
Lemma NoDup_omap_eq {A B C} (f : B -> C) (g : A -> option B) l x y a b :
  NoDup (f <$> omap g l) -> x ∈ l -> y ∈ l -> g x = Some a -> g y = Some b -> f a = f b -> x = y.
Proof.
  induction l as [|z l IH]; intros Hnd Hx Hy Ga Gb Hf; [by apply not_elem_of_nil in Hx|].
  assert (forall w c, w ∈ l -> g w = Some c -> f c ∈ f <$> omap g l) as Hin.
  { intros w c Hw Gc. apply list_elem_of_fmap_2, list_elem_of_omap. by exists w. }
  cbn in Hnd. apply elem_of_cons in Hx as [Ex|Hx]; apply elem_of_cons in Hy as [Ey|Hy]; subst; try done.
  - rewrite Ga in Hnd. apply NoDup_cons in Hnd as [Hn _]. destruct Hn. rewrite Hf. by eapply Hin.
  - rewrite Gb in Hnd. apply NoDup_cons in Hnd as [Hn _]. destruct Hn. rewrite <-Hf. by eapply Hin.
  - apply IH; try done. destruct (g z); [by apply NoDup_cons in Hnd as [_ ?]|done].
Qed.

Section Indexes.
Context {K V E : Type} `{Countable K} (key : E -> K) (val : E -> V).

Definition indexes (m : gmap K V) (l : list E) : Prop :=
  forall k v, m !! k = Some v <-> exists e, e ∈ l /\ key e = k /\ val e = v.

Lemma indexes_nil : indexes ∅ [].
Proof. intros k v. rewrite lookup_empty. split; [done|]. intros (e & He & _). by apply not_elem_of_nil in He. Qed.

Lemma indexes_fresh m l e : indexes m l -> m !! key e = None -> key e ∉ map key l.
Proof.
  intros Hm Hn Hin. apply list_elem_of_In, in_map_iff in Hin as (e' & He & Hin%list_elem_of_In).
  assert (m !! key e = Some (val e')) as Hs by (apply Hm; exists e'; split_and!; done). by rewrite Hn in Hs.
Qed.

Lemma indexes_snoc m l e : indexes m l -> m !! key e = None -> indexes (<[key e := val e]> m) (l ++ [e]).
Proof.
  intros Hm Hn k v. rewrite lookup_insert_Some. split.
  - intros [[<- <-]|[Hne (e' & Hin & Hk & Hv)%Hm]].
    + exists e. rewrite elem_of_app, list_elem_of_singleton. auto.
    + exists e'. rewrite elem_of_app. auto.
  - intros (e' & [Hin|Hin%list_elem_of_singleton]%elem_of_app & Hk & Hv); [|left; by subst].
    right. split; [|apply Hm; eauto]. intros Heq. destruct (indexes_fresh m l e Hm Hn).
    apply list_elem_of_In, in_map_iff. exists e'. split; [congruence|by apply list_elem_of_In].
Qed.

Lemma indexes_NoDup m l e : indexes m l -> m !! key e = None -> NoDup (map key l) -> NoDup (map key (l ++ [e])).
Proof.
  intros Hm Hn Hnd. rewrite map_app. apply NoDup_app. split_and!; [done| |apply NoDup_singleton].
  intros x Hx ->%list_elem_of_singleton. by apply (indexes_fresh m l e).
Qed.

Lemma indexes_lookup m l e : indexes m l -> e ∈ l -> m !! key e = Some (val e).
Proof. intros Hm He. apply Hm. by exists e. Qed.
End Indexes.

(** ** Dictionaries built by a comprehension *)

(** A dict comprehension keyed by [key]: a later element replaces an earlier one. *)
Definition index_by {A K} `{Countable K} (key : A -> K) (l : list A) : gmap K A :=
  fold_left (fun m x => <[key x := x]> m) l ∅.

Lemma index_by_snoc {A K} `{Countable K} (key : A -> K) l x : index_by key (l ++ [x]) = <[key x := x]> (index_by key l).
Proof. apply fold_left_app. Qed.
Lemma index_by_Some {A K} `{Countable K} (key : A -> K) l k x :
  index_by key l !! k = Some x -> x ∈ l /\ key x = k.
Proof.
  induction l as [|y l IH] using rev_ind; [done|]. rewrite index_by_snoc, lookup_insert_Some, elem_of_app.
  intros [[<- <-]|[_ H']]; [split; [right; by left|done]|]. apply IH in H' as []. auto.
Qed.
Lemma index_by_member {A K} `{Countable K} (key : A -> K) l x :
  NoDup (map key l) -> x ∈ l -> index_by key l !! key x = Some x.
Proof.
  induction l as [|y l IH] using rev_ind; intros Hnd Hin; [by apply not_elem_of_nil in Hin|].
  rewrite index_by_snoc. rewrite map_app in Hnd. apply NoDup_app in Hnd as (Hnd & Hd & _).
  apply elem_of_app in Hin as [Hin|Hin%list_elem_of_singleton].
  - rewrite lookup_insert_ne; [by apply IH|]. intros Heq.
    apply (Hd (key x)); [by apply (list_elem_of_fmap_2 key)|]. rewrite <-Heq. by left.
  - subst y. by rewrite lookup_insert_eq.
Qed.
