(* ===== verification/PyRegex.v ===== *)
(** The subset of Python's [re] the program uses: [Pattern.fullmatch] on ASCII
    patterns.  A pattern is a [regex]; [fullmatch] decides it by derivatives and
    [fullmatch_spec] ties it to the language [matches].  Every identifier class of
    the program (currency codes, venues, run ids, digests) and the canonical
    decimal grammar are patterns of this file. *)

From S2P Require Import Prelude.

Definition str := list ascii.
Definition chars (s : string) : str := String.list_ascii_of_string s.
Definition text_of (s : str) : string := String.string_of_list_ascii s.

Lemma chars_text_of s : chars (text_of s) = s.
Proof. apply String.list_ascii_of_string_of_list_ascii. Qed.
Lemma text_of_chars s : text_of (chars s) = s.
Proof. apply String.string_of_list_ascii_of_string. Qed.

#[export] Instance text_of_inj : Inj (=) (=) text_of.
Proof. intros a b Hab. by rewrite <-(chars_text_of a), Hab, chars_text_of. Qed.
#[export] Instance chars_inj : Inj (=) (=) chars.
Proof. intros a b Hab. by rewrite <-(text_of_chars a), Hab, text_of_chars. Qed.

(** ** Patterns *)

Inductive regex : Type :=
| Void
| Eps
| Cls (p : ascii -> bool)
| Cat (r1 r2 : regex)
| Alt (r1 r2 : regex)
| Star (r : regex).

Definition code (c : ascii) : Z := Z.of_N (N_of_ascii c).

(** Character classes: [c], [lo-hi], unions, and a letter in either case. *)
Definition is_char (c d : ascii) : bool := Ascii.eqb c d.
Definition in_range (lo hi c : ascii) : bool := (code lo <=? code c)%Z && (code c <=? code hi)%Z.
Definition one_of (s : string) (c : ascii) : bool := existsb (Ascii.eqb c) (chars s).
Definition lower (c : ascii) : ascii :=
  if in_range "A"%char "Z"%char c then ascii_of_N (N_of_ascii c + 32) else c.

Definition Ch (c : ascii) : regex := Cls (is_char c).
Definition Opt (r : regex) : regex := Alt Eps r.
Fixpoint Lit (s : str) : regex :=
  match s with [] => Eps | [c] => Ch c | c :: s => Cat (Ch c) (Lit s) end.
(** A literal under [re.IGNORECASE]. *)
Fixpoint LitI (s : str) : regex :=
  match s with [] => Eps | c :: s => Cat (Cls (fun d => is_char (lower d) c)) (LitI s) end.
(** [r{0,n}] and [r{m,m+n}]. *)
Fixpoint UpTo (n : nat) (r : regex) : regex :=
  match n with O => Eps | S n => Alt Eps (Cat r (UpTo n r)) end.
Fixpoint Rep (n : nat) (r : regex) : regex :=
  match n with O => Eps | S n => Cat r (Rep n r) end.

Inductive matches : regex -> str -> Prop :=
| m_eps : matches Eps []
| m_cls p c : p c = true -> matches (Cls p) [c]
| m_cat r1 r2 s1 s2 : matches r1 s1 -> matches r2 s2 -> matches (Cat r1 r2) (s1 ++ s2)
| m_alt_l r1 r2 s : matches r1 s -> matches (Alt r1 r2) s
| m_alt_r r1 r2 s : matches r2 s -> matches (Alt r1 r2) s
| m_star_nil r : matches (Star r) []
| m_star_cons r s1 s2 : matches r s1 -> matches (Star r) s2 -> matches (Star r) (s1 ++ s2).

(** ** The matcher *)

Fixpoint nullable (r : regex) : bool :=
  match r with
  | Void | Cls _ => false
  | Eps | Star _ => true
  | Cat r1 r2 => nullable r1 && nullable r2
  | Alt r1 r2 => nullable r1 || nullable r2
  end.

Definition cat (r1 r2 : regex) : regex :=
  match r1 with Void => Void | Eps => r2 | _ => Cat r1 r2 end.
Definition alt (r1 r2 : regex) : regex :=
  match r1, r2 with Void, _ => r2 | _, Void => r1 | _, _ => Alt r1 r2 end.

Fixpoint deriv (c : ascii) (r : regex) : regex :=
  match r with
  | Void | Eps => Void
  | Cls p => if p c then Eps else Void
  | Cat r1 r2 =>
      let d := cat (deriv c r1) r2 in
      if nullable r1 then alt d (deriv c r2) else d
  | Alt r1 r2 => alt (deriv c r1) (deriv c r2)
  | Star r => cat (deriv c r) (Star r)
  end.

Fixpoint fullmatch (r : regex) (s : str) : bool :=
  match s with
  | [] => nullable r
  | c :: s => fullmatch (deriv c r) s
  end.

(** ** Correctness *)

Lemma matches_cat_inv r1 r2 s :
  matches (Cat r1 r2) s -> exists s1 s2, s = s1 ++ s2 /\ matches r1 s1 /\ matches r2 s2.
Proof. inversion 1; subst. eauto. Qed.

Lemma matches_alt_inv r1 r2 s : matches (Alt r1 r2) s -> matches r1 s \/ matches r2 s.
Proof. inversion 1; subst; auto. Qed.

Lemma nullable_spec r : nullable r = true <-> matches r [].
Proof.
  induction r as [| |p|r1 IH1 r2 IH2|r1 IH1 r2 IH2|r IH]; simpl.
  - split; [done | inversion 1].
  - split; [constructor | done].
  - split; [done | inversion 1].
  - rewrite andb_true_iff, IH1, IH2. split.
    + intros [H1 H2]. by apply (m_cat _ _ [] []).
    + intros (s1 & s2 & Hs & H1 & H2)%matches_cat_inv.
      symmetry in Hs. by apply app_nil in Hs as [-> ->].
  - rewrite orb_true_iff, IH1, IH2. split.
    + intros [H|H]; [by apply m_alt_l | by apply m_alt_r].
    + apply matches_alt_inv.
  - split; [constructor | done].
Qed.

Lemma matches_cat r1 r2 s : matches (cat r1 r2) s <-> matches (Cat r1 r2) s.
Proof.
  destruct r1; simpl; try done.
  - split; [inversion 1|]. by intros (? & ? & _ & H & _)%matches_cat_inv; inversion H.
  - split.
    + intros H. by apply (m_cat _ _ []); [constructor|].
    + intros (? & ? & -> & H & ?)%matches_cat_inv. by inversion H.
Qed.

Lemma matches_alt r1 r2 s : matches (alt r1 r2) s <-> matches (Alt r1 r2) s.
Proof.
  assert (forall r, matches r s <-> matches (Alt Void r) s) as Hl.
  { intros r. split; [by apply m_alt_r|]. intros [H|H]%matches_alt_inv; [inversion H | done]. }
  assert (forall r, matches r s <-> matches (Alt r Void) s) as Hr.
  { intros r. split; [by apply m_alt_l|]. intros [H|H]%matches_alt_inv; [done | inversion H]. }
  destruct r1, r2; simpl; done || apply Hl || apply Hr.
Qed.

Lemma matches_star_cons_inv r c s :
  matches (Star r) (c :: s) ->
  exists s1 s2, s = s1 ++ s2 /\ matches r (c :: s1) /\ matches (Star r) s2.
Proof.
  remember (Star r) as q eqn:Hq. remember (c :: s) as cs eqn:Hcs. intros H.
  revert r c s Hq Hcs.
  induction H as [| | | | | |r' s1 s2 H1 _ H2 IH]; intros q a t Hq Hcs; simplify_eq.
  destruct s1 as [|d s1]; simpl in Hcs; simplify_eq; eauto 10.
Qed.

Lemma deriv_spec c r s : matches (deriv c r) s <-> matches r (c :: s).
Proof.
  revert s; induction r as [| |p|r1 IH1 r2 IH2|r1 IH1 r2 IH2|r IH]; intros s; simpl.
  - split; inversion 1.
  - split; inversion 1.
  - destruct (p c) eqn:Hp; split; inversion 1; subst; try congruence; by constructor.
  - assert (matches (cat (deriv c r1) r2) s <->
      exists s1 s2, s = s1 ++ s2 /\ matches r1 (c :: s1) /\ matches r2 s2) as Hcat.
    { rewrite matches_cat. split.
      - intros (s1 & s2 & -> & H1 & H2)%matches_cat_inv. apply IH1 in H1. eauto 10.
      - intros (s1 & s2 & -> & H1 & H2). constructor; [by apply IH1 | done]. }
    assert (matches (Cat r1 r2) (c :: s) <->
      (exists s1 s2, s = s1 ++ s2 /\ matches r1 (c :: s1) /\ matches r2 s2) \/
      (matches r1 [] /\ matches r2 (c :: s))) as Hc.
    { split.
      - intros ([|d s1] & s2 & Hs & H1 & H2)%matches_cat_inv; simpl in Hs; simplify_eq; eauto 10.
      - intros [(s1 & s2 & -> & H1 & H2)|[H1 H2]].
        + by apply (m_cat _ _ (c :: s1)).
        + by apply (m_cat _ _ []). }
    rewrite Hc, <-nullable_spec. destruct (nullable r1).
    + rewrite matches_alt. split.
      * intros [H|H]%matches_alt_inv; [left; by apply Hcat | right; by rewrite <-IH2].
      * intros [H|[_ H]]; [by apply m_alt_l, Hcat | by apply m_alt_r, IH2].
    + rewrite Hcat. split; [auto | by intros [?|[? _]]].
  - rewrite matches_alt. split.
    + intros [H|H]%matches_alt_inv; [apply m_alt_l | apply m_alt_r]; [by apply IH1 | by apply IH2].
    + intros [H|H]%matches_alt_inv; [apply m_alt_l | apply m_alt_r]; [by apply IH1 | by apply IH2].
  - rewrite matches_cat. split.
    + intros (s1 & s2 & -> & H1 & H2)%matches_cat_inv.
      apply (m_star_cons _ (c :: s1)); [by apply IH | done].
    + intros (s1 & s2 & -> & H1 & H2)%matches_star_cons_inv. constructor; [by apply IH | done].
Qed.

Lemma fullmatch_spec r s : fullmatch r s = true <-> matches r s.
Proof.
  revert r; induction s as [|c s IH]; intros r; simpl; [apply nullable_spec|].
  rewrite IH. apply deriv_spec.
Qed.

(** ** Consequences used to build and analyse matches *)

Lemma matches_star_cls p s : matches (Star (Cls p)) s <-> Forall (fun c => p c = true) s.
Proof.
  split.
  - induction s as [|c s IH]; intros H; [constructor|].
    apply matches_star_cons_inv in H as (s1 & s2 & -> & H1 & H2).
    inversion H1; subst. simpl in *. constructor; [done|]. by apply IH.
  - induction 1 as [|c s Hc Hs IH]; [constructor|].
    apply (m_star_cons _ [c]); [by constructor | done].
Qed.

Lemma matches_cls_inv p s : matches (Cls p) s -> exists c, s = [c] /\ p c = true.
Proof. inversion 1; subst; eauto. Qed.

Lemma matches_ch_inv c s : matches (Ch c) s -> s = [c].
Proof. intros (d & -> & ->%Ascii.eqb_eq)%matches_cls_inv. done. Qed.

Lemma matches_eps_inv s : matches Eps s -> s = [].
Proof. by inversion 1. Qed.

Lemma matches_cat_cls p r c s : p c = true -> matches r s -> matches (Cat (Cls p) r) (c :: s).
Proof. intros. apply (m_cat _ _ [c]); [by constructor | done]. Qed.

Lemma matches_ch c : matches (Ch c) [c].
Proof. constructor. by apply Ascii.eqb_eq. Qed.

Create HintDb regex.
#[export] Hint Constructors matches : regex.
#[export] Hint Resolve matches_ch matches_cat_cls : regex.

(** ** Validated strings: the identifier dataclasses

    A dataclass whose only field is a [str] checked against a pattern is the type
    of the strings its pattern accepts; two are equal when their texts are. *)

Record PatternStr (r : regex) : Type := mkPatternStr {
  value : string;
  value_ok : fullmatch r (chars value) = true
}.
Arguments mkPatternStr {r} _ _.
Arguments value {r} _.
Arguments value_ok {r} _.

Section PatternStr.
Context {r : regex}.

(** [__post_init__]: the exception is the caller's. *)
Definition pattern_str {E} (e : E) (s : string) : result E (PatternStr r) :=
  match bool_dec (fullmatch r (chars s)) true with
  | left H => Ok (mkPatternStr s H)
  | right _ => Raise e
  end.

Lemma pattern_str_eq (a b : PatternStr r) : value a = value b -> a = b.
Proof. destruct a as [s H1], b as [s' H2]; simpl. intros ->. f_equal. apply eq_pi, _. Qed.

#[export] Instance pattern_str_value_inj : Inj (=) (=) (@value r).
Proof. intros a b. apply pattern_str_eq. Qed.

#[export] Instance pattern_str_eq_dec : EqDecision (PatternStr r).
Proof.
  intros a b. destruct (decide (value a = value b)) as [H|H].
  - left. by apply pattern_str_eq.
  - right. by intros ->.
Defined.

Lemma pattern_str_Ok {E} (e : E) s (a : PatternStr r) : pattern_str e s = Ok a <-> value a = s.
Proof.
  unfold pattern_str. destruct bool_dec as [H|H]; split.
  - by intros [= <-].
  - intros <-. f_equal. by apply pattern_str_eq.
  - done.
  - intros <-. by destruct H, a.
Qed.

#[export] Program Instance pattern_str_countable : Countable (PatternStr r) :=
  inj_countable value
    (fun s => match pattern_str tt s with Ok a => Some a | Raise _ => None end) _.
Next Obligation. intros a. simpl. by rewrite (proj2 (pattern_str_Ok tt _ a) eq_refl). Qed.
End PatternStr.
