(* ===== verification/PyText.v ===== *)
(** Python's decimal printing and reading of integers, [str(n)] and [int(s)], and
    the string operations the program builds its canonical texts with. *)

From S2P Require Import Prelude PyRegex.

Open Scope Z_scope.

Definition digit (d : Z) : ascii := ascii_of_N (Z.to_N (48 + d)).
Definition is_digit : ascii -> bool := in_range "0"%char "9"%char.
Definition dval (c : ascii) : Z := code c - 48.
Definition all_digits (s : str) : Prop := Forall (fun c => is_digit c = true) s.

(** [str(n)] for [n >= 0]; the fuel is the bit length of [n] (see [digits_eq]). *)
Fixpoint digits_fuel (fuel : nat) (n : Z) : str :=
  match fuel with
  | O => []
  | S f => if n <? 10 then [digit n] else digits_fuel f (n / 10) ++ [digit (n mod 10)]
  end.
Definition digits (n : Z) : str := digits_fuel (S (Z.to_nat (Z.log2 n))) n.

(** [str(n)]. *)
Definition str_int (n : Z) : str := if n <? 0 then "-"%char :: digits (- n) else digits n.

(** [int(s)] on a string of decimal digits. *)
Definition int_of (s : str) : Z := fold_left (fun a c => 10 * a + dval c) s 0.

(** [s.lstrip("0")]. *)
Fixpoint lstrip0 (s : str) : str :=
  match s with
  | c :: s' => if is_char c "0"%char then lstrip0 s' else s
  | [] => []
  end.

(** [s.partition(".")]: the part before the first dot, whether there is a dot,
    and the part after it. *)
Fixpoint partition_dot (s : str) : str * bool * str :=
  match s with
  | [] => ([], false, [])
  | c :: s' =>
      if is_char c "."%char then ([], true, s')
      else let '(a, sep, b) := partition_dot s' in (c :: a, sep, b)
  end.

Definition zeros (n : nat) : str := repeat "0"%char n.
(** [f"{n:0wd}"] for [n >= 0]. *)
Definition zero_pad (w : nat) (s : str) : str := zeros (w - length s) ++ s.

(** ** Digits *)

(** Case analysis on a digit value [0 <= d < 10]. *)
Ltac digit_cases d :=
  let H := fresh "Hcase" in
  assert (d = 0 \/ d = 1 \/ d = 2 \/ d = 3 \/ d = 4 \/ d = 5 \/ d = 6 \/ d = 7 \/ d = 8 \/ d = 9)
    as H by lia;
  repeat (destruct H as [->|H]); [..|subst d].

Lemma digit_spec d : 0 <= d < 10 -> is_digit (digit d) = true /\ dval (digit d) = d.
Proof.
  intros Hd. by digit_cases d.
Qed.

Lemma is_digit_dval c : is_digit c = true -> 0 <= dval c < 10.
Proof.
  unfold is_digit, in_range, dval. change (code "0"%char) with 48. change (code "9"%char) with 57.
  rewrite andb_true_iff, !Z.leb_le. lia.
Qed.

Lemma code_inj c d : code c = code d -> c = d.
Proof.
  unfold code. intros H%N2Z.inj. by rewrite <-(ascii_N_embedding c), H, ascii_N_embedding.
Qed.

Lemma dval_inj c d : dval c = dval d -> c = d.
Proof. unfold dval. intros. apply code_inj. lia. Qed.

Lemma is_digit_cases c : is_digit c = true -> c = digit (dval c).
Proof.
  intros H. apply dval_inj. symmetry. by apply digit_spec, is_digit_dval.
Qed.

Lemma digits_fuel_irrel f g n :
  0 <= n < 2 ^ Z.of_nat (S f) -> n < 2 ^ Z.of_nat (S g) ->
  digits_fuel (S f) n = digits_fuel (S g) n.
Proof.
  revert g n; induction f as [|f IH]; intros g n Hf Hg; simpl.
  - change (2 ^ Z.of_nat 1) with 2 in Hf. by destruct (Z.ltb_spec n 10); [|lia].
  - destruct (Z.ltb_spec n 10) as [|Hn]; [done|]. f_equal.
    destruct g as [|g].
    { change (2 ^ Z.of_nat 1) with 2 in Hg. lia. }
    rewrite Nat2Z.inj_succ, Z.pow_succ_r in Hf, Hg by lia. apply IH.
    + split; [apply Z.div_pos; lia|]. apply Z.div_lt_upper_bound; lia.
    + apply Z.div_lt_upper_bound; lia.
Qed.

Lemma log2_fuel n : 0 <= n -> n < 2 ^ Z.of_nat (S (Z.to_nat (Z.log2 n))).
Proof.
  intros Hn. rewrite Nat2Z.inj_succ, Z2Nat.id by apply Z.log2_nonneg.
  destruct (decide (n = 0)) as [->|]; [by compute|]. apply Z.log2_spec. lia.
Qed.

(** The equation of decimal printing: the fuel is always enough. *)
Lemma digits_eq n : 0 <= n ->
  digits n = if n <? 10 then [digit n] else digits (n / 10) ++ [digit (n mod 10)].
Proof.
  intros Hn. pose proof (log2_fuel n Hn) as Hlt. unfold digits at 1.
  destruct (Z.to_nat (Z.log2 n)) as [|f] eqn:Hf.
  { change (2 ^ Z.of_nat 1) with 2 in Hlt. simpl. by destruct (Z.ltb_spec n 10); [|lia]. }
  cbn [digits_fuel]. destruct (Z.ltb_spec n 10) as [|Hge]; [done|]. f_equal.
  assert (0 <= n / 10) as Hd by (apply Z.div_pos; lia).
  rewrite Nat2Z.inj_succ, Z.pow_succ_r in Hlt by lia.
  apply digits_fuel_irrel; [|by apply log2_fuel].
  split; [done|]. apply Z.div_lt_upper_bound; lia.
Qed.

(** Induction along [n / 10]. *)
Lemma digits_ind (P : Z -> Prop) :
  (forall n, 0 <= n < 10 -> P n) ->
  (forall n, 10 <= n -> P (n / 10) -> P n) ->
  forall n, 0 <= n -> P n.
Proof.
  intros Hbase Hstep. apply Zlt_0_ind. intros n IH Hn. destruct (Z_lt_le_dec n 10) as [|Hge]; [by apply Hbase|].
  apply Hstep; [done|]. apply IH.
  split; [apply Z.div_pos; lia | apply Z.div_lt; lia].
Qed.

Lemma int_of_snoc s c : int_of (s ++ [c]) = 10 * int_of s + dval c.
Proof. unfold int_of. by rewrite fold_left_app. Qed.

Lemma all_digits_snoc s c : all_digits (s ++ [c]) <-> all_digits s /\ is_digit c = true.
Proof. unfold all_digits. rewrite Forall_app, Forall_singleton. done. Qed.

Lemma digits_digits n : 0 <= n -> all_digits (digits n).
Proof.
  revert n. apply digits_ind; [intros n Hlt | intros n Hge IH]; rewrite digits_eq by lia.
  - rewrite (proj2 (Z.ltb_lt _ _)) by lia. by constructor; [apply digit_spec|].
  - rewrite (proj2 (Z.ltb_ge _ _)) by lia. apply all_digits_snoc. split; [done|].
    apply digit_spec, Z.mod_pos_bound. lia.
Qed.

(** [int(str(n)) == n]. *)
Lemma int_of_digits n : 0 <= n -> int_of (digits n) = n.
Proof.
  revert n. apply digits_ind; [intros n Hlt | intros n Hge IH]; rewrite digits_eq by lia.
  - rewrite (proj2 (Z.ltb_lt _ _)) by lia. unfold int_of; cbn [fold_left].
    rewrite (proj2 (digit_spec n Hlt)). lia.
  - rewrite (proj2 (Z.ltb_ge _ _)) by lia. rewrite int_of_snoc, IH.
    rewrite (proj2 (digit_spec (n mod 10) (Z.mod_pos_bound n 10 ltac:(lia)))).
    pose proof (Z.div_mod n 10). lia.
Qed.

Lemma int_of_app s t : int_of (s ++ t) = int_of s * 10 ^ Z.of_nat (length t) + int_of t.
Proof.
  induction t as [|c t IH] using rev_ind.
  - rewrite app_nil_r. change (10 ^ Z.of_nat (length ([] : str))) with 1. unfold int_of at 3. simpl. lia.
  - rewrite app_assoc, !int_of_snoc, IH, length_app. simpl length.
    rewrite Nat2Z.inj_add, Z.pow_add_r by lia. change (10 ^ Z.of_nat 1) with 10. lia.
Qed.

Lemma int_of_bound s : all_digits s -> 0 <= int_of s < 10 ^ Z.of_nat (length s).
Proof.
  induction s as [|c s IH] using rev_ind; [done|].
  intros [Hs Hc]%all_digits_snoc. apply is_digit_dval in Hc. specialize (IH Hs).
  rewrite int_of_snoc, length_app. simpl length.
  rewrite Nat2Z.inj_add, Z.pow_add_r by lia. change (10 ^ Z.of_nat 1) with 10. lia.
Qed.

(** Equally long digit strings with the same value are equal. *)
Lemma int_of_inj s t :
  all_digits s -> all_digits t -> length s = length t -> int_of s = int_of t -> s = t.
Proof.
  revert t; induction s as [|c s IH] using rev_ind; intros t Hs Ht Hl Hi.
  { by destruct t. }
  destruct t as [|d t _] using rev_ind; [rewrite length_app in Hl; simpl in Hl; lia|].
  apply all_digits_snoc in Hs as [Hs Hc], Ht as [Ht Hd].
  rewrite !length_app in Hl. simpl in Hl. rewrite !int_of_snoc in Hi.
  apply is_digit_dval in Hc, Hd. f_equal; [apply IH; [done..|lia|lia]|].
  f_equal. apply dval_inj. lia.
Qed.

(** ** The shape of [str(n)] *)

Definition no_leading_zero (s : str) : Prop :=
  match s with [] => False | [_] => True | c :: _ => c <> "0"%char end.

Lemma digits_nonempty n : 0 <= n -> digits n <> [].
Proof. intros Hn. rewrite digits_eq by done. case_match; [done|]. by destruct (digits _). Qed.

Lemma digits_no_leading_zero n : 0 <= n -> no_leading_zero (digits n).
Proof.
  intros Hn.
  assert (forall m, 0 < m -> exists c s, digits m = c :: s /\ c <> "0"%char) as Hpos.
  { clear. intros m Hm. assert (0 <= m) as H0 by lia. revert m H0 Hm.
    apply (digits_ind (fun m => 0 < m -> _)); [intros m Hlt Hm | intros m Hge IH Hm];
      rewrite digits_eq by lia.
    - rewrite (proj2 (Z.ltb_lt _ _)) by lia. eexists _, []. split; [done|].
      intros H. apply (f_equal dval) in H. rewrite (proj2 (digit_spec m Hlt)) in H.
      change (dval "0"%char) with 0 in H. lia.
    - rewrite (proj2 (Z.ltb_ge _ _)) by lia.
      destruct IH as (c & s & -> & Hc); [apply Z.div_str_pos; lia|].
      by eexists c, _. }
  destruct (decide (n = 0)) as [->|]; [done|].
  destruct (Hpos n) as (c & s & -> & Hc); [lia|]. by destruct s.
Qed.

Lemma int_of_lower s :
  all_digits s -> no_leading_zero s -> 1 < Z.of_nat (length s) ->
  10 ^ (Z.of_nat (length s) - 1) <= int_of s.
Proof.
  intros Hs Hz Hl. destruct s as [|c s]; simpl in *; [lia|].
  inversion Hs as [|? ? Hc Hs']; subst.
  destruct s as [|d s]; [simpl in Hl; lia|].
  assert (1 <= dval c) as Hc1.
  { pose proof (is_digit_dval c Hc). destruct (decide (dval c = 0)) as [H0|]; [|lia].
    destruct Hz. apply dval_inj. by rewrite H0. }
  change (c :: d :: s) with ([c] ++ (d :: s)). rewrite int_of_app.
  change (int_of [c]) with (10 * 0 + dval c).
  pose proof (int_of_bound (d :: s) Hs') as [Hlo _].
  replace (Z.of_nat (S (length (d :: s))) - 1) with (Z.of_nat (length (d :: s))) by lia.
  pose proof (pow10_gt0 (Z.of_nat (length (d :: s))) ltac:(lia)). nia.
Qed.

(** [len(str(n)) <= k] exactly when [n < 10^k]. *)
Lemma length_digits_le n k : 0 <= n -> 1 <= k ->
  Z.of_nat (length (digits n)) <= k <-> n < 10 ^ k.
Proof.
  intros Hn Hk. pose proof (int_of_bound _ (digits_digits n Hn)) as [_ Hub].
  rewrite int_of_digits in Hub by done. split.
  - intros Hle. eapply Z.lt_le_trans; [exact Hub|]. apply Z.pow_le_mono_r; lia.
  - intros Hlt. destruct (Z_le_gt_dec (Z.of_nat (length (digits n))) k) as [|Hgt]; [done|].
    pose proof (int_of_lower (digits n) (digits_digits n Hn) (digits_no_leading_zero n Hn)) as Hlo.
    rewrite int_of_digits in Hlo by done. specialize (Hlo ltac:(lia)).
    assert (10 ^ k <= 10 ^ (Z.of_nat (length (digits n)) - 1)); [|lia].
    apply Z.pow_le_mono_r; lia.
Qed.

(** [str(int(s)) == s] for a digit string without a superfluous leading zero. *)
Lemma digits_int_of s : all_digits s -> no_leading_zero s -> digits (int_of s) = s.
Proof.
  intros Hs Hz. pose proof (int_of_bound s Hs) as [H0 Hub].
  apply int_of_inj; [by apply digits_digits | done | | by apply int_of_digits].
  assert (length s <> 0%nat) as Hne by by destruct s.
  apply Nat2Z.inj, Z.le_antisymm; [apply length_digits_le; [done|lia|done]|].
  destruct (decide (length s = 1%nat)) as [->|].
  { destruct (digits (int_of s)) eqn:Hd; [by apply digits_nonempty in Hd|]. simpl. lia. }
  pose proof (int_of_lower s Hs Hz ltac:(lia)) as Hlo.
  apply Z.nlt_ge. intros Hlt.
  assert (int_of s < 10 ^ (Z.of_nat (length s) - 1)); [|lia].
  apply (length_digits_le (int_of s)); lia.
Qed.

Lemma int_of_zeros n : int_of (zeros n) = 0.
Proof. unfold int_of. induction n as [|n IH]; [done|]. exact IH. Qed.

Lemma all_digits_zeros n : all_digits (zeros n).
Proof. induction n; by constructor. Qed.

Lemma all_digits_app s t : all_digits (s ++ t) <-> all_digits s /\ all_digits t.
Proof. apply Forall_app. Qed.

Lemma length_zeros n : length (zeros n) = n.
Proof. apply repeat_length. Qed.

Lemma int_of_zero_app n s : int_of (zeros n ++ s) = int_of s.
Proof. rewrite int_of_app, int_of_zeros. lia. Qed.

Lemma int_of_cons_zero s : int_of ("0"%char :: s) = int_of s.
Proof. exact (int_of_zero_app 1 s). Qed.

Lemma lstrip0_spec s : exists k, s = zeros k ++ lstrip0 s /\
  match lstrip0 s with c :: _ => c <> "0"%char | [] => True end.
Proof.
  induction s as [|c s (k & Hk & Hh)]; simpl; [by exists 0%nat|].
  unfold is_char. destruct (Ascii.eqb_spec c "0") as [->|Hc].
  - exists (S k). split; [|done]. simpl. f_equal. exact Hk.
  - by exists 0%nat.
Qed.

(** [int] ignores the zeros [lstrip] removes, and what is left is canonical. *)
Lemma lstrip0_digits s : all_digits s -> s <> [] ->
  (match lstrip0 s with [] => ["0"%char] | t => t end) = digits (int_of s).
Proof.
  intros Hs Hne. destruct (lstrip0_spec s) as (k & Hk & Hh).
  rewrite Hk in Hs. apply all_digits_app in Hs as [_ Hs].
  destruct (lstrip0 s) as [|c t] eqn:Ht.
  - rewrite Hk, int_of_app, int_of_zeros. done.
  - rewrite Hk, int_of_zero_app. symmetry. apply digits_int_of; [done|]. by destruct t.
Qed.

Lemma partition_dot_spec a b : (forall c, c ∈ a -> c <> "."%char) ->
  partition_dot (a ++ "."%char :: b) = (a, true, b).
Proof.
  induction a as [|c a IH]; intros Ha; simpl; [done|].
  unfold is_char. destruct (Ascii.eqb_spec c ".") as [->|_].
  - by destruct (Ha "."%char); [left|].
  - rewrite IH; [done|]. intros d Hd. apply Ha. by right.
Qed.

Lemma partition_dot_none a : (forall c, c ∈ a -> c <> "."%char) ->
  partition_dot a = (a, false, []).
Proof.
  induction a as [|c a IH]; intros Ha; simpl; [done|].
  unfold is_char. destruct (Ascii.eqb_spec c ".") as [->|_].
  - by destruct (Ha "."%char); [left|].
  - rewrite IH; [done|]. intros d Hd. apply Ha. by right.
Qed.

Lemma all_digits_no_dot s c : all_digits s -> c ∈ s -> c <> "."%char /\ c <> "-"%char.
Proof.
  intros Hs Hc. unfold all_digits in Hs. rewrite Forall_forall in Hs. specialize (Hs c Hc).
  by split; intros ->.
Qed.

Lemma length_zero_pad w s : (length s <= w)%nat -> length (zero_pad w s) = w.
Proof. intros. unfold zero_pad. rewrite length_app, length_zeros. lia. Qed.

Create HintDb pytext.
#[export] Hint Resolve digits_digits digits_nonempty digits_no_leading_zero
  all_digits_zeros : pytext.

(** ** Prefixes and splitting *)

(** [s.startswith(p)], returning the rest [s[len(p):]]. *)
Fixpoint strip_prefix (p s : str) : option str :=
  match p, s with
  | [], _ => Some s
  | a :: p, b :: s => if Ascii.eqb a b then strip_prefix p s else None
  | _ :: _, [] => None
  end.
Definition startswith (p s : str) : bool :=
  match strip_prefix p s with Some _ => true | None => false end.

(** [s.split(sep)] for a non-empty [sep]; [s] itself bounds the number of steps. *)
Fixpoint split_fuel (fuel : nat) (sep s cur : str) : list str :=
  match fuel with
  | O => [cur]
  | S f =>
      match strip_prefix sep s with
      | Some rest => cur :: split_fuel f sep rest []
      | None =>
          match s with
          | [] => [cur]
          | c :: s => split_fuel f sep s (cur ++ [c])
          end
      end
  end.
Definition split_on (sep s : str) : list str := split_fuel (S (length s)) sep s [].

Lemma strip_prefix_spec p s r : strip_prefix p s = Some r <-> s = p ++ r.
Proof.
  revert s; induction p as [|a p IH]; intros s; simpl; [by split; [intros [= ->] | intros ->]|].
  destruct s as [|b s]; [done|]. destruct (Ascii.eqb_spec a b) as [->|Hne].
  - rewrite IH. split; [by intros -> | by intros [= ->]].
  - split; [done|]. by intros [= ->].
Qed.

Lemma strip_prefix_app p r : strip_prefix p (p ++ r) = Some r.
Proof. by apply strip_prefix_spec. Qed.

(** A character [x] of the separator whose earlier characters differ from it, and
    which a string does not contain, rules out every occurrence in that string. *)
Lemma split_absent pre x post s cur f :
  x ∉ s -> (length s < f)%nat -> split_fuel f (pre ++ x :: post) s cur = [cur ++ s].
Proof.
  intros Hx. revert s cur Hx; induction f as [|f IH]; intros s cur Hx Hf; [lia|]. simpl.
  destruct (strip_prefix _ s) as [r|] eqn:Hp.
  { apply strip_prefix_spec in Hp. subst s. destruct Hx. rewrite <-app_assoc.
    apply elem_of_app. right. simpl. left. }
  destruct s as [|c s]; [by rewrite app_nil_r|].
  rewrite IH; [by rewrite <-app_assoc| |simpl in Hf; lia].
  intros H. apply Hx. by right.
Qed.

Lemma split_first pre x post a b cur f :
  x ∉ a -> x ∉ pre -> (length a + length b + length (pre ++ x :: post) < f)%nat -> x ∉ b ->
  split_fuel f (pre ++ x :: post) (a ++ (pre ++ x :: post) ++ b) cur = [cur ++ a; b].
Proof.
  intros Ha Hpre Hf Hb. revert a cur Ha Hf; induction f as [|f IH]; intros a cur Ha Hf; [lia|]. simpl.
  destruct a as [|c a].
  - rewrite app_nil_l, strip_prefix_app, app_nil_r. rewrite length_app in Hf. simpl in Hf.
    by rewrite split_absent by (done || lia).
  - destruct (strip_prefix _ _) as [r|] eqn:Hp.
    + exfalso. apply strip_prefix_spec in Hp.
      assert (((c :: a) ++ (pre ++ x :: post) ++ b) !! length pre = Some x) as Hl.
      { rewrite Hp, <-app_assoc, lookup_app_r by lia. by rewrite Nat.sub_diag. }
      destruct (decide (length pre < length (c :: a))%nat) as [Hlt|Hge].
      * rewrite lookup_app_l in Hl by done. apply Ha. by eapply list_elem_of_lookup_2.
      * rewrite lookup_app_r in Hl by lia. rewrite <-app_assoc, lookup_app_l in Hl by (simpl in *; lia).
        apply Hpre. by eapply list_elem_of_lookup_2.
    + simpl. rewrite IH; [by rewrite <-app_assoc| |simpl in Hf; lia].
      intros H. apply Ha. by right.
Qed.

Lemma split_on_one pre x post a b :
  x ∉ a -> x ∉ pre -> x ∉ b ->
  split_on (pre ++ x :: post) (a ++ (pre ++ x :: post) ++ b) = [a; b].
Proof.
  intros. unfold split_on. rewrite split_first; try done. rewrite !length_app. lia.
Qed.
