(* ===== verification/Outcomes.v ===== *)
(** The closed outcome registry ([core/outcomes.py]) and the exceptions of the
    program.  Every structured error class carries an [OutcomeCode] drawn from its
    own permitted set; constructing it with another code is itself a [TypeError],
    which is why each class has a [raise_...] function here rather than a bare
    constructor. *)

From S2P Require Import Prelude PyRegex.

Inductive OutcomeFamily : Type :=
| FAMILY_VALIDATION | FAMILY_PREFLIGHT | FAMILY_DURABILITY | FAMILY_RISK | FAMILY_SUBMISSION | FAMILY_FACT | FAMILY_ORDER | FAMILY_LEDGER | FAMILY_RECONCILIATION.

#[export] Instance OutcomeFamily_eq_dec : EqDecision OutcomeFamily.
Proof. solve_decision. Defined.

Definition family_value (f : OutcomeFamily) : string :=
  match f with
  | FAMILY_VALIDATION => "validation"
  | FAMILY_PREFLIGHT => "preflight"
  | FAMILY_DURABILITY => "durability"
  | FAMILY_RISK => "risk"
  | FAMILY_SUBMISSION => "submission"
  | FAMILY_FACT => "fact"
  | FAMILY_ORDER => "order"
  | FAMILY_LEDGER => "ledger"
  | FAMILY_RECONCILIATION => "reconciliation"
  end.

Inductive OutcomeCode : Type :=
| INVALID_TYPE
| NON_FINITE
| OUT_OF_RANGE
| NOT_QUANTIZED
| PRICE_DOMAIN
| ARITHMETIC_OVERFLOW
| CONFLICTING_ID
| PREFLIGHT_UNSUPPORTED_PLATFORM
| PREFLIGHT_PROVENANCE_UNVERIFIED
| PREFLIGHT_MANIFEST_UNVERIFIED
| DURABILITY_AUDIT_APPEND_FAILED
| DURABILITY_AUDIT_ACK_MISMATCH
| DURABILITY_RESULT_WRITE_FAILED
| RISK_ALLOWED
| RISK_RESIZED
| RISK_REJECTED
| RISK_EVALUATION_FAILED
| RISK_STALE_APPROVAL
| SUBMISSION_SUBMITTED
| SUBMISSION_DEFINITELY_NOT_SUBMITTED
| SUBMISSION_UNCERTAIN
| SUBMISSION_BLOCKED_BY_HALT
| FACT_ACCEPTED
| FACT_DUPLICATE
| FACT_INVALID
| FACT_INVALID_MISSING_DEDUP_IDENTITY
| FACT_CONFLICT
| FACT_UNRESOLVED
| ORDER_ACKNOWLEDGED
| ORDER_REJECTED
| ORDER_PARTIALLY_FILLED
| ORDER_FILLED
| ORDER_EXPIRED
| ORDER_CANCELLED
| ORDER_EXPIRED_NO_ELIGIBLE_MARKET_DATA
| LEDGER_APPLIED
| LEDGER_DUPLICATE
| LEDGER_CONFLICT
| LEDGER_UNBALANCED
| ROUNDING_UNREPRESENTABLE
| RECONCILIATION_MATCH
| RECONCILIATION_REMOTE_AHEAD
| RECONCILIATION_LOCAL_AHEAD_STALE
| RECONCILIATION_MISMATCH
| RECONCILIATION_UNRESOLVED_CORRELATION
| RECONCILIATION_SUBMISSION_UNKNOWN
| RECONCILIATION_LATE_FACT_AFTER_TERMINAL
| RECONCILIATION_INVALID
| RECONCILIATION_QUARANTINED
| RECONCILIATION_SUBMISSION_CONFIRMED_SUBMITTED
| RECONCILIATION_SUBMISSION_CONFIRMED_NOT_SUBMITTED
| RECONCILIATION_SUBMISSION_CONFIRMED_REJECTED
| RECONCILIATION_SUBMISSION_CONFIRMED_FILLED
| RECONCILIATION_SUBMISSION_STILL_UNKNOWN.

(** [OutcomeCode.value]: the stable wire text of the code. *)
Definition outcome_value (c : OutcomeCode) : string :=
  match c with
  | INVALID_TYPE => "validation.invalid_type"
  | NON_FINITE => "validation.non_finite"
  | OUT_OF_RANGE => "validation.out_of_range"
  | NOT_QUANTIZED => "validation.not_quantized"
  | PRICE_DOMAIN => "validation.price_domain"
  | ARITHMETIC_OVERFLOW => "validation.arithmetic_overflow"
  | CONFLICTING_ID => "validation.conflicting_id"
  | PREFLIGHT_UNSUPPORTED_PLATFORM => "preflight.unsupported_platform"
  | PREFLIGHT_PROVENANCE_UNVERIFIED => "preflight.provenance_unverified"
  | PREFLIGHT_MANIFEST_UNVERIFIED => "preflight.manifest_unverified"
  | DURABILITY_AUDIT_APPEND_FAILED => "durability.audit_append_failed"
  | DURABILITY_AUDIT_ACK_MISMATCH => "durability.audit_ack_mismatch"
  | DURABILITY_RESULT_WRITE_FAILED => "durability.result_write_failed"
  | RISK_ALLOWED => "risk.allowed"
  | RISK_RESIZED => "risk.resized"
  | RISK_REJECTED => "risk.rejected"
  | RISK_EVALUATION_FAILED => "risk.evaluation_failed"
  | RISK_STALE_APPROVAL => "risk.stale_approval"
  | SUBMISSION_SUBMITTED => "submission.submitted"
  | SUBMISSION_DEFINITELY_NOT_SUBMITTED => "submission.definitely_not_submitted"
  | SUBMISSION_UNCERTAIN => "submission.uncertain"
  | SUBMISSION_BLOCKED_BY_HALT => "submission.blocked_by_halt"
  | FACT_ACCEPTED => "fact.accepted"
  | FACT_DUPLICATE => "fact.duplicate"
  | FACT_INVALID => "fact.invalid"
  | FACT_INVALID_MISSING_DEDUP_IDENTITY => "fact.invalid.missing_dedup_identity"
  | FACT_CONFLICT => "fact.conflict"
  | FACT_UNRESOLVED => "fact.unresolved"
  | ORDER_ACKNOWLEDGED => "order.acknowledged"
  | ORDER_REJECTED => "order.rejected"
  | ORDER_PARTIALLY_FILLED => "order.partially_filled"
  | ORDER_FILLED => "order.filled"
  | ORDER_EXPIRED => "order.expired"
  | ORDER_CANCELLED => "order.cancelled"
  | ORDER_EXPIRED_NO_ELIGIBLE_MARKET_DATA => "order.expired.no_eligible_market_data"
  | LEDGER_APPLIED => "ledger.applied"
  | LEDGER_DUPLICATE => "ledger.duplicate"
  | LEDGER_CONFLICT => "ledger.conflict"
  | LEDGER_UNBALANCED => "ledger.unbalanced"
  | ROUNDING_UNREPRESENTABLE => "ledger.rounding_unrepresentable"
  | RECONCILIATION_MATCH => "reconciliation.match"
  | RECONCILIATION_REMOTE_AHEAD => "reconciliation.remote_ahead"
  | RECONCILIATION_LOCAL_AHEAD_STALE => "reconciliation.local_ahead_stale"
  | RECONCILIATION_MISMATCH => "reconciliation.mismatch"
  | RECONCILIATION_UNRESOLVED_CORRELATION => "reconciliation.unresolved_correlation"
  | RECONCILIATION_SUBMISSION_UNKNOWN => "reconciliation.submission_unknown"
  | RECONCILIATION_LATE_FACT_AFTER_TERMINAL => "reconciliation.late_fact_after_terminal"
  | RECONCILIATION_INVALID => "reconciliation.invalid"
  | RECONCILIATION_QUARANTINED => "reconciliation.quarantined"
  | RECONCILIATION_SUBMISSION_CONFIRMED_SUBMITTED => "reconciliation.submission.confirmed_submitted"
  | RECONCILIATION_SUBMISSION_CONFIRMED_NOT_SUBMITTED => "reconciliation.submission.confirmed_not_submitted"
  | RECONCILIATION_SUBMISSION_CONFIRMED_REJECTED => "reconciliation.submission.confirmed_rejected"
  | RECONCILIATION_SUBMISSION_CONFIRMED_FILLED => "reconciliation.submission.confirmed_filled"
  | RECONCILIATION_SUBMISSION_STILL_UNKNOWN => "reconciliation.submission.still_unknown"
  end.

Definition OUTCOME_REGISTRY : list OutcomeCode :=
  [INVALID_TYPE;
   NON_FINITE;
   OUT_OF_RANGE;
   NOT_QUANTIZED;
   PRICE_DOMAIN;
   ARITHMETIC_OVERFLOW;
   CONFLICTING_ID;
   PREFLIGHT_UNSUPPORTED_PLATFORM;
   PREFLIGHT_PROVENANCE_UNVERIFIED;
   PREFLIGHT_MANIFEST_UNVERIFIED;
   DURABILITY_AUDIT_APPEND_FAILED;
   DURABILITY_AUDIT_ACK_MISMATCH;
   DURABILITY_RESULT_WRITE_FAILED;
   RISK_ALLOWED;
   RISK_RESIZED;
   RISK_REJECTED;
   RISK_EVALUATION_FAILED;
   RISK_STALE_APPROVAL;
   SUBMISSION_SUBMITTED;
   SUBMISSION_DEFINITELY_NOT_SUBMITTED;
   SUBMISSION_UNCERTAIN;
   SUBMISSION_BLOCKED_BY_HALT;
   FACT_ACCEPTED;
   FACT_DUPLICATE;
   FACT_INVALID;
   FACT_INVALID_MISSING_DEDUP_IDENTITY;
   FACT_CONFLICT;
   FACT_UNRESOLVED;
   ORDER_ACKNOWLEDGED;
   ORDER_REJECTED;
   ORDER_PARTIALLY_FILLED;
   ORDER_FILLED;
   ORDER_EXPIRED;
   ORDER_CANCELLED;
   ORDER_EXPIRED_NO_ELIGIBLE_MARKET_DATA;
   LEDGER_APPLIED;
   LEDGER_DUPLICATE;
   LEDGER_CONFLICT;
   LEDGER_UNBALANCED;
   ROUNDING_UNREPRESENTABLE;
   RECONCILIATION_MATCH;
   RECONCILIATION_REMOTE_AHEAD;
   RECONCILIATION_LOCAL_AHEAD_STALE;
   RECONCILIATION_MISMATCH;
   RECONCILIATION_UNRESOLVED_CORRELATION;
   RECONCILIATION_SUBMISSION_UNKNOWN;
   RECONCILIATION_LATE_FACT_AFTER_TERMINAL;
   RECONCILIATION_INVALID;
   RECONCILIATION_QUARANTINED;
   RECONCILIATION_SUBMISSION_CONFIRMED_SUBMITTED;
   RECONCILIATION_SUBMISSION_CONFIRMED_NOT_SUBMITTED;
   RECONCILIATION_SUBMISSION_CONFIRMED_REJECTED;
   RECONCILIATION_SUBMISSION_CONFIRMED_FILLED;
   RECONCILIATION_SUBMISSION_STILL_UNKNOWN].

(** [OutcomeCode(text)]: [None] is the [ValueError] of an unknown member. *)
Definition OutcomeCode_of_value (s : string) : option OutcomeCode :=
  List.find (fun c => bool_decide (outcome_value c = s)) OUTCOME_REGISTRY.

Lemma OutcomeCode_of_value_value c : OutcomeCode_of_value (outcome_value c) = Some c.
Proof. destruct c; reflexivity. Qed.

#[export] Instance outcome_value_inj : Inj (=) (=) outcome_value.
Proof.
  intros c d Hcd. apply (inj Some). by rewrite <-!OutcomeCode_of_value_value, Hcd.
Qed.

#[export] Instance OutcomeCode_eq_dec : EqDecision OutcomeCode.
Proof.
  intros c d. destruct (decide (outcome_value c = outcome_value d)) as [H|H].
  - left. by apply outcome_value_inj.
  - right. by intros ->.
Defined.

Definition OUTCOME_FAMILIES : list OutcomeFamily :=
  [FAMILY_VALIDATION; FAMILY_PREFLIGHT; FAMILY_DURABILITY; FAMILY_RISK; FAMILY_SUBMISSION; FAMILY_FACT; FAMILY_ORDER; FAMILY_LEDGER; FAMILY_RECONCILIATION].

(** [code.value.split(".", 1)[0]]. *)
Fixpoint before_dot (s : str) : str :=
  match s with
  | [] => []
  | c :: s => if is_char c "."%char then [] else c :: before_dot s
  end.

(** [OutcomeFamily(text)]: [None] is the [ValueError] of an unknown member. *)
Definition OutcomeFamily_of_value (s : string) : option OutcomeFamily :=
  List.find (fun f => bool_decide (family_value f = s)) OUTCOME_FAMILIES.

(** [OUTCOME_FAMILY_BY_CODE[code]]. *)
Definition outcome_family (c : OutcomeCode) : option OutcomeFamily :=
  OutcomeFamily_of_value (text_of (before_dot (chars (outcome_value c)))).

Definition ECONOMIC_ERROR_CODES : list OutcomeCode :=
  [INVALID_TYPE; NON_FINITE; OUT_OF_RANGE; NOT_QUANTIZED; PRICE_DOMAIN; ARITHMETIC_OVERFLOW; CONFLICTING_ID; ROUNDING_UNREPRESENTABLE].

Lemma OUTCOME_REGISTRY_complete c : c ∈ OUTCOME_REGISTRY.
Proof. apply list_elem_of_In. destruct c; simpl; tauto. Qed.

(** ** Exceptions *)

Inductive exn : Type :=
| EconomicValidationError (code : OutcomeCode)
| ExecutionIdentityError (code : OutcomeCode)
| ExecutionMessageError (code : OutcomeCode)
| PortfolioLedgerError (code : OutcomeCode)
| LedgerIntegrationError (code : OutcomeCode)
| RuntimeOrderingError (code : OutcomeCode)
| OrderCommandError (code : OutcomeCode)
| OperatorKillSwitchError (code : OutcomeCode)
| OperationalSafetyError (code : OutcomeCode)
| ReconciliationContractError (code : OutcomeCode)
| ExecutionStateError (code : OutcomeCode)
| ExecutionFactAuthorityError (code : OutcomeCode)
| RiskContractError (code : OutcomeCode)
| RiskAuthorityError (code : OutcomeCode)
| ExecutionAuthorityError (code : OutcomeCode)
| StrategyContractError (code : OutcomeCode)
| PortfolioPlanningError (code : OutcomeCode)
| HistoricalMatcherError (code : OutcomeCode)
| HistoricalPreEffectAuthorizationError (code : OutcomeCode)
| LifecycleError (code : OutcomeCode)
| PaperBrokerError (code : OutcomeCode)
| PortfolioRiskRefreshAuthorityError (code : OutcomeCode)
| ReconciliationAuthorityError (code : OutcomeCode)
| AuditContractError (code : OutcomeCode)
| LedgerHandoffAuthorityError (code : OutcomeCode)
| StreamingRuntimeError
| StrategyPackageError
| RunBindingMismatchError
| HistoricalMarketDataError
| NumericPolicyError
| MarketDataValidationError
| IdentityValidationError
| RunContractError
| TimeValidationError
| AssertionError
| KeyError
| IndexError
| ValueError
| TypeError.

#[export] Instance exn_eq_dec : EqDecision exn.
Proof. solve_decision. Defined.

Abbreviation res := (result exn).

Definition permitted (codes : list OutcomeCode) (c : OutcomeCode) : bool :=
  bool_decide (c ∈ codes).

(** [raise EconomicValidationError(code, ...)]: its [__init__] refuses a code
    outside [ECONOMIC_ERROR_CODES] with a [TypeError]. *)
Definition raise_economic (c : OutcomeCode) : exn :=
  if permitted ECONOMIC_ERROR_CODES c then EconomicValidationError c else TypeError.

(** [try: m except EconomicValidationError as error: h(error.code)]. *)
Definition catch_economic {A} (m : res A) (h : OutcomeCode -> res A) : res A :=
  match m with
  | Raise (EconomicValidationError c) => h c
  | _ => m
  end.

(** Every code of the registry lies in a family. *)
Lemma outcome_family_total c : is_Some (outcome_family c).
Proof. destruct c; vm_compute; eauto. Qed.
