(* ===== verification/Json.v ===== *)
(** Canonical JSON: the values the program serialises and the encoder every
    canonical document goes through ([_encode_json] and [_decimal_integer_bytes] of
    [core/portfolio.py] and [core/execution_messages.py]; [json.dumps] with
    [sort_keys], [ensure_ascii] and compact separators gives the same bytes).  The
    main results: the chunked integer printer prints [str(n)], and the encoder is
    injective up to the order of the keys of its dictionaries, so canonical bytes
    determine the document. *)

From S2P Require Import Prelude PyRegex PyText.

Open Scope Z_scope.

#[warnings="-register-all"]
Inductive json : Type :=
| JNull
| JBool (b : bool)
| JStr (s : string)
| JInt (n : Z)
| JList (l : list json)
| JDict (kvs : list (string * json)).

(** ** [_decimal_integer_bytes]: base-10^9 chunks, most significant first *)

Fixpoint chunks_loop (fuel : nat) (remaining : Z) (chunks : list Z) : list Z :=
  match fuel with
  | O => chunks
  | S f =>
      if remaining =? 0 then chunks
      else chunks_loop f (remaining / 1000000000) (chunks ++ [remaining mod 1000000000])
  end.

Definition _non_negative_integer_bytes (value : Z) : str :=
  if value =? 0 then ["0"%char]
  else
    match rev (chunks_loop (S (Z.to_nat (Z.log2 value))) value []) with
    | [] => []
    | head :: tail =>
        digits head ++ concat (map (fun chunk => zero_pad 9 (digits chunk)) tail)
    end.

Definition _decimal_integer_bytes (value : Z) : str :=
  if value =? 0 then ["0"%char]
  else if value <? 0 then "-"%char :: _non_negative_integer_bytes (- value)
  else _non_negative_integer_bytes value.

(** ** [json.dumps] of a string under [ensure_ascii] *)

Definition hex_digit (n : Z) : ascii :=
  if n <? 10 then digit n else ascii_of_N (Z.to_N (87 + n)).

Definition escape_char (c : ascii) : str :=
  if Ascii.eqb c (ascii_of_N 34) then ["\"%char; ascii_of_N 34]
  else if Ascii.eqb c "\"%char then ["\"%char; "\"%char]
  else if in_range " "%char "~"%char c then [c]
  else if Ascii.eqb c (ascii_of_N 10) then ["\"%char; "n"%char]
  else if Ascii.eqb c (ascii_of_N 13) then ["\"%char; "r"%char]
  else if Ascii.eqb c (ascii_of_N 9) then ["\"%char; "t"%char]
  else if Ascii.eqb c (ascii_of_N 12) then ["\"%char; "f"%char]
  else if Ascii.eqb c (ascii_of_N 8) then ["\"%char; "b"%char]
  else ["\"%char; "u"%char; "0"%char; "0"%char;
        hex_digit (code c / 16); hex_digit (code c mod 16)].

Definition quote : ascii := ascii_of_N 34.
Definition encode_str (s : string) : str :=
  quote :: concat (map escape_char (chars s)) ++ [quote].

(** [sep.join(parts)]. *)
Fixpoint join (sep : str) (parts : list str) : str :=
  match parts with
  | [] => []
  | [p] => p
  | p :: ps => p ++ sep ++ join sep ps
  end.

(** ** [_encode_json] *)

Fixpoint encode_json (v : json) : str :=
  match v with
  | JNull => chars "null"
  | JBool b => if b then chars "true" else chars "false"
  | JStr s => encode_str s
  | JInt n => _decimal_integer_bytes n
  | JList l => "["%char :: join [","%char] (map encode_json l) ++ ["]"%char]
  | JDict kvs =>
      "{"%char ::
      join [","%char]
        (map (fun kb : string * str => encode_str kb.1 ++ ":"%char :: kb.2)
           (py_sorted fst (map (fun kv : string * json => (kv.1, encode_json kv.2)) kvs)))
      ++ ["}"%char]
  end.

(** The document with its dictionaries in key order: what the bytes depend on. *)
Fixpoint sort_keys (v : json) : json :=
  match v with
  | JList l => JList (map sort_keys l)
  | JDict kvs =>
      JDict (py_sorted fst (map (fun kv : string * json => (kv.1, sort_keys kv.2)) kvs))
  | _ => v
  end.

(** The printer without sorting. *)
Fixpoint print_json (v : json) : str :=
  match v with
  | JNull => chars "null"
  | JBool b => if b then chars "true" else chars "false"
  | JStr s => encode_str s
  | JInt n => str_int n
  | JList l => "["%char :: join [","%char] (map print_json l) ++ ["]"%char]
  | JDict kvs =>
      "{"%char ::
      join [","%char]
        (map (fun kv : string * json => encode_str kv.1 ++ ":"%char :: print_json kv.2) kvs)
      ++ ["}"%char]
  end.

(** Induction through the lists of children. *)
Lemma json_ind' (P : json -> Prop) :
  P JNull -> (forall b, P (JBool b)) -> (forall s, P (JStr s)) -> (forall n, P (JInt n)) ->
  (forall l, Forall P l -> P (JList l)) ->
  (forall kvs, Forall (fun kv : string * json => P kv.2) kvs -> P (JDict kvs)) ->
  forall v, P v.
Proof.
  intros Hn Hb Hs Hi Hl Hd. fix IH 1. intros [|b|s|n|l|kvs]; [done..| |].
  - apply Hl. induction l; constructor; [apply IH | done].
  - apply Hd. induction kvs; constructor; [apply IH | done].
Qed.

(** ** The chunked integer printer *)

Definition print_chunks (l : list Z) : str :=
  match l with
  | [] => []
  | head :: tail => digits head ++ concat (map (fun c => zero_pad 9 (digits c)) tail)
  end.

Lemma chunks_loop_acc f n acc : chunks_loop f n acc = acc ++ chunks_loop f n [].
Proof.
  revert n acc; induction f as [|f IH]; intros n acc; simpl; [by rewrite app_nil_r|].
  destruct (n =? 0); [by rewrite app_nil_r|]. rewrite IH, (IH _ [_]). by rewrite app_assoc.
Qed.

Lemma zero_pad_digits w n : 0 <= n < 10 ^ Z.of_nat w -> (0 < w)%nat ->
  all_digits (zero_pad w (digits n)) /\ length (zero_pad w (digits n)) = w /\
  int_of (zero_pad w (digits n)) = n.
Proof.
  intros Hn Hw. unfold zero_pad. split_and!.
  - apply all_digits_app. split; [apply all_digits_zeros | apply digits_digits; lia].
  - apply length_zero_pad. apply Nat2Z.inj_le, length_digits_le; lia.
  - rewrite int_of_zero_app. apply int_of_digits. lia.
Qed.

Lemma no_leading_zero_app s t : no_leading_zero s -> s <> ["0"%char] -> no_leading_zero (s ++ t).
Proof.
  destruct s as [|c [|d s]]; simpl; [done| |done].
  intros _ Hc. destruct t; [done|]. intros ->. by destruct Hc.
Qed.

Lemma digits_split w q r : 0 < q -> 0 <= r < 10 ^ Z.of_nat w -> (0 < w)%nat ->
  digits (q * 10 ^ Z.of_nat w + r) = digits q ++ zero_pad w (digits r).
Proof.
  intros Hq Hr Hw. destruct (zero_pad_digits w r Hr Hw) as (Hd & Hl & Hi).
  rewrite <-(digits_int_of (digits q ++ zero_pad w (digits r))).
  - rewrite int_of_app, Hl, Hi, int_of_digits by lia. done.
  - apply all_digits_app. split; [apply digits_digits; lia | done].
  - apply no_leading_zero_app; [apply digits_no_leading_zero; lia|].
    intros H. apply (f_equal int_of) in H. rewrite int_of_digits in H by lia.
    change (int_of ["0"%char]) with 0 in H. lia.
Qed.

Lemma chunks_loop_print f n : 0 < n < 2 ^ Z.of_nat f ->
  exists h t, rev (chunks_loop f n []) = h :: t /\ print_chunks (h :: t) = digits n.
Proof.
  revert n; induction f as [|f IH]; intros n Hn.
  { change (2 ^ Z.of_nat 0) with 1 in Hn. lia. }
  cbn [chunks_loop]. rewrite (proj2 (Z.eqb_neq n 0)) by lia.
  rewrite chunks_loop_acc, rev_app_distr. cbn [app rev].
  pose proof (Z.div_mod n 1000000000 ltac:(lia)) as Hdm.
  pose proof (Z.mod_pos_bound n 1000000000 ltac:(lia)) as Hm.
  destruct (decide (n / 1000000000 = 0)) as [H0|H0].
  - rewrite H0. exists (n mod 1000000000), [].
    assert (chunks_loop f 0 [] = []) as -> by by destruct f.
    split; [done|]. simpl. rewrite app_nil_r. f_equal. lia.
  - assert (0 < n / 1000000000) as Hpos by (pose proof (Z.div_pos n 1000000000); lia).
    destruct (IH (n / 1000000000)) as (h & t & Hrev & Hp).
    { split; [done|]. rewrite Nat2Z.inj_succ, Z.pow_succ_r in Hn by lia.
      apply Z.div_lt_upper_bound; lia. }
    exists h, (t ++ [n mod 1000000000]). rewrite Hrev. split; [done|].
    unfold print_chunks in *. rewrite map_app, concat_app. simpl. rewrite app_nil_r, app_assoc, Hp.
    rewrite <-(digits_split 9) by (done || lia).
    f_equal. change (10 ^ Z.of_nat 9) with 1000000000. lia.
Qed.

(** The chunked printer is [str(n)]. *)
Lemma non_negative_integer_bytes_digits n : 0 <= n -> _non_negative_integer_bytes n = digits n.
Proof.
  intros Hn. unfold _non_negative_integer_bytes. destruct (Z.eqb_spec n 0) as [->|H0]; [done|].
  destruct (chunks_loop_print (S (Z.to_nat (Z.log2 n))) n) as (h & t & -> & Hp).
  { split; [lia|]. by apply log2_fuel. }
  exact Hp.
Qed.

Lemma decimal_integer_bytes_str_int n : _decimal_integer_bytes n = str_int n.
Proof.
  unfold _decimal_integer_bytes, str_int. destruct (Z.eqb_spec n 0) as [->|H0]; [done|].
  destruct (Z.ltb_spec n 0); [f_equal|]; apply non_negative_integer_bytes_digits; lia.
Qed.

(** ** The encoder prints the document in key order *)

Lemma encode_json_print v : encode_json v = print_json (sort_keys v).
Proof.
  induction v as [|b|s|n|l IH|kvs IH] using json_ind'; [done..| | |].
  - apply decimal_integer_bytes_str_int.
  - simpl. do 3 f_equal. rewrite map_map. by apply map_ext_Forall.
  - simpl. do 2 f_equal.
    assert (map (fun kv : string * json => (kv.1, encode_json kv.2)) kvs =
      map (fun kv : string * json => (kv.1, print_json kv.2))
        (map (fun kv : string * json => (kv.1, sort_keys kv.2)) kvs)) as ->.
    { rewrite map_map. apply map_ext_Forall. eapply Forall_impl; [exact IH|].
      intros [k v] Hv. simpl in *. by rewrite Hv. }
    rewrite (py_sorted_map _ fst fst) by done. by rewrite map_map.
Qed.

(** ** Prefix-injectivity of the printer *)

Definition delimited (s : str) : Prop :=
  match s with [] => True | c :: _ => c = ","%char \/ c = "]"%char \/ c = "}"%char end.

(** Read one escaped character. *)
Definition unhex (c : ascii) : Z := if is_digit c then dval c else code c - 87.
Definition unescape_char (s : str) : option (ascii * str) :=
  match s with
  | c :: r =>
      if Ascii.eqb c quote then None
      else if Ascii.eqb c "\"%char then
        match r with
        | e :: r =>
            if Ascii.eqb e "u"%char then
              match r with
              | _ :: _ :: h :: l :: r => Some (ascii_of_N (Z.to_N (16 * unhex h + unhex l)), r)
              | _ => None
              end
            else if Ascii.eqb e "n"%char then Some (ascii_of_N 10, r)
            else if Ascii.eqb e "r"%char then Some (ascii_of_N 13, r)
            else if Ascii.eqb e "t"%char then Some (ascii_of_N 9, r)
            else if Ascii.eqb e "f"%char then Some (ascii_of_N 12, r)
            else if Ascii.eqb e "b"%char then Some (ascii_of_N 8, r)
            else Some (e, r)
        | [] => None
        end
      else Some (c, r)
  | [] => None
  end.

Lemma unescape_escape c s : unescape_char (escape_char c ++ s) = Some (c, s).
Proof. by destruct c as [[] [] [] [] [] [] [] []]. Qed.

Lemma encode_str_prefix a b s t :
  encode_str a ++ s = encode_str b ++ t -> a = b /\ s = t.
Proof.
  assert (forall u v, concat (map escape_char u) ++ quote :: s =
    concat (map escape_char v) ++ quote :: t -> u = v /\ s = t) as Hgen.
  { induction u as [|c u IH]; intros [|d v] H; simpl in H.
    - by injection H.
    - exfalso. apply (f_equal unescape_char) in H. rewrite <-app_assoc, unescape_escape in H. done.
    - exfalso. apply (f_equal unescape_char) in H. rewrite <-app_assoc, unescape_escape in H. done.
    - rewrite <-!app_assoc in H. pose proof (f_equal unescape_char H) as Hu.
      rewrite !unescape_escape in Hu. injection Hu as -> Hr.
      destruct (IH v Hr) as [-> ->]. done. }
  unfold encode_str. intros H. simpl in H. injection H as H. rewrite <-!app_assoc in H.
  destruct (Hgen _ _ H) as [Hc ->]. split; [|done]. by apply (inj chars).
Qed.

Lemma digits_prefix d1 d2 s t : all_digits d1 -> all_digits d2 -> delimited s -> delimited t ->
  d1 ++ s = d2 ++ t -> d1 = d2 /\ s = t.
Proof.
  intros H1 H2 Hs Ht. revert d2 H2; induction H1 as [|c d1 Hc H1 IH]; intros d2 H2 H; simpl in H.
  - destruct H2 as [|d d2 Hd H2]; [done|]. subst s. exfalso.
    simpl in Hs. destruct Hs as [->|[->| ->]]; done.
  - destruct H2 as [|d d2 Hd H2].
    + simpl in H. subst t. exfalso. simpl in Ht. destruct Ht as [->|[->| ->]]; done.
    + simpl in H. injection H as -> H. destruct (IH _ H2 H) as [-> ->]. done.
Qed.

Lemma str_int_prefix a b s t : delimited s -> delimited t ->
  str_int a ++ s = str_int b ++ t -> a = b /\ s = t.
Proof.
  intros Hs Ht. unfold str_int.
  assert (forall m n, 0 <= m -> 0 <= n -> digits m ++ s = digits n ++ t -> m = n /\ s = t) as Hpos.
  { intros m n Hm Hn H. apply digits_prefix in H as [H ->]; auto using digits_digits.
    split; [|done]. by rewrite <-(int_of_digits m), H, int_of_digits. }
  assert (forall n r u, 0 <= n -> digits n ++ u = "-"%char :: r -> False) as Hneg.
  { intros n r u Hn H. pose proof (digits_digits n Hn) as Hd. pose proof (digits_nonempty n Hn).
    destruct (digits n) as [|c d]; [done|]. inversion Hd; subst. injection H as ->. done. }
  destruct (Z.ltb_spec a 0), (Z.ltb_spec b 0); intros H1.
  - injection H1 as H1. apply Hpos in H1 as [? ->]; [|lia..]. split; [lia|done].
  - exfalso. symmetry in H1. by apply Hneg in H1.
  - exfalso. by apply Hneg in H1.
  - by apply Hpos.
Qed.

Section Items.
Context {A : Type} (f : A -> str) (close : ascii).
Hypothesis close_delimits : close = "]"%char \/ close = "}"%char.
Hypothesis f_head : forall x, exists c r, f x = c :: r /\ c <> close.

Definition prefix_inj (x : A) : Prop :=
  forall y s t, delimited s -> delimited t -> f x ++ s = f y ++ t -> x = y /\ s = t.

Lemma join_cons x l : join [","%char] (map f (x :: l)) =
  f x ++ concat (map (fun y => ","%char :: f y) l).
Proof.
  revert x; induction l as [|y l IH]; intros x; [by simpl; rewrite app_nil_r|].
  change (join [","%char] (map f (x :: y :: l))) with
    (f x ++ ","%char :: join [","%char] (map f (y :: l))). by rewrite IH.
Qed.

Lemma tail_delimited (l : list A) (s : str) :
  delimited (concat (map (fun y => ","%char :: f y) l) ++ close :: s).
Proof. destruct l; simpl; [destruct close_delimits; auto | auto]. Qed.

Lemma close_ne_comma : close <> ","%char.
Proof. by destruct close_delimits as [-> | ->]. Qed.

Lemma tails_inj l l' s t : Forall prefix_inj l ->
  concat (map (fun y => ","%char :: f y) l) ++ close :: s =
  concat (map (fun y => ","%char :: f y) l') ++ close :: t -> l = l' /\ s = t.
Proof.
  intros Hl. revert l'; induction Hl as [|x l Hx Hl IH]; intros [|y l'] H; simpl in H.
  - by injection H.
  - injection H as Hc _. by destruct close_ne_comma.
  - injection H as Hc _. by destruct close_ne_comma.
  - injection H as H. rewrite <-!app_assoc in H.
    apply Hx in H as [-> H]; [|apply tail_delimited..].
    apply IH in H as [-> ->]. done.
Qed.

Lemma items_inj l l' s t : Forall prefix_inj l ->
  join [","%char] (map f l) ++ close :: s = join [","%char] (map f l') ++ close :: t ->
  l = l' /\ s = t.
Proof.
  intros Hl. destruct l as [|x l], l' as [|y l']; rewrite ?join_cons, <-?app_assoc.
  - simpl. by intros [= ->].
  - destruct (f_head y) as (c & r & -> & Hc). simpl. intros [= ? ?]. congruence.
  - destruct (f_head x) as (c & r & -> & Hc). simpl. intros [= ? ?]. congruence.
  - inversion Hl as [|? ? Hx Hl']; subst. intros H.
    apply Hx in H as [-> H]; [|apply tail_delimited..].
    apply tails_inj in H as [-> ->]; done.
Qed.
End Items.

(** The kind of a value, readable off its first byte. *)
Definition json_tag (v : json) : nat :=
  match v with
  | JNull => 0 | JBool b => if b then 1 else 2 | JStr _ => 3 | JInt _ => 4
  | JList _ => 5 | JDict _ => 6
  end%nat.
Definition byte_tag (c : ascii) : nat :=
  (if Ascii.eqb c "n" then 0 else if Ascii.eqb c "t" then 1 else if Ascii.eqb c "f" then 2
   else if Ascii.eqb c quote then 3 else if Ascii.eqb c "-" || is_digit c then 4
   else if Ascii.eqb c "[" then 5 else if Ascii.eqb c "{" then 6 else 7)%nat%char.

Lemma print_json_head v : exists c r, print_json v = c :: r /\ byte_tag c = json_tag v.
Proof.
  destruct v as [|[]|s|n|l|kvs]; simpl; eauto.
  unfold str_int. destruct (Z.ltb_spec n 0); [by eexists _, _|].
  pose proof (digits_digits n ltac:(lia)) as Hd. pose proof (digits_nonempty n ltac:(lia)).
  destruct (digits n) as [|c r]; [done|]. inversion Hd as [|? ? Hc ?]; subst. exists c, r.
  split; [done|]. rewrite (is_digit_cases c Hc). pose proof (is_digit_dval c Hc) as Hv.
  revert Hv. generalize (dval c) as d. intros d Hv.
  by digit_cases d.
Qed.

Lemma print_json_tag v w s t : print_json v ++ s = print_json w ++ t -> json_tag v = json_tag w.
Proof.
  destruct (print_json_head v) as (c & r & -> & <-), (print_json_head w) as (d & q & -> & <-).
  simpl. by intros [= -> _].
Qed.

Lemma print_json_not_close v close : close = "]"%char \/ close = "}"%char ->
  exists c r, print_json v = c :: r /\ c <> close.
Proof.
  intros Hc. destruct (print_json_head v) as (c & r & -> & Ht). exists c, r. split; [done|].
  intros ->. assert (byte_tag close = 7%nat) as H7 by by destruct Hc as [-> | ->].
  rewrite H7 in Ht. by destruct v as [|[]| | | |].
Qed.

Definition print_entry (kv : string * json) : str :=
  encode_str kv.1 ++ ":"%char :: print_json kv.2.

Lemma print_json_dict kvs :
  print_json (JDict kvs) = "{"%char :: join [","%char] (map print_entry kvs) ++ ["}"%char].
Proof. done. Qed.

Lemma print_entry_head kv : exists c r, print_entry kv = c :: r /\ c <> "}"%char.
Proof. by eexists _, _. Qed.

(** Two printed values that agree up to a delimiter are the same value. *)
Lemma print_json_prefix v : prefix_inj print_json v.
Proof.
  induction v as [|b|s|n|l IH|kvs IH] using json_ind'; intros w u t Hu Ht H;
    pose proof (print_json_tag _ _ _ _ H) as Htag;
    destruct w as [|b'|s'|n'|l'|kvs']; simpl in Htag; try done; try (by destruct b);
    try (by destruct b').
  - simpl in H. by injection H.
  - destruct b, b'; try done; simpl in H; by injection H.
  - apply encode_str_prefix in H as [-> ->]. done.
  - apply str_int_prefix in H as [-> ->]; done.
  - injection H as H. rewrite <-!app_assoc in H. simpl in H.
    apply items_inj in H as [-> ->]; auto using print_json_not_close.
  - rewrite !print_json_dict in H. injection H as H. rewrite <-!app_assoc in H.
    apply items_inj in H as [-> ->]; auto using print_entry_head.
    eapply Forall_impl; [exact IH|]. intros [k v] Hv [k' v'] s1 t1 Hs1 Ht1 H1.
    unfold print_entry in H1; cbn [fst snd] in *.
    rewrite <-(app_assoc (encode_str k)), <-(app_assoc (encode_str k')) in H1.
    apply encode_str_prefix in H1 as [-> H2].
    injection H2 as H2. apply Hv in H2 as [-> ->]; done.
Qed.

Lemma print_json_inj v w : print_json v = print_json w -> v = w.
Proof.
  intros H. by destruct (print_json_prefix v w [] [] I I) as [-> _]; [rewrite !app_nil_r|].
Qed.

(** Canonical bytes determine the document, up to the order of dictionary keys. *)
Lemma encode_json_inj v w : encode_json v = encode_json w <-> sort_keys v = sort_keys w.
Proof.
  rewrite !encode_json_print. split; [apply print_json_inj | by intros ->].
Qed.

#[global] Arguments encode_json : simpl never.

(** ** Rewriting the encoder node by node *)

Lemma encode_json_str s : encode_json (JStr s) = encode_str s.
Proof. done. Qed.
Lemma encode_json_int n : encode_json (JInt n) = _decimal_integer_bytes n.
Proof. done. Qed.
Lemma encode_json_null : encode_json JNull = chars "null".
Proof. done. Qed.

(** A dictionary written with its keys in order is encoded in that order. *)
Lemma encode_json_dict kvs : is_sorted_keys (map fst kvs) = true ->
  encode_json (JDict kvs) =
  "{"%char :: join [","%char]
    (map (fun kv : string * json => encode_str kv.1 ++ ":"%char :: encode_json kv.2) kvs)
  ++ ["}"%char].
Proof.
  intros Hs. unfold encode_json at 1; fold encode_json.
  rewrite (py_sorted_map (fun kv : string * json => (kv.1, encode_json kv.2)) fst fst) by done.
  rewrite (py_sorted_id fst kvs).
  - by rewrite map_map.
  - apply is_sorted_keys_spec in Hs. clear -Hs. induction kvs as [|[k v] kvs IH]; [constructor|].
    simpl in Hs. inversion Hs as [|? ? Hl Hk]; subst. constructor; [by apply IH|].
    rewrite Forall_fmap in Hk. exact Hk.
Qed.

Create Rewrite HintDb json.
#[export] Hint Rewrite encode_json_str encode_json_int encode_json_null : json.
#[export] Hint Rewrite encode_json_dict using (vm_compute; reflexivity) : json.
