(* ===== verification/WireJson.v ===== *)
(** Strict JSON decoding ([_decode_json] of [core/execution_messages.py]): UTF-8, the
    JSON grammar of [json.loads] over code points, the integer hook
    [_parse_decimal_integer], and the hooks that refuse floats, constants and repeated
    keys.  A decoded value is a [wire]; its strings are lists of code points, so every
    payload has a meaning here.  The recursion of [json.loads] is bounded by fuel, one
    more than the number of characters, which is enough for every text: a value is
    never nested deeper than its length.  (Python's own limit on the nesting depth is
    not modelled: beyond it the call raises a [RecursionError].)

    Main result: decoding the canonical bytes of a document gives the document with
    its keys in order ([decode_encode]). *)

From S2P Require Import Prelude PyRegex PyText Json.

Open Scope Z_scope.

#[warnings="-register-all"]
Inductive wire : Type :=
| WNull
| WBool (b : bool)
| WStr (s : list Z)
| WInt (n : Z)
| WList (l : list wire)
| WDict (kvs : list (list Z * wire)).

(** ** [payload.decode("utf-8")] *)

Definition tail_byte (b : Z) : bool := (128 <=? b) && (b <? 192).
(** The code point of a two, three or four byte sequence: no overlong form, no
    surrogate, nothing above U+10FFFF. *)
Fixpoint utf8 (s : list Z) : option (list Z) :=
  match s with
  | [] => Some []
  | a :: s1 =>
      if a <? 128 then cons a <$> utf8 s1
      else match s1 with
      | b :: s2 =>
          if (194 <=? a) && (a <? 224) && tail_byte b
          then cons ((a - 192) * 64 + (b - 128)) <$> utf8 s2
          else match s2 with
          | c :: s3 =>
              let cp3 := ((a - 224) * 64 + (b - 128)) * 64 + (c - 128) in
              if (224 <=? a) && (a <? 240) && tail_byte b && tail_byte c && (2048 <=? cp3)
                 && negb ((55296 <=? cp3) && (cp3 <? 57344))
              then cons cp3 <$> utf8 s3
              else match s3 with
              | d :: s4 =>
                  let cp4 := (((a - 240) * 64 + (b - 128)) * 64 + (c - 128)) * 64 + (d - 128) in
                  if (240 <=? a) && (a <? 245) && tail_byte b && tail_byte c && tail_byte d
                     && (65536 <=? cp4) && (cp4 <? 1114112)
                  then cons cp4 <$> utf8 s4
                  else None
              | [] => None
              end
          | [] => None
          end
      | [] => None
      end
  end.

(** ** [_parse_decimal_integer] *)

(** The loop over the nine-digit chunks. *)
Fixpoint parse_chunks (fuel : nat) (digits_ : str) (value : Z) : Z :=
  match fuel with
  | O => value
  | S fuel =>
      match digits_ with
      | [] => value
      | _ =>
          let chunk := take 9 digits_ in
          parse_chunks fuel (drop 9 digits_) (value * 10 ^ Z.of_nat (length chunk) + int_of chunk)
      end
  end.
Definition _parse_decimal_integer (text : str) : option Z :=
  let negative := match text with "-"%char :: _ => true | _ => false end in
  let digits_ := if negative then tail text else text in
  if bool_decide (digits_ = []) || negb (forallb is_digit digits_)
     || match digits_ with c :: _ :: _ => is_char c "0"%char | _ => false end
  then None
  else let value := parse_chunks (length digits_) digits_ 0 in Some (if negative then - value else value).

(** ** Tokens *)

Definition is_ws (c : Z) : bool := (c =? 32) || (c =? 9) || (c =? 10) || (c =? 13).
Fixpoint skip_ws (s : list Z) : list Z :=
  match s with
  | c :: s' => if is_ws c then skip_ws s' else s
  | [] => []
  end.

Definition cp_digit (c : Z) : bool := (48 <=? c) && (c <=? 57).
Fixpoint span_digits (s : list Z) : list Z * list Z :=
  match s with
  | c :: s' => if cp_digit c then let '(d, r) := span_digits s' in (c :: d, r) else ([], s)
  | [] => ([], [])
  end.
Definition ascii_of_cp (c : Z) : ascii := ascii_of_N (Z.to_N c).

(** The integer part: an optional minus, then 0 or digits without a leading zero.  A fraction or an exponent after it makes the
    token a float, which the hooks refuse; here it is left unread, and no value may be
    followed by ['.'], ['e'] or ['E']. *)
Definition scan_number (s : list Z) : option (wire * list Z) :=
  let '(sign, r) := match s with c :: r => if c =? 45 then (["-"%char], r) else ([], s) | [] => ([], s) end in
  let '(d, r') := span_digits r in
  match d with
  | [] => None
  | c :: rest =>
      if c =? 48 then (fun n => (WInt n, rest ++ r')) <$> _parse_decimal_integer (sign ++ ["0"%char])
      else (fun n => (WInt n, r')) <$> _parse_decimal_integer (sign ++ map ascii_of_cp d)
  end.

Definition hex_value (c : Z) : option Z :=
  if cp_digit c then Some (c - 48)
  else if (97 <=? c) && (c <=? 102) then Some (c - 87)
  else if (65 <=? c) && (c <=? 70) then Some (c - 55)
  else None.
Definition hex4 (a b c d : Z) : option Z :=
  match hex_value a, hex_value b, hex_value c, hex_value d with
  | Some a, Some b, Some c, Some d => Some (((a * 16 + b) * 16 + c) * 16 + d)
  | _, _, _, _ => None
  end.
Definition high_surrogate (c : Z) : bool := (55296 <=? c) && (c <? 56320).
Definition low_surrogate (c : Z) : bool := (56320 <=? c) && (c <? 57344).

(** The character an escape stands for, other than ['u']. *)
Definition simple_escape (c : Z) : option Z :=
  match c with
  | 34 => Some 34 | 92 => Some 92 | 47 => Some 47 | 98 => Some 8 | 102 => Some 12 | 110 => Some 10
  | 114 => Some 13 | 116 => Some 9
  | _ => None
  end.

(** The rest of a string after its opening quote, an escape at a time, and what follows
    its closing quote. *)
Definition emit (c : Z) (m : option (list Z * list Z)) : option (list Z * list Z) :=
  (fun ur : list Z * list Z => (c :: ur.1, ur.2)) <$> m.
Fixpoint scan_units (s : list Z) : option (list Z * list Z) :=
  match s with
  | [] => None
  | c :: r =>
      if c =? 34 then Some ([], r)
      else if c =? 92 then
        match r with
        | [] => None
        | e :: r2 =>
            if e =? 117 then
              match r2 with
              | h1 :: h2 :: h3 :: h4 :: r3 =>
                  match hex4 h1 h2 h3 h4 with
                  | Some u => emit u (scan_units r3)
                  | None => None
                  end
              | _ => None
              end
            else
              match simple_escape e with
              | Some d => emit d (scan_units r2)
              | None => None
              end
        end
      else if c <? 32 then None
      else emit c (scan_units r)
  end.

(** An escaped high surrogate and the escaped low surrogate after it are one character.
    (UTF-8 decoding yields no surrogate, so every surrogate comes from an escape.) *)
Fixpoint join_surrogates (s : list Z) : list Z :=
  match s with
  | c :: t =>
      match t with
      | d :: r =>
          if high_surrogate c && low_surrogate d
          then 65536 + (c - 55296) * 1024 + (d - 56320) :: join_surrogates r
          else c :: join_surrogates t
      | [] => [c]
      end
  | [] => []
  end.
Definition scan_string (s : list Z) : option (list Z * list Z) :=
  (fun ur : list Z * list Z => (join_surrogates ur.1, ur.2)) <$> scan_units s.

(** ** Values *)

(** The text after a given character or word. *)
Fixpoint after (w s : list Z) : option (list Z) :=
  match w, s with
  | [], _ => Some s
  | c :: w, d :: s => if d =? c then after w s else None
  | _ :: _, [] => None
  end.

(** [_reject_duplicate_keys]. *)
Definition _reject_duplicate_keys (kvs : list (list Z * wire)) : option wire :=
  if no_duplicates (map fst kvs) then Some (WDict kvs) else None.

(** A token that is neither a string nor a container. *)
Definition scan_atom (s : list Z) : option (wire * list Z) :=
  match after [110; 117; 108; 108] s with
  | Some r => Some (WNull, r)
  | None =>
      match after [116; 114; 117; 101] s with
      | Some r => Some (WBool true, r)
      | None =>
          match after [102; 97; 108; 115; 101] s with
          | Some r => Some (WBool false, r)
          | None => scan_number s
          end
      end
  end.

Fixpoint scan_value (fuel : nat) (s : list Z) : option (wire * list Z) :=
  match fuel with
  | O => None
  | S fuel =>
      match after [34] s with
      | Some r => (fun ur : list Z * list Z => (WStr ur.1, ur.2)) <$> scan_string r
      | None =>
      match after [91] s with
      | Some r =>
          match after [93] (skip_ws r) with
          | Some r' => Some (WList [], r')
          | None => (fun lr : list wire * list Z => (WList lr.1, lr.2)) <$> scan_elements fuel (skip_ws r)
          end
      | None =>
      match after [123] s with
      | Some r =>
          match after [125] (skip_ws r) with
          | Some r' => Some (WDict [], r')
          | None =>
              match scan_members fuel (skip_ws r) with
              | Some (kvs, r') => (fun v => (v, r')) <$> _reject_duplicate_keys kvs
              | None => None
              end
          end
      | None => scan_atom s
      end end end
  end
with scan_elements (fuel : nat) (s : list Z) : option (list wire * list Z) :=
  match fuel with
  | O => None
  | S fuel =>
      match scan_value fuel s with
      | None => None
      | Some (v, r) =>
          match after [93] (skip_ws r) with
          | Some r' => Some ([v], r')
          | None =>
              match after [44] (skip_ws r) with
              | Some r' =>
                  (fun lr : list wire * list Z => (v :: lr.1, lr.2)) <$> scan_elements fuel (skip_ws r')
              | None => None
              end
          end
      end
  end
with scan_members (fuel : nat) (s : list Z) : option (list (list Z * wire) * list Z) :=
  match fuel with
  | O => None
  | S fuel =>
      match after [34] s with
      | None => None
      | Some r =>
      match scan_string r with
      | None => None
      | Some (k, r) =>
      match after [58] (skip_ws r) with
      | None => None
      | Some r =>
      match scan_value fuel (skip_ws r) with
      | None => None
      | Some (v, r) =>
          match after [125] (skip_ws r) with
          | Some r' => Some ([(k, v)], r')
          | None =>
              match after [44] (skip_ws r) with
              | Some r' =>
                  (fun lr : list (list Z * wire) * list Z => ((k, v) :: lr.1, lr.2))
                    <$> scan_members fuel (skip_ws r')
              | None => None
              end
          end
      end end end end
  end.

(** [json.loads(payload.decode("utf-8"), ...)]. *)
Definition json_loads (payload : str) : option wire :=
  match utf8 (map code payload) with
  | None => None
  | Some s =>
      match scan_value (S (length s)) (skip_ws s) with
      | Some (v, r) => if bool_decide (skip_ws r = []) then Some v else None
      | None => None
      end
  end.

(** ** Decoding what the encoder wrote *)

Definition codes (s : str) : list Z := map code s.
Fixpoint wire_of (v : json) : wire :=
  match v with
  | JNull => WNull
  | JBool b => WBool b
  | JStr s => WStr (codes (chars s))
  | JInt n => WInt n
  | JList l => WList (map wire_of l)
  | JDict kvs => WDict (map (fun kv : string * json => (codes (chars kv.1), wire_of kv.2)) kvs)
  end.

(** No dictionary of the document repeats a key. *)
Fixpoint keys_distinct (v : json) : bool :=
  match v with
  | JList l => forallb keys_distinct l
  | JDict kvs => no_duplicates (map fst kvs) && forallb (fun kv : string * json => keys_distinct kv.2) kvs
  | _ => true
  end.

Lemma codes_inj : Inj (=) (=) codes.
Proof.
  intros s; induction s as [|c s IH]; intros [|d t]; try done.
  cbn [codes map]. intros [= Hc%code_inj Hs]. f_equal; [done|by apply IH].
Qed.

(** *** Strings *)

Lemma code_bounds c : 0 <= code c < 256.
Proof. unfold code. pose proof (N_ascii_bounded c). lia. Qed.

Lemma join_codes cs : join_surrogates (codes cs) = codes cs.
Proof.
  induction cs as [|c [|d cs] IH]; [done..|]. cbn [codes map join_surrogates] in *.
  assert (high_surrogate (code c) = false) as ->.
  { unfold high_surrogate. pose proof (code_bounds c). destruct (Z.leb_spec 55296 (code c)); [lia|done]. }
  cbn [andb]. by rewrite IH.
Qed.

Lemma scan_escape c t : scan_units (codes (escape_char c) ++ t) = emit (code c) (scan_units t).
Proof. by destruct c as [[] [] [] [] [] [] [] []]. Qed.

Lemma scan_escapes cs t : scan_string (codes (concat (map escape_char cs)) ++ 34 :: t) = Some (codes cs, t).
Proof.
  unfold scan_string. enough (scan_units (codes (concat (map escape_char cs)) ++ 34 :: t) = Some (codes cs, t)) as ->.
  { simpl. by rewrite join_codes. }
  induction cs as [|c cs IH]; [done|]. unfold codes in *. cbn [map concat].
  rewrite map_app, <-app_assoc. change (map code (escape_char c)) with (codes (escape_char c)).
  by rewrite scan_escape, IH.
Qed.

(** *** Integers *)

Lemma parse_chunks_spec f ds v : (length ds <= f)%nat ->
  parse_chunks f ds v = v * 10 ^ Z.of_nat (length ds) + int_of ds.
Proof.
  revert ds v; induction f as [|f IH]; intros ds v Hl.
  { destruct ds; [|simpl in Hl; lia]. change (int_of []) with 0. cbn. lia. }
  cbn [parse_chunks]. destruct ds as [|c ds]; [change (int_of []) with 0; cbn; lia|].
  rewrite IH by (rewrite length_drop; simpl in *; lia).
  assert (c :: ds = take 9 (c :: ds) ++ drop 9 (c :: ds)) as Hs by (by rewrite take_drop).
  rewrite Hs at 5 6. rewrite int_of_app, length_app, Nat2Z.inj_add, Z.pow_add_r by lia. ring.
Qed.

Lemma parse_decimal_integer_digits n : 0 <= n -> _parse_decimal_integer (digits n) = Some n /\
  _parse_decimal_integer ("-"%char :: digits n) = Some (- n).
Proof.
  intros Hn. pose proof (digits_digits n Hn) as Hd. pose proof (digits_no_leading_zero n Hn) as Hz.
  pose proof (digits_nonempty n Hn) as Hne. unfold _parse_decimal_integer.
  assert (forallb is_digit (digits n) = true) as Ha.
  { apply forallb_forall. intros c Hc. by eapply Forall_forall in Hd; [|apply list_elem_of_In]. }
  assert (match digits n with c :: _ :: _ => is_char c "0"%char | _ => false end = false) as Hlead.
  { destruct (digits n) as [|c [|d s]]; [done..|]. unfold is_char. cbn in Hz.
    by apply Ascii.eqb_neq. }
  assert (match digits n with "-"%char :: _ => true | _ => false end = false) as Hsign.
  { destruct (digits n) as [|c s]; [done|]. apply Forall_cons in Hd as [Hc _].
    by destruct c as [[] [] [] [] [] [] [] []]. }
  rewrite Hsign. cbn [tail]. rewrite Ha, Hlead, bool_decide_eq_false_2 by done. cbn [negb orb].
  rewrite parse_chunks_spec, int_of_digits by (done || lia). done.
Qed.

Definition no_digit (s : list Z) : Prop := match s with c :: _ => cp_digit c = false | [] => True end.

Lemma cp_digit_code c : cp_digit (code c) = is_digit c.
Proof. done. Qed.

Lemma span_codes ds r : all_digits ds -> no_digit r -> span_digits (codes ds ++ r) = (codes ds, r).
Proof.
  intros Hd Hr. induction ds as [|c ds IH].
  - destruct r as [|c r]; [done|]. cbn in *. by rewrite Hr.
  - apply Forall_cons in Hd as [Hc Hd]. unfold codes. cbn [map app span_digits].
    rewrite cp_digit_code, Hc. change (map code ds) with (codes ds). by rewrite IH.
Qed.

Lemma ascii_of_codes s : map ascii_of_cp (codes s) = s.
Proof.
  induction s as [|c s IH]; [done|]. unfold codes. cbn [map]. change (map code s) with (codes s).
  rewrite IH. f_equal. unfold ascii_of_cp, code. by rewrite N2Z.id, ascii_N_embedding.
Qed.

Lemma scan_number_digits n r : no_digit r -> 0 <= n ->
  scan_number (codes (digits n) ++ r) = Some (WInt n, r) /\
  scan_number (45 :: codes (digits n) ++ r) = Some (WInt (- n), r).
Proof.
  intros Hr Hn. pose proof (digits_digits n Hn) as Hd. pose proof (digits_no_leading_zero n Hn) as Hz.
  destruct (parse_decimal_integer_digits n Hn) as [Hp Hm].
  pose proof (span_codes _ r Hd Hr) as Hspan. pose proof (ascii_of_codes (digits n)) as Ha.
  unfold scan_number. change (45 =? 45) with true. cbv iota beta.
  destruct (digits n) as [|c ds] eqn:E; [done|].
  apply Forall_cons in Hd as [Hc Hd]. unfold codes in *. cbn [map app] in Hspan, Ha |- *.
  assert ((code c =? 45) = false) as ->.
  { destruct c as [[] [] [] [] [] [] [] []]; done. }
  rewrite Hspan. destruct (Z.eqb_spec (code c) 48) as [H48|H48].
  - assert (c = "0"%char) as -> by (by apply code_inj). destruct ds as [|d ds]; [|by cbn in Hz].
    cbn [app] in *. by rewrite Hp, Hm.
  - cbn [map app]. rewrite Ha, Hp, Hm. done.
Qed.

Lemma scan_number_int n r : no_digit r -> scan_number (codes (str_int n) ++ r) = Some (WInt n, r).
Proof.
  intros Hr. unfold str_int. destruct (Z.ltb_spec n 0).
  - destruct (scan_number_digits (- n) r Hr ltac:(lia)) as [_ Hm]. rewrite Z.opp_involutive in Hm. done.
  - by apply scan_number_digits.
Qed.

(** *** Values *)

Lemma codes_app s t : codes (s ++ t) = codes s ++ codes t.
Proof. apply map_app. Qed.
Lemma length_codes s : length (codes s) = length s.
Proof. apply length_map. Qed.

Definition follows (r : list Z) : Prop :=
  match r with [] => True | c :: _ => c = 44 \/ c = 93 \/ c = 125 end.
Lemma follows_no_digit r : follows r -> no_digit r.
Proof. destruct r; [done|]. by intros [->|[->| ->]]. Qed.
Lemma follows_skip r : follows r -> skip_ws r = r.
Proof. destruct r; [done|]. by intros [->|[->| ->]]. Qed.

(** The first character of an integer's text. *)
Definition number_head (c : ascii) : bool := is_digit c || is_char c "-"%char.
Lemma str_int_head n : exists c s, str_int n = c :: s /\ number_head c = true.
Proof.
  unfold str_int. destruct (Z.ltb_spec n 0); [by eexists _, _|].
  pose proof (digits_nonempty n ltac:(lia)) as Hne. pose proof (digits_digits n ltac:(lia)) as Hd.
  destruct (digits n) as [|c s]; [done|]. apply Forall_cons in Hd as [Hc _].
  exists c, s. split; [done|]. unfold number_head. by rewrite Hc.
Qed.

(** The first character of a value: not a blank and no closing bracket. *)
Definition value_head (c : ascii) : bool :=
  negb (is_ws (code c)) && negb (code c =? 93) && negb (code c =? 125).
Lemma print_head v : exists c s, print_json v = c :: s /\ value_head c = true.
Proof.
  destruct v as [|[]|s|n|l|kvs]; simpl; try by eexists _, _.
  destruct (str_int_head n) as (c & s & -> & Hc). exists c, s. split; [done|].
  by destruct c as [[] [] [] [] [] [] [] []].
Qed.

Lemma print_skip v r : skip_ws (codes (print_json v) ++ r) = codes (print_json v) ++ r.
Proof.
  destruct (print_head v) as (c & s & -> & Hc). unfold codes. cbn [map app skip_ws].
  unfold value_head in Hc. destruct (is_ws (code c)); done.
Qed.

Lemma print_not_close v r : after [93] (codes (print_json v) ++ r) = None.
Proof.
  destruct (print_head v) as (c & s & -> & Hc). unfold codes. cbn [map app after].
  unfold value_head in Hc. destruct (code c =? 93); [by rewrite andb_false_r in Hc|done].
Qed.

Lemma scan_value_string f s r : scan_value (S f) (codes (encode_str s) ++ r) = Some (WStr (codes (chars s)), r).
Proof.
  unfold encode_str. rewrite app_comm_cons, codes_app, <-app_assoc.
  change (codes (quote :: concat (map escape_char (chars s))))
    with (34 :: codes (concat (map escape_char (chars s)))).
  change (codes [quote] ++ r) with (34 :: r). cbn [app scan_value after]. change (34 =? 34) with true.
  cbv iota. by rewrite scan_escapes.
Qed.

Lemma scan_value_int f n r : no_digit r -> scan_value (S f) (codes (str_int n) ++ r) = Some (WInt n, r).
Proof.
  intros Hr. pose proof (scan_number_int n r Hr) as Hs. destruct (str_int_head n) as (c & s & E & Hc).
  rewrite E in *. unfold codes in *. cbn [map app scan_value scan_atom after] in *. rewrite <-Hs.
  by destruct c as [[] [] [] [] [] [] [] []].
Qed.

Definition scans (v : json) : Prop := forall f r, (length (print_json v) <= f)%nat -> follows r ->
  scan_value f (codes (print_json v) ++ r) = Some (wire_of v, r).

Lemma scan_elements_print l f r : Forall scans l -> l <> [] ->
  (length (join [","%char] (map print_json l)) < f)%nat ->
  scan_elements f (codes (join [","%char] (map print_json l)) ++ 93 :: r) = Some (map wire_of l, r).
Proof.
  intros Hl. revert f; induction Hl as [|v l Hv Hl IH]; intros f Hne Hf; [done|].
  destruct f as [|f]; [lia|]. cbn [scan_elements]. destruct l as [|w l].
  - cbn [map join] in *. rewrite Hv by (try lia; cbn; tauto). done.
  - assert (join [","%char] (map print_json (v :: w :: l))
      = print_json v ++ [","%char] ++ join [","%char] (map print_json (w :: l))) as Hj by done.
    rewrite Hj in *. rewrite !length_app in Hf. cbn [length] in Hf.
    rewrite !codes_app, <-!app_assoc. rewrite Hv by (try lia; cbn; tauto).
    change (codes [","%char] ++ ?s) with (44 :: s). cbn [skip_ws after].
    change (is_ws 44) with false. cbv iota. change (44 =? 93) with false. change (44 =? 44) with true. cbv iota.
    assert (forall q, skip_ws (codes (join [","%char] (print_json w :: map print_json l)) ++ q)
      = codes (join [","%char] (print_json w :: map print_json l)) ++ q) as Hskip.
    { intros q. destruct l; cbn [map join]; [apply print_skip|]. rewrite codes_app, <-app_assoc. apply print_skip. }
    rewrite Hskip, IH by (done || lia). done.
Qed.

Definition wire_entry (kv : string * json) : list Z * wire := (codes (chars kv.1), wire_of kv.2).

Lemma scan_members_print l f r : Forall (fun kv : string * json => scans kv.2) l -> l <> [] ->
  (length (join [","%char] (map print_entry l)) < f)%nat ->
  scan_members f (codes (join [","%char] (map print_entry l)) ++ 125 :: r) = Some (map wire_entry l, r).
Proof.
  intros Hl. revert f; induction Hl as [|[k v] l Hv Hl IH]; intros f Hne Hf; [done|].
  destruct f as [|f]; [lia|]. cbn [snd] in Hv.
  assert (forall q, (length (print_json v) <= f)%nat -> follows q ->
    scan_members (S f) (codes (print_entry (k, v)) ++ q) =
    match after [125] q with
    | Some r' => Some ([wire_entry (k, v)], r')
    | None => match after [44] q with
              | Some r' => (fun lr : list (list Z * wire) * list Z => (wire_entry (k, v) :: lr.1, lr.2))
                             <$> scan_members f (skip_ws r')
              | None => None
              end
    end) as Hentry.
  { intros q Hlen Hq. unfold print_entry. cbn [fst snd]. unfold encode_str.
    rewrite !codes_app. change (codes (quote :: ?s)) with (34 :: codes s).
    cbn [app]. rewrite codes_app, <-!app_assoc.
    change (codes [quote] ++ ?s) with (34 :: s). change (codes (":"%char :: ?s)) with (58 :: codes s).
    cbn [scan_members after app]. change (34 =? 34) with true. cbv iota. rewrite scan_escapes.
    cbn [skip_ws]. change (is_ws 58) with false. cbv iota. change (58 =? 58) with true. cbv iota.
    by rewrite print_skip, Hv, (follows_skip q) by done. }
  destruct l as [|w l].
  - cbn [map join] in *. rewrite Hentry; [done| |cbn; tauto].
    unfold print_entry in Hf. rewrite length_app in Hf. cbn [fst snd length] in Hf. lia.
  - assert (join [","%char] (map print_entry ((k, v) :: w :: l))
      = print_entry (k, v) ++ [","%char] ++ join [","%char] (map print_entry (w :: l))) as Hj by done.
    rewrite Hj in *. rewrite !length_app in Hf. cbn [length] in Hf.
    rewrite !codes_app, <-!app_assoc. change (codes [","%char] ++ ?s) with (44 :: s).
    rewrite Hentry; [|unfold print_entry in Hf; rewrite length_app in Hf; cbn [fst snd length] in Hf; lia|cbn; tauto].
    cbn [after]. change (44 =? 125) with false. change (44 =? 44) with true. cbv iota.
    assert (forall q, skip_ws (codes (join [","%char] (map print_entry (w :: l))) ++ q)
      = codes (join [","%char] (map print_entry (w :: l))) ++ q) as Hskip by (by destruct w; destruct l).
    rewrite Hskip, IH by (done || lia). done.
Qed.

Lemma wire_entries_distinct kvs : no_duplicates (map fst kvs) = true ->
  no_duplicates (map fst (map wire_entry kvs)) = true.
Proof.
  intros Hn%bool_decide_eq_true. apply bool_decide_eq_true.
  assert (map fst (map wire_entry kvs) = (fun k => codes (chars k)) <$> map fst kvs) as ->.
  { rewrite map_map. change (map fst kvs) with (fst <$> kvs). by rewrite <-list_fmap_compose. }
  apply NoDup_fmap_2; [|done]. intros a b H%codes_inj. by apply (inj chars).
Qed.

Lemma after_one c d s : after [c] (d :: s) = if d =? c then Some s else None.
Proof. done. Qed.

Lemma print_length v : (0 < length (print_json v))%nat.
Proof. destruct (print_head v) as (c & s & -> & _). simpl. lia. Qed.

Lemma scan_value_print v : keys_distinct v = true -> scans v.
Proof.
  induction v as [|b|s|n|l IH|kvs IH] using json_ind'; intros Hd f r Hf Hr;
    (destruct f as [|f]; [match type of Hf with (length (print_json ?v) <= _)%nat => pose proof (print_length v) end; lia|]).
  - done.
  - by destruct b.
  - apply scan_value_string.
  - apply scan_value_int. by apply follows_no_digit.
  - assert (Forall scans l) as Hl.
    { simpl in Hd. rewrite forallb_forall in Hd. rewrite Forall_forall in *. intros v Hv.
      apply IH; [done|]. by apply Hd, list_elem_of_In. }
    cbn [print_json length] in Hf. rewrite length_app in Hf. cbn [length] in Hf.
    cbn [print_json]. change (codes ("["%char :: ?s)) with (91 :: codes s). rewrite codes_app.
    cbn [app scan_value]. rewrite !after_one. change (91 =? 34) with false. change (91 =? 91) with true. cbv iota.
    rewrite <-app_assoc. change (codes ["]"%char] ++ r) with (93 :: r).
    destruct l as [|v l]; [done|].
    assert (forall q, exists t, codes (join [","%char] (map print_json (v :: l))) ++ q = codes (print_json v) ++ t) as Hh.
    { intros q. destruct l; cbn [map join]; [by eexists|]. rewrite codes_app, <-app_assoc. by eexists. }
    destruct (Hh (93 :: r)) as [t Ht]. rewrite Ht, print_skip, print_not_close, <-Ht.
    rewrite scan_elements_print by (done || lia). done.
  - assert (Forall (fun kv : string * json => scans kv.2) kvs) as Hl.
    { simpl in Hd. apply andb_true_iff in Hd as [_ Hd]. rewrite forallb_forall in Hd.
      rewrite Forall_forall in *. intros kv Hv. apply IH; [done|]. by apply (Hd kv), list_elem_of_In. }
    simpl in Hd. apply andb_true_iff in Hd as [Hn _].
    rewrite print_json_dict in *. cbn [length] in Hf. rewrite length_app in Hf. cbn [length] in Hf.
    change (codes ("{"%char :: ?s)) with (123 :: codes s). rewrite codes_app.
    cbn [app scan_value]. rewrite !after_one. change (123 =? 34) with false. change (123 =? 91) with false.
    change (123 =? 123) with true. cbv iota.
    rewrite <-app_assoc. change (codes ["}"%char] ++ r) with (125 :: r).
    destruct kvs as [|kv kvs]; [done|].
    assert (forall q, exists t, codes (join [","%char] (map print_entry (kv :: kvs))) ++ q = 34 :: t) as Hh.
    { intros q. by destruct kvs; eexists. }
    destruct (Hh (125 :: r)) as [t Ht]. rewrite Ht. cbn [skip_ws]. change (is_ws 34) with false. cbv iota.
    rewrite after_one. change (34 =? 125) with false. cbv iota. rewrite <-Ht.
    rewrite scan_members_print by (done || lia). unfold _reject_duplicate_keys.
    by rewrite wire_entries_distinct.
Qed.

(** *** The bytes are ASCII *)

Definition ascii_only (s : str) : bool := forallb (fun c => code c <? 128) s.

Lemma utf8_ascii s : ascii_only s = true -> utf8 (codes s) = Some (codes s).
Proof.
  induction s as [|c s IH]; [done|]. unfold codes. cbn [ascii_only forallb map utf8].
  intros [-> Hs]%andb_true_iff. change (map code s) with (codes s). by rewrite IH.
Qed.

Lemma ascii_app s t : ascii_only (s ++ t) = ascii_only s && ascii_only t.
Proof. apply forallb_app. Qed.

Lemma ascii_escape s : ascii_only (concat (map escape_char s)) = true.
Proof.
  induction s as [|c s IH]; [done|]. cbn [map concat]. rewrite ascii_app, IH.
  by destruct c as [[] [] [] [] [] [] [] []].
Qed.
Lemma ascii_string s : ascii_only (encode_str s) = true.
Proof. unfold encode_str. cbn [ascii_only forallb]. change (forallb _ ?l) with (ascii_only l).
  by rewrite ascii_app, ascii_escape. Qed.
Lemma ascii_digits n : 0 <= n -> ascii_only (digits n) = true.
Proof.
  intros Hn. pose proof (digits_digits n Hn) as Hd. induction Hd as [|c s Hc Hs IH]; [done|].
  cbn [ascii_only forallb]. change (forallb _ ?l) with (ascii_only l). rewrite IH.
  by destruct c as [[] [] [] [] [] [] [] []].
Qed.

Lemma ascii_join l : forallb ascii_only l = true -> ascii_only (join [","%char] l) = true.
Proof.
  induction l as [|s l IH]; [done|]. cbn [forallb]. intros [Hs Hl]%andb_true_iff.
  destruct l as [|t l]; [done|]. change (join [","%char] (s :: t :: l)) with (s ++ [","%char] ++ join [","%char] (t :: l)).
  rewrite !ascii_app, Hs. by rewrite IH.
Qed.

Lemma ascii_print v : ascii_only (print_json v) = true.
Proof.
  induction v as [|b|s|n|l IH|kvs IH] using json_ind'.
  - done.
  - by destruct b.
  - apply ascii_string.
  - simpl. unfold str_int. destruct (Z.ltb_spec n 0); [|by apply ascii_digits].
    cbn [ascii_only forallb]. apply (ascii_digits (- n)). lia.
  - cbn [print_json]. cbn [ascii_only forallb]. change (forallb _ ?l) with (ascii_only l).
    rewrite ascii_app, ascii_join; [done|]. apply forallb_forall. intros s (v & <- & Hv)%in_map_iff.
    rewrite Forall_forall in IH. by apply IH, list_elem_of_In.
  - rewrite print_json_dict. cbn [ascii_only forallb]. change (forallb _ ?l) with (ascii_only l).
    rewrite ascii_app, ascii_join; [done|]. apply forallb_forall. intros s (kv & <- & Hv)%in_map_iff.
    rewrite Forall_forall in IH. unfold print_entry. rewrite ascii_app, ascii_string. cbn [andb].
    cbn [ascii_only forallb]. apply (IH kv). by apply list_elem_of_In.
Qed.

Lemma json_loads_print v : keys_distinct v = true -> json_loads (print_json v) = Some (wire_of v).
Proof.
  intros Hv. unfold json_loads. change (map code ?s) with (codes s).
  rewrite (utf8_ascii _ (ascii_print v)).
  rewrite <-(app_nil_r (codes (print_json v))) at 2. rewrite print_skip.
  rewrite (scan_value_print v Hv); [done|rewrite length_codes; lia|done].
Qed.

(** Sorting the keys of a document keeps them distinct. *)
Lemma sort_keys_distinct v : keys_distinct v = true -> keys_distinct (sort_keys v) = true.
Proof.
  induction v as [|b|s|n|l IH|kvs IH] using json_ind'; try done; cbn [keys_distinct sort_keys].
  - rewrite !forallb_forall. intros Hl w (v & <- & Hv)%in_map_iff. rewrite Forall_forall in IH.
    apply IH; [by apply list_elem_of_In|by apply Hl].
  - intros [Hn Hd]%andb_true_iff. apply andb_true_iff. rewrite forallb_forall in *. rewrite Forall_forall in IH.
    set (l := map (fun kv : string * json => (kv.1, sort_keys kv.2)) kvs).
    pose proof (py_sorted_perm fst l) as Hp. split.
    + apply bool_decide_eq_true in Hn. apply bool_decide_eq_true.
      change (map fst ?l) with (fst <$> l). rewrite Hp.
      assert (fst <$> l = map fst kvs) as -> by (unfold l; change (fst <$> ?q) with (map fst q);
        rewrite map_map; by apply map_ext). done.
    + intros kv Hkv%list_elem_of_In. rewrite Hp in Hkv. unfold l in Hkv.
      apply list_elem_of_In, in_map_iff in Hkv as (kv' & <- & Hkv). cbn [snd].
      apply IH; [by apply list_elem_of_In|by apply Hd].
Qed.

(** Decoding inverts encoding, up to the order of the keys. *)
Lemma decode_encode v : keys_distinct v = true -> json_loads (encode_json v) = Some (wire_of (sort_keys v)).
Proof. intros Hv. rewrite encode_json_print. by apply json_loads_print, sort_keys_distinct. Qed.

(** ** Reading a decoded document *)

(** [document[key]] of a dictionary, and whether it is there. *)
Definition lookup_key (kvs : list (list Z * wire)) (k : string) : option wire :=
  snd <$> List.find (fun kv => bool_decide (kv.1 = codes (chars k))) kvs.
(** [set(document) == {...}]. *)
Definition same_keys (kvs : list (list Z * wire)) (expected : list string) : bool :=
  forallb (fun k => negb (bool_decide (lookup_key kvs k = None))) expected
  && forallb (fun kv : list Z * wire => bool_decide (kv.1 ∈ map (fun k => codes (chars k)) expected)) kvs.

(** [document == expected] on decoded values: dictionaries compare by key. *)
Fixpoint wire_eq (v w : wire) : bool :=
  match v, w with
  | WNull, WNull => true
  | WBool a, WBool b => Bool.eqb a b
  | WStr s, WStr t => bool_decide (s = t)
  | WInt m, WInt n => m =? n
  | WList l, WList k =>
      (fix eqs (l k : list wire) : bool :=
         match l, k with
         | [], [] => true
         | v :: l, w :: k => wire_eq v w && eqs l k
         | _, _ => false
         end) l k
  | WDict l, WDict k =>
      Nat.eqb (length l) (length k)
      && forallb (fun kv : list Z * wire =>
           match snd <$> List.find (fun kw => bool_decide (kw.1 = kv.1)) k with
           | Some w => wire_eq kv.2 w
           | None => false
           end) l
  | _, _ => false
  end.
