(* ===== verification/Identity.v ===== *)
(** Run, instrument and economic identities ([core/run.py], [core/identity.py],
    [core/time.py] and [core/execution_identity.py]).

    The identifier dataclasses whose only field is a pattern-checked [str] are the
    [PatternStr] types of their patterns.  Dataclasses with several fields are plain
    records; the checks of their [__post_init__] are the [_init] functions.
    [hashlib.sha256] is the operation of the class [Sha256]: a function to 64
    lowercase hexadecimal digits. *)

From S2P Require Import Prelude PyRegex PyText Outcomes Json.

Open Scope Z_scope.

Definition MAX_UINT64 : Z := 2 ^ 64 - 1.

(** ** Patterns *)

Definition LOWER : ascii -> bool := in_range "a"%char "z"%char.
Definition UPPER : ascii -> bool := in_range "A"%char "Z"%char.
Definition ALNUM (c : ascii) : bool := LOWER c || UPPER c || is_digit c.
Definition HEX (c : ascii) : bool := is_digit c || in_range "a"%char "f"%char c.

(** [[0-9a-f]{64}] *)
Definition _DIGEST_PATTERN : regex := Rep 64 (Cls HEX).
(** The canonical lowercase RFC 4122 UUID4 texts, the fixed points of
    [str(UUID(value))] with version 4 and variant RFC 4122:
    [[0-9a-f]{8}-[0-9a-f]{4}-4[0-9a-f]{3}-[89ab][0-9a-f]{3}-[0-9a-f]{12}]. *)
Definition _RUN_ID_PATTERN : regex :=
  Cat (Rep 8 (Cls HEX)) (Cat (Ch "-"%char)
  (Cat (Rep 4 (Cls HEX)) (Cat (Ch "-"%char)
  (Cat (Ch "4"%char) (Cat (Rep 3 (Cls HEX)) (Cat (Ch "-"%char)
  (Cat (Cls (one_of "89ab")) (Cat (Rep 3 (Cls HEX)) (Cat (Ch "-"%char)
  (Rep 12 (Cls HEX))))))))))).
(** [[A-Z0-9][A-Z0-9._-]{0,31}] *)
Definition _VENUE_PATTERN : regex :=
  Cat (Cls (fun c => UPPER c || is_digit c))
      (UpTo 31 (Cls (fun c => UPPER c || is_digit c || one_of "._-" c))).
(** [[A-Za-z0-9][A-Za-z0-9._/-]{0,63}] *)
Definition _SYMBOL_PATTERN : regex :=
  Cat (Cls ALNUM) (UpTo 63 (Cls (fun c => ALNUM c || one_of "._/-" c))).
(** [[a-z][a-z0-9._-]{0,127}]: source namespaces, tokens, specification ids. *)
Definition _TOKEN_PATTERN : regex :=
  Cat (Cls LOWER) (UpTo 127 (Cls (fun c => LOWER c || is_digit c || one_of "._-" c))).
(** 1..128 visible ASCII characters. *)
Definition VISIBLE_128 : regex :=
  Cat (Cls (in_range "!"%char "~"%char)) (UpTo 127 (Cls (in_range "!"%char "~"%char))).

(** ** Digests, runs, instruments *)

Abbreviation Sha256Digest := (PatternStr _DIGEST_PATTERN).
Abbreviation RunId := (PatternStr _RUN_ID_PATTERN).
Abbreviation VenueId := (PatternStr _VENUE_PATTERN).
Abbreviation Symbol := (PatternStr _SYMBOL_PATTERN).
Abbreviation SourceNamespace := (PatternStr _TOKEN_PATTERN).
Abbreviation ExternalFactId := (PatternStr VISIBLE_128).

Definition Sha256Digest_init (s : string) : res Sha256Digest := pattern_str RunContractError s.
Definition RunId_init (s : string) : res RunId := pattern_str RunContractError s.
Definition VenueId_init (s : string) : res VenueId := pattern_str IdentityValidationError s.

Record Instrument : Type := mkInstrument { venue : VenueId; symbol : Symbol }.

Definition Instrument_init (v : VenueId) (s : string) : res Instrument :=
  let* symbol := pattern_str IdentityValidationError s in
  Ok (mkInstrument v symbol).

(** [Instrument.key] and [Instrument.id]. *)
Definition instrument_key (i : Instrument) : string * string := (value (venue i), value (symbol i)).
Definition instrument_id (i : Instrument) : string :=
  (value (venue i) +:+ ":" +:+ value (symbol i))%string.

#[export] Instance Instrument_eq_dec : EqDecision Instrument.
Proof. solve_decision. Defined.
#[export] Program Instance Instrument_countable : Countable Instrument :=
  inj_countable' (fun i => (venue i, symbol i)) (fun p => mkInstrument p.1 p.2) _.
Next Obligation. by intros []. Qed.

Lemma instrument_key_inj : Inj (=) (=) instrument_key.
Proof.
  intros [v s] [v' s'] [= Hv Hs]. f_equal; by apply pattern_str_eq.
Qed.

Class Sha256 := {
  sha256_hex : str -> string;
  sha256_hex_ok m : fullmatch _DIGEST_PATTERN (chars (sha256_hex m)) = true
}.

(** [Sha256Digest(sha256(domain + payload).hexdigest())]. *)
Definition _digest `{Sha256} (domain payload : str) : Sha256Digest :=
  mkPatternStr (sha256_hex (domain ++ payload)) (sha256_hex_ok _).

(** [n.to_bytes(8, "big")]. *)
Fixpoint to_bytes_big (w : nat) (n : Z) : str :=
  match w with
  | O => []
  | S w => to_bytes_big w (n / 256) ++ [ascii_of_N (Z.to_N (n mod 256))]
  end.

(** [_framed_digest]: the payload length is part of the preimage. *)
Definition _framed_digest `{Sha256} (domain payload : str) : Sha256Digest :=
  _digest domain (to_bytes_big 8 (Z.of_nat (length payload)) ++ payload).

(** A digest domain: its ASCII name and the closing NUL byte. *)
Definition domain (name : string) : str := chars name ++ [ascii_of_N 0].

(** ** Time *)

Definition is_leap (y : Z) : bool :=
  (y mod 4 =? 0) && (negb (y mod 100 =? 0) || (y mod 400 =? 0)).
Definition days_in_month (y m : Z) : Z :=
  if m =? 2 then if is_leap y then 29 else 28
  else if (m =? 4) || (m =? 6) || (m =? 9) || (m =? 11) then 30 else 31.

Definition datetime_valid (y mo d h mi s us : Z) : bool :=
  (1 <=? y) && (y <=? 9999) && (1 <=? mo) && (mo <=? 12) && (1 <=? d) && (d <=? days_in_month y mo)
  && (0 <=? h) && (h <? 24) && (0 <=? mi) && (mi <? 60) && (0 <=? s) && (s <? 60)
  && (0 <=? us) && (us <? 1000000).

(** A canonical UTC instant: the fields of an aware [datetime] after [require_utc]. *)
Record datetime : Type := mkDatetime {
  year : Z; month : Z; day : Z; hour : Z; minute : Z; second : Z; microsecond : Z;
  datetime_ok : datetime_valid year month day hour minute second microsecond = true
}.

Lemma datetime_eq (a b : datetime) :
  year a = year b -> month a = month b -> day a = day b -> hour a = hour b ->
  minute a = minute b -> second a = second b -> microsecond a = microsecond b -> a = b.
Proof. destruct a, b; simpl. intros; subst. f_equal. apply eq_pi, _. Qed.

#[export] Instance datetime_eq_dec : EqDecision datetime.
Proof.
  intros a b.
  destruct (decide ((year a, month a, day a, hour a, minute a, second a, microsecond a) =
                    (year b, month b, day b, hour b, minute b, second b, microsecond b))) as [H|H].
  - left. injection H as ? ? ? ? ? ? ?. by apply datetime_eq.
  - right. by intros ->.
Defined.

(** [require_utc]: an aware datetime at offset zero; [None] is a naive one. *)
Definition require_utc (wall : datetime) (utcoffset : option Z) : res datetime :=
  raise_if negb (bool_decide (utcoffset = Some 0)) with TimeValidationError ;;
  Ok wall.

(** [value.strftime("%Y-%m-%dT%H:%M:%S.%fZ")], with the four-digit year of ISO 8601. *)
Definition utc_text (t : datetime) : string :=
  text_of (zero_pad 4 (digits (year t)) ++ "-"%char :: zero_pad 2 (digits (month t))
    ++ "-"%char :: zero_pad 2 (digits (day t)) ++ "T"%char :: zero_pad 2 (digits (hour t))
    ++ ":"%char :: zero_pad 2 (digits (minute t)) ++ ":"%char :: zero_pad 2 (digits (second t))
    ++ "."%char :: zero_pad 6 (digits (microsecond t)) ++ ["Z"%char]).

(** Microseconds since 0001-01-01, the ordering and difference of datetimes. *)
Definition days_before_year (y : Z) : Z :=
  let p := y - 1 in p * 365 + p / 4 - p / 100 + p / 400.
Definition days_before_month (y m : Z) : Z :=
  fold_left (fun acc k => acc + days_in_month y k)
    (map Z.of_nat (seq 1 (Z.to_nat (m - 1)))) 0.
Definition microseconds (t : datetime) : Z :=
  (((days_before_year (year t) + days_before_month (year t) (month t) + day t) * 86400
    + hour t * 3600 + minute t * 60 + second t) * 1000000) + microsecond t.

Lemma zero_pad_inj w m n : (0 < w)%nat -> 0 <= m < 10 ^ Z.of_nat w -> 0 <= n < 10 ^ Z.of_nat w ->
  zero_pad w (digits m) = zero_pad w (digits n) -> m = n.
Proof.
  intros Hw Hm Hn H. destruct (zero_pad_digits w m Hm Hw) as (_ & _ & <-).
  rewrite H. by apply zero_pad_digits.
Qed.

Lemma datetime_ranges t :
  0 <= year t < 10 ^ 4 /\ 0 <= month t < 10 ^ 2 /\ 0 <= day t < 10 ^ 2 /\ 0 <= hour t < 10 ^ 2 /\
  0 <= minute t < 10 ^ 2 /\ 0 <= second t < 10 ^ 2 /\ 0 <= microsecond t < 10 ^ 6.
Proof.
  destruct t as [y mo d h mi s us H]; simpl. unfold datetime_valid in H.
  rewrite !andb_true_iff, !Z.leb_le, !Z.ltb_lt in H.
  change (10 ^ 4) with 10000. change (10 ^ 2) with 100. change (10 ^ 6) with 1000000.
  assert (days_in_month y mo <= 31).
  { unfold days_in_month. repeat case_match; lia. }
  lia.
Qed.

(** The canonical time text determines the instant. *)
Lemma utc_text_inj : Inj (=) (=) utc_text.
Proof.
  intros a b H. apply (inj text_of) in H.
  destruct (datetime_ranges a) as (A1 & A2 & A3 & A4 & A5 & A6 & A7).
  destruct (datetime_ranges b) as (B1 & B2 & B3 & B4 & B5 & B6 & B7).
  assert (forall w m n r q, (0 < w)%nat -> 0 <= m < 10 ^ Z.of_nat w -> 0 <= n < 10 ^ Z.of_nat w ->
    zero_pad w (digits m) ++ r = zero_pad w (digits n) ++ q -> m = n /\ r = q) as Hstep.
  { intros w m n r q Hw Hm Hn Heq. apply app_inj_1 in Heq as [Heq ->].
    - split; [by apply (zero_pad_inj w)|done].
    - destruct (zero_pad_digits w m Hm Hw) as (_ & -> & _).
      by destruct (zero_pad_digits w n Hn Hw) as (_ & -> & _). }
  apply Hstep in H as [H1 H]; [|lia|done..]. injection H as H.
  apply Hstep in H as [H2 H]; [|lia|done..]. injection H as H.
  apply Hstep in H as [H3 H]; [|lia|done..]. injection H as H.
  apply Hstep in H as [H4 H]; [|lia|done..]. injection H as H.
  apply Hstep in H as [H5 H]; [|lia|done..]. injection H as H.
  apply Hstep in H as [H6 H]; [|lia|done..]. injection H as H.
  apply Hstep in H as [H7 H]; [|lia|done..].
  by apply datetime_eq.
Qed.

(** ** Economic identities *)

Inductive EconomicOwnerKind : Type :=
| STRATEGY_SIGNAL | PORTFOLIO_TARGET | PORTFOLIO_INTENT | RISK_DECISION | RISK_APPROVAL
| EXECUTION_ORDER | EXECUTION_FILL | RUNTIME_DISPATCH | AUDIT_RECORD | LEDGER_ENTRY
| RECONCILIATION_OBSERVATION | RECONCILIATION_AUTHORIZATION | RECONCILIATION_ADJUSTMENT.

Definition owner_kind_value (k : EconomicOwnerKind) : string :=
  match k with
  | STRATEGY_SIGNAL => "strategy.signal"
  | PORTFOLIO_TARGET => "portfolio.target"
  | PORTFOLIO_INTENT => "portfolio.intent"
  | RISK_DECISION => "risk.decision"
  | RISK_APPROVAL => "risk.approval"
  | EXECUTION_ORDER => "execution.order"
  | EXECUTION_FILL => "execution.fill"
  | RUNTIME_DISPATCH => "runtime.dispatch"
  | AUDIT_RECORD => "audit.record"
  | LEDGER_ENTRY => "ledger.entry"
  | RECONCILIATION_OBSERVATION => "reconciliation.observation"
  | RECONCILIATION_AUTHORIZATION => "reconciliation.authorization"
  | RECONCILIATION_ADJUSTMENT => "reconciliation.adjustment"
  end.

Definition OWNER_KINDS : list EconomicOwnerKind :=
  [STRATEGY_SIGNAL; PORTFOLIO_TARGET; PORTFOLIO_INTENT; RISK_DECISION; RISK_APPROVAL;
   EXECUTION_ORDER; EXECUTION_FILL; RUNTIME_DISPATCH; AUDIT_RECORD; LEDGER_ENTRY;
   RECONCILIATION_OBSERVATION; RECONCILIATION_AUTHORIZATION; RECONCILIATION_ADJUSTMENT].

Definition owner_kind_of_value (s : string) : option EconomicOwnerKind :=
  List.find (fun k => bool_decide (owner_kind_value k = s)) OWNER_KINDS.

#[export] Instance EconomicOwnerKind_eq_dec : EqDecision EconomicOwnerKind.
Proof. solve_decision. Defined.
#[export] Program Instance EconomicOwnerKind_countable : Countable EconomicOwnerKind :=
  inj_countable owner_kind_value owner_kind_of_value _.
Next Obligation. by intros []. Qed.

#[export] Instance owner_kind_value_inj : Inj (=) (=) owner_kind_value.
Proof. intros a b. by destruct a, b. Qed.

Record EconomicId : Type := mkEconomicId {
  id_run_id : RunId;
  owner_kind : EconomicOwnerKind;
  owner_sequence : Z
}.

#[export] Instance EconomicId_eq_dec : EqDecision EconomicId.
Proof. solve_decision. Defined.
#[export] Program Instance EconomicId_countable : Countable EconomicId :=
  inj_countable' (fun i => (id_run_id i, owner_kind i, owner_sequence i))
    (fun p => mkEconomicId p.1.1 p.1.2 p.2) _.
Next Obligation. by intros []. Qed.

Definition IDENTITY_ERROR_CODES : list OutcomeCode := [INVALID_TYPE; OUT_OF_RANGE; CONFLICTING_ID].
Definition raise_identity (c : OutcomeCode) : exn :=
  if permitted IDENTITY_ERROR_CODES c then ExecutionIdentityError c else TypeError.

Definition _require_uint64 (v : Z) : res Z :=
  raise_if (v <? 0) || (MAX_UINT64 <? v) with raise_identity OUT_OF_RANGE ;;
  Ok v.
Definition _require_non_negative_integer (v : Z) : res Z :=
  raise_if v <? 0 with raise_identity OUT_OF_RANGE ;;
  Ok v.

(** [EconomicId(run_id, owner_kind, owner_sequence)]. *)
Definition EconomicId_init (run_id : RunId) (kind : EconomicOwnerKind) (sequence : Z)
  : res EconomicId :=
  let* sequence := _require_uint64 sequence in
  Ok (mkEconomicId run_id kind sequence).

Definition require_owner_kind (i : EconomicId) (expected : EconomicOwnerKind) : res EconomicId :=
  raise_if negb (bool_decide (owner_kind i = expected)) with raise_identity CONFLICTING_ID ;;
  Ok i.
Definition require_same_run (a b : EconomicId) : res unit :=
  raise_if negb (bool_decide (id_run_id a = id_run_id b)) with raise_identity CONFLICTING_ID ;;
  Ok tt.

(** [_economic_id_key]: the sort key of identities in snapshots. *)
Definition _economic_id_key (i : EconomicId) : string * string * Z :=
  (value (id_run_id i), owner_kind_value (owner_kind i), owner_sequence i).

Lemma economic_id_key_inj : Inj (=) (=) _economic_id_key.
Proof.
  intros [r k s] [r' k' s'] [= Hr Hk ->]. f_equal; [by apply pattern_str_eq | by apply (inj owner_kind_value)].
Qed.

(** ** Fact and ingress identities *)

Inductive FactDedupIdentity : Type :=
| DedupExternal (v : ExternalFactId)
| DedupSequence (n : Z).

#[export] Instance FactDedupIdentity_eq_dec : EqDecision FactDedupIdentity.
Proof. solve_decision. Defined.
#[export] Program Instance FactDedupIdentity_countable : Countable FactDedupIdentity :=
  inj_countable' (fun d => match d with DedupExternal v => inl v | DedupSequence n => inr n end)
    (fun s => match s with inl v => DedupExternal v | inr n => DedupSequence n end) _.
Next Obligation. by intros []. Qed.

(** [ExternalFactId(value)] and [SourceNativeSequence(value)]. *)
Definition ExternalFactId_init (s : string) : res FactDedupIdentity :=
  let* v := pattern_str (raise_identity OUT_OF_RANGE) s in Ok (DedupExternal v).
Definition SourceNativeSequence_init (n : Z) : res FactDedupIdentity :=
  let* n := _require_non_negative_integer n in Ok (DedupSequence n).
Definition SourceNamespace_init (s : string) : res SourceNamespace :=
  pattern_str (raise_identity OUT_OF_RANGE) s.

Record FactDedupKey : Type := mkFactDedupKey {
  key_source : SourceNamespace;
  key_identity : FactDedupIdentity
}.

#[export] Instance FactDedupKey_eq_dec : EqDecision FactDedupKey.
Proof. solve_decision. Defined.
#[export] Program Instance FactDedupKey_countable : Countable FactDedupKey :=
  inj_countable' (fun k => (key_source k, key_identity k)) (fun p => mkFactDedupKey p.1 p.2) _.
Next Obligation. by intros []. Qed.

Record IngressIdentity : Type := mkIngressIdentity {
  ingress_source : SourceNamespace;
  ingress_sequence : Z
}.

#[export] Instance IngressIdentity_eq_dec : EqDecision IngressIdentity.
Proof. solve_decision. Defined.

Definition IngressIdentity_init (s : SourceNamespace) (n : Z) : res IngressIdentity :=
  let* n := _require_non_negative_integer n in Ok (mkIngressIdentity s n).

(** ** Canonical bytes of identities *)

Definition canonical_economic_id_bytes (i : EconomicId) : str :=
  encode_json (JDict
    [("canonicalization", JStr "ea-economic-id-v1");
     ("owner_kind", JStr (owner_kind_value (owner_kind i)));
     ("owner_sequence", JInt (owner_sequence i));
     ("run_id", JStr (value (id_run_id i)));
     ("schema_version", JInt 1)]%string).
Definition economic_id_digest `{Sha256} (i : EconomicId) : Sha256Digest :=
  _digest (domain "ea.economic-id.v1") (canonical_economic_id_bytes i).

(** A literal of the source with its double quotes written as apostrophes. *)
Definition quoted (s : string) : str :=
  map (fun c => if Ascii.eqb c "'"%char then quote else c) (chars s).

Definition _fact_dedup_kind (d : FactDedupIdentity) : string :=
  match d with DedupExternal _ => "external_id" | DedupSequence _ => "source_native_sequence" end.

(** [canonical_fact_dedup_identity_bytes]: encoded for an external id, spliced by hand
    for a sequence. *)
Definition canonical_fact_dedup_identity_bytes (d : FactDedupIdentity) : str :=
  match d with
  | DedupExternal v =>
      encode_json (JDict
        [("canonicalization", JStr "ea-fact-dedup-id-v1");
         ("kind", JStr "external_id");
         ("schema_version", JInt 1);
         ("value", JStr (value v))]%string)
  | DedupSequence n =>
      quoted "{'canonicalization':'ea-fact-dedup-id-v1','kind':'source_native_sequence','schema_version':1,'value':"
      ++ _non_negative_integer_bytes n ++ chars "}"
  end.

Definition canonical_ingress_identity_bytes (i : IngressIdentity) : str :=
  quoted "{'canonicalization':'ea-execution-ingress-id-v1','ingress_sequence':"
  ++ _non_negative_integer_bytes (ingress_sequence i)
  ++ quoted ",'schema_version':1,'source_namespace':"
  ++ encode_str (value (ingress_source i)) ++ chars "}".

Definition canonical_fact_dedup_key_bytes (k : FactDedupKey) : str :=
  let value_bytes :=
    match key_identity k with
    | DedupExternal v => encode_str (value v)
    | DedupSequence n => _non_negative_integer_bytes n
    end in
  quoted "{'canonicalization':'ea-fact-dedup-key-v1','identity':{'kind':"
  ++ encode_str (_fact_dedup_kind (key_identity k)) ++ quoted ",'value':" ++ value_bytes
  ++ quoted "},'schema_version':1,'source_namespace':"
  ++ encode_str (value (key_source k)) ++ chars "}".

(** ** Replay classification *)

Inductive IdentityDisposition : Type := NEW | EXACT_REPLAY | CONFLICT.

Inductive ReplayIdentity : Type :=
| ReplayEconomic (i : EconomicId)
| ReplayIngress (i : IngressIdentity)
| ReplayFact (k : FactDedupKey).

#[export] Instance ReplayIdentity_eq_dec : EqDecision ReplayIdentity.
Proof. solve_decision. Defined.

Definition replay_type (i : ReplayIdentity) : nat :=
  match i with ReplayEconomic _ => 0 | ReplayIngress _ => 1 | ReplayFact _ => 2 end.

Definition classify_identity_replay
  (existing_identity : ReplayIdentity) (existing_payload : str)
  (candidate_identity : ReplayIdentity) (candidate_payload : str) : res IdentityDisposition :=
  raise_if negb (bool_decide (replay_type existing_identity = replay_type candidate_identity))
    with raise_identity INVALID_TYPE ;;
  if bool_decide (existing_identity <> candidate_identity) then Ok NEW
  else if bool_decide (existing_payload = candidate_payload) then Ok EXACT_REPLAY
  else Ok CONFLICT.

(** ** The spliced bytes are the canonical encoding *)

Definition fact_dedup_key_document (k : FactDedupKey) : json :=
  JDict
    [("canonicalization", JStr "ea-fact-dedup-key-v1");
     ("identity", JDict
        [("kind", JStr (_fact_dedup_kind (key_identity k)));
         ("value", match key_identity k with
                   | DedupExternal v => JStr (value v)
                   | DedupSequence n => JInt n
                   end)]);
     ("schema_version", JInt 1);
     ("source_namespace", JStr (value (key_source k)))]%string.

Definition ingress_identity_document (i : IngressIdentity) : json :=
  JDict
    [("canonicalization", JStr "ea-execution-ingress-id-v1");
     ("ingress_sequence", JInt (ingress_sequence i));
     ("schema_version", JInt 1);
     ("source_namespace", JStr (value (ingress_source i)))]%string.

(** A sequence value is what its constructor accepts. *)
Definition dedup_identity_ok (d : FactDedupIdentity) : Prop :=
  match d with DedupExternal _ => True | DedupSequence n => 0 <= n end.

Lemma encode_str_quoted s : forallb (fun c => in_range "#"%char "["%char c || in_range "]"%char "~"%char c)
  (chars s) = true -> encode_str s = quote :: chars s ++ [quote].
Proof.
  unfold encode_str. intros H. do 2 f_equal. induction (chars s) as [|c l IH]; [done|].
  simpl in *. apply andb_true_iff in H as [Hc Hl]. rewrite (IH Hl).
  revert Hc. by destruct c as [[] [] [] [] [] [] [] []].
Qed.

Lemma non_negative_bytes_decimal n : 0 <= n -> _non_negative_integer_bytes n = _decimal_integer_bytes n.
Proof.
  intros Hn. rewrite decimal_integer_bytes_str_int, non_negative_integer_bytes_digits by done.
  unfold str_int. by destruct (Z.ltb_spec n 0); [lia|].
Qed.

(** [bytes_solve] compares two byte strings that differ only in how literals and the
    encodings of values are grouped. *)
Ltac bytes_solve :=
  do 3 (autorewrite with json; cbn [map fst snd join]);
  repeat match goal with
  | |- context [encode_str (value ?x)] => generalize (encode_str (value x)); intros ?
  | |- context [_decimal_integer_bytes ?x] => is_var x; generalize (_decimal_integer_bytes x); intros ?
  end;
  repeat (rewrite <-app_comm_cons || rewrite <-app_assoc);
  vm_compute; reflexivity.

Lemma fact_dedup_key_bytes_encode k : dedup_identity_ok (key_identity k) ->
  canonical_fact_dedup_key_bytes k = encode_json (fact_dedup_key_document k).
Proof.
  destruct k as [src [v|n]]; simpl; intros Hok;
    unfold canonical_fact_dedup_key_bytes, fact_dedup_key_document; cbn [key_identity key_source];
    rewrite ?non_negative_bytes_decimal by done; bytes_solve.
Qed.

Lemma ingress_identity_bytes_encode i : 0 <= ingress_sequence i ->
  canonical_ingress_identity_bytes i = encode_json (ingress_identity_document i).
Proof.
  destruct i as [src n]. cbn [ingress_sequence]. intros Hn.
  unfold canonical_ingress_identity_bytes, ingress_identity_document.
  cbn [ingress_sequence ingress_source]. rewrite non_negative_bytes_decimal by done. bytes_solve.
Qed.
