(* ===== verification/Chronology.v ===== *)
(** The order of instants: [microseconds] is injective on valid datetimes, so it orders
    them totally; datetimes can be keys of maps and components of sort keys. *)

From S2P Require Import Prelude PyRegex PyText Outcomes Json Identity.

Open Scope Z_scope.

(** ** Days *)

Definition year_length (y : Z) : Z := 365 + (if is_leap y then 1 else 0).

Lemma days_before_year_succ y : days_before_year (y + 1) = days_before_year y + year_length y.
Proof.
  unfold days_before_year, year_length, is_leap. replace (y + 1 - 1) with y by lia.
  destruct (Z.eqb_spec (y mod 4) 0), (Z.eqb_spec (y mod 100) 0), (Z.eqb_spec (y mod 400) 0); cbn [negb andb orb];
    Z.to_euclidean_division_equations; lia.
Qed.

Lemma days_before_year_le a b : a <= b -> days_before_year a <= days_before_year b.
Proof.
  intros H. replace b with (a + Z.of_nat (Z.to_nat (b - a))) by lia.
  induction (Z.to_nat (b - a)) as [|n IH]; [by rewrite Z.add_0_r|].
  replace (a + Z.of_nat (S n)) with (a + Z.of_nat n + 1) by lia. rewrite days_before_year_succ.
  unfold year_length. destruct (is_leap _); lia.
Qed.

(** The twelve months, as the sum the code's table holds. *)
Lemma days_before_month_table y m : 1 <= m <= 12 ->
  days_before_month y m = let f := if is_leap y then 1 else 0 in
    match m with
    | 1 => 0 | 2 => 31 | 3 => 59 + f | 4 => 90 + f | 5 => 120 + f | 6 => 151 + f | 7 => 181 + f
    | 8 => 212 + f | 9 => 243 + f | 10 => 273 + f | 11 => 304 + f | 12 => 334 + f | _ => 0
    end.
Proof.
  intros H. assert (m = 1 \/ m = 2 \/ m = 3 \/ m = 4 \/ m = 5 \/ m = 6 \/ m = 7 \/ m = 8 \/ m = 9 \/ m = 10 \/ m = 11
    \/ m = 12) as Hm by lia.
  unfold days_before_month, days_in_month. destruct (is_leap y); repeat destruct Hm as [->|Hm]; subst; reflexivity.
Qed.

Lemma days_before_month_step y m n d : 1 <= m < n -> n <= 12 -> d <= days_in_month y m ->
  days_before_month y m + d <= days_before_month y n.
Proof.
  intros Hm Hn Hd. rewrite !days_before_month_table by lia. unfold days_in_month in Hd.
  assert (m = 1 \/ m = 2 \/ m = 3 \/ m = 4 \/ m = 5 \/ m = 6 \/ m = 7 \/ m = 8 \/ m = 9 \/ m = 10 \/ m = 11) as Em by lia.
  assert (n = 2 \/ n = 3 \/ n = 4 \/ n = 5 \/ n = 6 \/ n = 7 \/ n = 8 \/ n = 9 \/ n = 10 \/ n = 11 \/ n = 12) as En by lia.
  revert Hd; destruct (is_leap y); intros Hd; repeat destruct Em as [->|Em]; subst; cbn in Hd; repeat destruct En as [->|En]; subst; cbn; lia.
Qed.

Lemma day_of_year_bound y m d : 1 <= m <= 12 -> d <= days_in_month y m ->
  days_before_month y m + d <= year_length y.
Proof.
  intros Hm Hd. rewrite days_before_month_table by lia. unfold days_in_month in Hd. unfold year_length.
  assert (m = 1 \/ m = 2 \/ m = 3 \/ m = 4 \/ m = 5 \/ m = 6 \/ m = 7 \/ m = 8 \/ m = 9 \/ m = 10 \/ m = 11 \/ m = 12)
    as Em by lia.
  revert Hd; destruct (is_leap y); intros Hd; repeat destruct Em as [->|Em]; subst; cbn in Hd |- *; lia.
Qed.

Lemma days_before_month_nonneg y m : 1 <= m <= 12 -> 0 <= days_before_month y m.
Proof.
  intros Hm. destruct (decide (m = 1)) as [->|]; [done|].
  transitivity (days_before_month y 1 + 0); [done|]. apply days_before_month_step; [lia..|].
  unfold days_in_month. repeat case_match; lia.
Qed.

Definition ordinal (t : datetime) : Z :=
  days_before_year (year t) + days_before_month (year t) (month t) + day t.
Definition time_of_day (t : datetime) : Z :=
  (hour t * 3600 + minute t * 60 + second t) * 1000000 + microsecond t.

Lemma datetime_fields t : 1 <= month t <= 12 /\ 1 <= day t <= days_in_month (year t) (month t) /\
  0 <= hour t < 24 /\ 0 <= minute t < 60 /\ 0 <= second t < 60 /\ 0 <= microsecond t < 1000000.
Proof.
  destruct t as [y mo d h mi s us H]; cbn. unfold datetime_valid in H.
  rewrite !andb_true_iff, !Z.leb_le, !Z.ltb_lt in H. lia.
Qed.

Lemma ordinal_year a b : year a < year b -> ordinal a < ordinal b.
Proof.
  intros H. destruct (datetime_fields a) as (Hm & Hd & _), (datetime_fields b) as (Hm' & Hd' & _).
  pose proof (day_of_year_bound (year a) (month a) (day a)). pose proof (days_before_month_nonneg (year b) (month b) Hm').
  pose proof (days_before_year_le (year a + 1) (year b)). rewrite days_before_year_succ in *. unfold ordinal. lia.
Qed.

Lemma ordinal_inj a b : ordinal a = ordinal b -> year a = year b /\ month a = month b /\ day a = day b.
Proof.
  intros H. assert (year a = year b) as Hy.
  { destruct (Z.lt_trichotomy (year a) (year b)) as [Hl|[He|Hl]]; [|done|]; apply ordinal_year in Hl; lia. }
  destruct (datetime_fields a) as (Hm & Hd & _), (datetime_fields b) as (Hm' & Hd' & _).
  unfold ordinal in H. rewrite <-Hy in *. split; [done|].
  destruct (Z.lt_trichotomy (month a) (month b)) as [Hl|[He|Hl]].
  - pose proof (days_before_month_step (year a) (month a) (month b) (day a)). lia.
  - rewrite He in *. lia.
  - pose proof (days_before_month_step (year a) (month b) (month a) (day b)). lia.
Qed.

(** ** Instants *)

Lemma microseconds_split t : microseconds t = ordinal t * 86400000000 + time_of_day t.
Proof. unfold microseconds, ordinal, time_of_day. lia. Qed.

Lemma time_of_day_bound t : 0 <= time_of_day t < 86400000000.
Proof. destruct (datetime_fields t) as (_ & _ & H). unfold time_of_day. lia. Qed.

#[export] Instance microseconds_inj : Inj (=) (=) microseconds.
Proof.
  intros a b H. rewrite !microseconds_split in H.
  pose proof (time_of_day_bound a). pose proof (time_of_day_bound b).
  assert (ordinal a = ordinal b /\ time_of_day a = time_of_day b) as [Ho Ht] by lia.
  apply ordinal_inj in Ho as (? & ? & ?).
  destruct (datetime_fields a) as (_ & _ & Ha), (datetime_fields b) as (_ & _ & Hb).
  unfold time_of_day in Ht. apply datetime_eq; lia.
Qed.

(** Datetimes compare as their distance from a fixed instant. *)
#[export] Program Instance py_ord_datetime : PyOrd datetime :=
  {| py_le a b := microseconds a <=? microseconds b |}.
Next Obligation. intros x y. cbn. lia. Qed.
Next Obligation. intros x y z. cbn. lia. Qed.
Next Obligation. intros x y. cbn. intros. apply (inj microseconds). lia. Qed.

Lemma py_le_datetime a b : py_le a b = (microseconds a <=? microseconds b).
Proof. done. Qed.

#[export] Program Instance datetime_countable : Countable datetime :=
  inj_countable (fun t => (year t, month t, day t, hour t, minute t, second t, microsecond t))
    (fun '(y, mo, d, h, mi, s, us) =>
       match decide (datetime_valid y mo d h mi s us = true) with
       | left H => Some (mkDatetime y mo d h mi s us H)
       | right _ => None
       end) _.
Next Obligation. intros [y mo d h mi s us H]. cbn. case_decide; [|done]. f_equal. by apply datetime_eq. Qed.

(** Tuples compare by their first components first. *)
Lemma py_le_fst `{EqDecision A, PyOrd A, PyOrd B} (x y : A * B) : py_le x y = true -> py_le x.1 y.1 = true.
Proof. cbn. case_decide as He; [|done]. intros _. rewrite He. apply py_le_refl. Qed.
Lemma py_le_snd `{EqDecision A, PyOrd A, PyOrd B} (a : A) (x y : B) : py_le (a, x) (a, y) = py_le x y.
Proof. cbn. by case_decide. Qed.
Lemma py_lt_fst `{EqDecision A, PyOrd A, PyOrd B} (a c : A) (x y : B) :
  py_le c a = false -> py_le (a, x) (c, y) = true.
Proof.
  cbn. intros Hca. case_decide as He; [|by destruct (py_le_total a c); [done|congruence]].
  cbn in He. subst. by rewrite py_le_refl in Hca.
Qed.
