(* ===== verification/MarketData.v ===== *)
(** Canonical OHLCV values, point-in-time visibility and deterministic admission
    ([core/market_data.py]).  A Python [float] is an IEEE 754 binary64 number; an aware
    datetime argument is its wall time with its UTC offset; [clock.now()] is an argument.
    The dictionaries of [_validated_events] are finite maps, and the histories, whose
    order the code iterates in, a list in insertion order. *)

From Stdlib Require Import SpecFloat.
From S2P Require Import Prelude PyRegex PyText Outcomes Json Identity Chronology.

Open Scope Z_scope.

(** ** Sources and floats *)

(** [[a-z0-9][a-z0-9._-]{0,63}] *)
Definition _SOURCE_PATTERN : regex :=
  Cat (Cls (fun c => LOWER c || is_digit c)) (UpTo 63 (Cls (fun c => LOWER c || is_digit c || one_of "._-" c))).

Inductive MarketDataKind : Type := BAR.
Definition market_data_kind_value (k : MarketDataKind) : string := match k with BAR => "bar" end.
Inductive Adjustment : Type := RAW.
Definition adjustment_value (a : Adjustment) : string := match a with RAW => "raw" end.

Abbreviation SourceId := (PatternStr _SOURCE_PATTERN).
Definition SourceId_init (code : string) : res SourceId := pattern_str MarketDataValidationError code.

Record float64 : Type := mkFloat {
  float_value : spec_float;
  float_ok : valid_binary 53 1024 float_value = true
}.
#[export] Instance spec_float_eq_dec : EqDecision spec_float.
Proof. solve_decision. Defined.
#[export] Instance float64_eq_dec : EqDecision float64.
Proof.
  intros [x Hx] [y Hy]. destruct (decide (x = y)) as [->|Hn]; [left; f_equal; apply eq_pi, _|].
  right. by intros [= ?].
Defined.
Definition isfinite (x : float64) : bool :=
  match float_value x with S754_zero _ | S754_finite _ _ _ => true | _ => false end.
Definition float_le (x y : float64) : bool := SFleb (float_value x) (float_value y).
Definition float_lt (x y : float64) : bool := SFltb (float_value x) (float_value y).
Definition float_eqb (x y : float64) : bool := SFeqb (float_value x) (float_value y).
Definition float_zero : float64 := mkFloat (S754_zero false) eq_refl.

Definition _require_finite_float (x : float64) : res unit :=
  raise_if negb (isfinite x) with MarketDataValidationError ;; Ok tt.
Definition _require_nonnegative_int (n : Z) : res unit :=
  raise_if n <? 0 with MarketDataValidationError ;; Ok tt.

(** ** Bars and envelopes *)

Record Bar : Type := mkBar {
  bar_instrument : Instrument;
  interval_start : datetime;
  interval_end : datetime;
  adjustment : Adjustment;
  bar_open : float64;
  bar_high : float64;
  bar_low : float64;
  bar_close : float64;
  bar_volume : float64
}.

#[export] Instance Adjustment_eq_dec : EqDecision Adjustment.
Proof. solve_decision. Defined.
#[export] Instance Bar_eq_dec : EqDecision Bar.
Proof. solve_decision. Defined.

(** [Bar.__post_init__] *)
Definition Bar_init (instrument : Instrument) (start end_ : datetime * option Z) (adj : Adjustment)
    (open high low close volume : float64) : res Bar :=
  let* interval_start := require_utc start.1 start.2 in
  let* interval_end := require_utc end_.1 end_.2 in
  raise_if microseconds interval_end <=? microseconds interval_start with MarketDataValidationError ;;
  let* _ := rmap _require_finite_float [open; high; low; close; volume] in
  raise_if negb (float_le low open && float_le open high) with MarketDataValidationError ;;
  raise_if negb (float_le low close && float_le close high) with MarketDataValidationError ;;
  raise_if float_lt volume float_zero with MarketDataValidationError ;;
  Ok (mkBar instrument interval_start interval_end adj open high low close volume).

Definition bar_kind (b : Bar) : MarketDataKind := BAR.
Definition bar_event_time (b : Bar) : datetime := interval_end b.

Record MarketDataEnvelope : Type := mkEnvelope {
  payload : Bar;
  source : SourceId;
  available_at : datetime;
  source_sequence : Z;
  revision : Z
}.
#[export] Instance MarketDataEnvelope_eq_dec : EqDecision MarketDataEnvelope.
Proof. solve_decision. Defined.
Definition event_kind (e : MarketDataEnvelope) : MarketDataKind := bar_kind (payload e).
Definition event_time (e : MarketDataEnvelope) : datetime := bar_event_time (payload e).

(** [MarketDataEnvelope.__post_init__] *)
Definition MarketDataEnvelope_init (bar : Bar) (src : SourceId) (available : datetime * option Z) (sequence rev : Z)
    : res MarketDataEnvelope :=
  let* available_at := require_utc available.1 available.2 in
  let* _ := _require_nonnegative_int sequence in
  let* _ := _require_nonnegative_int rev in
  raise_if microseconds available_at <? microseconds (bar_event_time bar) with MarketDataValidationError ;;
  Ok (mkEnvelope bar src available_at sequence rev).

Definition MarketDataLogicalKey : Type := string * (string * (string * (datetime * (datetime * (string * string))))).
Definition MarketDataRecordKey : Type := MarketDataLogicalKey * Z.
Definition MarketDataEmissionKey : Type := string * Z.
Definition AdmissionOrderKey : Type :=
  datetime * (datetime * (Z * (string * (Z * (string * (string * (datetime * (datetime * (string * Z))))))))).

Definition logical_key (e : MarketDataEnvelope) : MarketDataLogicalKey :=
  let b := payload e in
  (market_data_kind_value (bar_kind b), (value (venue (bar_instrument b)), (value (symbol (bar_instrument b)),
   (interval_start b, (interval_end b, (adjustment_value (adjustment b), value (source e))))))).
Definition record_key (e : MarketDataEnvelope) : MarketDataRecordKey := (logical_key e, revision e).
Definition emission_key (e : MarketDataEnvelope) : MarketDataEmissionKey := (value (source e), source_sequence e).

Definition admission_order_key (e : MarketDataEnvelope) : AdmissionOrderKey :=
  let b := payload e in
  (available_at e, (event_time e, (0, (value (source e), (source_sequence e, (value (venue (bar_instrument b)),
   (value (symbol (bar_instrument b)), (interval_start b, (interval_end b, (adjustment_value (adjustment b),
    revision e)))))))))).

(** [==] of two frozen dataclasses compares their fields in turn, floats as numbers. *)
Definition Bar_eqb (a b : Bar) : bool :=
  bool_decide (bar_instrument a = bar_instrument b) && bool_decide (interval_start a = interval_start b)
  && bool_decide (interval_end a = interval_end b)
  && bool_decide (adjustment_value (adjustment a) = adjustment_value (adjustment b))
  && float_eqb (bar_open a) (bar_open b) && float_eqb (bar_high a) (bar_high b) && float_eqb (bar_low a) (bar_low b)
  && float_eqb (bar_close a) (bar_close b) && float_eqb (bar_volume a) (bar_volume b).
Definition envelope_eqb (a b : MarketDataEnvelope) : bool :=
  Bar_eqb (payload a) (payload b) && bool_decide (source a = source b)
  && bool_decide (available_at a = available_at b) && (source_sequence a =? source_sequence b)
  && (revision a =? revision b).

(** ** Validation and order *)

Record batch : Type := mkBatch {
  records : gmap MarketDataRecordKey MarketDataEnvelope;
  emissions : gmap MarketDataEmissionKey MarketDataEnvelope;
  order_keys : gmap AdmissionOrderKey MarketDataEnvelope;
  histories : list (MarketDataLogicalKey * list MarketDataEnvelope)
}.
Definition empty_batch : batch := mkBatch ∅ ∅ ∅ [].

(** [histories.setdefault(key, []).append(event)] *)
Fixpoint setdefault_append (k : MarketDataLogicalKey) (e : MarketDataEnvelope)
    (hs : list (MarketDataLogicalKey * list MarketDataEnvelope)) :=
  match hs with
  | [] => [(k, [e])]
  | (k', h) :: hs => if decide (k' = k) then (k', h ++ [e]) :: hs else (k', h) :: setdefault_append k e hs
  end.

Definition collect (b : batch) (e : MarketDataEnvelope) : res batch :=
  raise_if bool_decide (is_Some (records b !! record_key e)) with MarketDataValidationError ;;
  raise_if bool_decide (is_Some (emissions b !! emission_key e)) with MarketDataValidationError ;;
  raise_if bool_decide (is_Some (order_keys b !! admission_order_key e)) with MarketDataValidationError ;;
  Ok (mkBatch (<[record_key e := e]> (records b)) (<[emission_key e := e]> (emissions b))
        (<[admission_order_key e := e]> (order_keys b)) (setdefault_append (logical_key e) e (histories b))).

Fixpoint collect_all (b : batch) (events : list MarketDataEnvelope) : res batch :=
  match events with
  | [] => Ok b
  | e :: events => let* b := collect b e in collect_all b events
  end.

(** The pairs of [pairwise(by_revision)]. *)
Fixpoint history_ok (h : list MarketDataEnvelope) : bool :=
  match h with
  | earlier :: ((later :: _) as h') =>
      (microseconds (available_at earlier) <=? microseconds (available_at later))
      && (source_sequence earlier <? source_sequence later) && history_ok h'
  | _ => true
  end.

Definition _validated_events (events : list MarketDataEnvelope) : res (list MarketDataEnvelope) :=
  let* b := collect_all empty_batch events in
  raise_if negb (forallb (fun h => history_ok (py_sorted revision h.2)) (histories b))
    with MarketDataValidationError ;;
  Ok events.

Definition validate_market_data_batch (events : list MarketDataEnvelope) : res unit :=
  let* _ := _validated_events events in Ok tt.

Definition order_market_data (events : list MarketDataEnvelope) : res (list MarketDataEnvelope) :=
  let* events := _validated_events events in Ok (py_sorted admission_order_key events).

(** ** Visibility *)

Definition visible (e : MarketDataEnvelope) (cutoff : datetime) : bool :=
  (microseconds (event_time e) <=? microseconds cutoff) && (microseconds (available_at e) <=? microseconds cutoff).
Definition is_visible_as_of (e : MarketDataEnvelope) (as_of : datetime * option Z) : res bool :=
  let* cutoff := require_utc as_of.1 as_of.2 in Ok (visible e cutoff).

Definition select_latest (selected : gmap MarketDataLogicalKey MarketDataEnvelope) (cutoff : datetime)
    (e : MarketDataEnvelope) : gmap MarketDataLogicalKey MarketDataEnvelope :=
  if negb (visible e cutoff) then selected
  else match selected !! logical_key e with
       | None => <[logical_key e := e]> selected
       | Some prior => if revision prior <? revision e then <[logical_key e := e]> selected else selected
       end.

Definition latest_as_of (events : list MarketDataEnvelope) (as_of : datetime * option Z)
    : res (list MarketDataEnvelope) :=
  let* cutoff := require_utc as_of.1 as_of.2 in
  let* ordered := order_market_data events in
  let selected := fold_left (fun s e => select_latest s cutoff e) ordered ∅ in
  Ok (py_sorted admission_order_key (map snd (map_to_list selected))).

(** ** Admission *)

Record AdmissionCursor : Type := mkCursor { cursor_as_of : datetime; last_event : option MarketDataEnvelope }.

(** [AdmissionCursor.__post_init__] *)
Definition AdmissionCursor_init (as_of : datetime * option Z) (last : option MarketDataEnvelope) : res AdmissionCursor :=
  let* as_of := require_utc as_of.1 as_of.2 in
  match last with
  | None => Ok (mkCursor as_of None)
  | Some e => raise_if negb (visible e as_of) with MarketDataValidationError ;; Ok (mkCursor as_of (Some e))
  end.

Definition admit_market_data (history : list MarketDataEnvelope) (clock_now : datetime * option Z)
    (cursor : option AdmissionCursor) (limit : option Z) : res (AdmissionCursor * list MarketDataEnvelope) :=
  let* as_of := require_utc clock_now.1 clock_now.2 in
  raise_if match cursor with
           | Some c => microseconds as_of <? microseconds (cursor_as_of c)
           | None => false
           end with MarketDataValidationError ;;
  raise_if match limit with Some l => l <=? 0 | None => false end with MarketDataValidationError ;;
  let* ordered_history := order_market_data history in
  let previous := match cursor with Some c => last_event c | None => None end in
  raise_if match previous with
           | Some e => negb (existsb (fun x => envelope_eqb x e) ordered_history)
           | None => false
           end with MarketDataValidationError ;;
  let previous_key := option_map admission_order_key previous in
  let candidates := List.filter (fun e => visible e as_of
    && match previous_key with
       | None => true
       | Some k => negb (py_le (admission_order_key e) k)
       end) ordered_history in
  let admitted := match limit with None => candidates | Some l => take (Z.to_nat l) candidates end in
  let last := match last admitted with Some e => Some e | None => previous end in
  let* cursor := AdmissionCursor_init (as_of, Some 0) last in
  Ok (cursor, admitted).

(** ** A sequence of calls *)

(** A reader of the history: each call passes the cursor the call before it returned. *)
Fixpoint admit_each (history : list MarketDataEnvelope) (cursor : option AdmissionCursor)
    (calls : list (datetime * option Z)) : res (list (list MarketDataEnvelope)) :=
  match calls with
  | [] => Ok []
  | (now, limit) :: calls =>
      let* admission := admit_market_data history (now, Some 0) cursor limit in
      let* batches := admit_each history (Some admission.1) calls in
      Ok (admission.2 :: batches)
  end.
