(* ===== verification/MarketDataTheorems.v ===== *)
(** The specification of the market data view, its proofs, and the claims about market data with a concrete run. *)

From Stdlib Require Import SpecFloat.
From S2P Require Import Prelude PyRegex PyText Outcomes Json Identity Indexing Chronology MarketData.

Open Scope Z_scope.

(** *** What the market-data functions promise: which batches are consistent, the canonical
    order of a consistent batch, and the admission cursor as a position in that order. *)

(** ** Sorted lists without repeated keys *)

Section Cuts.
Context `{PyOrd K} {A : Type} (key : A -> K).
Implicit Types (l : list A) (x : A).

Lemma sorted_by_le l i j x y : sorted_by key l -> l !! i = Some x -> l !! j = Some y -> (i <= j)%nat ->
  py_le (key x) (key y) = true.
Proof.
  intros Hs. revert i j. induction Hs as [|z l Hs IH Hz]; intros i j Hi Hj Hij; [done|].
  destruct i as [|i], j as [|j]; cbn in Hi, Hj; try lia.
  - injection Hi as <-. injection Hj as <-. apply py_le_refl.
  - injection Hi as <-. rewrite Forall_forall in Hz. apply Hz. by eapply list_elem_of_lookup_2.
  - eapply IH; [done..|lia].
Qed.

Lemma NoDup_keys_lt l i j x y : sorted_by key l -> NoDup (key <$> l) -> l !! i = Some x -> l !! j = Some y ->
  py_le (key y) (key x) = false <-> (i < j)%nat.
Proof.
  intros Hs Hnd Hi Hj. split.
  - intros Hf. destruct (decide (i < j)%nat) as [|Hn]; [done|]. exfalso.
    rewrite (sorted_by_le l j i y x) in Hf; [done|done..|lia].
  - intros Hlt. apply not_true_iff_false. intros Ht.
    assert (key x = key y) as He.
    { apply py_le_antisym; [|done]. eapply (sorted_by_le l i j); [done..|lia]. }
    assert (i = j) as ->; [|lia].
    eapply (NoDup_lookup _ _ _ (key x) Hnd); rewrite list_lookup_fmap; [by rewrite Hi|by rewrite Hj, He].
Qed.

(** The elements after position [i] are those with a greater key. *)
Lemma filter_after l i x : sorted_by key l -> NoDup (key <$> l) -> l !! i = Some x ->
  List.filter (fun y => negb (py_le (key y) (key x))) l = drop (S i) l.
Proof.
  intros Hs Hnd Hi.
  assert (forall n, (n <= length l)%nat -> List.filter (fun y => negb (py_le (key y) (key x))) (drop (length l - n) l)
    = drop (Nat.max (S i) (length l - n)) l) as Hn.
  { induction n as [|n IH]; intros Hle.
    - rewrite Nat.sub_0_r, !drop_ge by lia. done.
    - destruct (lookup_lt_is_Some_2 l (length l - S n)) as [y Hy]; [lia|].
      rewrite (drop_S l y) by done. replace (S (length l - S n)) with (length l - n)%nat by lia. cbn [List.filter].
      rewrite IH by lia. destruct (decide (i < length l - S n)%nat) as [Hlt|Hge].
      + rewrite (proj2 (NoDup_keys_lt l i _ x y Hs Hnd Hi Hy) Hlt). cbn [negb].
        replace (Nat.max (S i) (length l - n)) with (S (length l - S n)) by lia.
        replace (Nat.max (S i) (length l - S n)) with (length l - S n)%nat by lia. by rewrite <-drop_S.
      + destruct (py_le (key y) (key x)) eqn:Hk; [cbn [negb]; f_equal; lia|].
        apply (NoDup_keys_lt l i _ x y Hs Hnd Hi Hy) in Hk. lia. }
  specialize (Hn (length l) ltac:(lia)). rewrite Nat.sub_diag in Hn. rewrite drop_0 in Hn. by rewrite Hn.
Qed.
End Cuts.

(** A predicate that later elements pass down to earlier ones selects a prefix. *)
Lemma filter_prefix {A} (P : A -> bool) l :
  (forall i j x y, l !! i = Some x -> l !! j = Some y -> (i <= j)%nat -> P y = true -> P x = true) ->
  List.filter P l = take (length (List.filter P l)) l.
Proof.
  induction l as [|x l IH]; intros Hd; [done|]. cbn [List.filter]. destruct (P x) eqn:Hx.
  - cbn. f_equal. apply IH. intros i j y z Hi Hj Hij. apply (Hd (S i) (S j)); [done..|lia].
  - replace (List.filter P l) with (@nil A); [done|]. symmetry.
    destruct (List.filter P l) as [|y l'] eqn:Hf; [done|]. exfalso.
    assert (In y (List.filter P l)) as [Hin Hy]%filter_In by (rewrite Hf; by left).
    apply list_elem_of_In, list_elem_of_lookup_1 in Hin as [j Hj].
    rewrite (Hd 0%nat (S j) x y) in Hx; [done|done..|lia|done].
Qed.

Lemma filter_filter {A} (P Q : A -> bool) l : List.filter (fun x => P x && Q x) l = List.filter Q (List.filter P l).
Proof.
  induction l as [|x l IH]; [done|]. cbn [List.filter]. destruct (P x); cbn [andb List.filter]; [|done].
  destruct (Q x); by rewrite IH.
Qed.

Lemma filter_length_le {A} (P Q : A -> bool) l : (forall x, P x = true -> Q x = true) ->
  (length (List.filter P l) <= length (List.filter Q l))%nat.
Proof.
  intros H. induction l as [|x l IH]; [done|]. cbn [List.filter].
  destruct (P x) eqn:Hx; [rewrite (H x Hx); cbn; lia|]. destruct (Q x); cbn; lia.
Qed.

(** ** Consistent batches *)

(** No record version, source emission or admission key twice, and the revisions of a
    logical record become available in order and are emitted in order. *)
Record consistent (events : list MarketDataEnvelope) : Prop := {
  cs_records : NoDup (record_key <$> events);
  cs_emissions : NoDup (emission_key <$> events);
  cs_order_keys : NoDup (admission_order_key <$> events);
  cs_revisions e f : e ∈ events -> f ∈ events -> logical_key e = logical_key f -> revision e < revision f ->
    microseconds (available_at e) <= microseconds (available_at f) /\ source_sequence e < source_sequence f
}.

Lemma consistent_perm events events' : events ≡ₚ events' -> consistent events -> consistent events'.
Proof.
  intros Hp [H1 H2 H3 H4]. split; [by rewrite <-Hp..|]. intros e f He Hf. apply H4; by rewrite Hp.
Qed.

Section Collect.

(** What the four dictionaries hold after the events seen so far. *)
Record collected (b : batch) (seen : list MarketDataEnvelope) : Prop := {
  co_records : indexes record_key id (records b) seen;
  co_emissions : indexes emission_key id (emissions b) seen;
  co_order_keys : indexes admission_order_key id (order_keys b) seen;
  co_nodup_records : NoDup (record_key <$> seen);
  co_nodup_emissions : NoDup (emission_key <$> seen);
  co_nodup_order_keys : NoDup (admission_order_key <$> seen);
  co_histories k h : (k, h) ∈ histories b -> h = List.filter (fun e => bool_decide (logical_key e = k)) seen;
  co_all e : e ∈ seen -> exists h, (logical_key e, h) ∈ histories b;
  co_keys : NoDup (fst <$> histories b)
}.

Lemma setdefault_append_fst k e hs :
  fst <$> setdefault_append k e hs = if bool_decide (k ∈ fst <$> hs) then fst <$> hs else (fst <$> hs) ++ [k].
Proof.
  induction hs as [|[k' h] hs IH]; [done|]. cbn. destruct (decide (k' = k)) as [->|Hn]; cbn.
  - rewrite bool_decide_true; [done|]. by left.
  - rewrite IH. case_bool_decide as Hin; case_bool_decide as Hin'; try done.
    + destruct Hin'. by right.
    + apply elem_of_cons in Hin' as [->|?]; done.
Qed.

Lemma setdefault_append_elem k e hs k' h : NoDup (fst <$> hs) ->
  ((k', h) ∈ setdefault_append k e hs) <->
  (k' <> k /\ (k', h) ∈ hs) \/
  (k' = k /\ ((exists h0, (k, h0) ∈ hs /\ h = h0 ++ [e]) \/ (~ (k ∈ fst <$> hs) /\ h = [e]))).
Proof.
  intros Hnd. induction hs as [|[k0 h0] hs IH]; cbn.
  - rewrite list_elem_of_singleton. split.
    + intros [= -> ->]. right. split; [done|]. right. split; [apply not_elem_of_nil|done].
    + intros [[_ H]|[-> [(? & H & _)|[_ ->]]]]; [by apply not_elem_of_nil in H..|done].
  - apply NoDup_cons in Hnd as [Hn Hnd]. cbn in Hn. destruct (decide (k0 = k)) as [->|Hk].
    + rewrite !elem_of_cons. split.
      * intros [[= -> ->]|Hin]; [right; split; [done|]; left; exists h0; by split; [left|]|].
        left. split; [|by right]. intros ->. destruct Hn. by apply (list_elem_of_fmap_2 fst _ (k, h)).
      * intros [[Hne [Heq|Hin]]|[-> [(h1 & [Heq|Hin]%elem_of_cons & ->)|[Hno _]]]]; simplify_eq; [by right|by left| |].
        -- destruct Hn. by apply (list_elem_of_fmap_2 fst _ (k, h1)).
        -- destruct Hno. by left.
    + rewrite !elem_of_cons, (IH Hnd). split.
      * intros [[= -> ->]|[[Hne Hin]|[-> [(h1 & Hin & ->)|[Hno ->]]]]].
        -- left. split; [done|by left].
        -- left. split; [done|by right].
        -- right. split; [done|]. left. exists h1. split; [by right|done].
        -- right. split; [done|]. right. split; [|done]. by intros [->|?].
      * intros [[Hne [Hin|Hin]]|[-> [(h1 & [Heq|Hin]%elem_of_cons & ->)|[Hno ->]]]].
        -- by left.
        -- right. by left.
        -- by simplify_eq.
        -- right. right. split; [done|]. left. by exists h1.
        -- right. right. split; [done|]. right. split; [|done]. intros Hin. apply Hno. by right.
Qed.

Lemma collected_nil : collected empty_batch [].
Proof.
  split; cbn; try apply indexes_nil; try apply NoDup_nil_2; intros; by match goal with H : _ ∈ [] |- _ => apply not_elem_of_nil in H end.
Qed.

Lemma collected_snoc b seen e : collected b seen -> record_key e ∉ record_key <$> seen ->
  emission_key e ∉ emission_key <$> seen -> admission_order_key e ∉ admission_order_key <$> seen ->
  exists b', collect b e = Ok b' /\ collected b' (seen ++ [e]).
Proof.
  intros [R E O NR NE NO Hh Ha Hk] Fr Fe Fo.
  assert (forall `{Countable K} (key : MarketDataEnvelope -> K) m, indexes key id m seen -> key e ∉ key <$> seen ->
    m !! key e = None) as Hnone.
  { intros K ?? key m Hm Hn. apply eq_None_not_Some. intros [v (x & Hx & Hkx & _)%Hm]. apply Hn. rewrite <-Hkx.
    by apply list_elem_of_fmap_2. }
  pose proof (Hnone _ _ _ _ _ R Fr) as R'. pose proof (Hnone _ _ _ _ _ E Fe) as E'. pose proof (Hnone _ _ _ _ _ O Fo) as O'.
  eexists. split; [unfold collect; rewrite R', E', O'; done|].
  split; cbn [records emissions order_keys histories].
  - by apply (indexes_snoc _ _ _ _ e R).
  - by apply (indexes_snoc _ _ _ _ e E).
  - by apply (indexes_snoc _ _ _ _ e O).
  - by apply (indexes_NoDup _ id _ _ e R).
  - by apply (indexes_NoDup _ id _ _ e E).
  - by apply (indexes_NoDup _ id _ _ e O).
  - intros k h. rewrite (setdefault_append_elem _ _ _ _ _ Hk), List.filter_app. cbn [List.filter].
    intros [[Hne Hin]|[-> [(h0 & Hin & ->)|[Hno ->]]]].
    + rewrite bool_decide_false by done. rewrite app_nil_r. by apply Hh.
    + rewrite bool_decide_true by done. f_equal. by apply Hh.
    + rewrite bool_decide_true by done. replace (List.filter _ seen) with (@nil MarketDataEnvelope); [done|]. symmetry.
      destruct (List.filter _ seen) as [|x l] eqn:Hf; [done|]. destruct Hno.
      assert (In x (x :: l)) as Hx by (by left). rewrite <-Hf in Hx. apply filter_In in Hx as [Hx Hl].
      apply bool_decide_eq_true in Hl. apply list_elem_of_In, Ha in Hx as [h Hx]. rewrite Hl in Hx.
      by apply (list_elem_of_fmap_2 fst _ (logical_key e, h)).
  - intros x. setoid_rewrite (fun k h => setdefault_append_elem k e (histories b) (logical_key x) h Hk).
    destruct (decide (logical_key x = logical_key e)) as [Hx|Hx].
    + intros _. destruct (decide (logical_key e ∈ fst <$> histories b)) as [Hin|Hno].
      * apply list_elem_of_fmap_1 in Hin as ([k h] & Hl & Hin). cbn in Hl. subst k.
        exists (h ++ [e]). right. split; [done|]. left. by exists h.
      * exists [e]. right. split; [done|]. by right.
    + rewrite elem_of_app, list_elem_of_singleton. intros [Hin| ->]; [|done].
      destruct (Ha x Hin) as [h Hin']. exists h. by left.
  - rewrite setdefault_append_fst. case_bool_decide as Hin; [done|].
    apply NoDup_app. split_and!; [done| |apply NoDup_singleton]. intros k Hk' ->%list_elem_of_singleton. done.
Qed.

Lemma collect_Ok b seen e b' : collected b seen -> collect b e = Ok b' -> collected b' (seen ++ [e]).
Proof.
  intros Hb He. unfold collect in He. repeat (case_bool_decide; [done|]). pose proof Hb as [R E O _ _ _ _ _ _].
  assert (forall `{Countable K} (key : MarketDataEnvelope -> K) m, indexes key id m seen -> ~ is_Some (m !! key e) ->
    key e ∉ key <$> seen) as Hn.
  { intros K ?? key m Hm Hns (x & Hx & Hin)%list_elem_of_fmap_1. destruct Hns. exists x. apply Hm. by exists x. }
  destruct (collected_snoc b seen e Hb) as (b'' & Hc' & Hb''); [by eapply Hn..|].
  unfold collect in Hc'. rewrite !bool_decide_false in Hc' by done.
  by rewrite <-(Ok_inj _ _ He), (Ok_inj _ _ Hc').
Qed.

Lemma collect_Raise b seen e err : collected b seen -> collect b e = Raise err ->
  err = MarketDataValidationError /\ (record_key e ∈ record_key <$> seen \/ emission_key e ∈ emission_key <$> seen \/
  admission_order_key e ∈ admission_order_key <$> seen).
Proof.
  intros [R E O _ _ _ _ _ _]. unfold collect.
  assert (forall `{Countable K} (key : MarketDataEnvelope -> K) m, indexes key id m seen -> is_Some (m !! key e) ->
    key e ∈ key <$> seen) as Hin.
  { intros K ?? key m Hm [v (x & Hx & <- & _)%Hm]. by apply list_elem_of_fmap_2. }
  case_bool_decide as H1; [intros [= <-]; eauto|]. case_bool_decide as H2; [intros [= <-]; eauto|].
  case_bool_decide as H3; [intros [= <-]; eauto 6|done].
Qed.
End Collect.

Lemma collect_all_Ok events b seen : collected b seen ->
  NoDup (record_key <$> seen ++ events) -> NoDup (emission_key <$> seen ++ events) ->
  NoDup (admission_order_key <$> seen ++ events) ->
  exists b', collect_all b events = Ok b' /\ collected b' (seen ++ events).
Proof.
  revert b seen. induction events as [|e events IH]; intros b seen Hb Hr He Ho.
  - exists b. by rewrite app_nil_r.
  - assert (forall {K} (key : MarketDataEnvelope -> K), NoDup (key <$> seen ++ e :: events) -> key e ∉ key <$> seen)
      as Hfresh.
    { intros K key Hnd. rewrite fmap_app, NoDup_app in Hnd. destruct Hnd as (_ & Hd & _). intros Hin.
      apply (Hd _ Hin). by left. }
    destruct (collected_snoc b seen e Hb) as (b' & Hc & Hb'); [by apply Hfresh..|].
    cbn [collect_all]. rewrite Hc. cbn [rbind].
    destruct (IH b' (seen ++ [e]) Hb') as (b'' & Hall & Hb''); try (by rewrite <-app_assoc).
    exists b''. split; [done|]. by rewrite <-app_assoc in Hb''.
Qed.

Lemma collect_all_Raise events b seen err : collected b seen -> collect_all b events = Raise err ->
  err = MarketDataValidationError /\ ~ (NoDup (record_key <$> seen ++ events) /\
    NoDup (emission_key <$> seen ++ events) /\ NoDup (admission_order_key <$> seen ++ events)).
Proof.
  intros Hb Hc. split.
  - revert b seen Hb Hc. induction events as [|e events IH]; intros b seen Hb Hc; [done|]. cbn in Hc.
    destruct (collect b e) as [b'|err'] eqn:He; cbn in Hc.
    + apply (IH b' (seen ++ [e])); [by apply (collect_Ok b)|done].
    + injection Hc as <-. by apply (collect_Raise b seen e).
  - intros (H1 & H2 & H3). destruct (collect_all_Ok events b seen Hb H1 H2 H3) as (b' & Hok & _). congruence.
Qed.

(** ** Histories *)

Definition in_turn (e f : MarketDataEnvelope) : Prop :=
  microseconds (available_at e) <= microseconds (available_at f) /\ source_sequence e < source_sequence f.

Lemma history_ok_sorted h : history_ok h = true <-> StronglySorted in_turn h.
Proof.
  split.
  - intros Hh. apply Sorted_StronglySorted; [intros x y z [] []; split; lia|].
    induction h as [|e [|f h] IH]; [constructor|repeat constructor|].
    cbn in Hh. apply andb_true_iff in Hh as [[Ha Hs]%andb_true_iff Hh]. constructor; [by apply IH|].
    constructor. split; lia.
  - intros Hs%StronglySorted_Sorted. induction Hs as [|e h Hs IH Hr]; [done|].
    destruct h as [|f h]; [done|]. inversion Hr as [|? ? [Ha Hb]]; subst. cbn in IH |- *. rewrite IH.
    rewrite !andb_true_iff. repeat split; [apply Z.leb_le, Ha|apply Z.ltb_lt, Hb].
Qed.

(** The revisions of one record, in the order of their numbers. *)
Lemma history_ok_revisions h : NoDup (revision <$> h) ->
  history_ok (py_sorted revision h) = true <->
  (forall e f, e ∈ h -> f ∈ h -> revision e < revision f -> in_turn e f).
Proof.
  intros Hnd. rewrite history_ok_sorted. pose proof (py_sorted_sorted revision h) as Hs.
  assert (NoDup (revision <$> py_sorted revision h)) as Hnd' by (by rewrite py_sorted_perm).
  setoid_rewrite <-(elem_of_py_sorted revision _ h). revert Hs Hnd'. generalize (py_sorted revision h). clear.
  intros l Hs Hnd. induction Hs as [|x l Hs IH Hx].
  - split; [|constructor]. intros _ e f He. by apply not_elem_of_nil in He.
  - cbn in Hnd. apply NoDup_cons in Hnd as [Hn Hnd]. rewrite Forall_forall in Hx. specialize (IH Hnd). split.
    + intros [Hl Hr]%StronglySorted_inv e f He Hf Hlt. rewrite Forall_forall in Hr.
      apply elem_of_cons in He as [->|He]; apply elem_of_cons in Hf as [->|Hf]; [lia|by apply Hr| |by apply IH].
      specialize (Hx e He). cbn in Hx. lia.
    + intros Hr. constructor; [apply IH; intros e f He Hf; apply Hr; by right|].
      apply Forall_forall. intros f Hf. apply Hr; [by left|by right|].
      specialize (Hx f Hf). cbn in Hx. assert (revision x <> revision f); [|lia].
      intros He. destruct Hn. rewrite He. by apply list_elem_of_fmap_2.
Qed.

Lemma histories_ok b events : collected b events ->
  forallb (fun h => history_ok (py_sorted revision h.2)) (histories b) = true <->
  (forall e f, e ∈ events -> f ∈ events -> logical_key e = logical_key f -> revision e < revision f -> in_turn e f).
Proof.
  intros Hb. assert (forall k h, (k, h) ∈ histories b -> NoDup (revision <$> h)) as Hnd.
  { intros k h Hin. rewrite (co_histories _ _ Hb k h Hin). pose proof (co_nodup_records _ _ Hb) as Hr. clear Hin Hb.
    induction events as [|e events IH]; [constructor|]. cbn in Hr. apply NoDup_cons in Hr as [Hn Hr].
    cbn [List.filter]. case_bool_decide as Hk; [|by apply IH]. cbn. apply NoDup_cons. split; [|by apply IH].
    intros (x & Hx & Hin)%list_elem_of_fmap_1. apply list_elem_of_In, filter_In in Hin as [Hin Hkx].
    apply bool_decide_eq_true in Hkx. destruct Hn. replace (record_key e) with (record_key x).
    - apply list_elem_of_fmap_2. by apply list_elem_of_In.
    - unfold record_key. by rewrite Hk, Hkx, Hx. }
  assert (forall k h e, (k, h) ∈ histories b -> e ∈ h <-> e ∈ events /\ logical_key e = k) as Hmem.
  { intros k h e Hin. rewrite (co_histories _ _ Hb k h Hin), !list_elem_of_In, filter_In, bool_decide_eq_true. done. }
  rewrite forallb_forall. split.
  - intros Hall e f He Hf Hk Hlt. destruct (co_all _ _ Hb e He) as [h Hh].
    apply (proj1 (history_ok_revisions h (Hnd _ _ Hh))); [apply (Hall (logical_key e, h)); by apply list_elem_of_In| | |done];
      by apply (Hmem _ _ _ Hh).
  - intros Hall [k h] Hin%list_elem_of_In. apply (history_ok_revisions h (Hnd _ _ Hin)).
    intros e f He%(Hmem _ _ _ Hin) Hf%(Hmem _ _ _ Hin). destruct He as [He <-], Hf as [Hf Hk]. by apply Hall.
Qed.

(** ** The canonical order *)

Lemma validated_events_cases events :
  (consistent events /\ _validated_events events = Ok events) \/
  (~ consistent events /\ _validated_events events = Raise MarketDataValidationError).
Proof.
  unfold _validated_events. destruct (collect_all empty_batch events) as [b|err] eqn:Hc; cbn [rbind].
  - assert (collected b events /\ NoDup (record_key <$> events) /\ NoDup (emission_key <$> events) /\
      NoDup (admission_order_key <$> events)) as (Hb & H1 & H2 & H3).
    { assert (collected b events) as Hb; [|split; [done|]; by destruct Hb].
      revert Hc. change events with ([] ++ events) at 2. generalize (@nil MarketDataEnvelope) as seen, empty_batch as b0, collected_nil.
      induction events as [|e events IH]; intros seen b0 H0 Hc.
      - rewrite app_nil_r. by rewrite <-(Ok_inj _ _ Hc).
      - cbn in Hc. apply rbind_Ok in Hc as (b1 & He & Hc). apply (IH (seen ++ [e])) in Hc.
        + by rewrite <-app_assoc in Hc.
        + by apply (collect_Ok b0). }
    pose proof (histories_ok b events Hb) as Hh.
    destruct (forallb _ (histories b)); cbn [negb].
    + left. split; [|done]. split; [done..|]. by apply Hh.
    + right. split; [|done]. intros [_ _ _ Hr]. by discriminate (proj2 Hh Hr).
  - right. apply (collect_all_Raise events empty_batch []) in Hc as [-> Hn]; [|apply collected_nil].
    split; [|done]. intros []. by apply Hn.
Qed.

Lemma validated_events_Ok events l : _validated_events events = Ok l <-> l = events /\ consistent events.
Proof.
  destruct (validated_events_cases events) as [[Hc ->]|[Hn ->]].
  - split; [intros [= <-]; auto|by intros [-> _]].
  - split; [done|]. by intros [_ ?].
Qed.

(** The canonical order of a batch: its sorted permutation, whatever order it came in. *)
Lemma order_market_data_Ok events l : order_market_data events = Ok l <->
  consistent events /\ l ≡ₚ events /\ sorted_by admission_order_key l.
Proof.
  unfold order_market_data. rewrite rbind_Ok. split.
  - intros (x & [-> Hc]%validated_events_Ok & [= <-]). split_and!; [done|apply py_sorted_perm|apply py_sorted_sorted].
  - intros (Hc & Hp & Hs). exists events. split; [by apply validated_events_Ok|]. f_equal.
    apply (sorted_by_unique admission_order_key); [apply py_sorted_sorted|done| |by rewrite py_sorted_perm].
    rewrite py_sorted_perm. apply cs_order_keys, Hc.
Qed.

Lemma order_market_data_cases events :
  (exists l, order_market_data events = Ok l /\ consistent events) \/
  (order_market_data events = Raise MarketDataValidationError /\ ~ consistent events).
Proof.
  unfold order_market_data. destruct (validated_events_cases events) as [[Hc ->]|[Hn ->]]; [left; eauto|by right].
Qed.

(** *** Admission of market data over time, and the claims about market data. *)

(** *** Admission as a walk along the canonical order: a cursor is a position, the visible
    events are a prefix, and a call of [admit_market_data] takes the next ones. *)

(** What the constructors guarantee of an envelope. *)
Definition finite_bar (b : Bar) : bool :=
  forallb isfinite [bar_open b; bar_high b; bar_low b; bar_close b; bar_volume b].
Definition well_formed (e : MarketDataEnvelope) : bool :=
  (microseconds (event_time e) <=? microseconds (available_at e)) && finite_bar (payload e).

Lemma require_finite_floats l r : rmap _require_finite_float l = Ok r -> forallb isfinite l = true.
Proof.
  revert r. induction l as [|x l IH]; intros r H; [done|]. cbn in H. unfold _require_finite_float in H.
  cbn. destruct (isfinite x); [|done]. cbn in H. apply rbind_Ok in H as (ys & H & _). by eapply IH.
Qed.

Lemma Bar_init_finite i s t adj o h l c v b : Bar_init i s t adj o h l c v = Ok b -> finite_bar b = true.
Proof.
  unfold Bar_init. intros (s' & _ & (t' & _ & H)%rbind_Ok)%rbind_Ok. case_match; [done|].
  apply rbind_Ok in H as (u & Hf%require_finite_floats & H). repeat (case_match; [done|]).
  injection H as <-. exact Hf.
Qed.

Lemma MarketDataEnvelope_init_well_formed b src av n rev e : finite_bar b = true ->
  MarketDataEnvelope_init b src av n rev = Ok e -> well_formed e = true.
Proof.
  intros Hb. unfold MarketDataEnvelope_init, _require_nonnegative_int.
  intros (a & _ & H)%rbind_Ok. apply rbind_Ok in H as (? & _ & H). apply rbind_Ok in H as (? & _ & H).
  destruct (Z.ltb_spec (microseconds a) (microseconds (bar_event_time b))); [done|]. injection H as <-.
  unfold well_formed, event_time. cbn [payload available_at]. rewrite Hb, andb_true_r. by apply Z.leb_le.
Qed.

Lemma float_eqb_refl x : isfinite x = true -> float_eqb x x = true.
Proof.
  destruct x as [[]?]; try done. intros _. unfold float_eqb, SFeqb, SFcompare. cbn.
  change (Pos.compare_cont Eq m m) with (Pos.compare m m). rewrite Z.compare_refl, Pos.compare_refl. by destruct s.
Qed.

Lemma envelope_eqb_refl e : well_formed e = true -> envelope_eqb e e = true.
Proof.
  unfold well_formed, finite_bar. cbn [forallb]. rewrite !andb_true_iff.
  intros (_ & H1 & H2 & H3 & H4 & H5 & _). unfold envelope_eqb, Bar_eqb.
  by rewrite !bool_decide_true, !float_eqb_refl, !Z.eqb_refl.
Qed.

Lemma order_available e f : py_le (admission_order_key e) (admission_order_key f) = true ->
  microseconds (available_at e) <= microseconds (available_at f).
Proof. intros H%py_le_fst. apply Z.leb_le, H. Qed.

Lemma visible_well_formed e t : well_formed e = true ->
  visible e t = (microseconds (available_at e) <=? microseconds t).
Proof. intros [He%Z.leb_le _]%andb_true_iff. unfold visible. lia. Qed.

Lemma visible_later e t u : microseconds t <= microseconds u -> visible e t = true -> visible e u = true.
Proof. unfold visible. lia. Qed.

Lemma take_length_take {A} m (l : list A) : take (length (take m l)) l = take m l.
Proof.
  rewrite length_take. destruct (decide (m <= length l)%nat); [by rewrite Nat.min_l|].
  rewrite Nat.min_r by lia. by rewrite !take_ge by lia.
Qed.

(** ** One call *)

Section Walk.
Context (history ordered : list MarketDataEnvelope) (Hord : order_market_data history = Ok ordered)
        (Hwf : Forall (fun e => well_formed e = true) history).

#[local] Lemma ordered_sorted : sorted_by admission_order_key ordered.
Proof. by apply order_market_data_Ok in Hord as (_ & _ & ?). Qed.
#[local] Lemma ordered_NoDup : NoDup (admission_order_key <$> ordered).
Proof. apply order_market_data_Ok in Hord as (Hc & Hp & _). rewrite Hp. apply Hc. Qed.
#[local] Lemma ordered_well_formed e : e ∈ ordered -> well_formed e = true.
Proof. apply order_market_data_Ok in Hord as (_ & Hp & _). rewrite Hp. rewrite Forall_forall in Hwf. apply Hwf. Qed.

Definition visible_events (t : datetime) : list MarketDataEnvelope := List.filter (fun e => visible e t) ordered.

(** The events visible at an instant come first. *)
Lemma visible_events_prefix t : visible_events t = take (length (visible_events t)) ordered.
Proof.
  apply filter_prefix. intros i j x y Hi Hj Hij.
  pose proof (sorted_by_le _ _ _ _ _ _ ordered_sorted Hi Hj Hij) as Hle%order_available.
  rewrite !visible_well_formed by (eapply ordered_well_formed, list_elem_of_lookup_2; done). lia.
Qed.

Lemma visible_events_le t u : microseconds t <= microseconds u ->
  (length (visible_events t) <= length (visible_events u))%nat.
Proof.
  intros Htu. apply filter_length_le. intros e. by apply visible_later.
Qed.

(** The cursor after [n] admissions. *)
Definition at_position (c : option AdmissionCursor) (n : nat) : Prop :=
  match c with
  | None => n = 0%nat
  | Some c => (n <= length (visible_events (cursor_as_of c)))%nat /\
              last_event c = match n with O => None | S i => ordered !! i end
  end.

Definition not_before (c : option AdmissionCursor) (t : datetime) : Prop :=
  match c with Some c => microseconds (cursor_as_of c) <= microseconds t | None => True end.
Definition positive (limit : option Z) : Prop := match limit with Some l => 0 < l | None => True end.
Definition up_to {A} (limit : option Z) (l : list A) : list A :=
  match limit with None => l | Some n => take (Z.to_nat n) l end.

Lemma drop_elem {A} n (l : list A) e : e ∈ drop n l -> e ∈ l.
Proof. intros H. rewrite <-(take_drop n l). apply elem_of_app. by right. Qed.
Lemma up_to_elem {A} limit (l : list A) e : e ∈ up_to limit l -> e ∈ l.
Proof. destruct limit as [n|]; [|done]. intros H. rewrite <-(take_drop (Z.to_nat n) l). apply elem_of_app. by left. Qed.

Lemma at_position_le c n t : at_position c n -> not_before c t -> (n <= length (visible_events t))%nat.
Proof.
  destruct c as [c|]; cbn; [|intros ->; lia]. intros [Hn _] Ht. pose proof (visible_events_le _ _ Ht). lia.
Qed.

Lemma visible_events_length t : (length (visible_events t) <= length ordered)%nat.
Proof. rewrite visible_events_prefix, length_take. lia. Qed.

Lemma previous_event c n e : at_position c n -> match c with Some c => last_event c | None => None end = Some e ->
  exists i, n = S i /\ ordered !! i = Some e.
Proof. destruct c as [c|]; [|done]. intros [_ ->] H. destruct n as [|i]; [done|]. eauto. Qed.

Lemma candidates_drop c n t : at_position c n -> not_before c t ->
  List.filter (fun e => visible e t && match option_map admission_order_key
      match c with Some c => last_event c | None => None end with
      | None => true | Some k => negb (py_le (admission_order_key e) k) end) ordered
  = drop n (visible_events t).
Proof.
  intros Hp Ht. rewrite filter_filter. fold (visible_events t).
  assert (n = 0%nat /\ match c with Some c => last_event c | None => None end = None \/
    exists i e, n = S i /\ ordered !! i = Some e /\ match c with Some c => last_event c | None => None end = Some e)
    as [[-> ->]|(i & e & -> & Hi & ->)].
  { destruct c as [c|]; [|by left]. destruct Hp as [Hl Hp]. destruct n as [|i]; [by left|]. right.
    destruct (lookup_lt_is_Some_2 ordered i) as [e He]; [pose proof (visible_events_length (cursor_as_of c)); lia|].
    exists i, e. rewrite Hp. done. }
  - cbn [option_map]. rewrite drop_0. by apply List.forallb_filter_id, List.forallb_forall.
  - cbn [option_map]. apply (filter_after admission_order_key).
    + rewrite visible_events_prefix. eapply StronglySorted_app_1_l with (l2 := drop (length (visible_events t)) ordered).
      rewrite take_drop. apply ordered_sorted.
    + rewrite visible_events_prefix, fmap_take. pose proof ordered_NoDup as Hnd.
      rewrite <-(take_drop (length (visible_events t)) (admission_order_key <$> ordered)) in Hnd.
      by apply NoDup_app in Hnd as [? _].
    + rewrite visible_events_prefix, lookup_take_lt; [done|]. pose proof (at_position_le _ _ _ Hp Ht). lia.
Qed.

(** A call takes the next events, as many as the limit allows, and moves the cursor
    behind them.  It cannot fail. *)
Lemma admit_step c n t limit : at_position c n -> not_before c t -> positive limit ->
  exists c', let batch := up_to limit (drop n (visible_events t)) in
  admit_market_data history (t, Some 0) c limit = Ok (c', batch) /\ cursor_as_of c' = t /\
  at_position (Some c') (n + length batch) /\ batch = take (length batch) (drop n ordered).
Proof.
  intros Hp Ht Hl. set (batch := up_to limit (drop n (visible_events t))).
  assert (batch = take (length batch) (drop n ordered)) as Hb.
  { assert (exists m, batch = take m (drop n ordered)) as [m Hm]; [|rewrite Hm; by rewrite take_length_take].
    unfold batch. rewrite visible_events_prefix, skipn_firstn_comm. destruct limit as [l|]; cbn [up_to]; [|by eexists].
    rewrite take_take. by eexists. }
  pose proof (at_position_le _ _ _ Hp Ht) as Hn.
  assert (n + length batch <= length (visible_events t))%nat as Hle.
  { unfold batch, up_to. destruct limit; rewrite ?length_take, length_drop; lia. }
  assert (forall i e, batch !! i = Some e -> ordered !! (n + i)%nat = Some e /\ visible e t = true) as Hin.
  { intros i e He. rewrite Hb in He. apply lookup_take_Some in He as [He Hi]. rewrite lookup_drop in He. split; [done|].
    assert (e ∈ visible_events t) as Hv%list_elem_of_In%filter_In; [|by destruct Hv].
    rewrite visible_events_prefix. apply (list_elem_of_lookup_2 _ (n + i)). by rewrite lookup_take_lt by lia. }
  set (previous := match c with Some c => last_event c | None => None end).
  set (final := match list.last batch with Some e => Some e | None => previous end).
  exists (mkCursor t final). cbn zeta.
  assert (final = match (n + length batch)%nat with O => None | S i => ordered !! i end) as Hf.
  { unfold final. rewrite last_lookup. destruct (length batch) as [|k] eqn:Hk.
    - rewrite (nil_length_inv _ Hk). cbn. rewrite Nat.add_0_r. unfold previous. destruct c as [c|]; [apply Hp|].
      by rewrite Hp.
    - rewrite Nat.add_succ_r. cbn [Nat.pred]. destruct (lookup_lt_is_Some_2 batch k) as [e He]; [lia|].
      rewrite He. symmetry. by apply (Hin k). }
  split_and!; [|done|by split|done].
  unfold admit_market_data, require_utc. cbn [fst snd]. rewrite bool_decide_true by done. cbn [negb rbind].
  replace (match c with Some c => _ | None => false end) with false
    by (destruct c as [c|]; [symmetry; apply Z.ltb_ge, Ht|done]).
  replace (match limit with Some l => l <=? 0 | None => false end) with false
    by (destruct limit as [l|]; [symmetry; apply Z.leb_gt, Hl|done]).
  rewrite Hord. cbn [rbind]. fold previous.
  replace (match previous with Some e => negb _ | None => false end) with false.
  2:{ destruct previous as [e|] eqn:He; [|done]. destruct (previous_event _ _ _ Hp He) as (i & _ & Hi).
      symmetry. apply negb_false_iff, existsb_exists. exists e. apply list_elem_of_lookup_2 in Hi. split.
      - by apply list_elem_of_In.
      - by apply envelope_eqb_refl, ordered_well_formed. }
  unfold previous. rewrite (candidates_drop c n t Hp Ht). fold (up_to limit (drop n (visible_events t))). fold batch.
  fold previous. fold final. unfold AdmissionCursor_init, require_utc. cbn [fst snd].
  rewrite bool_decide_true by done. cbn [negb rbind]. destruct final as [e|] eqn:He; [|done].
  assert (visible e t = true) as ->; [|done].
  destruct (n + length batch)%nat as [|i] eqn:Hi; [done|].
  assert (e ∈ visible_events t) as Hv%list_elem_of_In%filter_In; [|by destruct Hv].
  rewrite visible_events_prefix. apply (list_elem_of_lookup_2 _ i). rewrite lookup_take_lt by lia. done.
Qed.

(** ** A sequence of calls *)

(** Clocks that never go back and limits that admit something. *)
Fixpoint calls_ok (c : option datetime) (calls : list (datetime * option Z)) : Prop :=
  match calls with
  | [] => True
  | (t, limit) :: calls =>
      match c with Some c => microseconds c <= microseconds t | None => True end /\ positive limit /\ calls_ok (Some t) calls
  end.

Lemma calls_ok_last calls c u limit : calls_ok (Some c) calls -> list.last calls = Some (u, limit) ->
  microseconds c <= microseconds u.
Proof.
  revert c. induction calls as [|[t l] calls IH]; intros c Hok Hl; [done|]. destruct Hok as (Hc & _ & Hok).
  destruct calls as [|call calls]; [by injection Hl as <- <-|]. etrans; [exact Hc|]. by apply (IH t).
Qed.

Lemma admit_each_walk calls c n : at_position c n -> calls_ok (option_map cursor_as_of c) calls ->
  exists batches, admit_each history c calls = Ok batches /\
    concat batches = take (length (concat batches)) (drop n ordered) /\
    Forall2 (fun call batch => Forall (fun e => visible e call.1 = true) batch) calls batches /\
    (forall t, list.last calls = Some (t, None) -> concat batches = drop n (visible_events t)) /\
    (forall t, Forall (fun call => call.1 = t) calls ->
       Nat.min (n + length calls) (length (visible_events t)) <= n + length (concat batches))%nat.
Proof.
  revert c n. induction calls as [|[t limit] calls IH]; intros c n Hp Hok.
  - exists []. cbn. split_and!; [done|done|constructor|done|intros; lia].
  - cbn in Hok. destruct Hok as (Hc & Hl & Hok).
    destruct (admit_step c n t limit Hp) as (c' & Ha & Ht & Hp' & Hb); [by destruct c|done|].
    set (batch := up_to limit (drop n (visible_events t))) in *.
    destruct (IH (Some c') _ Hp') as (batches & Hbs & Hcat & Hvis & Hall & Hlen); [cbn; by rewrite Ht|].
    exists (batch :: batches). cbn [admit_each concat]. rewrite Ha. cbn [rbind fst snd]. rewrite Hbs. cbn [rbind].
    split_and!; [done| | | |].
    + rewrite length_app. rewrite Hb at 1. rewrite Hcat at 1. rewrite <-drop_drop. apply take_take_drop.
    + constructor; [|done]. apply Forall_forall. intros e He%up_to_elem%drop_elem.
      by apply list_elem_of_In, filter_In in He as [_ He].
    + intros u Hu. destruct calls as [|call calls].
      * injection Hu as -> ->. apply Forall2_nil_inv_l in Hvis as ->. cbn [concat]. by rewrite app_nil_r.
      * change (list.last (call :: calls) = Some (u, None)) in Hu. rewrite (Hall u Hu).
        pose proof (calls_ok_last _ _ _ _ Hok Hu) as Htu. cbn in Htu.
        assert (n + length batch <= length (visible_events u))%nat as Hle.
        { pose proof (proj1 Hp') as Hle. rewrite Ht in Hle. pose proof (visible_events_le _ _ Htu). lia. }
        rewrite Hb at 1. rewrite <-drop_drop.
        replace (take (length batch) (drop n ordered)) with (take (length batch) (drop n (visible_events u)));
          [apply take_drop|].
        rewrite visible_events_prefix, skipn_firstn_comm, take_take. by rewrite Nat.min_l by lia.
    + intros u Hu. apply Forall_cons_1 in Hu as [Etu Hu]. cbn in Etu. subst u.
      specialize (Hlen t Hu). rewrite length_app. cbn [length].
      assert (Nat.min 1 (length (visible_events t) - n) <= length batch)%nat as Hone; [|lia].
      unfold batch, up_to. destruct limit as [l|]; rewrite ?length_take, length_drop; [|lia]. cbn in Hl. lia.
Qed.
End Walk.

(** ** The latest revisions *)

Section Latest.
Context (t : datetime).

(** [e] is the visible event of its logical record with the highest revision. *)
Definition is_latest (events : list MarketDataEnvelope) (e : MarketDataEnvelope) : Prop :=
  e ∈ events /\ visible e t = true /\
  forall f, f ∈ events -> visible f t = true -> logical_key f = logical_key e -> revision f <= revision e.

Record selects (m : gmap MarketDataLogicalKey MarketDataEnvelope) (seen : list MarketDataEnvelope) : Prop := {
  sl_latest k e : m !! k = Some e -> logical_key e = k /\ is_latest seen e;
  sl_some e : e ∈ seen -> visible e t = true -> is_Some (m !! logical_key e)
}.

Lemma selects_snoc m seen e : selects m seen -> selects (select_latest m t e) (seen ++ [e]).
Proof.
  intros [Hl Hs]. unfold select_latest. destruct (visible e t) eqn:Hv; cbn [negb].
  2:{ split.
      - intros k x Hx. destruct (Hl k x Hx) as (Hk & Hin & Hvx & Hm). split; [done|]. split; [apply elem_of_app; by left|].
        split; [done|]. intros f [Hf|Hf%list_elem_of_singleton]%elem_of_app; [by apply Hm|]. subst. by rewrite Hv.
      - intros x [Hx|Hx%list_elem_of_singleton]%elem_of_app; [by apply Hs|]. subst. by rewrite Hv. }
  assert (forall x, is_latest seen x -> (logical_key e = logical_key x -> revision e <= revision x) ->
    is_latest (seen ++ [e]) x) as Hold.
  { intros x (Hin & Hvx & Hm) He. split; [apply elem_of_app; by left|]. split; [done|].
    intros f [Hf|Hf%list_elem_of_singleton]%elem_of_app Hvf Hkf; [by apply Hm|]. subst. by apply He. }
  assert (forall m', (forall k, k <> logical_key e -> m' !! k = m !! k) -> (exists x, m' !! logical_key e = Some x /\
    logical_key x = logical_key e /\ is_latest (seen ++ [e]) x) -> selects m' (seen ++ [e])) as Hmk.
  { intros m' Ho (x & Hx & Hkx & Hlx). split.
    - intros k y Hy. destruct (decide (k = logical_key e)) as [->|Hne].
      + rewrite Hx in Hy. injection Hy as <-. done.
      + rewrite Ho in Hy by done. destruct (Hl k y Hy) as [Hk Hy']. split; [done|]. apply Hold; [done|].
        intros He. congruence.
    - intros y Hy Hvy. destruct (decide (logical_key y = logical_key e)) as [->|Hne]; [by eexists|].
      rewrite Ho by done. apply elem_of_app in Hy as [Hy|Hy%list_elem_of_singleton]; [by apply Hs|by subst]. }
  assert (e ∈ seen ++ [e]) as Hin by (apply elem_of_app; right; by apply list_elem_of_singleton).
  destruct (m !! logical_key e) as [p|] eqn:Hp.
  - destruct (Hl _ _ Hp) as (Hkp & Hlp). destruct (Z.ltb_spec (revision p) (revision e)) as [Hlt|Hge].
    + apply Hmk; [by intros; apply lookup_insert_ne|]. exists e. rewrite lookup_insert_eq. split_and!; [done|done|].
      split_and!; [done|done|]. intros f [Hf|Hf%list_elem_of_singleton]%elem_of_app Hvf Hkf; [|by subst].
      destruct Hlp as (_ & _ & Hm). specialize (Hm f Hf Hvf). rewrite Hkp in Hm. specialize (Hm Hkf). lia.
    + apply Hmk; [done|]. exists p. split_and!; [done|done|]. by apply Hold.
  - apply Hmk; [by intros; apply lookup_insert_ne|]. exists e. rewrite lookup_insert_eq. split_and!; [done|done|].
    split_and!; [done|done|]. intros f [Hf|Hf%list_elem_of_singleton]%elem_of_app Hvf Hkf; [|by subst].
    destruct (Hs f Hf Hvf) as [x Hx]. rewrite Hkf in Hx. by rewrite Hx in Hp.
Qed.

Lemma selects_all events : selects (fold_left (fun s e => select_latest s t e) events ∅) events.
Proof.
  assert (forall rest m seen, selects m seen -> selects (fold_left (fun s e => select_latest s t e) rest m) (seen ++ rest))
    as H.
  { induction rest as [|e rest IH]; intros m seen Hm; [by rewrite app_nil_r|]. cbn.
    specialize (IH _ _ (selects_snoc _ _ e Hm)). by rewrite <-app_assoc in IH. }
  apply (H events ∅ []). split; [intros k e; by rewrite lookup_empty|]. intros e He. by apply not_elem_of_nil in He.
Qed.
End Latest.

(** [latest_as_of] answers with exactly those, in the canonical order. *)
Lemma latest_as_of_Ok events t : consistent events ->
  exists l, latest_as_of events (t, Some 0) = Ok l /\ sorted_by admission_order_key l /\ NoDup (logical_key <$> l) /\
    forall e, e ∈ l <-> is_latest t events e.
Proof.
  intros Hc. unfold latest_as_of, require_utc. cbn [fst snd]. rewrite bool_decide_true by done. cbn [negb rbind].
  destruct (order_market_data_cases events) as [(ordered & Hord & _)|[_ Hn]]; [|done]. rewrite Hord. cbn [rbind].
  apply order_market_data_Ok in Hord as (_ & Hp & _). pose proof (selects_all t ordered) as [Hl Hs].
  set (m := fold_left _ ordered ∅) in *. eexists. split; [done|]. split; [apply py_sorted_sorted|]. split.
  - rewrite py_sorted_perm. change (map snd (map_to_list m)) with (snd <$> map_to_list m). rewrite <-list_fmap_compose.
    rewrite (list_fmap_ext _ fst); [apply NoDup_fst_map_to_list|].
    intros i [k e] Hi%list_elem_of_lookup_2%elem_of_map_to_list. cbn. by apply Hl.
  - assert (forall e, is_latest t ordered e <-> is_latest t events e) as Hperm.
    { intros e. unfold is_latest. by setoid_rewrite Hp. }
    intros e. rewrite elem_of_py_sorted, <-Hperm. change (map snd (map_to_list m)) with (snd <$> map_to_list m).
    rewrite list_elem_of_fmap. split.
    + intros ([k x] & -> & Hx%elem_of_map_to_list). by apply Hl in Hx as [_ ?].
    + intros He. destruct (Hs e) as [x Hx]; [apply He..|]. exists (logical_key e, e). split; [done|].
      apply elem_of_map_to_list. rewrite Hx. f_equal. destruct (Hl _ _ Hx) as (Hk & Hin & Hv & Hm).
      assert (revision x = revision e) as Hr.
      { destruct He as (He & Hve & Hme). apply Z.le_antisymm; [by apply Hme|by apply Hm]. }
      apply (NoDup_map_eq record_key ordered); [|done|apply He|by unfold record_key; rewrite Hk, Hr].
      change (map record_key ordered) with (record_key <$> ordered). rewrite Hp. apply Hc.
Qed.

(** ** Where the revisions of a record stand, and how much a sequence of calls admits *)

Lemma admission_order_lt e f : logical_key e = logical_key f ->
  microseconds (available_at e) <= microseconds (available_at f) -> source_sequence e < source_sequence f ->
  py_le (admission_order_key f) (admission_order_key e) = false.
Proof.
  intros Hk Ha Hlt. apply not_true_iff_false. intros Hle. pose proof (order_available _ _ Hle) as Ha'.
  assert (available_at e = available_at f) as Hav by (apply (inj microseconds); lia).
  assert (event_time e = event_time f /\ value (source e) = value (source f)) as [Het Hs].
  { unfold logical_key in Hk. unfold event_time, bar_event_time. split; congruence. }
  unfold admission_order_key, AdmissionOrderKey in Hle. rewrite Hav, Het, Hs in Hle.
  do 4 (erewrite py_le_snd in Hle). apply py_le_fst, Z.leb_le in Hle.
  cbn in Hle. lia.
Qed.

Lemma admitted_visible ordered t (calls : list (datetime * option Z)) batches :
  Forall (fun call => call.1 = t) calls ->
  Forall2 (fun call batch => Forall (fun e => visible e call.1 = true) batch) calls batches ->
  concat batches = take (length (concat batches)) ordered ->
  (length (concat batches) <= length (visible_events ordered t))%nat.
Proof.
  intros Ht Hv Hc. assert (Forall (fun e => visible e t = true) (concat batches)) as Hall.
  { clear Hc. induction Hv as [|call batch calls batches Hb Hv IH]; [constructor|]. apply Forall_cons_1 in Ht as [Ht Hts].
    cbn. apply Forall_app. split; [by rewrite Ht in Hb|by apply IH]. }
  set (l := concat batches) in *. clearbody l. unfold visible_events.
  rewrite <-(take_drop (length l) ordered), <-Hc, List.filter_app, length_app.
  rewrite List.forallb_filter_id; [lia|]. apply List.forallb_forall. intros e He%list_elem_of_In.
  rewrite Forall_forall in Hall. by apply Hall.
Qed.

(** *** The claims about market data, with their witnesses on two minutes of one instrument,
    the first of them revised. *)

(** ** The claims *)

(** A batch has one canonical order, whatever order it arrives in: it is accepted
    exactly when it is consistent, and then the answer is the permutation of it sorted by
    the admission key, in which the revisions of a record come in turn; every other batch
    is refused with the same error. *)
Theorem market_data_order_is_canonical events :
  (forall l, order_market_data events = Ok l <->
     consistent events /\ l ≡ₚ events /\ sorted_by admission_order_key l) /\
  (forall err, order_market_data events = Raise err <-> ~ consistent events /\ err = MarketDataValidationError) /\
  (forall events', events' ≡ₚ events -> order_market_data events' = order_market_data events) /\
  (forall l i j e f, order_market_data events = Ok l -> l !! i = Some e -> l !! j = Some f ->
     logical_key e = logical_key f -> revision e < revision f -> (i < j)%nat).
Proof.
  split; [apply order_market_data_Ok|]. split; [|split].
  - intros err. destruct (order_market_data_cases events) as [(l & -> & Hc)|[-> Hn]]; [|naive_solver].
    split; [done|]. by intros [? _].
  - intros events' Hp. destruct (order_market_data_cases events) as [(l & Hl & Hc)|[Hl Hn]];
      destruct (order_market_data_cases events') as [(l' & Hl' & Hc')|[Hl' Hn']]; rewrite Hl, Hl'; [|..|done].
    + apply order_market_data_Ok in Hl as (_ & Hpl & Hs), Hl' as (_ & Hpl' & Hs'). f_equal.
      apply (sorted_by_unique admission_order_key); [done..| |by rewrite Hpl', Hp].
      rewrite Hpl'. apply cs_order_keys, Hc'.
    + destruct Hn'. by apply (consistent_perm events).
    + destruct Hn. by apply (consistent_perm events').
  - intros l i j e f Hl Hi Hj Hk Hr. apply order_market_data_Ok in Hl as (Hc & Hp & Hs).
    apply (NoDup_keys_lt admission_order_key l i j e f); [done|rewrite Hp; apply Hc|done|done|].
    apply list_elem_of_lookup_2 in Hi, Hj. rewrite Hp in Hi, Hj.
    destruct (cs_revisions _ Hc e f Hi Hj Hk Hr) as [Ha Hseq]. by apply admission_order_lt.
Qed.

(** C26: admission sees no future event and misses no visible one. Whatever clocks a reader
    of a consistent history passes, as long as they do not go back, no call fails; every
    event a call admits was available at its clock; all the calls together admit a prefix
    of the canonical order, so each event at most once; a call without a limit leaves
    nothing visible behind; and calls with limits, however small, drain what is visible. *)
Theorem admission_is_exact history ordered calls : Forall (fun e => well_formed e = true) history ->
  order_market_data history = Ok ordered -> calls_ok None calls ->
  exists batches, admit_each history None calls = Ok batches /\
    concat batches = take (length (concat batches)) ordered /\
    Forall2 (fun call batch => Forall (fun e => visible e call.1 = true) batch) calls batches /\
    (forall t, list.last calls = Some (t, None) -> concat batches = visible_events ordered t) /\
    (forall t, Forall (fun call => call.1 = t) calls -> (length (visible_events ordered t) <= length calls)%nat ->
       concat batches = visible_events ordered t).
Proof.
  intros Hwf Hord Hok.
  destruct (admit_each_walk history ordered Hord Hwf calls None 0) as (batches & Hb & Hc & Hv & Hl & Hd); [done..|].
  exists batches. split_and!; [done|done|done|exact Hl|]. intros t Ht Hn. specialize (Hd t Ht). cbn in Hd.
  rewrite Nat.min_r in Hd by done. rewrite drop_0 in Hc.
  rewrite (visible_events_prefix history ordered Hord Hwf). rewrite Hc at 1.
  assert (length (concat batches) <= length (visible_events ordered t))%nat; [|f_equal; lia].
  by apply (admitted_visible ordered t calls).
Qed.

(** The latest view of a consistent batch at an instant holds, in the canonical order,
    exactly the visible events no visible revision of the same record supersedes, one for
    each record. *)
Theorem latest_as_of_is_latest events t : consistent events ->
  exists l, latest_as_of events (t, Some 0) = Ok l /\ sorted_by admission_order_key l /\ NoDup (logical_key <$> l) /\
    forall e, e ∈ l <-> is_latest t events e.
Proof. apply latest_as_of_Ok. Qed.

(** ** The witnesses *)

Definition venue_code : VenueId := mkPatternStr (r := _VENUE_PATTERN) "XNAS" eq_refl.
Definition acme : Instrument := mkInstrument venue_code (mkPatternStr (r := _SYMBOL_PATTERN) "ACME" eq_refl).
Definition feed : SourceId := mkPatternStr (r := _SOURCE_PATTERN) "feed-1" eq_refl.
Definition at_minute (m : Z) (H : datetime_valid 2024 1 2 14 m 0 0 = true) : datetime := mkDatetime 2024 1 2 14 m 0 0 H.
Definition minute_0 : datetime := at_minute 30 eq_refl.
Definition minute_1 : datetime := at_minute 31 eq_refl.
Definition minute_2 : datetime := at_minute 32 eq_refl.
Definition minute_3 : datetime := at_minute 33 eq_refl.
(** 1.0 and 2.0 *)
Definition float_1 : float64 := mkFloat (S754_finite false 4503599627370496 (-52)) eq_refl.
Definition float_2 : float64 := mkFloat (S754_finite false 4503599627370496 (-51)) eq_refl.

Definition minute_bar (s e : datetime) : Bar := mkBar acme s e RAW float_1 float_2 float_1 float_2 float_zero.
Definition first_bar : MarketDataEnvelope := mkEnvelope (minute_bar minute_0 minute_1) feed minute_1 1 0.
Definition second_bar : MarketDataEnvelope := mkEnvelope (minute_bar minute_1 minute_2) feed minute_2 2 0.
Definition revised_bar : MarketDataEnvelope := mkEnvelope (minute_bar minute_0 minute_1) feed minute_3 3 1.
Definition feed_history : list MarketDataEnvelope := [revised_bar; second_bar; first_bar].

Lemma revised_bar_constructed :
  (let* b := Bar_init acme (minute_0, Some 0) (minute_1, Some 0) RAW float_1 float_2 float_1 float_2 float_zero in
   MarketDataEnvelope_init b feed (minute_3, Some 0) 3 1) = Ok revised_bar.
Proof. vm_compute. repeat f_equal; apply eq_pi, _. Qed.

Lemma feed_ordered : order_market_data feed_history = Ok [first_bar; second_bar; revised_bar].
Proof. refine (bool_decide_unpack _ _). vm_compute. exact I. Qed.

Lemma admission_is_exact_witness : exists batches,
  admit_each feed_history None [(minute_1, Some 5); (minute_3, Some 1); (minute_3, None)] = Ok batches /\
  concat batches = [first_bar; second_bar; revised_bar].
Proof.
  destruct (admission_is_exact feed_history [first_bar; second_bar; revised_bar]
    [(minute_1, Some 5); (minute_3, Some 1); (minute_3, None)]) as (batches & Hb & _ & _ & Hl & _).
  - repeat constructor.
  - exact feed_ordered.
  - repeat split; vm_compute; congruence.
  - exists batches. split; [exact Hb|]. exact (Hl minute_3 eq_refl).
Defined.

Lemma latest_as_of_is_latest_witness : exists l, latest_as_of feed_history (minute_3, Some 0) = Ok l /\
  revised_bar ∈ l.
Proof.
  destruct (latest_as_of_is_latest feed_history minute_3) as (l & Hl & _ & _ & He).
  - exact (proj1 (proj1 (order_market_data_Ok _ _) feed_ordered)).
  - exists l. split; [exact Hl|]. apply He. split; [left|]. split; [vm_compute; reflexivity|].
    intros f Hf. assert (f = revised_bar \/ f = second_bar \/ f = first_bar) as [->|[->| ->]].
    + apply elem_of_cons in Hf as [Hf|Hf]; [left; exact Hf|right].
      apply elem_of_cons in Hf as [Hf|Hf]; [left; exact Hf|right]. apply list_elem_of_singleton in Hf. exact Hf.
    + intros _ _. vm_compute. congruence.
    + intros _ _. vm_compute. congruence.
    + intros _ _. vm_compute. congruence.
Defined.
