(* ===== verification/Checksum.v ===== *)
(** SHA-256, executable, and a checksum in its place for the concrete runs. *)

From S2P Require Import Prelude PyRegex PyText Outcomes Json Identity.

Open Scope Z_scope.

(** *** SHA-256 as [hashlib.sha256(...).hexdigest()] computes it: an executable instance
    of the class [Sha256], on 32-bit words held as [Z].  The theorems of the other
    files hold for every instance; concrete runs use this one. *)

(** ** Words *)

Definition mask32 : Z := 4294967295.
Definition w32 (x : Z) : Z := Z.land x mask32.
Definition add32 (x y : Z) : Z := w32 (x + y).
Definition rotr (n x : Z) : Z := Z.lor (Z.shiftr x n) (w32 (Z.shiftl x (32 - n))).
Definition not32 (x : Z) : Z := mask32 - x.

Definition Ch32 (x y z : Z) : Z := Z.lxor (Z.land x y) (Z.land (not32 x) z).
Definition Maj (x y z : Z) : Z := Z.lxor (Z.lxor (Z.land x y) (Z.land x z)) (Z.land y z).
Definition Sigma0 (x : Z) : Z := Z.lxor (Z.lxor (rotr 2 x) (rotr 13 x)) (rotr 22 x).
Definition Sigma1 (x : Z) : Z := Z.lxor (Z.lxor (rotr 6 x) (rotr 11 x)) (rotr 25 x).
Definition sigma0 (x : Z) : Z := Z.lxor (Z.lxor (rotr 7 x) (rotr 18 x)) (Z.shiftr x 3).
Definition sigma1 (x : Z) : Z := Z.lxor (Z.lxor (rotr 17 x) (rotr 19 x)) (Z.shiftr x 10).

(** The constants of the standard: the first 32 bits of the fractional parts of the
    cube roots of the first 64 primes, and of the square roots of the first eight. *)
Definition primes : list Z :=
  List.filter (fun p => forallb (fun d => negb (p mod d =? 0)) (seqZ 2 (p - 2))) (seqZ 2 310).
Fixpoint cube_root (bits : nat) (r n : Z) : Z :=
  match bits with
  | O => r
  | S b => let t := r + 2 ^ Z.of_nat b in cube_root b (if t ^ 3 <=? n then t else r) n
  end.
Definition round_constants : list Z :=
  Eval vm_compute in map (fun p => w32 (cube_root 40 0 (p * 2 ^ 96))) primes.
Definition initial_hash : list Z :=
  Eval vm_compute in map (fun p => w32 (Z.sqrt (p * 2 ^ 64))) (take 8 primes).

Definition words8 : Type := Z * Z * Z * Z * (Z * Z * Z * Z).
Definition initial_words : words8 :=
  match initial_hash with
  | [a; b; c; d; e; f; g; h] => ((a, b, c, d), (e, f, g, h))
  | _ => ((0, 0, 0, 0), (0, 0, 0, 0))
  end.

(** ** Compression *)

(** The message schedule, newest word first: sixteen words extended by [n]. *)
Fixpoint schedule (n : nat) (w : list Z) : list Z :=
  match n with
  | O => w
  | S n =>
      let at_ i := nth i w 0 in
      schedule n (add32 (add32 (sigma1 (at_ 1%nat)) (at_ 6%nat))
                    (add32 (sigma0 (at_ 14%nat)) (at_ 15%nat)) :: w)
  end.

Definition round_step (s : words8) (kw : Z * Z) : words8 :=
  let '(a, b, c, d, (e, f, g, h)) := s in
  let t1 := add32 (add32 (add32 h (Sigma1 e)) (add32 (Ch32 e f g) kw.1)) kw.2 in
  let t2 := add32 (Sigma0 a) (Maj a b c) in
  (add32 t1 t2, a, b, c, (add32 d t1, e, f, g)).

Definition compress (s : words8) (block : list Z) : words8 :=
  let '(a, b, c, d, (e, f, g, h)) := s in
  let '(a', b', c', d', (e', f', g', h')) :=
    fold_left round_step (combine round_constants (rev (schedule 48 (rev block)))) s in
  (add32 a a', add32 b b', add32 c c', add32 d d', (add32 e e', add32 f f', add32 g g', add32 h h')).

(** ** Padding and blocks *)

Definition pad (m : list Z) : list Z :=
  let zeros_needed := Z.to_nat ((55 - Z.of_nat (length m)) mod 64) in
  m ++ 128 :: repeat 0 zeros_needed
    ++ map code (to_bytes_big 8 (8 * Z.of_nat (length m))).

(** Bytes to big-endian words, and words to blocks of sixteen. *)
Fixpoint to_words (l : list Z) : list Z :=
  match l with
  | a :: b :: c :: d :: l => a * 2 ^ 24 + b * 2 ^ 16 + c * 2 ^ 8 + d :: to_words l
  | _ => []
  end.
Fixpoint compress_all (fuel : nat) (s : words8) (w : list Z) : words8 :=
  match fuel with
  | O => s
  | S fuel => match w with [] => s | _ => compress_all fuel (compress s (take 16 w)) (drop 16 w) end
  end.

Definition hex_digit (n : Z) : ascii := nth (Z.to_nat n) (chars "0123456789abcdef") "0"%char.
Fixpoint hex_word (n : nat) (x : Z) : str :=
  match n with O => [] | S n => hex_word n (x / 16) ++ [hex_digit (x mod 16)] end.

Definition sha256_words (m : str) : words8 :=
  let w := to_words (pad (map code m)) in compress_all (length w) initial_words w.
Definition hexdigest (m : str) : str :=
  let '(a, b, c, d, (e, f, g, h)) := sha256_words m in
  flat_map (hex_word 8) [a; b; c; d; e; f; g; h].

(** ** The digest is sixty-four hexadecimal digits *)

Lemma hex_digit_ok n : 0 <= n < 16 -> HEX (hex_digit n) = true.
Proof.
  intros Hn. assert (n ∈ seqZ 0 16) as Hin by (apply elem_of_seqZ; lia).
  repeat (apply elem_of_cons in Hin as [->|Hin]; [done|]). by apply not_elem_of_nil in Hin.
Qed.

Lemma hex_word_ok n x : length (hex_word n x) = n /\ forallb HEX (hex_word n x) = true.
Proof.
  revert x; induction n as [|n IH]; intros x; [done|]. cbn [hex_word].
  destruct (IH (x / 16)) as [Hl Ha]. rewrite length_app, Hl, forallb_app, Ha. simpl.
  rewrite hex_digit_ok by (apply Z.mod_pos_bound; lia). split; [lia|done].
Qed.

Lemma rep_class p s n : length s = n -> forallb p s = true -> fullmatch (Rep n (Cls p)) s = true.
Proof.
  intros Hl Hs. apply fullmatch_spec. revert n Hl; induction s as [|c s IH]; intros n <-; simpl in *.
  - constructor.
  - apply andb_true_iff in Hs as [Hc Hs]. apply (m_cat _ _ [c] s); [by constructor|by apply IH].
Qed.

Lemma hexdigest_ok m : fullmatch _DIGEST_PATTERN (hexdigest m) = true.
Proof.
  apply rep_class; unfold hexdigest; destruct (sha256_words m) as [[[[a b] c] d] [[[e f] g] h]].
  - cbn [flat_map]. rewrite !length_app, !(fun x => proj1 (hex_word_ok 8 x)). done.
  - cbn [flat_map]. rewrite !forallb_app, !(fun x => proj2 (hex_word_ok 8 x)). done.
Qed.

Lemma hex_text_ok m : fullmatch _DIGEST_PATTERN (chars (text_of (hexdigest m))) = true.
Proof. rewrite chars_text_of. apply hexdigest_ok. Qed.

#[export] Instance sha256_standard : Sha256 :=
  {| sha256_hex m := text_of (hexdigest m); sha256_hex_ok := hex_text_ok |}.

(** The test vectors of the standard. *)
Lemma sha256_abc : text_of (hexdigest (chars "abc"))
  = "ba7816bf8f01cfea414140de5dae2223b00361a396177a9cb410ff61f20015ad"%string.
Proof. vm_compute. reflexivity. Qed.

Lemma sha256_two_blocks : text_of (hexdigest (chars "abcdbcdecdefdefgefghfghighijhijkijkljklmklmnlmnomnopnopq"))
  = "248d6a61d20638b8e5c026930c3e6039a33ce45964ff2167f6ecedd419db06c1"%string.
Proof. vm_compute. reflexivity. Qed.

(** *** A second instance of the class [Sha256], for the concrete runs: a checksum of the
    first bytes of the message.  The runs take hundreds of digests and no theorem depends
    on which digest function is used. *)

(** A checksum of a prefix in the place of SHA-256: the runs below take dozens of digests. *)
Definition checksum (m : str) : Z := fold_left (fun s c => (s * 33 + code c) mod 2 ^ 48) (take 32 m) 5381.
Lemma checksum_ok m : fullmatch _DIGEST_PATTERN (chars (text_of (hex_word 64 (checksum m)))) = true.
Proof. rewrite chars_text_of. apply rep_class; apply hex_word_ok. Qed.
#[export] Instance checksum_standard : Sha256 :=
  {| sha256_hex m := text_of (hex_word 64 (checksum m)); sha256_hex_ok := checksum_ok |}.
