(* ===== verification/Numbering.v ===== *)
(** Numbers and identities an authority allocates, and the order of the dispatches it takes. *)

From S2P Require Import Prelude PyRegex PyText Outcomes Json Identity.

Open Scope Z_scope.

(** *** Identities an authority allocates: one owner kind in one run, numbered from one
    without gaps until the last unsigned 64-bit number is spent. *)

Definition id_at (run_id : RunId) (owner : EconomicOwnerKind) (n : nat) : EconomicId :=
  mkEconomicId run_id owner (Z.of_nat n + 1).
(** The number after [n] allocations. *)
Definition next_after (n : nat) : option Z :=
  if Z.of_nat n =? MAX_UINT64 then None else Some (Z.of_nat n + 1).

Record numbered (run_id : RunId) (owner : EconomicOwnerKind) (ids : list EconomicId) (next : option Z) : Prop := {
  nb_ids : ids = map (id_at run_id owner) (seq 0 (length ids));
  nb_bound : Z.of_nat (length ids) <= MAX_UINT64;
  nb_next : next = next_after (length ids)
}.

Section Numbered.
Context (run_id : RunId) (owner : EconomicOwnerKind).

#[export] Instance id_at_inj : Inj (=) (=) (id_at run_id owner).
Proof. intros m n [= H]. lia. Qed.

Lemma numbered_nil : numbered run_id owner [] (Some 1).
Proof. by split. Qed.

Lemma next_after_Some k n : next_after k = Some n -> n = Z.of_nat k + 1 /\ Z.of_nat k <> MAX_UINT64.
Proof. unfold next_after. destruct (Z.eqb_spec (Z.of_nat k) MAX_UINT64); [done|]. by intros [= <-]. Qed.

(** The next number is an allocatable one. *)
Lemma numbered_next ids n : numbered run_id owner ids (Some n) -> 1 <= n <= MAX_UINT64.
Proof. intros [_ Hb Hn]. symmetry in Hn. apply next_after_Some in Hn as [-> ?]. lia. Qed.

Lemma numbered_snoc ids n : numbered run_id owner ids (Some n) ->
  numbered run_id owner (ids ++ [mkEconomicId run_id owner n]) (if n =? MAX_UINT64 then None else Some (n + 1)).
Proof.
  intros [Hi Hb Hn]. symmetry in Hn. apply next_after_Some in Hn as [-> Hm].
  split; rewrite length_app; cbn [length].
  - rewrite Nat.add_1_r, seq_S, map_app. cbn [map]. by rewrite <-Hi.
  - lia.
  - unfold next_after. rewrite Nat.add_1_r, Nat2Z.inj_succ. unfold Z.succ.
    destruct (Z.eqb_spec (Z.of_nat (length ids) + 1) MAX_UINT64); [done|]. f_equal.
Qed.

Lemma numbered_NoDup ids next : numbered run_id owner ids next -> NoDup ids.
Proof. intros [-> _ _]. apply NoDup_fmap_2; [apply _|]. apply NoDup_seq. Qed.

Lemma numbered_ids ids next i : numbered run_id owner ids next -> i ∈ ids ->
  owner_kind i = owner /\ id_run_id i = run_id /\ 1 <= owner_sequence i <= MAX_UINT64.
Proof.
  intros [Hi Hb _] Hin. rewrite Hi in Hin. apply list_elem_of_In, in_map_iff in Hin as (n & <- & Hn%in_seq).
  cbn. split_and!; [done|done|lia|lia].
Qed.

(** The next number is not among those allocated. *)
Lemma numbered_fresh ids n : numbered run_id owner ids (Some n) -> mkEconomicId run_id owner n ∉ ids.
Proof.
  intros [Hi Hb Hn]. symmetry in Hn. apply next_after_Some in Hn as [-> _]. rewrite Hi at 2. intros Hin.
  apply list_elem_of_In, in_map_iff in Hin as (k & [= Hk] & Hin%in_seq). lia.
Qed.

Lemma numbered_init ids n : numbered run_id owner ids (Some n) ->
  EconomicId_init run_id owner n = Ok (mkEconomicId run_id owner n).
Proof.
  intros H%numbered_next. unfold EconomicId_init, _require_uint64.
  rewrite !(proj2 (Z.ltb_ge _ _)) by lia. done.
Qed.
End Numbered.

(** An identity is its parts, and exists for every positive 64-bit number. *)
Lemma economic_id_value run kind n i : EconomicId_init run kind n = Ok i -> i = mkEconomicId run kind n.
Proof.
  unfold EconomicId_init, _require_uint64. intros H. apply rbind_Ok in H as (v & Hv & H).
  destruct (_ || _) in Hv; [done|]. apply Ok_inj in Hv as <-. by apply Ok_inj in H as <-.
Qed.
Lemma economic_id_fits run owner n : 1 <= n <= MAX_UINT64 -> EconomicId_init run owner n = Ok (mkEconomicId run owner n).
Proof. intros H. unfold EconomicId_init, _require_uint64. by replace ((n <? 0) || (MAX_UINT64 <? n)) with false by lia. Qed.

(** *** The frontier of an authority that numbers what it issues and takes dispatches in strict
    order, fresh or resumed: numbers count up from a first one until the last unsigned
    64-bit number is spent, and each dispatch comes after all before it. *)

Definition id_from (run_id : RunId) (owner : EconomicOwnerKind) (first : Z) (i : nat) : EconomicId :=
  mkEconomicId run_id owner (first + Z.of_nat i).
(** The number after [n] allocations from [first]. *)
Definition number_after (first : Z) (n : nat) : option Z :=
  if first + Z.of_nat n =? MAX_UINT64 + 1 then None else Some (first + Z.of_nat n).

(** The last dispatch taken, [start] before any. *)
Definition last_taken (start : option Z) (dispatches : list Z) : option Z :=
  match last dispatches with Some n => Some n | None => start end.
Definition is_after (start : option Z) (n : Z) : Prop :=
  match start with Some m => m < n | None => True end.
Definition in_order (start : option Z) (dispatches : list Z) : Prop :=
  StronglySorted Z.lt dispatches /\ Forall (is_after start) dispatches.

Section Numbers.
Context (first : Z).

Lemma number_after_Some n k : number_after first n = Some k -> k = first + Z.of_nat n /\ k <> MAX_UINT64 + 1.
Proof. unfold number_after. destruct (Z.eqb_spec (first + Z.of_nat n) (MAX_UINT64 + 1)); [done|]. by intros [= <-]. Qed.

Lemma number_after_S n k : number_after first n = Some k ->
  number_after first (S n) = if k =? MAX_UINT64 then None else Some (k + 1).
Proof.
  intros [-> _]%number_after_Some. unfold number_after. rewrite Nat2Z.inj_succ.
  destruct (Z.eqb_spec (first + Z.of_nat n) MAX_UINT64), (Z.eqb_spec (first + Z.succ (Z.of_nat n)) (MAX_UINT64 + 1));
    try done; try lia. f_equal. lia.
Qed.
End Numbers.

Lemma id_from_inj run_id owner first : Inj (=) (=) (id_from run_id owner first).
Proof. intros i j [= H]. lia. Qed.

Lemma last_taken_snoc start l n : last_taken start (l ++ [n]) = Some n.
Proof. unfold last_taken. by rewrite last_snoc. Qed.

Lemma in_order_nil start : in_order start [].
Proof. split; constructor. Qed.

(** A dispatch after the last one taken is after all of them. *)
Lemma in_order_after start l n : in_order start l -> is_after (last_taken start l) n ->
  is_after start n /\ Forall (fun m => m < n) l.
Proof.
  intros [Hs Hf] Hn. unfold last_taken in Hn. destruct (last l) as [m|] eqn:Hm.
  - apply last_Some in Hm as (l' & ->). apply Forall_app in Hf as [_ Hf]. apply (proj1 (Forall_singleton _ _)) in Hf.
    unfold is_after in *. split; [destruct start; [lia|done]|].
    apply Forall_app. split; [|by apply Forall_singleton].
    apply Forall_forall. intros x Hx.
    assert (x < m) as Hxm; [|lia]. eapply StronglySorted_app_1_elem_of; [exact Hs|exact Hx|by left].
  - apply last_None in Hm as ->. by split.
Qed.

Lemma in_order_snoc start l n : in_order start l -> is_after (last_taken start l) n -> in_order start (l ++ [n]).
Proof.
  intros Ho Hn. destruct (in_order_after _ _ _ Ho Hn) as [Ha Hl]. destruct Ho as [Hs Hf]. split.
  - clear - Hs Hl. induction Hs as [|x l Hs IH Hx]; cbn; [repeat constructor|].
    apply Forall_cons in Hl as [Hxn Hl]. constructor; [by apply IH|]. apply Forall_app. split; [done|by apply Forall_singleton].
  - apply Forall_app. split; [done|by apply Forall_singleton].
Qed.

Lemma in_order_fresh start l n : in_order start l -> is_after (last_taken start l) n -> n ∉ l.
Proof.
  intros Ho Hn Hin. destruct (in_order_after _ _ _ Ho Hn) as [_ Hl]. rewrite Forall_forall in Hl.
  specialize (Hl n Hin). lia.
Qed.

Lemma in_order_NoDup start l : in_order start l -> NoDup l.
Proof.
  intros [Hs _]. induction Hs as [|x l Hs IH Hx]; constructor; [|done].
  intros Hin. rewrite Forall_forall in Hx. specialize (Hx x Hin). lia.
Qed.

(** What is in the order is not after the last. *)
Lemma in_order_not_after start l n : in_order start l -> n ∈ l -> ~ is_after (last_taken start l) n.
Proof. intros Ho Hin Hn. by apply (in_order_fresh start l n). Qed.

(** The test the authorities make. *)
Lemma late_or_after start' n : (match start' with Some last => n <=? last | None => false end) = false <-> is_after start' n.
Proof. destruct start' as [m|]; cbn; [|done]. rewrite Z.leb_gt. lia. Qed.
