(* ===== verification/Economics.v ===== *)
(** Canonical decimals and exact settlement arithmetic ([core/economics.py]).

    [CanonicalDecimal] is the dataclass built from exact text: the [ea-decimal-v1]
    grammar, the 38/20/18 digit limits, and the integer coefficient and scale that
    [decimal.Context.create_decimal] reads off the text.  The key result is that the
    canonical decimals are exactly the integers [units] strictly between [-10^38] and
    [10^38], counted in units of [10^-18]: every later component computes with
    [units]. *)

From S2P Require Import Prelude PyRegex PyText Outcomes.

Open Scope Z_scope.

Definition MAX_SIGNIFICANT_DIGITS : Z := 38.
Definition MAX_INTEGER_DIGITS : Z := 20.
Definition MAX_FRACTIONAL_DIGITS : Z := 18.

Definition DIGIT : regex := Cls is_digit.
Definition DIGIT1 : regex := Cls (in_range "1"%char "9"%char).
Definition FRACTION : regex := Cat (Ch "."%char) (Cat (Star DIGIT) DIGIT1).

(** [0|-?(?:[1-9][0-9]*(?:\.[0-9]*[1-9])?|0\.[0-9]*[1-9])\Z] *)
Definition _DECIMAL_PATTERN : regex :=
  Alt (Ch "0"%char)
    (Cat (Opt (Ch "-"%char))
       (Alt (Cat DIGIT1 (Cat (Star DIGIT) (Opt FRACTION)))
            (Cat (Ch "0"%char) FRACTION))).

(** [[+-]?(?:inf(?:inity)?|s?nan[0-9]* )\Z], ignoring case. *)
Definition _NON_FINITE_PATTERN : regex :=
  Cat (Opt (Cls (one_of "+-")))
    (Alt (Cat (LitI (chars "inf")) (Opt (LitI (chars "inity"))))
         (Cat (Opt (LitI (chars "s"))) (Cat (LitI (chars "nan")) (Star DIGIT)))).

(** [text.removeprefix("-")]. *)
Definition removeprefix_minus (s : str) : str :=
  match s with c :: s' => if is_char c "-"%char then s' else s | [] => [] end.
Definition startswith_minus (s : str) : bool :=
  match s with c :: _ => is_char c "-"%char | [] => false end.

(** [context.create_decimal(text).as_tuple()] of the standard [decimal] module, for a
    text of the canonical grammar within the context's precision and exponent range,
    where no signal of [_PARSE_TRAPS] is raised: sign, digits, exponent. *)
Definition decimal_as_tuple (s : str) : bool * str * Z :=
  let '(integer_text, _, fractional_text) := partition_dot (removeprefix_minus s) in
  (startswith_minus s, integer_text ++ fractional_text, - Z.of_nat (length fractional_text)).

(** [CanonicalDecimal.__post_init__]: the coefficient and scale of a text. *)
Definition decimal_post_init (text : string) : res (Z * Z) :=
  let s := chars text in
  raise_if fullmatch _NON_FINITE_PATTERN s with raise_economic NON_FINITE ;;
  raise_if negb (fullmatch _DECIMAL_PATTERN s) with raise_economic OUT_OF_RANGE ;;
  let unsigned_text := removeprefix_minus s in
  let '(integer_text, separator, fractional_text) := partition_dot unsigned_text in
  let coefficient_digits :=
    match lstrip0 (integer_text ++ fractional_text) with [] => ["0"%char] | d => d end in
  let significant_digits := Z.of_nat (length coefficient_digits) in
  let integer_digits := Z.of_nat (length integer_text) in
  let scale := if separator then Z.of_nat (length fractional_text) else 0 in
  raise_if (MAX_SIGNIFICANT_DIGITS <? significant_digits)
        || (MAX_INTEGER_DIGITS <? integer_digits)
        || (MAX_FRACTIONAL_DIGITS <? scale) with raise_economic OUT_OF_RANGE ;;
  let '(sign, tuple_digits, exponent) := decimal_as_tuple s in
  let coefficient := if sign then - int_of tuple_digits else int_of tuple_digits in
  let parsed_scale := if coefficient =? 0 then 0 else - exponent in
  raise_if negb (parsed_scale =? scale) with AssertionError ;;
  raise_if (0 <? parsed_scale) && (coefficient mod 10 =? 0) with raise_economic OUT_OF_RANGE ;;
  Ok (coefficient, parsed_scale).

Record CanonicalDecimal : Type := mkDecimal {
  text : string;
  coefficient : Z;
  scale : Z;
  text_ok : decimal_post_init text = Ok (coefficient, scale)
}.

(** The constructor [CanonicalDecimal(text)]. *)
Definition decimal_of_text (t : string) : res CanonicalDecimal :=
  match decimal_post_init t as r return decimal_post_init t = r -> res CanonicalDecimal with
  | Ok (c, s) => fun H => Ok (mkDecimal t c s H)
  | Raise e => fun _ => Raise e
  end eq_refl.

(** [_normalize_scaled]: strip the trailing zeros of a scaled integer.  The loop runs
    at most [scale] times. *)
Fixpoint normalize_loop (fuel : nat) (c s : Z) : Z * Z :=
  match fuel with
  | O => (c, s)
  | S f => if (0 <? s) && (c mod 10 =? 0) then normalize_loop f (c / 10) (s - 1) else (c, s)
  end.
Definition _normalize_scaled (c s : Z) : Z * Z :=
  if c =? 0 then (0, 0) else normalize_loop (Z.to_nat s) c s.

(** [_scaled_text]. *)
Definition _scaled_text (c s : Z) : string :=
  let '(c, s) := _normalize_scaled c s in
  if c =? 0 then "0"%string
  else
    let sign := if c <? 0 then ["-"%char] else [] in
    let digits := digits (Z.abs c) in
    if s =? 0 then text_of (sign ++ digits)
    else
      let digits :=
        if Z.of_nat (length digits) <=? s
        then zeros (Z.to_nat (s + 1 - Z.of_nat (length digits))) ++ digits
        else digits in
      let split := (length digits - Z.to_nat s)%nat in
      text_of (sign ++ take split digits ++ "."%char :: drop split digits).

(** [_bounded_scaled]. *)
Definition _bounded_scaled (c s : Z) (failure_code : OutcomeCode) : res CanonicalDecimal :=
  catch_economic (decimal_of_text (_scaled_text c s))
    (fun code =>
       if bool_decide (code = OUT_OF_RANGE)
       then Raise (raise_economic failure_code)
       else Raise (EconomicValidationError code)).

(** [_at_scale]: the coefficient at a larger scale, by repeated multiplication. *)
Fixpoint times_ten (n : nat) (factor : Z) : Z :=
  match n with O => factor | S n => times_ten n (factor * 10) end.
Definition _at_scale (d : CanonicalDecimal) (s : Z) : res Z :=
  raise_if s <? scale d with AssertionError ;;
  Ok (coefficient d * times_ten (Z.to_nat (s - scale d)) 1).

(** [__lt__], and the orderings [total_ordering] derives from it. *)
Definition decimal_lt (a b : CanonicalDecimal) : res bool :=
  let s := Z.max (scale a) (scale b) in
  let* x := _at_scale a s in
  let* y := _at_scale b s in
  Ok (x <? y).

(** The constructor applied to a literal the program writes itself. *)
Definition CANONICAL_10000 : CanonicalDecimal := mkDecimal "10000" 10000 0 eq_refl.
Definition CANONICAL_0 : CanonicalDecimal := mkDecimal "0" 0 0 eq_refl.

(** [require_positive]. *)
Definition require_positive (v : CanonicalDecimal) : res CanonicalDecimal :=
  raise_if coefficient v <=? 0 with raise_economic OUT_OF_RANGE ;;
  Ok v.

(** [require_quantized]. *)
Definition require_quantized (v quantum : CanonicalDecimal) : res CanonicalDecimal :=
  let* _ := require_positive quantum in
  let s := Z.max (scale v) (scale quantum) in
  let value_coefficient := coefficient v * 10 ^ (s - scale v) in
  let quantum_coefficient := coefficient quantum * 10 ^ (s - scale quantum) in
  raise_if negb (value_coefficient mod quantum_coefficient =? 0)
    with raise_economic NOT_QUANTIZED ;;
  Ok v.

Record ScalarSettlement : Type := mkScalarSettlement {
  amount : CanonicalDecimal;
  rounding_residual : CanonicalDecimal
}.

(** [settle_product]: the sole ROUND_HALF_EVEN boundary. *)
Definition settle_product (price quantity contract_multiplier currency_quantum : CanonicalDecimal)
  : res ScalarSettlement :=
  let* _ := require_positive quantity in
  let* _ := require_positive contract_multiplier in
  let* _ := require_positive currency_quantum in
  let exact_coefficient :=
    coefficient price * coefficient quantity * coefficient contract_multiplier in
  let exact_scale := scale price + scale quantity + scale contract_multiplier in
  let numerator := Z.abs exact_coefficient * 10 ^ scale currency_quantum in
  let denominator := coefficient currency_quantum * 10 ^ exact_scale in
  let quotient := numerator / denominator in
  let remainder := numerator mod denominator in
  let doubled_remainder := remainder * 2 in
  let quotient :=
    if (denominator <? doubled_remainder)
       || ((doubled_remainder =? denominator) && (quotient mod 2 =? 1))
    then quotient + 1 else quotient in
  let units := if exact_coefficient <? 0 then - quotient else quotient in
  let settled_coefficient := units * coefficient currency_quantum in
  let settled_scale := scale currency_quantum in
  let* amount := _bounded_scaled settled_coefficient settled_scale ARITHMETIC_OVERFLOW in
  let residual_scale := Z.max exact_scale settled_scale in
  let residual_coefficient :=
    exact_coefficient * 10 ^ (residual_scale - exact_scale)
    - settled_coefficient * 10 ^ (residual_scale - settled_scale) in
  let* residual := _bounded_scaled residual_coefficient residual_scale ROUNDING_UNREPRESENTABLE in
  Ok (mkScalarSettlement amount residual).

(** ** The canonical grammar as sign, integer part and fractional part *)

Definition render (neg : bool) (I F : str) : str :=
  (if neg then ["-"%char] else []) ++ I ++ (match F with [] => [] | _ => "."%char :: F end).

Definition fraction_ok (F : str) : Prop :=
  F = [] \/ exists F' c, F = F' ++ [c] /\ all_digits F' /\ in_range "1"%char "9"%char c = true.

Definition canonical_parts (neg : bool) (I F : str) : Prop :=
  all_digits I /\ no_leading_zero I /\ fraction_ok F /\ (neg = true -> int_of (I ++ F) <> 0).

Lemma digit1_spec c :
  in_range "1"%char "9"%char c = true <-> is_digit c = true /\ 1 <= dval c.
Proof.
  unfold is_digit, in_range, dval. change (code "0"%char) with 48.
  change (code "1"%char) with 49. change (code "9"%char) with 57.
  rewrite !andb_true_iff, !Z.leb_le. lia.
Qed.

Lemma fraction_ok_digits F : fraction_ok F -> all_digits F.
Proof.
  intros [->|(F' & c & -> & HF & [Hc _]%digit1_spec)]; [constructor|].
  by apply all_digits_snoc.
Qed.

Lemma fraction_matches F :
  F <> [] -> matches FRACTION ("."%char :: F) <-> fraction_ok F.
Proof.
  intros HF. split.
  - intros (s1 & s2 & Hs & ->%matches_ch_inv & H)%matches_cat_inv.
    simpl in Hs. injection Hs as ->.
    apply matches_cat_inv in H as (F' & t & -> & HF' & (c & -> & Hc)%matches_cls_inv).
    right. exists F', c. split_and!; [done| |done]. by apply matches_star_cls in HF'.
  - intros [?|(F' & c & -> & HF' & Hc)]; [done|].
    apply matches_cat_cls; [by apply Ascii.eqb_eq|].
    constructor; [by apply matches_star_cls | by constructor].
Qed.

Lemma fraction_matches_inv t : matches FRACTION t ->
  exists F, t = "."%char :: F /\ F <> [] /\ fraction_ok F.
Proof.
  intros H. pose proof H as (s1 & F & -> & ->%matches_ch_inv & HF)%matches_cat_inv.
  assert (F <> []) as Hne.
  { apply matches_cat_inv in HF as (F' & t & -> & _ & (c & -> & _)%matches_cls_inv).
    by destruct F'. }
  exists F. split_and!; [done..|]. by apply (fraction_matches F Hne).
Qed.

Lemma fraction_ok_pos I F : all_digits I -> F <> [] -> fraction_ok F -> int_of (I ++ F) <> 0.
Proof.
  intros HI HF [?|(F' & c & -> & HF' & [Hc H1]%digit1_spec)]; [done|].
  rewrite app_assoc, int_of_snoc.
  pose proof (int_of_bound (I ++ F') ltac:(by apply all_digits_app)). lia.
Qed.

Lemma int_of_head_pos c s :
  is_digit c = true -> 1 <= dval c -> all_digits s -> 0 < int_of (c :: s).
Proof.
  intros Hc H1 Hs. change (c :: s) with ([c] ++ s). rewrite int_of_app.
  change (int_of [c]) with (10 * 0 + dval c).
  pose proof (int_of_bound s Hs). pose proof (pow10_gt0 (Z.of_nat (length s)) ltac:(lia)). nia.
Qed.

Lemma no_leading_zero_cases I : all_digits I -> no_leading_zero I ->
  I = ["0"%char] \/ exists c s, I = c :: s /\ in_range "1"%char "9"%char c = true /\ all_digits s.
Proof.
  intros HI Hz. destruct I as [|c s]; [done|]. inversion HI as [|? ? Hc Hs]; subst.
  destruct (decide (c = "0"%char)) as [->|Hne].
  - left. destruct s; [done|]. by destruct Hz.
  - right. exists c, s. split_and!; [done| |done]. apply digit1_spec. split; [done|].
    pose proof (is_digit_dval c Hc). destruct (decide (dval c = 0)) as [H0|]; [|lia].
    destruct Hne. by apply dval_inj.
Qed.

Lemma render_eq neg I F : render neg I F =
  (if neg then ["-"%char] else []) ++ I ++ match F with [] => [] | _ => "."%char :: F end.
Proof. done. Qed.

Lemma unsigned_pattern_spec t :
  matches (Alt (Cat DIGIT1 (Cat (Star DIGIT) (Opt FRACTION))) (Cat (Ch "0"%char) FRACTION)) t <->
  exists I F, t = render false I F /\ canonical_parts true I F.
Proof.
  split.
  - intros [H|H]%matches_alt_inv.
    + apply matches_cat_inv in H as (s1 & t' & -> & (c & -> & Hc)%matches_cls_inv & H).
      apply matches_cat_inv in H as (ds & f & -> & Hds & Hf).
      apply matches_star_cls in Hds. apply digit1_spec in Hc as [Hc H1].
      assert (no_leading_zero (c :: ds)) as Hz.
      { destruct ds; [done|]. intros ->. by change (dval "0"%char) with 0 in H1. }
      assert (all_digits (c :: ds)) as HI by by constructor.
      apply matches_alt_inv in Hf as [->%matches_eps_inv|Hf].
      * exists (c :: ds), []. split; [done|]. split_and!; [done..|by left|].
        intros _. rewrite app_nil_r. pose proof (int_of_head_pos c ds Hc H1 Hds). lia.
      * apply fraction_matches_inv in Hf as (F & -> & HF & Hok).
        exists (c :: ds), F. split; [by destruct F|]. split_and!; [done..|].
        intros _. by apply fraction_ok_pos.
    + apply matches_cat_inv in H as (s1 & f & -> & ->%matches_ch_inv & Hf).
      apply fraction_matches_inv in Hf as (F & -> & HF & Hok).
      assert (all_digits ["0"%char]) by by constructor.
      exists ["0"%char], F. split; [by destruct F|]. split_and!; [done..|].
      intros _. by apply fraction_ok_pos.
  - intros (I & F & -> & HI & Hz & HF & Hpos). rewrite render_eq. simpl.
    destruct (no_leading_zero_cases I HI Hz) as [->|(c & s & -> & Hc & Hs)].
    + apply m_alt_r. constructor; [apply matches_ch|].
      destruct F as [|d F]; [by destruct Hpos|]. by apply fraction_matches.
    + apply m_alt_l. apply matches_cat_cls; [done|].
      constructor; [by apply matches_star_cls|].
      destruct F as [|d F]; [apply m_alt_l; constructor|].
      apply m_alt_r. by apply fraction_matches.
Qed.

(** The regular expression accepts exactly the rendered canonical parts. *)
Lemma decimal_pattern_spec s :
  fullmatch _DECIMAL_PATTERN s = true <->
  exists neg I F, s = render neg I F /\ canonical_parts neg I F.
Proof.
  rewrite fullmatch_spec. split.
  - intros [->%matches_ch_inv|H]%matches_alt_inv.
    { exists false, ["0"%char], []. split; [done|]. by split_and!; [constructor| |left|]. }
    apply matches_cat_inv in H as (sg & t & -> & Hs & (I & F & -> & HI & Hz & HF & Hp)%unsigned_pattern_spec).
    apply matches_alt_inv in Hs as [->%matches_eps_inv| ->%matches_ch_inv].
    + by exists false, I, F.
    + by exists true, I, F.
  - intros (neg & I & F & -> & HI & Hz & HF & Hp).
    destruct (decide (int_of (I ++ F) = 0)) as [H0|H0].
    + destruct neg; [by destruct (Hp eq_refl)|]. apply m_alt_l.
      destruct F as [|d F]; [|by destruct (fraction_ok_pos I (d :: F) HI)].
      rewrite app_nil_r in H0. rewrite <-(digits_int_of I) by done. rewrite H0. apply matches_ch.
    + apply m_alt_r. rewrite render_eq.
      destruct neg; (constructor; [|apply unsigned_pattern_spec; by exists I, F]).
      * apply m_alt_r, matches_ch.
      * apply m_alt_l. constructor.
Qed.

(** ** Reading a canonical text *)

Lemma fullmatch_Void s : fullmatch Void s = false.
Proof. by induction s. Qed.

Lemma render_no_minus I F : all_digits I -> I <> [] ->
  removeprefix_minus (render false I F) = render false I F /\
  startswith_minus (render false I F) = false.
Proof.
  intros HI Hne. destruct I as [|c I]; [done|]. inversion HI as [|? ? Hc _]; subst.
  cbn. unfold is_char. destruct (Ascii.eqb_spec c "-"); [by subst|done].
Qed.

Lemma partition_render I F : all_digits I -> fraction_ok F ->
  partition_dot (render false I F) = (I, negb (bool_decide (F = [])), F).
Proof.
  intros HI HF. rewrite render_eq. simpl. destruct F as [|d F].
  - rewrite app_nil_r. rewrite partition_dot_none; [done|].
    intros c Hc. by apply (all_digits_no_dot I).
  - rewrite partition_dot_spec; [done|]. intros c Hc. by apply (all_digits_no_dot I).
Qed.

Lemma canonical_not_non_finite neg I F : all_digits I -> I <> [] ->
  fullmatch _NON_FINITE_PATTERN (render neg I F) = false.
Proof.
  intros HI Hne. destruct I as [|c I]; [done|]. inversion HI as [|? ? Hc _]; subst.
  pose proof (is_digit_dval c Hc) as Hd. rewrite (is_digit_cases c Hc). rewrite render_eq.
  revert Hd. generalize (dval c) as d. intros d Hd.
  destruct neg; digit_cases d; apply fullmatch_Void.
Qed.

Definition zlen {A} (s : list A) : Z := Z.of_nat (length s).
Definition signed (neg : bool) (n : Z) : Z := if neg then - n else n.

Lemma removeprefix_render neg I F : all_digits I -> I <> [] ->
  removeprefix_minus (render neg I F) = render false I F /\
  startswith_minus (render neg I F) = neg.
Proof. destruct neg; [done|]. apply render_no_minus. Qed.

Lemma limits_value I F : all_digits I -> no_leading_zero I -> all_digits F ->
  (MAX_SIGNIFICANT_DIGITS <? zlen (digits (int_of (I ++ F))))
  || (MAX_INTEGER_DIGITS <? zlen I) || (MAX_FRACTIONAL_DIGITS <? zlen F) = false <->
  zlen F <= 18 /\ int_of (I ++ F) < 10 ^ (20 + zlen F).
Proof.
  intros HI Hz HF. unfold MAX_SIGNIFICANT_DIGITS, MAX_INTEGER_DIGITS, MAX_FRACTIONAL_DIGITS, zlen.
  rewrite !orb_false_iff, !Z.ltb_ge.
  assert (0 <= int_of (I ++ F)) as H0 by (apply int_of_bound, all_digits_app; done).
  rewrite length_digits_le by lia.
  pose proof (int_of_bound I HI) as [HI0 _]. pose proof (int_of_bound F HF) as [HF0 HFb].
  assert (Z.of_nat (length I) <= 20 <-> int_of I < 10 ^ 20) as ->.
  { rewrite <-length_digits_le by lia. by rewrite digits_int_of. }
  rewrite int_of_app. rewrite pow10_add by lia.
  set (p := 10 ^ Z.of_nat (length F)) in *. assert (0 < p) by (apply pow10_gt0; lia).
  split.
  - intros [[_ H1] H2]. split; [done|].
    assert (int_of I <= 10 ^ 20 - 1) by lia. nia.
  - intros [H1 H2].
    assert (10 ^ 20 * p <= 10 ^ 38).
    { unfold p. rewrite <-pow10_add by lia. apply Z.pow_le_mono_r; lia. }
    assert (int_of I < 10 ^ 20) by nia. lia.
Qed.

Lemma decimal_post_init_render neg I F : canonical_parts neg I F ->
  decimal_post_init (text_of (render neg I F)) =
  if bool_decide (zlen F <= 18 /\ int_of (I ++ F) < 10 ^ (20 + zlen F))
  then Ok (signed neg (int_of (I ++ F)), zlen F)
  else Raise (EconomicValidationError OUT_OF_RANGE).
Proof.
  intros Hc. pose proof Hc as (HI & Hz & HF & Hp).
  pose proof (fraction_ok_digits F HF) as HFd.
  assert (I <> []) as Hne by by destruct I.
  unfold decimal_post_init. rewrite chars_text_of.
  rewrite (canonical_not_non_finite neg I F HI Hne).
  rewrite (proj2 (decimal_pattern_spec _)) by eauto. cbn [negb].
  unfold decimal_as_tuple.
  destruct (removeprefix_render neg I F HI Hne) as [-> ->].
  rewrite (partition_render I F HI HF).
  rewrite lstrip0_digits by (done || by apply all_digits_app || by destruct I).
  replace (if negb (bool_decide (F = [])) then Z.of_nat (length F) else 0) with (zlen F)
    by (by destruct F).
  fold (zlen (digits (int_of (I ++ F)))). fold (zlen I). fold (zlen F).
  pose proof (limits_value I F HI Hz HFd) as Hlim.
  case_bool_decide as Hd; [apply Hlim in Hd; rewrite Hd; clear Hd|].
  2:{ rewrite <-Hlim in Hd. apply not_false_iff_true in Hd. by rewrite Hd. }
  fold (signed neg (int_of (I ++ F))).
  assert ((if signed neg (int_of (I ++ F)) =? 0 then 0 else - - zlen F) = zlen F) as ->.
  { destruct (Z.eqb_spec (signed neg (int_of (I ++ F))) 0) as [H0|]; [|lia].
    destruct F as [|d F]; [done|].
    destruct (fraction_ok_pos I (d :: F) HI); [done..|]. by destruct neg; simpl in H0; lia. }
  rewrite Z.eqb_refl. cbn [negb].
  replace ((0 <? zlen F) && (signed neg (int_of (I ++ F)) mod 10 =? 0)) with false; [done|].
  symmetry. apply andb_false_iff. destruct HF as [->|(F' & c & -> & HF' & [Hcd Hc1]%digit1_spec)].
  { by left. }
  right. apply Z.eqb_neq. rewrite app_assoc, int_of_snoc.
  pose proof (is_digit_dval c Hcd). unfold signed. destruct neg; Z.to_euclidean_division_equations; lia.
Qed.

(** Every text the constructor accepts is a rendering of canonical parts. *)
Lemma decimal_post_init_inv t c s : decimal_post_init t = Ok (c, s) ->
  exists neg I F, t = text_of (render neg I F) /\ canonical_parts neg I F /\
    c = signed neg (int_of (I ++ F)) /\ s = zlen F /\
    s <= 18 /\ int_of (I ++ F) < 10 ^ (20 + s).
Proof.
  intros Ht. assert (fullmatch _DECIMAL_PATTERN (chars t) = true) as Hm.
  { unfold decimal_post_init in Ht. destruct (fullmatch _NON_FINITE_PATTERN _); [done|].
    by destruct (fullmatch _DECIMAL_PATTERN _). }
  apply decimal_pattern_spec in Hm as (neg & I & F & Hr & Hc).
  apply (f_equal text_of) in Hr. rewrite text_of_chars in Hr. subst t.
  rewrite decimal_post_init_render in Ht by done. case_bool_decide as Hd; [|done].
  injection Ht as <- <-. destruct Hd. eauto 10.
Qed.

(** The constructor fails with a closed code only: it never raises the
    [AssertionError] guarding the parse, nor any other exception. *)
Lemma decimal_post_init_error t e : decimal_post_init t = Raise e ->
  e = EconomicValidationError NON_FINITE \/ e = EconomicValidationError OUT_OF_RANGE.
Proof.
  destruct (fullmatch _NON_FINITE_PATTERN (chars t)) eqn:Hn.
  { unfold decimal_post_init. rewrite Hn. intros [= <-]. by left. }
  destruct (fullmatch _DECIMAL_PATTERN (chars t)) eqn:Hm.
  2:{ unfold decimal_post_init. rewrite Hn, Hm. intros [= <-]. by right. }
  apply decimal_pattern_spec in Hm as (neg & I & F & Hr & Hc).
  apply (f_equal text_of) in Hr. rewrite text_of_chars in Hr. subst t.
  rewrite decimal_post_init_render by done. case_bool_decide; [done|]. intros [= <-]. by right.
Qed.

(** ** Printing a scaled integer *)

Lemma normalize_loop_spec f c s : c <> 0 -> 0 <= s -> (Z.to_nat s <= f)%nat ->
  let '(c', s') := normalize_loop f c s in
  0 <= s' <= s /\ c' <> 0 /\ c = c' * 10 ^ (s - s') /\ (0 < s' -> c' mod 10 <> 0).
Proof.
  revert c s; induction f as [|f IH]; intros c s Hc Hs Hf; cbn [normalize_loop].
  { assert (s = 0) as -> by lia. change (10 ^ (0 - 0)) with 1. lia. }
  destruct (Z.ltb_spec 0 s) as [H0|H0]; simpl.
  2:{ replace (s - s) with 0 by lia. change (10 ^ 0) with 1. lia. }
  destruct (Z.eqb_spec (c mod 10) 0) as [Hm|Hm].
  2:{ replace (s - s) with 0 by lia. change (10 ^ 0) with 1. lia. }
  specialize (IH (c / 10) (s - 1)). destruct (normalize_loop f (c / 10) (s - 1)) as [c' s'].
  assert (c = 10 * (c / 10)) as Hc10 by (pose proof (Z.div_mod c 10); lia).
  destruct IH as (Hs' & Hc' & Heq & Hmod); [lia..|].
  split_and!; [lia..| |done].
  rewrite Hc10, Heq. replace (s - s') with (s - 1 - s' + 1) by lia.
  rewrite pow10_succ by lia. lia.
Qed.

(** [_normalize_scaled] keeps the value and leaves a canonical pair. *)
Lemma normalize_scaled_spec c s : 0 <= s ->
  let '(c', s') := _normalize_scaled c s in
  0 <= s' <= s /\ (c' = 0 <-> c = 0) /\ (c = 0 -> s' = 0) /\
  c = c' * 10 ^ (s - s') /\ (0 < s' -> c' mod 10 <> 0).
Proof.
  intros Hs. unfold _normalize_scaled. destruct (Z.eqb_spec c 0) as [->|Hc]; [lia|].
  pose proof (normalize_loop_spec (Z.to_nat s) c s Hc Hs ltac:(lia)) as H.
  destruct (normalize_loop _ c s). tauto.
Qed.

Lemma fraction_ok_mod I F : all_digits F -> F <> [] -> int_of (I ++ F) mod 10 <> 0 -> fraction_ok F.
Proof.
  intros HF Hne Hm. right. destruct F as [|c F' _] using rev_ind; [done|].
  apply all_digits_snoc in HF as [HF Hc]. exists F', c. split_and!; [done..|].
  apply digit1_spec. split; [done|]. pose proof (is_digit_dval c Hc).
  rewrite app_assoc, int_of_snoc in Hm.
  destruct (decide (dval c = 0)) as [H0|]; [|lia]. destruct Hm.
  rewrite H0, Z.add_0_r. rewrite Z.mul_comm. apply Z.mod_mul. lia.
Qed.

Lemma scaled_text_normal c s : 0 <= s -> c <> 0 -> (0 < s -> c mod 10 <> 0) ->
  exists I F, _scaled_text c s = text_of (render (c <? 0) I F) /\
    canonical_parts (c <? 0) I F /\ int_of (I ++ F) = Z.abs c /\ zlen F = s.
Proof.
  intros Hs Hc Hm.
  assert (_normalize_scaled c s = (c, s)) as Hn.
  { unfold _normalize_scaled. rewrite (proj2 (Z.eqb_neq c 0) Hc).
    destruct (Z.to_nat s) as [|f] eqn:Hf; [done|]. simpl.
    rewrite (proj2 (Z.ltb_lt 0 s)) by lia. by rewrite (proj2 (Z.eqb_neq (c mod 10) 0)) by (apply Hm; lia). }
  unfold _scaled_text. rewrite Hn, (proj2 (Z.eqb_neq c 0) Hc).
  assert (0 <= Z.abs c) as Ha by lia.
  pose proof (digits_digits _ Ha) as Hd. pose proof (digits_no_leading_zero _ Ha) as Hz.
  pose proof (int_of_digits _ Ha) as Hi.
  destruct (Z.eqb_spec s 0) as [->|Hs0].
  { exists (digits (Z.abs c)), []. rewrite render_eq, !app_nil_r.
    split; [done|]. split; [|done]. split_and!; [done..|by left|].
    intros _. rewrite app_nil_r. lia. }
  set (D := if Z.of_nat (length (digits (Z.abs c))) <=? s then _ else _).
  assert (all_digits D /\ int_of D = Z.abs c /\ (Z.to_nat s < length D)%nat /\
    no_leading_zero (take (length D - Z.to_nat s) D)) as (HDd & HDi & HDl & HDz).
  { unfold D. destruct (Z.leb_spec (Z.of_nat (length (digits (Z.abs c)))) s) as [Hl|Hl].
    - rewrite length_app, length_zeros, int_of_zero_app.
      split_and!; [by apply all_digits_app; auto with pytext | done | lia |].
      replace (_ - Z.to_nat s)%nat with 1%nat by lia.
      by destruct (Z.to_nat (s + 1 - _)) eqn:He; [lia|].
    - split_and!; [done..|lia|].
      destruct (digits (Z.abs c)) as [|d t]; [done|]. simpl length in *.
      destruct (S (length t) - Z.to_nat s)%nat as [|[|n]] eqn:He; [lia|done|].
      destruct t; [simpl in *; lia|]. done. }
  clearbody D. set (n := (length D - Z.to_nat s)%nat) in *.
  assert (int_of (take n D ++ drop n D) = Z.abs c) as HDi' by (by rewrite take_drop).
  exists (take n D), (drop n D).
  assert (zlen (drop n D) = s) as HlF by (unfold zlen; rewrite length_drop; lia).
  assert (drop n D <> []) as HF by (intros HF; rewrite HF in HlF; unfold zlen in HlF; simpl in *; lia).
  assert (all_digits (take n D) /\ all_digits (drop n D)) as [HI HFd]
    by (by apply all_digits_app; rewrite take_drop).
  split; [by rewrite render_eq; destruct (drop n D)|]. split; [|done].
  split; [done|]. split; [done|]. split; [|by intros _; lia].
  apply (fraction_ok_mod (take n D)); [done..|]. rewrite HDi'. specialize (Hm ltac:(lia)).
  destruct (Z.abs_spec c) as [[_ ->]|[_ ->]]; [done|].
  Z.to_euclidean_division_equations; lia.
Qed.

Lemma digit_split_unique p a b a' b' :
  0 <= b < p -> 0 <= b' < p -> a * p + b = a' * p + b' -> a = a' /\ b = b'.
Proof.
  intros Hb Hb' Heq. rewrite (Z.mul_comm a), (Z.mul_comm a') in Heq.
  apply (Z.div_mod_unique p); auto.
Qed.

(** ** Canonical decimals are the bounded multiples of [10^-18] *)

Definition units (d : CanonicalDecimal) : Z := coefficient d * 10 ^ (18 - scale d).
Definition UNIT_BOUND : Z := 10 ^ 38.

Lemma decimal_eq (a b : CanonicalDecimal) : text a = text b -> a = b.
Proof.
  destruct a as [t c s H], b as [t' c' s' H']; simpl. intros ->.
  pose proof H as H2. rewrite H' in H2. injection H2 as -> ->.
  f_equal. apply eq_pi, _.
Qed.

#[export] Instance decimal_eq_dec : EqDecision CanonicalDecimal.
Proof.
  intros a b. destruct (decide (text a = text b)) as [H|H].
  - left. by apply decimal_eq.
  - right. by intros ->.
Defined.

Lemma decimal_of_text_spec t :
  match decimal_of_text t with
  | Ok d => text d = t
  | Raise e => decimal_post_init t = Raise e
  end.
Proof.
  unfold decimal_of_text. generalize (eq_refl (decimal_post_init t)).
  generalize (decimal_post_init t) at 2 3. by intros [[c s]|e] H.
Qed.

Lemma decimal_of_text_Ok t d : decimal_of_text t = Ok d <-> text d = t.
Proof.
  pose proof (decimal_of_text_spec t) as H. split.
  - intros Ht. by rewrite Ht in H.
  - intros <-. destruct (decimal_of_text _) as [d'|e].
    + f_equal. by apply decimal_eq.
    + by rewrite text_ok in H.
Qed.

Lemma decimal_bounds d :
  0 <= scale d <= 18 /\ Z.abs (coefficient d) < 10 ^ (20 + scale d) /\
  (0 < scale d -> coefficient d mod 10 <> 0).
Proof.
  destruct (decimal_post_init_inv _ _ _ (text_ok d)) as (neg & I & F & _ & Hc & Hcoef & Hs & H18 & Hlt).
  destruct Hc as (HI & _ & HF & _).
  assert (0 <= int_of (I ++ F)) as H0
    by (apply int_of_bound, all_digits_app; auto using fraction_ok_digits).
  split_and!; [unfold zlen in *; lia|lia|rewrite Hcoef; unfold signed; destruct neg; lia|].
  intros Hpos. destruct HF as [->|(F' & c & -> & HF' & [Hcd Hc1]%digit1_spec)].
  { unfold zlen in *. simpl in *. lia. }
  pose proof (is_digit_dval c Hcd). rewrite Hcoef, app_assoc, int_of_snoc.
  unfold signed. destruct neg; Z.to_euclidean_division_equations; lia.
Qed.

(** The text of a decimal is the canonical print of its coefficient and scale: two
    spellings of one value do not exist. *)
Lemma decimal_text d : text d = _scaled_text (coefficient d) (scale d).
Proof.
  destruct (decimal_post_init_inv _ _ _ (text_ok d)) as (neg & I & F & Ht & Hc & Hcoef & Hs & _ & _).
  pose proof Hc as (HI & Hz & HF & Hp).
  pose proof (fraction_ok_digits F HF) as HFd.
  assert (0 <= int_of (I ++ F)) as H0 by (by apply int_of_bound, all_digits_app).
  destruct (decide (coefficient d = 0)) as [Hc0|Hc0].
  - assert (int_of (I ++ F) = 0) as Hi0 by (rewrite Hcoef in Hc0; unfold signed in Hc0; destruct neg; lia).
    destruct neg; [by destruct (Hp eq_refl)|].
    destruct F as [|c F]; [|by destruct (fraction_ok_pos I (c :: F) HI)].
    rewrite app_nil_r in Hi0. rewrite Ht, Hc0, Hs. rewrite render_eq, app_nil_r.
    by rewrite <-(digits_int_of I HI Hz), Hi0.
  - destruct (scaled_text_normal (coefficient d) (scale d)) as (I' & F' & -> & Hc' & Hi & Hl);
      [apply decimal_bounds | done | apply decimal_bounds |].
    destruct Hc' as (HI' & Hz' & HF' & _). apply fraction_ok_digits in HF'.
    assert (neg = (coefficient d <? 0)) as ->.
    { rewrite Hcoef in Hc0 |- *. unfold signed in Hc0 |- *. destruct neg; symmetry; [apply Z.ltb_lt|apply Z.ltb_ge]; lia. }
    assert (int_of (I ++ F) = int_of (I' ++ F')) as Heq.
    { rewrite Hi, Hcoef. unfold signed. destruct (coefficient d <? 0); lia. }
    assert (length F = length F') as Hlen by (unfold zlen in *; lia).
    rewrite !int_of_app, Hlen in Heq.
    pose proof (int_of_bound F HFd) as HbF. pose proof (int_of_bound F' HF') as HbF'.
    rewrite Hlen in HbF.
    assert (int_of I = int_of I' /\ int_of F = int_of F') as [HeI HeF]
      by (eapply digit_split_unique; [exact HbF | exact HbF' | exact Heq]).
    rewrite Ht. rewrite <-(digits_int_of I HI Hz), HeI, (digits_int_of I' HI' Hz').
    by rewrite (int_of_inj F F' HFd HF' Hlen HeF).
Qed.

Lemma units_bound d : Z.abs (units d) < UNIT_BOUND.
Proof.
  destruct (decimal_bounds d) as (Hs & Hc & _). unfold units, UNIT_BOUND.
  rewrite Z.abs_mul, (Z.abs_eq (10 ^ _)) by (pose proof (pow10_gt0 (18 - scale d)); lia).
  replace (10 ^ 38) with (10 ^ (20 + scale d) * 10 ^ (18 - scale d))
    by (rewrite <-pow10_add by lia; f_equal; lia).
  apply Z.mul_lt_mono_pos_r; [apply pow10_gt0; lia | done].
Qed.

Lemma mul_pow10_mod10 c n : 0 < n -> (c * 10 ^ n) mod 10 = 0.
Proof.
  intros Hn. replace n with (n - 1 + 1) by lia. rewrite pow10_succ by lia.
  replace (c * (10 * 10 ^ (n - 1))) with (c * 10 ^ (n - 1) * 10) by lia. apply Z.mod_mul. lia.
Qed.

Lemma coefficient_at d s : scale d <= s -> s <= 18 ->
  coefficient d * 10 ^ (s - scale d) * 10 ^ (18 - s) = units d.
Proof.
  intros. pose proof (decimal_bounds d). unfold units.
  rewrite <-Z.mul_assoc, <-pow10_add by lia. do 2 f_equal. lia.
Qed.

Lemma units_scale d : units d * 10 ^ scale d = coefficient d * 10 ^ 18.
Proof.
  destruct (decimal_bounds d) as [Hs _]. unfold units. rewrite (pow10_split 18 (scale d)) by lia. ring.
Qed.

#[export] Instance units_inj : Inj (=) (=) units.
Proof.
  assert (forall a b, scale a < scale b -> units a <> units b) as Hlt.
  { intros a b Hs Heq. destruct (decimal_bounds a) as (Ha & _), (decimal_bounds b) as (Hb & _ & Hm).
    apply Hm; [lia|]. rewrite <-(coefficient_at a (scale b)) in Heq by lia.
    unfold units in Heq. apply Z.mul_reg_r in Heq; [|pose proof (pow10_gt0 (18 - scale b)); lia].
    rewrite <-Heq. apply mul_pow10_mod10. lia. }
  intros a b Heq. assert (scale a = scale b) as Hs.
  { destruct (Z.lt_trichotomy (scale a) (scale b)) as [H|[H|H]]; [|done|].
    - by apply Hlt in H.
    - by apply Hlt in H. }
  apply decimal_eq. rewrite !decimal_text, <-Hs. f_equal.
  unfold units in Heq. rewrite <-Hs in Heq. apply Z.mul_reg_r in Heq; [done|].
  destruct (decimal_bounds a). pose proof (pow10_gt0 (18 - scale a)). lia.
Qed.

Lemma scaled_text_normalized c s : 0 <= s ->
  _scaled_text c s = let '(c', s') := _normalize_scaled c s in _scaled_text c' s'.
Proof.
  intros Hs. pose proof (normalize_scaled_spec c s Hs) as H.
  destruct (_normalize_scaled c s) as [c' s'] eqn:Hn. destruct H as (Hs' & Hc & Hc0 & _ & Hm).
  assert (_normalize_scaled c' s' = (c', s')) as Hn'.
  { unfold _normalize_scaled. destruct (Z.eqb_spec c' 0) as [->|Hne].
    - by rewrite Hc0 by tauto.
    - destruct (Z.to_nat s') as [|f] eqn:Hf; [done|]. simpl.
      rewrite (proj2 (Z.ltb_lt 0 s')) by lia. by rewrite (proj2 (Z.eqb_neq (c' mod 10) 0)) by (apply Hm; lia). }
  unfold _scaled_text. by rewrite Hn, Hn'.
Qed.

(** Printing then reading a scaled integer gives the decimal of its value when that
    value is a bounded multiple of [10^-18], and the range error otherwise. *)
Lemma scaled_text_spec c s : 0 <= s ->
  (exists d, decimal_of_text (_scaled_text c s) = Ok d /\ units d * 10 ^ s = c * 10 ^ 18) \/
  (decimal_of_text (_scaled_text c s) = Raise (EconomicValidationError OUT_OF_RANGE) /\
   forall u, Z.abs u < UNIT_BOUND -> u * 10 ^ s <> c * 10 ^ 18).
Proof.
  intros Hs. rewrite scaled_text_normalized by done.
  pose proof (normalize_scaled_spec c s Hs) as H.
  destruct (_normalize_scaled c s) as [c' s']. destruct H as (Hs' & Hc & Hc0 & Heq & Hm).
  destruct (decide (c' = 0)) as [->|Hne].
  { left. assert (c = 0) as -> by tauto. rewrite (Hc0 eq_refl).
    eexists; split; [by vm_compute|]. unfold units; simpl. lia. }
  destruct (scaled_text_normal c' s' ltac:(lia) Hne Hm) as (I & F & -> & Hcan & Hi & Hl).
  pose proof (decimal_post_init_render _ I F Hcan) as Hr. rewrite Hi, Hl in Hr.
  pose proof (decimal_of_text_spec (text_of (render (c' <? 0) I F))) as Hd.
  assert (10 ^ s = 10 ^ (s - s') * 10 ^ s') as Hps by (apply pow10_split; lia).
  pose proof (pow10_gt0 (s - s') ltac:(lia)) as Hp1. pose proof (pow10_gt0 s' ltac:(lia)) as Hp2.
  case_bool_decide as Hlim.
  - left. destruct (decimal_of_text _) as [d|e]; [|by rewrite Hr in Hd].
    exists d. split; [done|].
    pose proof (text_ok d) as Hok. rewrite Hd, Hr in Hok. injection Hok as Hcd Hsd.
    unfold units. rewrite <-Hcd, <-Hsd, Heq, Hps, (pow10_split 18 s') by lia.
    replace (signed (c' <? 0) (Z.abs c')) with c'
      by (unfold signed; destruct (Z.ltb_spec c' 0); lia). ring.
  - right. destruct (decimal_of_text _) as [d|e].
    { pose proof (text_ok d) as Hok. by rewrite Hd, Hr in Hok. }
    rewrite Hr in Hd. injection Hd as <-. split; [done|].
    intros u Hu Habs. apply Hlim. clear Hlim Hr Hi Hcan.
    assert (u * 10 ^ s' = c' * 10 ^ 18) as Hu'.
    { apply (Z.mul_reg_l _ _ (10 ^ (s - s'))); [lia|]. rewrite Heq, Hps in Habs. lia. }
    assert (s' <= 18) as H18.
    { destruct (Z_le_gt_dec s' 18) as [|Hgt]; [done|]. destruct Hm; [lia|].
      rewrite (pow10_split s' 18) in Hu' by lia.
      assert (u * 10 ^ (s' - 18) = c') as <- by lia. apply mul_pow10_mod10. lia. }
    split; [done|]. rewrite (pow10_split 18 s') in Hu' by lia.
    assert (u = c' * 10 ^ (18 - s')) as -> by nia.
    pose proof (pow10_gt0 (18 - s') ltac:(lia)) as Hp3.
    unfold UNIT_BOUND in Hu.
    replace (10 ^ 38) with (10 ^ (20 + s') * 10 ^ (18 - s')) in Hu
      by (rewrite <-pow10_add by lia; f_equal; lia).
    rewrite Z.abs_mul, (Z.abs_eq (10 ^ (18 - s'))) in Hu by lia.
    by apply Z.mul_lt_mono_pos_r in Hu.
Qed.

(** The decimal of a number of units. *)
Lemma units_surj u : Z.abs u < UNIT_BOUND ->
  exists d, decimal_of_text (_scaled_text u 18) = Ok d /\ units d = u.
Proof.
  intros Hu. destruct (scaled_text_spec u 18 ltac:(lia)) as [(d & Hd & He)|[_ H]].
  - exists d. split; [done|]. lia.
  - by destruct (H u Hu).
Qed.

Lemma bounded_scaled_spec c s code : 0 <= s -> permitted ECONOMIC_ERROR_CODES code = true ->
  (exists d, _bounded_scaled c s code = Ok d /\ units d * 10 ^ s = c * 10 ^ 18) \/
  (_bounded_scaled c s code = Raise (EconomicValidationError code) /\
   forall u, Z.abs u < UNIT_BOUND -> u * 10 ^ s <> c * 10 ^ 18).
Proof.
  intros Hs Hp. unfold _bounded_scaled, raise_economic. rewrite Hp.
  destruct (scaled_text_spec c s Hs) as [(d & -> & ?)|[-> ?]]; [left|right]; eauto.
Qed.

(** ** The operations in units *)

Lemma times_ten_pow n f : times_ten n f = f * 10 ^ Z.of_nat n.
Proof.
  revert f; induction n as [|n IH]; intros f; [simpl; lia|]. cbn [times_ten].
  rewrite IH, Nat2Z.inj_succ, Z.pow_succ_r by lia. lia.
Qed.

Lemma at_scale_units d s : scale d <= s -> s <= 18 ->
  exists x, _at_scale d s = Ok x /\ x * 10 ^ (18 - s) = units d.
Proof.
  intros H1 H2. unfold _at_scale. destruct (Z.ltb_spec s (scale d)); [lia|].
  eexists; split; [done|]. rewrite times_ten_pow, Z2Nat.id by lia.
  rewrite <-(coefficient_at d s) by lia. lia.
Qed.

Lemma decimal_lt_units a b : decimal_lt a b = Ok (units a <? units b).
Proof.
  destruct (decimal_bounds a) as [Ha _], (decimal_bounds b) as [Hb _]. unfold decimal_lt.
  set (s := Z.max (scale a) (scale b)).
  destruct (at_scale_units a s) as (x & -> & Hx); [lia..|].
  destruct (at_scale_units b s) as (y & -> & Hy); [lia..|].
  simpl. f_equal. rewrite <-Hx, <-Hy. pose proof (pow10_gt0 (18 - s) ltac:(lia)).
  destruct (Z.ltb_spec x y); symmetry; [apply Z.ltb_lt|apply Z.ltb_ge]; nia.
Qed.

(** [a >= b] and [a > b] as [functools.total_ordering] defines them. *)
Definition decimal_ge (a b : CanonicalDecimal) : res bool :=
  let* lt := decimal_lt a b in Ok (negb lt).
Definition decimal_gt (a b : CanonicalDecimal) : res bool :=
  let* lt := decimal_lt a b in Ok (negb lt && negb (bool_decide (a = b))).

Lemma decimal_ge_units a b : decimal_ge a b = Ok (units b <=? units a).
Proof. unfold decimal_ge. rewrite decimal_lt_units. simpl. f_equal. lia. Qed.

Lemma decimal_gt_units a b : decimal_gt a b = Ok (units b <? units a).
Proof.
  unfold decimal_gt. rewrite decimal_lt_units. simpl. f_equal.
  destruct (bool_decide_reflect (a = b)) as [->|Hne]; simpl; [lia|].
  assert (units a <> units b) by (intros H; apply Hne; by apply units_inj). lia.
Qed.

Lemma coefficient_sign d :
  (coefficient d <= 0 <-> units d <= 0) /\ (coefficient d < 0 <-> units d < 0) /\
  (coefficient d = 0 <-> units d = 0).
Proof.
  destruct (decimal_bounds d) as [Hs _]. unfold units.
  pose proof (pow10_gt0 (18 - scale d) ltac:(lia)). split_and!; nia.
Qed.

Lemma coefficient_zero d : (coefficient d =? 0) = (units d =? 0).
Proof. destruct (coefficient_sign d) as (_ & _ & H). lia. Qed.

Lemma require_positive_spec d : require_positive d =
  if 0 <? units d then Ok d else Raise (EconomicValidationError OUT_OF_RANGE).
Proof.
  unfold require_positive. destruct (coefficient_sign d) as [H _].
  destruct (Z.leb_spec (coefficient d) 0), (Z.ltb_spec 0 (units d)); try done; lia.
Qed.

Lemma require_quantized_spec v q : require_quantized v q =
  if 0 <? units q then
    if units v mod units q =? 0 then Ok v else Raise (EconomicValidationError NOT_QUANTIZED)
  else Raise (EconomicValidationError OUT_OF_RANGE).
Proof.
  unfold require_quantized. rewrite require_positive_spec.
  destruct (Z.ltb_spec 0 (units q)) as [Hq|]; simpl; [|done].
  destruct (decimal_bounds v) as [Hv _], (decimal_bounds q) as [Hsq _].
  set (s := Z.max (scale v) (scale q)).
  assert (0 < 10 ^ (18 - s)) as Hp by (apply pow10_gt0; lia).
  rewrite <-(coefficient_at v s), <-(coefficient_at q s) by lia.
  set (x := coefficient v * _). set (y := coefficient q * _).
  rewrite Z.mul_mod_distr_r by (subst y; rewrite <-(coefficient_at q s) in Hq by lia; nia || lia).
  destruct (Z.eqb_spec (x mod y) 0) as [->|Hne]; [done|]. simpl.
  by rewrite (proj2 (Z.eqb_neq _ _)) by nia.
Qed.

(** ** Round half to even *)

(** [k] is the integer nearest to [n / d], ties going to the even one. *)
Definition half_even (n d k : Z) : Prop :=
  2 * Z.abs (n - k * d) <= d /\ (2 * Z.abs (n - k * d) = d -> Z.Even k).

Lemma half_even_unique n d j k : 0 < d -> half_even n d j -> half_even n d k -> j = k.
Proof.
  intros Hd [Hj Hje] [Hk Hke].
  destruct (Z.lt_trichotomy j k) as [H|[H|H]]; [|done|].
  - assert (k = j + 1) as -> by nia.
    destruct Hje as [x Hx]; [nia|]. destruct Hke as [y Hy]; [nia|]. lia.
  - assert (j = k + 1) as -> by nia.
    destruct Hje as [x Hx]; [nia|]. destruct Hke as [y Hy]; [nia|]. lia.
Qed.

(** Only the ratio of [n] to [d] matters. *)
Lemma half_even_scale n d n' d' k :
  0 < d -> 0 < d' -> n * d' = n' * d -> half_even n d k -> half_even n' d' k.
Proof.
  intros Hd Hd' Heq [Hle Htie].
  assert (d' * Z.abs (n - k * d) = d * Z.abs (n' - k * d')) as Habs.
  { rewrite <-(Z.abs_eq d') at 1 by lia. rewrite <-(Z.abs_eq d) at 2 by lia.
    rewrite <-!Z.abs_mul. f_equal. lia. }
  split; [nia|]. intros Ht. apply Htie. nia.
Qed.

Lemma half_even_opp n d k : half_even n d k -> half_even (- n) d (- k).
Proof.
  intros [Hle Htie]. replace (- n - - k * d) with (- (n - k * d)) in * by lia.
  unfold half_even. replace (- n - - k * d) with (- (n - k * d)) by lia.
  rewrite Z.abs_opp. split; [done|]. intros Ht. destruct (Htie Ht) as [x ->]. exists (- x). lia.
Qed.

(** The divmod rule of the source is round-half-even on a non-negative numerator. *)
Lemma divmod_half_even n d : 0 <= n -> 0 < d ->
  half_even n d
    (if (d <? n mod d * 2) || ((n mod d * 2 =? d) && (n / d mod 2 =? 1))
     then n / d + 1 else n / d).
Proof.
  intros Hn Hd. pose proof (Z.div_mod n d ltac:(lia)) as Hdm.
  pose proof (Z.mod_pos_bound n d Hd) as Hr.
  set (q := n / d) in *. set (r := n mod d) in *.
  pose proof (Z.mod_pos_bound q 2 ltac:(lia)) as Hq2.
  pose proof (Z.div_mod q 2 ltac:(lia)) as Hqd.
  destruct (Z.ltb_spec d (r * 2)) as [H1|H1]; simpl.
  { split; [nia|]. intros; nia. }
  destruct (Z.eqb_spec (r * 2) d) as [H2|H2]; simpl.
  - destruct (Z.eqb_spec (q mod 2) 1) as [H3|H3].
    + split; [nia|]. intros _. exists (q / 2 + 1). lia.
    + split; [nia|]. intros _. exists (q / 2). lia.
  - split; [nia|]. intros; nia.
Qed.

(** ** Settlement *)

(** The exact product of three decimals, in units of [10^-54]. *)
Definition product_units (p q m : CanonicalDecimal) : Z := units p * units q * units m.

(** What [settle_product] promises: the amount is the multiple of the quantum nearest
    to the exact product, ties to even, and the residual is the exact difference. *)
Definition settles (p q m quantum : CanonicalDecimal) (st : ScalarSettlement) : Prop :=
  exists k, units (amount st) = k * units quantum /\
    half_even (product_units p q m) (units quantum * 10 ^ 36) k /\
    product_units p q m = (units (amount st) + units (rounding_residual st)) * 10 ^ 36.

Lemma product_units_coefficient p q m :
  product_units p q m * 10 ^ (scale p + scale q + scale m) =
  coefficient p * coefficient q * coefficient m * 10 ^ 54.
Proof.
  destruct (decimal_bounds p) as [Hp _], (decimal_bounds q) as [Hq _], (decimal_bounds m) as [Hm _].
  rewrite !pow10_add by lia. unfold product_units.
  transitivity ((units p * 10 ^ scale p) * (units q * 10 ^ scale q) * (units m * 10 ^ scale m));
    [ring|].
  rewrite !units_scale. change (10 ^ 54) with (10 ^ 18 * 10 ^ 18 * 10 ^ 18). ring.
Qed.

Lemma settle_product_units (p q m quantum : CanonicalDecimal) k :
  0 < units quantum ->
  half_even (coefficient p * coefficient q * coefficient m * 10 ^ scale quantum)
    (coefficient quantum * 10 ^ (scale p + scale q + scale m)) k <->
  half_even (product_units p q m) (units quantum * 10 ^ 36) k.
Proof.
  intros HQ. destruct (coefficient_sign quantum) as (H1 & _ & _).
  destruct (decimal_bounds p) as [Hp _], (decimal_bounds q) as [Hq _],
    (decimal_bounds m) as [Hm _], (decimal_bounds quantum) as [Hqu _].
  pose proof (product_units_coefficient p q m) as HP.
  set (e := scale p + scale q + scale m) in *.
  assert (0 < 10 ^ e) by (apply pow10_gt0; lia).
  set (E := coefficient p * coefficient q * coefficient m) in *.
  assert (E * 10 ^ scale quantum * (units quantum * 10 ^ 36) =
    product_units p q m * (coefficient quantum * 10 ^ e)) as Hx.
  { replace (product_units p q m * (coefficient quantum * 10 ^ e))
      with (product_units p q m * 10 ^ e * coefficient quantum) by ring.
    rewrite HP. unfold units.
    replace (10 ^ 54) with (10 ^ scale quantum * 10 ^ (18 - scale quantum) * 10 ^ 36)
      by (rewrite <-!pow10_add by lia; f_equal; lia). ring. }
  split; apply half_even_scale; nia.
Qed.

(** [settle_product] returns the half-even settlement, or reports which of its two
    outputs does not fit a canonical decimal. *)
Lemma settle_product_correct p q m quantum :
  0 < units q -> 0 < units m -> 0 < units quantum ->
  match settle_product p q m quantum with
  | Ok st => settles p q m quantum st
  | Raise e => exists k, half_even (product_units p q m) (units quantum * 10 ^ 36) k /\
      ((e = EconomicValidationError ARITHMETIC_OVERFLOW /\ UNIT_BOUND <= Z.abs (k * units quantum)) \/
       (e = EconomicValidationError ROUNDING_UNREPRESENTABLE /\
        forall r, Z.abs r < UNIT_BOUND ->
          product_units p q m <> (k * units quantum + r) * 10 ^ 36))
  end.
Proof.
  intros Hq0 Hm0 HQ0. unfold settle_product. rewrite !require_positive_spec.
  rewrite (proj2 (Z.ltb_lt _ _) Hq0), (proj2 (Z.ltb_lt _ _) Hm0), (proj2 (Z.ltb_lt _ _) HQ0).
  cbn [rbind].
  destruct (decimal_bounds p) as [Hp _], (decimal_bounds q) as [Hq _],
    (decimal_bounds m) as [Hm _], (decimal_bounds quantum) as [HQ _].
  pose proof (product_units_coefficient p q m) as HP.
  set (E := coefficient p * coefficient q * coefficient m) in *.
  set (es := scale p + scale q + scale m) in *.
  destruct (coefficient_sign quantum) as (Hcq & _ & _).
  pose proof (pow10_gt0 es ltac:(lia)) as Hpe. pose proof (pow10_gt0 (scale quantum) ltac:(lia)) as Hpq.
  assert (0 < coefficient quantum * 10 ^ es) as Hden by nia.
  pose proof (divmod_half_even (Z.abs E * 10 ^ scale quantum) (coefficient quantum * 10 ^ es)
    ltac:(nia) Hden) as Hhe.
  set (quo := if _ || _ then _ else _) in *.
  set (k := if E <? 0 then - quo else quo).
  assert (half_even (product_units p q m) (units quantum * 10 ^ 36) k) as Hk.
  { apply settle_product_units; [done|]. fold E. fold es. unfold k.
    destruct (Z.ltb_spec E 0).
    - replace (E * _) with (- (Z.abs E * 10 ^ scale quantum)) by (rewrite Z.abs_neq by lia; ring).
      by apply half_even_opp.
    - by rewrite Z.abs_eq in Hhe by lia. }
  clearbody quo k. clear Hhe.
  assert (k * coefficient quantum * 10 ^ 18 = k * units quantum * 10 ^ scale quantum) as Hset.
  { unfold units. rewrite (pow10_split 18 (scale quantum)) by lia. ring. }
  destruct (bounded_scaled_spec (k * coefficient quantum) (scale quantum) ARITHMETIC_OVERFLOW)
    as [(a & -> & Ha)|[-> Hno]]; [lia|done|..]; cbn [rbind].
  2:{ exists k. split; [done|]. left. split; [done|].
    destruct (Z_lt_le_dec (Z.abs (k * units quantum)) UNIT_BOUND) as [Hlt|]; [|done].
    by destruct (Hno _ Hlt). }
  assert (units a = k * units quantum) as Hau by nia. clear Ha Hset.
  set (rs := Z.max es (scale quantum)) in *.
  set (rc := E * 10 ^ (rs - es) - _).
  assert (forall r, r * 10 ^ rs = rc * 10 ^ 18 <->
    product_units p q m = (k * units quantum + r) * 10 ^ 36) as Hres.
  { intros r. unfold rc.
    assert (10 ^ rs * product_units p q m = E * 10 ^ (rs - es) * 10 ^ 54) as H1.
    { rewrite (pow10_split rs es) by lia. rewrite <-Z.mul_assoc, (Z.mul_comm (10 ^ es)), HP. ring. }
    assert (k * units quantum * 10 ^ rs = k * coefficient quantum * 10 ^ (rs - scale quantum) * 10 ^ 18) as H2.
    { rewrite (pow10_split rs (scale quantum)) by lia.
      transitivity (k * (units quantum * 10 ^ scale quantum) * 10 ^ (rs - scale quantum)); [ring|].
      rewrite units_scale. ring. }
    pose proof (pow10_gt0 rs ltac:(lia)).
    change (10 ^ 54) with (10 ^ 18 * 10 ^ 36) in H1.
    split; intros Hr.
    - apply (Z.mul_reg_l _ _ (10 ^ rs)); [lia|]. nia.
    - rewrite Hr in H1. nia. }
  destruct (bounded_scaled_spec rc rs ROUNDING_UNREPRESENTABLE)
    as [(r & -> & Hr)|[-> Hno]]; [lia|done|..]; cbn [rbind].
  - exists k. simpl. rewrite Hau. split_and!; [done|done|]. by apply Hres.
  - exists k. split; [done|]. right. split; [done|]. intros r Hr HPr. apply Hres in HPr.
    by destruct (Hno r Hr).
Qed.

(** ** Negation on the text *)

(** Dropping or adding the sign of a canonical text negates the value: the program's
    textual negation never fails. *)
Lemma decimal_flip_sign d : units d <> 0 ->
  exists d', decimal_of_text (match chars (text d) with
                              | "-"%char :: rest => text_of rest
                              | s => text_of ("-"%char :: s)
                              end) = Ok d' /\ units d' = - units d.
Proof.
  intros Hnz.
  destruct (decimal_post_init_inv _ _ _ (text_ok d)) as (neg & I & F & Ht & Hc & Hcoef & Hs & H18 & Hlt).
  pose proof Hc as (HI & Hz & HF & Hp). pose proof (fraction_ok_digits F HF) as HFd.
  assert (I <> []) as Hne by by destruct I.
  assert (int_of (I ++ F) <> 0) as Hi.
  { intros Hi. apply Hnz. unfold units. rewrite Hcoef, Hi. by destruct neg. }
  assert (match chars (text d) with
          | "-"%char :: rest => text_of rest
          | s => text_of ("-"%char :: s)
          end = text_of (render (negb neg) I F)) as ->.
  { rewrite Ht, chars_text_of. unfold render. destruct neg; cbn [negb app]; [done|].
    destruct I as [|c I]; [done|]. cbn [app].
    assert (c <> "-"%char) as Hcm by (apply (all_digits_no_dot (c :: I)); [done|left]).
    destruct c as [[] [] [] [] [] [] [] []]; done. }
  pose proof (decimal_of_text_spec (text_of (render (negb neg) I F))) as Hd.
  rewrite decimal_post_init_render in Hd by (by split_and!).
  rewrite bool_decide_eq_true_2 in Hd by (by rewrite <-Hs).
  destruct (decimal_of_text _) as [d'|e]; [|done].
  exists d'. split; [done|]. pose proof (text_ok d') as Ho. rewrite Hd in Ho.
  rewrite decimal_post_init_render, bool_decide_eq_true_2 in Ho by (by rewrite <-Hs || by split_and!).
  injection Ho as Hc' Hs'. unfold units. rewrite <-Hc', <-Hs', Hcoef, Hs. unfold signed.
  destruct neg; simpl; lia.
Qed.
