(* ===== verification/Commission.v ===== *)
(** Deterministic execution assumptions ([core/commission.py]): the identities that
    bind latency, slippage and commission to a policy string and its digest, their
    parsing, and the half-even commission. *)

From S2P Require Import Prelude PyRegex PyText Outcomes Json Identity Economics.

Open Scope Z_scope.

Definition POLICY_PREFIX : string := "phase2.next-bar-close.commission-v1.bps-".
Definition COST_POLICY_PREFIX : string := "phase2.next-bar-close.cost-v1.slippage-".
Definition LATENCY_POLICY_PREFIX : string := "phase2.next-bar-close.latency-v1.ms-".

Definition nul : ascii := ascii_of_N 0.

(** [identifier[len(prefix):]]. *)
Definition slice_from (prefix identifier : string) : str :=
  skipn (length (chars prefix)) (chars identifier).

Definition require_latency_ms (v : Z) : res Z :=
  raise_if negb ((0 <=? v) && (v <=? 86400000)) with raise_economic OUT_OF_RANGE ;;
  Ok v.

Definition require_slippage_bps (v : CanonicalDecimal) : res CanonicalDecimal :=
  raise_if coefficient v <? 0 with raise_economic OUT_OF_RANGE ;;
  let* too_big := decimal_ge v CANONICAL_10000 in
  raise_if too_big with raise_economic OUT_OF_RANGE ;;
  Ok v.

Definition require_commission_bps (v : CanonicalDecimal) : res CanonicalDecimal :=
  raise_if coefficient v <? 0 with raise_economic OUT_OF_RANGE ;;
  let* too_big := decimal_gt v CANONICAL_10000 in
  raise_if too_big with raise_economic OUT_OF_RANGE ;;
  Ok v.

(** ["none" if value is None else require(value).text]. *)
Definition optional_text (require : CanonicalDecimal -> res CanonicalDecimal)
  (v : option CanonicalDecimal) : res string :=
  match v with
  | None => Ok "none"%string
  | Some d => let* d := require d in Ok (text d)
  end.

(** [None if text == "none" else require(CanonicalDecimal(text))]. *)
Definition optional_value (require : CanonicalDecimal -> res CanonicalDecimal)
  (t : string) : res (option CanonicalDecimal) :=
  if bool_decide (t = "none"%string) then Ok None
  else let* d := decimal_of_text t in let* d := require d in Ok (Some d).

Section Policies.
Context `{Sha256}.

(** The preimage of a policy digest: domain, identifier and a fixed description. *)
Definition policy_digest (name identifier description : string) : string :=
  sha256_hex (domain name ++ chars identifier ++ nul :: chars description).

Definition execution_latency_policy_identity (latency_ms : Z)
  (slippage_bps commission_bps : option CanonicalDecimal) : res (string * string) :=
  let* _ := require_latency_ms latency_ms in
  let* slip := optional_text require_slippage_bps slippage_bps in
  let* fee := optional_text require_commission_bps commission_bps in
  let identifier :=
    (LATENCY_POLICY_PREFIX +:+ text_of (str_int latency_ms) +:+ ".slippage-" +:+ slip
     +:+ ".commission-" +:+ fee)%string in
  Ok (identifier,
      policy_digest "ea.execution-latency-policy.v1" identifier
        ("strict-event-time-after-submission-latency" +:+ String nul
           "absolute-close-adverse-nearest-tick")).

(** [isascii() and isdigit()]. *)
Definition isdigit (s : str) : bool := negb (bool_decide (s = [])) && forallb is_digit s.

Definition _latency_costs (identifier digest : string)
  : res (Z * option CanonicalDecimal * option CanonicalDecimal) :=
  match split_on (chars ".slippage-") (slice_from LATENCY_POLICY_PREFIX identifier) with
  | [delay; cost] =>
      match split_on (chars ".commission-") cost with
      | [v0; v1] =>
          raise_if negb ((1 <=? Z.of_nat (length delay)) && (Z.of_nat (length delay) <=? 8))
                || negb (isdigit delay) with raise_economic CONFLICTING_ID ;;
          let* milliseconds := require_latency_ms (int_of delay) in
          let* slip := optional_value require_slippage_bps (text_of v0) in
          let* fee := optional_value require_commission_bps (text_of v1) in
          let* identity := execution_latency_policy_identity milliseconds slip fee in
          raise_if negb (bool_decide (identity = (identifier, digest)))
            with raise_economic CONFLICTING_ID ;;
          Ok (milliseconds, slip, fee)
      | _ => Raise (raise_economic CONFLICTING_ID)
      end
  | _ => Raise (raise_economic CONFLICTING_ID)
  end.

Definition has_prefix (prefix identifier : string) : bool :=
  startswith (chars prefix) (chars identifier).

Definition latency_ms_from_identity (identifier digest : string) : res Z :=
  if negb (has_prefix LATENCY_POLICY_PREFIX identifier) then Ok 0
  else let* costs := _latency_costs identifier digest in Ok costs.1.1.

(** [event_time - submitted_at > timedelta(milliseconds=...)]. *)
Definition execution_latency_allows (event_time submitted_at : datetime)
  (identifier digest : string) : res bool :=
  let* ms := latency_ms_from_identity identifier digest in
  Ok (ms * 1000 <? microseconds event_time - microseconds submitted_at).

Definition execution_cost_policy_identity (slippage_bps : CanonicalDecimal)
  (commission_bps : option CanonicalDecimal) : res (string * string) :=
  let* _ := require_slippage_bps slippage_bps in
  let* fee := optional_text require_commission_bps commission_bps in
  let identifier := (COST_POLICY_PREFIX +:+ text slippage_bps +:+ ".commission-" +:+ fee)%string in
  Ok (identifier,
      policy_digest "ea.execution-cost-policy.v1" identifier "absolute-close-adverse-nearest-tick").

Definition _execution_costs (identifier digest : string)
  : res (CanonicalDecimal * option CanonicalDecimal) :=
  match split_on (chars ".commission-") (slice_from COST_POLICY_PREFIX identifier) with
  | [v0; v1] =>
      let* d := decimal_of_text (text_of v0) in
      let* slippage := require_slippage_bps d in
      let* commission := optional_value require_commission_bps (text_of v1) in
      let* identity := execution_cost_policy_identity slippage commission in
      raise_if negb (bool_decide (identity = (identifier, digest))) with raise_economic CONFLICTING_ID ;;
      Ok (slippage, commission)
  | _ => Raise (raise_economic CONFLICTING_ID)
  end.

Definition slippage_bps_from_identity (identifier digest : string) : res (option CanonicalDecimal) :=
  if has_prefix LATENCY_POLICY_PREFIX identifier then
    let* costs := _latency_costs identifier digest in Ok costs.1.2
  else if negb (has_prefix COST_POLICY_PREFIX identifier) then Ok None
  else let* costs := _execution_costs identifier digest in Ok (Some costs.1).

Definition commission_policy_identity (bps : CanonicalDecimal) : res (string * string) :=
  let* _ := require_commission_bps bps in
  let identifier := (POLICY_PREFIX +:+ text bps)%string in
  Ok (identifier,
      policy_digest "ea.commission-policy.v1" identifier "per-fill-half-even-currency-quantum").

Definition commission_bps_from_identity (identifier digest : string) : res (option CanonicalDecimal) :=
  if has_prefix LATENCY_POLICY_PREFIX identifier then
    let* costs := _latency_costs identifier digest in Ok costs.2
  else if has_prefix COST_POLICY_PREFIX identifier then
    let* costs := _execution_costs identifier digest in Ok costs.2
  else if negb (has_prefix POLICY_PREFIX identifier) then Ok None
  else
    let* d := decimal_of_text (text_of (slice_from POLICY_PREFIX identifier)) in
    let* bps := require_commission_bps d in
    let* identity := commission_policy_identity bps in
    raise_if negb (bool_decide (identity = (identifier, digest))) with raise_economic CONFLICTING_ID ;;
    Ok (Some bps).
End Policies.

Definition commission_amount (price quantity multiplier bps quantum : CanonicalDecimal)
  : res CanonicalDecimal :=
  let* _ := require_commission_bps bps in
  let* _ := require_positive quantity in
  let* _ := require_positive multiplier in
  let* _ := require_positive quantum in
  raise_if coefficient price <? 0 with raise_economic OUT_OF_RANGE ;;
  let numerator :=
    coefficient price * coefficient quantity * coefficient multiplier * coefficient bps in
  let scale_ := scale price + scale quantity + scale multiplier + scale bps + 4 in
  let numerator := numerator * 10 ^ scale quantum in
  let denominator := coefficient quantum * 10 ^ scale_ in
  let units := numerator / denominator in
  let remainder := numerator mod denominator in
  let units :=
    if (denominator <? remainder * 2)
       || ((remainder * 2 =? denominator) && negb (units mod 2 =? 0))
    then units + 1 else units in
  _bounded_scaled (units * coefficient quantum) (scale quantum) ARITHMETIC_OVERFLOW.

(** ** The bounds in units *)

Definition slippage_ok (v : CanonicalDecimal) : bool := (0 <=? units v) && (units v <? 10000 * 10 ^ 18).
Definition commission_ok (v : CanonicalDecimal) : bool := (0 <=? units v) && (units v <=? 10000 * 10 ^ 18).

Lemma require_slippage_bps_spec v : require_slippage_bps v =
  if slippage_ok v then Ok v else Raise (EconomicValidationError OUT_OF_RANGE).
Proof.
  unfold require_slippage_bps, slippage_ok. destruct (coefficient_sign v) as (_ & H & _).
  rewrite decimal_ge_units. change (units CANONICAL_10000) with (10000 * 10 ^ 18). cbn [rbind].
  destruct (Z.ltb_spec (coefficient v) 0), (Z.leb_spec 0 (units v)); simpl; try (done || lia).
  by destruct (Z.leb_spec (10000 * 10 ^ 18) (units v)), (Z.ltb_spec (units v) (10000 * 10 ^ 18)); try lia.
Qed.

Lemma require_commission_bps_spec v : require_commission_bps v =
  if commission_ok v then Ok v else Raise (EconomicValidationError OUT_OF_RANGE).
Proof.
  unfold require_commission_bps, commission_ok. destruct (coefficient_sign v) as (_ & H & _).
  rewrite decimal_gt_units. change (units CANONICAL_10000) with (10000 * 10 ^ 18). cbn [rbind].
  destruct (Z.ltb_spec (coefficient v) 0), (Z.leb_spec 0 (units v)); simpl; try (done || lia).
  by destruct (Z.ltb_spec (10000 * 10 ^ 18) (units v)), (Z.leb_spec (units v) (10000 * 10 ^ 18)); try lia.
Qed.

(** ** The commission is rounded half to even *)

Lemma commission_amount_units p q m b quantum : 0 < units quantum ->
  let n := coefficient p * coefficient q * coefficient m * coefficient b in
  let s := scale p + scale q + scale m + scale b + 4 in
  forall k, half_even (n * 10 ^ scale quantum) (coefficient quantum * 10 ^ s) k <->
    half_even (product_units p q m * units b) (units quantum * 10 ^ 58) k.
Proof.
  intros HQ n s k. destruct (coefficient_sign quantum) as (H1 & _ & _).
  destruct (decimal_bounds p) as [Hp _], (decimal_bounds q) as [Hq _], (decimal_bounds m) as [Hm _],
    (decimal_bounds b) as [Hb _], (decimal_bounds quantum) as [Hqu _].
  pose proof (pow10_gt0 s ltac:(lia)).
  assert (product_units p q m * units b * 10 ^ s = n * 10 ^ 76) as HP.
  { transitivity (product_units p q m * 10 ^ (scale p + scale q + scale m)
      * (units b * 10 ^ scale b) * 10 ^ 4).
    - unfold s. rewrite !pow10_add by lia. ring.
    - rewrite product_units_coefficient, units_scale.
      change (10 ^ 76) with (10 ^ 54 * 10 ^ 18 * 10 ^ 4). unfold n. ring. }
  assert (n * 10 ^ scale quantum * (units quantum * 10 ^ 58) =
    product_units p q m * units b * (coefficient quantum * 10 ^ s)) as Hx.
  { replace (product_units p q m * units b * (coefficient quantum * 10 ^ s))
      with (product_units p q m * units b * 10 ^ s * coefficient quantum) by ring.
    rewrite HP. unfold units at 1.
    replace (10 ^ 76) with (10 ^ scale quantum * 10 ^ (18 - scale quantum) * 10 ^ 58)
      by (rewrite <-!pow10_add by lia; f_equal; lia). ring. }
  split; apply half_even_scale; nia.
Qed.

(** The functional behaviour of [commission_amount] on every branch. *)
Lemma commission_amount_spec p q m b quantum :
  match commission_amount p q m b quantum with
  | Ok a =>
      (commission_ok b = true /\ 0 < units q /\ 0 < units m /\ 0 < units quantum /\ 0 <= units p) /\
      exists k, units a = k * units quantum /\
        half_even (product_units p q m * units b) (units quantum * 10 ^ 58) k
  | Raise e =>
      (e = EconomicValidationError OUT_OF_RANGE /\
       ~ (commission_ok b = true /\ 0 < units q /\ 0 < units m /\ 0 < units quantum /\ 0 <= units p)) \/
      (e = EconomicValidationError ARITHMETIC_OVERFLOW /\
       exists k, half_even (product_units p q m * units b) (units quantum * 10 ^ 58) k /\
         UNIT_BOUND <= Z.abs (k * units quantum))
  end.
Proof.
  unfold commission_amount. rewrite require_commission_bps_spec, !require_positive_spec.
  destruct (commission_ok b) eqn:Hb; simpl; [|left; intuition congruence].
  destruct (Z.ltb_spec 0 (units q)) as [Hq|]; simpl; [|left; intuition lia].
  destruct (Z.ltb_spec 0 (units m)) as [Hm|]; simpl; [|left; intuition lia].
  destruct (Z.ltb_spec 0 (units quantum)) as [HQ|]; simpl; [|left; intuition lia].
  destruct (coefficient_sign p) as (_ & Hp & _), (coefficient_sign q) as (Hcq & _ & _),
    (coefficient_sign m) as (Hcm & _ & _), (coefficient_sign b) as (_ & Hcb & _),
    (coefficient_sign quantum) as (HcQ & _ & _).
  destruct (Z.ltb_spec (coefficient p) 0) as [Hp0|Hp0]; simpl; [left; intuition lia|].
  apply andb_true_iff in Hb as [Hb0%Z.leb_le _].
  destruct (decimal_bounds quantum) as [HsQ _].
  destruct (decimal_bounds p) as [? _], (decimal_bounds q) as [? _], (decimal_bounds m) as [? _],
    (decimal_bounds b) as [? _].
  set (n := _ * coefficient b) in *. set (s := _ + 4).
  pose proof (pow10_gt0 s ltac:(lia)). pose proof (pow10_gt0 (scale quantum) ltac:(lia)).
  assert (0 <= n) by (unfold n; repeat apply Z.mul_nonneg_nonneg; lia).
  pose proof (divmod_half_even (n * 10 ^ scale quantum) (coefficient quantum * 10 ^ s)
    ltac:(nia) ltac:(nia)) as Hhe.
  assert (forall z, negb (z mod 2 =? 0) = (z mod 2 =? 1)) as ->.
  { intros z. pose proof (Z.mod_pos_bound z 2 ltac:(lia)). lia. }
  set (k := if _ || _ then _ else _) in *. clearbody k.
  apply commission_amount_units in Hhe; [|done].
  assert (k * coefficient quantum * 10 ^ 18 = k * units quantum * 10 ^ scale quantum) as Hset.
  { rewrite <-Z.mul_assoc, <-units_scale. ring. }
  destruct (bounded_scaled_spec (k * coefficient quantum) (scale quantum) ARITHMETIC_OVERFLOW)
    as [(a & -> & Ha)|[-> Hno]]; [lia|done|..].
  - split; [split_and!; (done || lia || nia)|]. exists k. split; [nia|done].
  - right. split; [done|]. exists k. split; [done|].
    destruct (Z_lt_le_dec (Z.abs (k * units quantum)) UNIT_BOUND) as [Hlt|]; [|done].
    by destruct (Hno _ Hlt).
Qed.

(** ** Parsing the policy identities *)

(** A canonical decimal is written with digits, a point and a minus sign. *)
Definition decimal_char (c : ascii) : bool := is_digit c || one_of "-." c.

Lemma decimal_text_chars d : Forall (fun c => decimal_char c = true) (chars (text d)).
Proof.
  destruct (decimal_post_init_inv _ _ _ (text_ok d)) as (neg & I & F & -> & Hc & _).
  destruct Hc as (HI & _ & HF%fraction_ok_digits & _). rewrite chars_text_of. unfold render.
  assert (forall s, all_digits s -> Forall (fun c => decimal_char c = true) s) as Hd.
  { intros s Hs. eapply Forall_impl; [exact Hs|]. intros c Hc. unfold decimal_char. by rewrite Hc. }
  apply Forall_app; split; [destruct neg; repeat constructor|].
  apply Forall_app; split; [by apply Hd|]. destruct F; [done|]. constructor; [done|by apply Hd].
Qed.

Lemma not_decimal_char c s : Forall (fun c => decimal_char c = true) s ->
  decimal_char c = false -> c ∉ s.
Proof. intros Hs Hc H. rewrite Forall_forall in Hs. apply Hs in H. congruence. Qed.

Lemma text_not_none d : text d <> "none"%string.
Proof.
  intros H. pose proof (decimal_text_chars d) as Hd. rewrite H in Hd.
  by inversion Hd.
Qed.

Section OptionalText.
Context (require : CanonicalDecimal -> res CanonicalDecimal) (ok : CanonicalDecimal -> bool).
Hypothesis require_spec : forall v, require v =
  if ok v then Ok v else Raise (EconomicValidationError OUT_OF_RANGE).

Lemma optional_text_Ok v t : optional_text require v = Ok t <->
  match v with None => t = "none"%string | Some d => ok d = true /\ t = text d end.
Proof.
  destruct v as [d|]; simpl; [|by split; [intros [= ->]|intros ->]].
  rewrite require_spec. destruct (ok d); simpl.
  - split; [by intros [= ->] | by intros [_ ->]].
  - split; [done | by intros [? _]].
Qed.

Lemma optional_value_text v t : optional_text require v = Ok t -> optional_value require t = Ok v.
Proof.
  rewrite optional_text_Ok. unfold optional_value. destruct v as [d|].
  - intros [Hok ->]. rewrite bool_decide_eq_false_2 by apply text_not_none.
    rewrite (proj2 (decimal_of_text_Ok _ d) eq_refl). simpl. by rewrite require_spec, Hok.
  - intros ->. done.
Qed.

Lemma optional_text_absent v t c : optional_text require v = Ok t ->
  decimal_char c = false -> c ∉ chars "none" -> c ∉ chars t.
Proof.
  rewrite optional_text_Ok. destruct v as [d|]; [|by intros ->]. intros [_ ->] Hc _.
  eapply not_decimal_char; [apply decimal_text_chars|done].
Qed.
End OptionalText.

Definition slippage_text := optional_text_Ok _ _ require_slippage_bps_spec.
Definition commission_text := optional_text_Ok _ _ require_commission_bps_spec.

Lemma chars_app a b : chars (a +:+ b) = chars a ++ chars b.
Proof. induction a as [|c a IH]; [done|]. simpl. by rewrite <-IH. Qed.

Lemma slice_from_app p t : slice_from p (p +:+ t) = chars t.
Proof.
  unfold slice_from. rewrite chars_app. apply drop_app_length'. done.
Qed.

Lemma has_prefix_app p t : has_prefix p (p +:+ t) = true.
Proof. unfold has_prefix, startswith. by rewrite chars_app, strip_prefix_app. Qed.

Ltac ascii_absent := let H := fresh in intros H; repeat (apply elem_of_cons in H as [H|H]; [discriminate H|]);
  by apply not_elem_of_nil in H.

(** The costs field [slip ++ ".commission-" ++ fee] splits back into its two texts. *)
Lemma split_commission s0 fee v :
  "m"%char ∉ s0 -> optional_text require_commission_bps v = Ok fee ->
  split_on (chars ".commission-") (s0 ++ chars ".commission-" ++ chars fee) = [s0; chars fee].
Proof.
  intros Hs Hf. apply (split_on_one (chars ".co") "m"%char (chars "mission-")); [done| |].
  - ascii_absent.
  - eapply optional_text_absent; [apply require_commission_bps_spec|exact Hf|done|ascii_absent].
Qed.

Lemma latency_digits ms : 0 <= ms <= 86400000 ->
  str_int ms = digits ms /\ all_digits (digits ms) /\ int_of (digits ms) = ms /\
  1 <= Z.of_nat (length (digits ms)) <= 8.
Proof.
  intros H. unfold str_int. destruct (Z.ltb_spec ms 0); [lia|]. split_and!; [done| | | |].
  - apply digits_digits; lia.
  - apply int_of_digits; lia.
  - pose proof (digits_nonempty ms ltac:(lia)). destruct (digits ms); [done|simpl; lia].
  - apply length_digits_le; lia.
Qed.

Lemma isdigit_spec s : isdigit s = true <-> s <> [] /\ all_digits s.
Proof.
  unfold isdigit, all_digits. rewrite andb_true_iff, negb_true_iff, bool_decide_eq_false, forallb_forall.
  rewrite Forall_forall. setoid_rewrite list_elem_of_In. done.
Qed.

Section PolicyIdentities.
Context `{Sha256}.

Lemma latency_costs_issued ms slip fee identifier digest :
  execution_latency_policy_identity ms slip fee = Ok (identifier, digest) ->
  _latency_costs identifier digest = Ok (ms, slip, fee) /\
  has_prefix LATENCY_POLICY_PREFIX identifier = true.
Proof.
  intros Hid. pose proof Hid as Hiss. unfold execution_latency_policy_identity in Hid.
  unfold require_latency_ms in Hid.
  destruct ((0 <=? ms) && (ms <=? 86400000)) eqn:Hms; [|done]. cbn [negb rbind] in Hid.
  pose proof Hms as Hms'. apply andb_true_iff in Hms' as [H0%Z.leb_le H1%Z.leb_le].
  destruct (latency_digits ms ltac:(lia)) as (Hstr & Hdig & Hint & Hlen).
  destruct (optional_text require_slippage_bps slip) as [st|] eqn:Hst; [|done].
  destruct (optional_text require_commission_bps fee) as [ft|] eqn:Hft; [|done].
  cbn [rbind] in Hid. injection Hid as Hi Hd.
  split; [|by rewrite <-Hi; apply has_prefix_app].
  unfold _latency_costs. rewrite <-Hi at 1. rewrite slice_from_app, Hstr, !chars_app, chars_text_of.
  assert (forall c, decimal_char c = false -> c ∉ chars "none" -> c ∉ chars st) as Hs.
  { intros c. eapply optional_text_absent; [apply require_slippage_bps_spec|done]. }
  assert (forall c, decimal_char c = false -> c ∉ chars "none" -> c ∉ chars ft) as Hf.
  { intros c. eapply optional_text_absent; [apply require_commission_bps_spec|done]. }
  rewrite (split_on_one (chars ".sli") "p"%char (chars "page-")).
  2:{ intros H'. eapply Forall_forall in Hdig; [|exact H']. done. }
  2:{ ascii_absent. }
  2:{ rewrite !not_elem_of_app. split_and!; [apply Hs; [done|ascii_absent]|ascii_absent|
        apply Hf; [done|ascii_absent]]. }
  rewrite (split_commission _ _ fee); [|apply Hs; [done|ascii_absent]|done].
  rewrite (proj2 (isdigit_spec _)) by (split; [apply digits_nonempty; lia|done]).
  rewrite (proj2 (Z.leb_le _ _)), (proj2 (Z.leb_le _ _)) by lia. cbn [andb negb orb].
  rewrite Hint. unfold require_latency_ms. rewrite Hms. cbn [rbind negb].
  rewrite !text_of_chars, (optional_value_text _ _ require_slippage_bps_spec _ _ Hst). cbn [rbind].
  rewrite (optional_value_text _ _ require_commission_bps_spec _ _ Hft). cbn [rbind].
  rewrite Hiss. cbn [rbind]. by rewrite bool_decide_eq_true_2.
Qed.

Lemma latency_costs_checked ms slip fee identifier digest :
  _latency_costs identifier digest = Ok (ms, slip, fee) ->
  execution_latency_policy_identity ms slip fee = Ok (identifier, digest).
Proof.
  unfold _latency_costs. intros Hc. res_inv Hc.
  all: match goal with E : negb (bool_decide _) = false |- _ =>
    apply negb_false_iff, bool_decide_eq_true in E; subst end; simplify_eq; done.
Qed.

Lemma execution_costs_issued slippage fee identifier digest :
  execution_cost_policy_identity slippage fee = Ok (identifier, digest) ->
  _execution_costs identifier digest = Ok (slippage, fee) /\
  has_prefix COST_POLICY_PREFIX identifier = true.
Proof.
  intros Hid. pose proof Hid as Hiss. unfold execution_cost_policy_identity in Hid.
  rewrite require_slippage_bps_spec in Hid.
  destruct (slippage_ok slippage) eqn:Hok; [|done]. cbn [rbind] in Hid.
  destruct (optional_text require_commission_bps fee) as [ft|] eqn:Hft; [|done].
  cbn [rbind] in Hid. injection Hid as Hi Hd.
  split; [|by rewrite <-Hi; apply has_prefix_app].
  unfold _execution_costs. rewrite <-Hi at 1. rewrite slice_from_app, !chars_app.
  rewrite (split_commission _ _ fee) by
    (done || (eapply not_decimal_char; [apply decimal_text_chars|done])).
  rewrite !text_of_chars, (proj2 (decimal_of_text_Ok _ slippage) eq_refl). cbn [rbind].
  rewrite require_slippage_bps_spec, Hok. cbn [rbind].
  rewrite (optional_value_text _ _ require_commission_bps_spec _ _ Hft). cbn [rbind].
  rewrite Hiss. cbn [rbind]. by rewrite bool_decide_eq_true_2.
Qed.

Lemma execution_costs_checked slippage fee identifier digest :
  _execution_costs identifier digest = Ok (slippage, fee) ->
  execution_cost_policy_identity slippage fee = Ok (identifier, digest).
Proof.
  unfold _execution_costs. intros Hc. res_inv Hc.
  all: match goal with E : negb (bool_decide _) = false |- _ =>
    apply negb_false_iff, bool_decide_eq_true in E; subst end; simplify_eq; done.
Qed.

Lemma latency_identity_prefix ms slip fee identifier digest :
  execution_latency_policy_identity ms slip fee = Ok (identifier, digest) ->
  has_prefix LATENCY_POLICY_PREFIX identifier = true /\
  has_prefix COST_POLICY_PREFIX identifier = false.
Proof.
  intros Hid. split; [by eapply latency_costs_issued|].
  unfold execution_latency_policy_identity in Hid. res_inv Hid. by injection Hid as <- _.
Qed.

Lemma cost_identity_prefix slippage fee identifier digest :
  execution_cost_policy_identity slippage fee = Ok (identifier, digest) ->
  has_prefix LATENCY_POLICY_PREFIX identifier = false /\
  has_prefix COST_POLICY_PREFIX identifier = true.
Proof.
  intros Hid. split; [|by eapply execution_costs_issued].
  unfold execution_cost_policy_identity in Hid. res_inv Hid. by injection Hid as <- _.
Qed.

Lemma commission_identity_prefix bps identifier digest :
  commission_policy_identity bps = Ok (identifier, digest) ->
  identifier = (POLICY_PREFIX +:+ text bps)%string /\ commission_ok bps = true /\
  has_prefix LATENCY_POLICY_PREFIX identifier = false /\
  has_prefix COST_POLICY_PREFIX identifier = false /\ has_prefix POLICY_PREFIX identifier = true.
Proof.
  intros Hid. unfold commission_policy_identity in Hid.
  rewrite require_commission_bps_spec in Hid. destruct (commission_ok bps); [|done].
  cbn [rbind] in Hid. injection Hid as <- _. split_and!; done.
Qed.

(** Which policy a pair of strings denotes. *)
Inductive policy : Type :=
| LatencyPolicy (ms : Z) (slippage commission : option CanonicalDecimal)
| CostPolicy (slippage : CanonicalDecimal) (commission : option CanonicalDecimal)
| CommissionPolicy (commission : CanonicalDecimal).

Definition policy_issue (p : policy) : res (string * string) :=
  match p with
  | LatencyPolicy ms slip fee => execution_latency_policy_identity ms slip fee
  | CostPolicy slip fee => execution_cost_policy_identity slip fee
  | CommissionPolicy fee => commission_policy_identity fee
  end.
Definition policy_latency (p : policy) : Z :=
  match p with LatencyPolicy ms _ _ => ms | _ => 0 end.
Definition policy_slippage (p : policy) : option CanonicalDecimal :=
  match p with
  | LatencyPolicy _ slip _ => slip
  | CostPolicy slip _ => Some slip
  | CommissionPolicy _ => None
  end.
Definition policy_commission (p : policy) : option CanonicalDecimal :=
  match p with
  | LatencyPolicy _ _ fee | CostPolicy _ fee => fee
  | CommissionPolicy fee => Some fee
  end.

Lemma policy_decodes p identifier digest : policy_issue p = Ok (identifier, digest) ->
  latency_ms_from_identity identifier digest = Ok (policy_latency p) /\
  slippage_bps_from_identity identifier digest = Ok (policy_slippage p) /\
  commission_bps_from_identity identifier digest = Ok (policy_commission p).
Proof.
  unfold latency_ms_from_identity, slippage_bps_from_identity, commission_bps_from_identity.
  destruct p as [ms slip fee|slip fee|fee]; simpl; intros Hid.
  - destruct (latency_identity_prefix _ _ _ _ _ Hid) as [-> _].
    destruct (latency_costs_issued _ _ _ _ _ Hid) as [-> _]. done.
  - destruct (cost_identity_prefix _ _ _ _ Hid) as [-> ->].
    destruct (execution_costs_issued _ _ _ _ Hid) as [-> _]. done.
  - destruct (commission_identity_prefix _ _ _ Hid) as (Hi & Hok & -> & -> & ->).
    split_and!; [done..|]. cbn [negb]. rewrite Hi at 1. rewrite slice_from_app, text_of_chars.
    rewrite (proj2 (decimal_of_text_Ok _ fee) eq_refl). cbn [rbind].
    rewrite require_commission_bps_spec, Hok. cbn [rbind]. rewrite Hid. cbn [rbind].
    by rewrite bool_decide_eq_true_2.
Qed.

(** An accepted commission belongs to a policy the program issues: a tampered
    identifier or digest is refused. *)
Lemma commission_accepted identifier digest b :
  commission_bps_from_identity identifier digest = Ok (Some b) ->
  exists p, policy_issue p = Ok (identifier, digest) /\ policy_commission p = Some b.
Proof.
  unfold commission_bps_from_identity. intros Hc.
  destruct (has_prefix LATENCY_POLICY_PREFIX identifier).
  { destruct (_latency_costs identifier digest) as [[[ms slip] fee]|] eqn:E; simplify_eq/=.
    exists (LatencyPolicy ms slip (Some b)). split; [|done]. by apply latency_costs_checked. }
  destruct (has_prefix COST_POLICY_PREFIX identifier).
  { destruct (_execution_costs identifier digest) as [[slip fee]|] eqn:E; simplify_eq/=.
    exists (CostPolicy slip (Some b)). split; [|done]. by apply execution_costs_checked. }
  destruct (has_prefix POLICY_PREFIX identifier); [|done]. res_inv Hc. injection Hc as <-.
  match goal with E : negb _ = false |- _ => apply negb_false_iff, bool_decide_eq_true in E; subst end.
  eexists (CommissionPolicy _). done.
Qed.
End PolicyIdentities.
