(* ===== verification/Execution.v ===== *)
(** Instrument-bound execution specifications and settlement ([core/execution.py]).

    A specification set is a canonically ordered, duplicate-free sequence of
    specifications; [validate_execution_inputs] is the gate every fill goes through
    (price domain, grids, quantity) and [settle_execution] adds the settlement. *)

From S2P Require Import Prelude PyRegex PyText Outcomes Json Identity Economics.

Open Scope Z_scope.

(** [[A-Z][A-Z0-9]{2,11}] *)
Definition _CURRENCY_PATTERN : regex :=
  Cat (Cls UPPER) (Cat (Rep 2 (Cls (fun c => UPPER c || is_digit c)))
    (UpTo 9 (Cls (fun c => UPPER c || is_digit c)))).
Definition _SPEC_ID_PATTERN : regex := _TOKEN_PATTERN.

Inductive PriceDomain : Type := POSITIVE | NON_NEGATIVE | SIGNED.
Definition price_domain_value (d : PriceDomain) : string :=
  match d with POSITIVE => "positive" | NON_NEGATIVE => "non_negative" | SIGNED => "signed" end.
#[export] Instance PriceDomain_eq_dec : EqDecision PriceDomain.
Proof. solve_decision. Defined.

Abbreviation SettlementCurrency := (PatternStr _CURRENCY_PATTERN).
Abbreviation InstrumentSpecId := (PatternStr _SPEC_ID_PATTERN).
Abbreviation InstrumentSpecSetId := (PatternStr _SPEC_ID_PATTERN).

Definition SettlementCurrency_init (s : string) : res SettlementCurrency :=
  pattern_str (raise_economic OUT_OF_RANGE) s.
Definition _validate_spec_id (s : string) : res InstrumentSpecId :=
  pattern_str (raise_economic OUT_OF_RANGE) s.

Record InstrumentExecutionSpec : Type := mkSpec {
  spec_instrument : Instrument;
  specification_id : InstrumentSpecId;
  price_quantum : CanonicalDecimal;
  quantity_quantum : CanonicalDecimal;
  settlement_currency : SettlementCurrency;
  currency_quantum : CanonicalDecimal;
  contract_multiplier : CanonicalDecimal;
  price_domain : PriceDomain
}.
#[export] Instance InstrumentExecutionSpec_eq_dec : EqDecision InstrumentExecutionSpec.
Proof. solve_decision. Defined.

(** [__post_init__] of the specification. *)
Definition InstrumentExecutionSpec_init (s : InstrumentExecutionSpec) : res InstrumentExecutionSpec :=
  let* _ := require_positive (price_quantum s) in
  let* _ := require_positive (quantity_quantum s) in
  let* _ := require_positive (currency_quantum s) in
  let* _ := require_positive (contract_multiplier s) in
  Ok s.

Record InstrumentExecutionSpecSet : Type := mkSpecSet {
  spec_set_identifier : InstrumentSpecSetId;
  specifications : list InstrumentExecutionSpec
}.
#[export] Instance InstrumentExecutionSpecSet_eq_dec : EqDecision InstrumentExecutionSpecSet.
Proof. solve_decision. Defined.

Definition spec_key (s : InstrumentExecutionSpec) : string * string := instrument_key (spec_instrument s).

(** [__post_init__] of the set. *)
Definition InstrumentExecutionSpecSet_init (identifier : InstrumentSpecSetId)
  (specs : list InstrumentExecutionSpec) : res InstrumentExecutionSpecSet :=
  let keys := map spec_key specs in
  raise_if negb (no_duplicates keys) with raise_economic CONFLICTING_ID ;;
  raise_if negb (is_sorted_keys keys) with raise_economic OUT_OF_RANGE ;;
  Ok (mkSpecSet identifier specs).

(** [InstrumentExecutionSpecSet.require]. *)
Fixpoint find_spec (specs : list InstrumentExecutionSpec) (i : Instrument)
  : res InstrumentExecutionSpec :=
  match specs with
  | [] => Raise (raise_economic OUT_OF_RANGE)
  | s :: specs => if bool_decide (spec_instrument s = i) then Ok s else find_spec specs i
  end.
Definition require_spec (spec_set : InstrumentExecutionSpecSet) (i : Instrument)
  : res InstrumentExecutionSpec := find_spec (specifications spec_set) i.

Definition build_instrument_spec_set (identifier : InstrumentSpecSetId)
  (specs : list InstrumentExecutionSpec) : res InstrumentExecutionSpecSet :=
  InstrumentExecutionSpecSet_init identifier (py_sorted spec_key specs).

Definition _instrument_document (i : Instrument) : json :=
  JDict [("symbol", JStr (value (symbol i))); ("venue", JStr (value (venue i)))]%string.

Definition _specification_mapping (s : InstrumentExecutionSpec) : json :=
  JDict
    [("contract_multiplier", JStr (text (contract_multiplier s)));
     ("currency_quantum", JStr (text (currency_quantum s)));
     ("instrument", _instrument_document (spec_instrument s));
     ("price_domain", JStr (price_domain_value (price_domain s)));
     ("price_quantum", JStr (text (price_quantum s)));
     ("quantity_quantum", JStr (text (quantity_quantum s)));
     ("settlement_currency", JStr (value (settlement_currency s)));
     ("specification_id", JStr (value (specification_id s)))]%string.

Definition instrument_spec_set_document (spec_set : InstrumentExecutionSpecSet) : json :=
  JDict
    [("canonicalization", JStr "ea-instrument-spec-set-v1");
     ("instrument_spec_set_id", JStr (value (spec_set_identifier spec_set)));
     ("record_count", JInt (Z.of_nat (length (specifications spec_set))));
     ("schema_version", JInt 1);
     ("specs", JList (map _specification_mapping (specifications spec_set)))]%string.

Definition canonical_instrument_spec_set_bytes (spec_set : InstrumentExecutionSpecSet) : str :=
  encode_json (instrument_spec_set_document spec_set).
Definition instrument_spec_set_digest `{Sha256} (spec_set : InstrumentExecutionSpecSet) : Sha256Digest :=
  _digest (domain "ea.instrument-spec-set.v1") (canonical_instrument_spec_set_bytes spec_set).

Definition _require_price_domain (price : CanonicalDecimal) (d : PriceDomain) : res CanonicalDecimal :=
  raise_if bool_decide (d = POSITIVE) && (coefficient price <=? 0) with raise_economic PRICE_DOMAIN ;;
  raise_if bool_decide (d = NON_NEGATIVE) && (coefficient price <? 0) with raise_economic PRICE_DOMAIN ;;
  Ok price.

Definition validate_execution_inputs (spec_set : InstrumentExecutionSpecSet) (i : Instrument)
  (price quantity : CanonicalDecimal) : res InstrumentExecutionSpec :=
  let* specification := require_spec spec_set i in
  let* _ := _require_price_domain price (price_domain specification) in
  let* _ := require_positive quantity in
  let* _ := require_quantized price (price_quantum specification) in
  let* _ := require_quantized quantity (quantity_quantum specification) in
  Ok specification.

Record ExecutionSettlement : Type := mkExecutionSettlement {
  settled_instrument : Instrument;
  settled_specification_id : InstrumentSpecId;
  settled_spec_set_id : InstrumentSpecSetId;
  settled_spec_set_sha256 : Sha256Digest;
  settled_currency : SettlementCurrency;
  settled_amount : CanonicalDecimal;
  settled_residual : CanonicalDecimal
}.

Definition settle_execution `{Sha256} (spec_set : InstrumentExecutionSpecSet) (i : Instrument)
  (price quantity : CanonicalDecimal) : res ExecutionSettlement :=
  let* specification := validate_execution_inputs spec_set i price quantity in
  let* scalar := settle_product price quantity (contract_multiplier specification)
                   (currency_quantum specification) in
  Ok {| settled_instrument := spec_instrument specification;
        settled_specification_id := specification_id specification;
        settled_spec_set_id := spec_set_identifier spec_set;
        settled_spec_set_sha256 := instrument_spec_set_digest spec_set;
        settled_currency := settlement_currency specification;
        settled_amount := amount scalar;
        settled_residual := rounding_residual scalar |}.

(** ** Well-formed specifications *)

Definition spec_ok (s : InstrumentExecutionSpec) : Prop :=
  0 < units (price_quantum s) /\ 0 < units (quantity_quantum s) /\
  0 < units (currency_quantum s) /\ 0 < units (contract_multiplier s).

(** The invariant of the set its constructor establishes. *)
Definition spec_set_ok (ss : InstrumentExecutionSpecSet) : Prop :=
  Forall spec_ok (specifications ss) /\
  NoDup (map spec_instrument (specifications ss)) /\
  sorted_by id (map spec_key (specifications ss)).

Lemma spec_init_ok s s' : InstrumentExecutionSpec_init s = Ok s' -> s' = s /\ spec_ok s.
Proof.
  unfold InstrumentExecutionSpec_init, spec_ok. rewrite !require_positive_spec. intros H.
  repeat match type of H with context [if 0 <? ?x then _ else _] =>
    destruct (Z.ltb_spec 0 x); [cbn [rbind] in H|done] end.
  by injection H as <-.
Qed.

Lemma NoDup_spec_keys specs : NoDup (map spec_key specs) <-> NoDup (map spec_instrument specs).
Proof.
  change (map spec_key specs) with (spec_key <$> specs).
  assert (spec_key <$> specs = instrument_key <$> (spec_instrument <$> specs)) as ->.
  { by rewrite <-list_fmap_compose. }
  split; [by apply NoDup_fmap_1|]. apply NoDup_fmap_2. exact instrument_key_inj.
Qed.

Lemma spec_set_init_ok identifier specs ss : Forall spec_ok specs ->
  InstrumentExecutionSpecSet_init identifier specs = Ok ss ->
  spec_set_ok ss /\ specifications ss = specs.
Proof.
  unfold InstrumentExecutionSpecSet_init. intros Hok H. res_inv H. injection H as <-.
  apply negb_false_iff in E, E0. split; [|done]. split_and!; [done| |].
  - apply NoDup_spec_keys. by apply bool_decide_eq_true in E.
  - by apply is_sorted_keys_spec.
Qed.

(** Building succeeds exactly on distinct instruments, whatever the input order. *)
Lemma build_spec_set_spec identifier specs :
  build_instrument_spec_set identifier specs =
  if no_duplicates (map spec_key specs)
  then Ok (mkSpecSet identifier (py_sorted spec_key specs))
  else Raise (EconomicValidationError CONFLICTING_ID).
Proof.
  unfold build_instrument_spec_set, InstrumentExecutionSpecSet_init.
  assert (no_duplicates (map spec_key (py_sorted spec_key specs)) = no_duplicates (map spec_key specs)) as ->.
  { unfold no_duplicates. apply bool_decide_ext. change (map spec_key) with (fmap (M:=list) spec_key).
    by rewrite py_sorted_perm. }
  destruct (no_duplicates _); [|done]. cbn [negb].
  pose proof (is_sorted_keys_py_sorted spec_key specs) as Hs.
  change (map spec_key (py_sorted spec_key specs)) with (spec_key <$> py_sorted spec_key specs).
  by rewrite Hs.
Qed.

Lemma find_spec_spec specs i s : NoDup (map spec_instrument specs) ->
  find_spec specs i = Ok s <-> s ∈ specs /\ spec_instrument s = i.
Proof.
  induction specs as [|s0 specs IH]; simpl; intros Hnd.
  { split; [done|]. by intros [H%not_elem_of_nil _]. }
  apply NoDup_cons in Hnd as [Hni Hnd]. case_bool_decide as Hi.
  - split; [intros [= <-]; split; [left|done]|]. intros [[->|Hs]%elem_of_cons Heq]; [done|].
    destruct Hni. rewrite Hi, <-Heq. by apply (list_elem_of_fmap_2 spec_instrument).
  - rewrite IH by done. rewrite elem_of_cons. split; [intuition|].
    intros [[->|?] ?]; [done|intuition].
Qed.

Lemma find_spec_error specs i e : find_spec specs i = Raise e ->
  e = EconomicValidationError OUT_OF_RANGE /\ i ∉ map spec_instrument specs.
Proof.
  induction specs as [|s specs IH]; simpl; [intros [= <-]; split; [done|apply not_elem_of_nil]|].
  case_bool_decide as Hi; [done|]. intros [-> Hn]%IH. split; [done|].
  rewrite elem_of_cons. intros [->|]; done.
Qed.

(** What [validate_execution_inputs] accepts. *)
Definition price_in_domain (p : CanonicalDecimal) (d : PriceDomain) : Prop :=
  match d with POSITIVE => 0 < units p | NON_NEGATIVE => 0 <= units p | SIGNED => True end.

Lemma price_domain_spec p d :
  (_require_price_domain p d = Ok p /\ price_in_domain p d) \/
  (_require_price_domain p d = Raise (EconomicValidationError PRICE_DOMAIN) /\ ~ price_in_domain p d).
Proof.
  unfold _require_price_domain, price_in_domain. destruct (coefficient_sign p) as (H1 & H2 & _).
  destruct d; simpl.
  - destruct (Z.leb_spec (coefficient p) 0); [right|left]; split; (done || lia).
  - destruct (Z.ltb_spec (coefficient p) 0); [right|left]; split; (done || lia).
  - by left.
Qed.

Definition on_grid (v q : CanonicalDecimal) : Prop := (units q | units v).

Lemma require_quantized_ok v q : 0 < units q ->
  (require_quantized v q = Ok v /\ on_grid v q) \/
  (require_quantized v q = Raise (EconomicValidationError NOT_QUANTIZED) /\ ~ on_grid v q).
Proof.
  intros Hq. rewrite require_quantized_spec. rewrite (proj2 (Z.ltb_lt _ _) Hq). unfold on_grid.
  destruct (Z.eqb_spec (units v mod units q) 0) as [H|H]; [left|right]; split; try done.
  - apply Z.mod_divide; [lia|done].
  - intros Hd. apply H. apply Z.mod_divide; [lia|done].
Qed.

Lemma validate_execution_inputs_ok ss i p q s : spec_set_ok ss ->
  validate_execution_inputs ss i p q = Ok s <->
  s ∈ specifications ss /\ spec_instrument s = i /\ price_in_domain p (price_domain s) /\
  0 < units q /\ on_grid p (price_quantum s) /\ on_grid q (quantity_quantum s).
Proof.
  intros (Hok & Hnd & _). unfold validate_execution_inputs, require_spec.
  pose proof (find_spec_spec (specifications ss) i) as Hfind.
  destruct (find_spec (specifications ss) i) as [s0|e] eqn:Hf; cbn [rbind].
  2:{ apply find_spec_error in Hf as [_ Hni]. split; [done|]. intros (Hs & <- & _). destruct Hni.
      by apply (list_elem_of_fmap_2 spec_instrument). }
  assert (s0 ∈ specifications ss /\ spec_instrument s0 = i) as [Hin Hi] by (by apply Hfind).
  rewrite Forall_forall in Hok. destruct (Hok _ Hin) as (Hpq & Hqq & _).
  assert (forall s, s ∈ specifications ss -> spec_instrument s = i -> s = s0) as Huniq.
  { intros s' Hs' Hi'. assert (Ok (E:=exn) s0 = Ok s') as [= ->]; [|done].
    apply Hfind; done. }
  destruct (price_domain_spec p (price_domain s0)) as [[-> Hd]|[-> Hd]]; cbn [rbind].
  2:{ split; [done|]. intros (Hs & His & ? & _). by rewrite (Huniq s) in *. }
  rewrite require_positive_spec. destruct (Z.ltb_spec 0 (units q)); cbn [rbind].
  2:{ split; [done|]. lia. }
  destruct (require_quantized_ok p (price_quantum s0) Hpq) as [[-> Hg]|[-> Hg]]; cbn [rbind].
  2:{ split; [done|]. intros (Hs & His & _ & _ & ? & _). by rewrite (Huniq s) in *. }
  destruct (require_quantized_ok q (quantity_quantum s0) Hqq) as [[-> Hg']|[-> Hg']]; cbn [rbind].
  2:{ split; [done|]. intros (Hs & His & _ & _ & _ & ?). by rewrite (Huniq s) in *. }
  split; [intros [= <-]; done|]. intros (Hs & His & _). by rewrite (Huniq s).
Qed.
