(* ===== verification/Messages.v ===== *)
(** Execution facts and fills ([core/execution_messages.py]): the shared message
    vocabulary, fees, trade, lifecycle and submission-query facts with their
    factories, ingresses, and the fill a trade fact becomes, with the canonical
    documents and digests of each. *)

From S2P Require Import Prelude PyRegex PyText Outcomes Json Identity Economics Commission.
From S2P Require Import Execution.

Open Scope Z_scope.

Definition _MESSAGE_ERROR_CODES : list OutcomeCode :=
  [INVALID_TYPE; OUT_OF_RANGE; CONFLICTING_ID; FACT_INVALID; FACT_INVALID_MISSING_DEDUP_IDENTITY].
Definition _LIFECYCLE_CODES : list OutcomeCode :=
  [ORDER_ACKNOWLEDGED; ORDER_REJECTED; ORDER_EXPIRED; ORDER_EXPIRED_NO_ELIGIBLE_MARKET_DATA;
   ORDER_CANCELLED].
Definition _SUBMISSION_QUERY_CODES : list OutcomeCode :=
  [RECONCILIATION_SUBMISSION_CONFIRMED_SUBMITTED; RECONCILIATION_SUBMISSION_CONFIRMED_NOT_SUBMITTED;
   RECONCILIATION_SUBMISSION_CONFIRMED_REJECTED; RECONCILIATION_SUBMISSION_CONFIRMED_FILLED;
   RECONCILIATION_SUBMISSION_STILL_UNKNOWN].

(** [_fail]. *)
Definition raise_message (c : OutcomeCode) : exn :=
  if permitted _MESSAGE_ERROR_CODES c then ExecutionMessageError c else TypeError.

(** ** Closed vocabularies *)

Inductive OrderSide : Type := BUY | SELL.
Definition side_value (s : OrderSide) : string := match s with BUY => "buy" | SELL => "sell" end.
Inductive OrderKind : Type := MARKET.
Definition order_kind_value (_ : OrderKind) : string := "market".
Inductive TimeInForce : Type := GOOD_FOR_NEXT_ELIGIBLE_MARKET_EVENT.
Definition time_in_force_value (_ : TimeInForce) : string := "good_for_next_eligible_market_event".
Inductive ExecutionFactKind : Type :=
| TRADE | REJECTION | ACKNOWLEDGEMENT | EXPIRY | CANCELLATION | SUBMISSION_QUERY.
Definition fact_kind_value (k : ExecutionFactKind) : string :=
  match k with
  | TRADE => "trade" | REJECTION => "rejection" | ACKNOWLEDGEMENT => "acknowledgement"
  | EXPIRY => "expiry" | CANCELLATION => "cancellation" | SUBMISSION_QUERY => "submission_query"
  end.
Inductive FeeCode : Type := COMMISSION.
Definition fee_code_value (_ : FeeCode) : string := "commission".

#[export] Instance OrderSide_eq_dec : EqDecision OrderSide.
Proof. solve_decision. Defined.
#[export] Instance ExecutionFactKind_eq_dec : EqDecision ExecutionFactKind.
Proof. solve_decision. Defined.
#[export] Instance FeeCode_eq_dec : EqDecision FeeCode.
Proof. solve_decision. Defined.

(** [_LIFECYCLE_CODE_BY_KIND]. *)
Definition _LIFECYCLE_CODE_BY_KIND (k : ExecutionFactKind) : option OutcomeCode :=
  match k with
  | ACKNOWLEDGEMENT => Some ORDER_ACKNOWLEDGED
  | REJECTION => Some ORDER_REJECTED
  | EXPIRY => Some ORDER_EXPIRED
  | CANCELLATION => Some ORDER_CANCELLED
  | TRADE | SUBMISSION_QUERY => None
  end.

(** ** Identifiers and references *)

Abbreviation ExecutionPolicyId := (PatternStr _TOKEN_PATTERN).
Abbreviation FactProvenanceId := (PatternStr _TOKEN_PATTERN).
Abbreviation VenueOrderId := (PatternStr VISIBLE_128).

Definition _require_token (s : string) : res (PatternStr _TOKEN_PATTERN) :=
  pattern_str (raise_message OUT_OF_RANGE) s.
Definition VenueOrderId_init (s : string) : res VenueOrderId :=
  pattern_str (raise_message OUT_OF_RANGE) s.

Record TargetLineageRef : Type := mkTargetLineageRef {
  target_id : EconomicId;
  target_sha256 : Sha256Digest
}.
Record ExecutionPolicyRef : Type := mkExecutionPolicyRef {
  policy_identifier : ExecutionPolicyId;
  policy_sha256 : Sha256Digest
}.
Record FactProvenance : Type := mkFactProvenance {
  provenance_identifier : FactProvenanceId;
  source_payload_sha256 : Sha256Digest
}.
#[export] Instance FactProvenance_eq_dec : EqDecision FactProvenance.
Proof. solve_decision. Defined.

Definition _require_id_owner (i : EconomicId) (owner : EconomicOwnerKind) : res EconomicId :=
  raise_if negb (bool_decide (owner_kind i = owner)) with raise_message CONFLICTING_ID ;;
  Ok i.

Definition TargetLineageRef_init (i : EconomicId) (d : Sha256Digest) : res TargetLineageRef :=
  let* i := _require_id_owner i PORTFOLIO_TARGET in Ok (mkTargetLineageRef i d).

Definition _require_non_negative (v : Z) : res Z :=
  raise_if v <? 0 with raise_message OUT_OF_RANGE ;; Ok v.

(** [_require_same_run(run_id, *identities)]. *)
Definition in_run (run_id : RunId) (i : option EconomicId) : bool :=
  match i with None => true | Some i => bool_decide (id_run_id i = run_id) end.
Definition _require_same_run (run_id : RunId) (identities : list (option EconomicId)) : res unit :=
  raise_if negb (forallb (in_run run_id) identities) with raise_message CONFLICTING_ID ;; Ok tt.

(** A [datetime] argument before normalization: its wall clock and UTC offset. *)
Definition _require_time (v : datetime * option Z) : res datetime :=
  match require_utc v.1 v.2 with
  | Ok t => Ok t
  | Raise _ => Raise (raise_message OUT_OF_RANGE)
  end.

(** ** Fees *)

Record FeeEntry : Type := mkFeeEntry {
  fee_code : FeeCode;
  fee_currency : SettlementCurrency;
  fee_amount : CanonicalDecimal;
  commission_bps : option CanonicalDecimal
}.
#[export] Instance FeeEntry_eq_dec : EqDecision FeeEntry.
Proof. solve_decision. Defined.

Definition FeeEntry_init (code : FeeCode) (currency : SettlementCurrency) (amount : CanonicalDecimal)
  (bps : option CanonicalDecimal) : res FeeEntry :=
  let* _ := match bps with Some b => require_commission_bps b | None => Ok CANONICAL_0 end in
  raise_if (coefficient amount <? 0)
        || (bool_decide (bps = None) && negb (bool_decide (text amount = "0"%string)))
    with raise_message OUT_OF_RANGE ;;
  Ok (mkFeeEntry code currency amount bps).

(** ** Specification lineage *)

(** [expected is not None and actual != expected]. *)
Definition lineage_conflict {A} `{EqDecision A} (actual : A) (expected : option A) : bool :=
  match expected with None => false | Some e => negb (bool_decide (actual = e)) end.

Section Documents.
Context `{Sha256}.

Definition _require_spec_set (spec_set : InstrumentExecutionSpecSet) (i : Instrument)
  (specification_id_ : option InstrumentSpecId) (set_id : option InstrumentSpecSetId)
  (set_sha256 : option Sha256Digest) : res (InstrumentExecutionSpec * Sha256Digest) :=
  let* specification := require_spec spec_set i in
  let digest := instrument_spec_set_digest spec_set in
  raise_if lineage_conflict (specification_id specification) specification_id_
    with raise_message CONFLICTING_ID ;;
  raise_if lineage_conflict (spec_set_identifier spec_set) set_id
    with raise_message CONFLICTING_ID ;;
  raise_if lineage_conflict digest set_sha256 with raise_message CONFLICTING_ID ;;
  Ok (specification, digest).

Definition _require_quantity (q : CanonicalDecimal) (s : InstrumentExecutionSpec) : res CanonicalDecimal :=
  let* _ := require_positive q in
  let* _ := require_quantized q (quantity_quantum s) in
  Ok q.

Definition _require_price (p : CanonicalDecimal) (s : InstrumentExecutionSpec) : res CanonicalDecimal :=
  raise_if bool_decide (price_domain_value (price_domain s) = "positive"%string) && (coefficient p <=? 0)
    with raise_economic PRICE_DOMAIN ;;
  raise_if bool_decide (price_domain_value (price_domain s) = "non_negative"%string) && (coefficient p <? 0)
    with raise_economic PRICE_DOMAIN ;;
  let* _ := require_quantized p (price_quantum s) in
  Ok p.

(** ** Shared documents *)

Definition _economic_id_document (i : EconomicId) : json :=
  JDict [("owner_kind", JStr (owner_kind_value (owner_kind i)));
         ("owner_sequence", JInt (owner_sequence i));
         ("run_id", JStr (value (id_run_id i)))]%string.
Definition optional_document {A} (f : A -> json) (x : option A) : json :=
  match x with None => JNull | Some x => f x end.
Definition _optional_id_document : option EconomicId -> json := optional_document _economic_id_document.
Definition optional_text_document {r} : option (PatternStr r) -> json :=
  optional_document (fun s => JStr (value s)).
Definition _target_document (t : TargetLineageRef) : json :=
  JDict [("target_id", _economic_id_document (target_id t));
         ("target_sha256", JStr (value (target_sha256 t)))]%string.
Definition _policy_document (p : ExecutionPolicyRef) : json :=
  JDict [("execution_policy_id", JStr (value (policy_identifier p)));
         ("execution_policy_sha256", JStr (value (policy_sha256 p)))]%string.
Definition _provenance_document (p : FactProvenance) : json :=
  JDict [("provenance_id", JStr (value (provenance_identifier p)));
         ("source_payload_sha256", JStr (value (source_payload_sha256 p)))]%string.
Definition _dedup_document (d : FactDedupIdentity) : json :=
  match d with
  | DedupExternal v => JDict [("kind", JStr "external_id"); ("value", JStr (value v))]%string
  | DedupSequence n => JDict [("kind", JStr "source_native_sequence"); ("value", JInt n)]%string
  end.
Definition _fee_document (f : FeeEntry) : json :=
  JDict ([("amount", JStr (text (fee_amount f)));
          ("currency", JStr (value (fee_currency f)));
          ("fee_code", JStr (fee_code_value (fee_code f)))]%string
         ++ match commission_bps f with
            | None => []
            | Some b =>
                [("commission", JDict [("policy", JStr "deterministic-commission-v1");
                                       ("commission_bps", JStr (text b))])]%string
            end).

(** ** Fact payloads *)

Record TradeFactPayload : Type := mkTradeFactPayload {
  trade_side : OrderSide;
  trade_quantity : CanonicalDecimal;
  trade_price : CanonicalDecimal;
  trade_fees : list FeeEntry;
  trade_specification_id : InstrumentSpecId;
  trade_spec_set_id : InstrumentSpecSetId;
  trade_spec_set_sha256 : Sha256Digest
}.

Inductive ExecutionFactPayload : Type :=
| LifecycleFactPayload (outcome_code : OutcomeCode)
| TradePayload (payload : TradeFactPayload)
| SubmissionQueryFactPayload (outcome_code : OutcomeCode).

(** [LifecycleFactPayload(code)] and [SubmissionQueryFactPayload(code)]. *)
Definition LifecycleFactPayload_init (c : OutcomeCode) : res ExecutionFactPayload :=
  raise_if negb (permitted _LIFECYCLE_CODES c) with raise_message OUT_OF_RANGE ;;
  Ok (LifecycleFactPayload c).
Definition SubmissionQueryFactPayload_init (c : OutcomeCode) : res ExecutionFactPayload :=
  raise_if negb (permitted _SUBMISSION_QUERY_CODES c) with raise_message OUT_OF_RANGE ;;
  Ok (SubmissionQueryFactPayload c).

Record ExecutionFact : Type := mkExecutionFact {
  fact_source_namespace : SourceNamespace;
  fact_dedup_identity : FactDedupIdentity;
  fact_kind : ExecutionFactKind;
  fact_occurred_at : datetime;
  fact_instrument : option Instrument;
  fact_client_submission_key : option Sha256Digest;
  fact_venue_order_id : option VenueOrderId;
  fact_order_id : option EconomicId;
  fact_correlation_id : option EconomicId;
  fact_causation_id : option EconomicId;
  fact_payload : ExecutionFactPayload;
  fact_provenance : FactProvenance
}.

Definition fact_dedup_key (f : ExecutionFact) : FactDedupKey :=
  mkFactDedupKey (fact_source_namespace f) (fact_dedup_identity f).

Definition require_optional_owner (i : option EconomicId) (owner : EconomicOwnerKind) : res unit :=
  match i with
  | None => Ok tt
  | Some i => let* _ := _require_id_owner i owner in Ok tt
  end.

(** [_require_fact_common]: returns the normalized time; the other arguments pass
    through unchanged. *)
Definition _require_fact_common (occurred_at : datetime * option Z)
  (order_id correlation_id causation_id : option EconomicId) (require_order_cause : bool)
  : res datetime :=
  let* time := _require_time occurred_at in
  let* _ := require_optional_owner order_id EXECUTION_ORDER in
  let* _ := require_optional_owner correlation_id STRATEGY_SIGNAL in
  let* _ := match causation_id with
            | None => Ok tt
            | Some c =>
                raise_if negb (bool_decide (owner_kind c = EXECUTION_ORDER)
                               || bool_decide (owner_kind c = RECONCILIATION_OBSERVATION))
                  with raise_message CONFLICTING_ID ;; Ok tt
            end in
  let present := omap id [order_id; correlation_id; causation_id] in
  let* _ := match present with
            | [] => Ok tt
            | first :: _ => _require_same_run (id_run_id first) (map Some present)
            end in
  raise_if require_order_cause && negb (bool_decide (order_id = None))
           && negb (bool_decide (causation_id = order_id)) with raise_message CONFLICTING_ID ;;
  Ok time.

Definition create_lifecycle_execution_fact (kind : ExecutionFactKind)
  (source_namespace : SourceNamespace) (dedup_identity : FactDedupIdentity)
  (occurred_at : datetime * option Z) (provenance : FactProvenance)
  (instrument : option Instrument) (client_submission_key : option Sha256Digest)
  (venue_order_id : option VenueOrderId) (order_id correlation_id causation_id : option EconomicId)
  (outcome_code : option OutcomeCode) : res ExecutionFact :=
  match _LIFECYCLE_CODE_BY_KIND kind with
  | None => Raise (raise_message OUT_OF_RANGE)
  | Some default =>
      let* selected_outcome :=
        match outcome_code with
        | None => Ok default
        | Some c =>
            if bool_decide (kind = EXPIRY) && bool_decide (c = ORDER_EXPIRED_NO_ELIGIBLE_MARKET_DATA)
            then Ok c else Raise (raise_message OUT_OF_RANGE)
        end in
      let* time := _require_fact_common occurred_at order_id correlation_id causation_id true in
      let* payload := LifecycleFactPayload_init selected_outcome in
      Ok (mkExecutionFact source_namespace dedup_identity kind time instrument client_submission_key
            venue_order_id order_id correlation_id causation_id payload provenance)
  end.

Definition _phase1_trade_payload (spec_set : InstrumentExecutionSpecSet) (instrument : Instrument)
  (side : OrderSide) (quantity price : CanonicalDecimal) (bps : option CanonicalDecimal)
  : res TradeFactPayload :=
  let* pair_ := _require_spec_set spec_set instrument None None None in
  let '(specification, set_digest) := pair_ in
  let* _ := _require_quantity quantity specification in
  let* _ := _require_price price specification in
  let* _ := require_quantized CANONICAL_0 (currency_quantum specification) in
  let* amount :=
    match bps with
    | None => Ok CANONICAL_0
    | Some b => commission_amount price quantity (contract_multiplier specification) b
                  (currency_quantum specification)
    end in
  let* fee := FeeEntry_init COMMISSION (settlement_currency specification) amount bps in
  Ok (mkTradeFactPayload side quantity price [fee] (Execution.specification_id specification)
        (spec_set_identifier spec_set) set_digest).

Definition create_trade_execution_fact (source_namespace : SourceNamespace)
  (dedup_identity : FactDedupIdentity) (occurred_at : datetime * option Z)
  (provenance : FactProvenance) (spec_set : InstrumentExecutionSpecSet) (instrument : Instrument)
  (side : OrderSide) (quantity price : CanonicalDecimal) (bps : option CanonicalDecimal)
  (client_submission_key : option Sha256Digest) (venue_order_id : option VenueOrderId)
  (order_id correlation_id causation_id : option EconomicId) : res ExecutionFact :=
  let* time := _require_fact_common occurred_at order_id correlation_id causation_id true in
  let* payload := _phase1_trade_payload spec_set instrument side quantity price bps in
  Ok (mkExecutionFact source_namespace dedup_identity TRADE time (Some instrument)
        client_submission_key venue_order_id order_id correlation_id causation_id
        (TradePayload payload) provenance).

(** ** Fact documents *)

Definition _fact_payload_document (p : ExecutionFactPayload) : json :=
  match p with
  | LifecycleFactPayload c =>
      JDict [("outcome_code", JStr (outcome_value c)); ("payload_type", JStr "lifecycle")]%string
  | TradePayload t =>
      JDict [("fees", JList (map _fee_document (trade_fees t)));
             ("instrument_spec_set_id", JStr (value (trade_spec_set_id t)));
             ("instrument_spec_set_sha256", JStr (value (trade_spec_set_sha256 t)));
             ("instrument_specification_id", JStr (value (trade_specification_id t)));
             ("payload_type", JStr "trade");
             ("price", JStr (text (trade_price t)));
             ("quantity", JStr (text (trade_quantity t)));
             ("side", JStr (side_value (trade_side t)))]%string
  | SubmissionQueryFactPayload c =>
      JDict [("outcome_code", JStr (outcome_value c)); ("payload_type", JStr "submission_query")]%string
  end.

(** The document of a fact without its digest. *)
Definition fact_entries (f : ExecutionFact) : list (string * json) :=
  [("canonicalization", JStr "ea-execution-fact-v1");
   ("causation_id", _optional_id_document (fact_causation_id f));
   ("client_submission_key", optional_text_document (fact_client_submission_key f));
   ("correlation_id", _optional_id_document (fact_correlation_id f));
   ("dedup_identity", _dedup_document (fact_dedup_identity f));
   ("instrument", optional_document _instrument_document (fact_instrument f));
   ("kind", JStr (fact_kind_value (fact_kind f)));
   ("message_type", JStr "execution_fact");
   ("occurred_at", JStr (utc_text (fact_occurred_at f)));
   ("order_id", _optional_id_document (fact_order_id f));
   ("payload", _fact_payload_document (fact_payload f));
   ("provenance", _provenance_document (fact_provenance f));
   ("schema_version", JInt 1);
   ("source_namespace", JStr (value (fact_source_namespace f)));
   ("venue_order_id", optional_text_document (fact_venue_order_id f))]%string.

Definition canonical_execution_fact_preimage_bytes (f : ExecutionFact) : str :=
  encode_json (JDict (fact_entries f)).
Definition execution_fact_digest (f : ExecutionFact) : Sha256Digest :=
  _digest (domain "ea.execution-fact.v1") (canonical_execution_fact_preimage_bytes f).
(** [_fact_document(fact, include_digest=True)]. *)
Definition _fact_document (f : ExecutionFact) : json :=
  JDict (fact_entries f ++ [("fact_sha256"%string, JStr (value (execution_fact_digest f)))]).
Definition canonical_execution_fact_bytes (f : ExecutionFact) : str := encode_json (_fact_document f).

(** ** Ingress *)

Record ExecutionFactIngress : Type := mkExecutionFactIngress {
  ingress_available_at : datetime;
  ingress_source_namespace : SourceNamespace;
  ingress_sequence_ : Z;
  ingress_fact : ExecutionFact
}.

Definition create_execution_fact_ingress (available_at : datetime * option Z)
  (source_namespace : SourceNamespace) (ingress_sequence : Z) (fact : ExecutionFact)
  : res ExecutionFactIngress :=
  let* sequence := _require_non_negative ingress_sequence in
  let* available := _require_time available_at in
  raise_if negb (bool_decide (source_namespace = fact_source_namespace fact))
    with raise_message FACT_INVALID ;;
  raise_if microseconds available <? microseconds (fact_occurred_at fact)
    with raise_message OUT_OF_RANGE ;;
  Ok (mkExecutionFactIngress available source_namespace sequence fact).

Definition _ingress_document (i : ExecutionFactIngress) : json :=
  JDict [("available_at", JStr (utc_text (ingress_available_at i)));
         ("canonicalization", JStr "ea-execution-fact-ingress-v1");
         ("fact", _fact_document (ingress_fact i));
         ("ingress_sequence", JInt (ingress_sequence_ i));
         ("message_type", JStr "execution_fact_ingress");
         ("schema_version", JInt 1);
         ("source_namespace", JStr (value (ingress_source_namespace i)))]%string.
Definition canonical_execution_fact_ingress_bytes (i : ExecutionFactIngress) : str :=
  encode_json (_ingress_document i).
Definition execution_fact_ingress_digest (i : ExecutionFactIngress) : Sha256Digest :=
  _digest (domain "ea.execution-fact-ingress.v1") (canonical_execution_fact_ingress_bytes i).

(** ** Fills *)

Record Fill : Type := mkFill {
  fill_run_id : RunId;
  fill_id : EconomicId;
  fill_source_namespace : SourceNamespace;
  fill_dedup_identity : FactDedupIdentity;
  fill_fact_sha256 : Sha256Digest;
  fill_provenance : FactProvenance;
  fill_occurred_at : datetime;
  fill_instrument : Instrument;
  fill_side : OrderSide;
  fill_quantity : CanonicalDecimal;
  fill_price : CanonicalDecimal;
  fill_fees : list FeeEntry;
  fill_specification_id : InstrumentSpecId;
  fill_spec_set_id : InstrumentSpecSetId;
  fill_spec_set_sha256 : Sha256Digest;
  fill_client_submission_key : option Sha256Digest;
  fill_venue_order_id : option VenueOrderId;
  fill_order_id : option EconomicId;
  fill_correlation_id : option EconomicId;
  fill_causation_id : option EconomicId
}.

Definition fill_fact_key (f : Fill) : FactDedupKey :=
  mkFactDedupKey (fill_source_namespace f) (fill_dedup_identity f).

(** The fee the policy of a fee entry prescribes. *)
Definition expected_fee (fee : FeeEntry) (s : InstrumentExecutionSpec)
  (price quantity : CanonicalDecimal) : res CanonicalDecimal :=
  match commission_bps fee with
  | None => Ok CANONICAL_0
  | Some b => commission_amount price quantity (contract_multiplier s) b (currency_quantum s)
  end.

(** [fee_code is not COMMISSION or currency != ... or amount != ...]: the amount is
    evaluated only when the currency matches. *)
Definition fee_conflicts (fee : FeeEntry) (s : InstrumentExecutionSpec)
  (price quantity : CanonicalDecimal) : res bool :=
  if negb (bool_decide (fee_code fee = COMMISSION))
     || negb (bool_decide (fee_currency fee = settlement_currency s)) then Ok true
  else
    let* expected := expected_fee fee s price quantity in
    Ok (negb (bool_decide (fee_amount fee = expected))).

Definition _require_phase1_fees (fees : list FeeEntry) (s : InstrumentExecutionSpec)
  (price quantity : CanonicalDecimal) : res (list FeeEntry) :=
  match fees with
  | [fee] =>
      let* conflicts := fee_conflicts fee s price quantity in
      raise_if conflicts with raise_message CONFLICTING_ID ;;
      let* _ := require_quantized (fee_amount fee) (currency_quantum s) in
      Ok fees
  | _ => Raise (raise_message INVALID_TYPE)
  end.

Definition create_fill (fill_id_ : EconomicId) (fact : ExecutionFact)
  (spec_set : InstrumentExecutionSpecSet) : res Fill :=
  let* _ := _require_id_owner fill_id_ EXECUTION_FILL in
  match fact_kind fact, fact_payload fact, fact_instrument fact with
  | TRADE, TradePayload payload, Some instrument =>
      let* pair_ := _require_spec_set spec_set instrument (Some (trade_specification_id payload))
                      (Some (trade_spec_set_id payload)) (Some (trade_spec_set_sha256 payload)) in
      let specification := pair_.1 in
      let* _ := _require_quantity (trade_quantity payload) specification in
      let* _ := _require_price (trade_price payload) specification in
      let* _ := _require_phase1_fees (trade_fees payload) specification (trade_price payload)
                  (trade_quantity payload) in
      let* _ := _require_same_run (id_run_id fill_id_)
                  [fact_order_id fact; fact_correlation_id fact; fact_causation_id fact] in
      Ok {| fill_run_id := id_run_id fill_id_;
            fill_id := fill_id_;
            fill_source_namespace := fact_source_namespace fact;
            fill_dedup_identity := fact_dedup_identity fact;
            fill_fact_sha256 := execution_fact_digest fact;
            fill_provenance := fact_provenance fact;
            fill_occurred_at := fact_occurred_at fact;
            fill_instrument := instrument;
            fill_side := trade_side payload;
            fill_quantity := trade_quantity payload;
            fill_price := trade_price payload;
            fill_fees := trade_fees payload;
            fill_specification_id := trade_specification_id payload;
            fill_spec_set_id := trade_spec_set_id payload;
            fill_spec_set_sha256 := trade_spec_set_sha256 payload;
            fill_client_submission_key := fact_client_submission_key fact;
            fill_venue_order_id := fact_venue_order_id fact;
            fill_order_id := fact_order_id fact;
            fill_correlation_id := fact_correlation_id fact;
            fill_causation_id := fact_causation_id fact |}
  | _, _, _ => Raise (raise_message CONFLICTING_ID)
  end.

Definition _fill_document (f : Fill) : json :=
  JDict
    [("canonicalization", JStr "ea-fill-v1");
     ("causation_id", _optional_id_document (fill_causation_id f));
     ("client_submission_key", optional_text_document (fill_client_submission_key f));
     ("correlation_id", _optional_id_document (fill_correlation_id f));
     ("dedup_identity", _dedup_document (fill_dedup_identity f));
     ("fact_sha256", JStr (value (fill_fact_sha256 f)));
     ("fees", JList (map _fee_document (fill_fees f)));
     ("fill_id", _economic_id_document (fill_id f));
     ("instrument", _instrument_document (fill_instrument f));
     ("instrument_spec_set_id", JStr (value (fill_spec_set_id f)));
     ("instrument_spec_set_sha256", JStr (value (fill_spec_set_sha256 f)));
     ("instrument_specification_id", JStr (value (fill_specification_id f)));
     ("message_type", JStr "fill");
     ("occurred_at", JStr (utc_text (fill_occurred_at f)));
     ("order_id", _optional_id_document (fill_order_id f));
     ("price", JStr (text (fill_price f)));
     ("provenance", _provenance_document (fill_provenance f));
     ("quantity", JStr (text (fill_quantity f)));
     ("run_id", JStr (value (fill_run_id f)));
     ("schema_version", JInt 1);
     ("side", JStr (side_value (fill_side f)));
     ("source_namespace", JStr (value (fill_source_namespace f)));
     ("venue_order_id", optional_text_document (fill_venue_order_id f))]%string.

Definition canonical_fill_bytes (f : Fill) : str := encode_json (_fill_document f).
Definition fill_digest (f : Fill) : Sha256Digest := _digest (domain "ea.fill.v1") (canonical_fill_bytes f).
End Documents.
