(* ===== verification/Orders.v ===== *)
(** Order intents, risk decisions, approvals and Orders ([core/execution_messages.py]):
    the factories, canonical documents and digests from the portfolio's intent to the
    Order sent for execution, and the submission-query facts about an Order.

    An [OrderIntent] is bound into the [RiskDecision] about it, the decision into the
    [ExecutionApproval] it carries, and all three into the [Order]. *)

From S2P Require Import Prelude PyRegex PyText Outcomes Json Identity Economics Commission.
From S2P Require Import Execution Messages.

Open Scope Z_scope.

Inductive RiskDecisionKind : Type := ALLOW | RESIZE | REJECT | EVALUATION_FAILED.
Definition decision_kind_value (k : RiskDecisionKind) : string :=
  match k with
  | ALLOW => "allow" | RESIZE => "resize" | REJECT => "reject"
  | EVALUATION_FAILED => "evaluation_failed"
  end.
#[export] Instance RiskDecisionKind_eq_dec : EqDecision RiskDecisionKind.
Proof. solve_decision. Defined.
#[export] Instance TargetLineageRef_eq_dec : EqDecision TargetLineageRef.
Proof. solve_decision. Defined.
#[export] Instance ExecutionPolicyRef_eq_dec : EqDecision ExecutionPolicyRef.
Proof. solve_decision. Defined.

(** ** Intents *)

Record OrderIntent : Type := mkOrderIntent {
  oi_run_id : RunId;
  oi_intent_id : EconomicId;
  oi_correlation_id : EconomicId;
  oi_causation_id : EconomicId;
  oi_target_lineage : TargetLineageRef;
  oi_instrument : Instrument;
  oi_side : OrderSide;
  oi_quantity : CanonicalDecimal;
  oi_order_kind : OrderKind;
  oi_time_in_force : TimeInForce;
  oi_portfolio_snapshot_version : Z;
  oi_causal_root_available_at : datetime;
  oi_dispatch_sequence : Z;
  oi_specification_id : InstrumentSpecId;
  oi_spec_set_id : InstrumentSpecSetId;
  oi_spec_set_sha256 : Sha256Digest;
  oi_execution_policy : ExecutionPolicyRef
}.

Record ExecutionApproval : Type := mkExecutionApproval {
  ap_run_id : RunId;
  ap_approval_id : EconomicId;
  ap_decision_id : EconomicId;
  ap_intent_id : EconomicId;
  ap_correlation_id : EconomicId;
  ap_causation_id : EconomicId;
  ap_original_intent_sha256 : Sha256Digest;
  ap_effective_intent_sha256 : Sha256Digest;
  ap_approved_quantity : CanonicalDecimal;
  ap_portfolio_snapshot_version : Z;
  ap_risk_state_version : Z;
  ap_causal_root_available_at : datetime;
  ap_dispatch_sequence : Z
}.

Record RiskDecision : Type := mkRiskDecision {
  rd_run_id : RunId;
  rd_decision_id : EconomicId;
  rd_intent_id : EconomicId;
  rd_correlation_id : EconomicId;
  rd_causation_id : EconomicId;
  rd_intent_sha256 : Sha256Digest;
  rd_kind : RiskDecisionKind;
  rd_outcome_code : OutcomeCode;
  rd_portfolio_snapshot_version : Z;
  rd_risk_state_version : Z;
  rd_causal_root_available_at : datetime;
  rd_dispatch_sequence : Z;
  rd_approved_quantity : option CanonicalDecimal;
  rd_effective_intent_sha256 : option Sha256Digest;
  rd_approval : option ExecutionApproval
}.

Record Order : Type := mkOrder {
  od_run_id : RunId;
  od_order_id : EconomicId;
  od_intent_id : EconomicId;
  od_correlation_id : EconomicId;
  od_causation_id : EconomicId;
  od_decision_id : EconomicId;
  od_approval_id : EconomicId;
  od_original_intent_sha256 : Sha256Digest;
  od_effective_intent_sha256 : Sha256Digest;
  od_risk_decision_sha256 : Sha256Digest;
  od_approval_sha256 : Sha256Digest;
  od_portfolio_snapshot_version : Z;
  od_risk_state_version : Z;
  od_dispatch_sequence : Z;
  od_instrument : Instrument;
  od_side : OrderSide;
  od_quantity : CanonicalDecimal;
  od_order_kind : OrderKind;
  od_time_in_force : TimeInForce;
  od_specification_id : InstrumentSpecId;
  od_spec_set_id : InstrumentSpecSetId;
  od_spec_set_sha256 : Sha256Digest;
  od_execution_policy : ExecutionPolicyRef;
  od_eligible_after_available_at : datetime
}.

#[export] Instance OrderKind_eq_dec : EqDecision OrderKind.
Proof. solve_decision. Defined.
#[export] Instance TimeInForce_eq_dec : EqDecision TimeInForce.
Proof. solve_decision. Defined.
#[export] Instance ExecutionApproval_eq_dec : EqDecision ExecutionApproval.
Proof. solve_decision. Defined.
#[export] Instance OrderIntent_eq_dec : EqDecision OrderIntent.
Proof. solve_decision. Defined.
#[export] Instance RiskDecision_eq_dec : EqDecision RiskDecision.
Proof. solve_decision. Defined.
#[export] Instance Order_eq_dec : EqDecision Order.
Proof. solve_decision. Defined.

(** ** Documents *)

Definition _order_intent_document (i : OrderIntent) : json :=
  JDict
    [("canonicalization", JStr "ea-order-intent-v1");
     ("causal_root_available_at", JStr (utc_text (oi_causal_root_available_at i)));
     ("causation_id", _economic_id_document (oi_causation_id i));
     ("correlation_id", _economic_id_document (oi_correlation_id i));
     ("dispatch_sequence", JInt (oi_dispatch_sequence i));
     ("execution_policy", _policy_document (oi_execution_policy i));
     ("instrument", _instrument_document (oi_instrument i));
     ("instrument_spec_set_id", JStr (value (oi_spec_set_id i)));
     ("instrument_spec_set_sha256", JStr (value (oi_spec_set_sha256 i)));
     ("instrument_specification_id", JStr (value (oi_specification_id i)));
     ("intent_id", _economic_id_document (oi_intent_id i));
     ("message_type", JStr "order_intent");
     ("order_kind", JStr (order_kind_value (oi_order_kind i)));
     ("portfolio_snapshot_version", JInt (oi_portfolio_snapshot_version i));
     ("price_constraint", JNull);
     ("quantity", JStr (text (oi_quantity i)));
     ("run_id", JStr (value (oi_run_id i)));
     ("schema_version", JInt 1);
     ("side", JStr (side_value (oi_side i)));
     ("target_lineage", _target_document (oi_target_lineage i));
     ("time_in_force", JStr (time_in_force_value (oi_time_in_force i)))]%string.

Definition _approval_document (a : ExecutionApproval) : json :=
  JDict
    [("approval_id", _economic_id_document (ap_approval_id a));
     ("approved_quantity", JStr (text (ap_approved_quantity a)));
     ("canonicalization", JStr "ea-execution-approval-v1");
     ("causal_root_available_at", JStr (utc_text (ap_causal_root_available_at a)));
     ("causation_id", _economic_id_document (ap_causation_id a));
     ("correlation_id", _economic_id_document (ap_correlation_id a));
     ("decision_id", _economic_id_document (ap_decision_id a));
     ("dispatch_sequence", JInt (ap_dispatch_sequence a));
     ("effective_intent_sha256", JStr (value (ap_effective_intent_sha256 a)));
     ("intent_id", _economic_id_document (ap_intent_id a));
     ("message_type", JStr "execution_approval");
     ("original_intent_sha256", JStr (value (ap_original_intent_sha256 a)));
     ("portfolio_snapshot_version", JInt (ap_portfolio_snapshot_version a));
     ("risk_state_version", JInt (ap_risk_state_version a));
     ("run_id", JStr (value (ap_run_id a)));
     ("schema_version", JInt 1)]%string.

Definition _risk_decision_document (d : RiskDecision) : json :=
  JDict
    [("approval", optional_document _approval_document (rd_approval d));
     ("approved_quantity", optional_document (fun q => JStr (text q)) (rd_approved_quantity d));
     ("canonicalization", JStr "ea-risk-decision-v1");
     ("causal_root_available_at", JStr (utc_text (rd_causal_root_available_at d)));
     ("causation_id", _economic_id_document (rd_causation_id d));
     ("correlation_id", _economic_id_document (rd_correlation_id d));
     ("decision_id", _economic_id_document (rd_decision_id d));
     ("dispatch_sequence", JInt (rd_dispatch_sequence d));
     ("effective_intent_sha256", optional_text_document (rd_effective_intent_sha256 d));
     ("intent_id", _economic_id_document (rd_intent_id d));
     ("intent_sha256", JStr (value (rd_intent_sha256 d)));
     ("kind", JStr (decision_kind_value (rd_kind d)));
     ("message_type", JStr "risk_decision");
     ("outcome_code", JStr (outcome_value (rd_outcome_code d)));
     ("portfolio_snapshot_version", JInt (rd_portfolio_snapshot_version d));
     ("risk_state_version", JInt (rd_risk_state_version d));
     ("run_id", JStr (value (rd_run_id d)));
     ("schema_version", JInt 1)]%string.

Definition _order_document (o : Order) : json :=
  JDict
    [("approval_id", _economic_id_document (od_approval_id o));
     ("approval_sha256", JStr (value (od_approval_sha256 o)));
     ("canonicalization", JStr "ea-order-v1");
     ("causation_id", _economic_id_document (od_causation_id o));
     ("correlation_id", _economic_id_document (od_correlation_id o));
     ("decision_id", _economic_id_document (od_decision_id o));
     ("dispatch_sequence", JInt (od_dispatch_sequence o));
     ("effective_intent_sha256", JStr (value (od_effective_intent_sha256 o)));
     ("eligible_after_available_at", JStr (utc_text (od_eligible_after_available_at o)));
     ("execution_policy", _policy_document (od_execution_policy o));
     ("instrument", _instrument_document (od_instrument o));
     ("instrument_spec_set_id", JStr (value (od_spec_set_id o)));
     ("instrument_spec_set_sha256", JStr (value (od_spec_set_sha256 o)));
     ("instrument_specification_id", JStr (value (od_specification_id o)));
     ("intent_id", _economic_id_document (od_intent_id o));
     ("message_type", JStr "order");
     ("order_id", _economic_id_document (od_order_id o));
     ("order_kind", JStr (order_kind_value (od_order_kind o)));
     ("original_intent_sha256", JStr (value (od_original_intent_sha256 o)));
     ("portfolio_snapshot_version", JInt (od_portfolio_snapshot_version o));
     ("price_constraint", JNull);
     ("quantity", JStr (text (od_quantity o)));
     ("risk_decision_sha256", JStr (value (od_risk_decision_sha256 o)));
     ("risk_state_version", JInt (od_risk_state_version o));
     ("run_id", JStr (value (od_run_id o)));
     ("schema_version", JInt 1);
     ("side", JStr (side_value (od_side o)));
     ("time_in_force", JStr (time_in_force_value (od_time_in_force o)))]%string.

Definition canonical_order_intent_bytes (i : OrderIntent) : str := encode_json (_order_intent_document i).
Definition canonical_execution_approval_bytes (a : ExecutionApproval) : str :=
  encode_json (_approval_document a).
Definition canonical_risk_decision_bytes (d : RiskDecision) : str := encode_json (_risk_decision_document d).
Definition canonical_order_bytes (o : Order) : str := encode_json (_order_document o).

Section Digests.
Context `{hash : Sha256}.

Definition order_intent_digest (i : OrderIntent) : Sha256Digest :=
  _digest (domain "ea.order-intent.v1") (canonical_order_intent_bytes i).
Definition execution_approval_digest (a : ExecutionApproval) : Sha256Digest :=
  _digest (domain "ea.execution-approval.v1") (canonical_execution_approval_bytes a).
Definition risk_decision_digest (d : RiskDecision) : Sha256Digest :=
  _digest (domain "ea.risk-decision.v1") (canonical_risk_decision_bytes d).
Definition order_digest (o : Order) : Sha256Digest :=
  _digest (domain "ea.order.v1") (canonical_order_bytes o).
Definition order_client_submission_key (o : Order) : Sha256Digest :=
  _digest (domain "ea.client-submission-key.v1") (canonical_order_bytes o).

Definition _effective_intent_document (i : OrderIntent) (approved_quantity : CanonicalDecimal) : json :=
  JDict
    [("approved_quantity", JStr (text approved_quantity));
     ("canonicalization", JStr "ea-effective-order-intent-v1");
     ("intent_id", _economic_id_document (oi_intent_id i));
     ("original_intent_sha256", JStr (value (order_intent_digest i)));
     ("projection_type", JStr "effective_order_intent");
     ("run_id", JStr (value (oi_run_id i)));
     ("schema_version", JInt 1)]%string.
Definition canonical_effective_order_intent_bytes (i : OrderIntent) (q : CanonicalDecimal) : str :=
  encode_json (_effective_intent_document i q).
Definition effective_order_intent_digest (i : OrderIntent) (q : CanonicalDecimal) : Sha256Digest :=
  _digest (domain "ea.effective-order-intent.v1") (canonical_effective_order_intent_bytes i q).

Definition _execution_request_document (o : Order) : json :=
  JDict
    [("canonicalization", JStr "ea-execution-request-v1");
     ("client_submission_key", JStr (value (order_client_submission_key o)));
     ("eligible_after_available_at", JStr (utc_text (od_eligible_after_available_at o)));
     ("execution_policy", _policy_document (od_execution_policy o));
     ("instrument", _instrument_document (od_instrument o));
     ("instrument_spec_set_id", JStr (value (od_spec_set_id o)));
     ("instrument_spec_set_sha256", JStr (value (od_spec_set_sha256 o)));
     ("instrument_specification_id", JStr (value (od_specification_id o)));
     ("order_id", _economic_id_document (od_order_id o));
     ("order_kind", JStr (order_kind_value (od_order_kind o)));
     ("order_sha256", JStr (value (order_digest o)));
     ("price_constraint", JNull);
     ("projection_type", JStr "execution_request");
     ("quantity", JStr (text (od_quantity o)));
     ("run_id", JStr (value (od_run_id o)));
     ("schema_version", JInt 1);
     ("side", JStr (side_value (od_side o)));
     ("time_in_force", JStr (time_in_force_value (od_time_in_force o)))]%string.
Definition canonical_execution_request_bytes (o : Order) : str := encode_json (_execution_request_document o).
Definition execution_request_digest (o : Order) : Sha256Digest :=
  _digest (domain "ea.execution-request.v1") (canonical_execution_request_bytes o).

(** ** Factories *)

Definition create_order_intent (run_id : RunId) (intent_id correlation_id : EconomicId)
  (target_lineage : TargetLineageRef) (instrument : Instrument) (side : OrderSide)
  (quantity : CanonicalDecimal) (portfolio_snapshot_version : Z)
  (causal_root_available_at : datetime * option Z) (dispatch_sequence : Z)
  (spec_set : InstrumentExecutionSpecSet) (execution_policy : ExecutionPolicyRef) : res OrderIntent :=
  let* _ := _require_id_owner intent_id PORTFOLIO_INTENT in
  let* _ := _require_id_owner correlation_id STRATEGY_SIGNAL in
  let* _ := _require_same_run run_id [Some intent_id; Some correlation_id; Some (target_id target_lineage)] in
  let* pair_ := _require_spec_set spec_set instrument None None None in
  let '(specification, set_digest) := pair_ in
  let* _ := _require_quantity quantity specification in
  let* snapshot_version := _require_non_negative portfolio_snapshot_version in
  let* causal_time := _require_time causal_root_available_at in
  let* sequence := _require_non_negative dispatch_sequence in
  Ok {| oi_run_id := run_id;
        oi_intent_id := intent_id;
        oi_correlation_id := correlation_id;
        oi_causation_id := target_id target_lineage;
        oi_target_lineage := target_lineage;
        oi_instrument := instrument;
        oi_side := side;
        oi_quantity := quantity;
        oi_order_kind := MARKET;
        oi_time_in_force := GOOD_FOR_NEXT_ELIGIBLE_MARKET_EVENT;
        oi_portfolio_snapshot_version := snapshot_version;
        oi_causal_root_available_at := causal_time;
        oi_dispatch_sequence := sequence;
        oi_specification_id := Execution.specification_id specification;
        oi_spec_set_id := spec_set_identifier spec_set;
        oi_spec_set_sha256 := set_digest;
        oi_execution_policy := execution_policy |}.

Definition _make_approval (approval_id decision_id : EconomicId) (intent : OrderIntent)
  (approved_quantity : CanonicalDecimal) (effective_digest : Sha256Digest) (risk_state_version : Z)
  : res ExecutionApproval :=
  let* _ := _require_id_owner approval_id RISK_APPROVAL in
  let* _ := _require_same_run (oi_run_id intent) [Some approval_id; Some decision_id] in
  Ok {| ap_run_id := oi_run_id intent;
        ap_approval_id := approval_id;
        ap_decision_id := decision_id;
        ap_intent_id := oi_intent_id intent;
        ap_correlation_id := oi_correlation_id intent;
        ap_causation_id := decision_id;
        ap_original_intent_sha256 := order_intent_digest intent;
        ap_effective_intent_sha256 := effective_digest;
        ap_approved_quantity := approved_quantity;
        ap_portfolio_snapshot_version := oi_portfolio_snapshot_version intent;
        ap_risk_state_version := risk_state_version;
        ap_causal_root_available_at := oi_causal_root_available_at intent;
        ap_dispatch_sequence := oi_dispatch_sequence intent |}.

(** [outcome_by_kind]. *)
Definition decision_outcome (k : RiskDecisionKind) : OutcomeCode :=
  match k with
  | ALLOW => RISK_ALLOWED | RESIZE => RISK_RESIZED | REJECT => RISK_REJECTED
  | EVALUATION_FAILED => RISK_EVALUATION_FAILED
  end.

(** The executable branch of [_create_risk_decision]. *)
Definition executable_approval (kind : RiskDecisionKind) (decision_id : EconomicId) (intent : OrderIntent)
  (specification : InstrumentExecutionSpec) (risk_version : Z) (approval_id : option EconomicId)
  (approved_quantity : option CanonicalDecimal) : res (Sha256Digest * ExecutionApproval) :=
  match approval_id, approved_quantity with
  | Some approval_id, Some quantity =>
      let* _ := _require_quantity quantity specification in
      let* exceeds := decimal_gt quantity (oi_quantity intent) in
      raise_if exceeds with raise_message OUT_OF_RANGE ;;
      raise_if bool_decide (kind = ALLOW) && negb (bool_decide (quantity = oi_quantity intent))
        with raise_message CONFLICTING_ID ;;
      raise_if bool_decide (kind = RESIZE) && bool_decide (quantity = oi_quantity intent)
        with raise_message OUT_OF_RANGE ;;
      let effective := effective_order_intent_digest intent quantity in
      let* approval := _make_approval approval_id decision_id intent quantity effective risk_version in
      Ok (effective, approval)
  | _, _ => Raise (raise_message INVALID_TYPE)
  end.

Definition _create_risk_decision (kind : RiskDecisionKind) (decision_id : EconomicId) (intent : OrderIntent)
  (spec_set : InstrumentExecutionSpecSet) (risk_state_version : Z) (approval_id : option EconomicId)
  (approved_quantity : option CanonicalDecimal) : res RiskDecision :=
  let* _ := _require_id_owner decision_id RISK_DECISION in
  let* _ := _require_same_run (oi_run_id intent) [Some decision_id] in
  let* pair_ := _require_spec_set spec_set (oi_instrument intent) (Some (oi_specification_id intent))
                  (Some (oi_spec_set_id intent)) (Some (oi_spec_set_sha256 intent)) in
  let* risk_version := _require_non_negative risk_state_version in
  let* carried :=
    if bool_decide (kind = ALLOW) || bool_decide (kind = RESIZE) then
      let* a := executable_approval kind decision_id intent pair_.1 risk_version approval_id approved_quantity in
      Ok (Some a)
    else
      raise_if negb (bool_decide (approval_id = None)) || negb (bool_decide (approved_quantity = None))
        with raise_message INVALID_TYPE ;;
      Ok None in
  Ok {| rd_run_id := oi_run_id intent;
        rd_decision_id := decision_id;
        rd_intent_id := oi_intent_id intent;
        rd_correlation_id := oi_correlation_id intent;
        rd_causation_id := oi_intent_id intent;
        rd_intent_sha256 := order_intent_digest intent;
        rd_kind := kind;
        rd_outcome_code := decision_outcome kind;
        rd_portfolio_snapshot_version := oi_portfolio_snapshot_version intent;
        rd_risk_state_version := risk_version;
        rd_causal_root_available_at := oi_causal_root_available_at intent;
        rd_dispatch_sequence := oi_dispatch_sequence intent;
        rd_approved_quantity := approved_quantity;
        rd_effective_intent_sha256 := fst <$> carried;
        rd_approval := snd <$> carried |}.

Definition allow_order_intent (decision_id approval_id : EconomicId) (intent : OrderIntent)
  (spec_set : InstrumentExecutionSpecSet) (risk_state_version : Z) : res RiskDecision :=
  _create_risk_decision ALLOW decision_id intent spec_set risk_state_version (Some approval_id)
    (Some (oi_quantity intent)).
Definition resize_order_intent (decision_id approval_id : EconomicId) (intent : OrderIntent)
  (approved_quantity : CanonicalDecimal) (spec_set : InstrumentExecutionSpecSet) (risk_state_version : Z)
  : res RiskDecision :=
  _create_risk_decision RESIZE decision_id intent spec_set risk_state_version (Some approval_id)
    (Some approved_quantity).
Definition reject_order_intent (decision_id : EconomicId) (intent : OrderIntent)
  (spec_set : InstrumentExecutionSpecSet) (risk_state_version : Z) : res RiskDecision :=
  _create_risk_decision REJECT decision_id intent spec_set risk_state_version None None.
Definition fail_order_intent_evaluation (decision_id : EconomicId) (intent : OrderIntent)
  (spec_set : InstrumentExecutionSpecSet) (risk_state_version : Z) : res RiskDecision :=
  _create_risk_decision EVALUATION_FAILED decision_id intent spec_set risk_state_version None None.

(** ** Orders *)

(** [risk decision does not bind the intent]. *)
Definition decision_binds (d : RiskDecision) (i : OrderIntent) : bool :=
  bool_decide (rd_intent_id d = oi_intent_id i)
  && bool_decide (rd_intent_sha256 d = order_intent_digest i)
  && bool_decide (rd_correlation_id d = oi_correlation_id i)
  && bool_decide (rd_causation_id d = oi_intent_id i)
  && (rd_portfolio_snapshot_version d =? oi_portfolio_snapshot_version i)
  && bool_decide (rd_causal_root_available_at d = oi_causal_root_available_at i)
  && (rd_dispatch_sequence d =? oi_dispatch_sequence i).

(** [approval does not bind the risk decision]. *)
Definition approval_binds (a : ExecutionApproval) (d : RiskDecision) (i : OrderIntent)
  (effective : Sha256Digest) (quantity : CanonicalDecimal) : bool :=
  bool_decide (ap_decision_id a = rd_decision_id d)
  && bool_decide (ap_intent_id a = oi_intent_id i)
  && bool_decide (ap_correlation_id a = oi_correlation_id i)
  && bool_decide (ap_causation_id a = rd_decision_id d)
  && bool_decide (ap_original_intent_sha256 a = order_intent_digest i)
  && bool_decide (ap_effective_intent_sha256 a = effective)
  && bool_decide (ap_approved_quantity a = quantity)
  && (ap_portfolio_snapshot_version a =? oi_portfolio_snapshot_version i)
  && (ap_risk_state_version a =? rd_risk_state_version d)
  && bool_decide (ap_causal_root_available_at a = oi_causal_root_available_at i)
  && (ap_dispatch_sequence a =? oi_dispatch_sequence i).

Definition create_order (order_id : EconomicId) (intent : OrderIntent) (decision : RiskDecision)
  (spec_set : InstrumentExecutionSpecSet) : res Order :=
  let* _ := _require_id_owner order_id EXECUTION_ORDER in
  let* _ := _require_same_run (oi_run_id intent) [Some order_id; Some (rd_decision_id decision)] in
  match rd_approval decision, rd_approved_quantity decision, rd_effective_intent_sha256 decision with
  | Some approval, Some quantity, Some effective =>
      raise_if negb (bool_decide (rd_kind decision = ALLOW) || bool_decide (rd_kind decision = RESIZE))
        with raise_message CONFLICTING_ID ;;
      raise_if negb (decision_binds decision intent) with raise_message CONFLICTING_ID ;;
      raise_if negb (approval_binds approval decision intent effective quantity)
        with raise_message CONFLICTING_ID ;;
      let* pair_ := _require_spec_set spec_set (oi_instrument intent) (Some (oi_specification_id intent))
                      (Some (oi_spec_set_id intent)) (Some (oi_spec_set_sha256 intent)) in
      let* _ := _require_quantity quantity pair_.1 in
      Ok {| od_run_id := oi_run_id intent;
            od_order_id := order_id;
            od_intent_id := oi_intent_id intent;
            od_correlation_id := oi_correlation_id intent;
            od_causation_id := ap_approval_id approval;
            od_decision_id := rd_decision_id decision;
            od_approval_id := ap_approval_id approval;
            od_original_intent_sha256 := order_intent_digest intent;
            od_effective_intent_sha256 := effective;
            od_risk_decision_sha256 := risk_decision_digest decision;
            od_approval_sha256 := execution_approval_digest approval;
            od_portfolio_snapshot_version := oi_portfolio_snapshot_version intent;
            od_risk_state_version := rd_risk_state_version decision;
            od_dispatch_sequence := oi_dispatch_sequence intent;
            od_instrument := oi_instrument intent;
            od_side := oi_side intent;
            od_quantity := quantity;
            od_order_kind := oi_order_kind intent;
            od_time_in_force := oi_time_in_force intent;
            od_specification_id := oi_specification_id intent;
            od_spec_set_id := oi_spec_set_id intent;
            od_spec_set_sha256 := oi_spec_set_sha256 intent;
            od_execution_policy := oi_execution_policy intent;
            od_eligible_after_available_at := oi_causal_root_available_at intent |}
  | _, _, _ => Raise (raise_message CONFLICTING_ID)
  end.

(** ** Submission-query facts *)

Definition create_submission_query_execution_fact (source_namespace : SourceNamespace)
  (dedup_identity : FactDedupIdentity) (occurred_at : datetime * option Z) (provenance : FactProvenance)
  (outcome_code : OutcomeCode) (subject_order : Order) (venue_order_id : option VenueOrderId)
  : res ExecutionFact :=
  let* payload := SubmissionQueryFactPayload_init outcome_code in
  let order_id := od_order_id subject_order in
  let* time := _require_fact_common occurred_at (Some order_id) (Some (od_correlation_id subject_order))
                 (Some order_id) true in
  Ok (mkExecutionFact source_namespace dedup_identity Messages.SUBMISSION_QUERY time
        (Some (od_instrument subject_order)) (Some (order_client_submission_key subject_order))
        venue_order_id (Some order_id) (Some (od_correlation_id subject_order)) (Some order_id)
        payload provenance).
End Digests.
