(* ===== verification/Wire.v ===== *)
(** Decoding canonical messages ([core/execution_messages.py], from [_decode_json] on):
    envelopes, the type checks made before anything is parsed, the parsers of the
    identities and values messages are made of, and the check that a decoded message
    is the exact canonical bytes of what was rebuilt from it.

    A [KeyError] cannot arise: every key is read after the key set was checked. *)

From S2P Require Import Prelude PyRegex PyText Outcomes Json WireJson Identity Economics Commission.
From S2P Require Import Execution Messages Orders.

Open Scope Z_scope.

Abbreviation wire_dict := (list (list Z * wire)).

(** ** Envelopes *)

Definition _decode_json (payload : str) : res wire_dict :=
  match json_loads payload with
  | None => Raise (raise_message OUT_OF_RANGE)
  | Some (WDict kvs) => Ok kvs
  | Some _ => Raise (raise_message INVALID_TYPE)
  end.

Definition get (d : wire_dict) (k : string) : res wire :=
  match lookup_key d k with Some v => Ok v | None => Raise KeyError end.

Definition is_text (v : option wire) (s : string) : bool :=
  match v with Some (WStr t) => bool_decide (t = codes (chars s)) | _ => false end.
Definition is_number (v : option wire) (n : Z) : bool :=
  match v with Some (WInt m) => m =? n | _ => false end.

(** [set(document).difference(expected)] is empty. *)
Definition only_keys (d : wire_dict) (expected : list string) : bool :=
  forallb (fun kv : list Z * wire => bool_decide (kv.1 ∈ map (fun k => codes (chars k)) expected)) d.
Definition has_keys (d : wire_dict) (expected : list string) : bool :=
  forallb (fun k => negb (bool_decide (lookup_key d k = None))) expected.

Definition _require_envelope (d : wire_dict) (expected : list string)
  (message_type canonicalization : string) : res unit :=
  raise_if negb (only_keys d expected) with raise_message OUT_OF_RANGE ;;
  raise_if negb (is_text (lookup_key d "message_type") message_type
                 && is_text (lookup_key d "canonicalization") canonicalization
                 && is_number (lookup_key d "schema_version") 1)
    with raise_message OUT_OF_RANGE ;;
  Ok tt.
Definition _require_keys (d : wire_dict) (expected : list string)
  (message_type canonicalization : string) : res unit :=
  let* _ := _require_envelope d expected message_type canonicalization in
  raise_if negb (has_keys d expected) with raise_message OUT_OF_RANGE ;; Ok tt.

(** No caller sets [fact]. *)
Definition _require_round_trip (payload : str) (d : wire_dict) (expected : json) (canonical : str)
  : res unit :=
  raise_if negb (wire_eq (WDict d) (wire_of expected)) with raise_message CONFLICTING_ID ;;
  raise_if negb (bool_decide (payload = canonical)) with raise_message OUT_OF_RANGE ;;
  Ok tt.

(** ** Type checks before parsing *)

Inductive wire_type : Type := T_str | T_int | T_dict | T_list.
Definition has_type (t : wire_type) (v : wire) : bool :=
  match t, v with
  | T_str, WStr _ | T_int, WInt _ | T_dict, WDict _ | T_list, WList _ => true
  | _, _ => false
  end.
Definition _require_wire_type (v : wire) (t : wire_type) : res unit :=
  raise_if negb (has_type t v) with raise_message INVALID_TYPE ;; Ok tt.
Definition _require_optional_wire_type (v : wire) (t : wire_type) : res unit :=
  match v with WNull => Ok tt | _ => _require_wire_type v t end.
(** [for field in fields: _require_wire_type(document[field], t)]. *)
Fixpoint require_fields (d : wire_dict) (t : wire_type) (fields : list string) : res unit :=
  match fields with
  | [] => Ok tt
  | f :: fields =>
      let* v := get d f in
      let* _ := _require_wire_type v t in
      require_fields d t fields
  end.
Definition _require_wire_object (v : wire) (expected : list string) : res wire_dict :=
  let* _ := _require_wire_type v T_dict in
  match v with
  | WDict d => raise_if negb (same_keys d expected) with raise_message OUT_OF_RANGE ;; Ok d
  | _ => Raise AssertionError
  end.

Definition _ECONOMIC_ID_WIRE_KEYS : list string := ["owner_kind"; "owner_sequence"; "run_id"]%string.
Definition _INSTRUMENT_WIRE_KEYS : list string := ["symbol"; "venue"]%string.
Definition _TARGET_LINEAGE_WIRE_KEYS : list string := ["target_id"; "target_sha256"]%string.
Definition _POLICY_WIRE_KEYS : list string := ["execution_policy_id"; "execution_policy_sha256"]%string.
Definition _PROVENANCE_WIRE_KEYS : list string := ["provenance_id"; "source_payload_sha256"]%string.
Definition _DEDUP_WIRE_KEYS : list string := ["kind"; "value"]%string.
Definition _FEE_WIRE_KEYS : list string := ["amount"; "currency"; "fee_code"]%string.
Definition _LIFECYCLE_PAYLOAD_WIRE_KEYS : list string := ["outcome_code"; "payload_type"]%string.
Definition _TRADE_PAYLOAD_WIRE_KEYS : list string :=
  ["fees"; "instrument_spec_set_id"; "instrument_spec_set_sha256"; "instrument_specification_id";
   "payload_type"; "price"; "quantity"; "side"]%string.

Definition _preflight_economic_id_types (v : wire) : res unit :=
  let* d := _require_wire_object v _ECONOMIC_ID_WIRE_KEYS in
  let* _ := require_fields d T_str ["owner_kind"]%string in
  let* _ := require_fields d T_int ["owner_sequence"]%string in
  require_fields d T_str ["run_id"]%string.
Definition _preflight_instrument_types (v : wire) : res unit :=
  let* d := _require_wire_object v _INSTRUMENT_WIRE_KEYS in
  require_fields d T_str ["symbol"; "venue"]%string.
Definition _preflight_target_lineage_types (v : wire) : res unit :=
  let* d := _require_wire_object v _TARGET_LINEAGE_WIRE_KEYS in
  let* i := get d "target_id" in
  let* _ := _preflight_economic_id_types i in
  require_fields d T_str ["target_sha256"]%string.
Definition _preflight_policy_types (v : wire) : res unit :=
  let* d := _require_wire_object v _POLICY_WIRE_KEYS in
  require_fields d T_str ["execution_policy_id"; "execution_policy_sha256"]%string.
Definition _preflight_provenance_types (v : wire) : res unit :=
  let* d := _require_wire_object v _PROVENANCE_WIRE_KEYS in
  require_fields d T_str ["provenance_id"; "source_payload_sha256"]%string.
Definition _preflight_dedup_types (v : wire) : res unit :=
  let* d := _require_wire_object v _DEDUP_WIRE_KEYS in
  let* _ := require_fields d T_str ["kind"]%string in
  let* payload := get d "value" in
  if is_text (lookup_key d "kind") "external_id" then _require_wire_type payload T_str
  else if is_text (lookup_key d "kind") "source_native_sequence" then _require_wire_type payload T_int
  else raise_if negb (has_type T_str payload || has_type T_int payload) with raise_message INVALID_TYPE ;; Ok tt.

(** [None if value is None else f(value)]. *)
Definition optionally {A} (f : wire -> res A) (v : wire) : res (option A) :=
  match v with WNull => Ok None | _ => let* x := f v in Ok (Some x) end.
(** A nullable object field checked by [f]. *)
Definition preflight_optional (f : wire -> res unit) (v : wire) : res unit :=
  let* _ := _require_optional_wire_type v T_dict in
  match v with WNull => Ok tt | _ => f v end.

(** ** Parsers *)

(** A [str] as the text of a pattern: a character above U+00FF matches none of the
    patterns, so it is refused with the pattern's error. *)
Definition latin (s : list Z) : option string :=
  if forallb (fun c => (0 <=? c) && (c <? 256)) s then Some (text_of (map ascii_of_cp s)) else None.
Definition text_or {A} (e : exn) (s : list Z) (f : string -> res A) : res A :=
  match latin s with Some t => f t | None => Raise e end.

(** [try: ... except X as error: raise _fail(code, ...)]. *)
Definition catching {A} (catches : exn -> option OutcomeCode) (m : res A) : res A :=
  match m with
  | Raise e => match catches e with Some c => Raise (raise_message c) | None => Raise e end
  | Ok a => Ok a
  end.
Definition identity_error (e : exn) : option OutcomeCode :=
  match e with ExecutionIdentityError c => Some c | _ => None end.
Definition run_error (e : exn) : option OutcomeCode :=
  match e with RunContractError => Some OUT_OF_RANGE | _ => None end.

(** A text value: its characters, or INVALID_TYPE. *)
Definition expect_str (v : wire) : res (list Z) :=
  match v with WStr s => Ok s | _ => Raise (raise_message INVALID_TYPE) end.
Definition expect_int (v : wire) : res Z :=
  match v with WInt n => Ok n | _ => Raise (raise_message INVALID_TYPE) end.

Definition _parse_run_id (v : wire) : res RunId :=
  let* s := expect_str v in catching run_error (text_or RunContractError s RunId_init).
Definition _parse_digest (v : wire) : res Sha256Digest :=
  let* s := expect_str v in catching run_error (text_or RunContractError s Sha256Digest_init).
Definition parse_value_of {A} (of_value : string -> option A) (s : list Z) : res A :=
  match latin s with
  | Some t => match of_value t with Some a => Ok a | None => Raise (raise_message OUT_OF_RANGE) end
  | None => Raise (raise_message OUT_OF_RANGE)
  end.
(** [_parse_enum]. *)
Definition _parse_enum {A} (of_value : string -> option A) (v : wire) : res A :=
  let* s := expect_str v in parse_value_of of_value s.

Definition _parse_economic_id (v : wire) : res EconomicId :=
  match v with
  | WDict d =>
      raise_if negb (same_keys d _ECONOMIC_ID_WIRE_KEYS) with raise_message OUT_OF_RANGE ;;
      let* owner_raw := get d "owner_kind" in
      let* owner := _parse_enum owner_kind_of_value owner_raw in
      let* sequence_raw := get d "owner_sequence" in
      let* sequence := expect_int sequence_raw in
      let* run_raw := get d "run_id" in
      let* run_id := _parse_run_id run_raw in
      catching identity_error (EconomicId_init run_id owner sequence)
  | _ => Raise (raise_message INVALID_TYPE)
  end.

Definition identity_validation (e : exn) : option OutcomeCode :=
  match e with IdentityValidationError => Some OUT_OF_RANGE | _ => None end.
Definition _parse_instrument (v : wire) : res Instrument :=
  match v with
  | WDict d =>
      raise_if negb (same_keys d _INSTRUMENT_WIRE_KEYS) with raise_message OUT_OF_RANGE ;;
      let* venue_raw := get d "venue" in
      let* symbol_raw := get d "symbol" in
      let* venue := expect_str venue_raw in
      let* symbol := expect_str symbol_raw in
      catching identity_validation
        (let* venue := text_or IdentityValidationError venue VenueId_init in
         text_or IdentityValidationError symbol (Instrument_init venue))
  | _ => Raise (raise_message OUT_OF_RANGE)
  end.

(** [CanonicalDecimal(value)]; its errors pass through. *)
Definition _parse_decimal (v : wire) : res CanonicalDecimal :=
  let* s := expect_str v in text_or (raise_economic OUT_OF_RANGE) s decimal_of_text.

(** The instant whose canonical text is [s]: the fields at their fixed positions, checked
    by printing them again. *)
Definition field_at (s : str) (from width : nat) : Z := int_of (take width (drop from s)).
Definition strptime (s : str) : option datetime :=
  let y := field_at s 0 4 in let mo := field_at s 5 2 in let d := field_at s 8 2 in
  let h := field_at s 11 2 in let mi := field_at s 14 2 in let sec := field_at s 17 2 in
  let us := field_at s 20 6 in
  match bool_dec (datetime_valid y mo d h mi sec us) true with
  | left H => Some (mkDatetime y mo d h mi sec us H)
  | right _ => None
  end.
Definition _parse_time (v : wire) : res datetime :=
  let* s := expect_str v in
  match latin s with
  | None => Raise (raise_message OUT_OF_RANGE)
  | Some t =>
      match strptime (chars t) with
      | None => Raise (raise_message OUT_OF_RANGE)
      | Some time =>
          raise_if negb (bool_decide (utc_text time = t)) with raise_message OUT_OF_RANGE ;; Ok time
      end
  end.

Definition _parse_dedup_identity (v : wire) : res FactDedupIdentity :=
  match v with
  | WNull => Raise (raise_message FACT_INVALID_MISSING_DEDUP_IDENTITY)
  | WDict d =>
      raise_if negb (same_keys d _DEDUP_WIRE_KEYS) with raise_message OUT_OF_RANGE ;;
      let* identity_value := get d "value" in
      if is_text (lookup_key d "kind") "external_id" then
        let* s := expect_str identity_value in
        catching identity_error (text_or (raise_identity OUT_OF_RANGE) s ExternalFactId_init)
      else if is_text (lookup_key d "kind") "source_native_sequence" then
        let* n := expect_int identity_value in
        catching identity_error (SourceNativeSequence_init n)
      else Raise (raise_message OUT_OF_RANGE)
  | _ => Raise (raise_message OUT_OF_RANGE)
  end.

Definition _parse_source_namespace (v : wire) : res SourceNamespace :=
  let* s := expect_str v in
  catching identity_error (text_or (raise_identity OUT_OF_RANGE) s SourceNamespace_init).
Definition _parse_optional_economic_id : wire -> res (option EconomicId) := optionally _parse_economic_id.
Definition _parse_optional_digest : wire -> res (option Sha256Digest) := optionally _parse_digest.
Definition _parse_optional_venue_order_id : wire -> res (option VenueOrderId) :=
  optionally (fun v => let* s := expect_str v in text_or (raise_message OUT_OF_RANGE) s VenueOrderId_init).

Definition _parse_target_lineage (v : wire) : res TargetLineageRef :=
  match v with
  | WDict d =>
      raise_if negb (same_keys d _TARGET_LINEAGE_WIRE_KEYS) with raise_message OUT_OF_RANGE ;;
      let* i_raw := get d "target_id" in
      let* i := _parse_economic_id i_raw in
      let* d_raw := get d "target_sha256" in
      let* d := _parse_digest d_raw in
      TargetLineageRef_init i d
  | _ => Raise (raise_message OUT_OF_RANGE)
  end.
Definition _parse_policy (v : wire) : res ExecutionPolicyRef :=
  match v with
  | WDict d =>
      raise_if negb (same_keys d _POLICY_WIRE_KEYS) with raise_message OUT_OF_RANGE ;;
      let* i_raw := get d "execution_policy_id" in
      let* i := expect_str i_raw in
      let* i := text_or (raise_message OUT_OF_RANGE) i _require_token in
      let* d_raw := get d "execution_policy_sha256" in
      let* d := _parse_digest d_raw in
      Ok (mkExecutionPolicyRef i d)
  | _ => Raise (raise_message OUT_OF_RANGE)
  end.
Definition _parse_provenance (v : wire) : res FactProvenance :=
  match v with
  | WDict d =>
      raise_if negb (same_keys d _PROVENANCE_WIRE_KEYS) with raise_message OUT_OF_RANGE ;;
      let* i_raw := get d "provenance_id" in
      let* i := expect_str i_raw in
      let* i := text_or (raise_message OUT_OF_RANGE) i _require_token in
      let* d_raw := get d "source_payload_sha256" in
      let* d := _parse_digest d_raw in
      Ok (mkFactProvenance i d)
  | _ => Raise (raise_message OUT_OF_RANGE)
  end.

(** [InstrumentSpecId(value)], [InstrumentSpecSetId(value)] and [SettlementCurrency(value)]. *)
Definition parse_spec_id (v : wire) : res InstrumentSpecId :=
  let* s := expect_str v in text_or (raise_economic OUT_OF_RANGE) s _validate_spec_id.
Definition parse_currency (v : wire) : res SettlementCurrency :=
  let* s := expect_str v in text_or (raise_economic OUT_OF_RANGE) s SettlementCurrency_init.

Definition order_side_of_value (s : string) : option OrderSide :=
  List.find (fun k => bool_decide (side_value k = s)) [BUY; SELL].
Definition fact_kind_of_value (s : string) : option ExecutionFactKind :=
  List.find (fun k => bool_decide (fact_kind_value k = s))
    [TRADE; REJECTION; ACKNOWLEDGEMENT; EXPIRY; CANCELLATION; SUBMISSION_QUERY].

(** ** Fees and fact payloads *)

Definition _parse_commission (v : wire) : res (option CanonicalDecimal) :=
  match v with
  | WNull => Ok None
  | WDict d =>
      raise_if negb (same_keys d ["policy"; "commission_bps"]%string) with raise_message OUT_OF_RANGE ;;
      raise_if negb (is_text (lookup_key d "policy") "deterministic-commission-v1")
        with raise_message OUT_OF_RANGE ;;
      let* raw := get d "commission_bps" in
      let* bps := _parse_decimal raw in
      let* bps := require_commission_bps bps in
      Ok (Some bps)
  | _ => Raise (raise_message OUT_OF_RANGE)
  end.

Definition _preflight_fee_types (v : wire) : res unit :=
  let keys :=
    match v with
    | WDict d => if bool_decide (lookup_key d "commission" = None) then _FEE_WIRE_KEYS
                 else ("commission"%string :: _FEE_WIRE_KEYS)
    | _ => _FEE_WIRE_KEYS
    end in
  let* d := _require_wire_object v keys in
  let* _ := match lookup_key d "commission" with Some c => _parse_commission c | None => Ok None end in
  require_fields d T_str ["amount"; "currency"; "fee_code"]%string.
Definition _preflight_fees_types (v : wire) : res unit :=
  let* _ := _require_wire_type v T_list in
  match v with
  | WList l => let* _ := rmap _preflight_fee_types l in Ok tt
  | _ => Ok tt
  end.

Definition _parse_fees (v : wire) : res (list FeeEntry) :=
  match v with
  | WList [WDict d] =>
      raise_if negb (same_keys d _FEE_WIRE_KEYS || same_keys d ("commission"%string :: _FEE_WIRE_KEYS))
        with raise_message OUT_OF_RANGE ;;
      raise_if negb (is_text (lookup_key d "fee_code") (fee_code_value COMMISSION))
        with raise_message OUT_OF_RANGE ;;
      let* currency_raw := get d "currency" in
      let* _ := expect_str currency_raw in
      let* currency := parse_currency currency_raw in
      let* amount_raw := get d "amount" in
      let* amount := _parse_decimal amount_raw in
      let* bps := match lookup_key d "commission" with Some c => _parse_commission c | None => Ok None end in
      let* fee := FeeEntry_init COMMISSION currency amount bps in
      Ok [fee]
  | _ => Raise (raise_message INVALID_TYPE)
  end.

Definition _preflight_fact_payload_types (v : wire) : res unit :=
  let* _ := _require_wire_type v T_dict in
  match v with
  | WDict d =>
      raise_if bool_decide (lookup_key d "payload_type" = None) with raise_message OUT_OF_RANGE ;;
      let* _ := require_fields d T_str ["payload_type"]%string in
      if same_keys d _TRADE_PAYLOAD_WIRE_KEYS then
        let* _ := require_fields d T_str
          ["instrument_spec_set_id"; "instrument_spec_set_sha256"; "instrument_specification_id";
           "payload_type"; "price"; "quantity"; "side"]%string in
        let* fees := get d "fees" in
        _preflight_fees_types fees
      else if same_keys d _LIFECYCLE_PAYLOAD_WIRE_KEYS then
        require_fields d T_str ["outcome_code"; "payload_type"]%string
      else Raise (raise_message OUT_OF_RANGE)
  | _ => Ok tt
  end.

Definition _parse_lifecycle_payload (v : wire) (kind : ExecutionFactKind) (expected : OutcomeCode)
  : res OutcomeCode :=
  match v with
  | WDict d =>
      raise_if negb (same_keys d _LIFECYCLE_PAYLOAD_WIRE_KEYS) with raise_message OUT_OF_RANGE ;;
      raise_if negb (is_text (lookup_key d "payload_type") "lifecycle") with raise_message OUT_OF_RANGE ;;
      let* raw := get d "outcome_code" in
      let* code := _parse_enum OutcomeCode_of_value raw in
      if bool_decide (code = expected) then Ok code
      else if bool_decide (kind = EXPIRY) && bool_decide (code = ORDER_EXPIRED_NO_ELIGIBLE_MARKET_DATA)
      then Ok code else Raise (raise_message OUT_OF_RANGE)
  | _ => Raise (raise_message OUT_OF_RANGE)
  end.
Definition _parse_submission_query_payload (v : wire) : res OutcomeCode :=
  match v with
  | WDict d =>
      raise_if negb (same_keys d _LIFECYCLE_PAYLOAD_WIRE_KEYS) with raise_message OUT_OF_RANGE ;;
      raise_if negb (is_text (lookup_key d "payload_type") "submission_query") with raise_message OUT_OF_RANGE ;;
      let* raw := get d "outcome_code" in
      let* code := _parse_enum OutcomeCode_of_value raw in
      let* _ := SubmissionQueryFactPayload_init code in
      Ok code
  | _ => Raise (raise_message OUT_OF_RANGE)
  end.

(** ** Facts *)

Definition _FACT_KEYS : list string :=
  ["canonicalization"; "message_type"; "schema_version"; "source_namespace"; "dedup_identity"; "kind";
   "occurred_at"; "instrument"; "client_submission_key"; "venue_order_id"; "order_id"; "correlation_id";
   "causation_id"; "payload"; "provenance"; "fact_sha256"]%string.
Definition _INGRESS_KEYS : list string :=
  ["canonicalization"; "message_type"; "schema_version"; "available_at"; "source_namespace";
   "ingress_sequence"; "fact"]%string.
Definition _FILL_KEYS : list string :=
  ["canonicalization"; "message_type"; "schema_version"; "run_id"; "fill_id"; "source_namespace";
   "dedup_identity"; "fact_sha256"; "provenance"; "occurred_at"; "instrument"; "side"; "quantity"; "price";
   "fees"; "instrument_specification_id"; "instrument_spec_set_id"; "instrument_spec_set_sha256";
   "client_submission_key"; "venue_order_id"; "order_id"; "correlation_id"; "causation_id"]%string.

Definition _require_fact_keys (d : wire_dict) : res unit :=
  let* _ := _require_envelope d _FACT_KEYS "execution_fact" "ea-execution-fact-v1" in
  raise_if match lookup_key d "dedup_identity" with None | Some WNull => true | _ => false end
    with raise_message FACT_INVALID_MISSING_DEDUP_IDENTITY ;;
  raise_if negb (has_keys d _FACT_KEYS) with raise_message OUT_OF_RANGE ;; Ok tt.

(** The nullable references shared by facts and fills. *)
Definition preflight_references (d : wire_dict) : res unit :=
  let* order_id := get d "order_id" in
  let* _ := preflight_optional _preflight_economic_id_types order_id in
  let* correlation_id := get d "correlation_id" in
  let* _ := preflight_optional _preflight_economic_id_types correlation_id in
  let* causation_id := get d "causation_id" in
  preflight_optional _preflight_economic_id_types causation_id.

Definition _preflight_fact_types (d : wire_dict) : res unit :=
  let* _ := require_fields d T_str ["source_namespace"; "kind"; "occurred_at"; "fact_sha256"]%string in
  let* dedup := get d "dedup_identity" in
  let* _ := _preflight_dedup_types dedup in
  let* client := get d "client_submission_key" in
  let* _ := _require_optional_wire_type client T_str in
  let* venue := get d "venue_order_id" in
  let* _ := _require_optional_wire_type venue T_str in
  let* instrument := get d "instrument" in
  let* _ := preflight_optional _preflight_instrument_types instrument in
  let* _ := preflight_references d in
  let* provenance := get d "provenance" in
  let* _ := _preflight_provenance_types provenance in
  let* payload := get d "payload" in
  _preflight_fact_payload_types payload.

Inductive FactDecodeContext : Type :=
| IndependentFactDecodeContext (spec_set : InstrumentExecutionSpecSet)
| SubmissionQueryFactDecodeContext (spec_set : InstrumentExecutionSpecSet) (subject_order : Order).
