(* ===== verification/Decoders.v ===== *)
(** The message decoders ([core/execution_messages.py], [decode_*]): order intents, risk
    decisions, approvals, Orders, execution facts and fills.  A decoder checks the key
    set and the type of every value, parses each field, rebuilds the message with its
    factory from the given context, and accepts only if the payload is the canonical
    bytes of what was rebuilt. *)

From S2P Require Import Prelude PyRegex PyText Outcomes Json WireJson Identity Economics Commission.
From S2P Require Import Execution Messages Orders Wire.

Open Scope Z_scope.

(** ** Key sets and type checks *)

Definition _ORDER_INTENT_KEYS : list string :=
  ["canonicalization"; "message_type"; "schema_version"; "run_id"; "intent_id"; "correlation_id";
   "causation_id"; "target_lineage"; "instrument"; "side"; "quantity"; "order_kind"; "time_in_force";
   "price_constraint"; "portfolio_snapshot_version"; "causal_root_available_at"; "dispatch_sequence";
   "instrument_specification_id"; "instrument_spec_set_id"; "instrument_spec_set_sha256";
   "execution_policy"]%string.
Definition _RISK_DECISION_KEYS : list string :=
  ["canonicalization"; "message_type"; "schema_version"; "run_id"; "decision_id"; "intent_id";
   "correlation_id"; "causation_id"; "intent_sha256"; "kind"; "outcome_code";
   "portfolio_snapshot_version"; "risk_state_version"; "causal_root_available_at"; "dispatch_sequence";
   "approved_quantity"; "effective_intent_sha256"; "approval"]%string.
Definition _APPROVAL_KEYS : list string :=
  ["canonicalization"; "message_type"; "schema_version"; "run_id"; "approval_id"; "decision_id";
   "intent_id"; "correlation_id"; "causation_id"; "original_intent_sha256"; "effective_intent_sha256";
   "approved_quantity"; "portfolio_snapshot_version"; "risk_state_version"; "causal_root_available_at";
   "dispatch_sequence"]%string.
Definition _ORDER_KEYS : list string :=
  ["canonicalization"; "message_type"; "schema_version"; "run_id"; "order_id"; "intent_id";
   "correlation_id"; "causation_id"; "decision_id"; "approval_id"; "original_intent_sha256";
   "effective_intent_sha256"; "risk_decision_sha256"; "approval_sha256"; "portfolio_snapshot_version";
   "risk_state_version"; "dispatch_sequence"; "instrument"; "side"; "quantity"; "order_kind";
   "time_in_force"; "price_constraint"; "instrument_specification_id"; "instrument_spec_set_id";
   "instrument_spec_set_sha256"; "execution_policy"; "eligible_after_available_at"]%string.

(** [for field in fields: f(document[field])]. *)
Fixpoint each_field {A} (d : wire_dict) (f : wire -> res A) (fields : list string) : res unit :=
  match fields with
  | [] => Ok tt
  | k :: fields =>
      let* v := get d k in
      let* _ := f v in
      each_field d f fields
  end.

Definition _preflight_order_intent_types (d : wire_dict) : res unit :=
  let* _ := require_fields d T_str
    ["run_id"; "side"; "quantity"; "order_kind"; "time_in_force"; "causal_root_available_at";
     "instrument_specification_id"; "instrument_spec_set_id"; "instrument_spec_set_sha256"]%string in
  let* _ := require_fields d T_int ["portfolio_snapshot_version"; "dispatch_sequence"]%string in
  let* _ := each_field d _preflight_economic_id_types ["intent_id"; "correlation_id"; "causation_id"]%string in
  let* target := get d "target_lineage" in
  let* _ := _preflight_target_lineage_types target in
  let* instrument := get d "instrument" in
  let* _ := _preflight_instrument_types instrument in
  let* policy := get d "execution_policy" in
  _preflight_policy_types policy.

Definition _preflight_approval_types (d : wire_dict) : res unit :=
  let* _ := _require_keys d _APPROVAL_KEYS "execution_approval" "ea-execution-approval-v1" in
  let* _ := require_fields d T_str
    ["run_id"; "original_intent_sha256"; "effective_intent_sha256"; "approved_quantity";
     "causal_root_available_at"]%string in
  let* _ := require_fields d T_int
    ["portfolio_snapshot_version"; "risk_state_version"; "dispatch_sequence"]%string in
  each_field d _preflight_economic_id_types
    ["approval_id"; "decision_id"; "intent_id"; "correlation_id"; "causation_id"]%string.

Definition _preflight_risk_decision_types (d : wire_dict) : res unit :=
  let* _ := require_fields d T_str
    ["run_id"; "intent_sha256"; "kind"; "outcome_code"; "causal_root_available_at"]%string in
  let* _ := require_fields d T_int
    ["portfolio_snapshot_version"; "risk_state_version"; "dispatch_sequence"]%string in
  let* _ := each_field d _preflight_economic_id_types
    ["decision_id"; "intent_id"; "correlation_id"; "causation_id"]%string in
  let* quantity := get d "approved_quantity" in
  let* _ := _require_optional_wire_type quantity T_str in
  let* effective := get d "effective_intent_sha256" in
  let* _ := _require_optional_wire_type effective T_str in
  let* approval := get d "approval" in
  let* _ := _require_optional_wire_type approval T_dict in
  match approval with
  | WDict a => _preflight_approval_types a
  | _ => Ok tt
  end.

Definition _preflight_order_types (d : wire_dict) : res unit :=
  let* _ := require_fields d T_str
    ["run_id"; "original_intent_sha256"; "effective_intent_sha256"; "risk_decision_sha256";
     "approval_sha256"; "side"; "quantity"; "order_kind"; "time_in_force"; "instrument_specification_id";
     "instrument_spec_set_id"; "instrument_spec_set_sha256"; "eligible_after_available_at"]%string in
  let* _ := require_fields d T_int
    ["portfolio_snapshot_version"; "risk_state_version"; "dispatch_sequence"]%string in
  let* _ := each_field d _preflight_economic_id_types
    ["order_id"; "intent_id"; "correlation_id"; "causation_id"; "decision_id"; "approval_id"]%string in
  let* instrument := get d "instrument" in
  let* _ := _preflight_instrument_types instrument in
  let* policy := get d "execution_policy" in
  _preflight_policy_types policy.

Definition _preflight_fill_types (d : wire_dict) : res unit :=
  let* _ := require_fields d T_str
    ["run_id"; "source_namespace"; "fact_sha256"; "occurred_at"; "side"; "quantity"; "price";
     "instrument_specification_id"; "instrument_spec_set_id"; "instrument_spec_set_sha256"]%string in
  let* fill := get d "fill_id" in
  let* _ := _preflight_economic_id_types fill in
  let* dedup := get d "dedup_identity" in
  let* _ := _preflight_dedup_types dedup in
  let* provenance := get d "provenance" in
  let* _ := _preflight_provenance_types provenance in
  let* instrument := get d "instrument" in
  let* _ := _preflight_instrument_types instrument in
  let* fees := get d "fees" in
  let* _ := _preflight_fees_types fees in
  let* client := get d "client_submission_key" in
  let* _ := _require_optional_wire_type client T_str in
  let* venue := get d "venue_order_id" in
  let* _ := _require_optional_wire_type venue T_str in
  preflight_references d.

(** ** Values read by the order decoders *)

Definition parse_version (v : wire) : res Z :=
  let* n := match v with WInt n => Ok n | _ => Raise (raise_message INVALID_TYPE) end in
  _require_non_negative n.
Definition order_kind_of_value (s : string) : option OrderKind :=
  List.find (fun k => bool_decide (order_kind_value k = s)) [MARKET].
Definition time_in_force_of_value (s : string) : option TimeInForce :=
  List.find (fun k => bool_decide (time_in_force_value k = s)) [GOOD_FOR_NEXT_ELIGIBLE_MARKET_EVENT].
Definition decision_kind_of_value (s : string) : option RiskDecisionKind :=
  List.find (fun k => bool_decide (decision_kind_value k = s)) [ALLOW; RESIZE; REJECT; EVALUATION_FAILED].
Definition is_null (v : wire) : bool := match v with WNull => true | _ => false end.

(** A parsed time is in UTC. *)
Definition at_utc (t : datetime) : datetime * option Z := (t, Some 0).

Section Decoders.
Context `{hash : Sha256}.

Definition decode_order_intent (payload : str) (spec_set : InstrumentExecutionSpecSet)
  (target_lineage : TargetLineageRef) (execution_policy : ExecutionPolicyRef) : res OrderIntent :=
  let* d := _decode_json payload in
  let* _ := _require_keys d _ORDER_INTENT_KEYS "order_intent" "ea-order-intent-v1" in
  let* _ := _preflight_order_intent_types d in
  let* run_raw := get d "run_id" in
  let* run_id := _parse_run_id run_raw in
  let* intent_raw := get d "intent_id" in
  let* intent_id := _parse_economic_id intent_raw in
  let* correlation_raw := get d "correlation_id" in
  let* correlation_id := _parse_economic_id correlation_raw in
  let* causation_raw := get d "causation_id" in
  let* _ := _parse_economic_id causation_raw in
  let* target_raw := get d "target_lineage" in
  let* parsed_target := _parse_target_lineage target_raw in
  let* policy_raw := get d "execution_policy" in
  let* parsed_policy := _parse_policy policy_raw in
  raise_if negb (bool_decide (parsed_target = target_lineage))
        || negb (bool_decide (parsed_policy = execution_policy)) with raise_message CONFLICTING_ID ;;
  let* instrument_raw := get d "instrument" in
  let* instrument := _parse_instrument instrument_raw in
  let* side_raw := get d "side" in
  let* side := _parse_enum order_side_of_value side_raw in
  let* quantity_raw := get d "quantity" in
  let* quantity := _parse_decimal quantity_raw in
  let* kind_raw := get d "order_kind" in
  let* _ := _parse_enum order_kind_of_value kind_raw in
  let* force_raw := get d "time_in_force" in
  let* _ := _parse_enum time_in_force_of_value force_raw in
  let* constraint := get d "price_constraint" in
  raise_if negb (is_null constraint) with raise_message OUT_OF_RANGE ;;
  let* snapshot_raw := get d "portfolio_snapshot_version" in
  let* snapshot := parse_version snapshot_raw in
  let* time_raw := get d "causal_root_available_at" in
  let* causal_time := _parse_time time_raw in
  let* dispatch_raw := get d "dispatch_sequence" in
  let* dispatch := parse_version dispatch_raw in
  let* _ := each_field d expect_str ["instrument_specification_id"; "instrument_spec_set_id"]%string in
  let* _ := each_field d parse_spec_id ["instrument_specification_id"; "instrument_spec_set_id"]%string in
  let* _ := each_field d _parse_digest ["instrument_spec_set_sha256"]%string in
  let* intent := create_order_intent run_id intent_id correlation_id target_lineage instrument side quantity
                   snapshot (at_utc causal_time) dispatch spec_set execution_policy in
  let* _ := _require_round_trip payload d (_order_intent_document intent)
              (canonical_order_intent_bytes intent) in
  Ok intent.

Definition _validate_approval_document_types (d : wire_dict) : res unit :=
  let* _ := _require_keys d _APPROVAL_KEYS "execution_approval" "ea-execution-approval-v1" in
  let* _ := each_field d _parse_run_id ["run_id"]%string in
  let* _ := each_field d _parse_economic_id
    ["approval_id"; "decision_id"; "intent_id"; "correlation_id"; "causation_id"]%string in
  let* _ := each_field d _parse_digest ["original_intent_sha256"; "effective_intent_sha256"]%string in
  let* _ := each_field d _parse_decimal ["approved_quantity"]%string in
  let* _ := each_field d parse_version
    ["portfolio_snapshot_version"; "risk_state_version"; "dispatch_sequence"]%string in
  each_field d _parse_time ["causal_root_available_at"]%string.

(** The executable and the other variants of a decoded decision. *)
Definition decode_executable (kind : RiskDecisionKind) (d : wire_dict) (approval_raw : wire)
  (decision_id : EconomicId) (intent : OrderIntent) (spec_set : InstrumentExecutionSpecSet)
  (risk_version : Z) : res RiskDecision :=
  match approval_raw with
  | WDict a =>
      let* _ := _validate_approval_document_types a in
      let* id_raw := get a "approval_id" in
      let* approval_id := _parse_economic_id id_raw in
      let* quantity_raw := get d "approved_quantity" in
      let* approved_quantity := _parse_decimal quantity_raw in
      let* _ := each_field d _parse_digest ["effective_intent_sha256"]%string in
      if bool_decide (kind = ALLOW) then allow_order_intent decision_id approval_id intent spec_set risk_version
      else resize_order_intent decision_id approval_id intent approved_quantity spec_set risk_version
  | _ => Raise (raise_message INVALID_TYPE)
  end.
Definition decode_refusal (kind : RiskDecisionKind) (d : wire_dict) (approval_raw : wire)
  (decision_id : EconomicId) (intent : OrderIntent) (spec_set : InstrumentExecutionSpecSet)
  (risk_version : Z) : res RiskDecision :=
  let* quantity_raw := get d "approved_quantity" in
  let* effective_raw := get d "effective_intent_sha256" in
  raise_if negb (is_null approval_raw && is_null quantity_raw && is_null effective_raw)
    with raise_message CONFLICTING_ID ;;
  if bool_decide (kind = REJECT) then reject_order_intent decision_id intent spec_set risk_version
  else fail_order_intent_evaluation decision_id intent spec_set risk_version.

Definition decode_risk_decision (payload : str) (intent : OrderIntent)
  (spec_set : InstrumentExecutionSpecSet) : res RiskDecision :=
  let* d := _decode_json payload in
  let* _ := _require_keys d _RISK_DECISION_KEYS "risk_decision" "ea-risk-decision-v1" in
  let* _ := _preflight_risk_decision_types d in
  let* _ := each_field d _parse_run_id ["run_id"]%string in
  let* id_raw := get d "decision_id" in
  let* decision_id := _parse_economic_id id_raw in
  let* _ := each_field d _parse_economic_id ["intent_id"; "correlation_id"; "causation_id"]%string in
  let* _ := each_field d _parse_digest ["intent_sha256"]%string in
  let* kind_raw := get d "kind" in
  let* kind := _parse_enum decision_kind_of_value kind_raw in
  let* outcome_raw := get d "outcome_code" in
  let* outcome := _parse_enum OutcomeCode_of_value outcome_raw in
  let* version_raw := get d "risk_state_version" in
  let* risk_version := parse_version version_raw in
  let* _ := each_field d parse_version ["portfolio_snapshot_version"; "dispatch_sequence"]%string in
  let* _ := each_field d _parse_time ["causal_root_available_at"]%string in
  let* approval_raw := get d "approval" in
  let* decision :=
    if bool_decide (kind = ALLOW) || bool_decide (kind = RESIZE)
    then decode_executable kind d approval_raw decision_id intent spec_set risk_version
    else decode_refusal kind d approval_raw decision_id intent spec_set risk_version in
  raise_if negb (bool_decide (outcome = rd_outcome_code decision)) with raise_message CONFLICTING_ID ;;
  let* _ := _require_round_trip payload d (_risk_decision_document decision)
              (canonical_risk_decision_bytes decision) in
  Ok decision.

Definition decode_execution_approval (payload : str) (intent : OrderIntent) (decision : RiskDecision)
  : res ExecutionApproval :=
  match rd_approval decision with
  | None => Raise (raise_message CONFLICTING_ID)
  | Some approval =>
      let* d := _decode_json payload in
      let* _ := _preflight_approval_types d in
      let* _ := _validate_approval_document_types d in
      raise_if negb (bool_decide (rd_intent_id decision = oi_intent_id intent))
            || negb (bool_decide (rd_intent_sha256 decision = order_intent_digest intent))
        with raise_message CONFLICTING_ID ;;
      let* _ := _require_round_trip payload d (_approval_document approval)
                  (canonical_execution_approval_bytes approval) in
      Ok approval
  end.

Definition decode_order (payload : str) (intent : OrderIntent) (decision : RiskDecision)
  (spec_set : InstrumentExecutionSpecSet) : res Order :=
  let* d := _decode_json payload in
  let* _ := _require_keys d _ORDER_KEYS "order" "ea-order-v1" in
  let* _ := _preflight_order_types d in
  let* _ := each_field d _parse_run_id ["run_id"]%string in
  let* id_raw := get d "order_id" in
  let* order_id := _parse_economic_id id_raw in
  let* _ := each_field d _parse_economic_id
    ["intent_id"; "correlation_id"; "causation_id"; "decision_id"; "approval_id"]%string in
  let* _ := each_field d _parse_digest
    ["original_intent_sha256"; "effective_intent_sha256"; "risk_decision_sha256"; "approval_sha256";
     "instrument_spec_set_sha256"]%string in
  let* _ := each_field d parse_version
    ["portfolio_snapshot_version"; "risk_state_version"; "dispatch_sequence"]%string in
  let* _ := each_field d _parse_instrument ["instrument"]%string in
  let* _ := each_field d (_parse_enum order_side_of_value) ["side"]%string in
  let* _ := each_field d _parse_decimal ["quantity"]%string in
  let* _ := each_field d (_parse_enum order_kind_of_value) ["order_kind"]%string in
  let* _ := each_field d (_parse_enum time_in_force_of_value) ["time_in_force"]%string in
  let* constraint := get d "price_constraint" in
  raise_if negb (is_null constraint) with raise_message OUT_OF_RANGE ;;
  let* _ := each_field d parse_spec_id ["instrument_specification_id"; "instrument_spec_set_id"]%string in
  let* _ := each_field d _parse_policy ["execution_policy"]%string in
  let* _ := each_field d _parse_time ["eligible_after_available_at"]%string in
  let* order := create_order order_id intent decision spec_set in
  let* _ := _require_round_trip payload d (_order_document order) (canonical_order_bytes order) in
  Ok order.

(** ** Facts *)

(** The side, quantity and price of a trade payload, its fees checked against the
    specification. *)
Definition _parse_trade_payload (v : wire) (instrument : Instrument) (spec_set : InstrumentExecutionSpecSet)
  : res (OrderSide * CanonicalDecimal * CanonicalDecimal) :=
  match v with
  | WDict d =>
      raise_if negb (same_keys d _TRADE_PAYLOAD_WIRE_KEYS) with raise_message OUT_OF_RANGE ;;
      raise_if negb (is_text (lookup_key d "payload_type") "trade") with raise_message OUT_OF_RANGE ;;
      let* side_raw := get d "side" in
      let* side := _parse_enum order_side_of_value side_raw in
      let* quantity_raw := get d "quantity" in
      let* quantity := _parse_decimal quantity_raw in
      let* price_raw := get d "price" in
      let* price := _parse_decimal price_raw in
      let* specification_raw := get d "instrument_specification_id" in
      let* set_raw := get d "instrument_spec_set_id" in
      let* _ := each_field d expect_str ["instrument_specification_id"; "instrument_spec_set_id"]%string in
      let* specification_id := parse_spec_id specification_raw in
      let* set_id := parse_spec_id set_raw in
      let* digest_raw := get d "instrument_spec_set_sha256" in
      let* set_digest := _parse_digest digest_raw in
      let* pair_ := _require_spec_set spec_set instrument (Some specification_id) (Some set_id)
                      (Some set_digest) in
      let* fees_raw := get d "fees" in
      let* fees := _parse_fees fees_raw in
      let* _ := _require_phase1_fees fees pair_.1 price quantity in
      Ok (side, quantity, price)
  | _ => Raise (raise_message OUT_OF_RANGE)
  end.

(** [_parse_fees(document["payload"]["fees"])[0].commission_bps]. *)
Definition parse_commission_bps (v : wire) : res (option CanonicalDecimal) :=
  match v with
  | WDict d =>
      let* fees_raw := get d "fees" in
      let* fees := _parse_fees fees_raw in
      match fees with fee :: _ => Ok (commission_bps fee) | [] => Raise IndexError end
  | _ => Raise TypeError
  end.

(** The references of a fact, as parsed. *)
Record FactReferences : Type := mkFactReferences {
  ref_client_submission_key : option Sha256Digest;
  ref_venue_order_id : option VenueOrderId;
  ref_order_id : option EconomicId;
  ref_correlation_id : option EconomicId;
  ref_causation_id : option EconomicId
}.
Definition parse_references (d : wire_dict) : res FactReferences :=
  let* client_raw := get d "client_submission_key" in
  let* client := _parse_optional_digest client_raw in
  let* venue_raw := get d "venue_order_id" in
  let* venue := _parse_optional_venue_order_id venue_raw in
  let* order_raw := get d "order_id" in
  let* order_id := _parse_optional_economic_id order_raw in
  let* correlation_raw := get d "correlation_id" in
  let* correlation_id := _parse_optional_economic_id correlation_raw in
  let* causation_raw := get d "causation_id" in
  let* causation_id := _parse_optional_economic_id causation_raw in
  Ok (mkFactReferences client venue order_id correlation_id causation_id).

(** The fact rebuilt by the factory of its kind. *)
Definition rebuild_fact (context : FactDecodeContext) (kind : ExecutionFactKind) (source : SourceNamespace)
  (identity : FactDedupIdentity) (occurred_at : datetime) (instrument : option Instrument)
  (refs : FactReferences) (provenance : FactProvenance) (payload : wire) : res ExecutionFact :=
  match kind, context with
  | SUBMISSION_QUERY, SubmissionQueryFactDecodeContext _ subject_order =>
      let* outcome := _parse_submission_query_payload payload in
      create_submission_query_execution_fact source identity (at_utc occurred_at) provenance outcome
        subject_order (ref_venue_order_id refs)
  | SUBMISSION_QUERY, IndependentFactDecodeContext _ => Raise (raise_message INVALID_TYPE)
  | _, SubmissionQueryFactDecodeContext _ _ => Raise (raise_message INVALID_TYPE)
  | TRADE, IndependentFactDecodeContext spec_set =>
      match instrument with
      | None => Raise (raise_message INVALID_TYPE)
      | Some instrument =>
          let* parsed := _parse_trade_payload payload instrument spec_set in
          let '(side, quantity, price) := parsed in
          let* bps := parse_commission_bps payload in
          create_trade_execution_fact source identity (at_utc occurred_at) provenance spec_set instrument
            side quantity price bps (ref_client_submission_key refs) (ref_venue_order_id refs)
            (ref_order_id refs) (ref_correlation_id refs) (ref_causation_id refs)
      end
  | _, IndependentFactDecodeContext _ =>
      match _LIFECYCLE_CODE_BY_KIND kind with
      | None => Raise (raise_message OUT_OF_RANGE)
      | Some expected =>
          let* code := _parse_lifecycle_payload payload kind expected in
          create_lifecycle_execution_fact kind source identity (at_utc occurred_at) provenance instrument
            (ref_client_submission_key refs) (ref_venue_order_id refs) (ref_order_id refs)
            (ref_correlation_id refs) (ref_causation_id refs)
            (if bool_decide (code = expected) then None else Some code)
      end
  end.

Definition decode_execution_fact (payload : str) (context : FactDecodeContext) : res ExecutionFact :=
  let* d := _decode_json payload in
  let* _ := _require_fact_keys d in
  let* _ := _preflight_fact_types d in
  let* source_raw := get d "source_namespace" in
  let* source := _parse_source_namespace source_raw in
  let* identity_raw := get d "dedup_identity" in
  let* identity := _parse_dedup_identity identity_raw in
  let* kind_raw := get d "kind" in
  let* kind := _parse_enum fact_kind_of_value kind_raw in
  let* time_raw := get d "occurred_at" in
  let* occurred_at := _parse_time time_raw in
  let* instrument_raw := get d "instrument" in
  let* instrument := optionally _parse_instrument instrument_raw in
  let* refs := parse_references d in
  let* provenance_raw := get d "provenance" in
  let* provenance := _parse_provenance provenance_raw in
  let* digest_raw := get d "fact_sha256" in
  let* wire_fact_digest := _parse_digest digest_raw in
  let* payload_raw := get d "payload" in
  let* fact := rebuild_fact context kind source identity occurred_at instrument refs provenance payload_raw in
  raise_if negb (bool_decide (wire_fact_digest = execution_fact_digest fact))
    with raise_message FACT_INVALID ;;
  let* _ := _require_round_trip payload d (_fact_document fact) (canonical_execution_fact_bytes fact)
              in
  Ok fact.

(** ** Fills *)

Definition decode_fill (payload : str) (fact : ExecutionFact) (spec_set : InstrumentExecutionSpecSet)
  : res Fill :=
  let* d := _decode_json payload in
  let* _ := _require_keys d _FILL_KEYS "fill" "ea-fill-v1" in
  let* _ := _preflight_fill_types d in
  let* _ := each_field d _parse_run_id ["run_id"]%string in
  let* id_raw := get d "fill_id" in
  let* fill_id := _parse_economic_id id_raw in
  let* _ := each_field d _parse_source_namespace ["source_namespace"]%string in
  let* _ := each_field d _parse_dedup_identity ["dedup_identity"]%string in
  let* _ := each_field d _parse_digest ["fact_sha256"; "instrument_spec_set_sha256"]%string in
  let* _ := each_field d _parse_provenance ["provenance"]%string in
  let* _ := each_field d _parse_time ["occurred_at"]%string in
  let* _ := each_field d _parse_instrument ["instrument"]%string in
  let* _ := each_field d (_parse_enum order_side_of_value) ["side"]%string in
  let* _ := each_field d _parse_decimal ["quantity"; "price"]%string in
  let* _ := each_field d _parse_fees ["fees"]%string in
  let* _ := each_field d parse_spec_id ["instrument_specification_id"; "instrument_spec_set_id"]%string in
  let* _ := parse_references d in
  let* fill := create_fill fill_id fact spec_set in
  let* _ := _require_round_trip payload d (_fill_document fill) (canonical_fill_bytes fill) in
  Ok fill.
End Decoders.
