(* ===== verification/Risk.v ===== *)
(** Pre-trade risk values ([core/risk.py]): the deny-by-default policy, the snapshot of
    the risk state, the evidence of one evaluation and the result that pairs it with a
    decision.  Every factory checks what it is given and every document is canonical
    JSON under a digest domain of its own. *)

From S2P Require Import Prelude PyRegex PyText Outcomes Json Identity Economics Commission.
From S2P Require Import Execution Messages Orders.

Open Scope Z_scope.

Definition _RISK_CONTRACT_ERROR_CODES : list OutcomeCode :=
  [INVALID_TYPE; OUT_OF_RANGE; NOT_QUANTIZED; CONFLICTING_ID].
(** [raise _fail(code, ...)]. *)
Definition raise_risk (c : OutcomeCode) : exn :=
  if permitted _RISK_CONTRACT_ERROR_CODES c then RiskContractError c else TypeError.

Inductive RiskReasonCode : Type :=
| WITHIN_LIMITS
| RESIZED_ORDER_LIMIT
| RESIZED_POSITION_LIMIT
| RESIZED_ORDER_AND_POSITION_LIMITS
| HALTED
| INSTRUMENT_NOT_CONFIGURED
| NO_POSITION_CAPACITY
| STALE_PORTFOLIO_SNAPSHOT
| LINEAGE_MISMATCH
| ARITHMETIC_FAILURE
| APPROVAL_SEQUENCE_EXHAUSTED.
Definition reason_value (r : RiskReasonCode) : string :=
  match r with
  | WITHIN_LIMITS => "within_limits"
  | RESIZED_ORDER_LIMIT => "resized_order_limit"
  | RESIZED_POSITION_LIMIT => "resized_position_limit"
  | RESIZED_ORDER_AND_POSITION_LIMITS => "resized_order_and_position_limits"
  | HALTED => "halted"
  | INSTRUMENT_NOT_CONFIGURED => "instrument_not_configured"
  | NO_POSITION_CAPACITY => "no_position_capacity"
  | STALE_PORTFOLIO_SNAPSHOT => "stale_portfolio_snapshot"
  | LINEAGE_MISMATCH => "lineage_mismatch"
  | ARITHMETIC_FAILURE => "arithmetic_failure"
  | APPROVAL_SEQUENCE_EXHAUSTED => "approval_sequence_exhausted"
  end.
#[export] Instance RiskReasonCode_eq_dec : EqDecision RiskReasonCode.
Proof. solve_decision. Defined.

Inductive RiskHaltReason : Type :=
| KILL_SWITCH
| INTENT_IDENTITY_CONFLICT
| RISK_EVALUATION_FAILURE
| EXTERNAL_SAFETY_HALT
| RECONCILIATION_REQUIRED.
Definition halt_reason_value (r : RiskHaltReason) : string :=
  match r with
  | KILL_SWITCH => "kill_switch"
  | INTENT_IDENTITY_CONFLICT => "intent_identity_conflict"
  | RISK_EVALUATION_FAILURE => "risk_evaluation_failure"
  | EXTERNAL_SAFETY_HALT => "external_safety_halt"
  | RECONCILIATION_REQUIRED => "reconciliation_required"
  end.
#[export] Instance RiskHaltReason_eq_dec : EqDecision RiskHaltReason.
Proof. solve_decision. Defined.

(** [[a-z][a-z0-9._-]{0,127}] is the pattern of the other identifiers. *)
Abbreviation RiskPolicyId := (PatternStr _TOKEN_PATTERN).
Definition RiskPolicyId_init (s : string) : res RiskPolicyId := pattern_str (raise_risk OUT_OF_RANGE) s.

Definition _translate_economic_error (c : OutcomeCode) : exn :=
  match c with
  | INVALID_TYPE => raise_risk INVALID_TYPE
  | NOT_QUANTIZED => raise_risk NOT_QUANTIZED
  | CONFLICTING_ID => raise_risk CONFLICTING_ID
  | OUT_OF_RANGE | NON_FINITE | PRICE_DOMAIN | ARITHMETIC_OVERFLOW => raise_risk OUT_OF_RANGE
  | _ => AssertionError
  end.
(** [except EconomicValidationError as error: raise _translate_economic_error(error)]. *)
Definition translating {A} (m : res A) : res A :=
  catch_economic m (fun c => Raise (_translate_economic_error c)).

(** ** The policy *)

Record InstrumentRiskLimit : Type := mkRiskLimit {
  limit_instrument : Instrument;
  maximum_order_quantity : CanonicalDecimal;
  maximum_absolute_position : CanonicalDecimal
}.
Definition InstrumentRiskLimit_init (i : Instrument) (order_quantity position : CanonicalDecimal)
  : res InstrumentRiskLimit :=
  let* _ := translating (
    let* _ := require_positive order_quantity in
    require_positive position) in
  Ok (mkRiskLimit i order_quantity position).

Record Phase1RiskPolicy : Type := mkRiskPolicy {
  policy_id : RiskPolicyId;
  policy_spec_set_id : InstrumentSpecSetId;
  policy_spec_set_sha256 : Sha256Digest;
  policy_execution_policy : ExecutionPolicyRef;
  instrument_limits : list InstrumentRiskLimit
}.
#[export] Instance InstrumentRiskLimit_eq_dec : EqDecision InstrumentRiskLimit.
Proof. solve_decision. Defined.
#[export] Instance Phase1RiskPolicy_eq_dec : EqDecision Phase1RiskPolicy.
Proof. solve_decision. Defined.

Definition limit_key (l : InstrumentRiskLimit) : string * string := instrument_key (limit_instrument l).

(** The checks of one limit against its specification. *)
Definition require_limit_quantized (spec_set : InstrumentExecutionSpecSet) (l : InstrumentRiskLimit)
  : res unit :=
  translating (
    let* specification := require_spec spec_set (limit_instrument l) in
    let* _ := require_quantized (maximum_order_quantity l) (quantity_quantum specification) in
    let* _ := require_quantized (maximum_absolute_position l) (quantity_quantum specification) in
    Ok tt).
(** [for limit in ordered: ...]. *)
Fixpoint require_limits_quantized (spec_set : InstrumentExecutionSpecSet) (l : list InstrumentRiskLimit)
  : res unit :=
  match l with
  | [] => Ok tt
  | limit :: l => let* _ := require_limit_quantized spec_set limit in require_limits_quantized spec_set l
  end.

Section Values.
Context `{hash : Sha256}.

Definition create_phase1_risk_policy (i : RiskPolicyId) (spec_set : InstrumentExecutionSpecSet)
  (execution_policy : ExecutionPolicyRef) (limits : list InstrumentRiskLimit) : res Phase1RiskPolicy :=
  raise_if negb (no_duplicates (map limit_key limits)) with raise_risk CONFLICTING_ID ;;
  let ordered := py_sorted limit_key limits in
  let* _ := require_limits_quantized spec_set ordered in
  Ok {| policy_id := i;
        policy_spec_set_id := spec_set_identifier spec_set;
        policy_spec_set_sha256 := instrument_spec_set_digest spec_set;
        policy_execution_policy := execution_policy;
        instrument_limits := ordered |}.

Definition limit_document (l : InstrumentRiskLimit) : json :=
  JDict
    [("instrument", _instrument_document (limit_instrument l));
     ("maximum_absolute_position", JStr (text (maximum_absolute_position l)));
     ("maximum_order_quantity", JStr (text (maximum_order_quantity l)))]%string.
Definition risk_policy_document (p : Phase1RiskPolicy) : json :=
  JDict
    [("canonicalization", JStr "ea-risk-policy-v1");
     ("default_action", JStr "deny");
     ("execution_policy", _policy_document (policy_execution_policy p));
     ("instrument_limits", JList (map limit_document (instrument_limits p)));
     ("instrument_spec_set_id", JStr (value (policy_spec_set_id p)));
     ("instrument_spec_set_sha256", JStr (value (policy_spec_set_sha256 p)));
     ("message_type", JStr "phase1_risk_policy");
     ("policy_id", JStr (value (policy_id p)));
     ("schema_version", JInt 1)]%string.
Definition canonical_phase1_risk_policy_bytes (p : Phase1RiskPolicy) : str :=
  encode_json (risk_policy_document p).
Definition phase1_risk_policy_digest (p : Phase1RiskPolicy) : Sha256Digest :=
  _digest (domain "ea.risk-policy.v1") (canonical_phase1_risk_policy_bytes p).

(** ** The risk state *)

Record RiskStateSnapshot : Type := mkRiskState {
  rs_run_id : RunId;
  rs_policy_id : RiskPolicyId;
  rs_policy_sha256 : Sha256Digest;
  rs_version : Z;
  halted : bool;
  halt_reason : option RiskHaltReason;
  halt_causal_root_available_at : option datetime;
  halt_dispatch_sequence : option Z;
  conflict_existing_intent_sha256 : option Sha256Digest;
  conflict_submitted_intent_sha256 : option Sha256Digest
}.

Definition _require_non_negative (v : Z) : res Z :=
  raise_if v <? 0 with raise_risk OUT_OF_RANGE ;; Ok v.

(** The fields of a halted snapshot: the causal time, once normalized. *)
Definition halted_time (version : Z) (reason : option RiskHaltReason)
  (causal_root_available_at : option (datetime * option Z)) (dispatch_sequence : option Z)
  (existing submitted : option Sha256Digest) : res (option datetime) :=
  match reason, causal_root_available_at, dispatch_sequence with
  | None, _, _ | _, None, _ => Raise (raise_risk INVALID_TYPE)
  | Some reason, Some wall, sequence =>
      let* causal_time := match require_utc wall.1 wall.2 with
                          | Ok t => Ok t
                          | Raise _ => Raise (raise_risk OUT_OF_RANGE)
                          end in
      let* _ := match sequence with
                | None => Raise (raise_risk INVALID_TYPE)
                | Some n => _require_non_negative n
                end in
      raise_if negb (version =? 1) with raise_risk CONFLICTING_ID ;;
      let is_conflict := bool_decide (reason = INTENT_IDENTITY_CONFLICT) in
      raise_if is_conflict && (absent existing || absent submitted) with raise_risk CONFLICTING_ID ;;
      raise_if negb is_conflict && (negb (absent existing) || negb (absent submitted))
        with raise_risk CONFLICTING_ID ;;
      Ok (Some causal_time)
  end.

Definition _create_risk_state_snapshot (run_id : RunId) (p_id : RiskPolicyId) (p_sha256 : Sha256Digest)
  (version : Z) (halted_ : bool) (reason : option RiskHaltReason)
  (causal_root_available_at : option (datetime * option Z)) (dispatch_sequence : option Z)
  (existing submitted : option Sha256Digest) : res RiskStateSnapshot :=
  raise_if negb (version =? 0) && negb (version =? 1) with raise_risk OUT_OF_RANGE ;;
  let* causal_time :=
    if halted_ then halted_time version reason causal_root_available_at dispatch_sequence existing submitted
    else
      raise_if negb (absent reason) || negb (absent causal_root_available_at)
            || negb (absent dispatch_sequence) || negb (absent existing) || negb (absent submitted)
        with raise_risk CONFLICTING_ID ;;
      raise_if negb (version =? 0) with raise_risk CONFLICTING_ID ;;
      Ok None in
  Ok {| rs_run_id := run_id;
        rs_policy_id := p_id;
        rs_policy_sha256 := p_sha256;
        rs_version := version;
        halted := halted_;
        halt_reason := reason;
        halt_causal_root_available_at := causal_time;
        halt_dispatch_sequence := dispatch_sequence;
        conflict_existing_intent_sha256 := existing;
        conflict_submitted_intent_sha256 := submitted |}.
End Values.

Section Evidence.
Context `{hash : Sha256}.

Definition risk_state_document (s : RiskStateSnapshot) : json :=
  JDict
    [("canonicalization", JStr "ea-risk-state-v1");
     ("conflict_existing_intent_sha256", optional_text_document (conflict_existing_intent_sha256 s));
     ("conflict_submitted_intent_sha256", optional_text_document (conflict_submitted_intent_sha256 s));
     ("halt_causal_root_available_at",
      optional_document (fun t => JStr (utc_text t)) (halt_causal_root_available_at s));
     ("halt_dispatch_sequence", optional_document JInt (halt_dispatch_sequence s));
     ("halt_reason", optional_document (fun r => JStr (halt_reason_value r)) (halt_reason s));
     ("halted", JBool (halted s));
     ("message_type", JStr "risk_state_snapshot");
     ("policy_id", JStr (value (rs_policy_id s)));
     ("policy_sha256", JStr (value (rs_policy_sha256 s)));
     ("risk_state_version", JInt (rs_version s));
     ("run_id", JStr (value (rs_run_id s)));
     ("schema_version", JInt 1)]%string.
Definition canonical_risk_state_snapshot_bytes (s : RiskStateSnapshot) : str :=
  encode_json (risk_state_document s).
Definition risk_state_snapshot_digest (s : RiskStateSnapshot) : Sha256Digest :=
  _digest (domain "ea.risk-state.v1") (canonical_risk_state_snapshot_bytes s).

(** ** Evaluation evidence *)

Record RiskEvaluationEvidence : Type := mkRiskEvidence {
  re_run_id : RunId;
  re_intent_id : EconomicId;
  re_intent_sha256 : Sha256Digest;
  re_portfolio_snapshot_version : Z;
  re_portfolio_snapshot_sha256 : Sha256Digest;
  re_policy_id : RiskPolicyId;
  re_policy_sha256 : Sha256Digest;
  re_risk_state_version : Z;
  re_decision_id : EconomicId;
  re_decision_sha256 : Sha256Digest;
  re_approval_sha256 : option Sha256Digest;
  reason_code : RiskReasonCode;
  decision_next_before : option Z;
  decision_next_after : option Z;
  approval_next_before : option Z;
  approval_next_after : option Z
}.

Definition _REASONS_BY_KIND (k : RiskDecisionKind) : list RiskReasonCode :=
  match k with
  | ALLOW => [WITHIN_LIMITS]
  | RESIZE => [RESIZED_ORDER_LIMIT; RESIZED_POSITION_LIMIT; RESIZED_ORDER_AND_POSITION_LIMITS]
  | REJECT => [HALTED; INSTRUMENT_NOT_CONFIGURED; NO_POSITION_CAPACITY]
  | EVALUATION_FAILED =>
      [STALE_PORTFOLIO_SNAPSHOT; LINEAGE_MISMATCH; ARITHMETIC_FAILURE; APPROVAL_SEQUENCE_EXHAUSTED]
  end.

Definition _require_id (i : EconomicId) (owner : EconomicOwnerKind) (run_id : RunId) : res EconomicId :=
  raise_if negb (bool_decide (owner_kind i = owner)) || negb (bool_decide (id_run_id i = run_id))
    with raise_risk CONFLICTING_ID ;;
  Ok i.
Definition _require_next (v : option Z) : res (option Z) :=
  match v with
  | None => Ok None
  | Some n => raise_if (n <? 1) || (MAX_UINT64 <? n) with raise_risk OUT_OF_RANGE ;; Ok (Some n)
  end.
Definition _require_allocated_transition (before after : option Z) (allocated_id : EconomicId) : res unit :=
  let* before_value := _require_next before in
  let* after_value := _require_next after in
  match before_value with
  | None => Raise (raise_risk CONFLICTING_ID)
  | Some n =>
      raise_if negb (owner_sequence allocated_id =? n) with raise_risk CONFLICTING_ID ;;
      let expected := if n =? MAX_UINT64 then None else Some (n + 1) in
      raise_if negb (bool_decide (after_value = expected)) with raise_risk CONFLICTING_ID ;;
      Ok tt
  end.
Definition _require_unchanged_transition (before after : option Z) : res unit :=
  let* before_value := _require_next before in
  let* after_value := _require_next after in
  raise_if negb (bool_decide (before_value = after_value)) with raise_risk CONFLICTING_ID ;;
  Ok tt.

Definition executable_kind (k : RiskDecisionKind) : bool := bool_decide (k = ALLOW) || bool_decide (k = RESIZE).

Definition _create_risk_evaluation_evidence (decision : RiskDecision) (intent_sha256 : Sha256Digest)
  (portfolio_snapshot_version : Z) (portfolio_snapshot_sha256 : Sha256Digest) (policy : Phase1RiskPolicy)
  (risk_state_version : Z) (reason : RiskReasonCode)
  (decision_before decision_after approval_before approval_after : option Z) : res RiskEvaluationEvidence :=
  raise_if portfolio_snapshot_version <? 0 with raise_risk OUT_OF_RANGE ;;
  raise_if risk_state_version <? 0 with raise_risk OUT_OF_RANGE ;;
  raise_if negb (rd_risk_state_version decision =? risk_state_version) with raise_risk CONFLICTING_ID ;;
  raise_if negb (bool_decide (rd_intent_sha256 decision = intent_sha256)) with raise_risk CONFLICTING_ID ;;
  let* _ := _require_id (rd_decision_id decision) RISK_DECISION (rd_run_id decision) in
  let* _ := _require_allocated_transition decision_before decision_after (rd_decision_id decision) in
  raise_if negb (bool_decide (reason ∈ _REASONS_BY_KIND (rd_kind decision))) with raise_risk CONFLICTING_ID ;;
  let* approval_sha256 :=
    if executable_kind (rd_kind decision) then
      match rd_approval decision with
      | None => Raise (raise_risk CONFLICTING_ID)
      | Some approval =>
          let* _ := _require_allocated_transition approval_before approval_after (ap_approval_id approval) in
          Ok (Some (execution_approval_digest approval))
      end
    else
      let* _ := _require_unchanged_transition approval_before approval_after in
      raise_if negb (absent (rd_approval decision)) with raise_risk CONFLICTING_ID ;;
      Ok None in
  Ok {| re_run_id := rd_run_id decision;
        re_intent_id := rd_intent_id decision;
        re_intent_sha256 := intent_sha256;
        re_portfolio_snapshot_version := portfolio_snapshot_version;
        re_portfolio_snapshot_sha256 := portfolio_snapshot_sha256;
        re_policy_id := policy_id policy;
        re_policy_sha256 := phase1_risk_policy_digest policy;
        re_risk_state_version := risk_state_version;
        re_decision_id := rd_decision_id decision;
        re_decision_sha256 := risk_decision_digest decision;
        re_approval_sha256 := approval_sha256;
        reason_code := reason;
        decision_next_before := decision_before;
        decision_next_after := decision_after;
        approval_next_before := approval_before;
        approval_next_after := approval_after |}.

Definition risk_evidence_document (e : RiskEvaluationEvidence) : json :=
  JDict
    [("approval_next_after", optional_document JInt (approval_next_after e));
     ("approval_next_before", optional_document JInt (approval_next_before e));
     ("approval_sha256", optional_text_document (re_approval_sha256 e));
     ("canonicalization", JStr "ea-risk-evaluation-evidence-v1");
     ("decision_id", _economic_id_document (re_decision_id e));
     ("decision_next_after", optional_document JInt (decision_next_after e));
     ("decision_next_before", optional_document JInt (decision_next_before e));
     ("decision_sha256", JStr (value (re_decision_sha256 e)));
     ("intent_id", _economic_id_document (re_intent_id e));
     ("intent_sha256", JStr (value (re_intent_sha256 e)));
     ("message_type", JStr "risk_evaluation_evidence");
     ("policy_id", JStr (value (re_policy_id e)));
     ("policy_sha256", JStr (value (re_policy_sha256 e)));
     ("portfolio_snapshot_sha256", JStr (value (re_portfolio_snapshot_sha256 e)));
     ("portfolio_snapshot_version", JInt (re_portfolio_snapshot_version e));
     ("reason_code", JStr (reason_value (reason_code e)));
     ("risk_state_version", JInt (re_risk_state_version e));
     ("run_id", JStr (value (re_run_id e)));
     ("schema_version", JInt 1)]%string.
Definition canonical_risk_evaluation_evidence_bytes (e : RiskEvaluationEvidence) : str :=
  encode_json (risk_evidence_document e).
Definition risk_evaluation_evidence_digest (e : RiskEvaluationEvidence) : Sha256Digest :=
  _digest (domain "ea.risk-evaluation-evidence.v1") (canonical_risk_evaluation_evidence_bytes e).

(** ** Results *)

Record RiskEvaluationResult : Type := mkRiskResult {
  result_decision : RiskDecision;
  result_evidence : RiskEvaluationEvidence
}.

Definition _create_risk_evaluation_result (decision : RiskDecision) (evidence : RiskEvaluationEvidence)
  : res RiskEvaluationResult :=
  raise_if negb (bool_decide (re_run_id evidence = rd_run_id decision))
        || negb (bool_decide (re_intent_id evidence = rd_intent_id decision))
        || negb (bool_decide (re_decision_id evidence = rd_decision_id decision))
        || negb (bool_decide (re_decision_sha256 evidence = risk_decision_digest decision))
        || negb (re_risk_state_version evidence =? rd_risk_state_version decision)
    with raise_risk CONFLICTING_ID ;;
  raise_if negb (bool_decide (re_approval_sha256 evidence
                              = execution_approval_digest <$> rd_approval decision))
    with raise_risk CONFLICTING_ID ;;
  Ok (mkRiskResult decision evidence).

Definition create_risk_evaluation_result (decision : RiskDecision) (evidence : RiskEvaluationEvidence)
  : res RiskEvaluationResult := _create_risk_evaluation_result decision evidence.
End Evidence.
