(* ===== verification/OrderAuthority.v ===== *)
(** The Order authority ([execution/authority.py]): the sole owner of Order identities and
    of the consumption of approvals.

    [create_order] rebuilds the intent, the decision and the approval from their canonical
    bytes, re-proves the evidence, the frozen lineage and the policy's truth table, asks
    the risk authority through a port whether it issued the result, and only then numbers
    one Order and indexes it; a submission it has seen is answered with its Order. *)

From S2P Require Import Prelude PyRegex PyText Outcomes Json Identity Economics Commission.
From S2P Require Import Execution Messages Orders Wire Decoders Risk.

Open Scope Z_scope.

Definition _ERROR_CODES : list OutcomeCode :=
  [INVALID_TYPE; NON_FINITE; OUT_OF_RANGE; NOT_QUANTIZED; PRICE_DOMAIN; ARITHMETIC_OVERFLOW; CONFLICTING_ID].
(** [raise ExecutionAuthorityError(code, ...)]. *)
Definition raise_execution (c : OutcomeCode) : exn :=
  if permitted _ERROR_CODES c then ExecutionAuthorityError c else TypeError.

Definition public_code (c : OutcomeCode) : exn :=
  if permitted _ERROR_CODES c then raise_execution c else AssertionError.
(** The [except] clauses of the public operations: [_raise_public] and the carriers that
    are structurally incomplete. *)
Definition _raise_public (e : exn) : exn :=
  match e with
  | EconomicValidationError c | ExecutionIdentityError c | ExecutionMessageError c | RiskContractError c =>
      public_code c
  | RunContractError | TimeValidationError => raise_execution OUT_OF_RANGE
  | TypeError => raise_execution INVALID_TYPE
  | e => e
  end.
Definition public {A} (m : res A) : res A :=
  match m with Ok a => Ok a | Raise e => Raise (_raise_public e) end.

Definition _EXECUTABLE_REASONS (k : RiskDecisionKind) : option (list RiskReasonCode) :=
  match k with
  | ALLOW => Some [WITHIN_LIMITS]
  | RESIZE => Some [RESIZED_ORDER_LIMIT; RESIZED_POSITION_LIMIT; RESIZED_ORDER_AND_POSITION_LIMITS]
  | _ => None
  end.

(** [RiskResultIssuanceVerifier]: what the authority may ask of Risk. *)
Class RiskResultIssuanceVerifier : Type := {
  verifier_run_id : RunId;
  verifier_spec_set : InstrumentExecutionSpecSet;
  verifier_execution_policy : ExecutionPolicyRef;
  verifier_policy : Phase1RiskPolicy;
  verifier_has_issued_result : EconomicId -> str -> str -> str -> bool
}.

(** ** State *)

Record _SubmittedInput : Type := mkSubmittedInput {
  sb_intent : OrderIntent;
  sb_decision : RiskDecision;
  sb_evidence : RiskEvaluationEvidence;
  sb_approval : option ExecutionApproval;
  sb_intent_bytes : str;
  sb_decision_bytes : str;
  sb_evidence_bytes : str;
  sb_approval_bytes : option str
}.
Record _OrderRecord : Type := mkOrderRecord {
  or_intent_bytes : str;
  or_decision_bytes : str;
  or_evidence_bytes : str;
  or_order : Order;
  or_order_bytes : str;
  or_order_sha256 : Sha256Digest;
  or_execution_request_bytes : str;
  or_execution_request_sha256 : Sha256Digest;
  or_client_submission_key : Sha256Digest
}.
#[export] Instance OrderRecord_eq_dec : EqDecision _OrderRecord.
Proof. solve_decision. Defined.

Record _OrderAuthorityState : Type := mkOrderAuthorityState {
  order_next : option Z;
  approval_index : gmap EconomicId _OrderRecord;
  intent_index : gmap EconomicId _OrderRecord;
  decision_index : gmap EconomicId _OrderRecord;
  order_id_index : gmap EconomicId _OrderRecord;
  client_submission_key_index : gmap Sha256Digest _OrderRecord;
  oa_orders : list Order
}.
(** What the authority is bound to when it is created. *)
Record OrderAuthorityContext : Type := mkOrderContext {
  oa_run_id : RunId;
  oa_spec_set : InstrumentExecutionSpecSet;
  oa_spec_set_sha256 : Sha256Digest;
  oa_execution_policy : ExecutionPolicyRef;
  oa_risk_policy : Phase1RiskPolicy;
  oa_risk_policy_sha256 : Sha256Digest
}.

Definition _advance (v : Z) : res (option Z) :=
  raise_if (v <? 1) || (MAX_UINT64 <? v) with AssertionError ;;
  Ok (if v =? MAX_UINT64 then None else Some (v + 1)).

(** [a <= b] as [functools.total_ordering] defines it. *)
Definition decimal_le (a b : CanonicalDecimal) : res bool :=
  let* lt := decimal_lt a b in Ok (lt || bool_decide (a = b)).

Section Authority.
Context `{hash : Sha256}.

(** ** The submitted input *)

(** The profile checks on the intent and the decision hold of every value of their types:
    one order kind, one time in force, no price constraint, times in UTC. *)
Definition _materialize_submitted_input (intent : OrderIntent) (result : RiskEvaluationResult)
  : _SubmittedInput :=
  let decision := result_decision result in
  let proof := result_evidence result in
  let approval := rd_approval decision in
  {| sb_intent := intent;
     sb_decision := decision;
     sb_evidence := proof;
     sb_approval := approval;
     sb_intent_bytes := canonical_order_intent_bytes intent;
     sb_decision_bytes := canonical_risk_decision_bytes decision;
     sb_evidence_bytes := canonical_risk_evaluation_evidence_bytes proof;
     sb_approval_bytes := canonical_execution_approval_bytes <$> approval |}.

(** Two records are the same object exactly when they are equal: each carries an Order
    identity of its own. *)
Definition _classify_replay (st : _OrderAuthorityState) (submitted : _SubmittedInput) : res (option Order) :=
  let approval_record := sb_approval submitted ≫= fun a => approval_index st !! ap_approval_id a in
  let intent_record := intent_index st !! oi_intent_id (sb_intent submitted) in
  let decision_record := decision_index st !! rd_decision_id (sb_decision submitted) in
  match approval_record, intent_record, decision_record with
  | None, None, None => Ok None
  | Some record, Some record', Some record'' =>
      if bool_decide (record = record') && bool_decide (record = record'')
         && bool_decide (or_intent_bytes record = sb_intent_bytes submitted)
         && bool_decide (or_decision_bytes record = sb_decision_bytes submitted)
         && bool_decide (or_evidence_bytes record = sb_evidence_bytes submitted)
      then Ok (Some (or_order record))
      else Raise (raise_execution CONFLICTING_ID)
  | _, _, _ => Raise (raise_execution CONFLICTING_ID)
  end.

(** ** The evidence *)

Definition _require_evidence_types (e : RiskEvaluationEvidence) : res unit :=
  raise_if absent (re_approval_sha256 e) with raise_execution INVALID_TYPE ;;
  let* _ := EconomicId_init (id_run_id (re_intent_id e)) (owner_kind (re_intent_id e))
              (owner_sequence (re_intent_id e)) in
  let* _ := EconomicId_init (id_run_id (re_decision_id e)) (owner_kind (re_decision_id e))
              (owner_sequence (re_decision_id e)) in
  raise_if re_portfolio_snapshot_version e <? 0 with raise_execution OUT_OF_RANGE ;;
  raise_if re_risk_state_version e <? 0 with raise_execution OUT_OF_RANGE ;;
  Ok tt.

Definition _require_allocated_transition (before after : option Z) (allocated_id : EconomicId) : res unit :=
  match before with
  | None => Raise (raise_execution OUT_OF_RANGE)
  | Some n =>
      let sequence := owner_sequence allocated_id in
      raise_if (n <? 1) || (MAX_UINT64 <? n) || (sequence <? 1) || (MAX_UINT64 <? sequence)
        with raise_execution OUT_OF_RANGE ;;
      raise_if negb (n =? sequence) with raise_execution CONFLICTING_ID ;;
      let expected_after := if n =? MAX_UINT64 then None else Some (n + 1) in
      raise_if negb (bool_decide (after = expected_after)) with raise_execution OUT_OF_RANGE ;;
      Ok tt
  end.

Definition evidence_binds (e : RiskEvaluationEvidence) (intent : OrderIntent) (decision : RiskDecision)
  (approval : ExecutionApproval) (risk_policy : Phase1RiskPolicy) (risk_policy_sha256 : Sha256Digest) : bool :=
  bool_decide (re_run_id e = oi_run_id intent)
  && bool_decide (re_intent_id e = oi_intent_id intent)
  && bool_decide (re_intent_sha256 e = order_intent_digest intent)
  && (re_portfolio_snapshot_version e =? oi_portfolio_snapshot_version intent)
  && (re_portfolio_snapshot_version e =? rd_portfolio_snapshot_version decision)
  && bool_decide (re_policy_id e = policy_id risk_policy)
  && bool_decide (re_policy_sha256 e = risk_policy_sha256)
  && (re_risk_state_version e =? rd_risk_state_version decision)
  && bool_decide (re_decision_id e = rd_decision_id decision)
  && bool_decide (re_decision_sha256 e = risk_decision_digest decision)
  && bool_decide (re_approval_sha256 e = Some (execution_approval_digest approval)).

Definition _require_evidence (e : RiskEvaluationEvidence) (intent : OrderIntent) (decision : RiskDecision)
  (approval : ExecutionApproval) (risk_policy : Phase1RiskPolicy) (risk_policy_sha256 : Sha256Digest) : res unit :=
  let* _ := _require_evidence_types e in
  let* _ := _require_allocated_transition (decision_next_before e) (decision_next_after e)
              (rd_decision_id decision) in
  let* _ := _require_allocated_transition (approval_next_before e) (approval_next_after e)
              (ap_approval_id approval) in
  raise_if match _EXECUTABLE_REASONS (rd_kind decision) with
           | None => true
           | Some reasons => negb (bool_decide (reason_code e ∈ reasons))
           end with raise_execution CONFLICTING_ID ;;
  raise_if negb (evidence_binds e intent decision approval risk_policy risk_policy_sha256)
    with raise_execution CONFLICTING_ID ;;
  Ok tt.

(** ** The frozen lineage and the policy *)

Definition _require_frozen_lineage (context : OrderAuthorityContext) (intent : OrderIntent)
  (e : RiskEvaluationEvidence) : res unit :=
  let current_spec_sha256 := instrument_spec_set_digest (oa_spec_set context) in
  let current_risk_sha256 := phase1_risk_policy_digest (oa_risk_policy context) in
  raise_if negb (bool_decide (oi_run_id intent = oa_run_id context))
        || negb (bool_decide (oi_spec_set_id intent = spec_set_identifier (oa_spec_set context)))
        || negb (bool_decide (oi_spec_set_sha256 intent = oa_spec_set_sha256 context))
        || negb (bool_decide (current_spec_sha256 = oa_spec_set_sha256 context))
        || negb (bool_decide (oi_execution_policy intent = oa_execution_policy context))
        || negb (bool_decide (re_policy_id e = policy_id (oa_risk_policy context)))
        || negb (bool_decide (re_policy_sha256 e = oa_risk_policy_sha256 context))
        || negb (bool_decide (current_risk_sha256 = oa_risk_policy_sha256 context))
        || negb (bool_decide (policy_spec_set_id (oa_risk_policy context)
                              = spec_set_identifier (oa_spec_set context)))
        || negb (bool_decide (policy_spec_set_sha256 (oa_risk_policy context) = oa_spec_set_sha256 context))
        || negb (bool_decide (policy_execution_policy (oa_risk_policy context) = oa_execution_policy context))
    with raise_execution CONFLICTING_ID ;;
  Ok tt.

Fixpoint find_limit (limits : list InstrumentRiskLimit) (i : Instrument) : option InstrumentRiskLimit :=
  match limits with
  | [] => None
  | l :: limits => if bool_decide (limit_instrument l = i) then Some l else find_limit limits i
  end.
Definition _instrument_limit (risk_policy : Phase1RiskPolicy) (intent : OrderIntent)
  : option InstrumentRiskLimit := find_limit (instrument_limits risk_policy) (oi_instrument intent).

(** The truth table of an executable result. *)
Definition policy_valid (kind : RiskDecisionKind) (reason : RiskReasonCode)
  (requested approved maximum : CanonicalDecimal) : res bool :=
  match kind with
  | ALLOW =>
      let* fits := decimal_le requested maximum in
      Ok (bool_decide (reason = WITHIN_LIMITS) && bool_decide (approved = requested) && fits)
  | RESIZE =>
      let* positive := decimal_lt CANONICAL_0 approved in
      let* smaller := decimal_lt approved requested in
      let reduced := positive && smaller in
      let* above := decimal_gt requested maximum in
      let* below := decimal_lt approved maximum in
      Ok match reason with
         | RESIZED_ORDER_LIMIT => reduced && above && bool_decide (approved = maximum)
         | RESIZED_POSITION_LIMIT => reduced && below
         | RESIZED_ORDER_AND_POSITION_LIMITS => reduced && above && bool_decide (approved = maximum)
         | _ => false
         end
  | _ => Ok false
  end.
Definition _require_static_policy_proof (intent : OrderIntent) (decision : RiskDecision)
  (e : RiskEvaluationEvidence) (approval : ExecutionApproval) (risk_policy : Phase1RiskPolicy) : res unit :=
  match _instrument_limit risk_policy intent with
  | None => Raise (raise_execution CONFLICTING_ID)
  | Some limit =>
      let* valid := policy_valid (rd_kind decision) (reason_code e) (oi_quantity intent)
                      (ap_approved_quantity approval) (maximum_order_quantity limit) in
      raise_if negb valid with raise_execution CONFLICTING_ID ;;
      Ok tt
  end.

Definition _require_issued_result `{RiskResultIssuanceVerifier} (submitted : _SubmittedInput) : res unit :=
  raise_if negb (verifier_has_issued_result (oi_intent_id (sb_intent submitted)) (sb_intent_bytes submitted)
                   (sb_decision_bytes submitted) (sb_evidence_bytes submitted))
    with raise_execution CONFLICTING_ID ;;
  Ok tt.

(** ** Creating an Order *)

Definition _make_record (submitted : _SubmittedInput) (order : Order) : _OrderRecord :=
  {| or_intent_bytes := sb_intent_bytes submitted;
     or_decision_bytes := sb_decision_bytes submitted;
     or_evidence_bytes := sb_evidence_bytes submitted;
     or_order := order;
     or_order_bytes := canonical_order_bytes order;
     or_order_sha256 := order_digest order;
     or_execution_request_bytes := canonical_execution_request_bytes order;
     or_execution_request_sha256 := execution_request_digest order;
     or_client_submission_key := order_client_submission_key order |}.

(** The state a new record leaves. *)
Definition published_order (st : _OrderAuthorityState) (order_after : option Z)
  (approval_id intent_id decision_id : EconomicId) (record : _OrderRecord) : _OrderAuthorityState :=
  {| order_next := order_after;
     approval_index := <[approval_id := record]> (approval_index st);
     intent_index := <[intent_id := record]> (intent_index st);
     decision_index := <[decision_id := record]> (decision_index st);
     order_id_index := <[od_order_id (or_order record) := record]> (order_id_index st);
     client_submission_key_index := <[or_client_submission_key record := record]> (client_submission_key_index st);
     oa_orders := oa_orders st ++ [or_order record] |}.

(** The intent, the decision and the approval rebuilt from the submitted bytes. *)
Definition reconstruct (context : OrderAuthorityContext) (submitted : _SubmittedInput)
  : res (OrderIntent * RiskDecision * ExecutionApproval) :=
  let* intent := decode_order_intent (sb_intent_bytes submitted) (oa_spec_set context)
                   (oi_target_lineage (sb_intent submitted)) (oi_execution_policy (sb_intent submitted)) in
  raise_if negb (bool_decide (intent = sb_intent submitted)) with raise_execution CONFLICTING_ID ;;
  let* decision := decode_risk_decision (sb_decision_bytes submitted) intent (oa_spec_set context) in
  match rd_approval decision, sb_approval submitted, sb_approval_bytes submitted with
  | Some _, Some submitted_approval, Some approval_bytes =>
      raise_if negb (executable_kind (rd_kind decision)) with raise_execution CONFLICTING_ID ;;
      let* approval := decode_execution_approval approval_bytes intent decision in
      raise_if negb (bool_decide (decision = sb_decision submitted))
            || negb (bool_decide (approval = submitted_approval))
        with raise_execution CONFLICTING_ID ;;
      Ok (intent, decision, approval)
  | _, _, _ => Raise (raise_execution CONFLICTING_ID)
  end.

(** [create_order] on a submission that is new. *)
Definition create_new_order `{RiskResultIssuanceVerifier} (context : OrderAuthorityContext)
  (st : _OrderAuthorityState) (submitted : _SubmittedInput) : res (Order * _OrderAuthorityState) :=
  let* rebuilt := reconstruct context submitted in
  let '(intent, decision, approval) := rebuilt in
  let* _ := _require_evidence (sb_evidence submitted) intent decision approval (oa_risk_policy context)
              (oa_risk_policy_sha256 context) in
  let* _ := _require_frozen_lineage context intent (sb_evidence submitted) in
  let* _ := _require_static_policy_proof intent decision (sb_evidence submitted) approval (oa_risk_policy context) in
  let* _ := _require_issued_result submitted in
  match order_next st with
  | None => Raise (raise_execution OUT_OF_RANGE)
  | Some order_before =>
      let* order_after := _advance order_before in
      let* order_id := EconomicId_init (oa_run_id context) EXECUTION_ORDER order_before in
      let* order := Orders.create_order order_id intent decision (oa_spec_set context) in
      Ok (order, published_order st order_after (ap_approval_id approval) (oi_intent_id intent)
                   (rd_decision_id decision) (_make_record submitted order))
  end.

Definition create_order `{RiskResultIssuanceVerifier} (context : OrderAuthorityContext)
  (st : _OrderAuthorityState) (intent : OrderIntent) (result : RiskEvaluationResult)
  : res (Order * _OrderAuthorityState) :=
  public (
    let submitted := _materialize_submitted_input intent result in
    let* replay := _classify_replay st submitted in
    match replay with
    | Some order => Ok (order, st)
    | None => create_new_order context st submitted
    end).

(** ** Reading the state *)

Definition resolve_issued_order_by_id (st : _OrderAuthorityState) (i : EconomicId) : option Order :=
  or_order <$> order_id_index st !! i.
Definition resolve_issued_order_by_client_submission_key (st : _OrderAuthorityState) (k : Sha256Digest)
  : option Order := or_order <$> client_submission_key_index st !! k.

(** ** Creation *)

Definition _require_verifier_binding `{RiskResultIssuanceVerifier} (run_id : RunId)
  (spec_set : InstrumentExecutionSpecSet) (spec_set_sha256 : Sha256Digest)
  (execution_policy : ExecutionPolicyRef) (risk_policy : Phase1RiskPolicy) (risk_policy_sha256 : Sha256Digest)
  : res unit :=
  raise_if negb (bool_decide (verifier_run_id = run_id))
        || negb (bool_decide (spec_set_identifier verifier_spec_set = spec_set_identifier spec_set))
        || negb (bool_decide (instrument_spec_set_digest verifier_spec_set = spec_set_sha256))
        || negb (bool_decide (verifier_execution_policy = execution_policy))
        || negb (bool_decide (policy_id verifier_policy = policy_id risk_policy))
        || negb (bool_decide (phase1_risk_policy_digest verifier_policy = risk_policy_sha256))
    with raise_execution CONFLICTING_ID ;;
  Ok tt.

Definition empty_order_state : _OrderAuthorityState :=
  {| order_next := Some 1; approval_index := ∅; intent_index := ∅; decision_index := ∅; order_id_index := ∅;
     client_submission_key_index := ∅; oa_orders := [] |}.

Definition create_phase1_order_authority `{RiskResultIssuanceVerifier} (run_id : RunId)
  (spec_set : InstrumentExecutionSpecSet) (execution_policy : ExecutionPolicyRef) (risk_policy : Phase1RiskPolicy)
  : res (OrderAuthorityContext * _OrderAuthorityState) :=
  public (
    let spec_set_sha256 := instrument_spec_set_digest spec_set in
    let risk_policy_sha256 := phase1_risk_policy_digest risk_policy in
    raise_if negb (bool_decide (policy_spec_set_id risk_policy = spec_set_identifier spec_set))
          || negb (bool_decide (policy_spec_set_sha256 risk_policy = spec_set_sha256))
          || negb (bool_decide (policy_execution_policy risk_policy = execution_policy))
      with raise_execution CONFLICTING_ID ;;
    let* _ := _require_verifier_binding run_id spec_set spec_set_sha256 execution_policy risk_policy
                risk_policy_sha256 in
    Ok ({| oa_run_id := run_id;
           oa_spec_set := spec_set;
           oa_spec_set_sha256 := spec_set_sha256;
           oa_execution_policy := execution_policy;
           oa_risk_policy := risk_policy;
           oa_risk_policy_sha256 := risk_policy_sha256 |}, empty_order_state)).
End Authority.
