(* ===== verification/ExecutionState.v ===== *)
(** Order projections and fact-processing outcomes ([core/execution_state.py]): the
    snapshot of an Order as the observed facts show it, the outcome of processing one
    ingress, their checks, canonical documents and digests. *)

From S2P Require Import Prelude PyRegex PyText Outcomes Json Identity Economics Commission.
From S2P Require Import Execution Messages Orders.

Open Scope Z_scope.

Definition STATE_ERROR_CODES : list OutcomeCode := [INVALID_TYPE; OUT_OF_RANGE; CONFLICTING_ID].
(** [_fail]. *)
Definition raise_state (c : OutcomeCode) : exn :=
  if permitted STATE_ERROR_CODES c then ExecutionStateError c else TypeError.

(** ** Closed vocabularies *)

Inductive OrderProjectionState : Type :=
| SUBMITTED | ACKNOWLEDGED | REJECTED | PARTIALLY_FILLED | FILLED | EXPIRED | CANCELLED
| DEFINITELY_NOT_SUBMITTED.
Definition projection_state_value (s : OrderProjectionState) : string :=
  match s with
  | SUBMITTED => "submitted" | ACKNOWLEDGED => "acknowledged" | REJECTED => "rejected"
  | PARTIALLY_FILLED => "partially_filled" | FILLED => "filled" | EXPIRED => "expired"
  | CANCELLED => "cancelled" | DEFINITELY_NOT_SUBMITTED => "definitely_not_submitted"
  end.

Inductive ExecutionFactAction : Type := ACCEPTED | DUPLICATE | CONFLICT | INVALID | UNRESOLVED.
Definition action_value (a : ExecutionFactAction) : string :=
  match a with
  | ACCEPTED => "accepted" | DUPLICATE => "duplicate" | CONFLICT => "conflict" | INVALID => "invalid"
  | UNRESOLVED => "unresolved"
  end.

Inductive ExecutionFactAnomaly : Type :=
| CONTEXT_INVALID | ORDER_BINDING_CONFLICT | UNKNOWN_ORDER | MISSING_ANCESTRY
| INSUFFICIENT_PROJECTION_EVIDENCE | CONFIRMED_FILL_WITHOUT_TRADE | OVERFILL | LATE_AFTER_TERMINAL
| PROJECTION_TRANSITION_CONFLICT | TERMINAL_STATE_CONFLICT.
Definition anomaly_value (a : ExecutionFactAnomaly) : string :=
  match a with
  | CONTEXT_INVALID => "context_invalid" | ORDER_BINDING_CONFLICT => "order_binding_conflict"
  | UNKNOWN_ORDER => "unknown_order" | MISSING_ANCESTRY => "missing_ancestry"
  | INSUFFICIENT_PROJECTION_EVIDENCE => "insufficient_projection_evidence"
  | CONFIRMED_FILL_WITHOUT_TRADE => "confirmed_fill_without_trade"
  | OVERFILL => "overfill" | LATE_AFTER_TERMINAL => "late_after_terminal"
  | PROJECTION_TRANSITION_CONFLICT => "projection_transition_conflict"
  | TERMINAL_STATE_CONFLICT => "terminal_state_conflict"
  end.
Definition EXECUTION_FACT_ANOMALY_RANKS (a : ExecutionFactAnomaly) : Z :=
  match a with
  | CONTEXT_INVALID => 0 | ORDER_BINDING_CONFLICT => 10 | UNKNOWN_ORDER => 20 | MISSING_ANCESTRY => 30
  | INSUFFICIENT_PROJECTION_EVIDENCE => 40 | CONFIRMED_FILL_WITHOUT_TRADE => 50 | OVERFILL => 60
  | LATE_AFTER_TERMINAL => 70 | PROJECTION_TRANSITION_CONFLICT => 80 | TERMINAL_STATE_CONFLICT => 90
  end.

Inductive OrderResolutionKeyKind : Type := KEY_ORDER_ID | KEY_CLIENT_SUBMISSION_KEY | KEY_VENUE_ORDER_ID.
Definition key_kind_value (k : OrderResolutionKeyKind) : string :=
  match k with
  | KEY_ORDER_ID => "order_id" | KEY_CLIENT_SUBMISSION_KEY => "client_submission_key"
  | KEY_VENUE_ORDER_ID => "venue_order_id"
  end.
Definition _ORDER_RESOLUTION_RANKS (k : OrderResolutionKeyKind) : Z :=
  match k with KEY_ORDER_ID => 0 | KEY_CLIENT_SUBMISSION_KEY => 10 | KEY_VENUE_ORDER_ID => 20 end.

Definition _ACTION_OUTCOME (a : ExecutionFactAction) : OutcomeCode :=
  match a with
  | ACCEPTED => FACT_ACCEPTED | DUPLICATE => FACT_DUPLICATE | CONFLICT => FACT_CONFLICT
  | INVALID => FACT_INVALID | UNRESOLVED => FACT_UNRESOLVED
  end.

#[export] Instance OrderProjectionState_eq_dec : EqDecision OrderProjectionState.
Proof. solve_decision. Defined.
#[export] Instance ExecutionFactAction_eq_dec : EqDecision ExecutionFactAction.
Proof. solve_decision. Defined.
#[export] Instance ExecutionFactAnomaly_eq_dec : EqDecision ExecutionFactAnomaly.
Proof. solve_decision. Defined.
#[export] Instance OrderResolutionKeyKind_eq_dec : EqDecision OrderResolutionKeyKind.
Proof. solve_decision. Defined.

Definition _TERMINAL_PROJECTION_STATES : list OrderProjectionState :=
  [FILLED; REJECTED; EXPIRED; CANCELLED; DEFINITELY_NOT_SUBMITTED].

(** ** Values *)

Record OrderProjectionSnapshot : Type := mkProjection {
  pj_run_id : RunId;
  pj_order_id : EconomicId;
  pj_order_sha256 : Sha256Digest;
  pj_client_submission_key : Sha256Digest;
  projection_version : Z;
  projection_state : OrderProjectionState;
  projected_executed_quantity : CanonicalDecimal;
  pj_venue_source_namespace : option SourceNamespace;
  pj_venue_order_id : option VenueOrderId;
  pj_last_fact_key : FactDedupKey;
  pj_last_fact_sha256 : Sha256Digest
}.

Definition is_terminal (p : OrderProjectionSnapshot) : bool :=
  bool_decide (projection_state p ∈ _TERMINAL_PROJECTION_STATES).

Record OrderResolutionBinding : Type := mkResolutionBinding {
  key_kind : OrderResolutionKeyKind;
  rb_resolved_order_id : option EconomicId
}.

Record ExecutionFactProcessingOutcome : Type := mkProcessingOutcome {
  po_run_id : RunId;
  po_dispatch_sequence : Z;
  po_ingress_identity : IngressIdentity;
  po_ingress_sha256 : Sha256Digest;
  po_fact_key : FactDedupKey;
  po_fact_sha256 : Sha256Digest;
  po_action : ExecutionFactAction;
  po_anomalies : list ExecutionFactAnomaly;
  po_outcome_code : OutcomeCode;
  po_reported_order_id : option EconomicId;
  po_client_submission_key : option Sha256Digest;
  po_reported_venue_source_namespace : option SourceNamespace;
  po_reported_venue_order_id : option VenueOrderId;
  po_order_resolutions : list OrderResolutionBinding;
  po_resolved_order_id : option EconomicId;
  po_fill_id : option EconomicId;
  po_fill_sha256 : option Sha256Digest;
  po_projection_before_sha256 : option Sha256Digest;
  po_projection_after_sha256 : option Sha256Digest;
  po_requires_reconciliation : bool;
  po_halt_requested : bool
}.

(** ** Error translation *)

(** [_raise_public]: the code of a validation error, folded to the closed codes.
    [RunContractError] carries no code. *)
Definition public_code (c : OutcomeCode) : OutcomeCode :=
  if bool_decide (c = INVALID_TYPE) then INVALID_TYPE
  else if bool_decide (c ∈ [OUT_OF_RANGE; NOT_QUANTIZED; PRICE_DOMAIN; ARITHMETIC_OVERFLOW; NON_FINITE])
  then OUT_OF_RANGE else CONFLICTING_ID.
Definition _raise_public (e : exn) : exn :=
  match e with
  | EconomicValidationError c | ExecutionIdentityError c | ExecutionMessageError c =>
      raise_state (public_code c)
  | RunContractError => AssertionError
  | _ => e
  end.
Definition state_boundary {A} (m : res A) : res A :=
  match m with Ok a => Ok a | Raise e => Raise (_raise_public e) end.

(** ** Projection snapshots *)

Definition _require_venue_pair (source : option SourceNamespace) (venue : option VenueOrderId) : res unit :=
  raise_if negb (Bool.eqb (bool_decide (source = None)) (bool_decide (venue = None)))
    with raise_state CONFLICTING_ID ;; Ok tt.

(** The quantity each projection state allows. *)
Definition projection_quantity_checked (s : OrderProjectionState) (q order_quantity : CanonicalDecimal)
  : res unit :=
  let* negative := decimal_lt q CANONICAL_0 in
  let* exceeds := if negative then Ok true else decimal_gt q order_quantity in
  raise_if exceeds with raise_state OUT_OF_RANGE ;;
  let* partial_ :=
    if bool_decide (s = PARTIALLY_FILLED) then
      let* positive := decimal_lt CANONICAL_0 q in
      if positive then decimal_lt q order_quantity else Ok false
    else Ok true in
  raise_if negb partial_ with raise_state OUT_OF_RANGE ;;
  raise_if bool_decide (s = FILLED) && negb (bool_decide (q = order_quantity))
    with raise_state OUT_OF_RANGE ;;
  raise_if bool_decide (s ∈ [SUBMITTED; ACKNOWLEDGED; REJECTED; DEFINITELY_NOT_SUBMITTED])
           && negb (bool_decide (q = CANONICAL_0)) with raise_state OUT_OF_RANGE ;;
  let* full :=
    if bool_decide (s ∈ [EXPIRED; CANCELLED]) then decimal_ge q order_quantity else Ok false in
  raise_if full with raise_state OUT_OF_RANGE ;; Ok tt.

Section Values.
Context `{hash : Sha256}.

Definition create_order_projection_snapshot (order : Order) (spec_set : InstrumentExecutionSpecSet)
  (version : Z) (state : OrderProjectionState) (quantity : CanonicalDecimal)
  (venue_source : option SourceNamespace) (venue_order_id : option VenueOrderId)
  (last_fact_key : FactDedupKey) (last_fact_sha256 : Sha256Digest) : res OrderProjectionSnapshot :=
  state_boundary (
    raise_if negb (bool_decide (od_spec_set_id order = spec_set_identifier spec_set))
          || negb (bool_decide (od_spec_set_sha256 order = instrument_spec_set_digest spec_set))
      with raise_state CONFLICTING_ID ;;
    raise_if negb ((1 <=? version) && (version <=? MAX_UINT64)) with raise_state OUT_OF_RANGE ;;
    let* specification := require_spec spec_set (od_instrument order) in
    let* _ := require_quantized quantity (quantity_quantum specification) in
    let* _ := projection_quantity_checked state quantity (od_quantity order) in
    let* _ := _require_venue_pair venue_source venue_order_id in
    Ok {| pj_run_id := od_run_id order;
          pj_order_id := od_order_id order;
          pj_order_sha256 := order_digest order;
          pj_client_submission_key := order_client_submission_key order;
          projection_version := version;
          projection_state := state;
          projected_executed_quantity := quantity;
          pj_venue_source_namespace := venue_source;
          pj_venue_order_id := venue_order_id;
          pj_last_fact_key := last_fact_key;
          pj_last_fact_sha256 := last_fact_sha256 |}).

Definition create_order_resolution_binding (kind : OrderResolutionKeyKind) (resolved_order : option Order)
  : OrderResolutionBinding :=
  mkResolutionBinding kind (od_order_id <$> resolved_order).

(** ** Documents *)

Definition _fact_key_document (k : FactDedupKey) : json :=
  JDict [("dedup_identity", _dedup_document (key_identity k));
         ("source_namespace", JStr (value (key_source k)))]%string.
Definition _ingress_identity_document (i : IngressIdentity) : json :=
  JDict [("ingress_sequence", JInt (ingress_sequence i));
         ("source_namespace", JStr (value (ingress_source i)))]%string.
Definition _venue_document (source : option SourceNamespace) (venue : option VenueOrderId) : json :=
  match source, venue with
  | Some s, Some v =>
      JDict [("source_namespace", JStr (value s)); ("venue_order_id", JStr (value v))]%string
  | _, _ => JNull
  end.

Definition _projection_document (p : OrderProjectionSnapshot) : json :=
  JDict
    [("canonicalization", JStr "ea-order-projection-snapshot-v1");
     ("client_submission_key", JStr (value (pj_client_submission_key p)));
     ("last_fact_key", _fact_key_document (pj_last_fact_key p));
     ("last_fact_sha256", JStr (value (pj_last_fact_sha256 p)));
     ("message_type", JStr "order_projection_snapshot");
     ("order_id", _economic_id_document (pj_order_id p));
     ("order_sha256", JStr (value (pj_order_sha256 p)));
     ("projected_executed_quantity", JStr (text (projected_executed_quantity p)));
     ("projection_state", JStr (projection_state_value (projection_state p)));
     ("projection_version", JInt (projection_version p));
     ("run_id", JStr (value (pj_run_id p)));
     ("schema_version", JInt 1);
     ("venue_order", _venue_document (pj_venue_source_namespace p) (pj_venue_order_id p))]%string.
Definition canonical_order_projection_snapshot_bytes (p : OrderProjectionSnapshot) : str :=
  encode_json (_projection_document p).
Definition order_projection_snapshot_digest (p : OrderProjectionSnapshot) : Sha256Digest :=
  _digest (domain "ea.execution-order-projection.v1") (canonical_order_projection_snapshot_bytes p).

Definition _binding_document (b : OrderResolutionBinding) : json :=
  JDict [("key_kind", JStr (key_kind_value (key_kind b)));
         ("resolved_order_id", _optional_id_document (rb_resolved_order_id b))]%string.

(** ** Processing outcomes *)

(** [ranks != tuple(sorted(set(ranks)))]: strictly ascending. *)
Definition strictly_ascending (ranks : list Z) : bool :=
  bool_decide (ranks = py_sorted id (remove_dups ranks)).

(** The closed matrix of [_require_action_anomalies]. *)
Definition action_allows (action : ExecutionFactAction) (anomalies : list ExecutionFactAnomaly) : bool :=
  match action with
  | ACCEPTED | DUPLICATE | CONFLICT => bool_decide (anomalies = [])
  | INVALID => bool_decide (anomalies = [CONTEXT_INVALID])
  | UNRESOLVED => negb (bool_decide (anomalies = [])) && negb (bool_decide (CONTEXT_INVALID ∈ anomalies))
  end.
Definition _require_action_anomalies (action : ExecutionFactAction) (anomalies : list ExecutionFactAnomaly)
  : res unit :=
  raise_if negb (strictly_ascending (map EXECUTION_FACT_ANOMALY_RANKS anomalies))
    with raise_state CONFLICTING_ID ;;
  raise_if negb (action_allows action anomalies) with raise_state CONFLICTING_ID ;;
  Ok tt.

(** [action in (DUPLICATE, CONFLICT, INVALID)]. *)
Definition short_circuit (a : ExecutionFactAction) : bool :=
  match a with DUPLICATE | CONFLICT | INVALID => true | ACCEPTED | UNRESOLVED => false end.

(** The correlation keys a fact presents, in canonical order. *)
Definition presented_keys (f : ExecutionFact) : list OrderResolutionKeyKind :=
  (if bool_decide (fact_order_id f = None) then [] else [KEY_ORDER_ID])
  ++ (if bool_decide (fact_client_submission_key f = None) then [] else [KEY_CLIENT_SUBMISSION_KEY])
  ++ (if bool_decide (fact_venue_order_id f = None) then [] else [KEY_VENUE_ORDER_ID]).

Definition _require_resolution_tuple (ingress : ExecutionFactIngress) (action : ExecutionFactAction)
  (bindings : list OrderResolutionBinding) : res unit :=
  raise_if negb (strictly_ascending (map (fun b => _ORDER_RESOLUTION_RANKS (key_kind b)) bindings))
    with raise_state CONFLICTING_ID ;;
  if short_circuit action then
    raise_if negb (bool_decide (bindings = [])) with raise_state CONFLICTING_ID ;; Ok tt
  else
    raise_if negb (bool_decide (map key_kind bindings = presented_keys (ingress_fact ingress)))
      with raise_state CONFLICTING_ID ;; Ok tt.

Definition _derived_selected_order_id (bindings : list OrderResolutionBinding) : option EconomicId :=
  match remove_dups (omap rb_resolved_order_id bindings) with
  | [i] => Some i
  | _ => None
  end.

(** [requires_fill]. *)
Definition requires_fill (ingress : ExecutionFactIngress) (action : ExecutionFactAction) : bool :=
  match fact_kind (ingress_fact ingress), fact_payload (ingress_fact ingress) with
  | TRADE, TradePayload _ => negb (short_circuit action)
  | _, _ => false
  end.
Definition _require_fill_context (run_id : RunId) (ingress : ExecutionFactIngress)
  (action : ExecutionFactAction) (fill : option Fill) : res unit :=
  raise_if negb (Bool.eqb (negb (bool_decide (fill = None))) (requires_fill ingress action))
    with raise_state CONFLICTING_ID ;;
  match fill with
  | None => Ok tt
  | Some fill =>
      raise_if short_circuit action with raise_state CONFLICTING_ID ;;
      raise_if negb (bool_decide (fill_run_id fill = run_id))
            || negb (bool_decide (fill_fact_key fill = fact_dedup_key (ingress_fact ingress)))
            || negb (bool_decide (fill_fact_sha256 fill = execution_fact_digest (ingress_fact ingress)))
        with raise_state CONFLICTING_ID ;; Ok tt
  end.

(** The snapshot belongs to the order of the run. *)
Definition projection_of (run_id : RunId) (order : Order) (p : OrderProjectionSnapshot) : bool :=
  bool_decide (pj_run_id p = run_id)
  && bool_decide (pj_order_id p = od_order_id order)
  && bool_decide (pj_order_sha256 p = order_digest order)
  && bool_decide (pj_client_submission_key p = order_client_submission_key order).
Definition _require_projection_context (run_id : RunId) (resolved_order : option Order)
  (before after : option OrderProjectionSnapshot) : res unit :=
  match resolved_order with
  | None =>
      raise_if negb (bool_decide (before = None)) || negb (bool_decide (after = None))
        with raise_state CONFLICTING_ID ;; Ok tt
  | Some order =>
      raise_if negb (forallb (projection_of run_id order) (omap id [before; after]))
        with raise_state CONFLICTING_ID ;; Ok tt
  end.

Definition create_execution_fact_processing_outcome (run_id : RunId) (dispatch_sequence : Z)
  (ingress : ExecutionFactIngress) (action : ExecutionFactAction)
  (anomalies : list ExecutionFactAnomaly) (order_resolutions : list OrderResolutionBinding)
  (resolved_order : option Order) (fill : option Fill)
  (projection_before projection_after : option OrderProjectionSnapshot)
  : res ExecutionFactProcessingOutcome :=
  state_boundary (
    raise_if negb ((1 <=? dispatch_sequence) && (dispatch_sequence <=? MAX_UINT64))
      with raise_state OUT_OF_RANGE ;;
    let* _ := _require_action_anomalies action anomalies in
    let* _ := _require_resolution_tuple ingress action order_resolutions in
    let resolved_id := _derived_selected_order_id order_resolutions in
    raise_if negb (bool_decide (resolved_id = od_order_id <$> resolved_order))
      with raise_state CONFLICTING_ID ;;
    raise_if match resolved_order with
             | Some o => negb (bool_decide (od_run_id o = run_id))
             | None => false
             end with raise_state CONFLICTING_ID ;;
    let* _ := _require_fill_context run_id ingress action fill in
    let* _ := _require_projection_context run_id resolved_order projection_before projection_after in
    raise_if short_circuit action
          && (negb (bool_decide (order_resolutions = [])) || negb (bool_decide (resolved_order = None))
              || negb (bool_decide (fill = None)) || negb (bool_decide (projection_before = None))
              || negb (bool_decide (projection_after = None)))
      with raise_state CONFLICTING_ID ;;
    let fact := ingress_fact ingress in
    let reconciliation :=
      match action with CONFLICT | INVALID | UNRESOLVED => true | ACCEPTED | DUPLICATE => false end in
    Ok {| po_run_id := run_id;
          po_dispatch_sequence := dispatch_sequence;
          po_ingress_identity := mkIngressIdentity (ingress_source_namespace ingress) (ingress_sequence_ ingress);
          po_ingress_sha256 := execution_fact_ingress_digest ingress;
          po_fact_key := fact_dedup_key fact;
          po_fact_sha256 := execution_fact_digest fact;
          po_action := action;
          po_anomalies := anomalies;
          po_outcome_code := _ACTION_OUTCOME action;
          po_reported_order_id := fact_order_id fact;
          po_client_submission_key := fact_client_submission_key fact;
          po_reported_venue_source_namespace :=
            (if bool_decide (fact_venue_order_id fact = None) then None else Some (fact_source_namespace fact));
          po_reported_venue_order_id := fact_venue_order_id fact;
          po_order_resolutions := order_resolutions;
          po_resolved_order_id := resolved_id;
          po_fill_id := fill_id <$> fill;
          po_fill_sha256 := fill_digest <$> fill;
          po_projection_before_sha256 := order_projection_snapshot_digest <$> projection_before;
          po_projection_after_sha256 := order_projection_snapshot_digest <$> projection_after;
          po_requires_reconciliation := reconciliation;
          po_halt_requested := reconciliation |}).

Definition _outcome_document (o : ExecutionFactProcessingOutcome) : json :=
  JDict
    [("action", JStr (action_value (po_action o)));
     ("anomalies", JList (map (fun a => JStr (anomaly_value a)) (po_anomalies o)));
     ("canonicalization", JStr "ea-execution-fact-processing-outcome-v1");
     ("client_submission_key", optional_text_document (po_client_submission_key o));
     ("fact_key", _fact_key_document (po_fact_key o));
     ("fact_sha256", JStr (value (po_fact_sha256 o)));
     ("fill", match po_fill_id o, po_fill_sha256 o with
              | Some i, Some d =>
                  JDict [("fill_id", _economic_id_document i); ("fill_sha256", JStr (value d))]
              | _, _ => JNull
              end);
     ("halt_requested", JBool (po_halt_requested o));
     ("ingress_identity", _ingress_identity_document (po_ingress_identity o));
     ("ingress_sha256", JStr (value (po_ingress_sha256 o)));
     ("message_type", JStr "execution_fact_processing_outcome");
     ("order_resolutions", JList (map _binding_document (po_order_resolutions o)));
     ("outcome_code", JStr (outcome_value (po_outcome_code o)));
     ("projection_after_sha256", optional_text_document (po_projection_after_sha256 o));
     ("projection_before_sha256", optional_text_document (po_projection_before_sha256 o));
     ("reported_order_id", _optional_id_document (po_reported_order_id o));
     ("reported_venue_order",
       _venue_document (po_reported_venue_source_namespace o) (po_reported_venue_order_id o));
     ("requires_reconciliation", JBool (po_requires_reconciliation o));
     ("resolved_order_id", _optional_id_document (po_resolved_order_id o));
     ("run_id", JStr (value (po_run_id o)));
     ("runtime_dispatch_sequence", JInt (po_dispatch_sequence o));
     ("schema_version", JInt 1)]%string.
Definition canonical_execution_fact_processing_outcome_bytes (o : ExecutionFactProcessingOutcome) : str :=
  encode_json (_outcome_document o).
Definition execution_fact_processing_outcome_digest (o : ExecutionFactProcessingOutcome) : Sha256Digest :=
  _digest (domain "ea.execution-fact-processing-outcome.v1")
    (canonical_execution_fact_processing_outcome_bytes o).
End Values.
