(* ===== verification/FactAuthority.v ===== *)
(** The execution-fact authority ([execution/fact_authority.py]): the sole owner of fact
    outcomes, fills and Order projections.

    [process_ingress] classifies an ingress (replay, duplicate, conflict, invalid
    context, first fact), resolves the Orders it names, numbers the fill of a trade,
    projects the Order's state and publishes one outcome, or raises and changes nothing.
    The Orders issued and the active dispatch are read through two ports; everything the
    authority owns is in [FactAuthorityState]. *)

From S2P Require Import Prelude PyRegex PyText Outcomes Json Identity Economics Commission.
From S2P Require Import Execution Messages Orders Wire Decoders ExecutionState.

Open Scope Z_scope.

Definition _ERROR_CODES : list OutcomeCode := [INVALID_TYPE; OUT_OF_RANGE; CONFLICTING_ID].
(** [raise ExecutionFactAuthorityError(code, ...)]. *)
Definition raise_fact (c : OutcomeCode) : exn :=
  if permitted _ERROR_CODES c then ExecutionFactAuthorityError c else TypeError.

Definition _TERMINAL_STATES : list OrderProjectionState :=
  [FILLED; REJECTED; EXPIRED; CANCELLED; DEFINITELY_NOT_SUBMITTED].
Definition _ALLOWED_NON_TERMINAL_TRANSITIONS (s : OrderProjectionState) : list OrderProjectionState :=
  match s with
  | SUBMITTED => [ACKNOWLEDGED; REJECTED; PARTIALLY_FILLED; FILLED; EXPIRED; CANCELLED]
  | ACKNOWLEDGED => [PARTIALLY_FILLED; FILLED; EXPIRED; CANCELLED]
  | PARTIALLY_FILLED => [PARTIALLY_FILLED; FILLED; EXPIRED; CANCELLED]
  | _ => []
  end.
Definition _LIFECYCLE_PROJECTION (k : ExecutionFactKind) : option OrderProjectionState :=
  match k with
  | ACKNOWLEDGEMENT => Some ACKNOWLEDGED
  | REJECTION => Some REJECTED
  | EXPIRY => Some EXPIRED
  | CANCELLATION => Some CANCELLED
  | TRADE | SUBMISSION_QUERY => None
  end.
Definition _QUERY_PROJECTION (c : OutcomeCode) : option OrderProjectionState :=
  match c with
  | RECONCILIATION_SUBMISSION_CONFIRMED_SUBMITTED => Some SUBMITTED
  | RECONCILIATION_SUBMISSION_CONFIRMED_NOT_SUBMITTED => Some DEFINITELY_NOT_SUBMITTED
  | RECONCILIATION_SUBMISSION_CONFIRMED_REJECTED => Some REJECTED
  | RECONCILIATION_SUBMISSION_CONFIRMED_FILLED => Some FILLED
  | _ => None
  end.

(** Sets of anomalies. *)
Definition anomaly_of_rank (r : Z) : option ExecutionFactAnomaly :=
  List.find (fun a => EXECUTION_FACT_ANOMALY_RANKS a =? r)
    [CONTEXT_INVALID; ORDER_BINDING_CONFLICT; UNKNOWN_ORDER; MISSING_ANCESTRY;
     INSUFFICIENT_PROJECTION_EVIDENCE; CONFIRMED_FILL_WITHOUT_TRADE; OVERFILL; LATE_AFTER_TERMINAL;
     PROJECTION_TRANSITION_CONFLICT; TERMINAL_STATE_CONFLICT].
#[export] Program Instance ExecutionFactAnomaly_countable : Countable ExecutionFactAnomaly :=
  inj_countable EXECUTION_FACT_ANOMALY_RANKS anomaly_of_rank _.
Next Obligation. by intros []. Qed.
#[export] Program Instance IngressIdentity_countable : Countable IngressIdentity :=
  inj_countable' (fun i => (ingress_source i, ingress_sequence i)) (fun p => mkIngressIdentity p.1 p.2) _.
Next Obligation. by intros []. Qed.
Abbreviation anomalies := (gset ExecutionFactAnomaly).
(** [{a} if b else set()]. *)
Definition anomaly_if (b : bool) (a : ExecutionFactAnomaly) : anomalies := if b then {[ a ]} else ∅.
(** [tuple(sorted(anomalies, key=EXECUTION_FACT_ANOMALY_RANKS.__getitem__))]. *)
Definition ordered_anomalies (s : anomalies) : list ExecutionFactAnomaly :=
  py_sorted EXECUTION_FACT_ANOMALY_RANKS (elements s).

(** ** The ports *)

(** [OrderResolutionVerifier]: the Orders issued, by identity and by client key. *)
Class OrderResolutionVerifier : Type := {
  resolve_issued_order_by_id : EconomicId -> option Order;
  resolve_issued_order_by_client_submission_key : Sha256Digest -> option Order
}.
(** [RuntimeFactDispatchVerifier]: the dispatch sequence of exactly the active fact. *)
Class RuntimeFactDispatchVerifier : Type := {
  resolve_active_issued_fact_dispatch : IngressIdentity -> str -> str -> option Z
}.

(** ** State *)

Record _IngressRecord : Type := mkIngressRecord {
  ir_ingress : ExecutionFactIngress;
  ir_ingress_bytes : str;
  ir_fact_bytes : str;
  ir_outcome : ExecutionFactProcessingOutcome
}.
Record _FactRecord : Type := mkFactRecord {
  fr_fact : ExecutionFact;
  fr_fact_bytes : str;
  fr_first_ingress_identity : IngressIdentity
}.
Abbreviation order_map := (gmap EconomicId Order).
Abbreviation resolved_key := (OrderResolutionKeyKind * option Order)%type.
Abbreviation VenueKey := (SourceNamespace * VenueOrderId)%type.

Record _FactAuthorityState : Type := mkFactAuthorityState {
  fill_next : option Z;
  halt_requested : bool;
  ingress_index : gmap IngressIdentity _IngressRecord;
  fact_index : gmap FactDedupKey _FactRecord;
  fill_index : gmap EconomicId Fill;
  order_index : gmap EconomicId Order;
  client_key_index : gmap Sha256Digest Order;
  venue_index : gmap VenueKey Order;
  projection_index : gmap EconomicId OrderProjectionSnapshot;
  projection_history_index : gmap (EconomicId * Sha256Digest) OrderProjectionSnapshot;
  observed_quantity : gmap EconomicId CanonicalDecimal;
  fa_ingresses : list ExecutionFactIngress;
  fa_outcomes : list ExecutionFactProcessingOutcome;
  first_facts : list ExecutionFact;
  fa_fills : list Fill;
  fa_projections : list OrderProjectionSnapshot
}.

Definition initial_state : _FactAuthorityState :=
  {| fill_next := Some 1; halt_requested := false; ingress_index := ∅; fact_index := ∅; fill_index := ∅;
     order_index := ∅; client_key_index := ∅; venue_index := ∅; projection_index := ∅;
     projection_history_index := ∅; observed_quantity := ∅; fa_ingresses := []; fa_outcomes := [];
     first_facts := []; fa_fills := []; fa_projections := [] |}.

Record _Resolution : Type := mkResolution {
  rs_bindings : list OrderResolutionBinding;
  selected_order : option Order;
  resolved_orders : list Order;
  staged_venue_key : option VenueKey;
  rs_anomalies : anomalies
}.
Record _ProjectionResult : Type := mkProjectionResult {
  pr_before : option OrderProjectionSnapshot;
  pr_after : option OrderProjectionSnapshot;
  new_projection : option OrderProjectionSnapshot;
  pr_observed_quantity : option CanonicalDecimal;
  pr_anomalies : anomalies
}.

(** The frozen context of the authority. *)
Record FactAuthorityContext : Type := mkFactAuthorityContext {
  fa_run_id : RunId;
  fa_spec_set : InstrumentExecutionSpecSet
}.

(** ** Quantities and sequences *)

Definition quantity_text (c s : Z) : string :=
  let '(c, s) := normalize_loop (Z.to_nat s) c s in
  let sign := if c <? 0 then ["-"%char] else [] in
  let digits := digits (Z.abs c) in
  if s =? 0 then text_of (sign ++ digits)
  else
    let digits := zeros (Z.to_nat (s + 1) - length digits) ++ digits in
    let split := (length digits - Z.to_nat s)%nat in
    text_of (sign ++ take split digits ++ "."%char :: drop split digits).
Definition _add_quantities (left_ right_ : CanonicalDecimal) : res CanonicalDecimal :=
  let s := Z.max (scale left_) (scale right_) in
  let c := coefficient left_ * 10 ^ (s - scale left_) + coefficient right_ * 10 ^ (s - scale right_) in
  decimal_of_text (quantity_text c s).

Definition _advance (v : Z) : res (option Z) :=
  raise_if negb ((1 <=? v) && (v <=? MAX_UINT64)) with AssertionError ;;
  Ok (if v =? MAX_UINT64 then None else Some (v + 1)).
Definition _advance_required (v : Z) : res Z :=
  let* n := _advance v in
  match n with Some n => Ok n | None => Raise (raise_fact OUT_OF_RANGE) end.

(** [min(a, b)]. *)
Definition min_quantity (a b : CanonicalDecimal) : res CanonicalDecimal :=
  let* less := decimal_lt b a in Ok (if less then b else a).

(** [_raise_public], and the [except] clauses of [process_ingress]. *)
Definition fact_public (e : exn) : exn :=
  match e with
  | ExecutionFactAuthorityError _ => e
  | EconomicValidationError c | ExecutionIdentityError c | ExecutionMessageError c | ExecutionStateError c =>
      raise_fact (public_code c)
  | RunContractError | TimeValidationError => AssertionError
  | TypeError => raise_fact INVALID_TYPE
  | _ => e
  end.
Definition fact_boundary {A} (m : res A) : res A :=
  match m with Ok a => Ok a | Raise e => Raise (fact_public e) end.

Section Authority.
Context `{hash : Sha256}.

Definition ingress_identity_of (i : ExecutionFactIngress) : IngressIdentity :=
  mkIngressIdentity (ingress_source_namespace i) (ingress_sequence_ i).

(** [_materialize_ingress]. *)
Definition _materialize_ingress (i : ExecutionFactIngress) : str * str :=
  (canonical_execution_fact_ingress_bytes i, canonical_execution_fact_bytes (ingress_fact i)).

Definition _classify_ingress_replay (st : _FactAuthorityState) (i : ExecutionFactIngress)
  (ingress_bytes fact_bytes : str) : res (option ExecutionFactProcessingOutcome) :=
  match ingress_index st !! ingress_identity_of i with
  | None => Ok None
  | Some record =>
      if bool_decide (ir_ingress_bytes record = ingress_bytes) && bool_decide (ir_fact_bytes record = fact_bytes)
      then Ok (Some (ir_outcome record))
      else Raise (raise_fact CONFLICTING_ID)
  end.

Definition _require_active_dispatch `{RuntimeFactDispatchVerifier} (i : ExecutionFactIngress)
  (ingress_bytes fact_bytes : str) : res Z :=
  match resolve_active_issued_fact_dispatch (ingress_identity_of i) ingress_bytes fact_bytes with
  | None => Raise (raise_fact CONFLICTING_ID)
  | Some n =>
      raise_if negb ((1 <=? n) && (n <=? MAX_UINT64)) with raise_fact OUT_OF_RANGE ;; Ok n
  end.

(** The errors [_is_context_valid] answers with [False]. *)
Definition context_error (e : exn) : bool :=
  match e with
  | EconomicValidationError _ | ExecutionIdentityError _ | ExecutionMessageError _ | RunContractError
  | TimeValidationError | TypeError => true
  | _ => false
  end.
Definition is_trade_payload (p : ExecutionFactPayload) : option TradeFactPayload :=
  match p with TradePayload t => Some t | _ => None end.

Definition context_checks (i : ExecutionFactIngress) (context : FactAuthorityContext) : res bool :=
  let fact := ingress_fact i in
  let spec_set := fa_spec_set context in
  if negb (bool_decide (ingress_source_namespace i = fact_source_namespace fact))
     || (microseconds (ingress_available_at i) <? microseconds (fact_occurred_at fact)) then Ok false
  else
    let identities := omap id [fact_order_id fact; fact_correlation_id fact; fact_causation_id fact] in
    if existsb (fun i => negb (bool_decide (id_run_id i = fa_run_id context))) identities then Ok false
    else
      let* specification :=
        match fact_instrument fact with
        | Some instrument => let* s := require_spec spec_set instrument in Ok (Some s)
        | None => Ok None
        end in
      match fact_kind fact, fact_payload fact with
      | SUBMISSION_QUERY, SubmissionQueryFactPayload c =>
          let* _ := SubmissionQueryFactPayload_init c in Ok (negb (bool_decide (specification = None)))
      | SUBMISSION_QUERY, _ => Ok false
      | kind, payload =>
          let trade_refused :=
            bool_decide (kind = TRADE) &&
            match is_trade_payload payload with
            | None => true
            | Some t =>
                bool_decide (specification = None)
                || negb (bool_decide (trade_spec_set_sha256 t = instrument_spec_set_digest spec_set))
            end in
          let lifecycle_refused :=
            negb (bool_decide (_LIFECYCLE_PROJECTION kind = None)) &&
            match payload with LifecycleFactPayload _ => false | _ => true end in
          if trade_refused || lifecycle_refused then Ok false
          else
            let* _ := decode_execution_fact (canonical_execution_fact_bytes fact)
                        (IndependentFactDecodeContext spec_set) in
            Ok true
      end.
Definition _is_context_valid (i : ExecutionFactIngress) (context : FactAuthorityContext) : res bool :=
  match context_checks i context with
  | Ok b => Ok b
  | Raise e => if context_error e then Ok false else Raise e
  end.

(** ** Resolving Orders *)

(** The client key of an Order is derived, so it never conflicts with itself. *)
Definition _record_resolved_order (context : FactAuthorityContext) (order : option Order) (orders : order_map)
  : res order_map :=
  match order with
  | None => Ok orders
  | Some order =>
      raise_if negb (bool_decide (od_run_id order = fa_run_id context))
            || negb (bool_decide (od_spec_set_id order = spec_set_identifier (fa_spec_set context)))
            || negb (bool_decide (od_spec_set_sha256 order = instrument_spec_set_digest (fa_spec_set context)))
            || negb (bool_decide (owner_kind (od_order_id order) = EXECUTION_ORDER))
        with raise_fact CONFLICTING_ID ;;
      raise_if match orders !! od_order_id order with
               | Some existing => negb (bool_decide (canonical_order_bytes existing = canonical_order_bytes order))
               | None => false
               end with raise_fact CONFLICTING_ID ;;
      Ok (<[od_order_id order := order]> orders)
  end.

(** One base key of the fact: looked up, recorded and appended. *)
Definition resolve_key {K} (context : FactAuthorityContext) (kind : OrderResolutionKeyKind)
  (lookup_order : K -> option Order) (key : option K) (acc : list resolved_key * order_map)
  : res (list resolved_key * order_map) :=
  match key with
  | None => Ok acc
  | Some key =>
      let order := lookup_order key in
      let* orders := _record_resolved_order context order acc.2 in
      Ok (acc.1 ++ [(kind, order)], orders)
  end.

(** [base_coherent]: every base key present resolved, to one Order. *)
Definition base_coherent (base : list resolved_key) : bool :=
  let non_null := omap snd base in
  negb (bool_decide (base = [])) && Nat.eqb (length non_null) (length base)
  && Nat.eqb (length (remove_dups (map od_order_id non_null))) 1.

Record VenueResolution : Type := mkVenueResolution {
  vr_order : option Order;
  vr_staged : option VenueKey;
  vr_conflict : bool
}.
(** The Order of the fact's venue key: mapped already, or staged for the coherent base
    Order unless that Order has another venue key. *)
Definition resolve_venue (st : _FactAuthorityState) (base : list resolved_key) (venue_key : VenueKey)
  : VenueResolution :=
  match venue_index st !! venue_key with
  | Some order => mkVenueResolution (Some order) None false
  | None =>
      match (if base_coherent base then head (omap snd base) else None) with
      | None => mkVenueResolution None None false
      | Some candidate =>
          let existing_keys :=
            map fst (List.filter (fun kv : VenueKey * Order => bool_decide (od_order_id kv.2 = od_order_id candidate))
                       (map_to_list (venue_index st))) in
          if negb (bool_decide (existing_keys = [])) && negb (bool_decide (venue_key ∈ existing_keys))
          then mkVenueResolution None None true
          else mkVenueResolution (Some candidate) (Some venue_key) false
      end
  end.

Definition _fact_contradicts_order (fact : ExecutionFact) (order : Order) : res bool :=
  if match fact_order_id fact with Some i => negb (bool_decide (i = od_order_id order)) | None => false end
     || match fact_client_submission_key fact with
        | Some k => negb (bool_decide (k = order_client_submission_key order)) | None => false end
     || match fact_instrument fact with
        | Some i => negb (bool_decide (i = od_instrument order)) | None => false end
  then Ok true
  else
    let* trade :=
      match fact_payload fact with
      | TradePayload t =>
          if negb (bool_decide (trade_side t = od_side order)) then Ok true
          else
            match trade_fees t with
            | [] => Raise IndexError
            | fee :: _ =>
                let* bps := commission_bps_from_identity (value (policy_identifier (od_execution_policy order)))
                              (value (policy_sha256 (od_execution_policy order))) in
                Ok (negb (bool_decide (commission_bps fee = bps)))
            end
      | _ => Ok false
      end in
    Ok (trade
        || match fact_correlation_id fact with
           | Some c => negb (bool_decide (c = od_correlation_id order)) | None => false end
        || match fact_causation_id fact with
           | Some c => negb (bool_decide (c = od_order_id order)) | None => false end).

(** [selected_id]: the one Order the keys resolved to. *)
Definition selected_of (bindings : list OrderResolutionBinding) (orders : order_map) : res (option Order) :=
  match remove_dups (omap rb_resolved_order_id bindings) with
  | [i] => match orders !! i with Some o => Ok (Some o) | None => Raise KeyError end
  | _ => Ok None
  end.

Definition binding_of (r : resolved_key) : OrderResolutionBinding :=
  create_order_resolution_binding r.1 r.2.
(** A binding after its staged venue key was withdrawn. *)
Definition withdraw_venue (b : OrderResolutionBinding) : OrderResolutionBinding :=
  if bool_decide (key_kind b = KEY_VENUE_ORDER_ID) then mkResolutionBinding KEY_VENUE_ORDER_ID None else b.

Definition sorted_orders (orders : order_map) : list Order :=
  py_sorted (fun o => _economic_id_key (od_order_id o)) (map snd (map_to_list orders)).

Definition _resolve_orders `{OrderResolutionVerifier} (context : FactAuthorityContext) (st : _FactAuthorityState)
  (ingress : ExecutionFactIngress) : res _Resolution :=
  let fact := ingress_fact ingress in
  let* acc := resolve_key context KEY_ORDER_ID resolve_issued_order_by_id (fact_order_id fact) ([], ∅) in
  let* acc := resolve_key context KEY_CLIENT_SUBMISSION_KEY resolve_issued_order_by_client_submission_key
                (fact_client_submission_key fact) acc in
  let '(base, orders) := acc in
  let '(resolved, orders, staged, venue_conflict) :=
    match fact_venue_order_id fact with
    | None => (base, orders, None, false)
    | Some venue =>
        let v := resolve_venue st base (fact_source_namespace fact, venue) in
        (base ++ [(KEY_VENUE_ORDER_ID, vr_order v)],
         match vr_order v with Some o => <[od_order_id o := o]> orders | None => orders end,
         vr_staged v, vr_conflict v)
    end in
  let bindings := map binding_of resolved in
  let non_null_ids := remove_dups (omap rb_resolved_order_id bindings) in
  let* selected := selected_of bindings orders in
  let mixed_base := existsb (fun r : resolved_key => bool_decide (r.2 = None)) base
                    && existsb (fun r : resolved_key => negb (bool_decide (r.2 = None))) base in
  let* contradicted := match selected with
                       | Some o => _fact_contradicts_order fact o
                       | None => Ok false
                       end in
  let conflict := Nat.ltb 1 (length non_null_ids) || venue_conflict || mixed_base || contradicted in
  let withdrawn := negb (bool_decide (staged = None)) && conflict in
  Ok {| rs_bindings := if withdrawn then map withdraw_venue bindings else bindings;
        selected_order := selected;
        resolved_orders := sorted_orders orders;
        staged_venue_key := if withdrawn then None else staged;
        rs_anomalies := anomaly_if (bool_decide (non_null_ids = [])) UNKNOWN_ORDER
                        ∪ anomaly_if conflict ORDER_BINDING_CONFLICT |}.

(** ** The fill of a trade *)

Definition _build_fill (context : FactAuthorityContext) (st : _FactAuthorityState) (ingress : ExecutionFactIngress)
  : res (option Fill * option Z) :=
  match fact_kind (ingress_fact ingress), fact_payload (ingress_fact ingress) with
  | TRADE, TradePayload _ =>
      match fill_next st with
      | None => Raise (raise_fact OUT_OF_RANGE)
      | Some sequence =>
          let* i := EconomicId_init (fa_run_id context) EXECUTION_FILL sequence in
          let* fill := create_fill i (ingress_fact ingress) (fa_spec_set context) in
          let* next := _advance sequence in
          Ok (Some fill, next)
      end
  | _, _ => Ok (None, fill_next st)
  end.

(** ** Projecting the Order *)

(** The projection state and quantity the fact shows, and the anomalies of showing it. *)
Definition projection_target (fact : ExecutionFact) (order : Order) (observed : CanonicalDecimal)
  : res (option OrderProjectionState * CanonicalDecimal * anomalies) :=
  match fact_kind fact with
  | TRADE =>
      let* partial_ := decimal_lt observed (od_quantity order) in
      if partial_ then Ok (Some PARTIALLY_FILLED, observed, ∅)
      else
        let* over := decimal_gt observed (od_quantity order) in
        Ok (Some FILLED, od_quantity order, anomaly_if over OVERFILL)
  | SUBMISSION_QUERY =>
      match fact_payload fact with
      | SubmissionQueryFactPayload c =>
          let target := _QUERY_PROJECTION c in
          let* quantity :=
            if bool_decide (target = Some FILLED) then Ok (od_quantity order)
            else min_quantity observed (od_quantity order) in
          let* unfilled :=
            if bool_decide (target = Some FILLED) then decimal_lt observed (od_quantity order) else Ok false in
          Ok (target, quantity,
              anomaly_if (bool_decide (c = RECONCILIATION_SUBMISSION_STILL_UNKNOWN)) INSUFFICIENT_PROJECTION_EVIDENCE
              ∪ anomaly_if unfilled CONFIRMED_FILL_WITHOUT_TRADE)
      | _ => Ok (None, CANONICAL_0, {[ INSUFFICIENT_PROJECTION_EVIDENCE ]})
      end
  | kind =>
      match _LIFECYCLE_PROJECTION kind with
      | Some target =>
          let* quantity := min_quantity observed (od_quantity order) in Ok (Some target, quantity, ∅)
      | None => Ok (None, CANONICAL_0, {[ INSUFFICIENT_PROJECTION_EVIDENCE ]})
      end
  end.

Definition _projection_venue (before : option OrderProjectionSnapshot) (ingress : ExecutionFactIngress)
  (resolution : _Resolution) : option SourceNamespace * option VenueOrderId :=
  match before with
  | Some (mkProjection _ _ _ _ _ _ _ source (Some venue) _ _) => (source, Some venue)
  | _ =>
      match fact_venue_order_id (ingress_fact ingress), selected_order resolution with
      | Some venue, Some order =>
          if negb (bool_decide (staged_venue_key resolution = None))
             || existsb (fun b => bool_decide (key_kind b = KEY_VENUE_ORDER_ID)
                                  && bool_decide (rb_resolved_order_id b = Some (od_order_id order)))
                  (rs_bindings resolution)
          then (Some (fact_source_namespace (ingress_fact ingress)), Some venue)
          else (None, None)
      | _, _ => (None, None)
      end
  end.

(** The target may follow the current state. *)
Definition transition_allowed (from to : OrderProjectionState) : bool :=
  bool_decide (to = from) || bool_decide (to ∈ _ALLOWED_NON_TERMINAL_TRANSITIONS from).

(** [semantic_change]. *)
Definition semantic_change (before : option OrderProjectionSnapshot) (target : OrderProjectionState)
  (quantity : CanonicalDecimal) (venue : option SourceNamespace * option VenueOrderId) : bool :=
  match before with
  | None => true
  | Some b =>
      negb (bool_decide (projection_state b = target))
      || negb (bool_decide (projected_executed_quantity b = quantity))
      || negb (bool_decide (pj_venue_source_namespace b = venue.1))
      || negb (bool_decide (pj_venue_order_id b = venue.2))
  end.

(** The anomalies of a fact about an Order whose projection is final. *)
Definition terminal_anomalies (fact : ExecutionFact) (target : option OrderProjectionState)
  (b : OrderProjectionSnapshot) : anomalies :=
  if bool_decide (fact_kind fact = TRADE) then {[ LATE_AFTER_TERMINAL ]}
  else anomaly_if (negb (bool_decide (target = None)) && negb (bool_decide (target = Some (projection_state b))))
         TERMINAL_STATE_CONFLICT.

Definition observed_of (st : _FactAuthorityState) (order_id : EconomicId) : CanonicalDecimal :=
  default CANONICAL_0 (observed_quantity st !! order_id).

Definition is_terminal_state (s : OrderProjectionState) : bool := bool_decide (s ∈ _TERMINAL_STATES).

Definition _project (context : FactAuthorityContext) (st : _FactAuthorityState) (ingress : ExecutionFactIngress)
  (fill : option Fill) (resolution : _Resolution) (inherited : anomalies) : res _ProjectionResult :=
  match selected_order resolution with
  | None => Ok (mkProjectionResult None None None None ∅)
  | Some order =>
      let before := projection_index st !! od_order_id order in
      if bool_decide (ORDER_BINDING_CONFLICT ∈ inherited) then Ok (mkProjectionResult before before None None ∅)
      else
        let* observed :=
          match fill with
          | Some fill => _add_quantities (observed_of st (od_order_id order)) (fill_quantity fill)
          | None => Ok (observed_of st (od_order_id order))
          end in
        let fact := ingress_fact ingress in
        let* shown := projection_target fact order observed in
        let '(target, quantity, found) := shown in
        let unchanged found := Ok (mkProjectionResult before before None (Some observed) found) in
        match before, target with
        | Some b, _ =>
            if is_terminal_state (projection_state b) then unchanged (found ∪ terminal_anomalies fact target b)
            else
              match target with
              | None => unchanged found
              | Some target =>
                  if negb (transition_allowed (projection_state b) target)
                  then unchanged (found ∪ {[ PROJECTION_TRANSITION_CONFLICT ]})
                  else
                    let venue := _projection_venue before ingress resolution in
                    if negb (semantic_change before target quantity venue) then unchanged found
                    else
                      let* version := _advance_required (projection_version b) in
                      let* after := create_order_projection_snapshot order (fa_spec_set context) version target
                                      quantity venue.1 venue.2 (fact_dedup_key fact) (execution_fact_digest fact) in
                      Ok (mkProjectionResult before (Some after) (Some after) (Some observed) found)
              end
        | None, None => unchanged found
        | None, Some target =>
            let venue := _projection_venue None ingress resolution in
            let* after := create_order_projection_snapshot order (fa_spec_set context) 1 target quantity
                            venue.1 venue.2 (fact_dedup_key fact) (execution_fact_digest fact) in
            Ok (mkProjectionResult None (Some after) (Some after) (Some observed) found)
        end
  end.

(** ** Publishing *)

Definition ingress_record (ingress : ExecutionFactIngress) (ingress_bytes fact_bytes : str)
  (outcome : ExecutionFactProcessingOutcome) : _IngressRecord :=
  mkIngressRecord ingress ingress_bytes fact_bytes outcome.

Definition _state_with_ingress_outcome (st : _FactAuthorityState) (ingress : ExecutionFactIngress)
  (ingress_bytes fact_bytes : str) (outcome : ExecutionFactProcessingOutcome) (halt : bool)
  : _FactAuthorityState :=
  {| fill_next := fill_next st;
     halt_requested := halt;
     ingress_index := <[ingress_identity_of ingress := ingress_record ingress ingress_bytes fact_bytes outcome]>
                        (ingress_index st);
     fact_index := fact_index st;
     fill_index := fill_index st;
     order_index := order_index st;
     client_key_index := client_key_index st;
     venue_index := venue_index st;
     projection_index := projection_index st;
     projection_history_index := projection_history_index st;
     observed_quantity := observed_quantity st;
     fa_ingresses := fa_ingresses st ++ [ingress];
     fa_outcomes := fa_outcomes st ++ [outcome];
     first_facts := first_facts st;
     fa_fills := fa_fills st;
     fa_projections := fa_projections st |}.

Definition _publish_short_circuit (context : FactAuthorityContext) (st : _FactAuthorityState)
  (ingress : ExecutionFactIngress) (ingress_bytes fact_bytes : str) (dispatch_sequence : Z)
  (action : ExecutionFactAction) : res (_FactAuthorityState * ExecutionFactProcessingOutcome) :=
  let* outcome := create_execution_fact_processing_outcome (fa_run_id context) dispatch_sequence ingress action
                    [] [] None None None None in
  Ok (_state_with_ingress_outcome st ingress ingress_bytes fact_bytes outcome
        (halt_requested st || bool_decide (action = CONFLICT)), outcome).

Definition order_conflicts (existing : option Order) (order : Order) : bool :=
  match existing with
  | Some e => negb (bool_decide (canonical_order_bytes e = canonical_order_bytes order))
  | None => false
  end.
Definition _insert_derived_order (indexes : order_map * gmap Sha256Digest Order) (order : Order)
  : res (order_map * gmap Sha256Digest Order) :=
  raise_if order_conflicts (indexes.1 !! od_order_id order) order
        || order_conflicts (indexes.2 !! order_client_submission_key order) order
    with raise_fact CONFLICTING_ID ;;
  Ok (<[od_order_id order := order]> indexes.1, <[order_client_submission_key order := order]> indexes.2).
Fixpoint insert_derived_orders (indexes : order_map * gmap Sha256Digest Order) (orders : list Order)
  : res (order_map * gmap Sha256Digest Order) :=
  match orders with
  | [] => Ok indexes
  | o :: orders => let* indexes := _insert_derived_order indexes o in insert_derived_orders indexes orders
  end.

(** [action in (INVALID, UNRESOLVED, CONFLICT)]. *)
Definition halting (a : ExecutionFactAction) : bool :=
  match a with INVALID | UNRESOLVED | CONFLICT => true | ACCEPTED | DUPLICATE => false end.

Definition staged_venue_index (st : _FactAuthorityState) (resolution : _Resolution)
  (found : list ExecutionFactAnomaly) : gmap VenueKey Order :=
  match staged_venue_key resolution, selected_order resolution with
  | Some key, Some order =>
      if bool_decide (ORDER_BINDING_CONFLICT ∉ found) && bool_decide (UNKNOWN_ORDER ∉ found)
      then <[key := order]> (venue_index st) else venue_index st
  | _, _ => venue_index st
  end.

(** The projection and observed quantity the result publishes, for the selected Order. *)
Definition published_projection (resolution : _Resolution) (projection : _ProjectionResult)
  : option (EconomicId * OrderProjectionSnapshot) :=
  match new_projection projection, selected_order resolution with
  | Some p, Some order => Some (od_order_id order, p)
  | _, _ => None
  end.
Definition published_observed (resolution : _Resolution) (projection : _ProjectionResult)
  : option (EconomicId * CanonicalDecimal) :=
  match pr_observed_quantity projection, selected_order resolution with
  | Some q, Some order => Some (od_order_id order, q)
  | _, _ => None
  end.
(** [if entry is present: index[key] = value]. *)
Definition insert_present {K A} `{Countable K} (e : option (K * A)) (m : gmap K A) : gmap K A :=
  match e with Some (k, v) => <[k := v]> m | None => m end.

Definition published_state (st : _FactAuthorityState) (ingress : ExecutionFactIngress)
  (ingress_bytes fact_bytes : str) (action : ExecutionFactAction) (found : list ExecutionFactAnomaly)
  (resolution : _Resolution) (fill : option Fill) (projection : _ProjectionResult) (fill_after : option Z)
  (outcome : ExecutionFactProcessingOutcome) (orders : order_map) (client_keys : gmap Sha256Digest Order)
  : _FactAuthorityState :=
  let published := published_projection resolution projection in
  {| fill_next := match fill with None => fill_next st | Some _ => fill_after end;
     halt_requested := halt_requested st || halting action;
     ingress_index := <[ingress_identity_of ingress := ingress_record ingress ingress_bytes fact_bytes outcome]>
                        (ingress_index st);
     fact_index := <[fact_dedup_key (ingress_fact ingress) :=
                       mkFactRecord (ingress_fact ingress) fact_bytes (ingress_identity_of ingress)]> (fact_index st);
     fill_index := insert_present ((fun f => (fill_id f, f)) <$> fill) (fill_index st);
     order_index := orders;
     client_key_index := client_keys;
     venue_index := staged_venue_index st resolution found;
     projection_index := insert_present published (projection_index st);
     projection_history_index :=
       insert_present ((fun e => (e.1, order_projection_snapshot_digest e.2, e.2)) <$> published)
         (projection_history_index st);
     observed_quantity := insert_present (published_observed resolution projection) (observed_quantity st);
     fa_ingresses := fa_ingresses st ++ [ingress];
     fa_outcomes := fa_outcomes st ++ [outcome];
     first_facts := first_facts st ++ [ingress_fact ingress];
     fa_fills := fa_fills st ++ option_list fill;
     fa_projections := fa_projections st ++ option_list (snd <$> published) |}.

Definition _publish_first_fact (context : FactAuthorityContext) (st : _FactAuthorityState)
  (ingress : ExecutionFactIngress) (ingress_bytes fact_bytes : str) (dispatch_sequence : Z)
  (action : ExecutionFactAction) (found : list ExecutionFactAnomaly) (resolution : _Resolution)
  (fill : option Fill) (projection : _ProjectionResult) (fill_after : option Z)
  : res (_FactAuthorityState * ExecutionFactProcessingOutcome) :=
  let* outcome := create_execution_fact_processing_outcome (fa_run_id context) dispatch_sequence ingress action
                    found (rs_bindings resolution) (selected_order resolution) fill (pr_before projection)
                    (pr_after projection) in
  let* indexes := insert_derived_orders (order_index st, client_key_index st) (resolved_orders resolution) in
  Ok (published_state st ingress ingress_bytes fact_bytes action found resolution fill projection fill_after
        outcome indexes.1 indexes.2, outcome).

(** ** Processing an ingress *)

Definition missing_ancestry (fill : Fill) : bool :=
  bool_decide (fill_order_id fill = None) || bool_decide (fill_correlation_id fill = None)
  || bool_decide (fill_causation_id fill = None).

(** The first ingress of a fact whose context is valid. *)
Definition process_first_fact `{OrderResolutionVerifier} (context : FactAuthorityContext)
  (st : _FactAuthorityState) (ingress : ExecutionFactIngress) (ingress_bytes fact_bytes : str)
  (dispatch_sequence : Z) : res (_FactAuthorityState * ExecutionFactProcessingOutcome) :=
  let* resolution := _resolve_orders context st ingress in
  let* built := _build_fill context st ingress in
  let '(fill, fill_after) := built in
  let found := rs_anomalies resolution
               ∪ anomaly_if (match fill with Some f => missing_ancestry f | None => false end) MISSING_ANCESTRY in
  let* projection := _project context st ingress fill resolution found in
  let found := ordered_anomalies (found ∪ pr_anomalies projection) in
  _publish_first_fact context st ingress ingress_bytes fact_bytes dispatch_sequence
    (if bool_decide (found = []) then ACCEPTED else UNRESOLVED) found resolution fill projection fill_after.

Definition process_ingress `{OrderResolutionVerifier} `{RuntimeFactDispatchVerifier}
  (context : FactAuthorityContext) (st : _FactAuthorityState) (ingress : ExecutionFactIngress)
  : res (_FactAuthorityState * ExecutionFactProcessingOutcome) :=
  fact_boundary (
    let '(ingress_bytes, fact_bytes) := _materialize_ingress ingress in
    let* replay := _classify_ingress_replay st ingress ingress_bytes fact_bytes in
    match replay with
    | Some outcome => Ok (st, outcome)
    | None =>
        let* dispatch_sequence := _require_active_dispatch ingress ingress_bytes fact_bytes in
        match fact_index st !! fact_dedup_key (ingress_fact ingress) with
        | Some existing =>
            _publish_short_circuit context st ingress ingress_bytes fact_bytes dispatch_sequence
              (if bool_decide (fr_fact_bytes existing = fact_bytes) then DUPLICATE else CONFLICT)
        | None =>
            let* valid := _is_context_valid ingress context in
            if negb valid then
              _publish_first_fact context st ingress ingress_bytes fact_bytes dispatch_sequence INVALID
                [CONTEXT_INVALID] (mkResolution [] None [] None ∅) None
                (mkProjectionResult None None None None ∅) None
            else process_first_fact context st ingress ingress_bytes fact_bytes dispatch_sequence
        end
    end).

(** ** Reading the state *)

Definition projection_for_order (st : _FactAuthorityState) (order_id : EconomicId)
  : option OrderProjectionSnapshot := projection_index st !! order_id.
Definition resolve_processing_outcome (st : _FactAuthorityState) (i : IngressIdentity) (d : Sha256Digest)
  : option ExecutionFactProcessingOutcome :=
  match ingress_index st !! i with
  | Some record =>
      if bool_decide (execution_fact_ingress_digest (ir_ingress record) = d) then Some (ir_outcome record) else None
  | None => None
  end.
Definition resolve_fill (st : _FactAuthorityState) (i : EconomicId) (d : Sha256Digest) : option Fill :=
  match fill_index st !! i with
  | Some fill => if bool_decide (fill_digest fill = d) then Some fill else None
  | None => None
  end.
Definition resolve_projection_after (st : _FactAuthorityState) (i : EconomicId) (d : Sha256Digest)
  : option OrderProjectionSnapshot := projection_history_index st !! (i, d).
Definition observed_quantity_for_order (st : _FactAuthorityState) (order_id : EconomicId) : CanonicalDecimal :=
  observed_of st order_id.
End Authority.
