(* ===== verification/OrderLifecycle.v ===== *)
(** One-shot transport commands over issued Orders ([execution/order_lifecycle.py]).

    The tracker remembers one submission and at most one cancellation of each Order it saw;
    it reads the Order authority that issued them and the fact authority that owns their
    projections, whose states at the time of a call are arguments. *)

From S2P Require Import Prelude PyRegex PyText Outcomes Json Identity Economics Execution Messages Orders Decoders.
From S2P Require Import OrderAuthority ExecutionState FactAuthority.

Open Scope Z_scope.

Inductive SubmissionAttemptState : Type :=
| SUBMISSION_PENDING | SUBMISSION_SUBMITTED | SUBMISSION_NOT_SUBMITTED | SUBMISSION_UNCERTAIN.
Inductive CancellationAttemptState : Type :=
| CANCELLATION_PENDING | CANCELLATION_ACCEPTED | CANCELLATION_NOT_SENT | CANCELLATION_UNCERTAIN.

Record SubmitCommand : Type := mkSubmitCommand {
  sc_order : Order;
  sc_client_submission_key : Sha256Digest;
  sc_execution_request_sha256 : Sha256Digest
}.
Record CancelCommand : Type := mkCancelCommand {
  cc_order : Order;
  cc_client_submission_key : Sha256Digest;
  cc_execution_request_sha256 : Sha256Digest
}.
Record OrderCommandSnapshot : Type := mkCommandSnapshot {
  cs_order_id : EconomicId;
  cs_client_submission_key : Sha256Digest;
  cs_execution_request_sha256 : Sha256Digest;
  cs_submission_state : SubmissionAttemptState;
  cs_cancel_state : option CancellationAttemptState;
  cs_projection : option OrderProjectionSnapshot
}.
Record _Record : Type := mkCommandRecord {
  rc_submit : SubmitCommand;
  rc_submission_state : SubmissionAttemptState;
  rc_cancel : option CancelCommand;
  rc_cancel_state : option CancellationAttemptState
}.
#[export] Instance SubmissionAttemptState_eq_dec : EqDecision SubmissionAttemptState.
Proof. solve_decision. Defined.
#[export] Instance CancellationAttemptState_eq_dec : EqDecision CancellationAttemptState.
Proof. solve_decision. Defined.
#[export] Instance SubmitCommand_eq_dec : EqDecision SubmitCommand.
Proof. solve_decision. Defined.
#[export] Instance CancelCommand_eq_dec : EqDecision CancelCommand.
Proof. solve_decision. Defined.

Definition _ACTIVE_PROJECTIONS : list OrderProjectionState := [SUBMITTED; ACKNOWLEDGED; PARTIALLY_FILLED].

(** [self._records]. *)
Abbreviation tracker := (gmap EconomicId _Record).

Section Tracker.
Context `{hash : Sha256} (oc : OrderAuthorityContext) (os : _OrderAuthorityState).
Implicit Types (records : tracker) (order : Order).

(** The registry holds one object for an Order, under both keys: the objects found are the
    same when the Orders are. *)
Definition _require_issued_order order : res unit :=
  match OrderAuthority.resolve_issued_order_by_id os (od_order_id order),
        OrderAuthority.resolve_issued_order_by_client_submission_key os (order_client_submission_key order) with
  | Some by_id, Some by_key =>
      raise_if negb (bool_decide (by_id = by_key))
            || negb (bool_decide (order_digest by_id = order_digest order))
            || negb (bool_decide (execution_request_digest by_id = execution_request_digest order))
        with OrderCommandError CONFLICTING_ID ;;
      Ok tt
  | _, _ => Raise (OrderCommandError CONFLICTING_ID)
  end.

Definition _require_record records order : res _Record :=
  match records !! od_order_id order with
  | None => Raise (OrderCommandError CONFLICTING_ID)
  | Some record =>
      raise_if negb (bool_decide (sc_order (rc_submit record) = order)) with OrderCommandError CONFLICTING_ID ;;
      Ok record
  end.

Definition _require_facts (fc : FactAuthorityContext) (fs : _FactAuthorityState) order
  : res (option OrderProjectionSnapshot) :=
  raise_if negb (bool_decide (fa_run_id fc = oa_run_id oc)) || negb (bool_decide (fa_spec_set fc = oa_spec_set oc))
    with OrderCommandError CONFLICTING_ID ;;
  match projection_for_order fs (od_order_id order) with
  | None => Ok None
  | Some projection =>
      raise_if negb (bool_decide (pj_order_sha256 projection = order_digest order))
            || negb (bool_decide (pj_client_submission_key projection = order_client_submission_key order))
        with OrderCommandError CONFLICTING_ID ;;
      Ok (Some projection)
  end.

(** ** Submission *)

Definition begin_submit records order : res (option SubmitCommand * tracker) :=
  let* _ := _require_issued_order order in
  match records !! od_order_id order with
  | Some _ => Ok (None, records)
  | None =>
      let command := mkSubmitCommand order (order_client_submission_key order) (execution_request_digest order) in
      Ok (Some command, <[od_order_id order := mkCommandRecord command SUBMISSION_PENDING None None]> records)
  end.

Definition record_submit_result records (command : SubmitCommand) (state : SubmissionAttemptState)
  : res (SubmissionAttemptState * tracker) :=
  raise_if bool_decide (state = SUBMISSION_PENDING) with OrderCommandError OUT_OF_RANGE ;;
  let* record := _require_record records (sc_order command) in
  raise_if negb (bool_decide (rc_submit record = command)) with OrderCommandError CONFLICTING_ID ;;
  if bool_decide (rc_submission_state record = SUBMISSION_PENDING)
  then Ok (state, <[od_order_id (sc_order command) :=
                      mkCommandRecord (rc_submit record) state (rc_cancel record) (rc_cancel_state record)]> records)
  else
    raise_if negb (bool_decide (rc_submission_state record = state)) with OrderCommandError CONFLICTING_ID ;;
    Ok (state, records).

(** ** Cancellation *)

Definition begin_cancel records order (fc : FactAuthorityContext) (fs : _FactAuthorityState)
  : res (option CancelCommand * tracker) :=
  let* _ := _require_issued_order order in
  let* record := _require_record records order in
  if negb (absent (rc_cancel record)) then Ok (None, records)
  else
    let* projection := _require_facts fc fs order in
    raise_if match projection with Some p => is_terminal p | None => false end with OrderCommandError CONFLICTING_ID ;;
    raise_if negb (bool_decide (rc_submission_state record = SUBMISSION_SUBMITTED))
          && match projection with
             | Some p => negb (bool_decide (projection_state p ∈ _ACTIVE_PROJECTIONS))
             | None => true
             end with OrderCommandError CONFLICTING_ID ;;
    let command := mkCancelCommand order (order_client_submission_key order)
                     (sc_execution_request_sha256 (rc_submit record)) in
    Ok (Some command,
        <[od_order_id order := mkCommandRecord (rc_submit record) (rc_submission_state record) (Some command)
                                 (Some CANCELLATION_PENDING)]> records).

Definition record_cancel_result records (command : CancelCommand) (state : CancellationAttemptState)
  : res (CancellationAttemptState * tracker) :=
  raise_if bool_decide (state = CANCELLATION_PENDING) with OrderCommandError OUT_OF_RANGE ;;
  let* record := _require_record records (cc_order command) in
  raise_if negb (bool_decide (rc_cancel record = Some command)) with OrderCommandError CONFLICTING_ID ;;
  if bool_decide (rc_cancel_state record = Some CANCELLATION_PENDING)
  then Ok (state, <[od_order_id (cc_order command) :=
                      mkCommandRecord (rc_submit record) (rc_submission_state record) (rc_cancel record) (Some state)]> records)
  else
    raise_if negb (bool_decide (rc_cancel_state record = Some state)) with OrderCommandError CONFLICTING_ID ;;
    Ok (state, records).

(** ** Reading *)

Definition _snapshot (record : _Record) (projection : option OrderProjectionSnapshot) : OrderCommandSnapshot :=
  mkCommandSnapshot (od_order_id (sc_order (rc_submit record))) (sc_client_submission_key (rc_submit record))
    (sc_execution_request_sha256 (rc_submit record)) (rc_submission_state record) (rc_cancel_state record) projection.
Definition command_snapshot records order (fc : FactAuthorityContext) (fs : _FactAuthorityState)
  : res OrderCommandSnapshot :=
  let* _ := _require_issued_order order in
  let* record := _require_record records order in
  let* projection := _require_facts fc fs order in
  Ok (_snapshot record projection).
End Tracker.
