(* ===== verification/Portfolio.v ===== *)
(** Canonical portfolio-ledger values ([core/portfolio.py]): funding, postings,
    balances, transactions, snapshots and outcomes, with the checks of every
    constructor, the canonical documents and their digests.

    A dataclass is a record; its [__post_init__] is the function of the same name
    with the suffix [_init].  The factories [_create_...] are translated whole. *)

From S2P Require Import Prelude PyRegex PyText Outcomes Json Identity Economics Execution Messages.

Open Scope Z_scope.

Definition _LEDGER_ERROR_CODES : list OutcomeCode :=
  [INVALID_TYPE; OUT_OF_RANGE; NOT_QUANTIZED; PRICE_DOMAIN; CONFLICTING_ID].
Definition _LEDGER_RESULT_CODES : list OutcomeCode :=
  [LEDGER_APPLIED; LEDGER_DUPLICATE; LEDGER_CONFLICT; LEDGER_UNBALANCED; ROUNDING_UNREPRESENTABLE;
   ARITHMETIC_OVERFLOW; OUT_OF_RANGE].

(** [PortfolioLedgerError(code, ...)] refuses other codes with a [TypeError]. *)
Definition raise_ledger (c : OutcomeCode) : exn :=
  if permitted _LEDGER_ERROR_CODES c then PortfolioLedgerError c else TypeError.

Definition _translate_economic_error (c : OutcomeCode) : exn :=
  if permitted _LEDGER_ERROR_CODES c then raise_ledger c else AssertionError.

(** [try: m except EconomicValidationError: raise _translate_economic_error(error)]. *)
Definition translating {A} (m : res A) : res A :=
  catch_economic m (fun c => Raise (_translate_economic_error c)).

(** ** Closed vocabularies *)

Inductive LedgerAccountKind : Type :=
| PORTFOLIO_POSITION | EXTERNAL_INVENTORY | PORTFOLIO_CASH | EXTERNAL_SETTLEMENT
| PORTFOLIO_ROUNDING | COMMISSION_EXPENSE.
Definition account_value (a : LedgerAccountKind) : string :=
  match a with
  | PORTFOLIO_POSITION => "portfolio.position"
  | EXTERNAL_INVENTORY => "external.inventory"
  | PORTFOLIO_CASH => "portfolio.cash"
  | EXTERNAL_SETTLEMENT => "external.settlement"
  | PORTFOLIO_ROUNDING => "portfolio.rounding"
  | COMMISSION_EXPENSE => "portfolio.commission"
  end.

Inductive LedgerConflictKind : Type :=
| FILL_ID_COLLISION | FACT_KEY_COLLISION | FILL_AND_FACT_COLLISION | CROSS_INDEX_COLLISION
| INDEX_INCONSISTENT | ENTRY_ID_OCCUPIED | UNBOUND_EXISTING_FILL.
Definition conflict_value (k : LedgerConflictKind) : string :=
  match k with
  | FILL_ID_COLLISION => "fill_id_collision"
  | FACT_KEY_COLLISION => "fact_key_collision"
  | FILL_AND_FACT_COLLISION => "fill_and_fact_collision"
  | CROSS_INDEX_COLLISION => "cross_index_collision"
  | INDEX_INCONSISTENT => "index_inconsistent"
  | ENTRY_ID_OCCUPIED => "entry_id_occupied"
  | UNBOUND_EXISTING_FILL => "unbound_existing_fill"
  end.

Inductive LedgerFailureStage : Type :=
| LEDGER_SEQUENCE_EXHAUSTED | SETTLEMENT_ARITHMETIC_OVERFLOW | SETTLEMENT_ROUNDING_UNREPRESENTABLE
| EXACT_NOTIONAL_OVERFLOW | CASH_BALANCE_OVERFLOW | INSUFFICIENT_CASH | POSITION_BALANCE_OVERFLOW
| ROUNDING_BALANCE_OVERFLOW | COMMODITY_UNBALANCED.
Definition stage_value (s : LedgerFailureStage) : string :=
  match s with
  | LEDGER_SEQUENCE_EXHAUSTED => "ledger_sequence_exhausted"
  | SETTLEMENT_ARITHMETIC_OVERFLOW => "settlement_arithmetic_overflow"
  | SETTLEMENT_ROUNDING_UNREPRESENTABLE => "settlement_rounding_unrepresentable"
  | EXACT_NOTIONAL_OVERFLOW => "exact_notional_overflow"
  | CASH_BALANCE_OVERFLOW => "cash_balance_overflow"
  | INSUFFICIENT_CASH => "insufficient_cash"
  | POSITION_BALANCE_OVERFLOW => "position_balance_overflow"
  | ROUNDING_BALANCE_OVERFLOW => "rounding_balance_overflow"
  | COMMODITY_UNBALANCED => "commodity_unbalanced"
  end.

#[export] Instance LedgerAccountKind_eq_dec : EqDecision LedgerAccountKind.
Proof. solve_decision. Defined.
#[export] Instance LedgerConflictKind_eq_dec : EqDecision LedgerConflictKind.
Proof. solve_decision. Defined.
#[export] Instance LedgerFailureStage_eq_dec : EqDecision LedgerFailureStage.
Proof. solve_decision. Defined.

(** ** Small checks *)

Definition _require_economic_id (i : EconomicId) (owner : option EconomicOwnerKind)
  (run_id : option RunId) : res EconomicId :=
  raise_if match owner with Some o => negb (bool_decide (owner_kind i = o)) | None => false end
    with raise_ledger CONFLICTING_ID ;;
  raise_if match run_id with Some r => negb (bool_decide (id_run_id i = r)) | None => false end
    with raise_ledger CONFLICTING_ID ;;
  Ok i.

Definition _require_version (v : Z) : res Z :=
  raise_if (v <? 0) || (2 ^ 64 <=? v) with raise_ledger OUT_OF_RANGE ;; Ok v.

(** Run a check over a sequence, left to right. *)
Fixpoint check_all {A} (f : A -> res unit) (l : list A) : res unit :=
  match l with [] => Ok tt | x :: l => let* _ := f x in check_all f l end.

(** ** Funding, commodities and postings *)

Record InitialFunding : Type := mkInitialFunding {
  funding_run_id : RunId;
  funding_currency : SettlementCurrency;
  funding_amount : CanonicalDecimal
}.
Definition InitialFunding_init (run_id : RunId) (currency : SettlementCurrency)
  (amount : CanonicalDecimal) : res InitialFunding :=
  let* _ := translating (require_positive amount) in
  Ok (mkInitialFunding run_id currency amount).

Inductive LedgerCommodity : Type :=
| InstrumentCommodity (i : Instrument)
| CurrencyCommodity (c : SettlementCurrency).
#[export] Instance LedgerCommodity_eq_dec : EqDecision LedgerCommodity.
Proof. solve_decision. Defined.
#[export] Program Instance LedgerCommodity_countable : Countable LedgerCommodity :=
  inj_countable' (fun c => match c with InstrumentCommodity i => inl i | CurrencyCommodity c => inr c end)
    (fun s => match s with inl i => InstrumentCommodity i | inr c => CurrencyCommodity c end) _.
Next Obligation. by intros []. Qed.

Definition is_instrument_commodity (c : LedgerCommodity) : bool :=
  match c with InstrumentCommodity _ => true | CurrencyCommodity _ => false end.

Record LedgerPosting : Type := mkLedgerPosting {
  account : LedgerAccountKind;
  commodity : LedgerCommodity;
  posting_amount : CanonicalDecimal
}.
#[export] Instance LedgerPosting_eq_dec : EqDecision LedgerPosting.
Proof. solve_decision. Defined.

Definition instrument_account (a : LedgerAccountKind) : bool :=
  bool_decide (a = PORTFOLIO_POSITION) || bool_decide (a = EXTERNAL_INVENTORY).

Definition LedgerPosting_init (a : LedgerAccountKind) (c : LedgerCommodity) (amount : CanonicalDecimal)
  : res LedgerPosting :=
  raise_if coefficient amount =? 0 with raise_ledger OUT_OF_RANGE ;;
  raise_if negb (Bool.eqb (instrument_account a) (is_instrument_commodity c))
    with raise_ledger CONFLICTING_ID ;;
  Ok (mkLedgerPosting a c amount).

(** ** Balances and references *)

Record CashBalance : Type := mkCashBalance {
  cash_currency : SettlementCurrency;
  cash_quantum : CanonicalDecimal;
  cash_amount : CanonicalDecimal
}.
Definition CashBalance_init (c : SettlementCurrency) (quantum amount : CanonicalDecimal) : res CashBalance :=
  let* _ := translating (let* _ := require_positive quantum in require_quantized amount quantum) in
  raise_if coefficient amount =? 0 with raise_ledger OUT_OF_RANGE ;;
  Ok (mkCashBalance c quantum amount).

Record PositionBalance : Type := mkPositionBalance {
  position_instrument : Instrument;
  position_quantum : CanonicalDecimal;
  position_quantity : CanonicalDecimal
}.
Definition PositionBalance_init (i : Instrument) (quantum quantity : CanonicalDecimal) : res PositionBalance :=
  let* _ := translating (let* _ := require_positive quantum in require_quantized quantity quantum) in
  raise_if coefficient quantity =? 0 with raise_ledger OUT_OF_RANGE ;;
  Ok (mkPositionBalance i quantum quantity).

Record RoundingBalance : Type := mkRoundingBalance {
  rounding_currency : SettlementCurrency;
  rounding_amount : CanonicalDecimal
}.
Definition RoundingBalance_init (c : SettlementCurrency) (amount : CanonicalDecimal) : res RoundingBalance :=
  raise_if coefficient amount =? 0 with raise_ledger OUT_OF_RANGE ;;
  Ok (mkRoundingBalance c amount).

Record UnresolvedFillRef : Type := mkUnresolvedFillRef {
  unresolved_fill_id : EconomicId;
  unresolved_fill_sha256 : Sha256Digest
}.
Definition UnresolvedFillRef_init (i : EconomicId) (d : Sha256Digest) : res UnresolvedFillRef :=
  let* i := _require_economic_id i (Some EXECUTION_FILL) None in Ok (mkUnresolvedFillRef i d).

Record OpenReconciliationRef : Type := mkOpenReconciliationRef {
  open_fill_id : EconomicId;
  open_fill_sha256 : Sha256Digest;
  open_processing_outcome_sha256 : Sha256Digest
}.
#[export] Instance OpenReconciliationRef_eq_dec : EqDecision OpenReconciliationRef.
Proof. solve_decision. Defined.
Definition OpenReconciliationRef_init (i : EconomicId) (d o : Sha256Digest) : res OpenReconciliationRef :=
  let* i := _require_economic_id i (Some EXECUTION_FILL) None in Ok (mkOpenReconciliationRef i d o).

Record ExistingLedgerBinding : Type := mkExistingLedgerBinding {
  binding_entry_id : EconomicId;
  binding_fill_id : EconomicId;
  binding_fill_sha256 : Sha256Digest;
  binding_transaction_sha256 : Sha256Digest
}.
#[export] Instance ExistingLedgerBinding_eq_dec : EqDecision ExistingLedgerBinding.
Proof. solve_decision. Defined.
Definition ExistingLedgerBinding_init (entry_id fill_id : EconomicId) (fill_sha256 transaction_sha256 : Sha256Digest)
  : res ExistingLedgerBinding :=
  let* _ := _require_economic_id entry_id (Some LEDGER_ENTRY) None in
  let* _ := _require_economic_id fill_id (Some EXECUTION_FILL) None in
  raise_if negb (bool_decide (id_run_id entry_id = id_run_id fill_id)) with raise_ledger CONFLICTING_ID ;;
  Ok (mkExistingLedgerBinding entry_id fill_id fill_sha256 transaction_sha256).

(** ** Balance of postings *)

(** The running sums of [_postings_sum_to_zero]: per commodity, a coefficient and
    its scale. *)
Definition add_posting (sums : gmap LedgerCommodity (Z * Z)) (p : LedgerPosting)
  : gmap LedgerCommodity (Z * Z) :=
  match sums !! commodity p with
  | None => <[commodity p := (coefficient (posting_amount p), scale (posting_amount p))]> sums
  | Some (c, s) =>
      let target_scale := Z.max s (scale (posting_amount p)) in
      let total := c * 10 ^ (target_scale - s)
                   + coefficient (posting_amount p) * 10 ^ (target_scale - scale (posting_amount p)) in
      <[commodity p := (total, target_scale)]> sums
  end.
Definition _postings_sum_to_zero (postings : list LedgerPosting) : bool :=
  forallb (fun kv : LedgerCommodity * (Z * Z) => kv.2.1 =? 0)
    (map_to_list (fold_left add_posting postings ∅)).

Definition _POSTING_ORDER (a : LedgerAccountKind) : Z :=
  match a with
  | PORTFOLIO_POSITION => 0 | EXTERNAL_INVENTORY => 1 | PORTFOLIO_CASH => 2
  | EXTERNAL_SETTLEMENT => 3 | PORTFOLIO_ROUNDING => 4 | COMMISSION_EXPENSE => 5
  end.

(** [any(commodity != first for commodity in rest)]. *)
Definition commodities_conflict (l : list LedgerCommodity) : bool :=
  match l with [] => false | c :: l => existsb (fun d => negb (bool_decide (d = c))) l end.

Definition _require_postings (postings : list LedgerPosting) : res (list LedgerPosting) :=
  raise_if (length postings <? 2)%nat || (6 <? length postings)%nat with raise_ledger OUT_OF_RANGE ;;
  let order := map (fun p => _POSTING_ORDER (account p)) postings in
  raise_if negb (is_sorted_keys order) || negb (no_duplicates order) with raise_ledger CONFLICTING_ID ;;
  raise_if negb (bool_decide (take 2 order = [0; 1])) with raise_ledger CONFLICTING_ID ;;
  match postings with
  | first :: second :: rest =>
      raise_if negb (bool_decide (commodity first = commodity second))
            || negb (scale (posting_amount first) =? scale (posting_amount second))
            || negb (coefficient (posting_amount first) =? - coefficient (posting_amount second))
        with raise_ledger CONFLICTING_ID ;;
      raise_if commodities_conflict
                 (filter (fun c => is_instrument_commodity c = false) (map commodity rest))
        with raise_ledger CONFLICTING_ID ;;
      raise_if negb (_postings_sum_to_zero postings) with raise_ledger CONFLICTING_ID ;;
      Ok postings
  | _ => Raise (raise_ledger OUT_OF_RANGE)
  end.

(** ** Transactions *)

Record LedgerTransaction : Type := mkLedgerTransaction {
  lt_run_id : RunId;
  lt_entry_id : EconomicId;
  lt_ledger_sequence : Z;
  lt_fill_id : EconomicId;
  lt_fill_sha256 : Sha256Digest;
  lt_fact_key : FactDedupKey;
  lt_provenance : FactProvenance;
  lt_occurred_at : datetime;
  lt_order_id : option EconomicId;
  lt_correlation_id : option EconomicId;
  lt_causation_id : option EconomicId;
  lt_client_submission_key : option Sha256Digest;
  lt_venue_order_id : option VenueOrderId;
  lt_specification_id : InstrumentSpecId;
  lt_spec_set_id : InstrumentSpecSetId;
  lt_spec_set_sha256 : Sha256Digest;
  lt_previous_transaction_sha256 : option Sha256Digest;
  lt_postings : list LedgerPosting;
  lt_requires_reconciliation : bool
}.

Definition missing_ancestry (a b c : option EconomicId) : bool :=
  bool_decide (a = None) || bool_decide (b = None) || bool_decide (c = None).

Definition LedgerTransaction_init (t : LedgerTransaction) : res LedgerTransaction :=
  let* _ := _require_economic_id (lt_entry_id t) (Some LEDGER_ENTRY) (Some (lt_run_id t)) in
  raise_if negb ((1 <=? lt_ledger_sequence t) && (lt_ledger_sequence t <? 2 ^ 64))
    with raise_ledger OUT_OF_RANGE ;;
  raise_if negb (owner_sequence (lt_entry_id t) =? lt_ledger_sequence t) with raise_ledger CONFLICTING_ID ;;
  let* _ := _require_economic_id (lt_fill_id t) (Some EXECUTION_FILL) (Some (lt_run_id t)) in
  let* _ := check_all
              (fun i => match i with
                        | None => Ok tt
                        | Some i => let* _ := _require_economic_id i None (Some (lt_run_id t)) in Ok tt
                        end) [lt_order_id t; lt_correlation_id t; lt_causation_id t] in
  raise_if (lt_ledger_sequence t =? 1) && negb (bool_decide (lt_previous_transaction_sha256 t = None))
    with raise_ledger CONFLICTING_ID ;;
  raise_if negb (lt_ledger_sequence t =? 1) && bool_decide (lt_previous_transaction_sha256 t = None)
    with raise_ledger INVALID_TYPE ;;
  let* _ := _require_postings (lt_postings t) in
  raise_if missing_ancestry (lt_order_id t) (lt_correlation_id t) (lt_causation_id t)
           && negb (lt_requires_reconciliation t) with raise_ledger CONFLICTING_ID ;;
  Ok t.

Record FundingTransaction : Type := mkFundingTransaction {
  ft_run_id : RunId;
  ft_entry_id : EconomicId;
  ft_ledger_sequence : Z;
  ft_funding_sha256 : Sha256Digest;
  ft_currency : SettlementCurrency;
  ft_amount : CanonicalDecimal;
  ft_spec_set_id : InstrumentSpecSetId;
  ft_spec_set_sha256 : Sha256Digest;
  ft_postings : list LedgerPosting
}.

(** ** Snapshots *)

Record PortfolioSnapshot : Type := mkPortfolioSnapshot {
  snap_run_id : RunId;
  snap_spec_set_id : InstrumentSpecSetId;
  snap_spec_set_sha256 : Sha256Digest;
  snapshot_version : Z;
  ledger_sequence : Z;
  last_entry_id : option EconomicId;
  last_transaction_sha256 : option Sha256Digest;
  cash_balances : list CashBalance;
  position_balances : list PositionBalance;
  rounding_balances : list RoundingBalance;
  unresolved_fills : list UnresolvedFillRef;
  open_reconciliation_bindings : list ExistingLedgerBinding;
  open_reconciliation_refs : list OpenReconciliationRef
}.

Definition canonical_keys {K} `{PyOrd K, EqDecision K} (keys : list K) : bool :=
  is_sorted_keys keys && no_duplicates keys.

(** One pass over the open bindings: the entries seen and the map by fill. *)
Fixpoint check_open_bindings (snapshot : PortfolioSnapshot) (l : list ExistingLedgerBinding)
  (open_bindings : gmap EconomicId ExistingLedgerBinding) (open_entry_ids : gset EconomicId)
  : res (gmap EconomicId ExistingLedgerBinding) :=
  match l with
  | [] => Ok open_bindings
  | binding :: l =>
      let* _ := _require_economic_id (binding_entry_id binding) (Some LEDGER_ENTRY)
                  (Some (snap_run_id snapshot)) in
      let* _ := _require_economic_id (binding_fill_id binding) (Some EXECUTION_FILL)
                  (Some (snap_run_id snapshot)) in
      raise_if owner_sequence (binding_entry_id binding) =? 0 with raise_ledger CONFLICTING_ID ;;
      raise_if ledger_sequence snapshot <? owner_sequence (binding_entry_id binding)
        with raise_ledger CONFLICTING_ID ;;
      raise_if (owner_sequence (binding_entry_id binding) =? ledger_sequence snapshot)
               && negb (bool_decide (Some (binding_transaction_sha256 binding)
                                     = last_transaction_sha256 snapshot))
        with raise_ledger CONFLICTING_ID ;;
      raise_if bool_decide (binding_entry_id binding ∈ open_entry_ids) with raise_ledger CONFLICTING_ID ;;
      check_open_bindings snapshot l (<[binding_fill_id binding := binding]> open_bindings)
        ({[binding_entry_id binding]} ∪ open_entry_ids)
  end.

Fixpoint check_open_refs (snapshot : PortfolioSnapshot)
  (open_bindings : gmap EconomicId ExistingLedgerBinding) (l : list OpenReconciliationRef)
  (open_references : gmap EconomicId OpenReconciliationRef)
  : res (gmap EconomicId OpenReconciliationRef) :=
  match l with
  | [] => Ok open_references
  | reference :: l =>
      let* _ := _require_economic_id (open_fill_id reference) (Some EXECUTION_FILL)
                  (Some (snap_run_id snapshot)) in
      raise_if match open_bindings !! open_fill_id reference with
               | None => true
               | Some b => negb (bool_decide (binding_fill_sha256 b = open_fill_sha256 reference))
               end with raise_ledger CONFLICTING_ID ;;
      check_open_refs snapshot open_bindings l (<[open_fill_id reference := reference]> open_references)
  end.

Definition _require_snapshot_tuples (s : PortfolioSnapshot) : res unit :=
  raise_if negb (canonical_keys (map (fun b => value (cash_currency b)) (cash_balances s)))
    with raise_ledger CONFLICTING_ID ;;
  raise_if negb (canonical_keys (map (fun b => instrument_key (position_instrument b)) (position_balances s)))
    with raise_ledger CONFLICTING_ID ;;
  raise_if negb (canonical_keys (map (fun b => value (rounding_currency b)) (rounding_balances s)))
    with raise_ledger CONFLICTING_ID ;;
  raise_if negb (canonical_keys (map (fun b => _economic_id_key (unresolved_fill_id b)) (unresolved_fills s)))
    with raise_ledger CONFLICTING_ID ;;
  raise_if negb (canonical_keys (map (fun b => _economic_id_key (binding_fill_id b))
                                   (open_reconciliation_bindings s)))
    with raise_ledger CONFLICTING_ID ;;
  raise_if negb (canonical_keys (map (fun b => _economic_id_key (open_fill_id b))
                                   (open_reconciliation_refs s)))
    with raise_ledger CONFLICTING_ID ;;
  let* _ := check_all (fun u => let* _ := _require_economic_id (unresolved_fill_id u)
                                           (Some EXECUTION_FILL) (Some (snap_run_id s)) in Ok tt)
              (unresolved_fills s) in
  let* open_bindings := check_open_bindings s (open_reconciliation_bindings s) ∅ ∅ in
  let* open_references := check_open_refs s open_bindings (open_reconciliation_refs s) ∅ in
  raise_if negb (bool_decide (dom (D := gset EconomicId) open_bindings = dom open_references))
    with raise_ledger CONFLICTING_ID ;;
  let unresolved_by_fill : gmap EconomicId Sha256Digest :=
    fold_left (fun m u => <[unresolved_fill_id u := unresolved_fill_sha256 u]> m) (unresolved_fills s) ∅ in
  check_all
    (fun kv : EconomicId * OpenReconciliationRef =>
       raise_if match unresolved_by_fill !! kv.1 with
                | None => false
                | Some d => negb (bool_decide (d = open_fill_sha256 kv.2))
                end with raise_ledger CONFLICTING_ID ;; Ok tt)
    (map_to_list open_references).

Definition is_empty {A} (l : list A) : bool := match l with [] => true | _ => false end.

(** [PortfolioSnapshot.__post_init__]. *)
Definition PortfolioSnapshot_init (s : PortfolioSnapshot) : res PortfolioSnapshot :=
  let* _ := _require_version (snapshot_version s) in
  let* _ := _require_version (ledger_sequence s) in
  raise_if negb (snapshot_version s =? ledger_sequence s) with raise_ledger CONFLICTING_ID ;;
  let* _ := _require_snapshot_tuples s in
  if ledger_sequence s =? 0 then
    raise_if negb (bool_decide (last_entry_id s = None))
          || negb (bool_decide (last_transaction_sha256 s = None)) with raise_ledger CONFLICTING_ID ;;
    raise_if negb (is_empty (cash_balances s) && is_empty (position_balances s)
                   && is_empty (rounding_balances s) && is_empty (unresolved_fills s)
                   && is_empty (open_reconciliation_bindings s)
                   && is_empty (open_reconciliation_refs s)) with raise_ledger CONFLICTING_ID ;;
    Ok s
  else
    match last_entry_id s with
    | None => Raise (raise_ledger INVALID_TYPE)
    | Some e =>
        let* last_entry := _require_economic_id e (Some LEDGER_ENTRY) (Some (snap_run_id s)) in
        raise_if negb (owner_sequence last_entry =? ledger_sequence s) with raise_ledger CONFLICTING_ID ;;
        raise_if bool_decide (last_transaction_sha256 s = None) with raise_ledger INVALID_TYPE ;;
        Ok s
    end.

(** ** Outcomes *)

Record LedgerApplyOutcome : Type := mkLedgerApplyOutcome {
  outcome_run_id : RunId;
  outcome_code : OutcomeCode;
  before_snapshot_version : Z;
  after_snapshot_version : Z;
  outcome_snapshot : PortfolioSnapshot;
  outcome_transaction : option LedgerTransaction;
  submitted_fill_id : EconomicId;
  submitted_fill_sha256 : Sha256Digest;
  conflict_kind : option LedgerConflictKind;
  entry_index_binding : option ExistingLedgerBinding;
  fill_index_binding : option ExistingLedgerBinding;
  fact_index_binding : option ExistingLedgerBinding;
  failure_stage : option LedgerFailureStage
}.


(** [_create_ledger_apply_outcome]: the whole consistency matrix. *)
Definition _create_ledger_apply_outcome (o : LedgerApplyOutcome) : res LedgerApplyOutcome :=
  let code := outcome_code o in
  let before := before_snapshot_version o in
  let after := after_snapshot_version o in
  raise_if negb (permitted _LEDGER_RESULT_CODES code) with AssertionError ;;
  raise_if negb (bool_decide (snap_run_id (outcome_snapshot o) = outcome_run_id o))
        || negb (bool_decide (id_run_id (submitted_fill_id o) = outcome_run_id o)) with AssertionError ;;
  let* _ := _require_version before in
  let* _ := _require_version after in
  raise_if negb (snapshot_version (outcome_snapshot o) =? after) with AssertionError ;;
  let is_applied := bool_decide (code = LEDGER_APPLIED) in
  let is_duplicate := bool_decide (code = LEDGER_DUPLICATE) in
  let is_conflict := bool_decide (code = LEDGER_CONFLICT) in
  raise_if
    (if is_applied then absent (outcome_transaction o) || negb (after =? before + 1)
     else if is_duplicate then absent (outcome_transaction o) || negb (after =? before)
     else negb (after =? before) || negb (absent (outcome_transaction o))) with AssertionError ;;
  raise_if
    (if is_conflict then absent (conflict_kind o) || negb (absent (failure_stage o))
     else negb (absent (entry_index_binding o)) || negb (absent (fill_index_binding o))
          || negb (absent (fact_index_binding o)) || negb (absent (conflict_kind o)))
    with AssertionError ;;
  let is_failure := negb (is_applied || is_duplicate || is_conflict) in
  raise_if negb (Bool.eqb is_failure (negb (absent (failure_stage o)))) with AssertionError ;;
  Ok o.

Record FundingApplyOutcome : Type := mkFundingApplyOutcome {
  fo_run_id : RunId;
  fo_code : OutcomeCode;
  fo_before_snapshot_version : Z;
  fo_after_snapshot_version : Z;
  fo_snapshot : PortfolioSnapshot;
  fo_transaction : option FundingTransaction;
  fo_submitted_funding_sha256 : Sha256Digest;
  fo_existing_funding_sha256 : option Sha256Digest
}.

(** ** Documents *)

Definition _commodity_document (c : LedgerCommodity) : json :=
  match c with
  | InstrumentCommodity i => JDict [("instrument", _instrument_document i); ("kind", JStr "instrument")]%string
  | CurrencyCommodity c => JDict [("currency", JStr (value c)); ("kind", JStr "currency")]%string
  end.
Definition _posting_document (p : LedgerPosting) : json :=
  JDict [("account", JStr (account_value (account p)));
         ("amount", JStr (text (posting_amount p)));
         ("commodity", _commodity_document (commodity p))]%string.
Definition _fact_key_document (k : FactDedupKey) : json :=
  JDict [("dedup_identity", _dedup_document (key_identity k));
         ("source_namespace", JStr (value (key_source k)))]%string.
Definition _binding_document (b : ExistingLedgerBinding) : json :=
  JDict [("entry_id", _economic_id_document (binding_entry_id b));
         ("fill_id", _economic_id_document (binding_fill_id b));
         ("fill_sha256", JStr (value (binding_fill_sha256 b)));
         ("transaction_sha256", JStr (value (binding_transaction_sha256 b)))]%string.
Definition _optional_binding_document : option ExistingLedgerBinding -> json :=
  optional_document _binding_document.
Definition open_ref_document (r : OpenReconciliationRef) : json :=
  JDict [("fill_id", _economic_id_document (open_fill_id r));
         ("fill_sha256", JStr (value (open_fill_sha256 r)));
         ("processing_outcome_sha256", JStr (value (open_processing_outcome_sha256 r)))]%string.

Definition _transaction_document (t : LedgerTransaction) : json :=
  JDict
    [("canonicalization", JStr "ea-ledger-transaction-v1");
     ("causation_id", _optional_id_document (lt_causation_id t));
     ("client_submission_key", optional_text_document (lt_client_submission_key t));
     ("correlation_id", _optional_id_document (lt_correlation_id t));
     ("entry_id", _economic_id_document (lt_entry_id t));
     ("fact_key", _fact_key_document (lt_fact_key t));
     ("fill_id", _economic_id_document (lt_fill_id t));
     ("fill_sha256", JStr (value (lt_fill_sha256 t)));
     ("instrument_specification_id", JStr (value (lt_specification_id t)));
     ("instrument_spec_set_id", JStr (value (lt_spec_set_id t)));
     ("instrument_spec_set_sha256", JStr (value (lt_spec_set_sha256 t)));
     ("ledger_sequence", JInt (lt_ledger_sequence t));
     ("message_type", JStr "ledger_transaction");
     ("occurred_at", JStr (utc_text (lt_occurred_at t)));
     ("order_id", _optional_id_document (lt_order_id t));
     ("postings", JList (map _posting_document (lt_postings t)));
     ("previous_transaction_sha256", optional_text_document (lt_previous_transaction_sha256 t));
     ("provenance", _provenance_document (lt_provenance t));
     ("requires_reconciliation", JBool (lt_requires_reconciliation t));
     ("run_id", JStr (value (lt_run_id t)));
     ("schema_version", JInt 1);
     ("venue_order_id", optional_text_document (lt_venue_order_id t))]%string.

Definition _funding_transaction_document (t : FundingTransaction) : json :=
  JDict
    [("amount", JStr (text (ft_amount t)));
     ("canonicalization", JStr "ea-funding-transaction-v1");
     ("currency", JStr (value (ft_currency t)));
     ("entry_id", _economic_id_document (ft_entry_id t));
     ("funding_sha256", JStr (value (ft_funding_sha256 t)));
     ("instrument_spec_set_id", JStr (value (ft_spec_set_id t)));
     ("instrument_spec_set_sha256", JStr (value (ft_spec_set_sha256 t)));
     ("ledger_sequence", JInt (ft_ledger_sequence t));
     ("message_type", JStr "funding_transaction");
     ("postings", JList (map _posting_document (ft_postings t)));
     ("previous_transaction_sha256", JNull);
     ("run_id", JStr (value (ft_run_id t)));
     ("schema_version", JInt 1)]%string.

(** The entries of the snapshot's lists. *)
Definition cash_document (b : CashBalance) : json :=
  JDict [("amount", JStr (text (cash_amount b)));
         ("currency", JStr (value (cash_currency b)));
         ("currency_quantum", JStr (text (cash_quantum b)))]%string.
Definition position_document (b : PositionBalance) : json :=
  JDict [("instrument", _instrument_document (position_instrument b));
         ("quantity", JStr (text (position_quantity b)));
         ("quantity_quantum", JStr (text (position_quantum b)))]%string.
Definition rounding_document (b : RoundingBalance) : json :=
  JDict [("amount", JStr (text (rounding_amount b)));
         ("currency", JStr (value (rounding_currency b)))]%string.
Definition unresolved_document (r : UnresolvedFillRef) : json :=
  JDict [("fill_id", _economic_id_document (unresolved_fill_id r));
         ("fill_sha256", JStr (value (unresolved_fill_sha256 r)))]%string.

Definition _snapshot_document (s : PortfolioSnapshot) : json :=
  JDict
    [("canonicalization", JStr "ea-portfolio-snapshot-v2");
     ("cash_balances", JList (map cash_document (cash_balances s)));
     ("instrument_spec_set_id", JStr (value (snap_spec_set_id s)));
     ("instrument_spec_set_sha256", JStr (value (snap_spec_set_sha256 s)));
     ("last_entry_id", _optional_id_document (last_entry_id s));
     ("last_transaction_sha256", optional_text_document (last_transaction_sha256 s));
     ("ledger_sequence", JInt (ledger_sequence s));
     ("message_type", JStr "portfolio_snapshot");
     ("open_reconciliation_bindings", JList (map _binding_document (open_reconciliation_bindings s)));
     ("open_reconciliation_refs", JList (map open_ref_document (open_reconciliation_refs s)));
     ("position_balances", JList (map position_document (position_balances s)));
     ("rounding_balances", JList (map rounding_document (rounding_balances s)));
     ("run_id", JStr (value (snap_run_id s)));
     ("schema_version", JInt 2);
     ("snapshot_version", JInt (snapshot_version s));
     ("unresolved_fills", JList (map unresolved_document (unresolved_fills s)))]%string.

Section Digests.
Context `{Sha256}.

Definition canonical_initial_funding_bytes (f : InitialFunding) : str :=
  encode_json (JDict
    [("amount", JStr (text (funding_amount f)));
     ("canonicalization", JStr "ea-initial-funding-v1");
     ("currency", JStr (value (funding_currency f)));
     ("message_type", JStr "initial_funding");
     ("run_id", JStr (value (funding_run_id f)));
     ("schema_version", JInt 1)]%string).
Definition initial_funding_digest (f : InitialFunding) : Sha256Digest :=
  _digest (domain "ea.initial-funding.v1") (canonical_initial_funding_bytes f).

Definition canonical_funding_transaction_bytes (t : FundingTransaction) : str :=
  encode_json (_funding_transaction_document t).
Definition funding_transaction_digest (t : FundingTransaction) : Sha256Digest :=
  _digest (domain "ea.funding-transaction.v1") (canonical_funding_transaction_bytes t).

Definition canonical_ledger_transaction_bytes (t : LedgerTransaction) : str :=
  encode_json (_transaction_document t).
Definition ledger_transaction_digest (t : LedgerTransaction) : Sha256Digest :=
  _digest (domain "ea.ledger-transaction.v1") (canonical_ledger_transaction_bytes t).

Definition canonical_portfolio_snapshot_bytes (s : PortfolioSnapshot) : str :=
  encode_json (_snapshot_document s).
Definition portfolio_snapshot_digest (s : PortfolioSnapshot) : Sha256Digest :=
  _digest (domain "ea.portfolio-snapshot.v2") (canonical_portfolio_snapshot_bytes s).

(** The properties of [LedgerApplyOutcome] and [FundingApplyOutcome]. *)
Definition outcome_snapshot_sha256 (o : LedgerApplyOutcome) : Sha256Digest :=
  portfolio_snapshot_digest (outcome_snapshot o).
Definition outcome_transaction_entry_id (o : LedgerApplyOutcome) : option EconomicId :=
  lt_entry_id <$> outcome_transaction o.
Definition outcome_transaction_sha256 (o : LedgerApplyOutcome) : option Sha256Digest :=
  ledger_transaction_digest <$> outcome_transaction o.

Definition _outcome_document (o : LedgerApplyOutcome) : json :=
  JDict
    [("after_snapshot_version", JInt (after_snapshot_version o));
     ("before_snapshot_version", JInt (before_snapshot_version o));
     ("canonicalization", JStr "ea-ledger-apply-outcome-v1");
     ("code", JStr (outcome_value (outcome_code o)));
     ("conflict_kind", optional_document (fun k => JStr (conflict_value k)) (conflict_kind o));
     ("entry_index_binding", _optional_binding_document (entry_index_binding o));
     ("fact_index_binding", _optional_binding_document (fact_index_binding o));
     ("failure_stage", optional_document (fun k => JStr (stage_value k)) (failure_stage o));
     ("fill_index_binding", _optional_binding_document (fill_index_binding o));
     ("message_type", JStr "ledger_apply_outcome");
     ("run_id", JStr (value (outcome_run_id o)));
     ("schema_version", JInt 1);
     ("snapshot_sha256", JStr (value (outcome_snapshot_sha256 o)));
     ("submitted_fill_id", _economic_id_document (submitted_fill_id o));
     ("submitted_fill_sha256", JStr (value (submitted_fill_sha256 o)));
     ("transaction_entry_id", _optional_id_document (outcome_transaction_entry_id o));
     ("transaction_sha256", optional_text_document (outcome_transaction_sha256 o))]%string.
Definition canonical_ledger_apply_outcome_bytes (o : LedgerApplyOutcome) : str :=
  encode_json (_outcome_document o).
Definition ledger_apply_outcome_digest (o : LedgerApplyOutcome) : Sha256Digest :=
  _digest (domain "ea.ledger-apply-outcome.v1") (canonical_ledger_apply_outcome_bytes o).

Definition canonical_funding_apply_outcome_bytes (o : FundingApplyOutcome) : str :=
  encode_json (JDict
    [("after_snapshot_version", JInt (fo_after_snapshot_version o));
     ("before_snapshot_version", JInt (fo_before_snapshot_version o));
     ("canonicalization", JStr "ea-funding-apply-outcome-v1");
     ("code", JStr (outcome_value (fo_code o)));
     ("existing_funding_sha256", optional_text_document (fo_existing_funding_sha256 o));
     ("message_type", JStr "funding_apply_outcome");
     ("run_id", JStr (value (fo_run_id o)));
     ("schema_version", JInt 1);
     ("snapshot_sha256", JStr (value (portfolio_snapshot_digest (fo_snapshot o))));
     ("submitted_funding_sha256", JStr (value (fo_submitted_funding_sha256 o)));
     ("transaction_sha256",
       optional_text_document (funding_transaction_digest <$> fo_transaction o))]%string).
Definition funding_apply_outcome_digest (o : FundingApplyOutcome) : Sha256Digest :=
  _digest (domain "ea.funding-apply-outcome.v1") (canonical_funding_apply_outcome_bytes o).

Definition _create_funding_transaction (funding : InitialFunding) (entry_id : EconomicId)
  (spec_set_id : InstrumentSpecSetId) (spec_set_sha256 : Sha256Digest)
  (postings : list LedgerPosting) : res FundingTransaction :=
  raise_if negb (bool_decide (id_run_id entry_id = funding_run_id funding))
        || negb (bool_decide (owner_kind entry_id = LEDGER_ENTRY))
        || negb (owner_sequence entry_id =? 1) with AssertionError ;;
  match postings with
  | [first; second] =>
      raise_if negb (bool_decide (account first = PORTFOLIO_CASH))
            || negb (bool_decide (account second = EXTERNAL_SETTLEMENT))
            || negb (bool_decide (commodity first = commodity second))
            || negb (scale (posting_amount first) =? scale (posting_amount second))
            || negb (coefficient (posting_amount first) =? - coefficient (posting_amount second))
        with AssertionError ;;
      Ok {| ft_run_id := funding_run_id funding;
            ft_entry_id := entry_id;
            ft_ledger_sequence := 1;
            ft_funding_sha256 := initial_funding_digest funding;
            ft_currency := funding_currency funding;
            ft_amount := funding_amount funding;
            ft_spec_set_id := spec_set_id;
            ft_spec_set_sha256 := spec_set_sha256;
            ft_postings := postings |}
  | _ => Raise AssertionError
  end.

Definition _create_funding_apply_outcome (funding : InitialFunding) (code : OutcomeCode)
  (before after : Z) (snapshot : PortfolioSnapshot) (transaction : option FundingTransaction)
  (existing_funding_sha256 : option Sha256Digest) : res FundingApplyOutcome :=
  raise_if negb (permitted [LEDGER_APPLIED; LEDGER_CONFLICT] code) with AssertionError ;;
  raise_if negb (bool_decide (snap_run_id snapshot = funding_run_id funding))
        || negb (snapshot_version snapshot =? after) with AssertionError ;;
  raise_if
    (if bool_decide (code = LEDGER_APPLIED) then
       absent transaction || negb (after =? before + 1) || negb (absent existing_funding_sha256)
     else negb (absent transaction) || negb (after =? before)) with AssertionError ;;
  Ok {| fo_run_id := funding_run_id funding;
        fo_code := code;
        fo_before_snapshot_version := before;
        fo_after_snapshot_version := after;
        fo_snapshot := snapshot;
        fo_transaction := transaction;
        fo_submitted_funding_sha256 := initial_funding_digest funding;
        fo_existing_funding_sha256 := existing_funding_sha256 |}.
End Digests.
