(* ===== verification/RiskAuthority.v ===== *)
(** The pre-trade risk authority ([risk/authority.py]): the sole owner of risk decisions,
    of the approvals they carry and of the halt.

    [evaluate] replays a known intent, engages the halt when its identity comes back with
    other bytes, and otherwise checks the intent's lineage, sizes it against the order
    and position limits and registers one decision.  An identity conflict changes the
    state and then raises, so an operation returns its result and the state it leaves. *)

From S2P Require Import Prelude PyRegex PyText Outcomes Json Identity Indexing Economics Commission.
From S2P Require Import Execution Messages Orders Decoders Portfolio Risk.

Open Scope Z_scope.

Definition _ERROR_CODES : list OutcomeCode := [INVALID_TYPE; OUT_OF_RANGE; NOT_QUANTIZED; CONFLICTING_ID].
(** [raise RiskAuthorityError(code, ...)]. *)
Definition raise_authority (c : OutcomeCode) : exn :=
  if permitted _ERROR_CODES c then RiskAuthorityError c else TypeError.

Definition _raise_structural (c : OutcomeCode) : exn :=
  match c with
  | INVALID_TYPE => raise_authority INVALID_TYPE
  | NOT_QUANTIZED => raise_authority NOT_QUANTIZED
  | CONFLICTING_ID => raise_authority CONFLICTING_ID
  | OUT_OF_RANGE | NON_FINITE | PRICE_DOMAIN | ARITHMETIC_OVERFLOW => raise_authority OUT_OF_RANGE
  | _ => AssertionError
  end.
(** [except (ExecutionMessageError, RiskContractError, EconomicValidationError) as error:
    _raise_structural(error)]. *)
Definition structurally {A} (m : res A) : res A :=
  match m with
  | Raise (ExecutionMessageError c) | Raise (RiskContractError c) | Raise (EconomicValidationError c) =>
      Raise (_raise_structural c)
  | _ => m
  end.

(** ** State *)

Record _ReplayRecord : Type := mkReplayRecord {
  rp_intent_sha256 : Sha256Digest;
  rp_intent_bytes : str;
  rp_portfolio_snapshot_sha256 : Sha256Digest;
  rp_decision : RiskDecision;
  rp_decision_bytes : str;
  rp_evidence : RiskEvaluationEvidence;
  rp_evidence_bytes : str;
  rp_result : RiskEvaluationResult
}.

Record _AuthorityState : Type := mkAuthorityState {
  risk_state : RiskStateSnapshot;
  decision_next : option Z;
  approval_next : option Z;
  replay_index : gmap EconomicId _ReplayRecord;
  decisions : list RiskDecision;
  evidence : list RiskEvaluationEvidence;
  results : list RiskEvaluationResult
}.

(** What the authority is bound to when it is created. *)
Record RiskAuthorityContext : Type := mkRiskContext {
  ra_run_id : RunId;
  ra_spec_set : InstrumentExecutionSpecSet;
  ra_spec_set_sha256 : Sha256Digest;
  ra_execution_policy : ExecutionPolicyRef;
  ra_policy : Phase1RiskPolicy;
  limit_by_instrument : gmap Instrument InstrumentRiskLimit;
  spec_by_instrument : gmap Instrument InstrumentExecutionSpec;
  currency_quanta : gmap SettlementCurrency CanonicalDecimal
}.

Definition with_risk_state (st : _AuthorityState) (next : RiskStateSnapshot) : _AuthorityState :=
  {| risk_state := next; decision_next := decision_next st; approval_next := approval_next st;
     replay_index := replay_index st; decisions := decisions st; evidence := evidence st;
     results := results st |}.

(** ** Arithmetic *)

Definition _advance (v : Z) : res (option Z) :=
  raise_if (v <? 1) || (MAX_UINT64 <? v) with AssertionError ;;
  Ok (if v =? MAX_UINT64 then None else Some (v + 1)).

(** Python's [min] and [max] of two decimals: the first argument unless the second wins. *)
Definition py_min (a b : CanonicalDecimal) : res CanonicalDecimal :=
  let* lt := decimal_lt b a in Ok (if lt then b else a).
Definition py_max (a b : CanonicalDecimal) : res CanonicalDecimal :=
  let* gt := decimal_gt b a in Ok (if gt then b else a).

Definition _add_decimal (left right : CanonicalDecimal) (right_sign : Z) : res CanonicalDecimal :=
  raise_if negb (right_sign =? -1) && negb (right_sign =? 1) with AssertionError ;;
  let s := Z.max (scale left) (scale right) in
  let c := coefficient left * 10 ^ (s - scale left)
           + right_sign * coefficient right * 10 ^ (s - scale right) in
  decimal_of_text (_scaled_text c s).

Definition _side_capacity (maximum current : CanonicalDecimal) (side : OrderSide) : res CanonicalDecimal :=
  let* value := match side with
                | BUY => _add_decimal maximum current (-1)
                | SELL => _add_decimal maximum current 1
                end in
  py_max CANONICAL_0 value.

Fixpoint position_in (balances : list PositionBalance) (i : Instrument) : CanonicalDecimal :=
  match balances with
  | [] => CANONICAL_0
  | b :: balances => if bool_decide (position_instrument b = i) then position_quantity b
                     else position_in balances i
  end.
Definition _position_for (snapshot : PortfolioSnapshot) (i : Instrument) : CanonicalDecimal :=
  position_in (position_balances snapshot) i.

(** The kind and the reason of a positive approved quantity. *)
Definition sized_reason (quantity maximum_order side_capacity approved : CanonicalDecimal)
  : res (RiskDecisionKind * RiskReasonCode) :=
  if bool_decide (approved = quantity) then Ok (ALLOW, WITHIN_LIMITS)
  else
    let* order_below := decimal_lt maximum_order quantity in
    let order_binds := order_below && bool_decide (maximum_order = approved) in
    let* position_below := decimal_lt side_capacity quantity in
    let position_binds := position_below && bool_decide (side_capacity = approved) in
    if order_binds && position_binds then Ok (RESIZE, RESIZED_ORDER_AND_POSITION_LIMITS)
    else if order_binds then Ok (RESIZE, RESIZED_ORDER_LIMIT)
    else if position_binds then Ok (RESIZE, RESIZED_POSITION_LIMIT)
    else Raise AssertionError.

(** ** Lineage *)

(** [try: require_quantized(...) except EconomicValidationError: return False]. *)
Definition is_quantized (v quantum : CanonicalDecimal) : res bool :=
  catch_economic (let* _ := require_quantized v quantum in Ok true) (fun _ => Ok false).

Fixpoint positions_match (context : RiskAuthorityContext) (balances : list PositionBalance) : res bool :=
  match balances with
  | [] => Ok true
  | b :: balances =>
      match spec_by_instrument context !! position_instrument b with
      | None => Ok false
      | Some specification =>
          if negb (bool_decide (position_quantum b = quantity_quantum specification)) then Ok false
          else
            let* quantized := is_quantized (position_quantity b) (quantity_quantum specification) in
            if quantized then positions_match context balances else Ok false
      end
  end.
Fixpoint cash_match (context : RiskAuthorityContext) (balances : list CashBalance) : res bool :=
  match balances with
  | [] => Ok true
  | b :: balances =>
      match currency_quanta context !! cash_currency b with
      | None => Ok false
      | Some quantum =>
          if negb (bool_decide (cash_quantum b = quantum)) then Ok false
          else
            let* quantized := is_quantized (cash_amount b) quantum in
            if quantized then cash_match context balances else Ok false
      end
  end.
Definition _snapshot_balances_match (context : RiskAuthorityContext) (snapshot : PortfolioSnapshot) : res bool :=
  let* positions := positions_match context (position_balances snapshot) in
  if negb positions then Ok false
  else
    let* cash := cash_match context (cash_balances snapshot) in
    if negb cash then Ok false
    else Ok (forallb (fun b => negb (absent (currency_quanta context !! rounding_currency b)))
               (rounding_balances snapshot)).

Definition _classify_lineage_failure (context : RiskAuthorityContext) (intent : OrderIntent)
  (snapshot : PortfolioSnapshot) : res (option RiskReasonCode) :=
  if negb (bool_decide (oi_execution_policy intent = ra_execution_policy context)) then Ok (Some LINEAGE_MISMATCH)
  else if negb (bool_decide (snap_run_id snapshot = ra_run_id context))
          || negb (bool_decide (snap_run_id snapshot = oi_run_id intent)) then Ok (Some LINEAGE_MISMATCH)
  else if negb (bool_decide (snap_spec_set_id snapshot = spec_set_identifier (ra_spec_set context)))
          || negb (bool_decide (snap_spec_set_sha256 snapshot = ra_spec_set_sha256 context))
       then Ok (Some LINEAGE_MISMATCH)
  else if snapshot_version snapshot <? oi_portfolio_snapshot_version intent
       then Ok (Some STALE_PORTFOLIO_SNAPSHOT)
  else if oi_portfolio_snapshot_version intent <? snapshot_version snapshot then Ok (Some LINEAGE_MISMATCH)
  else
    let* balances := _snapshot_balances_match context snapshot in
    Ok (if negb balances then Some LINEAGE_MISMATCH else None).

Definition _require_structural_intent (context : RiskAuthorityContext) (intent : OrderIntent)
  : res InstrumentExecutionSpec :=
  raise_if negb (bool_decide (oi_run_id intent = ra_run_id context)) with raise_authority CONFLICTING_ID ;;
  raise_if negb (bool_decide (oi_spec_set_id intent = spec_set_identifier (ra_spec_set context)))
        || negb (bool_decide (oi_spec_set_sha256 intent = ra_spec_set_sha256 context))
    with raise_authority CONFLICTING_ID ;;
  match spec_by_instrument context !! oi_instrument intent with
  | None => Raise (raise_authority CONFLICTING_ID)
  | Some specification =>
      raise_if negb (bool_decide (oi_specification_id intent = specification_id specification))
        with raise_authority CONFLICTING_ID ;;
      let* _ := catch_economic (let* _ := require_positive (oi_quantity intent) in
                                require_quantized (oi_quantity intent) (quantity_quantum specification))
                  (fun c => Raise (_raise_structural c)) in
      Ok specification
  end.

Section Authority.
Context `{hash : Sha256}.

(** ** Registering a decision *)

(** The approval allocated to an executable decision; a decision whose approval sequence
    is exhausted becomes an evaluation failure. *)
Record _Allocation : Type := mkAllocation {
  al_kind : RiskDecisionKind;
  al_reason : RiskReasonCode;
  al_quantity : option CanonicalDecimal;
  al_approval_id : option EconomicId;
  al_approval_after : option Z
}.
Definition allocate_approval (context : RiskAuthorityContext) (st : _AuthorityState)
  (kind : RiskDecisionKind) (reason : RiskReasonCode) (quantity : option CanonicalDecimal) : res _Allocation :=
  if executable_kind kind then
    match approval_next st with
    | None => Ok (mkAllocation EVALUATION_FAILED APPROVAL_SEQUENCE_EXHAUSTED None None None)
    | Some before =>
        let* after := _advance before in
        let* i := EconomicId_init (ra_run_id context) RISK_APPROVAL before in
        Ok (mkAllocation kind reason quantity (Some i) after)
    end
  else Ok (mkAllocation kind reason quantity None (approval_next st)).

Definition decide_intent (context : RiskAuthorityContext) (st : _AuthorityState) (intent : OrderIntent)
  (decision_id : EconomicId) (a : _Allocation) : res RiskDecision :=
  let version := rs_version (risk_state st) in
  match al_kind a, al_approval_id a, al_quantity a with
  | ALLOW, Some approval_id, _ =>
      allow_order_intent decision_id approval_id intent (ra_spec_set context) version
  | RESIZE, Some approval_id, Some quantity =>
      resize_order_intent decision_id approval_id intent quantity (ra_spec_set context) version
  | REJECT, _, _ => reject_order_intent decision_id intent (ra_spec_set context) version
  | EVALUATION_FAILED, _, _ => fail_order_intent_evaluation decision_id intent (ra_spec_set context) version
  | _, _, _ => Raise AssertionError
  end.

Definition registered_state (st : _AuthorityState) (intent : OrderIntent)
  (decision_after approval_after : option Z) (record : _ReplayRecord) : _AuthorityState :=
  {| risk_state := risk_state st;
     decision_next := decision_after;
     approval_next := approval_after;
     replay_index := <[oi_intent_id intent := record]> (replay_index st);
     decisions := decisions st ++ [rp_decision record];
     evidence := evidence st ++ [rp_evidence record];
     results := results st ++ [rp_result record] |}.

Definition _register (context : RiskAuthorityContext) (st : _AuthorityState) (intent : OrderIntent)
  (intent_bytes : str) (intent_sha256 : Sha256Digest) (portfolio_snapshot_version : Z)
  (portfolio_snapshot_sha256 : Sha256Digest) (kind : RiskDecisionKind) (reason : RiskReasonCode)
  (approved_quantity : option CanonicalDecimal) : res (RiskEvaluationResult * _AuthorityState) :=
  match decision_next st with
  | None => Raise (raise_authority OUT_OF_RANGE)
  | Some before =>
      let* after := _advance before in
      let* decision_id := EconomicId_init (ra_run_id context) RISK_DECISION before in
      let* a := allocate_approval context st kind reason approved_quantity in
      let* record :=
        structurally (
          let* decision := decide_intent context st intent decision_id a in
          let* proof := _create_risk_evaluation_evidence decision intent_sha256 portfolio_snapshot_version
                          portfolio_snapshot_sha256 (ra_policy context) (rs_version (risk_state st))
                          (al_reason a) (Some before) after (approval_next st) (al_approval_after a) in
          let* result := _create_risk_evaluation_result decision proof in
          Ok {| rp_intent_sha256 := intent_sha256;
                rp_intent_bytes := intent_bytes;
                rp_portfolio_snapshot_sha256 := portfolio_snapshot_sha256;
                rp_decision := decision;
                rp_decision_bytes := canonical_risk_decision_bytes decision;
                rp_evidence := proof;
                rp_evidence_bytes := canonical_risk_evaluation_evidence_bytes proof;
                rp_result := result |}) in
      Ok (rp_result record, registered_state st intent after (al_approval_after a) record)
  end.

(** ** Evaluating an intent *)

(** [min(intent.quantity, limit.maximum_order_quantity, side_capacity)]. *)
Definition approved_of (quantity maximum_order side_capacity : CanonicalDecimal) : res CanonicalDecimal :=
  let* q := py_min quantity maximum_order in py_min q side_capacity.

(** The verdict on an intent whose lineage holds while no halt is engaged. *)
Definition size_intent (limit : option InstrumentRiskLimit) (snapshot : PortfolioSnapshot)
  (intent : OrderIntent) : res (RiskDecisionKind * RiskReasonCode * option CanonicalDecimal) :=
  match limit with
  | None => Ok (REJECT, INSTRUMENT_NOT_CONFIGURED, None)
  | Some limit =>
      let current := _position_for snapshot (oi_instrument intent) in
      match _side_capacity (maximum_absolute_position limit) current (oi_side intent) with
      | Raise (EconomicValidationError _) => Ok (EVALUATION_FAILED, ARITHMETIC_FAILURE, None)
      | Raise e => Raise e
      | Ok side_capacity =>
          let* approved := approved_of (oi_quantity intent) (maximum_order_quantity limit) side_capacity in
          if coefficient approved =? 0 then Ok (REJECT, NO_POSITION_CAPACITY, None)
          else
            let* sized := sized_reason (oi_quantity intent) (maximum_order_quantity limit) side_capacity approved in
            Ok (sized.1, sized.2, Some approved)
      end
  end.

(** Lineage first, then the halt, then the limits. *)
Definition verdict_on (context : RiskAuthorityContext) (st : _AuthorityState) (intent : OrderIntent)
  (snapshot : PortfolioSnapshot) : res (RiskDecisionKind * RiskReasonCode * option CanonicalDecimal) :=
  let* failure_reason := _classify_lineage_failure context intent snapshot in
  match failure_reason with
  | Some reason => Ok (EVALUATION_FAILED, reason, None)
  | None =>
      if halted (risk_state st) then Ok (REJECT, HALTED, None)
      else size_intent (limit_by_instrument context !! oi_instrument intent) snapshot intent
  end.

(** [evaluate] on an intent whose identity is new. *)
Definition evaluate_new (context : RiskAuthorityContext) (st : _AuthorityState) (intent : OrderIntent)
  (snapshot : PortfolioSnapshot) : res (RiskEvaluationResult * _AuthorityState) :=
  let* _ := _require_structural_intent context intent in
  raise_if absent (decision_next st) with raise_authority OUT_OF_RANGE ;;
  let* verdict := verdict_on context st intent snapshot in
  _register context st intent (canonical_order_intent_bytes intent) (order_intent_digest intent)
    (snapshot_version snapshot) (portfolio_snapshot_digest snapshot) verdict.1.1 verdict.1.2 verdict.2.

Definition _engage_identity_conflict (context : RiskAuthorityContext) (st : _AuthorityState)
  (intent : OrderIntent) (existing submitted : Sha256Digest) : exn * _AuthorityState :=
  if halted (risk_state st) then (raise_authority CONFLICTING_ID, st)
  else
    match _create_risk_state_snapshot (ra_run_id context) (policy_id (ra_policy context))
            (phase1_risk_policy_digest (ra_policy context)) 1 true (Some INTENT_IDENTITY_CONFLICT)
            (Some (at_utc (oi_causal_root_available_at intent))) (Some (oi_dispatch_sequence intent))
            (Some existing) (Some submitted) with
    | Ok next => (raise_authority CONFLICTING_ID, with_risk_state st next)
    | Raise e => (e, st)
    end.

Definition evaluate (context : RiskAuthorityContext) (st : _AuthorityState) (intent : OrderIntent)
  (snapshot : PortfolioSnapshot) : res RiskEvaluationResult * _AuthorityState :=
  if oi_dispatch_sequence intent <? 0 then (Raise (raise_authority OUT_OF_RANGE), st)
  else
    match replay_index st !! oi_intent_id intent with
    | Some existing =>
        if bool_decide (rp_intent_bytes existing = canonical_order_intent_bytes intent)
        then (Ok (rp_result existing), st)
        else
          let '(e, st) := _engage_identity_conflict context st intent (rp_intent_sha256 existing)
                            (order_intent_digest intent) in
          (Raise e, st)
    | None =>
        match evaluate_new context st intent snapshot with
        | Ok (result, next) => (Ok result, next)
        | Raise e => (Raise e, st)
        end
    end.

(** ** The halt *)

Definition engage_halt (context : RiskAuthorityContext) (st : _AuthorityState) (reason : RiskHaltReason)
  (causal_root_available_at : datetime * option Z) (dispatch_sequence : Z)
  : res (RiskStateSnapshot * _AuthorityState) :=
  raise_if bool_decide (reason = INTENT_IDENTITY_CONFLICT) with raise_authority OUT_OF_RANGE ;;
  let* canonical_time := match require_utc causal_root_available_at.1 causal_root_available_at.2 with
                         | Ok t => Ok t
                         | Raise _ => Raise (raise_authority OUT_OF_RANGE)
                         end in
  raise_if dispatch_sequence <? 0 with raise_authority OUT_OF_RANGE ;;
  if halted (risk_state st) then Ok (risk_state st, st)
  else
    let* next := _create_risk_state_snapshot (ra_run_id context) (policy_id (ra_policy context))
                   (phase1_risk_policy_digest (ra_policy context)) 1 true (Some reason)
                   (Some (at_utc canonical_time)) (Some dispatch_sequence) None None in
    Ok (next, with_risk_state st next).

(** ** Membership *)

Definition has_issued_result (st : _AuthorityState) (intent_id : EconomicId)
  (intent_bytes decision_bytes evidence_bytes : str) : bool :=
  match replay_index st !! intent_id with
  | None => false
  | Some record =>
      bool_decide (rp_intent_bytes record = intent_bytes)
      && bool_decide (rp_decision_bytes record = decision_bytes)
      && bool_decide (rp_evidence_bytes record = evidence_bytes)
  end.

(** ** Creation *)

(** [currency_quanta]: one quantum per currency. *)
Fixpoint collect_quanta (specs : list InstrumentExecutionSpec)
  (quanta : gmap SettlementCurrency CanonicalDecimal) : res (gmap SettlementCurrency CanonicalDecimal) :=
  match specs with
  | [] => Ok quanta
  | s :: specs =>
      raise_if match quanta !! settlement_currency s with
               | Some existing => negb (bool_decide (existing = currency_quantum s))
               | None => false
               end with raise_authority CONFLICTING_ID ;;
      collect_quanta specs (<[settlement_currency s := currency_quantum s]> quanta)
  end.

Definition create_phase1_risk_authority (run_id : RunId) (spec_set : InstrumentExecutionSpecSet)
  (execution_policy : ExecutionPolicyRef) (policy : Phase1RiskPolicy)
  : res (RiskAuthorityContext * _AuthorityState) :=
  let spec_set_sha256 := instrument_spec_set_digest spec_set in
  raise_if negb (bool_decide (policy_spec_set_id policy = spec_set_identifier spec_set))
        || negb (bool_decide (policy_spec_set_sha256 policy = spec_set_sha256))
        || negb (bool_decide (policy_execution_policy policy = execution_policy))
    with raise_authority CONFLICTING_ID ;;
  let* quanta := collect_quanta (specifications spec_set) ∅ in
  let* initial := _create_risk_state_snapshot run_id (policy_id policy) (phase1_risk_policy_digest policy)
                    0 false None None None None None in
  Ok ({| ra_run_id := run_id;
         ra_spec_set := spec_set;
         ra_spec_set_sha256 := spec_set_sha256;
         ra_execution_policy := execution_policy;
         ra_policy := policy;
         limit_by_instrument := index_by limit_instrument (instrument_limits policy);
         spec_by_instrument := index_by spec_instrument (specifications spec_set);
         currency_quanta := quanta |},
      {| risk_state := initial;
         decision_next := Some 1;
         approval_next := Some 1;
         replay_index := ∅;
         decisions := [];
         evidence := [];
         results := [] |}).
End Authority.
