(* ===== verification/RiskSpec.v ===== *)
(** The specification of the risk authority: the policy as a function on integers, which
    the sizing of an intent computes exactly; one evaluation as a relation; and the
    reachable states. *)

From S2P Require Import Prelude PyRegex PyText Outcomes Json Identity Numbering Economics Commission Execution.
From S2P Require Import Messages Orders Decoders Portfolio Risk RiskAuthority.

Open Scope Z_scope.

(** ** The policy on integers *)

(** What the position may still move on one side, in units of [10^-18]. *)
Definition room (side : OrderSide) (maximum position : Z) : Z :=
  match side with BUY => maximum - position | SELL => maximum + position end.
Definition moved (side : OrderSide) (position quantity : Z) : Z :=
  match side with BUY => position + quantity | SELL => position - quantity end.

Definition verdict : Type := RiskDecisionKind * RiskReasonCode * option Z.

(** Approve as much as the order limit and the room allow; [limit] is the pair of limits. *)
Definition policy_verdict (limit : option (Z * Z)) (position : Z) (side : OrderSide) (quantity : Z) : verdict :=
  match limit with
  | None => (REJECT, INSTRUMENT_NOT_CONFIGURED, None)
  | Some (maximum_order, maximum_position) =>
      let r := room side maximum_position position in
      if UNIT_BOUND <=? Z.abs r then (EVALUATION_FAILED, ARITHMETIC_FAILURE, None)
      else
        let capacity := Z.max 0 r in
        let approved := Z.min quantity (Z.min maximum_order capacity) in
        if approved =? 0 then (REJECT, NO_POSITION_CAPACITY, None)
        else if approved =? quantity then (ALLOW, WITHIN_LIMITS, Some approved)
        else
          (RESIZE,
           match maximum_order ?= capacity with
           | Eq => RESIZED_ORDER_AND_POSITION_LIMITS
           | Lt => RESIZED_ORDER_LIMIT
           | Gt => RESIZED_POSITION_LIMIT
           end, Some approved)
  end.

Definition limit_units (l : InstrumentRiskLimit) : Z * Z :=
  (units (maximum_order_quantity l), units (maximum_absolute_position l)).
Definition verdict_units (v : RiskDecisionKind * RiskReasonCode * option CanonicalDecimal) : verdict :=
  (v.1, units <$> v.2).

(** ** Sizing computes the policy *)

Lemma decimal_eqb a b : bool_decide (a = b) = (units a =? units b).
Proof.
  destruct (Z.eqb_spec (units a) (units b)) as [H|H].
  - apply bool_decide_eq_true. by apply units_inj.
  - apply bool_decide_eq_false. by intros ->.
Qed.

Lemma py_min_units a b : exists m, py_min a b = Ok m /\ units m = Z.min (units a) (units b) /\ (m = a \/ m = b).
Proof.
  unfold py_min. rewrite decimal_lt_units. cbn [rbind].
  destruct (Z.ltb_spec (units b) (units a)); eexists; (split; [done|]); split; auto; lia.
Qed.
Lemma py_max_units a b : exists m, py_max a b = Ok m /\ units m = Z.max (units a) (units b) /\ (m = a \/ m = b).
Proof.
  unfold py_max. rewrite decimal_gt_units. cbn [rbind].
  destruct (Z.ltb_spec (units a) (units b)); eexists; (split; [done|]); split; auto; lia.
Qed.

Lemma add_decimal_units a b s : s = 1 \/ s = -1 ->
  (exists d, _add_decimal a b s = Ok d /\ units d = units a + s * units b) \/
  (_add_decimal a b s = Raise (EconomicValidationError OUT_OF_RANGE) /\
   UNIT_BOUND <= Z.abs (units a + s * units b)).
Proof.
  intros Hs. unfold _add_decimal.
  replace (negb (s =? -1) && negb (s =? 1)) with false by (destruct Hs as [->| ->]; done).
  set (t := Z.max (scale a) (scale b)). set (c := _ + _).
  destruct (decimal_bounds a) as [Ha _], (decimal_bounds b) as [Hb _].
  assert (c * 10 ^ (18 - t) = units a + s * units b) as Hc.
  { unfold c. rewrite <-(coefficient_at a t), <-(coefficient_at b t) by lia. ring. }
  assert (10 ^ t * 10 ^ (18 - t) = 10 ^ 18) as Hp by (rewrite <-pow10_add by lia; f_equal; lia).
  assert (c * 10 ^ 18 = (units a + s * units b) * 10 ^ t) as Heq by (rewrite <-Hc, <-Hp; ring).
  pose proof (pow10_gt0 t ltac:(lia)).
  destruct (scaled_text_spec c t ltac:(lia)) as [(d & -> & Hd)|[-> Hno]]; [left|right].
  - exists d. split; [done|]. nia.
  - split; [done|]. destruct (Z_lt_le_dec (Z.abs (units a + s * units b)) UNIT_BOUND) as [Hlt|]; [|done].
    by destruct (Hno _ Hlt).
Qed.

Lemma side_capacity_units maximum current side :
  let r := room side (units maximum) (units current) in
  (Z.abs r < UNIT_BOUND /\ exists c, _side_capacity maximum current side = Ok c /\ units c = Z.max 0 r) \/
  (UNIT_BOUND <= Z.abs r /\ _side_capacity maximum current side = Raise (EconomicValidationError OUT_OF_RANGE)).
Proof.
  intros r. unfold _side_capacity.
  assert (exists s, (s = 1 \/ s = -1) /\ r = units maximum + s * units current /\
    match side with BUY => _add_decimal maximum current (-1) | SELL => _add_decimal maximum current 1 end
    = _add_decimal maximum current s) as (s & Hs & Hr & ->).
  { destruct side; [exists (-1)|exists 1]; (split; [auto|]); (split; [|done]); subst r; cbn [room]; lia. }
  destruct (add_decimal_units maximum current s Hs) as [(d & -> & Hd)|[-> Hb]]; cbn [rbind].
  - left. rewrite Hr, <-Hd. split; [apply units_bound|].
    destruct (py_max_units CANONICAL_0 d) as (c & -> & Hc & _). exists c. split; [done|]. exact Hc.
  - right. by rewrite Hr.
Qed.

Lemma approved_of_units a b c : exists q, approved_of a b c = Ok q /\
  units q = Z.min (units a) (Z.min (units b) (units c)) /\ (q = a \/ q = b \/ q = c).
Proof.
  unfold approved_of. destruct (py_min_units a b) as (m & -> & Hm & Hin). cbn [rbind].
  destruct (py_min_units m c) as (q & -> & Hq & Hin'). exists q. split; [done|]. split; [lia|].
  destruct Hin' as [->| ->]; tauto.
Qed.

Lemma sized_reason_units a b c q : units q = Z.min (units a) (Z.min (units b) (units c)) ->
  sized_reason a b c q =
  Ok (if units q =? units a then (ALLOW, WITHIN_LIMITS)
      else (RESIZE, match units b ?= units c with
                    | Eq => RESIZED_ORDER_AND_POSITION_LIMITS
                    | Lt => RESIZED_ORDER_LIMIT
                    | Gt => RESIZED_POSITION_LIMIT
                    end)).
Proof.
  intros Hq. unfold sized_reason. rewrite !decimal_eqb, !decimal_lt_units. cbn [rbind].
  destruct (Z.eqb_spec (units q) (units a)); [done|].
  destruct (Z.compare_spec (units b) (units c)) as [H|H|H].
  - rewrite !(proj2 (Z.ltb_lt _ _)), !(proj2 (Z.eqb_eq _ _)) by lia. done.
  - rewrite !(proj2 (Z.ltb_lt (units b) _)), !(proj2 (Z.eqb_eq (units b) _)), !(proj2 (Z.eqb_neq (units c) _)) by lia.
    by rewrite andb_false_r.
  - rewrite !(proj2 (Z.ltb_lt (units c) _)), !(proj2 (Z.eqb_eq (units c) _)), !(proj2 (Z.eqb_neq (units b) _)) by lia.
    by rewrite andb_false_r.
Qed.

(** The code's sizing is the integer policy; no assertion of it fails. *)
Lemma size_intent_policy limit snapshot intent : exists v,
  size_intent limit snapshot intent = Ok v /\
  verdict_units v = policy_verdict (limit_units <$> limit)
    (units (_position_for snapshot (oi_instrument intent))) (oi_side intent) (units (oi_quantity intent)).
Proof.
  destruct limit as [limit|]; [|by eexists]. cbn [size_intent fmap option_fmap option_map limit_units].
  unfold policy_verdict, limit_units.
  destruct (side_capacity_units (maximum_absolute_position limit) (_position_for snapshot (oi_instrument intent))
    (oi_side intent)) as [(Hb & c & -> & Hc)|[Hb ->]].
  2:{ rewrite (proj2 (Z.leb_le _ _) Hb). by eexists. }
  rewrite (proj2 (Z.leb_gt _ _) Hb), <-Hc.
  destruct (approved_of_units (oi_quantity intent) (maximum_order_quantity limit) c) as (q & -> & Hq & _).
  cbn [rbind]. rewrite coefficient_zero, <-Hq.
  destruct (Z.eqb_spec (units q) 0); [by eexists|].
  rewrite (sized_reason_units _ _ _ _ Hq). cbn [rbind].
  destruct (Z.eqb_spec (units q) (units (oi_quantity intent))); by eexists.
Qed.

(** ** What the policy guarantees *)

(** The approved quantity is positive, no larger than asked or than the order limit, and
    leaves the position within the absolute limit on the side it moves to. *)
Definition approves_within (limit : Z * Z) (position : Z) (side : OrderSide) (quantity approved : Z) : Prop :=
  0 < approved <= quantity /\ approved <= limit.1 /\
  match side with
  | BUY => moved side position approved <= limit.2
  | SELL => - limit.2 <= moved side position approved
  end.

Lemma policy_verdict_within limit position side quantity k r q : 0 < quantity ->
  (forall l, limit = Some l -> 0 < l.1) ->
  policy_verdict limit position side quantity = (k, r, Some q) ->
  exists l, limit = Some l /\ approves_within l position side quantity q.
Proof.
  intros Hq Hl. destruct limit as [[o m]|]; [|done]. specialize (Hl _ eq_refl). cbn [fst] in Hl.
  unfold policy_verdict. destruct (_ <=? _); [done|].
  destruct (Z.eqb_spec (Z.min quantity (Z.min o (Z.max 0 (room side m position)))) 0) as [|Hn]; [done|].
  intros H. assert (q = Z.min quantity (Z.min o (Z.max 0 (room side m position)))) as ->.
  { destruct (_ =? quantity) in H; congruence. }
  exists (o, m). split; [done|]. unfold approves_within, moved. cbn [fst snd]. destruct side; cbn [room] in *; lia.
Qed.

(** A verdict carries a quantity exactly when it is executable. *)
Lemma policy_verdict_executable limit position side quantity k r q :
  policy_verdict limit position side quantity = (k, r, q) ->
  executable_kind k = negb (absent q) /\ r ∈ _REASONS_BY_KIND k /\
  (k = ALLOW -> q = Some quantity) /\ (k = RESIZE -> q <> Some quantity).
Proof.
  destruct limit as [[o m]|]; cbn [policy_verdict].
  2:{ intros [= <- <- <-]. split_and!; try done. by repeat constructor. }
  destruct (_ <=? _).
  { intros [= <- <- <-]. split_and!; try done. by repeat constructor. }
  destruct (Z.eqb_spec (Z.min quantity (Z.min o (Z.max 0 (room side m position)))) 0) as [|Hn].
  { intros [= <- <- <-]. split_and!; try done. by repeat constructor. }
  destruct (Z.eqb_spec (Z.min quantity (Z.min o (Z.max 0 (room side m position)))) quantity) as [He|Hne].
  - intros [= <- <- <-]. split_and!; try done; [by repeat constructor|]. by rewrite He.
  - intros [= <- <- <-]. split_and!; try done; [|congruence]. by destruct (o ?= _); repeat constructor.
Qed.

(** ** One evaluation *)

Section Spec.
Context `{hash : Sha256} (context : RiskAuthorityContext).

(** The record of a new decision. *)
Definition record_of (intent : OrderIntent) (snapshot : PortfolioSnapshot) (d : RiskDecision)
  (proof : RiskEvaluationEvidence) : _ReplayRecord :=
  {| rp_intent_sha256 := order_intent_digest intent;
     rp_intent_bytes := canonical_order_intent_bytes intent;
     rp_portfolio_snapshot_sha256 := portfolio_snapshot_digest snapshot;
     rp_decision := d;
     rp_decision_bytes := canonical_risk_decision_bytes d;
     rp_evidence := proof;
     rp_evidence_bytes := canonical_risk_evaluation_evidence_bytes proof;
     rp_result := mkRiskResult d proof |}.

Section Step.
Context (st : _AuthorityState) (intent : OrderIntent) (snapshot : PortfolioSnapshot).

(** A new intent is decided, evidenced and recorded. *)
Inductive registered : RiskEvaluationResult -> _AuthorityState -> Prop :=
| registered_intro s before after v a d proof :
    replay_index st !! oi_intent_id intent = None ->
    _require_structural_intent context intent = Ok s ->
    decision_next st = Some before ->
    _advance before = Ok after ->
    verdict_on context st intent snapshot = Ok v ->
    allocate_approval context st v.1.1 v.1.2 v.2 = Ok a ->
    decide_intent context st intent (mkEconomicId (ra_run_id context) RISK_DECISION before) a = Ok d ->
    _create_risk_evaluation_evidence d (order_intent_digest intent) (snapshot_version snapshot)
      (portfolio_snapshot_digest snapshot) (ra_policy context) (rs_version (risk_state st)) (al_reason a)
      (Some before) after (approval_next st) (al_approval_after a) = Ok proof ->
    registered (mkRiskResult d proof)
      (registered_state st intent after (al_approval_after a) (record_of intent snapshot d proof)).

(** The halt an identity conflict engages. *)
Definition conflict_state (existing submitted : Sha256Digest) : RiskStateSnapshot :=
  {| rs_run_id := ra_run_id context;
     rs_policy_id := policy_id (ra_policy context);
     rs_policy_sha256 := phase1_risk_policy_digest (ra_policy context);
     rs_version := 1;
     halted := true;
     halt_reason := Some INTENT_IDENTITY_CONFLICT;
     halt_causal_root_available_at := Some (oi_causal_root_available_at intent);
     halt_dispatch_sequence := Some (oi_dispatch_sequence intent);
     conflict_existing_intent_sha256 := Some existing;
     conflict_submitted_intent_sha256 := Some submitted |}.

Inductive evaluation : res RiskEvaluationResult -> _AuthorityState -> Prop :=
| evaluation_replay r :
    replay_index st !! oi_intent_id intent = Some r ->
    rp_intent_bytes r = canonical_order_intent_bytes intent ->
    evaluation (Ok (rp_result r)) st
| evaluation_conflict r :
    replay_index st !! oi_intent_id intent = Some r ->
    rp_intent_bytes r <> canonical_order_intent_bytes intent ->
    evaluation (Raise (RiskAuthorityError CONFLICTING_ID))
      (if halted (risk_state st) then st
       else with_risk_state st (conflict_state (rp_intent_sha256 r) (order_intent_digest intent)))
| evaluation_new result st' :
    registered result st' -> evaluation (Ok result) st'
| evaluation_refused e :
    oi_dispatch_sequence intent < 0 \/ replay_index st !! oi_intent_id intent = None ->
    evaluation (Raise e) st.

Lemma structurally_kept {A} (m : res A) a : structurally m = Ok a <-> m = Ok a.
Proof. destruct m as [x|[]]; done. Qed.

Lemma advance_next n after : _advance n = Ok after ->
  1 <= n <= MAX_UINT64 /\ after = if n =? MAX_UINT64 then None else Some (n + 1).
Proof.
  unfold _advance. destruct (_ || _) eqn:E; [done|]. intros [= <-].
  apply orb_false_iff in E as [H1%Z.ltb_ge H2%Z.ltb_ge]. done.
Qed.
Lemma risk_result_value d proof r : _create_risk_evaluation_result d proof = Ok r -> r = mkRiskResult d proof.
Proof.
  unfold _create_risk_evaluation_result. destruct (_ || _); [done|]. destruct (negb _); [done|].
  by intros H%Ok_inj.
Qed.

Lemma evaluate_new_registered result st' : replay_index st !! oi_intent_id intent = None ->
  evaluate_new context st intent snapshot = Ok (result, st') -> registered result st'.
Proof.
  intros Hi H. unfold evaluate_new in H. apply rbind_Ok in H as (s & Hs & H).
  destruct (absent (decision_next st)); [done|]. apply rbind_Ok in H as (v & Hv & H).
  unfold _register in H. destruct (decision_next st) as [before|] eqn:Hn; [|done].
  apply rbind_Ok in H as (after & Ha & H). apply rbind_Ok in H as (i & ->%economic_id_value & H).
  apply rbind_Ok in H as (a & Hal & H). apply rbind_Ok in H as (record & Hr & H).
  apply (proj1 (structurally_kept _ _)) in Hr. apply rbind_Ok in Hr as (d & Hd & Hr). apply rbind_Ok in Hr as (proof & Hp & Hr).
  apply rbind_Ok in Hr as (r & ->%risk_result_value & Hr). apply Ok_inj in Hr. subst record.
  apply Ok_inj in H. injection H as <- <-. by eapply registered_intro.
Qed.

Lemma conflict_snapshot existing submitted : 0 <= oi_dispatch_sequence intent ->
  _create_risk_state_snapshot (ra_run_id context) (policy_id (ra_policy context))
    (phase1_risk_policy_digest (ra_policy context)) 1 true (Some INTENT_IDENTITY_CONFLICT)
    (Some (at_utc (oi_causal_root_available_at intent))) (Some (oi_dispatch_sequence intent))
    (Some existing) (Some submitted) = Ok (conflict_state existing submitted).
Proof.
  intros Hd. unfold _create_risk_state_snapshot, halted_time, _require_non_negative.
  by rewrite (proj2 (Z.ltb_ge _ _)).
Qed.

(** [evaluate] does what one of the rules allows. *)
Lemma evaluate_evaluation m st' : evaluate context st intent snapshot = (m, st') -> evaluation m st'.
Proof.
  unfold evaluate. destruct (Z.ltb_spec (oi_dispatch_sequence intent) 0) as [Hd|Hd].
  { intros [= <- <-]. apply evaluation_refused. by left. }
  destruct (replay_index st !! oi_intent_id intent) as [r|] eqn:Hi.
  - destruct (bool_decide_reflect (rp_intent_bytes r = canonical_order_intent_bytes intent)) as [Hb|Hb].
    + intros [= <- <-]. by apply evaluation_replay.
    + unfold _engage_identity_conflict.
      pose proof (evaluation_conflict r Hi Hb) as Hev. revert Hev.
      destruct (halted (risk_state st)); [intros Hev [= <- <-]; exact Hev|].
      rewrite conflict_snapshot by done. intros Hev [= <- <-]. exact Hev.
  - destruct (evaluate_new _ _ _ _) as [[r next]|e] eqn:Hn; intros [= <- <-].
    + apply evaluation_new. by apply evaluate_new_registered.
    + apply evaluation_refused. by right.
Qed.
End Step.

(** ** Reachable states *)

Inductive risk_operation : Type :=
| Evaluate (intent : OrderIntent) (snapshot : PortfolioSnapshot)
| EngageHalt (reason : RiskHaltReason) (causal_root_available_at : datetime * option Z) (dispatch_sequence : Z).
(** The state an operation leaves, whether it returns or raises. *)
Definition perform (st : _AuthorityState) (op : risk_operation) : _AuthorityState :=
  match op with
  | Evaluate intent snapshot => (evaluate context st intent snapshot).2
  | EngageHalt reason at_ n => match engage_halt context st reason at_ n with Ok (_, st') => st' | Raise _ => st end
  end.
Definition operate (st : _AuthorityState) (ops : list risk_operation) : _AuthorityState := fold_left perform ops st.

(** An authority as the program sets it up: limits and a policy made by their factories,
    for a well-formed specification set. *)
Definition limit_made (l : InstrumentRiskLimit) : Prop :=
  InstrumentRiskLimit_init (limit_instrument l) (maximum_order_quantity l) (maximum_absolute_position l) = Ok l.
Definition established (st : _AuthorityState) : Prop :=
  exists run_id spec_set execution_policy i limits policy,
    spec_set_ok spec_set /\ Forall limit_made limits /\
    create_phase1_risk_policy i spec_set execution_policy limits = Ok policy /\
    create_phase1_risk_authority run_id spec_set execution_policy policy = Ok (context, st).
Definition reachable (st : _AuthorityState) : Prop :=
  exists st0 ops, established st0 /\ st = operate st0 ops.

Lemma operate_snoc st ops op : operate st (ops ++ [op]) = perform (operate st ops) op.
Proof. apply fold_left_app. Qed.

(** What [engage_halt] does to the state: nothing once halted. *)
Lemma engage_halt_state st reason at_ n s st' : engage_halt context st reason at_ n = Ok (s, st') ->
  st' = (if halted (risk_state st) then st else with_risk_state st s) /\ s = risk_state st' /\ halted s = true /\
  rs_version s = if halted (risk_state st) then rs_version (risk_state st) else 1.
Proof.
  unfold engage_halt. destruct (bool_decide _); [done|]. intros H. apply rbind_Ok in H as (t & Ht & H).
  destruct (_ <? 0); [done|]. destruct (halted (risk_state st)) eqn:Hh.
  { apply Ok_inj in H. injection H as <- <-. done. }
  apply rbind_Ok in H as (next & Hn & H). apply Ok_inj in H. injection H as <- <-.
  unfold _create_risk_state_snapshot in Hn. destruct (_ && _) in Hn; [done|].
  apply rbind_Ok in Hn as (ct & Hc & Hn). apply Ok_inj in Hn. by subst next.
Qed.

Lemma risk_reachable_ind (P : _AuthorityState -> Prop) :
  (forall st, established st -> P st) ->
  (forall st intent snapshot m st', P st -> evaluation st intent snapshot m st' -> P st') ->
  (forall st s, P st -> halted (risk_state st) = false -> halted s = true -> rs_version s = 1 ->
    P (with_risk_state st s)) ->
  forall st, reachable st -> P st.
Proof.
  intros H0 Hev Hhalt st (st0 & ops & He & ->). induction ops as [|op ops IH] using rev_ind; [by apply H0|].
  rewrite operate_snoc. destruct op as [intent snapshot|reason at_ n]; cbn [perform].
  - destruct (evaluate _ _ _ _) as [m st'] eqn:E. eapply Hev; [exact IH|]. by apply evaluate_evaluation in E.
  - destruct (engage_halt _ _ _ _ _) as [[s st']|e] eqn:E; [|done].
    apply engage_halt_state in E as (-> & _ & Hs & Hv). destruct (halted (risk_state (operate st0 ops))) eqn:Hh; [done|]. by apply Hhalt.
Qed.
End Spec.
