(* ===== verification/Reconciliation.v ===== *)
(** Reconciliation adjustment values ([core/reconciliation.py]): the command and
    authorization the ledger consumes, the transaction and outcome it issues, with
    the checks of their factories, their canonical bytes and digests.

    Values are issued by factories and carry a private seal in the source; the model
    has no other way to build them, so the seal tests are not represented. *)

From S2P Require Import Prelude PyRegex PyText Outcomes Json Identity Economics Execution Messages.
From S2P Require Import Portfolio.

Open Scope Z_scope.

Definition RECONCILIATION_ERROR_CODES : list OutcomeCode :=
  [INVALID_TYPE; OUT_OF_RANGE; NOT_QUANTIZED; CONFLICTING_ID].
(** [_fail]: [ReconciliationContractError.__init__] refuses other codes. *)
Definition raise_reconciliation (c : OutcomeCode) : exn :=
  if permitted RECONCILIATION_ERROR_CODES c then ReconciliationContractError c else TypeError.

Definition MAX_RECONCILIATION_PAYLOAD_BYTES : Z := 16384.

(** ** Closed vocabularies *)

Inductive ReconciliationAdjustmentVariant : Type := BALANCE_CORRECTION | ANCESTRY_RESOLUTION.
Definition variant_value (v : ReconciliationAdjustmentVariant) : string :=
  match v with BALANCE_CORRECTION => "balance_correction" | ANCESTRY_RESOLUTION => "ancestry_resolution" end.
Inductive ReconciliationAdjustmentTargetKind : Type :=
| INSTRUMENT_POSITION | SETTLEMENT_CASH | OPEN_RECONCILIATION_REF.
Definition target_value (t : ReconciliationAdjustmentTargetKind) : string :=
  match t with
  | INSTRUMENT_POSITION => "instrument_position"
  | SETTLEMENT_CASH => "settlement_cash"
  | OPEN_RECONCILIATION_REF => "open_reconciliation_ref"
  end.
Inductive ReconciliationAuthorizationDecision : Type := ALLOWED | DENIED.
Definition decision_value (d : ReconciliationAuthorizationDecision) : string :=
  match d with ALLOWED => "allowed" | DENIED => "denied" end.
Inductive ReconciliationAdjustmentResult : Type := APPLIED | DUPLICATE | CONFLICT_RESULT | FAILED.
Definition result_value (r : ReconciliationAdjustmentResult) : string :=
  match r with
  | APPLIED => "applied" | DUPLICATE => "duplicate" | CONFLICT_RESULT => "conflict" | FAILED => "failed"
  end.
Inductive ReconciliationAdjustmentFailureKind : Type :=
| INVALID_COMMAND | STALE_FRONTIER | ARITHMETIC_FAILURE | UNBALANCED.
Definition failure_value (f : ReconciliationAdjustmentFailureKind) : string :=
  match f with
  | INVALID_COMMAND => "invalid_command" | STALE_FRONTIER => "stale_frontier"
  | ARITHMETIC_FAILURE => "arithmetic_failure" | UNBALANCED => "unbalanced"
  end.
Inductive ReconciliationAdjustmentConflictKind : Type :=
| AUTHORIZATION_ID_COLLISION | ADJUSTMENT_ID_COLLISION | OBSERVATION_ALREADY_CONSUMED
| ADJUSTMENT_INDEX_INCONSISTENT.
Definition adjustment_conflict_value (c : ReconciliationAdjustmentConflictKind) : string :=
  match c with
  | AUTHORIZATION_ID_COLLISION => "authorization_id_collision"
  | ADJUSTMENT_ID_COLLISION => "adjustment_id_collision"
  | OBSERVATION_ALREADY_CONSUMED => "observation_already_consumed"
  | ADJUSTMENT_INDEX_INCONSISTENT => "index_inconsistent"
  end.

#[export] Instance variant_eq_dec : EqDecision ReconciliationAdjustmentVariant.
Proof. solve_decision. Defined.
#[export] Instance target_kind_eq_dec : EqDecision ReconciliationAdjustmentTargetKind.
Proof. solve_decision. Defined.
#[export] Instance decision_eq_dec : EqDecision ReconciliationAuthorizationDecision.
Proof. solve_decision. Defined.
#[export] Instance adjustment_result_eq_dec : EqDecision ReconciliationAdjustmentResult.
Proof. solve_decision. Defined.
#[export] Instance failure_kind_eq_dec : EqDecision ReconciliationAdjustmentFailureKind.
Proof. solve_decision. Defined.
#[export] Instance adjustment_conflict_eq_dec : EqDecision ReconciliationAdjustmentConflictKind.
Proof. solve_decision. Defined.

(** ** Command and authorization *)

Record ReconciliationAdjustmentCommand : Type := mkAdjustmentCommand {
  rc_run_id : RunId;
  rc_spec_set_id : InstrumentSpecSetId;
  rc_spec_set_sha256 : Sha256Digest;
  rc_adjustment_id : EconomicId;
  rc_observation_sha256 : Sha256Digest;
  rc_reconciliation_outcome_sha256 : Sha256Digest;
  rc_ledger_sequence : Z;
  rc_local_snapshot_sha256 : Sha256Digest;
  rc_variant : ReconciliationAdjustmentVariant;
  rc_target_kind : ReconciliationAdjustmentTargetKind;
  rc_instrument : option Instrument;
  rc_currency : option SettlementCurrency;
  rc_local_amount : option CanonicalDecimal;
  rc_observed_amount : option CanonicalDecimal;
  rc_delta : option CanonicalDecimal;
  rc_open_reconciliation_ref : option OpenReconciliationRef;
  rc_ancestry_order_id : option EconomicId;
  rc_ancestry_order_sha256 : option Sha256Digest;
  rc_dispatch_sequence : Z
}.

Record ReconciliationAdjustmentAuthorization : Type := mkAdjustmentAuthorization {
  ra_run_id : RunId;
  ra_spec_set_id : InstrumentSpecSetId;
  ra_spec_set_sha256 : Sha256Digest;
  ra_authorization_id : EconomicId;
  ra_adjustment_id : EconomicId;
  ra_observation_sha256 : Sha256Digest;
  ra_reconciliation_outcome_sha256 : Sha256Digest;
  ra_outcome_acknowledgement_sha256 : Sha256Digest;
  ra_ledger_sequence : Z;
  ra_local_snapshot_sha256 : Sha256Digest;
  ra_command_sha256 : Sha256Digest;
  ra_policy_id : PatternStr VISIBLE_128;
  ra_policy_version : Z;
  ra_policy_sha256 : Sha256Digest;
  ra_decision : ReconciliationAuthorizationDecision;
  ra_available_at : datetime;
  ra_dispatch_sequence : Z
}.

Record AuditedReconciliationAdjustmentAuthorization : Type := mkAuditedAuthorization {
  audited_authorization : ReconciliationAdjustmentAuthorization;
  audited_authorization_sha256 : Sha256Digest
}.

(** ** Exact subtraction *)

Fixpoint lstrip (c : ascii) (s : str) : str :=
  match s with
  | [] => []
  | d :: s' => if Ascii.eqb d c then lstrip c s' else s
  end.
Definition rstrip (c : ascii) (s : str) : str := rev (lstrip c (rev s)).

Definition _scaled_decimal_text (c s : Z) : string :=
  if c =? 0 then "0"%string
  else
    let negative := c <? 0 in
    let digits := zero_pad (Z.to_nat (s + 1)) (digits (Z.abs c)) in
    let digits :=
      if s =? 0 then digits
      else
        let split := (length digits - Z.to_nat s)%nat in
        rstrip "." (rstrip "0" (take split digits ++ "."%char :: drop split digits)) in
    if bool_decide (digits = ["0"%char]) then "0"%string
    else text_of ((if negative then ["-"%char] else []) ++ digits).

Definition _subtract_decimal (left right : CanonicalDecimal) : res CanonicalDecimal :=
  let s := Z.max (scale left) (scale right) in
  let c := coefficient left * 10 ^ (s - scale left) - coefficient right * 10 ^ (s - scale right) in
  catch_economic (decimal_of_text (_scaled_decimal_text c s))
    (fun _ => Raise (raise_reconciliation OUT_OF_RANGE)).

(** [value.text[1:]] or ["-" + value.text]. *)
Definition _negated_decimal (v : CanonicalDecimal) : res CanonicalDecimal :=
  if coefficient v =? 0 then decimal_of_text "0"
  else
    match chars (text v) with
    | "-"%char :: rest => decimal_of_text (text_of rest)
    | s => decimal_of_text (text_of ("-"%char :: s))
    end.

(** ** Transactions and outcomes *)

Record ReconciliationTransaction : Type := mkReconciliationTransaction {
  rt_run_id : RunId;
  rt_entry_id : EconomicId;
  rt_ledger_sequence : Z;
  rt_adjustment_id : EconomicId;
  rt_authorization_sha256 : Sha256Digest;
  rt_observation_sha256 : Sha256Digest;
  rt_reconciliation_outcome_sha256 : Sha256Digest;
  rt_adjustment_command_sha256 : Sha256Digest;
  rt_variant : ReconciliationAdjustmentVariant;
  rt_target_kind : ReconciliationAdjustmentTargetKind;
  rt_instrument : option Instrument;
  rt_currency : option SettlementCurrency;
  rt_local_amount : option CanonicalDecimal;
  rt_observed_amount : option CanonicalDecimal;
  rt_delta : option CanonicalDecimal;
  rt_open_reconciliation_ref : option OpenReconciliationRef;
  rt_previous_transaction_sha256 : option Sha256Digest;
  rt_spec_set_id : InstrumentSpecSetId;
  rt_spec_set_sha256 : Sha256Digest;
  rt_postings : list LedgerPosting;
  rt_occurred_at : datetime;
  rt_available_at : datetime
}.

Record ReconciliationAdjustmentOutcome : Type := mkAdjustmentOutcome {
  ao_run_id : RunId;
  ao_adjustment_id : EconomicId;
  ao_authorization_sha256 : Sha256Digest;
  ao_observation_sha256 : Sha256Digest;
  ao_reconciliation_outcome_sha256 : Sha256Digest;
  ao_adjustment_command_sha256 : Sha256Digest;
  ao_result : ReconciliationAdjustmentResult;
  ao_failure_kind : option ReconciliationAdjustmentFailureKind;
  ao_conflict_kind : option ReconciliationAdjustmentConflictKind;
  ao_original_transaction_id : option EconomicId;
  ao_original_transaction_sha256 : option Sha256Digest;
  ao_before_snapshot_sha256 : Sha256Digest;
  ao_after_snapshot_sha256 : Sha256Digest
}.

Inductive CanonicalPortfolioTransaction : Type :=
| TxFunding (t : FundingTransaction)
| TxFill (t : LedgerTransaction)
| TxReconciliation (t : ReconciliationTransaction).

Definition optional_decimal_document : option CanonicalDecimal -> json :=
  optional_document (fun d => JStr (text d)).

(** [{specification.currency_quantum for ... if settlement_currency == currency}]:
    the sole element, when there is exactly one. *)
Definition currency_quantum_of (ss : InstrumentExecutionSpecSet) (c : SettlementCurrency)
  : option CanonicalDecimal :=
  match remove_dups (map currency_quantum
          (filter (fun s => settlement_currency s = c) (specifications ss))) with
  | [q] => Some q
  | _ => None
  end.

Section Values.
Context `{Sha256}.

(** A canonical payload within its byte bound. *)
Definition bounded_payload (payload : str) : res str :=
  raise_if MAX_RECONCILIATION_PAYLOAD_BYTES <? Z.of_nat (length payload)
    with raise_reconciliation OUT_OF_RANGE ;;
  Ok payload.

Definition command_common_entries (c : ReconciliationAdjustmentCommand) : list (string * json) :=
  [("adjustment_id", _economic_id_document (rc_adjustment_id c));
   ("canonicalization", JStr "ea-canonical-json-v1");
   ("dispatch_sequence", JInt (rc_dispatch_sequence c));
   ("instrument_spec_set_id", JStr (value (rc_spec_set_id c)));
   ("instrument_spec_set_sha256", JStr (value (rc_spec_set_sha256 c)));
   ("ledger_sequence", JInt (rc_ledger_sequence c));
   ("local_snapshot_sha256", JStr (value (rc_local_snapshot_sha256 c)));
   ("observation_sha256", JStr (value (rc_observation_sha256 c)));
   ("reconciliation_outcome_sha256", JStr (value (rc_reconciliation_outcome_sha256 c)));
   ("run_id", JStr (value (rc_run_id c)));
   ("schema", JStr "ea.reconciliation-adjustment-command.v1");
   ("variant", JStr (variant_value (rc_variant c)))]%string.

(** The asserted fields are those a factory-issued command has. *)
Definition _adjustment_command_document (c : ReconciliationAdjustmentCommand) : res json :=
  match rc_variant c with
  | BALANCE_CORRECTION =>
      match rc_local_amount c, rc_observed_amount c, rc_delta c with
      | Some local, Some observed, Some delta =>
          let* target :=
            if bool_decide (rc_target_kind c = INSTRUMENT_POSITION) then
              match rc_instrument c with
              | Some i => Ok (JDict [("instrument", _instrument_document i);
                                     ("kind", JStr (target_value (rc_target_kind c)))]%string)
              | None => Raise AssertionError
              end
            else
              match rc_currency c with
              | Some cur => Ok (JDict [("currency", JStr (value cur));
                                       ("kind", JStr (target_value (rc_target_kind c)))]%string)
              | None => Raise AssertionError
              end in
          Ok (JDict (command_common_entries c ++
                [("delta", JStr (text delta)); ("local_amount", JStr (text local));
                 ("observed_amount", JStr (text observed)); ("target", target)]%string))
      | _, _, _ => Raise AssertionError
      end
  | ANCESTRY_RESOLUTION =>
      match rc_open_reconciliation_ref c, rc_ancestry_order_id c, rc_ancestry_order_sha256 c with
      | Some r, Some order_id, Some order_sha256 =>
          Ok (JDict (command_common_entries c ++
                [("ancestry_order_id", _economic_id_document order_id);
                 ("ancestry_order_sha256", JStr (value order_sha256));
                 ("target", JDict
                    [("fill_id", _economic_id_document (open_fill_id r));
                     ("fill_sha256", JStr (value (open_fill_sha256 r)));
                     ("kind", JStr (target_value (rc_target_kind c)));
                     ("processing_outcome_sha256", JStr (value (open_processing_outcome_sha256 r)))])]%string))
      | _, _, _ => Raise AssertionError
      end
  end.

Definition canonical_reconciliation_adjustment_command_bytes (c : ReconciliationAdjustmentCommand) : res str :=
  let* document := _adjustment_command_document c in
  bounded_payload (encode_json document).
Definition reconciliation_adjustment_command_digest (c : ReconciliationAdjustmentCommand) : res Sha256Digest :=
  let* payload := canonical_reconciliation_adjustment_command_bytes c in
  Ok (_framed_digest (domain "ea.reconciliation-adjustment-command.v1") payload).

Definition _adjustment_authorization_document (a : ReconciliationAdjustmentAuthorization) : json :=
  JDict [("adjustment_id", _economic_id_document (ra_adjustment_id a));
         ("authorization_id", _economic_id_document (ra_authorization_id a));
         ("available_at", JStr (utc_text (ra_available_at a)));
         ("canonicalization", JStr "ea-canonical-json-v1");
         ("command_sha256", JStr (value (ra_command_sha256 a)));
         ("decision", JStr (decision_value (ra_decision a)));
         ("dispatch_sequence", JInt (ra_dispatch_sequence a));
         ("instrument_spec_set_id", JStr (value (ra_spec_set_id a)));
         ("instrument_spec_set_sha256", JStr (value (ra_spec_set_sha256 a)));
         ("ledger_sequence", JInt (ra_ledger_sequence a));
         ("local_snapshot_sha256", JStr (value (ra_local_snapshot_sha256 a)));
         ("observation_sha256", JStr (value (ra_observation_sha256 a)));
         ("outcome_acknowledgement_sha256", JStr (value (ra_outcome_acknowledgement_sha256 a)));
         ("policy_id", JStr (value (ra_policy_id a)));
         ("policy_sha256", JStr (value (ra_policy_sha256 a)));
         ("policy_version", JInt (ra_policy_version a));
         ("reconciliation_outcome_sha256", JStr (value (ra_reconciliation_outcome_sha256 a)));
         ("run_id", JStr (value (ra_run_id a)));
         ("schema", JStr "ea.reconciliation-adjustment-authorization.v1")]%string.
Definition canonical_reconciliation_adjustment_authorization_bytes (a : ReconciliationAdjustmentAuthorization) : res str :=
  bounded_payload (encode_json (_adjustment_authorization_document a)).
Definition reconciliation_adjustment_authorization_digest (a : ReconciliationAdjustmentAuthorization) : res Sha256Digest :=
  let* payload := canonical_reconciliation_adjustment_authorization_bytes a in
  Ok (_framed_digest (domain "ea.reconciliation-adjustment-authorization.v1") payload).

Definition canonical_reconciliation_transaction_bytes (t : ReconciliationTransaction) : res str :=
  bounded_payload (encode_json (JDict
    [("adjustment_command_sha256", JStr (value (rt_adjustment_command_sha256 t)));
     ("adjustment_id", _economic_id_document (rt_adjustment_id t));
     ("authorization_sha256", JStr (value (rt_authorization_sha256 t)));
     ("available_at", JStr (utc_text (rt_available_at t)));
     ("canonicalization", JStr "ea-canonical-json-v1");
     ("currency", optional_text_document (rt_currency t));
     ("delta", optional_decimal_document (rt_delta t));
     ("entry_id", _economic_id_document (rt_entry_id t));
     ("instrument", optional_document _instrument_document (rt_instrument t));
     ("instrument_spec_set_id", JStr (value (rt_spec_set_id t)));
     ("instrument_spec_set_sha256", JStr (value (rt_spec_set_sha256 t)));
     ("ledger_sequence", JInt (rt_ledger_sequence t));
     ("local_amount", optional_decimal_document (rt_local_amount t));
     ("observed_amount", optional_decimal_document (rt_observed_amount t));
     ("occurred_at", JStr (utc_text (rt_occurred_at t)));
     ("open_reconciliation_ref", optional_document open_ref_document (rt_open_reconciliation_ref t));
     ("postings", JList (map _posting_document (rt_postings t)));
     ("previous_transaction_sha256", optional_text_document (rt_previous_transaction_sha256 t));
     ("reconciliation_outcome_sha256", JStr (value (rt_reconciliation_outcome_sha256 t)));
     ("run_id", JStr (value (rt_run_id t)));
     ("schema", JStr "ea.reconciliation-transaction.v1");
     ("target_kind", JStr (target_value (rt_target_kind t)));
     ("variant", JStr (variant_value (rt_variant t)))]%string)).
Definition reconciliation_transaction_digest (t : ReconciliationTransaction) : res Sha256Digest :=
  let* payload := canonical_reconciliation_transaction_bytes t in
  Ok (_framed_digest (domain "ea.reconciliation-transaction.v1") payload).

Definition canonical_reconciliation_adjustment_outcome_bytes (o : ReconciliationAdjustmentOutcome) : res str :=
  bounded_payload (encode_json (JDict
    [("adjustment_command_sha256", JStr (value (ao_adjustment_command_sha256 o)));
     ("adjustment_id", _economic_id_document (ao_adjustment_id o));
     ("after_snapshot_sha256", JStr (value (ao_after_snapshot_sha256 o)));
     ("authorization_sha256", JStr (value (ao_authorization_sha256 o)));
     ("before_snapshot_sha256", JStr (value (ao_before_snapshot_sha256 o)));
     ("canonicalization", JStr "ea-canonical-json-v1");
     ("conflict_kind", optional_document (fun k => JStr (adjustment_conflict_value k)) (ao_conflict_kind o));
     ("failure_kind", optional_document (fun k => JStr (failure_value k)) (ao_failure_kind o));
     ("observation_sha256", JStr (value (ao_observation_sha256 o)));
     ("original_transaction_id", _optional_id_document (ao_original_transaction_id o));
     ("original_transaction_sha256", optional_text_document (ao_original_transaction_sha256 o));
     ("reconciliation_outcome_sha256", JStr (value (ao_reconciliation_outcome_sha256 o)));
     ("result", JStr (result_value (ao_result o)));
     ("run_id", JStr (value (ao_run_id o)));
     ("schema", JStr "ea.reconciliation-adjustment-outcome.v1")]%string)).
Definition reconciliation_adjustment_outcome_digest (o : ReconciliationAdjustmentOutcome) : res Sha256Digest :=
  let* payload := canonical_reconciliation_adjustment_outcome_bytes o in
  Ok (_framed_digest (domain "ea.reconciliation-adjustment-outcome.v1") payload).

(** [try: m except EconomicValidationError as error: raise _fail(error.code, ...)]. *)
Definition rewrapping {A} (m : res A) : res A :=
  catch_economic m (fun c => Raise (raise_reconciliation c)).

Definition _require_balance_correction_fields (spec_set : InstrumentExecutionSpecSet)
  (t : ReconciliationTransaction) : res unit :=
  raise_if negb (absent (rt_open_reconciliation_ref t))
        || bool_decide (rt_target_kind t = OPEN_RECONCILIATION_REF)
    with raise_reconciliation CONFLICTING_ID ;;
  let* target :=
    if bool_decide (rt_target_kind t = INSTRUMENT_POSITION) then
      match rt_instrument t, rt_currency t with
      | Some i, None =>
          let* s := catch_economic (require_spec spec_set i)
                      (fun _ => Raise (raise_reconciliation CONFLICTING_ID)) in
          Ok (quantity_quantum s, InstrumentCommodity i, [PORTFOLIO_POSITION; EXTERNAL_INVENTORY])
      | _, _ => Raise (raise_reconciliation CONFLICTING_ID)
      end
    else
      match rt_instrument t, rt_currency t with
      | None, Some c =>
          match currency_quantum_of spec_set c with
          | Some q => Ok (q, CurrencyCommodity c, [PORTFOLIO_CASH; EXTERNAL_SETTLEMENT])
          | None => Raise (raise_reconciliation CONFLICTING_ID)
          end
      | _, _ => Raise (raise_reconciliation CONFLICTING_ID)
      end in
  let '(quantum, commodity_, accounts) := target in
  let exact_amount (amount : option CanonicalDecimal) : res CanonicalDecimal :=
    match amount with
    | None => Raise (raise_reconciliation INVALID_TYPE)
    | Some a => rewrapping (require_quantized a quantum)
    end in
  let* local := exact_amount (rt_local_amount t) in
  let* observed := exact_amount (rt_observed_amount t) in
  match rt_delta t with
  | None => Raise (raise_reconciliation CONFLICTING_ID)
  | Some delta =>
      raise_if bool_decide (delta = CANONICAL_0) with raise_reconciliation CONFLICTING_ID ;;
      let* _ := rewrapping (require_quantized delta quantum) in
      let* expected := _subtract_decimal observed local in
      raise_if negb (bool_decide (delta = expected)) with raise_reconciliation CONFLICTING_ID ;;
      raise_if negb (bool_decide (map account (rt_postings t) = accounts))
        with raise_reconciliation CONFLICTING_ID ;;
      raise_if existsb (fun p => negb (bool_decide (commodity p = commodity_))) (rt_postings t)
        with raise_reconciliation CONFLICTING_ID ;;
      let* negated := _negated_decimal delta in
      raise_if negb (bool_decide (map posting_amount (rt_postings t) = [delta; negated]))
        with raise_reconciliation CONFLICTING_ID ;;
      raise_if negb (_postings_sum_to_zero (rt_postings t)) with raise_reconciliation LEDGER_UNBALANCED ;;
      Ok tt
  end.

(** [_create_reconciliation_transaction]: the checks on the value it would issue. *)
Definition _create_reconciliation_transaction (spec_set : InstrumentExecutionSpecSet)
  (t : ReconciliationTransaction) : res ReconciliationTransaction :=
  raise_if negb (bool_decide (owner_kind (rt_entry_id t) = LEDGER_ENTRY))
    with raise_reconciliation INVALID_TYPE ;;
  raise_if negb (bool_decide (id_run_id (rt_entry_id t) = rt_run_id t))
        || negb (owner_sequence (rt_entry_id t) =? rt_ledger_sequence t)
        || (rt_ledger_sequence t <? 1) with raise_reconciliation CONFLICTING_ID ;;
  raise_if negb (bool_decide (owner_kind (rt_adjustment_id t) = RECONCILIATION_ADJUSTMENT))
        || negb (bool_decide (id_run_id (rt_adjustment_id t) = rt_run_id t))
    with raise_reconciliation CONFLICTING_ID ;;
  raise_if negb (Bool.eqb (absent (rt_previous_transaction_sha256 t)) (rt_ledger_sequence t =? 1))
    with raise_reconciliation CONFLICTING_ID ;;
  raise_if microseconds (rt_available_at t) <? microseconds (rt_occurred_at t)
    with raise_reconciliation CONFLICTING_ID ;;
  let* _ :=
    match rt_variant t with
    | BALANCE_CORRECTION => _require_balance_correction_fields spec_set t
    | ANCESTRY_RESOLUTION =>
        raise_if negb (bool_decide (rt_target_kind t = OPEN_RECONCILIATION_REF))
              || match rt_open_reconciliation_ref t with
                 | None => true
                 | Some r => negb (bool_decide (id_run_id (open_fill_id r) = rt_run_id t))
                 end
              || negb (absent (rt_instrument t)) || negb (absent (rt_currency t))
              || negb (absent (rt_local_amount t)) || negb (absent (rt_observed_amount t))
              || negb (absent (rt_delta t)) || negb (is_empty (rt_postings t))
          with raise_reconciliation CONFLICTING_ID ;;
        Ok tt
    end in
  let* _ := canonical_reconciliation_transaction_bytes t in
  Ok t.

(** [_create_reconciliation_adjustment_outcome] as the ledger calls it, without
    separate original evidence. *)
Definition _create_reconciliation_adjustment_outcome (run_id : RunId) (adjustment_id : EconomicId)
  (authorization_sha256 observation_sha256 reconciliation_outcome_sha256
   adjustment_command_sha256 : Sha256Digest)
  (result_ : ReconciliationAdjustmentResult) (transaction : option ReconciliationTransaction)
  (failure_kind : option ReconciliationAdjustmentFailureKind)
  (conflict_kind_ : option ReconciliationAdjustmentConflictKind)
  (before_snapshot_sha256 after_snapshot_sha256 : Sha256Digest)
  : res ReconciliationAdjustmentOutcome :=
  raise_if negb (bool_decide (owner_kind adjustment_id = RECONCILIATION_ADJUSTMENT))
        || negb (bool_decide (id_run_id adjustment_id = run_id))
    with raise_reconciliation CONFLICTING_ID ;;
  let* original :=
    match transaction with
    | None => Ok (None, None)
    | Some t =>
        let* d := reconciliation_transaction_digest t in
        Ok (Some (rt_entry_id t), Some d)
    end in
  let '(original_transaction_id, original_transaction_sha256) := original in
  let unchanged := bool_decide (before_snapshot_sha256 = after_snapshot_sha256) in
  raise_if
    match result_ with
    | APPLIED =>
        absent original_transaction_id || negb (absent failure_kind) || negb (absent conflict_kind_)
        || match transaction with
           | None => false
           | Some t =>
               negb (bool_decide (rt_adjustment_id t = adjustment_id))
               || negb (bool_decide (rt_authorization_sha256 t = authorization_sha256))
               || negb (bool_decide (rt_observation_sha256 t = observation_sha256))
               || negb (bool_decide (rt_reconciliation_outcome_sha256 t = reconciliation_outcome_sha256))
               || negb (bool_decide (rt_adjustment_command_sha256 t = adjustment_command_sha256))
           end
    | DUPLICATE =>
        absent original_transaction_id || negb (absent failure_kind) || negb (absent conflict_kind_)
        || negb unchanged
        || match transaction with
           | None => false
           | Some t => negb (bool_decide (rt_adjustment_id t = adjustment_id))
           end
    | CONFLICT_RESULT =>
        negb (absent transaction) || negb (absent original_transaction_id)
        || negb (absent failure_kind) || absent conflict_kind_ || negb unchanged
    | FAILED =>
        negb (absent transaction) || negb (absent original_transaction_id)
        || absent failure_kind || negb (absent conflict_kind_) || negb unchanged
    end with raise_reconciliation CONFLICTING_ID ;;
  let o := {| ao_run_id := run_id;
              ao_adjustment_id := adjustment_id;
              ao_authorization_sha256 := authorization_sha256;
              ao_observation_sha256 := observation_sha256;
              ao_reconciliation_outcome_sha256 := reconciliation_outcome_sha256;
              ao_adjustment_command_sha256 := adjustment_command_sha256;
              ao_result := result_;
              ao_failure_kind := failure_kind;
              ao_conflict_kind := conflict_kind_;
              ao_original_transaction_id := original_transaction_id;
              ao_original_transaction_sha256 := original_transaction_sha256;
              ao_before_snapshot_sha256 := before_snapshot_sha256;
              ao_after_snapshot_sha256 := after_snapshot_sha256 |} in
  let* _ := canonical_reconciliation_adjustment_outcome_bytes o in
  Ok o.
End Values.
