(* ===== verification/Observation.v ===== *)
(** Reconciliation observations, discrepancies and comparison outcomes
    ([core/reconciliation.py]): what a broker reports about a scope, the difference of one
    balance, and the closed matrix of the outcomes an authority may answer with. *)

From S2P Require Import Prelude PyRegex PyText Outcomes Json Identity Economics Execution Messages.
From S2P Require Import Portfolio Reconciliation.

Open Scope Z_scope.

Definition MAX_RECONCILIATION_BALANCES : Z := 32.

(** ** Closed vocabularies *)

(** [core/runtime.py] declares the kinds of observation. *)
Inductive ReconciliationObservationKind : Type := TRADE_DETAIL | ORDER_DETAIL | POSITION_SNAPSHOT | CASH_SNAPSHOT.
Definition observation_kind_value (k : ReconciliationObservationKind) : string :=
  match k with
  | TRADE_DETAIL => "trade_detail" | ORDER_DETAIL => "order_detail"
  | POSITION_SNAPSHOT => "position_snapshot" | CASH_SNAPSHOT => "cash_snapshot"
  end.
Inductive ReconciliationScopeKind : Type := SCOPE_TRADE | SCOPE_ORDER | SCOPE_POSITION | SCOPE_CASH.
Definition scope_kind_value (k : ReconciliationScopeKind) : string :=
  match k with SCOPE_TRADE => "trade" | SCOPE_ORDER => "order" | SCOPE_POSITION => "position" | SCOPE_CASH => "cash" end.
Inductive ReconciliationWatermarkComparison : Type := EQUAL | REMOTE_LOWER | REMOTE_HIGHER | INCOMPARABLE.
Definition comparison_value (c : ReconciliationWatermarkComparison) : string :=
  match c with
  | EQUAL => "equal" | REMOTE_LOWER => "remote_lower" | REMOTE_HIGHER => "remote_higher" | INCOMPARABLE => "incomparable"
  end.
Inductive ReconciliationRequestedAction : Type :=
| NO_ACTION | REQUEST_MISSING_TRADE_FACTS | RETAIN_AND_HALT | MANUAL_EVIDENCE_DECOMPOSITION
| PROPOSE_SINGLE_TARGET_ADJUSTMENT | PROPOSE_ANCESTRY_RESOLUTION.
Definition action_value (a : ReconciliationRequestedAction) : string :=
  match a with
  | NO_ACTION => "none"
  | REQUEST_MISSING_TRADE_FACTS => "request_missing_trade_facts"
  | RETAIN_AND_HALT => "retain_and_halt"
  | MANUAL_EVIDENCE_DECOMPOSITION => "manual_evidence_decomposition"
  | PROPOSE_SINGLE_TARGET_ADJUSTMENT => "propose_single_target_adjustment"
  | PROPOSE_ANCESTRY_RESOLUTION => "propose_ancestry_resolution"
  end.

#[export] Instance observation_kind_eq_dec : EqDecision ReconciliationObservationKind.
Proof. solve_decision. Defined.
#[export] Instance scope_kind_eq_dec : EqDecision ReconciliationScopeKind.
Proof. solve_decision. Defined.
#[export] Instance comparison_eq_dec : EqDecision ReconciliationWatermarkComparison.
Proof. solve_decision. Defined.
#[export] Instance requested_action_eq_dec : EqDecision ReconciliationRequestedAction.
Proof. solve_decision. Defined.

(** [RuntimeIdentifier]: 1..128 visible ASCII characters. *)
Abbreviation RuntimeIdentifier := (PatternStr VISIBLE_128).

(** ** Balances and observations *)

Inductive ReconciliationBalance : Type :=
| PositionReconciliationBalance (instrument : Instrument) (quantity : CanonicalDecimal)
| CashReconciliationBalance (currency : SettlementCurrency) (amount : CanonicalDecimal).
#[export] Instance ReconciliationBalance_eq_dec : EqDecision ReconciliationBalance.
Proof. solve_decision. Defined.

Definition position_balance (b : ReconciliationBalance) : option (Instrument * CanonicalDecimal) :=
  match b with PositionReconciliationBalance i q => Some (i, q) | CashReconciliationBalance _ _ => None end.
Definition cash_balance (b : ReconciliationBalance) : option (SettlementCurrency * CanonicalDecimal) :=
  match b with CashReconciliationBalance c a => Some (c, a) | PositionReconciliationBalance _ _ => None end.

Record ReconciliationObservation : Type := mkReconciliationObservation {
  ob_run_id : RunId;
  ob_spec_set_id : InstrumentSpecSetId;
  ob_spec_set_sha256 : Sha256Digest;
  ob_observation_id : EconomicId;
  ob_kind : ReconciliationObservationKind;
  ob_source_namespace : SourceNamespace;
  ob_source_sequence : Z;
  ob_occurred_at : datetime;
  ob_available_at : datetime;
  ob_watermark_namespace : SourceNamespace;
  ob_watermark_sequence : Z;
  ob_declared_scope_kind : ReconciliationScopeKind;
  ob_declared_scope_id : RuntimeIdentifier;
  ob_provenance_id : FactProvenanceId;
  ob_provenance_payload_sha256 : Sha256Digest;
  ob_balances : list ReconciliationBalance
}.
#[export] Instance ReconciliationObservation_eq_dec : EqDecision ReconciliationObservation.
Proof. solve_decision. Defined.

(** [_require_uint64] and [_require_time] *)
Definition reconciliation_uint64 (n : Z) : res Z :=
  raise_if negb ((0 <=? n) && (n <=? MAX_UINT64)) with raise_reconciliation OUT_OF_RANGE ;; Ok n.
Definition reconciliation_time (t : datetime * option Z) : res datetime :=
  match require_utc t.1 t.2 with Ok d => Ok d | Raise _ => Raise (raise_reconciliation OUT_OF_RANGE) end.

Definition expected_scope (kind : ReconciliationObservationKind) : ReconciliationScopeKind :=
  match kind with
  | TRADE_DETAIL => SCOPE_TRADE | ORDER_DETAIL => SCOPE_ORDER | POSITION_SNAPSHOT => SCOPE_POSITION
  | CASH_SNAPSHOT => SCOPE_CASH
  end.

(** The dictionary [quantums]: the currency quantum of every settlement currency. *)
Fixpoint currency_quantums (specs : list InstrumentExecutionSpec) (quantums : gmap string CanonicalDecimal)
  : res (gmap string CanonicalDecimal) :=
  match specs with
  | [] => Ok quantums
  | s :: specs =>
      let code := value (settlement_currency s) in
      let retained := default (currency_quantum s) (quantums !! code) in
      raise_if negb (bool_decide (retained = currency_quantum s)) with raise_reconciliation CONFLICTING_ID ;;
      currency_quantums specs (<[code := retained]> quantums)
  end.

Definition check_position_balance (spec_set : InstrumentExecutionSpecSet) (b : Instrument * CanonicalDecimal)
  : res CanonicalDecimal :=
  rewrapping (let* specification := require_spec spec_set b.1 in require_quantized b.2 (quantity_quantum specification)).
Definition check_cash_balance (quantums : gmap string CanonicalDecimal) (b : SettlementCurrency * CanonicalDecimal)
  : res CanonicalDecimal :=
  match quantums !! value b.1 with
  | None => Raise (raise_reconciliation CONFLICTING_ID)
  | Some quantum => rewrapping (require_quantized b.2 quantum)
  end.

Definition _require_kind_scope_and_balances (kind : ReconciliationObservationKind)
    (scope : ReconciliationScopeKind) (balances : list ReconciliationBalance) (spec_set : InstrumentExecutionSpecSet)
    : res unit :=
  raise_if negb (bool_decide (scope = expected_scope kind)) with raise_reconciliation CONFLICTING_ID ;;
  match kind with
  | TRADE_DETAIL | ORDER_DETAIL =>
      raise_if negb (bool_decide (balances = [])) with raise_reconciliation CONFLICTING_ID ;; Ok tt
  | POSITION_SNAPSHOT =>
      raise_if negb ((1 <=? Z.of_nat (length balances)) && (Z.of_nat (length balances) <=? MAX_RECONCILIATION_BALANCES))
        with raise_reconciliation OUT_OF_RANGE ;;
      let positions := omap position_balance balances in
      raise_if negb (Nat.eqb (length positions) (length balances)) with raise_reconciliation CONFLICTING_ID ;;
      raise_if negb (canonical_keys (map (fun b => instrument_key b.1) positions))
        with raise_reconciliation CONFLICTING_ID ;;
      let* _ := rmap (check_position_balance spec_set) positions in Ok tt
  | CASH_SNAPSHOT =>
      raise_if negb ((1 <=? Z.of_nat (length balances)) && (Z.of_nat (length balances) <=? MAX_RECONCILIATION_BALANCES))
        with raise_reconciliation OUT_OF_RANGE ;;
      let cash := omap cash_balance balances in
      raise_if negb (Nat.eqb (length cash) (length balances)) with raise_reconciliation CONFLICTING_ID ;;
      raise_if negb (canonical_keys (map (fun b => value b.1) cash)) with raise_reconciliation CONFLICTING_ID ;;
      let* quantums := currency_quantums (specifications spec_set) ∅ in
      let* _ := rmap (check_cash_balance quantums) cash in Ok tt
  end.

Definition _balance_document (b : ReconciliationBalance) : json :=
  match b with
  | PositionReconciliationBalance i q =>
      JDict [("instrument", _instrument_document i); ("kind", JStr "instrument_position"); ("quantity", JStr (text q))]%string
  | CashReconciliationBalance c a =>
      JDict [("amount", JStr (text a)); ("currency", JStr (value c)); ("kind", JStr "settlement_cash")]%string
  end.
Definition _observation_document (o : ReconciliationObservation) : json :=
  JDict [("available_at", JStr (utc_text (ob_available_at o)));
         ("balances", JList (map _balance_document (ob_balances o)));
         ("canonicalization", JStr "ea-canonical-json-v1");
         ("declared_scope_id", JStr (value (ob_declared_scope_id o)));
         ("declared_scope_kind", JStr (scope_kind_value (ob_declared_scope_kind o)));
         ("instrument_spec_set_id", JStr (value (ob_spec_set_id o)));
         ("instrument_spec_set_sha256", JStr (value (ob_spec_set_sha256 o)));
         ("kind", JStr (observation_kind_value (ob_kind o)));
         ("observation_id", _economic_id_document (ob_observation_id o));
         ("occurred_at", JStr (utc_text (ob_occurred_at o)));
         ("provenance_id", JStr (value (ob_provenance_id o)));
         ("provenance_payload_sha256", JStr (value (ob_provenance_payload_sha256 o)));
         ("run_id", JStr (value (ob_run_id o)));
         ("schema", JStr "ea.reconciliation-observation.v1");
         ("source_namespace", JStr (value (ob_source_namespace o)));
         ("source_sequence", JInt (ob_source_sequence o));
         ("watermark_namespace", JStr (value (ob_watermark_namespace o)));
         ("watermark_sequence", JInt (ob_watermark_sequence o))]%string.

(** ** Discrepancies *)

Inductive ReconciliationDiscrepancy : Type :=
| PositionReconciliationDiscrepancy (instrument : Instrument) (local_amount observed_amount delta : CanonicalDecimal)
| CashReconciliationDiscrepancy (currency : SettlementCurrency) (local_amount observed_amount delta : CanonicalDecimal).
#[export] Instance ReconciliationDiscrepancy_eq_dec : EqDecision ReconciliationDiscrepancy.
Proof. solve_decision. Defined.

(** The body the two factories share, once they have the quantum. *)
Definition discrepancy_delta (quantum : res CanonicalDecimal) (local observed : CanonicalDecimal) : res CanonicalDecimal :=
  let* _ := rewrapping (let* q := quantum in require_quantized local q) in
  let* _ := rewrapping (let* q := quantum in require_quantized observed q) in
  let* delta := _subtract_decimal observed local in
  raise_if bool_decide (text delta = "0"%string) with raise_reconciliation CONFLICTING_ID ;;
  Ok delta.

Definition create_position_reconciliation_discrepancy (spec_set : InstrumentExecutionSpecSet) (i : Instrument)
    (local observed : CanonicalDecimal) : res ReconciliationDiscrepancy :=
  let* delta := discrepancy_delta
    (let* specification := require_spec spec_set i in Ok (quantity_quantum specification)) local observed in
  Ok (PositionReconciliationDiscrepancy i local observed delta).
Definition create_cash_reconciliation_discrepancy (spec_set : InstrumentExecutionSpecSet) (c : SettlementCurrency)
    (local observed : CanonicalDecimal) : res ReconciliationDiscrepancy :=
  match currency_quantum_of spec_set c with
  | None => Raise (raise_reconciliation CONFLICTING_ID)
  | Some quantum =>
      let* delta := discrepancy_delta (Ok quantum) local observed in
      Ok (CashReconciliationDiscrepancy c local observed delta)
  end.

Definition _discrepancy_document (d : ReconciliationDiscrepancy) : json :=
  match d with
  | PositionReconciliationDiscrepancy i local observed delta =>
      JDict [("delta", JStr (text delta)); ("local_amount", JStr (text local)); ("observed_amount", JStr (text observed));
             ("instrument", _instrument_document i); ("kind", JStr "instrument_position")]%string
  | CashReconciliationDiscrepancy c local observed delta =>
      JDict [("delta", JStr (text delta)); ("local_amount", JStr (text local)); ("observed_amount", JStr (text observed));
             ("currency", JStr (value c)); ("kind", JStr "settlement_cash")]%string
  end.
Definition _discrepancy_sort_key (d : ReconciliationDiscrepancy) : string * (string * string) :=
  match d with
  | PositionReconciliationDiscrepancy i _ _ _ =>
      ("instrument_position"%string, (value (venue i), value (symbol i)))
  | CashReconciliationDiscrepancy c _ _ _ => ("settlement_cash"%string, (value c, EmptyString))
  end.

(** ** Outcomes *)

Record ReconciliationOutcome : Type := mkReconciliationOutcome {
  ro_run_id : RunId;
  ro_dispatch_sequence : Z;
  ro_observation_sha256 : Sha256Digest;
  ro_local_snapshot_version : Z;
  ro_local_snapshot_sha256 : Sha256Digest;
  ro_ledger_sequence : Z;
  ro_watermark_comparison : ReconciliationWatermarkComparison;
  ro_discrepancies : list ReconciliationDiscrepancy;
  ro_outcome_code : OutcomeCode;
  ro_requested_action : ReconciliationRequestedAction;
  ro_halt_requested : bool
}.
#[export] Instance ReconciliationOutcome_eq_dec : EqDecision ReconciliationOutcome.
Proof. solve_decision. Defined.

(** The rows of [allowed_exact]. *)
Definition OUTCOME_MATRIX
    : list (ReconciliationWatermarkComparison * OutcomeCode * ReconciliationRequestedAction * bool * nat) :=
  [(EQUAL, RECONCILIATION_MATCH, NO_ACTION, false, 0%nat);
   (EQUAL, RECONCILIATION_MATCH, PROPOSE_ANCESTRY_RESOLUTION, true, 0%nat);
   (REMOTE_LOWER, RECONCILIATION_LOCAL_AHEAD_STALE, RETAIN_AND_HALT, true, 0%nat);
   (REMOTE_HIGHER, RECONCILIATION_REMOTE_AHEAD, REQUEST_MISSING_TRADE_FACTS, true, 0%nat);
   (EQUAL, RECONCILIATION_MISMATCH, PROPOSE_SINGLE_TARGET_ADJUSTMENT, true, 1%nat);
   (INCOMPARABLE, RECONCILIATION_INVALID, RETAIN_AND_HALT, true, 0%nat);
   (EQUAL, RECONCILIATION_UNRESOLVED_CORRELATION, RETAIN_AND_HALT, true, 0%nat)].

Definition _require_outcome_matrix (comparison : ReconciliationWatermarkComparison)
    (discrepancies : list ReconciliationDiscrepancy) (code : OutcomeCode) (action : ReconciliationRequestedAction)
    (halt_requested : bool) : res unit :=
  if bool_decide ((comparison, code, action, halt_requested, length discrepancies) ∈ OUTCOME_MATRIX) then Ok tt
  else
    raise_if negb (bool_decide (comparison = EQUAL) && bool_decide (code = RECONCILIATION_QUARANTINED)
        && bool_decide (action = MANUAL_EVIDENCE_DECOMPOSITION) && halt_requested
        && (2 <=? Z.of_nat (length discrepancies)) && (Z.of_nat (length discrepancies) <=? MAX_RECONCILIATION_BALANCES))
      with raise_reconciliation CONFLICTING_ID ;;
    Ok tt.

Definition _outcome_document (o : ReconciliationOutcome) : json :=
  JDict [("canonicalization", JStr "ea-canonical-json-v1");
         ("discrepancies", JList (map _discrepancy_document (ro_discrepancies o)));
         ("dispatch_sequence", JInt (ro_dispatch_sequence o));
         ("halt_requested", JBool (ro_halt_requested o));
         ("ledger_sequence", JInt (ro_ledger_sequence o));
         ("local_snapshot_sha256", JStr (value (ro_local_snapshot_sha256 o)));
         ("local_snapshot_version", JInt (ro_local_snapshot_version o));
         ("observation_sha256", JStr (value (ro_observation_sha256 o)));
         ("outcome_code", JStr (outcome_value (ro_outcome_code o)));
         ("requested_action", JStr (action_value (ro_requested_action o)));
         ("run_id", JStr (value (ro_run_id o)));
         ("schema", JStr "ea.reconciliation-outcome.v2");
         ("watermark_comparison", JStr (comparison_value (ro_watermark_comparison o)))]%string.

Section Values.
Context `{Sha256}.

Definition canonical_reconciliation_observation_bytes (o : ReconciliationObservation) : res str :=
  bounded_payload (encode_json (_observation_document o)).
Definition reconciliation_observation_digest (o : ReconciliationObservation) : res Sha256Digest :=
  let* payload := canonical_reconciliation_observation_bytes o in
  Ok (_framed_digest (domain "ea.reconciliation-observation.v1") payload).

Definition create_reconciliation_observation (run_id : RunId) (spec_set : InstrumentExecutionSpecSet)
    (observation_id : EconomicId) (kind : ReconciliationObservationKind) (source_namespace : SourceNamespace)
    (source_sequence : Z) (occurred_at available_at : datetime * option Z) (watermark_namespace : SourceNamespace)
    (watermark_sequence : Z) (declared_scope_kind : ReconciliationScopeKind) (declared_scope_id : RuntimeIdentifier)
    (provenance_id : FactProvenanceId) (provenance_payload_sha256 : Sha256Digest)
    (balances : list ReconciliationBalance) : res ReconciliationObservation :=
  let* _ := reconciliation_uint64 source_sequence in
  let* _ := reconciliation_uint64 watermark_sequence in
  let* occurred := reconciliation_time occurred_at in
  let* available := reconciliation_time available_at in
  raise_if microseconds available <? microseconds occurred with raise_reconciliation OUT_OF_RANGE ;;
  raise_if negb (bool_decide (id_run_id observation_id = run_id)) with raise_reconciliation CONFLICTING_ID ;;
  raise_if negb (bool_decide (owner_kind observation_id = RECONCILIATION_OBSERVATION))
    with raise_reconciliation CONFLICTING_ID ;;
  let* _ := _require_kind_scope_and_balances kind declared_scope_kind balances spec_set in
  let o := mkReconciliationObservation run_id (spec_set_identifier spec_set) (instrument_spec_set_digest spec_set)
    observation_id kind source_namespace source_sequence occurred available watermark_namespace watermark_sequence
    declared_scope_kind declared_scope_id provenance_id provenance_payload_sha256 balances in
  let* _ := canonical_reconciliation_observation_bytes o in
  Ok o.

Definition canonical_reconciliation_outcome_bytes (o : ReconciliationOutcome) : res str :=
  bounded_payload (encode_json (_outcome_document o)).
Definition reconciliation_outcome_digest (o : ReconciliationOutcome) : res Sha256Digest :=
  let* payload := canonical_reconciliation_outcome_bytes o in
  Ok (_framed_digest (domain "ea.reconciliation-outcome.v2") payload).

Definition create_reconciliation_outcome (run_id : RunId) (dispatch_sequence : Z) (observation_sha256 : Sha256Digest)
    (local_snapshot_version : Z) (local_snapshot_sha256 : Sha256Digest) (ledger_sequence : Z)
    (comparison : ReconciliationWatermarkComparison) (discrepancies : list ReconciliationDiscrepancy)
    (code : OutcomeCode) (action : ReconciliationRequestedAction) (halt_requested : bool) : res ReconciliationOutcome :=
  let* _ := reconciliation_uint64 dispatch_sequence in
  let* _ := reconciliation_uint64 local_snapshot_version in
  let* _ := reconciliation_uint64 ledger_sequence in
  raise_if dispatch_sequence =? 0 with raise_reconciliation OUT_OF_RANGE ;;
  raise_if MAX_RECONCILIATION_BALANCES <? Z.of_nat (length discrepancies) with raise_reconciliation OUT_OF_RANGE ;;
  raise_if negb (canonical_keys (map _discrepancy_sort_key discrepancies)) with raise_reconciliation CONFLICTING_ID ;;
  let* _ := _require_outcome_matrix comparison discrepancies code action halt_requested in
  let o := mkReconciliationOutcome run_id dispatch_sequence observation_sha256 local_snapshot_version
    local_snapshot_sha256 ledger_sequence comparison discrepancies code action halt_requested in
  let* _ := canonical_reconciliation_outcome_bytes o in
  Ok o.
End Values.
