(* ===== verification/ReconciliationAuthority.v ===== *)
(** The reconciliation authority ([reconciliation/authority.py]), with the factories of the
    command and the authorization it issues ([core/reconciliation.py]).

    The portfolio snapshot its [snapshot_view] returns at a call is an argument.  An outcome
    is an object with a name: the authority knows the outcomes it made by identity, so the
    name of the object an admission creates is an argument too.  The audit journal is a
    parameter: what a caller presents as binding and acknowledgement is the run it is bound
    to and its verdict on a payload. *)

From S2P Require Import Prelude PyRegex PyText Outcomes Json Identity Economics Execution Messages Orders.
From S2P Require Import Portfolio Reconciliation Observation.

Open Scope Z_scope.

Definition _ERROR_CODES : list OutcomeCode := [INVALID_TYPE; OUT_OF_RANGE; CONFLICTING_ID].
Definition raise_authority (c : OutcomeCode) : exn :=
  if permitted _ERROR_CODES c then ReconciliationAuthorityError c else TypeError.

Definition _PORTFOLIO_LEDGER_WATERMARK_NAMESPACE : SourceNamespace :=
  mkPatternStr (r := _TOKEN_PATTERN) "ledger.portfolio" eq_refl.

Abbreviation ReconciliationAuthorizationPolicyId := RuntimeIdentifier.

(** What an audit journal says of a run: its binding, and the digest of the acknowledgement
    when it binds the outcome record of a payload. *)
Record audit_evidence : Type := mkAuditEvidence {
  binding_run_id : RunId;
  acknowledged : str -> option Sha256Digest
}.

Record outcome_object : Type := mkOutcomeObject { outcome_name : Z; outcome_of : ReconciliationOutcome }.
#[export] Instance outcome_object_eq_dec : EqDecision outcome_object.
Proof. solve_decision. Defined.

Record Phase1ReconciliationAuthority : Type := mkReconciliationAuthority {
  rx_run_id : RunId;
  rx_spec_set : InstrumentExecutionSpecSet
}.
Record _AuthorityState : Type := mkAuthorityState {
  observation_index : gmap (SourceNamespace * Z) Sha256Digest;
  outcome_index : gmap Sha256Digest outcome_object;
  authorization_index : gmap EconomicId Sha256Digest;
  adjustment_index : gmap EconomicId Sha256Digest;
  command_index : gmap Sha256Digest Sha256Digest;
  next_authorization_sequence : Z;
  next_adjustment_sequence : Z
}.

(** [_require_uint64] and [_advance]. *)
Definition authority_uint64 (n : Z) : res Z :=
  raise_if negb ((0 <=? n) && (n <=? MAX_UINT64)) with raise_authority OUT_OF_RANGE ;; Ok n.
Definition _advance (n : Z) : res (option Z) :=
  raise_if negb ((1 <=? n) && (n <=? MAX_UINT64)) with raise_authority OUT_OF_RANGE ;;
  Ok (if n =? MAX_UINT64 then None else Some (n + 1)).

(** ** The balances that are compared *)

Definition observed_positions (o : ReconciliationObservation) : gmap Instrument CanonicalDecimal :=
  foldl (fun m b => <[b.1 := b.2]> m) ∅ (omap position_balance (ob_balances o)).
Definition local_positions (s : PortfolioSnapshot) : gmap Instrument CanonicalDecimal :=
  foldl (fun m b => <[position_instrument b := position_quantity b]> m) ∅ (position_balances s).
Definition observed_cash (o : ReconciliationObservation) : gmap SettlementCurrency CanonicalDecimal :=
  foldl (fun m b => <[b.1 := b.2]> m) ∅ (omap cash_balance (ob_balances o)).
Definition local_cash (s : PortfolioSnapshot) : gmap SettlementCurrency CanonicalDecimal :=
  foldl (fun m b => <[cash_currency b := cash_amount b]> m) ∅ (cash_balances s).

(** The loop over the sorted targets. *)
Fixpoint discrepancies_of {K} `{Countable K} (create : K -> CanonicalDecimal -> CanonicalDecimal -> res ReconciliationDiscrepancy)
  (local observed : gmap K CanonicalDecimal) (targets : list K) : res (list ReconciliationDiscrepancy) :=
  match targets with
  | [] => Ok []
  | k :: targets =>
      let local_amount := default CANONICAL_0 (local !! k) in
      let observed_amount := default CANONICAL_0 (observed !! k) in
      if bool_decide (local_amount = observed_amount) then discrepancies_of create local observed targets
      else
        let* d := create k local_amount observed_amount in
        let* rest := discrepancies_of create local observed targets in
        Ok (d :: rest)
  end.
Definition targets_of {K T} `{Countable K, PyOrd T} (key : K -> T) (local observed : gmap K CanonicalDecimal) : list K :=
  py_sorted key (elements (dom observed ∪ dom local)).

Definition _compare_position_balances (o : ReconciliationObservation) (s : PortfolioSnapshot)
  (spec_set : InstrumentExecutionSpecSet) : res (list ReconciliationDiscrepancy) :=
  discrepancies_of (create_position_reconciliation_discrepancy spec_set) (local_positions s) (observed_positions o)
    (targets_of instrument_key (local_positions s) (observed_positions o)).
Definition _compare_cash_balances (o : ReconciliationObservation) (s : PortfolioSnapshot)
  (spec_set : InstrumentExecutionSpecSet) : res (list ReconciliationDiscrepancy) :=
  discrepancies_of (create_cash_reconciliation_discrepancy spec_set) (local_cash s) (observed_cash o)
    (targets_of value (local_cash s) (observed_cash o)).
Definition _compare_balances (o : ReconciliationObservation) (s : PortfolioSnapshot)
  (spec_set : InstrumentExecutionSpecSet) : res (list ReconciliationDiscrepancy) :=
  if bool_decide (ob_kind o = POSITION_SNAPSHOT) then _compare_position_balances o s spec_set
  else _compare_cash_balances o s spec_set.

Definition _observation_scope_is_complete (o : ReconciliationObservation) (s : PortfolioSnapshot) : bool :=
  if bool_decide (ob_kind o = POSITION_SNAPSHOT)
  then forallb (fun b => bool_decide (position_instrument b ∈ map fst (omap position_balance (ob_balances o)))) (position_balances s)
  else forallb (fun b => bool_decide (cash_currency b ∈ map fst (omap cash_balance (ob_balances o)))) (cash_balances s).

Section Authority.
Context `{hash : Sha256} (A : Phase1ReconciliationAuthority).
Implicit Types (st : _AuthorityState).
#[local] Abbreviation run_id := (rx_run_id A).
#[local] Abbreviation spec_set := (rx_spec_set A).

(** ** The comparison *)

Definition _require_observation_evidence (o : ReconciliationObservation) : res unit :=
  raise_if negb (bool_decide (ob_run_id o = run_id))
        || negb (bool_decide (ob_spec_set_id o = spec_set_identifier spec_set))
        || negb (bool_decide (ob_spec_set_sha256 o = instrument_spec_set_digest spec_set))
    with raise_authority CONFLICTING_ID ;;
  Ok tt.

Definition snapshot_is_bound (s : PortfolioSnapshot) : bool :=
  bool_decide (snap_run_id s = run_id) && bool_decide (snap_spec_set_id s = spec_set_identifier spec_set)
  && bool_decide (snap_spec_set_sha256 s = instrument_spec_set_digest spec_set).
Definition _require_snapshot_view (view : PortfolioSnapshot) : res PortfolioSnapshot :=
  raise_if negb (snapshot_is_bound view) with raise_authority CONFLICTING_ID ;; Ok view.

Definition _comparison_outcome (observation_sha256 : Sha256Digest) (s : PortfolioSnapshot) (dispatch_sequence : Z)
  (comparison : ReconciliationWatermarkComparison) (discrepancies : list ReconciliationDiscrepancy)
  (outcome_code : OutcomeCode) (requested_action : ReconciliationRequestedAction) (halt_requested : bool)
  : res ReconciliationOutcome :=
  create_reconciliation_outcome run_id dispatch_sequence observation_sha256 (snapshot_version s)
    (portfolio_snapshot_digest s) (ledger_sequence s) comparison discrepancies outcome_code requested_action halt_requested.

Definition _compare_observation (o : ReconciliationObservation) (s : PortfolioSnapshot) (dispatch_sequence : Z)
  : res ReconciliationOutcome :=
  let* observation_sha256 := reconciliation_observation_digest o in
  let outcome := _comparison_outcome observation_sha256 s dispatch_sequence in
  let invalid := outcome INCOMPARABLE [] RECONCILIATION_INVALID RETAIN_AND_HALT true in
  if bool_decide (ob_kind o = ORDER_DETAIL)
  then outcome EQUAL [] RECONCILIATION_UNRESOLVED_CORRELATION RETAIN_AND_HALT true
  else if bool_decide (ob_kind o = TRADE_DETAIL) then invalid
  else if negb (bool_decide (ob_watermark_namespace o = _PORTFOLIO_LEDGER_WATERMARK_NAMESPACE)) then invalid
  else if ob_watermark_sequence o <? ledger_sequence s
  then outcome REMOTE_LOWER [] RECONCILIATION_LOCAL_AHEAD_STALE RETAIN_AND_HALT true
  else if ledger_sequence s <? ob_watermark_sequence o
  then outcome REMOTE_HIGHER [] RECONCILIATION_REMOTE_AHEAD REQUEST_MISSING_TRADE_FACTS true
  else if negb (_observation_scope_is_complete o s) then invalid
  else
    let* discrepancies := _compare_balances o s spec_set in
    match discrepancies with
    | [] => outcome EQUAL [] RECONCILIATION_MATCH NO_ACTION false
    | [_] => outcome EQUAL discrepancies RECONCILIATION_MISMATCH PROPOSE_SINGLE_TARGET_ADJUSTMENT true
    | _ => outcome EQUAL discrepancies RECONCILIATION_QUARANTINED MANUAL_EVIDENCE_DECOMPOSITION true
    end.

(** ** Admission *)

(** The result is the outcome object; [name] is that of the object a new admission creates. *)
Definition admit_observation st (view : PortfolioSnapshot) (name : Z) (o : ReconciliationObservation) (dispatch_sequence : Z)
  : res (outcome_object * _AuthorityState) :=
  let* _ := _require_observation_evidence o in
  let* checked := authority_uint64 dispatch_sequence in
  raise_if checked =? 0 with raise_authority OUT_OF_RANGE ;;
  let* observation_sha256 := reconciliation_observation_digest o in
  let identity := (ob_source_namespace o, ob_source_sequence o) in
  match observation_index st !! identity with
  | Some prior =>
      raise_if negb (bool_decide (prior = observation_sha256)) with raise_authority CONFLICTING_ID ;;
      match outcome_index st !! observation_sha256 with
      | None => Raise (raise_authority CONFLICTING_ID)
      | Some outcome => Ok (outcome, st)
      end
  | None =>
      let* snapshot := _require_snapshot_view view in
      let* outcome := _compare_observation o snapshot checked in
      let object := mkOutcomeObject name outcome in
      Ok (object,
          mkAuthorityState (<[identity := observation_sha256]> (observation_index st))
            (<[observation_sha256 := object]> (outcome_index st)) (authorization_index st) (adjustment_index st)
            (command_index st) (next_authorization_sequence st) (next_adjustment_sequence st))
  end.

(** ** The command of an adjustment *)

Definition _snapshot_position_amount (s : PortfolioSnapshot) (i : Instrument) : CanonicalDecimal :=
  match List.find (fun b => bool_decide (position_instrument b = i)) (position_balances s) with
  | Some b => position_quantity b
  | None => CANONICAL_0
  end.
Definition _snapshot_cash_amount (s : PortfolioSnapshot) (c : SettlementCurrency) : CanonicalDecimal :=
  match List.find (fun b => bool_decide (cash_currency b = c)) (cash_balances s) with
  | Some b => cash_amount b
  | None => CANONICAL_0
  end.

Definition _ancestry_order_scope_id (order : Order) : string :=
  ("execution_order:" +:+ value (od_run_id order) +:+ ":" +:+ text_of (digits (owner_sequence (od_order_id order))))%string.
Definition _canonical_ancestry_evidence_bytes (fill : Fill) (reference : OpenReconciliationRef) (order : Order) : str :=
  encode_json (JDict
    [("canonicalization", JStr "ea-reconciliation-v1");
     ("fill_id", _economic_id_document (fill_id fill));
     ("fill_sha256", JStr (value (fill_digest fill)));
     ("order_id", _economic_id_document (od_order_id order));
     ("order_sha256", JStr (value (order_digest order)));
     ("processing_outcome_sha256", JStr (value (open_processing_outcome_sha256 reference)));
     ("run_id", JStr (value (fill_run_id fill)));
     ("schema", JStr "ea.reconciliation-ancestry-evidence.v1")]%string).
Definition _ancestry_evidence_digest (fill : Fill) (reference : OpenReconciliationRef) (order : Order) : Sha256Digest :=
  _framed_digest (domain "ea.reconciliation-ancestry-evidence.v1") (_canonical_ancestry_evidence_bytes fill reference order).
Definition none_or {V} `{EqDecision V} (field : option V) (v : V) : bool :=
  match field with None => true | Some x => bool_decide (x = v) end.
Definition _fill_ancestry_is_compatible (fill : Fill) (order : Order) : bool :=
  (absent (fill_order_id fill) || absent (fill_correlation_id fill) || absent (fill_causation_id fill))
  && bool_decide (fill_instrument fill = od_instrument order)
  && bool_decide (fill_side fill = od_side order)
  && bool_decide (fill_specification_id fill = od_specification_id order)
  && none_or (fill_client_submission_key fill) (order_client_submission_key order)
  && none_or (fill_order_id fill) (od_order_id order)
  && none_or (fill_correlation_id fill) (od_correlation_id order)
  && none_or (fill_causation_id fill) (od_order_id order).

(** The target and the amounts of a command. *)
Record command_target : Type := mkCommandTarget {
  ct_variant : ReconciliationAdjustmentVariant;
  ct_target_kind : ReconciliationAdjustmentTargetKind;
  ct_instrument : option Instrument;
  ct_currency : option SettlementCurrency;
  ct_local_amount : option CanonicalDecimal;
  ct_observed_amount : option CanonicalDecimal;
  ct_delta : option CanonicalDecimal;
  ct_open_reconciliation_ref : option OpenReconciliationRef;
  ct_ancestry_order : option (EconomicId * Sha256Digest)
}.
Definition _build_adjustment_command (outcome : ReconciliationOutcome) (adjustment_id : EconomicId) (t : command_target)
  : res ReconciliationAdjustmentCommand :=
  let* outcome_sha256 := reconciliation_outcome_digest outcome in
  let command :=
    {| rc_run_id := ro_run_id outcome;
       rc_spec_set_id := spec_set_identifier spec_set;
       rc_spec_set_sha256 := instrument_spec_set_digest spec_set;
       rc_adjustment_id := adjustment_id;
       rc_observation_sha256 := ro_observation_sha256 outcome;
       rc_reconciliation_outcome_sha256 := outcome_sha256;
       rc_ledger_sequence := ro_ledger_sequence outcome;
       rc_local_snapshot_sha256 := ro_local_snapshot_sha256 outcome;
       rc_variant := ct_variant t;
       rc_target_kind := ct_target_kind t;
       rc_instrument := ct_instrument t;
       rc_currency := ct_currency t;
       rc_local_amount := ct_local_amount t;
       rc_observed_amount := ct_observed_amount t;
       rc_delta := ct_delta t;
       rc_open_reconciliation_ref := ct_open_reconciliation_ref t;
       rc_ancestry_order_id := fst <$> ct_ancestry_order t;
       rc_ancestry_order_sha256 := snd <$> ct_ancestry_order t;
       rc_dispatch_sequence := ro_dispatch_sequence outcome |} in
  let* _ := canonical_reconciliation_adjustment_command_bytes command in
  Ok command.

(** What a proposal of one target names, once the evidence is bound. *)
Definition balance_target (o : ReconciliationObservation) (s : PortfolioSnapshot) (discrepancies : list ReconciliationDiscrepancy)
  : res command_target :=
  match discrepancies with
  | [PositionReconciliationDiscrepancy i local observed delta] =>
      raise_if negb (bool_decide (ob_kind o = POSITION_SNAPSHOT))
            || negb (bool_decide (PositionReconciliationBalance i observed ∈ ob_balances o))
            || negb (bool_decide (local = _snapshot_position_amount s i))
        with raise_reconciliation CONFLICTING_ID ;;
      Ok (mkCommandTarget BALANCE_CORRECTION INSTRUMENT_POSITION (Some i) None (Some local) (Some observed) (Some delta) None None)
  | [CashReconciliationDiscrepancy c local observed delta] =>
      raise_if negb (bool_decide (ob_kind o = CASH_SNAPSHOT))
            || negb (bool_decide (CashReconciliationBalance c observed ∈ ob_balances o))
            || negb (bool_decide (local = _snapshot_cash_amount s c))
        with raise_reconciliation CONFLICTING_ID ;;
      Ok (mkCommandTarget BALANCE_CORRECTION SETTLEMENT_CASH None (Some c) (Some local) (Some observed) (Some delta) None None)
  | _ => Raise (raise_reconciliation CONFLICTING_ID)
  end.
Definition ancestry_target (o : ReconciliationObservation) (s : PortfolioSnapshot) (run : RunId)
  (reference : OpenReconciliationRef) (fill : Fill) (order : Order) : res command_target :=
  raise_if negb (bool_decide (id_run_id (open_fill_id reference) = run))
        || negb (bool_decide (reference ∈ open_reconciliation_refs s))
        || negb (existsb (fun b => bool_decide (binding_fill_id b = open_fill_id reference)
                                  && bool_decide (binding_fill_sha256 b = open_fill_sha256 reference))
                         (open_reconciliation_bindings s))
        || negb (bool_decide (fill_id fill = open_fill_id reference))
        || negb (bool_decide (fill_digest fill = open_fill_sha256 reference))
        || negb (bool_decide (fill_run_id fill = run))
        || negb (bool_decide (fill_spec_set_id fill = spec_set_identifier spec_set))
        || negb (bool_decide (fill_spec_set_sha256 fill = instrument_spec_set_digest spec_set))
        || negb (bool_decide (od_run_id order = run))
        || negb (bool_decide (od_spec_set_id order = spec_set_identifier spec_set))
        || negb (bool_decide (od_spec_set_sha256 order = instrument_spec_set_digest spec_set))
        || negb (bool_decide (ob_kind o = ORDER_DETAIL))
        || negb (bool_decide (value (ob_declared_scope_id o) = _ancestry_order_scope_id order))
        || negb (bool_decide (ob_provenance_payload_sha256 o = _ancestry_evidence_digest fill reference order))
        || negb (_fill_ancestry_is_compatible fill order)
    with raise_reconciliation CONFLICTING_ID ;;
  Ok (mkCommandTarget ANCESTRY_RESOLUTION OPEN_RECONCILIATION_REF None None None None None (Some reference)
        (Some (od_order_id order, order_digest order))).

Definition _create_reconciliation_adjustment_command (evidence : audit_evidence) (o : ReconciliationObservation)
  (outcome : ReconciliationOutcome) (s : PortfolioSnapshot) (adjustment_id : EconomicId)
  (reference : option OpenReconciliationRef) (fill : option Fill) (order : option Order)
  : res ReconciliationAdjustmentCommand :=
  let run := binding_run_id evidence in
  let* observation_sha256 := reconciliation_observation_digest o in
  raise_if negb (bool_decide (ob_run_id o = run))
        || negb (bool_decide (ro_run_id outcome = run))
        || negb (bool_decide (id_run_id adjustment_id = run))
        || negb (bool_decide (owner_kind adjustment_id = RECONCILIATION_ADJUSTMENT))
        || negb (bool_decide (ob_spec_set_id o = spec_set_identifier spec_set))
        || negb (bool_decide (ob_spec_set_sha256 o = instrument_spec_set_digest spec_set))
        || negb (bool_decide (ro_observation_sha256 outcome = observation_sha256))
        || negb (bool_decide (snap_run_id s = run))
        || negb (bool_decide (snap_spec_set_id s = spec_set_identifier spec_set))
        || negb (bool_decide (snap_spec_set_sha256 s = instrument_spec_set_digest spec_set))
        || negb (snapshot_version s =? ro_local_snapshot_version outcome)
        || negb (ledger_sequence s =? ro_ledger_sequence outcome)
        || negb (bool_decide (portfolio_snapshot_digest s = ro_local_snapshot_sha256 outcome))
        || negb (bool_decide (ob_watermark_namespace o = _PORTFOLIO_LEDGER_WATERMARK_NAMESPACE))
        || negb (ob_watermark_sequence o =? ledger_sequence s)
    with raise_reconciliation CONFLICTING_ID ;;
  let* outcome_payload := canonical_reconciliation_outcome_bytes outcome in
  raise_if absent (acknowledged evidence outcome_payload) with raise_reconciliation CONFLICTING_ID ;;
  match ro_requested_action outcome with
  | PROPOSE_SINGLE_TARGET_ADJUSTMENT =>
      raise_if negb (absent reference) || negb (absent fill) || negb (absent order) with raise_reconciliation CONFLICTING_ID ;;
      let* target := balance_target o s (ro_discrepancies outcome) in
      _build_adjustment_command outcome adjustment_id target
  | PROPOSE_ANCESTRY_RESOLUTION =>
      match reference, fill, order with
      | Some reference, Some fill, Some order =>
          let* target := ancestry_target o s run reference fill order in
          _build_adjustment_command outcome adjustment_id target
      | _, _, _ => Raise (raise_reconciliation CONFLICTING_ID)
      end
  | _ => Raise (raise_reconciliation CONFLICTING_ID)
  end.

(** ** Proposal *)

Definition _require_outcome_evidence (outcome : ReconciliationOutcome) (o : ReconciliationObservation) : res unit :=
  let* observation_sha256 := reconciliation_observation_digest o in
  raise_if negb (bool_decide (ro_run_id outcome = run_id))
        || negb (bool_decide (ob_run_id o = run_id))
        || negb (bool_decide (ob_spec_set_id o = spec_set_identifier spec_set))
        || negb (bool_decide (ob_spec_set_sha256 o = instrument_spec_set_digest spec_set))
        || negb (bool_decide (ro_observation_sha256 outcome = observation_sha256))
    with raise_authority CONFLICTING_ID ;;
  Ok tt.
(** The row of the matrix that asks for one adjustment. *)
Definition is_single_mismatch (outcome : ReconciliationOutcome) : bool :=
  bool_decide (ro_watermark_comparison outcome = EQUAL) && bool_decide (ro_outcome_code outcome = RECONCILIATION_MISMATCH)
  && bool_decide (ro_requested_action outcome = PROPOSE_SINGLE_TARGET_ADJUSTMENT).

Definition propose_adjustment_command st (evidence : audit_evidence) (object : outcome_object)
  (o : ReconciliationObservation) (s : PortfolioSnapshot) : res (ReconciliationAdjustmentCommand * _AuthorityState) :=
  let outcome := outcome_of object in
  let* _ := _require_outcome_evidence outcome o in
  raise_if negb (snapshot_is_bound s) with raise_authority CONFLICTING_ID ;;
  raise_if bool_decide (ro_requested_action outcome = PROPOSE_ANCESTRY_RESOLUTION) with raise_authority CONFLICTING_ID ;;
  raise_if negb (is_single_mismatch outcome) || negb (Nat.eqb (length (ro_discrepancies outcome)) 1)
        || negb (ro_halt_requested outcome) with raise_authority CONFLICTING_ID ;;
  raise_if negb (bool_decide (outcome_index st !! ro_observation_sha256 outcome = Some object)) with raise_authority CONFLICTING_ID ;;
  let before := next_adjustment_sequence st in
  let* after := _advance before in
  match after with
  | None => Raise (raise_authority OUT_OF_RANGE)
  | Some after =>
      let* adjustment_id := EconomicId_init run_id RECONCILIATION_ADJUSTMENT before in
      let* command := _create_reconciliation_adjustment_command evidence o outcome s adjustment_id None None None in
      let* command_sha256 := reconciliation_adjustment_command_digest command in
      Ok (command,
          mkAuthorityState (observation_index st) (outcome_index st) (authorization_index st)
            (<[adjustment_id := command_sha256]> (adjustment_index st))
            (<[command_sha256 := ro_observation_sha256 outcome]> (command_index st))
            (next_authorization_sequence st) after)
  end.

(** ** Authorization *)

Definition _create_reconciliation_adjustment_authorization (evidence : audit_evidence) (outcome : ReconciliationOutcome)
  (command : ReconciliationAdjustmentCommand) (authorization_id : EconomicId) (policy_id : ReconciliationAuthorizationPolicyId)
  (policy_version : Z) (policy_sha256 : Sha256Digest) (decision : ReconciliationAuthorizationDecision)
  (available_at : datetime * option Z) : res ReconciliationAdjustmentAuthorization :=
  let* _ := reconciliation_uint64 policy_version in
  raise_if policy_version =? 0 with raise_reconciliation OUT_OF_RANGE ;;
  raise_if owner_sequence authorization_id =? 0 with raise_reconciliation OUT_OF_RANGE ;;
  let* available := reconciliation_time available_at in
  let run := binding_run_id evidence in
  let* outcome_sha256 := reconciliation_outcome_digest outcome in
  raise_if negb (bool_decide (rc_run_id command = run))
        || negb (bool_decide (ro_run_id outcome = run))
        || negb (bool_decide (id_run_id authorization_id = run))
        || negb (bool_decide (owner_kind authorization_id = RECONCILIATION_AUTHORIZATION))
        || negb (bool_decide (rc_spec_set_id command = spec_set_identifier spec_set))
        || negb (bool_decide (rc_spec_set_sha256 command = instrument_spec_set_digest spec_set))
        || negb (bool_decide (rc_reconciliation_outcome_sha256 command = outcome_sha256))
        || negb (bool_decide (rc_observation_sha256 command = ro_observation_sha256 outcome))
        || negb (rc_ledger_sequence command =? ro_ledger_sequence outcome)
        || negb (bool_decide (rc_local_snapshot_sha256 command = ro_local_snapshot_sha256 outcome))
        || negb (rc_dispatch_sequence command =? ro_dispatch_sequence outcome)
    with raise_reconciliation CONFLICTING_ID ;;
  let* outcome_payload := canonical_reconciliation_outcome_bytes outcome in
  match acknowledged evidence outcome_payload with
  | None => Raise (raise_reconciliation CONFLICTING_ID)
  | Some acknowledgement_sha256 =>
      let* command_sha256 := reconciliation_adjustment_command_digest command in
      let authorization :=
        {| ra_run_id := run;
           ra_spec_set_id := spec_set_identifier spec_set;
           ra_spec_set_sha256 := instrument_spec_set_digest spec_set;
           ra_authorization_id := authorization_id;
           ra_adjustment_id := rc_adjustment_id command;
           ra_observation_sha256 := rc_observation_sha256 command;
           ra_reconciliation_outcome_sha256 := rc_reconciliation_outcome_sha256 command;
           ra_outcome_acknowledgement_sha256 := acknowledgement_sha256;
           ra_ledger_sequence := rc_ledger_sequence command;
           ra_local_snapshot_sha256 := rc_local_snapshot_sha256 command;
           ra_command_sha256 := command_sha256;
           ra_policy_id := policy_id;
           ra_policy_version := policy_version;
           ra_policy_sha256 := policy_sha256;
           ra_decision := decision;
           ra_available_at := available;
           ra_dispatch_sequence := rc_dispatch_sequence command |} in
      let* _ := canonical_reconciliation_adjustment_authorization_bytes authorization in
      Ok authorization
  end.

Definition issue_authorization st (evidence : audit_evidence) (object : outcome_object) (command : ReconciliationAdjustmentCommand)
  (policy : ReconciliationAuthorizationPolicyId) (policy_version : Z) (policy_sha256 : Sha256Digest)
  (decision : ReconciliationAuthorizationDecision) (available_at : datetime * option Z)
  : res (ReconciliationAdjustmentAuthorization * _AuthorityState) :=
  let outcome := outcome_of object in
  let* checked_policy_version := authority_uint64 policy_version in
  raise_if checked_policy_version =? 0 with raise_authority OUT_OF_RANGE ;;
  raise_if negb (bool_decide (outcome_index st !! ro_observation_sha256 outcome = Some object)) with raise_authority CONFLICTING_ID ;;
  let* command_sha256 := reconciliation_adjustment_command_digest command in
  raise_if negb (bool_decide (adjustment_index st !! rc_adjustment_id command = Some command_sha256))
    with raise_authority CONFLICTING_ID ;;
  raise_if negb (bool_decide (command_index st !! command_sha256 = Some (ro_observation_sha256 outcome)))
    with raise_authority CONFLICTING_ID ;;
  raise_if negb (is_single_mismatch outcome) with raise_authority CONFLICTING_ID ;;
  let before := next_authorization_sequence st in
  let* after := _advance before in
  match after with
  | None => Raise (raise_authority OUT_OF_RANGE)
  | Some after =>
      let* authorization_id := EconomicId_init run_id RECONCILIATION_AUTHORIZATION before in
      raise_if negb (absent (authorization_index st !! authorization_id)) with raise_authority CONFLICTING_ID ;;
      let* authorization := _create_reconciliation_adjustment_authorization evidence outcome command authorization_id policy
                              checked_policy_version policy_sha256 decision available_at in
      let* authorization_sha256 := reconciliation_adjustment_authorization_digest authorization in
      Ok (authorization,
          mkAuthorityState (observation_index st) (outcome_index st)
            (<[authorization_id := authorization_sha256]> (authorization_index st)) (adjustment_index st) (command_index st)
            after (next_adjustment_sequence st))
  end.

Definition has_issued_authorization st (authorization_id : EconomicId) : bool :=
  negb (absent (authorization_index st !! authorization_id)).

(** ** The observation-only authority *)

(** [_ObservationOnlyReconciliationAuthority] admits what is not a trade detail, and resolves
    what it retained. *)
Definition observation_only_admit st (view : PortfolioSnapshot) (name : Z) (o : ReconciliationObservation) (dispatch_sequence : Z)
  : res (outcome_object * _AuthorityState) :=
  let* _ := _require_observation_evidence o in
  raise_if bool_decide (ob_kind o = TRADE_DETAIL) with raise_authority OUT_OF_RANGE ;;
  admit_observation st view name o dispatch_sequence.
Definition resolve_outcome st (o : ReconciliationObservation) : res outcome_object :=
  let* _ := _require_observation_evidence o in
  let* observation_sha256 := reconciliation_observation_digest o in
  match outcome_index st !! observation_sha256 with
  | None => Raise (raise_authority CONFLICTING_ID)
  | Some outcome => Ok outcome
  end.
End Authority.

Definition empty_authority_state : _AuthorityState := mkAuthorityState ∅ ∅ ∅ ∅ ∅ 1 1.
Definition create_phase1_reconciliation_authority `{hash : Sha256} (run_id : RunId) (spec_set : InstrumentExecutionSpecSet)
  (view : PortfolioSnapshot) : res (Phase1ReconciliationAuthority * _AuthorityState) :=
  let A := mkReconciliationAuthority run_id spec_set in
  let* _ := _require_snapshot_view A view in
  Ok (A, empty_authority_state).
