(* ===== verification/Runtime.v ===== *)
(** Bounded runtime roots and their deterministic global order ([core/runtime.py]).
    Process-local seals and exact-type tests are the types of the model. *)

From S2P Require Import Prelude PyRegex PyText Outcomes Json Identity Chronology MarketData Economics Execution Messages.
From S2P Require Import Portfolio Reconciliation Observation.

Open Scope Z_scope.

Definition _RUNTIME_ERROR_CODES : list OutcomeCode := [INVALID_TYPE; OUT_OF_RANGE; CONFLICTING_ID].
(** [_fail]: [RuntimeOrderingError.__init__] refuses other codes. *)
Definition raise_runtime (c : OutcomeCode) : exn :=
  if permitted _RUNTIME_ERROR_CODES c then RuntimeOrderingError c else TypeError.

Definition runtime_non_negative (n : Z) : res Z :=
  raise_if n <? 0 with raise_runtime OUT_OF_RANGE ;; Ok n.
Definition _require_utc_time (t : datetime * option Z) : res datetime :=
  match require_utc t.1 t.2 with Ok d => Ok d | Raise _ => Raise (raise_runtime OUT_OF_RANGE) end.

(** ** Domains, kinds and ranks *)

Inductive RuntimeRootDomain : Type :=
| DOMAIN_SAFETY | DOMAIN_EXECUTION_FACT | DOMAIN_RECONCILIATION_OBSERVATION | DOMAIN_MARKET_DATA | DOMAIN_TIMER
| DOMAIN_END_OF_RUN.
Inductive SafetyKind : Type := HALT | FAILURE_CUTOVER | STOP_CUTOVER.
Inductive TimerKind : Type := SAFETY_DEADLINE | STRATEGY_TIMER | MAINTENANCE.
Inductive EndOfRunKind : Type := BOUNDED_SOURCE_EXHAUSTED | REQUESTED_END.

Definition RUNTIME_ROOT_DOMAIN_RANKS (d : RuntimeRootDomain) : Z :=
  match d with
  | DOMAIN_SAFETY => 0 | DOMAIN_EXECUTION_FACT => 10 | DOMAIN_RECONCILIATION_OBSERVATION => 20
  | DOMAIN_MARKET_DATA => 30 | DOMAIN_TIMER => 40 | DOMAIN_END_OF_RUN => 50
  end.
Definition SAFETY_KIND_RANKS (k : SafetyKind) : Z :=
  match k with HALT => 0 | FAILURE_CUTOVER => 10 | STOP_CUTOVER => 20 end.
Definition EXECUTION_FACT_KIND_RANKS (k : ExecutionFactKind) : Z :=
  match k with
  | TRADE => 0 | REJECTION => 10 | ACKNOWLEDGEMENT => 20 | EXPIRY => 30 | CANCELLATION => 40 | SUBMISSION_QUERY => 50
  end.
Definition RECONCILIATION_OBSERVATION_KIND_RANKS (k : ReconciliationObservationKind) : Z :=
  match k with TRADE_DETAIL => 0 | ORDER_DETAIL => 10 | POSITION_SNAPSHOT => 20 | CASH_SNAPSHOT => 30 end.
Definition MARKET_DATA_KIND_RANKS (k : MarketDataKind) : Z := match k with BAR => 0 end.
Definition TIMER_KIND_RANKS (k : TimerKind) : Z :=
  match k with SAFETY_DEADLINE => 0 | STRATEGY_TIMER => 10 | MAINTENANCE => 20 end.
Definition END_OF_RUN_KIND_RANKS (k : EndOfRunKind) : Z :=
  match k with BOUNDED_SOURCE_EXHAUSTED => 0 | REQUESTED_END => 10 end.

#[export] Instance SafetyKind_eq_dec : EqDecision SafetyKind.
Proof. solve_decision. Defined.
#[export] Instance TimerKind_eq_dec : EqDecision TimerKind.
Proof. solve_decision. Defined.
#[export] Instance EndOfRunKind_eq_dec : EqDecision EndOfRunKind.
Proof. solve_decision. Defined.

(** ** Roots *)

Definition RuntimeIdentifier_init (s : string) : res RuntimeIdentifier := pattern_str (raise_runtime OUT_OF_RANGE) s.

Record SafetySubject : Type := mkSafetySubject { subject_kind : RuntimeIdentifier; subject_identifier : RuntimeIdentifier }.

Record SafetyRoot : Type := mkSafetyRoot {
  safety_available_at : datetime;
  safety_kind : SafetyKind;
  safety_producer_namespace : SourceNamespace;
  safety_producer_sequence : Z;
  safety_subject : option SafetySubject
}.
Definition SafetyRoot_init (available_at : datetime * option Z) (kind : SafetyKind) (namespace : SourceNamespace)
    (sequence : Z) (subject : option SafetySubject) : res SafetyRoot :=
  let* available := _require_utc_time available_at in
  let* sequence := runtime_non_negative sequence in
  Ok (mkSafetyRoot available kind namespace sequence subject).

Record TimerRoot : Type := mkTimerRoot {
  timer_available_at : datetime;
  timer_kind : TimerKind;
  timer_namespace : SourceNamespace;
  timer_id : RuntimeIdentifier;
  timer_producer_sequence : Z
}.
Definition TimerRoot_init (available_at : datetime * option Z) (kind : TimerKind) (namespace : SourceNamespace)
    (identifier : RuntimeIdentifier) (sequence : Z) : res TimerRoot :=
  let* available := _require_utc_time available_at in
  let* sequence := runtime_non_negative sequence in
  Ok (mkTimerRoot available kind namespace identifier sequence).

Record EndOfRunRoot : Type := mkEndOfRunRoot {
  end_available_at : datetime;
  end_kind : EndOfRunKind;
  end_producer_namespace : SourceNamespace;
  end_producer_sequence : Z;
  end_run_id : RunId
}.
Definition EndOfRunRoot_init (available_at : datetime * option Z) (kind : EndOfRunKind) (namespace : SourceNamespace)
    (sequence : Z) (run_id : RunId) : res EndOfRunRoot :=
  let* available := _require_utc_time available_at in
  let* sequence := runtime_non_negative sequence in
  Ok (mkEndOfRunRoot available kind namespace sequence run_id).

Record ReconciliationObservationRoot : Type := mkObservationRoot {
  root_observation : ReconciliationObservation;
  canonical_observation_bytes : str;
  root_observation_sha256 : Sha256Digest
}.

Inductive RuntimeRoot : Type :=
| RSafety (r : SafetyRoot)
| RFact (r : ExecutionFactIngress)
| RObservation (r : ReconciliationObservationRoot)
| RMarket (r : MarketDataEnvelope)
| RTimer (r : TimerRoot)
| REnd (r : EndOfRunRoot).

(** ** Order keys *)

Definition _SafetySuffix : Type := Z * (string * (Z * (Z * (string * string)))).
Definition _ExecutionFactSuffix : Type := Z * (string * Z).
Definition _ReconciliationObservationSuffix : Type := Z * (string * (Z * (string * (Z * (string * (string * Z)))))).
Definition _MarketDataSuffix : Type :=
  datetime * (Z * (string * (Z * (string * (string * (datetime * (datetime * (string * Z)))))))).
Definition _TimerSuffix : Type := Z * (string * (string * Z)).
Definition _EndOfRunSuffix : Type := Z * (string * (Z * string)).

Inductive _RuntimeSuffix : Type :=
| SafetySuffix (s : _SafetySuffix)
| ExecutionFactSuffix (s : _ExecutionFactSuffix)
| ObservationSuffix (s : _ReconciliationObservationSuffix)
| MarketDataSuffix (s : _MarketDataSuffix)
| TimerSuffix (s : _TimerSuffix)
| EndOfRunSuffix (s : _EndOfRunSuffix).
#[export] Instance _RuntimeSuffix_eq_dec : EqDecision _RuntimeSuffix.
Proof. solve_decision. Defined.

Record RuntimeRootOrderKey : Type := mkRootKey {
  key_available_at : datetime;
  key_domain_rank : Z;
  key_suffix : _RuntimeSuffix
}.
#[export] Instance RuntimeRootOrderKey_eq_dec : EqDecision RuntimeRootOrderKey.
Proof. solve_decision. Defined.

(** [a < b] of two tuples, and so of two dataclasses declared with [order=True]. *)
Definition py_lt {K} `{PyOrd K} (a b : K) : bool := negb (py_le b a).

(** [RuntimeRootOrderKey.__lt__] *)
Definition root_key_lt (a b : RuntimeRootOrderKey) : res bool :=
  if negb (bool_decide (key_available_at a = key_available_at b))
  then Ok (py_lt (key_available_at a) (key_available_at b))
  else if negb (key_domain_rank a =? key_domain_rank b) then Ok (key_domain_rank a <? key_domain_rank b)
  else
    match key_suffix a, key_suffix b with
    | SafetySuffix l, SafetySuffix r => Ok (py_lt (K := Z * (string * (Z * (Z * (string * string))))) l r)
    | ExecutionFactSuffix l, ExecutionFactSuffix r => Ok (py_lt (K := Z * (string * Z)) l r)
    | ObservationSuffix l, ObservationSuffix r =>
        Ok (py_lt (K := Z * (string * (Z * (string * (Z * (string * (string * Z))))))) l r)
    | MarketDataSuffix l, MarketDataSuffix r =>
        Ok (py_lt (K := datetime * (Z * (string * (Z * (string * (string * (datetime * (datetime * (string * Z)))))))))
              l r)
    | TimerSuffix l, TimerSuffix r => Ok (py_lt (K := Z * (string * (string * Z))) l r)
    | EndOfRunSuffix l, EndOfRunSuffix r => Ok (py_lt (K := Z * (string * (Z * string))) l r)
    | _, _ => Raise (raise_runtime CONFLICTING_ID)
    end.

Section Keys.
Context `{Sha256}.

Definition create_reconciliation_observation_root (o : ReconciliationObservation)
    : res ReconciliationObservationRoot :=
  let* payload := canonical_reconciliation_observation_bytes o in
  let* digest := reconciliation_observation_digest o in
  Ok (mkObservationRoot o payload digest).

Definition _require_reconciliation_observation_root (r : ReconciliationObservationRoot)
    : res ReconciliationObservationRoot :=
  let* payload := canonical_reconciliation_observation_bytes (root_observation r) in
  raise_if negb (bool_decide (canonical_observation_bytes r = payload)) with raise_runtime INVALID_TYPE ;;
  let* digest := reconciliation_observation_digest (root_observation r) in
  raise_if negb (bool_decide (root_observation_sha256 r = digest)) with raise_runtime INVALID_TYPE ;;
  Ok r.

Definition safety_suffix (r : SafetyRoot) : _SafetySuffix :=
  let '(presence, kind, identifier) :=
    match safety_subject r with
    | None => (0, EmptyString, EmptyString)
    | Some s => (1, value (subject_kind s), value (subject_identifier s))
    end in
  (SAFETY_KIND_RANKS (safety_kind r), (value (safety_producer_namespace r), (safety_producer_sequence r,
   (presence, (kind, identifier))))).

Definition observation_suffix (o : ReconciliationObservation) : _ReconciliationObservationSuffix :=
  let identifier := ob_observation_id o in
  (RECONCILIATION_OBSERVATION_KIND_RANKS (ob_kind o), (value (ob_source_namespace o), (ob_source_sequence o,
   (value (ob_watermark_namespace o), (ob_watermark_sequence o, (value (id_run_id identifier),
   (owner_kind_value (owner_kind identifier), owner_sequence identifier))))))).

Definition runtime_root_order_key (root : RuntimeRoot) : res RuntimeRootOrderKey :=
  match root with
  | RSafety r =>
      Ok (mkRootKey (safety_available_at r) (RUNTIME_ROOT_DOMAIN_RANKS DOMAIN_SAFETY) (SafetySuffix (safety_suffix r)))
  | RFact r =>
      Ok (mkRootKey (ingress_available_at r) (RUNTIME_ROOT_DOMAIN_RANKS DOMAIN_EXECUTION_FACT)
            (ExecutionFactSuffix (EXECUTION_FACT_KIND_RANKS (fact_kind (ingress_fact r)),
               (value (ingress_source_namespace r), ingress_sequence_ r))))
  | RObservation r =>
      let* r := _require_reconciliation_observation_root r in
      Ok (mkRootKey (ob_available_at (root_observation r)) (RUNTIME_ROOT_DOMAIN_RANKS DOMAIN_RECONCILIATION_OBSERVATION)
            (ObservationSuffix (observation_suffix (root_observation r))))
  | RMarket r =>
      let market_key := admission_order_key r in
      Ok (mkRootKey market_key.1 (RUNTIME_ROOT_DOMAIN_RANKS DOMAIN_MARKET_DATA) (MarketDataSuffix market_key.2))
  | RTimer r =>
      Ok (mkRootKey (timer_available_at r) (RUNTIME_ROOT_DOMAIN_RANKS DOMAIN_TIMER)
            (TimerSuffix (TIMER_KIND_RANKS (timer_kind r), (value (timer_namespace r), (value (timer_id r),
               timer_producer_sequence r)))))
  | REnd r =>
      Ok (mkRootKey (end_available_at r) (RUNTIME_ROOT_DOMAIN_RANKS DOMAIN_END_OF_RUN)
            (EndOfRunSuffix (END_OF_RUN_KIND_RANKS (end_kind r), (value (end_producer_namespace r),
               (end_producer_sequence r, value (end_run_id r))))))
  end.

(** ** Plans *)

Definition market_of (root : RuntimeRoot) : option MarketDataEnvelope :=
  match root with RMarket e => Some e | _ => None end.

(** [except MarketDataValidationError: raise _fail(CONFLICTING_ID)]; the loops of
    [_validate_market_subset] are those of [_validated_events] with that error. *)
Definition market_conflict {A} (m : res A) : res A :=
  match m with
  | Raise MarketDataValidationError => Raise (raise_runtime CONFLICTING_ID)
  | _ => m
  end.

Definition _validate_market_subset (markets : list MarketDataEnvelope) : res unit :=
  let* b := market_conflict (collect_all empty_batch markets) in
  raise_if negb (forallb (fun h => history_ok (py_sorted revision h.2)) (histories b))
    with raise_runtime CONFLICTING_ID ;;
  market_conflict (validate_market_data_batch markets).

(** The identity of a root in its domain; market data has its own checks. *)
Inductive RootIdentity : Type :=
| FactIdentity (source_namespace : string) (sequence : Z)
| ObservationIdentity (source_namespace : string) (sequence : Z)
| SafetyIdentity (producer_namespace : string) (sequence : Z)
| TimerIdentity (timer_namespace : string) (sequence : Z)
| EndIdentity (run_id producer_namespace : string) (sequence : Z).
#[export] Instance RootIdentity_eq_dec : EqDecision RootIdentity.
Proof. solve_decision. Defined.

Definition root_identity (root : RuntimeRoot) : res (option RootIdentity) :=
  match root with
  | RFact r => Ok (Some (FactIdentity (value (ingress_source_namespace r)) (ingress_sequence_ r)))
  | RObservation r =>
      let* r := _require_reconciliation_observation_root r in
      Ok (Some (ObservationIdentity (value (ob_source_namespace (root_observation r)))
                  (ob_source_sequence (root_observation r))))
  | RSafety r => Ok (Some (SafetyIdentity (value (safety_producer_namespace r)) (safety_producer_sequence r)))
  | RTimer r => Ok (Some (TimerIdentity (value (timer_namespace r)) (timer_producer_sequence r)))
  | REnd r => Ok (Some (EndIdentity (value (end_run_id r)) (value (end_producer_namespace r)) (end_producer_sequence r)))
  | RMarket _ => Ok None
  end.

(** The five sets of identities are one list of tagged identities. *)
Fixpoint check_identities (seen : list RootIdentity) (roots : list RuntimeRoot) : res unit :=
  match roots with
  | [] => Ok tt
  | root :: roots =>
      let* identity := root_identity root in
      match identity with
      | None => check_identities seen roots
      | Some i =>
          raise_if bool_decide (i ∈ seen) with raise_runtime CONFLICTING_ID ;;
          check_identities (i :: seen) roots
      end
  end.

Definition keyed_root (root : RuntimeRoot) : res (RuntimeRootOrderKey * RuntimeRoot) :=
  let* key := runtime_root_order_key root in Ok (key, root).

(** [sorted(keyed, key=lambda item: item[0])] calls [__lt__] of the keys, which may raise. *)
Fixpoint insert_keyed (x : RuntimeRootOrderKey * RuntimeRoot) (l : list (RuntimeRootOrderKey * RuntimeRoot))
    : res (list (RuntimeRootOrderKey * RuntimeRoot)) :=
  match l with
  | [] => Ok [x]
  | y :: l' =>
      let* before := root_key_lt y.1 x.1 in
      if before then let* rest := insert_keyed x l' in Ok (y :: rest) else Ok (x :: l)
  end.
Fixpoint sort_keyed (l : list (RuntimeRootOrderKey * RuntimeRoot)) : res (list (RuntimeRootOrderKey * RuntimeRoot)) :=
  match l with
  | [] => Ok []
  | x :: l => let* rest := sort_keyed l in insert_keyed x rest
  end.

(** A [BoundedRuntimeRootPlan] is the tuple its factory ordered. *)
Definition prepare_bounded_runtime_roots (roots : list RuntimeRoot) : res (list RuntimeRoot) :=
  raise_if bool_decide (roots = []) with raise_runtime OUT_OF_RANGE ;;
  let* _ := _validate_market_subset (omap market_of roots) in
  let* _ := check_identities [] roots in
  let* keyed := rmap keyed_root roots in
  raise_if negb (no_duplicates (map fst keyed)) with raise_runtime CONFLICTING_ID ;;
  let* ordered := sort_keyed keyed in
  Ok (map snd ordered).
End Keys.
