(* ===== verification/Queue.v ===== *)
(** The run-bound queue of one bounded plan ([runtime/queue.py]): one live dispatch at a
    time.  A lease is compared by object identity in the source; here [pop] is given the
    identity of the object it allocates. *)

From S2P Require Import Prelude PyRegex PyText Outcomes Json Identity Numbering Economics Execution Messages.
From S2P Require Import FactAuthority Observation Runtime.

Open Scope Z_scope.

(** [ExecutionFactIssuanceVerifier]: the trusted source behind the facts of one namespace. *)
Record ExecutionFactIssuanceVerifier : Type := mkIssuanceVerifier {
  verifier_run_id : RunId;
  verifier_spec_set : InstrumentExecutionSpecSet;
  verifier_source : SourceNamespace;
  has_issued_ingress : IngressIdentity -> str -> str -> bool
}.

Record RuntimeDispatchLease : Type := mkLease {
  lease_object : positive;
  lease_root : RuntimeRoot;
  lease_dispatch_sequence : Z
}.

(** The identity and bytes of a dispatched fact: the three optional fields are set together. *)
Record FactDispatch : Type := mkFactDispatch {
  fd_identity : IngressIdentity;
  fd_ingress_bytes : str;
  fd_fact_bytes : str
}.
Record _ActiveDispatch : Type := mkActive {
  active_lease_ : RuntimeDispatchLease;
  active_root : RuntimeRoot;
  active_dispatch_sequence : Z;
  active_fact : option FactDispatch
}.
Record _AcknowledgedFactDispatch : Type := mkAcknowledged {
  ack_dispatch_sequence : Z;
  ack_fact : FactDispatch
}.
Record _QueueState : Type := mkQueueState {
  cursor : nat;
  dispatch_next : option Z;
  active : option _ActiveDispatch;
  acknowledged_fact_dispatches : list _AcknowledgedFactDispatch
}.
Record DeterministicRootQueue : Type := mkQueue {
  q_run_id : RunId;
  q_spec_set : InstrumentExecutionSpecSet;
  q_plan : list RuntimeRoot;
  fact_issuance_verifiers : gmap SourceNamespace ExecutionFactIssuanceVerifier
}.

(** [_advance] asserts its argument. *)
Definition advance_dispatch (n : Z) : res (option Z) :=
  raise_if negb ((1 <=? n) && (n <=? MAX_UINT64)) with AssertionError ;;
  Ok (if n =? MAX_UINT64 then None else Some (n + 1)).

Section Queue.
Context `{Sha256} (q : DeterministicRootQueue).

Definition remaining (st : _QueueState) : Z := Z.of_nat (length (q_plan q)) - Z.of_nat (cursor st).
Definition active_lease (st : _QueueState) : option RuntimeDispatchLease := option_map active_lease_ (active st).
Definition acknowledged_fact_dispatch_count (st : _QueueState) : nat := length (acknowledged_fact_dispatches st).

(** [_current] and [peek] *)
Definition _current (st : _QueueState) : res RuntimeRoot :=
  match q_plan q !! cursor st with
  | None => Raise (raise_runtime OUT_OF_RANGE)
  | Some root => Ok root
  end.
Definition peek (st : _QueueState) : res RuntimeRoot := _current st.

(** The part of [pop] that asks the source of a fact whether it issued it. *)
Definition issued_fact (root : RuntimeRoot) : res (option FactDispatch) :=
  match root with
  | RFact i =>
      let ingress_bytes := canonical_execution_fact_ingress_bytes i in
      let fact_bytes := canonical_execution_fact_bytes (ingress_fact i) in
      match fact_issuance_verifiers q !! ingress_source_namespace i with
      | None => Raise KeyError
      | Some verifier =>
          raise_if negb (has_issued_ingress verifier (ingress_identity_of i) ingress_bytes fact_bytes)
            with raise_runtime CONFLICTING_ID ;;
          Ok (Some (mkFactDispatch (ingress_identity_of i) ingress_bytes fact_bytes))
      end
  | _ => Ok None
  end.

Definition pop (object : positive) (st : _QueueState) : res (RuntimeDispatchLease * _QueueState) :=
  raise_if bool_decide (is_Some (active st)) with raise_runtime CONFLICTING_ID ;;
  let* root := _current st in
  match dispatch_next st with
  | None => Raise (raise_runtime OUT_OF_RANGE)
  | Some dispatch_sequence =>
      let* fact := issued_fact root in
      let lease := mkLease object root dispatch_sequence in
      let* next := advance_dispatch dispatch_sequence in
      Ok (lease, mkQueueState (S (cursor st)) next (Some (mkActive lease root dispatch_sequence fact))
                   (acknowledged_fact_dispatches st))
  end.

Definition acknowledge (lease : RuntimeDispatchLease) (st : _QueueState) : res _QueueState :=
  match active st with
  | None => Raise (raise_runtime CONFLICTING_ID)
  | Some a =>
      raise_if negb (bool_decide (lease_object (active_lease_ a) = lease_object lease)) with raise_runtime CONFLICTING_ID ;;
      Ok (mkQueueState (cursor st) (dispatch_next st) None
            (acknowledged_fact_dispatches st ++
               match active_fact a with
               | Some f => [mkAcknowledged (active_dispatch_sequence a) f]
               | None => []
               end))
  end.

Definition resolve_active (st : _QueueState) (identity : IngressIdentity) (ingress_bytes fact_bytes : str) : option Z :=
  match active st with
  | None => None
  | Some a =>
      match active_fact a with
      | None => None
      | Some f =>
          if bool_decide (fd_identity f = identity) && bool_decide (fd_ingress_bytes f = ingress_bytes)
             && bool_decide (fd_fact_bytes f = fact_bytes)
          then Some (active_dispatch_sequence a)
          else None
      end
  end.

(** The queue as the port of the execution fact authority. *)
Definition queue_port (st : _QueueState) : RuntimeFactDispatchVerifier :=
  {| resolve_active_issued_fact_dispatch := resolve_active st |}.
End Queue.

Section Creation.
Context `{Sha256}.

Definition source_of (root : RuntimeRoot) : option SourceNamespace :=
  match root with RFact i => Some (ingress_source_namespace i) | _ => None end.
(** The sorted set of the sources of the facts in the plan. *)
Definition required_sources (plan : list RuntimeRoot) : list SourceNamespace :=
  py_sorted value (remove_dups (omap source_of plan)).

Fixpoint register_verifiers (run_id : RunId) (spec_set : InstrumentExecutionSpecSet)
    (verifiers : list ExecutionFactIssuanceVerifier) (sources : gmap SourceNamespace ExecutionFactIssuanceVerifier)
    : res (gmap SourceNamespace ExecutionFactIssuanceVerifier) :=
  match verifiers with
  | [] => Ok sources
  | v :: verifiers =>
      raise_if negb (bool_decide (verifier_run_id v = run_id))
            || negb (bool_decide (spec_set_identifier (verifier_spec_set v) = spec_set_identifier spec_set))
            || negb (bool_decide (instrument_spec_set_digest (verifier_spec_set v) = instrument_spec_set_digest spec_set))
        with raise_runtime CONFLICTING_ID ;;
      raise_if bool_decide (is_Some (sources !! verifier_source v)) with raise_runtime CONFLICTING_ID ;;
      register_verifiers run_id spec_set verifiers (<[verifier_source v := v]> sources)
  end.

Definition initial_queue_state : _QueueState := mkQueueState 0 (Some 1) None [].

Definition create_deterministic_root_queue (run_id : RunId) (spec_set : InstrumentExecutionSpecSet)
    (plan : list RuntimeRoot) (verifiers : list ExecutionFactIssuanceVerifier)
    : res (DeterministicRootQueue * _QueueState) :=
  let* sources := register_verifiers run_id spec_set verifiers ∅ in
  let seen_sources := map verifier_source verifiers in
  raise_if negb (bool_decide (map value seen_sources = py_sorted id (map value seen_sources)))
    with raise_runtime CONFLICTING_ID ;;
  raise_if negb (bool_decide (seen_sources = required_sources plan)) with raise_runtime CONFLICTING_ID ;;
  Ok (mkQueue run_id spec_set plan sources, initial_queue_state).

(** The loop of a run: dispatch the next root, let [handle] process it, acknowledge it. *)
Fixpoint drain {A} (q : DeterministicRootQueue) (objects : list positive) (handle : RuntimeDispatchLease -> A)
    (st : _QueueState) : res (list A * _QueueState) :=
  match objects with
  | [] => Ok ([], st)
  | object :: objects =>
      let* popped := pop q object st in
      let* st := acknowledge popped.1 popped.2 in
      let* rest := drain q objects handle st in
      Ok (handle popped.1 :: rest.1, rest.2)
  end.
End Creation.
