(* ===== verification/RuntimeSpec.v ===== *)
(** The bounded plan: the canonical order of its roots, and the queue that hands them out. *)

From S2P Require Import Prelude PyRegex PyText Outcomes Json Identity Indexing Chronology MarketData.
From S2P Require Import MarketDataTheorems Economics Execution Messages Observation Runtime Numbering FactAuthority.
From S2P Require Import Queue.

Open Scope Z_scope.

(** *** The total order of runtime roots, and which collections of roots have a plan. *)

(** ** The order of keys *)

Definition suffix_domain (s : _RuntimeSuffix) : RuntimeRootDomain :=
  match s with
  | SafetySuffix _ => DOMAIN_SAFETY
  | ExecutionFactSuffix _ => DOMAIN_EXECUTION_FACT
  | ObservationSuffix _ => DOMAIN_RECONCILIATION_OBSERVATION
  | MarketDataSuffix _ => DOMAIN_MARKET_DATA
  | TimerSuffix _ => DOMAIN_TIMER
  | EndOfRunSuffix _ => DOMAIN_END_OF_RUN
  end.

#[export] Instance py_ord_safety : PyOrd _SafetySuffix.
Proof. unfold _SafetySuffix. apply _. Defined.
#[export] Instance py_ord_fact : PyOrd _ExecutionFactSuffix.
Proof. unfold _ExecutionFactSuffix. apply _. Defined.
#[export] Instance py_ord_observation : PyOrd _ReconciliationObservationSuffix.
Proof. unfold _ReconciliationObservationSuffix. apply _. Defined.
#[export] Instance py_ord_market : PyOrd _MarketDataSuffix.
Proof. unfold _MarketDataSuffix. apply _. Defined.
#[export] Instance py_ord_timer : PyOrd _TimerSuffix.
Proof. unfold _TimerSuffix. apply _. Defined.
#[export] Instance py_ord_end : PyOrd _EndOfRunSuffix.
Proof. unfold _EndOfRunSuffix. apply _. Defined.

(** Suffixes of one type as [__lt__] compares them; of two types, by their domains. *)
Definition suffix_le (a b : _RuntimeSuffix) : bool :=
  match a, b with
  | SafetySuffix l, SafetySuffix r => py_le l r
  | ExecutionFactSuffix l, ExecutionFactSuffix r => py_le l r
  | ObservationSuffix l, ObservationSuffix r => py_le l r
  | MarketDataSuffix l, MarketDataSuffix r => py_le l r
  | TimerSuffix l, TimerSuffix r => py_le l r
  | EndOfRunSuffix l, EndOfRunSuffix r => py_le l r
  | _, _ => RUNTIME_ROOT_DOMAIN_RANKS (suffix_domain a) <=? RUNTIME_ROOT_DOMAIN_RANKS (suffix_domain b)
  end.
Arguments py_le : simpl never.
#[export] Program Instance py_ord_suffix : PyOrd _RuntimeSuffix := {| py_le := suffix_le |}.
Next Obligation. intros [] []; cbn [suffix_le]; try apply py_le_total; cbn; auto. Qed.
Next Obligation.
  intros [] [] []; cbn [suffix_le]; try done; by apply py_le_trans.
Qed.
Next Obligation. intros [] []; cbn [suffix_le]; try done; intros; f_equal; by apply py_le_antisym. Qed.

Definition key_tuple (k : RuntimeRootOrderKey) : datetime * (Z * _RuntimeSuffix) :=
  (key_available_at k, (key_domain_rank k, key_suffix k)).
#[export] Program Instance py_ord_root_key : PyOrd RuntimeRootOrderKey :=
  {| py_le a b := py_le (key_tuple a) (key_tuple b) |}.
Next Obligation. intros x y. apply py_le_total. Qed.
Next Obligation. intros x y z. apply py_le_trans. Qed.
Next Obligation. intros [] [] H1 H2. pose proof (py_le_antisym _ _ H1 H2) as [= -> -> ->]. done. Qed.

(** The keys the program builds carry the rank of the domain of their suffix. *)
Definition well_typed (k : RuntimeRootOrderKey) : Prop :=
  key_domain_rank k = RUNTIME_ROOT_DOMAIN_RANKS (suffix_domain (key_suffix k)).

Lemma root_key_lt_total a b : well_typed a -> well_typed b -> root_key_lt a b = Ok (py_lt a b).
Proof.
  intros Ha Hb. unfold root_key_lt, py_lt.
  change (py_le b a) with (py_le (key_tuple b) (key_tuple a)). unfold key_tuple.
  destruct a as [ta ra sa], b as [tb rb sb]. unfold well_typed in *. cbn [key_available_at key_domain_rank key_suffix] in *.
  case_bool_decide as Ht; cbn [negb].
  2:{ do 2 f_equal. unfold py_le at 2, py_ord_prod. cbn [fst snd]. rewrite decide_False; congruence. }
  subst tb. rewrite py_le_snd. destruct (Z.eqb_spec ra rb) as [->|Hr]; cbn [negb].
  - rewrite py_le_snd. rewrite Hb in Ha. by destruct sa, sb.
  - f_equal. unfold py_le, py_ord_prod. cbn [fst snd]. rewrite decide_False by congruence.
    unfold py_le, py_ord_Z. lia.
Qed.

(** ** Sorting *)

Section Sorting.
Abbreviation entry := (RuntimeRootOrderKey * RuntimeRoot)%type.
Implicit Types (l : list entry).

Lemma insert_keyed_total x l : well_typed x.1 -> Forall (fun y => well_typed y.1) l ->
  insert_keyed x l = Ok (insert_by fst x l).
Proof.
  intros Hx Hl. induction Hl as [|y l Hy Hl IH]; [done|]. cbn [insert_keyed insert_by].
  rewrite root_key_lt_total by done. cbn [rbind]. unfold py_lt. destruct (py_le x.1 y.1); cbn [negb]; [done|].
  by rewrite IH.
Qed.

Lemma sort_keyed_total l : Forall (fun y => well_typed y.1) l -> sort_keyed l = Ok (py_sorted fst l).
Proof.
  intros Hl. induction Hl as [|x l Hx Hl IH]; [done|]. cbn [sort_keyed]. rewrite IH. cbn [rbind].
  apply insert_keyed_total; [done|]. change (foldr (insert_by fst) [] l) with (py_sorted fst l).
  by rewrite (py_sorted_perm fst l).
Qed.
End Sorting.

(** ** What a collection of roots must satisfy *)

Section Plans.
Context `{Sha256}.
Implicit Types (root : RuntimeRoot) (roots plan : list RuntimeRoot).

(** The evidence of an observation root is what its observation determines, as the factory
    makes it. *)
Definition genuine root : Prop :=
  match root with RObservation r => _require_reconciliation_observation_root r = Ok r | _ => True end.

Lemma created_root_genuine o r : create_reconciliation_observation_root o = Ok r -> genuine (RObservation r).
Proof.
  unfold create_reconciliation_observation_root. intros (p & Hp & (d & Hd & [= <-])%rbind_Ok)%rbind_Ok.
  cbn. unfold _require_reconciliation_observation_root. cbn [root_observation canonical_observation_bytes root_observation_sha256].
  rewrite Hp, Hd. cbn [rbind]. by rewrite !bool_decide_true.
Qed.

Definition key_of root : RuntimeRootOrderKey :=
  match runtime_root_order_key root with
  | Ok k => k
  | Raise _ => mkRootKey (mkDatetime 1 1 1 0 0 0 0 eq_refl) 0 (SafetySuffix (0, (EmptyString, (0, (0, (EmptyString, EmptyString))))))
  end.
Definition identity_of root : option RootIdentity :=
  match root_identity root with Ok i => i | Raise _ => None end.

Lemma genuine_key root : genuine root -> runtime_root_order_key root = Ok (key_of root) /\ well_typed (key_of root).
Proof.
  unfold key_of. destruct root as [r|r|r|r|r|r]; cbn; try done. intros ->. done.
Qed.
Lemma genuine_identity root : genuine root -> root_identity root = Ok (identity_of root).
Proof. unfold identity_of. destruct root as [r|r|r|r|r|r]; cbn; try done. by intros ->. Qed.

(** Equal keys mean equal identities, or equal admission keys. *)
Lemma key_identity a b : genuine a -> genuine b -> key_of a = key_of b ->
  (exists i, identity_of a = Some i /\ identity_of b = Some i) \/
  (exists e f, market_of a = Some e /\ market_of b = Some f /\ admission_order_key e = admission_order_key f).
Proof.
  intros Ha Hb. unfold key_of, identity_of.
  destruct a as [a|a|a|a|a|a], b as [b|b|b|b|b|b]; cbn in Ha, Hb |- *; rewrite ?Ha, ?Hb; cbn [rbind]; try done;
    try (intros [= ]; congruence).
  - unfold safety_suffix. destruct (safety_subject a), (safety_subject b); intros Hk; left; eexists; (split; [done|]);
      injection Hk; intros; congruence.
  - intros Hk. injection Hk. intros. left. eexists. split; [done|]. congruence.
  - unfold observation_suffix. intros Hk. injection Hk. intros. left. eexists. split; [done|]. congruence.
  - intros Hk. right. exists a, b. split_and!; [done|done|]. injection Hk. intros.
    unfold admission_order_key; congruence.
  - intros Hk. injection Hk. intros. left. eexists. split; [done|]. congruence.
  - intros Hk. injection Hk. intros. left. eexists. split; [done|]. congruence.
Qed.

(** A plan exists for these roots. *)
Record plannable roots : Prop := {
  pl_some : roots <> [];
  pl_markets : consistent (omap market_of roots);
  pl_identities : NoDup (omap identity_of roots)
}.

Lemma omap_NoDup_index {A B} (f : A -> option B) l i j x y b : NoDup (omap f l) -> l !! i = Some x -> l !! j = Some y ->
  f x = Some b -> f y = Some b -> i = j.
Proof.
  revert i j. induction l as [|z l IH]; intros i j Hnd Hi Hj Hx Hy; [done|].
  assert (forall k w, l !! k = Some w -> f w = Some b -> b ∈ omap f l) as Hin.
  { intros k w Hk%list_elem_of_lookup_2 Hw. apply list_elem_of_omap. by exists w. }
  destruct i as [|i], j as [|j]; cbn in Hi, Hj.
  - done.
  - injection Hi as ->. cbn in Hnd. rewrite Hx in Hnd. apply NoDup_cons in Hnd as [Hn _]. destruct Hn. by eapply Hin.
  - injection Hj as ->. cbn in Hnd. rewrite Hy in Hnd. apply NoDup_cons in Hnd as [Hn _]. destruct Hn. by eapply Hin.
  - f_equal. apply IH; try done. cbn in Hnd. destruct (f z); [by apply NoDup_cons in Hnd as [_ ?]|done].
Qed.

(** The last check of the factory cannot fail after the others. *)
Lemma plannable_keys roots : Forall genuine roots -> plannable roots -> NoDup (key_of <$> roots).
Proof.
  intros Hg [_ Hm Hi]. apply NoDup_alt. intros i j k. rewrite !list_lookup_fmap.
  destruct (roots !! i) as [a|] eqn:Ha; [|done]. destruct (roots !! j) as [b|] eqn:Hb; [|done].
  cbn. intros [= Ka] [= Kb]. rewrite Forall_forall in Hg.
  destruct (key_identity a b) as [(x & Xa & Xb)|(e & f & Ea & Eb & Hk)].
  - apply Hg. by eapply list_elem_of_lookup_2.
  - apply Hg. by eapply list_elem_of_lookup_2.
  - congruence.
  - by eapply (omap_NoDup_index identity_of).
  - assert (e = f) as <-; [|by eapply (omap_NoDup_index market_of); [eapply NoDup_fmap_1, cs_order_keys|..]].
    apply (NoDup_map_eq admission_order_key (omap market_of roots)); [exact (cs_order_keys _ Hm)| | |exact Hk].
    + apply list_elem_of_omap. exists a. split; [by eapply list_elem_of_lookup_2|done].
    + apply list_elem_of_omap. exists b. split; [by eapply list_elem_of_lookup_2|done].
Qed.

(** *** The factory *)

Lemma validate_market_subset_cases markets :
  (consistent markets /\ _validate_market_subset markets = Ok tt) \/
  (~ consistent markets /\ _validate_market_subset markets = Raise (RuntimeOrderingError CONFLICTING_ID)).
Proof.
  unfold _validate_market_subset, validate_market_data_batch. pose proof (validated_events_cases markets) as Hv.
  unfold _validated_events in *. destruct (collect_all empty_batch markets) as [b|err]; cbn [rbind market_conflict] in *.
  - destruct (negb (forallb _ (histories b))); cbn [rbind market_conflict]; destruct Hv as [[Hc Hv]|[Hn Hv]];
      try discriminate Hv; [by right|by left].
  - destruct Hv as [[Hc Hv]|[Hn Hv]]; [done|]. injection Hv as ->. by right.
Qed.

Lemma check_identities_cases seen roots : Forall genuine roots -> NoDup seen ->
  (NoDup (seen ++ omap identity_of roots) /\ check_identities seen roots = Ok tt) \/
  (~ NoDup (seen ++ omap identity_of roots) /\ check_identities seen roots = Raise (RuntimeOrderingError CONFLICTING_ID)).
Proof.
  intros Hg. revert seen. induction Hg as [|root roots Hr Hg IH]; intros seen Hs; cbn [check_identities omap list_omap].
  - left. by rewrite app_nil_r.
  - rewrite (genuine_identity root Hr). cbn [rbind]. destruct (identity_of root) as [i|]; [|by apply IH].
    case_bool_decide as Hi.
    + right. split; [|done]. intros Hnd. apply NoDup_app in Hnd as (_ & Hd & _). apply (Hd i Hi). by left.
    + destruct (IH (i :: seen)) as [[Hnd Hc]|[Hnd Hc]]; [by constructor|left|right]; (split; [|done]).
      * by rewrite <-Permutation_middle.
      * by rewrite <-Permutation_middle.
Qed.

Lemma keyed_roots roots : Forall genuine roots -> rmap keyed_root roots = Ok (map (fun r => (key_of r, r)) roots).
Proof.
  intros Hg. induction Hg as [|root roots Hr Hg IH]; [done|]. cbn [rmap map]. unfold keyed_root at 1.
  rewrite (proj1 (genuine_key root Hr)). cbn [rbind]. by rewrite IH.
Qed.

Definition plan_order roots : list RuntimeRoot := py_sorted key_of roots.

(** The three outcomes: no roots, a conflict, or the sorted plan. *)
Lemma prepare_cases roots : Forall genuine roots -> roots <> [] ->
  (plannable roots /\ prepare_bounded_runtime_roots roots = Ok (plan_order roots)) \/
  (~ plannable roots /\ prepare_bounded_runtime_roots roots = Raise (RuntimeOrderingError CONFLICTING_ID)).
Proof.
  intros Hg Hne. unfold prepare_bounded_runtime_roots. rewrite bool_decide_false by done.
  destruct (validate_market_subset_cases (omap market_of roots)) as [[Hm ->]|[Hm ->]]; cbn [rbind].
  2:{ right. split; [|done]. by intros []. }
  destruct (check_identities_cases [] roots Hg) as [[Hi ->]|[Hi ->]]; [apply NoDup_nil_2| |]; cbn [rbind].
  2:{ right. split; [|done]. by intros []. }
  cbn [app] in Hi. assert (plannable roots) as Hp by done. left. split; [done|].
  rewrite keyed_roots by done. cbn [rbind]. rewrite map_map. cbn [fst]. pose proof (plannable_keys roots Hg Hp) as Hk.
  unfold no_duplicates. rewrite bool_decide_true by done. cbn [negb].
  rewrite sort_keyed_total.
  - cbn [rbind]. f_equal. unfold plan_order. rewrite (py_sorted_map (fun r => (key_of r, r)) key_of fst) by done.
    rewrite map_map. apply map_id.
  - apply Forall_map. eapply Forall_impl; [exact Hg|]. intros r Hr. by apply genuine_key.
Qed.
End Plans.

(** ** Plans as strictly ordered permutations *)

Section Order.
Context `{Sha256}.

Lemma plannable_perm roots roots' : roots ≡ₚ roots' -> plannable roots -> plannable roots'.
Proof.
  intros Hp [Hn Hm Hi]. split.
  - intros ->. symmetry in Hp. by apply Permutation_nil in Hp.
  - eapply consistent_perm; [|exact Hm]. by apply omap_Permutation.
  - by rewrite <-(omap_Permutation _ _ _ Hp).
Qed.

Lemma strictly_ordered plan : Forall (fun r => well_typed (key_of r)) plan -> sorted_by key_of plan ->
  NoDup (key_of <$> plan) ->
  forall i j a b, plan !! i = Some a -> plan !! j = Some b -> (i < j)%nat -> root_key_lt (key_of a) (key_of b) = Ok true.
Proof.
  intros Hwt Hs Hnd i j a b Ha Hb Hij. rewrite Forall_lookup in Hwt.
  rewrite root_key_lt_total by (by eapply Hwt). unfold py_lt. f_equal. apply negb_true_iff.
  by eapply (NoDup_keys_lt key_of plan i j).
Qed.

Lemma keys_sorted plan : Forall (fun r => well_typed (key_of r)) plan ->
  (forall i j a b, plan !! i = Some a -> plan !! j = Some b -> (i < j)%nat -> root_key_lt (key_of a) (key_of b) = Ok true) ->
  sorted_by key_of plan.
Proof.
  intros Hwt. induction Hwt as [|a plan Ha Hwt IH]; intros Hlt; [constructor|]. constructor.
  - apply IH. intros i j x y Hx Hy Hij. apply (Hlt (S i) (S j)); [done|done|lia].
  - apply Forall_lookup. intros j b Hb. specialize (Hlt 0%nat (S j) a b eq_refl Hb ltac:(lia)).
    rewrite Forall_lookup in Hwt. rewrite root_key_lt_total in Hlt by eauto. unfold py_lt in Hlt.
    injection Hlt as Hlt%negb_true_iff. destruct (py_le_total (key_of a) (key_of b)); [done|congruence].
Qed.
End Order.

(** *** The dispatch protocol of a queue: which states calls of [pop] and [acknowledge] reach,
    and what they say about the plan. *)

Section Protocol.
Context `{Sha256} (q : DeterministicRootQueue).
Implicit Types st : _QueueState.

(** A call that raises leaves the state. *)
Inductive queue_reachable : _QueueState -> Prop :=
| queue_start : queue_reachable initial_queue_state
| queue_pop st object lease st' : queue_reachable st -> pop q object st = Ok (lease, st') -> queue_reachable st'
| queue_acknowledge st lease st' : queue_reachable st -> acknowledge lease st = Ok st' -> queue_reachable st'.

(** What is kept of a dispatched fact. *)
Definition fact_of (root : RuntimeRoot) : option FactDispatch :=
  match root with
  | RFact i => Some (mkFactDispatch (ingress_identity_of i) (canonical_execution_fact_ingress_bytes i)
                       (canonical_execution_fact_bytes (ingress_fact i)))
  | _ => None
  end.
Definition acknowledged_at (i : nat) (root : RuntimeRoot) : option _AcknowledgedFactDispatch :=
  option_map (mkAcknowledged (Z.of_nat i + 1)) (fact_of root).
(** The facts among the first [n] roots, with their dispatch sequences. *)
Definition acknowledgements (n : nat) : list _AcknowledgedFactDispatch :=
  omap id (imap acknowledged_at (take n (q_plan q))).

(** The number of dispatches that were acknowledged. *)
Definition completed st : nat := match active st with Some _ => pred (cursor st) | None => cursor st end.

Record queue_ok st : Prop := {
  qk_cursor : (cursor st <= length (q_plan q))%nat;
  qk_bound : Z.of_nat (cursor st) <= MAX_UINT64;
  qk_next : dispatch_next st = next_after (cursor st);
  qk_acknowledged : acknowledged_fact_dispatches st = acknowledgements (completed st);
  qk_active a : active st = Some a ->
    exists n object, cursor st = S n /\ q_plan q !! n = Some (active_root a) /\
      active_dispatch_sequence a = Z.of_nat n + 1 /\ active_fact a = fact_of (active_root a) /\
      active_lease_ a = mkLease object (active_root a) (Z.of_nat n + 1)
}.

Lemma issued_fact_Ok root f : issued_fact q root = Ok f -> f = fact_of root.
Proof.
  destruct root as [r|r|r|r|r|r]; cbn; try by intros [= <-].
  destruct (fact_issuance_verifiers q !! _) as [v|]; [|done]. destruct (negb _); [done|]. by intros [= <-].
Qed.

(** One dispatch. *)
Lemma pop_Ok object st lease st' : pop q object st = Ok (lease, st') <->
  active st = None /\ exists root n, q_plan q !! cursor st = Some root /\ dispatch_next st = Some n /\
    1 <= n <= MAX_UINT64 /\ issued_fact q root = Ok (fact_of root) /\ lease = mkLease object root n /\
    st' = mkQueueState (S (cursor st)) (if n =? MAX_UINT64 then None else Some (n + 1))
            (Some (mkActive lease root n (fact_of root))) (acknowledged_fact_dispatches st).
Proof.
  unfold pop, _current, advance_dispatch. split.
  - case_bool_decide as Ha; [done|]. apply eq_None_not_Some in Ha. intros H0. split; [done|].
    destruct (q_plan q !! cursor st) as [root|]; [|done]. cbn [rbind] in H0.
    destruct (dispatch_next st) as [n|]; [|done]. apply rbind_Ok in H0 as (f & Hf & H0).
    pose proof (issued_fact_Ok _ _ Hf) as ->. apply rbind_Ok in H0 as (next & Hn & [= <- <-]).
    destruct (Z.leb_spec 1 n); [|done]. destruct (Z.leb_spec n MAX_UINT64); [|done]. injection Hn as <-.
    exists root, n. by rewrite Hf.
  - intros (Ha & root & n & Hr & Hn & Hb & Hf & -> & ->). rewrite Ha, Hr, Hn. cbn [rbind].
    rewrite bool_decide_false by (by intros [? ?]). rewrite Hf. cbn [rbind].
    replace ((1 <=? n) && (n <=? MAX_UINT64)) with true by lia. done.
Qed.

Lemma acknowledge_Ok lease st st' : acknowledge lease st = Ok st' <->
  exists a, active st = Some a /\ lease_object (active_lease_ a) = lease_object lease /\
    st' = mkQueueState (cursor st) (dispatch_next st) None
            (acknowledged_fact_dispatches st ++
               match active_fact a with Some f => [mkAcknowledged (active_dispatch_sequence a) f] | None => [] end).
Proof.
  unfold acknowledge. split.
  - destruct (active st) as [a|]; [|done]. case_bool_decide as Hl; cbn [negb]; [|done]. intros [= <-]. by exists a.
  - intros (a & -> & Hl & ->). by rewrite bool_decide_true by done.
Qed.

Lemma acknowledgements_S n root : q_plan q !! n = Some root ->
  acknowledgements (S n) = acknowledgements n ++
    match fact_of root with Some f => [mkAcknowledged (Z.of_nat n + 1) f] | None => [] end.
Proof.
  intros Hr. unfold acknowledgements. rewrite (take_S_r _ _ root) by done. rewrite imap_app, omap_app. f_equal.
  cbn. rewrite length_take_le by (apply lookup_lt_Some in Hr; lia). unfold acknowledged_at. rewrite Nat.add_0_r.
  by destruct (fact_of root).
Qed.

Lemma queue_reachable_ok st : queue_reachable st -> queue_ok st.
Proof.
  induction 1 as [|st object lease st' Hst IH Hp|st lease st' Hst IH Ha].
  - split; cbn; try done; lia.
  - apply pop_Ok in Hp as (Ha & root & n & Hr & Hn & Hb & _ & -> & ->). destruct IH as [H1 H2 H3 H4 _].
    rewrite H3 in Hn. apply next_after_Some in Hn as [-> Hm]. unfold completed in H4. rewrite Ha in H4.
    apply lookup_lt_Some in Hr as Hlt. split; cbn [cursor dispatch_next active acknowledged_fact_dispatches completed].
    + lia.
    + lia.
    + unfold next_after. replace (Z.of_nat (S (cursor st))) with (Z.of_nat (cursor st) + 1) by lia. done.
    + exact H4.
    + intros a [= <-]. exists (cursor st), object. cbn. by rewrite Hr.
  - apply acknowledge_Ok in Ha as (a & Ha & _ & ->). destruct IH as [H1 H2 H3 H4 H5].
    destruct (H5 a Ha) as (n & object & Hn & Hr & Hs & Hf & Hl). unfold completed in H4. rewrite Ha, Hn in H4. cbn in H4.
    split; cbn [cursor dispatch_next active acknowledged_fact_dispatches completed]; [done|done|done| |done].
    unfold completed. cbn [active cursor]. rewrite H4, Hf, Hs, Hn. symmetry. by apply acknowledgements_S.
Qed.

(** The only fact that resolves is the active one. *)
Lemma resolve_active_Some st identity ingress_bytes fact_bytes n : queue_ok st ->
  resolve_active st identity ingress_bytes fact_bytes = Some n ->
  exists i, q_plan q !! Z.to_nat (n - 1) = Some (RFact i) /\ Z.of_nat (cursor st) = n /\ is_Some (active st) /\
    identity = ingress_identity_of i /\ ingress_bytes = canonical_execution_fact_ingress_bytes i /\
    fact_bytes = canonical_execution_fact_bytes (ingress_fact i).
Proof.
  intros Hok. unfold resolve_active. destruct (active st) as [a|] eqn:Ha; [|done].
  destruct (qk_active _ Hok a Ha) as (m & object & Hm & Hr & Hs & Hf & _). rewrite Hf.
  destruct (active_root a) as [r|r|r|r|r|r]; cbn [fact_of]; try done. cbn [fd_identity fd_ingress_bytes fd_fact_bytes].
  destruct (_ && _) eqn:Hb; [|done]. intros [= <-]. rewrite !andb_true_iff, !bool_decide_eq_true in Hb.
  destruct Hb as [[<- <-] <-]. exists r. rewrite Hs, Hm. replace (Z.to_nat (Z.of_nat m + 1 - 1)) with m by lia.
  split_and!; [done|lia|by eexists|done..].
Qed.

(** ** Termination *)

(** Every fact of the plan was issued by its registered source. *)
Definition all_issued : Prop :=
  Forall (fun root => issued_fact q root = Ok (fact_of root)) (q_plan q).

Lemma drain_step object st : queue_ok st -> all_issued -> active st = None -> (cursor st < length (q_plan q))%nat ->
  Z.of_nat (length (q_plan q)) <= MAX_UINT64 ->
  exists root st1 st2, q_plan q !! cursor st = Some root /\
    let lease := mkLease object root (Z.of_nat (cursor st) + 1) in
    pop q object st = Ok (lease, st1) /\ acknowledge lease st1 = Ok st2 /\ active st2 = None /\ cursor st2 = S (cursor st).
Proof.
  intros [H1 H2 H3 H4 _] Hall Ha Hlt Hm. destruct (lookup_lt_is_Some_2 (q_plan q) (cursor st) Hlt) as [root Hr].
  assert (issued_fact q root = Ok (fact_of root)) as Hf.
  { unfold all_issued in Hall. rewrite Forall_lookup in Hall. by eapply Hall. }
  exists root, (mkQueueState (S (cursor st)) (if Z.of_nat (cursor st) + 1 =? MAX_UINT64 then None
      else Some (Z.of_nat (cursor st) + 1 + 1)) (Some (mkActive (mkLease object root (Z.of_nat (cursor st) + 1)) root
      (Z.of_nat (cursor st) + 1) (fact_of root))) (acknowledged_fact_dispatches st)).
  eexists. split; [done|]. split; [|split; [apply acknowledge_Ok; eexists; split_and!; done|done]].
  apply pop_Ok. split; [done|]. exists root, (Z.of_nat (cursor st) + 1). split_and!; try done; [|lia..].
  rewrite H3. unfold next_after. destruct (Z.eqb_spec (Z.of_nat (cursor st)) MAX_UINT64); [lia|done].
Qed.

Lemma drain_all {A} (handle : RuntimeDispatchLease -> A) objects st : queue_reachable st -> all_issued ->
  active st = None -> Z.of_nat (length (q_plan q)) <= MAX_UINT64 ->
  (cursor st + length objects = length (q_plan q))%nat ->
  exists st', drain q objects handle st = Ok
      (imap (fun i p => handle (mkLease p.1 p.2 (Z.of_nat (cursor st + i) + 1))) (zip objects (drop (cursor st) (q_plan q))), st') /\
    queue_reachable st' /\ active st' = None /\ cursor st' = length (q_plan q).
Proof.
  revert st. induction objects as [|object objects IH]; intros st Hst Hall Ha Hm Hlen.
  - exists st. cbn in *. split; [done|]. split_and!; [done|done|lia].
  - cbn in Hlen. pose proof (queue_reachable_ok _ Hst) as Hok.
    destruct (drain_step object st) as (root & st1 & st2 & Hr & Hp & Hk & Ha2 & Hc2); [done..|lia|done|].
    destruct (IH st2) as (st' & Hd & Hst' & Ha' & Hc'); [|done..|lia|].
    { eapply queue_acknowledge; [|exact Hk]. by eapply queue_pop. }
    exists st'. split; [|done]. cbn [drain]. rewrite Hp. cbn [rbind fst snd]. rewrite Hk. cbn [rbind]. rewrite Hd.
    cbn [rbind fst snd]. do 2 f_equal. rewrite Hc2, (drop_S _ root (cursor st)) by exact Hr. cbn [zip zip_with imap].
    rewrite Nat.add_0_r. cbn [fst snd]. f_equal. apply imap_ext. intros i p _. unfold compose. do 3 f_equal. lia.
Qed.
End Protocol.

(** ** Creation *)

Section Created.
Context `{Sha256}.

Lemma register_verifiers_spec run_id spec_set vs m0 m : register_verifiers run_id spec_set vs m0 = Ok m ->
  (forall s v, m !! s = Some v -> m0 !! s = Some v \/ (v ∈ vs /\ verifier_source v = s /\ verifier_run_id v = run_id)) /\
  (forall v, v ∈ vs -> m !! verifier_source v = Some v) /\
  (forall s v, m0 !! s = Some v -> m !! s = Some v).
Proof.
  revert m0. induction vs as [|v vs IH]; intros m0 Hm.
  - injection Hm as <-. split_and!; [by left|intros v Hv; by apply not_elem_of_nil in Hv|done].
  - cbn [register_verifiers] in Hm. destruct (negb (bool_decide (verifier_run_id v = run_id)) || _ || _) eqn:Hb; [done|].
    case_bool_decide as Hf; [done|]. apply eq_None_not_Some in Hf.
    rewrite !orb_false_iff, negb_false_iff, bool_decide_eq_true in Hb. destruct Hb as [[Hb _] _].
    destruct (IH _ Hm) as (H1 & H2 & H3). split_and!.
    + intros s w Hw. destruct (H1 s w Hw) as [Hl|(Hin & Hs & Hr)].
      * apply lookup_insert_Some in Hl as [[<- <-]|[_ Hl]]; [right; split_and!; [by left|done|done]|by left].
      * right. split_and!; [by right|done|done].
    + intros w [->|Hw]%elem_of_cons; [apply H3, lookup_insert_eq|by apply H2].
    + intros s w Hw. apply H3. rewrite lookup_insert_ne; [done|]. intros <-. by rewrite Hf in Hw.
Qed.

(** A created queue starts its plan, and knows the sources of the facts in it. *)
Lemma created_queue run_id spec_set plan verifiers q st :
  create_deterministic_root_queue run_id spec_set plan verifiers = Ok (q, st) ->
  q_plan q = plan /\ st = initial_queue_state /\
  (forall i, RFact i ∈ plan -> exists v, fact_issuance_verifiers q !! ingress_source_namespace i = Some v /\
     v ∈ verifiers /\ verifier_run_id v = run_id).
Proof.
  unfold create_deterministic_root_queue. intros (m & Hm & Hc)%rbind_Ok.
  case_bool_decide; cbn [negb] in Hc; [|done]. case_bool_decide as Hs; cbn [negb] in Hc; [|done]. injection Hc as <- <-.
  split_and!; [done|done|]. intros i Hi. cbn [fact_issuance_verifiers].
  destruct (register_verifiers_spec _ _ _ _ _ Hm) as (H1 & H2 & _).
  assert (ingress_source_namespace i ∈ map verifier_source verifiers) as Hin.
  { rewrite Hs. unfold required_sources. apply elem_of_py_sorted, elem_of_remove_dups, list_elem_of_omap. by exists (RFact i). }
  change (map verifier_source verifiers) with (verifier_source <$> verifiers) in Hin.
  apply list_elem_of_fmap_1 in Hin as (v & -> & Hv). exists v. split; [by apply H2|]. split; [done|].
  destruct (H1 _ _ (H2 v Hv)) as [Hl|(_ & _ & Hr)]; [by rewrite lookup_empty in Hl|done].
Qed.
End Created.
