(* ===== verification/Integration.v ===== *)
(** Ledger-integration commands ([core/ledger_integration.py]): the audited command
    through which a processed fact reaches the ledger, its factory, canonical bytes
    and framed digest.  As in [Reconciliation], seals are not represented. *)

From S2P Require Import Prelude PyRegex PyText Outcomes Json Identity Economics Execution Messages.
From S2P Require Import Portfolio.

Open Scope Z_scope.

Definition INTEGRATION_ERROR_CODES : list OutcomeCode := [INVALID_TYPE; OUT_OF_RANGE; CONFLICTING_ID].
Definition raise_integration (c : OutcomeCode) : exn :=
  if permitted INTEGRATION_ERROR_CODES c then LedgerIntegrationError c else TypeError.

Definition MAX_LEDGER_INTEGRATION_PAYLOAD_BYTES : Z := 16384.

Record LedgerApplicationCommand : Type := mkLedgerApplicationCommand {
  lc_run_id : RunId;
  lc_dispatch_sequence : Z;
  lc_audited_handoff_sha256 : Sha256Digest;
  lc_processing_outcome_sha256 : Sha256Digest;
  lc_fill_id : EconomicId;
  lc_fill_sha256 : Sha256Digest;
  lc_requires_reconciliation : bool
}.

Definition _require_uint64 (v : Z) : res Z :=
  raise_if negb ((0 <=? v) && (v <=? MAX_UINT64)) with raise_integration OUT_OF_RANGE ;; Ok v.
Definition _require_positive_uint64 (v : Z) : res Z :=
  let* v := _require_uint64 v in
  raise_if v =? 0 with raise_integration OUT_OF_RANGE ;; Ok v.

(** [_require_fill_id]. *)
Definition _require_fill_id (i : EconomicId) (run_id : RunId) : res EconomicId :=
  raise_if negb (bool_decide (owner_kind i = EXECUTION_FILL)) with raise_integration CONFLICTING_ID ;;
  raise_if negb (bool_decide (id_run_id i = run_id)) with raise_integration CONFLICTING_ID ;;
  Ok i.

Definition _create_ledger_application_command (run_id : RunId) (dispatch_sequence : Z)
  (audited_handoff_sha256 processing_outcome_sha256 : Sha256Digest) (fill_id_ : EconomicId)
  (fill_sha256 : Sha256Digest) (requires_reconciliation : bool) : res LedgerApplicationCommand :=
  let* _ := _require_positive_uint64 dispatch_sequence in
  let* _ := _require_fill_id fill_id_ run_id in
  Ok (mkLedgerApplicationCommand run_id dispatch_sequence audited_handoff_sha256
        processing_outcome_sha256 fill_id_ fill_sha256 requires_reconciliation).

Section Command.
Context `{Sha256}.

(** The document of a command. *)
Definition command_document (c : LedgerApplicationCommand) : json :=
  JDict
    [("audited_handoff_sha256", JStr (value (lc_audited_handoff_sha256 c)));
     ("canonicalization", JStr "ea-canonical-json-v1");
     ("dispatch_sequence", JInt (lc_dispatch_sequence c));
     ("fill_id", _economic_id_document (lc_fill_id c));
     ("fill_sha256", JStr (value (lc_fill_sha256 c)));
     ("processing_outcome_sha256", JStr (value (lc_processing_outcome_sha256 c)));
     ("requires_reconciliation", JBool (lc_requires_reconciliation c));
     ("run_id", JStr (value (lc_run_id c)));
     ("schema", JStr "ea.ledger-application-command.v1")]%string.

Definition canonical_ledger_application_command_bytes (c : LedgerApplicationCommand) : res str :=
  let payload := encode_json (command_document c) in
  raise_if MAX_LEDGER_INTEGRATION_PAYLOAD_BYTES <? Z.of_nat (length payload)
    with raise_integration OUT_OF_RANGE ;;
  Ok payload.

Definition ledger_application_command_digest (c : LedgerApplicationCommand) : res Sha256Digest :=
  let* payload := canonical_ledger_application_command_bytes c in
  Ok (_framed_digest (domain "ea.ledger-application-command.v1") payload).
End Command.
