(* ===== verification/Ledger.v ===== *)
(** The fill ledger ([portfolio/ledger.py]): the sole owner of fill-derived
    transactions and balances.

    [PortfolioLedger] holds what [create_portfolio_ledger] binds; [LedgerState] is the
    frozen [_LedgerState].  The source computes a whole next state and assigns it once;
    an operation is therefore a function to [res (outcome * LedgerState)], and
    [commit] turns it into the state change: an exception leaves the state as it was. *)

From S2P Require Import Prelude PyRegex PyText Outcomes Json Identity Economics Commission.
From S2P Require Import Execution Messages Portfolio Reconciliation Integration.

Open Scope Z_scope.

(** ** State *)

Record HandoffBinding : Type := mkHandoffBinding {
  hb_command_sha256 : Sha256Digest;
  hb_processing_outcome_sha256 : Sha256Digest;
  hb_fill_sha256 : Sha256Digest;
  hb_original_outcome : LedgerApplyOutcome;
  hb_original_outcome_bytes : str;
  hb_transaction_sha256 : Sha256Digest;
  hb_before_snapshot_sha256 : Sha256Digest;
  hb_after_snapshot_sha256 : Sha256Digest
}.

Record FundingBinding : Type := mkFundingBinding {
  fb_funding_bytes : str;
  fb_outcome : FundingApplyOutcome
}.

Record LedgerState : Type := mkLedgerState {
  st_cash : gmap SettlementCurrency CanonicalDecimal;
  st_positions : gmap Instrument CanonicalDecimal;
  st_rounding : gmap SettlementCurrency CanonicalDecimal;
  st_unresolved : gmap EconomicId UnresolvedFillRef;
  st_fill_index : gmap EconomicId ExistingLedgerBinding;
  st_fact_index : gmap FactDedupKey ExistingLedgerBinding;
  st_entry_index : gmap EconomicId CanonicalPortfolioTransaction;
  st_transactions : list CanonicalPortfolioTransaction;
  st_funding : option FundingBinding;
  st_open_bindings : gmap EconomicId ExistingLedgerBinding;
  st_open_refs : gmap EconomicId OpenReconciliationRef;
  st_handoff_index : gmap Sha256Digest HandoffBinding;
  st_authorization_index : gmap Sha256Digest Sha256Digest;
  st_adjustment_index : gmap EconomicId Sha256Digest;
  st_observation_index : gmap Sha256Digest EconomicId;
  st_command_index : gmap Sha256Digest ReconciliationAdjustmentOutcome;
  st_adjustment_outcomes : gmap Sha256Digest ReconciliationAdjustmentOutcome;
  st_snapshot : PortfolioSnapshot
}.

Record PortfolioLedger : Type := mkPortfolioLedger {
  l_run_id : RunId;
  l_spec_set : InstrumentExecutionSpecSet;
  l_spec_set_sha256 : Sha256Digest;
  l_currency_quanta : gmap SettlementCurrency CanonicalDecimal;
  l_spec_by_instrument : gmap Instrument InstrumentExecutionSpec
}.

(** ** Arithmetic helpers *)

Definition _add_decimal (left right : CanonicalDecimal) : res CanonicalDecimal :=
  let s := Z.max (scale left) (scale right) in
  let c := coefficient left * 10 ^ (s - scale left) + coefficient right * 10 ^ (s - scale right) in
  decimal_of_text (_scaled_text c s).

Definition _signed (v : CanonicalDecimal) (sign : Z) : res CanonicalDecimal :=
  raise_if negb ((sign =? -1) || (sign =? 1)) with AssertionError ;;
  decimal_of_text (_scaled_text (coefficient v * sign) (scale v)).

Definition _next_balance (current : option CanonicalDecimal) (delta : CanonicalDecimal) : res CanonicalDecimal :=
  match current with None => Ok delta | Some c => _add_decimal c delta end.

Definition _assign_nonzero {K} `{Countable K} (m : gmap K CanonicalDecimal) (k : K) (v : CanonicalDecimal)
  : gmap K CanonicalDecimal :=
  if coefficient v =? 0 then delete k m else <[k := v]> m.

(** [_structural_error]. *)
Definition _structural_error (c : OutcomeCode) : exn :=
  if permitted [INVALID_TYPE; OUT_OF_RANGE; NOT_QUANTIZED; PRICE_DOMAIN; CONFLICTING_ID] c
  then raise_ledger c else AssertionError.
Definition structurally {A} (m : res A) : res A :=
  catch_economic m (fun c => Raise (_structural_error c)).

(** [_postings_balance]: the ledger's own copy of the zero-sum test. *)
Definition balance_step (sums : gmap LedgerCommodity (Z * Z)) (p : LedgerPosting)
  : gmap LedgerCommodity (Z * Z) :=
  match sums !! commodity p with
  | None => <[commodity p := (coefficient (posting_amount p), scale (posting_amount p))]> sums
  | Some (left_coefficient, left_scale) =>
      let s := Z.max left_scale (scale (posting_amount p)) in
      let c := left_coefficient * 10 ^ (s - left_scale)
               + coefficient (posting_amount p) * 10 ^ (s - scale (posting_amount p)) in
      <[commodity p := (c, s)]> sums
  end.
Definition _postings_balance (postings : list LedgerPosting) : bool :=
  forallb (fun kv : LedgerCommodity * (Z * Z) => kv.2.1 =? 0)
    (map_to_list (fold_left balance_step postings ∅)).

(** [if amount.coefficient != 0: values.append(LedgerPosting(...))]. *)
Definition posting_unless_zero (a : LedgerAccountKind) (c : LedgerCommodity) (amount : CanonicalDecimal)
  : res (list LedgerPosting) :=
  if coefficient amount =? 0 then Ok [] else let* p := LedgerPosting_init a c amount in Ok [p].

Definition _postings (instrument : Instrument) (currency : SettlementCurrency)
  (position_delta cash_delta external_notional rounding_delta commission : CanonicalDecimal)
  : res (list LedgerPosting) :=
  let* position := LedgerPosting_init PORTFOLIO_POSITION (InstrumentCommodity instrument) position_delta in
  let* negated := _signed position_delta (-1) in
  let* inventory := LedgerPosting_init EXTERNAL_INVENTORY (InstrumentCommodity instrument) negated in
  let* cash := posting_unless_zero PORTFOLIO_CASH (CurrencyCommodity currency) cash_delta in
  let* settlement := posting_unless_zero EXTERNAL_SETTLEMENT (CurrencyCommodity currency) external_notional in
  let* rounding := posting_unless_zero PORTFOLIO_ROUNDING (CurrencyCommodity currency) rounding_delta in
  let* fee := posting_unless_zero COMMISSION_EXPENSE (CurrencyCommodity currency) commission in
  Ok (position :: inventory :: cash ++ settlement ++ rounding ++ fee).

(** [mapping[key]]. *)
Definition get_item {K A} `{Countable K} (m : gmap K A) (k : K) : res A :=
  match m !! k with Some a => Ok a | None => Raise KeyError end.

Section Ledger.
Context `{Sha256} (L : PortfolioLedger).

Definition _transaction_digest (t : CanonicalPortfolioTransaction) : res Sha256Digest :=
  match t with
  | TxFunding t => Ok (funding_transaction_digest t)
  | TxFill t => Ok (ledger_transaction_digest t)
  | TxReconciliation t => reconciliation_transaction_digest t
  end.

Definition _binding_for (t : LedgerTransaction) : res ExistingLedgerBinding :=
  ExistingLedgerBinding_init (lt_entry_id t) (lt_fill_id t) (lt_fill_sha256 t)
    (ledger_transaction_digest t).

(** [sorted(m.items(), key=...)] and [m[key] for key in sorted(m, ...)]. *)
Definition sorted_items {K A S} `{Countable K, PyOrd S} (key : K -> S) (m : gmap K A) : list (K * A) :=
  py_sorted (fun kv : K * A => key kv.1) (map_to_list m).

Definition _snapshot (sequence : Z) (last_entry : EconomicId) (last_sha256 : Sha256Digest)
  (cash : gmap SettlementCurrency CanonicalDecimal) (positions : gmap Instrument CanonicalDecimal)
  (rounding : gmap SettlementCurrency CanonicalDecimal)
  (unresolved : gmap EconomicId UnresolvedFillRef)
  (open_bindings : gmap EconomicId ExistingLedgerBinding)
  (open_refs : gmap EconomicId OpenReconciliationRef) : res PortfolioSnapshot :=
  let* cash_balances_ :=
    rmap (fun kv : SettlementCurrency * CanonicalDecimal =>
            let* quantum := get_item (l_currency_quanta L) kv.1 in
            CashBalance_init kv.1 quantum kv.2) (sorted_items value cash) in
  let* position_balances_ :=
    rmap (fun kv : Instrument * CanonicalDecimal =>
            let* s := get_item (l_spec_by_instrument L) kv.1 in
            PositionBalance_init kv.1 (quantity_quantum s) kv.2) (sorted_items instrument_key positions) in
  let* rounding_balances_ :=
    rmap (fun kv : SettlementCurrency * CanonicalDecimal => RoundingBalance_init kv.1 kv.2)
      (sorted_items value rounding) in
  PortfolioSnapshot_init
    {| snap_run_id := l_run_id L;
       snap_spec_set_id := spec_set_identifier (l_spec_set L);
       snap_spec_set_sha256 := l_spec_set_sha256 L;
       snapshot_version := sequence;
       Portfolio.ledger_sequence := sequence;
       last_entry_id := Some last_entry;
       last_transaction_sha256 := Some last_sha256;
       cash_balances := cash_balances_;
       position_balances := position_balances_;
       rounding_balances := rounding_balances_;
       unresolved_fills := (sorted_items _economic_id_key unresolved).*2;
       open_reconciliation_bindings := (sorted_items _economic_id_key open_bindings).*2;
       open_reconciliation_refs := (sorted_items _economic_id_key open_refs).*2 |}.

(** A state change happens only when the whole operation succeeds. *)
Definition commit {A} (st : LedgerState) (r : res (A * LedgerState)) : res A * LedgerState :=
  match r with Ok (a, st') => (Ok a, st') | Raise e => (Raise e, st) end.

(** ** Initial funding *)

Definition funding_next (st : LedgerState) (funding : InitialFunding)
  : res (FundingApplyOutcome * LedgerState) :=
  raise_if negb (bool_decide (funding_run_id funding = l_run_id L)) with raise_ledger CONFLICTING_ID ;;
  match l_currency_quanta L !! funding_currency funding with
  | None => Raise (raise_ledger CONFLICTING_ID)
  | Some quantum =>
      let* _ := structurally (require_quantized (funding_amount funding) quantum) in
      let submitted_bytes := canonical_initial_funding_bytes funding in
      let version := snapshot_version (st_snapshot st) in
      match st_funding st with
      | Some existing =>
          if bool_decide (fb_funding_bytes existing = submitted_bytes) then Ok (fb_outcome existing, st)
          else
            let* o := _create_funding_apply_outcome funding LEDGER_CONFLICT version version
                        (st_snapshot st) None
                        (Some (fo_submitted_funding_sha256 (fb_outcome existing))) in
            Ok (o, st)
      | None =>
          if negb (Portfolio.ledger_sequence (st_snapshot st) =? 0) then
            let* o := _create_funding_apply_outcome funding LEDGER_CONFLICT version version
                        (st_snapshot st) None None in
            Ok (o, st)
          else
            let* entry_id := EconomicId_init (l_run_id L) LEDGER_ENTRY 1 in
            let commodity_ := CurrencyCommodity (funding_currency funding) in
            let* first := LedgerPosting_init PORTFOLIO_CASH commodity_ (funding_amount funding) in
            let* negated := _signed (funding_amount funding) (-1) in
            let* second := LedgerPosting_init EXTERNAL_SETTLEMENT commodity_ negated in
            let* transaction :=
              _create_funding_transaction funding entry_id (spec_set_identifier (l_spec_set L))
                (l_spec_set_sha256 L) [first; second] in
            let transaction_sha256 := funding_transaction_digest transaction in
            let cash := {[funding_currency funding := funding_amount funding]} in
            let* snapshot := _snapshot 1 entry_id transaction_sha256 cash ∅ ∅ ∅ ∅ ∅ in
            let* outcome := _create_funding_apply_outcome funding LEDGER_APPLIED 0 1 snapshot
                              (Some transaction) None in
            Ok (outcome,
                {| st_cash := cash;
                   st_positions := ∅;
                   st_rounding := ∅;
                   st_unresolved := ∅;
                   st_fill_index := ∅;
                   st_fact_index := ∅;
                   st_entry_index := {[entry_id := TxFunding transaction]};
                   st_transactions := [TxFunding transaction];
                   st_funding := Some (mkFundingBinding submitted_bytes outcome);
                   st_open_bindings := ∅;
                   st_open_refs := ∅;
                   st_handoff_index := ∅;
                   st_authorization_index := ∅;
                   st_adjustment_index := ∅;
                   st_observation_index := ∅;
                   st_command_index := ∅;
                   st_adjustment_outcomes := ∅;
                   st_snapshot := snapshot |})
      end
  end.

(** The digest of an applied funding is compared after the assignment. *)
Definition apply_initial_funding (st : LedgerState) (funding : InitialFunding)
  : res FundingApplyOutcome * LedgerState :=
  match commit st (funding_next st funding) with
  | (Ok o, st') =>
      if bool_decide (fo_code o = LEDGER_APPLIED) && absent (st_funding st)
         && negb (bool_decide (initial_funding_digest funding = fo_submitted_funding_sha256 o))
      then (Raise AssertionError, st') else (Ok o, st')
  | r => r
  end.

(** ** Fill outcomes that leave the state alone *)

Definition _conflict (st : LedgerState) (fill : Fill) (fill_sha256 : Sha256Digest)
  (kind : LedgerConflictKind) (entry_binding fill_binding fact_binding : option ExistingLedgerBinding)
  : res LedgerApplyOutcome :=
  let version := snapshot_version (st_snapshot st) in
  _create_ledger_apply_outcome
    {| outcome_run_id := l_run_id L;
       outcome_code := LEDGER_CONFLICT;
       before_snapshot_version := version;
       after_snapshot_version := version;
       outcome_snapshot := st_snapshot st;
       outcome_transaction := None;
       submitted_fill_id := fill_id fill;
       submitted_fill_sha256 := fill_sha256;
       conflict_kind := Some kind;
       entry_index_binding := entry_binding;
       fill_index_binding := fill_binding;
       fact_index_binding := fact_binding;
       failure_stage := None |}.

Definition _failure (st : LedgerState) (fill : Fill) (fill_sha256 : Sha256Digest)
  (code : OutcomeCode) (stage : LedgerFailureStage) : res LedgerApplyOutcome :=
  let version := snapshot_version (st_snapshot st) in
  _create_ledger_apply_outcome
    {| outcome_run_id := l_run_id L;
       outcome_code := code;
       before_snapshot_version := version;
       after_snapshot_version := version;
       outcome_snapshot := st_snapshot st;
       outcome_transaction := None;
       submitted_fill_id := fill_id fill;
       submitted_fill_sha256 := fill_sha256;
       conflict_kind := None;
       entry_index_binding := None;
       fill_index_binding := None;
       fact_index_binding := None;
       failure_stage := Some stage |}.

(** [_classify_replay]: [None] when the fill is new. *)
Definition _classify_replay (st : LedgerState) (fill : Fill) (submitted_digest : Sha256Digest)
  (fill_binding fact_binding : option ExistingLedgerBinding) : res (option LedgerApplyOutcome) :=
  let conflict kind :=
    let* o := _conflict st fill submitted_digest kind None fill_binding fact_binding in Ok (Some o) in
  match fill_binding, fact_binding with
  | None, None => Ok None
  | Some b, None =>
      conflict (if bool_decide (binding_fill_sha256 b <> submitted_digest)
                then FILL_ID_COLLISION else INDEX_INCONSISTENT)
  | None, Some b =>
      conflict (if bool_decide (binding_fill_sha256 b <> submitted_digest)
                then FACT_KEY_COLLISION else INDEX_INCONSISTENT)
  | Some b, Some b' =>
      if bool_decide (binding_entry_id b <> binding_entry_id b') then conflict CROSS_INDEX_COLLISION
      else if bool_decide (b <> b') then conflict INDEX_INCONSISTENT
      else
        match st_entry_index st !! binding_entry_id b with
        | Some (TxFill transaction) =>
            let* bound := _binding_for transaction in
            if bool_decide (bound <> b) then conflict INDEX_INCONSISTENT
            else if bool_decide (binding_fill_sha256 b = submitted_digest) then
              let version := snapshot_version (st_snapshot st) in
              let* o := _create_ledger_apply_outcome
                {| outcome_run_id := l_run_id L;
                   outcome_code := LEDGER_DUPLICATE;
                   before_snapshot_version := version;
                   after_snapshot_version := version;
                   outcome_snapshot := st_snapshot st;
                   outcome_transaction := Some transaction;
                   submitted_fill_id := fill_id fill;
                   submitted_fill_sha256 := submitted_digest;
                   conflict_kind := None;
                   entry_index_binding := None;
                   fill_index_binding := None;
                   fact_index_binding := None;
                   failure_stage := None |} in
              Ok (Some o)
            else conflict FILL_AND_FACT_COLLISION
        | _ => conflict INDEX_INCONSISTENT
        end
  end.

(** ** A new fill *)

(** [_require_specification]. *)
Definition _require_specification (fill : Fill) : res InstrumentExecutionSpec :=
  let* specification := structurally (require_spec (l_spec_set L) (fill_instrument fill)) in
  raise_if negb (bool_decide (fill_specification_id fill = specification_id specification))
        || negb (bool_decide (fill_spec_set_id fill = spec_set_identifier (l_spec_set L)))
        || negb (bool_decide (fill_spec_set_sha256 fill = l_spec_set_sha256 L))
    with raise_ledger CONFLICTING_ID ;;
  let* validated := structurally (validate_execution_inputs (l_spec_set L) (fill_instrument fill)
                                    (fill_price fill) (fill_quantity fill)) in
  raise_if negb (bool_decide (validated = specification)) with AssertionError ;;
  match fill_fees fill with
  | [fee] =>
      let* conflicts := fee_conflicts fee specification (fill_price fill) (fill_quantity fill) in
      raise_if conflicts with raise_ledger CONFLICTING_ID ;;
      let* _ := structurally (require_quantized (fee_amount fee) (currency_quantum specification)) in
      Ok specification
  | _ => Raise (raise_ledger INVALID_TYPE)
  end.

(** The evidence of the audited command path. *)
Record Handoff : Type := mkHandoff {
  handoff_requires_reconciliation : bool;
  handoff_processing_outcome_sha256 : Sha256Digest;
  handoff_audited_sha256 : Sha256Digest;
  handoff_command_sha256 : Sha256Digest
}.

(** The effect of a fill: what it adds to each balance and the postings it books. *)
Record FillEffect : Type := mkFillEffect {
  fe_currency : SettlementCurrency;
  fe_postings : list LedgerPosting;
  fe_next_cash : CanonicalDecimal;
  fe_next_position : CanonicalDecimal;
  fe_next_rounding : CanonicalDecimal
}.

(** [try: m except EconomicValidationError: return self._failure(...)]: [inl] is the
    failure to report. *)
Definition or_failure {A B} (m : res A) (failure : OutcomeCode * LedgerFailureStage)
  (k : A -> res ((OutcomeCode * LedgerFailureStage) + B))
  : res ((OutcomeCode * LedgerFailureStage) + B) :=
  match m with
  | Raise (EconomicValidationError _) => Ok (inl failure)
  | Raise e => Raise e
  | Ok a => k a
  end.

(** The arithmetic of [_apply_new_fill], in the order of the source: the first
    failing stage is the one reported. *)
Definition fill_effect (st : LedgerState) (fill : Fill)
  : res ((OutcomeCode * LedgerFailureStage) + FillEffect) :=
  match settle_execution (l_spec_set L) (fill_instrument fill) (fill_price fill) (fill_quantity fill) with
  | Raise (EconomicValidationError code) =>
      if bool_decide (code = ARITHMETIC_OVERFLOW)
      then Ok (inl (ARITHMETIC_OVERFLOW, SETTLEMENT_ARITHMETIC_OVERFLOW))
      else if bool_decide (code = ROUNDING_UNREPRESENTABLE)
      then Ok (inl (ROUNDING_UNREPRESENTABLE, SETTLEMENT_ROUNDING_UNREPRESENTABLE))
      else Raise (_structural_error code)
  | Raise e => Raise e
  | Ok settlement =>
      or_failure (_add_decimal (settled_amount settlement) (settled_residual settlement))
        (ARITHMETIC_OVERFLOW, EXACT_NOTIONAL_OVERFLOW)
        (fun exact_notional =>
      let side_sign := if bool_decide (side_value (fill_side fill) = "buy"%string) then 1 else -1 in
      let* position_delta := _signed (fill_quantity fill) side_sign in
      let* fee := match fill_fees fill with fee :: _ => Ok (fee_amount fee) | [] => Raise IndexError end in
      or_failure (let* a := _signed (settled_amount settlement) (- side_sign) in
                  let* b := _signed fee (-1) in _add_decimal a b)
        (ARITHMETIC_OVERFLOW, CASH_BALANCE_OVERFLOW)
        (fun cash_delta =>
      let* rounding_delta := _signed (settled_residual settlement) (- side_sign) in
      let* external_notional := _signed exact_notional side_sign in
      let* postings := _postings (fill_instrument fill) (settled_currency settlement) position_delta
                         cash_delta external_notional rounding_delta fee in
      or_failure (_next_balance (st_cash st !! settled_currency settlement) cash_delta)
        (ARITHMETIC_OVERFLOW, CASH_BALANCE_OVERFLOW)
        (fun next_cash =>
      if negb (absent (st_funding st)) && (coefficient next_cash <? 0)
      then Ok (inl (OUT_OF_RANGE, INSUFFICIENT_CASH))
      else
      or_failure (_next_balance (st_positions st !! fill_instrument fill) position_delta)
        (ARITHMETIC_OVERFLOW, POSITION_BALANCE_OVERFLOW)
        (fun next_position =>
      or_failure (_next_balance (st_rounding st !! settled_currency settlement) rounding_delta)
        (ROUNDING_UNREPRESENTABLE, ROUNDING_BALANCE_OVERFLOW)
        (fun next_rounding =>
      if negb (_postings_balance postings) then Ok (inl (LEDGER_UNBALANCED, COMMODITY_UNBALANCED))
      else
      Ok (inr {| fe_currency := settled_currency settlement;
                 fe_postings := postings;
                 fe_next_cash := next_cash;
                 fe_next_position := next_position;
                 fe_next_rounding := next_rounding |}))))))
  end.

(** The digest of the last transaction, if there is one. *)
Definition previous_digest (st : LedgerState) : res (option Sha256Digest) :=
  match last (st_transactions st) with
  | None => Ok None
  | Some t => let* d := _transaction_digest t in Ok (Some d)
  end.

(** The rest of [_apply_new_fill]: transaction, next snapshot, outcome, next state. *)
Definition book_fill (st : LedgerState) (fill : Fill) (submitted_digest : Sha256Digest)
  (handoff : option Handoff) (entry_id : EconomicId) (effect : FillEffect)
  : res (LedgerApplyOutcome * LedgerState) :=
  let before_version := snapshot_version (st_snapshot st) in
  let next_sequence := before_version + 1 in
  let cash := _assign_nonzero (st_cash st) (fe_currency effect) (fe_next_cash effect) in
  let positions := _assign_nonzero (st_positions st) (fill_instrument fill) (fe_next_position effect) in
  let rounding := _assign_nonzero (st_rounding st) (fe_currency effect) (fe_next_rounding effect) in
  let derived_reconciliation :=
    missing_ancestry (fill_order_id fill) (fill_correlation_id fill) (fill_causation_id fill) in
  let requires_reconciliation :=
    match handoff with
    | None => derived_reconciliation
    | Some h => handoff_requires_reconciliation h
    end in
  raise_if derived_reconciliation && negb requires_reconciliation with AssertionError ;;
  let* previous := previous_digest st in
  let* transaction := LedgerTransaction_init
    {| lt_run_id := l_run_id L;
       lt_entry_id := entry_id;
       lt_ledger_sequence := next_sequence;
       lt_fill_id := fill_id fill;
       lt_fill_sha256 := submitted_digest;
       lt_fact_key := fill_fact_key fill;
       lt_provenance := fill_provenance fill;
       lt_occurred_at := fill_occurred_at fill;
       lt_order_id := fill_order_id fill;
       lt_correlation_id := fill_correlation_id fill;
       lt_causation_id := fill_causation_id fill;
       lt_client_submission_key := fill_client_submission_key fill;
       lt_venue_order_id := fill_venue_order_id fill;
       lt_specification_id := fill_specification_id fill;
       lt_spec_set_id := fill_spec_set_id fill;
       lt_spec_set_sha256 := fill_spec_set_sha256 fill;
       lt_previous_transaction_sha256 := previous;
       lt_postings := fe_postings effect;
       lt_requires_reconciliation := requires_reconciliation |} in
  let transaction_sha256 := ledger_transaction_digest transaction in
  let* unresolved :=
    if derived_reconciliation then
      let* r := UnresolvedFillRef_init (fill_id fill) submitted_digest in
      Ok (<[fill_id fill := r]> (st_unresolved st))
    else Ok (st_unresolved st) in
  let* open_ :=
    match handoff with
    | Some h =>
        if requires_reconciliation then
          let* b := ExistingLedgerBinding_init entry_id (fill_id fill) submitted_digest transaction_sha256 in
          let* r := OpenReconciliationRef_init (fill_id fill) submitted_digest
                      (handoff_processing_outcome_sha256 h) in
          Ok (<[fill_id fill := b]> (st_open_bindings st), <[fill_id fill := r]> (st_open_refs st))
        else Ok (st_open_bindings st, st_open_refs st)
    | None => Ok (st_open_bindings st, st_open_refs st)
    end in
  let* next_snapshot := _snapshot next_sequence entry_id transaction_sha256 cash positions rounding
                          unresolved open_.1 open_.2 in
  let* binding := ExistingLedgerBinding_init entry_id (fill_id fill) submitted_digest transaction_sha256 in
  let* outcome := _create_ledger_apply_outcome
    {| outcome_run_id := l_run_id L;
       outcome_code := LEDGER_APPLIED;
       before_snapshot_version := before_version;
       after_snapshot_version := next_sequence;
       outcome_snapshot := next_snapshot;
       outcome_transaction := Some transaction;
       submitted_fill_id := fill_id fill;
       submitted_fill_sha256 := submitted_digest;
       conflict_kind := None;
       entry_index_binding := None;
       fill_index_binding := None;
       fact_index_binding := None;
       failure_stage := None |} in
  let handoff_index :=
    match handoff with
    | None => st_handoff_index st
    | Some h =>
        <[handoff_audited_sha256 h :=
            {| hb_command_sha256 := handoff_command_sha256 h;
               hb_processing_outcome_sha256 := handoff_processing_outcome_sha256 h;
               hb_fill_sha256 := submitted_digest;
               hb_original_outcome := outcome;
               hb_original_outcome_bytes := canonical_ledger_apply_outcome_bytes outcome;
               hb_transaction_sha256 := transaction_sha256;
               hb_before_snapshot_sha256 := portfolio_snapshot_digest (st_snapshot st);
               hb_after_snapshot_sha256 := portfolio_snapshot_digest next_snapshot |}]>
          (st_handoff_index st)
    end in
  Ok (outcome,
      {| st_cash := cash;
         st_positions := positions;
         st_rounding := rounding;
         st_unresolved := unresolved;
         st_fill_index := <[fill_id fill := binding]> (st_fill_index st);
         st_fact_index := <[fill_fact_key fill := binding]> (st_fact_index st);
         st_entry_index := <[entry_id := TxFill transaction]> (st_entry_index st);
         st_transactions := st_transactions st ++ [TxFill transaction];
         st_funding := st_funding st;
         st_open_bindings := open_.1;
         st_open_refs := open_.2;
         st_handoff_index := handoff_index;
         st_authorization_index := st_authorization_index st;
         st_adjustment_index := st_adjustment_index st;
         st_observation_index := st_observation_index st;
         st_command_index := st_command_index st;
         st_adjustment_outcomes := st_adjustment_outcomes st;
         st_snapshot := next_snapshot |}).

Definition _apply_new_fill (st : LedgerState) (fill : Fill) (submitted_digest : Sha256Digest)
  (handoff : option Handoff) : res (LedgerApplyOutcome * LedgerState) :=
  let* _ := _require_specification fill in
  let before_version := snapshot_version (st_snapshot st) in
  let unchanged (m : res LedgerApplyOutcome) := let* o := m in Ok (o, st) in
  if before_version =? MAX_UINT64 then
    unchanged (_failure st fill submitted_digest OUT_OF_RANGE LEDGER_SEQUENCE_EXHAUSTED)
  else
    let* entry_id := EconomicId_init (l_run_id L) LEDGER_ENTRY (before_version + 1) in
    match st_entry_index st !! entry_id with
    | Some (TxFill occupied) =>
        let* b := _binding_for occupied in
        unchanged (_conflict st fill submitted_digest ENTRY_ID_OCCUPIED (Some b) None None)
    | Some _ => unchanged (_conflict st fill submitted_digest INDEX_INCONSISTENT None None None)
    | None =>
        let* effect := fill_effect st fill in
        match effect with
        | inl (code, stage) => unchanged (_failure st fill submitted_digest code stage)
        | inr effect => book_fill st fill submitted_digest handoff entry_id effect
        end
    end.

Definition fill_next (st : LedgerState) (fill : Fill) : res (LedgerApplyOutcome * LedgerState) :=
  raise_if negb (bool_decide (fill_run_id fill = l_run_id L)) with raise_ledger CONFLICTING_ID ;;
  let submitted_digest := fill_digest fill in
  let* replay := _classify_replay st fill submitted_digest (st_fill_index st !! fill_id fill)
                   (st_fact_index st !! fill_fact_key fill) in
  match replay with
  | Some o => Ok (o, st)
  | None => _apply_new_fill st fill submitted_digest None
  end.
Definition apply_fill (st : LedgerState) (fill : Fill) : res LedgerApplyOutcome * LedgerState :=
  commit st (fill_next st fill).

Definition command_next (st : LedgerState) (command : LedgerApplicationCommand) (fill : Fill)
  : res (LedgerApplyOutcome * LedgerState) :=
  raise_if negb (bool_decide (lc_run_id command = l_run_id L))
        || negb (bool_decide (fill_run_id fill = l_run_id L)) with raise_ledger CONFLICTING_ID ;;
  let submitted_digest := fill_digest fill in
  raise_if negb (bool_decide (lc_fill_id command = fill_id fill))
        || negb (bool_decide (lc_fill_sha256 command = submitted_digest))
    with raise_ledger CONFLICTING_ID ;;
  match st_handoff_index st !! lc_audited_handoff_sha256 command with
  | Some existing =>
      let* d := ledger_application_command_digest command in
      raise_if negb (bool_decide (hb_command_sha256 existing = d)) with raise_ledger CONFLICTING_ID ;;
      Ok (hb_original_outcome existing, st)
  | None =>
      let fill_binding := st_fill_index st !! fill_id fill in
      let fact_binding := st_fact_index st !! fill_fact_key fill in
      if negb (absent fill_binding) || negb (absent fact_binding) then
        let* o := _conflict st fill submitted_digest UNBOUND_EXISTING_FILL None fill_binding fact_binding in
        Ok (o, st)
      else
        let* command_sha256 := ledger_application_command_digest command in
        _apply_new_fill st fill submitted_digest
          (Some (mkHandoff (lc_requires_reconciliation command) (lc_processing_outcome_sha256 command)
                   (lc_audited_handoff_sha256 command) command_sha256))
  end.
Definition apply_ledger_application_command (st : LedgerState) (command : LedgerApplicationCommand)
  (fill : Fill) : res LedgerApplyOutcome * LedgerState :=
  commit st (command_next st command fill).

(** [_resolve_handoff_binding]. *)
Definition _resolve_handoff_binding (st : LedgerState) (d : Sha256Digest) : option HandoffBinding :=
  st_handoff_index st !! d.
End Ledger.

(** ** Creation *)

(** The loop of [create_portfolio_ledger] over the specifications. *)
Fixpoint bind_specifications (specs : list InstrumentExecutionSpec)
  (quanta : gmap SettlementCurrency CanonicalDecimal) (by_instrument : gmap Instrument InstrumentExecutionSpec)
  : res (gmap SettlementCurrency CanonicalDecimal * gmap Instrument InstrumentExecutionSpec) :=
  match specs with
  | [] => Ok (quanta, by_instrument)
  | s :: specs =>
      raise_if match quanta !! settlement_currency s with
               | Some existing => negb (bool_decide (existing = currency_quantum s))
               | None => false
               end with raise_ledger CONFLICTING_ID ;;
      bind_specifications specs (<[settlement_currency s := currency_quantum s]> quanta)
        (<[spec_instrument s := s]> by_instrument)
  end.

Definition initial_state (snapshot : PortfolioSnapshot) : LedgerState :=
  {| st_cash := ∅; st_positions := ∅; st_rounding := ∅; st_unresolved := ∅; st_fill_index := ∅;
     st_fact_index := ∅; st_entry_index := ∅; st_transactions := []; st_funding := None;
     st_open_bindings := ∅; st_open_refs := ∅; st_handoff_index := ∅; st_authorization_index := ∅;
     st_adjustment_index := ∅; st_observation_index := ∅; st_command_index := ∅;
     st_adjustment_outcomes := ∅; st_snapshot := snapshot |}.

Definition create_portfolio_ledger `{Sha256} (run_id : RunId) (spec_set : InstrumentExecutionSpecSet)
  : res (PortfolioLedger * LedgerState) :=
  let* maps := bind_specifications (specifications spec_set) ∅ ∅ in
  let spec_set_sha256 := instrument_spec_set_digest spec_set in
  let* initial := PortfolioSnapshot_init
    {| snap_run_id := run_id;
       snap_spec_set_id := spec_set_identifier spec_set;
       snap_spec_set_sha256 := spec_set_sha256;
       snapshot_version := 0;
       Portfolio.ledger_sequence := 0;
       last_entry_id := None;
       last_transaction_sha256 := None;
       cash_balances := [];
       position_balances := [];
       rounding_balances := [];
       unresolved_fills := [];
       open_reconciliation_bindings := [];
       open_reconciliation_refs := [] |} in
  Ok ({| l_run_id := run_id;
         l_spec_set := spec_set;
         l_spec_set_sha256 := spec_set_sha256;
         l_currency_quanta := maps.1;
         l_spec_by_instrument := maps.2 |}, initial_state initial).
