(* ===== verification/Adjustment.v ===== *)
(** Reconciliation adjustments of the ledger: [apply_reconciliation_adjustment] of
    [portfolio/ledger.py] and the derivations it calls. *)

From S2P Require Import Prelude PyRegex PyText Outcomes Json Identity Economics Commission.
From S2P Require Import Execution Messages Portfolio Reconciliation Integration Ledger.

Open Scope Z_scope.

(** [_AdjustmentDerivation]. *)
Record AdjustmentDerivation : Type := mkAdjustmentDerivation {
  ad_transaction : ReconciliationTransaction;
  ad_next_cash : gmap SettlementCurrency CanonicalDecimal;
  ad_next_positions : gmap Instrument CanonicalDecimal;
  ad_next_unresolved : gmap EconomicId UnresolvedFillRef;
  ad_next_open_bindings : gmap EconomicId ExistingLedgerBinding;
  ad_next_open_refs : gmap EconomicId OpenReconciliationRef;
  ad_next_entry_index : gmap EconomicId CanonicalPortfolioTransaction;
  ad_next_transactions : list CanonicalPortfolioTransaction;
  ad_next_snapshot : PortfolioSnapshot
}.

(** [_correction_failure_kind]. *)
Definition _correction_failure_kind (c : OutcomeCode) : ReconciliationAdjustmentFailureKind :=
  if bool_decide (c = ARITHMETIC_OVERFLOW) || bool_decide (c = ROUNDING_UNREPRESENTABLE)
  then ARITHMETIC_FAILURE
  else if bool_decide (c = LEDGER_UNBALANCED) then UNBALANCED
  else INVALID_COMMAND.

(** [_negated_decimal_value]: the same text surgery as [_negated_decimal]. *)
Definition _negated_decimal_value (v : CanonicalDecimal) : res CanonicalDecimal :=
  if coefficient v =? 0 then decimal_of_text "0"
  else
    match chars (text v) with
    | "-"%char :: rest => decimal_of_text (text_of rest)
    | s => decimal_of_text (text_of ("-"%char :: s))
    end.

Section Adjustment.
Context `{Sha256} (L : PortfolioLedger).

Definition outcome_without_effect (st : LedgerState) (command : ReconciliationAdjustmentCommand)
  (authorization_sha256 : Sha256Digest) (result_ : ReconciliationAdjustmentResult)
  (failure : option ReconciliationAdjustmentFailureKind)
  (conflict : option ReconciliationAdjustmentConflictKind) : res ReconciliationAdjustmentOutcome :=
  let digest := portfolio_snapshot_digest (st_snapshot st) in
  let* command_sha256 := reconciliation_adjustment_command_digest command in
  _create_reconciliation_adjustment_outcome (l_run_id L) (rc_adjustment_id command)
    authorization_sha256 (rc_observation_sha256 command) (rc_reconciliation_outcome_sha256 command)
    command_sha256 result_ None failure conflict digest digest.

Definition _adjustment_failed (st : LedgerState) (command : ReconciliationAdjustmentCommand)
  (authorization_sha256 : Sha256Digest) (failure : ReconciliationAdjustmentFailureKind)
  : res ReconciliationAdjustmentOutcome :=
  outcome_without_effect st command authorization_sha256 FAILED (Some failure) None.

Definition _adjustment_conflict (st : LedgerState) (command : ReconciliationAdjustmentCommand)
  (authorization_sha256 : Sha256Digest) (conflict : ReconciliationAdjustmentConflictKind)
  : res ReconciliationAdjustmentOutcome :=
  outcome_without_effect st command authorization_sha256 CONFLICT_RESULT None (Some conflict).

Definition _build_adjustment_transaction (st : LedgerState)
  (authorization : ReconciliationAdjustmentAuthorization) (command : ReconciliationAdjustmentCommand)
  (entry_id : EconomicId) (before_version : Z) (authorization_sha256 : Sha256Digest)
  (postings : list LedgerPosting) : res ReconciliationTransaction :=
  let* previous := previous_digest st in
  let* command_sha256 := reconciliation_adjustment_command_digest command in
  _create_reconciliation_transaction (l_spec_set L)
    {| rt_run_id := l_run_id L;
       rt_entry_id := entry_id;
       rt_ledger_sequence := before_version + 1;
       rt_adjustment_id := rc_adjustment_id command;
       rt_authorization_sha256 := authorization_sha256;
       rt_observation_sha256 := rc_observation_sha256 command;
       rt_reconciliation_outcome_sha256 := rc_reconciliation_outcome_sha256 command;
       rt_adjustment_command_sha256 := command_sha256;
       rt_variant := rc_variant command;
       rt_target_kind := rc_target_kind command;
       rt_instrument := rc_instrument command;
       rt_currency := rc_currency command;
       rt_local_amount := rc_local_amount command;
       rt_observed_amount := rc_observed_amount command;
       rt_delta := rc_delta command;
       rt_open_reconciliation_ref := rc_open_reconciliation_ref command;
       rt_previous_transaction_sha256 := previous;
       rt_spec_set_id := spec_set_identifier (l_spec_set L);
       rt_spec_set_sha256 := instrument_spec_set_digest (l_spec_set L);
       rt_postings := postings;
       rt_occurred_at := ra_available_at authorization;
       rt_available_at := ra_available_at authorization |}.

Definition _finish_adjustment_derivation (st : LedgerState) (transaction : ReconciliationTransaction)
  (entry_id : EconomicId) (next_cash : gmap SettlementCurrency CanonicalDecimal)
  (next_positions : gmap Instrument CanonicalDecimal)
  (next_unresolved : gmap EconomicId UnresolvedFillRef)
  (next_open_bindings : gmap EconomicId ExistingLedgerBinding)
  (next_open_refs : gmap EconomicId OpenReconciliationRef) : res AdjustmentDerivation :=
  let* transaction_sha256 := reconciliation_transaction_digest transaction in
  let* next_snapshot := _snapshot L (owner_sequence entry_id) entry_id transaction_sha256 next_cash
                          next_positions (st_rounding st) next_unresolved next_open_bindings
                          next_open_refs in
  Ok {| ad_transaction := transaction;
        ad_next_cash := next_cash;
        ad_next_positions := next_positions;
        ad_next_unresolved := next_unresolved;
        ad_next_open_bindings := next_open_bindings;
        ad_next_open_refs := next_open_refs;
        ad_next_entry_index := <[entry_id := TxReconciliation transaction]> (st_entry_index st);
        ad_next_transactions := st_transactions st ++ [TxReconciliation transaction];
        ad_next_snapshot := next_snapshot |}.

(** The target of a correction: grid, commodity, accounts and current balance. *)
Definition correction_target (st : LedgerState) (command : ReconciliationAdjustmentCommand)
  : res (CanonicalDecimal * LedgerCommodity * (LedgerAccountKind * LedgerAccountKind)
         * option CanonicalDecimal) :=
  if bool_decide (rc_target_kind command = INSTRUMENT_POSITION) then
    match rc_instrument command with
    | None => Raise (raise_ledger INVALID_TYPE)
    | Some i =>
        let* s := structurally (require_spec (l_spec_set L) i) in
        Ok (quantity_quantum s, InstrumentCommodity i, (PORTFOLIO_POSITION, EXTERNAL_INVENTORY),
            st_positions st !! i)
    end
  else
    match rc_currency command with
    | None => Raise (raise_ledger INVALID_TYPE)
    | Some c =>
        match currency_quantum_of (l_spec_set L) c with
        | None => Raise (raise_ledger CONFLICTING_ID)
        | Some q => Ok (q, CurrencyCommodity c, (PORTFOLIO_CASH, EXTERNAL_SETTLEMENT), st_cash st !! c)
        end
    end.

Definition _derive_correction (st : LedgerState)
  (authorization : ReconciliationAdjustmentAuthorization) (command : ReconciliationAdjustmentCommand)
  (entry_id : EconomicId) (before_version : Z) (authorization_sha256 : Sha256Digest)
  : res AdjustmentDerivation :=
  raise_if absent (rc_local_amount command) || absent (rc_observed_amount command)
    with raise_ledger INVALID_TYPE ;;
  match rc_delta command with
  | None => Raise (raise_ledger INVALID_TYPE)
  | Some delta =>
      let* target := correction_target st command in
      let '(quantum, commodity_, accounts, current) := target in
      let* _ := catch_economic (require_quantized delta quantum)
                  (fun c => Raise (raise_ledger
                                     (if bool_decide (c = NOT_QUANTIZED) then NOT_QUANTIZED else OUT_OF_RANGE))) in
      let* next_balance := catch_economic (_next_balance current delta)
                             (fun _ => Raise (raise_ledger ARITHMETIC_OVERFLOW)) in
      let* first := LedgerPosting_init accounts.1 commodity_ delta in
      let* negated := _negated_decimal_value delta in
      let* second := LedgerPosting_init accounts.2 commodity_ negated in
      let next_cash :=
        match commodity_ with
        | CurrencyCommodity c => _assign_nonzero (st_cash st) c next_balance
        | InstrumentCommodity _ => st_cash st
        end in
      let next_positions :=
        match commodity_ with
        | InstrumentCommodity i => _assign_nonzero (st_positions st) i next_balance
        | CurrencyCommodity _ => st_positions st
        end in
      let* transaction := _build_adjustment_transaction st authorization command entry_id
                            before_version authorization_sha256 [first; second] in
      _finish_adjustment_derivation st transaction entry_id next_cash next_positions
        (st_unresolved st) (st_open_bindings st) (st_open_refs st)
  end.

Definition _derive_ancestry_resolution (st : LedgerState)
  (authorization : ReconciliationAdjustmentAuthorization) (command : ReconciliationAdjustmentCommand)
  (reference : OpenReconciliationRef) (entry_id : EconomicId) (before_version : Z)
  (authorization_sha256 : Sha256Digest) : res AdjustmentDerivation :=
  let* transaction := _build_adjustment_transaction st authorization command entry_id before_version
                        authorization_sha256 [] in
  _finish_adjustment_derivation st transaction entry_id (st_cash st) (st_positions st)
    (delete (open_fill_id reference) (st_unresolved st))
    (delete (open_fill_id reference) (st_open_bindings st))
    (delete (open_fill_id reference) (st_open_refs st)).

(** The commit of a derived adjustment. *)
Definition book_adjustment (st : LedgerState) (command : ReconciliationAdjustmentCommand)
  (authorization_sha256 command_sha256 : Sha256Digest) (derived : AdjustmentDerivation)
  : res (ReconciliationAdjustmentOutcome * LedgerState) :=
  let before_sha256 := portfolio_snapshot_digest (st_snapshot st) in
  let* outcome := _create_reconciliation_adjustment_outcome (l_run_id L) (rc_adjustment_id command)
                    authorization_sha256 (rc_observation_sha256 command)
                    (rc_reconciliation_outcome_sha256 command) command_sha256 APPLIED
                    (Some (ad_transaction derived)) None None before_sha256
                    (portfolio_snapshot_digest (ad_next_snapshot derived)) in
  Ok (outcome,
      {| st_cash := ad_next_cash derived;
         st_positions := ad_next_positions derived;
         st_rounding := st_rounding st;
         st_unresolved := ad_next_unresolved derived;
         st_fill_index := st_fill_index st;
         st_fact_index := st_fact_index st;
         st_entry_index := ad_next_entry_index derived;
         st_transactions := ad_next_transactions derived;
         st_funding := st_funding st;
         st_open_bindings := ad_next_open_bindings derived;
         st_open_refs := ad_next_open_refs derived;
         st_handoff_index := st_handoff_index st;
         st_authorization_index := <[authorization_sha256 := command_sha256]> (st_authorization_index st);
         st_adjustment_index := <[rc_adjustment_id command := command_sha256]> (st_adjustment_index st);
         st_observation_index :=
           <[rc_observation_sha256 command := rc_adjustment_id command]> (st_observation_index st);
         st_command_index := <[command_sha256 := outcome]> (st_command_index st);
         st_adjustment_outcomes := <[authorization_sha256 := outcome]> (st_adjustment_outcomes st);
         st_snapshot := ad_next_snapshot derived |}).

Definition adjustment_next (st : LedgerState) (audited : AuditedReconciliationAdjustmentAuthorization)
  (command : ReconciliationAdjustmentCommand) : res (ReconciliationAdjustmentOutcome * LedgerState) :=
  let authorization := audited_authorization audited in
  raise_if negb (bool_decide (ra_run_id authorization = l_run_id L))
        || negb (bool_decide (rc_run_id command = l_run_id L))
        || negb (bool_decide (id_run_id (rc_adjustment_id command) = l_run_id L))
    with raise_ledger CONFLICTING_ID ;;
  let* command_sha256 := reconciliation_adjustment_command_digest command in
  raise_if negb (bool_decide (ra_command_sha256 authorization = command_sha256))
        || negb (bool_decide (ra_adjustment_id authorization = rc_adjustment_id command))
        || negb (bool_decide (ra_observation_sha256 authorization = rc_observation_sha256 command))
        || negb (bool_decide (ra_reconciliation_outcome_sha256 authorization
                              = rc_reconciliation_outcome_sha256 command))
        || negb (ra_ledger_sequence authorization =? rc_ledger_sequence command)
        || negb (bool_decide (ra_local_snapshot_sha256 authorization = rc_local_snapshot_sha256 command))
        || negb (ra_dispatch_sequence authorization =? rc_dispatch_sequence command)
    with raise_ledger CONFLICTING_ID ;;
  let authorization_sha256 := audited_authorization_sha256 audited in
  let unchanged (m : res ReconciliationAdjustmentOutcome) := let* o := m in Ok (o, st) in
  let failed kind := unchanged (_adjustment_failed st command authorization_sha256 kind) in
  let conflict kind := unchanged (_adjustment_conflict st command authorization_sha256 kind) in
  if negb (bool_decide (ra_decision authorization = ALLOWED)) then failed INVALID_COMMAND
  else
  match st_adjustment_outcomes st !! authorization_sha256 with
  | Some replay =>
      if bool_decide (ao_adjustment_id replay = rc_adjustment_id command)
         && bool_decide (ao_adjustment_command_sha256 replay = command_sha256)
      then Ok (replay, st) else conflict AUTHORIZATION_ID_COLLISION
  | None =>
      if negb (absent (st_adjustment_index st !! rc_adjustment_id command))
      then conflict ADJUSTMENT_ID_COLLISION
      else if negb (absent (st_observation_index st !! rc_observation_sha256 command))
      then conflict OBSERVATION_ALREADY_CONSUMED
      else
      let snapshot := st_snapshot st in
      if negb (rc_ledger_sequence command =? Portfolio.ledger_sequence snapshot)
         || negb (bool_decide (rc_local_snapshot_sha256 command = portfolio_snapshot_digest snapshot))
      then failed STALE_FRONTIER
      else
      let before_version := snapshot_version snapshot in
      if before_version =? MAX_UINT64 then failed STALE_FRONTIER
      else
      let* entry_id := EconomicId_init (l_run_id L) LEDGER_ENTRY (before_version + 1) in
      if negb (absent (st_entry_index st !! entry_id)) then conflict ADJUSTMENT_INDEX_INCONSISTENT
      else
      match rc_variant command with
      | BALANCE_CORRECTION =>
          match _derive_correction st authorization command entry_id before_version authorization_sha256 with
          | Raise (PortfolioLedgerError c) => failed (_correction_failure_kind c)
          | Raise e => Raise e
          | Ok derived => book_adjustment st command authorization_sha256 command_sha256 derived
          end
      | ANCESTRY_RESOLUTION =>
          match bool_decide (rc_target_kind command = OPEN_RECONCILIATION_REF),
                rc_open_reconciliation_ref command with
          | true, Some reference =>
              if negb (bool_decide (st_open_refs st !! open_fill_id reference = Some reference))
              then failed STALE_FRONTIER
              else
                let* derived := _derive_ancestry_resolution st authorization command reference entry_id
                                  before_version authorization_sha256 in
                book_adjustment st command authorization_sha256 command_sha256 derived
          | _, _ => failed INVALID_COMMAND
          end
      end
  end.

Definition apply_reconciliation_adjustment (st : LedgerState)
  (audited : AuditedReconciliationAdjustmentAuthorization) (command : ReconciliationAdjustmentCommand)
  : res ReconciliationAdjustmentOutcome * LedgerState :=
  commit st (adjustment_next st audited command).
End Adjustment.
