(* ===== verification/Canonical.v ===== *)
(** Canonical bytes determine the value.  A document function is [Document] when the
    documents of two values agree, up to the order of dictionary keys, only if the
    values are equal; since the encoder is injective up to that order
    ([Json.encode_json_inj]), the canonical bytes of such values then identify them.
    Instances are given for every document of facts, fills, postings, transactions
    and snapshots, one field at a time, by the tactic [document]. *)

From S2P Require Import Prelude PyRegex PyText Outcomes Json Identity Economics Commission.
From S2P Require Import Execution Messages Portfolio Reconciliation Integration.

Open Scope Z_scope.

(** ** Dictionaries with the same keys *)

Definition sorted_entry (kv : string * json) : string * json := (kv.1, sort_keys kv.2).

Lemma fst_sorted_entry kvs : map fst (map sorted_entry kvs) = map fst kvs.
Proof. rewrite map_map. by apply map_ext. Qed.

Lemma sort_keys_dict_perm a b : sort_keys (JDict a) = sort_keys (JDict b) ->
  map sorted_entry a ≡ₚ map sorted_entry b.
Proof.
  intros H. cbn [sort_keys] in H. injection H as H.
  etrans; [symmetry; apply (py_sorted_perm fst)|]. unfold sorted_entry. rewrite H. apply py_sorted_perm.
Qed.

Lemma keyed_lookup {A} (l k : list (string * A)) i x :
  NoDup (map fst l) -> map fst l = map fst k -> l ≡ₚ k -> l !! i = Some x -> k !! i = Some x.
Proof.
  change (map fst l) with (fst <$> l). change (map fst k) with (fst <$> k).
  intros Hn Hf Hp Hi.
  assert (x ∈ k) as [j Hj]%list_elem_of_lookup_1 by (rewrite <-Hp; by eapply list_elem_of_lookup_2).
  assert ((fst <$> l) !! i = Some x.1) as Hx by (by rewrite list_lookup_fmap, Hi).
  assert ((fst <$> l) !! j = Some x.1) as Hy by (by rewrite Hf, list_lookup_fmap, Hj).
  by rewrite (NoDup_lookup _ _ _ _ Hn Hx Hy).
Qed.

Lemma keyed_perm_eq {A} (l k : list (string * A)) :
  NoDup (map fst l) -> map fst l = map fst k -> l ≡ₚ k -> l = k.
Proof.
  intros Hn Hf Hp. apply list_eq. intros i. apply option_eq. intros x.
  split; [by apply keyed_lookup|]. apply keyed_lookup; [by rewrite <-Hf|done|done].
Qed.

(** Two dictionaries written with the same distinct keys agree entry by entry. *)
Lemma dict_inj a b : sort_keys (JDict a) = sort_keys (JDict b) ->
  map fst a = map fst b -> no_duplicates (map fst a) = true -> map sorted_entry a = map sorted_entry b.
Proof.
  intros H Hk Hn. apply keyed_perm_eq; [|by rewrite !fst_sorted_entry|by apply sort_keys_dict_perm].
  rewrite fst_sorted_entry. by apply bool_decide_eq_true in Hn.
Qed.

(** A key of one is a key of the other. *)
Lemma dict_keys a b x : sort_keys (JDict a) = sort_keys (JDict b) ->
  existsb (String.eqb x) (map fst a) = existsb (String.eqb x) (map fst b).
Proof.
  intros H%sort_keys_dict_perm. assert (map fst a ≡ₚ map fst b) as Hp.
  { rewrite <-(fst_sorted_entry a), <-(fst_sorted_entry b). by apply Permutation_map. }
  apply eq_true_iff_eq. rewrite !existsb_exists. by setoid_rewrite Hp.
Qed.

(** ** The interface of a document function *)

Class Document {A} (f : A -> json) : Prop := {
  document_inj a b : sort_keys (f a) = sort_keys (f b) -> a = b;
  document_present a : sort_keys (f a) <> JNull
}.

Lemma optional_inj {A} (f : A -> json) `{!Document f} a b :
  sort_keys (optional_document f a) = sort_keys (optional_document f b) -> a = b.
Proof.
  destruct a as [a|], b as [b|]; cbn [optional_document]; intros H.
  - f_equal. by apply (document_inj (f := f)).
  - by apply document_present in H.
  - symmetry in H. by apply document_present in H.
  - done.
Qed.

Lemma list_document {A} (f : A -> json) `{!Document f} a b :
  sort_keys (JList (map f a)) = sort_keys (JList (map f b)) -> a = b.
Proof.
  cbn [sort_keys]. intros [= H]. revert b H.
  induction a as [|x a IH]; intros [|y b]; try done. cbn [map]. intros [= Hx Ha].
  f_equal; [by apply (document_inj (f := f))|by apply IH].
Qed.

(** The bytes of a document determine its value. *)
Lemma canonical_bytes_inj {A} (f : A -> json) `{!Document f} a b :
  encode_json (f a) = encode_json (f b) -> a = b.
Proof. intros H%encode_json_inj. by apply (document_inj (f := f)). Qed.

(** ** Fields *)

#[export] Instance text_inj : Inj (=) (=) text.
Proof. intros a b. apply decimal_eq. Qed.
#[export] Instance utc_text_instance : Inj (=) (=) utc_text := utc_text_inj.
#[export] Instance outcome_value_inj : Inj (=) (=) outcome_value.
Proof.
  intros a b H. apply (inj Some). by rewrite <-(OutcomeCode_of_value_value a), H, OutcomeCode_of_value_value.
Qed.
#[export] Instance owner_kind_value_inj : Inj (=) (=) owner_kind_value.
Proof. by intros [] []. Qed.
#[export] Instance side_value_inj : Inj (=) (=) side_value.
Proof. by intros [] []. Qed.
#[export] Instance fact_kind_value_inj : Inj (=) (=) fact_kind_value.
Proof. by intros [] []. Qed.
#[export] Instance account_value_inj : Inj (=) (=) account_value.
Proof. by intros [] []. Qed.
#[export] Instance variant_value_inj : Inj (=) (=) variant_value.
Proof. by intros [] []. Qed.
#[export] Instance target_value_inj : Inj (=) (=) target_value.
Proof. by intros [] []. Qed.
#[export] Instance fee_code_value_inj : Inj (=) (=) fee_code_value.
Proof. by intros [] []. Qed.

Lemma entry_inj (k : string) (v w : json) l r :
  sorted_entry (k, v) :: l = sorted_entry (k, w) :: r -> sort_keys v = sort_keys w /\ l = r.
Proof. by intros [= ? ?]. Qed.

Lemma string_field (s t : string) : sort_keys (JStr s) = sort_keys (JStr t) -> s = t.
Proof. by intros [= ?]. Qed.
Lemma int_field (m n : Z) : sort_keys (JInt m) = sort_keys (JInt n) -> m = n.
Proof. by intros [= ?]. Qed.
Lemma bool_field (a b : bool) : sort_keys (JBool a) = sort_keys (JBool b) -> a = b.
Proof. by intros [= ?]. Qed.

#[export] Instance text_document {r} : Document (fun s : PatternStr r => JStr (value s)).
Proof. split; [|done]. intros a b H%string_field. by apply pattern_str_eq. Qed.
#[export] Instance decimal_document : Document (fun d => JStr (text d)).
Proof. split; [|done]. intros a b H%string_field. by apply decimal_eq. Qed.

(** Read the equality of two field documents. *)
Ltac field H :=
  lazymatch type of H with
  | ?x = ?x => clear H
  | sort_keys (JStr _) = _ => apply string_field in H; first [apply (inj _) in H | discriminate H | idtac]
  | sort_keys (JInt _) = _ => apply int_field in H
  | sort_keys (JBool _) = _ => apply bool_field in H
  | sort_keys (JList (map ?f _)) = _ => apply (list_document f) in H
  | sort_keys (optional_document ?f _) = _ => apply (optional_inj f) in H
  | sort_keys (_optional_id_document _) = _ => apply (optional_inj _economic_id_document) in H
  | sort_keys (_optional_binding_document _) = _ => apply (optional_inj _binding_document) in H
  | sort_keys (optional_decimal_document _) = _ => apply (optional_inj (fun d => JStr (text d))) in H
  | sort_keys (optional_text_document _) = _ => apply (optional_inj (fun s => JStr (value s))) in H
  | sort_keys (JDict _) = _ => entries H
  | sort_keys (?f _) = _ => apply (document_inj (f := f)) in H
  end
(** The entries of two dictionaries with the same keys, one equality per field. *)
with entries H :=
  apply dict_inj in H; [|reflexivity|vm_compute; reflexivity];
  cbn [map app] in H;
  repeat match type of H with
         | _ :: _ = _ :: _ => let E := fresh "E" in apply entry_inj in H as [E H]; field E
         end;
  try clear H.

(** A record whose document lists its fields. *)
Ltac document f :=
  split; [intros a b H; unfold f in H; entries H; destruct a, b; simpl in *; by subst | done].

#[export] Instance economic_id_document : Document _economic_id_document.
Proof. document _economic_id_document. Qed.
#[export] Instance instrument_document : Document _instrument_document.
Proof. document _instrument_document. Qed.
#[export] Instance provenance_document : Document _provenance_document.
Proof. document _provenance_document. Qed.
#[export] Instance dedup_document : Document _dedup_document.
Proof.
  split; [|by intros []]. intros [v|n] [w|m] H; unfold _dedup_document in H; entries H; by subst.
Qed.
#[export] Instance fact_key_document : Document _fact_key_document.
Proof. document _fact_key_document. Qed.

(** ** Facts and fills *)

#[export] Instance fee_document : Document _fee_document.
Proof.
  split; [|done]. intros [c u m [b|]] [c' u' m' [b'|]] H; unfold _fee_document in H; cbn [fee_code
    fee_currency fee_amount commission_bps app] in H;
    [|by apply (dict_keys _ _ "commission") in H..|]; entries H; by subst.
Qed.
#[export] Instance payload_document : Document _fact_payload_document.
Proof.
  split; [|by intros []]. intros [c|t|c] [c'|t'|c'] H; unfold _fact_payload_document in H;
    try (by apply (dict_keys _ _ "fees") in H); entries H; subst; try done.
  destruct t, t'; simpl in *; by subst.
Qed.

Section Messages.
Context `{hash : Sha256}.

#[export] Instance fact_document : Document _fact_document.
Proof.
  split; [|done]. intros a b He. unfold _fact_document, fact_entries in He. cbn [app] in He. entries He.
  destruct a, b; simpl in *; by subst.
Qed.
#[export] Instance ingress_document : Document _ingress_document.
Proof.
  split; [|done]. intros a b He. unfold _ingress_document in He. entries He.
  destruct a, b; simpl in *; by subst.
Qed.
End Messages.

#[export] Instance fill_document : Document _fill_document.
Proof. document _fill_document. Qed.

(** ** The portfolio ledger *)

#[export] Instance commodity_document : Document _commodity_document.
Proof.
  split; [|by intros []]. intros [i|c] [j|d] H; unfold _commodity_document in H;
    try (by apply (dict_keys _ _ "currency") in H); entries H; by subst.
Qed.
#[export] Instance posting_document : Document _posting_document.
Proof. document _posting_document. Qed.
#[export] Instance binding_document : Document _binding_document.
Proof. document _binding_document. Qed.
#[export] Instance open_ref_document_inj : Document open_ref_document.
Proof. document open_ref_document. Qed.
#[export] Instance transaction_document : Document _transaction_document.
Proof. document _transaction_document. Qed.
#[export] Instance funding_transaction_document : Document _funding_transaction_document.
Proof. document _funding_transaction_document. Qed.
#[export] Instance cash_document_inj : Document cash_document.
Proof. document cash_document. Qed.
#[export] Instance position_document_inj : Document position_document.
Proof. document position_document. Qed.
#[export] Instance rounding_document_inj : Document rounding_document.
Proof. document rounding_document. Qed.
#[export] Instance unresolved_document_inj : Document unresolved_document.
Proof. document unresolved_document. Qed.
#[export] Instance snapshot_document : Document _snapshot_document.
Proof. document _snapshot_document. Qed.

Lemma bounded_payload_Ok s p : bounded_payload s = Ok p -> p = s.
Proof. unfold bounded_payload. intros H. res_inv H. by injection H. Qed.

(** The bytes of a reconciliation transaction leave out only the observation digest. *)
Lemma reconciliation_transaction_bytes_inj t u p :
  canonical_reconciliation_transaction_bytes t = Ok p ->
  canonical_reconciliation_transaction_bytes u = Ok p ->
  rt_observation_sha256 t = rt_observation_sha256 u -> t = u.
Proof.
  unfold canonical_reconciliation_transaction_bytes.
  intros ->%bounded_payload_Ok He%bounded_payload_Ok%encode_json_inj Ho.
  entries He. destruct t, u; simpl in *; by subst.
Qed.

#[export] Instance command_document_inj : Document command_document.
Proof. document command_document. Qed.

Lemma command_bytes_inj c d p :
  canonical_ledger_application_command_bytes c = Ok p ->
  canonical_ledger_application_command_bytes d = Ok p -> c = d.
Proof.
  unfold canonical_ledger_application_command_bytes. cbv zeta.
  destruct (_ <? _); [done|]. intros <-%Ok_inj. destruct (_ <? _); [done|].
  intros He%Ok_inj. symmetry. by apply (canonical_bytes_inj command_document).
Qed.
