(* ===== verification/MarketCodec.v ===== *)
(** The canonical bytes of a market record ([core/market_data_codec.py]) and what they
    determine: every field of the envelope, floats by their binary64 bits. *)

From Stdlib Require Import SpecFloat.
From S2P Require Import Prelude PyRegex PyText Outcomes Json Identity Chronology MarketData.
From S2P Require Import Economics Execution Messages Canonical.

Open Scope Z_scope.

(** ** [struct.pack(">d", value).hex()] *)

Definition sign_bit (negative : bool) : Z := if negative then 2 ^ 63 else 0.
(** The 64 bits of a binary64 number; a NaN packs as the default quiet one. *)
Definition binary64_bits (x : spec_float) : Z :=
  match x with
  | S754_zero s => sign_bit s
  | S754_infinity s => sign_bit s + 2047 * 2 ^ 52
  | S754_nan => 2047 * 2 ^ 52 + 2 ^ 51
  | S754_finite s m e =>
      if Z.pos m <? 2 ^ 52 then sign_bit s + Z.pos m
      else sign_bit s + (e + 1075) * 2 ^ 52 + (Z.pos m - 2 ^ 52)
  end.
Definition hexlify (b : str) : str := flat_map (fun c => [hex_digit (code c / 16); hex_digit (code c mod 16)]) b.
Definition _float_bits (x : float64) : string := text_of (hexlify (to_bytes_big 8 (binary64_bits (float_value x)))).

(** ** The record; its strings are ASCII, so [ensure_ascii] does not matter *)

Definition market_record (e : MarketDataEnvelope) : json :=
  let b := payload e in
  JDict
    [("adjustment", JStr (adjustment_value (adjustment b)));
     ("available_at", JStr (utc_text (available_at e)));
     ("close_bits", JStr (_float_bits (bar_close b)));
     ("high_bits", JStr (_float_bits (bar_high b)));
     ("interval_end", JStr (utc_text (interval_end b)));
     ("interval_start", JStr (utc_text (interval_start b)));
     ("kind", JStr (market_data_kind_value (bar_kind b)));
     ("low_bits", JStr (_float_bits (bar_low b)));
     ("open_bits", JStr (_float_bits (bar_open b)));
     ("revision", JInt (revision e));
     ("source", JStr (value (source e)));
     ("source_sequence", JInt (source_sequence e));
     ("symbol", JStr (value (symbol (bar_instrument b))));
     ("venue", JStr (value (venue (bar_instrument b))));
     ("volume_bits", JStr (_float_bits (bar_volume b)))]%string.
Definition canonical_market_data_record_bytes (e : MarketDataEnvelope) : str := encode_json (market_record e).

(** ** The bits determine the number *)

Lemma code_of_mod n : 0 <= n < 256 -> code (ascii_of_N (Z.to_N n)) = n.
Proof. intros H. unfold code. rewrite N_ascii_embedding by lia. lia. Qed.

Lemma to_bytes_big_inj w m n : 0 <= m < 256 ^ Z.of_nat w -> 0 <= n < 256 ^ Z.of_nat w ->
  to_bytes_big w m = to_bytes_big w n -> m = n.
Proof.
  revert m n; induction w as [|w IH]; intros m n Hm Hn H; [cbn in Hm, Hn; lia|].
  cbn [to_bytes_big] in H. apply app_inj_2 in H as [H Hc]; [|done]. injection Hc as Hc.
  rewrite Nat2Z.inj_succ, Z.pow_succ_r in Hm, Hn by lia.
  apply IH in H; [|split; [apply Z.div_pos; lia|apply Z.div_lt_upper_bound; lia]..].
  pose proof (Z.mod_pos_bound m 256 ltac:(lia)). pose proof (Z.mod_pos_bound n 256 ltac:(lia)).
  apply (f_equal code) in Hc. rewrite !code_of_mod in Hc by lia.
  rewrite (Z.div_mod m 256), (Z.div_mod n 256) by lia. by rewrite H, Hc.
Qed.

Lemma hex_pair_inj c d : hex_digit (code c / 16) = hex_digit (code d / 16) ->
  hex_digit (code c mod 16) = hex_digit (code d mod 16) -> c = d.
Proof.
  assert (forall x, 16 * unhex (hex_digit (code x / 16)) + unhex (hex_digit (code x mod 16)) = code x) as Hx.
  { intros x. by destruct x as [[] [] [] [] [] [] [] []]. }
  intros Hh Hl. apply code_inj. rewrite <-(Hx c), <-(Hx d). by rewrite Hh, Hl.
Qed.

Lemma hexlify_inj a b : hexlify a = hexlify b -> a = b.
Proof.
  revert b; induction a as [|c a IH]; intros [|d b]; try done. cbn [hexlify flat_map app]. intros [= Hh Hl H].
  f_equal; [by apply hex_pair_inj|by apply IH].
Qed.

(** What [valid_binary] says of a finite number. *)
Lemma finite_range s m e : valid_binary 53 1024 (S754_finite s m e) = true ->
  -1074 <= e <= 971 /\ Z.pos m < 2 ^ 53 /\ (Z.pos m < 2 ^ 52 -> e = -1074).
Proof.
  cbn [valid_binary]. unfold bounded, canonical_mantissa, fexp, emin. intros [Hm He]%andb_true_iff.
  apply Z.eqb_eq in Hm. apply Z.leb_le in He.
  assert (forall p, Z.pos (digits2_pos p) = Z.log2 (Z.pos p) + 1) as Hd.
  { induction p as [p IH|p IH|]; cbn [digits2_pos]; [rewrite Pos2Z.inj_succ, IH|rewrite Pos2Z.inj_succ, IH|done].
    - change (Z.pos p~1) with (2 * Z.pos p + 1). rewrite Z.log2_succ_double by lia. lia.
    - change (Z.pos p~0) with (2 * Z.pos p). rewrite Z.log2_double by lia. lia. }
  rewrite Hd in Hm. destruct (Z.log2_spec (Z.pos m) ltac:(lia)) as [Hlo Hhi].
  assert (Z.log2 (Z.pos m) <= 52) as Hl by lia. split_and!; [lia|lia| |].
  - eapply Z.lt_le_trans; [exact Hhi|]. apply Z.pow_le_mono_r; lia.
  - intros Hs. assert (Z.log2 (Z.pos m) < 52) as Hl2; [|lia]. apply Z.log2_lt_pow2; lia.
Qed.

(** The bits below the sign. *)
Definition magnitude (x : spec_float) : Z :=
  match x with
  | S754_zero _ => 0
  | S754_infinity _ => 2047 * 2 ^ 52
  | S754_nan => 2047 * 2 ^ 52 + 2 ^ 51
  | S754_finite _ m e => if Z.pos m <? 2 ^ 52 then Z.pos m else (e + 1075) * 2 ^ 52 + (Z.pos m - 2 ^ 52)
  end.
Definition negative (x : spec_float) : bool :=
  match x with S754_zero s | S754_infinity s | S754_finite s _ _ => s | S754_nan => false end.

Lemma bits_split x : binary64_bits x = sign_bit (negative x) + magnitude x.
Proof. destruct x as [s|s| |s m e]; cbn [binary64_bits negative magnitude sign_bit]; try lia. case_match; lia. Qed.

Lemma finite_magnitude s m e : valid_binary 53 1024 (S754_finite s m e) = true ->
  0 < magnitude (S754_finite s m e) < 2047 * 2 ^ 52.
Proof.
  intros (He & Hm & Hs)%finite_range. cbn [magnitude]. destruct (Z.ltb_spec (Z.pos m) (2 ^ 52)); [lia|].
  assert (1 * 2 ^ 52 <= (e + 1075) * 2 ^ 52 <= 2046 * 2 ^ 52) by (split; apply Z.mul_le_mono_nonneg_r; lia). lia.
Qed.

Lemma finite_magnitude_inj s t m n e f : valid_binary 53 1024 (S754_finite s m e) = true ->
  valid_binary 53 1024 (S754_finite t n f) = true ->
  magnitude (S754_finite s m e) = magnitude (S754_finite t n f) -> m = n /\ e = f.
Proof.
  intros (He & Hm & Hs)%finite_range (Hf & Hn & Ht)%finite_range. cbn [magnitude].
  destruct (Z.ltb_spec (Z.pos m) (2 ^ 52)) as [Hlm|Hlm], (Z.ltb_spec (Z.pos n) (2 ^ 52)) as [Hln|Hln]; intros H.
  - injection H as ->. specialize (Hs Hlm). specialize (Ht Hln). split; [done|lia].
  - assert (1 * 2 ^ 52 <= (f + 1075) * 2 ^ 52) by (apply Z.mul_le_mono_nonneg_r; lia). lia.
  - assert (1 * 2 ^ 52 <= (e + 1075) * 2 ^ 52) by (apply Z.mul_le_mono_nonneg_r; lia). lia.
  - destruct (Z.div_mod_unique (2 ^ 52) (e + 1075) (f + 1075) (Z.pos m - 2 ^ 52) (Z.pos n - 2 ^ 52)) as [Hq Hr];
      [left; lia|left; lia|lia|]. split; lia.
Qed.

Lemma magnitude_range x : valid_binary 53 1024 x = true -> 0 <= magnitude x < 2 ^ 63.
Proof.
  destruct x as [s|s| |s m e]; intros H; [cbn; lia..|].
  apply finite_magnitude in H. assert (2047 * 2 ^ 52 < 2 ^ 63) by (vm_compute; reflexivity). lia.
Qed.

Lemma binary64_bits_inj x y : valid_binary 53 1024 x = true -> valid_binary 53 1024 y = true ->
  binary64_bits x = binary64_bits y -> x = y.
Proof.
  intros Hx Hy. rewrite !bits_split.
  pose proof (magnitude_range x Hx) as Bx. pose proof (magnitude_range y Hy) as By. intros H.
  assert (negative x = negative y /\ magnitude x = magnitude y) as [Hs Hm].
  { destruct (negative x), (negative y); cbn [sign_bit] in H; (split; [done|lia]) || lia. }
  destruct x as [s|s| |s m e], y as [t|t| |t n f]; cbn [negative] in Hs; subst; try done.
  all: try (destruct (finite_magnitude_inj _ _ _ _ _ _ Hx Hy Hm) as [-> ->]; reflexivity).
  all: try (apply finite_magnitude in Hx); try (apply finite_magnitude in Hy); cbn [magnitude] in Hm, Hx, Hy.
  all: exfalso; lia.
Qed.

Lemma binary64_bits_range x : valid_binary 53 1024 x = true -> 0 <= binary64_bits x < 2 ^ 64.
Proof.
  intros H%magnitude_range. rewrite bits_split. change (2 ^ 64) with (2 ^ 63 + 2 ^ 63).
  destruct (negative x); cbn [sign_bit]; lia.
Qed.

#[export] Instance float_bits_inj : Inj (=) (=) _float_bits.
Proof.
  intros [x Hx] [y Hy] H. unfold _float_bits in H. cbn [float_value] in H.
  apply (inj text_of), hexlify_inj, to_bytes_big_inj in H; [|by apply binary64_bits_range..].
  apply binary64_bits_inj in H; [|done..]. subst y. f_equal. apply eq_pi, _.
Qed.

#[export] Instance market_record_document : Document market_record.
Proof.
  split; [|done]. intros [a sa ta na ra] [b sb tb nb rb] H. unfold market_record in H.
  cbn [payload source available_at source_sequence revision] in H. entries H.
  destruct a as [[va ya] ? ? [] ? ? ? ? ?], b as [[vb yb] ? ? [] ? ? ? ? ?]. simpl in *.
  repeat match goal with Hv : value _ = value _ |- _ => apply pattern_str_eq in Hv end. by subst.
Qed.

(** Market records with the same bytes are the same record. *)
Lemma market_bytes_inj a b : canonical_market_data_record_bytes a = canonical_market_data_record_bytes b -> a = b.
Proof. apply (canonical_bytes_inj market_record). Qed.
