(* ===== verification/Strategy.v ===== *)
(** Strategy signals and the evidence of an authority ([core/strategy.py]): the signal, the
    evidence of a conflict and the public state of the signal authority, their checks,
    canonical documents and digests; and the proof of an active dispatch
    ([core/runtime.py]) a signal is issued on. *)

From S2P Require Import Prelude PyRegex PyText Outcomes Json Identity Chronology MarketData Economics Execution.
From S2P Require Import Messages MarketCodec Runtime.

Open Scope Z_scope.

Definition _STRATEGY_ERROR_CODES : list OutcomeCode := [INVALID_TYPE; OUT_OF_RANGE; CONFLICTING_ID].
(** [_fail]: [StrategyContractError.__init__] refuses other codes. *)
Definition raise_strategy (c : OutcomeCode) : exn :=
  if permitted _STRATEGY_ERROR_CODES c then StrategyContractError c else TypeError.

Inductive SignalDirection : Type := LONG | FLAT | SHORT.
Definition direction_value (d : SignalDirection) : string :=
  match d with LONG => "long" | FLAT => "flat" | SHORT => "short" end.
Inductive AuthorityKind : Type := KIND_STRATEGY_SIGNAL | KIND_PORTFOLIO_PLANNING.
Definition authority_kind_value (k : AuthorityKind) : string :=
  match k with KIND_STRATEGY_SIGNAL => "strategy_signal" | KIND_PORTFOLIO_PLANNING => "portfolio_planning" end.
Inductive AuthorityConflictKind : Type := IDENTITY_REUSE | NON_MONOTONE_DISPATCH.
Definition conflict_kind_value (k : AuthorityConflictKind) : string :=
  match k with IDENTITY_REUSE => "identity_reuse" | NON_MONOTONE_DISPATCH => "non_monotone_dispatch" end.

#[export] Instance SignalDirection_eq_dec : EqDecision SignalDirection.
Proof. solve_decision. Defined.
#[export] Instance AuthorityKind_eq_dec : EqDecision AuthorityKind.
Proof. solve_decision. Defined.
#[export] Instance AuthorityConflictKind_eq_dec : EqDecision AuthorityConflictKind.
Proof. solve_decision. Defined.

(** ** Values *)

Record StrategySignal : Type := mkSignal {
  sg_run_id : RunId;
  sg_signal_id : EconomicId;
  sg_instrument : Instrument;
  sg_direction : SignalDirection;
  sg_causal_market_sha256 : Sha256Digest;
  sg_causal_root_available_at : datetime;
  sg_dispatch_sequence : Z
}.

Record AuthorityConflictEvidence : Type := mkConflict {
  cf_authority_kind : AuthorityKind;
  cf_conflict_kind : AuthorityConflictKind;
  cf_run_id : RunId;
  cf_occupied_owner_id : option EconomicId;
  cf_dispatch_sequence : Z;
  cf_last_new_dispatch_sequence : option Z;
  cf_existing_sha256 : option Sha256Digest;
  cf_submitted_sha256 : Sha256Digest
}.

Record StrategySignalAuthorityState : Type := mkSignalState {
  ss_run_id : RunId;
  ss_halted : bool;
  signal_next : option Z;
  last_new_dispatch_sequence : option Z;
  issuance_count : Z;
  ss_conflict : option AuthorityConflictEvidence
}.
#[export] Instance StrategySignal_eq_dec : EqDecision StrategySignal.
Proof. solve_decision. Defined.
#[export] Instance AuthorityConflictEvidence_eq_dec : EqDecision AuthorityConflictEvidence.
Proof. solve_decision. Defined.
#[export] Instance StrategySignalAuthorityState_eq_dec : EqDecision StrategySignalAuthorityState.
Proof. solve_decision. Defined.

(** ** Checks *)

Definition _require_positive_uint64 (n : Z) : res Z :=
  raise_if (n <? 1) || (MAX_UINT64 <? n) with raise_strategy OUT_OF_RANGE ;; Ok n.
Definition _require_optional_positive_uint64 (n : option Z) : res (option Z) :=
  match n with
  | None => Ok None
  | Some n => let* n := _require_positive_uint64 n in Ok (Some n)
  end.
Definition _require_non_negative_uint64 (n : Z) : res Z :=
  raise_if (n <? 0) || (MAX_UINT64 <? n) with raise_strategy OUT_OF_RANGE ;; Ok n.

(** [_validate_economic_id] with an expected owner and run. *)
Definition _validate_economic_id (i : EconomicId) (owner : EconomicOwnerKind) (run : RunId) : res unit :=
  let* _ := _require_positive_uint64 (owner_sequence i) in
  raise_if negb (bool_decide (owner_kind i = owner)) with raise_strategy CONFLICTING_ID ;;
  raise_if negb (bool_decide (id_run_id i = run)) with raise_strategy CONFLICTING_ID ;;
  Ok tt.

Definition _validate_signal (s : StrategySignal) : res unit :=
  let* _ := _validate_economic_id (sg_signal_id s) STRATEGY_SIGNAL (sg_run_id s) in
  let* _ := _require_positive_uint64 (sg_dispatch_sequence s) in
  Ok tt.

Definition _validate_conflict (c : AuthorityConflictEvidence) : res unit :=
  let* _ := _require_positive_uint64 (cf_dispatch_sequence c) in
  let* _ := _require_optional_positive_uint64 (cf_last_new_dispatch_sequence c) in
  let* _ := match cf_occupied_owner_id c with
            | None => Ok tt
            | Some i => _validate_economic_id i STRATEGY_SIGNAL (cf_run_id c)
            end in
  let occupied := negb (absent (cf_occupied_owner_id c)) in
  let existing := negb (absent (cf_existing_sha256 c)) in
  raise_if negb (bool_decide (occupied = existing)) with raise_strategy CONFLICTING_ID ;;
  match cf_conflict_kind c with
  | IDENTITY_REUSE => raise_if negb occupied with raise_strategy CONFLICTING_ID ;; Ok tt
  | NON_MONOTONE_DISPATCH => raise_if occupied with raise_strategy CONFLICTING_ID ;; Ok tt
  end.

(** ** Documents *)

Definition _signal_document (s : StrategySignal) : json :=
  JDict
    [("canonicalization", JStr "ea-canonical-json-v1");
     ("causal_market_sha256", JStr (value (sg_causal_market_sha256 s)));
     ("causal_root_available_at", JStr (utc_text (sg_causal_root_available_at s)));
     ("direction", JStr (direction_value (sg_direction s)));
     ("dispatch_sequence", JInt (sg_dispatch_sequence s));
     ("instrument", _instrument_document (sg_instrument s));
     ("run_id", JStr (value (sg_run_id s)));
     ("schema", JStr "ea.phase1-strategy-signal.v1");
     ("signal_id", _economic_id_document (sg_signal_id s))]%string.

Definition _conflict_document (c : AuthorityConflictEvidence) : json :=
  JDict
    [("authority_kind", JStr (authority_kind_value (cf_authority_kind c)));
     ("canonicalization", JStr "ea-canonical-json-v1");
     ("conflict_kind", JStr (conflict_kind_value (cf_conflict_kind c)));
     ("dispatch_sequence", JInt (cf_dispatch_sequence c));
     ("existing_sha256", optional_text_document (cf_existing_sha256 c));
     ("last_new_dispatch_sequence", optional_document JInt (cf_last_new_dispatch_sequence c));
     ("occupied_owner_id", _optional_id_document (cf_occupied_owner_id c));
     ("run_id", JStr (value (cf_run_id c)));
     ("schema", JStr "ea.phase1-authority-conflict.v1");
     ("submitted_sha256", JStr (value (cf_submitted_sha256 c)))]%string.

Definition _strategy_signal_authority_state_document (s : StrategySignalAuthorityState) : json :=
  JDict
    [("canonicalization", JStr "ea-canonical-json-v1");
     ("conflict", optional_document _conflict_document (ss_conflict s));
     ("halted", JBool (ss_halted s));
     ("issuance_count", JInt (issuance_count s));
     ("last_new_dispatch_sequence", optional_document JInt (last_new_dispatch_sequence s));
     ("run_id", JStr (value (ss_run_id s)));
     ("schema", JStr "ea.phase1-strategy-signal-authority-state.v1");
     ("signal_next", optional_document JInt (signal_next s))]%string.

(** The checks a document function makes before it lists the fields of a state. *)
Definition check_signal_state (s : StrategySignalAuthorityState) : res unit :=
  let* _ := _require_optional_positive_uint64 (signal_next s) in
  let* _ := _require_optional_positive_uint64 (last_new_dispatch_sequence s) in
  let* _ := _require_non_negative_uint64 (issuance_count s) in
  let* _ := match ss_conflict s with
            | None => Ok tt
            | Some c =>
                let* _ := _validate_conflict c in
                raise_if negb (bool_decide (cf_authority_kind c = KIND_STRATEGY_SIGNAL))
                      || negb (bool_decide (cf_run_id c = ss_run_id s)) with raise_strategy CONFLICTING_ID ;;
                Ok tt
            end in
  raise_if bool_decide (ss_halted s = absent (ss_conflict s)) with raise_strategy CONFLICTING_ID ;;
  Ok tt.

(** ** Canonical bytes *)

Definition canonical_strategy_signal_bytes (s : StrategySignal) : res str :=
  let* _ := _validate_signal s in Ok (encode_json (_signal_document s)).
Definition canonical_authority_conflict_evidence_bytes (c : AuthorityConflictEvidence) : res str :=
  let* _ := _validate_conflict c in Ok (encode_json (_conflict_document c)).
Definition canonical_strategy_signal_authority_state_bytes (s : StrategySignalAuthorityState) : res str :=
  let* _ := check_signal_state s in Ok (encode_json (_strategy_signal_authority_state_document s)).

Section Strategy.
Context `{hash : Sha256}.

(** ** Digests *)

Definition _causal_market_digest_from_canonical_bytes (payload : str) : Sha256Digest :=
  _digest (domain "ea.phase1-strategy-causal-market.v1") (to_bytes_big 8 (Z.of_nat (length payload)) ++ payload).
Definition causal_market_digest (root : MarketDataEnvelope) : Sha256Digest :=
  _causal_market_digest_from_canonical_bytes (canonical_market_data_record_bytes root).

Definition strategy_signal_submission_digest (root : MarketDataEnvelope) (dispatch_sequence : Z)
  (direction : SignalDirection) : res Sha256Digest :=
  let* sequence := _require_positive_uint64 dispatch_sequence in
  let market_bytes := canonical_market_data_record_bytes root in
  let direction_bytes := chars (direction_value direction) in
  Ok (_digest (domain "ea.phase1-strategy-signal-submission.v1")
        (to_bytes_big 8 (Z.of_nat (length market_bytes)) ++ market_bytes ++ to_bytes_big 8 sequence
         ++ to_bytes_big 8 (Z.of_nat (length direction_bytes)) ++ direction_bytes)).

Definition strategy_signal_digest (s : StrategySignal) : res Sha256Digest :=
  let* bytes := canonical_strategy_signal_bytes s in
  Ok (_digest (domain "ea.phase1-strategy-signal.v1") bytes).
Definition authority_conflict_evidence_digest (c : AuthorityConflictEvidence) : res Sha256Digest :=
  let* bytes := canonical_authority_conflict_evidence_bytes c in
  Ok (_digest (domain "ea.phase1-authority-conflict.v1") bytes).
Definition strategy_signal_authority_state_digest (s : StrategySignalAuthorityState) : res Sha256Digest :=
  let* bytes := canonical_strategy_signal_authority_state_bytes s in
  Ok (_digest (domain "ea.phase1-strategy-signal-authority-state.v1") bytes).

(** ** Factories: the value, once its canonical bytes exist *)

Definition _create_strategy_signal (run_id : RunId) (signal_id : EconomicId) (root : MarketDataEnvelope)
  (direction : SignalDirection) (market_sha256 : Sha256Digest) (dispatch_sequence : Z) : res StrategySignal :=
  raise_if negb (bool_decide (market_data_kind_value (event_kind root) = market_data_kind_value BAR))
    with raise_strategy INVALID_TYPE ;;
  let s := mkSignal run_id signal_id (bar_instrument (payload root)) direction market_sha256
             (available_at root) dispatch_sequence in
  let* _ := canonical_strategy_signal_bytes s in
  Ok s.

Definition _create_authority_conflict_evidence (kind : AuthorityKind) (conflict : AuthorityConflictKind)
  (run_id : RunId) (occupied : option EconomicId) (dispatch_sequence : Z) (last : option Z)
  (existing : option Sha256Digest) (submitted : Sha256Digest) : res AuthorityConflictEvidence :=
  let c := mkConflict kind conflict run_id occupied dispatch_sequence last existing submitted in
  let* _ := canonical_authority_conflict_evidence_bytes c in
  Ok c.

Definition _create_strategy_signal_authority_state (run_id : RunId) (halted : bool) (next last : option Z)
  (count : Z) (conflict : option AuthorityConflictEvidence) : res StrategySignalAuthorityState :=
  let s := mkSignalState run_id halted next last count conflict in
  let* _ := canonical_strategy_signal_authority_state_bytes s in
  Ok s.
End Strategy.

(** ** Proofs of an active market dispatch ([core/runtime.py]) *)

(** The issuer is compared by object identity: here, the name of the object. *)
Record ActiveMarketDispatchProof : Type := mkMarketProof {
  mp_run_id : RunId;
  mp_market_root : MarketDataEnvelope;
  mp_canonical_market_bytes : str;
  mp_causal_market_sha256 : Sha256Digest;
  mp_dispatch_sequence : Z;
  mp_issuer : positive
}.

Definition _create_active_market_dispatch_proof (run_id : RunId) (root : MarketDataEnvelope) (bytes : str)
  (sha256 : Sha256Digest) (dispatch_sequence : Z) (issuer : positive) : res ActiveMarketDispatchProof :=
  raise_if (dispatch_sequence <? 1) || (MAX_UINT64 <? dispatch_sequence) with raise_runtime INVALID_TYPE ;;
  Ok (mkMarketProof run_id root bytes sha256 dispatch_sequence issuer).

Definition _require_active_market_dispatch_proof (proof : ActiveMarketDispatchProof) (run_id : RunId)
  (root : MarketDataEnvelope) (bytes : str) (sha256 : Sha256Digest) (dispatch_sequence : Z) (issuer : positive)
  : res ActiveMarketDispatchProof :=
  raise_if negb (bool_decide (mp_issuer proof = issuer) && bool_decide (mp_run_id proof = run_id)
                 && bool_decide (mp_market_root proof = root) && bool_decide (mp_canonical_market_bytes proof = bytes)
                 && bool_decide (mp_causal_market_sha256 proof = sha256)
                 && (1 <=? mp_dispatch_sequence proof) && (mp_dispatch_sequence proof <=? MAX_UINT64)
                 && (mp_dispatch_sequence proof =? dispatch_sequence)) with raise_runtime CONFLICTING_ID ;;
  Ok proof.
