(* ===== verification/Streaming.v ===== *)
(** The live market ingress ([runtime/streaming.py]): one market source, issued facts, one
    dispatch at a time.

    The clocks are arguments of every operation that samples them.  A market event is an
    object: [verify_active_market_dispatch] compares it by identity, so the event travels
    with the name of its object, and the runtime with its own.  [poll] runs its callback
    inside the dispatch; the callback may call back into the runtime, so a poll is its
    beginning, the calls the callback makes, and its end, by return or by exception. *)

From Stdlib Require Import SpecFloat.
From S2P Require Import Prelude PyRegex PyText Outcomes Json Identity Chronology MarketData Economics Execution Messages.
From S2P Require Import FactAuthority MarketCodec Observation Runtime Queue Strategy.

Open Scope Z_scope.

Inductive StreamPhase : Type := RUNNING | DRAINING | CLOSED.
Inductive StreamStopReason : Type :=
| STOP_REQUESTED | SOURCE_EXHAUSTED | SOURCE_STALLED | STALE_MARKET | CALLBACK_ERROR | SOURCE_ERROR.
#[export] Instance StreamPhase_eq_dec : EqDecision StreamPhase.
Proof. solve_decision. Defined.
#[export] Instance StreamStopReason_eq_dec : EqDecision StreamStopReason.
Proof. solve_decision. Defined.

Record StreamStatus : Type := mkStreamStatus {
  status_phase : StreamPhase;
  status_reason : option StreamStopReason;
  status_dispatch_sequence : Z;
  status_market_dispatches : Z;
  status_fact_dispatches : Z;
  status_pending_facts : Z;
  status_pending_market : bool;
  status_heartbeat_count : Z;
  status_failed_dispatch_kind : option string
}.

#[export] Instance TradeFactPayload_eq_dec : EqDecision TradeFactPayload.
Proof. solve_decision. Defined.
#[export] Instance ExecutionFactPayload_eq_dec : EqDecision ExecutionFactPayload.
Proof. solve_decision. Defined.
#[export] Instance ExecutionFact_eq_dec : EqDecision ExecutionFact.
Proof. solve_decision. Defined.
#[export] Instance ExecutionFactIngress_eq_dec : EqDecision ExecutionFactIngress.
Proof. solve_decision. Defined.

(** A market event, with the name of its object. *)
Record market_object : Type := mkMarketObject { object_name : positive; envelope : MarketDataEnvelope }.
(** [clock.now()] and [monotonic()]. *)
Record clocks : Type := mkClocks { clock_now : datetime * option Z; monotonic : float64 }.

(** The bindings. *)
Record StreamingMarketRuntime : Type := mkRuntime {
  st_run_id : RunId;
  st_spec_set : InstrumentExecutionSpecSet;
  st_source_id : SourceId;
  _max_age : float64;
  _stall_timeout : float64;
  _fact_source : option ExecutionFactIssuanceVerifier;
  _max_pending_facts : Z;
  st_object : positive
}.
Record stream_state : Type := mkStream {
  _phase : StreamPhase;
  _reason : option StreamStopReason;
  _pending_market : option market_object;
  _pending_facts : list ExecutionFactIngress;
  _last_market : option MarketDataEnvelope;
  _last_dispatch_key : option RuntimeRootOrderKey;
  _active_market : option (market_object * str * Z);
  _active_fact : option (IngressIdentity * str * str * Z);
  _dispatching : bool;
  _dispatch_sequence : Z;
  _market_dispatches : Z;
  _fact_dispatches : Z;
  _heartbeat_count : Z;
  _failed_dispatch_kind : option string;
  _last_utc : datetime;
  _last_mono : float64;
  _last_market_mono : float64
}.

(** ** Field updates *)

Definition with_stop (st : stream_state) (phase : StreamPhase) (reason : StreamStopReason) (kind : option string) : stream_state :=
  {| _phase := phase;
     _reason := Some reason;
     _pending_market := None;
     _pending_facts := _pending_facts st;
     _last_market := _last_market st;
     _last_dispatch_key := _last_dispatch_key st;
     _active_market := _active_market st;
     _active_fact := _active_fact st;
     _dispatching := _dispatching st;
     _dispatch_sequence := _dispatch_sequence st;
     _market_dispatches := _market_dispatches st;
     _fact_dispatches := _fact_dispatches st;
     _heartbeat_count := _heartbeat_count st;
     _failed_dispatch_kind := kind;
     _last_utc := _last_utc st;
     _last_mono := _last_mono st;
     _last_market_mono := _last_market_mono st |}.
Definition with_phase (st : stream_state) (phase : StreamPhase) : stream_state :=
  {| _phase := phase;
     _reason := _reason st;
     _pending_market := _pending_market st;
     _pending_facts := _pending_facts st;
     _last_market := _last_market st;
     _last_dispatch_key := _last_dispatch_key st;
     _active_market := _active_market st;
     _active_fact := _active_fact st;
     _dispatching := _dispatching st;
     _dispatch_sequence := _dispatch_sequence st;
     _market_dispatches := _market_dispatches st;
     _fact_dispatches := _fact_dispatches st;
     _heartbeat_count := _heartbeat_count st;
     _failed_dispatch_kind := _failed_dispatch_kind st;
     _last_utc := _last_utc st;
     _last_mono := _last_mono st;
     _last_market_mono := _last_market_mono st |}.
Definition with_input (st : stream_state) (market : option market_object) (last : option MarketDataEnvelope)
  (facts : list ExecutionFactIngress) : stream_state :=
  {| _phase := _phase st;
     _reason := _reason st;
     _pending_market := market;
     _pending_facts := facts;
     _last_market := last;
     _last_dispatch_key := _last_dispatch_key st;
     _active_market := _active_market st;
     _active_fact := _active_fact st;
     _dispatching := _dispatching st;
     _dispatch_sequence := _dispatch_sequence st;
     _market_dispatches := _market_dispatches st;
     _fact_dispatches := _fact_dispatches st;
     _heartbeat_count := _heartbeat_count st;
     _failed_dispatch_kind := _failed_dispatch_kind st;
     _last_utc := _last_utc st;
     _last_mono := _last_mono st;
     _last_market_mono := _last_market_mono st |}.
Definition with_clocks (st : stream_state) (utc : datetime) (mono : float64) (heartbeats : Z) : stream_state :=
  {| _phase := _phase st;
     _reason := _reason st;
     _pending_market := _pending_market st;
     _pending_facts := _pending_facts st;
     _last_market := _last_market st;
     _last_dispatch_key := _last_dispatch_key st;
     _active_market := _active_market st;
     _active_fact := _active_fact st;
     _dispatching := _dispatching st;
     _dispatch_sequence := _dispatch_sequence st;
     _market_dispatches := _market_dispatches st;
     _fact_dispatches := _fact_dispatches st;
     _heartbeat_count := heartbeats;
     _failed_dispatch_kind := _failed_dispatch_kind st;
     _last_utc := utc;
     _last_mono := mono;
     _last_market_mono := _last_market_mono st |}.
(** What a dispatch changes: the key and number it is known by, what is live, the counters. *)
Definition with_dispatch (st : stream_state) (key : option RuntimeRootOrderKey) (market : option (market_object * str * Z))
  (fact : option (IngressIdentity * str * str * Z)) (dispatching : bool) (sequence : Z) : stream_state :=
  {| _phase := _phase st;
     _reason := _reason st;
     _pending_market := _pending_market st;
     _pending_facts := _pending_facts st;
     _last_market := _last_market st;
     _last_dispatch_key := key;
     _active_market := market;
     _active_fact := fact;
     _dispatching := dispatching;
     _dispatch_sequence := sequence;
     _market_dispatches := _market_dispatches st;
     _fact_dispatches := _fact_dispatches st;
     _heartbeat_count := _heartbeat_count st;
     _failed_dispatch_kind := _failed_dispatch_kind st;
     _last_utc := _last_utc st;
     _last_mono := _last_mono st;
     _last_market_mono := _last_market_mono st |}.
Definition with_counts (st : stream_state) (markets facts : Z) (market_mono : float64) : stream_state :=
  {| _phase := _phase st;
     _reason := _reason st;
     _pending_market := _pending_market st;
     _pending_facts := _pending_facts st;
     _last_market := _last_market st;
     _last_dispatch_key := _last_dispatch_key st;
     _active_market := _active_market st;
     _active_fact := _active_fact st;
     _dispatching := _dispatching st;
     _dispatch_sequence := _dispatch_sequence st;
     _market_dispatches := markets;
     _fact_dispatches := facts;
     _heartbeat_count := _heartbeat_count st;
     _failed_dispatch_kind := _failed_dispatch_kind st;
     _last_utc := _last_utc st;
     _last_mono := _last_mono st;
     _last_market_mono := market_mono |}.

(** ** Clocks *)

Definition _read_monotonic (v : float64) : res float64 :=
  raise_if negb (isfinite v) || float_lt v float_zero with StreamingRuntimeError ;; Ok v.

(** [int / int]: the quotient, correctly rounded. *)
Definition true_division (n : Z) (d : positive) : spec_float :=
  match n with
  | Z0 => S754_zero false
  | Zpos _ | Zneg _ =>
      let '(m, e, l) := SFdiv_core_binary 53 1024 (Z.abs n) 0 (Zpos d) 0 in
      binary_round_aux 53 1024 (n <? 0) m e l
  end.
(** [(now - event_time).total_seconds()] *)
Definition total_seconds (later earlier : datetime) : spec_float :=
  true_division (microseconds later - microseconds earlier) 1000000.

Section Runtime.
Context `{hash : Sha256} (rt : StreamingMarketRuntime).
Implicit Types (st : stream_state) (c : clocks).

Definition _sample st c : res (datetime * float64) :=
  let* now := require_utc (clock_now c).1 (clock_now c).2 in
  let* mono := _read_monotonic (monotonic c) in
  raise_if (microseconds now <? microseconds (_last_utc st)) || float_lt mono (_last_mono st)
    with StreamingRuntimeError ;;
  Ok (now, mono).

Definition status st : StreamStatus :=
  {| status_phase := _phase st;
     status_reason := _reason st;
     status_dispatch_sequence := _dispatch_sequence st;
     status_market_dispatches := _market_dispatches st;
     status_fact_dispatches := _fact_dispatches st;
     status_pending_facts := Z.of_nat (length (_pending_facts st));
     status_pending_market := negb (absent (_pending_market st));
     status_heartbeat_count := _heartbeat_count st;
     status_failed_dispatch_kind := _failed_dispatch_kind st |}.

(** ** Stopping *)

Definition _drain st (reason : StreamStopReason) : stream_state :=
  if bool_decide (_phase st = RUNNING) then with_stop st DRAINING reason (_failed_dispatch_kind st) else st.
Definition fail_source st : stream_state :=
  if bool_decide (_phase st = CLOSED) then st else with_stop st DRAINING SOURCE_ERROR (_failed_dispatch_kind st).
Definition fail_heartbeat_callback st : stream_state :=
  if bool_decide (_phase st = CLOSED) then st else with_stop st DRAINING CALLBACK_ERROR (Some "heartbeat"%string).
Definition request_stop st : stream_state := _drain st STOP_REQUESTED.
Definition mark_source_exhausted st : stream_state := _drain st SOURCE_EXHAUSTED.

Definition stalled st (mono : float64) : bool :=
  SFltb (float_value (_stall_timeout rt)) (SFsub 53 1024 (float_value mono) (float_value (_last_market_mono st))).
Definition heartbeat st c : res StreamStatus * stream_state :=
  if bool_decide (_phase st = CLOSED) then (Ok (status st), st)
  else
    match _sample st c with
    | Raise e => (Raise e, st)
    | Ok (now, mono) =>
        let st := with_clocks st now mono (_heartbeat_count st + 1) in
        let st := if bool_decide (_phase st = RUNNING) && stalled st mono then _drain st SOURCE_STALLED else st in
        (Ok (status st), st)
    end.

Definition close st : res unit * stream_state :=
  if _dispatching st then (Raise StreamingRuntimeError, st)
  else
    let st := _drain st STOP_REQUESTED in
    match _pending_facts st with
    | [] => (Ok tt, with_phase st CLOSED)
    | _ => (Raise StreamingRuntimeError, st)
    end.

(** ** Input *)

(** [__le__] that [total_ordering] derives. *)
Definition root_key_le (a b : RuntimeRootOrderKey) : res bool :=
  let* lt := root_key_lt a b in Ok (lt || bool_decide (a = b)).

(** The event against the last one received. *)
Definition follows (prior event : MarketDataEnvelope) : res unit :=
  raise_if source_sequence event =? source_sequence prior with StreamingRuntimeError ;;
  raise_if bool_decide (record_key event = record_key prior) with StreamingRuntimeError ;;
  raise_if (source_sequence event <? source_sequence prior)
        || py_le (admission_order_key event) (admission_order_key prior) with StreamingRuntimeError ;;
  raise_if bool_decide (logical_key event = logical_key prior) && (revision event <=? revision prior)
    with StreamingRuntimeError ;;
  raise_if microseconds (event_time event) <=? microseconds (event_time prior) with StreamingRuntimeError ;;
  Ok tt.

Definition receive_market st (m : market_object) : res stream_state :=
  raise_if negb (bool_decide (_phase st = RUNNING)) || _dispatching st with StreamingRuntimeError ;;
  raise_if negb (bool_decide (source (envelope m) = st_source_id rt)) with StreamingRuntimeError ;;
  raise_if negb (absent (_pending_market st)) with StreamingRuntimeError ;;
  let* _ := match _last_market st with Some prior => follows prior (envelope m) | None => Ok tt end in
  let* key := runtime_root_order_key (RMarket (envelope m)) in
  let* early := match _last_dispatch_key st with Some last => root_key_le key last | None => Ok false end in
  raise_if early with StreamingRuntimeError ;;
  Ok (with_input st (Some m) (Some (envelope m)) (_pending_facts st)).

(** What the bound source says of an ingress at the time of the call. *)
Definition membership : Type := IngressIdentity -> str -> str -> bool.

Definition enqueue_fact st (issued : membership) (i : ExecutionFactIngress) : res stream_state :=
  raise_if bool_decide (_phase st = CLOSED) with StreamingRuntimeError ;;
  match _fact_source rt with
  | None => Raise StreamingRuntimeError
  | Some source =>
      raise_if _max_pending_facts rt <=? Z.of_nat (length (_pending_facts st)) with StreamingRuntimeError ;;
      let ingress_bytes := canonical_execution_fact_ingress_bytes i in
      let fact_bytes := canonical_execution_fact_bytes (ingress_fact i) in
      raise_if negb (bool_decide (ingress_source_namespace i = verifier_source source))
            || negb (issued (ingress_identity_of i) ingress_bytes fact_bytes) with StreamingRuntimeError ;;
      raise_if existsb (fun e => bool_decide (ingress_identity_of e = ingress_identity_of i)) (_pending_facts st)
        with StreamingRuntimeError ;;
      Ok (with_input st (_pending_market st) (_last_market st) (_pending_facts st ++ [i]))
  end.

(** ** What is live *)

Definition verify_active_market_dispatch st (root : market_object) (dispatch_sequence : Z)
  : res ActiveMarketDispatchProof :=
  match _active_market st with
  | None => Raise (raise_strategy CONFLICTING_ID)
  | Some (active, bytes, n) =>
      raise_if negb (bool_decide (object_name root = object_name active)) || negb (dispatch_sequence =? n)
            || negb (bool_decide (canonical_market_data_record_bytes (envelope root) = bytes))
        with raise_strategy CONFLICTING_ID ;;
      _create_active_market_dispatch_proof (st_run_id rt) (envelope root) bytes (causal_market_digest (envelope root))
        dispatch_sequence (st_object rt)
  end.

Definition resolve_active_issued_fact_dispatch st (identity : IngressIdentity) (ingress_bytes fact_bytes : str) : option Z :=
  match _active_fact st with
  | None => None
  | Some (i, b, f, n) =>
      if bool_decide (i = identity) && bool_decide (b = ingress_bytes) && bool_decide (f = fact_bytes) then Some n else None
  end.

(** ** Dispatch *)

Inductive stream_root : Type := StreamMarket (m : market_object) | StreamFact (i : ExecutionFactIngress).
Definition root_of (r : stream_root) : RuntimeRoot :=
  match r with StreamMarket m => RMarket (envelope m) | StreamFact i => RFact i end.
Definition is_market (r : stream_root) : bool := match r with StreamMarket _ => true | StreamFact _ => false end.
Definition keyed (r : stream_root) : res (RuntimeRootOrderKey * stream_root) :=
  let* key := runtime_root_order_key (root_of r) in Ok (key, r).

(** [min(eligible, key=...)]: the first of the least. *)
Fixpoint min_keyed (best : RuntimeRootOrderKey * stream_root) (l : list (RuntimeRootOrderKey * stream_root))
  : res (RuntimeRootOrderKey * stream_root) :=
  match l with
  | [] => Ok best
  | x :: l => let* lt := root_key_lt x.1 best.1 in min_keyed (if lt then x else best) l
  end.

(** The pending market event, unless it is stale; a stale one stops the source. *)
Definition eligible_market st (now : datetime) : option market_object * stream_state :=
  match (if bool_decide (_phase st = RUNNING) then _pending_market st else None) with
  | Some m =>
      if visible (envelope m) now then
        if SFltb (float_value (_max_age rt)) (total_seconds now (event_time (envelope m)))
        then (None, _drain st STALE_MARKET)
        else (Some m, st)
      else (None, st)
  | None => (None, st)
  end.
Definition eligible_facts st (now : datetime) : list ExecutionFactIngress :=
  List.filter (fun i => microseconds (ingress_available_at i) <=? microseconds now) (_pending_facts st).

(** The state the callback runs in. *)
Definition leased st (key : RuntimeRootOrderKey) (r : stream_root) : stream_state :=
  let n := _dispatch_sequence st + 1 in
  match r with
  | StreamMarket m =>
      with_dispatch st (Some key) (Some (m, canonical_market_data_record_bytes (envelope m), n)) None true n
  | StreamFact i =>
      with_dispatch st (Some key) None
        (Some (ingress_identity_of i, canonical_execution_fact_ingress_bytes i,
               canonical_execution_fact_bytes (ingress_fact i), n)) true n
  end.

(** [poll], up to its callback. *)
Definition begin_poll st c : res (option (stream_root * Z)) * stream_state :=
  if bool_decide (_phase st = CLOSED) then (Ok None, st)
  else if _dispatching st then (Raise StreamingRuntimeError, st)
  else
    match heartbeat st c with
    | (Raise e, st) => (Raise e, st)
    | (Ok _, st) =>
        let now := _last_utc st in
        let '(market, st) := eligible_market st now in
        let roots := match market with Some m => [StreamMarket m] | None => [] end ++ map StreamFact (eligible_facts st now) in
        match rmap keyed roots with
        | Raise e => (Raise e, st)
        | Ok [] => (Ok None, st)
        | Ok (x :: l) =>
            match min_keyed x l with
            | Raise e => (Raise e, st)
            | Ok (key, root) =>
                match (if is_market root then match _last_dispatch_key st with
                                              | Some last => root_key_le key last
                                              | None => Ok false
                                              end
                       else Ok false) with
                | Raise e => (Raise e, st)
                | Ok true => (Raise StreamingRuntimeError, _drain st CALLBACK_ERROR)
                | Ok false =>
                    if MAX_UINT64 <=? _dispatch_sequence st then (Raise StreamingRuntimeError, _drain st CALLBACK_ERROR)
                    else (Ok (Some (root, _dispatch_sequence st + 1)), leased st key root)
                end
            end
        end
    end.

(** The [finally] clause. *)
Definition released st : stream_state :=
  with_dispatch st (_last_dispatch_key st) None None false (_dispatch_sequence st).
(** [list.remove]: the first equal ingress; none is a [ValueError]. *)
Fixpoint remove_first (i : ExecutionFactIngress) (l : list ExecutionFactIngress) : option (list ExecutionFactIngress) :=
  match l with
  | [] => None
  | x :: l => if bool_decide (x = i) then Some l else cons x <$> remove_first i l
  end.

(** The callback raised. *)
Definition poll_raised st (root : stream_root) : stream_state :=
  released (with_stop st DRAINING CALLBACK_ERROR (Some (if is_market root then "market" else "fact")%string)).
(** The callback returned. *)
Definition poll_returned st (root : stream_root) : res bool * stream_state :=
  match root with
  | StreamMarket _ =>
      (Ok true,
       released (with_counts (with_input st None (_last_market st) (_pending_facts st)) (_market_dispatches st + 1)
                   (_fact_dispatches st) (_last_mono st)))
  | StreamFact i =>
      match remove_first i (_pending_facts st) with
      | None => (Raise ValueError, poll_raised st root)
      | Some facts =>
          (Ok true,
           released (with_counts (with_input st (_pending_market st) (_last_market st) facts) (_market_dispatches st)
                       (_fact_dispatches st + 1) (_last_market_mono st)))
      end
  end.

(** ** Calls, from outside or from the callback of a dispatch *)

Inductive stream_call : Type :=
| Heartbeat (c : clocks)
| FailSource
| FailHeartbeatCallback
| ReceiveMarket (m : market_object)
| EnqueueFact (issued : membership) (i : ExecutionFactIngress)
| RequestStop
| MarkSourceExhausted
| Close.
Definition called st (x : stream_call) : stream_state :=
  match x with
  | Heartbeat c => (heartbeat st c).2
  | FailSource => fail_source st
  | FailHeartbeatCallback => fail_heartbeat_callback st
  | ReceiveMarket m => match receive_market st m with Ok st => st | Raise _ => st end
  | EnqueueFact issued i => match enqueue_fact st issued i with Ok st => st | Raise _ => st end
  | RequestStop => request_stop st
  | MarkSourceExhausted => mark_source_exhausted st
  | Close => (close st).2
  end.

(** What a callback does: its calls into the runtime, and what it raises, if anything.  A
    [poll] from a callback raises without effect. *)
Record callback : Type := mkCallback { cb_calls : list stream_call; cb_raises : option exn }.

Definition poll st c (on_root : stream_root -> Z -> callback) : res bool * stream_state :=
  match begin_poll st c with
  | (Raise e, st) => (Raise e, st)
  | (Ok None, st) => (Ok false, st)
  | (Ok (Some (root, n)), st) =>
      let st := fold_left called (cb_calls (on_root root n)) st in
      match cb_raises (on_root root n) with
      | Some e => (Raise e, poll_raised st root)
      | None => poll_returned st root
      end
  end.
End Runtime.

(** ** Creation *)

Section Creation.
Context `{hash : Sha256}.

Definition positive_float (v : float64) : bool := isfinite v && negb (float_le v float_zero).

Definition StreamingMarketRuntime_init (object : positive) (run_id : RunId) (spec_set : InstrumentExecutionSpecSet)
  (source_id : SourceId) (c : clocks) (max_age stall_timeout : float64)
  (fact_source : option ExecutionFactIssuanceVerifier) (max_pending_facts initial : Z)
  : res (StreamingMarketRuntime * stream_state) :=
  raise_if negb ((0 <=? initial) && (initial <? MAX_UINT64)) with StreamingRuntimeError ;;
  raise_if negb (positive_float max_age) with StreamingRuntimeError ;;
  raise_if negb (positive_float stall_timeout) with StreamingRuntimeError ;;
  raise_if max_pending_facts <? 1 with StreamingRuntimeError ;;
  raise_if match fact_source with
           | None => false
           | Some s => negb (bool_decide (verifier_run_id s = run_id)
                             && bool_decide (spec_set_identifier (verifier_spec_set s) = spec_set_identifier spec_set)
                             && bool_decide (instrument_spec_set_digest (verifier_spec_set s) = instrument_spec_set_digest spec_set))
           end with StreamingRuntimeError ;;
  let* now := require_utc (clock_now c).1 (clock_now c).2 in
  let* mono := _read_monotonic (monotonic c) in
  Ok ({| st_run_id := run_id;
         st_spec_set := spec_set;
         st_source_id := source_id;
         _max_age := max_age;
         _stall_timeout := stall_timeout;
         _fact_source := fact_source;
         _max_pending_facts := max_pending_facts;
         st_object := object |},
      {| _phase := RUNNING;
         _reason := None;
         _pending_market := None;
         _pending_facts := [];
         _last_market := None;
         _last_dispatch_key := None;
         _active_market := None;
         _active_fact := None;
         _dispatching := false;
         _dispatch_sequence := initial;
         _market_dispatches := 0;
         _fact_dispatches := 0;
         _heartbeat_count := 0;
         _failed_dispatch_kind := None;
         _last_utc := now;
         _last_mono := mono;
         _last_market_mono := mono |}).
End Creation.
