(* ===== verification/PaperBroker.v ===== *)
(** The paper venue: a bounded, in-process broker for issued Orders
    ([execution/paper_broker.py]), and the price it fills at
    ([_quantized_historical_close] of [core/historical_matching.py]).

    The broker reads the Order authority that issued the Orders, whose state at the time of
    a call is an argument.  A [dict] the broker iterates keeps its insertion order: it is an
    association list; the two it only looks up are maps.  An operation publishes all its
    changes after the last point where it can raise. *)

From Stdlib Require Import SpecFloat.
From S2P Require Import Prelude PyRegex PyText Outcomes Json Identity Chronology MarketData Economics Commission Execution.
From S2P Require Import Messages Orders Decoders OrderAuthority FactAuthority OrderLifecycle MarketCodec Runtime Streaming.

Open Scope Z_scope.

(** ** The price of a fill *)

Definition _MATCHER_ERROR_CODES : list OutcomeCode :=
  [INVALID_TYPE; OUT_OF_RANGE; NOT_QUANTIZED; PRICE_DOMAIN; ARITHMETIC_OVERFLOW; CONFLICTING_ID;
   SUBMISSION_BLOCKED_BY_HALT; RISK_STALE_APPROVAL; DURABILITY_AUDIT_APPEND_FAILED; DURABILITY_AUDIT_ACK_MISMATCH].
Definition raise_matcher (c : OutcomeCode) : exn :=
  if permitted _MATCHER_ERROR_CODES c then HistoricalMatcherError c else TypeError.

(** [while text.endswith("0"): text = text[:-1]]. *)
Fixpoint drop_zeros (reversed : str) : str :=
  match reversed with
  | c :: s => if is_char c "0"%char then drop_zeros s else reversed
  | [] => []
  end.
Definition rstrip0 (s : str) : str := rev (drop_zeros (rev s)).
(** [if text.endswith("."): text = text[:-1]]. *)
Definition drop_dot (s : str) : str :=
  match rev s with
  | c :: r => if is_char c "."%char then rev r else s
  | [] => []
  end.
Definition _canonical_decimal_from_coefficient (coefficient scale : Z) : res CanonicalDecimal :=
  let negative := coefficient <? 0 in
  let digits := digits (Z.abs coefficient) in
  if coefficient =? 0 then decimal_of_text "0"
  else
    let body :=
      if scale =? 0 then digits
      else
        let digits := zero_pad (Z.to_nat (scale + 1)) digits in
        let split := (length digits - Z.to_nat scale)%nat in
        drop_dot (rstrip0 (take split digits ++ "."%char :: drop split digits)) in
    decimal_of_text (text_of ((if negative then ["-"%char] else []) ++ body)).

(** [float.as_integer_ratio()] of a finite float: the numerator and the positive
    denominator, in lowest terms. *)
Definition as_integer_ratio (x : float64) : Z * Z :=
  match float_value x with
  | S754_finite s m e =>
      let n := (if s then - Z.pos m else Z.pos m) * 2 ^ Z.max e 0 in
      let d := 2 ^ Z.max (- e) 0 in
      let g := Z.gcd n d in
      (n / g, d / g)
  | _ => (0, 1)
  end.

(** The close moved against the side that trades. *)
Definition slipped (ratio : Z * Z) (side : OrderSide) (slippage_bps : option CanonicalDecimal) : res (Z * Z) :=
  let '(p, q) := ratio in
  match slippage_bps with
  | None => Ok (p, q)
  | Some bps =>
      let* _ := require_slippage_bps bps in
      let factor := 10000 * 10 ^ scale bps in
      let adverse := Z.abs p * coefficient bps in
      Ok (p * factor + (match side with BUY => adverse | SELL => - adverse end), q * factor)
  end.
(** The nearest tick; half a tick goes against the side that trades. *)
Definition nearest_tick (numerator denominator : Z) (side : OrderSide) : Z :=
  let ticks := numerator / denominator in
  let doubled := numerator mod denominator * 2 in
  if (denominator <? doubled) || ((doubled =? denominator) && bool_decide (side = BUY)) then ticks + 1 else ticks.

Definition close_errors {A} (m : res A) : res A :=
  match m with
  | Raise (EconomicValidationError c) =>
      let code := if bool_decide (c = OUT_OF_RANGE) then ARITHMETIC_OVERFLOW else c in
      Raise (raise_matcher (if bool_decide (code ∈ [INVALID_TYPE; NOT_QUANTIZED; PRICE_DOMAIN; ARITHMETIC_OVERFLOW])
                            then code else CONFLICTING_ID))
  | _ => m
  end.

Definition _quantized_historical_close (close : float64) (side : OrderSide) (specification : InstrumentExecutionSpec)
  (slippage_bps : option CanonicalDecimal) : res CanonicalDecimal :=
  raise_if negb (isfinite close) with raise_matcher OUT_OF_RANGE ;;
  let c := coefficient (price_quantum specification) in
  let s := scale (price_quantum specification) in
  raise_if c <=? 0 with raise_matcher CONFLICTING_ID ;;
  let* ratio := slipped (as_integer_ratio close) side slippage_bps in
  let ticks := nearest_tick (ratio.1 * 10 ^ s) (ratio.2 * c) side in
  close_errors (
    let* price := _canonical_decimal_from_coefficient (ticks * c) s in
    raise_if bool_decide (price_domain specification = POSITIVE) && (coefficient price <=? 0)
      with raise_matcher PRICE_DOMAIN ;;
    raise_if bool_decide (price_domain specification = NON_NEGATIVE) && (coefficient price <? 0)
      with raise_matcher PRICE_DOMAIN ;;
    Ok price).

(** ** Results and records *)

Record PaperSubmitResult : Type := mkPaperSubmit {
  sr_state : SubmissionAttemptState;
  sr_venue_order_id : option VenueOrderId;
  sr_ingresses : list ExecutionFactIngress
}.
Record PaperCancelResult : Type := mkPaperCancel {
  cr_state : CancellationAttemptState;
  cr_ingresses : list ExecutionFactIngress
}.
Record PaperQueryResult : Type := mkPaperQuery {
  qr_code : OutcomeCode;
  qr_ingress : option ExecutionFactIngress
}.

Inductive _PaperOrderState : Type := PAPER_OPEN | PAPER_FILLED | PAPER_CANCELLED.
#[export] Instance _PaperOrderState_eq_dec : EqDecision _PaperOrderState.
Proof. solve_decision. Defined.

Record _PaperOrder : Type := mkPaperOrder {
  po_command : SubmitCommand;
  po_submitted_at : datetime;
  po_venue_order_id : VenueOrderId;
  po_submit_result : PaperSubmitResult;
  po_state : _PaperOrderState;
  po_cancel_command : option CancelCommand;
  po_cancel_result : option PaperCancelResult;
  po_terminal_fact : option ExecutionFact
}.

Record PaperBroker : Type := mkPaperBroker {
  pb_run_id : RunId;
  pb_spec_set : InstrumentExecutionSpecSet;
  pb_source : SourceNamespace;
  pb_max_orders : Z
}.
Definition pb_max_ingresses (b : PaperBroker) : Z := pb_max_orders b * 8.
Record paper_state : Type := mkPaperState {
  pb_records : list (Sha256Digest * _PaperOrder);
  pb_unknown_cancels : gmap Sha256Digest (CancelCommand * PaperCancelResult);
  pb_issued : gmap IngressIdentity (str * str);
  pb_fact_next : Z;
  pb_ingress_next : Z;
  pb_last_market_key : option RuntimeRootOrderKey;
  pb_last_market_bytes : option str
}.

Fixpoint find_record (k : Sha256Digest) (records : list (Sha256Digest * _PaperOrder)) : option _PaperOrder :=
  match records with
  | [] => None
  | (k', r) :: records => if bool_decide (k' = k) then Some r else find_record k records
  end.
(** The record of a key, changed in place. *)
Definition set_record (k : Sha256Digest) (r : _PaperOrder) (records : list (Sha256Digest * _PaperOrder))
  : list (Sha256Digest * _PaperOrder) :=
  map (fun x => if bool_decide (x.1 = k) then (k, r) else x) records.

(** [datetime.isoformat()] at offset zero. *)
Definition isoformat (t : datetime) : str :=
  zero_pad 4 (digits (year t)) ++ "-"%char :: zero_pad 2 (digits (month t)) ++ "-"%char :: zero_pad 2 (digits (day t))
    ++ "T"%char :: zero_pad 2 (digits (hour t)) ++ ":"%char :: zero_pad 2 (digits (minute t))
    ++ ":"%char :: zero_pad 2 (digits (second t))
    ++ (if microsecond t =? 0 then [] else "."%char :: zero_pad 6 (digits (microsecond t))) ++ chars "+00:00".

Section Broker.
Context `{hash : Sha256} (b : PaperBroker) (os : _OrderAuthorityState).
Implicit Types (st : paper_state).

(** ** What the broker checks and issues *)

(** A command of either kind: its Order and the two digests it names. *)
Definition _require_command (order : Order) (client_key request : Sha256Digest) : res Order :=
  match OrderAuthority.resolve_issued_order_by_id os (od_order_id order) with
  | None => Raise (PaperBrokerError CONFLICTING_ID)
  | Some by_id =>
      raise_if negb (bool_decide (OrderAuthority.resolve_issued_order_by_client_submission_key os
                                    (order_client_submission_key order) = Some by_id))
            || negb (bool_decide (order_digest by_id = order_digest order))
            || negb (bool_decide (client_key = order_client_submission_key order))
            || negb (bool_decide (request = execution_request_digest order))
        with PaperBrokerError CONFLICTING_ID ;;
      Ok order
  end.

Definition _ingress (fact : ExecutionFact) (available_at : datetime) (sequence : Z) : res ExecutionFactIngress :=
  create_execution_fact_ingress (at_utc available_at) (pb_source b) sequence fact.

Fixpoint stage_ingresses (issued staged : gmap IngressIdentity (str * str)) (ingresses : list ExecutionFactIngress)
  : res (gmap IngressIdentity (str * str)) :=
  match ingresses with
  | [] => Ok staged
  | i :: ingresses =>
      raise_if negb (absent (issued !! ingress_identity_of i)) || negb (absent (staged !! ingress_identity_of i))
        with PaperBrokerError CONFLICTING_ID ;;
      stage_ingresses issued
        (<[ingress_identity_of i := (canonical_execution_fact_ingress_bytes i,
                                     canonical_execution_fact_bytes (ingress_fact i))]> staged) ingresses
  end.
Definition _retain st (ingresses : list ExecutionFactIngress) : res (gmap IngressIdentity (str * str)) :=
  raise_if pb_max_ingresses b <? Z.of_nat (size (pb_issued st)) + Z.of_nat (length ingresses)
    with PaperBrokerError OUT_OF_RANGE ;;
  let* staged := stage_ingresses (pb_issued st) ∅ ingresses in
  Ok (staged ∪ pb_issued st).

Definition _provenance (kind request observation : str) : FactProvenance :=
  mkFactProvenance (mkPatternStr (r := _TOKEN_PATTERN) "paper.local.v1" eq_refl)
    (_digest (domain "ea.paper-local.v1") (kind ++ ascii_of_N 0 :: request ++ ascii_of_N 0 :: observation)).

Definition has_issued_ingress st (identity : IngressIdentity) (ingress_bytes fact_bytes : str) : bool :=
  bool_decide (pb_issued st !! identity = Some (ingress_bytes, fact_bytes)).

Definition submission_ages_seconds st (now : datetime * option Z) : res (list spec_float) :=
  let* now := require_utc now.1 now.2 in
  Ok (map (fun x => total_seconds now (po_submitted_at x.2)) (pb_records st)).

(** The fact of a lifecycle step of a record's Order. *)
Definition lifecycle_fact (kind : ExecutionFactKind) (tag : string) (order : Order) (venue : VenueOrderId) (n : Z)
  (at_ : datetime) : res ExecutionFact :=
  let* dedup := SourceNativeSequence_init n in
  create_lifecycle_execution_fact kind (pb_source b) dedup (at_utc at_)
    (_provenance (chars tag) (canonical_execution_request_bytes order) (isoformat at_))
    (Some (od_instrument order)) (Some (order_client_submission_key order)) (Some venue) (Some (od_order_id order))
    (Some (od_correlation_id order)) (Some (od_order_id order)) None.

(** ** Submission *)

Definition not_submitted : PaperSubmitResult := mkPaperSubmit SUBMISSION_NOT_SUBMITTED None [].

Definition submit st (command : SubmitCommand) (submitted_at : datetime * option Z) : res (PaperSubmitResult * paper_state) :=
  let* order := _require_command (sc_order command) (sc_client_submission_key command) (sc_execution_request_sha256 command) in
  let* submitted := require_utc submitted_at.1 submitted_at.2 in
  raise_if microseconds submitted <? microseconds (od_eligible_after_available_at order) with PaperBrokerError OUT_OF_RANGE ;;
  let key := order_client_submission_key order in
  match find_record key (pb_records st) with
  | Some record =>
      raise_if negb (bool_decide (po_command record = command)) with PaperBrokerError CONFLICTING_ID ;;
      Ok (po_submit_result record, st)
  | None =>
      if pb_max_orders b <=? Z.of_nat (length (pb_records st)) then Ok (not_submitted, st)
      else
        match od_order_kind order, od_time_in_force order with
        | MARKET, GOOD_FOR_NEXT_ELIGIBLE_MARKET_EVENT =>
            let* venue := VenueOrderId_init ("paper-" +:+ value key) in
            let* fact := lifecycle_fact ACKNOWLEDGEMENT "ack" order venue (pb_fact_next st) submitted in
            let* ingress := _ingress fact submitted (pb_ingress_next st) in
            let result := mkPaperSubmit SUBMISSION_SUBMITTED (Some venue) [ingress] in
            let* issued := _retain st [ingress] in
            Ok (result,
                mkPaperState (pb_records st ++ [(key, mkPaperOrder command submitted venue result PAPER_OPEN None None None)])
                  (pb_unknown_cancels st) issued (pb_fact_next st + 1) (pb_ingress_next st + 1)
                  (pb_last_market_key st) (pb_last_market_bytes st))
        end
  end.

(** ** Cancellation *)

Definition with_cancel (r : _PaperOrder) (command : CancelCommand) (result : PaperCancelResult) (state : _PaperOrderState)
  (terminal : option ExecutionFact) : _PaperOrder :=
  mkPaperOrder (po_command r) (po_submitted_at r) (po_venue_order_id r) (po_submit_result r) state (Some command)
    (Some result) terminal.

Definition cancel st (command : CancelCommand) (requested_at : datetime * option Z) : res (PaperCancelResult * paper_state) :=
  let* order := _require_command (cc_order command) (cc_client_submission_key command) (cc_execution_request_sha256 command) in
  let* requested := require_utc requested_at.1 requested_at.2 in
  let key := order_client_submission_key order in
  match pb_unknown_cancels st !! key with
  | Some (retained, result) =>
      raise_if negb (bool_decide (retained = command)) with PaperBrokerError CONFLICTING_ID ;;
      Ok (result, st)
  | None =>
      match find_record key (pb_records st) with
      | None =>
          raise_if pb_max_orders b <=? Z.of_nat (size (pb_unknown_cancels st)) with PaperBrokerError OUT_OF_RANGE ;;
          let uncertain := mkPaperCancel CANCELLATION_UNCERTAIN [] in
          Ok (uncertain,
              mkPaperState (pb_records st) (<[key := (command, uncertain)]> (pb_unknown_cancels st)) (pb_issued st)
                (pb_fact_next st) (pb_ingress_next st) (pb_last_market_key st) (pb_last_market_bytes st))
      | Some record =>
          match po_cancel_command record with
          | Some retained =>
              raise_if negb (bool_decide (retained = command)) with PaperBrokerError CONFLICTING_ID ;;
              match po_cancel_result record with
              | Some result => Ok (result, st)
              | None => Raise AssertionError
              end
          | None =>
              raise_if microseconds requested <? microseconds (po_submitted_at record) with PaperBrokerError OUT_OF_RANGE ;;
              if negb (bool_decide (po_state record = PAPER_OPEN)) then
                let result := mkPaperCancel CANCELLATION_NOT_SENT [] in
                Ok (result,
                    mkPaperState
                      (set_record key (with_cancel record command result (po_state record) (po_terminal_fact record)) (pb_records st))
                      (pb_unknown_cancels st) (pb_issued st) (pb_fact_next st) (pb_ingress_next st)
                      (pb_last_market_key st) (pb_last_market_bytes st))
              else
                let* fact := lifecycle_fact CANCELLATION "cancel" order (po_venue_order_id record) (pb_fact_next st) requested in
                let* ingress := _ingress fact requested (pb_ingress_next st) in
                let result := mkPaperCancel CANCELLATION_ACCEPTED [ingress] in
                let* issued := _retain st [ingress] in
                Ok (result,
                    mkPaperState (set_record key (with_cancel record command result PAPER_CANCELLED (Some fact)) (pb_records st))
                      (pb_unknown_cancels st) issued (pb_fact_next st + 1) (pb_ingress_next st + 1)
                      (pb_last_market_key st) (pb_last_market_bytes st))
          end
      end
  end.

(** ** Queries *)

Definition query st (client_submission_key : Sha256Digest) (observed_at : datetime * option Z) : res (PaperQueryResult * paper_state) :=
  let* observed := require_utc observed_at.1 observed_at.2 in
  match find_record client_submission_key (pb_records st) with
  | None => Ok (mkPaperQuery RECONCILIATION_SUBMISSION_STILL_UNKNOWN None, st)
  | Some record =>
      raise_if microseconds observed <? microseconds (po_submitted_at record) with PaperBrokerError OUT_OF_RANGE ;;
      let* found :=
        match po_state record with
        | PAPER_CANCELLED => Ok (ORDER_CANCELLED, po_terminal_fact record)
        | PAPER_FILLED => Ok (RECONCILIATION_SUBMISSION_CONFIRMED_FILLED, po_terminal_fact record)
        | PAPER_OPEN =>
            match sr_ingresses (po_submit_result record) with
            | i :: _ => Ok (RECONCILIATION_SUBMISSION_CONFIRMED_SUBMITTED, Some (ingress_fact i))
            | [] => Raise IndexError
            end
        end in
      match found.2 with
      | None => Raise (PaperBrokerError CONFLICTING_ID)
      | Some fact =>
          let* ingress := _ingress fact observed (pb_ingress_next st) in
          let* issued := _retain st [ingress] in
          Ok (mkPaperQuery found.1 (Some ingress),
              mkPaperState (pb_records st) (pb_unknown_cancels st) issued (pb_fact_next st) (pb_ingress_next st + 1)
                (pb_last_market_key st) (pb_last_market_bytes st))
      end
  end.

(** ** Market events *)

(** What an open Order of the instrument becomes. *)
Record staged_fill : Type := mkStaged { sf_key : Sha256Digest; sf_fact : ExecutionFact; sf_ingress : ExecutionFactIngress }.

Definition matches (e : MarketDataEnvelope) (r : _PaperOrder) : res bool :=
  let order := sc_order (po_command r) in
  let policy := od_execution_policy order in
  if negb (bool_decide (po_state r = PAPER_OPEN)) then Ok false
  else if negb (bool_decide (bar_instrument (payload e) = od_instrument order)) then Ok false
  else execution_latency_allows (event_time e) (po_submitted_at r) (value (policy_identifier policy)) (value (policy_sha256 policy)).

Definition trade_fact (e : MarketDataEnvelope) (r : _PaperOrder) (n : Z) : res ExecutionFact :=
  let order := sc_order (po_command r) in
  let policy := od_execution_policy order in
  let identifier := value (policy_identifier policy) in
  let sha := value (policy_sha256 policy) in
  let* specification := require_spec (pb_spec_set b) (od_instrument order) in
  let* slippage := slippage_bps_from_identity identifier sha in
  let* price := _quantized_historical_close (bar_close (payload e)) (od_side order) specification slippage in
  let* bps := commission_bps_from_identity identifier sha in
  let* dedup := SourceNativeSequence_init n in
  create_trade_execution_fact (pb_source b) dedup (at_utc (event_time e))
    (_provenance (chars "trade") (canonical_execution_request_bytes order) (canonical_market_data_record_bytes e))
    (pb_spec_set b) (od_instrument order) (od_side order) (od_quantity order) price bps
    (Some (order_client_submission_key order)) (Some (po_venue_order_id r)) (Some (od_order_id order))
    (Some (od_correlation_id order)) (Some (od_order_id order)).

Fixpoint stage_fills (e : MarketDataEnvelope) (records : list (Sha256Digest * _PaperOrder)) (fact_next ingress_next : Z)
  : res (list staged_fill) :=
  match records with
  | [] => Ok []
  | (k, r) :: records =>
      let* hit := matches e r in
      if hit then
        let* fact := trade_fact e r fact_next in
        let* ingress := _ingress fact (available_at e) ingress_next in
        let* rest := stage_fills e records (fact_next + 1) (ingress_next + 1) in
        Ok (mkStaged k fact ingress :: rest)
      else stage_fills e records fact_next ingress_next
  end.

Definition fill_record (r : _PaperOrder) (fact : ExecutionFact) : _PaperOrder :=
  mkPaperOrder (po_command r) (po_submitted_at r) (po_venue_order_id r) (po_submit_result r) PAPER_FILLED
    (po_cancel_command r) (po_cancel_result r) (Some fact).
Definition apply_fill (records : list (Sha256Digest * _PaperOrder)) (f : staged_fill) : list (Sha256Digest * _PaperOrder) :=
  match find_record (sf_key f) records with
  | Some r => set_record (sf_key f) (fill_record r (sf_fact f)) records
  | None => records
  end.

Definition on_market st (e : MarketDataEnvelope) : res (list ExecutionFactIngress * paper_state) :=
  let* key := runtime_root_order_key (RMarket e) in
  let market_bytes := canonical_market_data_record_bytes e in
  let* seen :=
    match pb_last_market_key st with
    | None => Ok false
    | Some last =>
        if bool_decide (key = last) && bool_decide (pb_last_market_bytes st = Some market_bytes) then Ok true
        else
          let* regressed := root_key_le key last in
          raise_if regressed with PaperBrokerError CONFLICTING_ID ;;
          Ok false
    end in
  if seen then Ok ([], st)
  else
    let* staged :=
      if (revision e =? 0) && bool_decide (adjustment (payload e) = RAW)
      then stage_fills e (pb_records st) (pb_fact_next st) (pb_ingress_next st) else Ok [] in
    let ingresses := map sf_ingress staged in
    let* issued := _retain st ingresses in
    let n := Z.of_nat (length staged) in
    Ok (ingresses,
        mkPaperState (fold_left apply_fill staged (pb_records st)) (pb_unknown_cancels st) issued (pb_fact_next st + n)
          (pb_ingress_next st + n) (Some key) (Some market_bytes)).

(** ** Reconstruction after a restart *)

Definition restore_filled st (command : SubmitCommand) (fact : ExecutionFact) : res paper_state :=
  let* order := _require_command (sc_order command) (sc_client_submission_key command) (sc_execution_request_sha256 command) in
  raise_if negb (bool_decide (fact_kind fact = TRADE)) with PaperBrokerError INVALID_TYPE ;;
  raise_if negb (bool_decide (fact_order_id fact = Some (od_order_id order)))
        || negb (bool_decide (fact_client_submission_key fact = Some (order_client_submission_key order)))
    with PaperBrokerError CONFLICTING_ID ;;
  let key := order_client_submission_key order in
  match find_record key (pb_records st) with
  | Some r =>
      raise_if negb (bool_decide (po_state r = PAPER_OPEN))
        with PaperBrokerError RECONCILIATION_SUBMISSION_STILL_UNKNOWN ;;
      Ok (mkPaperState (set_record key (fill_record r fact) (pb_records st)) (pb_unknown_cancels st) (pb_issued st)
            (pb_fact_next st + 1) (pb_ingress_next st + 2) (pb_last_market_key st) (pb_last_market_bytes st))
  | None => Raise (PaperBrokerError RECONCILIATION_SUBMISSION_STILL_UNKNOWN)
  end.
End Broker.

(** ** Creation *)

Definition PaperBroker_init (context : OrderAuthorityContext) (source : SourceNamespace) (max_orders : Z)
  : res (PaperBroker * paper_state) :=
  raise_if negb ((1 <=? max_orders) && (max_orders <=? 1024)) with PaperBrokerError OUT_OF_RANGE ;;
  Ok (mkPaperBroker (oa_run_id context) (oa_spec_set context) source max_orders, mkPaperState [] ∅ ∅ 1 1 None None).
