(* ===== verification/StrategyAuthority.v ===== *)
(** The strategy-signal authority ([strategy/authority.py]): the sole owner of signal
    identities.

    [issue] replays the signal of a dispatch, halts when the dispatch comes back with another
    record or direction or out of order, and otherwise asks its verifier for the proof that
    the dispatch is live and numbers one signal.  A conflict changes the state although the
    call raises, so [issue] returns a result and the state it leaves. *)

From S2P Require Import Prelude PyRegex PyText Outcomes Json Identity Chronology MarketData Economics Execution.
From S2P Require Import Messages MarketCodec Runtime Strategy.

Open Scope Z_scope.

Record _ReplayRecord : Type := mkSignalRecord {
  sr_market_root_bytes : str;
  sr_direction : SignalDirection;
  sr_submitted_sha256 : Sha256Digest;
  sr_signal : StrategySignal;
  sr_signal_bytes : str;
  sr_signal_sha256 : Sha256Digest
}.
Record _AuthorityState : Type := mkAuthorityState {
  sa_public : StrategySignalAuthorityState;
  replay_by_dispatch : gmap Z _ReplayRecord
}.

(** What the authority is bound to: its run and the verifier, an object.  What the operation
    [verify_active_market_dispatch] of that object answers depends on the dispatch that is
    live at the time of the call: it is an argument of [issue]. *)
Record StrategySignalAuthority : Type := mkSignalAuthority {
  sa_run_id : RunId;
  verifier_object : positive
}.
Definition verifier_operation : Type := MarketDataEnvelope -> Z -> res ActiveMarketDispatchProof.

Definition _advance (n : Z) : option Z := if n =? MAX_UINT64 then None else Some (n + 1).

Definition lookup_by_dispatch_sequence (st : _AuthorityState) (n : Z) : res (option StrategySignal) :=
  raise_if (n <? 1) || (MAX_UINT64 <? n) with raise_strategy OUT_OF_RANGE ;;
  Ok (sr_signal <$> replay_by_dispatch st !! n).

(** [except StrategyContractError: raise], [except Exception: raise INVALID_TYPE]. *)
Definition strategy_errors {A} (m : res A) : res A :=
  match m with
  | Raise (StrategyContractError c) => Raise (StrategyContractError c)
  | Raise _ => Raise (raise_strategy INVALID_TYPE)
  | Ok a => Ok a
  end.
(** [except RuntimeOrderingError]: two of its codes are kept. *)
Definition proof_errors {A} (m : res A) : res A :=
  match m with
  | Raise (RuntimeOrderingError c) =>
      Raise (raise_strategy (if permitted [INVALID_TYPE; CONFLICTING_ID] c then c else INVALID_TYPE))
  | _ => m
  end.

Section Authority.
Context `{hash : Sha256} (a : StrategySignalAuthority) (verify : verifier_operation).

(** ** Conflicts *)

Definition _publish_conflict (st : _AuthorityState) (kind : AuthorityConflictKind) (dispatch_sequence : Z)
  (occupied : option EconomicId) (existing : option Sha256Digest) (submitted : Sha256Digest)
  : exn * _AuthorityState :=
  let conflicting := raise_strategy CONFLICTING_ID in
  let public := sa_public st in
  if negb (absent (ss_conflict public)) then (conflicting, st)
  else
    match strategy_errors (
      let* conflict := _create_authority_conflict_evidence KIND_STRATEGY_SIGNAL kind (sa_run_id a) occupied
                         dispatch_sequence (last_new_dispatch_sequence public) existing submitted in
      _create_strategy_signal_authority_state (sa_run_id a) true (signal_next public)
        (last_new_dispatch_sequence public) (issuance_count public) (Some conflict)) with
    | Ok public => (conflicting, mkAuthorityState public (replay_by_dispatch st))
    | Raise e => (e, st)
    end.

(** ** Issuing a signal *)

(** The proof that the dispatch is live, and that it is about this record. *)
Definition active_proof (root : MarketDataEnvelope) (dispatch_sequence : Z) : res ActiveMarketDispatchProof :=
  let* proof := strategy_errors (verify root dispatch_sequence) in
  proof_errors (_require_active_market_dispatch_proof proof (sa_run_id a) root
                  (canonical_market_data_record_bytes root) (causal_market_digest root) dispatch_sequence
                  (verifier_object a)).

Definition signal_record (root : MarketDataEnvelope) (direction : SignalDirection) (submitted : Sha256Digest)
  (signal : StrategySignal) : res _ReplayRecord :=
  let* bytes := canonical_strategy_signal_bytes signal in
  let* digest := strategy_signal_digest signal in
  Ok (mkSignalRecord (canonical_market_data_record_bytes root) direction submitted signal bytes digest).

(** [issue] on a dispatch that is new and in order. *)
Definition issue_new (st : _AuthorityState) (root : MarketDataEnvelope) (dispatch_sequence : Z)
  (direction : SignalDirection) (submitted : Sha256Digest) : res (StrategySignal * _AuthorityState) :=
  let public := sa_public st in
  raise_if ss_halted public with raise_strategy CONFLICTING_ID ;;
  match signal_next public with
  | None => Raise (raise_strategy OUT_OF_RANGE)
  | Some n =>
      let* _ := active_proof root dispatch_sequence in
      let* record := strategy_errors (
        let* signal_id := EconomicId_init (sa_run_id a) STRATEGY_SIGNAL n in
        let* signal := _create_strategy_signal (sa_run_id a) signal_id root direction
                         (causal_market_digest root) dispatch_sequence in
        signal_record root direction submitted signal) in
      let* public := strategy_errors (
        _create_strategy_signal_authority_state (sa_run_id a) false (_advance n) (Some dispatch_sequence)
          (issuance_count public + 1) None) in
      Ok (sr_signal record,
          mkAuthorityState public (<[dispatch_sequence := record]> (replay_by_dispatch st)))
  end.

Definition issue (st : _AuthorityState) (root : MarketDataEnvelope) (dispatch_sequence : Z)
  (direction : SignalDirection) : res StrategySignal * _AuthorityState :=
  if (dispatch_sequence <? 1) || (MAX_UINT64 <? dispatch_sequence) then (Raise (raise_strategy OUT_OF_RANGE), st)
  else
    match strategy_signal_submission_digest root dispatch_sequence direction with
    | Raise e => (Raise e, st)
    | Ok submitted =>
        match replay_by_dispatch st !! dispatch_sequence with
        | Some existing =>
            if bool_decide (sr_market_root_bytes existing = canonical_market_data_record_bytes root)
               && bool_decide (sr_direction existing = direction)
            then (Ok (sr_signal existing), st)
            else
              let '(e, st) := _publish_conflict st IDENTITY_REUSE dispatch_sequence
                                (Some (sg_signal_id (sr_signal existing))) (Some (sr_signal_sha256 existing))
                                submitted in
              (Raise e, st)
        | None =>
            if match last_new_dispatch_sequence (sa_public st) with
               | Some last => dispatch_sequence <=? last
               | None => false
               end
            then
              let '(e, st) := _publish_conflict st NON_MONOTONE_DISPATCH dispatch_sequence None None submitted in
              (Raise e, st)
            else
              match issue_new st root dispatch_sequence direction submitted with
              | Ok (signal, next) => (Ok signal, next)
              | Raise e => (Raise e, st)
              end
        end
    end.
End Authority.

(** ** Creation, fresh or resuming a recovered run *)

Definition create_strategy_signal_authority (run_id : RunId) (verifier : positive)
  (first_signal_sequence count : Z) (last : option Z)
   : res (StrategySignalAuthority * _AuthorityState) :=
  raise_if (first_signal_sequence <? 1) || (MAX_UINT64 <? first_signal_sequence) with raise_strategy OUT_OF_RANGE ;;
  raise_if (count <? 0) || (MAX_UINT64 <? count) with raise_strategy OUT_OF_RANGE ;;
  raise_if match last with
           | Some n => (n <? 1) || (MAX_UINT64 <? n)
           | None => false
           end with raise_strategy OUT_OF_RANGE ;;
  let* public := _create_strategy_signal_authority_state run_id false (Some first_signal_sequence) last count None in
  Ok (mkSignalAuthority run_id verifier, mkAuthorityState public ∅).
