(* ===== verification/StreamingSpec.v ===== *)
(** The specification of the live market ingress: the log of its dispatches, its steps as a relation, the invariant every step keeps, and polls as sequences of steps. *)

From Stdlib Require Import SpecFloat.
From S2P Require Import Prelude PyRegex PyText Outcomes Json Identity Chronology MarketData Economics Execution.
From S2P Require Import Messages FactAuthority MarketCodec Observation Runtime RuntimeSpec Queue Strategy Streaming.

Open Scope Z_scope.

(** *** The specification of the live market ingress: the log of its dispatches, its steps as a
    relation, and the invariant every step keeps. *)

(** A dispatch: its root, its number, and the time of the clock when it began. *)
Record dispatched : Type := mkDispatched { dp_root : stream_root; dp_sequence : Z; dp_at : datetime }.

Section Spec.
Context `{hash : Sha256} (rt : StreamingMarketRuntime) (initial : Z).
Implicit Types (st : stream_state) (log : list dispatched) (d : dispatched) (e : MarketDataEnvelope).

(** ** Steps *)

(** Every [MarketDataEnvelope] is available no earlier than its event. *)
Definition timely e : Prop := microseconds (event_time e) <= microseconds (available_at e).
Definition call_ok (x : stream_call) : Prop := match x with ReceiveMarket m => timely (envelope m) | _ => True end.

(** Calls may come at any time, also from the callback of a live dispatch. *)
Inductive stream_step : stream_state * list dispatched -> stream_state * list dispatched -> Prop :=
| step_call st log x : call_ok x -> stream_step (st, log) (called rt st x, log)
| step_idle st log c m st' : begin_poll rt st c = (m, st') -> (forall p, m <> Ok (Some p)) -> stream_step (st, log) (st', log)
| step_begin st log c root n st' : begin_poll rt st c = (Ok (Some (root, n)), st') ->
    stream_step (st, log) (st', log ++ [mkDispatched root n (_last_utc st')])
| step_return st log d : _dispatching st = true -> last log = Some d ->
    stream_step (st, log) ((poll_returned st (dp_root d)).2, log)
| step_raise st log d : _dispatching st = true -> last log = Some d ->
    stream_step (st, log) (poll_raised st (dp_root d), log).
Definition created st : Prop :=
  exists object run_id spec_set source c age stall facts capacity,
    StreamingMarketRuntime_init object run_id spec_set source c age stall facts capacity initial = Ok (rt, st).
Definition stream_reachable st log : Prop :=
  exists st0, created st0 /\ rtc stream_step (st0, []) (st, log).

(** ** What the log says *)

Definition skey (r : stream_root) : RuntimeRootOrderKey := key_of (root_of r).
Definition due (r : stream_root) (now : datetime) : Prop :=
  match r with
  | StreamMarket m => visible (envelope m) now = true
  | StreamFact i => microseconds (ingress_available_at i) <= microseconds now
  end.
(** Market events in admission order, with advancing source sequence and event time. *)
Definition before (a b : MarketDataEnvelope) : Prop :=
  py_lt (admission_order_key a) (admission_order_key b) = true /\ source_sequence a < source_sequence b /\
  microseconds (event_time a) < microseconds (event_time b).
Definition market_in (d : dispatched) : option MarketDataEnvelope :=
  match dp_root d with StreamMarket m => Some (envelope m) | StreamFact _ => None end.
Definition markets log : list MarketDataEnvelope := omap market_in log.

Definition live_market (d : dispatched) : option (market_object * str * Z) :=
  match dp_root d with
  | StreamMarket m => Some (m, canonical_market_data_record_bytes (envelope m), dp_sequence d)
  | StreamFact _ => None
  end.
Definition live_fact (d : dispatched) : option (IngressIdentity * str * str * Z) :=
  match dp_root d with
  | StreamMarket _ => None
  | StreamFact i => Some (ingress_identity_of i, canonical_execution_fact_ingress_bytes i,
                          canonical_execution_fact_bytes (ingress_fact i), dp_sequence d)
  end.
(** The dispatch that is live, if any. *)
Definition live_dispatch st log : option dispatched := if _dispatching st then last log else None.

(** The market event that waits for its dispatch. *)
Definition waiting st log : list MarketDataEnvelope :=
  match _pending_market st with
  | Some m => if match live_dispatch st log with Some d => is_market (dp_root d) | None => false end then [] else [envelope m]
  | None => []
  end.

Record stream_log st log : Prop := {
  sg_initial : 0 <= initial;
  sg_sequence : _dispatch_sequence st = initial + Z.of_nat (length log);
  sg_bound : _dispatch_sequence st <= MAX_UINT64;
  sg_numbers i d : log !! i = Some d -> dp_sequence d = initial + 1 + Z.of_nat i;
  sg_key : _last_dispatch_key st = (fun d => skey (dp_root d)) <$> last log;
  sg_live : _dispatching st = true -> log <> [];
  sg_active_market : _active_market st = live_dispatch st log ≫= live_market;
  sg_active_fact : _active_fact st = live_dispatch st log ≫= live_fact;
  sg_due : Forall (fun d => due (dp_root d) (dp_at d)) log;
  sg_times : StronglySorted (fun a b => microseconds (dp_at a) <= microseconds (dp_at b)) log;
  sg_now : Forall (fun d => microseconds (dp_at d) <= microseconds (_last_utc st)) log;
  sg_order : StronglySorted before (markets log ++ waiting st log);
  sg_last e : e ∈ markets log ++ waiting st log -> exists p, _last_market st = Some p /\ (e = p \/ before e p);
  sg_pending m : _pending_market st = Some m ->
    _phase st = RUNNING /\ _last_market st = Some (envelope m) /\ timely (envelope m);
  sg_next m k : waiting st log = [envelope m] -> _last_dispatch_key st = Some k -> py_lt k (skey (StreamMarket m)) = true;
  sg_facts : NoDup (map ingress_identity_of (_pending_facts st));
  sg_capacity : Z.of_nat (length (_pending_facts st)) <= Z.max 0 (_max_pending_facts rt);
  sg_held d i : live_dispatch st log = Some d -> dp_root d = StreamFact i -> i ∈ _pending_facts st;
  sg_closed : _phase st = CLOSED -> _dispatching st = false /\ _pending_facts st = []
}.
End Spec.

(** *** Every step of the live market ingress keeps its invariant, and polls are sequences of
    steps. *)

(** ** The strict order of keys *)

Section Strict.
Context {K} `{PyOrd K}.
Implicit Types a b c : K.

Lemma py_lt_le a b : py_lt a b = true -> py_le a b = true.
Proof. unfold py_lt. destruct (py_le_total a b) as [->| ->]; done. Qed.
Lemma py_lt_le_trans a b c : py_lt a b = true -> py_le b c = true -> py_lt a c = true.
Proof.
  unfold py_lt. intros Hab Hbc. destruct (py_le c a) eqn:Hca; [|done].
  by rewrite (py_le_trans _ _ _ Hbc Hca) in Hab.
Qed.
Lemma py_le_lt_trans a b c : py_le a b = true -> py_lt b c = true -> py_lt a c = true.
Proof.
  unfold py_lt. intros Hab Hbc. destruct (py_le c a) eqn:Hca; [|done].
  by rewrite (py_le_trans _ _ _ Hca Hab) in Hbc.
Qed.
Lemma py_lt_trans a b c : py_lt a b = true -> py_lt b c = true -> py_lt a c = true.
Proof. intros Hab Hbc. eapply py_lt_le_trans; [exact Hab|by apply py_lt_le]. Qed.
End Strict.

#[export] Instance before_trans : Transitive before.
Proof. intros x y z (A1 & A2 & A3) (B1 & B2 & B3). split_and!; [by eapply py_lt_trans|lia|lia]. Qed.

(** ** Keys *)

Section Keys.
Context `{hash : Sha256}.
Implicit Types r : stream_root.

Lemma keyed_total r : keyed r = Ok (skey r, r).
Proof. by destruct r. Qed.
Lemma skey_typed r : well_typed (skey r).
Proof. by destruct r. Qed.
Lemma market_skey (m m' : market_object) : envelope m = envelope m' -> skey (StreamMarket m) = skey (StreamMarket m').
Proof. unfold skey. cbn [root_of]. by intros ->. Qed.
Lemma rmap_keyed l : rmap keyed l = Ok (map (fun r => (skey r, r)) l).
Proof. induction l as [|r l IH]; [done|]. cbn [rmap map]. by rewrite keyed_total, IH. Qed.

Lemma root_key_le_total a b : well_typed a -> well_typed b -> root_key_le a b = Ok (py_le a b).
Proof.
  intros Ha Hb. unfold root_key_le. rewrite root_key_lt_total by done. cbn [rbind]. f_equal.
  case_bool_decide as Heq; [subst; rewrite py_le_refl; apply orb_true_r|]. rewrite orb_false_r. unfold py_lt.
  destruct (py_le b a) eqn:E; cbn [negb]; [|by destruct (py_le_total a b) as [->|?]; congruence].
  destruct (py_le a b) eqn:E'; [|done]. by destruct Heq; apply py_le_antisym.
Qed.

Definition typed_entry (x : RuntimeRootOrderKey * stream_root) : Prop := well_typed x.1.

Lemma min_keyed_total l : forall x, Forall typed_entry (x :: l) -> exists m, min_keyed x l = Ok m /\
  m ∈ x :: l /\ Forall (fun y => py_le m.1 y.1 = true) (x :: l).
Proof.
  induction l as [|y l IH]; intros x Hx; cbn [min_keyed].
  - exists x. split_and!; [done|left|]. constructor; [apply py_le_refl|done].
  - apply Forall_cons in Hx as [Hx [Hy Hl]%Forall_cons]. rewrite root_key_lt_total by done. cbn [rbind].
    destruct (py_lt y.1 x.1) eqn:E.
    + destruct (IH y) as (m & Hm & Hin & Hmin); [by constructor|]. exists m. split_and!; [done|by right|].
      constructor; [|done]. apply (py_le_trans _ y.1); [by apply (Forall_inv Hmin)|by apply py_lt_le].
    + destruct (IH x) as (m & Hm & Hin & Hmin); [by constructor|]. exists m. apply Forall_cons in Hmin as [H1 H2].
      split_and!; [done|apply elem_of_cons in Hin as [->|Hin]; [left|by right; right]|].
      constructor; [done|]. constructor; [|done]. apply (py_le_trans _ x.1); [done|].
      unfold py_lt in E. by apply negb_false_iff.
Qed.

(** A fact due by then comes before a market event available later, or at the same time. *)
Lemma fact_before_market i (m : market_object) :
  microseconds (ingress_available_at i) <= microseconds (available_at (envelope m)) ->
  py_lt (skey (StreamFact i)) (skey (StreamMarket m)) = true.
Proof.
  intros Hle. unfold py_lt, skey. cbn [root_of]. unfold key_of, runtime_root_order_key.
  change (py_le ?a ?b) with (py_le (key_tuple a) (key_tuple b)). unfold key_tuple. cbn [key_available_at key_domain_rank key_suffix].
  unfold py_le at 1, py_ord_prod. cbn [fst snd]. case_decide as He.
  - unfold py_le, py_ord_prod. cbn [fst snd RUNTIME_ROOT_DOMAIN_RANKS]. by rewrite decide_False by done.
  - rewrite py_le_datetime. apply negb_true_iff, Z.leb_gt. unfold admission_order_key in He |- *. cbn [fst] in *.
    destruct (Z.eq_dec (microseconds (available_at (envelope m))) (microseconds (ingress_available_at i))) as [E|]; [|lia].
    by apply (inj microseconds) in E.
Qed.
End Keys.

(** ** Updates that keep the invariant *)

Ltac fields := cbn [_phase _reason _pending_market _pending_facts _last_market _last_dispatch_key _active_market _active_fact
  _dispatching _dispatch_sequence _market_dispatches _fact_dispatches _heartbeat_count _failed_dispatch_kind _last_utc
  _last_mono _last_market_mono with_stop with_phase with_input with_clocks with_dispatch with_counts released].

Section Reach.
Context `{hash : Sha256} (rt : StreamingMarketRuntime) (initial : Z).
Implicit Types (st : stream_state) (log : list dispatched) (c : clocks).
#[local] Abbreviation logged := (stream_log rt initial).

Lemma live_dispatch_eq st st' log : _dispatching st' = _dispatching st -> live_dispatch st' log = live_dispatch st log.
Proof. unfold live_dispatch. by intros ->. Qed.

(** Less waits: what was ordered stays ordered. *)
Lemma sorted_prefix {A} (R : A -> A -> Prop) l k : StronglySorted R (l ++ k) -> StronglySorted R (l ++ []).
Proof. rewrite app_nil_r. apply StronglySorted_app_1_l. Qed.

Lemma stop_logged st log reason kind : logged st log -> _phase st <> CLOSED ->
  logged (with_stop st DRAINING reason kind) log.
Proof.
  intros L Hp. destruct L as [L1 L2 L3 L4 L5 L6 L7 L8 L9 L10 L11 L12 L13 L14 L15 L16 L17 L18 L19].
  split; try done.
  - change (waiting _ log) with (@nil MarketDataEnvelope). by eapply sorted_prefix.
  - intros e. change (waiting _ log) with (@nil MarketDataEnvelope). rewrite app_nil_r. intros He. apply L13.
    apply elem_of_app. by left.
Qed.
Lemma drain_logged st log reason : logged st log -> logged (_drain st reason) log.
Proof. intros L. unfold _drain. case_bool_decide as Hp; [|done]. apply stop_logged; [done|]. by rewrite Hp. Qed.
Lemma clocks_logged st log now mono n : logged st log -> microseconds (_last_utc st) <= microseconds now ->
  logged (with_clocks st now mono n) log.
Proof.
  intros L Hle. destruct L as [L1 L2 L3 L4 L5 L6 L7 L8 L9 L10 L11 L12 L13 L14 L15 L16 L17 L18 L19].
  split; try done. fields. eapply Forall_impl; [exact L11|]. intros d Hd. cbn in Hd. lia.
Qed.

Lemma heartbeat_cases st c : (heartbeat rt st c).2 = st \/
  exists now mono n, microseconds (_last_utc st) <= microseconds now /\
    ((heartbeat rt st c).2 = with_clocks st now mono n \/
     (heartbeat rt st c).2 = _drain (with_clocks st now mono n) SOURCE_STALLED).
Proof.
  unfold heartbeat. destruct (bool_decide _); [by left|]. unfold _sample.
  destruct (require_utc _ _) as [now|e]; [|by left]. cbn [rbind]. destruct (_read_monotonic _) as [mono|e]; [|by left].
  cbn [rbind]. destruct (_ || _) eqn:E; [by left|]. apply orb_false_iff in E as [E _]. right.
  exists now, mono, (_heartbeat_count st + 1). split; [lia|]. destruct (_ && _); [by right|by left].
Qed.
Lemma heartbeat_logged st log c : logged st log -> logged (heartbeat rt st c).2 log.
Proof.
  intros L. destruct (heartbeat_cases st c) as [->|(now & mono & n & Hle & [->| ->])]; [done| |apply drain_logged];
    by apply clocks_logged.
Qed.

(** ** Input *)

Lemma follows_before p e : follows p e = Ok tt -> before p e.
Proof.
  unfold follows, before, py_lt. destruct (_ =? _) eqn:E1; [done|]. destruct (bool_decide _); [done|].
  destruct (_ || _) eqn:E2; [done|]. destruct (_ && _); [done|]. destruct (_ <=? _) eqn:E3; [done|]. intros _.
  apply orb_false_iff in E2 as [E2 E4]. split_and!; [|lia|lia]. apply negb_true_iff. exact E4.
Qed.

Lemma not_live_waiting st log : _dispatching st = false -> waiting st log =
  match _pending_market st with Some m => [envelope m] | None => [] end.
Proof. unfold waiting, live_dispatch. by intros ->. Qed.

Lemma sorted_snoc {A} (R : A -> A -> Prop) l x : StronglySorted R l -> (forall y, y ∈ l -> R y x) -> StronglySorted R (l ++ [x]).
Proof.
  intros Hs Hx. induction Hs as [|y l Hs IH Hy]; cbn; [repeat constructor|]. constructor.
  - apply IH. intros z Hz. apply Hx. by right.
  - apply Forall_app. split; [done|]. constructor; [|done]. apply Hx. left.
Qed.

Lemma receive_logged st log m st' : logged st log -> timely (envelope m) -> receive_market rt st m = Ok st' -> logged st' log.
Proof.
  intros L Htimely. unfold receive_market. destruct (negb (bool_decide (_phase st = RUNNING)) || _) eqn:E1; [done|].
  apply orb_false_iff in E1 as [E1 Hnd]. apply negb_false_iff, bool_decide_eq_true in E1.
  destruct (negb (bool_decide (source _ = _))); [done|]. destruct (_pending_market st) as [|] eqn:Hpend; [done|]. cbn [absent negb].
  intros H. apply rbind_Ok in H as ([] & Hfol & H). cbn [runtime_root_order_key rbind] in H.
  apply rbind_Ok in H as (early & Hkey & H). destruct early; [done|]. apply Ok_inj in H as <-.
  pose proof (not_live_waiting st log Hnd) as Hw. rewrite Hpend in Hw.
  destruct L as [L1 L2 L3 L4 L5 L6 L7 L8 L9 L10 L11 L12 L13 L14 L15 L16 L17 L18 L19]. rewrite Hw, app_nil_r in *.
  assert (forall e, e ∈ markets log -> before e (envelope m)) as Hall.
  { intros e He. destruct (L13 e) as (p & Hp & Hb); [done|]. rewrite Hp in Hfol. apply follows_before in Hfol.
    destruct Hb as [->|Hb]; [done|]. by etrans. }
  split; try done; rewrite ?not_live_waiting by done; fields.
  - by apply sorted_snoc.
  - intros e [He| ->%list_elem_of_singleton]%elem_of_app; eexists; (split; [done|]); auto.
  - by intros m' [= <-].
  - intros m' k [= He] Hk. rewrite <-(market_skey _ _ He). rewrite Hk in Hkey. change (mkRootKey _ _ _) with (skey (StreamMarket m)) in Hkey.
    assert (well_typed k) as Hwt.
    { rewrite L5 in Hk. apply fmap_Some in Hk as (d & _ & ->). apply skey_typed. }
    rewrite root_key_le_total in Hkey by (done || apply skey_typed). apply Ok_inj in Hkey. unfold py_lt. by rewrite Hkey.
Qed.

Lemma enqueue_logged st log issued i st' : logged st log -> enqueue_fact rt st issued i = Ok st' -> logged st' log.
Proof.
  intros L. unfold enqueue_fact. case_bool_decide as Hp; [done|]. destruct (_fact_source rt) as [source|]; [|done].
  destruct (_max_pending_facts rt <=? _) eqn:Hcap; [done|]. destruct (_ || _); [done|].
  destruct (existsb _ _) eqn:Hex; [done|]. intros [= <-].
  destruct L as [L1 L2 L3 L4 L5 L6 L7 L8 L9 L10 L11 L12 L13 L14 L15 L16 L17 L18 L19].
  split; try done; fields.
  - rewrite map_app. apply NoDup_app. split_and!; [done| |apply NoDup_singleton].
    intros x Hx ->%list_elem_of_singleton. apply list_elem_of_In, in_map_iff in Hx as (y & Hy & Hin).
    apply not_true_iff_false in Hex. destruct Hex. apply existsb_exists. exists y. split; [done|]. by apply bool_decide_eq_true.
  - rewrite length_app. cbn [length]. lia.
  - intros d i' Hd Hr. apply elem_of_app. left. by apply (L18 d).
Qed.

Lemma close_logged st log : logged st log -> logged (close st).2 log.
Proof.
  intros L. unfold close. destruct (_dispatching st) eqn:Hd; [done|].
  pose proof (drain_logged _ _ STOP_REQUESTED L) as L'. destruct (_pending_facts _) as [|f l] eqn:Hf; [|done]. cbn [snd].
  assert (_dispatching (_drain st STOP_REQUESTED) = false) as Hd' by (unfold _drain; by destruct (bool_decide _)).
  assert (_pending_market (_drain st STOP_REQUESTED) = None) as Hm.
  { unfold _drain. case_bool_decide as Hp; [done|]. destruct (_pending_market st) as [m|] eqn:E; [|done].
    by destruct (sg_pending _ _ _ _ L m E). }
  destruct L' as [L1 L2 L3 L4 L5 L6 L7 L8 L9 L10 L11 L12 L13 L14 L15 L16 L17 L18 L19].
  split; try done. fields. intros m. by rewrite Hm.
Qed.

Lemma called_logged st log x : logged st log -> call_ok x -> logged (called rt st x) log.
Proof.
  intros L Hx. destruct x as [c| | |m|issued i| | |]; cbn [called].
  - by apply heartbeat_logged.
  - unfold fail_source. case_bool_decide; [done|]. by apply stop_logged.
  - unfold fail_heartbeat_callback. case_bool_decide; [done|]. by apply stop_logged.
  - destruct (receive_market rt st m) eqn:E; [|done]. by eapply receive_logged.
  - destruct (enqueue_fact rt st issued i) eqn:E; [|done]. by eapply enqueue_logged.
  - by apply drain_logged.
  - by apply drain_logged.
  - by apply close_logged.
Qed.

(** ** Dispatch *)

Lemma eligible_market_cases st now m st' : eligible_market rt st now = (m, st') ->
  (st' = st \/ st' = _drain st STALE_MARKET) /\
  match m with
  | Some m => st' = st /\ _phase st = RUNNING /\ _pending_market st = Some m /\ visible (envelope m) now = true
  | None => forall p, _pending_market st' = Some p -> _phase st' = RUNNING -> visible (envelope p) now = false
  end.
Proof.
  unfold eligible_market. case_bool_decide as Hp.
  2:{ intros [= <- <-]. split; [by left|]. by intros p _ Hr. }
  destruct (_pending_market st) as [p|] eqn:Hm; [|intros [= <- <-]; split; [by left|]; by intros p; rewrite Hm].
  destruct (visible (envelope p) now) eqn:Hv.
  2:{ intros [= <- <-]. split; [by left|]. intros p' Hp' _. by assert (p' = p) as -> by congruence. }
  destruct (SFltb _ _); intros [= <- <-].
  - split; [by right|]. unfold _drain. rewrite bool_decide_true by done. done.
  - split; [by left|]. done.
Qed.

(** What a poll that dispatches found: the least of what is due. *)
Record chosen st st1 c root n st' : Prop := {
  ch_state : st1 = (heartbeat rt st c).2 \/ st1 = _drain (heartbeat rt st c).2 STALE_MARKET;
  ch_idle : _dispatching st1 = false;
  ch_open : _phase st1 <> CLOSED;
  ch_number : n = _dispatch_sequence st1 + 1 /\ n <= MAX_UINT64;
  ch_leased : st' = leased st1 (skey root) root;
  ch_now : _last_utc st1 = _last_utc st';
  ch_root : match root with
            | StreamMarket m => _phase st1 = RUNNING /\ _pending_market st1 = Some m /\ visible (envelope m) (_last_utc st1) = true
            | StreamFact i => i ∈ eligible_facts st1 (_last_utc st1)
            end;
  ch_least_fact i : i ∈ eligible_facts st1 (_last_utc st1) -> py_le (skey root) (skey (StreamFact i)) = true;
  ch_least_market m : _pending_market st1 = Some m -> _phase st1 = RUNNING ->
    visible (envelope m) (_last_utc st1) = true -> py_le (skey root) (skey (StreamMarket m)) = true
}.

Lemma heartbeat_keeps st c : _dispatching (heartbeat rt st c).2 = _dispatching st /\
  _dispatch_sequence (heartbeat rt st c).2 = _dispatch_sequence st /\
  _pending_facts (heartbeat rt st c).2 = _pending_facts st /\
  (_phase st <> CLOSED -> _phase (heartbeat rt st c).2 <> CLOSED).
Proof.
  destruct (heartbeat_cases st c) as [->|(now & mono & n & _ & [->| ->])]; [done|done|].
  unfold _drain. by case_bool_decide.
Qed.
Lemma heartbeat_fst st c : heartbeat rt st c = ((heartbeat rt st c).1, (heartbeat rt st c).2).
Proof. by destruct (heartbeat rt st c). Qed.

Lemma drain_keeps st reason : _dispatching (_drain st reason) = _dispatching st /\
  _dispatch_sequence (_drain st reason) = _dispatch_sequence st /\ _pending_facts (_drain st reason) = _pending_facts st /\
  _last_utc (_drain st reason) = _last_utc st /\ _last_dispatch_key (_drain st reason) = _last_dispatch_key st /\
  (_phase st <> CLOSED -> _phase (_drain st reason) <> CLOSED).
Proof. unfold _drain. by case_bool_decide. Qed.

(** Why a poll may dispatch nothing: [None] when nothing is due, else it refuses. *)
Definition idle st c : Prop :=
  let beat := heartbeat rt st c in
  _phase st = CLOSED \/ _dispatching st = true \/ is_ok beat.1 = false \/ MAX_UINT64 <= _dispatch_sequence st \/
  ((eligible_market rt beat.2 (_last_utc beat.2)).1 = None /\ eligible_facts beat.2 (_last_utc beat.2) = []).

(** A poll refuses, finds nothing, or dispatches the least root that is due. *)
Lemma begin_poll_cases st log c m st' : logged st log -> begin_poll rt st c = (m, st') ->
  ((forall p, m <> Ok (Some p)) /\ logged st' log /\ idle st c) \/
  exists root n st1, m = Ok (Some (root, n)) /\ logged st1 log /\ chosen st st1 c root n st'.
Proof.
  intros L. unfold begin_poll. case_bool_decide as Hc; [intros [= <- <-]; left; split_and!; [done|done|unfold idle; auto]|].
  destruct (_dispatching st) eqn:Hd; [intros [= <- <-]; left; split_and!; [done|done|unfold idle; auto]|].
  pose proof (heartbeat_logged st log c L) as Lh. destruct (heartbeat_keeps st c) as (K1 & K2 & K3 & K4).
  rewrite (heartbeat_fst st c). set (sh := (heartbeat rt st c).2) in *.
  destruct (heartbeat rt st c).1 as [status|e] eqn:Hbeat; [|intros [= <- <-]; left; split_and!; [done|done|unfold idle; rewrite Hbeat; auto]].
  destruct (eligible_market rt sh (_last_utc sh)) as [market st1] eqn:Hm.
  destruct (eligible_market_cases _ _ _ _ Hm) as [Hst1 Hmk].
  assert (_last_utc st1 = _last_utc sh /\ _dispatching st1 = false /\ _phase st1 <> CLOSED /\ logged st1 log /\
    _pending_facts st1 = _pending_facts sh /\ _dispatch_sequence st1 = _dispatch_sequence sh) as (U & D & P & L1 & F & Q).
  { destruct Hst1 as [->| ->]; [split_and!; try done; [congruence|by apply K4]|].
    destruct (drain_keeps sh STALE_MARKET) as (G1 & G2 & G3 & G4 & _ & G6).
    split_and!; [done|congruence|by apply G6, K4|by apply drain_logged|done|done]. }
  assert ((eligible_market rt sh (_last_utc sh)).1 = market) as Hem by by rewrite Hm.
  assert (eligible_facts st1 (_last_utc sh) = eligible_facts sh (_last_utc sh)) as Hef by (unfold eligible_facts; by rewrite F).
  rewrite <-U in *. set (roots := _ ++ _). rewrite rmap_keyed. destruct roots as [|r roots'] eqn:Hroots.
  { intros [= <- <-]. left. split_and!; [done|done|]. do 4 right. fold sh. rewrite <-U, Hem, <-Hef.
    apply app_eq_nil in Hroots as [H1 H2]. split; [by destruct market|]. by apply map_eq_nil in H2. }
  cbn [map]. destruct (min_keyed_total (map (fun r => (skey r, r)) roots') (skey r, r)) as ([key root] & -> & Hin & Hmin).
  { apply Forall_forall. intros x Hx. change ((skey r, r) :: map (fun r => (skey r, r)) roots') with (map (fun r => (skey r, r)) (r :: roots')) in Hx.
    apply list_elem_of_In, in_map_iff in Hx as (y & <- & _). apply skey_typed. }
  change ((skey r, r) :: map (fun r => (skey r, r)) roots') with (map (fun r => (skey r, r)) (r :: roots')) in Hin, Hmin.
  rewrite <-Hroots in Hin, Hmin. clear Hroots r roots'.
  apply list_elem_of_In, in_map_iff in Hin as (root' & [= <- <-] & Hin%list_elem_of_In). rename root' into root.
  assert (forall y, y ∈ roots -> py_le (skey root) (skey y) = true) as Hleast.
  { intros y Hy. rewrite Forall_forall in Hmin. apply (Hmin (skey y, y)). by apply list_elem_of_In, (in_map (fun r => (skey r, r))), list_elem_of_In. }
  assert (match root with
          | StreamMarket m => _phase st1 = RUNNING /\ _pending_market st1 = Some m /\ visible (envelope m) (_last_utc st1) = true
          | StreamFact i => i ∈ eligible_facts st1 (_last_utc st1)
          end) as Hroot.
  { apply elem_of_app in Hin as [Hin|Hin].
    - destruct market as [mk|]; [|by apply not_elem_of_nil in Hin]. apply list_elem_of_singleton in Hin as ->.
      destruct Hmk as (-> & ? & ? & ?). done.
    - apply list_elem_of_In, in_map_iff in Hin as (i & <- & Hi). by apply list_elem_of_In. }
  assert (forall m, _pending_market st1 = Some m -> _phase st1 = RUNNING -> visible (envelope m) (_last_utc st1) = true ->
    market = Some m) as Hmarket.
  { intros mk H1 H2 H3. destruct market as [mk'|]; [destruct Hmk as (-> & _ & ? & _); congruence|].
    by rewrite (Hmk mk) in H3. }
  assert ((if is_market root then match _last_dispatch_key st1 with Some last => root_key_le (skey root) last | None => Ok false end
           else Ok false) = Ok false) as ->.
  { destruct root as [mk|i]; [|done]. cbn [is_market]. destruct (_last_dispatch_key st1) as [k|] eqn:Hk; [|done].
    assert (well_typed k) by (rewrite (sg_key _ _ _ _ L1) in Hk; apply fmap_Some in Hk as (d & _ & ->); apply skey_typed).
    rewrite root_key_le_total by (done || apply skey_typed). f_equal. destruct Hroot as (_ & Hp & _).
    pose proof (sg_next _ _ _ _ L1 mk k) as Hnext. rewrite not_live_waiting, Hp in Hnext by done.
    specialize (Hnext eq_refl Hk). unfold py_lt in Hnext. by apply negb_true_iff. }
  destruct (MAX_UINT64 <=? _dispatch_sequence st1) eqn:Hseq; intros [= <- <-].
  { left. split_and!; [done|by apply drain_logged|]. do 3 right. left. rewrite <-K2, <-Q. lia. }
  right. exists root, (_dispatch_sequence st1 + 1), st1. split_and!; [done|done|]. split; try done.
  - lia.
  - by destruct root.
  - intros i Hi. apply Hleast. apply elem_of_app. right. by apply list_elem_of_In, in_map, list_elem_of_In.
  - intros mk H1 H2 H3. apply Hleast. apply elem_of_app. left. rewrite (Hmarket mk H1 H2 H3). left.
Qed.

Lemma elem_of_eligible st now i : i ∈ eligible_facts st now <->
  i ∈ _pending_facts st /\ microseconds (ingress_available_at i) <= microseconds now.
Proof. unfold eligible_facts. rewrite !list_elem_of_In, filter_In, Z.leb_le. done. Qed.

Lemma waiting_pending st log e : e ∈ waiting st log -> exists m, _pending_market st = Some m /\ e = envelope m.
Proof.
  unfold waiting. destruct (_pending_market st) as [m|]; [|by intros ?%not_elem_of_nil].
  destruct (match _ with Some _ => _ | None => _ end); [by intros ?%not_elem_of_nil|].
  intros ->%list_elem_of_singleton. by exists m.
Qed.

Lemma fact_not_market i (m : market_object) : skey (StreamFact i) <> skey (StreamMarket m).
Proof. done. Qed.

(** The order of what was dispatched and waits is that before the dispatch. *)
Lemma leased_order st1 log root n now : logged st1 log -> _dispatching st1 = false ->
  match root with StreamMarket m => _pending_market st1 = Some m | StreamFact i => True end ->
  let d := mkDispatched root n now in
  markets (log ++ [d]) ++ waiting (leased st1 (skey root) root) (log ++ [d]) = markets log ++ waiting st1 log.
Proof.
  intros L D Hroot d. unfold markets. rewrite omap_app. rewrite (not_live_waiting st1) by done.
  destruct root as [m|i]; unfold waiting, live_dispatch; fields; cbn [leased with_dispatch _dispatching _pending_market];
    rewrite last_snoc; cbn [d dp_root is_market omap list_omap market_in].
  - rewrite Hroot. by rewrite app_nil_r.
  - by rewrite app_nil_r.
Qed.

Lemma leased_logged st st1 log c root n st' : logged st1 log -> chosen st st1 c root n st' ->
  logged st' (log ++ [mkDispatched root n (_last_utc st')]).
Proof.
  intros L [_ D P [-> Hmax] -> U Hroot Hfact Hmarket]. set (n := _dispatch_sequence st1 + 1) in *.
  set (st' := leased st1 (skey root) root) in *. set (d := mkDispatched root n (_last_utc st')).
  assert (live_dispatch st' (log ++ [d]) = Some d) as Hlive.
  { unfold live_dispatch. rewrite last_snoc. by destruct root. }
  assert (markets (log ++ [d]) ++ waiting st' (log ++ [d]) = markets log ++ waiting st1 log) as Hord.
  { apply leased_order; [done|done|]. by destruct root; [destruct Hroot as (_ & ? & _)|]. }
  pose proof (sg_next _ _ _ _ L) as Hnext. pose proof (sg_pending _ _ _ _ L) as Hpend.
  destruct L as [L1 L2 L3 L4 L5 L6 L7 L8 L9 L10 L11 L12 L13 L14 L15 L16 L17 L18 L19].
  assert (due root (_last_utc st1)) as Hdue.
  { destruct root as [m|i]; [by destruct Hroot as (_ & _ & ?)|by apply elem_of_eligible in Hroot as [_ ?]]. }
  split.
  - done.
  - rewrite length_app. assert (_dispatch_sequence st' = n) as -> by by destruct root. cbn [length]. lia.
  - by assert (_dispatch_sequence st' = n) as -> by by destruct root.
  - intros i d' [Hi|[Hle Hi]]%lookup_app_Some; [by apply L4|]. apply list_lookup_singleton_Some in Hi as [Hi <-].
    cbn [d dp_sequence]. subst n. lia.
  - rewrite last_snoc. by destruct root.
  - intros _ H. by apply (app_cons_not_nil log [] d).
  - rewrite Hlive. by destruct root.
  - rewrite Hlive. by destruct root.
  - apply Forall_app. split; [done|]. constructor; [|done]. cbn [d dp_root dp_at]. by rewrite <-U.
  - apply sorted_snoc; [done|]. intros y Hy. rewrite Forall_forall in L11. cbn [d dp_at]. rewrite <-U. by apply L11.
  - rewrite <-U. apply Forall_app. split; [done|]. constructor; [|done]. cbn [d dp_at]. by rewrite <-U.
  - by rewrite Hord.
  - intros e. rewrite Hord. intros He. destruct (L13 e He) as (p & Hp & Hb). exists p. split; [by destruct root|done].
  - intros m Hm. assert (_pending_market st1 = Some m) as Hm' by by destruct root. destruct (L14 m Hm') as (? & ? & ?). by destruct root.
  - intros m k Hw Hk. assert (k = skey root) as -> by (destruct root; by injection Hk). destruct root as [m'|i].
    { unfold waiting in Hw. rewrite Hlive in Hw. cbn [d dp_root is_market] in Hw. by destruct (_pending_market st'). }
    assert (envelope m ∈ waiting st' (log ++ [d])) as Hin by (rewrite Hw; left).
    apply waiting_pending in Hin as (m' & Hm' & He). rewrite (market_skey _ _ He).
    destruct (L14 m' Hm') as (Hrun & _ & Htimely). destruct (visible (envelope m') (_last_utc st1)) eqn:Hv.
    + pose proof (Hmarket m' Hm' Hrun Hv) as Hle. unfold py_lt.
      destruct (py_le (skey (StreamMarket m')) (skey (StreamFact i))) eqn:Hge; [|done].
      by destruct (fact_not_market i m'); apply py_le_antisym.
    + apply fact_before_market. unfold visible, timely in *. apply elem_of_eligible in Hroot as [_ Hi].
      apply andb_false_iff in Hv as [Hv|Hv]; lia.
  - by destruct root.
  - by destruct root.
  - intros d' i. rewrite Hlive. intros [= <-] Hr. cbn [d dp_root] in Hr. subst root. apply elem_of_eligible in Hroot as [? _]. done.
  - intros Hc. by destruct root.
Qed.

(** ** The end of a dispatch *)

Lemma remove_first_Some i l l' : remove_first i l = Some l' -> exists l1 l2, l = l1 ++ i :: l2 /\ l' = l1 ++ l2.
Proof.
  revert l'. induction l as [|x l IH]; intros l'; [done|]. cbn [remove_first]. case_bool_decide as Hx.
  - intros [= <-]. exists [], l. by rewrite Hx.
  - intros (k & Hk & ->)%fmap_Some. destruct (IH k Hk) as (l1 & l2 & -> & ->). by exists (x :: l1), l2.
Qed.
Lemma remove_first_defined i l : i ∈ l -> is_Some (remove_first i l).
Proof.
  induction l as [|x l IH]; intros Hi; [by apply not_elem_of_nil in Hi|]. cbn [remove_first].
  case_bool_decide as Hx; [by eexists|]. apply elem_of_cons in Hi as [->|Hi]; [done|].
  destruct (IH Hi) as [k ->]. by eexists.
Qed.

Lemma raised_logged st log d : logged st log -> _dispatching st = true -> last log = Some d ->
  logged (poll_raised st (dp_root d)) log.
Proof.
  intros L Hd Hl. assert (_phase st <> CLOSED) as Hp.
  { intros Hc. destruct (sg_closed _ _ _ _ L Hc). congruence. }
  apply (stop_logged st log CALLBACK_ERROR (Some (if is_market (dp_root d) then "market" else "fact")%string)) in L; [|done].
  unfold poll_raised. set (st1 := with_stop _ _ _ _) in *.
  assert (waiting st1 log = []) as Hw by done. assert (waiting (released st1) log = []) as Hw' by done.
  destruct L as [L1 L2 L3 L4 L5 L6 L7 L8 L9 L10 L11 L12 L13 L14 L15 L16 L17 L18 L19].
  split; try done.
Qed.

(** The last root is the one a live dispatch is about. *)
Lemma returned_market_logged st log d m : logged st log -> _dispatching st = true -> last log = Some d ->
  dp_root d = StreamMarket m -> logged (poll_returned st (StreamMarket m)).2 log.
Proof.
  intros L Hd Hl Hr. cbn [poll_returned snd]. set (st' := released _).
  assert (waiting st' log = []) as Hw by done.
  destruct L as [L1 L2 L3 L4 L5 L6 L7 L8 L9 L10 L11 L12 L13 L14 L15 L16 L17 L18 L19].
  split; try done.
  - rewrite Hw. by eapply sorted_prefix.
  - intros e. rewrite Hw, app_nil_r. intros He. apply L13. apply elem_of_app. by left.
  - intros Hc. destruct (L19 Hc). done.
Qed.
Lemma returned_fact_logged st log d i : logged st log -> _dispatching st = true -> last log = Some d ->
  dp_root d = StreamFact i -> exists facts, remove_first i (_pending_facts st) = Some facts /\
  logged (poll_returned st (StreamFact i)).2 log.
Proof.
  intros L Hd Hl Hr. assert (live_dispatch st log = Some d) as Hlive by (unfold live_dispatch; by rewrite Hd).
  destruct (remove_first_defined i (_pending_facts st)) as [facts Hf]; [by eapply (sg_held _ _ _ _ L)|].
  exists facts. split; [done|]. cbn [poll_returned]. rewrite Hf. cbn [snd]. set (st' := released _).
  assert (waiting st' log = waiting st log) as Hw.
  { unfold waiting, live_dispatch. cbn [st' released with_dispatch _pending_market with_counts with_input _dispatching].
    by rewrite Hd, Hl, Hr. }
  destruct (remove_first_Some _ _ _ Hf) as (l1 & l2 & El & Ef).
  destruct L as [L1 L2 L3 L4 L5 L6 L7 L8 L9 L10 L11 L12 L13 L14 L15 L16 L17 L18 L19].
  split; try done; rewrite ?Hw; try done.
  - cbn [st' released with_dispatch _pending_facts with_counts with_input]. rewrite El, map_app in L16. cbn [map] in L16.
    rewrite Ef, map_app. by apply NoDup_app in L16 as (N1 & N2 & [_ N3]%NoDup_cons); apply NoDup_app; split_and!;
      [|intros x Hx Hx2; apply (N2 x Hx); right|].
  - cbn [st' released with_dispatch _pending_facts with_counts with_input].
    rewrite El, length_app in L17. cbn [length] in L17. rewrite Ef, length_app. lia.
  - intros Hc. destruct (L19 Hc). congruence.
Qed.

Lemma returned_logged st log d : logged st log -> _dispatching st = true -> last log = Some d ->
  logged (poll_returned st (dp_root d)).2 log.
Proof.
  intros L Hd Hl. destruct (dp_root d) as [m|i] eqn:Hr; [by eapply returned_market_logged|].
  by destruct (returned_fact_logged st log d i L Hd Hl Hr) as (_ & _ & ?).
Qed.

(** ** Reachable states *)

Lemma step_logged p q : stream_step rt p q -> logged p.1 p.2 -> logged q.1 q.2.
Proof.
  intros H. destruct H as [st log x Hx|st log c m st' Hb Hm|st log c root n st' Hb|st log d Hd Hl|st log d Hd Hl];
    cbn [fst snd]; intros L.
  - by apply called_logged.
  - destruct (begin_poll_cases _ _ _ _ _ L Hb) as [(_ & ? & _)|(root & n & st1 & -> & _)]; [done|]. by destruct (Hm (root, n)).
  - destruct (begin_poll_cases _ _ _ _ _ L Hb) as [(Hn & _)|(root' & n' & st1 & [= <- <-] & L1 & Hc)]; [by destruct (Hn (root, n))|].
    by eapply leased_logged.
  - by apply returned_logged.
  - by apply raised_logged.
Qed.

Lemma stream_created_logged st : created rt initial st -> logged st [].
Proof.
  intros (object & run_id & spec_set & source & c & age & stall & facts & capacity & H).
  unfold StreamingMarketRuntime_init in H. destruct (negb _) eqn:E1; [done|]. destruct (negb (positive_float age)); [done|].
  destruct (negb (positive_float stall)); [done|]. destruct (capacity <? 1) eqn:E2; [done|].
  destruct (match facts with Some _ => _ | None => _ end); [done|].
  apply rbind_Ok in H as (now & _ & H). apply rbind_Ok in H as (mono & _ & H). injection (Ok_inj _ _ H) as <- <-.
  apply negb_false_iff, andb_true_iff in E1 as [E1 E3].
  split; try done; fields; cbn [length]; try lia; try (by constructor).
  - intros e ?%not_elem_of_nil. done.
Qed.

Lemma steps_logged p q : rtc (stream_step rt) p q -> logged p.1 p.2 -> logged q.1 q.2.
Proof. induction 1 as [p|p q r Hs _ IH]; intros L; [done|]. apply IH. by eapply step_logged. Qed.
Lemma stream_reachable_logged st log : stream_reachable rt initial st log -> logged st log.
Proof. intros (st0 & Hc & Hr). apply (steps_logged _ _ Hr). by apply stream_created_logged. Qed.

(** ** Polls are steps *)

Lemma calls_steps st log xs : Forall call_ok xs -> rtc (stream_step rt) (st, log) (fold_left (called rt) xs st, log).
Proof.
  revert st. induction xs as [|x xs IH]; intros st Hxs; [apply rtc_refl|]. apply Forall_cons in Hxs as [Hx Hxs].
  eapply rtc_l; [by apply (step_call _ _ _ x)|]. by apply IH.
Qed.

(** The callbacks of a dispatch do not end it. *)
Lemma called_dispatching st x : _dispatching st = true -> _dispatching (called rt st x) = true.
Proof.
  intros Hd. destruct x as [c| | |m|issued i| | |]; cbn [called].
  - by destruct (heartbeat_keeps st c) as (-> & _).
  - unfold fail_source. by case_bool_decide.
  - unfold fail_heartbeat_callback. by case_bool_decide.
  - destruct (receive_market rt st m) as [st'|] eqn:E; [|done]. unfold receive_market in E.
    by rewrite Hd, orb_true_r in E.
  - destruct (enqueue_fact rt st issued i) as [st'|] eqn:E; [|done]. unfold enqueue_fact in E. res_inv E.
    by injection E as <-.
  - unfold request_stop. by destruct (drain_keeps st STOP_REQUESTED) as (-> & _).
  - unfold mark_source_exhausted. by destruct (drain_keeps st SOURCE_EXHAUSTED) as (-> & _).
  - unfold close. by rewrite Hd.
Qed.
Lemma calls_dispatching st xs : _dispatching st = true -> _dispatching (fold_left (called rt) xs st) = true.
Proof. revert st. induction xs as [|x xs IH]; intros st Hd; [done|]. apply IH. by apply called_dispatching. Qed.

Lemma poll_steps st log c on_root m st' : (forall r n, Forall call_ok (cb_calls (on_root r n))) ->
  logged st log -> poll rt st c on_root = (m, st') ->
  exists new, (length new <= 1)%nat /\ rtc (stream_step rt) (st, log) (st', log ++ new).
Proof.
  intros Hcb L. unfold poll. destruct (begin_poll rt st c) as [[[[root n]|]|e] st1] eqn:Hb.
  - intros H. exists [mkDispatched root n (_last_utc st1)]. split; [done|].
    set (d := mkDispatched root n (_last_utc st1)) in *.
    eapply rtc_l; [by apply (step_begin _ _ _ _ _ _ _ Hb)|]. fold d.
    etransitivity; [apply (calls_steps _ _ (cb_calls (on_root root n))), Hcb|].
    assert (_dispatching (fold_left (called rt) (cb_calls (on_root root n)) st1) = true) as Hd.
    { apply calls_dispatching. destruct (begin_poll_cases _ _ _ _ _ L Hb) as [(Hn & _)|(r' & n' & s' & [= <- <-] & _ & Hc)];
        [by destruct (Hn (root, n))|]. rewrite (ch_leased _ _ _ _ _ _ Hc). by destruct root. }
    assert (last (log ++ [d]) = Some d) as Hl by by rewrite last_snoc.
    destruct (cb_raises (on_root root n)).
    + injection H as <- <-. eapply rtc_once. by apply (step_raise _ _ _ d).
    + assert (st' = (poll_returned (fold_left (called rt) (cb_calls (on_root root n)) st1) root).2) as -> by by rewrite H.
      eapply rtc_once. by apply (step_return _ _ _ d).
  - intros [= <- <-]. exists []. split; [cbn; lia|]. rewrite app_nil_r. eapply rtc_once. by apply (step_idle _ _ _ c (Ok None)).
  - intros [= <- <-]. exists []. split; [cbn; lia|]. rewrite app_nil_r. eapply rtc_once. by apply (step_idle _ _ _ c (Raise e)).
Qed.
End Reach.
