(* ===== verification/StrategySpec.v ===== *)
(** The signal authority: its specification, and its calls and reachable states against it. *)

From S2P Require Import Prelude PyRegex PyText Outcomes Json Identity Numbering Indexing Chronology MarketData.
From S2P Require Import Economics Execution Messages Canonical MarketCodec Runtime Strategy StrategyAuthority.

Open Scope Z_scope.

(** *** The specification of the signal authority: the log of the dispatches it took, the state
    as a function of the log, and one call of [issue] as a relation. *)

(** A dispatch that became a signal. *)
Record taken : Type := mkTaken { tk_root : MarketDataEnvelope; tk_dispatch : Z; tk_direction : SignalDirection }.

Section Spec.
Context `{hash : Sha256} (a : StrategySignalAuthority) (first count : Z) (start : option Z).
(** Which dispatches are live, at some time of the run. *)
Context (live : MarketDataEnvelope -> Z -> Prop).
Implicit Types (st : _AuthorityState) (log : list taken) (n : Z) (d : SignalDirection).

(** The signal of a dispatch, under its number. *)
Definition signal_of (t : taken) (i : nat) : StrategySignal :=
  mkSignal (sa_run_id a) (id_from (sa_run_id a) STRATEGY_SIGNAL first i) (bar_instrument (payload (tk_root t)))
    (tk_direction t) (causal_market_digest (tk_root t)) (available_at (tk_root t)) (tk_dispatch t).
Definition submission_of (t : taken) : Sha256Digest :=
  let market_bytes := canonical_market_data_record_bytes (tk_root t) in
  let direction_bytes := chars (direction_value (tk_direction t)) in
  _digest (domain "ea.phase1-strategy-signal-submission.v1")
    (to_bytes_big 8 (Z.of_nat (length market_bytes)) ++ market_bytes ++ to_bytes_big 8 (tk_dispatch t)
     ++ to_bytes_big 8 (Z.of_nat (length direction_bytes)) ++ direction_bytes).
Definition record_of (t : taken) (i : nat) : _ReplayRecord :=
  let bytes := encode_json (_signal_document (signal_of t i)) in
  mkSignalRecord (canonical_market_data_record_bytes (tk_root t)) (tk_direction t) (submission_of t) (signal_of t i)
    bytes (_digest (domain "ea.phase1-strategy-signal.v1") bytes).

(** Numbers a fresh or resumed authority starts from. *)
Record frontier_ok : Prop := {
  fr_first : 1 <= first <= MAX_UINT64;
  fr_count : 0 <= count <= MAX_UINT64;
  fr_start : match start with Some n => 1 <= n <= MAX_UINT64 | None => True end
}.

(** What a state holds after a log. *)
Record signal_log (st : _AuthorityState) (log : list taken) : Prop := {
  sl_frontier : frontier_ok;
  sl_replay n r : replay_by_dispatch st !! n = Some r <->
    exists i t, log !! i = Some t /\ tk_dispatch t = n /\ r = record_of t i;
  sl_next : signal_next (sa_public st) = number_after first (length log);
  sl_bound : first + Z.of_nat (length log) <= MAX_UINT64 + 1;
  sl_last : last_new_dispatch_sequence (sa_public st) = last_taken start (map tk_dispatch log);
  sl_count : issuance_count (sa_public st) = count + Z.of_nat (length log);
  sl_count_bound : count + Z.of_nat (length log) <= MAX_UINT64;
  sl_order : in_order start (map tk_dispatch log);
  sl_live : Forall (fun t => 1 <= tk_dispatch t <= MAX_UINT64 /\
                             live (tk_root t) (tk_dispatch t)) log;
  sl_halt : ss_halted (sa_public st) = negb (absent (ss_conflict (sa_public st)));
  sl_run : ss_run_id (sa_public st) = sa_run_id a
}.

(** The state after a conflict: halted, with the evidence of the first one. *)
Definition conflict_of (st : _AuthorityState) (kind : AuthorityConflictKind) (t : taken)
  (existing : option _ReplayRecord) : AuthorityConflictEvidence :=
  mkConflict KIND_STRATEGY_SIGNAL kind (sa_run_id a) ((fun r => sg_signal_id (sr_signal r)) <$> existing)
    (tk_dispatch t) (last_new_dispatch_sequence (sa_public st)) (sr_signal_sha256 <$> existing) (submission_of t).
Definition halted_state (st : _AuthorityState) (c : AuthorityConflictEvidence) : _AuthorityState :=
  match ss_conflict (sa_public st) with
  | Some _ => st
  | None =>
      mkAuthorityState
        (mkSignalState (sa_run_id a) true (signal_next (sa_public st)) (last_new_dispatch_sequence (sa_public st))
           (issuance_count (sa_public st)) (Some c)) (replay_by_dispatch st)
  end.
(** The state after a new signal. *)
Definition issued_state (st : _AuthorityState) (t : taken) (i : nat) : _AuthorityState :=
  mkAuthorityState
    (mkSignalState (sa_run_id a) false (_advance (first + Z.of_nat i)) (Some (tk_dispatch t))
       (issuance_count (sa_public st) + 1) None)
    (<[tk_dispatch t := record_of t i]> (replay_by_dispatch st)).

(** A verifier answers only for dispatches that are live. *)
Definition vouches (verify : verifier_operation) : Prop :=
  forall root n proof, verify root n = Ok proof -> mp_issuer proof = verifier_object a -> live root n.

(** Everything a new signal needs. *)
Record issuable (verify : verifier_operation) (st : _AuthorityState) (log : list taken) (t : taken) : Prop := {
  ib_dispatch : 1 <= tk_dispatch t <= MAX_UINT64;
  ib_after : is_after (last_taken start (map tk_dispatch log)) (tk_dispatch t);
  ib_running : ss_halted (sa_public st) = false;
  ib_number : first + Z.of_nat (length log) <= MAX_UINT64;
  ib_count : count + Z.of_nat (length log) < MAX_UINT64;
  ib_live : is_ok (active_proof a verify (tk_root t) (tk_dispatch t)) = true
}.

Inductive issuance (verify : verifier_operation) (st : _AuthorityState) (log : list taken) (t : taken)
  : res StrategySignal -> _AuthorityState -> Prop :=
| issuance_replay i : log !! i = Some t -> issuance verify st log t (Ok (signal_of t i)) st
| issuance_reuse i u : log !! i = Some u -> tk_dispatch u = tk_dispatch t -> u <> t ->
    issuance verify st log t (Raise (StrategyContractError CONFLICTING_ID))
      (halted_state st (conflict_of st IDENTITY_REUSE t (Some (record_of u i))))
| issuance_late : 1 <= tk_dispatch t <= MAX_UINT64 ->
    tk_dispatch t ∉ map tk_dispatch log -> ~ is_after (last_taken start (map tk_dispatch log)) (tk_dispatch t) ->
    issuance verify st log t (Raise (StrategyContractError CONFLICTING_ID))
      (halted_state st (conflict_of st NON_MONOTONE_DISPATCH t None))
| issuance_new : issuable verify st log t ->
    issuance verify st log t (Ok (signal_of t (length log))) (issued_state st t (length log))
| issuance_refused e : ~ issuable verify st log t -> tk_dispatch t ∉ map tk_dispatch log ->
    (1 <= tk_dispatch t <= MAX_UINT64 -> is_after (last_taken start (map tk_dispatch log)) (tk_dispatch t)) ->
    issuance verify st log t (Raise e) st.

(** ** Reachable states *)

Inductive signal_reachable : _AuthorityState -> list taken -> Prop :=
| signal_start st :
    create_strategy_signal_authority (sa_run_id a) (verifier_object a) first count start = Ok (a, st) -> signal_reachable st []
| signal_issued verify st log root n d signal st' : signal_reachable st log -> vouches verify ->
    issue a verify st root n d = (Ok signal, st') ->
    signal_reachable st' (if bool_decide (n ∈ map tk_dispatch log) then log else log ++ [mkTaken root n d])
| signal_raised verify st log root n d e st' : signal_reachable st log -> vouches verify ->
    issue a verify st root n d = (Raise e, st') -> signal_reachable st' log.
End Spec.

(** *** Calls of [issue] do what the specification allows, and reachable states have their log. *)

Lemma positive_uint64 n : 1 <= n <= MAX_UINT64 -> _require_positive_uint64 n = Ok n.
Proof. intros H. unfold _require_positive_uint64. by replace ((n <? 1) || (MAX_UINT64 <? n)) with false by lia. Qed.
Lemma optional_uint64 n : match n with Some n => 1 <= n <= MAX_UINT64 | None => True end ->
  _require_optional_positive_uint64 n = Ok n.
Proof. destruct n as [n|]; [|done]. intros H. cbn. by rewrite positive_uint64. Qed.
Lemma non_negative_uint64 n : 0 <= n <= MAX_UINT64 -> _require_non_negative_uint64 n = Ok n.
Proof. intros H. unfold _require_non_negative_uint64. by replace ((n <? 0) || (MAX_UINT64 <? n)) with false by lia. Qed.
Lemma positive_uint64_Ok n k : _require_positive_uint64 n = Ok k -> 1 <= n <= MAX_UINT64 /\ k = n.
Proof. unfold _require_positive_uint64. destruct (_ || _) eqn:E; [done|]. intros [= <-]. split; [lia|done]. Qed.
Lemma non_negative_uint64_Ok n k : _require_non_negative_uint64 n = Ok k -> 0 <= n <= MAX_UINT64 /\ k = n.
Proof. unfold _require_non_negative_uint64. destruct (_ || _) eqn:E; [done|]. intros [= <-]. split; [lia|done]. Qed.

Lemma valid_economic_id i owner run : owner_kind i = owner -> id_run_id i = run ->
  1 <= owner_sequence i <= MAX_UINT64 -> _validate_economic_id i owner run = Ok tt.
Proof.
  intros Ho Hr Hs. unfold _validate_economic_id. rewrite positive_uint64 by done. cbn [rbind].
  by rewrite !bool_decide_true.
Qed.

Lemma strategy_errors_Ok {A} (m : res A) x : strategy_errors m = Ok x <-> m = Ok x.
Proof. destruct m as [y|[]]; done. Qed.

Section Reach.
Context `{hash : Sha256} (a : StrategySignalAuthority) (first count : Z) (start : option Z).
Context (live : MarketDataEnvelope -> Z -> Prop).
Implicit Types (st : _AuthorityState) (log : list taken) (t : taken).

#[local] Abbreviation logged := (signal_log a first count start live).
#[local] Abbreviation signal_at := (signal_of a first).
#[local] Abbreviation record_at := (record_of a first).

(** ** What a logged state makes of its checks *)

Lemma logged_number st log i t : logged st log -> log !! i = Some t -> 1 <= first + Z.of_nat i <= MAX_UINT64.
Proof. intros L Hi%lookup_lt_Some. pose proof (fr_first _ _ _ (sl_frontier _ _ _ _ _ _ _ L)). pose proof (sl_bound _ _ _ _ _ _ _ L). lia. Qed.

Lemma logged_last st log : logged st log ->
  match last_new_dispatch_sequence (sa_public st) with Some n => 1 <= n <= MAX_UINT64 | None => True end.
Proof.
  intros L. rewrite (sl_last _ _ _ _ _ _ _ L). unfold last_taken. destruct (last _) as [n|] eqn:Hl.
  - apply last_Some_elem_of in Hl. apply list_elem_of_In, in_map_iff in Hl as (t & <- & Ht%list_elem_of_In).
    pose proof (sl_live _ _ _ _ _ _ _ L) as Hf. rewrite Forall_forall in Hf. by destruct (Hf t Ht).
  - exact (fr_start _ _ _ (sl_frontier _ _ _ _ _ _ _ L)).
Qed.

Lemma logged_next st log : logged st log ->
  match signal_next (sa_public st) with Some n => 1 <= n <= MAX_UINT64 | None => True end.
Proof.
  intros L. rewrite (sl_next _ _ _ _ _ _ _ L). destruct (number_after _ _) as [n|] eqn:Hn; [|done].
  apply number_after_Some in Hn as [-> Hm]. pose proof (fr_first _ _ _ (sl_frontier _ _ _ _ _ _ _ L)).
  pose proof (sl_bound _ _ _ _ _ _ _ L). lia.
Qed.

Lemma signal_state_ok run halted next last_ n conflict :
  match next with Some n => 1 <= n <= MAX_UINT64 | None => True end ->
  match last_ with Some n => 1 <= n <= MAX_UINT64 | None => True end ->
  0 <= n <= MAX_UINT64 -> halted = negb (absent conflict) ->
  (forall c, conflict = Some c -> _validate_conflict c = Ok tt /\ cf_authority_kind c = KIND_STRATEGY_SIGNAL /\
                                  cf_run_id c = run) ->
  _create_strategy_signal_authority_state run halted next last_ n conflict
    = Ok (mkSignalState run halted next last_ n conflict).
Proof.
  intros Hn Hl Hc -> Hf. unfold _create_strategy_signal_authority_state, canonical_strategy_signal_authority_state_bytes,
    check_signal_state. cbn [signal_next last_new_dispatch_sequence issuance_count ss_conflict ss_halted ss_run_id].
  rewrite !optional_uint64 by done. rewrite non_negative_uint64 by done. cbn [rbind].
  destruct conflict as [c|]; cbn [absent negb]; [|done].
  destruct (Hf c eq_refl) as (-> & Hk & Hr). cbn [rbind]. by rewrite Hk, Hr, !bool_decide_true by done.
Qed.

(** ** Conflicts *)

Lemma conflict_valid st log kind t existing : logged st log -> 1 <= tk_dispatch t <= MAX_UINT64 ->
  (existing = None <-> kind = NON_MONOTONE_DISPATCH) ->
  (forall r, existing = Some r -> exists i u, log !! i = Some u /\ r = record_at u i) ->
  _validate_conflict (conflict_of a st kind t existing) = Ok tt.
Proof.
  intros L Ht Hk Hr. unfold _validate_conflict, conflict_of. cbn [cf_dispatch_sequence cf_last_new_dispatch_sequence
    cf_occupied_owner_id cf_existing_sha256 cf_run_id cf_conflict_kind].
  rewrite positive_uint64 by done. rewrite optional_uint64 by (by eapply logged_last). cbn [rbind].
  destruct existing as [r|]; cbn [fmap option_fmap option_map absent negb].
  - destruct (Hr r eq_refl) as (i & u & Hu & ->). cbn [record_of sr_signal signal_of sg_signal_id].
    rewrite valid_economic_id; [|done|done|by eapply logged_number]. cbn [rbind]. rewrite bool_decide_true by done.
    destruct kind; [done|]. discriminate (proj2 Hk eq_refl).
  - rewrite (proj1 Hk eq_refl). done.
Qed.

Lemma conflict_published st log kind t existing : logged st log -> 1 <= tk_dispatch t <= MAX_UINT64 ->
  (existing = None <-> kind = NON_MONOTONE_DISPATCH) ->
  (forall r, existing = Some r -> exists i u, log !! i = Some u /\ r = record_at u i) ->
  _publish_conflict a st kind (tk_dispatch t) ((fun r => sg_signal_id (sr_signal r)) <$> existing)
    (sr_signal_sha256 <$> existing) (submission_of t)
  = (StrategyContractError CONFLICTING_ID, halted_state a st (conflict_of a st kind t existing)).
Proof.
  intros L Ht Hk Hr. pose proof (conflict_valid _ _ _ _ _ L Ht Hk Hr) as Hv. unfold _publish_conflict, halted_state.
  destruct (ss_conflict (sa_public st)); [done|]. cbn [absent negb].
  unfold _create_authority_conflict_evidence, canonical_authority_conflict_evidence_bytes.
  unfold conflict_of in Hv |- *. rewrite Hv. cbn [rbind].
  pose proof (fr_count _ _ _ (sl_frontier _ _ _ _ _ _ _ L)). pose proof (sl_count_bound _ _ _ _ _ _ _ L).
  pose proof (sl_count _ _ _ _ _ _ _ L).
  rewrite signal_state_ok; [done|by eapply logged_next|by eapply logged_last|lia|done|].
  intros c [= <-]. done.
Qed.

Lemma halted_logged st log c : logged st log -> cf_run_id c = sa_run_id a -> logged (halted_state a st c) log.
Proof.
  intros L Hc. unfold halted_state. destruct (ss_conflict (sa_public st)) eqn:Hn; [done|].
  destruct L. by split.
Qed.

(** ** New signals *)

Lemma active_proof_live verify t : vouches a live verify ->
  is_ok (active_proof a verify (tk_root t) (tk_dispatch t)) = true -> live (tk_root t) (tk_dispatch t).
Proof.
  intros Hv. unfold active_proof, proof_errors, _require_active_market_dispatch_proof.
  destruct (strategy_errors _) as [p|e] eqn:E; [|done]. apply (proj1 (strategy_errors_Ok _ _)) in E. cbn [rbind].
  destruct (negb _) eqn:Hb; [done|]. intros _. apply negb_false_iff in Hb.
  rewrite !andb_true_iff, !bool_decide_eq_true in Hb. apply (Hv _ _ p); [done|tauto].
Qed.

Lemma submission_Ok t : 1 <= tk_dispatch t <= MAX_UINT64 ->
  strategy_signal_submission_digest (tk_root t) (tk_dispatch t) (tk_direction t) = Ok (submission_of t).
Proof. intros H. unfold strategy_signal_submission_digest. by rewrite positive_uint64. Qed.

Lemma record_made t n i : 1 <= n <= MAX_UINT64 -> n = first + Z.of_nat i -> 1 <= tk_dispatch t <= MAX_UINT64 ->
  (let* signal_id := EconomicId_init (sa_run_id a) STRATEGY_SIGNAL n in
   let* signal := _create_strategy_signal (sa_run_id a) signal_id (tk_root t) (tk_direction t)
                    (causal_market_digest (tk_root t)) (tk_dispatch t) in
   signal_record (tk_root t) (tk_direction t) (submission_of t) signal) = Ok (record_at t i).
Proof.
  intros Hn -> Ht. unfold EconomicId_init, _require_uint64.
  replace ((first + Z.of_nat i <? 0) || (MAX_UINT64 <? first + Z.of_nat i)) with false by lia. cbn [rbind].
  assert (_validate_signal (signal_at t i) = Ok tt) as Hv.
  { unfold _validate_signal. cbn [signal_of sg_signal_id sg_run_id sg_dispatch_sequence].
    by rewrite valid_economic_id, positive_uint64. }
  unfold _create_strategy_signal, canonical_strategy_signal_bytes.
  rewrite bool_decide_true by (by destruct (event_kind (tk_root t))). cbn [negb].
  change (mkSignal _ _ _ _ _ _ _) with (signal_at t i). rewrite Hv. cbn [rbind].
  unfold signal_record, strategy_signal_digest, canonical_strategy_signal_bytes. by rewrite Hv.
Qed.

(** [issue_new] succeeds exactly on what is issuable. *)
Lemma issue_new_cases verify st log t : logged st log -> 1 <= tk_dispatch t <= MAX_UINT64 ->
  is_after (last_taken start (map tk_dispatch log)) (tk_dispatch t) ->
  (issuable a first count start verify st log t /\
   issue_new a verify st (tk_root t) (tk_dispatch t) (tk_direction t) (submission_of t)
     = Ok (signal_at t (length log), issued_state a first st t (length log))) \/
  (~ issuable a first count start verify st log t /\ exists e,
   issue_new a verify st (tk_root t) (tk_dispatch t) (tk_direction t) (submission_of t) = Raise e).
Proof.
  intros L Ht Ha. unfold issue_new. destruct (ss_halted (sa_public st)) eqn:Hh.
  { right. split; [by intros []; congruence|by eexists]. }
  rewrite (sl_next _ _ _ _ _ _ _ L). pose proof (fr_first _ _ _ (sl_frontier _ _ _ _ _ _ _ L)).
  pose proof (sl_bound _ _ _ _ _ _ _ L).
  destruct (number_after _ _) as [n|] eqn:Hn.
  2:{ right. split; [|by eexists]. intros [_ _ _ Hm _ _]. unfold number_after in Hn.
      by destruct (Z.eqb_spec (first + Z.of_nat (length log)) (MAX_UINT64 + 1)); [lia|]. }
  apply number_after_Some in Hn as [-> Hm].
  destruct (active_proof a verify (tk_root t) (tk_dispatch t)) as [p|e] eqn:Hp; cbn [rbind].
  2:{ right. split; [|by eexists]. intros [_ _ _ _ _ Hl]. by rewrite Hp in Hl. }
  rewrite (record_made t _ (length log)) by (done || lia). cbn [strategy_errors rbind].
  pose proof (fr_count _ _ _ (sl_frontier _ _ _ _ _ _ _ L)). pose proof (sl_count_bound _ _ _ _ _ _ _ L).
  pose proof (sl_count _ _ _ _ _ _ _ L) as Hc.
  destruct (decide (issuance_count (sa_public st) + 1 <= MAX_UINT64)) as [Hle|Hgt].
  - left. split; [split; try done; try lia; by rewrite Hp|].
    rewrite signal_state_ok; [done| |done|lia|done|done]. unfold _advance.
    destruct (Z.eqb_spec (first + Z.of_nat (length log)) MAX_UINT64); [done|lia].
  - right. split; [intros []; lia|].
    destruct (_create_strategy_signal_authority_state _ _ _ _ _ _) as [p'|e] eqn:Hs; [exfalso|destruct e; by eexists].
    unfold _create_strategy_signal_authority_state, canonical_strategy_signal_authority_state_bytes, check_signal_state in Hs.
    cbn [signal_next last_new_dispatch_sequence issuance_count] in Hs.
    apply rbind_Ok in Hs as (? & Hs & _). apply rbind_Ok in Hs as (? & Hs & _).
    apply rbind_Ok in Hs as (? & _ & Hs). apply rbind_Ok in Hs as (? & _ & Hs). apply rbind_Ok in Hs as (? & Hs & _).
    apply non_negative_uint64_Ok in Hs as [? _]. lia.
Qed.

(** ** One call *)

Lemma submission_direction_inj t u : tk_dispatch t = tk_dispatch u ->
  canonical_market_data_record_bytes (tk_root t) = canonical_market_data_record_bytes (tk_root u) ->
  tk_direction t = tk_direction u -> t = u.
Proof. destruct t, u. cbn. intros -> ->%market_bytes_inj ->. done. Qed.

Lemma logged_dispatch st log n : logged st log -> replay_by_dispatch st !! n = None -> n ∉ map tk_dispatch log.
Proof.
  intros L Hn Hin. apply list_elem_of_In, in_map_iff in Hin as (t & <- & Ht%list_elem_of_In).
  apply list_elem_of_lookup_1 in Ht as [i Hi].
  assert (replay_by_dispatch st !! tk_dispatch t = Some (record_at t i)) as Hs; [|by rewrite Hn in Hs].
  apply (sl_replay _ _ _ _ _ _ _ L). by exists i, t.
Qed.

(** [issue] does what one of the rules allows. *)
Lemma issue_issuance verify st log root n d m st' : logged st log -> issue a verify st root n d = (m, st') ->
  issuance a first count start verify st log (mkTaken root n d) m st'.
Proof.
  intros L. set (t := mkTaken root n d). unfold issue.
  destruct (_ || _) eqn:Hr.
  { intros [= <- <-]. apply issuance_refused; [by intros []; cbn in *; lia| |cbn; lia].
    intros Hin. apply list_elem_of_In, in_map_iff in Hin as (u & Hu & Hin%list_elem_of_In).
    pose proof (sl_live _ _ _ _ _ _ _ L) as Hf. rewrite Forall_forall in Hf. destruct (Hf u Hin) as [Hb _].
    cbn in Hu. lia. }
  assert (1 <= tk_dispatch t <= MAX_UINT64) as Ht by (cbn; lia).
  change (strategy_signal_submission_digest root n d)
    with (strategy_signal_submission_digest (tk_root t) (tk_dispatch t) (tk_direction t)).
  rewrite submission_Ok by done. destruct (replay_by_dispatch st !! n) as [r|] eqn:Hl.
  - apply (sl_replay _ _ _ _ _ _ _ L) in Hl as (i & u & Hi & Hd & ->).
    destruct (_ && _) eqn:Hb.
    + rewrite andb_true_iff, !bool_decide_eq_true in Hb. destruct Hb as [H1 H2].
      assert (u = t) as -> by (apply submission_direction_inj; done). intros [= <- <-]. by apply issuance_replay.
    + assert (u <> t) as Hne.
      { intros ->. cbn [record_of sr_market_root_bytes sr_direction] in Hb. by rewrite !bool_decide_true in Hb. }
      pose proof (conflict_published st log IDENTITY_REUSE t (Some (record_at u i)) L Ht ltac:(done)) as Hp.
      cbn [fmap option_fmap option_map] in Hp. cbn [t tk_dispatch] in Hp. rewrite Hp.
      * intros [= <- <-]. by apply (issuance_reuse _ _ _ _ _ _ _ _ i u).
      * intros r [= <-]. by exists i, u.
  - pose proof (logged_dispatch _ _ _ L Hl) as Hfresh. rewrite (sl_last _ _ _ _ _ _ _ L).
    destruct (match last_taken start (map tk_dispatch log) with Some last => n <=? last | None => false end) eqn:Hlate.
    + pose proof (conflict_published st log NON_MONOTONE_DISPATCH t None L Ht ltac:(done)) as Hp.
      cbn [fmap option_fmap option_map] in Hp. cbn [t tk_dispatch] in Hp. rewrite Hp by done.
      intros [= <- <-]. apply issuance_late; [done|done|]. rewrite <-late_or_after. cbn [t tk_dispatch]. by rewrite Hlate.
    + apply late_or_after in Hlate. destruct (issue_new_cases verify st log t L Ht Hlate) as [[Hi Hn]|[Hi [e Hn]]];
        cbn [t tk_root tk_dispatch tk_direction] in Hn; rewrite Hn; intros [= <- <-].
      * by apply issuance_new.
      * by apply issuance_refused.
Qed.

(** The log a call leaves. *)
Definition log_after (log : list taken) (t : taken) (m : res StrategySignal) : list taken :=
  match m with
  | Ok _ => if bool_decide (tk_dispatch t ∈ map tk_dispatch log) then log else log ++ [t]
  | Raise _ => log
  end.

Lemma issued_logged verify st log t : logged st log -> vouches a live verify ->
  issuable a first count start verify st log t -> logged (issued_state a first st t (length log)) (log ++ [t]).
Proof.
  intros L Hv [I1 I2 I3 I4 I5 I6]. pose proof (in_order_fresh _ _ _ (sl_order _ _ _ _ _ _ _ L) I2) as Hfresh.
  pose proof (sl_frontier _ _ _ _ _ _ _ L) as [Hf _ _].
  split; unfold issued_state; cbn [sa_public replay_by_dispatch signal_next last_new_dispatch_sequence issuance_count
    ss_halted ss_conflict ss_run_id]; rewrite ?map_app, ?length_app, ?Nat.add_1_r, ?Nat2Z.inj_succ; cbn [map].
  - exact (sl_frontier _ _ _ _ _ _ _ L).
  - intros n r. rewrite lookup_insert_Some. rewrite (sl_replay _ _ _ _ _ _ _ L). split.
    + intros [[<- <-]|[Hne (i & u & Hi & Hd & ->)]].
      * exists (length log), t. by rewrite lookup_app_r, Nat.sub_diag by lia.
      * exists i, u. by rewrite (lookup_app_l_Some _ _ _ _ Hi).
    + intros (i & u & Hi & Hd & ->). apply lookup_app_Some in Hi as [Hi|[Hle Hi]].
      * right. split; [|by exists i, u]. intros He. destruct Hfresh. rewrite He, <-Hd.
        apply list_elem_of_In, in_map, list_elem_of_In. by eapply list_elem_of_lookup_2.
      * apply list_lookup_singleton_Some in Hi as [Hi ->]. left. split; [done|]. f_equal. lia.
  - rewrite (number_after_S _ _ (first + Z.of_nat (length log))); [done|]. unfold number_after.
    by destruct (Z.eqb_spec (first + Z.of_nat (length log)) (MAX_UINT64 + 1)); [lia|].
  - lia.
  - by rewrite last_taken_snoc.
  - rewrite (sl_count _ _ _ _ _ _ _ L). lia.
  - lia.
  - by apply in_order_snoc; [apply (sl_order _ _ _ _ _ _ _ L)|].
  - apply Forall_app. split; [exact (sl_live _ _ _ _ _ _ _ L)|]. constructor; [|done].
    split; [done|]. by apply (active_proof_live verify).
  - done.
  - done.
Qed.

Lemma issuance_logged verify st log t m st' : logged st log -> vouches a live verify ->
  issuance a first count start verify st log t m st' -> logged st' (log_after log t m).
Proof.
  intros L Hv H. destruct H as [i Hi|i u Hi Hd Hne|Ht Hf Hl|Hi|e Hi Hf Ha]; cbn [log_after].
  - rewrite bool_decide_true; [done|]. apply list_elem_of_In, in_map, list_elem_of_In. by eapply list_elem_of_lookup_2.
  - by apply halted_logged.
  - by apply halted_logged.
  - rewrite bool_decide_false; [by eapply issued_logged|].
    destruct Hi as [_ Ha _ _ _ _]. by apply (in_order_fresh start), Ha; apply (sl_order _ _ _ _ _ _ _ L).
  - done.
Qed.

(** ** Reachable states have their log *)

Lemma created_logged st : create_strategy_signal_authority (sa_run_id a) (verifier_object a) first count start
  = Ok (a, st) -> logged st [].
Proof.
  unfold create_strategy_signal_authority. destruct (_ || _) eqn:H1; [done|]. destruct ((count <? 0) || _) eqn:H2; [done|].
  destruct (match start with Some _ => _ | None => _ end) eqn:H3; [done|]. intros H. apply rbind_Ok in H as (p & Hp & H).
  assert (match start with Some n => 1 <= n <= MAX_UINT64 | None => True end) as Hs by (destruct start; [lia|done]).
  rewrite signal_state_ok in Hp by (done || lia). apply Ok_inj in Hp as <-. injection (Ok_inj _ _ H) as _ <-.
  split; cbn [sa_public replay_by_dispatch signal_next last_new_dispatch_sequence issuance_count ss_halted ss_conflict
    ss_run_id absent negb length map]; try done; try lia.
  - split; lia || done.
  - intros n r. rewrite lookup_empty. split; [done|]. by intros (i & t & Hi & _).
  - unfold number_after. rewrite Z.add_0_r.
    by destruct (Z.eqb_spec first (MAX_UINT64 + 1)); [lia|].
  - apply in_order_nil.
Qed.

Lemma signal_reachable_logged st log : signal_reachable a first count start live st log -> logged st log.
Proof.
  induction 1 as [st Hc|verify st log root n d signal st' Hr IH Hv Hi|verify st log root n d e st' Hr IH Hv Hi].
  - by apply created_logged.
  - apply (issue_issuance _ _ _ _ _ _ _ _ IH) in Hi. by apply (issuance_logged _ _ _ _ _ _ IH Hv) in Hi.
  - apply (issue_issuance _ _ _ _ _ _ _ _ IH) in Hi. by apply (issuance_logged _ _ _ _ _ _ IH Hv) in Hi.
Qed.
End Reach.
