(* ===== verification/PortfolioPlanning.v ===== *)
(** Portfolio planning values ([core/portfolio_planning.py]): the target-exposure policy,
    targets, planning outcomes and results, and the public state of the planning authority,
    with their checks, canonical documents and digests.  A result retains the bytes of its
    parts to compare them with those of the parts; here a value has one set of bytes. *)

From S2P Require Import Prelude PyRegex PyText Outcomes Json Identity Chronology Economics Execution Messages Orders.
From S2P Require Import Portfolio Strategy.

Open Scope Z_scope.

Definition _PLANNING_ERROR_CODES : list OutcomeCode := [INVALID_TYPE; OUT_OF_RANGE; NOT_QUANTIZED; CONFLICTING_ID].
(** [_fail]: [PortfolioPlanningError.__init__] refuses other codes. *)
Definition raise_planning (c : OutcomeCode) : exn :=
  if permitted _PLANNING_ERROR_CODES c then PortfolioPlanningError c else TypeError.
(** [_raise_economic]. *)
Definition _raise_economic (c : OutcomeCode) : exn :=
  raise_planning
    match c with
    | INVALID_TYPE => INVALID_TYPE | NOT_QUANTIZED => NOT_QUANTIZED | CONFLICTING_ID => CONFLICTING_ID
    | _ => OUT_OF_RANGE
    end.
Definition economic_errors {A} (m : res A) : res A := catch_economic m (fun c => Raise (_raise_economic c)).

(** [[a-z][a-z0-9._-]{0,127}] *)
Abbreviation PortfolioPolicyId := (PatternStr _TOKEN_PATTERN).
Definition PortfolioPolicyId_init (s : string) : res PortfolioPolicyId := pattern_str (raise_planning OUT_OF_RANGE) s.

(** ** Values *)

Record Phase1PortfolioPolicyEntry : Type := mkPolicyEntry {
  entry_instrument : Instrument;
  target_quantity : CanonicalDecimal
}.
Definition Phase1PortfolioPolicyEntry_init (i : Instrument) (q : CanonicalDecimal) : res Phase1PortfolioPolicyEntry :=
  let* _ := economic_errors (require_positive q) in
  Ok (mkPolicyEntry i q).

Record Phase1PortfolioPolicy : Type := mkPortfolioPolicy {
  pp_policy_id : PortfolioPolicyId;
  pp_spec_set_id : InstrumentSpecSetId;
  pp_spec_set_sha256 : Sha256Digest;
  pp_entries : list Phase1PortfolioPolicyEntry
}.

Record PortfolioTarget : Type := mkPortfolioTarget {
  pt_run_id : RunId;
  pt_target_id : EconomicId;
  pt_correlation_id : EconomicId;
  pt_causation_id : EconomicId;
  pt_signal_sha256 : Sha256Digest;
  pt_instrument : Instrument;
  pt_target_position : CanonicalDecimal;
  pt_policy_id : PortfolioPolicyId;
  pt_policy_sha256 : Sha256Digest;
  pt_snapshot_version : Z;
  pt_snapshot_sha256 : Sha256Digest;
  pt_causal_root_available_at : datetime;
  pt_dispatch_sequence : Z;
  pt_specification_id : InstrumentSpecId;
  pt_spec_set_id : InstrumentSpecSetId;
  pt_spec_set_sha256 : Sha256Digest
}.

Inductive PlanningOutcomeKind : Type := INTENT_EMITTED | ALREADY_AT_TARGET | BLOCKED_UNRESOLVED_FILLS.
Definition planning_kind_value (k : PlanningOutcomeKind) : string :=
  match k with
  | INTENT_EMITTED => "intent_emitted" | ALREADY_AT_TARGET => "already_at_target"
  | BLOCKED_UNRESOLVED_FILLS => "blocked_unresolved_fills"
  end.

Record PlanningOutcome : Type := mkPlanningOutcome {
  pl_run_id : RunId;
  pl_target_id : EconomicId;
  pl_target_sha256 : Sha256Digest;
  pl_signal_id : EconomicId;
  pl_signal_sha256 : Sha256Digest;
  pl_policy_id : PortfolioPolicyId;
  pl_policy_sha256 : Sha256Digest;
  pl_snapshot_version : Z;
  pl_snapshot_sha256 : Sha256Digest;
  target_next_before : Z;
  target_next_after : option Z;
  intent_next_before : option Z;
  intent_next_after : option Z;
  pl_kind : PlanningOutcomeKind;
  pl_intent_id : option EconomicId;
  pl_intent_sha256 : option Sha256Digest;
  pl_delta : CanonicalDecimal
}.

Record PortfolioPlanningResult : Type := mkPlanningResult {
  pr_signal : StrategySignal;
  pr_target : PortfolioTarget;
  pr_snapshot : PortfolioSnapshot;
  pr_outcome : PlanningOutcome;
  pr_intent : option OrderIntent
}.

Record PortfolioPlanningAuthorityState : Type := mkPlanningState {
  ps_run_id : RunId;
  ps_halted : bool;
  target_next : option Z;
  intent_next : option Z;
  last_new_signal_dispatch_sequence : option Z;
  result_count : Z;
  ps_conflict : option AuthorityConflictEvidence
}.

#[export] Instance CashBalance_eq_dec : EqDecision CashBalance.
Proof. solve_decision. Defined.
#[export] Instance PositionBalance_eq_dec : EqDecision PositionBalance.
Proof. solve_decision. Defined.
#[export] Instance RoundingBalance_eq_dec : EqDecision RoundingBalance.
Proof. solve_decision. Defined.
#[export] Instance UnresolvedFillRef_eq_dec : EqDecision UnresolvedFillRef.
Proof. solve_decision. Defined.
#[export] Instance PortfolioSnapshot_eq_dec : EqDecision PortfolioSnapshot.
Proof. solve_decision. Defined.
#[export] Instance PlanningOutcomeKind_eq_dec : EqDecision PlanningOutcomeKind.
Proof. solve_decision. Defined.
#[export] Instance Phase1PortfolioPolicyEntry_eq_dec : EqDecision Phase1PortfolioPolicyEntry.
Proof. solve_decision. Defined.
#[export] Instance Phase1PortfolioPolicy_eq_dec : EqDecision Phase1PortfolioPolicy.
Proof. solve_decision. Defined.
#[export] Instance PortfolioTarget_eq_dec : EqDecision PortfolioTarget.
Proof. solve_decision. Defined.
#[export] Instance PlanningOutcome_eq_dec : EqDecision PlanningOutcome.
Proof. solve_decision. Defined.
#[export] Instance PortfolioPlanningAuthorityState_eq_dec : EqDecision PortfolioPlanningAuthorityState.
Proof. solve_decision. Defined.

(** ** Checks *)

Definition _require_positive_uint64 (n : Z) : res Z :=
  raise_if (n <? 1) || (MAX_UINT64 <? n) with raise_planning OUT_OF_RANGE ;; Ok n.
Definition _require_optional_positive_uint64 (n : option Z) : res (option Z) :=
  match n with
  | None => Ok None
  | Some n => let* n := _require_positive_uint64 n in Ok (Some n)
  end.
Definition _require_non_negative_uint64 (n : Z) : res Z :=
  raise_if (n <? 0) || (MAX_UINT64 <? n) with raise_planning OUT_OF_RANGE ;; Ok n.
Definition _validate_planning_id (i : EconomicId) (owner : EconomicOwnerKind) (run : RunId) : res unit :=
  let* _ := _require_positive_uint64 (owner_sequence i) in
  raise_if negb (bool_decide (owner_kind i = owner)) with raise_planning CONFLICTING_ID ;;
  raise_if negb (bool_decide (id_run_id i = run)) with raise_planning CONFLICTING_ID ;;
  Ok tt.

Definition policy_keys (entries : list Phase1PortfolioPolicyEntry) : list (string * string) :=
  map (fun e => instrument_key (entry_instrument e)) entries.

(** The checks [_policy_document] makes. *)
Definition check_policy (p : Phase1PortfolioPolicy) : res unit :=
  raise_if is_empty (pp_entries p) with raise_planning INVALID_TYPE ;;
  let* _ := check_all (fun e => let* _ := economic_errors (require_positive (target_quantity e)) in Ok tt)
              (pp_entries p) in
  raise_if negb (is_sorted_keys (policy_keys (pp_entries p))) || negb (no_duplicates (policy_keys (pp_entries p)))
    with raise_planning CONFLICTING_ID ;;
  Ok tt.

Definition _validate_target (t : PortfolioTarget) : res unit :=
  let* _ := _validate_planning_id (pt_target_id t) PORTFOLIO_TARGET (pt_run_id t) in
  let* _ := _validate_planning_id (pt_correlation_id t) STRATEGY_SIGNAL (pt_run_id t) in
  let* _ := _validate_planning_id (pt_causation_id t) STRATEGY_SIGNAL (pt_run_id t) in
  raise_if negb (bool_decide (pt_correlation_id t = pt_causation_id t)) with raise_planning CONFLICTING_ID ;;
  let* _ := _require_non_negative_uint64 (pt_snapshot_version t) in
  let* _ := _require_positive_uint64 (pt_dispatch_sequence t) in
  Ok tt.

(** The successor of a number, [None] after the last. *)
Definition expected_after (n : Z) : option Z := if n =? MAX_UINT64 then None else Some (n + 1).

Definition _validate_outcome (o : PlanningOutcome) : res unit :=
  let* _ := _validate_planning_id (pl_target_id o) PORTFOLIO_TARGET (pl_run_id o) in
  let* _ := _validate_planning_id (pl_signal_id o) STRATEGY_SIGNAL (pl_run_id o) in
  let* _ := _require_non_negative_uint64 (pl_snapshot_version o) in
  let* _ := _require_positive_uint64 (target_next_before o) in
  let* _ := _require_optional_positive_uint64 (target_next_after o) in
  let* _ := _require_optional_positive_uint64 (intent_next_before o) in
  let* _ := _require_optional_positive_uint64 (intent_next_after o) in
  raise_if negb (bool_decide (absent (pl_intent_id o) = absent (pl_intent_sha256 o))) with raise_planning CONFLICTING_ID ;;
  let* _ := match pl_intent_id o with
            | None => Ok tt
            | Some i => _validate_planning_id i PORTFOLIO_INTENT (pl_run_id o)
            end in
  let* _ := match pl_kind o with
            | INTENT_EMITTED =>
                raise_if absent (pl_intent_id o) || (coefficient (pl_delta o) =? 0) with raise_planning CONFLICTING_ID ;;
                match intent_next_before o with
                | None => Raise (raise_planning CONFLICTING_ID)
                | Some before =>
                    raise_if negb (bool_decide (intent_next_after o = expected_after before))
                      with raise_planning CONFLICTING_ID ;;
                    Ok tt
                end
            | _ =>
                raise_if negb (absent (pl_intent_id o)) with raise_planning CONFLICTING_ID ;;
                raise_if negb (bool_decide (intent_next_after o = intent_next_before o)) with raise_planning CONFLICTING_ID ;;
                Ok tt
            end in
  raise_if bool_decide (pl_kind o = ALREADY_AT_TARGET) && negb (coefficient (pl_delta o) =? 0)
    with raise_planning CONFLICTING_ID ;;
  raise_if negb (bool_decide (target_next_after o = expected_after (target_next_before o)))
    with raise_planning CONFLICTING_ID ;;
  Ok tt.

(** ** Documents *)

Definition entry_document (e : Phase1PortfolioPolicyEntry) : json :=
  JDict [("instrument", _instrument_document (entry_instrument e));
         ("target_quantity", JStr (text (target_quantity e)))]%string.
Definition _policy_document (p : Phase1PortfolioPolicy) : json :=
  JDict
    [("canonicalization", JStr "ea-canonical-json-v1");
     ("entries", JList (map entry_document (pp_entries p)));
     ("instrument_spec_set_id", JStr (value (pp_spec_set_id p)));
     ("instrument_spec_set_sha256", JStr (value (pp_spec_set_sha256 p)));
     ("policy_id", JStr (value (pp_policy_id p)));
     ("schema", JStr "ea.phase1-portfolio-policy.v1")]%string.

Definition _target_document (t : PortfolioTarget) : json :=
  JDict
    [("canonicalization", JStr "ea-canonical-json-v1");
     ("causal_root_available_at", JStr (utc_text (pt_causal_root_available_at t)));
     ("causation_id", _economic_id_document (pt_causation_id t));
     ("correlation_id", _economic_id_document (pt_correlation_id t));
     ("dispatch_sequence", JInt (pt_dispatch_sequence t));
     ("instrument", _instrument_document (pt_instrument t));
     ("instrument_spec_set_id", JStr (value (pt_spec_set_id t)));
     ("instrument_spec_set_sha256", JStr (value (pt_spec_set_sha256 t)));
     ("instrument_specification_id", JStr (value (pt_specification_id t)));
     ("portfolio_policy_id", JStr (value (pt_policy_id t)));
     ("portfolio_policy_sha256", JStr (value (pt_policy_sha256 t)));
     ("portfolio_snapshot_sha256", JStr (value (pt_snapshot_sha256 t)));
     ("portfolio_snapshot_version", JInt (pt_snapshot_version t));
     ("run_id", JStr (value (pt_run_id t)));
     ("schema", JStr "ea.phase1-portfolio-target.v1");
     ("signal_sha256", JStr (value (pt_signal_sha256 t)));
     ("target_id", _economic_id_document (pt_target_id t));
     ("target_position", JStr (text (pt_target_position t)))]%string.

Definition _outcome_document (o : PlanningOutcome) : json :=
  JDict
    [("canonicalization", JStr "ea-canonical-json-v1");
     ("delta", JStr (text (pl_delta o)));
     ("intent_id", _optional_id_document (pl_intent_id o));
     ("intent_next_after", optional_document JInt (intent_next_after o));
     ("intent_next_before", optional_document JInt (intent_next_before o));
     ("intent_sha256", optional_text_document (pl_intent_sha256 o));
     ("kind", JStr (planning_kind_value (pl_kind o)));
     ("portfolio_policy_id", JStr (value (pl_policy_id o)));
     ("portfolio_policy_sha256", JStr (value (pl_policy_sha256 o)));
     ("portfolio_snapshot_sha256", JStr (value (pl_snapshot_sha256 o)));
     ("portfolio_snapshot_version", JInt (pl_snapshot_version o));
     ("run_id", JStr (value (pl_run_id o)));
     ("schema", JStr "ea.phase1-planning-outcome.v1");
     ("signal_id", _economic_id_document (pl_signal_id o));
     ("signal_sha256", JStr (value (pl_signal_sha256 o)));
     ("target_id", _economic_id_document (pl_target_id o));
     ("target_next_after", optional_document JInt (target_next_after o));
     ("target_next_before", JInt (target_next_before o));
     ("target_sha256", JStr (value (pl_target_sha256 o)))]%string.

(** The parts enter as the values [json.loads] reads back from their canonical bytes. *)
Definition _result_document (r : PortfolioPlanningResult) : json :=
  JDict
    [("canonicalization", JStr "ea-canonical-json-v1");
     ("intent", optional_document _order_intent_document (pr_intent r));
     ("outcome", _outcome_document (pr_outcome r));
     ("portfolio_snapshot", _snapshot_document (pr_snapshot r));
     ("schema", JStr "ea.phase1-planning-result.v1");
     ("signal", _signal_document (pr_signal r));
     ("target", _target_document (pr_target r))]%string.

Definition _planning_state_document (s : PortfolioPlanningAuthorityState) : json :=
  JDict
    [("canonicalization", JStr "ea-canonical-json-v1");
     ("conflict", optional_document _conflict_document (ps_conflict s));
     ("halted", JBool (ps_halted s));
     ("intent_next", optional_document JInt (intent_next s));
     ("last_new_signal_dispatch_sequence", optional_document JInt (last_new_signal_dispatch_sequence s));
     ("result_count", JInt (result_count s));
     ("run_id", JStr (value (ps_run_id s)));
     ("schema", JStr "ea.phase1-portfolio-planning-authority-state.v1");
     ("target_next", optional_document JInt (target_next s))]%string.

Definition check_planning_state (s : PortfolioPlanningAuthorityState) : res unit :=
  let* _ := _require_optional_positive_uint64 (target_next s) in
  let* _ := _require_optional_positive_uint64 (intent_next s) in
  let* _ := _require_optional_positive_uint64 (last_new_signal_dispatch_sequence s) in
  let* _ := _require_non_negative_uint64 (result_count s) in
  let* _ := match ps_conflict s with
            | None => Ok tt
            | Some c =>
                let* _ := _validate_conflict c in
                raise_if negb (bool_decide (cf_authority_kind c = KIND_PORTFOLIO_PLANNING))
                      || negb (bool_decide (cf_run_id c = ps_run_id s)) with raise_planning CONFLICTING_ID ;;
                Ok tt
            end in
  raise_if bool_decide (ps_halted s = absent (ps_conflict s)) with raise_planning CONFLICTING_ID ;;
  Ok tt.

(** ** Canonical bytes *)

Definition canonical_phase1_portfolio_policy_bytes (p : Phase1PortfolioPolicy) : res str :=
  let* _ := check_policy p in Ok (encode_json (_policy_document p)).
Definition canonical_portfolio_target_bytes (t : PortfolioTarget) : res str :=
  let* _ := _validate_target t in Ok (encode_json (_target_document t)).
Definition canonical_planning_outcome_bytes (o : PlanningOutcome) : res str :=
  let* _ := _validate_outcome o in Ok (encode_json (_outcome_document o)).

(** [_validate_conflict] raises a [StrategyContractError], here a [ValueError]. *)
Definition encoding_errors {A} (m : res A) : res A :=
  match m with
  | Raise (StrategyContractError _) => Raise (raise_planning INVALID_TYPE)
  | _ => m
  end.
Definition canonical_portfolio_planning_authority_state_bytes (s : PortfolioPlanningAuthorityState) : res str :=
  encoding_errors (let* _ := check_planning_state s in Ok (encode_json (_planning_state_document s))).

Section Planning.
Context `{hash : Sha256}.

Definition phase1_portfolio_policy_digest (p : Phase1PortfolioPolicy) : res Sha256Digest :=
  let* bytes := canonical_phase1_portfolio_policy_bytes p in
  Ok (_digest (domain "ea.phase1-portfolio-policy.v1") bytes).
Definition portfolio_target_digest (t : PortfolioTarget) : res Sha256Digest :=
  let* bytes := canonical_portfolio_target_bytes t in
  Ok (_digest (domain "ea.phase1-portfolio-target.v1") bytes).
Definition planning_outcome_digest (o : PlanningOutcome) : res Sha256Digest :=
  let* bytes := canonical_planning_outcome_bytes o in
  Ok (_digest (domain "ea.phase1-planning-outcome.v1") bytes).
Definition portfolio_planning_authority_state_digest (s : PortfolioPlanningAuthorityState) : res Sha256Digest :=
  let* bytes := canonical_portfolio_planning_authority_state_bytes s in
  Ok (_digest (domain "ea.phase1-portfolio-planning-authority-state.v1") bytes).

Definition portfolio_planning_submission_digest (s : StrategySignal) : res Sha256Digest :=
  let* bytes := match canonical_strategy_signal_bytes s with
                | Raise (StrategyContractError c) =>
                    Raise (raise_planning (if permitted [INVALID_TYPE; CONFLICTING_ID] c then c else OUT_OF_RANGE))
                | m => m
                end in
  Ok (_digest (domain "ea.phase1-portfolio-planning-submission.v1")
        (to_bytes_big 8 (Z.of_nat (length bytes)) ++ bytes)).

(** ** Factories *)

Definition create_phase1_portfolio_policy (policy_id : PortfolioPolicyId) (entries : list Phase1PortfolioPolicyEntry)
  (spec_set : InstrumentExecutionSpecSet) : res Phase1PortfolioPolicy :=
  raise_if is_empty entries with raise_planning INVALID_TYPE ;;
  raise_if negb (is_sorted_keys (policy_keys entries)) with raise_planning OUT_OF_RANGE ;;
  raise_if negb (no_duplicates (policy_keys entries)) with raise_planning CONFLICTING_ID ;;
  let* _ := check_all (fun e => economic_errors (
                let* specification := require_spec spec_set (entry_instrument e) in
                let* _ := require_quantized (target_quantity e) (quantity_quantum specification) in
                Ok tt)) entries in
  let p := mkPortfolioPolicy policy_id (spec_set_identifier spec_set) (instrument_spec_set_digest spec_set) entries in
  let* _ := canonical_phase1_portfolio_policy_bytes p in
  Ok p.

Definition _create_portfolio_target (run_id : RunId) (target_id : EconomicId) (signal : StrategySignal)
  (signal_sha256 : Sha256Digest) (instrument : Instrument) (target_position : CanonicalDecimal)
  (policy : Phase1PortfolioPolicy) (policy_sha256 : Sha256Digest) (snapshot_version : Z)
  (snapshot_sha256 : Sha256Digest) (specification : InstrumentSpecId) : res PortfolioTarget :=
  let t := {| pt_run_id := run_id;
              pt_target_id := target_id;
              pt_correlation_id := sg_signal_id signal;
              pt_causation_id := sg_signal_id signal;
              pt_signal_sha256 := signal_sha256;
              pt_instrument := instrument;
              pt_target_position := target_position;
              pt_policy_id := pp_policy_id policy;
              pt_policy_sha256 := policy_sha256;
              pt_snapshot_version := snapshot_version;
              pt_snapshot_sha256 := snapshot_sha256;
              pt_causal_root_available_at := sg_causal_root_available_at signal;
              pt_dispatch_sequence := sg_dispatch_sequence signal;
              pt_specification_id := specification;
              pt_spec_set_id := pp_spec_set_id policy;
              pt_spec_set_sha256 := pp_spec_set_sha256 policy |} in
  let* _ := canonical_portfolio_target_bytes t in
  Ok t.

Definition _create_planning_outcome (run_id : RunId) (target : PortfolioTarget) (target_sha256 : Sha256Digest)
  (signal : StrategySignal) (policy : Phase1PortfolioPolicy) (policy_sha256 snapshot_sha256 : Sha256Digest)
  (target_before : Z) (target_after intent_before intent_after : option Z) (kind : PlanningOutcomeKind)
  (intent : option OrderIntent) (intent_sha256 : option Sha256Digest) (delta : CanonicalDecimal)
  : res PlanningOutcome :=
  let* signal_sha256 := strategy_signal_digest signal in
  let o := {| pl_run_id := run_id;
              pl_target_id := pt_target_id target;
              pl_target_sha256 := target_sha256;
              pl_signal_id := sg_signal_id signal;
              pl_signal_sha256 := signal_sha256;
              pl_policy_id := pp_policy_id policy;
              pl_policy_sha256 := policy_sha256;
              pl_snapshot_version := pt_snapshot_version target;
              pl_snapshot_sha256 := snapshot_sha256;
              target_next_before := target_before;
              target_next_after := target_after;
              intent_next_before := intent_before;
              intent_next_after := intent_after;
              pl_kind := kind;
              pl_intent_id := oi_intent_id <$> intent;
              pl_intent_sha256 := intent_sha256;
              pl_delta := delta |} in
  let* _ := canonical_planning_outcome_bytes o in
  Ok o.

Definition _create_portfolio_planning_authority_state (run_id : RunId) (halted : bool)
  (target_next intent_next last : option Z) (count : Z) (conflict : option AuthorityConflictEvidence)
  : res PortfolioPlanningAuthorityState :=
  let s := mkPlanningState run_id halted target_next intent_next last count conflict in
  let* _ := canonical_portfolio_planning_authority_state_bytes s in
  Ok s.
End Planning.

(** ** Results *)

(** The position a snapshot shows: the first balance of the instrument, zero without one. *)
Definition current_position (s : PortfolioSnapshot) (i : Instrument) : CanonicalDecimal :=
  match List.find (fun b => bool_decide (position_instrument b = i)) (position_balances s) with
  | Some b => position_quantity b
  | None => CANONICAL_0
  end.

(** [delta = target - current], compared at a common scale. *)
Definition delta_matches (target current delta : CanonicalDecimal) : bool :=
  let delta_scale := Z.max (Z.max (scale target) (scale current)) (scale delta) in
  coefficient delta * 10 ^ (delta_scale - scale delta)
  =? coefficient target * 10 ^ (delta_scale - scale target) - coefficient current * 10 ^ (delta_scale - scale current).

Definition expected_kind (s : PortfolioSnapshot) (delta : CanonicalDecimal) : PlanningOutcomeKind :=
  if negb (is_empty (unresolved_fills s)) then BLOCKED_UNRESOLVED_FILLS
  else if coefficient delta =? 0 then ALREADY_AT_TARGET else INTENT_EMITTED.

Section Results.
Context `{hash : Sha256}.

(** The identities of the intent, which are checked first. *)
Definition check_intent_ids (r : PortfolioPlanningResult) : res unit :=
  match pr_intent r with
  | None => Ok tt
  | Some i =>
      let run := sg_run_id (pr_signal r) in
      let* _ := _validate_planning_id (oi_intent_id i) PORTFOLIO_INTENT run in
      let* _ := _validate_planning_id (oi_correlation_id i) STRATEGY_SIGNAL run in
      let* _ := _validate_planning_id (oi_causation_id i) PORTFOLIO_TARGET run in
      _validate_planning_id (target_id (oi_target_lineage i)) PORTFOLIO_TARGET run
  end.

(** Signal, target, snapshot and outcome name one another. *)
Definition lineage_conflicts (r : PortfolioPlanningResult) (signal_sha256 target_sha256 : Sha256Digest) : bool :=
  let s := pr_signal r in let t := pr_target r in let o := pr_outcome r in let p := pr_snapshot r in
  negb (bool_decide (pt_run_id t = sg_run_id s))
  || negb (bool_decide (pl_run_id o = sg_run_id s))
  || negb (bool_decide (snap_run_id p = sg_run_id s))
  || negb (bool_decide (pt_correlation_id t = sg_signal_id s))
  || negb (bool_decide (pt_causation_id t = sg_signal_id s))
  || negb (bool_decide (pt_signal_sha256 t = signal_sha256))
  || negb (bool_decide (pt_instrument t = sg_instrument s))
  || negb (bool_decide (pt_causal_root_available_at t = sg_causal_root_available_at s))
  || negb (bool_decide (pt_dispatch_sequence t = sg_dispatch_sequence s))
  || negb (bool_decide (pl_signal_id o = sg_signal_id s))
  || negb (bool_decide (pl_signal_sha256 o = signal_sha256))
  || negb (bool_decide (pl_target_id o = pt_target_id t))
  || negb (bool_decide (pl_target_sha256 o = target_sha256))
  || negb (delta_matches (pt_target_position t) (current_position p (sg_instrument s)) (pl_delta o))
  || negb (pt_snapshot_version t =? snapshot_version p)
  || negb (bool_decide (pt_snapshot_sha256 t = portfolio_snapshot_digest p))
  || negb (bool_decide (pt_spec_set_id t = snap_spec_set_id p))
  || negb (bool_decide (pt_spec_set_sha256 t = snap_spec_set_sha256 p))
  || negb (pl_snapshot_version o =? snapshot_version p)
  || negb (bool_decide (pl_snapshot_sha256 o = portfolio_snapshot_digest p))
  || negb (bool_decide (pl_policy_id o = pt_policy_id t))
  || negb (bool_decide (pl_policy_sha256 o = pt_policy_sha256 t)).

(** The intent is the one the outcome emitted for the target. *)
Definition intent_conflicts (r : PortfolioPlanningResult) (i : OrderIntent) (target_digest : Sha256Digest) : bool :=
  let s := pr_signal r in let t := pr_target r in let o := pr_outcome r in
  let expected_side := if 0 <? coefficient (pl_delta o) then BUY else SELL in
  negb (bool_decide (pl_kind o = INTENT_EMITTED))
  || negb (bool_decide (pl_intent_id o = Some (oi_intent_id i)))
  || negb (bool_decide (pl_intent_sha256 o = Some (order_intent_digest i)))
  || negb (bool_decide (oi_side i = expected_side))
  || negb (coefficient (oi_quantity i) =? Z.abs (coefficient (pl_delta o)))
  || negb (scale (oi_quantity i) =? scale (pl_delta o))
  || negb (bool_decide (oi_run_id i = sg_run_id s))
  || negb (bool_decide (oi_correlation_id i = sg_signal_id s))
  || negb (bool_decide (oi_causation_id i = pt_target_id t))
  || negb (bool_decide (oi_instrument i = pt_instrument t))
  || negb (bool_decide (oi_causal_root_available_at i = sg_causal_root_available_at s))
  || negb (oi_dispatch_sequence i =? sg_dispatch_sequence s)
  || negb (bool_decide (target_id (oi_target_lineage i) = pt_target_id t))
  || negb (bool_decide (Messages.target_sha256 (oi_target_lineage i) = target_digest))
  || negb (oi_portfolio_snapshot_version i =? snapshot_version (pr_snapshot r))
  || negb (bool_decide (oi_specification_id i = pt_specification_id t))
  || negb (bool_decide (oi_spec_set_id i = pt_spec_set_id t))
  || negb (bool_decide (oi_spec_set_sha256 i = pt_spec_set_sha256 t)).

(** The checks [_result_document] makes. *)
Definition check_result (r : PortfolioPlanningResult) : res unit :=
  let* _ := check_intent_ids r in
  let* _ := canonical_strategy_signal_bytes (pr_signal r) in
  let* _ := canonical_portfolio_target_bytes (pr_target r) in
  let* _ := canonical_planning_outcome_bytes (pr_outcome r) in
  let* signal_sha256 := strategy_signal_digest (pr_signal r) in
  let* target_sha256 := portfolio_target_digest (pr_target r) in
  raise_if lineage_conflicts r signal_sha256 target_sha256 with raise_planning CONFLICTING_ID ;;
  raise_if negb (bool_decide (pl_kind (pr_outcome r) = expected_kind (pr_snapshot r) (pl_delta (pr_outcome r))))
    with raise_planning CONFLICTING_ID ;;
  match pr_intent r with
  | None => raise_if bool_decide (pl_kind (pr_outcome r) = INTENT_EMITTED) with raise_planning CONFLICTING_ID ;; Ok tt
  | Some i => raise_if intent_conflicts r i target_sha256 with raise_planning CONFLICTING_ID ;; Ok tt
  end.

Definition _create_portfolio_planning_result (signal : StrategySignal) (target : PortfolioTarget)
  (snapshot : PortfolioSnapshot) (outcome : PlanningOutcome) (intent : option OrderIntent)
  : res PortfolioPlanningResult :=
  let r := mkPlanningResult signal target snapshot outcome intent in
  let* _ := check_result r in
  Ok r.

(** A [StrategyContractError] is a [ValueError] here. *)
Definition canonical_portfolio_planning_result_bytes (r : PortfolioPlanningResult) : res str :=
  encoding_errors (let* _ := check_result r in Ok (encode_json (_result_document r))).
Definition portfolio_planning_result_digest (r : PortfolioPlanningResult) : res Sha256Digest :=
  let* bytes := canonical_portfolio_planning_result_bytes r in
  Ok (_digest (domain "ea.phase1-planning-result.v1") bytes).

(** Object identity of the retained intent and snapshot is equality of the values. *)
Definition validate_portfolio_planning_risk_handoff (r : PortfolioPlanningResult) (intent : OrderIntent)
  (snapshot : PortfolioSnapshot) : res unit :=
  let* _ := canonical_portfolio_planning_result_bytes r in
  raise_if negb (bool_decide (pr_intent r = Some intent))
        || negb (bool_decide (pr_snapshot r = snapshot))
    with raise_planning CONFLICTING_ID ;;
  let o := pr_outcome r in
  raise_if negb (bool_decide (pl_kind o = INTENT_EMITTED))
        || negb (bool_decide (pl_intent_id o = Some (oi_intent_id intent)))
        || negb (bool_decide (pl_intent_sha256 o = Some (order_intent_digest intent)))
        || negb (pl_snapshot_version o =? snapshot_version snapshot)
        || negb (bool_decide (pl_snapshot_sha256 o = portfolio_snapshot_digest snapshot))
    with raise_planning CONFLICTING_ID ;;
  Ok tt.
End Results.
