(* ===== verification/PlanningAuthority.v ===== *)
(** The portfolio-planning authority ([portfolio/planning.py]): the sole owner of targets and
    portfolio intents.

    [plan] replays the result of a signal, halts when a signal comes back with other bytes or
    out of order, and otherwise turns it, against the ledger's snapshot at the time of the
    call, into a target position, the difference to the current one, and the intent that
    closes it, if any is due.  A conflict changes the state although the call raises. *)

From S2P Require Import Prelude PyRegex PyText Outcomes Json Identity Indexing Chronology Economics Execution Messages Orders.
From S2P Require Import Decoders Portfolio Strategy PortfolioPlanning.

Open Scope Z_scope.

Record _ReplayRecord : Type := mkPlanningRecord {
  pr_signal_bytes : str;
  pr_signal_sha256 : Sha256Digest;
  pr_submitted_sha256 : Sha256Digest;
  pr_snapshot_bytes : str;
  pr_snapshot_sha256 : Sha256Digest;
  pr_result : PortfolioPlanningResult;
  pr_result_bytes : str;
  pr_result_sha256 : Sha256Digest
}.
Record _AuthorityState : Type := mkPlanningAuthorityState {
  pa_public : PortfolioPlanningAuthorityState;
  replay_by_signal_id : gmap EconomicId _ReplayRecord
}.
(** The bindings; the policy, its digest and entries are replaced by a rebind. *)
Record PortfolioPlanningAuthority : Type := mkPlanningAuthority {
  pa_run_id : RunId;
  pa_spec_set : InstrumentExecutionSpecSet;
  pa_spec_set_sha256 : Sha256Digest;
  pa_policy : Phase1PortfolioPolicy;
  pa_policy_sha256 : Sha256Digest;
  pa_execution_policy : ExecutionPolicyRef;
  entry_by_instrument : gmap Instrument Phase1PortfolioPolicyEntry;
  pa_spec_by_instrument : gmap Instrument InstrumentExecutionSpec
}.

Definition _advance (n : Z) : option Z := if n =? MAX_UINT64 then None else Some (n + 1).

(** [_raise_structural(error)]: the [code] of the error, if it has one. *)
Definition error_code (e : exn) : option OutcomeCode :=
  match e with
  | EconomicValidationError c | ExecutionIdentityError c | ExecutionMessageError c | PortfolioLedgerError c
  | StrategyContractError c | PortfolioPlanningError c => Some c
  | _ => None
  end.
Definition _raise_structural (e : exn) : exn :=
  raise_planning
    match error_code e with
    | Some INVALID_TYPE => INVALID_TYPE | Some NOT_QUANTIZED => NOT_QUANTIZED | Some CONFLICTING_ID => CONFLICTING_ID
    | _ => OUT_OF_RANGE
    end.
(** [except StrategyContractError as error: _raise_structural(error)]. *)
Definition strategy_structural {A} (m : res A) : res A :=
  match m with Raise (StrategyContractError c) => Raise (_raise_structural (StrategyContractError c)) | _ => m end.
(** [except EconomicValidationError as error: _raise_structural(error)]. *)
Definition economic_structural {A} (m : res A) : res A :=
  match m with Raise (EconomicValidationError c) => Raise (_raise_structural (EconomicValidationError c)) | _ => m end.
(** [except PortfolioPlanningError: raise], [except Exception: raise INVALID_TYPE]. *)
Definition planning_errors {A} (m : res A) : res A :=
  match m with
  | Raise (PortfolioPlanningError c) => Raise (PortfolioPlanningError c)
  | Raise _ => Raise (raise_planning INVALID_TYPE)
  | Ok a => Ok a
  end.
(** The clauses around the creation of an intent. *)
Definition intent_errors {A} (m : res A) : res A :=
  match m with
  | Raise (ExecutionMessageError c) => Raise (_raise_structural (ExecutionMessageError c))
  | Raise (EconomicValidationError c) => Raise (_raise_structural (EconomicValidationError c))
  | Raise _ => Raise (raise_planning INVALID_TYPE)
  | Ok a => Ok a
  end.

(** ** Quantities *)

Definition _subtract (left_ right_ : CanonicalDecimal) : res CanonicalDecimal :=
  let s := Z.max (scale left_) (scale right_) in
  let c := coefficient left_ * 10 ^ (s - scale left_) - coefficient right_ * 10 ^ (s - scale right_) in
  economic_structural (decimal_of_text (_scaled_text c s)).
Definition _absolute (v : CanonicalDecimal) : res CanonicalDecimal :=
  if 0 <=? coefficient v then Ok v
  else economic_structural (decimal_of_text (text_of (removeprefix_minus (chars (text v))))).
Definition _signed_target (quantity : CanonicalDecimal) (direction : SignalDirection) : res CanonicalDecimal :=
  match direction with
  | FLAT => Ok CANONICAL_0
  | LONG => Ok quantity
  | SHORT => decimal_of_text ("-" +:+ text quantity)
  end.

Section Authority.
Context `{hash : Sha256} (a : PortfolioPlanningAuthority).

Definition lookup_by_signal_id (st : _AuthorityState) (signal_id : EconomicId) : res (option PortfolioPlanningResult) :=
  let* _ := _validate_planning_id signal_id STRATEGY_SIGNAL (pa_run_id a) in
  Ok (pr_result <$> replay_by_signal_id st !! signal_id).

(** ** Conflicts *)

Definition _publish_conflict (st : _AuthorityState) (kind : AuthorityConflictKind) (signal : StrategySignal)
  (occupied : option EconomicId) (existing : option Sha256Digest) (submitted : Sha256Digest)
  : exn * _AuthorityState :=
  let conflicting := raise_planning CONFLICTING_ID in
  let public := pa_public st in
  if negb (absent (ps_conflict public)) then (conflicting, st)
  else
    match planning_errors (strategy_structural (
      let* conflict := _create_authority_conflict_evidence KIND_PORTFOLIO_PLANNING kind (pa_run_id a) occupied
                         (sg_dispatch_sequence signal) (last_new_signal_dispatch_sequence public) existing submitted in
      _create_portfolio_planning_authority_state (pa_run_id a) true (target_next public) (intent_next public)
        (last_new_signal_dispatch_sequence public) (result_count public) (Some conflict))) with
    | Ok public => (conflicting, mkPlanningAuthorityState public (replay_by_signal_id st))
    | Raise e => (e, st)
    end.

(** ** Planning a signal *)

Definition _read_snapshot (snapshot : PortfolioSnapshot) : res PortfolioSnapshot :=
  raise_if negb (bool_decide (snap_run_id snapshot = pa_run_id a))
        || negb (bool_decide (snap_spec_set_id snapshot = spec_set_identifier (pa_spec_set a)))
        || negb (bool_decide (snap_spec_set_sha256 snapshot = pa_spec_set_sha256 a))
    with raise_planning CONFLICTING_ID ;;
  Ok snapshot.

(** The target position and its difference to the current one, on the grid. *)
Definition plan_delta (entry : Phase1PortfolioPolicyEntry) (specification : InstrumentExecutionSpec)
  (signal : StrategySignal) (snapshot : PortfolioSnapshot) : res (CanonicalDecimal * CanonicalDecimal) :=
  let* target := economic_structural (_signed_target (target_quantity entry) (sg_direction signal)) in
  let current := current_position snapshot (sg_instrument signal) in
  economic_structural (
    let* _ := require_quantized target (quantity_quantum specification) in
    let* _ := require_quantized current (quantity_quantum specification) in
    let* delta := _subtract target current in
    let* _ := require_quantized delta (quantity_quantum specification) in
    Ok (target, delta)).

(** The intent that closes the difference, with its digest and the next intent number. *)
Definition plan_intent (st : _AuthorityState) (signal : StrategySignal) (snapshot : PortfolioSnapshot)
  (target : PortfolioTarget) (target_sha256 : Sha256Digest) (delta : CanonicalDecimal)
  : res (PlanningOutcomeKind * option OrderIntent * option Z) :=
  let before := intent_next (pa_public st) in
  match expected_kind snapshot delta with
  | INTENT_EMITTED =>
      match before with
      | None => Raise (raise_planning OUT_OF_RANGE)
      | Some n =>
          let side := if 0 <? coefficient delta then BUY else SELL in
          let* quantity := _absolute delta in
          let* intent := intent_errors (
            let* intent_id := EconomicId_init (pa_run_id a) PORTFOLIO_INTENT n in
            let* lineage := TargetLineageRef_init (pt_target_id target) target_sha256 in
            create_order_intent (pa_run_id a) intent_id (sg_signal_id signal) lineage (sg_instrument signal) side
              quantity (snapshot_version snapshot) (at_utc (sg_causal_root_available_at signal))
              (sg_dispatch_sequence signal) (pa_spec_set a) (pa_execution_policy a)) in
          Ok (INTENT_EMITTED, Some intent, _advance n)
      end
  | kind => Ok (kind, None, before)
  end.

Definition planned_record (signal : StrategySignal) (signal_bytes : str) (signal_sha256 submitted : Sha256Digest)
  (snapshot : PortfolioSnapshot) (result : PortfolioPlanningResult) : res _ReplayRecord :=
  let* result_bytes := canonical_portfolio_planning_result_bytes result in
  let* result_sha256 := portfolio_planning_result_digest result in
  Ok {| pr_signal_bytes := signal_bytes;
        pr_signal_sha256 := signal_sha256;
        pr_submitted_sha256 := submitted;
        pr_snapshot_bytes := canonical_portfolio_snapshot_bytes snapshot;
        pr_snapshot_sha256 := portfolio_snapshot_digest snapshot;
        pr_result := result;
        pr_result_bytes := result_bytes;
        pr_result_sha256 := result_sha256 |}.

(** [plan] on a signal that is new and in order. *)
Definition plan_new (st : _AuthorityState) (ledger_snapshot : PortfolioSnapshot) (signal : StrategySignal)
  (signal_bytes : str) (signal_sha256 submitted : Sha256Digest) : res (PortfolioPlanningResult * _AuthorityState) :=
  let public := pa_public st in
  raise_if ps_halted public with raise_planning CONFLICTING_ID ;;
  raise_if negb (bool_decide (sg_run_id signal = pa_run_id a)) with raise_planning CONFLICTING_ID ;;
  match entry_by_instrument a !! sg_instrument signal, pa_spec_by_instrument a !! sg_instrument signal with
  | Some entry, Some specification =>
      match target_next public with
      | None => Raise (raise_planning OUT_OF_RANGE)
      | Some n =>
          let* snapshot := _read_snapshot ledger_snapshot in
          let* td := plan_delta entry specification signal snapshot in
          let target_position := td.1 in
          let delta := td.2 in
          let* target_id := planning_errors (EconomicId_init (pa_run_id a) PORTFOLIO_TARGET n) in
          let* target := planning_errors (
            _create_portfolio_target (pa_run_id a) target_id signal signal_sha256 (sg_instrument signal)
              target_position (pa_policy a) (pa_policy_sha256 a) (snapshot_version snapshot)
              (portfolio_snapshot_digest snapshot) (specification_id specification)) in
          let* target_sha256 := planning_errors (portfolio_target_digest target) in
          let* planned := plan_intent st signal snapshot target target_sha256 delta in
          let kind := planned.1.1 in
          let intent := planned.1.2 in
          let intent_after := planned.2 in
          let* record := planning_errors (
            let* outcome := _create_planning_outcome (pa_run_id a) target target_sha256 signal (pa_policy a)
                              (pa_policy_sha256 a) (portfolio_snapshot_digest snapshot) n (_advance n)
                              (intent_next public) intent_after kind intent (order_intent_digest <$> intent) delta in
            let* result := _create_portfolio_planning_result signal target snapshot outcome intent in
            planned_record signal signal_bytes signal_sha256 submitted snapshot result) in
          let* public := planning_errors (
            _create_portfolio_planning_authority_state (pa_run_id a) false (_advance n) intent_after
              (Some (sg_dispatch_sequence signal)) (result_count public + 1) None) in
          Ok (pr_result record,
              mkPlanningAuthorityState public (<[sg_signal_id signal := record]> (replay_by_signal_id st)))
      end
  | _, _ => Raise (raise_planning CONFLICTING_ID)
  end.

Definition plan (st : _AuthorityState) (ledger_snapshot : PortfolioSnapshot) (signal : StrategySignal)
  : res PortfolioPlanningResult * _AuthorityState :=
  match strategy_structural (
    let* bytes := canonical_strategy_signal_bytes signal in
    let* sha256 := strategy_signal_digest signal in
    let* submitted := portfolio_planning_submission_digest signal in
    Ok (bytes, sha256, submitted)) with
  | Raise e => (Raise e, st)
  | Ok (bytes, sha256, submitted) =>
      match replay_by_signal_id st !! sg_signal_id signal with
      | Some existing =>
          if bool_decide (pr_signal_bytes existing = bytes) then (Ok (pr_result existing), st)
          else
            let '(e, st) := _publish_conflict st IDENTITY_REUSE signal (Some (sg_signal_id signal))
                              (Some (pr_signal_sha256 existing)) submitted in
            (Raise e, st)
      | None =>
          if match last_new_signal_dispatch_sequence (pa_public st) with
             | Some last => sg_dispatch_sequence signal <=? last
             | None => false
             end
          then
            let '(e, st) := _publish_conflict st NON_MONOTONE_DISPATCH signal None None submitted in
            (Raise e, st)
          else
            match plan_new st ledger_snapshot signal bytes sha256 submitted with
            | Ok (result, next) => (Ok result, next)
            | Raise e => (Raise e, st)
            end
      end
  end.

(** ** Rebinding the policy of a flat portfolio *)

(** The entries, rebuilt from their texts and the instruments of the set. *)
Definition copy_entry (spec_set : InstrumentExecutionSpecSet) (e : Phase1PortfolioPolicyEntry)
  : res Phase1PortfolioPolicyEntry :=
  let* specification := require_spec spec_set (entry_instrument e) in
  let* q := decimal_of_text (text (target_quantity e)) in
  Phase1PortfolioPolicyEntry_init (spec_instrument specification) q.

Definition _rebind_flat_policy (st : _AuthorityState) (ledger_snapshot : PortfolioSnapshot)
  (policy : Phase1PortfolioPolicy) : res PortfolioPlanningAuthority :=
  raise_if ps_halted (pa_public st)
        || existsb (fun b => negb (coefficient (position_quantity b) =? 0)) (position_balances ledger_snapshot)
    with raise_planning CONFLICTING_ID ;;
  raise_if negb (bool_decide (pp_policy_id policy = pp_policy_id (pa_policy a)))
        || negb (bool_decide (pp_spec_set_id policy = spec_set_identifier (pa_spec_set a)))
        || negb (bool_decide (pp_spec_set_sha256 policy = pa_spec_set_sha256 a))
        || negb (bool_decide (list_to_set (map entry_instrument (pp_entries policy))
                              =@{gset Instrument} dom (entry_by_instrument a)))
    with raise_planning CONFLICTING_ID ;;
  let* entries := rmap (copy_entry (pa_spec_set a)) (pp_entries policy) in
  let* retained := create_phase1_portfolio_policy (pp_policy_id policy) entries (pa_spec_set a) in
  let* digest := phase1_portfolio_policy_digest retained in
  Ok {| pa_run_id := pa_run_id a;
        pa_spec_set := pa_spec_set a;
        pa_spec_set_sha256 := pa_spec_set_sha256 a;
        pa_policy := retained;
        pa_policy_sha256 := digest;
        pa_execution_policy := pa_execution_policy a;
        entry_by_instrument := index_by entry_instrument (pp_entries retained);
        pa_spec_by_instrument := pa_spec_by_instrument a |}.
End Authority.

(** ** Creation, fresh or resuming a recovered run *)

Section Creation.
Context `{hash : Sha256}.

(** A specification rebuilt from the texts of its fields. *)
Definition copy_spec (s : InstrumentExecutionSpec) : res InstrumentExecutionSpec := InstrumentExecutionSpec_init s.

(** The retained copies of the specification set and the policy. *)
Definition retain (spec_set : InstrumentExecutionSpecSet) (policy : Phase1PortfolioPolicy)
  : res (InstrumentExecutionSpecSet * Phase1PortfolioPolicy) :=
  match
    let* specs := rmap copy_spec (specifications spec_set) in
    let* retained := build_instrument_spec_set (spec_set_identifier spec_set) specs in
    let* entries := rmap (copy_entry retained) (pp_entries policy) in
    let* copied := create_phase1_portfolio_policy (pp_policy_id policy) entries retained in
    Ok (retained, copied)
  with
  | Raise (PortfolioPlanningError c) => Raise (_raise_structural (PortfolioPlanningError c))
  | Raise (EconomicValidationError c) => Raise (_raise_structural (EconomicValidationError c))
  | Raise _ => Raise (raise_planning INVALID_TYPE)
  | Ok r => Ok r
  end.

Definition out_of_uint64 (low : Z) (n : Z) : bool := (n <? low) || (MAX_UINT64 <? n).

Definition create_portfolio_planning_authority (run_id : RunId) (ledger_snapshot : PortfolioSnapshot)
  (spec_set : InstrumentExecutionSpecSet) (policy : Phase1PortfolioPolicy) (execution_policy : ExecutionPolicyRef)
  (first_target_sequence first_intent_sequence count : Z) (last : option Z)
  : res (PortfolioPlanningAuthority * _AuthorityState) :=
  raise_if out_of_uint64 1 first_target_sequence || out_of_uint64 1 first_intent_sequence
    with raise_planning OUT_OF_RANGE ;;
  raise_if out_of_uint64 0 count with raise_planning OUT_OF_RANGE ;;
  raise_if match last with Some n => out_of_uint64 1 n | None => false end with raise_planning OUT_OF_RANGE ;;
  let spec_sha256 := instrument_spec_set_digest spec_set in
  raise_if negb (bool_decide (pp_spec_set_id policy = spec_set_identifier spec_set))
        || negb (bool_decide (pp_spec_set_sha256 policy = spec_sha256)) with raise_planning CONFLICTING_ID ;;
  let* original_policy_bytes := canonical_phase1_portfolio_policy_bytes policy in
  let* retained := retain spec_set policy in
  let* policy_bytes := canonical_phase1_portfolio_policy_bytes retained.2 in
  let* policy_sha256 := phase1_portfolio_policy_digest retained.2 in
  raise_if negb (bool_decide (canonical_instrument_spec_set_bytes retained.1 = canonical_instrument_spec_set_bytes spec_set))
        || negb (bool_decide (instrument_spec_set_digest retained.1 = spec_sha256)) with raise_planning CONFLICTING_ID ;;
  raise_if negb (bool_decide (policy_bytes = original_policy_bytes)) with raise_planning CONFLICTING_ID ;;
  raise_if negb (bool_decide (snap_run_id ledger_snapshot = run_id))
        || negb (bool_decide (snap_spec_set_id ledger_snapshot = spec_set_identifier spec_set))
        || negb (bool_decide (snap_spec_set_sha256 ledger_snapshot = spec_sha256)) with raise_planning CONFLICTING_ID ;;
  let* public := _create_portfolio_planning_authority_state run_id false (Some first_target_sequence)
                   (Some first_intent_sequence) last count None in
  Ok ({| pa_run_id := run_id;
         pa_spec_set := retained.1;
         pa_spec_set_sha256 := instrument_spec_set_digest retained.1;
         pa_policy := retained.2;
         pa_policy_sha256 := policy_sha256;
         pa_execution_policy := execution_policy;
         entry_by_instrument := index_by entry_instrument (pp_entries retained.2);
         pa_spec_by_instrument := index_by spec_instrument (specifications retained.1) |},
      mkPlanningAuthorityState public ∅).
End Creation.
