(* ===== verification/PlanningSpec.v ===== *)
(** The planning authority: its arithmetic in units, the specification of a plan and of the log, and that it makes exactly the plans of the specification. *)

From S2P Require Import Prelude PyRegex PyText Outcomes Json Identity Economics Execution Messages Orders Decoders.
From S2P Require Import Portfolio Strategy PortfolioPlanning PlanningAuthority Numbering Indexing Chronology.

Open Scope Z_scope.

(** *** The planning authority: its arithmetic in units, and the specification of a plan and of the log. *)

(** *** The planning authority's arithmetic on decimals is arithmetic on integers in units of
    [10^-18]: differences, absolute values and signed targets, and the comparison of a
    result's difference. *)

(** Decimals of one magnitude have one scale. *)
Lemma abs_units_scale a b : Z.abs (units a) = Z.abs (units b) -> scale a = scale b.
Proof.
  assert (forall a b, scale a < scale b -> Z.abs (units a) <> Z.abs (units b)) as Hlt.
  { clear. intros a b Hs Heq. destruct (decimal_bounds a) as (Ha & _), (decimal_bounds b) as (Hb & _ & Hm).
    apply Hm; [lia|]. rewrite <-(coefficient_at a (scale b)) in Heq by lia. unfold units in Heq.
    rewrite !Z.abs_mul, (Z.abs_eq (10 ^ (18 - scale b))) in Heq by (apply Z.pow_nonneg; lia).
    rewrite <-Z.abs_mul in Heq. apply Z.mul_reg_r in Heq; [|pose proof (pow10_gt0 (18 - scale b)); lia].
    apply Z.mod_divide; [lia|]. apply Z.divide_abs_r. rewrite <-Heq. apply Z.divide_abs_r, Z.mod_divide; [lia|].
    apply mul_pow10_mod10. lia. }
  intros Heq. destruct (Z.lt_trichotomy (scale a) (scale b)) as [H|[H|H]]; [|done|].
  - by destruct (Hlt _ _ H).
  - by destruct (Hlt _ _ H).
Qed.
Lemma units_opp_parts a b : units a = - units b -> scale a = scale b /\ coefficient a = - coefficient b.
Proof.
  intros H. assert (scale a = scale b) as Hs by (apply abs_units_scale; lia). split; [done|].
  unfold units in H. rewrite Hs in H. destruct (decimal_bounds b). pose proof (pow10_gt0 (18 - scale b) ltac:(lia)).
  rewrite <-Z.mul_opp_l in H. by apply Z.mul_reg_r in H; [|lia].
Qed.

Lemma subtract_units a b :
  (exists d, _subtract a b = Ok d /\ units d = units a - units b) \/
  (_subtract a b = Raise (PortfolioPlanningError OUT_OF_RANGE) /\ UNIT_BOUND <= Z.abs (units a - units b)).
Proof.
  unfold _subtract. set (t := Z.max (scale a) (scale b)). set (c := _ - _).
  destruct (decimal_bounds a) as [Ha _], (decimal_bounds b) as [Hb _].
  assert (c * 10 ^ (18 - t) = units a - units b) as Hc.
  { unfold c. rewrite <-(coefficient_at a t), <-(coefficient_at b t) by lia. ring. }
  assert (10 ^ t * 10 ^ (18 - t) = 10 ^ 18) as Hp by (rewrite <-pow10_add by lia; f_equal; lia).
  assert (c * 10 ^ 18 = (units a - units b) * 10 ^ t) as Heq by (rewrite <-Hc, <-Hp; ring).
  pose proof (pow10_gt0 t ltac:(lia)).
  destruct (scaled_text_spec c t ltac:(lia)) as [(d & -> & Hd)|[-> Hno]]; [left|right].
  - exists d. split; [done|]. nia.
  - split; [done|]. destruct (Z_lt_le_dec (Z.abs (units a - units b)) UNIT_BOUND) as [Hlt|]; [|done].
    by destruct (Hno _ Hlt).
Qed.

(** The sign is the first character of a negative text and of no other. *)
Lemma text_sign d : units d <> 0 ->
  match chars (text d) with "-"%char :: _ => units d < 0 | _ => 0 < units d end.
Proof.
  intros Hnz.
  destruct (decimal_post_init_inv _ _ _ (text_ok d)) as (neg & I & F & Ht & Hc & Hcoef & Hs & _ & _).
  destruct Hc as (HI & Hz & HF & Hp). pose proof (fraction_ok_digits F HF) as HFd.
  assert (I <> []) as Hne by by destruct I.
  assert (0 <= int_of (I ++ F)) as H0 by (by apply int_of_bound, all_digits_app).
  destruct (coefficient_sign d) as (C1 & C2 & C3). rewrite Ht, chars_text_of. unfold render, signed in *.
  destruct neg; cbn [app]; [lia|]. destruct I as [|c I]; [done|]. cbn [app].
  assert (c <> "-"%char) as Hcm by (apply (all_digits_no_dot (c :: I)); [done|left]).
  assert (0 < units d) by lia. destruct c as [[] [] [] [] [] [] [] []]; done.
Qed.

Lemma absolute_units v : exists q, _absolute v = Ok q /\ units q = Z.abs (units v) /\
  coefficient q = Z.abs (coefficient v) /\ scale q = scale v.
Proof.
  unfold _absolute. destruct (coefficient_sign v) as (C1 & C2 & C3).
  destruct (Z.leb_spec 0 (coefficient v)); [exists v; split_and!; try done; lia|].
  assert (units v <> 0) as Hnz by lia. pose proof (text_sign v Hnz) as Hs.
  destruct (decimal_flip_sign v Hnz) as (q & Hq & Hu). exists q. destruct (units_opp_parts q v Hu) as [Hsc Hc].
  split_and!; [|lia|lia|done].
  unfold removeprefix_minus. destruct (chars (text v)) as [|[[] [] [] [] [] [] [] []] r]; try (exfalso; lia).
  cbn [is_char]. cbn iota in Hq. replace (is_char _ _) with true by done. cbn iota. by rewrite Hq.
Qed.

(** The position a direction asks for. *)
Definition signed_units (d : SignalDirection) (quantity : Z) : Z :=
  match d with LONG => quantity | FLAT => 0 | SHORT => - quantity end.

Lemma signed_target_units q d : 0 < units q ->
  exists t, _signed_target q d = Ok t /\ units t = signed_units d (units q).
Proof.
  intros Hq. destruct d; cbn [_signed_target signed_units]; [by exists q|by exists CANONICAL_0|].
  assert (units q <> 0) as Hnz by lia. pose proof (text_sign q Hnz) as Hs.
  destruct (decimal_flip_sign q Hnz) as (t & Ht & Hu). exists t. split; [|done].
  assert (forall r, ("-" +:+ text_of r)%string = text_of ("-"%char :: r)) as Hcons by done.
  rewrite <-(text_of_chars (text q)), Hcons.
  destruct (chars (text q)) as [|[[] [] [] [] [] [] [] []] r]; try exact Ht. exfalso; lia.
Qed.
Lemma signed_target_bound q d t : 0 < units q -> _signed_target q d = Ok t -> units t = signed_units d (units q).
Proof. intros Hq Ht. destruct (signed_target_units q d Hq) as (t' & Ht' & Hu). congruence. Qed.

(** The comparison of a result is exact. *)
Lemma delta_matches_units target current delta :
  delta_matches target current delta = (units delta =? units target - units current).
Proof.
  unfold delta_matches. set (s := Z.max (Z.max (scale target) (scale current)) (scale delta)).
  destruct (decimal_bounds target) as [Ht _], (decimal_bounds current) as [Hc _], (decimal_bounds delta) as [Hd _].
  rewrite <-(coefficient_at target s), <-(coefficient_at current s), <-(coefficient_at delta s) by lia.
  rewrite <-Z.mul_sub_distr_r. pose proof (pow10_gt0 (18 - s) ltac:(lia)).
  set (x := coefficient delta * _). set (y := coefficient target * _ - _).
  destruct (Z.eqb_spec x y) as [->|Hne]; [by rewrite Z.eqb_refl|].
  symmetry. apply Z.eqb_neq. intros H0. by apply Z.mul_reg_r in H0; [|lia].
Qed.

(** *** The specification of the planning authority: the plan of a signal as a relation on
    integers, the log of the plans made, and one call of [plan] as a relation. *)

Section Spec.
Context `{hash : Sha256}.
Implicit Types (a : PortfolioPlanningAuthority) (st : _AuthorityState) (r : PortfolioPlanningResult).
Implicit Types (signal : StrategySignal) (snapshot : PortfolioSnapshot) (log : list PortfolioPlanningResult).

(** ** The digests of valid values *)

Definition signal_bytes_of signal : str := encode_json (_signal_document signal).
Definition signal_sha_of signal : Sha256Digest := _digest (domain "ea.phase1-strategy-signal.v1") (signal_bytes_of signal).
Definition submission_of signal : Sha256Digest :=
  _digest (domain "ea.phase1-portfolio-planning-submission.v1")
    (to_bytes_big 8 (Z.of_nat (length (signal_bytes_of signal))) ++ signal_bytes_of signal).
Definition target_sha_of (t : PortfolioTarget) : Sha256Digest :=
  _digest (domain "ea.phase1-portfolio-target.v1") (encode_json (_target_document t)).

(** ** A well-formed authority *)

Record bound a : Prop := {
  pb_specs : spec_set_ok (pa_spec_set a);
  pb_spec i s : pa_spec_by_instrument a !! i = Some s <-> require_spec (pa_spec_set a) i = Ok s;
  pb_entry i e : entry_by_instrument a !! i = Some e -> entry_instrument e = i /\ e ∈ pp_entries (pa_policy a);
  pb_quantity e : e ∈ pp_entries (pa_policy a) -> 0 < units (target_quantity e) /\
    exists s, require_spec (pa_spec_set a) (entry_instrument e) = Ok s /\ on_grid (target_quantity e) (quantity_quantum s);
  pb_digest : phase1_portfolio_policy_digest (pa_policy a) = Ok (pa_policy_sha256 a);
  pb_set_digest : pa_spec_set_sha256 a = instrument_spec_set_digest (pa_spec_set a);
  pb_policy_set : pp_spec_set_id (pa_policy a) = spec_set_identifier (pa_spec_set a) /\
                  pp_spec_set_sha256 (pa_policy a) = instrument_spec_set_digest (pa_spec_set a)
}.

(** ** One plan *)

Definition target_of a (n : Z) signal snapshot (specification : InstrumentExecutionSpec) (position : CanonicalDecimal)
  : PortfolioTarget :=
  {| pt_run_id := pa_run_id a;
     pt_target_id := mkEconomicId (pa_run_id a) PORTFOLIO_TARGET n;
     pt_correlation_id := sg_signal_id signal;
     pt_causation_id := sg_signal_id signal;
     pt_signal_sha256 := signal_sha_of signal;
     pt_instrument := sg_instrument signal;
     pt_target_position := position;
     pt_policy_id := pp_policy_id (pa_policy a);
     pt_policy_sha256 := pa_policy_sha256 a;
     pt_snapshot_version := snapshot_version snapshot;
     pt_snapshot_sha256 := portfolio_snapshot_digest snapshot;
     pt_causal_root_available_at := sg_causal_root_available_at signal;
     pt_dispatch_sequence := sg_dispatch_sequence signal;
     pt_specification_id := specification_id specification;
     pt_spec_set_id := pp_spec_set_id (pa_policy a);
     pt_spec_set_sha256 := pp_spec_set_sha256 (pa_policy a) |}.

Definition outcome_of a (n : Z) signal snapshot (target : PortfolioTarget) (before after : option Z)
  (kind : PlanningOutcomeKind) (intent : option OrderIntent) (delta : CanonicalDecimal) : PlanningOutcome :=
  {| pl_run_id := pa_run_id a;
     pl_target_id := pt_target_id target;
     pl_target_sha256 := target_sha_of target;
     pl_signal_id := sg_signal_id signal;
     pl_signal_sha256 := signal_sha_of signal;
     pl_policy_id := pp_policy_id (pa_policy a);
     pl_policy_sha256 := pa_policy_sha256 a;
     pl_snapshot_version := pt_snapshot_version target;
     pl_snapshot_sha256 := portfolio_snapshot_digest snapshot;
     target_next_before := n;
     target_next_after := _advance n;
     intent_next_before := before;
     intent_next_after := after;
     pl_kind := kind;
     pl_intent_id := oi_intent_id <$> intent;
     pl_intent_sha256 := order_intent_digest <$> intent;
     pl_delta := delta |}.

(** What is emitted for a difference: nothing while fills are unresolved or the target is
    reached, else the intent that closes it, under the next intent number. *)
Inductive emits a (k : option Z) signal snapshot (target : PortfolioTarget) (delta : CanonicalDecimal)
  : PlanningOutcomeKind -> option OrderIntent -> option Z -> Prop :=
| emits_blocked : unresolved_fills snapshot <> [] ->
    emits a k signal snapshot target delta BLOCKED_UNRESOLVED_FILLS None k
| emits_nothing : unresolved_fills snapshot = [] -> units delta = 0 ->
    emits a k signal snapshot target delta ALREADY_AT_TARGET None k
| emits_intent m quantity intent : unresolved_fills snapshot = [] -> units delta <> 0 -> k = Some m ->
    units quantity = Z.abs (units delta) ->
    create_order_intent (pa_run_id a) (mkEconomicId (pa_run_id a) PORTFOLIO_INTENT m) (sg_signal_id signal)
      (mkTargetLineageRef (pt_target_id target) (target_sha_of target)) (sg_instrument signal)
      (if 0 <? units delta then BUY else SELL) quantity (snapshot_version snapshot)
      (at_utc (sg_causal_root_available_at signal)) (sg_dispatch_sequence signal) (pa_spec_set a)
      (pa_execution_policy a) = Ok intent ->
    emits a k signal snapshot target delta INTENT_EMITTED (Some intent) (_advance m).

(** The snapshot is of the authority's run and specification set. *)
Definition own_snapshot a snapshot : Prop :=
  snap_run_id snapshot = pa_run_id a /\ snap_spec_set_id snapshot = spec_set_identifier (pa_spec_set a) /\
  snap_spec_set_sha256 snapshot = pa_spec_set_sha256 a.

(** The plan of a signal under target number [n] and intent number [k]. *)
Inductive planned a (n : Z) (k : option Z) signal snapshot : PortfolioPlanningResult -> option Z -> Prop :=
| planned_intro entry specification position delta kind intent after :
    sg_run_id signal = pa_run_id a ->
    own_snapshot a snapshot ->
    entry_by_instrument a !! sg_instrument signal = Some entry ->
    pa_spec_by_instrument a !! sg_instrument signal = Some specification ->
    units position = signed_units (sg_direction signal) (units (target_quantity entry)) ->
    units delta = units position - units (current_position snapshot (sg_instrument signal)) ->
    emits a k signal snapshot (target_of a n signal snapshot specification position) delta kind intent after ->
    planned a n k signal snapshot
      (mkPlanningResult signal (target_of a n signal snapshot specification position) snapshot
         (outcome_of a n signal snapshot (target_of a n signal snapshot specification position) k after kind intent delta)
         intent) after.

Definition record_of r : _ReplayRecord :=
  let bytes := encode_json (_result_document r) in
  {| pr_signal_bytes := signal_bytes_of (pr_signal r);
     pr_signal_sha256 := signal_sha_of (pr_signal r);
     pr_submitted_sha256 := submission_of (pr_signal r);
     pr_snapshot_bytes := canonical_portfolio_snapshot_bytes (pr_snapshot r);
     pr_snapshot_sha256 := portfolio_snapshot_digest (pr_snapshot r);
     pr_result := r;
     pr_result_bytes := bytes;
     pr_result_sha256 := _digest (domain "ea.phase1-planning-result.v1") bytes |}.

(** ** The log *)

Definition signal_id_of r : EconomicId := sg_signal_id (pr_signal r).
Definition dispatch_of r : Z := sg_dispatch_sequence (pr_signal r).
Definition intents_of log : list OrderIntent := omap pr_intent log.

Section Log.
Context (run_id : RunId) (first_target first_intent count : Z) (start : option Z).

Record planning_frontier : Prop := {
  pf_target : 1 <= first_target <= MAX_UINT64;
  pf_intent : 1 <= first_intent <= MAX_UINT64;
  pf_count : 0 <= count <= MAX_UINT64;
  pf_start : match start with Some n => 1 <= n <= MAX_UINT64 | None => True end
}.

(** The [i]-th plan was made by the authority under some policy, with the numbers that
    come after those of the plans before it. *)
Definition planned_at log (i : nat) r : Prop :=
  exists a after, bound a /\ pa_run_id a = run_id /\ _validate_signal (pr_signal r) = Ok tt /\
    planned a (first_target + Z.of_nat i) (number_after first_intent (length (intents_of (take i log))))
      (pr_signal r) (pr_snapshot r) r after.

Record planning_log st log : Prop := {
  pn_frontier : planning_frontier;
  pn_replay : indexes signal_id_of record_of (replay_by_signal_id st) log;
  pn_signals : NoDup (map signal_id_of log);
  pn_target : target_next (pa_public st) = number_after first_target (length log);
  pn_target_bound : first_target + Z.of_nat (length log) <= MAX_UINT64 + 1;
  pn_intent : intent_next (pa_public st) = number_after first_intent (length (intents_of log));
  pn_intent_bound : first_intent + Z.of_nat (length (intents_of log)) <= MAX_UINT64 + 1;
  pn_last : last_new_signal_dispatch_sequence (pa_public st) = last_taken start (map dispatch_of log);
  pn_count : result_count (pa_public st) = count + Z.of_nat (length log);
  pn_count_bound : count + Z.of_nat (length log) <= MAX_UINT64;
  pn_order : in_order start (map dispatch_of log);
  pn_planned i r : log !! i = Some r -> planned_at log i r;
  pn_halt : ps_halted (pa_public st) = negb (absent (ps_conflict (pa_public st)))
}.
End Log.

(** ** Conflicts *)

Definition conflict_of a st (kind : AuthorityConflictKind) signal (existing : option PortfolioPlanningResult)
  : AuthorityConflictEvidence :=
  mkConflict KIND_PORTFOLIO_PLANNING kind (pa_run_id a) (signal_id_of <$> existing) (sg_dispatch_sequence signal)
    (last_new_signal_dispatch_sequence (pa_public st)) ((fun r => signal_sha_of (pr_signal r)) <$> existing)
    (submission_of signal).
Definition halted_state a st (c : AuthorityConflictEvidence) : _AuthorityState :=
  match ps_conflict (pa_public st) with
  | Some _ => st
  | None =>
      mkPlanningAuthorityState
        (mkPlanningState (pa_run_id a) true (target_next (pa_public st)) (intent_next (pa_public st))
           (last_new_signal_dispatch_sequence (pa_public st)) (result_count (pa_public st)) (Some c))
        (replay_by_signal_id st)
  end.
Definition planned_state a st (n : Z) r (after : option Z) : _AuthorityState :=
  mkPlanningAuthorityState
    (mkPlanningState (pa_run_id a) false (_advance n) after (Some (dispatch_of r)) (result_count (pa_public st) + 1) None)
    (<[signal_id_of r := record_of r]> (replay_by_signal_id st)).
End Spec.

(** ** Reachable states, with the plans made on the way *)

Section Reachable.
Context `{hash : Sha256} (run_id : RunId) (first_target first_intent count : Z) (start : option Z).

Inductive planning_reachable : PortfolioPlanningAuthority -> _AuthorityState -> list PortfolioPlanningResult -> Prop :=
| planning_created snapshot spec_set policy execution_policy a st :
    create_portfolio_planning_authority run_id snapshot spec_set policy execution_policy first_target first_intent
      count start = Ok (a, st) -> planning_reachable a st []
| planning_planned a st log snapshot signal r st' : planning_reachable a st log ->
    plan a st snapshot signal = (Ok r, st') ->
    planning_reachable a st' (if bool_decide (sg_signal_id signal ∈ map signal_id_of log) then log else log ++ [r])
| planning_raised a st log snapshot signal e st' : planning_reachable a st log ->
    plan a st snapshot signal = (Raise e, st') -> planning_reachable a st' log
| planning_rebound a st log snapshot policy a' : planning_reachable a st log ->
    _rebind_flat_policy a st snapshot policy = Ok a' -> planning_reachable a' st log.
End Reachable.

(** *** The planning authority makes exactly the plans of the specification. *)

(** *** The checks of planning values on values the authority builds: identities, targets,
    outcomes and results made by one plan pass them, whatever the plan. *)

(** ** Numbers and identities *)

Lemma planning_positive_uint64 n : 1 <= n <= MAX_UINT64 -> PortfolioPlanning._require_positive_uint64 n = Ok n.
Proof. intros H. unfold PortfolioPlanning._require_positive_uint64. by replace ((n <? 1) || (MAX_UINT64 <? n)) with false by lia. Qed.
Lemma planning_positive_uint64_Ok n k : PortfolioPlanning._require_positive_uint64 n = Ok k -> 1 <= n <= MAX_UINT64 /\ k = n.
Proof. unfold PortfolioPlanning._require_positive_uint64. destruct (_ || _) eqn:E; [done|]. intros [= <-]. split; [lia|done]. Qed.
Lemma planning_optional_uint64 n : match n with Some n => 1 <= n <= MAX_UINT64 | None => True end ->
  PortfolioPlanning._require_optional_positive_uint64 n = Ok n.
Proof. destruct n as [n|]; [|done]. intros H. cbn. by rewrite planning_positive_uint64. Qed.
Lemma optional_uint64_Ok n k : PortfolioPlanning._require_optional_positive_uint64 n = Ok k ->
  match n with Some n => 1 <= n <= MAX_UINT64 | None => True end.
Proof. destruct n as [n|]; [|done]. intros H. apply rbind_Ok in H as (m & Hm & _). by apply planning_positive_uint64_Ok in Hm as [? _]. Qed.
Lemma planning_non_negative_uint64 n : 0 <= n <= MAX_UINT64 -> PortfolioPlanning._require_non_negative_uint64 n = Ok n.
Proof. intros H. unfold PortfolioPlanning._require_non_negative_uint64. by replace ((n <? 0) || (MAX_UINT64 <? n)) with false by lia. Qed.
Lemma planning_non_negative_uint64_Ok n k : PortfolioPlanning._require_non_negative_uint64 n = Ok k -> 0 <= n <= MAX_UINT64 /\ k = n.
Proof. unfold PortfolioPlanning._require_non_negative_uint64. destruct (_ || _) eqn:E; [done|]. intros [= <-]. split; [lia|done]. Qed.

Definition id_fits (i : EconomicId) (owner : EconomicOwnerKind) (run : RunId) : Prop :=
  owner_kind i = owner /\ id_run_id i = run /\ 1 <= owner_sequence i <= MAX_UINT64.
Lemma valid_planning_id i owner run : _validate_planning_id i owner run = Ok tt <-> id_fits i owner run.
Proof.
  unfold _validate_planning_id, id_fits. split.
  - intros H. apply rbind_Ok in H as (? & [Hn _]%planning_positive_uint64_Ok & H).
    destruct (bool_decide_reflect (owner_kind i = owner)); [|done].
    by destruct (bool_decide_reflect (id_run_id i = run)).
  - intros (Ho & Hr & Hs). rewrite planning_positive_uint64 by done. cbn [rbind]. by rewrite !bool_decide_true.
Qed.
Lemma valid_signal s : _validate_signal s = Ok tt <->
  id_fits (sg_signal_id s) STRATEGY_SIGNAL (sg_run_id s) /\ 1 <= sg_dispatch_sequence s <= MAX_UINT64.
Proof.
  unfold _validate_signal, _validate_economic_id, Strategy._require_positive_uint64, id_fits. split.
  - intros H. apply rbind_Ok in H as (? & H1 & H). apply rbind_Ok in H1 as (? & Hn & H1). res_inv Hn.
    destruct (bool_decide_reflect (owner_kind (sg_signal_id s) = STRATEGY_SIGNAL)); [|done].
    destruct (bool_decide_reflect (id_run_id (sg_signal_id s) = sg_run_id s)); [|done].
    apply rbind_Ok in H as (? & Hd & _). res_inv Hd. split_and!; try done; lia.
  - intros ((Ho & Hr & Hs) & Hd).
    replace ((owner_sequence (sg_signal_id s) <? 1) || (MAX_UINT64 <? owner_sequence (sg_signal_id s))) with false by lia.
    replace ((sg_dispatch_sequence s <? 1) || (MAX_UINT64 <? sg_dispatch_sequence s)) with false by lia.
    cbn [rbind]. by rewrite !bool_decide_true.
Qed.

Lemma planning_errors_Ok {A} (m : res A) x : planning_errors m = Ok x <-> m = Ok x.
Proof. destruct m as [y|[]]; done. Qed.
Lemma strategy_structural_Ok {A} (m : res A) x : strategy_structural m = Ok x <-> m = Ok x.
Proof. destruct m as [y|[]]; done. Qed.
Lemma economic_structural_Ok {A} (m : res A) x : economic_structural m = Ok x <-> m = Ok x.
Proof. destruct m as [y|[]]; done. Qed.
Lemma intent_errors_Ok {A} (m : res A) x : intent_errors m = Ok x <-> m = Ok x.
Proof. destruct m as [y|[]]; done. Qed.
Lemma economic_errors_Ok {A} (m : res A) x : economic_errors m = Ok x <-> m = Ok x.
Proof. destruct m as [y|[]]; done. Qed.
Lemma encoding_errors_Ok {A} (m : res A) x : encoding_errors m = Ok x <-> m = Ok x.
Proof. destruct m as [y|[]]; done. Qed.

Section Checks.
Context `{hash : Sha256} (a : PortfolioPlanningAuthority).
Implicit Types (signal : StrategySignal) (snapshot : PortfolioSnapshot).

(** ** Digests of valid values *)

Lemma signal_digests signal : _validate_signal signal = Ok tt ->
  canonical_strategy_signal_bytes signal = Ok (signal_bytes_of signal) /\
  strategy_signal_digest signal = Ok (signal_sha_of signal) /\
  portfolio_planning_submission_digest signal = Ok (submission_of signal).
Proof.
  intros Hv. assert (canonical_strategy_signal_bytes signal = Ok (signal_bytes_of signal)) as Hb.
  { unfold canonical_strategy_signal_bytes. by rewrite Hv. }
  split_and!; [done| |]; unfold strategy_signal_digest, portfolio_planning_submission_digest; by rewrite Hb.
Qed.
Lemma signal_bytes_valid signal b : canonical_strategy_signal_bytes signal = Ok b -> _validate_signal signal = Ok tt.
Proof. unfold canonical_strategy_signal_bytes. intros H. by apply rbind_Ok in H as ([] & Hv & _). Qed.

Section Plan.
Context (n : Z) (k after : option Z) (signal : StrategySignal) (snapshot : PortfolioSnapshot)
  (specification : InstrumentExecutionSpec) (position delta : CanonicalDecimal)
  (kind : PlanningOutcomeKind) (intent : option OrderIntent).
Let target := target_of a n signal snapshot specification position.
Let outcome := outcome_of a n signal snapshot target k after kind intent delta.

Lemma target_created : _validate_signal signal = Ok tt -> sg_run_id signal = pa_run_id a -> 1 <= n <= MAX_UINT64 ->
  0 <= snapshot_version snapshot <= MAX_UINT64 ->
  _create_portfolio_target (pa_run_id a) (mkEconomicId (pa_run_id a) PORTFOLIO_TARGET n) signal (signal_sha_of signal)
    (sg_instrument signal) position (pa_policy a) (pa_policy_sha256 a) (snapshot_version snapshot)
    (portfolio_snapshot_digest snapshot) (specification_id specification) = Ok target /\
  canonical_portfolio_target_bytes target = Ok (encode_json (_target_document target)) /\
  portfolio_target_digest target = Ok (target_sha_of target).
Proof.
  intros [[Ho [Hr Hs]] Hd]%valid_signal Hrun Hn Hv.
  assert (_validate_target target = Ok tt) as Hok.
  { unfold _validate_target, target, target_of. cbn [pt_target_id pt_run_id pt_correlation_id pt_causation_id
      pt_snapshot_version pt_dispatch_sequence].
    rewrite (proj2 (valid_planning_id _ PORTFOLIO_TARGET _)) by done. cbn [rbind].
    rewrite (proj2 (valid_planning_id _ STRATEGY_SIGNAL _)) by (split_and!; [done|congruence|lia..]). cbn [rbind].
    rewrite bool_decide_true by done. cbn [negb].
    rewrite planning_non_negative_uint64 by done. cbn [rbind]. by rewrite planning_positive_uint64. }
  assert (canonical_portfolio_target_bytes target = Ok (encode_json (_target_document target))) as Hb.
  { unfold canonical_portfolio_target_bytes. by rewrite Hok. }
  split_and!; [|done|unfold portfolio_target_digest; by rewrite Hb].
  unfold _create_portfolio_target. cbv zeta. fold target in Hb. change (mkPortfolioTarget _ _ _ _ _ _ _ _ _ _ _ _ _ _ _ _) with target.
  by rewrite Hb.
Qed.

Lemma expected_advance m : expected_after m = _advance m.
Proof. done. Qed.
Lemma advance_fits m : 1 <= m <= MAX_UINT64 -> match _advance m with Some m => 1 <= m <= MAX_UINT64 | None => True end.
Proof. intros H. unfold _advance. destruct (Z.eqb_spec m MAX_UINT64); [done|lia]. Qed.
Lemma coefficient_nonzero d : units d <> 0 -> (coefficient d =? 0) = false.
Proof. intros H. rewrite coefficient_zero. by apply Z.eqb_neq. Qed.

(** The intent of a plan, field by field. *)
Definition intent_of (m : Z) (side : OrderSide) (quantity : CanonicalDecimal) (s : InstrumentExecutionSpec) : OrderIntent :=
  {| oi_run_id := pa_run_id a;
     oi_intent_id := mkEconomicId (pa_run_id a) PORTFOLIO_INTENT m;
     oi_correlation_id := sg_signal_id signal;
     oi_causation_id := pt_target_id target;
     oi_target_lineage := mkTargetLineageRef (pt_target_id target) (target_sha_of target);
     oi_instrument := sg_instrument signal;
     oi_side := side;
     oi_quantity := quantity;
     oi_order_kind := MARKET;
     oi_time_in_force := GOOD_FOR_NEXT_ELIGIBLE_MARKET_EVENT;
     oi_portfolio_snapshot_version := snapshot_version snapshot;
     oi_causal_root_available_at := sg_causal_root_available_at signal;
     oi_dispatch_sequence := sg_dispatch_sequence signal;
     oi_specification_id := specification_id s;
     oi_spec_set_id := spec_set_identifier (pa_spec_set a);
     oi_spec_set_sha256 := instrument_spec_set_digest (pa_spec_set a);
     oi_execution_policy := pa_execution_policy a |}.
Definition emitted_intent (m : Z) (side : OrderSide) (quantity : CanonicalDecimal) : res OrderIntent :=
  create_order_intent (pa_run_id a) (mkEconomicId (pa_run_id a) PORTFOLIO_INTENT m) (sg_signal_id signal)
    (mkTargetLineageRef (pt_target_id target) (target_sha_of target)) (sg_instrument signal) side
    quantity (snapshot_version snapshot) (at_utc (sg_causal_root_available_at signal)) (sg_dispatch_sequence signal)
    (pa_spec_set a) (pa_execution_policy a).

Lemma emitted_intent_fields m side quantity i : emitted_intent m side quantity = Ok i ->
  exists s, require_spec (pa_spec_set a) (sg_instrument signal) = Ok s /\ 0 < units quantity /\
    i = intent_of m side quantity s.
Proof.
  unfold emitted_intent, create_order_intent. intros H. apply rbind_Ok in H as (? & _ & H).
  apply rbind_Ok in H as (? & _ & H). apply rbind_Ok in H as (? & _ & H). apply rbind_Ok in H as ([s d] & Hs & H).
  apply rbind_Ok in H as (? & Hq & H). apply rbind_Ok in H as (v & Hv & H). apply rbind_Ok in H as (t & Ht & H).
  apply rbind_Ok in H as (q & Hd & H). unfold _require_spec_set in Hs. apply rbind_Ok in Hs as (s' & Hs & He).
  cbn [lineage_conflict] in He. injection He as -> <-. exists s. split; [done|]. split.
  - unfold _require_quantity in Hq. apply rbind_Ok in Hq as (? & Hp & _). rewrite require_positive_spec in Hp.
    destruct (Z.ltb_spec 0 (units quantity)); [done|discriminate Hp].
  - unfold _require_non_negative in Hv, Hd. res_inv Hv. res_inv Hd. injection Hv as <-. injection Hd as <-.
    unfold _require_time, at_utc in Ht. cbn in Ht. injection Ht as <-. by apply Ok_inj in H.
Qed.

Lemma intent_emitted m side quantity s : require_spec (pa_spec_set a) (sg_instrument signal) = Ok s ->
  0 < units quantity -> 0 < units (quantity_quantum s) -> on_grid quantity (quantity_quantum s) ->
  id_fits (sg_signal_id signal) STRATEGY_SIGNAL (pa_run_id a) -> 0 <= sg_dispatch_sequence signal ->
  0 <= snapshot_version snapshot -> emitted_intent m side quantity = Ok (intent_of m side quantity s).
Proof.
  intros Hs Hq Hu Hg (Ho & Hr & _) Hd Hv. unfold emitted_intent, create_order_intent, _require_id_owner.
  cbn [owner_kind]. rewrite !bool_decide_true by done. cbn [negb rbind].
  assert (_require_same_run (pa_run_id a) [Some (mkEconomicId (pa_run_id a) PORTFOLIO_INTENT m); Some (sg_signal_id signal);
    Some (target_id (mkTargetLineageRef (pt_target_id target) (target_sha_of target)))] = Ok tt) as ->.
  { unfold _require_same_run. cbn [forallb in_run id_run_id target_id target target_of pt_target_id].
    by rewrite !bool_decide_true. }
  cbn [rbind]. unfold _require_spec_set. rewrite Hs. cbn [rbind lineage_conflict].
  unfold _require_quantity. rewrite require_positive_spec, require_quantized_spec.
  rewrite (proj2 (Z.ltb_lt 0 (units quantity))), (proj2 (Z.ltb_lt 0 (units (quantity_quantum s)))) by done.
  rewrite (proj2 (Z.eqb_eq _ _)) by (apply Z.mod_divide; [lia|exact Hg]). cbn [rbind].
  unfold _require_non_negative. rewrite !(proj2 (Z.ltb_ge _ _)) by done. done.
Qed.
End Plan.
End Checks.

(** *** A plan made by the specification passes every check of a planning result, and the
    authority accepts exactly such plans. *)

Section Emission.
Context `{hash : Sha256} (a : PortfolioPlanningAuthority) (k : option Z) (signal : StrategySignal) (snapshot : PortfolioSnapshot).

(** What an emission says of its intent. *)
Lemma emits_intent_of target delta kind i after : emits a k signal snapshot target delta kind (Some i) after ->
  exists m q, k = Some m /\ after = _advance m /\ kind = INTENT_EMITTED /\ units delta <> 0 /\ units q = Z.abs (units delta) /\
    create_order_intent (pa_run_id a) (mkEconomicId (pa_run_id a) PORTFOLIO_INTENT m) (sg_signal_id signal)
      (mkTargetLineageRef (pt_target_id target) (target_sha_of target)) (sg_instrument signal)
      (if 0 <? units delta then BUY else SELL) q (snapshot_version snapshot)
      (at_utc (sg_causal_root_available_at signal)) (sg_dispatch_sequence signal) (pa_spec_set a)
      (pa_execution_policy a) = Ok i.
Proof. inversion 1; subst. by eexists _, _. Qed.
Lemma emits_none target delta kind after : emits a k signal snapshot target delta kind None after ->
  after = k /\ kind <> INTENT_EMITTED /\ (kind = ALREADY_AT_TARGET -> units delta = 0).
Proof. inversion 1; subst; by split_and!. Qed.
End Emission.

Section Results.
Context `{hash : Sha256} (a : PortfolioPlanningAuthority) (Ha : bound a).
Context (n : Z) (k : option Z) (signal : StrategySignal) (snapshot : PortfolioSnapshot).
Context (Hsig : _validate_signal signal = Ok tt) (Hrun : sg_run_id signal = pa_run_id a).
Context (Hn : 1 <= n <= MAX_UINT64) (Hk : match k with Some m => 1 <= m <= MAX_UINT64 | None => True end).
Context (Hv : 0 <= snapshot_version snapshot <= MAX_UINT64).

#[local] Abbreviation made_target := (target_of a n signal snapshot).

Lemma expected_of_emits target delta kind intent after : emits a k signal snapshot target delta kind intent after ->
  kind = expected_kind snapshot delta.
Proof.
  intros H. unfold expected_kind. destruct H as [Hu|Hu Hd|m q i Hu Hd _ _ _].
  - by destruct (unresolved_fills snapshot).
  - rewrite Hu, coefficient_zero, Hd. done.
  - rewrite Hu, coefficient_nonzero by done. done.
Qed.

Lemma outcome_created specification position delta kind intent after :
  emits a k signal snapshot (made_target specification position) delta kind intent after ->
  let o := outcome_of a n signal snapshot (made_target specification position) k after kind intent delta in
  canonical_planning_outcome_bytes o = Ok (encode_json (_outcome_document o)).
Proof.
  intros He o. assert (_validate_outcome o = Ok tt) as Hok; [|unfold canonical_planning_outcome_bytes; by rewrite Hok].
  pose proof (proj1 (valid_signal signal) Hsig) as ((Ho & Hr & Hs) & Hd).
  unfold _validate_outcome. subst o. cbn [outcome_of pl_target_id pl_run_id pl_signal_id pl_snapshot_version
    target_next_before target_next_after intent_next_before intent_next_after pl_intent_id pl_intent_sha256 pl_kind pl_delta
    target_of pt_target_id pt_snapshot_version].
  rewrite (proj2 (valid_planning_id _ PORTFOLIO_TARGET _)) by done. cbn [rbind].
  rewrite (proj2 (valid_planning_id _ STRATEGY_SIGNAL _)) by (split_and!; [done|congruence|lia..]). cbn [rbind].
  rewrite planning_non_negative_uint64 by done. rewrite planning_positive_uint64 by done. cbn [rbind].
  rewrite planning_optional_uint64 by (by apply advance_fits). rewrite (planning_optional_uint64 k) by done. cbn [rbind].
  destruct intent as [i|].
  - destruct (emits_intent_of _ _ _ _ _ _ _ _ _ He) as (m & q & -> & -> & -> & Hnz & _ & Hi).
    rewrite planning_optional_uint64 by (by apply advance_fits). cbn [rbind fmap option_fmap option_map absent].
    rewrite bool_decide_true by done. cbn [negb].
    destruct (emitted_intent_fields a n signal snapshot specification position m _ _ i Hi) as (s & _ & _ & ->).
    cbn [intent_of oi_intent_id]. rewrite (proj2 (valid_planning_id _ PORTFOLIO_INTENT _)) by done. cbn [rbind].
    rewrite coefficient_nonzero by done. cbn [orb]. rewrite bool_decide_true by done. cbn [negb rbind].
    rewrite bool_decide_false by done. cbn [andb]. by rewrite bool_decide_true.
  - destruct (emits_none _ _ _ _ _ _ _ _ He) as (-> & Hkind & Hz). rewrite (planning_optional_uint64 k) by done.
    cbn [rbind fmap option_fmap option_map absent]. rewrite bool_decide_true by done. cbn [negb rbind].
    destruct kind; [done| |]; cbn [rbind]; rewrite (bool_decide_true (k = k)) by done; cbn [negb rbind].
    + rewrite coefficient_zero, (Hz eq_refl). by rewrite !bool_decide_true.
    + rewrite bool_decide_false by done. cbn [andb]. by rewrite bool_decide_true.
Qed.

Lemma lineage_holds r after : planned a n k signal snapshot r after ->
  lineage_conflicts r (signal_sha_of signal) (target_sha_of (pr_target r)) = false.
Proof.
  intros [entry s p d kind i after' _ (O1 & O2 & O3) _ _ _ Hd _]. destruct Ha as [_ _ _ _ _ P1 [P2 P3]].
  unfold lineage_conflicts. cbn [pr_signal pr_target pr_outcome pr_snapshot outcome_of target_of pt_run_id pl_run_id
    pt_correlation_id pt_causation_id pt_signal_sha256 pt_instrument pt_causal_root_available_at pt_dispatch_sequence
    pl_signal_id pl_signal_sha256 pl_target_id pt_target_id pl_target_sha256 pt_target_position pl_delta
    pt_snapshot_version pt_snapshot_sha256 pt_spec_set_id pt_spec_set_sha256 pl_snapshot_version pl_snapshot_sha256
    pl_policy_id pl_policy_sha256 pt_policy_id pt_policy_sha256].
  rewrite delta_matches_units, Hd, !Z.eqb_refl. rewrite !bool_decide_true by congruence. done.
Qed.

Lemma intent_coupled r i after : planned a n k signal snapshot r after -> pr_intent r = Some i ->
  check_intent_ids r = Ok tt /\ intent_conflicts r i (target_sha_of (pr_target r)) = false.
Proof.
  intros [entry s p d kind intent after' _ (O1 & O2 & O3) _ Hspec _ Hd He] Hi. cbn in Hi. subst intent.
  destruct (emits_intent_of _ _ _ _ _ _ _ _ _ He) as (m & q & -> & -> & -> & Hnz & Hq & Hi).
  destruct (emitted_intent_fields a n signal snapshot s p m _ _ i Hi) as (s' & Hs' & _ & ->).
  apply (pb_spec a Ha) in Hspec. assert (s' = s) as -> by congruence.
  pose proof (proj1 (valid_signal signal) Hsig) as ((Ho & Hr & Hs) & Hdd). destruct Ha as [_ _ _ _ _ P1 [P2 P3]].
  assert (scale q = scale d /\ coefficient q = Z.abs (coefficient d)) as [Hsc Hc].
  { destruct (absolute_units d) as (q' & _ & Hu & Hc & Hsc). assert (q = q') as -> by (apply units_inj; congruence). done. }
  split.
  - unfold check_intent_ids. cbn [pr_intent pr_signal intent_of oi_intent_id oi_correlation_id oi_causation_id
      oi_target_lineage target_id target_of pt_target_id].
    rewrite (proj2 (valid_planning_id _ PORTFOLIO_INTENT _)) by done. cbn [rbind].
    rewrite (proj2 (valid_planning_id _ STRATEGY_SIGNAL _)) by done. cbn [rbind].
    by rewrite !(proj2 (valid_planning_id _ PORTFOLIO_TARGET _)).
  - unfold intent_conflicts. cbn [pr_signal pr_target pr_outcome pr_snapshot outcome_of target_of pl_kind pl_intent_id
      pl_intent_sha256 pl_delta intent_of oi_intent_id oi_side oi_quantity oi_run_id oi_correlation_id oi_causation_id
      oi_instrument oi_causal_root_available_at oi_dispatch_sequence oi_target_lineage target_id Messages.target_sha256
      oi_portfolio_snapshot_version oi_specification_id oi_spec_set_id oi_spec_set_sha256 pt_target_id pt_instrument
      pt_specification_id pt_spec_set_id pt_spec_set_sha256 fmap option_fmap option_map].
    rewrite Hsc, Hc, !Z.eqb_refl.
    destruct (coefficient_sign d) as (C1 & C2 & C3).
    assert ((0 <? coefficient d) = (0 <? units d)) as -> by lia. rewrite !bool_decide_true by congruence. done.
Qed.

(** The result of a plan is well formed. *)
Lemma result_checked r after : planned a n k signal snapshot r after -> check_result r = Ok tt.
Proof.
  intros Hp. pose proof (lineage_holds _ _ Hp) as Hl. pose proof (intent_coupled r) as Hc.
  destruct (signal_digests signal Hsig) as (S1 & S2 & _). unfold check_result.
  pose proof Hp as Hp0. revert Hl Hc Hp0.
  destruct Hp as [entry s p d kind intent after' _ Ho Hent Hspec Hpos Hd He]. intros Hl Hc Hp.
  cbn [pr_intent pr_signal pr_target pr_outcome pr_snapshot] in *.
  assert (check_intent_ids (mkPlanningResult signal (made_target s p) snapshot
    (outcome_of a n signal snapshot (made_target s p) k after' kind intent d) intent) = Ok tt) as Hids.
  { destruct intent as [i|]; [|done]. by destruct (Hc i after' Hp eq_refl) as [? _]. }
  rewrite Hids. cbn [rbind]. rewrite S1, S2. cbn [rbind].
  destruct (target_created a n signal snapshot s p Hsig Hrun Hn Hv) as (_ & T1 & T2). rewrite T1, T2. cbn [rbind].
  pose proof (outcome_created s p d kind intent after' He) as Hout. cbv zeta in Hout. rewrite Hout. cbn [rbind].
  rewrite Hl. cbn [outcome_of pl_kind pl_delta]. rewrite <-(expected_of_emits _ _ _ _ _ He).
  rewrite bool_decide_true by done. cbn [negb]. destruct intent as [i|].
  - destruct (Hc i after' Hp eq_refl) as [_ ->]. done.
  - destruct (emits_none _ _ _ _ _ _ _ _ He) as (_ & Hkind & _). by rewrite bool_decide_false.
Qed.
End Results.

(** *** Calls of [plan] make the plans of the specification, and reachable states have their
    log. *)

Section Calls.
Context `{hash : Sha256} (a : PortfolioPlanningAuthority) (Ha : bound a).
Implicit Types (st : _AuthorityState) (signal : StrategySignal) (snapshot : PortfolioSnapshot).


Lemma read_snapshot_Ok snapshot s : _read_snapshot a snapshot = Ok s <-> own_snapshot a snapshot /\ s = snapshot.
Proof.
  unfold _read_snapshot, own_snapshot. split.
  - destruct (bool_decide_reflect (snap_run_id snapshot = pa_run_id a)); [|done].
    destruct (bool_decide_reflect (snap_spec_set_id snapshot = spec_set_identifier (pa_spec_set a))); [|done].
    destruct (bool_decide_reflect (snap_spec_set_sha256 snapshot = pa_spec_set_sha256 a)); [|done]. by intros [= <-].
  - intros ((H1 & H2 & H3) & ->). by rewrite !bool_decide_true.
Qed.

Lemma plan_delta_Ok entry s signal snapshot t d : 0 < units (target_quantity entry) ->
  plan_delta entry s signal snapshot = Ok (t, d) ->
  units t = signed_units (sg_direction signal) (units (target_quantity entry)) /\
  units d = units t - units (current_position snapshot (sg_instrument signal)) /\
  0 < units (quantity_quantum s) /\ on_grid d (quantity_quantum s).
Proof.
  intros Hq H. unfold plan_delta in H. apply rbind_Ok in H as (t' & Ht & H).
  apply (proj1 (economic_structural_Ok _ _)) in Ht, H. apply (signed_target_bound _ _ _ Hq) in Ht.
  apply rbind_Ok in H as (? & _ & H). apply rbind_Ok in H as (? & _ & H). apply rbind_Ok in H as (d' & Hd & H).
  apply rbind_Ok in H as (? & Hg & H). injection (Ok_inj _ _ H) as -> ->.
  destruct (subtract_units t (current_position snapshot (sg_instrument signal))) as [(d' & Hd' & Hu)|[Hd' _]]; [|congruence].
  rewrite Hd in Hd'. injection Hd' as <-. rewrite require_quantized_spec in Hg.
  destruct (Z.ltb_spec 0 (units (quantity_quantum s))); [|done].
  destruct (Z.eqb_spec (units d mod units (quantity_quantum s)) 0) as [Hm|]; [|done].
  split_and!; try done. apply Z.mod_divide in Hm; [exact Hm|lia].
Qed.

(** The converse: on the grid and within bounds there is a difference. *)
Lemma plan_delta_defined entry s signal snapshot : 0 < units (target_quantity entry) -> 0 < units (quantity_quantum s) ->
  on_grid (target_quantity entry) (quantity_quantum s) ->
  on_grid (current_position snapshot (sg_instrument signal)) (quantity_quantum s) ->
  Z.abs (signed_units (sg_direction signal) (units (target_quantity entry))
         - units (current_position snapshot (sg_instrument signal))) < UNIT_BOUND ->
  exists t d, plan_delta entry s signal snapshot = Ok (t, d).
Proof.
  intros Hq Hs Hg Hc Hb. destruct (signed_target_units (target_quantity entry) (sg_direction signal) Hq) as (t & Ht & Hu).
  assert (on_grid t (quantity_quantum s)) as Hgt.
  { unfold on_grid in *. rewrite Hu. destruct (sg_direction signal); cbn [signed_units];
      [done|apply Z.divide_0_r|by apply Z.divide_opp_r]. }
  destruct (subtract_units t (current_position snapshot (sg_instrument signal))) as [(d & Hd & Hud)|[_ Hno]];
    [|rewrite Hu in Hno; lia].
  assert (on_grid d (quantity_quantum s)) as Hgd by (unfold on_grid; rewrite Hud; by apply Z.divide_sub_r).
  exists t, d. unfold plan_delta. rewrite Ht. cbn [economic_structural rbind].
  assert (forall v, on_grid v (quantity_quantum s) -> require_quantized v (quantity_quantum s) = Ok v) as Hok.
  { intros v Hv. rewrite require_quantized_spec, (proj2 (Z.ltb_lt _ _)) by done.
    by rewrite (proj2 (Z.eqb_eq _ _)) by (apply Z.mod_divide; [lia|exact Hv]). }
  rewrite !Hok by done. cbn [rbind]. rewrite Hd. cbn [rbind]. by rewrite Hok.
Qed.

(** ** Emission *)

Lemma plan_intent_emits st signal snapshot target delta p :
  owner_kind (pt_target_id target) = PORTFOLIO_TARGET ->
  plan_intent a st signal snapshot target (target_sha_of target) delta = Ok p ->
  emits a (intent_next (pa_public st)) signal snapshot target delta p.1.1 p.1.2 p.2.
Proof.
  intros Ho. unfold plan_intent, expected_kind. destruct (unresolved_fills snapshot) as [|u l] eqn:Hu; cbn [is_empty negb].
  2:{ intros [= <-]. apply emits_blocked. by rewrite Hu. }
  rewrite coefficient_zero. destruct (Z.eqb_spec (units delta) 0) as [Hz|Hz].
  { intros [= <-]. by apply emits_nothing. }
  destruct (intent_next (pa_public st)) as [m|]; [|done]. intros H. apply rbind_Ok in H as (q & Hq & H).
  apply rbind_Ok in H as (i & Hi & H). apply (proj1 (intent_errors_Ok _ _)) in Hi. apply Ok_inj in H. subst p.
  apply rbind_Ok in Hi as (id & ->%economic_id_value & Hi). apply rbind_Ok in Hi as (l & Hl & Hi).
  unfold TargetLineageRef_init, _require_id_owner in Hl. rewrite bool_decide_true in Hl by done. injection Hl as <-.
  destruct (absolute_units delta) as (q' & Hq' & Hqu & _ & _). assert (q' = q) as -> by congruence.
  destruct (coefficient_sign delta) as (C1 & C2 & C3).
  assert ((0 <? coefficient delta) = (0 <? units delta)) as Hsg by lia. rewrite Hsg in Hi.
  by apply (emits_intent _ _ _ _ _ _ m q).
Qed.

Lemma plan_intent_defined st n signal snapshot s position delta :
  require_spec (pa_spec_set a) (sg_instrument signal) = Ok s ->
  id_fits (sg_signal_id signal) STRATEGY_SIGNAL (pa_run_id a) -> 0 <= sg_dispatch_sequence signal ->
  0 <= snapshot_version snapshot -> 0 < units (quantity_quantum s) -> on_grid delta (quantity_quantum s) ->
  (unresolved_fills snapshot = [] -> units delta <> 0 ->
     exists m, intent_next (pa_public st) = Some m /\ 1 <= m <= MAX_UINT64) ->
  exists p, plan_intent a st signal snapshot (target_of a n signal snapshot s position)
    (target_sha_of (target_of a n signal snapshot s position)) delta = Ok p.
Proof.
  intros Hs Hid Hd Hv Hu Hg Hm. unfold plan_intent, expected_kind.
  destruct (unresolved_fills snapshot) as [|u l]; cbn [is_empty negb]; [|by eexists].
  rewrite coefficient_zero. destruct (Z.eqb_spec (units delta) 0) as [Hz|Hz]; [by eexists|].
  destruct (Hm eq_refl Hz) as (m & -> & Hmb). destruct (absolute_units delta) as (q & -> & Hqu & _ & _). cbn [rbind].
  rewrite economic_id_fits by done. cbn [rbind]. unfold TargetLineageRef_init, _require_id_owner.
  cbn [target_of pt_target_id owner_kind]. rewrite bool_decide_true by done. cbn [negb rbind].
  pose proof (intent_emitted a n signal snapshot s position m (if 0 <? coefficient delta then BUY else SELL) q s Hs) as He.
  unfold emitted_intent in He. cbn [target_of pt_target_id] in He. rewrite He; [by eexists|lia|done| |done|done|done].
  unfold on_grid in *. rewrite Hqu. by apply Z.divide_abs_r.
Qed.

(** ** New plans *)

Lemma planning_state_ok run halted t i last_ c conflict :
  match t with Some n => 1 <= n <= MAX_UINT64 | None => True end ->
  match i with Some n => 1 <= n <= MAX_UINT64 | None => True end ->
  match last_ with Some n => 1 <= n <= MAX_UINT64 | None => True end ->
  0 <= c <= MAX_UINT64 -> halted = negb (absent conflict) ->
  (forall e, conflict = Some e -> _validate_conflict e = Ok tt /\ cf_authority_kind e = KIND_PORTFOLIO_PLANNING /\
                                  cf_run_id e = run) ->
  _create_portfolio_planning_authority_state run halted t i last_ c conflict
    = Ok (mkPlanningState run halted t i last_ c conflict).
Proof.
  intros Ht Hi Hl Hc -> Hf. unfold _create_portfolio_planning_authority_state,
    canonical_portfolio_planning_authority_state_bytes, check_planning_state.
  cbn [target_next intent_next last_new_signal_dispatch_sequence result_count ps_conflict ps_halted ps_run_id].
  rewrite !planning_optional_uint64 by done. rewrite planning_non_negative_uint64 by done. cbn [rbind].
  destruct conflict as [e|]; cbn [absent negb]; [|done].
  destruct (Hf e eq_refl) as (-> & Hk & Hr). cbn [rbind]. by rewrite Hk, Hr, !bool_decide_true by done.
Qed.
Lemma planning_state_checked run halted t i last_ c conflict p :
  _create_portfolio_planning_authority_state run halted t i last_ c conflict = Ok p ->
  p = mkPlanningState run halted t i last_ c conflict /\ 0 <= c <= MAX_UINT64 /\
  match i with Some n => 1 <= n <= MAX_UINT64 | None => True end.
Proof.
  unfold _create_portfolio_planning_authority_state, canonical_portfolio_planning_authority_state_bytes, check_planning_state.
  cbn [target_next intent_next last_new_signal_dispatch_sequence result_count]. intros H.
  apply rbind_Ok in H as (b & Hb & H). apply Ok_inj in H as <-. apply (proj1 (encoding_errors_Ok _ _)) in Hb.
  apply rbind_Ok in Hb as (? & Hb & _). apply rbind_Ok in Hb as (? & _ & Hb).
  apply rbind_Ok in Hb as (? & Hi%optional_uint64_Ok & Hb). apply rbind_Ok in Hb as (? & _ & Hb).
  by apply rbind_Ok in Hb as (? & [Hc _]%planning_non_negative_uint64_Ok & _).
Qed.

Lemma planned_record_of signal snapshot r : _validate_signal signal = Ok tt -> pr_signal r = signal ->
  pr_snapshot r = snapshot -> check_result r = Ok tt ->
  planned_record signal (signal_bytes_of signal) (signal_sha_of signal) (submission_of signal) snapshot r = Ok (record_of r).
Proof.
  intros Hv <- <- Hr. assert (canonical_portfolio_planning_result_bytes r = Ok (encode_json (_result_document r))) as Hb.
  { unfold canonical_portfolio_planning_result_bytes. by rewrite Hr. }
  unfold planned_record, portfolio_planning_result_digest. by rewrite Hb.
Qed.

(** Everything a new plan needs of its authority, signal and snapshot. *)
Record plannable st (n : Z) signal snapshot : Prop := {
  pl_valid : _validate_signal signal = Ok tt;
  pl_own : sg_run_id signal = pa_run_id a /\ own_snapshot a snapshot;
  pl_running : ps_halted (pa_public st) = false;
  pl_entry : is_Some (entry_by_instrument a !! sg_instrument signal);
  pl_target_number : target_next (pa_public st) = Some n /\ 1 <= n <= MAX_UINT64;
  pl_count_left : 0 <= result_count (pa_public st) < MAX_UINT64;
  pl_version : 0 <= snapshot_version snapshot <= MAX_UINT64;
  pl_current s : require_spec (pa_spec_set a) (sg_instrument signal) = Ok s ->
    on_grid (current_position snapshot (sg_instrument signal)) (quantity_quantum s);
  pl_bounded e : entry_by_instrument a !! sg_instrument signal = Some e ->
    Z.abs (signed_units (sg_direction signal) (units (target_quantity e))
           - units (current_position snapshot (sg_instrument signal))) < UNIT_BOUND;
  pl_intent_number : match intent_next (pa_public st) with Some m => 1 <= m <= MAX_UINT64 | None => True end;
  pl_intent_left e : entry_by_instrument a !! sg_instrument signal = Some e -> unresolved_fills snapshot = [] ->
    signed_units (sg_direction signal) (units (target_quantity e))
      <> units (current_position snapshot (sg_instrument signal)) -> is_Some (intent_next (pa_public st))
}.

(** A plan the authority makes is a plan of the specification. *)
Lemma plan_new_planned st snapshot signal r st' : _validate_signal signal = Ok tt ->
  plan_new a st snapshot signal (signal_bytes_of signal) (signal_sha_of signal) (submission_of signal) = Ok (r, st') ->
  exists n after, ps_halted (pa_public st) = false /\ target_next (pa_public st) = Some n /\
    planned a n (intent_next (pa_public st)) signal snapshot r after /\ st' = planned_state a st n r after /\
    result_count (pa_public st) + 1 <= MAX_UINT64 /\
    match after with Some m => 1 <= m <= MAX_UINT64 | None => True end.
Proof.
  intros Hv. destruct (signal_digests signal Hv) as (S1 & S2 & S3). unfold plan_new.
  destruct (ps_halted _) eqn:Hh; [done|]. destruct (bool_decide_reflect (sg_run_id signal = pa_run_id a)) as [Hrun|]; [|done].
  cbn [negb]. destruct (entry_by_instrument a !! _) as [entry|] eqn:He; [|done].
  destruct (pa_spec_by_instrument a !! _) as [s|] eqn:Hs; [|done]. destruct (target_next _) as [n|] eqn:Hn; [|done].
  destruct (pb_entry a Ha _ _ He) as [_ Hein]. destruct (pb_quantity a Ha _ Hein) as [Hq _].
  intros H. apply rbind_Ok in H as (snap & Hsnap & H). apply read_snapshot_Ok in Hsnap as [Hown ->].
  apply rbind_Ok in H as ([position delta] & Hpd & H). cbn [fst snd] in H.
  destruct (plan_delta_Ok _ _ _ _ _ _ Hq Hpd) as (Hup & Hud & _ & _).
  apply rbind_Ok in H as (tid & Htid & H). apply (proj1 (planning_errors_Ok _ _)) in Htid. apply economic_id_value in Htid as ->.
  apply rbind_Ok in H as (target & Ht & H). apply (proj1 (planning_errors_Ok _ _)) in Ht.
  unfold _create_portfolio_target in Ht. cbv zeta in Ht. apply rbind_Ok in Ht as (tb & Htb & Ht). apply Ok_inj in Ht.
  change (target = target_of a n signal snapshot s position) in Ht || symmetry in Ht.
  change (mkPortfolioTarget _ _ _ _ _ _ _ _ _ _ _ _ _ _ _ _) with (target_of a n signal snapshot s position) in Htb, Ht.
  subst target. apply rbind_Ok in H as (tsha & Htsha & H). apply (proj1 (planning_errors_Ok _ _)) in Htsha.
  assert (tsha = target_sha_of (target_of a n signal snapshot s position)) as ->.
  { unfold portfolio_target_digest, canonical_portfolio_target_bytes in Htsha.
    apply rbind_Ok in Htsha as (b & Hb & Htsha). apply rbind_Ok in Hb as (? & _ & Hb). apply Ok_inj in Hb as <-.
    by apply Ok_inj in Htsha as <-. }
  apply rbind_Ok in H as ([[kind intent] after] & Hpi & H). cbn [fst snd] in H.
  apply (plan_intent_emits) in Hpi; [|done]. cbn [fst snd] in Hpi.
  apply rbind_Ok in H as (record & Hrec & H). apply (proj1 (planning_errors_Ok _ _)) in Hrec.
  apply rbind_Ok in Hrec as (outcome & Ho & Hrec). apply rbind_Ok in Hrec as (result & Hres & Hrec).
  unfold _create_planning_outcome in Ho. rewrite S2 in Ho. cbn [rbind] in Ho. apply rbind_Ok in Ho as (ob & _ & Ho).
  apply Ok_inj in Ho. subst outcome. unfold _create_portfolio_planning_result in Hres.
  apply rbind_Ok in Hres as ([] & Hchk & Hres). apply Ok_inj in Hres. subst result.
  rewrite planned_record_of in Hrec by done. apply Ok_inj in Hrec. subst record.
  apply rbind_Ok in H as (public & Hp & H). apply (proj1 (planning_errors_Ok _ _)) in Hp.
  apply planning_state_checked in Hp as (-> & Hc & Ha'). injection (Ok_inj _ _ H) as <- <-.
  exists n, after. split_and!; [done|done| |done|lia|done]. by eapply planned_intro.
Qed.

(** What is plannable is planned. *)
Lemma plan_new_defined st n snapshot signal : plannable st n signal snapshot -> exists r st',
  plan_new a st snapshot signal (signal_bytes_of signal) (signal_sha_of signal) (submission_of signal) = Ok (r, st').
Proof.
  intros [Hv [Hrun Hown] Hh [entry He] [Hn Hnb] Hc Hver Hcur Hbd Hin Hil].
  destruct (signal_digests signal Hv) as (S1 & S2 & S3). pose proof (proj1 (valid_signal signal) Hv) as [Hid Hd].
  destruct (pb_entry a Ha _ _ He) as [Hei Hein]. destruct (pb_quantity a Ha _ Hein) as (Hq & s & Hs & Hgq).
  rewrite Hei in Hs. assert (0 < units (quantity_quantum s)) as Hu.
  { destruct (pb_specs a Ha) as (Hok & Hnd & _). apply find_spec_spec in Hs as [Hs _]; [|done].
    rewrite Forall_forall in Hok. by destruct (Hok s Hs) as (_ & ? & _). }
  destruct (plan_delta_defined entry s signal snapshot Hq Hu Hgq (Hcur s Hs) (Hbd entry He)) as (p & d & Hpd).
  destruct (plan_delta_Ok _ _ _ _ _ _ Hq Hpd) as (Hup & Hud & _ & Hgd).
  unfold plan_new. rewrite Hh, bool_decide_true by done. cbn [negb]. rewrite He, (proj2 (pb_spec a Ha _ s) Hs), Hn.
  rewrite (proj2 (read_snapshot_Ok snapshot snapshot)) by done. cbn [rbind]. rewrite Hpd. cbn [rbind fst snd].
  rewrite economic_id_fits by done. cbn [planning_errors rbind].
  destruct (target_created a n signal snapshot s p Hv Hrun Hnb Hver) as (T0 & T1 & T2).
  rewrite T0. cbn [planning_errors rbind]. rewrite T2. cbn [planning_errors rbind].
  destruct (plan_intent_defined st n signal snapshot s p d Hs) as (pi & Hpi); [by rewrite <-Hrun|lia|lia|done|done| |].
  { intros Hr Hz. destruct (Hil entry He Hr) as [m Hm]; [lia|]. exists m. split; [done|]. by rewrite Hm in Hin. }
  rewrite Hpi. cbn [rbind]. apply plan_intent_emits in Hpi; [|done].
  assert (planned a n (intent_next (pa_public st)) signal snapshot
    (mkPlanningResult signal (target_of a n signal snapshot s p) snapshot
      (outcome_of a n signal snapshot (target_of a n signal snapshot s p) (intent_next (pa_public st)) pi.2 pi.1.1 pi.1.2 d)
      pi.1.2) pi.2) as Hplan by (eapply planned_intro; try done; by apply pb_spec).
  pose proof (result_checked a Ha n _ signal snapshot Hv Hrun Hnb Hin Hver _ _ Hplan) as Hchk.
  pose proof (outcome_created a n _ signal snapshot Hv Hrun Hnb Hin Hver s p d _ _ _ Hpi) as Hout. cbv zeta in Hout.
  unfold _create_planning_outcome. rewrite S2. cbn [rbind].
  change (mkPlanningOutcome _ _ _ _ _ _ _ _ _ _ _ _ _ _ _ _ _) with
    (outcome_of a n signal snapshot (target_of a n signal snapshot s p) (intent_next (pa_public st)) pi.2 pi.1.1 pi.1.2 d).
  rewrite Hout. cbn [rbind]. unfold _create_portfolio_planning_result. rewrite Hchk. cbn [rbind].
  rewrite planned_record_of by done. cbn [planning_errors rbind].
  rewrite planning_state_ok; [by eexists _, _|by apply advance_fits| |exact Hd|lia|done|done].
  clear - Hpi Hin. inversion Hpi; subst; try done. apply advance_fits. by match goal with H : _ = Some _ |- _ => rewrite H in Hin end.
Qed.
End Calls.
