(* ===== verification/PlanningLog.v ===== *)
(** Every reachable planning authority is bound to its set and policy and has the log of its plans. *)

From S2P Require Import Prelude PyRegex PyText Outcomes Json Identity Numbering Indexing Chronology Economics.
From S2P Require Import Execution Messages Orders Decoders Portfolio Strategy StrategySpec PortfolioPlanning.
From S2P Require Import PlanningAuthority PlanningSpec Canonical.

Open Scope Z_scope.

(** *** The log of a reachable planning authority: each call replays a plan, halts on a
    conflict, refuses, or extends the log by one plan under the next numbers; rebinding the
    policy leaves the log. *)

#[export] Instance direction_value_inj : Inj (=) (=) direction_value.
Proof. by intros [] []. Qed.
#[export] Instance signal_document : Document _signal_document.
Proof. document _signal_document. Qed.

Section Log.
Context `{hash : Sha256} (run_id : RunId) (first_target first_intent count : Z) (start : option Z).
Implicit Types (a : PortfolioPlanningAuthority) (st : _AuthorityState) (r : PortfolioPlanningResult).
Implicit Types (signal : StrategySignal) (snapshot : PortfolioSnapshot) (log : list PortfolioPlanningResult).

#[local] Abbreviation logged := (planning_log run_id first_target first_intent count start).
#[local] Abbreviation at_ := (planned_at run_id first_target first_intent).

(** ** What a logged state makes of its checks *)

Lemma planned_result_facts a n k signal snapshot r after : planned a n k signal snapshot r after ->
  pr_signal r = signal /\ pr_snapshot r = snapshot /\ sg_run_id signal = pa_run_id a /\
  pt_target_id (pr_target r) = mkEconomicId (pa_run_id a) PORTFOLIO_TARGET n /\
  match pr_intent r with
  | None => after = k
  | Some i => exists m, k = Some m /\ after = _advance m /\ oi_intent_id i = mkEconomicId (pa_run_id a) PORTFOLIO_INTENT m
  end.
Proof.
  intros [entry s p d kind intent after' Hrun Hown Hent Hspec Hpos Hd He]. split_and!; try done. cbn [pr_intent].
  inversion He as [| |m q i Hu Hz -> Hq Hi]; subst; try done. exists m. split_and!; try done.
  by destruct (emitted_intent_fields a n signal snapshot s p m _ _ i Hi) as (s' & _ & _ & ->).
Qed.

Lemma logged_valid st log i r : logged st log -> log !! i = Some r ->
  _validate_signal (pr_signal r) = Ok tt /\ sg_run_id (pr_signal r) = run_id.
Proof.
  intros L Hi. destruct (pn_planned _ _ _ _ _ _ _ L i r Hi) as (a & after & _ & Hr & Hv & Hp).
  apply planned_result_facts in Hp as (_ & _ & Hrun & _). split; [done|congruence].
Qed.

Lemma plan_logged_last st log : logged st log ->
  match last_new_signal_dispatch_sequence (pa_public st) with Some n => 1 <= n <= MAX_UINT64 | None => True end.
Proof.
  intros L. rewrite (pn_last _ _ _ _ _ _ _ L). unfold last_taken. destruct (last _) as [n|] eqn:Hl.
  - apply last_Some_elem_of in Hl. apply list_elem_of_In, in_map_iff in Hl as (r & <- & Hr%list_elem_of_In).
    apply list_elem_of_lookup_1 in Hr as [i Hi]. destruct (logged_valid _ _ _ _ L Hi) as [Hv _].
    by apply valid_signal in Hv as [_ ?].
  - exact (pf_start _ _ _ _ (pn_frontier _ _ _ _ _ _ _ L)).
Qed.

Lemma number_fits first n : 1 <= first <= MAX_UINT64 -> first + Z.of_nat n <= MAX_UINT64 + 1 ->
  match number_after first n with Some m => 1 <= m <= MAX_UINT64 | None => True end.
Proof. intros H Hb. destruct (number_after _ _) as [m|] eqn:Hm; [|done]. apply number_after_Some in Hm as [-> ?]. lia. Qed.

Lemma logged_numbers st log : logged st log ->
  match target_next (pa_public st) with Some n => 1 <= n <= MAX_UINT64 | None => True end /\
  match intent_next (pa_public st) with Some n => 1 <= n <= MAX_UINT64 | None => True end.
Proof.
  intros L. pose proof (pn_frontier _ _ _ _ _ _ _ L) as [F1 F2 _ _]. rewrite (pn_target _ _ _ _ _ _ _ L), (pn_intent _ _ _ _ _ _ _ L).
  split; apply number_fits; try done; [apply (pn_target_bound _ _ _ _ _ _ _ L)|apply (pn_intent_bound _ _ _ _ _ _ _ L)].
Qed.

(** ** Conflicts *)

Lemma plan_conflict_valid a st log kind signal existing : logged st log -> pa_run_id a = run_id ->
  _validate_signal signal = Ok tt -> (existing = None <-> kind = NON_MONOTONE_DISPATCH) ->
  (forall r, existing = Some r -> r ∈ log) ->
  _validate_conflict (conflict_of a st kind signal existing) = Ok tt.
Proof.
  intros L Hrun Hv Hk Hr. apply valid_signal in Hv as [Hid Hd]. unfold _validate_conflict, conflict_of.
  cbn [cf_dispatch_sequence cf_last_new_dispatch_sequence cf_occupied_owner_id cf_existing_sha256 cf_run_id cf_conflict_kind].
  rewrite StrategySpec.positive_uint64 by done. rewrite StrategySpec.optional_uint64 by (by eapply plan_logged_last). cbn [rbind].
  destruct existing as [r|]; cbn [fmap option_fmap option_map absent negb].
  - specialize (Hr r eq_refl). apply list_elem_of_lookup_1 in Hr as [i Hi].
    destruct (logged_valid _ _ _ _ L Hi) as [Hrv Hrr]. apply valid_signal in Hrv as [(Ho & Hrid & Hs) _].
    unfold signal_id_of. rewrite valid_economic_id; [|done|congruence|done]. cbn [rbind]. rewrite bool_decide_true by done.
    destruct kind; [done|]. discriminate (proj2 Hk eq_refl).
  - rewrite (proj1 Hk eq_refl). done.
Qed.

Lemma plan_conflict_published a st log kind signal existing : logged st log -> pa_run_id a = run_id ->
  _validate_signal signal = Ok tt -> (existing = None <-> kind = NON_MONOTONE_DISPATCH) ->
  (forall r, existing = Some r -> r ∈ log) ->
  _publish_conflict a st kind signal (signal_id_of <$> existing)
    ((fun r => signal_sha_of (pr_signal r)) <$> existing) (submission_of signal)
  = (PortfolioPlanningError CONFLICTING_ID, halted_state a st (conflict_of a st kind signal existing)).
Proof.
  intros L Hrun Hv Hk Hr. pose proof (plan_conflict_valid _ _ _ _ _ _ L Hrun Hv Hk Hr) as Hok.
  unfold _publish_conflict, halted_state. destruct (ps_conflict (pa_public st)); [done|]. cbn [absent negb].
  unfold _create_authority_conflict_evidence, canonical_authority_conflict_evidence_bytes.
  unfold conflict_of in Hok |- *. rewrite Hok. cbn [rbind].
  destruct (logged_numbers _ _ L) as [N1 N2]. pose proof (pf_count _ _ _ _ (pn_frontier _ _ _ _ _ _ _ L)).
  pose proof (pn_count_bound _ _ _ _ _ _ _ L). pose proof (pn_count _ _ _ _ _ _ _ L).
  rewrite planning_state_ok; [done|done|done|by eapply plan_logged_last|lia|done|]. by intros e [= <-].
Qed.

Lemma plan_halted_logged a st log c : logged st log -> logged (halted_state a st c) log.
Proof. intros L. unfold halted_state. destruct (ps_conflict (pa_public st)) eqn:Hn; [done|]. destruct L. by split. Qed.

(** ** Calls *)

Inductive planning (a : PortfolioPlanningAuthority) (st : _AuthorityState) log snapshot signal
  : res PortfolioPlanningResult -> _AuthorityState -> Prop :=
| planning_replay r : r ∈ log -> pr_signal r = signal -> planning a st log snapshot signal (Ok r) st
| planning_reuse r : r ∈ log -> signal_id_of r = sg_signal_id signal -> pr_signal r <> signal ->
    _validate_signal signal = Ok tt ->
    planning a st log snapshot signal (Raise (PortfolioPlanningError CONFLICTING_ID))
      (halted_state a st (conflict_of a st IDENTITY_REUSE signal (Some r)))
| planning_late : _validate_signal signal = Ok tt -> sg_signal_id signal ∉ map signal_id_of log ->
    ~ is_after (last_taken start (map dispatch_of log)) (sg_dispatch_sequence signal) ->
    planning a st log snapshot signal (Raise (PortfolioPlanningError CONFLICTING_ID))
      (halted_state a st (conflict_of a st NON_MONOTONE_DISPATCH signal None))
| planning_new n r after : _validate_signal signal = Ok tt -> sg_signal_id signal ∉ map signal_id_of log ->
    is_after (last_taken start (map dispatch_of log)) (sg_dispatch_sequence signal) ->
    ps_halted (pa_public st) = false -> target_next (pa_public st) = Some n ->
    planned a n (intent_next (pa_public st)) signal snapshot r after ->
    result_count (pa_public st) + 1 <= MAX_UINT64 ->
    match after with Some m => 1 <= m <= MAX_UINT64 | None => True end ->
    planning a st log snapshot signal (Ok r) (planned_state a st n r after)
| planning_refused e : ~ (exists n, plannable a st n signal snapshot /\
      sg_signal_id signal ∉ map signal_id_of log /\
      is_after (last_taken start (map dispatch_of log)) (sg_dispatch_sequence signal)) ->
    (_validate_signal signal = Ok tt -> sg_signal_id signal ∉ map signal_id_of log /\
      is_after (last_taken start (map dispatch_of log)) (sg_dispatch_sequence signal)) ->
    planning a st log snapshot signal (Raise e) st.

Lemma log_index st log signal : logged st log ->
  match replay_by_signal_id st !! sg_signal_id signal with
  | Some rec => exists r, r ∈ log /\ signal_id_of r = sg_signal_id signal /\ rec = record_of r
  | None => sg_signal_id signal ∉ map signal_id_of log
  end.
Proof.
  intros L. destruct (replay_by_signal_id st !! _) as [rec|] eqn:E.
  - apply (pn_replay _ _ _ _ _ _ _ L) in E as (r & Hr & Hk & <-). by exists r.
  - intros Hin. apply list_elem_of_In, in_map_iff in Hin as (r & Hk & Hr%list_elem_of_In).
    pose proof (indexes_lookup _ _ _ _ _ (pn_replay _ _ _ _ _ _ _ L) Hr) as Hs. rewrite Hk in Hs. by rewrite E in Hs.
Qed.

(** [plan] does what one of the rules allows. *)
Lemma plan_planning a st log snapshot signal m st' : bound a -> logged st log -> pa_run_id a = run_id ->
  plan a st snapshot signal = (m, st') -> planning a st log snapshot signal m st'.
Proof.
  intros Ha L Hrun. unfold plan.
  destruct (strategy_structural _) as [[[b sha] sub]|e] eqn:Hb.
  2:{ intros [= <- <-]. apply planning_refused.
      - intros (n & [Hv _ _ _ _ _ _ _ _ _ _] & _ & _). destruct (signal_digests signal Hv) as (S1 & S2 & S3).
        by rewrite S1, S2, S3 in Hb.
      - intros Hv. destruct (signal_digests _ Hv) as (S1 & S2 & S3). by rewrite S1, S2, S3 in Hb. }
  apply (proj1 (strategy_structural_Ok _ _)) in Hb. apply rbind_Ok in Hb as (b' & Hb1 & Hb).
  apply signal_bytes_valid in Hb1 as Hv. destruct (signal_digests signal Hv) as (S1 & S2 & S3).
  rewrite S2, S3 in Hb. cbn [rbind] in Hb. assert (b' = signal_bytes_of signal) as -> by congruence.
  injection (Ok_inj _ _ Hb) as <- <- <-. pose proof (log_index st log signal L) as Hidx.
  destruct (replay_by_signal_id st !! _) as [rec|].
  - destruct Hidx as (r & Hr & Hk & ->).
    destruct (bool_decide_reflect (pr_signal_bytes (record_of r) = signal_bytes_of signal)) as [He|Hne].
    + intros [= <- <-]. apply planning_replay; [done|]. cbn in He. by apply (canonical_bytes_inj _signal_document) in He.
    + pose proof (plan_conflict_published a st log IDENTITY_REUSE signal (Some r) L Hrun Hv ltac:(done)) as Hp.
      cbn [fmap option_fmap option_map] in Hp. rewrite <-Hk at 1. cbn [record_of pr_signal_sha256]. rewrite Hp by (by intros ? [= <-]).
      intros [= <- <-]. apply planning_reuse; [done|done| |done]. intros <-. by apply Hne.
  - rewrite (pn_last _ _ _ _ _ _ _ L).
    destruct (match last_taken start (map dispatch_of log) with Some last => sg_dispatch_sequence signal <=? last | None => false end) eqn:Hlate.
    + pose proof (plan_conflict_published a st log NON_MONOTONE_DISPATCH signal None L Hrun Hv ltac:(done)) as Hp.
      cbn [fmap option_fmap option_map] in Hp. rewrite Hp by done. intros [= <- <-]. apply planning_late; [done|done|].
      rewrite <-late_or_after. by rewrite Hlate.
    + apply late_or_after in Hlate. destruct (plan_new _ _ _ _ _ _ _) as [[r next]|e] eqn:Hn; intros [= <- <-].
      * apply (plan_new_planned a Ha) in Hn as (n & after & Hh & Ht & Hp & -> & Hc & Haf); [|done]. by eapply planning_new.
      * apply planning_refused.
        -- intros (n & Hpl & _ & _). destruct (plan_new_defined a Ha st n snapshot signal Hpl) as (r & s' & Hok). congruence.
        -- done.
Qed.

(** ** The log a call leaves *)

Definition log_after log signal (m : res PortfolioPlanningResult) : list PortfolioPlanningResult :=
  match m with
  | Ok r => if bool_decide (sg_signal_id signal ∈ map signal_id_of log) then log else log ++ [r]
  | Raise _ => log
  end.

Lemma planned_at_app log r' i r : at_ log i r -> (i < length log)%nat -> at_ (log ++ [r']) i r.
Proof.
  intros (a & after & Hb & Hr & Hv & Hp) Hi. exists a, after. by rewrite take_app_le by lia.
Qed.

Lemma planned_logged a st log n signal snapshot r after : bound a -> logged st log -> pa_run_id a = run_id ->
  _validate_signal signal = Ok tt -> sg_signal_id signal ∉ map signal_id_of log ->
  is_after (last_taken start (map dispatch_of log)) (sg_dispatch_sequence signal) ->
  target_next (pa_public st) = Some n -> planned a n (intent_next (pa_public st)) signal snapshot r after ->
  result_count (pa_public st) + 1 <= MAX_UINT64 -> logged (planned_state a st n r after) (log ++ [r]).
Proof.
  intros Ha L Hrun Hv Hfresh Hafter Hn Hp Hc.
  destruct (planned_result_facts _ _ _ _ _ _ _ Hp) as (Es & Esn & _ & Et & Ei).
  pose proof (pn_target _ _ _ _ _ _ _ L) as Ht. pose proof (pn_intent _ _ _ _ _ _ _ L) as Hi.
  pose proof (pn_count _ _ _ _ _ _ _ L) as Hcount. pose proof (pn_target_bound _ _ _ _ _ _ _ L) as Htb.
  pose proof (pn_intent_bound _ _ _ _ _ _ _ L) as Hib. pose proof (pn_frontier _ _ _ _ _ _ _ L) as HF.
  rewrite Hn in Ht. symmetry in Ht. pose proof (number_after_Some _ _ _ Ht) as [Hn' Hnm].
  assert (intents_of (log ++ [r]) = intents_of log ++ match pr_intent r with Some i => [i] | None => [] end) as Hints.
  { unfold intents_of. rewrite omap_app. cbn. by destruct (pr_intent r). }
  split; unfold planned_state; cbn [pa_public replay_by_signal_id target_next intent_next result_count ps_halted ps_conflict
    last_new_signal_dispatch_sequence]; rewrite ?map_app, ?length_app, ?Nat.add_1_r; cbn [map].
  - exact HF.
  - apply (indexes_snoc signal_id_of record_of); [exact (pn_replay _ _ _ _ _ _ _ L)|].
    pose proof (log_index st log signal L) as Hx. unfold signal_id_of. rewrite Es.
    destruct (replay_by_signal_id st !! _); [|done]. destruct Hx as (r0 & Hr0 & Hk & _). destruct Hfresh.
    rewrite <-Hk. apply list_elem_of_In, (in_map signal_id_of), list_elem_of_In, Hr0.
  - apply NoDup_app. split_and!; [exact (pn_signals _ _ _ _ _ _ _ L)| |apply NoDup_singleton].
    intros x Hx ->%list_elem_of_singleton. unfold signal_id_of at 1 in Hx. by rewrite Es in Hx.
  - by rewrite (number_after_S _ _ n Ht).
  - lia.
  - rewrite Hints, length_app. destruct (pr_intent r) as [i|].
    + destruct Ei as (m & Hk & -> & _). rewrite Hi in Hk. cbn [length]. rewrite Nat.add_1_r.
      by rewrite (number_after_S _ _ m Hk).
    + cbn [length]. rewrite Nat.add_0_r. congruence.
  - rewrite Hints, length_app. destruct (pr_intent r) as [i|]; cbn [length]; [|lia].
    destruct Ei as (m & Hk & _). rewrite Hi in Hk. apply number_after_Some in Hk as [Hk Hm]. lia.
  - by rewrite last_taken_snoc.
  - lia.
  - lia.
  - apply in_order_snoc; [exact (pn_order _ _ _ _ _ _ _ L)|]. unfold dispatch_of at 2. by rewrite Es.
  - intros i r' Hlook. apply lookup_app_Some in Hlook as [Hlook|[Hle Hlook]].
    + apply planned_at_app; [by apply (pn_planned _ _ _ _ _ _ _ L)|by eapply lookup_lt_Some].
    + apply list_lookup_singleton_Some in Hlook as [Hl <-]. assert (i = length log) as -> by lia.
      exists a, after. rewrite take_app_length. rewrite <-Hn', Es, Esn, <-Hi. by split_and!.
  - done.
Qed.

Lemma planning_logged a st log snapshot signal m st' : bound a -> logged st log -> pa_run_id a = run_id ->
  planning a st log snapshot signal m st' -> logged st' (log_after log signal m).
Proof.
  intros Ha L Hrun H. destruct H as [r Hr Hs|r Hr Hk Hne Hv|Hv Hf Hl|n r after Hv Hf Hl Hh Hn Hp Hc Haf|e Hno Hne]; cbn [log_after].
  - rewrite bool_decide_true; [done|]. rewrite <-Hs. apply list_elem_of_In, (in_map signal_id_of), list_elem_of_In, Hr.
  - by apply plan_halted_logged.
  - by apply plan_halted_logged.
  - rewrite bool_decide_false by done. by eapply planned_logged.
  - done.
Qed.
End Log.

(** ** Bound authorities *)

Section Bound.
Context `{hash : Sha256}.

Lemma copy_entry_Ok ss e e' : copy_entry ss e = Ok e' -> spec_set_ok ss -> e' = e /\ 0 < units (target_quantity e).
Proof.
  unfold copy_entry. intros H (_ & Hnd & _). apply rbind_Ok in H as (s & Hs & H). apply rbind_Ok in H as (q & Hq & H).
  apply decimal_of_text_Ok in Hq. assert (q = target_quantity e) as -> by by apply decimal_eq.
  unfold Phase1PortfolioPolicyEntry_init in H. apply rbind_Ok in H as (? & Hp & H). apply Ok_inj in H as <-.
  apply (proj1 (economic_errors_Ok _ _)) in Hp. rewrite require_positive_spec in Hp.
  destruct (Z.ltb_spec 0 (units (target_quantity e))); [|done]. apply find_spec_spec in Hs as [_ Hi]; [|done].
  split; [|done]. destruct e; cbn in *. by subst.
Qed.
Lemma copy_entries ss l l' : rmap (copy_entry ss) l = Ok l' -> spec_set_ok ss ->
  l' = l /\ forall e, e ∈ l -> 0 < units (target_quantity e).
Proof.
  intros H Hss. apply rmap_Ok in H. induction H as [|e e' l l' He Hl [-> IH]]; [split; [done|]; by intros e ?%not_elem_of_nil|].
  apply copy_entry_Ok in He as [-> Hq]; [|done]. split; [done|]. intros x [->|Hx]%elem_of_cons; [done|by apply IH].
Qed.

Lemma check_all_Ok {A} (f : A -> res unit) l : check_all f l = Ok tt -> forall x, x ∈ l -> f x = Ok tt.
Proof.
  induction l as [|y l IH]; cbn [check_all]; intros H x Hx; [by apply not_elem_of_nil in Hx|].
  apply rbind_Ok in H as ([] & Hy & H). apply elem_of_cons in Hx as [->|Hx]; [done|by apply IH].
Qed.

Lemma created_policy id entries ss p : create_phase1_portfolio_policy id entries ss = Ok p ->
  p = mkPortfolioPolicy id (spec_set_identifier ss) (instrument_spec_set_digest ss) entries /\
  NoDup (policy_keys entries) /\
  forall e, e ∈ entries -> exists s, require_spec ss (entry_instrument e) = Ok s /\
    (0 < units (quantity_quantum s) -> on_grid (target_quantity e) (quantity_quantum s)).
Proof.
  unfold create_phase1_portfolio_policy. destruct (is_empty entries); [done|]. destruct (negb (is_sorted_keys _)); [done|].
  destruct (no_duplicates (policy_keys entries)) eqn:Hnd; [|done]. cbn [negb]. intros H. apply rbind_Ok in H as ([] & Hall & H).
  cbv zeta in H. apply rbind_Ok in H as (? & _ & H). apply Ok_inj in H as <-. split; [done|].
  split; [by apply (proj1 (bool_decide_eq_true _)) in Hnd|]. intros e He. pose proof (check_all_Ok _ _ Hall e He) as Hc.
  cbv beta in Hc. apply (proj1 (economic_errors_Ok _ _)) in Hc. apply rbind_Ok in Hc as (s & Hs & Hc).
  apply rbind_Ok in Hc as (? & Hq & _). exists s. split; [done|]. intros Hu. rewrite require_quantized_spec in Hq.
  rewrite (proj2 (Z.ltb_lt _ _)) in Hq by done. destruct (Z.eqb_spec (units (target_quantity e) mod units (quantity_quantum s)) 0);
    [|done]. apply Z.mod_divide in e0; [exact e0|lia].
Qed.

Lemma NoDup_policy_keys entries : NoDup (policy_keys entries) -> NoDup (map entry_instrument entries).
Proof.
  unfold policy_keys. intros H. apply (NoDup_fmap_1 instrument_key). change (NoDup (map instrument_key (map entry_instrument entries))).
  by rewrite map_map.
Qed.

(** A policy made for a well-formed set binds an authority. *)
Lemma policy_binds a id entries ss : spec_set_ok ss -> pa_spec_set a = ss ->
  (forall e, e ∈ entries -> 0 < units (target_quantity e)) ->
  create_phase1_portfolio_policy id entries ss = Ok (pa_policy a) ->
  phase1_portfolio_policy_digest (pa_policy a) = Ok (pa_policy_sha256 a) ->
  pa_spec_set_sha256 a = instrument_spec_set_digest ss ->
  entry_by_instrument a = index_by entry_instrument (pp_entries (pa_policy a)) ->
  pa_spec_by_instrument a = index_by spec_instrument (specifications ss) -> bound a.
Proof.
  intros Hss <- Hpos Hc Hd Hsha Hei Hsi. destruct (created_policy _ _ _ _ Hc) as (Hp & Hnd & Hgrid).
  pose proof Hss as (Hok & Hnds & _). rewrite Forall_forall in Hok. split.
  - done.
  - intros i s. rewrite Hsi. unfold require_spec. split.
    + intros [Hin <-]%index_by_Some. by apply find_spec_spec.
    + intros [Hin <-]%find_spec_spec; [|done]. by apply index_by_member.
  - intros i e. rewrite Hei. by intros [Hin Hk]%index_by_Some.
  - rewrite Hp. cbn [pp_entries]. intros e He. split; [by apply Hpos|]. destruct (Hgrid e He) as (s & Hs & Hg).
    exists s. split; [done|]. apply Hg. apply find_spec_spec in Hs as [Hin _]; [|done]. by destruct (Hok s Hin) as (_ & ? & _).
  - done.
  - done.
  - by rewrite Hp.
Qed.
End Bound.

(** *** Reachable planning authorities: creation retains a well-formed copy of the set and the
    policy, rebinding keeps the authority bound, and every reachable state has the log of
    the plans made on the way. *)

(** A guard that was passed. *)
Lemma guard_Ok {E A} (b : bool) (e : E) (m : result E A) x : (if b then Raise e else m) = Ok x -> b = false /\ m = Ok x.
Proof. by destruct b. Qed.
Lemma in_uint64 low n : out_of_uint64 low n = false -> low <= n <= MAX_UINT64.
Proof. unfold out_of_uint64. lia. Qed.

Section History.
Context `{hash : Sha256}.
Implicit Types (a : PortfolioPlanningAuthority) (st : _AuthorityState) (log : list PortfolioPlanningResult).

Lemma retain_Ok spec_set policy ss p : retain spec_set policy = Ok (ss, p) ->
  spec_set_ok ss /\ create_phase1_portfolio_policy (pp_policy_id policy) (pp_entries policy) ss = Ok p /\
  forall e, e ∈ pp_entries policy -> 0 < units (target_quantity e).
Proof.
  unfold retain. set (m := rbind _ _). intros H. assert (m = Ok (ss, p)) as Hm by (destruct m as [?|[]]; done).
  subst m. clear H. apply rbind_Ok in Hm as (specs & Hs & Hm). apply rbind_Ok in Hm as (ss' & Hb & Hm).
  apply rbind_Ok in Hm as (entries & He & Hm). apply rbind_Ok in Hm as (p' & Hp & Hm). injection (Ok_inj _ _ Hm) as <- <-.
  assert (Forall spec_ok specs) as Hok.
  { apply rmap_Ok in Hs. clear - Hs. induction Hs as [|s s' l l' Hs _ IH]; constructor; [|done].
    by apply spec_init_ok in Hs as [-> ?]. }
  assert (spec_set_ok ss') as Hss.
  { unfold build_instrument_spec_set in Hb. apply spec_set_init_ok in Hb as [? _]; [done|].
    by rewrite (py_sorted_perm spec_key specs). }
  apply copy_entries in He as [-> Hpos]; [|done]. done.
Qed.

Lemma created_bound run snapshot spec_set policy execution_policy ft fi c last_ a st :
  create_portfolio_planning_authority run snapshot spec_set policy execution_policy ft fi c last_ = Ok (a, st) ->
  bound a /\ pa_run_id a = run.
Proof.
  unfold create_portfolio_planning_authority. intros (_ & (_ & (_ & (_ & H)%guard_Ok)%guard_Ok)%guard_Ok)%guard_Ok. apply rbind_Ok in H as (b & Hb & H). apply rbind_Ok in H as ([ss p] & Hr & H).
  apply rbind_Ok in H as (pb & Hpb & H). apply rbind_Ok in H as (psha & Hsha & H). cbn [fst snd] in *.
  apply guard_Ok in H as (_ & (_ & (_ & H)%guard_Ok)%guard_Ok).
  apply rbind_Ok in H as (public & _ & H). injection (Ok_inj _ _ H) as <- _.
  apply retain_Ok in Hr as (Hss & Hp & Hpos). split; [|done].
  by apply (policy_binds _ (pp_policy_id policy) (pp_entries policy) ss).
Qed.

Lemma plan_created_logged run snapshot spec_set policy execution_policy ft fi c last_ a st :
  create_portfolio_planning_authority run snapshot spec_set policy execution_policy ft fi c last_ = Ok (a, st) ->
  planning_log run ft fi c last_ st [].
Proof.
  unfold create_portfolio_planning_authority.
  intros (G1 & (G2 & (G3 & (_ & H)%guard_Ok)%guard_Ok)%guard_Ok)%guard_Ok. apply rbind_Ok in H as (b & _ & H). apply rbind_Ok in H as (pair & _ & H).
  apply rbind_Ok in H as (? & _ & H). apply rbind_Ok in H as (? & _ & H).
  apply guard_Ok in H as (_ & (_ & (_ & H)%guard_Ok)%guard_Ok).
  apply rbind_Ok in H as (public & Hpub & H). injection (Ok_inj _ _ H) as _ <-.
  apply orb_false_iff in G1 as [Gt Gi]. apply in_uint64 in Gt, Gi, G2.
  assert (match last_ with Some n => 1 <= n <= MAX_UINT64 | None => True end) as Hs
    by (destruct last_; [by apply in_uint64|done]).
  rewrite planning_state_ok in Hpub by (done || lia). apply Ok_inj in Hpub as <-.
  assert (forall n, 1 <= n <= MAX_UINT64 -> Some n = number_after n 0) as Hfirst.
  { intros n Hn. unfold number_after. rewrite Z.add_0_r. by destruct (Z.eqb_spec n (MAX_UINT64 + 1)); [lia|]. }
  split; cbn [pa_public replay_by_signal_id target_next intent_next last_new_signal_dispatch_sequence result_count
    ps_halted ps_conflict absent negb length map]; try done; try (cbn; lia).
  - intros i q. rewrite lookup_empty. split; [done|]. by intros (made & Hr%not_elem_of_nil & _).
  - constructor.
  - by apply Hfirst.
  - by apply Hfirst.
  - apply in_order_nil.
Qed.

Lemma rebind_bound a st snapshot policy a' : bound a -> _rebind_flat_policy a st snapshot policy = Ok a' ->
  bound a' /\ pa_run_id a' = pa_run_id a.
Proof.
  intros Ha. unfold _rebind_flat_policy. intros (_ & (_ & H)%guard_Ok)%guard_Ok.
  apply rbind_Ok in H as (entries & He & H). apply rbind_Ok in H as (retained & Hr & H).
  apply rbind_Ok in H as (digest & Hd & H). apply Ok_inj in H as <-.
  apply copy_entries in He as [-> Hpos]; [|exact (pb_specs a Ha)]. split; [|done].
  pose proof (policy_binds (mkPlanningAuthority (pa_run_id a) (pa_spec_set a) (pa_spec_set_sha256 a) retained digest
    (pa_execution_policy a) (index_by entry_instrument (pp_entries retained))
    (index_by spec_instrument (specifications (pa_spec_set a)))) (pp_policy_id policy) (pp_entries policy) (pa_spec_set a)
    (pb_specs a Ha) eq_refl Hpos Hr Hd (pb_set_digest a Ha) eq_refl eq_refl) as [B1 B2 B3 B4 B5 B6 B7].
  split; try done. exact (pb_spec a Ha).
Qed.

Section Reach.
Context (run_id : RunId) (first_target first_intent count : Z) (start : option Z).
#[local] Abbreviation reach := (planning_reachable run_id first_target first_intent count start).

Lemma plan_logged a st log snapshot signal m st' :
  bound a -> pa_run_id a = run_id -> planning_log run_id first_target first_intent count start st log ->
  plan a st snapshot signal = (m, st') ->
  planning_log run_id first_target first_intent count start st' (log_after log signal m).
Proof. intros Ha Hr L H. eapply planning_logged; [exact Ha|exact L|done|]. by eapply plan_planning. Qed.

Lemma planning_reachable_logged a st log : reach a st log ->
  bound a /\ pa_run_id a = run_id /\ planning_log run_id first_target first_intent count start st log.
Proof.
  induction 1 as [snapshot ss p ep a st Hc|a st log snapshot signal r st' _ (Ha & Hr & L) Hp
    |a st log snapshot signal e st' _ (Ha & Hr & L) Hp|a st log snapshot policy a' _ (Ha & Hr & L) Hp].
  - destruct (created_bound _ _ _ _ _ _ _ _ _ _ _ Hc). split_and!; [done|done|by eapply plan_created_logged].
  - split_and!; [done|done|]. by apply (plan_logged _ _ _ _ _ _ _ Ha Hr L) in Hp.
  - split_and!; [done|done|]. by apply (plan_logged _ _ _ _ _ _ _ Ha Hr L) in Hp.
  - destruct (rebind_bound _ _ _ _ _ Ha Hp) as [Hb He]. split_and!; [done|congruence|done].
Qed.
End Reach.
End History.
