(* ===== verification/RoundTrip.v ===== *)
(** Decoding inverts encoding.  [canon] is the wire value a document decodes to;
    [Decodes f ok p] says that the parser [p] reads back every value satisfying [ok]
    from its document, and instances are given for each identity and value messages
    are made of.  The message decoders are run on the documents of issued messages by
    the tactic [decode], one field at a time. *)

From S2P Require Import Prelude PyRegex PyText Outcomes Json WireJson Identity Economics Commission.
From S2P Require Import Execution Messages Orders Wire Decoders Canonical.

Open Scope Z_scope.

#[export] Existing Instance codes_inj.

(** ** The wire value of a document *)

Definition canon (v : json) : wire := wire_of (sort_keys v).
Definition canon_entries (kvs : list (string * json)) : wire_dict :=
  map wire_entry (py_sorted fst (map sorted_entry kvs)).
Definition assoc {A} (k : string) (kvs : list (string * A)) : option A :=
  snd <$> List.find (fun kv => String.eqb kv.1 k) kvs.

Lemma canon_dict kvs : canon (JDict kvs) = WDict (canon_entries kvs).
Proof. reflexivity. Qed.
Lemma canon_list {A} (f : A -> json) l : canon (JList (map f l)) = WList (map (fun x => canon (f x)) l).
Proof. unfold canon. cbn [sort_keys wire_of]. by rewrite !map_map. Qed.

Lemma codes_chars_eqb s t : bool_decide (codes (chars s) = codes (chars t)) = String.eqb s t.
Proof.
  destruct (String.eqb_spec s t) as [->|Hn]; [by apply bool_decide_eq_true|].
  apply bool_decide_eq_false. intros H. destruct Hn. by apply (inj chars), (inj codes).
Qed.

Lemma find_perm {A} (p : A -> bool) (l k : list A) : l ≡ₚ k ->
  (forall x y, x ∈ l -> y ∈ l -> p x = true -> p y = true -> x = y) -> List.find p l = List.find p k.
Proof.
  intros Hp Hu. destruct (List.find p l) as [x|] eqn:Hx; symmetry.
  - apply find_some in Hx as [Hx Hpx]. apply list_elem_of_In in Hx.
    destruct (List.find p k) as [y|] eqn:Hy.
    + apply find_some in Hy as [Hy Hpy]. apply list_elem_of_In in Hy. rewrite <-Hp in Hy.
      f_equal. by apply Hu.
    + rewrite Hp in Hx. apply list_elem_of_In in Hx. by rewrite (find_none _ _ Hy _ Hx) in Hpx.
  - destruct (List.find p k) as [y|] eqn:Hy; [|done].
    apply find_some in Hy as [Hy Hpy]. apply list_elem_of_In in Hy. rewrite <-Hp in Hy.
    apply list_elem_of_In in Hy. by rewrite (find_none _ _ Hx _ Hy) in Hpy.
Qed.

Lemma find_map {A B} (f : A -> B) (p : B -> bool) l : List.find p (map f l) = f <$> List.find (fun x => p (f x)) l.
Proof. induction l as [|x l IH]; [done|]. cbn. by destruct (p (f x)). Qed.

Lemma find_ext {A} (p q : A -> bool) l : (forall x, p x = q x) -> List.find p l = List.find q l.
Proof. intros H. induction l as [|x l IH]; [done|]. cbn. by rewrite H, IH. Qed.

(** Looking a key up in the decoded document finds the decoded field. *)
Lemma lookup_canon kvs k : no_duplicates (map fst kvs) = true ->
  lookup_key (canon_entries kvs) k = canon <$> assoc k kvs.
Proof.
  intros Hn%bool_decide_eq_true. unfold lookup_key, canon_entries.
  rewrite find_map, (find_ext _ (fun kv => String.eqb kv.1 k)) by (intros kv; apply codes_chars_eqb).
  rewrite (find_perm _ _ (map sorted_entry kvs)).
  - rewrite find_map. unfold assoc. cbn [sorted_entry fst].
    by destruct (List.find _ kvs) as [[k' v]|].
  - apply py_sorted_perm.
  - intros x y Hx Hy Hkx%String.eqb_eq Hky%String.eqb_eq.
    assert (NoDup (map fst (py_sorted fst (map sorted_entry kvs)))) as Hd.
    { change (map fst ?l) with (fst <$> l). rewrite py_sorted_perm.
      change (NoDup (map fst (map sorted_entry kvs))). by rewrite fst_sorted_entry. }
    apply list_elem_of_lookup_1 in Hx as [i Hx], Hy as [j Hy].
    assert (i = j) as ->; [|congruence].
    apply (NoDup_lookup _ i j x.1 Hd); change (map fst ?l) with (fst <$> l);
      rewrite list_lookup_fmap; [by rewrite Hx|rewrite Hy; cbn; congruence].
Qed.

Lemma get_canon kvs k v : no_duplicates (map fst kvs) = true -> assoc k kvs = Some v ->
  get (canon_entries kvs) k = Ok (canon v).
Proof. intros Hn Hk. unfold get. by rewrite lookup_canon, Hk. Qed.

(** The key tests of the envelopes, on the names alone. *)
Lemma has_key_canon kvs k : no_duplicates (map fst kvs) = true ->
  negb (bool_decide (lookup_key (canon_entries kvs) k = None)) = existsb (fun x => String.eqb x k) (map fst kvs).
Proof.
  intros Hn. rewrite lookup_canon by done. unfold assoc. clear Hn.
  induction kvs as [|[k' v] kvs IH]; [done|]. cbn. by destruct (String.eqb k' k).
Qed.

Lemma elem_codes k expected : bool_decide (codes (chars k) ∈ map (fun k => codes (chars k)) expected) =
  existsb (String.eqb k) expected.
Proof.
  apply eq_true_iff_eq. rewrite bool_decide_eq_true, existsb_exists, list_elem_of_In, in_map_iff. split.
  - intros (x & Hx%(inj codes)%(inj chars) & Hin). subst. exists k. by rewrite String.eqb_refl.
  - intros (x & Hin & ->%String.eqb_eq). by exists x.
Qed.

Lemma forallb_perm {A} (p : A -> bool) l k : l ≡ₚ k -> forallb p l = forallb p k.
Proof.
  intros Hp. apply eq_true_iff_eq. rewrite !forallb_forall. setoid_rewrite <-list_elem_of_In.
  split; intros H x Hx; apply H; [by rewrite Hp|by rewrite <-Hp].
Qed.
Lemma forallb_map {A B} (f : A -> B) (p : B -> bool) l : forallb p (map f l) = forallb (fun x => p (f x)) l.
Proof. induction l as [|x l IH]; [done|]. cbn. by rewrite IH. Qed.
Lemma forallb_ext_eq {A} (p q : A -> bool) l : (forall x, p x = q x) -> forallb p l = forallb q l.
Proof. intros H. induction l as [|x l IH]; [done|]. cbn. by rewrite IH, H. Qed.

Lemma only_keys_canon kvs expected :
  only_keys (canon_entries kvs) expected = forallb (fun k => existsb (String.eqb k) expected) (map fst kvs).
Proof.
  unfold only_keys, canon_entries. rewrite forallb_map. cbn [wire_entry fst].
  rewrite (forallb_ext_eq _ _ _ (fun kv => elem_codes kv.1 expected)).
  rewrite (forallb_perm _ _ _ (py_sorted_perm fst (map sorted_entry kvs))).
  by rewrite !forallb_map.
Qed.
Lemma has_keys_canon kvs expected : no_duplicates (map fst kvs) = true ->
  has_keys (canon_entries kvs) expected = forallb (fun k => existsb (fun x => String.eqb x k) (map fst kvs)) expected.
Proof. intros Hn. apply forallb_ext_eq. intros k. by apply has_key_canon. Qed.
Lemma same_keys_canon kvs expected : no_duplicates (map fst kvs) = true ->
  same_keys (canon_entries kvs) expected =
  forallb (fun k => existsb (fun x => String.eqb x k) (map fst kvs)) expected
  && forallb (fun k => existsb (String.eqb k) expected) (map fst kvs).
Proof.
  intros Hn. unfold same_keys. f_equal; [by apply has_keys_canon|]. apply only_keys_canon.
Qed.

(** A decoded document equals the document it was written from. *)
Lemma wire_eq_canon v : keys_distinct v = true -> wire_eq (canon v) (wire_of v) = true.
Proof.
  unfold canon. induction v as [|b|s|n|l IH|kvs IH] using json_ind'; intros Hd.
  - done.
  - by destruct b.
  - cbn. by apply bool_decide_eq_true.
  - cbn. apply Z.eqb_refl.
  - cbn [keys_distinct sort_keys wire_of wire_eq] in *.
    rewrite forallb_forall in Hd. induction l as [|v l IHl]; [done|]. cbn [map].
    apply Forall_cons in IH as [Hv IH]. rewrite Hv by (apply Hd; by left). cbn [andb].
    apply IHl; [done|]. intros x Hx. apply Hd. by right.
  - change (sort_keys (JDict kvs)) with (JDict (py_sorted fst (map sorted_entry kvs))).
    cbn [keys_distinct] in Hd. apply andb_true_iff in Hd as [Hn Hd].
    change (wire_of (JDict ?l)) with (WDict (map wire_entry l)). cbn [wire_eq].
    pose proof (py_sorted_perm fst (map sorted_entry kvs)) as Hp.
    apply andb_true_iff. split.
    + rewrite !length_map, Hp, length_map. apply Nat.eqb_refl.
    + rewrite (forallb_perm _ _ (map wire_entry (map sorted_entry kvs))) by (by apply Permutation_map).
      rewrite !forallb_map. rewrite forallb_forall in *. intros [k v] Hin.
      cbn [sorted_entry wire_entry fst snd]. rewrite find_map.
      rewrite (find_ext _ (fun kv => String.eqb k kv.1)) by
        (intros kv; cbn [wire_entry fst]; rewrite codes_chars_eqb; apply String.eqb_sym).
      destruct (List.find _ kvs) as [[k' v']|] eqn:Hf.
      * apply find_some in Hf as [Hin' ->%String.eqb_eq]. cbn [fst] in *. cbn.
        assert (v' = v) as ->.
        { apply bool_decide_eq_true in Hn. apply list_elem_of_In in Hin, Hin'.
          apply list_elem_of_lookup_1 in Hin as [i Hi], Hin' as [j Hj].
          assert (i = j) as ->; [|congruence].
          apply (NoDup_lookup _ i j k' Hn); change (map fst kvs) with (fst <$> kvs);
            rewrite list_lookup_fmap; [by rewrite Hi|by rewrite Hj]. }
        rewrite Forall_forall in IH. apply (IH (k', v)); [by apply list_elem_of_In|by apply (Hd (k', v))].
      * pose proof (find_none _ _ Hf _ Hin) as Hx. cbn [fst] in Hx. by rewrite String.eqb_refl in Hx.
Qed.

Lemma decode_canonical kvs : keys_distinct (JDict kvs) = true ->
  _decode_json (encode_json (JDict kvs)) = Ok (canon_entries kvs).
Proof. intros Hd. unfold _decode_json. rewrite decode_encode by done. fold (canon (JDict kvs)). by rewrite canon_dict. Qed.

Lemma round_trip_canonical kvs : keys_distinct (JDict kvs) = true ->
  _require_round_trip (encode_json (JDict kvs)) (canon_entries kvs) (JDict kvs) (encode_json (JDict kvs)) = Ok tt.
Proof.
  intros Hd. unfold _require_round_trip. rewrite <-canon_dict, wire_eq_canon by done.
  by rewrite bool_decide_eq_true_2.
Qed.

Lemma round_trip_payload payload d expected canonical :
  _require_round_trip payload d expected canonical = Ok tt -> payload = canonical.
Proof. unfold _require_round_trip. intros H. res_inv H. by apply negb_false_iff, bool_decide_eq_true in E0. Qed.

(** ** Parsers of texts *)

Lemma latin_codes s : latin (codes (chars s)) = Some s.
Proof.
  unfold latin. rewrite ascii_of_codes, text_of_chars.
  assert (forallb (fun c => (0 <=? c) && (c <? 256)) (codes (chars s)) = true) as ->; [|done].
  apply forallb_forall. intros c (a & <- & _)%in_map_iff. pose proof (code_bounds a). lia.
Qed.
Lemma text_or_codes {A} e s (f : string -> res A) : text_or e (codes (chars s)) f = f s.
Proof. unfold text_or. by rewrite latin_codes. Qed.
Lemma pattern_str_value {r} (e : exn) (s : PatternStr r) : pattern_str e (value s) = Ok s.
Proof. by apply pattern_str_Ok. Qed.

Lemma is_text_canon s t : is_text (Some (canon (JStr s))) t = String.eqb s t.
Proof. cbn. apply codes_chars_eqb. Qed.

(** [p] reads back from its document every value satisfying [ok]. *)
Class Decodes {A} (f : A -> json) (ok : A -> Prop) (p : wire -> res A) : Prop :=
  decodes a : ok a -> p (canon (f a)) = Ok a.
(** [p] accepts every such document. *)
Class Checks {A} (f : A -> json) (p : wire -> res unit) : Prop := checks a : p (canon (f a)) = Ok tt.

Lemma decodes_at {A} (f : A -> json) ok p `{!Decodes f ok p} a v : v = f a -> ok a -> p (canon v) = Ok a.
Proof. intros ->. apply decodes. Qed.
Lemma checks_at {A} (f : A -> json) p `{!Checks f p} a v : v = f a -> p (canon v) = Ok tt.
Proof. intros ->. apply checks. Qed.

Abbreviation always := (fun _ => True).
Definition optional_ok {A} (ok : A -> Prop) (x : option A) : Prop := match x with Some x => ok x | None => True end.

#[export] Instance decodes_optional {A} (f : A -> json) ok p `{!Document f, !Decodes f ok p} :
  Decodes (optional_document f) (optional_ok ok) (optionally p).
Proof.
  intros [x|] Hx; [|done]. cbn [optional_document optional_ok] in *.
  pose proof (decodes (f := f) x Hx) as Hp. unfold optionally.
  destruct (canon (f x)) eqn:E; rewrite ?Hp; try done.
  unfold canon in E. pose proof (document_present (f := f) x) as Hn. by destruct (sort_keys (f x)).
Qed.

Ltac parse_text := intros a _; unfold canon; cbn; rewrite text_or_codes; cbn; by rewrite ?pattern_str_value.

#[export] Instance decodes_run_id : Decodes (fun r : RunId => JStr (value r)) always _parse_run_id.
Proof. intros a _. unfold canon. cbn. rewrite text_or_codes. unfold RunId_init. by rewrite pattern_str_value. Qed.
#[export] Instance decodes_digest : Decodes (fun r : Sha256Digest => JStr (value r)) always _parse_digest.
Proof. intros a _. unfold canon. cbn. rewrite text_or_codes. unfold Sha256Digest_init. by rewrite pattern_str_value. Qed.
#[export] Instance decodes_source_namespace :
  Decodes (fun r : SourceNamespace => JStr (value r)) always _parse_source_namespace.
Proof. intros a _. unfold canon. cbn. rewrite text_or_codes. unfold SourceNamespace_init. by rewrite pattern_str_value. Qed.
#[export] Instance decodes_spec_id : Decodes (fun r : InstrumentSpecId => JStr (value r)) always parse_spec_id.
Proof. intros a _. unfold canon. cbn. rewrite text_or_codes. unfold _validate_spec_id. by rewrite pattern_str_value. Qed.
#[export] Instance decodes_currency : Decodes (fun r : SettlementCurrency => JStr (value r)) always parse_currency.
Proof. intros a _. unfold canon. cbn. rewrite text_or_codes. unfold SettlementCurrency_init. by rewrite pattern_str_value. Qed.
#[export] Instance decodes_venue_order_id :
  Decodes optional_text_document always _parse_optional_venue_order_id.
Proof.
  intros [a|] _; [|done]. unfold canon. cbn. rewrite text_or_codes. unfold VenueOrderId_init.
  by rewrite pattern_str_value.
Qed.
#[export] Instance decodes_optional_digest : Decodes optional_text_document always _parse_optional_digest.
Proof. intros [a|] _; [|done]. apply (decodes_optional (fun r : Sha256Digest => JStr (value r)) always _parse_digest (Some a)). done. Qed.
#[export] Instance decodes_decimal : Decodes (fun d => JStr (text d)) always _parse_decimal.
Proof. intros d _. unfold canon. cbn. rewrite text_or_codes. by apply decimal_of_text_Ok. Qed.

(** *** Times *)

Lemma field_cells w n : 0 <= n < 10 ^ Z.of_nat w -> (0 < w)%nat ->
  length (zero_pad w (digits n)) = w /\ int_of (zero_pad w (digits n)) = n.
Proof. intros Hn Hw. by destruct (zero_pad_digits w n Hn Hw) as (_ & ? & ?). Qed.

Ltac cells s Hl := repeat (destruct s as [|? s]; cbn [length] in Hl; try lia); clear Hl.

Lemma strptime_utc_text t : strptime (chars (utc_text t)) = Some t.
Proof.
  destruct (datetime_ranges t) as (H1 & H2 & H3 & H4 & H5 & H6 & H7).
  destruct t as [y mo d h mi s us Hok]. cbn [year month day hour minute second microsecond] in *.
  unfold strptime, utc_text. rewrite chars_text_of. cbn [year month day hour minute second microsecond].
  destruct (field_cells 4 y H1) as [L1 I1]; [lia|]. destruct (field_cells 2 mo H2) as [L2 I2]; [lia|].
  destruct (field_cells 2 d H3) as [L3 I3]; [lia|]. destruct (field_cells 2 h H4) as [L4 I4]; [lia|].
  destruct (field_cells 2 mi H5) as [L5 I5]; [lia|]. destruct (field_cells 2 s H6) as [L6 I6]; [lia|].
  destruct (field_cells 6 us H7) as [L7 I7]; [lia|].
  generalize dependent (zero_pad 4 (digits y)). intros s1 L1 I1.
  generalize dependent (zero_pad 2 (digits mo)). intros s2 L2 I2.
  generalize dependent (zero_pad 2 (digits d)). intros s3 L3 I3.
  generalize dependent (zero_pad 2 (digits h)). intros s4 L4 I4.
  generalize dependent (zero_pad 2 (digits mi)). intros s5 L5 I5.
  generalize dependent (zero_pad 2 (digits s)). intros s6 L6 I6.
  generalize dependent (zero_pad 6 (digits us)). intros s7 L7 I7.
  cells s1 L1. cells s2 L2. cells s3 L3. cells s4 L4. cells s5 L5. cells s6 L6. cells s7 L7.
  unfold field_at. cbn [app take drop]. rewrite I1, I2, I3, I4, I5, I6, I7.
  destruct (bool_dec _ true) as [Hv|Hv]; [|done]. by f_equal; apply datetime_eq.
Qed.

#[export] Instance decodes_time : Decodes (fun t => JStr (utc_text t)) always _parse_time.
Proof.
  intros t _. unfold canon, _parse_time. cbn [sort_keys wire_of expect_str rbind].
  rewrite latin_codes, strptime_utc_text. by rewrite bool_decide_eq_true_2.
Qed.

(** *** Closed vocabularies *)

Lemma parse_value_codes {A} (of_value : string -> option A) (a : A) s :
  of_value s = Some a -> parse_value_of of_value (codes (chars s)) = Ok a.
Proof. intros H. unfold parse_value_of. by rewrite latin_codes, H. Qed.
Lemma decodes_enum {A} (to_value : A -> string) (of_value : string -> option A) :
  (forall a, of_value (to_value a) = Some a) ->
  Decodes (fun a => JStr (to_value a)) always (_parse_enum of_value).
Proof. intros H a _. unfold canon, _parse_enum. cbn [sort_keys wire_of expect_str rbind]. by apply parse_value_codes. Qed.

#[export] Instance decodes_owner_kind : Decodes (fun k => JStr (owner_kind_value k)) always (_parse_enum owner_kind_of_value).
Proof. apply decodes_enum. by intros []. Qed.
#[export] Instance decodes_side : Decodes (fun k => JStr (side_value k)) always (_parse_enum order_side_of_value).
Proof. apply decodes_enum. by intros []. Qed.
#[export] Instance decodes_order_kind : Decodes (fun k => JStr (order_kind_value k)) always (_parse_enum order_kind_of_value).
Proof. apply decodes_enum. by intros []. Qed.
#[export] Instance decodes_time_in_force :
  Decodes (fun k => JStr (time_in_force_value k)) always (_parse_enum time_in_force_of_value).
Proof. apply decodes_enum. by intros []. Qed.
#[export] Instance decodes_decision_kind :
  Decodes (fun k => JStr (decision_kind_value k)) always (_parse_enum decision_kind_of_value).
Proof. apply decodes_enum. by intros []. Qed.
#[export] Instance decodes_fact_kind : Decodes (fun k => JStr (fact_kind_value k)) always (_parse_enum fact_kind_of_value).
Proof. apply decodes_enum. by intros []. Qed.
#[export] Instance decodes_outcome : Decodes (fun k => JStr (outcome_value k)) always (_parse_enum OutcomeCode_of_value).
Proof. apply decodes_enum. apply OutcomeCode_of_value_value. Qed.
#[export] Instance decodes_version : Decodes JInt (fun n => 0 <= n) parse_version.
Proof. intros n Hn. unfold canon, parse_version, _require_non_negative. cbn. by destruct (Z.ltb_spec n 0); [lia|]. Qed.

(** ** Reading a document field by field *)

(** Rules for the fields: type checks first, then parsers. *)
Lemma wire_type_str s : _require_wire_type (canon (JStr s)) T_str = Ok tt.
Proof. done. Qed.
Lemma wire_type_int n : _require_wire_type (canon (JInt n)) T_int = Ok tt.
Proof. done. Qed.
Lemma wire_type_dict kvs : _require_wire_type (canon (JDict kvs)) T_dict = Ok tt.
Proof. done. Qed.
Lemma wire_type_optional_text {r} (s : option (PatternStr r)) :
  _require_optional_wire_type (canon (optional_text_document s)) T_str = Ok tt.
Proof. by destruct s. Qed.
Lemma wire_object kvs expected : no_duplicates (map fst kvs) = true ->
  same_keys (canon_entries kvs) expected = true ->
  _require_wire_object (canon (JDict kvs)) expected = Ok (canon_entries kvs).
Proof. intros Hn Hs. unfold _require_wire_object. rewrite wire_type_dict, canon_dict. cbn [rbind]. by rewrite Hs. Qed.

Lemma expect_str_canon s : expect_str (canon (JStr s)) = Ok (codes (chars s)).
Proof. done. Qed.
Lemma expect_int_canon n : expect_int (canon (JInt n)) = Ok n.
Proof. done. Qed.

Ltac names := cbn [map fst app]; lazy; reflexivity.
Ltac entry := cbn [assoc List.find String.eqb Ascii.eqb Bool.eqb fst snd app fmap option_fmap option_map]; reflexivity.
(** One step of a decoder on the document of a known message. *)
Ltac decode_step :=
  match goal with
  | |- context [_require_wire_object (WDict (canon_entries ?kvs)) ?e] =>
      rewrite <-(canon_dict kvs), (wire_object kvs e) by (rewrite ?same_keys_canon; names)
  | |- context [_require_wire_object (canon (JDict ?kvs)) ?e] =>
      rewrite (wire_object kvs e) by (rewrite ?same_keys_canon; names)
  | |- context [get (canon_entries ?kvs) ?k] =>
      erewrite (get_canon kvs k); [|names|entry]
  | |- context [lookup_key (canon_entries ?kvs) ?k] =>
      rewrite (lookup_canon kvs k) by names;
      let v := eval cbn [assoc List.find String.eqb Ascii.eqb Bool.eqb fst snd app fmap option_fmap option_map] in (assoc k kvs) in
      change (assoc k kvs) with v; cbn [fmap option_fmap option_map]
  | |- context [same_keys (canon_entries ?kvs) ?e] =>
      let ks := eval cbn [map fst app] in (map fst kvs) in
      let b := eval lazy in (forallb (fun k => existsb (fun x => String.eqb x k) ks) e
                             && forallb (fun k => existsb (String.eqb k) e) ks) in
      replace (same_keys (canon_entries kvs) e) with b by (symmetry; rewrite same_keys_canon; names)
  | |- context [only_keys (canon_entries ?kvs) ?e] =>
      replace (only_keys (canon_entries kvs) e) with true by (symmetry; rewrite only_keys_canon; names)
  | |- context [has_keys (canon_entries ?kvs) ?e] =>
      replace (has_keys (canon_entries kvs) e) with true by (symmetry; rewrite has_keys_canon; names)
  | |- context [is_number (Some (canon (JInt 1))) 1] => change (is_number (Some (canon (JInt 1))) 1) with true
  | |- context [is_null (canon JNull)] => change (is_null (canon JNull)) with true
  | |- context [is_text (Some (canon (JStr ?s))) ?t] =>
      let b := eval lazy in (String.eqb s t) in
      replace (is_text (Some (canon (JStr s))) t) with b by (symmetry; rewrite is_text_canon; names)
  | |- context [?p (canon ?v)] =>
      first [let L := constr:(decodes_at _ _ p) in
             erewrite (L _ v); [|reflexivity|first [exact I|assumption|done]]
            |let L := constr:(checks_at _ p) in erewrite (L _ v); [|reflexivity]]
  | |- context [_require_optional_wire_type (canon (optional_text_document ?s)) T_str] =>
      rewrite (wire_type_optional_text s)
  | |- context [expect_str (canon (JStr ?s))] => rewrite (expect_str_canon s)
  | |- context [expect_int (canon (JInt ?n))] => rewrite (expect_int_canon n)
  | |- context [_require_wire_type (canon (JStr ?s)) T_str] => rewrite (wire_type_str s)
  | |- context [_require_wire_type (canon (JInt ?n)) T_int] => rewrite (wire_type_int n)
  | |- context [_require_wire_type (canon (JDict ?n)) T_dict] => rewrite (wire_type_dict n)
  end; cbn [rbind negb andb orb require_fields each_field].


Ltac decode_steps := cbn [require_fields each_field]; repeat decode_step.

(** ** Identities and references *)

#[export] Instance decodes_policy : Decodes _policy_document always _parse_policy.
Proof.
  intros p _. unfold _policy_document. rewrite canon_dict. unfold _parse_policy. decode_steps.
  rewrite text_or_codes. unfold _require_token.
  rewrite pattern_str_value. by destruct p.
Qed.
#[export] Instance decodes_provenance : Decodes _provenance_document always _parse_provenance.
Proof.
  intros p _. unfold _provenance_document. rewrite canon_dict. unfold _parse_provenance. decode_steps.
  rewrite text_or_codes. unfold _require_token.
  rewrite pattern_str_value. by destruct p.
Qed.

(** The range [EconomicId] accepts. *)
Definition id_ok (i : EconomicId) : Prop := 0 <= owner_sequence i <= MAX_UINT64.

#[export] Instance decodes_economic_id : Decodes _economic_id_document id_ok _parse_economic_id.
Proof.
  intros i Hi. unfold _economic_id_document. rewrite canon_dict. unfold _parse_economic_id. decode_steps.
  unfold EconomicId_init, _require_uint64, id_ok in *. rewrite (proj2 (Z.ltb_ge _ _)) by lia.
  cbn [orb]. rewrite (proj2 (Z.ltb_ge _ _)) by lia. by destruct i.
Qed.
#[export] Instance decodes_optional_id :
  Decodes _optional_id_document (optional_ok id_ok) _parse_optional_economic_id.
Proof. apply decodes_optional; apply _. Qed.
#[export] Instance decodes_instrument : Decodes _instrument_document always _parse_instrument.
Proof.
  intros i _. unfold _instrument_document. rewrite canon_dict. unfold _parse_instrument. decode_steps.
  rewrite !text_or_codes. unfold VenueId_init, Instrument_init.
  rewrite pattern_str_value. cbn [rbind]. rewrite text_or_codes, pattern_str_value. by destruct i.
Qed.
#[export] Instance decodes_optional_instrument :
  Decodes (optional_document _instrument_document) always (optionally _parse_instrument).
Proof. intros x _. apply (decodes_optional _instrument_document always _parse_instrument). by destruct x. Qed.
#[export] Instance decodes_dedup : Decodes _dedup_document dedup_identity_ok _parse_dedup_identity.
Proof.
  intros [v|n] Hi; unfold _dedup_document; rewrite canon_dict; unfold _parse_dedup_identity; decode_steps.
  - rewrite text_or_codes. unfold ExternalFactId_init. by rewrite pattern_str_value.
  - unfold SourceNativeSequence_init, _require_non_negative_integer. cbn in Hi.
    by destruct (Z.ltb_spec n 0); [lia|].
Qed.
#[export] Instance decodes_target : Decodes _target_document
  (fun t => id_ok (target_id t) /\ owner_kind (target_id t) = PORTFOLIO_TARGET) _parse_target_lineage.
Proof.
  intros t [Hi Ho]. unfold _target_document. rewrite canon_dict. unfold _parse_target_lineage. decode_steps.
  unfold TargetLineageRef_init, _require_id_owner. rewrite bool_decide_eq_true_2 by done. by destruct t.
Qed.

(** ** Type checks of the value documents *)

Ltac preflight f p := intros a; unfold f; rewrite ?canon_dict; unfold p; decode_steps; reflexivity.

#[export] Instance checks_economic_id : Checks _economic_id_document _preflight_economic_id_types.
Proof. preflight _economic_id_document _preflight_economic_id_types. Qed.
#[export] Instance checks_instrument : Checks _instrument_document _preflight_instrument_types.
Proof. preflight _instrument_document _preflight_instrument_types. Qed.
#[export] Instance checks_target : Checks _target_document _preflight_target_lineage_types.
Proof. preflight _target_document _preflight_target_lineage_types. Qed.
#[export] Instance checks_policy : Checks _policy_document _preflight_policy_types.
Proof. preflight _policy_document _preflight_policy_types. Qed.
#[export] Instance checks_provenance : Checks _provenance_document _preflight_provenance_types.
Proof. preflight _provenance_document _preflight_provenance_types. Qed.
#[export] Instance checks_dedup : Checks _dedup_document _preflight_dedup_types.
Proof.
  intros [v|n]; unfold _dedup_document, _preflight_dedup_types; decode_steps; reflexivity.
Qed.

(** A document that is an object. *)
Lemma dict_optional {A} (g : A -> list (string * json)) p `{!Checks (fun a => JDict (g a)) p} (x : option A) :
  preflight_optional p (canon (optional_document (fun a => JDict (g a)) x)) = Ok tt.
Proof. destruct x as [x|]; [|done]. exact (checks (f := fun a => JDict (g a)) (p := p) x). Qed.
#[export] Instance checks_optional_id : Checks _optional_id_document (preflight_optional _preflight_economic_id_types).
Proof. intros x. apply (dict_optional (fun i => _)). exact checks_economic_id. Qed.
#[export] Instance checks_optional_instrument :
  Checks (optional_document _instrument_document) (preflight_optional _preflight_instrument_types).
Proof. intros x. apply (dict_optional (fun i => _)). exact checks_instrument. Qed.

(** ** Fees and payloads *)

(** What [FeeEntry] accepts. *)
Definition fee_ok (f : FeeEntry) : Prop :=
  FeeEntry_init COMMISSION (fee_currency f) (fee_amount f) (commission_bps f) = Ok f.

Definition commission_document (b : CanonicalDecimal) : json :=
  JDict [("policy", JStr "deterministic-commission-v1"); ("commission_bps", JStr (text b))]%string.

Lemma fee_ok_bps f b : fee_ok f -> commission_bps f = Some b -> require_commission_bps b = Ok b.
Proof.
  unfold fee_ok, FeeEntry_init. intros Hf Hb. rewrite Hb in Hf. rewrite require_commission_bps_spec in *.
  by destruct (commission_ok b).
Qed.

Lemma parse_commission_document b : require_commission_bps b = Ok b ->
  _parse_commission (canon (commission_document b)) = Ok (Some b).
Proof.
  intros Hb. unfold commission_document. rewrite canon_dict. unfold _parse_commission. decode_steps. by rewrite Hb.
Qed.

Lemma decodes_fees f : fee_ok f -> _parse_fees (canon (JList (map _fee_document [f]))) = Ok [f].
Proof.
  intros Hf. rewrite canon_list. cbn [map]. unfold _fee_document.
  pose proof (fee_ok_bps f) as Hbps. unfold fee_ok in Hf. revert Hf Hbps.
  destruct f as [[] u m [b|]]; cbn [fee_code fee_currency fee_amount commission_bps app]; intros Hf Hbps;
    rewrite canon_dict; unfold _parse_fees; fold commission_document; decode_steps.
  - fold (commission_document b). rewrite parse_commission_document by (by apply Hbps). cbn [rbind]. by rewrite Hf.
  - by rewrite Hf.
Qed.
