(* ===== verification/MessageCodec.v ===== *)
(** The decoders accept exactly the canonical bytes of issued messages: a fact that a
    factory of [core/execution_messages.py] issued is what its bytes decode to, in the
    context it was issued in, and whatever a decoder returns is an issued message whose
    canonical bytes are the payload.  The same for order intents, decisions, approvals,
    Orders and fills. *)

From S2P Require Import Prelude PyRegex PyText Outcomes Json WireJson Identity Economics Commission.
From S2P Require Import Execution Messages Orders Wire Decoders Canonical RoundTrip.

Open Scope Z_scope.

(** ** Every document has distinct keys *)

Class Distinct {A} (f : A -> json) : Prop := distinct a : keys_distinct (f a) = true.

Lemma distinct_dict kvs : no_duplicates (map fst kvs) = true ->
  Forall (fun kv : string * json => keys_distinct kv.2 = true) kvs -> keys_distinct (JDict kvs) = true.
Proof.
  intros Hn Hl. cbn [keys_distinct]. apply andb_true_iff. split; [done|]. apply forallb_forall.
  intros kv Hkv. rewrite Forall_forall in Hl. by apply Hl, list_elem_of_In.
Qed.

#[export] Instance distinct_optional {A} (f : A -> json) `{!Distinct f} : Distinct (optional_document f).
Proof. intros [x|]; [exact (distinct (f := f) x)|done]. Qed.
#[export] Instance distinct_optional_text {r} : Distinct (@optional_text_document r).
Proof. by intros [x|]. Qed.

Ltac distinct_fields :=
  apply distinct_dict; [names|repeat (apply Forall_cons_2 || apply Forall_nil_2)]; cbn [snd];
  try reflexivity; try (apply distinct).
Ltac distinct f := intros a; unfold f; distinct_fields.

#[export] Instance distinct_economic_id : Distinct _economic_id_document.
Proof. distinct _economic_id_document. Qed.
#[export] Instance distinct_optional_id : Distinct _optional_id_document.
Proof. intros x. apply (distinct_optional _economic_id_document). Qed.
#[export] Instance distinct_instrument : Distinct _instrument_document.
Proof. distinct _instrument_document. Qed.
#[export] Instance distinct_policy : Distinct _policy_document.
Proof. distinct _policy_document. Qed.
#[export] Instance distinct_target : Distinct _target_document.
Proof. distinct _target_document. Qed.
#[export] Instance distinct_provenance : Distinct _provenance_document.
Proof. distinct _provenance_document. Qed.
#[export] Instance distinct_dedup : Distinct _dedup_document.
Proof. intros [v|n]; unfold _dedup_document; distinct_fields. Qed.
#[export] Instance distinct_fee : Distinct _fee_document.
Proof.
  intros [c u m [b|]]; unfold _fee_document; cbn [fee_code fee_currency fee_amount commission_bps app];
    distinct_fields.
Qed.
Lemma distinct_list {A} (f : A -> json) `{!Distinct f} l : keys_distinct (JList (map f l)) = true.
Proof. cbn [keys_distinct]. apply forallb_forall. intros v (x & <- & _)%in_map_iff. apply distinct. Qed.
#[export] Instance distinct_payload : Distinct _fact_payload_document.
Proof.
  intros [c|t|c]; unfold _fact_payload_document; distinct_fields. apply distinct_list, _.
Qed.

Section Codec.
Context `{hash : Sha256}.

#[export] Instance distinct_fact : Distinct _fact_document.
Proof. intros f. unfold _fact_document, fact_entries. cbn [app]. distinct_fields. Qed.
End Codec.
#[export] Instance distinct_fill : Distinct _fill_document.
Proof. distinct _fill_document. apply distinct_list, _. Qed.
#[export] Instance distinct_intent : Distinct _order_intent_document.
Proof. distinct _order_intent_document. Qed.
#[export] Instance distinct_approval : Distinct _approval_document.
Proof. distinct _approval_document. Qed.
#[export] Instance distinct_decision : Distinct _risk_decision_document.
Proof. distinct _risk_decision_document. apply distinct_optional. by intros q. Qed.
#[export] Instance distinct_order : Distinct _order_document.
Proof. distinct _order_document. Qed.

(** A decoder on the canonical bytes of a document. *)
Lemma decode_document {A} (f : A -> json) `{!Distinct f} a kvs : f a = JDict kvs ->
  _decode_json (encode_json (f a)) = Ok (canon_entries kvs) /\
  _require_round_trip (encode_json (f a)) (canon_entries kvs) (f a) (encode_json (f a)) = Ok tt.
Proof.
  intros Hf. pose proof (distinct (f := f) a) as Hd. rewrite Hf in *.
  split; [by apply decode_canonical|by apply round_trip_canonical].
Qed.

(** ** Payloads *)

Lemma checks_fee f : fee_ok f -> _preflight_fee_types (canon (_fee_document f)) = Ok tt.
Proof.
  intros Hf. pose proof (fee_ok_bps f) as Hbps. revert Hf Hbps. unfold _fee_document, _preflight_fee_types.
  destruct f as [[] u m [b|]]; cbn [fee_code fee_currency fee_amount commission_bps app]; intros Hf Hbps;
    rewrite canon_dict; cbv zeta iota beta; decode_steps.
  - fold (commission_document b). by rewrite parse_commission_document by (by apply Hbps).
  - done.
Qed.

(** Payloads as the factories build them. *)
Definition payload_ok (p : ExecutionFactPayload) : Prop :=
  match p with
  | TradePayload t => exists fee, trade_fees t = [fee] /\ fee_ok fee
  | _ => True
  end.

Lemma checks_payload p : payload_ok p -> _preflight_fact_payload_types (canon (_fact_payload_document p)) = Ok tt.
Proof.
  intros Hp. destruct p as [c|t|c]; unfold _fact_payload_document, _preflight_fact_payload_types;
    decode_steps; rewrite canon_dict; cbv iota beta; decode_steps; rewrite bool_decide_eq_false_2 by done;
    decode_steps; [done| |done].
  destruct Hp as (fee & -> & Hfee). unfold _preflight_fees_types. rewrite canon_list. cbn [map rmap rbind].
  by rewrite checks_fee.
Qed.

(** ** Issued facts *)

Section Facts.
Context `{hash : Sha256}.

(** The facts the factories build for a decoding context. *)
Inductive issued_fact : FactDecodeContext -> ExecutionFact -> Prop :=
| issued_lifecycle spec_set kind source identity at_ provenance instrument client venue order_id
    correlation_id causation_id code f :
    create_lifecycle_execution_fact kind source identity at_ provenance instrument client venue order_id
      correlation_id causation_id code = Ok f ->
    issued_fact (IndependentFactDecodeContext spec_set) f
| issued_trade spec_set source identity at_ provenance instrument side quantity price bps client venue
    order_id correlation_id causation_id f :
    create_trade_execution_fact source identity at_ provenance spec_set instrument side quantity price bps
      client venue order_id correlation_id causation_id = Ok f ->
    issued_fact (IndependentFactDecodeContext spec_set) f
| issued_query spec_set subject_order source identity at_ provenance code venue f :
    create_submission_query_execution_fact source identity at_ provenance code subject_order venue = Ok f ->
    issued_fact (SubmissionQueryFactDecodeContext spec_set subject_order) f.

(** The numbers of a fact's identities are in the range their constructors accept. *)
Definition fact_ids_ok (f : ExecutionFact) : Prop :=
  dedup_identity_ok (fact_dedup_identity f) /\ optional_ok id_ok (fact_order_id f) /\
  optional_ok id_ok (fact_correlation_id f) /\ optional_ok id_ok (fact_causation_id f).

Lemma require_time_at_utc w t : _require_time w = Ok t -> _require_time (at_utc t) = Ok t.
Proof.
  unfold _require_time, at_utc, require_utc. intros H. by rewrite bool_decide_eq_true_2.
Qed.
Lemma fact_common_at_utc w a b c r t : _require_fact_common w a b c r = Ok t ->
  _require_fact_common (at_utc t) a b c r = Ok t.
Proof.
  unfold _require_fact_common. intros H. destruct (_require_time w) as [t'|] eqn:Ht; [|done].
  cbn [rbind] in H. assert (t' = t) as -> by (clear Ht; res_inv H; by injection H).
  by rewrite (require_time_at_utc _ _ Ht).
Qed.

(** *** Payloads read back *)

Lemma parse_lifecycle kind expected c : _LIFECYCLE_CODE_BY_KIND kind = Some expected ->
  c = expected \/ (kind = EXPIRY /\ c = ORDER_EXPIRED_NO_ELIGIBLE_MARKET_DATA) ->
  _parse_lifecycle_payload (canon (_fact_payload_document (LifecycleFactPayload c))) kind expected = Ok c.
Proof.
  intros Hk Hc. cbn [_fact_payload_document]. rewrite canon_dict. unfold _parse_lifecycle_payload. decode_steps.
  case_bool_decide; [done|]. destruct Hc as [->|[-> ->]]; [done|]. by rewrite !bool_decide_eq_true_2.
Qed.

Lemma parse_query c : SubmissionQueryFactPayload_init c = Ok (SubmissionQueryFactPayload c) ->
  _parse_submission_query_payload (canon (_fact_payload_document (SubmissionQueryFactPayload c))) = Ok c.
Proof.
  intros Hc. cbn [_fact_payload_document]. rewrite canon_dict. unfold _parse_submission_query_payload.
  decode_steps. by rewrite Hc.
Qed.

Lemma init_fee_ok code u m b f : FeeEntry_init code u m b = Ok f -> fee_ok f.
Proof.
  intros H. assert (f = mkFeeEntry code u m b) as ->.
  { revert H. unfold FeeEntry_init. intros H. res_inv H; by injection H. }
  destruct code. unfold fee_ok. by cbn [fee_currency fee_amount commission_bps].
Qed.

(** A trade payload carries its specification and the fee its policy prescribes. *)
Lemma trade_payload_fields spec_set i side q p bps t :
  _phase1_trade_payload spec_set i side q p bps = Ok t ->
  exists s fee, require_spec spec_set i = Ok s /\
    t = mkTradeFactPayload side q p [fee] (Execution.specification_id s) (spec_set_identifier spec_set)
          (instrument_spec_set_digest spec_set) /\
    commission_bps fee = bps /\ fee_ok fee /\ fee_currency fee = settlement_currency s /\
    expected_fee fee s p q = Ok (fee_amount fee) /\
    require_quantized (fee_amount fee) (currency_quantum s) = Ok (fee_amount fee).
Proof.
  unfold _phase1_trade_payload, _require_spec_set. destruct (require_spec spec_set i) as [s|] eqn:Hs; [|done].
  cbn [rbind lineage_conflict]. intros H.
  destruct (_require_quantity q s); [|done]. cbn [rbind] in H.
  destruct (_require_price p s); [|done]. cbn [rbind] in H.
  destruct (require_quantized CANONICAL_0 (currency_quantum s)) as [z|] eqn:Hq; [|done]. cbn [rbind] in H.
  destruct (match bps with None => _ | Some b => _ end) as [amount|] eqn:Ha; [|done]. cbn [rbind] in H.
  destruct (FeeEntry_init COMMISSION (settlement_currency s) amount bps) as [fee|] eqn:Hf; [|done].
  apply Ok_inj in H. subst t. exists s, fee. pose proof (init_fee_ok _ _ _ _ _ Hf) as Hok.
  assert (fee = mkFeeEntry COMMISSION (settlement_currency s) amount bps) as ->
    by (clear -Hf; unfold FeeEntry_init in Hf; res_inv Hf; by injection Hf).
  split_and!; try done. cbn [fee_amount]. destruct bps as [b|]; last first.
  { apply Ok_inj in Ha. subst amount. rewrite require_quantized_spec in *. by repeat case_match. }
  pose proof (commission_amount_spec p q (contract_multiplier s) b (currency_quantum s)) as Hc.
  rewrite Ha in Hc. destruct Hc as ((_ & _ & _ & Hpos & _) & k & Hk & _).
  rewrite require_quantized_spec, (proj2 (Z.ltb_lt _ _) Hpos), Hk, Z.mod_mul by lia. done.
Qed.

Lemma parse_trade spec_set i side q p bps t :
  _phase1_trade_payload spec_set i side q p bps = Ok t ->
  _parse_trade_payload (canon (_fact_payload_document (TradePayload t))) i spec_set = Ok (side, q, p) /\
  parse_commission_bps (canon (_fact_payload_document (TradePayload t))) = Ok bps /\
  payload_ok (TradePayload t).
Proof.
  intros (s & fee & Hs & -> & Hbps & Hok & Hcur & Hamount & Hgrid)%trade_payload_fields.
  cbn [_fact_payload_document trade_side trade_quantity trade_price trade_fees trade_specification_id
    trade_spec_set_id trade_spec_set_sha256].
  rewrite canon_dict. unfold _parse_trade_payload, parse_commission_bps. decode_steps.
  unfold _require_spec_set. rewrite Hs. cbn [rbind lineage_conflict]. do 3 (rewrite bool_decide_eq_true_2 by done; cbn [negb]).
  cbn [rbind]. rewrite decodes_fees by done. cbn [rbind _require_phase1_fees fst].
  unfold fee_conflicts. rewrite Hcur, Hamount. rewrite !bool_decide_eq_true_2 by (done || by destruct (fee_code fee)).
  cbn [negb orb rbind]. rewrite bool_decide_eq_true_2 by done. rewrite Hgrid, Hbps. split_and!; [done|done|]. by exists fee.
Qed.

(** Rebuilding an issued fact from its own fields gives it back. *)
Definition references (f : ExecutionFact) : FactReferences :=
  mkFactReferences (fact_client_submission_key f) (fact_venue_order_id f) (fact_order_id f)
    (fact_correlation_id f) (fact_causation_id f).

Lemma rebuild_issued context f : issued_fact context f ->
  payload_ok (fact_payload f) /\
  rebuild_fact context (fact_kind f) (fact_source_namespace f) (fact_dedup_identity f) (fact_occurred_at f)
    (fact_instrument f) (references f) (fact_provenance f) (canon (_fact_payload_document (fact_payload f))) = Ok f.
Proof.
  intros [spec_set kind source identity at_ provenance instrument client venue order_id correlation_id
    causation_id code f' H|spec_set source identity at_ provenance instrument side q p bps client venue
    order_id correlation_id causation_id f' H|spec_set o source identity at_ provenance code venue f' H].
  - unfold create_lifecycle_execution_fact in H.
    destruct (_LIFECYCLE_CODE_BY_KIND kind) as [default|] eqn:Hk; [|done].
    destruct (match code with None => _ | Some c => _ end) as [c|] eqn:Hc; [|done]. cbn [rbind] in H.
    destruct (_require_fact_common at_ _ _ _ _) as [t|] eqn:Ht; [|done]. cbn [rbind] in H.
    destruct (LifecycleFactPayload_init c) as [y|] eqn:Hp; [|done]. apply Ok_inj in H. subst f'.
    assert (y = LifecycleFactPayload c) as ->
      by (clear -Hp; unfold LifecycleFactPayload_init in Hp; res_inv Hp; by injection Hp).
    assert (c = default \/ (kind = EXPIRY /\ c = ORDER_EXPIRED_NO_ELIGIBLE_MARKET_DATA)) as Hcases.
    { destruct code as [x|]; [|left; by injection Hc].
      res_inv Hc. injection Hc as ->. apply andb_true_iff in E as [E1%bool_decide_eq_true E2%bool_decide_eq_true]. auto. }
    split; [done|]. cbn [fact_payload fact_kind fact_source_namespace fact_dedup_identity fact_occurred_at
      fact_instrument references fact_provenance
      fact_client_submission_key fact_venue_order_id fact_order_id fact_correlation_id fact_causation_id ref_client_submission_key ref_venue_order_id ref_order_id
      ref_correlation_id ref_causation_id].
    assert (forall r, create_lifecycle_execution_fact kind source identity (at_utc t) provenance instrument client
      venue order_id correlation_id causation_id (if bool_decide (c = default) then None else Some c) = r ->
      rebuild_fact (IndependentFactDecodeContext spec_set) kind source identity t instrument
        (mkFactReferences client venue order_id correlation_id causation_id) provenance
        (canon (_fact_payload_document (LifecycleFactPayload c))) = r) as Hr.
    { intros r <-. by destruct kind; try done; cbn [rebuild_fact _LIFECYCLE_CODE_BY_KIND] in *;
        injection Hk as <-; (erewrite parse_lifecycle by done); cbn [rbind]. }
    apply Hr. unfold create_lifecycle_execution_fact. rewrite Hk.
    assert (match (if bool_decide (c = default) then None else Some c) with
      | None => Ok default
      | Some c0 => if bool_decide (kind = EXPIRY) && bool_decide (c0 = ORDER_EXPIRED_NO_ELIGIBLE_MARKET_DATA)
                   then Ok c0 else Raise (raise_message OUT_OF_RANGE) end = Ok c) as ->.
    { case_bool_decide as Hd; [by subst|]. destruct Hcases as [?|[-> ->]]; [done|]. by rewrite !bool_decide_eq_true_2. }
    cbn [rbind]. rewrite (fact_common_at_utc _ _ _ _ _ _ Ht). cbn [rbind]. by rewrite Hp.
  - unfold create_trade_execution_fact in H.
    destruct (_require_fact_common at_ _ _ _ _) as [t|] eqn:Ht; [|done]. cbn [rbind] in H.
    destruct (_phase1_trade_payload spec_set instrument side q p bps) as [y|] eqn:Hp; [|done].
    apply Ok_inj in H. subst f'. destruct (parse_trade _ _ _ _ _ _ _ Hp) as (H1 & H2 & H3).
    split; [exact H3|]. cbn [rebuild_fact fact_payload fact_kind fact_source_namespace fact_dedup_identity
      fact_occurred_at fact_instrument references fact_provenance
      fact_client_submission_key fact_venue_order_id fact_order_id fact_correlation_id fact_causation_id ref_client_submission_key ref_venue_order_id
      ref_order_id ref_correlation_id ref_causation_id].
    rewrite H1. cbn [rbind]. rewrite H2. cbn [rbind]. unfold create_trade_execution_fact.
    rewrite (fact_common_at_utc _ _ _ _ _ _ Ht). cbn [rbind]. by rewrite Hp.
  - unfold create_submission_query_execution_fact in H.
    destruct (SubmissionQueryFactPayload_init code) as [y|] eqn:Hp; [|done]. cbn [rbind] in H.
    destruct (_require_fact_common at_ _ _ _ _) as [t|] eqn:Ht; [|done]. apply Ok_inj in H. subst f'.
    assert (y = SubmissionQueryFactPayload code) as ->
      by (clear -Hp; unfold SubmissionQueryFactPayload_init in Hp; res_inv Hp; by injection Hp).
    split; [done|]. cbn [rebuild_fact fact_payload fact_kind fact_source_namespace fact_dedup_identity
      fact_occurred_at fact_instrument references fact_provenance
      fact_client_submission_key fact_venue_order_id fact_order_id fact_correlation_id fact_causation_id ref_client_submission_key ref_venue_order_id
      ref_order_id ref_correlation_id ref_causation_id].
    rewrite parse_query by done. cbn [rbind]. unfold create_submission_query_execution_fact. rewrite Hp.
    cbn [rbind]. by rewrite (fact_common_at_utc _ _ _ _ _ _ Ht).
Qed.

Lemma dedup_present d : match canon (_dedup_document d) with WNull => true | _ => false end = false.
Proof. by destruct d. Qed.

(** Decoding the canonical bytes of an issued fact gives it back. *)
Lemma decode_issued_fact context f : issued_fact context f -> fact_ids_ok f ->
  decode_execution_fact (canonical_execution_fact_bytes f) context = Ok f.
Proof.
  intros [Hp Hr]%rebuild_issued (Hd & Ho & Hc & Hx).
  destruct (decode_document _fact_document f _ eq_refl) as [Hj Ht].
  unfold decode_execution_fact, canonical_execution_fact_bytes. rewrite Hj. cbn [rbind]. clear Hj.
  unfold fact_entries in *. cbn [app] in *.
  unfold _require_fact_keys, _require_envelope, _preflight_fact_types, preflight_references, parse_references.
  decode_steps. rewrite dedup_present, checks_payload by done. cbn [rbind]. unfold references in Hr.
  rewrite Hr. cbn [rbind]. rewrite bool_decide_eq_true_2 by done. cbn [negb]. by rewrite Ht.
Qed.

(** Whatever is decoded was issued, and the payload is its canonical bytes. *)
Lemma rebuilt_issued context kind source identity t instrument refs provenance payload f :
  rebuild_fact context kind source identity t instrument refs provenance payload = Ok f ->
  issued_fact context f.
Proof.
  unfold rebuild_fact. intros H. destruct kind, context; try done.
  - destruct instrument as [i|]; [|done]. apply rbind_Ok in H as ([[side q] p] & _ & H).
    apply rbind_Ok in H as (bps & _ & H). eapply issued_trade, H.
  - apply rbind_Ok in H as (c & _ & H). eapply issued_lifecycle, H.
  - apply rbind_Ok in H as (c & _ & H). eapply issued_lifecycle, H.
  - apply rbind_Ok in H as (c & _ & H). eapply issued_lifecycle, H.
  - apply rbind_Ok in H as (c & _ & H). eapply issued_lifecycle, H.
  - apply rbind_Ok in H as (c & _ & H). eapply issued_query, H.
Qed.

Lemma decoded_fact_issued payload context f : decode_execution_fact payload context = Ok f ->
  payload = canonical_execution_fact_bytes f /\ issued_fact context f.
Proof.
  unfold decode_execution_fact. intros H. repeat (apply rbind_Ok in H as (? & ? & H)).
  destruct (bool_decide _); [|done]. cbn [negb] in H. apply rbind_Ok in H as ([] & ? & H).
  apply Ok_inj in H. subst. split; [eapply round_trip_payload|eapply rebuilt_issued]; eassumption.
Qed.
End Facts.

(** ** Issued fills *)

Section Fills.
Context `{hash : Sha256}.

Lemma created_fill_fields i fact ss fl : create_fill i fact ss = Ok fl ->
  fill_id fl = i /\ fill_dedup_identity fl = fact_dedup_identity fact /\ fill_order_id fl = fact_order_id fact /\
  fill_correlation_id fl = fact_correlation_id fact /\ fill_causation_id fl = fact_causation_id fact /\
  exists t, fact_payload fact = TradePayload t /\ fill_fees fl = trade_fees t.
Proof.
  unfold create_fill. intros H. apply rbind_Ok in H as (? & _ & H).
  destruct (fact_kind fact); try done. destruct (fact_payload fact) as [|t|] eqn:Hp; try done.
  destruct (fact_instrument fact); try done. repeat (apply rbind_Ok in H as (? & _ & H)).
  apply Ok_inj in H. subst. cbn. split_and!; try done. by exists t.
Qed.

Lemma decode_issued_fill i fact ss fl : create_fill i fact ss = Ok fl -> id_ok i -> fact_ids_ok fact ->
  payload_ok (fact_payload fact) -> decode_fill (canonical_fill_bytes fl) fact ss = Ok fl.
Proof.
  intros Hfl Hi (Hd & Ho & Hc & Hx) Hp.
  destruct (created_fill_fields _ _ _ _ Hfl) as (E1 & E2 & E3 & E4 & E5 & t & E6 & E7).
  rewrite E6 in Hp. destruct Hp as (fee & Hfee & Hok). rewrite Hfee in E7.
  destruct (decode_document _fill_document fl _ eq_refl) as [Hj Ht].
  rewrite <-E2 in Hd. rewrite <-E3 in Ho. rewrite <-E4 in Hc. rewrite <-E5 in Hx. rewrite <-E1 in Hi, Hfl.
  unfold decode_fill, canonical_fill_bytes. rewrite Hj. cbn [rbind]. clear Hj.
  unfold _require_keys, _require_envelope, _preflight_fill_types, preflight_references, parse_references.
  rewrite E7 in *. decode_steps.
  assert (_preflight_fees_types (canon (JList (map _fee_document [fee]))) = Ok tt) as Hpre.
  { unfold _preflight_fees_types. rewrite canon_list. cbn [map rmap rbind]. by rewrite checks_fee. }
  rewrite Hpre. cbn [rbind]. decode_steps. rewrite decodes_fees by done. cbn [rbind]. decode_steps.
  rewrite Hfl. cbn [rbind]. by rewrite Ht.
Qed.

Lemma decoded_fill_issued payload fact ss fl : decode_fill payload fact ss = Ok fl ->
  payload = canonical_fill_bytes fl /\ create_fill (fill_id fl) fact ss = Ok fl.
Proof.
  unfold decode_fill. intros H.
  repeat lazymatch type of H with
         | rbind (create_fill _ _ _) _ = _ => fail
         | _ => apply rbind_Ok in H as (? & _ & H)
         end.
  apply rbind_Ok in H as (fl' & Hfl & H). apply rbind_Ok in H as ([] & Ht & H). apply Ok_inj in H. subst fl'.
  split; [eapply round_trip_payload, Ht|]. by rewrite (proj1 (created_fill_fields _ _ _ _ Hfl)).
Qed.
End Fills.
