(* ===== verification/OrderCodec.v ===== *)
(** Decoding order intents, risk decisions, approvals and Orders: the bytes of each, as its
    factory issued it, decode to it in the context it was issued in.  Then what created
    Orders carry, and the documents that identify them. *)

From S2P Require Import Prelude PyRegex PyText Outcomes Json WireJson Identity Economics Commission Execution.
From S2P Require Import Messages Orders Wire Decoders Canonical RoundTrip MessageCodec Risk Portfolio.
From S2P Require Import Reconciliation Integration.

Open Scope Z_scope.

(** *** Decoding order intents, risk decisions, approvals and Orders: the bytes of each,
    as its factory issued it, decode to it in the context it was issued in. *)

Section Codec.
Context `{hash : Sha256}.

Lemma require_non_negative_ok v n : Messages._require_non_negative v = Ok n -> n = v /\ 0 <= n.
Proof. unfold Messages._require_non_negative. destruct (Z.ltb_spec v 0); [done|]. intros [= <-]. lia. Qed.

(** *** Intents *)

Definition intent_ok (i : OrderIntent) : Prop :=
  id_ok (oi_intent_id i) /\ id_ok (oi_correlation_id i) /\ id_ok (oi_causation_id i) /\
  id_ok (target_id (oi_target_lineage i)) /\
  owner_kind (target_id (oi_target_lineage i)) = PORTFOLIO_TARGET /\
  0 <= oi_portfolio_snapshot_version i /\ 0 <= oi_dispatch_sequence i.

(** An intent as the factory builds it from its own fields. *)
Definition rebuilt_intent (spec_set : InstrumentExecutionSpecSet) (i : OrderIntent) : Prop :=
  create_order_intent (oi_run_id i) (oi_intent_id i) (oi_correlation_id i) (oi_target_lineage i)
    (oi_instrument i) (oi_side i) (oi_quantity i) (oi_portfolio_snapshot_version i)
    (at_utc (oi_causal_root_available_at i)) (oi_dispatch_sequence i) spec_set (oi_execution_policy i) = Ok i.

Lemma created_intent_rebuilt run_id intent_id correlation_id target instrument side q v at_ n spec_set policy i :
  create_order_intent run_id intent_id correlation_id target instrument side q v at_ n spec_set policy = Ok i ->
  rebuilt_intent spec_set i /\ oi_intent_id i = intent_id /\ oi_correlation_id i = correlation_id /\
  oi_causation_id i = target_id target /\ oi_target_lineage i = target /\ oi_execution_policy i = policy /\
  0 <= oi_portfolio_snapshot_version i /\ 0 <= oi_dispatch_sequence i.
Proof.
  unfold rebuilt_intent, create_order_intent. intros H.
  apply rbind_Ok in H as (o1 & H1 & H). apply rbind_Ok in H as (o2 & H2 & H).
  apply rbind_Ok in H as (o3 & H3 & H). apply rbind_Ok in H as ([s d] & H4 & H).
  apply rbind_Ok in H as (o5 & H5 & H). apply rbind_Ok in H as (o6 & H6 & H).
  apply rbind_Ok in H as (o7 & H7 & H). apply rbind_Ok in H as (o8 & H8 & H). apply Ok_inj in H. subst i.
  cbn [oi_run_id oi_intent_id oi_correlation_id oi_target_lineage oi_instrument oi_side oi_quantity
    oi_portfolio_snapshot_version oi_causal_root_available_at oi_dispatch_sequence oi_execution_policy
    oi_causation_id].
  rewrite H1, H2, H3, H4. cbn [rbind]. rewrite H5. cbn [rbind].
  destruct (require_non_negative_ok _ _ H6) as [-> ?], (require_non_negative_ok _ _ H8) as [-> ?].
  rewrite H6. cbn [rbind]. rewrite (require_time_at_utc _ _ H7). cbn [rbind]. rewrite H8. done.
Qed.

Lemma decode_issued_intent spec_set i : rebuilt_intent spec_set i -> intent_ok i ->
  decode_order_intent (canonical_order_intent_bytes i) spec_set (oi_target_lineage i) (oi_execution_policy i) = Ok i.
Proof.
  intros Hr (H1 & H2 & H3 & H4 & H5 & H6 & H7). unfold rebuilt_intent in Hr.
  destruct (decode_document _order_intent_document i _ eq_refl) as [Hj Ht].
  unfold decode_order_intent, canonical_order_intent_bytes. rewrite Hj. cbn [rbind]. clear Hj.
  unfold _require_keys, _require_envelope, _preflight_order_intent_types.
  assert (id_ok (target_id (oi_target_lineage i)) /\
          owner_kind (target_id (oi_target_lineage i)) = PORTFOLIO_TARGET) as Htarget by done.
  decode_steps. do 2 (rewrite bool_decide_eq_true_2 by done). cbn [negb orb]. decode_steps.
  rewrite Hr. cbn [rbind]. by rewrite Ht.
Qed.

(** *** Decisions *)

Definition executable (k : RiskDecisionKind) : bool := bool_decide (k = ALLOW) || bool_decide (k = RESIZE).

(** What the factory puts in the decision it returns. *)
Lemma created_decision_fields kind i intent ss rv aid q d :
  _create_risk_decision kind i intent ss rv aid q = Ok d ->
  rd_kind d = kind /\ rd_decision_id d = i /\ rd_intent_id d = oi_intent_id intent /\
  rd_correlation_id d = oi_correlation_id intent /\ rd_causation_id d = oi_intent_id intent /\
  rd_outcome_code d = decision_outcome kind /\ rd_risk_state_version d = rv /\ 0 <= rv /\
  rd_portfolio_snapshot_version d = oi_portfolio_snapshot_version intent /\
  rd_dispatch_sequence d = oi_dispatch_sequence intent /\ rd_approved_quantity d = q /\
  rd_intent_sha256 d = order_intent_digest intent /\
  if executable kind then
    exists a x, rd_approval d = Some a /\ q = Some x /\ ap_approved_quantity a = x /\ aid = Some (ap_approval_id a) /\
      rd_effective_intent_sha256 d = Some (ap_effective_intent_sha256 a) /\ ap_decision_id a = i /\
      ap_intent_id a = oi_intent_id intent /\ ap_correlation_id a = oi_correlation_id intent /\
      ap_causation_id a = i /\ ap_portfolio_snapshot_version a = oi_portfolio_snapshot_version intent /\
      ap_risk_state_version a = rv /\ ap_dispatch_sequence a = oi_dispatch_sequence intent
  else rd_approval d = None /\ q = None /\ aid = None /\ rd_effective_intent_sha256 d = None.
Proof.
  unfold _create_risk_decision. intros H.
  apply rbind_Ok in H as (? & _ & H). apply rbind_Ok in H as (? & _ & H). apply rbind_Ok in H as (pair_ & _ & H).
  apply rbind_Ok in H as (v & Hv%require_non_negative_ok & H). destruct Hv as [-> Hv].
  apply rbind_Ok in H as (carried & Hc & H). apply Ok_inj in H. subst d.
  cbn [rd_kind rd_decision_id rd_intent_id rd_correlation_id rd_causation_id rd_outcome_code
    rd_risk_state_version rd_portfolio_snapshot_version rd_dispatch_sequence rd_approved_quantity rd_approval
    rd_effective_intent_sha256 rd_intent_sha256].
  split_and!; try done. fold (executable kind) in Hc. destruct (executable kind).
  - apply rbind_Ok in Hc as ([e a] & Hc & Hok). apply Ok_inj in Hok. subst carried. unfold executable_approval in Hc.
    destruct aid as [aid|]; [|done]. destruct q as [q|]; [|done].
    apply rbind_Ok in Hc as (? & _ & Hc). apply rbind_Ok in Hc as (gt & _ & Hc). destruct gt; [done|].
    destruct (_ && _); [done|]. destruct (_ && _); [done|].
    apply rbind_Ok in Hc as (a' & Ha & Hc). apply Ok_inj in Hc. injection Hc as <- <-.
    unfold _make_approval in Ha. apply rbind_Ok in Ha as (? & _ & Ha). apply rbind_Ok in Ha as (? & _ & Ha).
    apply Ok_inj in Ha. subst a'. cbn. by eexists _, _.
  - destruct (_ || _) eqn:E; [done|]. apply Ok_inj in Hc. subst carried.
    apply orb_false_iff in E as [E1%negb_false_iff%bool_decide_eq_true E2%negb_false_iff%bool_decide_eq_true].
    by cbn.
Qed.

Lemma created_decision_run kind i intent ss rv aid q d : _create_risk_decision kind i intent ss rv aid q = Ok d ->
  rd_run_id d = oi_run_id intent.
Proof.
  unfold _create_risk_decision. intros H.
  apply rbind_Ok in H as (? & _ & H). apply rbind_Ok in H as (? & _ & H). apply rbind_Ok in H as (pair_ & _ & H).
  apply rbind_Ok in H as (v & _ & H). apply rbind_Ok in H as (carried & _ & H). apply Ok_inj in H. by subst d.
Qed.

Lemma is_null_canon_approval a : is_null (canon (_approval_document a)) = false.
Proof. done. Qed.

Lemma checks_approval a : exists d, canon (_approval_document a) = WDict d /\ _preflight_approval_types d = Ok tt /\
  (id_ok (ap_approval_id a) -> id_ok (ap_decision_id a) -> id_ok (ap_intent_id a) -> id_ok (ap_correlation_id a) ->
   id_ok (ap_causation_id a) -> 0 <= ap_portfolio_snapshot_version a -> 0 <= ap_risk_state_version a ->
   0 <= ap_dispatch_sequence a ->
   _validate_approval_document_types d = Ok tt /\ get d "approval_id" = Ok (canon (_economic_id_document (ap_approval_id a)))).
Proof.
  unfold _approval_document. rewrite canon_dict. eexists. split; [done|].
  unfold _preflight_approval_types, _validate_approval_document_types, _require_keys, _require_envelope.
  split; [by decode_steps|]. intros. split; [by decode_steps|]. by decode_steps.
Qed.

Lemma decode_issued_decision kind i intent ss rv aid q d :
  _create_risk_decision kind i intent ss rv aid q = Ok d ->
  (kind = ALLOW -> q = Some (oi_quantity intent)) -> intent_ok intent -> id_ok i -> optional_ok id_ok aid ->
  decode_risk_decision (canonical_risk_decision_bytes d) intent ss = Ok d.
Proof.
  intros Hd Hallow (I1 & I2 & _ & _ & _ & I3 & I4) Hi Ha.
  destruct (created_decision_fields _ _ _ _ _ _ _ _ Hd) as
    (E1 & E2 & E3 & E4 & E5 & E6 & E7 & E8 & E9 & E10 & E11 & E12 & Hk).
  destruct (decode_document _risk_decision_document d _ eq_refl) as [Hj Ht].
  unfold decode_risk_decision, canonical_risk_decision_bytes. rewrite Hj. cbn [rbind]. clear Hj.
  unfold _require_keys, _require_envelope, _preflight_risk_decision_types.
  rewrite <-E3 in I1. rewrite <-E4 in I2. rewrite <-E9 in I3. rewrite <-E10 in I4. rewrite <-E7 in E8.
  assert (id_ok (rd_causation_id d)) as I5 by (by rewrite E5, <-E3). rewrite <-E2 in Hi.
  destruct (executable kind) eqn:Hx.
  - destruct Hk as (a & x & K1 & K2 & K3 & K4 & K5 & K6 & K7 & K8 & K9 & K10 & K11 & K12).
    rewrite E11, K2, K1, K5 in Ht |- *. unfold optional_text_document in Ht |- *.
    cbn [optional_document] in Ht |- *.
    decode_steps. change (_require_optional_wire_type (canon (JStr (text x))) T_str) with (@Ok exn unit tt).
    cbn [rbind]. destruct (checks_approval a) as (ad & Had & Hpre & Hval). rewrite Had.
    cbn [_require_optional_wire_type _require_wire_type has_type negb rbind]. rewrite Hpre. cbn [rbind].
    fold (executable (rd_kind d)). rewrite E1 in Ht |- *. rewrite Hx. unfold decode_executable.
    rewrite K4 in Ha. cbn [optional_ok] in Ha.
    destruct Hval as [Hval Hget]; try congruence.
    rewrite Hval, Hget. cbn [rbind]. decode_steps. rewrite E2, E7 in Ht |- *.
    assert ((if bool_decide (kind = ALLOW) then allow_order_intent i (ap_approval_id a) intent ss rv
             else resize_order_intent i (ap_approval_id a) intent x ss rv) = Ok d) as ->.
    { rewrite K4, K2 in Hd. unfold allow_order_intent, resize_order_intent. case_bool_decide as Hkind.
      - rewrite Hkind in Hd. rewrite Hallow in K2 by done. injection K2 as <-. exact Hd.
      - assert (kind = RESIZE) as Hr by (by destruct kind). rewrite Hr in Hd. exact Hd. }
    cbn [rbind]. rewrite bool_decide_eq_true_2 by done. cbn [negb]. by rewrite Ht.
  - destruct Hk as (K1 & K2 & K3 & K4). rewrite E11, K2, K1, K4 in Ht |- *.
    unfold optional_text_document in Ht |- *. cbn [optional_document] in Ht |- *. decode_steps.
    change (_require_optional_wire_type (canon JNull) ?t) with (@Ok exn unit tt). cbn [rbind].
    change (canon JNull) with WNull. cbv iota. cbn [rbind].
    fold (executable (rd_kind d)). rewrite E1 in Ht |- *. rewrite Hx. unfold decode_refusal. decode_steps.
    change (canon JNull) with WNull. cbn [is_null andb negb]. rewrite E2, E7 in Ht |- *.
    assert ((if bool_decide (kind = REJECT) then reject_order_intent i intent ss rv
             else fail_order_intent_evaluation i intent ss rv) = Ok d) as ->.
    { rewrite K2, K3 in Hd. unfold reject_order_intent, fail_order_intent_evaluation.
      by destruct kind. }
    cbn [rbind]. rewrite bool_decide_eq_true_2 by done. cbn [negb]. by rewrite Ht.
Qed.

Lemma decode_issued_approval intent d a : rd_approval d = Some a ->
  rd_intent_id d = oi_intent_id intent -> rd_intent_sha256 d = order_intent_digest intent ->
  id_ok (ap_approval_id a) -> id_ok (ap_decision_id a) -> id_ok (ap_intent_id a) -> id_ok (ap_correlation_id a) ->
  id_ok (ap_causation_id a) -> 0 <= ap_portfolio_snapshot_version a -> 0 <= ap_risk_state_version a ->
  0 <= ap_dispatch_sequence a ->
  decode_execution_approval (canonical_execution_approval_bytes a) intent d = Ok a.
Proof.
  intros Ha Hi Hs H1 H2 H3 H4 H5 H6 H7 H8. unfold decode_execution_approval. rewrite Ha.
  destruct (decode_document _approval_document a _ eq_refl) as [Hj Ht].
  destruct (checks_approval a) as (ad & Had & Hpre & Hval). unfold canonical_execution_approval_bytes.
  rewrite Hj. cbn [rbind]. unfold _approval_document in Had. rewrite canon_dict in Had. injection Had as <-. rewrite Hpre. cbn [rbind].
  destruct Hval as [-> _]; try done. cbn [rbind]. rewrite !bool_decide_eq_true_2 by done. cbn [negb orb].
  by rewrite Ht.
Qed.

(** *** Orders *)

Definition order_ok (o : Order) : Prop :=
  id_ok (od_order_id o) /\ id_ok (od_intent_id o) /\ id_ok (od_correlation_id o) /\ id_ok (od_causation_id o) /\
  id_ok (od_decision_id o) /\ id_ok (od_approval_id o) /\ 0 <= od_portfolio_snapshot_version o /\
  0 <= od_risk_state_version o /\ 0 <= od_dispatch_sequence o.

Lemma created_order_id i intent d ss o : create_order i intent d ss = Ok o -> od_order_id o = i.
Proof.
  unfold create_order. intros H. apply rbind_Ok in H as (? & _ & H). apply rbind_Ok in H as (? & _ & H).
  destruct (rd_approval d); [|done]. destruct (rd_approved_quantity d); [|done].
  destruct (rd_effective_intent_sha256 d); [|done]. do 3 (destruct (negb _); [done|]).
  apply rbind_Ok in H as (? & _ & H). apply rbind_Ok in H as (? & _ & H). apply Ok_inj in H. by subst.
Qed.

Lemma decode_issued_order i intent d ss o : create_order i intent d ss = Ok o -> order_ok o ->
  decode_order (canonical_order_bytes o) intent d ss = Ok o.
Proof.
  intros Ho (H1 & H2 & H3 & H4 & H5 & H6 & H7 & H8 & H9). pose proof (created_order_id _ _ _ _ _ Ho) as Hid.
  destruct (decode_document _order_document o _ eq_refl) as [Hj Ht].
  unfold decode_order, canonical_order_bytes. rewrite Hj. cbn [rbind]. clear Hj.
  unfold _require_keys, _require_envelope, _preflight_order_types.
  decode_steps. rewrite Hid in Ht |- *. rewrite Ho. cbn [rbind]. by rewrite Ht.
Qed.
End Codec.

(** *** From intents to Orders: what created Orders carry, and the documents that identify them. *)

(** *** From intent to Order: an executable decision yields exactly one Order, for the
    quantity it approved; any other yields none. *)

(** ** The Order an executable decision authorises *)

Section Authorisation.
Context `{hash : Sha256}.

Lemma require_quantity_ok q s : spec_ok s -> _require_quantity q s = Ok q <-> 0 < units q /\ on_grid q (quantity_quantum s).
Proof.
  intros (_ & Hq & _). unfold _require_quantity. rewrite require_positive_spec.
  destruct (Z.ltb_spec 0 (units q)); cbn [rbind]; [|split; [done|lia]].
  destruct (require_quantized_ok q _ Hq) as [[-> ?]|[-> ?]]; cbn [rbind]; [split; done|]. split; [done|]. tauto.
Qed.
Lemma require_quantity_value q s x : _require_quantity q s = Ok x -> x = q.
Proof.
  unfold _require_quantity. intros H. apply rbind_Ok in H as (? & _ & H). apply rbind_Ok in H as (? & _ & H).
  by apply Ok_inj in H.
Qed.

(** What an executable decision was checked for. *)
Lemma created_decision_checked kind i intent ss rv aid q d : executable kind = true ->
  _create_risk_decision kind i intent ss rv aid q = Ok d ->
  exists a x s digest, rd_approval d = Some a /\ q = Some x /\
    _require_spec_set ss (oi_instrument intent) (Some (oi_specification_id intent)) (Some (oi_spec_set_id intent))
      (Some (oi_spec_set_sha256 intent)) = Ok (s, digest) /\
    _require_quantity x s = Ok x /\
    (units x <= units (oi_quantity intent)) /\
    (kind = ALLOW <-> x = oi_quantity intent) /\
    ap_original_intent_sha256 a = order_intent_digest intent /\
    ap_causal_root_available_at a = oi_causal_root_available_at intent /\
    rd_causal_root_available_at d = oi_causal_root_available_at intent /\
    in_run (oi_run_id intent) (Some i) = true.
Proof.
  intros Hk. unfold _create_risk_decision. intros H.
  apply rbind_Ok in H as (? & _ & H). apply rbind_Ok in H as ([] & Hrun & H).
  apply rbind_Ok in H as ([s digest] & Hs & H).
  apply rbind_Ok in H as (v & _ & H). apply rbind_Ok in H as (carried & Hc & H). apply Ok_inj in H. subst d.
  fold (executable kind) in Hc. rewrite Hk in Hc. apply rbind_Ok in Hc as ([e a] & Hc & Hok).
  apply Ok_inj in Hok. subst carried. unfold executable_approval in Hc. cbn [fst] in Hc.
  destruct aid as [aid|]; [|done]. destruct q as [q|]; [|done].
  apply rbind_Ok in Hc as (y & Hq & Hc). pose proof (require_quantity_value _ _ _ Hq) as ->.
  rewrite decimal_gt_units in Hc. cbn [rbind] in Hc.
  destruct (Z.ltb_spec (units (oi_quantity intent)) (units q)) as [|Hle]; [done|].
  destruct (_ && _) eqn:E1 in Hc; [done|]. destruct (_ && _) eqn:E2 in Hc; [done|].
  apply rbind_Ok in Hc as (a' & Ha & Hc). apply Ok_inj in Hc. injection Hc as <- <-.
  unfold _make_approval in Ha. apply rbind_Ok in Ha as (? & _ & Ha). apply rbind_Ok in Ha as (? & _ & Ha).
  apply Ok_inj in Ha. subst a'. eexists _, q, s, digest.
  cbn [rd_approval fmap option_fmap option_map snd rd_causal_root_available_at]. split_and!; try done.
  - apply andb_false_iff in E1, E2. rewrite negb_false_iff, bool_decide_eq_true, !bool_decide_eq_false in *.
    unfold executable in Hk. apply orb_true_iff in Hk. rewrite !bool_decide_eq_true in Hk. intuition congruence.
  - unfold _require_same_run in Hrun. destruct (forallb _ _) eqn:E in Hrun; [|done]. by apply andb_true_iff in E as [? _].
Qed.

(** An executable decision, and an order identity of the intent's run, yield the Order for
    the approved quantity. *)
Lemma executable_yields_order kind i intent ss rv aid q d oid : executable kind = true ->
  _create_risk_decision kind i intent ss rv aid q = Ok d ->
  owner_kind oid = EXECUTION_ORDER -> id_run_id oid = oi_run_id intent ->
  exists o x, create_order oid intent d ss = Ok o /\ q = Some x /\ od_quantity o = x /\ od_order_id o = oid /\
    od_side o = oi_side intent /\ od_instrument o = oi_instrument intent /\
    od_intent_id o = oi_intent_id intent /\ od_decision_id o = i /\ aid = Some (od_approval_id o) /\
    od_original_intent_sha256 o = order_intent_digest intent /\
    od_risk_decision_sha256 o = risk_decision_digest d.
Proof.
  intros Hk Hd Howner Hrun.
  destruct (created_decision_fields _ _ _ _ _ _ _ _ Hd) as
    (E1 & E2 & E3 & E4 & E5 & E6 & E7 & E8 & E9 & E10 & E11 & E12 & Hf). rewrite Hk in Hf.
  destruct Hf as (a & x & K1 & K2 & K3 & K4 & K5 & K6 & K7 & K8 & K9 & K10 & K11 & K12).
  destruct (created_decision_checked _ _ _ _ _ _ _ _ Hk Hd) as
    (a' & x' & s & digest & L1 & L2 & L3 & L4 & L5 & L6 & L7 & L8 & L9 & L10).
  assert (a' = a) as -> by congruence. assert (x' = x) as -> by congruence.
  eexists _, x. split.
  - unfold create_order, _require_id_owner. rewrite (bool_decide_eq_true_2 _ Howner). cbn [negb rbind].
    assert (_require_same_run (oi_run_id intent) [Some oid; Some (rd_decision_id d)] = Ok tt) as ->.
    { unfold _require_same_run. cbn [forallb in_run] in *. rewrite E2. rewrite L10.
      by rewrite bool_decide_eq_true_2. }
    cbn [rbind]. rewrite K1, E11, K2, K5. rewrite E1. fold (executable kind). rewrite Hk. cbn [negb].
    assert (decision_binds d intent = true) as ->.
    { unfold decision_binds. rewrite !andb_true_iff, !bool_decide_eq_true, !Z.eqb_eq. by rewrite E3, E12, E4, E5, E9, L9, E10. }
    assert (approval_binds a d intent (ap_effective_intent_sha256 a) x = true) as ->.
    { unfold approval_binds. rewrite !andb_true_iff, !bool_decide_eq_true, !Z.eqb_eq.
      rewrite E2, E7, K6, K7, K8, K9, K10, K11, K12, L7, L8, K3. done. }
    cbn [negb]. rewrite L3. cbn [rbind fst]. rewrite L4. cbn [rbind]. reflexivity.
  - cbn. by rewrite E2.
Qed.

(** A refusal yields none. *)
Lemma refusal_yields_no_order kind i intent ss rv aid q d oid : executable kind = false ->
  _create_risk_decision kind i intent ss rv aid q = Ok d ->
  create_order oid intent d ss = Raise (raise_message CONFLICTING_ID).
Proof.
  intros Hk Hd. destruct (created_decision_fields _ _ _ _ _ _ _ _ Hd) as
    (_ & _ & _ & _ & _ & _ & _ & _ & _ & _ & _ & _ & Hf). rewrite Hk in Hf. destruct Hf as (Hn & _).
  unfold create_order, _require_id_owner, _require_same_run.
  destruct (negb _); [done|]. cbn [rbind]. destruct (negb _); [done|]. cbn [rbind]. by rewrite Hn.
Qed.
End Authorisation.

Lemma require_spec_set_member `{Sha256} ss i a b c s digest : spec_set_ok ss ->
  _require_spec_set ss i a b c = Ok (s, digest) ->
  s ∈ specifications ss /\ spec_instrument s = i /\ spec_ok s.
Proof.
  intros (Hok & Hnd & _) H1. unfold _require_spec_set in H1. apply rbind_Ok in H1 as (s' & Hs & H1).
  repeat (destruct (lineage_conflict _ _); [done|]). apply Ok_inj in H1. injection H1 as -> _.
  unfold require_spec in Hs. apply find_spec_spec in Hs as [Hin Hi]; [|done].
  rewrite Forall_forall in Hok. by split_and!; [| |apply Hok].
Qed.

(** *** The canonical documents of intents, approvals, decisions, Orders and risk evidence
    determine their values: instances of the [Document] interface. *)

#[export] Instance order_kind_value_inj : Inj (=) (=) order_kind_value.
Proof. by intros [] []. Qed.
#[export] Instance time_in_force_value_inj : Inj (=) (=) time_in_force_value.
Proof. by intros [] []. Qed.
#[export] Instance decision_kind_value_inj : Inj (=) (=) decision_kind_value.
Proof. by intros [] []. Qed.
#[export] Instance reason_value_inj : Inj (=) (=) reason_value.
Proof. by intros [] []. Qed.
#[export] Instance halt_reason_value_inj : Inj (=) (=) halt_reason_value.
Proof. by intros [] []. Qed.

#[export] Instance int_document : Document JInt.
Proof. split; [|done]. intros a b. apply int_field. Qed.
#[export] Instance utc_document : Document (fun t => JStr (utc_text t)).
Proof. split; [|done]. intros a b H%string_field. by apply utc_text_inj. Qed.
#[export] Instance halt_reason_document : Document (fun r => JStr (halt_reason_value r)).
Proof. split; [|done]. intros a b H%string_field. by apply halt_reason_value_inj. Qed.

#[export] Instance target_document : Document _target_document.
Proof. document _target_document. Qed.
#[export] Instance policy_document : Document _policy_document.
Proof. document _policy_document. Qed.

#[export] Instance order_intent_document : Document _order_intent_document.
Proof. document _order_intent_document. Qed.
#[export] Instance approval_document : Document _approval_document.
Proof. document _approval_document. Qed.
#[export] Instance risk_decision_document_inj : Document _risk_decision_document.
Proof. document _risk_decision_document. Qed.
#[export] Instance limit_document_inj : Document limit_document.
Proof. document limit_document. Qed.
#[export] Instance risk_policy_document_inj : Document risk_policy_document.
Proof. document risk_policy_document. Qed.
#[export] Instance risk_state_document_inj : Document risk_state_document.
Proof. document risk_state_document. Qed.
#[export] Instance risk_evidence_document_inj : Document risk_evidence_document.
Proof. document risk_evidence_document. Qed.
