(* ===== verification/OrderSpec.v ===== *)
(** The Order authority: one creation as a relation, the invariant that reads every index off the log of Orders created, and the log of every reachable state. *)

From S2P Require Import Prelude PyRegex PyText Outcomes Json Identity Numbering Indexing Economics Commission.
From S2P Require Import Execution Messages Orders Wire Decoders Risk OrderAuthority Canonical OrderCodec.

Open Scope Z_scope.

(** *** The specification of the Order authority: one creation as a relation, the reachable
    states, and the invariant, which reads every index off the log of Orders created. *)

Section Spec.
Context `{hash : Sha256} (context : OrderAuthorityContext).

(** ** One creation *)

(** What a submission was proved before its Order was numbered. *)
Record proven `{RiskResultIssuanceVerifier} (intent : OrderIntent) (result : RiskEvaluationResult)
  (approval : ExecutionApproval) : Prop := {
  pv_approval : rd_approval (result_decision result) = Some approval;
  pv_executable : executable_kind (rd_kind (result_decision result)) = true;
  pv_intent : decode_order_intent (canonical_order_intent_bytes intent) (oa_spec_set context)
                (oi_target_lineage intent) (oi_execution_policy intent) = Ok intent;
  pv_decision : decode_risk_decision (canonical_risk_decision_bytes (result_decision result)) intent
                  (oa_spec_set context) = Ok (result_decision result);
  pv_evidence : _require_evidence (result_evidence result) intent (result_decision result) approval
                  (oa_risk_policy context) (oa_risk_policy_sha256 context) = Ok tt;
  pv_lineage : _require_frozen_lineage context intent (result_evidence result) = Ok tt;
  pv_policy : _require_static_policy_proof intent (result_decision result) (result_evidence result) approval
                (oa_risk_policy context) = Ok tt;
  pv_issued : verifier_has_issued_result (oi_intent_id intent) (canonical_order_intent_bytes intent)
                (canonical_risk_decision_bytes (result_decision result))
                (canonical_risk_evaluation_evidence_bytes (result_evidence result)) = true
}.

(** The record of the Order made from a submission. *)
Definition record_of (intent : OrderIntent) (result : RiskEvaluationResult) (order : Order) : _OrderRecord :=
  _make_record (_materialize_submitted_input intent result) order.

Inductive created `{RiskResultIssuanceVerifier} (st : _OrderAuthorityState) (intent : OrderIntent)
  (result : RiskEvaluationResult) : Order -> _OrderAuthorityState -> Prop :=
| created_intro approval n order :
    _classify_replay st (_materialize_submitted_input intent result) = Ok None ->
    proven intent result approval ->
    order_next st = Some n -> 1 <= n <= MAX_UINT64 ->
    Orders.create_order (mkEconomicId (oa_run_id context) EXECUTION_ORDER n) intent (result_decision result)
      (oa_spec_set context) = Ok order ->
    created st intent result order
      (published_order st (if n =? MAX_UINT64 then None else Some (n + 1)) (ap_approval_id approval)
         (oi_intent_id intent) (rd_decision_id (result_decision result)) (record_of intent result order)).

Lemma public_Ok {A} (m : res A) a : public m = Ok a <-> m = Ok a.
Proof. by destruct m. Qed.

Lemma reconstruct_Ok submitted intent decision approval :
  reconstruct context submitted = Ok (intent, decision, approval) ->
  intent = sb_intent submitted /\ decision = sb_decision submitted /\ sb_approval submitted = Some approval /\
  is_Some (rd_approval decision) /\ executable_kind (rd_kind decision) = true /\
  decode_order_intent (sb_intent_bytes submitted) (oa_spec_set context) (oi_target_lineage (sb_intent submitted))
    (oi_execution_policy (sb_intent submitted)) = Ok intent /\
  decode_risk_decision (sb_decision_bytes submitted) intent (oa_spec_set context) = Ok decision.
Proof.
  unfold reconstruct. intros H. apply rbind_Ok in H as (i & Hi & H).
  destruct (bool_decide_reflect (i = sb_intent submitted)) as [Ei|]; [|done]. cbn [negb] in H.
  apply rbind_Ok in H as (d & Hd & H). destruct (rd_approval d) as [a|] eqn:Ea; [|done].
  destruct (sb_approval submitted) as [sa|]; [|done]. destruct (sb_approval_bytes submitted) as [ab|]; [|done].
  destruct (executable_kind (rd_kind d)) eqn:Ek; [|done]. cbn [negb] in H. apply rbind_Ok in H as (ra & Hra & H).
  destruct (bool_decide_reflect (d = sb_decision submitted)) as [Ed|]; [|done].
  destruct (bool_decide_reflect (ra = sa)) as [Er|]; [|done]. cbn [negb orb] in H. apply Ok_inj in H.
  injection H as <- <- <-. split_and!; try done; first [by rewrite Er|by rewrite Ea].
Qed.

Lemma create_order_created `{RiskResultIssuanceVerifier} st intent result order st' :
  create_order context st intent result = Ok (order, st') ->
  (st' = st /\ _classify_replay st (_materialize_submitted_input intent result) = Ok (Some order)) \/
  created st intent result order st'.
Proof.
  unfold create_order. intros H1. apply (proj1 (public_Ok _ _)) in H1.
  apply rbind_Ok in H1 as ([o|] & Hr & H1); [left; by injection H1 as <- <-|right].
  unfold create_new_order in H1. apply rbind_Ok in H1 as ([[i d] a] & Hrec & H1).
  apply rbind_Ok in H1 as ([] & He & H1). apply rbind_Ok in H1 as ([] & Hl & H1).
  apply rbind_Ok in H1 as ([] & Hp & H1). apply rbind_Ok in H1 as ([] & Hi & H1).
  destruct (reconstruct_Ok _ _ _ _ Hrec) as (-> & -> & Ha & _ & Hk & Hdi & Hdd).
  destruct (order_next st) as [n|] eqn:Hn; [|done]. apply rbind_Ok in H1 as (after & Hadv & H1).
  unfold _advance in Hadv. destruct (_ || _) eqn:Hrange in Hadv; [done|]. apply Ok_inj in Hadv. subst after.
  apply orb_false_iff in Hrange as [Hn1%Z.ltb_ge Hn2%Z.ltb_ge].
  apply rbind_Ok in H1 as (oid & Hoid & H1). apply rbind_Ok in H1 as (o & Ho & H1). apply Ok_inj in H1.
  injection H1 as <- <-. unfold EconomicId_init, _require_uint64 in Hoid.
  rewrite !(proj2 (Z.ltb_ge _ _)) in Hoid by lia. cbn in Hoid. apply Ok_inj in Hoid. subst oid.
  apply (created_intro st intent result a n o); try done. split; try done.
  unfold _require_issued_result in Hi. cbn in Hi. by destruct (verifier_has_issued_result _ _ _ _).
Qed.

(** ** Reachable states *)

(** One call of [create_order] and the port as it answers at that time. *)
Record submission : Type := mkSubmission {
  sm_port : RiskResultIssuanceVerifier;
  sm_intent : OrderIntent;
  sm_result : RiskEvaluationResult
}.
Definition submit (st : _OrderAuthorityState) (s : submission) : _OrderAuthorityState :=
  match @create_order hash (sm_port s) context st (sm_intent s) (sm_result s) with
  | Ok (_, st') => st'
  | Raise _ => st
  end.
Definition submit_all (st : _OrderAuthorityState) (ss : list submission) : _OrderAuthorityState :=
  fold_left submit ss st.
Definition reachable (st : _OrderAuthorityState) : Prop := exists ss, st = submit_all empty_order_state ss.

Lemma submit_all_snoc st ss s : submit_all st (ss ++ [s]) = submit (submit_all st ss) s.
Proof. apply fold_left_app. Qed.

(** ** The log *)

Definition entry : Type := OrderIntent * RiskEvaluationResult * Order.
Definition entry_intent (e : entry) : OrderIntent := e.1.1.
Definition entry_result (e : entry) : RiskEvaluationResult := e.1.2.
Definition entry_record (e : entry) : _OrderRecord := record_of (entry_intent e) (entry_result e) e.2.
Definition key_approval (e : entry) : EconomicId := od_approval_id e.2.
Definition key_intent (e : entry) : EconomicId := oi_intent_id (entry_intent e).
Definition key_decision (e : entry) : EconomicId := rd_decision_id (result_decision (entry_result e)).
Definition key_order (e : entry) : EconomicId := od_order_id e.2.
Definition key_client (e : entry) : Sha256Digest := order_client_submission_key e.2.

Definition entry_ok (e : entry) : Prop :=
  exists port approval n,
    @proven port (entry_intent e) (entry_result e) approval /\
    Orders.create_order (mkEconomicId (oa_run_id context) EXECUTION_ORDER n) (entry_intent e)
      (result_decision (entry_result e)) (oa_spec_set context) = Ok e.2.

Record order_log (st : _OrderAuthorityState) (l : list entry) : Prop := {
  ol_orders : oa_orders st = map snd l;
  ol_numbered : numbered (oa_run_id context) EXECUTION_ORDER (map od_order_id (oa_orders st)) (order_next st);
  ol_approvals : indexes key_approval entry_record (approval_index st) l;
  ol_intents : indexes key_intent entry_record (intent_index st) l;
  ol_decisions : indexes key_decision entry_record (decision_index st) l;
  ol_ids : indexes key_order entry_record (order_id_index st) l;
  ol_client k r : client_submission_key_index st !! k = Some r ->
    exists e, e ∈ l /\ key_client e = k /\ entry_record e = r;
  ol_clients e : e ∈ l -> is_Some (client_submission_key_index st !! key_client e);
  ol_distinct : NoDup (map key_approval l) /\ NoDup (map key_intent l) /\ NoDup (map key_decision l);
  ol_ok : Forall entry_ok l
}.
End Spec.

(** *** Every reachable state of the Order authority has a log: each creation extends it by
    one entry under identities that no earlier entry has. *)

Section Reach.
Context `{hash : Sha256} (context : OrderAuthorityContext).

(** A submission is new when none of its three identities is known. *)
Lemma classify_new st submitted : _classify_replay st submitted = Ok None ->
  (forall a, sb_approval submitted = Some a -> approval_index st !! ap_approval_id a = None) /\
  intent_index st !! oi_intent_id (sb_intent submitted) = None /\
  decision_index st !! rd_decision_id (sb_decision submitted) = None.
Proof.
  unfold _classify_replay. intros H.
  destruct (sb_approval submitted ≫= _) as [r1|] eqn:E1, (intent_index st !! _) as [r2|], (decision_index st !! _) as [r3|];
    try done; [by destruct (_ && _) in H|]. split_and!; try done. intros a Ha. by rewrite Ha in E1.
Qed.

(** The fields of an Order the factory makes. *)
Lemma created_order_fields oid intent d ss o : Orders.create_order oid intent d ss = Ok o ->
  exists a q, rd_approval d = Some a /\ rd_approved_quantity d = Some q /\ ap_approved_quantity a = q /\
    od_order_id o = oid /\ od_intent_id o = oi_intent_id intent /\ od_decision_id o = rd_decision_id d /\
    od_approval_id o = ap_approval_id a /\ od_quantity o = q /\ od_side o = oi_side intent /\
    od_instrument o = oi_instrument intent /\ od_original_intent_sha256 o = order_intent_digest intent /\
    od_risk_decision_sha256 o = risk_decision_digest d /\ od_execution_policy o = oi_execution_policy intent.
Proof.
  unfold Orders.create_order. intros H. apply rbind_Ok in H as (? & _ & H). apply rbind_Ok in H as (? & _ & H).
  destruct (rd_approval d) as [a|]; [|done]. destruct (rd_approved_quantity d) as [q|]; [|done].
  destruct (rd_effective_intent_sha256 d) as [e|]; [|done].
  destruct (negb _); [done|]. destruct (negb _); [done|]. destruct (negb (approval_binds _ _ _ _ _)) eqn:Hb; [done|].
  apply rbind_Ok in H as (? & _ & H). apply rbind_Ok in H as (? & _ & H). apply Ok_inj in H. subst o.
  exists a, q. apply negb_false_iff in Hb. unfold approval_binds in Hb. rewrite !andb_true_iff, !bool_decide_eq_true in Hb.
  split_and!; try done. tauto.
Qed.

Lemma created_log st l port intent result order st' : order_log context st l ->
  @created hash context port st intent result order st' ->
  order_log context st' (l ++ [(intent, result, order)]).
Proof.
  intros [L1 L2 L3 L4 L5 L6 L7 L8 (L9a & L9b & L9c) L10] [approval n o Hc Hp Hn Hr Ho].
  destruct (classify_new _ _ Hc) as (Ca & Ci & Cd). cbn in Ca, Ci, Cd. specialize (Ca _ (pv_approval _ _ _ _ Hp)).
  destruct (created_order_fields _ _ _ _ _ Ho) as (a & q & Ea & _ & _ & Eo & _ & _ & Ek & _).
  rewrite (pv_approval _ _ _ _ Hp) in Ea. injection Ea as <-.
  assert (order_id_index st !! od_order_id o = None) as Cid.
  { destruct (order_id_index st !! od_order_id o) as [r|] eqn:E; [|done]. apply L6 in E as (e & He & Hk & _).
    rewrite Hn in L2. destruct (numbered_fresh _ _ _ _ L2). rewrite <-Eo, <-Hk, L1.
    apply list_elem_of_In, in_map_iff. exists e.2. split; [done|]. by apply in_map, list_elem_of_In. }
  set (e := (intent, result, o)).
  split; cbn [oa_orders order_next approval_index intent_index decision_index order_id_index
    client_submission_key_index published_order or_order or_client_submission_key record_of _make_record].
  - by rewrite map_app, L1.
  - rewrite map_app. cbn [map]. rewrite Eo. apply numbered_snoc. by rewrite <-Hn.
  - rewrite <-Ek. apply (indexes_snoc key_approval entry_record _ _ e); [done|]. unfold key_approval. cbn. by rewrite Ek.
  - by apply (indexes_snoc key_intent entry_record _ _ e).
  - by apply (indexes_snoc key_decision entry_record _ _ e).
  - by apply (indexes_snoc key_order entry_record _ _ e).
  - intros k r. rewrite lookup_insert_Some. intros [[<- <-]|[_ (e' & He' & ?)%L7]].
    + exists e. rewrite elem_of_app, list_elem_of_singleton. auto.
    + exists e'. rewrite elem_of_app. auto.
  - intros e' [He'|He'%list_elem_of_singleton]%elem_of_app.
    + apply lookup_insert_is_Some'. right. by apply L8.
    + subst e'. rewrite lookup_insert_eq. by eexists.
  - assert (approval_index st !! key_approval e = None) as Hka by (unfold key_approval; cbn; by rewrite Ek).
    split_and!; by eapply indexes_NoDup.
  - apply Forall_app. split; [done|]. apply Forall_singleton. by exists port, approval, n.
Qed.

Lemma empty_log : order_log context empty_order_state [].
Proof.
  split; try done; try apply indexes_nil; try apply numbered_nil; try (split_and!; apply NoDup_nil_2).
  intros e He. by apply not_elem_of_nil in He.
Qed.

(** One submission keeps a log or extends it. *)
Lemma submit_log st l s : order_log context st l ->
  submit context st s = st \/ exists o, order_log context (submit context st s) (l ++ [(sm_intent s, sm_result s, o)]).
Proof.
  intros Hl. unfold submit. destruct (create_order context st (sm_intent s) (sm_result s)) as [[o st']|] eqn:E; [|by left].
  apply create_order_created in E as [[-> _]|Hc]; [by left|]. right. exists o. by eapply created_log.
Qed.

Lemma submit_all_log st l ss : order_log context st l ->
  exists more, order_log context (submit_all context st ss) (l ++ more).
Proof.
  intros Hl. induction ss as [|s ss (more & IH)] using rev_ind; [exists []; by rewrite app_nil_r|].
  rewrite submit_all_snoc. destruct (submit_log _ _ s IH) as [->|(o & H)]; [by exists more|].
  exists (more ++ [(sm_intent s, sm_result s, o)]). by rewrite app_assoc.
Qed.

Lemma reachable_order_log st : reachable context st -> exists l, order_log context st l.
Proof. intros (ss & ->). destruct (submit_all_log _ _ ss empty_log) as (l & H). by exists l. Qed.

(** ** Replays *)

(** A known submission is answered with its Order; one that shares an identity with a
    known Order but not its bytes is refused. *)
Lemma classify_known st l e : order_log context st l -> e ∈ l ->
  _classify_replay st (_materialize_submitted_input (entry_intent e) (entry_result e)) = Ok (Some e.2).
Proof.
  intros Hl He. pose proof (ol_ok _ _ _ Hl) as Hok. rewrite Forall_forall in Hok.
  destruct (Hok _ He) as (port & approval & n & Hp & Ho).
  destruct (created_order_fields _ _ _ _ _ Ho) as (a & q & Ea & _ & _ & _ & _ & _ & Ek & _).
  unfold _classify_replay, _materialize_submitted_input.
  cbn [sb_approval sb_intent sb_decision sb_intent_bytes sb_decision_bytes sb_evidence_bytes]. rewrite Ea.
  cbn [mbind option_bind]. rewrite <-Ek.
  change (od_approval_id e.2) with (key_approval e). change (oi_intent_id (entry_intent e)) with (key_intent e).
  change (rd_decision_id (result_decision (entry_result e))) with (key_decision e).
  rewrite (indexes_lookup _ _ _ _ _ (ol_approvals _ _ _ Hl) He), (indexes_lookup _ _ _ _ _ (ol_intents _ _ _ Hl) He),
    (indexes_lookup _ _ _ _ _ (ol_decisions _ _ _ Hl) He).
  by rewrite !bool_decide_eq_true_2.
Qed.

Lemma classify_conflict st l e submitted : order_log context st l -> e ∈ l ->
  oi_intent_id (sb_intent submitted) = key_intent e \/ rd_decision_id (sb_decision submitted) = key_decision e \/
    (exists a, sb_approval submitted = Some a /\ ap_approval_id a = key_approval e) ->
  sb_intent_bytes submitted <> canonical_order_intent_bytes (entry_intent e) \/
    sb_decision_bytes submitted <> canonical_risk_decision_bytes (result_decision (entry_result e)) \/
    sb_evidence_bytes submitted <> canonical_risk_evaluation_evidence_bytes (result_evidence (entry_result e)) ->
  _classify_replay st submitted = Raise (ExecutionAuthorityError CONFLICTING_ID).
Proof.
  intros Hl He Hshare Hbytes. unfold _classify_replay.
  change (ExecutionAuthorityError CONFLICTING_ID) with (raise_execution CONFLICTING_ID).
  assert (forall r1 r2 r3 : _OrderRecord, r1 = entry_record e \/ r2 = entry_record e \/ r3 = entry_record e ->
    bool_decide (r1 = r2) && bool_decide (r1 = r3) && bool_decide (or_intent_bytes r1 = sb_intent_bytes submitted)
    && bool_decide (or_decision_bytes r1 = sb_decision_bytes submitted)
    && bool_decide (or_evidence_bytes r1 = sb_evidence_bytes submitted) = false) as Hne.
  { intros r1 r2 r3 Hr. apply not_true_iff_false. rewrite !andb_true_iff, !bool_decide_eq_true.
    intros [[[[<- <-] H1] H2] H3]. assert (r1 = entry_record e) as -> by tauto. cbn in H1, H2, H3.
    destruct Hbytes as [Hb|[Hb|Hb]]; by apply Hb. }
  destruct (sb_approval submitted ≫= _) as [r1|] eqn:E1,
    (intent_index st !! oi_intent_id (sb_intent submitted)) as [r2|] eqn:E2,
    (decision_index st !! rd_decision_id (sb_decision submitted)) as [r3|] eqn:E3; try done.
  - rewrite Hne; [done|]. destruct Hshare as [Hi|[Hd|(a & Ha & Hk)]].
    + right. left. rewrite Hi, (indexes_lookup _ _ _ _ _ (ol_intents _ _ _ Hl) He) in E2. congruence.
    + right. right. rewrite Hd, (indexes_lookup _ _ _ _ _ (ol_decisions _ _ _ Hl) He) in E3. congruence.
    + left. rewrite Ha in E1. cbn in E1. rewrite Hk, (indexes_lookup _ _ _ _ _ (ol_approvals _ _ _ Hl) He) in E1. congruence.
  - exfalso. destruct Hshare as [Hi|[Hd|(a & Ha & Hk)]].
    + by rewrite Hi, (indexes_lookup _ _ _ _ _ (ol_intents _ _ _ Hl) He) in E2.
    + by rewrite Hd, (indexes_lookup _ _ _ _ _ (ol_decisions _ _ _ Hl) He) in E3.
    + rewrite Ha in E1. cbn in E1. by rewrite Hk, (indexes_lookup _ _ _ _ _ (ol_approvals _ _ _ Hl) He) in E1.
Qed.

(** A replayed submission is that of an entry. *)
Lemma classify_replayed st l intent result o : order_log context st l ->
  _classify_replay st (_materialize_submitted_input intent result) = Ok (Some o) -> (intent, result, o) ∈ l.
Proof.
  intros Hl H. unfold _classify_replay in H. destruct (sb_approval _ ≫= _) as [r1|].
  2:{ destruct (intent_index st !! _); [done|]. by destruct (decision_index st !! _). }
  destruct (intent_index st !! _) as [r2|] eqn:E2; [|done]. destruct (decision_index st !! _) as [r3|]; [|done].
  destruct (_ && _) eqn:Hb in H; [|done]. rewrite !andb_true_iff, !bool_decide_eq_true in Hb.
  destruct Hb as [[[[<- <-] H1] H2] H3]. injection H as <-. apply (ol_intents _ _ _ Hl) in E2 as (e & He & _ & <-).
  cbn in H1, H2, H3. destruct e as [[i [d p]] o]. destruct result as [d' p']. cbn in *.
  apply (canonical_bytes_inj _order_intent_document) in H1. apply (canonical_bytes_inj _risk_decision_document) in H2.
  apply (canonical_bytes_inj risk_evidence_document) in H3. by subst.
Qed.

Lemma create_order_logged port st l intent result order st1 : order_log context st l ->
  @OrderAuthority.create_order hash port context st intent result = Ok (order, st1) ->
  exists l1, order_log context st1 l1 /\ (intent, result, order) ∈ l1.
Proof.
  intros Hl H. apply create_order_created in H as [[-> Hr]|Hc].
  - exists l. split; [done|]. by eapply classify_replayed.
  - exists (l ++ [(intent, result, order)]). split; [by eapply created_log|]. apply elem_of_app. right. by left.
Qed.

(** Two submissions share an identity. *)
Definition shares_identity (intent : OrderIntent) (result : RiskEvaluationResult) (intent' : OrderIntent)
  (result' : RiskEvaluationResult) : Prop :=
  oi_intent_id intent' = oi_intent_id intent \/
  rd_decision_id (result_decision result') = rd_decision_id (result_decision result) \/
  exists a a', rd_approval (result_decision result) = Some a /\ rd_approval (result_decision result') = Some a' /\
    ap_approval_id a' = ap_approval_id a.

Lemma entry_approval st l e : order_log context st l -> e ∈ l ->
  exists a, rd_approval (result_decision (entry_result e)) = Some a /\ key_approval e = ap_approval_id a.
Proof.
  intros Hl He. pose proof (ol_ok _ _ _ Hl) as Hok. rewrite Forall_forall in Hok.
  destruct (Hok _ He) as (port & approval & n & Hp & Ho).
  destruct (created_order_fields _ _ _ _ _ Ho) as (a & q & Ea & _ & _ & _ & _ & _ & Ek & _). by exists a.
Qed.

Lemma classify_other st l intent result order intent' result' : order_log context st l ->
  (intent, result, order) ∈ l -> shares_identity intent result intent' result' ->
  (intent', result') <> (intent, result) ->
  _classify_replay st (_materialize_submitted_input intent' result') = Raise (ExecutionAuthorityError CONFLICTING_ID).
Proof.
  intros Hl He Hshare Hne. apply (classify_conflict _ _ _ _ Hl He); cbn.
  - destruct Hshare as [Hi|[Hd|(a & a' & Ha & Ha' & Hk)]]; [by left|by right; left|]. right. right.
    exists a'. split; [done|]. destruct (entry_approval _ _ _ Hl He) as (b & Hb & Hkb). cbn in Hb.
    rewrite Ha in Hb. injection Hb as ->. by rewrite Hkb, Hk.
  - destruct (decide (canonical_order_intent_bytes intent' = canonical_order_intent_bytes intent)) as [H1|]; [|by left].
    destruct (decide (canonical_risk_decision_bytes (result_decision result')
                      = canonical_risk_decision_bytes (result_decision result))) as [H2|]; [|by right; left].
    right. right. intros H3. apply Hne. apply (canonical_bytes_inj _order_intent_document) in H1.
    apply (canonical_bytes_inj _risk_decision_document) in H2. apply (canonical_bytes_inj risk_evidence_document) in H3.
    destruct result, result'. cbn in *. by subst.
Qed.

(** A submission is new or that of an entry, if those are the only ones it shares an
    identity with. *)
Lemma classify_cases st l intent result : order_log context st l ->
  (forall e, e ∈ l -> shares_identity (entry_intent e) (entry_result e) intent result ->
     entry_intent e = intent /\ entry_result e = result) ->
  _classify_replay st (_materialize_submitted_input intent result) = Ok None \/
  exists o, (intent, result, o) ∈ l /\ _classify_replay st (_materialize_submitted_input intent result) = Ok (Some o).
Proof.
  intros Hl Hu.
  assert (forall e, e ∈ l -> shares_identity (entry_intent e) (entry_result e) intent result ->
    exists o, (intent, result, o) ∈ l /\
      _classify_replay st (_materialize_submitted_input intent result) = Ok (Some o)) as Hknown.
  { intros e He Hs. destruct (Hu _ He Hs) as [<- <-]. exists e.2. split; [by destruct e as [[? ?] ?]|].
    by apply (classify_known _ _ _ Hl). }
  destruct (intent_index st !! oi_intent_id intent) as [r|] eqn:Ei.
  { right. apply (ol_intents _ _ _ Hl) in Ei as (e & He & Hk & _). apply (Hknown _ He). left. by rewrite <-Hk. }
  destruct (decision_index st !! rd_decision_id (result_decision result)) as [r|] eqn:Ed.
  { right. apply (ol_decisions _ _ _ Hl) in Ed as (e & He & Hk & _). apply (Hknown _ He). right. left. by rewrite <-Hk. }
  unfold _classify_replay, _materialize_submitted_input. cbn [sb_approval sb_intent sb_decision]. rewrite Ei, Ed.
  destruct (rd_approval (result_decision result)) as [a|] eqn:Ea; cbn [mbind option_bind]; [|by left].
  destruct (approval_index st !! ap_approval_id a) as [r|] eqn:Eap; [|by left]. exfalso.
  apply (ol_approvals _ _ _ Hl) in Eap as (e & He & Hk & _). destruct (entry_approval _ _ _ Hl He) as (b & Hb & Hkb).
  destruct (Hknown _ He) as (o & Hin & Hc).
  { right. right. exists b, a. split_and!; [done|done|congruence]. }
  pose proof (indexes_lookup _ _ _ _ _ (ol_intents _ _ _ Hl) Hin) as Hi. unfold key_intent in Hi. cbn in Hi. by rewrite Ei in Hi.
Qed.

(** ** Resolution *)

Lemma resolved_by_id st l i o : order_log context st l -> resolve_issued_order_by_id st i = Some o ->
  exists e, e ∈ l /\ key_order e = i /\ e.2 = o.
Proof.
  intros Hl H. apply fmap_Some in H as (r & Hr & ->). apply (ol_ids _ _ _ Hl) in Hr as (e & He & Hk & <-). by exists e.
Qed.
Lemma resolved_by_key st l k o : order_log context st l -> resolve_issued_order_by_client_submission_key st k = Some o ->
  exists e, e ∈ l /\ key_client e = k /\ e.2 = o.
Proof.
  intros Hl H. apply fmap_Some in H as (r & Hr & ->). apply (ol_client _ _ _ Hl) in Hr as (e & He & Hk & <-). by exists e.
Qed.
End Reach.
