(* ===== verification/RiskReach.v ===== *)
(** The risk authority: its reachable states with their log, and its replays. *)

From S2P Require Import Prelude PyRegex PyText Outcomes Json Identity Numbering Indexing Economics Commission.
From S2P Require Import Execution Messages Orders Decoders Portfolio Risk RiskAuthority Canonical OrderCodec.
From S2P Require Import RiskSpec.

Open Scope Z_scope.

(** *** The invariant of the risk authority: its lists and its replay index are read off one
    log of evaluations, its identities are numbered, and every decision was made by the
    factories within the policy.  It holds in every reachable state. *)

(** ** What an established authority is bound to *)

Section Invariant.
Context `{hash : Sha256} (context : RiskAuthorityContext).

Definition limit_fits (l : InstrumentRiskLimit) : Prop :=
  0 < units (maximum_order_quantity l) /\ 0 < units (maximum_absolute_position l) /\
  exists s, require_spec (ra_spec_set context) (limit_instrument l) = Ok s /\
    on_grid (maximum_order_quantity l) (quantity_quantum s) /\
    on_grid (maximum_absolute_position l) (quantity_quantum s).

Record bound : Prop := {
  bd_specs : spec_set_ok (ra_spec_set context);
  bd_sha256 : ra_spec_set_sha256 context = instrument_spec_set_digest (ra_spec_set context);
  bd_index i s : spec_by_instrument context !! i = Some s <-> require_spec (ra_spec_set context) i = Ok s;
  bd_limits i l : limit_by_instrument context !! i = Some l -> limit_instrument l = i /\ limit_fits l;
  bd_member l : limit_by_instrument context !! limit_instrument l = Some l <-> l ∈ instrument_limits (ra_policy context)
}.

Lemma catch_economic_Ok {A} (m : res A) h a : (forall c, exists e, h c = Raise e) ->
  catch_economic m h = Ok a -> m = Ok a.
Proof.
  intros Hh. destruct m as [x|e]; [done|]. cbn [catch_economic]. destruct e; try done.
  destruct (Hh code) as [e ->]. done.
Qed.
Lemma translating_Ok {A} (m : res A) a : translating m = Ok a -> m = Ok a.
Proof. apply catch_economic_Ok. by eexists. Qed.

Lemma limits_quantized specs l : spec_set_ok specs -> require_limits_quantized specs l = Ok tt ->
  forall x, x ∈ l -> exists s, require_spec specs (limit_instrument x) = Ok s /\
    on_grid (maximum_order_quantity x) (quantity_quantum s) /\
    on_grid (maximum_absolute_position x) (quantity_quantum s).
Proof.
  intros Hs. induction l as [|y l IH]; intros H x Hin; [by apply not_elem_of_nil in Hin|].
  cbn [require_limits_quantized] in H. apply rbind_Ok in H as ([] & Hy & H).
  apply elem_of_cons in Hin as [->|Hin]; [|by apply IH]. clear IH H. unfold require_limit_quantized in Hy.
  apply translating_Ok in Hy. apply rbind_Ok in Hy as (s & Hsp & Hy).
  assert (0 < units (quantity_quantum s)) as Hq.
  { destruct Hs as (Hok & Hnd & _). apply (find_spec_spec _ _ _ Hnd) in Hsp as [Hin _].
    rewrite Forall_forall in Hok. by apply Hok in Hin as (_ & ? & _). }
  apply rbind_Ok in Hy as (? & H1 & Hy). apply rbind_Ok in Hy as (? & H2 & _). exists s. split; [done|].
  destruct (require_quantized_ok (maximum_order_quantity y) _ Hq) as [[_ ?]|[E _]]; [|by rewrite E in H1].
  by destruct (require_quantized_ok (maximum_absolute_position y) _ Hq) as [[_ ?]|[E _]]; [|rewrite E in H2].
Qed.
Lemma limit_made_positive l : limit_made l ->
  0 < units (maximum_order_quantity l) /\ 0 < units (maximum_absolute_position l).
Proof.
  unfold limit_made, InstrumentRiskLimit_init. intros H. apply rbind_Ok in H as (? & H%translating_Ok & _).
  rewrite !require_positive_spec in H. destruct (Z.ltb_spec 0 (units (maximum_order_quantity l))); [|done].
  cbn [rbind] in H. by destruct (Z.ltb_spec 0 (units (maximum_absolute_position l))).
Qed.

Lemma established_bound st : established context st -> bound.
Proof.
  intros (run & specs & exec & i & limits & policy & Hs & Hl & Hp & Hc).
  unfold create_phase1_risk_policy in Hp. destruct (negb (no_duplicates _)) eqn:Hdup; [done|].
  apply rbind_Ok in Hp as ([] & Hq & Hp). apply Ok_inj in Hp.
  unfold create_phase1_risk_authority in Hc. destruct (_ || _); [done|].
  apply rbind_Ok in Hc as (quanta & _ & Hc). apply rbind_Ok in Hc as (initial & _ & Hc). apply Ok_inj in Hc.
  injection Hc as <- <-. pose proof Hs as (Hok & Hnd & _).
  assert (instrument_limits policy = py_sorted limit_key limits) as Hpl by by subst policy.
  assert (forall l, l ∈ instrument_limits policy <-> l ∈ limits) as Hin.
  { intros l. rewrite Hpl. apply elem_of_py_sorted. }
  assert (NoDup (map limit_instrument (instrument_limits policy))) as Hndl.
  { rewrite Hpl. apply negb_false_iff, bool_decide_eq_true in Hdup.
    eapply (NoDup_fmap_1 instrument_key). change (NoDup (map instrument_key (map limit_instrument (py_sorted limit_key limits)))).
    rewrite map_map. change (NoDup (limit_key <$> py_sorted limit_key limits)). by rewrite py_sorted_perm. }
  split; unfold limit_fits; rewrite <-H; cbn; [done|done| | |]; clear H.
  - intros j s. unfold require_spec. rewrite (find_spec_spec _ _ _ Hnd). split.
    + apply index_by_Some.
    + intros [Hm <-]. by apply (index_by_member spec_instrument).
  - intros j l H. apply index_by_Some in H as [Hm <-]. split; [done|].
    pose proof Hm as Hm'. rewrite Hin in Hm'. rewrite Forall_forall in Hl. specialize (Hl _ Hm').
    apply limit_made_positive in Hl as []. split_and!; [done|done|]. rewrite Hpl in Hm.
    by apply (limits_quantized _ _ Hs Hq).
  - intros l. split; [by intros [? _]%index_by_Some|]. by apply (index_by_member limit_instrument).
Qed.

(** ** The log *)

Definition entry : Type := OrderIntent * PortfolioSnapshot * _ReplayRecord.
Definition entry_intent (e : entry) : OrderIntent := e.1.1.
Definition entry_snapshot (e : entry) : PortfolioSnapshot := e.1.2.
Definition entry_decision (e : entry) : RiskDecision := rp_decision e.2.

(** A quantity approved for an intent on a portfolio snapshot respects the limits of the
    intent's instrument. *)
Definition within_limits (intent : OrderIntent) (snapshot : PortfolioSnapshot) (q : CanonicalDecimal) : Prop :=
  exists l, limit_by_instrument context !! oi_instrument intent = Some l /\
    approves_within (limit_units l) (units (_position_for snapshot (oi_instrument intent))) (oi_side intent)
      (units (oi_quantity intent)) (units q).

(** The policy's verdict on an intent. *)
Definition policy_of (intent : OrderIntent) (snapshot : PortfolioSnapshot) : verdict :=
  policy_verdict (limit_units <$> limit_by_instrument context !! oi_instrument intent)
    (units (_position_for snapshot (oi_instrument intent))) (oi_side intent) (units (oi_quantity intent)).

Record issued (e : entry) : Prop := {
  is_record : e.2 = record_of (entry_intent e) (entry_snapshot e) (entry_decision e) (rp_evidence e.2);
  is_decision : exists kind i version aid q,
    _create_risk_decision kind i (entry_intent e) (ra_spec_set context) version aid q = Ok (entry_decision e) /\
    (kind = ALLOW -> q = Some (oi_quantity (entry_intent e))) /\ (version = 0 \/ version = 1);
  is_evidence : let p := rp_evidence e.2 in
    _create_risk_evaluation_evidence (entry_decision e) (order_intent_digest (entry_intent e))
      (snapshot_version (entry_snapshot e)) (portfolio_snapshot_digest (entry_snapshot e)) (ra_policy context)
      (rd_risk_state_version (entry_decision e)) (reason_code p) (decision_next_before p) (decision_next_after p)
      (approval_next_before p) (approval_next_after p) = Ok p;
  is_structural : is_ok (_require_structural_intent context (entry_intent e)) = true;
  is_approved q : rd_approved_quantity (entry_decision e) = Some q ->
    _classify_lineage_failure context (entry_intent e) (entry_snapshot e) = Ok None /\
    rd_risk_state_version (entry_decision e) = 0 /\
    within_limits (entry_intent e) (entry_snapshot e) q /\
    policy_of (entry_intent e) (entry_snapshot e)
    = (rd_kind (entry_decision e), reason_code (rp_evidence e.2), Some (units q))
}.

Definition approvals_of (ds : list RiskDecision) : list EconomicId := ap_approval_id <$> omap rd_approval ds.

Record log_ok (st : _AuthorityState) (l : list entry) : Prop := {
  lg_decisions : decisions st = map entry_decision l;
  lg_evidence : evidence st = map (fun e => rp_evidence e.2) l;
  lg_results : results st = map (fun e => rp_result e.2) l;
  lg_intents : NoDup (map (fun e => oi_intent_id (entry_intent e)) l);
  lg_index k r : replay_index st !! k = Some r <-> exists e, e ∈ l /\ oi_intent_id (entry_intent e) = k /\ e.2 = r;
  lg_issued : Forall issued l;
  lg_decision_ids : numbered (ra_run_id context) RISK_DECISION (map rd_decision_id (decisions st)) (decision_next st);
  lg_approval_ids : numbered (ra_run_id context) RISK_APPROVAL (approvals_of (decisions st)) (approval_next st);
  lg_version : rs_version (risk_state st) = if halted (risk_state st) then 1 else 0
}.

(** ** A new decision keeps the invariant *)

Lemma structural_intent intent : bound -> is_ok (_require_structural_intent context intent) = true ->
  exists s, require_spec (ra_spec_set context) (oi_instrument intent) = Ok s /\ spec_ok s /\
    oi_run_id intent = ra_run_id context /\
    oi_spec_set_id intent = spec_set_identifier (ra_spec_set context) /\
    oi_spec_set_sha256 intent = instrument_spec_set_digest (ra_spec_set context) /\
    oi_specification_id intent = specification_id s /\
    0 < units (oi_quantity intent) /\ on_grid (oi_quantity intent) (quantity_quantum s).
Proof.
  intros Hb H. unfold _require_structural_intent in H.
  destruct (bool_decide_reflect (oi_run_id intent = ra_run_id context)) as [Hr|]; [|done]. cbn [negb] in H.
  destruct (bool_decide_reflect (oi_spec_set_id intent = spec_set_identifier (ra_spec_set context))) as [Hi|]; [|done].
  destruct (bool_decide_reflect (oi_spec_set_sha256 intent = ra_spec_set_sha256 context)) as [Hd|]; [|done].
  cbn [negb orb] in H. destruct (spec_by_instrument context !! oi_instrument intent) as [s|] eqn:Hs; [|done].
  destruct (bool_decide_reflect (oi_specification_id intent = specification_id s)) as [Hp|]; [|done]. cbn [negb] in H.
  apply (bd_index Hb) in Hs. rewrite (bd_sha256 Hb) in Hd.
  assert (spec_ok s) as Hok.
  { destruct (bd_specs Hb) as (Hok & Hnd & _). apply (find_spec_spec _ _ _ Hnd) in Hs as [Hin _].
    rewrite Forall_forall in Hok. by apply Hok. }
  exists s. rewrite require_positive_spec in H. destruct (Z.ltb_spec 0 (units (oi_quantity intent))) as [Hq|]; [|done].
  cbn [rbind] in H. destruct Hok as (Hok1 & Hok2 & Hok3).
  destruct (require_quantized_ok (oi_quantity intent) _ Hok2) as [[_ Hg]|[E _]]; [by split_and!|].
  rewrite E in H. done.
Qed.

Lemma verdict_on_facts st intent snapshot k r q : bound -> 0 < units (oi_quantity intent) ->
  verdict_on context st intent snapshot = Ok (k, r, q) ->
  executable_kind k = negb (absent q) /\ r ∈ _REASONS_BY_KIND k /\
  (k = ALLOW -> q = Some (oi_quantity intent)) /\ (k = RESIZE -> q <> Some (oi_quantity intent)) /\
  forall x, q = Some x -> _classify_lineage_failure context intent snapshot = Ok None /\
    halted (risk_state st) = false /\ within_limits intent snapshot x /\
    policy_of intent snapshot = (k, r, Some (units x)).
Proof.
  intros Hb Hq H. unfold verdict_on in H. apply rbind_Ok in H as ([f|] & Hf & H).
  { injection H as <- <- <-. split_and!; try done. unfold _classify_lineage_failure in Hf.
    repeat (destruct (_ : bool) in Hf; [injection Hf as <-; by repeat constructor|]).
    apply rbind_Ok in Hf as (b & _ & Hf). destruct b; [done|]. injection Hf as <-. by repeat constructor. }
  destruct (halted (risk_state st)).
  { injection H as <- <- <-. split_and!; try done. by repeat constructor. }
  destruct (size_intent_policy (limit_by_instrument context !! oi_instrument intent) snapshot intent) as (v & Hv & Hu).
  rewrite H in Hv. injection Hv as <-. unfold verdict_units in Hu. cbn [fst snd] in Hu. symmetry in Hu.
  destruct (policy_verdict_executable _ _ _ _ _ _ _ Hu) as (H1 & H2 & H3 & H4). split_and!.
  - rewrite H1. by destruct q.
  - done.
  - intros ->. specialize (H3 eq_refl). destruct q as [q|]; [|done]. injection H3 as H3. f_equal. by apply units_inj.
  - intros -> ->. by apply H4.
  - intros x ->. split_and!; [done|done| |exact Hu].
    edestruct policy_verdict_within as (lim & Hl & Hw); [exact Hq| |exact Hu|].
    + intros lim Hl. destruct (limit_by_instrument context !! _) as [l|] eqn:El; [|done]. injection Hl as <-.
      by apply (bd_limits Hb) in El as [_ (? & _)].
    + destruct (limit_by_instrument context !! _) as [l|] eqn:El; [|done]. injection Hl as <-. by exists l.
Qed.

(** The approval allocated, or the failure a spent sequence turns the verdict into. *)
Inductive allocation (st : _AuthorityState) (k : RiskDecisionKind) (r : RiskReasonCode)
  (q : option CanonicalDecimal) : _Allocation -> Prop :=
| allocation_spent : executable_kind k = true -> approval_next st = None ->
    allocation st k r q (mkAllocation EVALUATION_FAILED APPROVAL_SEQUENCE_EXHAUSTED None None None)
| allocation_numbered n : executable_kind k = true -> approval_next st = Some n ->
    allocation st k r q (mkAllocation k r q (Some (mkEconomicId (ra_run_id context) RISK_APPROVAL n))
                           (if n =? MAX_UINT64 then None else Some (n + 1)))
| allocation_none : executable_kind k = false ->
    allocation st k r q (mkAllocation k r q None (approval_next st)).

Lemma allocated st k r q a : allocate_approval context st k r q = Ok a -> allocation st k r q a.
Proof.
  unfold allocate_approval. destruct (executable_kind k) eqn:Hk.
  - destruct (approval_next st) as [n|] eqn:Hn; intros H.
    + apply rbind_Ok in H as (after & Ha & H). apply advance_next in Ha as [_ ->].
      apply rbind_Ok in H as (i & ->%economic_id_value & H). apply Ok_inj in H. subst a. by constructor.
    + apply Ok_inj in H. subst a. by constructor.
  - intros H. apply Ok_inj in H. subst a. by constructor.
Qed.

Lemma decided st intent i k r q a d : allocation st k r q a -> executable_kind k = negb (absent q) ->
  (k = ALLOW -> q = Some (oi_quantity intent)) ->
  decide_intent context st intent i a = Ok d ->
  _create_risk_decision (al_kind a) i intent (ra_spec_set context) (rs_version (risk_state st))
    (al_approval_id a) (al_quantity a) = Ok d /\
  (al_kind a = ALLOW -> al_quantity a = Some (oi_quantity intent)).
Proof.
  intros Ha Hk Hq H. unfold decide_intent in H. destruct Ha as [_ _|n He Hn|He]; cbn in *.
  - by split.
  - split; [|done]. destruct k; try done.
    + by rewrite (Hq eq_refl).
    + destruct q as [q|]; [|done]. done.
  - rewrite He in Hk. destruct q as [q|]; [done|]. split; [|done]. by destruct k.
Qed.

Lemma evidence_fields d i_sha v p_sha policy rv reason b1 a1 b2 a2 p :
  _create_risk_evaluation_evidence d i_sha v p_sha policy rv reason b1 a1 b2 a2 = Ok p ->
  reason_code p = reason /\ decision_next_before p = b1 /\ decision_next_after p = a1 /\
  approval_next_before p = b2 /\ approval_next_after p = a2 /\ rd_risk_state_version d = rv.
Proof.
  unfold _create_risk_evaluation_evidence. intros H. destruct (_ <? 0) in H; [done|]. destruct (_ <? 0) in H; [done|].
  destruct (Z.eqb_spec (rd_risk_state_version d) rv) in H; [|done]. cbn [negb] in H. destruct (negb _) in H; [done|].
  apply rbind_Ok in H as (? & _ & H). apply rbind_Ok in H as (? & _ & H). destruct (negb _) in H; [done|].
  apply rbind_Ok in H as (? & _ & H). apply Ok_inj in H. by subst p.
Qed.

(** What evidence binds its decision to. *)
Lemma evidence_inputs d i_sha v p_sha policy rv reason b1 a1 b2 a2 p :
  _create_risk_evaluation_evidence d i_sha v p_sha policy rv reason b1 a1 b2 a2 = Ok p ->
  re_intent_sha256 p = i_sha /\ re_portfolio_snapshot_sha256 p = p_sha /\ re_portfolio_snapshot_version p = v /\
  re_policy_id p = policy_id policy /\ re_policy_sha256 p = phase1_risk_policy_digest policy /\
  reason ∈ _REASONS_BY_KIND (rd_kind d).
Proof.
  unfold _create_risk_evaluation_evidence. intros H. do 4 (destruct (_ : bool) in H; [done|]).
  apply rbind_Ok in H as (? & _ & H). apply rbind_Ok in H as (? & _ & H).
  destruct (bool_decide_reflect (reason ∈ _REASONS_BY_KIND (rd_kind d))); [|done]. cbn [negb] in H.
  apply rbind_Ok in H as (? & _ & H). apply Ok_inj in H. by subst p.
Qed.
Lemma same_version intent snapshot : _classify_lineage_failure context intent snapshot = Ok None ->
  snapshot_version snapshot = oi_portfolio_snapshot_version intent.
Proof.
  unfold _classify_lineage_failure. do 3 (destruct (_ : bool); [done|]).
  destruct (Z.ltb_spec (snapshot_version snapshot) (oi_portfolio_snapshot_version intent)); [done|].
  destruct (Z.ltb_spec (oi_portfolio_snapshot_version intent) (snapshot_version snapshot)); [done|]. lia.
Qed.

Lemma created_approval kind i intent ss v aid q d : _create_risk_decision kind i intent ss v aid q = Ok d ->
  ap_approval_id <$> rd_approval d = aid.
Proof.
  intros H. destruct (created_decision_fields _ _ _ _ _ _ _ _ H) as (_ & _ & _ & _ & _ & _ & _ & _ & _ & _ & _ & _ & Hk).
  destruct (executable kind).
  - destruct Hk as (a & x & -> & _ & _ & -> & _). done.
  - by destruct Hk as (-> & _ & -> & _).
Qed.

Lemma approvals_snoc ds d : approvals_of (ds ++ [d]) =
  approvals_of ds ++ option_list (ap_approval_id <$> rd_approval d).
Proof. unfold approvals_of. rewrite omap_app, fmap_app. f_equal. cbn. by destruct (rd_approval d). Qed.

Lemma registered_issued st intent snapshot result st' : bound ->
  rs_version (risk_state st) = (if halted (risk_state st) then 1 else 0) ->
  registered context st intent snapshot result st' ->
  exists e before a, issued e /\ entry_intent e = intent /\ entry_snapshot e = snapshot /\ rp_result e.2 = result /\
    decision_next st = Some before /\ 1 <= before <= MAX_UINT64 /\
    rd_decision_id (entry_decision e) = mkEconomicId (ra_run_id context) RISK_DECISION before /\
    (exists k r q, allocation st k r q a) /\ ap_approval_id <$> rd_approval (entry_decision e) = al_approval_id a /\
    st' = registered_state st intent (if before =? MAX_UINT64 then None else Some (before + 1))
            (al_approval_after a) e.2.
Proof.
  intros Hb Hver [s before after [[k r] q] a d p Hi Hs Hn Ha Hv Hal Hd Hp].
  apply advance_next in Ha as [Hrange ->]. apply allocated in Hal. cbn [fst snd] in Hal.
  assert (is_ok (_require_structural_intent context intent) = true) as Hst by by rewrite Hs.
  destruct (structural_intent _ Hb Hst) as (_ & _ & _ & _ & _ & _ & _ & Hq & _).
  destruct (verdict_on_facts _ _ _ _ _ _ Hb Hq Hv) as (H1 & H2 & H3 & H4 & H5).
  destruct (decided _ _ _ _ _ _ _ _ Hal H1 H3 Hd) as [Hc Hallow].
  destruct (created_decision_fields _ _ _ _ _ _ _ _ Hc) as
    (Hkd & Hid & _ & _ & _ & _ & Hrv & _ & _ & _ & Haq & _ & _).
  exists (intent, snapshot, record_of intent snapshot d p), before, a.
  assert (entry_decision (intent, snapshot, record_of intent snapshot d p) = d) as Ed by done.
  destruct (evidence_fields _ _ _ _ _ _ _ _ _ _ _ _ Hp) as (E1 & E2 & E3 & E4 & E5 & E6).
  split_and!; try done; try apply Hrange; [|by eauto|by eapply created_approval].
  split; rewrite ?Ed; cbn [fst snd record_of rp_evidence]; try done.
  - exists (al_kind a), (mkEconomicId (ra_run_id context) RISK_DECISION before), (rs_version (risk_state st)),
      (al_approval_id a), (al_quantity a). split_and!; [done|done|].
    rewrite Hver. destruct (halted _); auto.
  - cbv zeta. by rewrite E1, E2, E3, E4, E5, E6.
  - intros x Hx. rewrite Haq in Hx. assert (q = Some x) as Hqx.
    { destruct Hal as [| |]; cbn in Hx; congruence. }
    destruct (H5 _ Hqx) as (? & Hh & ? & Hpol). split_and!; [done| |done|]; [by rewrite Hrv, Hver, Hh|].
    rewrite Hkd, E1. by destruct Hal.
Qed.

Lemma registered_log st l intent snapshot result st' : bound -> log_ok st l ->
  replay_index st !! oi_intent_id intent = None ->
  registered context st intent snapshot result st' ->
  exists e, entry_intent e = intent /\ entry_snapshot e = snapshot /\ rp_result e.2 = result /\ log_ok st' (l ++ [e]).
Proof.
  intros Hb Hl Hi Hr. destruct Hl as [L1 L2 L3 L4 L5 L6 L7 L8 L9].
  destruct (registered_issued _ _ _ _ _ Hb L9 Hr) as
    (e & before & a & He & Ei & Es & Er & Hn & Hrange & Hid & (k & r & q & Ha) & Hap & ->).
  exists e. split_and!; try done. unfold registered_state.
  split; cbn [decisions evidence results replay_index risk_state decision_next approval_next].
  - by rewrite L1, map_app.
  - by rewrite L2, map_app.
  - by rewrite L3, map_app.
  - rewrite map_app. apply NoDup_app. split_and!; [done| |apply NoDup_singleton].
    intros x Hx Hx'. apply list_elem_of_singleton in Hx' as ->. cbn in Hx.
    apply list_elem_of_In, in_map_iff in Hx as (e' & Heq & He'%list_elem_of_In). rewrite Ei in Heq.
    assert (is_Some (replay_index st !! oi_intent_id intent)) as [? Hs]; [|by rewrite Hi in Hs].
    exists e'.2. apply L5. eauto.
  - intros x y. rewrite lookup_insert_Some. split.
    + intros [[<- <-]|[Hne (e' & Hin & Hk & Hy)%L5]].
      * exists e. rewrite elem_of_app, list_elem_of_singleton, Ei. auto.
      * exists e'. rewrite elem_of_app. auto.
    + intros (e' & [Hin|Hin%list_elem_of_singleton]%elem_of_app & Hk & Hy).
      * right. split; [|apply L5; eauto]. intros Heq.
        assert (is_Some (replay_index st !! oi_intent_id intent)) as [? Hs]; [|by rewrite Hi in Hs].
        exists e'.2. apply L5. exists e'. split_and!; [done|congruence|done].
      * subst e'. left. by rewrite <-Hk, Ei.
  - apply Forall_app. split; [done|]. by constructor.
  - rewrite map_app. cbn [map]. change (rp_decision e.2) with (entry_decision e). rewrite Hid.
    apply numbered_snoc. by rewrite <-Hn.
  - change (rp_decision e.2) with (entry_decision e). rewrite approvals_snoc, Hap.
    destruct Ha as [_ Hs|n _ Hs|_]; cbn [al_approval_id al_approval_after option_list fmap option_fmap option_map].
    + rewrite app_nil_r, <-Hs. done.
    + apply numbered_snoc. by rewrite <-Hs.
    + by rewrite app_nil_r.
  - done.
Qed.

Lemma with_risk_state_log st l s : log_ok st l -> rs_version s = (if halted s then 1 else 0) ->
  log_ok (with_risk_state st s) l.
Proof. intros [L1 L2 L3 L4 L5 L6 L7 L8 L9] Hs. by split. Qed.

Lemma established_log st : established context st -> log_ok st [].
Proof.
  intros (run & specs & exec & i & limits & policy & _ & _ & _ & Hc).
  unfold create_phase1_risk_authority in Hc. destruct (_ || _); [done|].
  apply rbind_Ok in Hc as (quanta & _ & Hc). apply rbind_Ok in Hc as (initial & Hi & Hc). apply Ok_inj in Hc.
  unfold _create_risk_state_snapshot in Hi. cbn in Hi. apply Ok_inj in Hi. subst initial.
  injection Hc as _ <-. split; cbn; try done; try apply NoDup_nil_2; try apply numbered_nil.
  intros k r. split; [by rewrite lookup_empty|]. intros (? & H & _). by apply not_elem_of_nil in H.
Qed.

(** Every reachable state has a log. *)
Lemma reachable_log st : reachable context st -> bound /\ exists l, log_ok st l.
Proof.
  intros Hr. assert (bound) as Hb by (destruct Hr as (st0 & ? & He & _); by eapply established_bound).
  split; [done|]. revert st Hr. apply risk_reachable_ind.
  - intros st He. exists []. by apply established_log.
  - intros st intent snapshot m st' [l Hl] [r Hi Hbytes|r Hi Hbytes|result st1 Hreg|e _].
    + by exists l.
    + destruct (halted _); exists l; [done|]. by apply with_risk_state_log.
    + assert (replay_index st !! oi_intent_id intent = None) as Hi by by destruct Hreg.
      destruct (registered_log _ _ _ _ _ _ Hb Hl Hi Hreg) as (e & _ & _ & _ & H). by eexists.
    + by exists l.
  - intros st s [l Hl] _ Hh Hv. exists l. apply with_risk_state_log; [done|]. by rewrite Hh.
Qed.
End Invariant.

(** *** Replay and membership in the risk authority: what is recorded stays recorded, a decided
    intent is recorded with its result, and a recorded result is one the authority made. *)

Section Replay.
Context `{hash : Sha256} (context : RiskAuthorityContext).

(** A result of the log and its entry. *)
Lemma result_entry st l r : log_ok context st l -> r ∈ results st ->
  exists e, e ∈ l /\ issued context e /\ r = mkRiskResult (entry_decision e) (rp_evidence e.2).
Proof.
  intros Hl Hr. rewrite (lg_results _ _ _ Hl) in Hr. apply list_elem_of_In, in_map_iff in Hr as (e & <- & He%list_elem_of_In).
  pose proof (lg_issued _ _ _ Hl) as Hi. rewrite Forall_forall in Hi. specialize (Hi _ He).
  exists e. split_and!; try done. by rewrite (is_record _ _ Hi) at 1.
Qed.

Lemma replay_kept_evaluation st intent snapshot m st' k x : evaluation context st intent snapshot m st' ->
  replay_index st !! k = Some x -> replay_index st' !! k = Some x.
Proof.
  intros [r Hi Hbytes|r Hi Hbytes|result st1 Hreg|e _] Hk; try done; [by destruct (halted _)|].
  destruct Hreg as [s before after v a d p Hi]. cbn. rewrite lookup_insert_ne; [done|]. intros <-. by rewrite Hi in Hk.
Qed.
Lemma replay_kept st ops k x : replay_index st !! k = Some x -> replay_index (operate context st ops) !! k = Some x.
Proof.
  intros Hk. induction ops as [|op ops IH] using rev_ind; [done|]. rewrite operate_snoc. revert IH.
  generalize (operate context st ops) as mid. intros mid IH. destruct op as [intent snapshot|reason at_ n]; cbn [perform].
  - destruct (evaluate _ _ _ _) as [m st'] eqn:E. apply evaluate_evaluation in E. by eapply replay_kept_evaluation.
  - destruct (engage_halt _ _ _ _ _) as [[s st']|e] eqn:E; [|done].
    apply engage_halt_state in E as (-> & _). by destruct (halted _).
Qed.

(** A decided intent is recorded with its bytes and its result. *)
Lemma decided_recorded st intent snapshot r st' : evaluate context st intent snapshot = (Ok r, st') ->
  exists x, replay_index st' !! oi_intent_id intent = Some x /\
    rp_intent_bytes x = canonical_order_intent_bytes intent /\ rp_result x = r.
Proof.
  intros H. apply evaluate_evaluation in H. remember (Ok r) as m eqn:Em.
  destruct H as [x Hi Hbytes|x Hi Hbytes|result st1 Hreg|e _]; [|done| |done]; injection Em as <-.
  - by exists x.
  - destruct Hreg as [s before after v a d p Hi]. eexists. split; [apply lookup_insert_eq|]. done.
Qed.

(** The bytes recorded for a decided intent are those of its result. *)
Lemma recorded_bytes st k x : reachable context st -> replay_index st !! k = Some x ->
  exists intent snapshot, oi_intent_id intent = k /\
    issued context (intent, snapshot, x) /\ rp_result x ∈ results st /\
    x = record_of intent snapshot (result_decision (rp_result x)) (result_evidence (rp_result x)).
Proof.
  intros Hst Hx. destruct (reachable_log _ _ Hst) as (_ & l & Hl).
  destruct (proj1 (lg_index context st l Hl k x) Hx) as (e & He & Hid & Hex). subst x.
  pose proof (lg_issued _ _ _ Hl) as Hi. rewrite Forall_forall in Hi. specialize (Hi _ He).
  exists (entry_intent e), (entry_snapshot e). split_and!; [done|by destruct e as [[? ?] ?]| |].
  - rewrite (lg_results _ _ _ Hl). apply list_elem_of_In, in_map_iff. exists e. split; [done|by apply list_elem_of_In].
  - pose proof (is_record _ _ Hi) as Hrec. rewrite Hrec. reflexivity.
Qed.

Lemma reachable_evaluate st intent snapshot m st' : reachable context st ->
  evaluate context st intent snapshot = (m, st') -> reachable context st'.
Proof.
  intros (st0 & ops & He & ->) Hev. exists st0, (ops ++ [Evaluate intent snapshot]). split; [done|].
  rewrite operate_snoc. cbn [perform]. by rewrite Hev.
Qed.

(** The membership query on an intent and a result. *)
Definition issued_by (st : _AuthorityState) (intent : OrderIntent) (r : RiskEvaluationResult) : bool :=
  has_issued_result st (oi_intent_id intent) (canonical_order_intent_bytes intent)
    (canonical_risk_decision_bytes (result_decision r)) (canonical_risk_evaluation_evidence_bytes (result_evidence r)).

Lemma membership_entry st l intent r : log_ok context st l -> issued_by st intent r = true ->
  exists e, e ∈ l /\ issued context e /\ entry_intent e = intent /\
    r = mkRiskResult (entry_decision e) (rp_evidence e.2).
Proof.
  intros Hl. unfold issued_by, has_issued_result.
  destruct (replay_index st !! oi_intent_id intent) as [x|] eqn:Hx; [|done].
  rewrite !andb_true_iff, !bool_decide_eq_true. intros [[H1 H2] H3].
  destruct (proj1 (lg_index context st l Hl _ x) Hx) as (e & He & _ & Hex). subst x.
  pose proof (lg_issued _ _ _ Hl) as Hi. rewrite Forall_forall in Hi. specialize (Hi _ He).
  exists e. split_and!; try done; rewrite (is_record _ _ Hi) in H1, H2, H3; cbn in H1, H2, H3.
  - by apply (canonical_bytes_inj _order_intent_document) in H1.
  - apply (canonical_bytes_inj _risk_decision_document) in H2.
    apply (canonical_bytes_inj risk_evidence_document) in H3. destruct r. cbn in *. by subst.
Qed.

(** Entries that share an intent, a decision or an approval are the same. *)
Lemma entry_unique st l e e' : log_ok context st l -> e ∈ l -> e' ∈ l ->
  oi_intent_id (entry_intent e') = oi_intent_id (entry_intent e) \/
  rd_decision_id (entry_decision e') = rd_decision_id (entry_decision e) \/
  (exists a a', rd_approval (entry_decision e) = Some a /\ rd_approval (entry_decision e') = Some a' /\
     ap_approval_id a' = ap_approval_id a) -> e' = e.
Proof.
  intros Hl He He' [Hi|[Hd|(a & a' & Ha & Ha' & Hk)]].
  - by apply (NoDup_map_eq (fun e => oi_intent_id (entry_intent e)) l); [apply (lg_intents _ _ _ Hl)| | |].
  - apply (NoDup_map_eq (fun e => rd_decision_id (entry_decision e)) l); [|done..].
    pose proof (numbered_NoDup _ _ _ _ (lg_decision_ids _ _ _ Hl)) as Hnd.
    by rewrite (lg_decisions _ _ _ Hl), map_map in Hnd.
  - pose proof (numbered_NoDup _ _ _ _ (lg_approval_ids _ _ _ Hl)) as Hnd. unfold approvals_of in Hnd.
    rewrite (lg_decisions _ _ _ Hl) in Hnd. rewrite omap_map in Hnd.
    by apply (NoDup_omap_eq ap_approval_id (fun e => rd_approval (entry_decision e)) l e' e a' a).
Qed.

(** A result the membership query accepts is a result of the log, for that very intent. *)
Lemma membership_sound st intent r : reachable context st -> issued_by st intent r = true ->
  r ∈ results st /\ exists snapshot,
    issued context (intent, snapshot, record_of intent snapshot (result_decision r) (result_evidence r)).
Proof.
  intros Hst. unfold issued_by, has_issued_result. destruct (replay_index st !! oi_intent_id intent) as [x|] eqn:Hx; [|done].
  rewrite !andb_true_iff, !bool_decide_eq_true. intros [[H1 H2] H3].
  destruct (recorded_bytes _ _ _ Hst Hx) as (i & snapshot & _ & His & Hin & Hrec).
  rewrite Hrec in H1, H2, H3. cbn in H1, H2, H3.
  apply (canonical_bytes_inj _order_intent_document) in H1. apply (canonical_bytes_inj _risk_decision_document) in H2.
  apply (canonical_bytes_inj risk_evidence_document) in H3. subst i.
  assert (rp_result x = r) as Hr by (destruct r, (rp_result x); cbn in *; congruence).
  split; [by rewrite <-Hr|]. exists snapshot. by rewrite <-H2, <-H3, <-Hrec.
Qed.
(** It accepts every result an evaluation returned, for ever after. *)
Lemma membership_complete st intent snapshot r st1 ops : reachable context st ->
  evaluate context st intent snapshot = (Ok r, st1) -> issued_by (operate context st1 ops) intent r = true.
Proof.
  intros Hst He. unfold issued_by, has_issued_result.
  destruct (decided_recorded _ _ _ _ _ He) as (x & Hx & Hb & Hr).
  pose proof (reachable_evaluate _ _ _ _ _ Hst He) as Hst1.
  destruct (recorded_bytes _ _ _ Hst1 Hx) as (i & snapshot' & _ & _ & _ & Hrec).
  rewrite (replay_kept _ ops _ _ Hx), Hb. rewrite Hr in Hrec. rewrite Hrec. cbn.
  by rewrite !bool_decide_eq_true_2.
Qed.
Lemma membership_kept st ops intent r : issued_by st intent r = true -> issued_by (operate context st ops) intent r = true.
Proof.
  unfold issued_by, has_issued_result. destruct (replay_index st !! oi_intent_id intent) as [x|] eqn:Hx; [|done].
  by rewrite (replay_kept _ ops _ _ Hx).
Qed.
End Replay.

(** *** Progress of the risk authority: a structurally valid new intent is always decided, and
    the decision is the one the policy on integers gives. *)

(** ** The policy keeps to the grid *)

Lemma policy_verdict_grid g order maximum position side quantity k r q :
  (g | quantity) -> (g | order) -> (g | maximum) -> (g | position) ->
  policy_verdict (Some (order, maximum)) position side quantity = (k, r, Some q) -> (g | q).
Proof.
  intros Hq Ho Hm Hp. cbn [policy_verdict]. destruct (_ <=? _); [done|].
  destruct (Z.eqb_spec (Z.min quantity (Z.min order (Z.max 0 (room side maximum position)))) 0) as [|Hn]; [done|].
  intros H. assert (q = Z.min quantity (Z.min order (Z.max 0 (room side maximum position)))) as ->.
  { destruct (_ =? quantity) in H; congruence. }
  assert ((g | room side maximum position)) as Hr.
  { destruct side; cbn [room]; [by apply Z.divide_sub_r|by apply Z.divide_add_r]. }
  assert ((g | Z.max 0 (room side maximum position))) as Hc.
  { destruct (Z.max_spec 0 (room side maximum position)) as [[_ ->]|[_ ->]]; [done|apply Z.divide_0_r]. }
  assert ((g | Z.min order (Z.max 0 (room side maximum position)))) as Hi.
  { by destruct (Z.min_spec order (Z.max 0 (room side maximum position))) as [[_ ->]|[_ ->]]. }
  by destruct (Z.min_spec quantity (Z.min order (Z.max 0 (room side maximum position)))) as [[_ ->]|[_ ->]].
Qed.

Section Progress.
Context `{hash : Sha256} (context : RiskAuthorityContext) (Hbound : bound context).

(** ** Classifying the lineage is total *)

Lemma is_quantized_total v q : exists b, is_quantized v q = Ok b /\ (b = true -> on_grid v q).
Proof.
  unfold is_quantized. rewrite require_quantized_spec. destruct (Z.ltb_spec 0 (units q)); [|by exists false].
  destruct (Z.eqb_spec (units v mod units q) 0) as [Hm|]; [|by exists false].
  exists true. split; [done|]. intros _. apply Z.mod_divide; [lia|done].
Qed.

Lemma positions_match_total l : exists b, positions_match context l = Ok b /\
  (b = true -> forall i s, spec_by_instrument context !! i = Some s ->
     on_grid (position_in l i) (quantity_quantum s)).
Proof.
  induction l as [|p l (b & Hb & IH)].
  { exists true. split; [done|]. intros _ i s _. cbn. apply Z.divide_0_r. }
  cbn [positions_match]. destruct (spec_by_instrument context !! position_instrument p) as [s|] eqn:Hs; [|by exists false].
  destruct (negb _); [by exists false|].
  destruct (is_quantized_total (position_quantity p) (quantity_quantum s)) as (c & -> & Hc). cbn [rbind].
  destruct c; [|by exists false]. exists b. split; [done|]. intros -> i s' Hs'. cbn [position_in].
  case_bool_decide as He; [|by apply IH]. subst i. rewrite Hs in Hs'. injection Hs' as <-. by apply Hc.
Qed.
Lemma cash_match_total l : exists b, cash_match context l = Ok b.
Proof.
  induction l as [|c l (b & Hb)]; [by exists true|]. cbn [cash_match].
  destruct (currency_quanta context !! _) as [q|]; [|by exists false]. destruct (negb _); [by exists false|].
  destruct (is_quantized_total (cash_amount c) q) as (d & -> & _). cbn [rbind]. destruct d; [|by exists false]. by exists b.
Qed.

Lemma classify_total intent snapshot : exists f, _classify_lineage_failure context intent snapshot = Ok f /\
  (f = None -> forall i s, spec_by_instrument context !! i = Some s ->
     on_grid (_position_for snapshot i) (quantity_quantum s)).
Proof.
  unfold _classify_lineage_failure. do 5 (destruct (_ : bool); [by eexists|]).
  unfold _snapshot_balances_match.
  destruct (positions_match_total (position_balances snapshot)) as (b & -> & Hb). cbn [rbind].
  destruct b; cbn [negb]; [|by eexists]. destruct (cash_match_total (cash_balances snapshot)) as (c & ->). cbn [rbind].
  destruct c; cbn [negb]; [|by eexists]. cbn [rbind]. destruct (forallb _ _); cbn [negb]; [|by eexists].
  eexists. split; [done|]. intros _. by apply Hb.
Qed.

(** ** The verdict *)

Definition expected_verdict (st : _AuthorityState) (intent : OrderIntent) (snapshot : PortfolioSnapshot)
  (failure : option RiskReasonCode) : verdict :=
  match failure with
  | Some reason => (EVALUATION_FAILED, reason, None)
  | None =>
      if halted (risk_state st) then (REJECT, HALTED, None)
      else policy_verdict (limit_units <$> limit_by_instrument context !! oi_instrument intent)
             (units (_position_for snapshot (oi_instrument intent))) (oi_side intent) (units (oi_quantity intent))
  end.

Lemma verdict_total st intent snapshot s : require_spec (ra_spec_set context) (oi_instrument intent) = Ok s ->
  on_grid (oi_quantity intent) (quantity_quantum s) ->
  exists failure v, _classify_lineage_failure context intent snapshot = Ok failure /\
    verdict_on context st intent snapshot = Ok v /\
    verdict_units v = expected_verdict st intent snapshot failure /\
    forall q, v.2 = Some q -> on_grid q (quantity_quantum s).
Proof.
  intros Hs Hg. destruct (classify_total intent snapshot) as (f & Hf & Hpos). exists f.
  unfold verdict_on. rewrite Hf. cbn [rbind]. destruct f as [f|]; [by eexists|]. unfold expected_verdict.
  destruct (halted _); [by eexists|].
  destruct (size_intent_policy (limit_by_instrument context !! oi_instrument intent) snapshot intent) as (v & -> & Hv).
  exists v. split_and!; try done. intros q Hq. destruct v as [[k r] q']. cbn in Hq. subst q'.
  unfold verdict_units in Hv. cbn in Hv.
  destruct (limit_by_instrument context !! oi_instrument intent) as [l|] eqn:Hl; [|done].
  pose proof (bd_limits _ Hbound _ _ Hl) as [Hli (_ & _ & s' & Hs' & Ho & Hm)].
  rewrite Hli, Hs in Hs'. injection Hs' as <-. symmetry in Hv.
  apply (policy_verdict_grid (units (quantity_quantum s))) in Hv; [done|done|done|done|].
  apply Hpos; [done|]. by apply (bd_index _ Hbound).
Qed.

(** ** The decision *)

Lemma require_spec_set_ok intent s : require_spec (ra_spec_set context) (oi_instrument intent) = Ok s ->
  oi_spec_set_id intent = spec_set_identifier (ra_spec_set context) ->
  oi_spec_set_sha256 intent = instrument_spec_set_digest (ra_spec_set context) ->
  oi_specification_id intent = specification_id s ->
  _require_spec_set (ra_spec_set context) (oi_instrument intent) (Some (oi_specification_id intent))
    (Some (oi_spec_set_id intent)) (Some (oi_spec_set_sha256 intent))
  = Ok (s, instrument_spec_set_digest (ra_spec_set context)).
Proof.
  intros Hs H1 H2 H3. unfold _require_spec_set. rewrite Hs. cbn [rbind]. rewrite H1, H2, H3.
  unfold lineage_conflict. by rewrite !bool_decide_eq_true_2.
Qed.

Lemma refusal_created k intent n v : is_ok (_require_structural_intent context intent) = true ->
  executable_kind k = false -> 0 <= v ->
  exists d, _create_risk_decision k (mkEconomicId (ra_run_id context) RISK_DECISION n) intent (ra_spec_set context) v
    None None = Ok d.
Proof.
  intros Hst Hk Hv. destruct (structural_intent _ _ Hbound Hst) as (s & Hs & Hok & Hr & Hi & Hd & Hp & Hq & Hg).
  unfold _create_risk_decision, _require_id_owner, _require_same_run. cbn [owner_kind forallb in_run id_run_id].
  rewrite !bool_decide_eq_true_2 by done. cbn [negb andb rbind].
  rewrite (require_spec_set_ok _ _ Hs Hi Hd Hp). cbn [rbind]. unfold Messages._require_non_negative.
  rewrite (proj2 (Z.ltb_ge _ _)) by done. cbn [rbind]. fold (executable_kind k). rewrite Hk. by eexists.
Qed.

Lemma executable_created k intent n m v x s : is_ok (_require_structural_intent context intent) = true ->
  executable_kind k = true -> 0 <= v ->
  require_spec (ra_spec_set context) (oi_instrument intent) = Ok s -> on_grid x (quantity_quantum s) ->
  0 < units x <= units (oi_quantity intent) ->
  (k = ALLOW -> x = oi_quantity intent) -> (k = RESIZE -> x <> oi_quantity intent) ->
  exists d, _create_risk_decision k (mkEconomicId (ra_run_id context) RISK_DECISION n) intent (ra_spec_set context) v
    (Some (mkEconomicId (ra_run_id context) RISK_APPROVAL m)) (Some x) = Ok d.
Proof.
  intros Hst Hk Hv Hs Hx Hle H1 H2.
  destruct (structural_intent _ _ Hbound Hst) as (s' & Hs' & Hok & Hr & Hi & Hd & Hp & Hq & Hg).
  rewrite Hs in Hs'. injection Hs' as <-.
  unfold _create_risk_decision, _require_id_owner, _require_same_run. cbn [owner_kind forallb in_run id_run_id].
  rewrite (bool_decide_eq_true_2 (RISK_DECISION = RISK_DECISION)), (bool_decide_eq_true_2 (ra_run_id context = _)) by done.
  cbn [negb andb rbind]. rewrite (require_spec_set_ok _ _ Hs Hi Hd Hp). cbn [rbind fst].
  unfold Messages._require_non_negative. rewrite (proj2 (Z.ltb_ge _ _)) by done. cbn [rbind].
  fold (executable_kind k). rewrite Hk. unfold executable_approval.
  rewrite (proj2 (require_quantity_ok _ _ Hok)) by (split; [lia|done]). cbn [rbind].
  rewrite decimal_gt_units. cbn [rbind]. rewrite (proj2 (Z.ltb_ge _ _)) by lia.
  assert (bool_decide (k = ALLOW) && negb (bool_decide (x = oi_quantity intent)) = false) as ->.
  { case_bool_decide as Hka; [|done]. by rewrite (bool_decide_eq_true_2 _ (H1 Hka)). }
  assert (bool_decide (k = RESIZE) && bool_decide (x = oi_quantity intent) = false) as ->.
  { case_bool_decide as Hka; [|done]. by rewrite (bool_decide_eq_false_2 _ (H2 Hka)). }
  unfold _make_approval, _require_id_owner, _require_same_run. cbn [owner_kind forallb in_run id_run_id].
  rewrite !bool_decide_eq_true_2 by done. cbn [negb andb rbind]. by eexists.
Qed.

(** ** The evidence and the result *)

Lemma created_run k i intent ss v aid q d : _create_risk_decision k i intent ss v aid q = Ok d ->
  rd_run_id d = oi_run_id intent.
Proof.
  unfold _create_risk_decision. intros H. do 5 (apply rbind_Ok in H as (? & _ & H)). apply Ok_inj in H. by subst d.
Qed.

Lemma next_ok n : 1 <= n <= MAX_UINT64 ->
  _require_next (Some n) = Ok (Some n) /\
  _require_next (if n =? MAX_UINT64 then None else Some (n + 1)) = Ok (if n =? MAX_UINT64 then None else Some (n + 1)).
Proof.
  intros Hn. assert (forall m, 1 <= m <= MAX_UINT64 -> _require_next (Some m) = Ok (Some m)) as Hm.
  { intros m Hm. unfold _require_next. by rewrite !(proj2 (Z.ltb_ge _ _)) by lia. }
  split; [by apply Hm|]. destruct (Z.eqb_spec n MAX_UINT64); [done|]. apply Hm. lia.
Qed.
Lemma allocated_transition n run owner : 1 <= n <= MAX_UINT64 ->
  _require_allocated_transition (Some n) (if n =? MAX_UINT64 then None else Some (n + 1)) (mkEconomicId run owner n)
  = Ok tt.
Proof.
  intros [H1 H2]%next_ok. unfold _require_allocated_transition. rewrite H1, H2. cbn [rbind owner_sequence].
  by rewrite Z.eqb_refl, bool_decide_eq_true_2.
Qed.
Lemma unchanged_transition n : (forall m, n = Some m -> 1 <= m <= MAX_UINT64) ->
  _require_unchanged_transition n n = Ok tt.
Proof.
  intros Hn. unfold _require_unchanged_transition. destruct n as [n|].
  - destruct (next_ok n (Hn _ eq_refl)) as [-> _]. cbn [rbind]. by rewrite bool_decide_eq_true_2.
  - by cbn.
Qed.

(** The checks of the two factories on what the authority hands them. *)
Lemma evidence_created st intent k n v aid q d snap_v snap_sha reason after2 :
  1 <= n <= MAX_UINT64 -> 0 <= snap_v -> oi_run_id intent = ra_run_id context ->
  _create_risk_decision k (mkEconomicId (ra_run_id context) RISK_DECISION n) intent (ra_spec_set context) v aid q = Ok d ->
  reason ∈ _REASONS_BY_KIND k ->
  (if executable_kind k
   then exists m, approval_next st = Some m /\ 1 <= m <= MAX_UINT64 /\
          aid = Some (mkEconomicId (ra_run_id context) RISK_APPROVAL m) /\
          after2 = if m =? MAX_UINT64 then None else Some (m + 1)
   else (forall m, approval_next st = Some m -> 1 <= m <= MAX_UINT64) /\ after2 = approval_next st) ->
  exists p, _create_risk_evaluation_evidence d (order_intent_digest intent) snap_v snap_sha (ra_policy context) v reason
              (Some n) (if n =? MAX_UINT64 then None else Some (n + 1)) (approval_next st) after2 = Ok p /\
    _create_risk_evaluation_result d p = Ok (mkRiskResult d p).
Proof.
  intros Hn Hsv Hrun Hd Hr Ha. pose proof (created_run _ _ _ _ _ _ _ _ Hd) as Hdr.
  pose proof (created_approval _ _ _ _ _ _ _ _ Hd) as Hap.
  destruct (created_decision_fields _ _ _ _ _ _ _ _ Hd) as
    (E1 & E2 & E3 & _ & _ & _ & E7 & E8 & _ & _ & _ & E12 & Hk).
  unfold _create_risk_evaluation_evidence. rewrite (proj2 (Z.ltb_ge _ _) Hsv), (proj2 (Z.ltb_ge _ _) E8).
  rewrite E7, Z.eqb_refl, E12, (bool_decide_eq_true_2 (_ = order_intent_digest intent)) by done. cbn [negb].
  unfold _require_id. rewrite E2, Hdr. cbn [owner_kind id_run_id].
  rewrite (bool_decide_eq_true_2 (RISK_DECISION = _)), (bool_decide_eq_true_2 (ra_run_id context = _)) by done.
  cbn [negb orb rbind]. rewrite allocated_transition by done. cbn [rbind].
  rewrite E1, (bool_decide_eq_true_2 _ Hr). cbn [negb].
  assert (forall p, re_run_id p = rd_run_id d -> re_intent_id p = rd_intent_id d -> re_decision_id p = rd_decision_id d ->
    re_decision_sha256 p = risk_decision_digest d -> re_risk_state_version p = rd_risk_state_version d ->
    re_approval_sha256 p = execution_approval_digest <$> rd_approval d ->
    _create_risk_evaluation_result d p = Ok (mkRiskResult d p)) as Hres.
  { intros p P1 P2 P3 P4 P5 P6. unfold _create_risk_evaluation_result.
    by rewrite P1, P2, P3, P4, P5, P6, Z.eqb_refl, !bool_decide_eq_true_2. }
  change (executable k) with (executable_kind k) in Hk. destruct (executable_kind k).
  - destruct Ha as (m & -> & Hm & -> & ->). destruct Hk as (a & x & Hda & _). rewrite Hda. rewrite Hda in Hap.
    injection Hap as Hap. rewrite Hap, allocated_transition by done. cbn [rbind].
    eexists. split; [done|]. apply Hres; try done. by rewrite Hda.
  - destruct Ha as [Hm ->]. destruct Hk as (Hda & _). rewrite unchanged_transition by done. cbn [rbind].
    rewrite Hda. cbn [absent negb rbind]. eexists. split; [done|]. apply Hres; try done. by rewrite Hda.
Qed.

(** ** A new intent is decided *)

(** An executable verdict needs an approval; a spent sequence makes it a failure. *)
Definition allocated_verdict (approvals : option Z) (v : verdict) : verdict :=
  if executable_kind v.1.1 && absent approvals then (EVALUATION_FAILED, APPROVAL_SEQUENCE_EXHAUSTED, None) else v.

Lemma allocation_total st k r q : (forall m, approval_next st = Some m -> 1 <= m <= MAX_UINT64) ->
  exists a, allocate_approval context st k r q = Ok a.
Proof.
  intros Hn. unfold allocate_approval. destruct (executable_kind k); [|by eexists].
  destruct (approval_next st) as [m|]; [|by eexists]. specialize (Hn _ eq_refl).
  unfold _advance, EconomicId_init, _require_uint64. rewrite !(proj2 (Z.ltb_ge _ _)) by lia. by eexists.
Qed.

Lemma approvals_in_range st l : log_ok context st l -> forall m, approval_next st = Some m -> 1 <= m <= MAX_UINT64.
Proof.
  intros Hl m Hm. pose proof (lg_approval_ids _ _ _ Hl) as Hid. rewrite Hm in Hid. by apply numbered_next in Hid.
Qed.

(** Everything but the evidence of a new decision is there. *)
Lemma decision_ready st l intent snapshot n : log_ok context st l ->
  is_ok (_require_structural_intent context intent) = true -> decision_next st = Some n ->
  exists failure v a d, 1 <= n <= MAX_UINT64 /\
    _classify_lineage_failure context intent snapshot = Ok failure /\
    verdict_on context st intent snapshot = Ok v /\
    verdict_units v = expected_verdict st intent snapshot failure /\ v.1.2 ∈ _REASONS_BY_KIND v.1.1 /\
    allocate_approval context st v.1.1 v.1.2 v.2 = Ok a /\
    decide_intent context st intent (mkEconomicId (ra_run_id context) RISK_DECISION n) a = Ok d /\
    _create_risk_decision (al_kind a) (mkEconomicId (ra_run_id context) RISK_DECISION n) intent (ra_spec_set context)
      (rs_version (risk_state st)) (al_approval_id a) (al_quantity a) = Ok d.
Proof.
  intros Hl Hst Hn. destruct (structural_intent _ _ Hbound Hst) as (s & Hs & Hok & Hr & _ & _ & _ & Hq & Hg).
  destruct (verdict_total st intent snapshot s Hs Hg) as (failure & [[k r] q] & Hf & Hv & Hu & Hgrid).
  destruct (verdict_on_facts _ _ _ _ _ _ _ Hbound Hq Hv) as (F1 & F2 & F3 & F4 & F5).
  assert (1 <= n <= MAX_UINT64) as Hrange.
  { pose proof (lg_decision_ids _ _ _ Hl) as Hid. rewrite Hn in Hid. by apply numbered_next in Hid. }
  assert (0 <= rs_version (risk_state st)) as Hver by (rewrite (lg_version _ _ _ Hl); destruct (halted _); lia).
  destruct (allocation_total st k r q (approvals_in_range _ _ Hl)) as (a & Ha).
  pose proof (allocated _ _ _ _ _ _ Ha) as Hal.
  assert (exists d, decide_intent context st intent (mkEconomicId (ra_run_id context) RISK_DECISION n) a = Ok d) as [d Hd].
  { unfold decide_intent. destruct Hal as [_ _|m He Hm|He]; cbn [al_kind al_approval_id al_quantity].
    - by apply refusal_created.
    - rewrite He in F1. destruct q as [x|]; [|done]. destruct (F5 x eq_refl) as (_ & _ & (lim & _ & Hw) & _).
      destruct Hw as (Hw & _). specialize (Hgrid x eq_refl).
      assert (k = ALLOW -> x = oi_quantity intent) as H1 by (intros E; specialize (F3 E); congruence).
      assert (k = RESIZE -> x <> oi_quantity intent) as H2 by (intros E; specialize (F4 E); congruence).
      destruct (executable_created k intent n m (rs_version (risk_state st)) x s Hst He Hver Hs Hgrid Hw H1 H2) as [d Hd].
      exists d. destruct k; try done. rewrite (H1 eq_refl) in Hd. exact Hd.
    - destruct (refusal_created k intent n _ Hst He Hver) as [d Hd]. exists d. by destruct k. }
  destruct (decided _ _ _ _ _ _ _ _ _ Hal F1 F3 Hd) as [Hc _].
  by exists failure, (k, r, q), a, d.
Qed.

Lemma evaluate_new_total st l intent snapshot n : log_ok context st l ->
  is_ok (_require_structural_intent context intent) = true -> decision_next st = Some n ->
  0 <= snapshot_version snapshot ->
  exists failure result st', _classify_lineage_failure context intent snapshot = Ok failure /\
    evaluate_new context st intent snapshot = Ok (result, st') /\
    (rd_kind (result_decision result), reason_code (result_evidence result),
     units <$> rd_approved_quantity (result_decision result))
    = allocated_verdict (approval_next st) (expected_verdict st intent snapshot failure).
Proof.
  intros Hl Hst Hn Hsv. destruct (structural_intent _ _ Hbound Hst) as (_ & _ & _ & Hr & _).
  destruct (decision_ready st l intent snapshot n Hl Hst Hn) as
    (failure & [[k r] q] & a & d & Hrange & Hf & Hv & Hu & F2 & Ha & Hd & Hc). cbn [fst snd] in F2, Ha.
  pose proof (allocated _ _ _ _ _ _ Ha) as Hal. pose proof (approvals_in_range _ _ Hl) as Hap.
  assert (exists p, _create_risk_evaluation_evidence d (order_intent_digest intent) (snapshot_version snapshot)
      (portfolio_snapshot_digest snapshot) (ra_policy context) (rs_version (risk_state st)) (al_reason a) (Some n)
      (if n =? MAX_UINT64 then None else Some (n + 1)) (approval_next st) (al_approval_after a) = Ok p /\
      _create_risk_evaluation_result d p = Ok (mkRiskResult d p)) as (p & Hp & Hres).
  { eapply (evidence_created st intent); [done|done|done|exact Hc| |].
    - destruct Hal as [_ _|m He Hm|He]; cbn; [by repeat constructor|done|done].
    - destruct Hal as [_ Hs'|m He Hm|He]; cbn; [|rewrite He..].
      + split; [by rewrite Hs'|done].
      + exists m. split_and!; try done; by apply Hap.
      + done. }
  eexists failure, _, _. split; [done|]. split.
  - unfold evaluate_new. destruct (_require_structural_intent context intent) as [s'|]; [|done]. cbn [rbind].
    rewrite Hn. cbn [absent]. rewrite Hv. cbn [rbind fst snd]. unfold _register. rewrite Hn.
    unfold _advance, EconomicId_init, _require_uint64. rewrite !(proj2 (Z.ltb_ge _ _)) by lia. cbn [orb rbind].
    rewrite Ha. cbn [rbind]. rewrite Hd. cbn [rbind]. rewrite Hp. cbn [rbind]. rewrite Hres. cbn [rbind structurally].
    reflexivity.
  - cbn [rp_result result_decision result_evidence record_of].
    destruct (created_decision_fields _ _ _ _ _ _ _ _ Hc) as (E1 & _ & _ & _ & _ & _ & _ & _ & _ & _ & E11 & _).
    destruct (evidence_fields _ _ _ _ _ _ _ _ _ _ _ _ Hp) as (-> & _). rewrite E1, E11, <-Hu.
    unfold allocated_verdict, verdict_units. cbn [fst snd].
    destruct Hal as [He ->|m He ->|He]; rewrite He; cbn; [done|done|done].
Qed.

(** ** Errors *)

Definition closed_error (e : exn) : Prop := exists c, c ∈ _ERROR_CODES /\ e = RiskAuthorityError c.
Lemma raise_closed c : c ∈ _ERROR_CODES -> closed_error (raise_authority c).
Proof. intros Hc. exists c. split; [done|]. unfold raise_authority, permitted. by rewrite bool_decide_eq_true_2. Qed.
Hint Resolve raise_closed : core.

Lemma structural_error intent e : _require_structural_intent context intent = Raise e -> closed_error e.
Proof.
  assert (OUT_OF_RANGE ∈ _ERROR_CODES /\ NOT_QUANTIZED ∈ _ERROR_CODES /\ CONFLICTING_ID ∈ _ERROR_CODES) as (O1 & O2 & O3).
  { split_and!; apply list_elem_of_In; vm_compute; tauto. }
  unfold _require_structural_intent. do 2 (destruct (_ : bool); [intros [= <-]; auto|]).
  destruct (spec_by_instrument context !! oi_instrument intent) as [s|]; [|intros [= <-]; auto].
  destruct (_ : bool); [intros [= <-]; auto|]. rewrite require_positive_spec, require_quantized_spec.
  do 2 (destruct (_ <? _); cbn; [|intros [= <-]; change (closed_error (raise_authority OUT_OF_RANGE)); auto]).
  destruct (_ =? _); cbn; [done|]. intros [= <-]. change (closed_error (raise_authority NOT_QUANTIZED)). auto.
Qed.

Lemma evaluate_new_error st l intent snapshot e : log_ok context st l ->
  evaluate_new context st intent snapshot = Raise e -> closed_error e.
Proof.
  intros Hl. destruct (_require_structural_intent context intent) as [s|e'] eqn:Hs.
  2:{ unfold evaluate_new. rewrite Hs. cbn. intros [= <-]. by eapply structural_error. }
  assert (is_ok (_require_structural_intent context intent) = true) as Hst by by rewrite Hs.
  assert (OUT_OF_RANGE ∈ _ERROR_CODES) as HO by (apply list_elem_of_In; vm_compute; tauto).
  destruct (decision_next st) as [n|] eqn:Hn.
  2:{ unfold evaluate_new. rewrite Hs, Hn. cbn [rbind absent]. intros [= <-]. auto. }
  destruct (Z.ltb_spec (snapshot_version snapshot) 0) as [Hneg|Hpos].
  - destruct (decision_ready st l intent snapshot n Hl Hst Hn) as
      (failure & v & a & d & Hrange & Hf & Hv & Hu & F2 & Ha & Hd & Hc).
    unfold evaluate_new. rewrite Hs, Hn. cbn [rbind absent]. rewrite Hv. cbn [rbind]. unfold _register. rewrite Hn.
    unfold _advance, EconomicId_init, _require_uint64. rewrite !(proj2 (Z.ltb_ge _ _)) by lia. cbn [orb rbind].
    rewrite Ha. cbn [rbind]. rewrite Hd. cbn [rbind]. unfold _create_risk_evaluation_evidence.
    rewrite (proj2 (Z.ltb_lt _ _) Hneg). cbn. intros [= <-]. change (closed_error (raise_authority OUT_OF_RANGE)). auto.
  - destruct (evaluate_new_total _ _ _ _ _ Hl Hst Hn Hpos) as (? & ? & ? & _ & -> & _). done.
Qed.
End Progress.
