(* ===== verification/LedgerLemmas.v ===== *)
(** Lemmas about the ledger's arithmetic, postings and snapshots, shared by the
    theorems of [LedgerSpec]: decimal sums and signs in units, the zero-sum test as a
    statement about commodity totals, and when a snapshot is accepted. *)

From S2P Require Import Prelude PyRegex PyText Outcomes Json Identity Economics Commission.
From S2P Require Import Execution Messages Portfolio Reconciliation Integration Ledger.

Open Scope Z_scope.

(** ** Decimal arithmetic in units *)

Lemma add_decimal_cases a b :
  (exists d, _add_decimal a b = Ok d /\ units d = units a + units b) \/
  (_add_decimal a b = Raise (EconomicValidationError OUT_OF_RANGE) /\
   UNIT_BOUND <= Z.abs (units a + units b)).
Proof.
  unfold _add_decimal. set (s := Z.max (scale a) (scale b)). set (c := _ + _).
  destruct (decimal_bounds a) as [Ha _], (decimal_bounds b) as [Hb _].
  assert (c * 10 ^ (18 - s) = units a + units b) as Hc.
  { unfold c. rewrite <-(coefficient_at a s), <-(coefficient_at b s) by lia. ring. }
  assert (10 ^ s * 10 ^ (18 - s) = 10 ^ 18) as Hp by (rewrite <-pow10_add by lia; f_equal; lia).
  assert (c * 10 ^ 18 = (units a + units b) * 10 ^ s) as Heq by (rewrite <-Hc, <-Hp; ring).
  pose proof (pow10_gt0 s ltac:(lia)).
  destruct (scaled_text_spec c s ltac:(lia)) as [(d & -> & Hd)|[-> Hno]]; [left|right].
  - exists d. split; [done|]. nia.
  - split; [done|]. destruct (Z_lt_le_dec (Z.abs (units a + units b)) UNIT_BOUND) as [Hlt|]; [|done].
    by destruct (Hno _ Hlt).
Qed.

(** Decimals of equal magnitude have equal scale. *)
Lemma units_opp_scale a b : units a = - units b -> scale a = scale b /\ coefficient a = - coefficient b.
Proof.
  assert (forall a b, scale a < scale b -> units a <> - units b) as Hlt.
  { intros x y Hs Heq. destruct (decimal_bounds x) as (Hx & _), (decimal_bounds y) as (Hy & _ & Hm).
    apply Hm; [lia|]. rewrite <-(coefficient_at x (scale y)) in Heq by lia. unfold units in Heq.
    rewrite <-Z.mul_opp_l in Heq.
    apply Z.mul_reg_r in Heq; [|pose proof (pow10_gt0 (18 - scale y)); lia].
    replace (coefficient y) with (- coefficient x * 10 ^ (scale y - scale x)) by lia.
    apply mul_pow10_mod10. lia. }
  intros Heq. destruct (Z.lt_trichotomy (scale a) (scale b)) as [H|[H|H]].
  - by destruct (Hlt _ _ H).
  - split; [done|]. unfold units in Heq. rewrite H in Heq. destruct (decimal_bounds b) as [Hb _].
    pose proof (pow10_gt0 (18 - scale b) ltac:(lia)). nia.
  - destruct (Hlt _ _ H). lia.
Qed.

Lemma signed_spec v s : s = 1 \/ s = -1 -> exists d, _signed v s = Ok d /\ units d = s * units v.
Proof.
  intros Hs. unfold _signed.
  replace ((s =? -1) || (s =? 1)) with true by (destruct Hs as [->| ->]; done). cbn [negb].
  destruct (decimal_bounds v) as [Hv _]. pose proof (pow10_gt0 (scale v) ltac:(lia)).
  destruct (scaled_text_spec (coefficient v * s) (scale v) ltac:(lia)) as [(d & -> & Hd)|[_ Hno]].
  - exists d. split; [done|]. pose proof (units_scale v). nia.
  - destruct (Hno (s * units v)).
    + pose proof (units_bound v). destruct Hs as [->| ->]; lia.
    + rewrite <-Z.mul_assoc, units_scale. ring.
Qed.

Lemma next_balance_cases cur delta :
  let before := match cur with Some c => units c | None => 0 end in
  (exists d, _next_balance cur delta = Ok d /\ units d = before + units delta) \/
  (_next_balance cur delta = Raise (EconomicValidationError OUT_OF_RANGE) /\
   UNIT_BOUND <= Z.abs (before + units delta)).
Proof.
  destruct cur as [c|]; simpl; [apply add_decimal_cases|]. left. exists delta. split; [done|lia].
Qed.

Lemma coefficient_negative d : (coefficient d <? 0) = (units d <? 0).
Proof. destruct (coefficient_sign d) as (_ & H & _). lia. Qed.

(** The balance of a key: an absent one is zero. *)
Definition balance {K} `{Countable K} (m : gmap K CanonicalDecimal) (k : K) : Z :=
  match m !! k with Some d => units d | None => 0 end.

Lemma balance_assign {K} `{Countable K} (m : gmap K CanonicalDecimal) k v k' :
  balance (_assign_nonzero m k v) k' = if decide (k = k') then units v else balance m k'.
Proof.
  unfold _assign_nonzero, balance. rewrite coefficient_zero.
  destruct (Z.eqb_spec (units v) 0) as [Hz|Hz], (decide (k = k')) as [->|Hk];
    by simplify_map_eq.
Qed.

Lemma assign_lookup {K} `{Countable K} (m : gmap K CanonicalDecimal) k v k' d :
  _assign_nonzero m k v !! k' = Some d ->
  (k' = k /\ d = v /\ units v <> 0) \/ (k' <> k /\ m !! k' = Some d).
Proof.
  unfold _assign_nonzero. rewrite coefficient_zero.
  destruct (Z.eqb_spec (units v) 0) as [Hz|Hz]; destruct (decide (k = k')) as [->|Hk];
    intros Hl; simplify_map_eq; auto.
Qed.

(** ** Totals of postings *)

Definition sum_units (l : list LedgerPosting) : Z := foldr (fun p acc => units (posting_amount p) + acc) 0 l.
(** The total of a commodity, and of an account in a commodity. *)
Definition posted (c : LedgerCommodity) (l : list LedgerPosting) : Z :=
  sum_units (filter (fun p => commodity p = c) l).
Definition booked (a : LedgerAccountKind) (c : LedgerCommodity) (l : list LedgerPosting) : Z :=
  sum_units (filter (fun p => account p = a /\ commodity p = c) l).

Lemma sum_units_app l l' : sum_units (l ++ l') = sum_units l + sum_units l'.
Proof. induction l as [|p l IH]; simpl; [done|]. lia. Qed.
Lemma posted_app c l l' : posted c (l ++ l') = posted c l + posted c l'.
Proof. unfold posted. by rewrite filter_app, sum_units_app. Qed.
Lemma booked_app a c l l' : booked a c (l ++ l') = booked a c l + booked a c l'.
Proof. unfold booked. by rewrite filter_app, sum_units_app. Qed.
Lemma posted_cons c p l :
  posted c (p :: l) = (if decide (commodity p = c) then units (posting_amount p) else 0) + posted c l.
Proof. unfold posted. rewrite filter_cons. by case_decide. Qed.
Lemma booked_cons a c p l :
  booked a c (p :: l) =
  (if decide (account p = a /\ commodity p = c) then units (posting_amount p) else 0) + booked a c l.
Proof. unfold booked. rewrite filter_cons. by case_decide. Qed.

Definition commodity_balanced (l : list LedgerPosting) : Prop := forall c, posted c l = 0.

(** What the running sums hold after the postings [l]. *)
Definition sums_ok (sums : gmap LedgerCommodity (Z * Z)) (l : list LedgerPosting) : Prop :=
  forall c,
    match sums !! c with
    | None => forall p, p ∈ l -> commodity p <> c
    | Some (x, s) => 0 <= s <= 18 /\ x * 10 ^ (18 - s) = posted c l
    end.

Lemma posted_absent c l : (forall p, p ∈ l -> commodity p <> c) -> posted c l = 0.
Proof.
  induction l as [|p l IH]; intros Hp; [done|]. rewrite posted_cons, decide_False.
  - rewrite IH; [done|]. intros q Hq. apply Hp. by right.
  - apply Hp. left.
Qed.

Lemma add_posting_ok sums l p : sums_ok sums l -> sums_ok (add_posting sums p) (l ++ [p]).
Proof.
  intros Hok c. unfold add_posting. destruct (decimal_bounds (posting_amount p)) as [Hb _].
  pose proof (Hok (commodity p)) as Hp. destruct (sums !! commodity p) as [[x s]|] eqn:Hs.
  - destruct Hp as [Hs18 Hx]. destruct (decide (commodity p = c)) as [<-|Hne].
    + rewrite lookup_insert_eq. split; [lia|]. rewrite posted_app, posted_cons, decide_True by done.
      change (posted (commodity p) []) with 0. rewrite <-Hx.
      set (t := Z.max s (scale (posting_amount p))).
      rewrite <-(coefficient_at (posting_amount p) t) by lia.
      rewrite (pow10_split (18 - s) (18 - t)) by lia.
      replace (18 - s - (18 - t)) with (t - s) by lia. ring.
    + rewrite lookup_insert_ne by done. specialize (Hok c).
      destruct (sums !! c) as [[y t]|].
      * rewrite posted_app, posted_cons, decide_False by done. change (posted c []) with 0. lia.
      * intros q [Hq|Hq%list_elem_of_singleton]%elem_of_app; [by apply Hok|by subst].
  - destruct (decide (commodity p = c)) as [<-|Hne].
    + rewrite lookup_insert_eq. split; [lia|]. rewrite posted_app, posted_absent by done.
      rewrite posted_cons, decide_True by done. change (posted (commodity p) []) with 0.
      unfold units. lia.
    + rewrite lookup_insert_ne by done. specialize (Hok c).
      destruct (sums !! c) as [[y t]|].
      * rewrite posted_app, posted_cons, decide_False by done. change (posted c []) with 0. lia.
      * intros q [Hq|Hq%list_elem_of_singleton]%elem_of_app; [by apply Hok|by subst].
Qed.

Lemma fold_add_posting_ok l l0 sums : sums_ok sums l0 -> sums_ok (fold_left add_posting l sums) (l0 ++ l).
Proof.
  revert l0 sums; induction l as [|p l IH]; intros l0 sums Hok; simpl; [by rewrite app_nil_r|].
  replace (l0 ++ p :: l) with ((l0 ++ [p]) ++ l) by (by rewrite <-app_assoc). apply IH. by apply add_posting_ok.
Qed.

(** The zero-sum test of the source decides commodity balance. *)
Lemma postings_sum_to_zero_iff l : _postings_sum_to_zero l = true <-> commodity_balanced l.
Proof.
  assert (sums_ok (fold_left add_posting l ∅) l) as Hok.
  { apply (fold_add_posting_ok l [] ∅). intros c. rewrite lookup_empty. intros p Hp. by apply not_elem_of_nil in Hp. }
  unfold _postings_sum_to_zero, commodity_balanced. rewrite forallb_forall. split.
  - intros Hall c. specialize (Hok c). destruct (fold_left add_posting l ∅ !! c) as [[x s]|] eqn:Hc.
    + destruct Hok as [_ <-]. apply elem_of_map_to_list, list_elem_of_In in Hc.
      apply Hall in Hc. simpl in Hc. apply Z.eqb_eq in Hc as ->. lia.
    + by apply posted_absent.
  - intros Hall [c [x s]] Hin. simpl. apply list_elem_of_In, elem_of_map_to_list in Hin.
    specialize (Hok c). rewrite Hin in Hok. destruct Hok as [Hs Hx]. rewrite Hall in Hx.
    apply Z.eqb_eq. pose proof (pow10_gt0 (18 - s) ltac:(lia)). nia.
Qed.

Lemma postings_balance_eq l : _postings_balance l = _postings_sum_to_zero l.
Proof. done. Qed.

(** ** The postings of a fill *)

Definition optional_posting (a : LedgerAccountKind) (c : LedgerCommodity) (amount : CanonicalDecimal)
  : list LedgerPosting := if units amount =? 0 then [] else [mkLedgerPosting a c amount].

Lemma posting_unless_zero_ok a c amount : instrument_account a = false ->
  posting_unless_zero a (CurrencyCommodity c) amount = Ok (optional_posting a (CurrencyCommodity c) amount).
Proof.
  intros Ha. unfold posting_unless_zero, optional_posting, LedgerPosting_init.
  rewrite coefficient_zero, Ha. by destruct (units amount =? 0).
Qed.

Lemma instrument_posting_ok a i amount : instrument_account a = true -> units amount <> 0 ->
  LedgerPosting_init a (InstrumentCommodity i) amount = Ok (mkLedgerPosting a (InstrumentCommodity i) amount).
Proof.
  intros Ha Hu. unfold LedgerPosting_init. rewrite coefficient_zero, Ha.
  by rewrite (proj2 (Z.eqb_neq _ _) Hu).
Qed.

Lemma booked_optional a c amount a' c' :
  booked a' c' (optional_posting a c amount) = if decide (a = a' /\ c = c') then units amount else 0.
Proof.
  unfold optional_posting. destruct (Z.eqb_spec (units amount) 0) as [Hz|Hz].
  - case_decide; [rewrite Hz|]; done.
  - rewrite booked_cons. simpl. case_decide; unfold booked; simpl; lia.
Qed.

Lemma posted_optional a c amount c' :
  posted c' (optional_posting a c amount) = if decide (c = c') then units amount else 0.
Proof.
  unfold optional_posting. destruct (Z.eqb_spec (units amount) 0) as [Hz|Hz].
  - case_decide; [rewrite Hz|]; done.
  - rewrite posted_cons. simpl. case_decide; unfold posted; simpl; lia.
Qed.

(** The postings a fill books, with the negated inventory leg. *)
Definition fill_postings (i : Instrument) (c : SettlementCurrency)
  (pd npd cd en rd fee : CanonicalDecimal) : list LedgerPosting :=
  mkLedgerPosting PORTFOLIO_POSITION (InstrumentCommodity i) pd
  :: mkLedgerPosting EXTERNAL_INVENTORY (InstrumentCommodity i) npd
  :: optional_posting PORTFOLIO_CASH (CurrencyCommodity c) cd
  ++ optional_posting EXTERNAL_SETTLEMENT (CurrencyCommodity c) en
  ++ optional_posting PORTFOLIO_ROUNDING (CurrencyCommodity c) rd
  ++ optional_posting COMMISSION_EXPENSE (CurrencyCommodity c) fee.

Lemma postings_ok i c pd cd en rd fee : units pd <> 0 ->
  exists npd, units npd = - units pd /\
    _postings i c pd cd en rd fee = Ok (fill_postings i c pd npd cd en rd fee).
Proof.
  intros Hpd. destruct (signed_spec pd (-1) ltac:(auto)) as (npd & Hs & Hu).
  exists npd. split; [lia|]. unfold _postings. rewrite instrument_posting_ok by done. cbn [rbind].
  rewrite Hs. cbn [rbind]. rewrite instrument_posting_ok by (done || lia). cbn [rbind].
  rewrite !posting_unless_zero_ok by done. cbn [rbind].
  done.
Qed.

Lemma fill_postings_balanced i c pd npd cd en rd fee :
  units npd = - units pd -> units cd + units en + units rd + units fee = 0 ->
  commodity_balanced (fill_postings i c pd npd cd en rd fee).
Proof.
  intros Hn Hsum d. unfold fill_postings. rewrite !posted_cons, !posted_app, !posted_optional. simpl.
  destruct d as [j|k].
  - do 4 rewrite (decide_False (P := CurrencyCommodity _ = _)) by done. case_decide; lia.
  - do 2 rewrite (decide_False (P := InstrumentCommodity _ = _)) by done. case_decide; lia.
Qed.

(** What the fill books in each portfolio account. *)
Lemma fill_postings_booked i c pd npd cd en rd fee :
  (forall j, booked PORTFOLIO_POSITION (InstrumentCommodity j) (fill_postings i c pd npd cd en rd fee)
             = if decide (i = j) then units pd else 0) /\
  (forall k, booked PORTFOLIO_CASH (CurrencyCommodity k) (fill_postings i c pd npd cd en rd fee)
             = if decide (c = k) then units cd else 0) /\
  (forall k, booked PORTFOLIO_ROUNDING (CurrencyCommodity k) (fill_postings i c pd npd cd en rd fee)
             = if decide (c = k) then units rd else 0).
Proof.
  unfold fill_postings.
  split_and!; intros x; rewrite !booked_cons, !booked_app, !booked_optional; simpl;
    repeat case_decide; intuition (congruence || lia).
Qed.

Lemma fill_postings_required i c pd npd cd en rd fee :
  units npd = - units pd -> units cd + units en + units rd + units fee = 0 ->
  _require_postings (fill_postings i c pd npd cd en rd fee)
  = Ok (fill_postings i c pd npd cd en rd fee).
Proof.
  intros Hn Hsum. pose proof (fill_postings_balanced i c pd npd cd en rd fee Hn Hsum) as Hbal.
  apply postings_sum_to_zero_iff in Hbal. unfold _require_postings. rewrite Hbal.
  destruct (units_opp_scale npd pd Hn) as [Hs Hc].
  assert (coefficient pd = - coefficient npd) as Hc' by lia.
  unfold fill_postings, optional_posting.
  destruct (units cd =? 0), (units en =? 0), (units rd =? 0), (units fee =? 0);
    simpl; rewrite ?Hs, ?Z.eqb_refl, Hc', ?Z.eqb_refl; simpl;
    by rewrite ?bool_decide_eq_true_2 by done.
Qed.

(** ** Sorted views of a map *)

Section SortedItems.
Context {K A S : Type} `{Countable K, PyOrd S, EqDecision S} (key : K -> S) `{!Inj (=) (=) key}.

Lemma sorted_items_perm (m : gmap K A) : sorted_items key m ≡ₚ map_to_list m.
Proof. apply py_sorted_perm. Qed.

Lemma elem_of_sorted_items (m : gmap K A) k a : (k, a) ∈ sorted_items key m <-> m !! k = Some a.
Proof. rewrite sorted_items_perm. apply elem_of_map_to_list. Qed.

Lemma sorted_items_NoDup (m : gmap K A) : NoDup (sorted_items key m).*1.
Proof. rewrite sorted_items_perm. apply NoDup_fst_map_to_list. Qed.

(** The keys of the view are canonical: strictly increasing. *)
Lemma sorted_items_canonical (m : gmap K A) :
  canonical_keys (map (fun kv : K * A => key kv.1) (sorted_items key m)) = true.
Proof.
  unfold canonical_keys. apply andb_true_iff. split.
  - apply (is_sorted_keys_py_sorted (fun kv : K * A => key kv.1)).
  - apply bool_decide_eq_true.
    assert (map (fun kv : K * A => key kv.1) (sorted_items key m) = key <$> (sorted_items key m).*1) as ->.
    { change (map ?f ?l) with (f <$> l). by rewrite <-list_fmap_compose. }
    apply NoDup_fmap_2; [done|]. apply sorted_items_NoDup.
Qed.

(** The view with another projection of the keys. *)
Lemma sorted_values_canonical (m : gmap K A) (f : A -> K) :
  (forall k a, m !! k = Some a -> f a = k) ->
  canonical_keys (map (fun a => key (f a)) (sorted_items key m).*2) = true.
Proof.
  intros Hf. rewrite <-(sorted_items_canonical m). f_equal.
  change (map ?g ?l) with (g <$> l). rewrite <-list_fmap_compose.
  apply list_fmap_ext. intros i [k a] Hl. simpl. f_equal. apply Hf.
  apply elem_of_sorted_items. by eapply list_elem_of_lookup_2.
Qed.

(** Inserting the values back under their keys rebuilds the map. *)
Lemma fold_insert_sorted {B} (m : gmap K A) (f : A -> K) (g : A -> B) :
  (forall k a, m !! k = Some a -> f a = k) ->
  fold_left (fun acc a => <[f a := g a]> acc) (sorted_items key m).*2 ∅ = g <$> m.
Proof.
  intros Hf. pose proof (sorted_items_NoDup m) as Hnd.
  assert (forall kv, kv ∈ sorted_items key m -> f kv.2 = kv.1) as Hl.
  { intros [k a] Hin. apply Hf. by apply elem_of_sorted_items. }
  apply map_eq. intros k. rewrite lookup_fmap.
  assert (m !! k = (list_to_map (sorted_items key m) : gmap K A) !! k) as ->.
  { by rewrite (list_to_map_proper _ (map_to_list m) Hnd (sorted_items_perm m)), list_to_map_to_list. }
  revert Hnd Hl. generalize (sorted_items key m) as l.
  enough (forall l (acc : gmap K B), NoDup l.*1 -> (forall kv : K * A, kv ∈ l -> f kv.2 = kv.1) ->
    fold_left (fun acc a => <[f a := g a]> acc) l.*2 acc !! k =
    match (list_to_map l : gmap K A) !! k with Some a => Some (g a) | None => acc !! k end) as Hgen.
  { intros l Hnd Hl. rewrite (Hgen l ∅ Hnd Hl), lookup_empty. by destruct (list_to_map l !! k). }
  induction l as [|[k' a] l IH]; intros acc Hnd Hl; simpl; [done|].
  apply NoDup_cons in Hnd as [Hk' Hnd]. pose proof (Hl (k', a) ltac:(left)) as Hfa. simpl in Hfa.
  rewrite IH; [|done|by intros kv Hkv; apply Hl; right]. rewrite Hfa.
  destruct (decide (k = k')) as [->|Hne].
  - rewrite lookup_insert_eq, (not_elem_of_list_to_map_1 l k' Hk'). by rewrite lookup_insert_eq.
  - rewrite (lookup_insert_ne (list_to_map l)) by done. case_match; [done|].
    by rewrite lookup_insert_ne.
Qed.
End SortedItems.

#[export] Instance economic_id_key_inj' : Inj (=) (=) _economic_id_key := economic_id_key_inj.
#[export] Instance instrument_key_inj' : Inj (=) (=) instrument_key := instrument_key_inj.

Lemma rmap_pure {E A B} (f : A -> result E B) (g : A -> B) l :
  (forall x, x ∈ l -> f x = Ok (g x)) -> rmap f l = Ok (map g l).
Proof.
  intros Hf. apply rmap_Ok. induction l as [|x l IH]; simpl; constructor.
  - apply Hf. left.
  - apply IH. intros y Hy. apply Hf. by right.
Qed.

Lemma check_all_ok {A} (f : A -> res unit) l : (forall x, x ∈ l -> f x = Ok tt) -> check_all f l = Ok tt.
Proof.
  induction l as [|x l IH]; intros Hf; simpl; [done|]. rewrite Hf by left. simpl.
  apply IH. intros y Hy. apply Hf. by right.
Qed.

(** ** Snapshots *)

Section Snapshot.
Context (L : PortfolioLedger).

(** Balances a snapshot accepts: non-zero and on the grid their key is bound to. *)
Definition cash_ok (cash : gmap SettlementCurrency CanonicalDecimal) : Prop :=
  forall c d, cash !! c = Some d -> units d <> 0 /\
    exists q, l_currency_quanta L !! c = Some q /\ 0 < units q /\ on_grid d q.
Definition positions_ok (positions : gmap Instrument CanonicalDecimal) : Prop :=
  forall i d, positions !! i = Some d -> units d <> 0 /\
    exists s, l_spec_by_instrument L !! i = Some s /\ 0 < units (quantity_quantum s) /\
      on_grid d (quantity_quantum s).
Definition rounding_ok (rounding : gmap SettlementCurrency CanonicalDecimal) : Prop :=
  forall c d, rounding !! c = Some d -> units d <> 0.

(** An identity of the given owner in the ledger's run. *)
Definition id_ok (owner : EconomicOwnerKind) (i : EconomicId) : Prop :=
  owner_kind i = owner /\ id_run_id i = l_run_id L.

Record refs_ok (sequence : Z) (last_sha256 : Sha256Digest)
  (unresolved : gmap EconomicId UnresolvedFillRef)
  (open_bindings : gmap EconomicId ExistingLedgerBinding)
  (open_refs : gmap EconomicId OpenReconciliationRef) : Prop := {
  unresolved_ok f u : unresolved !! f = Some u -> unresolved_fill_id u = f /\ id_ok EXECUTION_FILL f;
  open_binding_ok f b : open_bindings !! f = Some b ->
    binding_fill_id b = f /\ id_ok EXECUTION_FILL f /\ id_ok LEDGER_ENTRY (binding_entry_id b) /\
    1 <= owner_sequence (binding_entry_id b) <= sequence /\
    (owner_sequence (binding_entry_id b) = sequence -> binding_transaction_sha256 b = last_sha256);
  open_entries_distinct f b f' b' : open_bindings !! f = Some b -> open_bindings !! f' = Some b' ->
    binding_entry_id b = binding_entry_id b' -> f = f';
  open_ref_ok f r : open_refs !! f = Some r ->
    open_fill_id r = f /\ exists b, open_bindings !! f = Some b /\
      binding_fill_sha256 b = open_fill_sha256 r;
  open_ref_exists f b : open_bindings !! f = Some b -> is_Some (open_refs !! f);
  unresolved_agrees f u r : unresolved !! f = Some u -> open_refs !! f = Some r ->
    unresolved_fill_sha256 u = open_fill_sha256 r
}.

(** The snapshot [_snapshot] builds when nothing raises. *)
Definition snapshot_of (sequence : Z) (last_entry : EconomicId) (last_sha256 : Sha256Digest)
  (cash : gmap SettlementCurrency CanonicalDecimal) (positions : gmap Instrument CanonicalDecimal)
  (rounding : gmap SettlementCurrency CanonicalDecimal)
  (unresolved : gmap EconomicId UnresolvedFillRef)
  (open_bindings : gmap EconomicId ExistingLedgerBinding)
  (open_refs : gmap EconomicId OpenReconciliationRef) : PortfolioSnapshot :=
  {| snap_run_id := l_run_id L;
     snap_spec_set_id := spec_set_identifier (l_spec_set L);
     snap_spec_set_sha256 := l_spec_set_sha256 L;
     snapshot_version := sequence;
     Portfolio.ledger_sequence := sequence;
     last_entry_id := Some last_entry;
     last_transaction_sha256 := Some last_sha256;
     cash_balances :=
       map (fun kv : SettlementCurrency * CanonicalDecimal =>
              mkCashBalance kv.1 (default kv.2 (l_currency_quanta L !! kv.1)) kv.2)
         (sorted_items value cash);
     position_balances :=
       map (fun kv : Instrument * CanonicalDecimal =>
              mkPositionBalance kv.1
                (default kv.2 (quantity_quantum <$> l_spec_by_instrument L !! kv.1)) kv.2)
         (sorted_items instrument_key positions);
     rounding_balances :=
       map (fun kv : SettlementCurrency * CanonicalDecimal => mkRoundingBalance kv.1 kv.2)
         (sorted_items value rounding);
     unresolved_fills := (sorted_items _economic_id_key unresolved).*2;
     open_reconciliation_bindings := (sorted_items _economic_id_key open_bindings).*2;
     open_reconciliation_refs := (sorted_items _economic_id_key open_refs).*2 |}.

Lemma grid_balance_checked d q : 0 < units q -> on_grid d q ->
  (let* _ := require_positive q in require_quantized d q) = Ok d.
Proof.
  intros Hq Hg. rewrite require_positive_spec, (proj2 (Z.ltb_lt _ _) Hq). cbn [rbind].
  by destruct (require_quantized_ok d q Hq) as [[-> _]|[_ ?]].
Qed.

Lemma require_economic_id_ok i owner : id_ok owner i ->
  _require_economic_id i (Some owner) (Some (l_run_id L)) = Ok i.
Proof.
  intros [Ho Hr]. unfold _require_economic_id. by rewrite !bool_decide_eq_true_2.
Qed.

Lemma check_open_bindings_ok s l m entries :
  snap_run_id s = l_run_id L ->
  (forall b, b ∈ l -> id_ok EXECUTION_FILL (binding_fill_id b) /\
     id_ok LEDGER_ENTRY (binding_entry_id b) /\
     1 <= owner_sequence (binding_entry_id b) <= Portfolio.ledger_sequence s /\
     (owner_sequence (binding_entry_id b) = Portfolio.ledger_sequence s ->
      last_transaction_sha256 s = Some (binding_transaction_sha256 b))) ->
  NoDup (binding_entry_id <$> l) -> (forall b, b ∈ l -> binding_entry_id b ∉ entries) ->
  check_open_bindings s l m entries
  = Ok (fold_left (fun acc b => <[binding_fill_id b := b]> acc) l m).
Proof.
  intros Hrun. revert m entries; induction l as [|b l IH]; intros m entries Hok Hnd Hni; [done|].
  cbn [check_open_bindings fold_left]. destruct (Hok b ltac:(left)) as (Hf & He & Hseq & Hlast).
  rewrite Hrun, (require_economic_id_ok _ _ He). cbn [rbind].
  rewrite (require_economic_id_ok _ _ Hf). cbn [rbind].
  rewrite (proj2 (Z.eqb_neq _ _)) by lia. rewrite (proj2 (Z.ltb_ge _ _)) by lia.
  apply NoDup_cons in Hnd as [Hbn Hnd].
  assert ((owner_sequence (binding_entry_id b) =? Portfolio.ledger_sequence s)
    && negb (bool_decide (Some (binding_transaction_sha256 b) = last_transaction_sha256 s)) = false) as ->.
  { destruct (Z.eqb_spec (owner_sequence (binding_entry_id b)) (Portfolio.ledger_sequence s)); [|done].
    by rewrite bool_decide_eq_true_2 by (symmetry; auto). }
  rewrite bool_decide_eq_false_2 by (apply Hni; left).
  apply IH; [intros b' Hb'; apply Hok; by right|done|].
  intros b' Hb' [Heq%elem_of_singleton|Hin]%elem_of_union.
  - apply Hbn. rewrite <-Heq. by apply list_elem_of_fmap_2.
  - apply (Hni b'); [by right|done].
Qed.

Lemma check_open_refs_ok s bindings l m :
  snap_run_id s = l_run_id L ->
  (forall r, r ∈ l -> id_ok EXECUTION_FILL (open_fill_id r) /\
     exists b, bindings !! open_fill_id r = Some b /\ binding_fill_sha256 b = open_fill_sha256 r) ->
  check_open_refs s bindings l m = Ok (fold_left (fun acc r => <[open_fill_id r := r]> acc) l m).
Proof.
  intros Hrun. revert m; induction l as [|r l IH]; intros m Hok; [done|].
  cbn [check_open_refs fold_left]. destruct (Hok r ltac:(left)) as (Hf & b & Hb & Hsha).
  rewrite Hrun, (require_economic_id_ok _ _ Hf), Hb. cbn [rbind].
  rewrite bool_decide_eq_true_2 by done. apply IH. intros r' Hr'. apply Hok. by right.
Qed.

(** The values of a view carry the property of the map's bindings. *)
Lemma in_sorted_values {A} (m : gmap EconomicId A) a :
  a ∈ (sorted_items _economic_id_key m).*2 -> exists k, m !! k = Some a.
Proof.
  intros ([k a'] & -> & Hin)%list_elem_of_fmap. exists k.
  by apply (elem_of_sorted_items _economic_id_key) in Hin.
Qed.

Lemma snapshot_tuples_ok sequence e d cash positions rounding unresolved bindings refs :
  refs_ok sequence d unresolved bindings refs ->
  _require_snapshot_tuples
    (snapshot_of sequence e d cash positions rounding unresolved bindings refs) = Ok tt.
Proof.
  intros Hr. unfold _require_snapshot_tuples. set (s := snapshot_of _ _ _ _ _ _ _ _ _).
  assert (canonical_keys (map (fun b => value (cash_currency b)) (cash_balances s)) = true) as ->.
  { subst s. simpl. rewrite map_map. simpl. apply sorted_items_canonical. apply _. }
  assert (canonical_keys (map (fun b => instrument_key (position_instrument b)) (position_balances s)) = true) as ->.
  { subst s. simpl. rewrite map_map. simpl. apply sorted_items_canonical. apply _. }
  assert (canonical_keys (map (fun b => value (rounding_currency b)) (rounding_balances s)) = true) as ->.
  { subst s. simpl. rewrite map_map. simpl. apply sorted_items_canonical. apply _. }
  subst s. cbn [negb unresolved_fills open_reconciliation_bindings open_reconciliation_refs snapshot_of].
  rewrite !sorted_values_canonical; try apply _.
  2:{ intros f r Hl. by apply (open_ref_ok _ _ _ _ _ Hr) in Hl as [? _]. }
  2:{ intros f b Hl. by apply (open_binding_ok _ _ _ _ _ Hr) in Hl as [? _]. }
  2:{ intros f u Hl. by apply (unresolved_ok _ _ _ _ _ Hr) in Hl as [? _]. }
  cbn [negb].
  change (snap_run_id (snapshot_of _ _ _ _ _ _ _ _ _)) with (l_run_id L).
  rewrite check_all_ok.
  2:{ intros u (f & Hl)%in_sorted_values. apply (unresolved_ok _ _ _ _ _ Hr) in Hl as [-> Hf].
      by rewrite (require_economic_id_ok _ _ Hf). }
  cbn [rbind]. rewrite check_open_bindings_ok; [|done| | |by intros b _ ?%not_elem_of_empty].
  2:{ intros b (f & Hl)%in_sorted_values. destruct (open_binding_ok _ _ _ _ _ Hr _ _ Hl) as (-> & Hf & He & Hs & Hd).
      split_and!; try done; simpl; [lia..|]. intros Heq. by rewrite Hd. }
  2:{ rewrite <-list_fmap_compose.
      pose proof (sorted_items_NoDup _economic_id_key bindings) as Hnd.
      assert (forall kv, kv ∈ sorted_items _economic_id_key bindings -> bindings !! kv.1 = Some kv.2) as Hin.
      { intros [k b] ?. by apply (elem_of_sorted_items _economic_id_key). }
      induction (sorted_items _economic_id_key bindings) as [|[k b] l IH]; simpl; [constructor|].
      apply NoDup_cons in Hnd as [Hk Hnd]. constructor.
      - intros ([k' b'] & Heq & Hin')%list_elem_of_fmap. simpl in Heq.
        pose proof (Hin (k, b) ltac:(left)) as H1. pose proof (Hin (k', b') ltac:(by right)) as H2.
        simpl in *. pose proof (open_entries_distinct _ _ _ _ _ Hr _ _ _ _ H1 H2 Heq). subst k'.
        apply Hk. by apply (list_elem_of_fmap_2 fst) in Hin'.
      - apply IH; [done|]. intros kv Hkv. apply Hin. by right. }
  cbn [rbind]. rewrite (fold_insert_sorted _economic_id_key bindings binding_fill_id id)
    by (intros k b Hl; by apply (open_binding_ok _ _ _ _ _ Hr) in Hl as [? _]).
  rewrite map_fmap_id.
  rewrite check_open_refs_ok; [|done|].
  2:{ intros r (f & Hl)%in_sorted_values. destruct (open_ref_ok _ _ _ _ _ Hr _ _ Hl) as (-> & b & Hb & Hsha).
      split; [|by exists b]. by apply (open_binding_ok _ _ _ _ _ Hr) in Hb as (_ & ? & _). }
  cbn [rbind]. rewrite (fold_insert_sorted _economic_id_key refs open_fill_id id)
    by (intros k b Hl; by apply (open_ref_ok _ _ _ _ _ Hr) in Hl as [? _]).
  rewrite map_fmap_id.
  rewrite bool_decide_eq_true_2.
  2:{ apply set_eq. intros f. rewrite !elem_of_dom. split.
      - intros [b Hb]. by apply (open_ref_exists _ _ _ _ _ Hr) in Hb.
      - intros [r Hl]. apply (open_ref_ok _ _ _ _ _ Hr) in Hl as (_ & b & ? & _). by exists b. }
  cbn [negb]. rewrite (fold_insert_sorted _economic_id_key unresolved unresolved_fill_id unresolved_fill_sha256)
    by (intros k b Hl; by apply (unresolved_ok _ _ _ _ _ Hr) in Hl as [? _]).
  apply check_all_ok. intros [f r] Hin%elem_of_map_to_list. simpl. rewrite lookup_fmap.
  destruct (unresolved !! f) as [u|] eqn:Hu; simpl; [|done].
  by rewrite bool_decide_eq_true_2 by (by eapply (unresolved_agrees _ _ _ _ _ Hr)).
Qed.

(** [_snapshot] accepts every state whose balances are on grid and whose references
    agree: none of its checks fires. *)
Lemma snapshot_ok sequence e d cash positions rounding unresolved bindings refs :
  1 <= sequence < 2 ^ 64 -> id_ok LEDGER_ENTRY e -> owner_sequence e = sequence ->
  cash_ok cash -> positions_ok positions -> rounding_ok rounding ->
  refs_ok sequence d unresolved bindings refs ->
  _snapshot L sequence e d cash positions rounding unresolved bindings refs
  = Ok (snapshot_of sequence e d cash positions rounding unresolved bindings refs).
Proof.
  intros Hseq He Hes Hcash Hpos Hround Hrefs. unfold _snapshot.
  rewrite (rmap_pure _ (fun kv => mkCashBalance kv.1 (default kv.2 (l_currency_quanta L !! kv.1)) kv.2)).
  2:{ intros [c a] Hin%(elem_of_sorted_items value). destruct (Hcash _ _ Hin) as (Hnz & q & Hq & Hq0 & Hg).
      unfold get_item, CashBalance_init. simpl. rewrite Hq. cbn [rbind].
      rewrite grid_balance_checked by done. simpl. by rewrite coefficient_zero, (proj2 (Z.eqb_neq _ _) Hnz). }
  cbn [rbind].
  rewrite (rmap_pure _ (fun kv => mkPositionBalance kv.1
    (default kv.2 (quantity_quantum <$> l_spec_by_instrument L !! kv.1)) kv.2)).
  2:{ intros [i a] Hin%(elem_of_sorted_items instrument_key). destruct (Hpos _ _ Hin) as (Hnz & s & Hs & Hq0 & Hg).
      unfold get_item, PositionBalance_init. simpl. rewrite Hs. cbn [rbind].
      rewrite grid_balance_checked by done. simpl. by rewrite coefficient_zero, (proj2 (Z.eqb_neq _ _) Hnz). }
  cbn [rbind].
  rewrite (rmap_pure _ (fun kv => mkRoundingBalance kv.1 kv.2)).
  2:{ intros [c a] Hin%(elem_of_sorted_items value). pose proof (Hround _ _ Hin) as Hnz.
      unfold RoundingBalance_init. simpl. by rewrite coefficient_zero, (proj2 (Z.eqb_neq _ _) Hnz). }
  cbn [rbind]. unfold PortfolioSnapshot_init. fold (snapshot_of sequence e d cash positions rounding unresolved bindings refs).
  set (s := snapshot_of _ _ _ _ _ _ _ _ _).
  change (snapshot_version s) with sequence. change (Portfolio.ledger_sequence s) with sequence.
  change (last_entry_id s) with (Some e). change (snap_run_id s) with (l_run_id L).
  unfold _require_version.
  rewrite (proj2 (Z.ltb_ge sequence 0)), (proj2 (Z.leb_gt (2 ^ 64) sequence)) by lia.
  cbn [orb rbind]. rewrite Z.eqb_refl. cbn [negb].
  unfold s at 1. rewrite snapshot_tuples_ok by done. cbn [rbind].
  rewrite (proj2 (Z.eqb_neq _ _)) by lia.
  rewrite (require_economic_id_ok _ _ He). cbn [rbind]. rewrite Hes, Z.eqb_refl. cbn [negb].
  by rewrite bool_decide_eq_false_2.
Qed.
End Snapshot.
