(* ===== verification/FactInvariant.v ===== *)
(** The execution fact authority: its steps as a relation, and the invariant of its state. *)

From S2P Require Import Prelude PyRegex PyText Outcomes Json Identity Economics Commission Execution Messages.
From S2P Require Import Orders Wire Decoders ExecutionState FactAuthority.

Open Scope Z_scope.

(** *** The specification of the fact authority: what one [process_ingress] does as a
    relation with one rule per way of being processed, deliveries and reachable states,
    what its ports promise, the abstract Order state machine and the invariant. *)

Section Spec.
Context `{hash : Sha256} (context : FactAuthorityContext).

(** ** One ingress *)

Section Step.
Context `{orders : OrderResolutionVerifier} `{dispatch : RuntimeFactDispatchVerifier}.
Context (st : _FactAuthorityState) (ingress : ExecutionFactIngress).

Abbreviation ingress_bytes := (canonical_execution_fact_ingress_bytes ingress).
Abbreviation fact_bytes := (canonical_execution_fact_bytes (ingress_fact ingress)).

Definition no_resolution : _Resolution := mkResolution [] None [] None ∅.
Definition no_projection : _ProjectionResult := mkProjectionResult None None None None ∅.

(** What a first fact is published with. *)
Inductive first_fact : ExecutionFactAction -> list ExecutionFactAnomaly -> _Resolution -> option Fill ->
  _ProjectionResult -> option Z -> Prop :=
| first_invalid :
    _is_context_valid ingress context = Ok false ->
    first_fact INVALID [CONTEXT_INVALID] no_resolution None no_projection None
| first_valid resolution fill fill_after projection found :
    _is_context_valid ingress context = Ok true ->
    _resolve_orders context st ingress = Ok resolution ->
    _build_fill context st ingress = Ok (fill, fill_after) ->
    let inherited := rs_anomalies resolution ∪
      anomaly_if (match fill with Some f => missing_ancestry f | None => false end) MISSING_ANCESTRY in
    _project context st ingress fill resolution inherited = Ok projection ->
    found = ordered_anomalies (inherited ∪ pr_anomalies projection) ->
    first_fact (if bool_decide (found = []) then ACCEPTED else UNRESOLVED) found resolution fill projection fill_after.

Inductive processed : _FactAuthorityState -> ExecutionFactProcessingOutcome -> Prop :=
| processed_replay r :
    ingress_index st !! ingress_identity_of ingress = Some r ->
    ir_ingress_bytes r = ingress_bytes -> ir_fact_bytes r = fact_bytes ->
    processed st (ir_outcome r)
| processed_repeat n existing action outcome :
    ingress_index st !! ingress_identity_of ingress = None ->
    _require_active_dispatch ingress ingress_bytes fact_bytes = Ok n ->
    fact_index st !! fact_dedup_key (ingress_fact ingress) = Some existing ->
    action = (if bool_decide (fr_fact_bytes existing = fact_bytes) then DUPLICATE else CONFLICT) ->
    create_execution_fact_processing_outcome (fa_run_id context) n ingress action [] [] None None None None
      = Ok outcome ->
    processed (_state_with_ingress_outcome st ingress ingress_bytes fact_bytes outcome
                 (halt_requested st || bool_decide (action = CONFLICT))) outcome
| processed_first n action found resolution fill projection fill_after order_ids client_keys outcome :
    ingress_index st !! ingress_identity_of ingress = None ->
    _require_active_dispatch ingress ingress_bytes fact_bytes = Ok n ->
    fact_index st !! fact_dedup_key (ingress_fact ingress) = None ->
    first_fact action found resolution fill projection fill_after ->
    create_execution_fact_processing_outcome (fa_run_id context) n ingress action found (rs_bindings resolution)
      (selected_order resolution) fill (pr_before projection) (pr_after projection) = Ok outcome ->
    insert_derived_orders (order_index st, client_key_index st) (resolved_orders resolution)
      = Ok (order_ids, client_keys) ->
    processed (published_state st ingress ingress_bytes fact_bytes action found resolution fill projection
                 fill_after outcome order_ids client_keys) outcome.

Lemma fact_boundary_Ok {A} (m : res A) a : fact_boundary m = Ok a <-> m = Ok a.
Proof. by destruct m. Qed.

(** [process_ingress] returns exactly what one of the rules allows. *)
Lemma process_ingress_Ok st' outcome :
  process_ingress context st ingress = Ok (st', outcome) <-> processed st' outcome.
Proof.
  unfold process_ingress. rewrite fact_boundary_Ok. cbn [_materialize_ingress].
  unfold _materialize_ingress, _classify_ingress_replay. cbv iota beta. split.
  - intros H. apply rbind_Ok in H as (replay & Hr & H).
    destruct (ingress_index st !! _) as [r|] eqn:Hi in Hr.
    { destruct (_ && _) eqn:Hb in Hr; [|done]. apply andb_true_iff in Hb as [H1%bool_decide_eq_true H2%bool_decide_eq_true].
      injection Hr as <-. injection H as <- <-. by apply (processed_replay r). }
    injection Hr as <-. apply rbind_Ok in H as (n & Hn & H).
    destruct (fact_index st !! _) as [existing|] eqn:Hf.
    + unfold _publish_short_circuit in H. apply rbind_Ok in H as (o & Ho & [= <- <-]).
      by eapply processed_repeat.
    + apply rbind_Ok in H as (valid & Hv & H). destruct valid; cbn [negb] in H.
      * unfold process_first_fact in H. apply rbind_Ok in H as (resolution & Hres & H).
        apply rbind_Ok in H as ([fill fill_after] & Hfill & H). apply rbind_Ok in H as (projection & Hp & H).
        unfold _publish_first_fact in H. apply rbind_Ok in H as (o & Ho & H).
        apply rbind_Ok in H as ([ids keys] & Hd & [= <- <-]).
        eapply processed_first; [done..| |exact Ho|exact Hd]. by eapply first_valid.
      * unfold _publish_first_fact in H. apply rbind_Ok in H as (o & Ho & H).
        apply rbind_Ok in H as ([ids keys] & Hd & [= <- <-]).
        eapply processed_first; [done..| |exact Ho|exact Hd]. by apply first_invalid.
  - intros [r Hi H1 H2|n existing action o Hi Hn Hf -> Ho|n action found resolution fill projection fill_after ids
      keys o Hi Hn Hf Hfirst Ho Hd]; rewrite Hi.
    + by rewrite H1, H2, !bool_decide_eq_true_2.
    + cbn [rbind]. rewrite Hn. cbn [rbind]. rewrite Hf. unfold _publish_short_circuit. by rewrite Ho.
    + cbn [rbind]. rewrite Hn. cbn [rbind]. rewrite Hf.
      destruct Hfirst as [Hv|resolution fill fill_after projection found Hv Hres Hfill inherited Hp ->];
        rewrite Hv; cbn [rbind negb].
      * unfold _publish_first_fact. cbn [rs_bindings selected_order pr_before pr_after resolved_orders no_resolution
          no_projection] in *. rewrite Ho. cbn [rbind]. by rewrite Hd.
      * unfold process_first_fact. rewrite Hres. cbn [rbind]. rewrite Hfill. cbn [rbind].
        fold inherited. rewrite Hp. cbn [rbind]. unfold _publish_first_fact. rewrite Ho. cbn [rbind]. by rewrite Hd.
Qed.
End Step.

(** ** Deliveries and reachable states *)

(** One call of [process_ingress] and the ports as they answer at that time. *)
Record delivery : Type := mkDelivery {
  dl_orders : OrderResolutionVerifier;
  dl_dispatch : RuntimeFactDispatchVerifier;
  dl_ingress : ExecutionFactIngress
}.
Definition attempt (st : _FactAuthorityState) (d : delivery)
  : res (_FactAuthorityState * ExecutionFactProcessingOutcome) :=
  @process_ingress hash (dl_orders d) (dl_dispatch d) context st (dl_ingress d).
(** The state a delivery leaves: the published one, or the old one when it raises. *)
Definition deliver (st : _FactAuthorityState) (d : delivery) : _FactAuthorityState :=
  match attempt st d with Ok (st', _) => st' | Raise _ => st end.
Definition run (ds : list delivery) : _FactAuthorityState := fold_left deliver ds initial_state.

(** The Orders the resolution port returns were issued for the authority's
    specification set, and answer to the key they were asked for by. *)
Definition issued_order (o : Order) : Prop :=
  exists i intent decision, create_order i intent decision (fa_spec_set context) = Ok o.
Class lawful (orders : OrderResolutionVerifier) : Prop := {
  lawful_id i o : resolve_issued_order_by_id i = Some o -> od_order_id o = i /\ issued_order o;
  lawful_key k o : resolve_issued_order_by_client_submission_key k = Some o ->
    order_client_submission_key o = k /\ issued_order o
}.
Definition reachable (st : _FactAuthorityState) : Prop :=
  exists ds, Forall (fun d => lawful (dl_orders d)) ds /\ st = run ds.

Lemma run_snoc ds d : run (ds ++ [d]) = deliver (run ds) d.
Proof. apply fold_left_app. Qed.

(** Induction over the published outcomes of a run. *)
Lemma published_ind (P : _FactAuthorityState -> Prop) : P initial_state ->
  (forall st orders dispatch ingress st' o, lawful orders -> P st ->
    @processed orders dispatch st ingress st' o -> P st') ->
  forall st, reachable st -> P st.
Proof.
  intros H0 Hstep st (ds & Hds & ->). induction ds as [|d ds IH] using rev_ind; [done|].
  apply Forall_app in Hds as [Hds Hd]. apply Forall_inv in Hd. specialize (IH Hds).
  rewrite run_snoc. unfold deliver. destruct (attempt (run ds) d) as [[st' o]|e] eqn:Hp; [|done].
  apply process_ingress_Ok in Hp. eapply Hstep; [exact Hd|exact IH|exact Hp].
Qed.

(** ** The log of ingresses and outcomes *)

Definition repeats (o : ExecutionFactProcessingOutcome) : bool :=
  match po_action o with DUPLICATE | CONFLICT => true | _ => false end.
Definition record_of (i : ExecutionFactIngress) (o : ExecutionFactProcessingOutcome) : _IngressRecord :=
  mkIngressRecord i (canonical_execution_fact_ingress_bytes i) (canonical_execution_fact_bytes (ingress_fact i)) o.
Abbreviation log := (list (ExecutionFactIngress * ExecutionFactProcessingOutcome)).
Definition first_of (e : ExecutionFactIngress * ExecutionFactProcessingOutcome) : option ExecutionFact :=
  if repeats e.2 then None else Some (ingress_fact e.1).

(** The state's lists and indexes are read off one log, in which no ingress identity
    occurs twice, and no fact is first twice. *)
Record log_ok (st : _FactAuthorityState) (l : log) : Prop := {
  lg_ingresses : fa_ingresses st = map fst l;
  lg_outcomes : fa_outcomes st = map snd l;
  lg_identities : NoDup (map (fun e => ingress_identity_of e.1) l);
  lg_index k r : ingress_index st !! k = Some r <->
    exists i o, (i, o) ∈ l /\ k = ingress_identity_of i /\ r = record_of i o;
  lg_first : first_facts st = omap first_of l;
  lg_keys : NoDup (map fact_dedup_key (first_facts st));
  lg_fact_index k : is_Some (fact_index st !! k) <-> k ∈ map fact_dedup_key (first_facts st);
  lg_fact_record k r : fact_index st !! k = Some r ->
    fr_fact r ∈ first_facts st /\ fact_dedup_key (fr_fact r) = k /\
    fr_fact_bytes r = canonical_execution_fact_bytes (fr_fact r);
  lg_repeat i o : (i, o) ∈ l -> repeats o = true ->
    exists f, f ∈ first_facts st /\ fact_dedup_key f = fact_dedup_key (ingress_fact i) /\
      po_action o = if bool_decide (canonical_execution_fact_bytes f = canonical_execution_fact_bytes (ingress_fact i))
                    then DUPLICATE else CONFLICT;
  lg_halt : halt_requested st = existsb (fun e => po_requires_reconciliation e.2) l;
  lg_outcome i o : (i, o) ∈ l ->
    po_ingress_identity o = ingress_identity_of i /\ po_fact_key o = fact_dedup_key (ingress_fact i) /\
    po_ingress_sha256 o = execution_fact_ingress_digest i /\
    po_fact_sha256 o = execution_fact_digest (ingress_fact i) /\
    po_outcome_code o = _ACTION_OUTCOME (po_action o) /\
    po_requires_reconciliation o = halting (po_action o)
}.

(** ** Fills *)

Definition fill_id_at (n : nat) : EconomicId := mkEconomicId (fa_run_id context) EXECUTION_FILL (Z.of_nat n + 1).
(** The first trade facts whose context was valid, in order. *)
Definition filled_fact (e : ExecutionFactIngress * ExecutionFactProcessingOutcome) : option ExecutionFact :=
  if requires_fill e.1 (po_action e.2) then Some (ingress_fact e.1) else None.

(** One fill per such fact, in order, numbered from one. *)
Record fills_ok (st : _FactAuthorityState) (l : log) : Prop := {
  fl_ids : map fill_id (fa_fills st) = map fill_id_at (seq 0 (length (fa_fills st)));
  fl_bound : Z.of_nat (length (fa_fills st)) <= MAX_UINT64;
  fl_next : fill_next st = if Z.of_nat (length (fa_fills st)) =? MAX_UINT64 then None
                           else Some (Z.of_nat (length (fa_fills st)) + 1);
  fl_issued : Forall2 (fun fl f => create_fill (fill_id fl) f (fa_spec_set context) = Ok fl)
                (fa_fills st) (omap filled_fact l);
  fl_outcomes : omap (fun e => po_fill_id e.2) l = map fill_id (fa_fills st);
  fl_index i fl : fill_index st !! i = Some fl <-> fl ∈ fa_fills st /\ fill_id fl = i
}.
End Spec.

(** *** The log and the fills of the fact authority, and their preservation by every
    published outcome. *)

Lemma state_boundary_Ok {A} (m : res A) a : state_boundary m = Ok a -> m = Ok a.
Proof. by destruct m. Qed.

Section Invariant.
Context `{hash : Sha256} (context : FactAuthorityContext).

(** What an outcome records of its arguments. *)
Lemma created_outcome run_id n ingress action found bindings order fill before after o :
  create_execution_fact_processing_outcome run_id n ingress action found bindings order fill before after = Ok o ->
  (po_ingress_identity o = ingress_identity_of ingress /\ po_fact_key o = fact_dedup_key (ingress_fact ingress) /\
   po_ingress_sha256 o = execution_fact_ingress_digest ingress /\
   po_fact_sha256 o = execution_fact_digest (ingress_fact ingress) /\
   po_outcome_code o = _ACTION_OUTCOME (po_action o) /\ po_requires_reconciliation o = halting (po_action o)) /\
  (po_action o = action /\ po_anomalies o = found /\ po_fill_id o = fill_id <$> fill /\
   po_resolved_order_id o = od_order_id <$> order /\ po_order_resolutions o = bindings /\
   po_dispatch_sequence o = n /\
   po_projection_before_sha256 o = order_projection_snapshot_digest <$> before /\
   po_projection_after_sha256 o = order_projection_snapshot_digest <$> after) /\
  negb (bool_decide (fill = None)) = requires_fill ingress action /\ action_allows action found = true.
Proof.
  unfold create_execution_fact_processing_outcome. intros H%state_boundary_Ok.
  destruct (negb _) in H; [done|]. apply rbind_Ok in H as ([] & Ha & H). apply rbind_Ok in H as ([] & _ & H).
  destruct (negb (bool_decide (_ = od_order_id <$> order))) eqn:Hid in H; [done|].
  apply negb_false_iff, bool_decide_eq_true in Hid.
  destruct (match order with Some _ => _ | None => _ end) in H; [done|].
  apply rbind_Ok in H as ([] & Hf & H). apply rbind_Ok in H as ([] & _ & H).
  destruct (short_circuit action && _) in H; [done|]. apply Ok_inj in H. subst o.
  unfold _require_action_anomalies in Ha. destruct (negb _) in Ha; [done|].
  destruct (action_allows action found) eqn:Hallow; [|done].
  unfold _require_fill_context in Hf. destruct (negb _) eqn:Hb in Hf; [done|].
  apply negb_false_iff, Bool.eqb_prop in Hb. by destruct action.
Qed.

(** *** The log *)

Lemma log_ok_initial : log_ok initial_state [].
Proof.
  split; cbn [initial_state fa_ingresses fa_outcomes ingress_index first_facts fact_index halt_requested map omap]; try done.
  - apply NoDup_nil_2.
  - intros k r. rewrite lookup_empty. split; [done|]. by intros (i & o & Hin%not_elem_of_nil & _).
  - apply NoDup_nil_2.
  - intros k. rewrite lookup_empty. split; [by intros []|]. by intros Hin%not_elem_of_nil.
  - by intros i o Hin%not_elem_of_nil.
  - by intros i o Hin%not_elem_of_nil.
Qed.

(** The parts of a published state the log determines. *)
Record log_step (st st' : _FactAuthorityState) (i : ExecutionFactIngress) (o : ExecutionFactProcessingOutcome)
  : Prop := {
  ls_fresh : ingress_index st !! ingress_identity_of i = None;
  ls_ingresses : fa_ingresses st' = fa_ingresses st ++ [i];
  ls_outcomes : fa_outcomes st' = fa_outcomes st ++ [o];
  ls_index : ingress_index st' = <[ingress_identity_of i := record_of i o]> (ingress_index st);
  ls_halt : halt_requested st' = halt_requested st || po_requires_reconciliation o;
  ls_recorded : po_ingress_identity o = ingress_identity_of i /\ po_fact_key o = fact_dedup_key (ingress_fact i) /\
    po_ingress_sha256 o = execution_fact_ingress_digest i /\
    po_fact_sha256 o = execution_fact_digest (ingress_fact i) /\
    po_outcome_code o = _ACTION_OUTCOME (po_action o) /\ po_requires_reconciliation o = halting (po_action o);
  ls_facts :
    if repeats o then first_facts st' = first_facts st /\ fact_index st' = fact_index st /\
      exists existing, fact_index st !! fact_dedup_key (ingress_fact i) = Some existing /\
        po_action o = if bool_decide (fr_fact_bytes existing = canonical_execution_fact_bytes (ingress_fact i))
                      then DUPLICATE else CONFLICT
    else fact_index st !! fact_dedup_key (ingress_fact i) = None /\
         first_facts st' = first_facts st ++ [ingress_fact i] /\
         fact_index st' = <[fact_dedup_key (ingress_fact i) :=
           mkFactRecord (ingress_fact i) (canonical_execution_fact_bytes (ingress_fact i)) (ingress_identity_of i)]>
           (fact_index st)
}.

Lemma log_step_ok st st' l i o : log_ok st l -> log_step st st' i o -> log_ok st' (l ++ [(i, o)]).
Proof.
  intros [L1 L2 L3 L4 L5 L6 L7 L8 LR L9 L10] [S1 S2 S3 S4 S5 S6 S7].
  assert (ingress_identity_of i ∉ map (fun e => ingress_identity_of e.1) l) as Hfresh.
  { intros Hin%list_elem_of_In%in_map_iff. destruct Hin as ([i' o'] & Hid & Hin). cbn in Hid.
    assert (ingress_index st !! ingress_identity_of i' = Some (record_of i' o')) as Hs
      by (apply L4; exists i', o'; by rewrite list_elem_of_In). by rewrite Hid, S1 in Hs. }
  assert (first_facts st' = first_facts st ++ option_list (first_of (i, o))) as Hfirst.
  { unfold first_of. cbn [fst snd]. destruct (repeats o).
    - destruct S7 as [-> _]. cbn. by rewrite app_nil_r.
    - by destruct S7 as (_ & -> & _). }
  split.
  - by rewrite S2, L1, map_app.
  - by rewrite S3, L2, map_app.
  - rewrite map_app. apply NoDup_app. split_and!; [done| |apply NoDup_singleton].
    intros k Hk Hin%list_elem_of_singleton. cbn in Hin. by subst.
  - intros k r. rewrite S4, lookup_insert_Some. split.
    + intros [[<- <-]|[Hne Hr]].
      * exists i, o. split_and!; try done. apply elem_of_app. right. by left.
      * apply L4 in Hr as (i' & o' & Hin & Hk & Hr). exists i', o'. split_and!; try done. apply elem_of_app. by left.
    + intros (i' & o' & [Hin|Hin%list_elem_of_singleton]%elem_of_app & -> & ->).
      * right. split; [|apply L4; by exists i', o']. intros He. apply Hfresh. rewrite He.
        apply list_elem_of_In, in_map_iff. exists (i', o'). by rewrite <-list_elem_of_In.
      * left. by injection Hin as -> ->.
  - rewrite Hfirst, L5, omap_app. cbn. by destruct (first_of (i, o)).
  - rewrite Hfirst, map_app. apply NoDup_app. split_and!; [done| |unfold first_of; cbn; destruct (repeats o);
      [apply NoDup_nil_2|apply NoDup_singleton]].
    intros k Hk Hin. unfold first_of in Hin. cbn in Hin. destruct (repeats o); [by apply not_elem_of_nil in Hin|].
    apply list_elem_of_singleton in Hin. subst k. destruct S7 as (Hn & _). apply L7 in Hk as [? Hk]. by rewrite Hn in Hk.
  - intros k. rewrite Hfirst. unfold first_of. cbn [fst snd]. destruct (repeats o); cbn [option_list].
    + destruct S7 as (_ & -> & _). by rewrite app_nil_r.
    + destruct S7 as (_ & _ & ->). rewrite map_app, elem_of_app, <-L7. cbn.
      rewrite list_elem_of_singleton. destruct (decide (k = fact_dedup_key (ingress_fact i))) as [->|Hne].
      * rewrite lookup_insert_eq. split; [by right|by eexists].
      * rewrite lookup_insert_ne by done. tauto.
  - intros k r Hr. rewrite Hfirst. unfold first_of. cbn [fst snd]. destruct (repeats o); cbn [option_list].
    + destruct S7 as (_ & Hi & _). rewrite Hi in Hr. rewrite app_nil_r. by apply L8.
    + destruct S7 as (_ & _ & Hi). rewrite Hi in Hr. apply lookup_insert_Some in Hr as [[<- <-]|[_ Hr]].
      * split_and!; try done. apply elem_of_app. right. by left.
      * destruct (L8 _ _ Hr) as (? & ? & ?). split_and!; try done. apply elem_of_app. by left.
  - intros i' o' [Hin|Hin%list_elem_of_singleton]%elem_of_app Hr.
    + destruct (LR _ _ Hin Hr) as (f & Hf & Hk & Ha). exists f. rewrite Hfirst. split; [|done]. apply elem_of_app. by left.
    + injection Hin as -> ->. rewrite Hr in S7. destruct S7 as (Hsame & _ & existing & He & Ha).
      destruct (L8 _ _ He) as (Hf & Hk & Hb). exists (fr_fact existing). rewrite Hsame, <-Hb. done.
  - rewrite S5, L9, existsb_app. cbn. by rewrite orb_false_r.
  - intros i' o' [Hin|Hin%list_elem_of_singleton]%elem_of_app; [by apply L10|]. by injection Hin as -> ->.
Qed.

(** Every published outcome is a step of the log. *)
Lemma processed_log_step orders dispatch st ingress st' o :
  @processed hash context orders dispatch st ingress st' o ->
  (st' = st /\ exists r, ingress_index st !! ingress_identity_of ingress = Some r /\ o = ir_outcome r /\
     ir_ingress_bytes r = canonical_execution_fact_ingress_bytes ingress) \/
  log_step st st' ingress o.
Proof.
  intros [r Hi H1 H2|n existing action o' Hi Hn Hf Ha Ho|n action found resolution fill projection fill_after ids
    keys o' Hi Hn Hf Hfirst Ho Hd].
  - left. split; [done|]. by exists r.
  - right. destruct (created_outcome _ _ _ _ _ _ _ _ _ _ _ Ho) as (Hrec & (Hact & _) & _).
    assert (repeats o' = true) as Hrep by (unfold repeats; rewrite Hact, Ha; by case_bool_decide).
    split; try done.
    + cbn. destruct Hrec as (_ & _ & _ & _ & _ & ->). rewrite Hact. f_equal. by subst action; case_bool_decide.
    + rewrite Hrep. split_and!; [done|done|]. exists existing. by rewrite Hact.
  - right. destruct (created_outcome _ _ _ _ _ _ _ _ _ _ _ Ho) as (Hrec & (Hact & _) & _).
    assert (repeats o' = false) as Hrep
      by (unfold repeats; rewrite Hact; destruct Hfirst as [|? ? ? ? found']; [done|by case_bool_decide]).
    split; try done.
    + cbn. destruct Hrec as (_ & _ & _ & _ & _ & ->). by rewrite Hact.
    + by rewrite Hrep.
Qed.

(** *** Fills *)

Lemma fills_ok_initial : fills_ok context initial_state [].
Proof.
  split; cbn; try done. intros i fl. rewrite lookup_empty. split; [done|]. by intros [Hin%not_elem_of_nil _].
Qed.

(** A step without a fill. *)
Lemma fills_ok_same st st' l i o : fills_ok context st l ->
  fill_next st' = fill_next st -> fa_fills st' = fa_fills st -> fill_index st' = fill_index st ->
  po_fill_id o = None -> requires_fill i (po_action o) = false -> fills_ok context st' (l ++ [(i, o)]).
Proof.
  intros [F1 F2 F3 F4 F5 F6] Hn Hf Hi Ho Hr. split; rewrite ?Hn, ?Hf, ?Hi, ?omap_app; try done.
  - cbn. unfold filled_fact. cbn [fst snd]. rewrite Hr. cbn. by rewrite app_nil_r.
  - cbn. rewrite Ho. cbn. by rewrite app_nil_r.
Qed.

Lemma build_fill_Ok st ingress fill next : _build_fill context st ingress = Ok (fill, next) ->
  match fill with
  | None => next = fill_next st
  | Some fl => exists n, fill_next st = Some n /\ 0 <= n <= MAX_UINT64 /\
      create_fill (mkEconomicId (fa_run_id context) EXECUTION_FILL n) (ingress_fact ingress) (fa_spec_set context) = Ok fl /\
      next = (if n =? MAX_UINT64 then None else Some (n + 1))
  end.
Proof.
  unfold _build_fill. intros H.
  destruct (fact_kind (ingress_fact ingress)); try (by apply Ok_inj in H; injection H as <- <-).
  destruct (fact_payload (ingress_fact ingress)); try (by apply Ok_inj in H; injection H as <- <-).
  destruct (fill_next st) as [n|]; [|done]. apply rbind_Ok in H as (i & Hi & H).
  apply rbind_Ok in H as (fl & Hfl & H). apply rbind_Ok in H as (m & Hm & H). apply Ok_inj in H. injection H as <- <-.
  unfold EconomicId_init, _require_uint64 in Hi. destruct (_ || _) eqn:Hb in Hi; [done|]. apply Ok_inj in Hi. subst i.
  apply orb_false_iff in Hb as [Hb1 Hb2]. unfold _advance in Hm. destruct (negb _) in Hm; [done|]. apply Ok_inj in Hm.
  exists n. split_and!; try done; lia.
Qed.

Lemma created_fill_key i fact ss fl : create_fill i fact ss = Ok fl -> fill_fact_key fl = fact_dedup_key fact.
Proof.
  unfold create_fill. intros H. apply rbind_Ok in H as (? & _ & H).
  destruct (fact_kind fact), (fact_payload fact), (fact_instrument fact); try done.
  repeat (apply rbind_Ok in H as (? & _ & H)). apply Ok_inj in H. by subst.
Qed.
Lemma created_fill_run i fact ss fl : create_fill i fact ss = Ok fl -> fill_run_id fl = id_run_id (fill_id fl).
Proof.
  unfold create_fill. intros H. apply rbind_Ok in H as (? & _ & H).
  destruct (fact_kind fact), (fact_payload fact), (fact_instrument fact); try done.
  repeat (apply rbind_Ok in H as (? & _ & H)). apply Ok_inj in H. by subst.
Qed.
Lemma created_fill_id i fact ss fl : create_fill i fact ss = Ok fl -> fill_id fl = i.
Proof.
  unfold create_fill. intros H. apply rbind_Ok in H as (? & _ & H).
  destruct (fact_kind fact), (fact_payload fact), (fact_instrument fact); try done.
  repeat (apply rbind_Ok in H as (? & _ & H)). apply Ok_inj in H. by subst.
Qed.

Lemma seq_snoc (n : nat) : seq 0 (n + 1) = seq 0 n ++ [n].
Proof. by rewrite seq_app. Qed.

Lemma fills_ok_step orders dispatch st ingress st' o l : fills_ok context st l ->
  @processed hash context orders dispatch st ingress st' o ->
  (st' = st /\ is_Some (ingress_index st !! ingress_identity_of ingress)) \/ fills_ok context st' (l ++ [(ingress, o)]).
Proof.
  intros HF. intros [r Hi H1 H2|n existing action o' Hi Hn Hf Ha Ho|n action found resolution fill projection
    fill_after ids keys o' Hi Hn Hf Hfirst Ho Hd].
  - left. rewrite Hi. eauto.
  - right. destruct (created_outcome _ _ _ _ _ _ _ _ _ _ _ Ho) as (_ & (Hact & _ & Hfill & _) & Hreq & _).
    eapply fills_ok_same; try done. by rewrite Hact.
  - right. destruct (created_outcome _ _ _ _ _ _ _ _ _ _ _ Ho) as (_ & (Hact & _ & Hfill & _) & Hreq & _).
    assert (match fill with
      | None => True
      | Some fl => exists n, fill_next st = Some n /\ 0 <= n <= MAX_UINT64 /\
          create_fill (mkEconomicId (fa_run_id context) EXECUTION_FILL n) (ingress_fact ingress) (fa_spec_set context) = Ok fl /\
          fill_after = (if n =? MAX_UINT64 then None else Some (n + 1))
      end) as Hbuilt.
    { destruct Hfirst as [|res fill fill_after proj fnd Hv Hres Hb inherited _ _]; [done|].
      apply build_fill_Ok in Hb. by destruct fill. }
    destruct fill as [fl|].
    2:{ eapply fills_ok_same; try done; cbn; [by rewrite app_nil_r|by rewrite Hact]. }
    destruct Hbuilt as (k & Hk & Hrange & Hc & Hnext). destruct HF as [F1 F2 F3 F4 F5 F6].
    pose proof (created_fill_id _ _ _ _ Hc) as Hid. rewrite F3 in Hk.
    destruct (Z.eqb_spec (Z.of_nat (length (fa_fills st))) MAX_UINT64) as [|Hne]; [done|]. injection Hk as <-.
    assert (fill_index st !! fill_id fl = None) as Hnew.
    { destruct (fill_index st !! fill_id fl) as [fl'|] eqn:E; [|done]. apply F6 in E as [Hin He].
      assert (fill_id fl' ∈ map fill_id (fa_fills st)) as Hm by (by apply (list_elem_of_fmap_2 fill_id)).
      rewrite F1 in Hm. apply list_elem_of_In, in_map_iff in Hm as (j & Hj & Hjn%in_seq).
      rewrite He, Hid in Hj. unfold fill_id_at in Hj. injection Hj as Hj. lia. }
    split; cbn.
    + rewrite length_app, map_app, F1. cbn. rewrite seq_snoc, map_app. cbn. f_equal. unfold fill_id_at. by rewrite Hid.
    + rewrite length_app. cbn. lia.
    + rewrite length_app, Hnext. cbn. replace (Z.of_nat (length (fa_fills st) + 1)) with (Z.of_nat (length (fa_fills st)) + 1) by lia. done.
    + rewrite omap_app. apply Forall2_app; [done|]. cbn. unfold filled_fact. cbn [fst snd]. rewrite Hact, <-Hreq. cbn.
      constructor; [by rewrite Hid|constructor].
    + rewrite omap_app, map_app, F5. cbn. by rewrite Hfill.
    + intros i f. rewrite lookup_insert_Some, elem_of_app, list_elem_of_singleton, F6. split.
      * intros [[<- <-]|[Hd' [Hin He]]]; [split; [by right|done]|split; [by left|done]].
      * intros [[Hin| ->] He]; [|left; done]. destruct (decide (fill_id fl = i)) as [<-|]; [|right; done].
        assert (fill_index st !! fill_id fl = Some f) as Hs by (by apply F6). by rewrite Hnew in Hs.
Qed.

End Invariant.
