(* ===== verification/FactProjection.v ===== *)
(** Order projections: what a projection says of its Order, the abstract state machine
    its history follows, and the lemmas on quantities and on resolving Orders that the
    projection step rests on. *)

From S2P Require Import Prelude PyRegex PyText Outcomes Json Identity Economics Commission Execution Messages.
From S2P Require Import Orders Wire Decoders ExecutionState FactAuthority Canonical RoundTrip MessageCodec.
From S2P Require Import OrderCodec FactInvariant.
From S2P Require Ledger LedgerLemmas.

Open Scope Z_scope.

#[export] Instance policy_document_inj : Document _policy_document.
Proof. document _policy_document. Qed.
#[export] Instance order_document_inj : Document _order_document.
Proof.
  split; [|done]. intros a b He. unfold _order_document in He. entries He.
  destruct a as [? ? ? ? ? ? ? ? ? ? ? ? ? ? ? ? ? [] [] ? ? ? ? ?], b as [? ? ? ? ? ? ? ? ? ? ? ? ? ? ? ? ? [] [] ? ? ? ? ?].
  simpl in *. by subst.
Qed.

(** ** Quantities *)

Lemma quantity_text_scaled c s : 0 <= s -> quantity_text c s = _scaled_text c s.
Proof.
  intros Hs. unfold quantity_text, _scaled_text, _normalize_scaled.
  destruct (Z.eqb_spec c 0) as [->|Hc].
  { assert (normalize_loop (Z.to_nat s) 0 s = (0, 0)) as ->; [|done].
    assert (forall f t, 0 <= t -> (Z.to_nat t <= f)%nat -> normalize_loop f 0 t = (0, 0)) as Hgen; [|by apply Hgen].
    induction f as [|f IH]; intros t Ht Hf; cbn [normalize_loop].
    - f_equal. lia.
    - destruct (Z.ltb_spec 0 t); cbn; [apply IH; lia|]. f_equal. lia. }
  destruct (normalize_loop (Z.to_nat s) c s) as [c' s'] eqn:E.
  assert (forall f c s c' s', c <> 0 -> 0 <= s -> normalize_loop f c s = (c', s') -> c' <> 0 /\ 0 <= s') as Hgen.
  { clear. induction f as [|f IH]; intros c s c' s' Hc Hs; cbn [normalize_loop].
    - by intros [= <- <-].
    - destruct (Z.ltb_spec 0 s); cbn; [|by intros [= <- <-]]. destruct (Z.eqb_spec (c mod 10) 0); [|by intros [= <- <-]].
      apply IH; [|lia]. intros H0. pose proof (Z.div_mod c 10). lia. }
  destruct (Hgen _ _ _ _ _ Hc Hs E) as [Hc' Hs']. rewrite (proj2 (Z.eqb_neq c' 0) Hc').
  destruct (Z.eqb_spec s' 0) as [|Hs0]; [done|]. do 2 f_equal.
  set (ds := digits (Z.abs c')). clearbody ds.
  assert (zeros (Z.to_nat (s' + 1) - length ds) ++ ds =
    if Z.of_nat (length ds) <=? s' then zeros (Z.to_nat (s' + 1 - Z.of_nat (length ds))) ++ ds else ds) as ->; [|done].
  destruct (Z.leb_spec (Z.of_nat (length ds)) s') as [Hle|Hgt].
  - do 2 f_equal. lia.
  - by replace (Z.to_nat (s' + 1) - length ds)%nat with 0%nat by lia.
Qed.

(** Adding quantities is exact addition, or the sum is not a decimal. *)
Lemma add_quantities_spec a b :
  match _add_quantities a b with
  | Ok c => units c = units a + units b
  | Raise e => e = EconomicValidationError OUT_OF_RANGE /\ UNIT_BOUND <= Z.abs (units a + units b)
  end.
Proof.
  assert (_add_quantities a b = Ledger._add_decimal a b) as ->.
  { unfold _add_quantities. destruct (decimal_bounds a) as [Ha _], (decimal_bounds b) as [Hb _].
    rewrite quantity_text_scaled by lia. reflexivity. }
  by destruct (LedgerLemmas.add_decimal_cases a b) as [(d & -> & ?)|[-> ?]].
Qed.

Lemma elem_of_anomaly_if b a x : x ∈ anomaly_if b a <-> b = true /\ x = a.
Proof. destruct b; cbn; [rewrite elem_of_singleton|rewrite elem_of_empty]; naive_solver. Qed.

Lemma min_quantity_spec a b : min_quantity a b = Ok (if units b <? units a then b else a).
Proof. unfold min_quantity. by rewrite decimal_lt_units. Qed.

Lemma units_zero q : q = CANONICAL_0 <-> units q = 0.
Proof. split; [by intros ->|]. intros H. by apply units_inj. Qed.

(** What a projection state says of the quantity it shows. *)
Definition quantity_fits (s : OrderProjectionState) (q order_quantity : Z) : Prop :=
  0 <= q <= order_quantity /\
  match s with
  | SUBMITTED | ACKNOWLEDGED | REJECTED | DEFINITELY_NOT_SUBMITTED => q = 0
  | PARTIALLY_FILLED => 0 < q < order_quantity
  | FILLED => q = order_quantity
  | EXPIRED | CANCELLED => q < order_quantity
  end.

Lemma projection_quantity_spec s q oq :
  (projection_quantity_checked s q oq = Ok tt /\ quantity_fits s (units q) (units oq)) \/
  (projection_quantity_checked s q oq = Raise (raise_state OUT_OF_RANGE) /\ ~ quantity_fits s (units q) (units oq)).
Proof.
  assert (bool_decide (q = oq) = (units q =? units oq)) as Heq.
  { destruct (Z.eqb_spec (units q) (units oq)) as [E|E]; [apply bool_decide_eq_true; by apply units_inj|].
    apply bool_decide_eq_false. by intros ->. }
  assert (bool_decide (q = CANONICAL_0) = (units q =? 0)) as Hz.
  { destruct (Z.eqb_spec (units q) 0) as [E|E]; [by apply bool_decide_eq_true, units_zero|].
    apply bool_decide_eq_false. by rewrite units_zero. }
  unfold projection_quantity_checked, quantity_fits. rewrite Heq, Hz.
  rewrite !decimal_lt_units, decimal_gt_units, decimal_ge_units. change (units CANONICAL_0) with 0. cbn [rbind].
  destruct (Z.ltb_spec (units q) 0); cbn [rbind]; [right; split; [done|lia]|].
  destruct (Z.ltb_spec (units oq) (units q)); cbn [rbind]; [right; split; [done|lia]|].
  destruct s; cbn; destruct (Z.ltb_spec 0 (units q)), (Z.ltb_spec (units q) (units oq)), (Z.eqb_spec (units q) (units oq)),
    (Z.eqb_spec (units q) 0), (Z.leb_spec (units oq) (units q)); cbn;
    first [left; split; [reflexivity|lia] | right; split; [reflexivity|lia]].
Qed.

(** ** Orders in the authority's context *)

Section Orders.
Context `{hash : Sha256} (context : FactAuthorityContext) (Hss : spec_set_ok (fa_spec_set context)).

Lemma require_spec_set_Ok ss i a b c s digest : _require_spec_set ss i a b c = Ok (s, digest) ->
  require_spec ss i = Ok s /\ digest = instrument_spec_set_digest ss /\
  lineage_conflict (spec_set_identifier ss) b = false /\ lineage_conflict digest c = false.
Proof.
  unfold _require_spec_set. intros H. apply rbind_Ok in H as (s' & Hs & H).
  destruct (lineage_conflict (specification_id s') a); [done|].
  destruct (lineage_conflict (spec_set_identifier ss) b) eqn:E1; [done|].
  destruct (lineage_conflict (instrument_spec_set_digest ss) c) eqn:E2; [done|].
  apply Ok_inj in H. by injection H as -> <-.
Qed.
Lemma lineage_agrees {A} `{EqDecision A} (x y : A) : lineage_conflict x (Some y) = false -> x = y.
Proof. cbn. by intros Hx%negb_false_iff%bool_decide_eq_true. Qed.

(** The specification of an instrument of the set. *)
Definition quantum_of (i : Instrument) (q : CanonicalDecimal) : Prop :=
  exists s, require_spec (fa_spec_set context) i = Ok s /\ 0 < units (quantity_quantum s) /\ q = quantity_quantum s.
Definition gridded (i : Instrument) (v : CanonicalDecimal) : Prop :=
  forall q, quantum_of i q -> on_grid v q.

Lemma require_spec_ok i s : require_spec (fa_spec_set context) i = Ok s -> spec_ok s.
Proof.
  destruct Hss as (Hok & Hnd & _). intros Hs. apply find_spec_spec in Hs as [Hin _]; [|done].
  rewrite Forall_forall in Hok. by apply Hok.
Qed.

Lemma gridded_sum i a b c : gridded i a -> gridded i b -> units c = units a + units b -> gridded i c.
Proof.
  intros Ha Hb Hc q Hq. unfold on_grid. rewrite Hc. apply Z.divide_add_r; [by apply Ha|by apply Hb].
Qed.
Lemma gridded_zero i : gridded i CANONICAL_0.
Proof. intros q _. apply Z.divide_0_r. Qed.

(** An Order issued for the authority's specification set and run. *)
Record order_in (o : Order) : Prop := {
  order_issued : issued_order context o;
  order_run : od_run_id o = fa_run_id context
}.

Lemma order_in_fields o : issued_order context o ->
  is_ok (require_spec (fa_spec_set context) (od_instrument o)) = true /\ 0 < units (od_quantity o) /\
  gridded (od_instrument o) (od_quantity o) /\
  od_spec_set_id o = spec_set_identifier (fa_spec_set context) /\
  od_spec_set_sha256 o = instrument_spec_set_digest (fa_spec_set context) /\
  owner_kind (od_order_id o) = EXECUTION_ORDER.
Proof.
  intros (i & intent & d & H). unfold create_order in H.
  apply rbind_Ok in H as (i' & Hi & H). apply rbind_Ok in H as (? & _ & H).
  destruct (rd_approval d) as [a|]; [|done]. destruct (rd_approved_quantity d) as [q|]; [|done].
  destruct (rd_effective_intent_sha256 d); [|done]. do 3 (destruct (negb _); [done|]).
  apply rbind_Ok in H as ([s digest] & Hs & H). apply rbind_Ok in H as (q' & Hq & H). apply Ok_inj in H. subst o.
  cbn [od_instrument od_quantity od_spec_set_id od_spec_set_sha256 od_order_id fst] in *.
  apply require_spec_set_Ok in Hs as (Hs & -> & Hb & Hc). apply lineage_agrees in Hb, Hc.
  pose proof (require_spec_ok _ _ Hs) as Hok. pose proof (require_quantity_value _ _ _ Hq) as ->.
  apply (require_quantity_ok _ _ Hok) in Hq as [Hpos Hgrid].
  split_and!; [by rewrite Hs|done| |done|done|].
  - intros u (s' & Hs' & _ & ->). rewrite Hs in Hs'. by injection Hs' as <-.
  - unfold _require_id_owner in Hi. destruct (negb _) eqn:E in Hi; [done|].
    by apply negb_false_iff, bool_decide_eq_true in E.
Qed.

(** ** Snapshots of such an Order *)

Definition snapshot_of (o : Order) (version : Z) (s : OrderProjectionState) (q : CanonicalDecimal)
  (venue : option SourceNamespace * option VenueOrderId) (k : FactDedupKey) (d : Sha256Digest)
  : OrderProjectionSnapshot :=
  mkProjection (od_run_id o) (od_order_id o) (order_digest o) (order_client_submission_key o) version s q
    venue.1 venue.2 k d.
Definition venue_pair (venue : option SourceNamespace * option VenueOrderId) : Prop :=
  venue.1 = None <-> venue.2 = None.

Lemma snapshot_created o version s q venue k d : issued_order context o ->
  1 <= version <= MAX_UINT64 -> gridded (od_instrument o) q ->
  quantity_fits s (units q) (units (od_quantity o)) -> venue_pair venue ->
  create_order_projection_snapshot o (fa_spec_set context) version s q venue.1 venue.2 k d =
  Ok (snapshot_of o version s q venue k d).
Proof.
  intros Ho Hv Hg Hfit Hp. destruct (order_in_fields o Ho) as (Hs & _ & _ & E1 & E2 & _).
  unfold create_order_projection_snapshot. rewrite !bool_decide_eq_true_2 by done. cbn [negb orb].
  rewrite (proj2 (Z.leb_le 1 version)), (proj2 (Z.leb_le version MAX_UINT64)) by lia. cbn [andb negb].
  destruct (require_spec (fa_spec_set context) (od_instrument o)) as [spec|] eqn:Hspec; [|done]. cbn [rbind].
  pose proof (require_spec_ok _ _ Hspec) as (_ & Hq & _).
  destruct (require_quantized_ok q (quantity_quantum spec) Hq) as [[-> _]|[_ Hn]];
    [|by destruct Hn; apply Hg; exists spec].
  cbn [rbind]. destruct (projection_quantity_spec s q (od_quantity o)) as [[-> _]|[_ Hn]]; [|done]. cbn [rbind].
  unfold _require_venue_pair, venue_pair in *.
  assert (Bool.eqb (bool_decide (venue.1 = None)) (bool_decide (venue.2 = None)) = true) as ->; [|done].
  apply eqb_true_iff. by apply bool_decide_ext.
Qed.

(** ** The derived Order indexes *)

Definition indexed (m : order_map) : Prop := forall i o, m !! i = Some o -> od_order_id o = i.

Lemma order_bytes_eq o p : canonical_order_bytes o = canonical_order_bytes p -> o = p.
Proof. apply (canonical_bytes_inj _order_document). Qed.

Lemma insert_derived_orders_Ok os ids keys ids' keys' : indexed ids ->
  insert_derived_orders (ids, keys) os = Ok (ids', keys') ->
  indexed ids' /\ (forall i o, ids' !! i = Some o <-> ids !! i = Some o \/ (o ∈ os /\ od_order_id o = i)).
Proof.
  revert ids keys. induction os as [|o os IH]; intros ids keys Hids H; cbn [insert_derived_orders] in H.
  { apply Ok_inj in H. injection H as <- <-. split; [done|]. intros i o. split; [by left|].
    by intros [?|[?%not_elem_of_nil _]]. }
  apply rbind_Ok in H as ([ids1 keys1] & H1 & H). unfold _insert_derived_order in H1. cbn [fst snd] in H1.
  destruct (order_conflicts _ _) eqn:Hc in H1; [done|]. destruct (order_conflicts (keys !! _) _) in H1; [done|].
  cbn [orb] in H1. apply Ok_inj in H1. injection H1 as <- <-.
  assert (forall o', ids !! od_order_id o = Some o' -> o' = o) as Hsame.
  { intros o' Ho'. rewrite Ho' in Hc. cbn in Hc. apply negb_false_iff, bool_decide_eq_true in Hc. by apply order_bytes_eq. }
  assert (indexed (<[od_order_id o := o]> ids)) as Hids1
    by (intros i o' [[<- <-]|[_ Ho']]%lookup_insert_Some; [done|by apply Hids]).
  destruct (IH _ _ Hids1 H) as [Hi Hl]. split; [done|]. intros i o'. rewrite Hl, elem_of_cons, lookup_insert_Some. split.
  - intros [[[<- <-]|[_ ?]]|[? ?]]; [right; split; [by left|done]|by left|right; split; [by right|done]].
  - intros [Ho'|[[->|Hin] <-]]; [|by left; left|right; done].
    left. destruct (decide (od_order_id o = i)) as [<-|]; [left; split; [done|]; by rewrite (Hsame _ Ho')|by right].
Qed.

(** ** Resolving the Orders of a fact *)

(** The keys resolved so far and the Orders they resolved to. *)
Definition resolved_ok (acc : list resolved_key * order_map) : Prop :=
  indexed acc.2 /\ (forall i o, acc.2 !! i = Some o -> order_in o) /\
  (forall k o, (k, Some o) ∈ acc.1 -> order_in o /\ is_Some (acc.2 !! od_order_id o)).

Lemma resolved_ok_insert base orders k o : resolved_ok (base, orders) -> order_in o ->
  resolved_ok (base ++ [(k, Some o)], <[od_order_id o := o]> orders).
Proof.
  unfold resolved_ok. cbn [fst snd]. intros (H1 & H2 & H3) Ho. split_and!.
  - intros i o' [[<- <-]|[_ Hl]]%lookup_insert_Some; [done|by apply H1].
  - intros i o' [[<- <-]|[_ Hl]]%lookup_insert_Some; [done|by eapply H2].
  - intros k' o' [Hin|Hin%list_elem_of_singleton]%elem_of_app.
    + destruct (H3 _ _ Hin) as [Hin' Hs]. split; [done|].
      destruct (decide (od_order_id o = od_order_id o')) as [<-|].
      * rewrite lookup_insert_eq. by eexists.
      * by rewrite lookup_insert_ne.
    + injection Hin as _ ->. rewrite lookup_insert_eq. split; [done|]. by eexists.
Qed.
Lemma resolved_ok_none base orders k : resolved_ok (base, orders) -> resolved_ok (base ++ [(k, None)], orders).
Proof.
  unfold resolved_ok. cbn [fst snd]. intros (H1 & H2 & H3). split_and!; try done.
  intros k' o [Hin|Hin%list_elem_of_singleton]%elem_of_app; [by eapply H3|done].
Qed.

Lemma resolve_key_Ok {K} kind (lookup_order : K -> option Order) key acc acc' :
  (forall k o, lookup_order k = Some o -> issued_order context o) -> resolved_ok acc ->
  resolve_key context kind lookup_order key acc = Ok acc' ->
  resolved_ok acc' /\ map fst acc'.1 = map fst acc.1 ++ (if bool_decide (key = None) then [] else [kind]).
Proof.
  intros Hlaw Hacc H. destruct acc as [base orders]. unfold resolve_key in H. destruct key as [key|].
  2:{ apply Ok_inj in H. subst acc'. split; [done|]. by rewrite bool_decide_eq_true_2, app_nil_r. }
  cbn [fst snd] in H. apply rbind_Ok in H as (orders' & Ho & H). apply Ok_inj in H. subst acc'.
  cbn [fst snd]. split; [|by rewrite map_app].
  unfold _record_resolved_order in Ho. destruct (lookup_order key) as [o|] eqn:Hk.
  - destruct (_ || _) eqn:Hc in Ho; [done|].
    assert (orders' = <[od_order_id o := o]> orders) as ->.
    { destruct (orders !! od_order_id o) as [e|]; [destruct (negb (bool_decide (_ = _))) in Ho; [done|]|];
      by apply Ok_inj in Ho. }
    apply resolved_ok_insert; [done|]. split; [by eapply Hlaw|].
    rewrite !orb_false_iff, !negb_false_iff, !bool_decide_eq_true in Hc. tauto.
  - apply Ok_inj in Ho. subst orders'. by apply resolved_ok_none.
Qed.

Lemma sorted_orders_elem orders o : o ∈ sorted_orders orders <-> exists i, orders !! i = Some o.
Proof.
  unfold sorted_orders. rewrite py_sorted_perm. change (map snd ?l) with (snd <$> l).
  rewrite list_elem_of_fmap. split.
  - intros ([i o'] & -> & Hin%elem_of_map_to_list). by exists i.
  - intros [i Hi]. exists (i, o). split; [done|]. by apply elem_of_map_to_list.
Qed.

(** The fact agrees with the Order. *)
Record fact_agrees (f : ExecutionFact) (o : Order) : Prop := {
  ag_instrument i : fact_instrument f = Some i -> i = od_instrument o;
  ag_order_id i : fact_order_id f = Some i -> i = od_order_id o;
  ag_client_key k : fact_client_submission_key f = Some k -> k = order_client_submission_key o;
  ag_trade t : fact_payload f = TradePayload t -> trade_side t = od_side o
}.
Lemma not_contradicted f o : _fact_contradicts_order f o = Ok false -> fact_agrees f o.
Proof.
  unfold _fact_contradicts_order. intros H. destruct (_ || _ || _) eqn:Hb; [done|].
  rewrite !orb_false_iff in Hb. destruct Hb as [[H1 H2] H3].
  apply rbind_Ok in H as (t & Ht & H). apply Ok_inj in H. rewrite !orb_false_iff in H. destruct H as [[-> _] _].
  split.
  - intros i Hi. rewrite Hi in H3. by apply negb_false_iff, bool_decide_eq_true in H3.
  - intros i Hi. rewrite Hi in H1. by apply negb_false_iff, bool_decide_eq_true in H1.
  - intros i Hi. rewrite Hi in H2. by apply negb_false_iff, bool_decide_eq_true in H2.
  - intros p Hp. rewrite Hp in Ht. destruct (negb (bool_decide (trade_side p = od_side o))) eqn:E; [done|].
    by apply negb_false_iff, bool_decide_eq_true in E.
Qed.

Lemma remove_dups_nil_inv {A} `{EqDecision A} (l : list A) : remove_dups l = [] -> l = [].
Proof.
  intros H. destruct l as [|x l]; [done|]. assert (x ∈ remove_dups (x :: l)) as Hx by (apply elem_of_remove_dups; by left).
  rewrite H in Hx. by apply not_elem_of_nil in Hx.
Qed.

(** Withdrawing the staged venue key keeps the Order the bindings select. *)
Record resolution_ok (st : _FactAuthorityState) (ingress : ExecutionFactIngress) (r : _Resolution) : Prop := {
  re_orders o : o ∈ resolved_orders r -> order_in o;
  re_selected o : selected_order r = Some o -> o ∈ resolved_orders r;
  re_anomalies : rs_anomalies r ⊆ {[ UNKNOWN_ORDER; ORDER_BINDING_CONFLICT ]};
  re_unselected : selected_order r = None -> rs_anomalies r <> ∅;
  re_agrees o : selected_order r = Some o -> ORDER_BINDING_CONFLICT ∉ rs_anomalies r ->
    fact_agrees (ingress_fact ingress) o;
  re_selection : _derived_selected_order_id (rs_bindings r) = od_order_id <$> selected_order r;
  re_staged : staged_venue_key r <> None -> is_Some (fact_venue_order_id (ingress_fact ingress)) /\
    is_Some (selected_order r);
  re_new_venue key o : staged_venue_key r = Some key -> selected_order r = Some o ->
    forall k' o', venue_index st !! k' = Some o' -> od_order_id o' <> od_order_id o;
  re_keys : map key_kind (rs_bindings r) = presented_keys (ingress_fact ingress)
}.


(** The one identity of a list of resolved keys. *)
Definition ids_of (rs : list resolved_key) : list EconomicId := map od_order_id (omap snd rs).
Lemma binding_ids rs : omap rb_resolved_order_id (map binding_of rs) = ids_of rs.
Proof. unfold ids_of. induction rs as [|[k [o|]] rs IH]; cbn; [done|by f_equal|done]. Qed.
Lemma binding_kinds rs : map key_kind (map binding_of rs) = map fst rs.
Proof. rewrite map_map. by apply map_ext. Qed.
Lemma ids_of_app a b : ids_of (a ++ b) = ids_of a ++ ids_of b.
Proof. unfold ids_of. by rewrite omap_app, map_app. Qed.

Lemma remove_dups_constant {A} `{EqDecision A} (x : A) l : l <> [] -> Forall (eq x) l -> remove_dups l = [x].
Proof.
  intros Hn Hl. induction Hl as [|y l <- Hl IH]; [done|]. cbn [remove_dups].
  destruct l as [|z l]; [done|]. case_decide as Hd; [by apply IH|]. destruct Hd. apply Forall_inv in Hl. subst. by left.
Qed.
Lemma remove_dups_singleton {A} `{EqDecision A} (x : A) l : remove_dups l = [x] -> l <> [] /\ Forall (eq x) l.
Proof.
  intros H. split; [by intros ->|]. apply Forall_forall. intros y Hy%elem_of_remove_dups.
  rewrite H in Hy. by apply list_elem_of_singleton in Hy.
Qed.

Lemma base_coherent_spec base : base_coherent base = true ->
  exists o i, head (omap snd base) = Some o /\ od_order_id o = i /\ ids_of base <> [] /\ Forall (eq i) (ids_of base).
Proof.
  unfold base_coherent. rewrite !andb_true_iff. intros [[_ _] H%Nat.eqb_eq]. fold (ids_of base) in H.
  destruct (remove_dups (ids_of base)) as [|i [|j l]] eqn:E; try done.
  destruct (remove_dups_singleton _ _ E) as [Hn Hall]. unfold ids_of in *.
  destruct (omap snd base) as [|o os]; [done|]. cbn in Hall. exists o, i. split_and!; try done.
  apply Forall_inv in Hall. done.
Qed.

Lemma withdraw_ids bs : Forall (fun k => k <> KEY_VENUE_ORDER_ID) (map key_kind bs) -> map withdraw_venue bs = bs.
Proof.
  induction bs as [|b bs IH]; cbn; [done|]. intros [Hb Hbs]%Forall_cons. rewrite IH by done. f_equal.
  unfold withdraw_venue. by rewrite bool_decide_eq_false_2.
Qed.

(** The venue step: what it adds to the keys, and when it stages the venue key. *)
Lemma resolve_venue_spec st base key v : resolve_venue st base key = v ->
  (forall o, vr_order v = Some o -> venue_index st !! key = Some o \/ vr_staged v = Some key) /\
  (forall k, vr_staged v = Some k -> k = key /\ vr_conflict v = false /\ base_coherent base = true /\
     vr_order v = head (omap snd base) /\
     (forall c k' o, vr_order v = Some c -> venue_index st !! k' = Some o -> od_order_id o <> od_order_id c)).
Proof.
  unfold resolve_venue. intros <-. destruct (venue_index st !! key) as [o|] eqn:Hv.
  { cbn. split; [|done]. intros o' [= ->]. by left. }
  destruct (base_coherent base) eqn:Hb; [|by cbn].
  destruct (head (omap snd base)) as [c|] eqn:Hc; [|by cbn].
  destruct (_ && _) eqn:Hk; cbn; [done|]. split; [by right|]. intros k [= <-]. split_and!; try done.
  intros c' k' o [= <-] Ho He. set (keys := map fst _) in Hk.
  assert (k' ∈ keys) as Hin.
  { apply list_elem_of_In, in_map_iff. exists (k', o). split; [done|]. apply filter_In. cbn.
    rewrite <-list_elem_of_In, elem_of_map_to_list. split; [done|]. by apply bool_decide_eq_true. }
  apply andb_false_iff in Hk as [Hk%negb_false_iff%bool_decide_eq_true|Hk%negb_false_iff%bool_decide_eq_true].
  - rewrite Hk in Hin. by apply not_elem_of_nil in Hin.
  - apply list_elem_of_In, in_map_iff in Hk as ([k2 o2] & Hk2 & Hin2%filter_In). cbn in Hk2. subst k2.
    destruct Hin2 as [Hin2%list_elem_of_In%elem_of_map_to_list _]. by rewrite Hv in Hin2.
Qed.


(** The venue part of a resolution. *)
Lemma venue_resolved st base orders key v : resolved_ok (base, orders) ->
  (forall k o, venue_index st !! k = Some o -> order_in o) -> resolve_venue st base key = v ->
  resolved_ok (base ++ [(KEY_VENUE_ORDER_ID, vr_order v)],
               match vr_order v with Some o => <[od_order_id o := o]> orders | None => orders end).
Proof.
  intros Hbase Hvenue Hv. destruct (resolve_venue_spec _ _ _ _ Hv) as [Hfrom Hstaged].
  destruct (vr_order v) as [o|] eqn:Ho; [|by apply resolved_ok_none].
  apply resolved_ok_insert; [done|]. destruct (Hfrom o eq_refl) as [Hin|Hs]; [by eapply Hvenue|].
  destruct (Hstaged _ Hs) as (_ & _ & _ & Hhead & _). destruct Hbase as (H1 & H2 & H3). cbn [fst snd] in *.
  assert (exists k, (k, Some o) ∈ base) as [k Hk].
  { destruct (omap snd base) as [|o' os] eqn:E; [done|]. injection Hhead as ->.
    assert (o' ∈ omap snd base) as Hin by (rewrite E; by left).
    apply list_elem_of_omap in Hin as ([k x] & Hin & Hx). cbn in Hx. subst. by exists k. }
  by eapply H3.
Qed.


Lemma selected_of_Ok bindings orders o : selected_of bindings orders = Ok o ->
  match o with
  | Some o => exists i, remove_dups (omap rb_resolved_order_id bindings) = [i] /\ orders !! i = Some o
  | None => forall i, remove_dups (omap rb_resolved_order_id bindings) <> [i]
  end.
Proof.
  unfold selected_of. destruct (remove_dups _) as [|i [|j l]] eqn:E; [by intros [= <-]| |by intros [= <-]].
  destruct (orders !! i) as [o'|] eqn:Hi; [|done]. intros [= <-]. by exists i.
Qed.

Lemma derived_selected bindings i : remove_dups (omap rb_resolved_order_id bindings) = [i] ->
  _derived_selected_order_id bindings = Some i.
Proof. unfold _derived_selected_order_id. by intros ->. Qed.
Lemma derived_unselected bindings : (forall i, remove_dups (omap rb_resolved_order_id bindings) <> [i]) ->
  _derived_selected_order_id bindings = None.
Proof. unfold _derived_selected_order_id. intros H. by destruct (remove_dups _) as [|i [|j l]]; [|destruct (H i)|]. Qed.

(** Withdrawing the venue key of a coherent base keeps what it selects. *)
Lemma withdrawn_selection base o : base_coherent base = true -> head (omap snd base) = Some o ->
  Forall (fun k => k <> KEY_VENUE_ORDER_ID) (map fst base) ->
  remove_dups (omap rb_resolved_order_id (map withdraw_venue (map binding_of (base ++ [(KEY_VENUE_ORDER_ID, Some o)]))))
    = [od_order_id o] /\
  remove_dups (omap rb_resolved_order_id (map binding_of (base ++ [(KEY_VENUE_ORDER_ID, Some o)]))) = [od_order_id o].
Proof.
  intros Hb Ho Hk. destruct (base_coherent_spec _ Hb) as (o' & i & Ho' & Hi & Hn & Hall).
  rewrite Ho in Ho'. injection Ho' as <-. rewrite Hi. rewrite !map_app. rewrite withdraw_ids by (by rewrite binding_kinds).
  rewrite !omap_app, !binding_ids. cbn. rewrite Hi. split; apply remove_dups_constant.
  - by rewrite app_nil_r.
  - by rewrite app_nil_r.
  - by destruct (ids_of base).
  - apply Forall_app. split; [done|]. by constructor.
Qed.

Section Resolve.
Context `{orders_port : OrderResolutionVerifier} `{!lawful context orders_port}.
Context (st : _FactAuthorityState) (ingress : ExecutionFactIngress).
Hypothesis Hvenue : forall k o, venue_index st !! k = Some o -> order_in o.

Lemma resolve_orders_ok r : _resolve_orders context st ingress = Ok r -> resolution_ok st ingress r.
Proof.
  unfold _resolve_orders. set (fact := ingress_fact ingress). intros H.
  apply rbind_Ok in H as (acc1 & H1 & H). apply rbind_Ok in H as ([base orders] & H2 & H).
  assert (resolved_ok ([], ∅)) as H0.
  { unfold resolved_ok, indexed. cbn. split_and!; intros *; rewrite ?lookup_empty; try done. by intros ?%not_elem_of_nil. }
  apply resolve_key_Ok in H1 as [Hacc1 Hk1]; [|intros k o Hl; by apply (lawful_id context k o) in Hl as [_ ?]|done].
  apply resolve_key_Ok in H2 as [Hacc Hk2]; [|intros k o Hl; by apply (lawful_key context k o) in Hl as [_ ?]|done].
  cbn [fst app] in Hk1, Hk2. rewrite Hk1 in Hk2. cbn [fst] in Hk2.
  assert (Forall (fun k => k <> KEY_VENUE_ORDER_ID) (map fst base)) as Hbase.
  { rewrite Hk2. repeat case_bool_decide; repeat constructor; done. }
  destruct (match fact_venue_order_id fact with Some _ => _ | None => _ end)
    as [[[resolved orders'] staged] venue_conflict] eqn:Hm in H.
  assert (resolved_ok (resolved, orders') /\ map fst resolved = presented_keys fact /\
    (staged <> None -> is_Some (fact_venue_order_id fact) /\ exists o, base_coherent base = true /\
       head (omap snd base) = Some o /\ resolved = base ++ [(KEY_VENUE_ORDER_ID, Some o)] /\
       (forall k' o', venue_index st !! k' = Some o' -> od_order_id o' <> od_order_id o))) as (Hres & Hkinds & Hstaged).
  { destruct (fact_venue_order_id fact) as [venue|] eqn:Hv.
    - set (v := resolve_venue st base (fact_source_namespace fact, venue)) in *. injection Hm as <- <- <- <-.
      destruct (resolve_venue_spec st base _ v eq_refl) as [_ Hst]. split_and!.
      + by eapply venue_resolved.
      + rewrite map_app, Hk2. unfold presented_keys. rewrite Hv. rewrite <-app_assoc. done.
      + intros Hs. destruct (vr_staged v) as [k|] eqn:E; [|done]. destruct (Hst k eq_refl) as (_ & _ & Hc & Hh & Hnew).
        split; [done|]. destruct (base_coherent_spec _ Hc) as (o & i & Ho & _). exists o. rewrite Hh, Ho.
        split_and!; try done. intros k' o'. apply Hnew. by rewrite Hh.
    - injection Hm as <- <- <- <-. split_and!; [done| |done]. rewrite Hk2. unfold presented_keys. by rewrite Hv, app_nil_r. }
  clear Hm. destruct Hres as (Hidx & Hin & Hpresent). cbn [fst snd] in *.
  apply rbind_Ok in H as (selected & Hsel & H). apply rbind_Ok in H as (contradicted & Hcon & H).
  rewrite binding_ids in H.
  set (conflict := _ || contradicted) in H.
  apply selected_of_Ok in Hsel. rewrite binding_ids in Hsel. apply Ok_inj in H. subst r.
  split; cbn [rs_bindings selected_order resolved_orders staged_venue_key rs_anomalies].
  - intros o [i Hi]%sorted_orders_elem. by eapply Hin.
  - intros o Ho. subst selected. destruct Hsel as (i & _ & Hi). apply sorted_orders_elem. by exists i.
  - intros x. rewrite elem_of_union, !elem_of_anomaly_if, elem_of_union, !elem_of_singleton. tauto.
  - intros ->. destruct (remove_dups (ids_of resolved)) as [|i [|j l]] eqn:E.
    + rewrite bool_decide_eq_true_2 by done. by intros [[]%non_empty_singleton_L _]%empty_union_L.
    + by destruct (Hsel i).
    + subst conflict. cbn [length Nat.ltb Nat.leb orb anomaly_if]. by intros [_ []%non_empty_singleton_L]%empty_union_L.
  - intros o Ho Hnc. subst selected. apply not_contradicted. change (ingress_fact ingress) with fact. rewrite Hcon. f_equal.
    rewrite elem_of_union, !elem_of_anomaly_if in Hnc.
    assert (conflict = false) as Hcf by (destruct conflict; [|done]; by destruct Hnc; right).
    subst conflict. by apply orb_false_iff in Hcf as [_ ?].
  - destruct (negb (bool_decide (staged = None)) && conflict) eqn:Hw.
    + apply andb_true_iff in Hw as [Hs%negb_true_iff%bool_decide_eq_false _].
      destruct (Hstaged Hs) as (_ & o & Hc & Hh & -> & _).
      destruct (withdrawn_selection _ _ Hc Hh Hbase) as [Hd1 Hd2]. rewrite binding_ids in Hd2.
      rewrite (derived_selected _ _ Hd1). destruct selected as [o'|]; [|by destruct (Hsel (od_order_id o))].
      destruct Hsel as (i & Hi & Ho'). rewrite Hd2 in Hi. injection Hi as <-. cbn. by rewrite (Hidx _ _ Ho').
    + destruct selected as [o'|].
      * destruct Hsel as (i & Hi & Ho'). rewrite <-binding_ids in Hi. rewrite (derived_selected _ _ Hi). cbn.
        by rewrite (Hidx _ _ Ho').
      * cbn. apply derived_unselected. by rewrite binding_ids.
  - intros Hs. destruct (_ && conflict) in Hs; [done|]. destruct (Hstaged Hs) as (Hv & o & Hc & Hh & -> & _).
    split; [done|]. destruct (withdrawn_selection _ _ Hc Hh Hbase) as [_ Hd2]. rewrite binding_ids in Hd2.
    destruct selected as [o'|]; [by eexists|]. by destruct (Hsel (od_order_id o)).
  - intros key o' Hs ->. destruct (_ && conflict) in Hs; [done|].
    destruct (Hstaged ltac:(by rewrite Hs)) as (_ & o & Hc & Hh & -> & Hnew).
    destruct (withdrawn_selection _ _ Hc Hh Hbase) as [_ Hd2]. rewrite binding_ids in Hd2.
    destruct Hsel as (i & Hi & Ho'). rewrite Hd2 in Hi. injection Hi as <-. by rewrite (Hidx _ _ Ho').
  - destruct (_ && conflict); [|by rewrite binding_kinds; exact Hkinds].
    change (ingress_fact ingress) with fact. rewrite map_map. rewrite <-Hkinds, <-binding_kinds. apply map_ext. intros b. unfold withdraw_venue.
    destruct (bool_decide (key_kind b = KEY_VENUE_ORDER_ID)) eqn:E; [|done]. by apply bool_decide_eq_true in E.
Qed.
End Resolve.

End Orders.
