(* ===== verification/FactTracking.v ===== *)
(** Order projections follow the lifecycle machine, and the quantities they track. *)

From S2P Require Import Prelude PyRegex PyText Outcomes Json Identity Economics Commission Execution Messages.
From S2P Require Import Orders Wire Decoders ExecutionState FactAuthority Canonical MessageCodec OrderCodec.
From S2P Require Import FactInvariant FactProjection.

Open Scope Z_scope.

(** *** The Orders the fact authority tracks: what a projection and an observed quantity say
    of their Order, the abstract Order lifecycle, and the projection step as one move of
    that lifecycle. *)

(** ** The abstract lifecycle of an Order *)

Definition active (s : OrderProjectionState) : Prop := is_terminal_state s = false.

(** The moves of an Order of [total] units, on its state and the units shown executed. *)
Inductive moves (total : Z) : OrderProjectionState * Z -> OrderProjectionState * Z -> Prop :=
| move_acknowledge : moves total (SUBMITTED, 0) (ACKNOWLEDGED, 0)
| move_reject : moves total (SUBMITTED, 0) (REJECTED, 0)
| move_partial s q q' : active s -> q < q' < total -> moves total (s, q) (PARTIALLY_FILLED, q')
| move_fill s q : active s -> q < total -> moves total (s, q) (FILLED, total)
| move_stop s s' q : active s -> s' = EXPIRED \/ s' = CANCELLED -> q < total -> moves total (s, q) (s', q)
| move_learn s q : active s -> moves total (s, q) (s, q).

Definition shown (p : OrderProjectionSnapshot) : OrderProjectionState * Z :=
  (projection_state p, units (projected_executed_quantity p)).
Definition venue_of (p : OrderProjectionSnapshot) : option SourceNamespace * option VenueOrderId :=
  (pj_venue_source_namespace p, pj_venue_order_id p).

(** One version of an Order's projection and the next. *)
Record follows_on (total : Z) (p p' : OrderProjectionSnapshot) : Prop := {
  fo_version : projection_version p' = projection_version p + 1;
  fo_move : moves total (shown p) (shown p');
  fo_venue : pj_venue_order_id p <> None -> venue_of p' = venue_of p
}.
(** The projections of one Order, oldest first, and the last of them. *)
Inductive history (total : Z) : list OrderProjectionSnapshot -> option OrderProjectionSnapshot -> Prop :=
| history_none : history total [] None
| history_first p : projection_version p = 1 -> history total [p] (Some p)
| history_next ps p p' : history total ps (Some p) -> follows_on total p p' -> history total (ps ++ [p']) (Some p').

Lemma moves_active total a b : moves total a b -> active a.1.
Proof. by intros []. Qed.
(** The versions of a history are numbered from one, and only the last can be final. *)
Lemma history_numbered total ps p : history total ps p ->
  last ps = p /\ forall k q, ps !! k = Some q -> projection_version q = Z.of_nat k + 1 /\
    ((k + 1 < length ps)%nat -> active (projection_state q)).
Proof.
  induction 1 as [|p Hv|ps p p' Hh [Hlast IH] [Hv Hm _]].
  - done.
  - split; [done|]. intros [|k] q Hq; [|done]. injection Hq as <-. cbn. split; lia.
  - split; [apply last_snoc|]. rewrite last_lookup in Hlast. intros k q Hq. rewrite length_app. cbn [length].
    apply lookup_app_Some in Hq as [Hq|[Hk Hq]].
    + destruct (IH _ _ Hq) as [Hn Ha]. split; [done|]. intros _.
      destruct (decide (k + 1 < length ps)%nat); [by apply Ha|]. apply lookup_lt_Some in Hq as Hlt.
      replace (pred (length ps)) with k in Hlast by lia. rewrite Hq in Hlast. injection Hlast as ->. by apply moves_active in Hm.
    + destruct (k - length ps)%nat as [|j] eqn:Hj; [|done]. injection Hq as <-.
      assert (length ps <> 0)%nat by (intros Hz; by rewrite (nil_length_inv _ Hz) in Hlast).
      destruct (IH _ _ Hlast) as [Hn _]. split; [lia|lia].
Qed.

Section Machine.
Context `{hash : Sha256} (context : FactAuthorityContext) (Hss : spec_set_ok (fa_spec_set context)).

Abbreviation total_of o := (units (od_quantity o)).
Abbreviation on_grid_of o q := (gridded context (od_instrument o) q).

(** The projection shows the Order: while the Order is active, what was observed. *)
Record shows (o : Order) (observed : CanonicalDecimal) (p : OrderProjectionSnapshot) : Prop := {
  sh_snapshot : p = snapshot_of o (projection_version p) (projection_state p) (projected_executed_quantity p)
                      (venue_of p) (pj_last_fact_key p) (pj_last_fact_sha256 p);
  sh_version : 1 <= projection_version p <= MAX_UINT64;
  sh_grid : on_grid_of o (projected_executed_quantity p);
  sh_fits : quantity_fits (projection_state p) (units (projected_executed_quantity p)) (total_of o);
  sh_venue : venue_pair (venue_of p);
  sh_active : active (projection_state p) ->
    units (projected_executed_quantity p) = units observed /\ units observed < total_of o
}.
(** What is kept of an Order: nothing before its first projection. *)
Definition kept (o : Order) (observed : CanonicalDecimal) (p : option OrderProjectionSnapshot) : Prop :=
  match p with Some p => shows o observed p | None => units observed = 0 end.

Lemma snapshot_inv o v s q source venue k d p :
  create_order_projection_snapshot o (fa_spec_set context) v s q source venue k d = Ok p ->
  p = snapshot_of o v s q (source, venue) k d /\ 1 <= v <= MAX_UINT64 /\ on_grid_of o q /\
  quantity_fits s (units q) (total_of o) /\ venue_pair (source, venue).
Proof.
  unfold create_order_projection_snapshot. intros H%state_boundary_Ok.
  destruct (_ || _) in H; [done|]. destruct (negb _) eqn:Hv in H; [done|].
  apply negb_false_iff, andb_true_iff in Hv as [Hv1%Z.leb_le Hv2%Z.leb_le].
  apply rbind_Ok in H as (s' & Hs & H). pose proof (require_spec_ok _ Hss _ _ Hs) as (_ & Hq & _).
  apply rbind_Ok in H as (x & Hg & H). apply rbind_Ok in H as ([] & Hf & H). apply rbind_Ok in H as ([] & Hp & H).
  apply Ok_inj in H. subst p. split_and!; [done|done|done| | |].
  - intros u (s2 & Hs2 & _ & ->). rewrite Hs in Hs2. injection Hs2 as <-.
    by destruct (require_quantized_ok q (quantity_quantum s') Hq) as [[_ ?]|[E _]]; [|rewrite E in Hg].
  - by destruct (projection_quantity_spec s q (od_quantity o)) as [[_ ?]|[E _]]; [|rewrite E in Hf].
  - unfold _require_venue_pair in Hp. destruct (negb _) eqn:E in Hp; [done|].
    apply negb_false_iff, Bool.eqb_prop in E. unfold venue_pair. cbn [fst snd].
    by rewrite <-(bool_decide_eq_true (source = None)), <-(bool_decide_eq_true (venue = None)), E.
Qed.
Lemma snapshot_shows o v s q source venue k d p observed :
  create_order_projection_snapshot o (fa_spec_set context) v s q source venue k d = Ok p ->
  (active s -> units q = units observed /\ units observed < total_of o) ->
  shows o observed p /\ projection_version p = v /\ shown p = (s, units q) /\ venue_of p = (source, venue) /\
  pj_order_id p = od_order_id o.
Proof. by intros (-> & ? & ? & ? & ?)%snapshot_inv Ha. Qed.

(** *** The projection step *)

Lemma allowed_moves total s q s' q' : active s -> transition_allowed s s' = true ->
  quantity_fits s q total -> quantity_fits s' q' total -> q < total ->
  (s' = PARTIALLY_FILLED -> q < q') -> (s' <> PARTIALLY_FILLED -> s' <> FILLED -> q' = q) ->
  moves total (s, q) (s', q').
Proof.
  unfold transition_allowed, quantity_fits. intros Hs Ha [_ Hf] [_ Hf'] Hq Hp Hr.
  destruct (decide (s' = PARTIALLY_FILLED)) as [->|Hnp]; [apply move_partial; [done|]; split; [by apply Hp|lia]|].
  destruct (decide (s' = FILLED)) as [->|Hnf]; [subst q'; by apply move_fill|].
  rewrite (Hr Hnp Hnf) in *. destruct (decide (s' = s)) as [->|Hne]; [by apply move_learn|].
  destruct s; try done; destruct s'; try done; try subst q; try apply move_acknowledge; try apply move_reject;
    apply move_stop; auto.
Qed.

(** The target of a fact: a trade shows what was observed, any other fact no more. *)
Definition aimed (trade : Prop) (total observed : Z) (s : OrderProjectionState) (q : Z) : Prop :=
  (s = FILLED /\ q = total) \/
  (if decide (s = PARTIALLY_FILLED) then trade /\ q = observed /\ observed < total
   else ~ trade /\ q = Z.min observed total).
Lemma target_spec fact o observed t q found : projection_target fact o observed = Ok (t, q, found) ->
  match t with
  | Some s => aimed (fact_kind fact = TRADE) (total_of o) (units observed) s (units q) /\
              (q = observed \/ q = od_quantity o)
  | None => fact_kind fact <> TRADE
  end.
Proof.
  assert (forall a b q, min_quantity a b = Ok q -> units q = Z.min (units a) (units b) /\ (q = a \/ q = b)) as Hmin.
  { intros a b x. rewrite min_quantity_spec. intros H%Ok_inj. subst x.
    destruct (Z.ltb_spec (units b) (units a)); split; [lia|auto|lia|auto]. }
  unfold projection_target, aimed. destruct (fact_kind fact) eqn:Hk; cbn [_LIFECYCLE_PROJECTION]; intros H.
  1: { rewrite decimal_lt_units in H. cbn [rbind] in H. destruct (Z.ltb_spec (units observed) (total_of o)).
       - apply Ok_inj in H. injection H as <- <- <-. split; [right; by rewrite decide_True|by left].
       - rewrite decimal_gt_units in H. apply Ok_inj in H. injection H as <- <- <-. split; [by left|by right]. }
  5: { destruct (fact_payload fact) as [| |c]; [by injection H as <- <- <-|by injection H as <- <- <-|].
       apply rbind_Ok in H as (x & Hx & H). apply rbind_Ok in H as (u & _ & H). apply Ok_inj in H.
       injection H as <- <- <-. destruct (_QUERY_PROJECTION c) as [s|] eqn:Hc; [|done].
       destruct (bool_decide (Some s = Some FILLED)) eqn:Hf in Hx.
       - apply bool_decide_eq_true in Hf. apply Ok_inj in Hx. injection Hf as ->. subst x. split; [by left|by right].
       - apply Hmin in Hx as [Hx Hor]. split; [|done]. right. rewrite decide_False; [done|].
         intros ->. by destruct c. }
  all: apply rbind_Ok in H as (x & [Hx Hor]%Hmin & H); apply Ok_inj in H; injection H as <- <- <-;
    split; [right; rewrite decide_False by done; done|done].
Qed.

Definition filled (fill : option Fill) : Z :=
  match fill with Some f => units (fill_quantity f) | None => 0 end.
(** A trade has a positive fill on the Order's grid, another fact has none. *)
Definition fill_fits (fact : ExecutionFact) (o : Order) (fill : option Fill) : Prop :=
  match fill with
  | Some f => fact_kind fact = TRADE /\ 0 < units (fill_quantity f) /\ on_grid_of o (fill_quantity f)
  | None => fact_kind fact <> TRADE
  end.
(** The next version of an Order's projection. *)
Definition next_version (total : Z) (before : option OrderProjectionSnapshot) (p : OrderProjectionSnapshot) : Prop :=
  match before with Some b => follows_on total b p | None => projection_version p = 1 end.

Lemma aimed_active trade total observed s q : aimed trade total observed s q -> quantity_fits s q total ->
  0 < total -> active s -> q = observed /\ observed < total.
Proof.
  intros Ha [Hr Hf] Ht Hs. destruct Ha as [[-> _]|Ha]; [done|]. case_decide as Hp; [tauto|].
  destruct Ha as [_ ->]. destruct s; try done; lia.
Qed.

Lemma advance_required_Ok v w : _advance_required v = Ok w -> w = v + 1 /\ 1 <= v < MAX_UINT64.
Proof.
  unfold _advance_required, _advance. destruct (negb _) eqn:E; [done|]. cbn [rbind].
  apply negb_false_iff, andb_true_iff in E as [E1%Z.leb_le E2%Z.leb_le].
  destruct (Z.eqb_spec v MAX_UINT64); [done|]. intros [= <-]. lia.
Qed.

Lemma shows_order o observed p : shows o observed p -> pj_order_id p = od_order_id o.
Proof. intros [-> _ _ _ _ _]. done. Qed.
Lemma shows_inactive o observed observed' p : shows o observed p -> is_terminal_state (projection_state p) = true ->
  shows o observed' p.
Proof. intros [S1 S2 S3 S4 S5 _] Ht. split; try done. unfold active. by rewrite Ht. Qed.
Lemma shows_same o observed observed' p : shows o observed p -> units observed' = units observed -> shows o observed' p.
Proof. intros [S1 S2 S3 S4 S5 S6] Ho. split; try done. by rewrite Ho. Qed.

Section Step.
Context (st : _FactAuthorityState) (ingress : ExecutionFactIngress) (fill : option Fill) (r : _Resolution)
  (inherited : anomalies) (o : Order).
Abbreviation fact := (ingress_fact ingress).
Abbreviation before := (projection_index st !! od_order_id o).
Abbreviation observed_before := (observed_of st (od_order_id o)).
Hypothesis Ho : 0 < total_of o.
Hypothesis Hfill : fill_fits fact o fill.
Hypothesis Hgrid : on_grid_of o observed_before.
Hypothesis Hkept : kept o observed_before before.

(** What is kept when the step shows nothing new. *)
Lemma kept_same observed : units observed = units observed_before + filled fill -> fact_kind fact <> TRADE ->
  kept o observed before.
Proof.
  intros Hu Hk. assert (filled fill = 0) as Hz by (destruct fill; [by destruct Hfill|done]).
  unfold kept in *. destruct before; [eapply shows_same; [done|]|]; lia.
Qed.

(** A new version of the projection shows the Order and follows the one before. *)
Lemma snapshot_step observed v s q venue k d found p :
  units observed = units observed_before + filled fill ->
  projection_target fact o observed = Ok (Some s, q, found) ->
  match before with
  | Some b => is_terminal_state (projection_state b) = false /\ transition_allowed (projection_state b) s = true /\
              v = projection_version b + 1 /\ (pj_venue_order_id b <> None -> venue = venue_of b)
  | None => v = 1
  end ->
  create_order_projection_snapshot o (fa_spec_set context) v s q venue.1 venue.2 k d = Ok p ->
  shows o observed p /\ next_version (total_of o) before p.
Proof.
  intros Hu [Ha _]%target_spec Hb Hp. pose proof (snapshot_inv _ _ _ _ _ _ _ _ _ Hp) as (_ & _ & _ & Hfits & _).
  eapply (snapshot_shows _ _ _ _ _ _ _ _ _ observed) in Hp as (Hs & Hv & Hshown & Hvenue & _);
    [|intros Hact; by eapply aimed_active].
  split; [done|]. unfold kept in Hkept. destruct before as [b|]; [|cbn; by rewrite Hv].
  destruct Hb as (Ht & Hall & -> & Hven). destruct (sh_active _ _ _ Hkept Ht) as [Hbq Hlt].
  split; [done| |intros Hn; rewrite Hvenue, <-(Hven Hn); by destruct venue].
  rewrite Hshown. apply allowed_moves; [done|done|by destruct Hkept|done|lia| |].
  - intros ->. destruct Ha as [[? _]|Ha]; [done|]. rewrite decide_True in Ha by done. destruct Ha as (Htr & -> & _).
    rewrite Hu, Hbq. destruct fill as [f|]; [|done]. cbn. destruct Hfill as (_ & ? & _). lia.
  - intros Hnp Hnf. destruct Ha as [[? _]|Ha]; [done|]. rewrite decide_False in Ha by done. destruct Ha as [Htr ->].
    assert (filled fill = 0) by (destruct fill; [by destruct Hfill|done]). lia.
Qed.

Lemma observed_step observed :
  match fill with
  | Some f => _add_quantities observed_before (fill_quantity f)
  | None => Ok observed_before
  end = Ok observed ->
  units observed = units observed_before + filled fill /\ on_grid_of o observed.
Proof.
  clear Hkept. destruct fill as [f|]; cbn; intros H.
  - pose proof (add_quantities_spec observed_before (fill_quantity f)) as Hs. rewrite H in Hs. split; [done|].
    destruct Hfill as (_ & _ & Hg). by apply (gridded_sum context _ _ _ _ Hgrid Hg Hs).
  - apply Ok_inj in H. subst. split; [lia|done].
Qed.

(** Nothing new is shown only if the projection shows it already. *)
Lemma kept_unchanged b s q observed venue : kept o observed_before (Some b) ->
  is_terminal_state (projection_state b) = false ->
  aimed (fact_kind fact = TRADE) (total_of o) (units observed) s (units q) ->
  semantic_change (Some b) s q venue = false -> kept o observed (Some b).
Proof.
  clear Hkept. intros [S1 S2 S3 S4 S5 S6] Hact Ha Hc. cbn in Hc. rewrite !orb_false_iff, !negb_false_iff in Hc.
  destruct Hc as [[[<-%bool_decide_eq_true <-%bool_decide_eq_true] _] _].
  split; try done. intros _. by eapply aimed_active.
Qed.
(** A trade is never refused by an active Order. *)
Lemma refused_trade b s q observed : is_terminal_state (projection_state b) = false ->
  aimed (fact_kind fact = TRADE) (total_of o) observed s q -> transition_allowed (projection_state b) s = false ->
  fact_kind fact <> TRADE.
Proof.
  intros Hact Ha Hr. assert (s <> FILLED) as Hf by (intros ->; by destruct (projection_state b)).
  assert (s <> PARTIALLY_FILLED) as Hp by (intros ->; by destruct (projection_state b)).
  destruct Ha as [[? _]|Ha]; [done|]. rewrite decide_False in Ha by done. tauto.
Qed.

(** The step: what was observed grows by the fill; the projection is kept or followed. *)
Lemma project_step pr : selected_order r = Some o -> ORDER_BINDING_CONFLICT ∉ inherited ->
  _project context st ingress fill r inherited = Ok pr ->
  exists observed, pr_observed_quantity pr = Some observed /\
    units observed = units observed_before + filled fill /\ on_grid_of o observed /\ pr_before pr = before /\
    match new_projection pr with
    | None => pr_after pr = before /\ kept o observed before
    | Some p => pr_after pr = Some p /\ shows o observed p /\ next_version (total_of o) before p
    end.
Proof.
  intros Hsel Hnc H. unfold _project in H. rewrite Hsel, bool_decide_eq_false_2 in H by done.
  apply rbind_Ok in H as (observed & [Hu Hg]%observed_step & H). apply rbind_Ok in H as ([[t q] found] & Ht & H).
  exists observed. pose proof (target_spec _ _ _ _ _ _ Ht) as Haim.
  assert (forall found', t = None \/ (exists b, before = Some b /\ kept o observed (Some b)) ->
    (Ok (mkProjectionResult before before None (Some observed) found') : res _) = Ok pr ->
    pr_observed_quantity pr = Some observed /\ units observed = units observed_before + filled fill /\
    on_grid_of o observed /\ pr_before pr = before /\
    match new_projection pr with
    | None => pr_after pr = before /\ kept o observed before
    | Some p => pr_after pr = Some p /\ shows o observed p /\ next_version (total_of o) before p
    end) as Hunchanged.
  { intros found' Hcase Hpr. apply Ok_inj in Hpr. subst pr. cbn. split_and!; try done.
    destruct Hcase as [->|(b & Hb & Hk)]; [by apply kept_same|by rewrite Hb]. }
  pose proof (kept_same observed) as Hsame. pose proof (snapshot_step observed) as Hstep.
  pose proof Hkept as Hk. clear Hkept. destruct before as [b|] eqn:Hb.
  - destruct (is_terminal_state (projection_state b)) eqn:Hterm.
    { apply Hunchanged in H; [done|]. right. exists b. split; [done|]. unfold kept in *. by eapply shows_inactive. }
    destruct t as [s|]; [|by apply Hunchanged in H; [|left]].
    destruct (transition_allowed (projection_state b) s) eqn:Hall; cbn [negb] in H.
    + cbv zeta in H. destruct (semantic_change _ _ _ _) eqn:Hchange in H; cbn [negb] in H.
      * apply rbind_Ok in H as (v & Hv & H). apply rbind_Ok in H as (p & Hp & H). apply Ok_inj in H. subst pr. cbn.
        apply advance_required_Ok in Hv as [-> _]. split_and!; try done.
        all: eapply Hstep in Hp as [? ?]; [|done..|]; try done.
        all: split_and!; try done; intros Hn; unfold _projection_venue, venue_of; destruct b; cbn in *;
          by destruct pj_venue_order_id.
      * apply Hunchanged in H; [done|]. right. exists b. split; [done|]. by eapply kept_unchanged; [..|apply Haim|].
    + apply Hunchanged in H; [done|]. right. exists b. split; [done|]. apply Hsame; [done|].
      eapply refused_trade; [done|apply Haim|done].
  - destruct t as [s|]; [|by apply Hunchanged in H; [|left]].
    cbv zeta in H. apply rbind_Ok in H as (p & Hp & H). apply Ok_inj in H. subst pr. cbn.
    by eapply Hstep in Hp as [? ?]; [|done..].
Qed.
End Step.
End Machine.

(** *** The Orders a reachable fact authority tracks: every projection shows its Order, what
    was observed is the sum of the fills bound to it, its history is a run of the Order
    lifecycle, and it has one venue identity. *)

Section Tracking.
Context `{hash : Sha256} (context : FactAuthorityContext) (Hss : spec_set_ok (fa_spec_set context)).

Abbreviation total_of o := (units (od_quantity o)).
Abbreviation log := (list (ExecutionFactIngress * ExecutionFactProcessingOutcome)).

(** What one outcome adds to the executed units of Order [i]: its fill, when its keys
    bound it to [i] without conflict. *)
Definition trade_units (f : ExecutionFact) : Z :=
  match fact_payload f with TradePayload t => units (trade_quantity t) | _ => 0 end.
Definition counted (i : EconomicId) (e : ExecutionFactIngress * ExecutionFactProcessingOutcome) : Z :=
  if bool_decide (po_resolved_order_id e.2 = Some i) && bool_decide (ORDER_BINDING_CONFLICT ∉ po_anomalies e.2)
  then match filled_fact e with Some f => trade_units f | None => 0 end else 0.
Definition executed (i : EconomicId) (l : log) : Z := foldr Z.add 0 (map (counted i) l).

(** The published versions of an Order's projection, oldest first. *)
Definition versions (st : _FactAuthorityState) (i : EconomicId) : list OrderProjectionSnapshot :=
  List.filter (fun p => bool_decide (pj_order_id p = i)) (fa_projections st).

Record order_tracked (st : _FactAuthorityState) (o : Order) : Prop := {
  ot_kept : kept context o (observed_of st (od_order_id o)) (projection_index st !! od_order_id o);
  ot_grid : gridded context (od_instrument o) (observed_of st (od_order_id o));
  ot_observed : 0 <= units (observed_of st (od_order_id o));
  ot_history : history (total_of o) (versions st (od_order_id o)) (projection_index st !! od_order_id o)
}.
Record tracked (st : _FactAuthorityState) (l : log) : Prop := {
  tr_indexed : indexed (order_index st);
  tr_orders i o : order_index st !! i = Some o -> order_in context o /\ order_tracked st o;
  tr_unknown i : order_index st !! i = None ->
    projection_index st !! i = None /\ observed_quantity st !! i = None /\ versions st i = [];
  tr_executed i : units (observed_of st i) = executed i l;
  tr_venues k o : venue_index st !! k = Some o -> order_index st !! od_order_id o = Some o;
  tr_venue_once k k' o o' : venue_index st !! k = Some o -> venue_index st !! k' = Some o' ->
    od_order_id o = od_order_id o' -> k = k'
}.

Lemma executed_snoc i l e : executed i (l ++ [e]) = executed i l + counted i e.
Proof. unfold executed. induction l as [|x l IH]; cbn in *; [lia|]. rewrite IH. lia. Qed.

Lemma tracked_initial : tracked initial_state [].
Proof. by split; cbn; intros *; rewrite ?lookup_empty. Qed.

(** A tracked state, or one where the Order is new, tracks the Order. *)
Lemma tracked_order st l o : tracked st l -> order_index st !! od_order_id o = None \/
  order_index st !! od_order_id o = Some o -> order_tracked st o.
Proof.
  intros T [Hn|Hs]; [|by eapply T]. destruct (tr_unknown _ _ T _ Hn) as (Hp & Ho & Hv).
  split; unfold observed_of; rewrite ?Hp, ?Ho, ?Hv; cbn; [done|apply gridded_zero|done|constructor].
Qed.
(** The parts of two states that tracking an Order reads. *)
Record agree_on (st st' : _FactAuthorityState) (i : EconomicId) : Prop := {
  ao_projection : projection_index st' !! i = projection_index st !! i;
  ao_observed : observed_quantity st' !! i = observed_quantity st !! i;
  ao_versions : versions st' i = versions st i
}.
Lemma order_tracked_agree st st' o : agree_on st st' (od_order_id o) -> order_tracked st o -> order_tracked st' o.
Proof.
  intros [A1 A2 A3] [T1 T2 T3 T4]. assert (observed_of st' (od_order_id o) = observed_of st (od_order_id o)) as E
    by (unfold observed_of; by rewrite A2).
  split; by rewrite ?E, ?A1, ?A3.
Qed.

(** *** Steps *)

(** What a published outcome does to the Orders tracked: it adds Orders, and for every
    identity changes nothing or moves its Order. *)
Record tracking_step (st st' : _FactAuthorityState) (e : ExecutionFactIngress * ExecutionFactProcessingOutcome)
  (os : list Order) : Prop := {
  ts_orders o : o ∈ os -> order_in context o;
  ts_indexed : indexed (order_index st');
  ts_index i o : order_index st' !! i = Some o <-> order_index st !! i = Some o \/ (o ∈ os /\ od_order_id o = i);
  ts_moved i : (agree_on st st' i /\ counted i e = 0) \/
    (exists o, o ∈ os /\ od_order_id o = i /\ order_tracked st' o /\
       units (observed_of st' i) = units (observed_of st i) + counted i e);
  ts_venues : venue_index st' = venue_index st \/
    (exists key o, o ∈ os /\ venue_index st' = <[key := o]> (venue_index st) /\
       forall k o', venue_index st !! k = Some o' -> od_order_id o' <> od_order_id o)
}.
Lemma tracking_step_ok st st' l e os : tracked st l -> tracking_step st st' e os -> tracked st' (l ++ [e]).
Proof.
  intros T S. split.
  - apply S.
  - intros i o Ho. pose proof (ts_indexed _ _ _ _ S i o Ho) as <-. split.
    { apply (ts_index _ _ _ _ S) in Ho as [Ho|[Ho _]]; [by apply (tr_orders _ _ T) in Ho as [? _]|by eapply S]. }
    destruct (ts_moved _ _ _ _ S (od_order_id o)) as [[Ha _]|(o' & Hin & Hi & Ht & _)].
    + eapply order_tracked_agree; [done|]. eapply tracked_order; [done|].
      destruct (order_index st !! od_order_id o) as [o'|] eqn:Ho'; [right|by left].
      rewrite <-Ho. symmetry. apply (ts_index _ _ _ _ S). by left.
    + assert (order_index st' !! od_order_id o = Some o') as Ho' by (apply (ts_index _ _ _ _ S); by right).
      rewrite Ho in Ho'. by injection Ho' as ->.
  - intros i Hn. assert (forall o, ~ (order_index st !! i = Some o \/ (o ∈ os /\ od_order_id o = i))) as Hno
      by (intros o Ho; apply (ts_index _ _ _ _ S) in Ho; by rewrite Hn in Ho).
    destruct (ts_moved _ _ _ _ S i) as [[[-> -> ->] _]|(o & ? & ? & _)]; [|destruct (Hno o); by right].
    apply (tr_unknown _ _ T). destruct (order_index st !! i) as [o|] eqn:Ho; [|done]. destruct (Hno o); by left.
  - intros i. rewrite executed_snoc, <-(tr_executed _ _ T).
    destruct (ts_moved _ _ _ _ S i) as [[[_ Ho _] ->]|(o & _ & _ & _ & ->)]; [|done].
    unfold observed_of. rewrite Ho. lia.
  - intros k o Hk. apply (ts_index _ _ _ _ S). destruct (ts_venues _ _ _ _ S) as [Hv|(key & o' & Hin & Hv & _)];
      rewrite Hv in Hk; [left; by eapply tr_venues|].
    apply lookup_insert_Some in Hk as [[<- <-]|[_ Hk]]; [by right|left; by eapply tr_venues].
  - intros k k' o o' Hk Hk' Hid. destruct (ts_venues _ _ _ _ S) as [Hv|(key & c & Hin & Hv & Hnew)];
      rewrite Hv in Hk, Hk'; [by eapply (tr_venue_once _ _ T)|].
    apply lookup_insert_Some in Hk as [[<- <-]|[_ Hk]], Hk' as [[<- <-]|[_ Hk']]; try done.
    + by destruct (Hnew _ _ Hk').
    + by destruct (Hnew _ _ Hk).
    + by eapply (tr_venue_once _ _ T).
Qed.

(** *** The fill of a first fact *)

Lemma valid_context ingress : _is_context_valid ingress context = Ok true -> context_checks ingress context = Ok true.
Proof. unfold _is_context_valid. destruct (context_checks _ _) as [b|e]; [done|]. by destruct (context_error e). Qed.
Lemma valid_trade ingress : _is_context_valid ingress context = Ok true -> fact_kind (ingress_fact ingress) = TRADE ->
  exists t, fact_payload (ingress_fact ingress) = TradePayload t.
Proof.
  intros H%valid_context Hk. unfold context_checks in H.
  destruct (_ || _) in H; [done|]. destruct (existsb _ _) in H; [done|]. apply rbind_Ok in H as (s & _ & H).
  rewrite Hk in H. destruct (fact_payload (ingress_fact ingress)) as [c|t|c]; [done|by exists t|done].
Qed.

Lemma created_fill_quantity i fact fl : create_fill i fact (fa_spec_set context) = Ok fl ->
  exists instrument, fact_instrument fact = Some instrument /\ units (fill_quantity fl) = trade_units fact /\
    0 < units (fill_quantity fl) /\ gridded context instrument (fill_quantity fl).
Proof.
  unfold create_fill, trade_units. intros H. apply rbind_Ok in H as (? & _ & H).
  destruct (fact_kind fact); try done. destruct (fact_payload fact) as [|t|]; try done.
  destruct (fact_instrument fact) as [instrument|]; [|done].
  apply rbind_Ok in H as ([s digest] & (Hs & _)%require_spec_set_Ok & H). apply rbind_Ok in H as (q & Hq & H).
  do 3 (apply rbind_Ok in H as (? & _ & H)). apply Ok_inj in H. subst fl. cbn [fill_quantity fst] in *.
  pose proof (require_quantity_value _ _ _ Hq) as ->.
  apply (require_quantity_ok _ _ (require_spec_ok _ Hss _ _ Hs)) in Hq as [Hpos Hgrid].
  exists instrument. split_and!; try done. intros u (s' & Hs' & _ & ->). rewrite Hs in Hs'. by injection Hs' as <-.
Qed.
Lemma built_fill_fits st ingress fill next o : _is_context_valid ingress context = Ok true ->
  _build_fill context st ingress = Ok (fill, next) -> fact_agrees (ingress_fact ingress) o ->
  fill_fits context (ingress_fact ingress) o fill.
Proof.
  intros Hv Hb Ha. pose proof Hb as Hb'. apply build_fill_Ok in Hb'. unfold fill_fits. destruct fill as [fl|].
  - destruct Hb' as (n & _ & _ & Hc & _). apply created_fill_quantity in Hc as (i & Hi & _ & Hpos & Hgrid).
    rewrite <-(ag_instrument _ _ Ha i Hi). split; [|done]. unfold _build_fill in Hb.
    destruct (fact_kind (ingress_fact ingress)); [done|by apply Ok_inj in Hb..].
  - intros Hk. destruct (valid_trade _ Hv Hk) as [t Ht]. unfold _build_fill in Hb. rewrite Hk, Ht in Hb.
    destruct (fill_next st); [|done]. apply rbind_Ok in Hb as (? & _ & Hb). apply rbind_Ok in Hb as (? & _ & Hb).
    by apply rbind_Ok in Hb as (? & _ & Hb).
Qed.

(** *** The anomalies of projecting *)

Lemma anomaly_if_other b a x : x <> a -> x ∉ anomaly_if b a.
Proof. intros Hx [_ ?]%elem_of_anomaly_if. done. Qed.
Lemma target_anomalies fact o observed t q found : projection_target fact o observed = Ok (t, q, found) ->
  ORDER_BINDING_CONFLICT ∉ found.
Proof.
  intros H. unfold projection_target in H. destruct (fact_kind fact); cbn [_LIFECYCLE_PROJECTION] in H.
  1: { apply rbind_Ok in H as (partial_ & _ & H). destruct partial_; [|apply rbind_Ok in H as (over & _ & H)];
       apply Ok_inj in H; injection H as _ _ <-; [apply not_elem_of_empty|by apply anomaly_if_other]. }
  5: { destruct (fact_payload fact); [by apply Ok_inj in H; injection H as _ _ <-; apply not_elem_of_singleton..|].
       apply rbind_Ok in H as (? & _ & H). apply rbind_Ok in H as (? & _ & H). apply Ok_inj in H.
       injection H as _ _ <-. apply not_elem_of_union. split; by apply anomaly_if_other. }
  all: apply rbind_Ok in H as (? & _ & H); apply Ok_inj in H; injection H as _ _ <-; apply not_elem_of_empty.
Qed.
Lemma project_anomalies st ingress fill r inherited pr : _project context st ingress fill r inherited = Ok pr ->
  ORDER_BINDING_CONFLICT ∉ pr_anomalies pr.
Proof.
  intros H. unfold _project in H. destruct (selected_order r) as [o|]; [|by apply Ok_inj in H; subst].
  destruct (bool_decide _) in H; [by apply Ok_inj in H; subst|].
  apply rbind_Ok in H as (observed & _ & H). apply rbind_Ok in H as ([[t q] found] & Ht & H).
  apply target_anomalies in Ht as Hf.
  destruct (projection_index st !! od_order_id o) as [b|].
  - destruct (is_terminal_state _).
    { apply Ok_inj in H. subst. cbn. rewrite elem_of_union. intros [?|Ht']; [done|]. unfold terminal_anomalies in Ht'.
      destruct (bool_decide _) in Ht'; [by apply elem_of_singleton in Ht'|]. by apply elem_of_anomaly_if in Ht' as [_ ?]. }
    destruct t as [s|]; [|by apply Ok_inj in H; subst].
    destruct (negb _) in H.
    { apply Ok_inj in H. subst. cbn. rewrite elem_of_union, elem_of_singleton. by intros [?|?]. }
    cbv zeta in H. destruct (negb _) in H; [by apply Ok_inj in H; subst|].
    apply rbind_Ok in H as (? & _ & H). apply rbind_Ok in H as (? & _ & H). by apply Ok_inj in H; subst.
  - destruct t as [s|]; [|by apply Ok_inj in H; subst]. apply rbind_Ok in H as (? & _ & H). by apply Ok_inj in H; subst.
Qed.

(** A new projection is of the selected Order. *)
Lemma project_new_order st ingress fill r inherited pr o p : selected_order r = Some o ->
  _project context st ingress fill r inherited = Ok pr -> new_projection pr = Some p -> pj_order_id p = od_order_id o.
Proof.
  intros Hsel H Hp. unfold _project in H. rewrite Hsel in H. destruct (bool_decide _) in H; [by apply Ok_inj in H; subst|].
  apply rbind_Ok in H as (observed & _ & H). apply rbind_Ok in H as ([[t q] found] & _ & H).
  destruct (projection_index st !! od_order_id o) as [b|].
  - destruct (is_terminal_state _); [by apply Ok_inj in H; subst|].
    destruct t as [s|]; [|by apply Ok_inj in H; subst]. destruct (negb _) in H; [by apply Ok_inj in H; subst|].
    cbv zeta in H. destruct (negb _) in H; [by apply Ok_inj in H; subst|].
    apply rbind_Ok in H as (v & _ & H). apply rbind_Ok in H as (p' & Hc & H). apply Ok_inj in H. subst pr.
    injection Hp as ->. by apply (snapshot_inv _ Hss) in Hc as [-> _].
  - destruct t as [s|]; [|by apply Ok_inj in H; subst]. apply rbind_Ok in H as (p' & Hc & H). apply Ok_inj in H. subst pr.
    injection Hp as ->. by apply (snapshot_inv _ Hss) in Hc as [-> _].
Qed.

(** *** The step of a first fact *)

Lemma elem_of_ordered a s : a ∈ ordered_anomalies s <-> a ∈ s.
Proof. unfold ordered_anomalies. by rewrite py_sorted_perm, elem_of_elements. Qed.
Lemma insert_present_other {A} (e : option (EconomicId * A)) m i : fst <$> e <> Some i ->
  insert_present e m !! i = m !! i.
Proof. destruct e as [[k v]|]; [|done]. cbn. intros Hne. apply lookup_insert_ne. by intros ->. Qed.

Section First.
Context {orders : OrderResolutionVerifier} {Hlawful : lawful context orders}.
Context (st : _FactAuthorityState) (l : log) (ingress : ExecutionFactIngress) (n : Z) (resolution : _Resolution)
  (fill : option Fill) (fill_after : option Z) (projection : _ProjectionResult)
  (inherited : anomalies) (action : ExecutionFactAction) (outcome : ExecutionFactProcessingOutcome)
  (ids : order_map) (keys : gmap Sha256Digest Order).
Abbreviation found := (ordered_anomalies (inherited ∪ pr_anomalies projection)).
Abbreviation st' := (published_state st ingress (canonical_execution_fact_ingress_bytes ingress)
  (canonical_execution_fact_bytes (ingress_fact ingress)) action found resolution fill projection fill_after outcome
  ids keys).
Hypothesis Htracked : tracked st l.
Hypothesis Hvalid : _is_context_valid ingress context = Ok true.
Hypothesis Hresolve : _resolve_orders context st ingress = Ok resolution.
Hypothesis Hfill : _build_fill context st ingress = Ok (fill, fill_after).
Hypothesis Hinherited : rs_anomalies resolution ⊆ inherited.
Hypothesis Hproject : _project context st ingress fill resolution inherited = Ok projection.
Hypothesis Houtcome : create_execution_fact_processing_outcome (fa_run_id context) n ingress action found
  (rs_bindings resolution) (selected_order resolution) fill (pr_before projection) (pr_after projection) = Ok outcome.
Hypothesis Hinsert : insert_derived_orders (order_index st, client_key_index st) (resolved_orders resolution)
  = Ok (ids, keys).

Lemma first_resolution : resolution_ok context st ingress resolution.
Proof.
  eapply resolve_orders_ok; [exact Hlawful| |exact Hresolve]. intros k o Hk.
  by apply (tr_venues _ _ Htracked) in Hk as [? _]%(tr_orders _ _ Htracked).
Qed.
Lemma first_conflict : ORDER_BINDING_CONFLICT ∈ found <-> ORDER_BINDING_CONFLICT ∈ inherited.
Proof.
  rewrite elem_of_ordered, elem_of_union. split; [|by left]. intros [?|Hc]; [done|].
  by apply project_anomalies in Hproject.
Qed.

Lemma first_counted i : counted i (ingress, outcome) =
  if decide (od_order_id <$> selected_order resolution = Some i /\ ORDER_BINDING_CONFLICT ∉ inherited)
  then filled fill else 0.
Proof.
  destruct (created_outcome _ _ _ _ _ _ _ _ _ _ _ Houtcome) as (_ & (Hact & Han & _ & Hid & _) & Hreq & _).
  unfold counted. cbn [fst snd]. rewrite Hid, Han. unfold filled_fact. cbn [fst snd]. rewrite Hact, <-Hreq.
  assert (match (if negb (bool_decide (fill = None)) then Some (ingress_fact ingress) else None) with
          | Some f => trade_units f | None => 0 end = filled fill) as ->.
  { pose proof (build_fill_Ok context _ _ _ _ Hfill) as Hb. destruct fill as [fl|]; [|done]. cbn.
    destruct Hb as (k & _ & _ & Hc & _). by apply created_fill_quantity in Hc as (? & _ & -> & _). }
  case_decide as Hd; rewrite <-first_conflict in Hd.
  - destruct Hd as [Hd1 Hd2]. by rewrite (bool_decide_eq_true_2 _ Hd1), (bool_decide_eq_true_2 _ Hd2).
  - destruct (_ && _) eqn:E; [|done]. destruct Hd. by apply andb_true_iff in E as [E1%bool_decide_eq_true E2%bool_decide_eq_true].
Qed.

(** A resolved Order was tracked before the step, possibly as one not seen yet. *)
Lemma resolved_tracked o : o ∈ resolved_orders resolution -> order_tracked st o.
Proof.
  intros Hin. eapply tracked_order; [exact Htracked|].
  destruct (insert_derived_orders_Ok _ _ _ _ _ (tr_indexed _ _ Htracked) Hinsert) as [_ Hids].
  assert (ids !! od_order_id o = Some o) as Ho by (apply Hids; by right).
  destruct (order_index st !! od_order_id o) as [o'|] eqn:Ho'; [right|by left].
  assert (ids !! od_order_id o = Some o') as E by (apply Hids; by left). rewrite Ho in E. by injection E as ->.
Qed.

(** The selected Order moves by the projection step. *)
Lemma selected_moved o : selected_order resolution = Some o -> ORDER_BINDING_CONFLICT ∉ inherited ->
  order_tracked st' o /\ units (observed_of st' (od_order_id o)) = units (observed_of st (od_order_id o)) + filled fill.
Proof.
  intros Hsel Hnc. pose proof first_resolution as R.
  destruct (resolved_tracked o (re_selected _ _ _ _ R _ Hsel)) as [K G O V].
  destruct (order_in_fields _ Hss o (order_issued _ _ (re_orders _ _ _ _ R _ (re_selected _ _ _ _ R _ Hsel))))
    as (_ & Hpos & _).
  assert (fact_agrees (ingress_fact ingress) o) as Hag by (apply (re_agrees _ _ _ _ R); [done|]; intros ?; by apply Hnc, Hinherited).
  destruct (project_step _ Hss _ _ _ _ _ _ Hpos (built_fill_fits _ _ _ _ _ Hvalid Hfill Hag) G K _ Hsel Hnc Hproject)
    as (observed & Hobs & Hu & Hg & Hbefore & Hnew).
  assert (observed_of st' (od_order_id o) = observed) as Eo.
  { unfold observed_of. cbn. unfold published_observed. rewrite Hobs, Hsel. cbn. by rewrite lookup_insert_eq. }
  assert (0 <= units observed) as Hpo.
  { rewrite Hu. pose proof (built_fill_fits _ _ _ _ _ Hvalid Hfill Hag) as Hff. unfold filled, fill_fits in *. destruct fill; [|lia].
    destruct Hff as (_ & ? & _). lia. }
  split; [|by rewrite Eo]. split; rewrite ?Eo; [| |done|]; [|done|].
  - cbn. unfold published_projection. rewrite Hsel. destruct (new_projection projection) as [p|]; cbn.
    + rewrite lookup_insert_eq. by destruct Hnew as (_ & ? & _).
    + by destruct Hnew.
  - unfold versions. cbn. unfold published_projection. rewrite Hsel, List.filter_app.
    destruct (new_projection projection) as [p|]; cbn.
    + destruct Hnew as (_ & Hs & Hn). rewrite lookup_insert_eq, (shows_order _ _ _ _ Hs), bool_decide_eq_true_2 by done.
      unfold next_version in Hn. fold (versions st (od_order_id o)). destruct (projection_index st !! od_order_id o).
      * by eapply history_next.
      * inversion V. by apply history_first.
    + by rewrite app_nil_r.
Qed.

(** Every other identity, and the selected one under a conflict, is left alone. *)
Lemma others_unmoved i : od_order_id <$> selected_order resolution <> Some i \/ ORDER_BINDING_CONFLICT ∈ inherited ->
  agree_on st st' i.
Proof.
  intros Hi.
  assert (forall p, published_projection resolution projection = Some (i, p) -> False) as Hp.
  { intros p. unfold published_projection. destruct (new_projection projection) as [q|] eqn:Hn; [|done].
    destruct (selected_order resolution) as [o|] eqn:Hs; [|done]. intros [= Hid ->]. destruct Hi as [Hi|Hc].
    - apply Hi. cbn. by rewrite Hid.
    - unfold _project in Hproject. rewrite Hs, bool_decide_eq_true_2 in Hproject by done. apply Ok_inj in Hproject.
      by subst projection. }
  assert (forall q, published_observed resolution projection = Some (i, q) -> False) as Hq.
  { intros q. unfold published_observed. destruct (pr_observed_quantity projection) as [q'|] eqn:Hn; [|done].
    destruct (selected_order resolution) as [o|] eqn:Hs; [|done]. intros [= Hid ->]. destruct Hi as [Hi|Hc].
    - apply Hi. cbn. by rewrite Hid.
    - unfold _project in Hproject. rewrite Hs, bool_decide_eq_true_2 in Hproject by done. apply Ok_inj in Hproject.
      by subst projection. }
  split; cbn.
  - apply insert_present_other. destruct (published_projection _ _) as [[k p]|]; [|done]. intros [= ->]. by eapply Hp.
  - apply insert_present_other. destruct (published_observed _ _) as [[k q]|]; [|done]. intros [= ->]. by eapply Hq.
  - unfold versions. cbn. rewrite List.filter_app. destruct (published_projection _ _) as [[k p]|] eqn:E; cbn;
      [|by rewrite app_nil_r].
    destruct (bool_decide (pj_order_id p = i)) eqn:Hk; [|by rewrite app_nil_r].
    apply bool_decide_eq_true in Hk. destruct (Hp p). rewrite <-E. unfold published_projection in *.
    destruct (new_projection projection) as [q|] eqn:Hn; [|done].
    destruct (selected_order resolution) as [o|] eqn:Hs; [|done]. injection E as <- ->.
    by rewrite <-Hk, (project_new_order _ _ _ _ _ _ _ _ Hs Hproject Hn).
Qed.

Lemma first_tracking_step : tracking_step st st' (ingress, outcome) (resolved_orders resolution).
Proof.
  pose proof first_resolution as R.
  destruct (insert_derived_orders_Ok _ _ _ _ _ (tr_indexed _ _ Htracked) Hinsert) as [Hindexed Hids].
  split; [apply R|exact Hindexed|exact Hids| |].
  - intros i. rewrite first_counted. case_decide as Hd.
    + right. destruct Hd as [(o & Hs & ->)%fmap_Some Hnc]. destruct (selected_moved o Hs Hnc) as [Ht Hu]. exists o. split_and!; try done.
      by apply (re_selected _ _ _ _ R).
    + left. split; [|done]. apply others_unmoved.
      destruct (decide (ORDER_BINDING_CONFLICT ∈ inherited)); [by right|left]. intros E. by apply Hd.
  - cbn. unfold staged_venue_index. destruct (staged_venue_key resolution) as [key|] eqn:Hk; [|by left].
    destruct (selected_order resolution) as [o|] eqn:Hs; [|by left]. destruct (_ && _); [|by left].
    right. exists key, o. split_and!; [by apply (re_selected _ _ _ _ R)|done|].
    by apply (re_new_venue _ _ _ _ R key o Hk Hs).
Qed.
End First.

(** A step that resolved no Order. *)
Lemma unresolved_step st st' ingress outcome : indexed (order_index st) -> order_index st' = order_index st ->
  venue_index st' = venue_index st -> (forall i, agree_on st st' i) -> po_resolved_order_id outcome = None ->
  tracking_step st st' (ingress, outcome) [].
Proof.
  intros Hi Ho Hv Ha Hn. split.
  - by intros o Hin%not_elem_of_nil.
  - by rewrite Ho.
  - intros i o. rewrite Ho. split; [by left|]. by intros [?|[?%not_elem_of_nil _]].
  - intros i. left. split; [done|]. unfold counted. cbn [snd]. by rewrite Hn.
  - by left.
Qed.

Lemma processed_tracked st l orders dispatch ingress st' o : lawful context orders -> tracked st l ->
  @processed hash context orders dispatch st ingress st' o -> st' = st \/ tracked st' (l ++ [(ingress, o)]).
Proof.
  intros Hlaw T [r Hi H1 H2|n existing action o' Hi Hn Hf Ha Ho|n action found resolution fill projection fill_after ids
    keys o' Hi Hn Hf Hfirst Ho Hd]; [by left|right..].
  - destruct (created_outcome _ _ _ _ _ _ _ _ _ _ _ Ho) as (_ & (_ & _ & _ & Hr & _) & _).
    eapply tracking_step_ok; [done|]. apply unresolved_step; [apply T|done..|exact Hr].
  - destruct Hfirst as [Hv|resolution fill fill_after projection found Hv Hres Hfill inherited Hp ->].
    + destruct (created_outcome _ _ _ _ _ _ _ _ _ _ _ Ho) as (_ & (_ & _ & _ & Hr & _) & _).
      apply Ok_inj in Hd. injection Hd as <- <-. eapply tracking_step_ok; [done|].
      apply unresolved_step; [apply T|done|done| |exact Hr]. intros i. split; [done|done|].
      unfold versions. cbn. by rewrite app_nil_r.
    + eapply tracking_step_ok; [done|]. eapply first_tracking_step; try done. apply union_subseteq_l.
Qed.

(** A reachable state comes with the log of its outcomes. *)
Lemma reachable_authority st : reachable context st ->
  exists l, log_ok st l /\ fills_ok context st l /\ tracked st l.
Proof.
  revert st. apply published_ind.
  { exists []. split_and!; [apply log_ok_initial|apply fills_ok_initial|apply tracked_initial]. }
  intros st orders dispatch ingress st' o Hlaw (l & Hl & Hf & Ht) Hp.
  pose proof (processed_log_step _ _ _ _ _ _ _ Hp) as [[-> _]|Hs]; [by exists l|].
  pose proof (fills_ok_step _ _ _ _ _ _ _ _ Hf Hp) as [[-> _]|Hf']; [by exists l|].
  pose proof (processed_tracked _ _ _ _ _ _ _ Hlaw Ht Hp) as [->|Ht']; [by exists l|].
  exists (l ++ [(ingress, o)]). split_and!; [by eapply log_step_ok|done|done].
Qed.
End Tracking.
