(* ===== verification/LedgerSpec.v ===== *)
(** The ledger's specification: the invariant of its state, the effect of a fill, and
    the preservation of the invariant by every operation.

    The invariant ties the indexes, balances and snapshot to the journal of
    transactions: balances are sums of postings, the fill and fact indexes are exactly
    the fills of the journal, entries are numbered from one, each transaction names the
    digest of its predecessor. *)

From S2P Require Import Prelude PyRegex PyText Outcomes Json Identity Economics Commission.
From S2P Require Import Execution Messages Portfolio Reconciliation Integration Ledger LedgerLemmas.

Open Scope Z_scope.

(** ** The journal *)

Definition tx_entry (t : CanonicalPortfolioTransaction) : EconomicId :=
  match t with
  | TxFunding t => ft_entry_id t | TxFill t => lt_entry_id t | TxReconciliation t => rt_entry_id t
  end.
Definition tx_sequence (t : CanonicalPortfolioTransaction) : Z :=
  match t with
  | TxFunding t => ft_ledger_sequence t
  | TxFill t => lt_ledger_sequence t
  | TxReconciliation t => rt_ledger_sequence t
  end.
Definition tx_postings (t : CanonicalPortfolioTransaction) : list LedgerPosting :=
  match t with
  | TxFunding t => ft_postings t | TxFill t => lt_postings t | TxReconciliation t => rt_postings t
  end.
Definition tx_previous (t : CanonicalPortfolioTransaction) : option Sha256Digest :=
  match t with
  | TxFunding _ => None
  | TxFill t => lt_previous_transaction_sha256 t
  | TxReconciliation t => rt_previous_transaction_sha256 t
  end.

(** The balance of an account in a commodity, replayed from the journal. *)
Definition journal_balance (a : LedgerAccountKind) (c : LedgerCommodity)
  (l : list CanonicalPortfolioTransaction) : Z :=
  foldr (fun t acc => booked a c (tx_postings t) + acc) 0 l.

Lemma journal_balance_snoc a c l t :
  journal_balance a c (l ++ [t]) = journal_balance a c l + booked a c (tx_postings t).
Proof. induction l as [|u l IH]; simpl; lia. Qed.

(** ** Static well-formedness: what [create_portfolio_ledger] binds *)

Section Spec.
Context `{Sha256} (L : PortfolioLedger).

Record ledger_ok : Prop := {
  lo_specs : spec_set_ok (l_spec_set L);
  lo_digest : l_spec_set_sha256 L = instrument_spec_set_digest (l_spec_set L);
  lo_quanta s : s ∈ specifications (l_spec_set L) ->
    l_currency_quanta L !! settlement_currency s = Some (currency_quantum s);
  lo_quanta_from c q : l_currency_quanta L !! c = Some q ->
    exists s, s ∈ specifications (l_spec_set L) /\ settlement_currency s = c /\ currency_quantum s = q;
  lo_instruments s : s ∈ specifications (l_spec_set L) ->
    l_spec_by_instrument L !! spec_instrument s = Some s
}.

Definition entry (n : Z) : EconomicId := mkEconomicId (l_run_id L) LEDGER_ENTRY n.

Definition fill_binding (t : LedgerTransaction) : ExistingLedgerBinding :=
  mkExistingLedgerBinding (lt_entry_id t) (lt_fill_id t) (lt_fill_sha256 t) (ledger_transaction_digest t).

(** A fill whose identities agree with the ledger's run, as [create_fill] leaves it. *)
Record fill_ok (f : Fill) : Prop := {
  fill_id_ok : id_ok L EXECUTION_FILL (fill_id f);
  fill_ancestry_ok : forallb (in_run (l_run_id L))
    [fill_order_id f; fill_correlation_id f; fill_causation_id f] = true
}.

(** ** The state invariant, part by part *)

(** The journal: entries numbered from one in the ledger's run, chained by digest,
    each balanced, and indexed by entry. *)
Record journal_ok (txs : list CanonicalPortfolioTransaction)
  (index : gmap EconomicId CanonicalPortfolioTransaction) : Prop := {
  jo_bound : Z.of_nat (length txs) <= MAX_UINT64;
  jo_entries k t : txs !! k = Some t ->
    tx_entry t = entry (Z.of_nat k + 1) /\ tx_sequence t = Z.of_nat k + 1;
  jo_index e t : index !! e = Some t <-> exists k, txs !! k = Some t /\ e = entry (Z.of_nat k + 1);
  jo_digests t : t ∈ txs -> exists d, _transaction_digest t = Ok d;
  jo_chain k t : txs !! k = Some t ->
    match k with
    | O => tx_previous t = None
    | S j => exists p d, txs !! j = Some p /\ _transaction_digest p = Ok d /\ tx_previous t = Some d
    end;
  jo_balanced t : t ∈ txs -> commodity_balanced (tx_postings t)
}.

(** Balances are the journal's account totals, and snapshots accept them. *)
Record balances_ok (txs : list CanonicalPortfolioTransaction)
  (cash : gmap SettlementCurrency CanonicalDecimal) (positions : gmap Instrument CanonicalDecimal)
  (rounding : gmap SettlementCurrency CanonicalDecimal) : Prop := {
  bo_cash c : balance cash c = journal_balance PORTFOLIO_CASH (CurrencyCommodity c) txs;
  bo_positions i : balance positions i = journal_balance PORTFOLIO_POSITION (InstrumentCommodity i) txs;
  bo_rounding c : balance rounding c = journal_balance PORTFOLIO_ROUNDING (CurrencyCommodity c) txs;
  bo_cash_ok : cash_ok L cash;
  bo_positions_ok : positions_ok L positions;
  bo_rounding_ok : rounding_ok rounding
}.

(** The fill and fact indexes are exactly the fills of the journal. *)
Record fills_ok (txs : list CanonicalPortfolioTransaction)
  (fill_index : gmap EconomicId ExistingLedgerBinding)
  (fact_index : gmap FactDedupKey ExistingLedgerBinding) : Prop := {
  fi_ids t : TxFill t ∈ txs -> id_ok L EXECUTION_FILL (lt_fill_id t);
  fi_fill f b : fill_index !! f = Some b <->
    exists t, TxFill t ∈ txs /\ lt_fill_id t = f /\ b = fill_binding t;
  fi_fact k b : fact_index !! k = Some b <->
    exists t, TxFill t ∈ txs /\ lt_fact_key t = k /\ b = fill_binding t
}.

(** Open and unresolved references point at applied fills. *)
Record references_ok (fill_index : gmap EconomicId ExistingLedgerBinding)
  (unresolved : gmap EconomicId UnresolvedFillRef)
  (open_bindings : gmap EconomicId ExistingLedgerBinding)
  (open_refs : gmap EconomicId OpenReconciliationRef) : Prop := {
  ro_open f b : open_bindings !! f = Some b -> fill_index !! f = Some b;
  ro_ref f r : open_refs !! f = Some r ->
    open_fill_id r = f /\ exists b, open_bindings !! f = Some b /\
      binding_fill_sha256 b = open_fill_sha256 r;
  ro_exists f b : open_bindings !! f = Some b -> is_Some (open_refs !! f);
  ro_unresolved f u : unresolved !! f = Some u ->
    unresolved_fill_id u = f /\ exists b, fill_index !! f = Some b /\
      binding_fill_sha256 b = unresolved_fill_sha256 u
}.

(** Funding is the first transaction, if there is one. *)
Definition funding_ok (txs : list CanonicalPortfolioTransaction) (funding : option FundingBinding) : Prop :=
  match funding with
  | None => forall t, TxFunding t ∉ txs
  | Some fb => exists t, txs !! 0%nat = Some (TxFunding t) /\
      fo_transaction (fb_outcome fb) = Some t /\ fo_code (fb_outcome fb) = LEDGER_APPLIED
  end.

(** The snapshot is the projection of the state. *)
Definition snapshot_current (st : LedgerState) : Prop :=
  let n := Z.of_nat (length (st_transactions st)) in
  snap_run_id (st_snapshot st) = l_run_id L /\ snapshot_version (st_snapshot st) = n /\
  Portfolio.ledger_sequence (st_snapshot st) = n /\
  forall t, last (st_transactions st) = Some t -> exists d, _transaction_digest t = Ok d /\
    st_snapshot st = snapshot_of L n (entry n) d (st_cash st) (st_positions st) (st_rounding st)
                       (st_unresolved st) (st_open_bindings st) (st_open_refs st).

Record state_ok (st : LedgerState) : Prop := {
  so_journal : journal_ok (st_transactions st) (st_entry_index st);
  so_balances : balances_ok (st_transactions st) (st_cash st) (st_positions st) (st_rounding st);
  so_fills : fills_ok (st_transactions st) (st_fill_index st) (st_fact_index st);
  so_references : references_ok (st_fill_index st) (st_unresolved st) (st_open_bindings st)
                    (st_open_refs st);
  so_funding : funding_ok (st_transactions st) (st_funding st);
  so_snapshot : snapshot_current st
}.

(** ** The effect of a fill *)

(** What a successful [fill_effect] computed: the settled amounts in units and the
    balances they lead to. *)
Definition fill_sign (fill : Fill) : Z :=
  if bool_decide (side_value (fill_side fill) = "buy"%string) then 1 else -1.

Record effect_ok (st : LedgerState) (fill : Fill) (s : InstrumentExecutionSpec) (e : FillEffect) : Prop := {
  eo_currency : fe_currency e = settlement_currency s;
  eo_settlement : exists settled fee,
    settles (fill_price fill) (fill_quantity fill) (contract_multiplier s) (currency_quantum s) settled /\
    fill_fees fill = [fee] /\
    units (fe_next_position e)
    = balance (st_positions st) (fill_instrument fill) + fill_sign fill * units (fill_quantity fill) /\
    units (fe_next_cash e)
    = balance (st_cash st) (settlement_currency s) - fill_sign fill * units (amount settled)
      - units (fee_amount fee) /\
    units (fe_next_rounding e)
    = balance (st_rounding st) (settlement_currency s)
      - fill_sign fill * units (rounding_residual settled);
  eo_postings : exists pd npd cd en rd fee,
    fe_postings e = fill_postings (fill_instrument fill) (settlement_currency s) pd npd cd en rd fee /\
    units npd = - units pd /\ units cd + units en + units rd + units fee = 0 /\
    units pd <> 0 /\ on_grid pd (quantity_quantum s) /\ on_grid cd (currency_quantum s) /\
    units (fe_next_cash e) = balance (st_cash st) (settlement_currency s) + units cd /\
    units (fe_next_position e) = balance (st_positions st) (fill_instrument fill) + units pd /\
    units (fe_next_rounding e) = balance (st_rounding st) (settlement_currency s) + units rd;
  eo_funded : st_funding st <> None -> 0 <= units (fe_next_cash e)
}.

(** The failures [_apply_new_fill] reports past the sequence check. *)
Definition effect_failure (p : OutcomeCode * LedgerFailureStage) : Prop :=
  match p.2 with
  | SETTLEMENT_ARITHMETIC_OVERFLOW | EXACT_NOTIONAL_OVERFLOW | CASH_BALANCE_OVERFLOW
  | POSITION_BALANCE_OVERFLOW => p.1 = ARITHMETIC_OVERFLOW
  | SETTLEMENT_ROUNDING_UNREPRESENTABLE | ROUNDING_BALANCE_OVERFLOW => p.1 = ROUNDING_UNREPRESENTABLE
  | INSUFFICIENT_CASH => p.1 = OUT_OF_RANGE
  | LEDGER_SEQUENCE_EXHAUSTED | COMMODITY_UNBALANCED => False
  end.

(** What [_require_specification] has checked when it returns. *)
Record specified (fill : Fill) (s : InstrumentExecutionSpec) : Prop := {
  sp_in : s ∈ specifications (l_spec_set L);
  sp_instrument : spec_instrument s = fill_instrument fill;
  sp_validated : validate_execution_inputs (l_spec_set L) (fill_instrument fill) (fill_price fill)
                   (fill_quantity fill) = Ok s;
  sp_quantity : 0 < units (fill_quantity fill) /\ on_grid (fill_quantity fill) (quantity_quantum s);
  sp_fee : exists fee, fill_fees fill = [fee] /\ fee_currency fee = settlement_currency s /\
             expected_fee fee s (fill_price fill) (fill_quantity fill) = Ok (fee_amount fee) /\
             on_grid (fee_amount fee) (currency_quantum s)
}.

Lemma structurally_Ok {A} (m : res A) a : structurally m = Ok a <-> m = Ok a.
Proof. unfold structurally, catch_economic. destruct m as [|[]]; naive_solver. Qed.

Lemma fee_conflicts_false fee s p q : fee_conflicts fee s p q = Ok false ->
  fee_currency fee = settlement_currency s /\ expected_fee fee s p q = Ok (fee_amount fee).
Proof.
  unfold fee_conflicts. intros Hf. res_inv Hf.
  apply orb_false_iff in E as [_ E%negb_false_iff%bool_decide_eq_true].
  injection Hf as E1%negb_false_iff%bool_decide_eq_true. by rewrite E1.
Qed.

Lemma require_specification_ok fill s : ledger_ok -> _require_specification L fill = Ok s ->
  specified fill s.
Proof.
  intros HL. pose proof (lo_specs HL) as Hset. pose proof Hset as (Hspec & _).
  unfold _require_specification. intros Hs. res_inv Hs.
  injection Hs as ->.
  repeat match goal with E : structurally _ = Ok _ |- _ => apply (proj1 (structurally_Ok _ _)) in E end.
  match goal with E : negb (bool_decide (?x = s)) = false |- _ =>
    apply negb_false_iff, bool_decide_eq_true in E; subst x end.
  match goal with E : validate_execution_inputs _ _ _ _ = Ok s |- _ => rename E into Hval end.
  pose proof Hval as Hv. apply (validate_execution_inputs_ok _ _ _ _ _ Hset) in Hv
    as (Hin & Hi & Hd & Hq & Hgp & Hgq).
  match goal with E : fee_conflicts _ _ _ _ = Ok _ |- _ =>
    apply fee_conflicts_false in E as [Hcur Hexp] end.
  match goal with E : require_quantized _ _ = Ok _ |- _ => rename E into Hrq end.
  rewrite Forall_forall in Hspec. destruct (Hspec _ Hin) as (_ & _ & HQ & _).
  destruct (require_quantized_ok (fee_amount f) (currency_quantum s) HQ) as [[_ Hg]|[Hr _]];
    [|congruence].
  constructor; try done. by exists f.
Qed.

Lemma on_grid_add a b c q : on_grid a q -> on_grid b q -> units c = units a + units b -> on_grid c q.
Proof. unfold on_grid. intros Ha Hb ->. by apply Z.divide_add_r. Qed.
Lemma on_grid_signed a c q s : on_grid a q -> units c = s * units a -> on_grid c q.
Proof. unfold on_grid. intros Ha ->. by apply Z.divide_mul_r. Qed.

Lemma or_failure_cases {A B} (m : res A) f (k : A -> res ((OutcomeCode * LedgerFailureStage) + B)) r :
  or_failure m f k = r ->
  (exists a, m = Ok a /\ k a = r) \/ (exists c, m = Raise (EconomicValidationError c) /\ r = Ok (inl f)) \/
  (exists e, m = Raise e /\ (forall c, e <> EconomicValidationError c) /\ r = Raise e).
Proof. unfold or_failure. destruct m as [a|[]]; naive_solver. Qed.

Lemma settle_execution_cases fill s : ledger_ok -> specified fill s ->
  (exists st, settle_product (fill_price fill) (fill_quantity fill) (contract_multiplier s)
                (currency_quantum s) = Ok st /\
     settles (fill_price fill) (fill_quantity fill) (contract_multiplier s) (currency_quantum s) st /\
     exists es, settle_execution (l_spec_set L) (fill_instrument fill) (fill_price fill)
                  (fill_quantity fill) = Ok es /\
       settled_currency es = settlement_currency s /\ settled_amount es = amount st /\
       settled_residual es = rounding_residual st) \/
  (exists c, (c = ARITHMETIC_OVERFLOW \/ c = ROUNDING_UNREPRESENTABLE) /\
     settle_execution (l_spec_set L) (fill_instrument fill) (fill_price fill) (fill_quantity fill)
     = Raise (EconomicValidationError c)).
Proof.
  intros HL Hsp. pose proof (sp_in _ _ Hsp) as Hin. destruct (lo_specs HL) as (Hspec & _).
  rewrite Forall_forall in Hspec. destruct (Hspec _ Hin) as (_ & _ & HQ & HM).
  destruct (sp_quantity _ _ Hsp) as [Hq _].
  unfold settle_execution. rewrite (sp_validated _ _ Hsp). cbn [rbind].
  pose proof (settle_product_correct (fill_price fill) (fill_quantity fill) (contract_multiplier s)
    (currency_quantum s) Hq HM HQ) as Hs.
  destruct (settle_product _ _ _ _) as [st|e]; cbn [rbind].
  - left. exists st. split_and!; [done|done|]. eexists; split; [done|]. done.
  - right. destruct Hs as (k & _ & [[-> _]|[-> _]]); eauto.
Qed.

Lemma side_sign fill :
  let sgn := if bool_decide (side_value (fill_side fill) = "buy"%string) then 1 else -1 in
  (sgn = 1 \/ sgn = -1) /\ (- sgn = 1 \/ - sgn = -1).
Proof. simpl. destruct (fill_side fill); simpl; lia. Qed.

(** The arithmetic of a specified fill either reports a failure of the right code and
    stage, never an unbalanced one, or computes a balanced effect. *)
Lemma fill_effect_spec st fill s : ledger_ok -> specified fill s ->
  match fill_effect L st fill with
  | Ok (inr e) => effect_ok st fill s e
  | Ok (inl failure) => effect_failure failure
  | Raise _ => False
  end.
Proof.
  intros HL Hsp. unfold fill_effect.
  destruct (settle_execution_cases fill s HL Hsp)
    as [(st' & _ & Hsettles & es & -> & Hcur & Ha & Hr) | (c & Hc & ->)].
  2:{ destruct Hc as [-> | ->]; simpl; done. }
  rewrite Hcur, Ha, Hr. destruct (side_sign fill) as [Hs1 Hs2].
  fold (fill_sign fill). pose proof Hsettles as (k & Hk & _ & _).
  set (sgn := if bool_decide _ then 1 else -1) in *. change (fill_sign fill) with sgn.
  assert (fill_sign fill = sgn) as Hsgn by done. clearbody sgn.
  destruct (sp_fee _ _ Hsp) as (fee & Hfees & _ & _ & Hfg). rewrite Hfees.
  destruct (sp_quantity _ _ Hsp) as [Hq Hqg].
  destruct (add_decimal_cases (amount st') (rounding_residual st')) as [(en0 & -> & Hen0)|[-> _]];
    [|simpl; done]. cbn [or_failure].
  destruct (signed_spec (fill_quantity fill) sgn Hs1) as (pd & -> & Hpd). cbn [rbind].
  destruct (signed_spec (amount st') (- sgn) Hs2) as (na & -> & Hna). cbn [rbind].
  destruct (signed_spec (fee_amount fee) (-1) ltac:(auto)) as (nf & -> & Hnf). cbn [rbind].
  destruct (add_decimal_cases na nf) as [(cd & -> & Hcd)|[-> _]]; [|simpl; done]. cbn [or_failure].
  destruct (signed_spec (rounding_residual st') (- sgn) Hs2) as (rd & -> & Hrd). cbn [rbind].
  destruct (signed_spec en0 sgn Hs1) as (en & -> & Hen). cbn [rbind].
  assert (units pd <> 0) as Hpd0 by (destruct Hs1 as [->| ->]; lia).
  destruct (postings_ok (fill_instrument fill) (settlement_currency s) pd cd en rd (fee_amount fee) Hpd0)
    as (npd & Hnpd & ->). cbn [rbind].
  assert (units cd + units en + units rd + units (fee_amount fee) = 0) as Hsum
    by (rewrite Hcd, Hen, Hrd, Hna, Hnf, Hen0; ring).
  destruct (next_balance_cases (st_cash st !! settlement_currency s) cd) as [(nc & -> & Hnc)|[-> _]];
    [|simpl; done]. cbn [or_failure].
  destruct (negb (absent (st_funding st)) && (coefficient nc <? 0)) eqn:Hf; [simpl; done|].
  destruct (next_balance_cases (st_positions st !! fill_instrument fill) pd) as [(np & -> & Hnp)|[-> _]];
    [|simpl; done]. cbn [or_failure].
  destruct (next_balance_cases (st_rounding st !! settlement_currency s) rd) as [(nr & -> & Hnr)|[-> _]];
    [|simpl; done]. cbn [or_failure].
  rewrite postings_balance_eq.
  rewrite (proj2 (postings_sum_to_zero_iff _)) by (by apply fill_postings_balanced). cbn [negb].
  constructor; [done| | |].
  - exists st', fee. simpl. rewrite Hsgn. unfold balance. split_and!; try done; lia.
  - exists pd, npd, cd, en, rd, (fee_amount fee). split_and!; try done.
    + by apply (on_grid_signed (fill_quantity fill) pd _ sgn).
    + apply (on_grid_add na nf); [|by apply (on_grid_signed (fee_amount fee) nf _ (-1))|done].
      apply (on_grid_signed (amount st') na _ (- sgn)); [|done]. exists k. lia.
  - simpl. intros Hfund. rewrite coefficient_negative in Hf.
    destruct (st_funding st); [|done]. simpl in Hf. apply Z.ltb_ge in Hf. done.
Qed.

(** ** Appending a transaction *)

Abbreviation previous_of txs :=
  (match last txs with None => Ok None | Some t => let* d := _transaction_digest t in Ok (Some d) end).

Lemma lookup_snoc_Some (txs : list CanonicalPortfolioTransaction) t k u :
  (txs ++ [t]) !! k = Some u <->
  txs !! k = Some u \/ (k = length txs /\ u = t).
Proof.
  rewrite lookup_app_Some. split.
  - intros [?|[Hk Hu]]; [by left|]. right.
    apply list_lookup_singleton_Some in Hu as [? <-]. split; [lia|done].
  - intros [?|[-> ->]]; [by left|]. right. split; [lia|]. by rewrite Nat.sub_diag.
Qed.

Lemma journal_snoc txs index t :
  journal_ok txs index -> Z.of_nat (length txs) < MAX_UINT64 ->
  tx_entry t = entry (Z.of_nat (length txs) + 1) -> tx_sequence t = Z.of_nat (length txs) + 1 ->
  (exists d, _transaction_digest t = Ok d) -> previous_of txs = Ok (tx_previous t) ->
  commodity_balanced (tx_postings t) ->
  journal_ok (txs ++ [t]) (<[entry (Z.of_nat (length txs) + 1) := t]> index).
Proof.
  intros HJ Hb He Hs Hd Hp Hbal. constructor.
  - rewrite length_app. simpl. lia.
  - intros k u [Hk|[-> ->]]%lookup_snoc_Some; [by apply (jo_entries _ _ HJ)|done].
  - intros e u. setoid_rewrite lookup_snoc_Some.
    destruct (decide (e = entry (Z.of_nat (length txs) + 1))) as [->|Hne].
    + rewrite lookup_insert_eq. split.
      * intros [= <-]. exists (length txs). by split; [right|].
      * intros (k & [Hk|[-> ->]] & Hek); [|done]. injection Hek as Hek.
        apply lookup_lt_Some in Hk. lia.
    + rewrite lookup_insert_ne by done. rewrite (jo_index _ _ HJ). split.
      * intros (k & Hk & ->). exists k. by split; [left|].
      * intros (k & [Hk|[-> ->]] & ->); [by exists k|done].
  - intros u [Hu|Hu%list_elem_of_singleton]%elem_of_app; [by apply (jo_digests _ _ HJ)|by subst].
  - intros k u [Hk|[-> ->]]%lookup_snoc_Some.
    + pose proof (jo_chain _ _ HJ _ _ Hk) as Hc. destruct k as [|j]; [done|].
      destruct Hc as (q & d & Hq & ? & ?). exists q, d. split_and!; try done.
      apply lookup_snoc_Some. by left.
    + rewrite last_lookup in Hp. destruct (length txs) as [|j] eqn:Hlen.
      * apply nil_length_inv in Hlen. subst txs. simpl in Hp. congruence.
      * simpl in Hp. destruct (txs !! j) as [q|] eqn:Hq.
        -- destruct (_transaction_digest q) as [d|] eqn:Hdq; simplify_eq/=.
           exists q, d. split_and!; [apply lookup_snoc_Some; by left|done|done].
        -- apply lookup_ge_None in Hq. lia.
  - intros u [Hu|Hu%list_elem_of_singleton]%elem_of_app; [by apply (jo_balanced _ _ HJ)|by subst].
Qed.

Lemma journal_previous txs index : journal_ok txs index -> exists p, previous_of txs = Ok p /\
  (p = None <-> txs = []).
Proof.
  intros HJ. destruct (last txs) as [t|] eqn:Hl.
  - destruct (jo_digests _ _ HJ t) as [d Hd]; [by apply last_Some_elem_of|].
    rewrite Hd. simpl. exists (Some d). split; [done|]. split; [done|]. by intros ->.
  - apply last_None in Hl as ->. by exists None.
Qed.

(** A transaction is found at one place only. *)
Lemma journal_entry_inj txs index k k' t t' : journal_ok txs index ->
  txs !! k = Some t -> txs !! k' = Some t' -> tx_entry t = tx_entry t' -> k = k'.
Proof.
  intros HJ Hk Hk' He. apply (jo_entries _ _ HJ) in Hk as [Hk _], Hk' as [Hk' _].
  rewrite Hk, Hk' in He. injection He. lia.
Qed.

Lemma fills_snoc_fill txs fill_index fact_index t :
  fills_ok txs fill_index fact_index -> id_ok L EXECUTION_FILL (lt_fill_id t) ->
  fill_index !! lt_fill_id t = None -> fact_index !! lt_fact_key t = None ->
  fills_ok (txs ++ [TxFill t]) (<[lt_fill_id t := fill_binding t]> fill_index)
    (<[lt_fact_key t := fill_binding t]> fact_index).
Proof.
  intros HF Hid Hf Hk. constructor.
  - intros u [Hu|Hu%list_elem_of_singleton]%elem_of_app; [by apply (fi_ids _ _ _ HF)|by simplify_eq].
  - intros f b. setoid_rewrite elem_of_app. setoid_rewrite list_elem_of_singleton.
    destruct (decide (lt_fill_id t = f)) as [<-|Hne].
    + rewrite lookup_insert_eq. split.
      * intros [= <-]. exists t. auto.
      * intros (u & [Hu|[= ->]] & Hid' & ->); [|done].
        assert (fill_index !! lt_fill_id t = Some (fill_binding u)) as Hs
          by (apply (fi_fill _ _ _ HF); by exists u). congruence.
    + rewrite lookup_insert_ne by done. rewrite (fi_fill _ _ _ HF). naive_solver.
  - intros f b. setoid_rewrite elem_of_app. setoid_rewrite list_elem_of_singleton.
    destruct (decide (lt_fact_key t = f)) as [<-|Hne].
    + rewrite lookup_insert_eq. split.
      * intros [= <-]. exists t. auto.
      * intros (u & [Hu|[= ->]] & Hid' & ->); [|done].
        assert (fact_index !! lt_fact_key t = Some (fill_binding u)) as Hs
          by (apply (fi_fact _ _ _ HF); by exists u). congruence.
    + rewrite lookup_insert_ne by done. rewrite (fi_fact _ _ _ HF). naive_solver.
Qed.

Lemma fills_snoc_other txs fill_index fact_index t :
  fills_ok txs fill_index fact_index -> (forall u, t <> TxFill u) ->
  fills_ok (txs ++ [t]) fill_index fact_index.
Proof.
  intros HF Ht. constructor.
  - intros u [Hu|Hu%list_elem_of_singleton]%elem_of_app; [by apply (fi_ids _ _ _ HF)|].
    by destruct (Ht u).
  - intros f b. rewrite (fi_fill _ _ _ HF). setoid_rewrite elem_of_app.
    setoid_rewrite list_elem_of_singleton. naive_solver.
  - intros f b. rewrite (fi_fact _ _ _ HF). setoid_rewrite elem_of_app.
    setoid_rewrite list_elem_of_singleton. naive_solver.
Qed.

(** ** Balances after a transaction *)

Lemma spec_quanta_pos s : ledger_ok -> s ∈ specifications (l_spec_set L) ->
  0 < units (currency_quantum s) /\ 0 < units (quantity_quantum s).
Proof.
  intros HL Hin. destruct (lo_specs HL) as (Hs & _). rewrite Forall_forall in Hs.
  destruct (Hs _ Hin) as (? & ? & ? & ?). done.
Qed.

Lemma spec_currency_unique s s' : ledger_ok -> s ∈ specifications (l_spec_set L) ->
  s' ∈ specifications (l_spec_set L) -> settlement_currency s = settlement_currency s' ->
  currency_quantum s = currency_quantum s'.
Proof.
  intros HL Hs%(lo_quanta HL) Hs'%(lo_quanta HL) Heq. rewrite Heq in Hs. congruence.
Qed.

(** A balance on the grid of its key stays on it. *)
Lemma cash_ok_assign cash s v delta : ledger_ok -> s ∈ specifications (l_spec_set L) ->
  cash_ok L cash -> on_grid delta (currency_quantum s) ->
  units v = balance cash (settlement_currency s) + units delta ->
  cash_ok L (_assign_nonzero cash (settlement_currency s) v).
Proof.
  intros HL Hin Hcash Hg Hv c d [(-> & -> & Hnz)|[Hne Hl]]%assign_lookup; [|by apply Hcash].
  split; [done|]. exists (currency_quantum s).
  split_and!; [by apply (lo_quanta HL)|by apply spec_quanta_pos|].
  unfold balance in Hv. destruct (cash !! settlement_currency s) as [d0|] eqn:Hd0.
  - destruct (Hcash _ _ Hd0) as (_ & q & Hq & _ & Hg0).
    rewrite (lo_quanta HL _ Hin) in Hq. injection Hq as <-. by apply (on_grid_add d0 delta).
  - apply (on_grid_signed delta _ _ 1); [done|lia].
Qed.

Lemma positions_ok_assign positions s v delta : ledger_ok -> s ∈ specifications (l_spec_set L) ->
  positions_ok L positions -> on_grid delta (quantity_quantum s) ->
  units v = balance positions (spec_instrument s) + units delta ->
  positions_ok L (_assign_nonzero positions (spec_instrument s) v).
Proof.
  intros HL Hin Hpos Hg Hv i d [(-> & -> & Hnz)|[Hne Hl]]%assign_lookup; [|by apply Hpos].
  split; [done|]. exists s. split_and!; [by apply (lo_instruments HL)|by apply spec_quanta_pos|].
  unfold balance in Hv. destruct (positions !! spec_instrument s) as [d0|] eqn:Hd0.
  - destruct (Hpos _ _ Hd0) as (_ & s' & Hs' & _ & Hg0).
    rewrite (lo_instruments HL _ Hin) in Hs'. injection Hs' as <-. by apply (on_grid_add d0 delta).
  - apply (on_grid_signed delta _ _ 1); [done|lia].
Qed.

Lemma rounding_ok_assign rounding c v : rounding_ok rounding -> rounding_ok (_assign_nonzero rounding c v).
Proof. intros Hr k d [(-> & -> & Hnz)|[Hne Hl]]%assign_lookup; [done|by eapply Hr]. Qed.

(** The balances after a fill. *)
Lemma balances_fill st fill s e t : ledger_ok -> specified fill s -> effect_ok st fill s e ->
  balances_ok (st_transactions st) (st_cash st) (st_positions st) (st_rounding st) ->
  lt_postings t = fe_postings e ->
  balances_ok (st_transactions st ++ [TxFill t])
    (_assign_nonzero (st_cash st) (fe_currency e) (fe_next_cash e))
    (_assign_nonzero (st_positions st) (fill_instrument fill) (fe_next_position e))
    (_assign_nonzero (st_rounding st) (fe_currency e) (fe_next_rounding e)).
Proof.
  intros HL Hsp Heff HB Ht. destruct (eo_postings _ _ _ _ Heff)
    as (pd & npd & cd & en & rd & fee & Hp & _ & _ & _ & Hgp & Hgc & Hnc & Hnp & Hnr).
  rewrite (eo_currency _ _ _ _ Heff). rewrite <-(sp_instrument _ _ Hsp) in *.
  pose proof (sp_in _ _ Hsp) as Hin.
  destruct (fill_postings_booked (spec_instrument s) (settlement_currency s) pd npd cd en rd fee)
    as (Hbp & Hbc & Hbr).
  constructor.
  - intros c. rewrite balance_assign, journal_balance_snoc. simpl. rewrite Ht, Hp, Hbc.
    rewrite <-(bo_cash _ _ _ _ HB). case_decide; subst; lia.
  - intros i. rewrite balance_assign, journal_balance_snoc. simpl. rewrite Ht, Hp, Hbp.
    rewrite <-(bo_positions _ _ _ _ HB). case_decide; subst; lia.
  - intros c. rewrite balance_assign, journal_balance_snoc. simpl. rewrite Ht, Hp, Hbr.
    rewrite <-(bo_rounding _ _ _ _ HB). case_decide; subst; lia.
  - by apply (cash_ok_assign _ s _ cd); [| |apply HB|..].
  - by apply (positions_ok_assign _ s _ pd); [| |apply HB|..].
  - apply rounding_ok_assign, HB.
Qed.

(** ** References *)

(** An indexed fill lies in the journal. *)
Lemma indexed_fill txs index fill_index fact_index f b :
  journal_ok txs index -> fills_ok txs fill_index fact_index -> fill_index !! f = Some b ->
  binding_fill_id b = f /\ id_ok L EXECUTION_FILL f /\ exists k t, txs !! k = Some (TxFill t) /\
    b = fill_binding t /\ binding_entry_id b = entry (Z.of_nat k + 1).
Proof.
  intros HJ HF Hl. apply (fi_fill _ _ _ HF) in Hl as (t & Hin & <- & ->).
  split; [done|]. split; [by apply (fi_ids _ _ _ HF)|].
  apply list_elem_of_lookup in Hin as [k Hk]. exists k, t. split_and!; [done|done|].
  apply (jo_entries _ _ HJ) in Hk as [Hk _]. done.
Qed.

(** References agree with every snapshot whose sequence is past the fills they name,
    and with the one of the transaction just booked. *)
Lemma references_snapshot txs index fill_index fact_index unresolved bindings refs d :
  journal_ok txs index -> fills_ok txs fill_index fact_index ->
  references_ok fill_index unresolved bindings refs ->
  (forall t, last txs = Some (TxFill t) -> d = ledger_transaction_digest t) ->
  refs_ok L (Z.of_nat (length txs)) d unresolved bindings refs.
Proof.
  intros HJ HF HR Hd.
  assert (forall f b, bindings !! f = Some b -> binding_fill_id b = f /\ id_ok L EXECUTION_FILL f /\
    exists k t, txs !! k = Some (TxFill t) /\ b = fill_binding t /\
      binding_entry_id b = entry (Z.of_nat k + 1)) as Hb.
  { intros f b Hl%(ro_open _ _ _ _ HR). by eapply indexed_fill. }
  constructor.
  - intros f u (Hf & b & Hl & _)%(ro_unresolved _ _ _ _ HR). split; [done|]. by eapply indexed_fill.
  - intros f b (Hf & Hid & k & t & Hk & -> & He)%Hb. rewrite He.
    pose proof (lookup_lt_Some _ _ _ Hk) as Hlt.
    split; [done|]. split; [done|]. split; [by split|]. split; [simpl; lia|].
    simpl. intros Heq. symmetry. apply Hd. rewrite last_lookup.
    replace (pred (length txs)) with k by lia. done.
  - intros f b f' b' (Hf & _ & k & t & Hk & -> & He)%Hb (Hf' & _ & k' & t' & Hk' & -> & He')%Hb Heq.
    assert (k = k') as <- by (rewrite He, He' in Heq; injection Heq; lia).
    rewrite Hk in Hk'. injection Hk' as <-. by rewrite <-Hf, <-Hf'.
  - intros f r Hl. by apply (ro_ref _ _ _ _ HR).
  - intros f b Hl. by eapply (ro_exists _ _ _ _ HR).
  - intros f u r (_ & b & Hl & <-)%(ro_unresolved _ _ _ _ HR) (_ & b' & Hl' & <-)%(ro_ref _ _ _ _ HR).
    apply (ro_open _ _ _ _ HR) in Hl'. congruence.
Qed.
End Spec.
