(* ===== verification/LedgerInvariant.v ===== *)
(** The ledger's operations preserve its invariant: a new ledger satisfies it, and
    funding, fills, audited commands and reconciliation adjustments keep it.  A fill
    that passed its specification never raises: it is applied or reported as a failure
    of a named stage. *)

From S2P Require Import Prelude PyRegex PyText Outcomes Json Identity Economics Commission.
From S2P Require Import Execution Messages Portfolio Reconciliation Integration Ledger Adjustment.
From S2P Require Import LedgerLemmas LedgerSpec.

Open Scope Z_scope.

Section Invariant.
Context `{Sha256} (L : PortfolioLedger).

(** What booking a fill did to the state. *)
Record fill_booked (st : LedgerState) (fill : Fill) (digest : Sha256Digest) (handoff : option Handoff)
  (e : FillEffect) (o : LedgerApplyOutcome) (st' : LedgerState) : Prop := {
  fb_code : outcome_code o = LEDGER_APPLIED;
  fb_transaction : exists t, outcome_transaction o = Some t /\
    st_transactions st' = st_transactions st ++ [TxFill t] /\
    lt_fill_id t = fill_id fill /\ lt_fill_sha256 t = digest /\ lt_fact_key t = fill_fact_key fill /\
    lt_postings t = fe_postings e;
  fb_snapshot : outcome_snapshot o = st_snapshot st';
  fb_cash : st_cash st' = _assign_nonzero (st_cash st) (fe_currency e) (fe_next_cash e);
  fb_positions : st_positions st' = _assign_nonzero (st_positions st) (fill_instrument fill) (fe_next_position e);
  fb_rounding : st_rounding st' = _assign_nonzero (st_rounding st) (fe_currency e) (fe_next_rounding e);
  fb_funding : st_funding st' = st_funding st;
  fb_adjustments : st_adjustment_index st' = st_adjustment_index st /\
                   st_observation_index st' = st_observation_index st;
  fb_handoff : match handoff with
    | None => st_handoff_index st' = st_handoff_index st
    | Some h => exists b, hb_command_sha256 b = handoff_command_sha256 h /\ hb_original_outcome b = o /\
        st_handoff_index st' = <[handoff_audited_sha256 h := b]> (st_handoff_index st)
    end
}.

Lemma transaction_init_ok t :
  lt_run_id t = l_run_id L -> id_ok L LEDGER_ENTRY (lt_entry_id t) ->
  1 <= lt_ledger_sequence t <= MAX_UINT64 -> owner_sequence (lt_entry_id t) = lt_ledger_sequence t ->
  id_ok L EXECUTION_FILL (lt_fill_id t) ->
  forallb (in_run (l_run_id L)) [lt_order_id t; lt_correlation_id t; lt_causation_id t] = true ->
  (lt_previous_transaction_sha256 t = None <-> lt_ledger_sequence t = 1) ->
  _require_postings (lt_postings t) = Ok (lt_postings t) ->
  (missing_ancestry (lt_order_id t) (lt_correlation_id t) (lt_causation_id t) = true ->
   lt_requires_reconciliation t = true) ->
  LedgerTransaction_init t = Ok t.
Proof.
  intros Hrun He Hs Hos Hf Hanc Hprev Hpost Hmiss. unfold LedgerTransaction_init. rewrite Hrun.
  rewrite (require_economic_id_ok L _ _ He). cbn [rbind].
  replace ((1 <=? lt_ledger_sequence t) && (lt_ledger_sequence t <? 2 ^ 64)) with true
    by (unfold MAX_UINT64 in *; symmetry; apply andb_true_iff; lia).
  rewrite (proj2 (Z.eqb_eq _ _) Hos). cbn [negb].
  rewrite (require_economic_id_ok L _ _ Hf). cbn [rbind].
  rewrite check_all_ok.
  2:{ rewrite forallb_forall in Hanc. intros i Hi%list_elem_of_In. apply Hanc in Hi.
      destruct i as [i|]; [|done]. unfold _require_economic_id. simpl in *. by rewrite Hi. }
  cbn [rbind].
  assert ((lt_ledger_sequence t =? 1) && negb (bool_decide (lt_previous_transaction_sha256 t = None)) = false) as ->.
  { destruct (Z.eqb_spec (lt_ledger_sequence t) 1) as [Hq|]; [|done].
    by rewrite bool_decide_eq_true_2 by (by apply Hprev). }
  assert (negb (lt_ledger_sequence t =? 1) && bool_decide (lt_previous_transaction_sha256 t = None) = false) as ->.
  { destruct (Z.eqb_spec (lt_ledger_sequence t) 1) as [|Hq]; [done|].
    rewrite bool_decide_eq_false_2; [done|]. by rewrite Hprev. }
  rewrite Hpost. cbn [rbind].
  destruct (missing_ancestry _ _ _); [by rewrite (Hmiss eq_refl)|done].
Qed.

(** The references after a fill: the handoff may open one for it. *)
Lemma references_insert fills unresolved bindings refs f b u r :
  references_ok fills unresolved bindings refs -> fills !! f = None ->
  binding_fill_id b = f -> unresolved_fill_id u = f -> unresolved_fill_sha256 u = binding_fill_sha256 b ->
  open_fill_id r = f -> open_fill_sha256 r = binding_fill_sha256 b ->
  forall derived opened : bool,
  references_ok (<[f := b]> fills) (if derived then <[f := u]> unresolved else unresolved)
    (if opened then <[f := b]> bindings else bindings) (if opened then <[f := r]> refs else refs).
Proof.
  intros HR Hf Hbf Hu Hus Hr Hrs derived opened.
  assert (forall g, is_Some (fills !! g) -> g <> f) as Hg by (intros g [? ?] ->; congruence).
  assert (forall g c, bindings !! g = Some c -> g <> f) as Hbn.
  { intros g c Hc. apply Hg. apply (ro_open _ _ _ _ HR) in Hc. by exists c. }
  assert (forall g c, refs !! g = Some c -> g <> f) as Hrn.
  { intros g c Hc. apply (ro_ref _ _ _ _ HR) in Hc as (_ & d & Hd & _). by eapply Hbn. }
  constructor.
  - intros g c Hc. destruct opened.
    + apply lookup_insert_Some in Hc as [[<- <-]|[Hne Hc]]; [by rewrite lookup_insert_eq|].
      rewrite lookup_insert_ne by done. by apply (ro_open _ _ _ _ HR).
    + rewrite lookup_insert_ne by (symmetry; by eapply Hbn). by apply (ro_open _ _ _ _ HR).
  - intros g c Hc. destruct opened; [|by apply (ro_ref _ _ _ _ HR)].
    apply lookup_insert_Some in Hc as [[<- <-]|[Hne Hc]].
    + split; [done|]. exists b. by rewrite lookup_insert_eq.
    + apply (ro_ref _ _ _ _ HR) in Hc as (? & d & ? & ?). split; [done|]. exists d.
      by rewrite lookup_insert_ne.
  - intros g c Hc. destruct opened; [|by eapply (ro_exists _ _ _ _ HR)].
    apply lookup_insert_Some in Hc as [[<- <-]|[Hne Hc]]; [by rewrite lookup_insert_eq|].
    rewrite lookup_insert_ne by done. by eapply (ro_exists _ _ _ _ HR).
  - assert (forall g c, unresolved !! g = Some c -> unresolved_fill_id c = g /\
      exists d, <[f := b]> fills !! g = Some d /\ binding_fill_sha256 d = unresolved_fill_sha256 c) as Hold.
    { intros g c (Hid & d & Hd & ?)%(ro_unresolved _ _ _ _ HR). split; [done|]. exists d.
      rewrite lookup_insert_ne by (symmetry; apply Hg; by exists d). done. }
    destruct derived; [|done].
    intros g c [[<- <-]|[Hne Hc]]%lookup_insert_Some; [|by apply Hold].
    split; [done|]. exists b. by rewrite lookup_insert_eq.
Qed.

Lemma entry_init n : 0 <= n <= MAX_UINT64 ->
  EconomicId_init (l_run_id L) LEDGER_ENTRY n = Ok (entry L n).
Proof.
  intros Hn. unfold EconomicId_init, Identity._require_uint64.
  by rewrite (proj2 (Z.ltb_ge _ _)), (proj2 (Z.ltb_ge _ _)) by lia.
Qed.

Lemma entry_ok n : id_ok L LEDGER_ENTRY (entry L n).
Proof. done. Qed.

Lemma binding_init_ok e f d d' : id_ok L LEDGER_ENTRY e -> id_ok L EXECUTION_FILL f ->
  ExistingLedgerBinding_init e f d d' = Ok (mkExistingLedgerBinding e f d d').
Proof.
  intros [He Hre] [Hf Hrf]. unfold ExistingLedgerBinding_init, _require_economic_id.
  rewrite He, Hf, Hre, Hrf. by rewrite !bool_decide_eq_true_2.
Qed.

Lemma open_init_ok f d d' : id_ok L EXECUTION_FILL f ->
  OpenReconciliationRef_init f d d' = Ok (mkOpenReconciliationRef f d d').
Proof.
  intros [Hf _]. unfold OpenReconciliationRef_init, _require_economic_id.
  by rewrite Hf, bool_decide_eq_true_2.
Qed.

Lemma unresolved_init_ok f d : id_ok L EXECUTION_FILL f ->
  UnresolvedFillRef_init f d = Ok (mkUnresolvedFillRef f d).
Proof.
  intros [Hf _]. unfold UnresolvedFillRef_init, _require_economic_id.
  by rewrite Hf, bool_decide_eq_true_2.
Qed.

(** Outcomes past the matrix: an application and the two kinds of refusal. *)
Lemma applied_outcome_ok n snapshot t f d :
  snap_run_id snapshot = l_run_id L -> snapshot_version snapshot = n + 1 -> 0 <= n < MAX_UINT64 ->
  id_run_id f = l_run_id L ->
  let o := {| outcome_run_id := l_run_id L; outcome_code := LEDGER_APPLIED;
              before_snapshot_version := n; after_snapshot_version := n + 1;
              outcome_snapshot := snapshot; outcome_transaction := Some t;
              submitted_fill_id := f; submitted_fill_sha256 := d; conflict_kind := None;
              entry_index_binding := None; fill_index_binding := None; fact_index_binding := None;
              failure_stage := None |} in
  _create_ledger_apply_outcome o = Ok o.
Proof.
  intros Hrun Hv Hn Hf o. unfold _create_ledger_apply_outcome, _require_version, MAX_UINT64 in *. simpl.
  rewrite Hrun, Hf, Hv, Z.eqb_refl.
  do 2 rewrite (proj2 (Z.ltb_ge _ _)), (proj2 (Z.leb_gt _ _)) by lia. simpl.
  rewrite !bool_decide_eq_true_2 by done. done.
Qed.

Lemma unchanged_outcome_ok n snapshot f d code conflict entry_b fill_b fact_b stage t :
  snap_run_id snapshot = l_run_id L -> snapshot_version snapshot = n -> 0 <= n <= MAX_UINT64 ->
  id_run_id f = l_run_id L ->
  code <> LEDGER_APPLIED -> permitted _LEDGER_RESULT_CODES code = true ->
  absent t = negb (bool_decide (code = LEDGER_DUPLICATE)) ->
  absent conflict = negb (bool_decide (code = LEDGER_CONFLICT)) ->
  (code <> LEDGER_CONFLICT -> entry_b = None /\ fill_b = None /\ fact_b = None) ->
  absent stage = (bool_decide (code = LEDGER_DUPLICATE) || bool_decide (code = LEDGER_CONFLICT)) ->
  let o := {| outcome_run_id := l_run_id L; outcome_code := code;
              before_snapshot_version := n; after_snapshot_version := n;
              outcome_snapshot := snapshot; outcome_transaction := t;
              submitted_fill_id := f; submitted_fill_sha256 := d; conflict_kind := conflict;
              entry_index_binding := entry_b; fill_index_binding := fill_b;
              fact_index_binding := fact_b; failure_stage := stage |} in
  _create_ledger_apply_outcome o = Ok o.
Proof.
  intros Hrun Hv Hn Hf Hcode Hperm Ht Hc Hb Hs o.
  unfold _create_ledger_apply_outcome, _require_version, MAX_UINT64 in *. simpl.
  rewrite Hperm, Hrun, Hf, Hv, Z.eqb_refl.
  rewrite (proj2 (Z.ltb_ge _ _)), (proj2 (Z.leb_gt _ _)) by lia. simpl.
  rewrite (bool_decide_eq_true_2 (l_run_id L = l_run_id L)) by done. simpl.
  rewrite (bool_decide_eq_false_2 (code = LEDGER_APPLIED)) by done. rewrite Ht, Hs, Hc. simpl.
  destruct (decide (code = LEDGER_DUPLICATE)) as [->|Hd].
  - destruct (Hb ltac:(done)) as (-> & -> & ->). done.
  - rewrite (bool_decide_eq_false_2 (code = LEDGER_DUPLICATE)) by done. simpl.
    destruct (decide (code = LEDGER_CONFLICT)) as [->|Hnc]; [done|].
    rewrite (bool_decide_eq_false_2 (code = LEDGER_CONFLICT)) by done. simpl.
    by destruct (Hb Hnc) as (-> & -> & ->).
Qed.

(** ** Booking a fill *)

Definition handoff_covers (fill : Fill) (handoff : option Handoff) : Prop :=
  forall h, handoff = Some h ->
    missing_ancestry (fill_order_id fill) (fill_correlation_id fill) (fill_causation_id fill) = true ->
    handoff_requires_reconciliation h = true.

Lemma snapshot_version_bound st : state_ok L st ->
  snapshot_version (st_snapshot st) = Z.of_nat (length (st_transactions st)) /\
  0 <= Z.of_nat (length (st_transactions st)) <= MAX_UINT64.
Proof.
  intros Hst. destruct (so_snapshot _ _ Hst) as (_ & Hv & _). pose proof (jo_bound _ _ _ (so_journal _ _ Hst)).
  lia.
Qed.

Lemma book_fill_ok st fill digest handoff s e :
  ledger_ok L -> state_ok L st -> fill_ok L fill -> specified L fill s -> effect_ok st fill s e ->
  st_fill_index st !! fill_id fill = None -> st_fact_index st !! fill_fact_key fill = None ->
  Z.of_nat (length (st_transactions st)) < MAX_UINT64 -> handoff_covers fill handoff ->
  exists o st',
    book_fill L st fill digest handoff (entry L (Z.of_nat (length (st_transactions st)) + 1)) e = Ok (o, st') /\
    fill_booked st fill digest handoff e o st' /\ state_ok L st'.
Proof.
  intros HL Hst Hfill Hsp Heff Hnf Hnk Hbound Hcov.
  destruct (snapshot_version_bound _ Hst) as [Hv _].
  pose proof (so_journal _ _ Hst) as HJ. pose proof (so_references _ _ Hst) as HR.
  pose proof (fill_id_ok _ _ Hfill) as Hfid. destruct (eo_postings _ _ _ _ Heff)
    as (pd & npd & cd & en & rd & fee & Hp & Hnp & Hsum & _).
  set (n := Z.of_nat (length (st_transactions st))) in *.
  unfold book_fill. rewrite Hv.
  set (derived := missing_ancestry _ _ _).
  set (requires := match handoff with Some _ => _ | None => _ end).
  assert (derived = true -> requires = true) as Hreq.
  { intros Hd. unfold requires. destruct handoff as [h|]; [|done]. by apply (Hcov h). }
  assert (derived && negb requires = false) as -> by (destruct derived; [by rewrite Hreq|done]).
  destruct (journal_previous _ _ _ HJ) as (p & Hprev & Hpn).
  unfold previous_digest. rewrite Hprev. cbn [rbind].
  set (t := {| lt_run_id := _ |}).
  assert (LedgerTransaction_init t = Ok t) as ->.
  { apply transaction_init_ok; try done; simpl; try lia.
    - apply Hfill.
    - rewrite Hpn. rewrite <-length_zero_iff_nil. lia.
    - rewrite Hp. by apply fill_postings_required. }
  cbn [rbind]. set (tx := ledger_transaction_digest t).
  set (b := mkExistingLedgerBinding (entry L (n + 1)) (fill_id fill) digest tx).
  assert ((if derived then let* r := UnresolvedFillRef_init (fill_id fill) digest in
             Ok (<[fill_id fill := r]> (st_unresolved st)) else Ok (st_unresolved st)) =
          Ok (E := exn) (if derived then <[fill_id fill := mkUnresolvedFillRef (fill_id fill) digest]> (st_unresolved st)
              else st_unresolved st)) as ->.
  { rewrite unresolved_init_ok by done. by destruct derived. }
  cbn [rbind].
  set (opened := match handoff with Some _ => requires | None => false end).
  set (r := mkOpenReconciliationRef (fill_id fill) digest
              (match handoff with Some h => handoff_processing_outcome_sha256 h | None => digest end)).
  match goal with |- context [rbind ?m _] =>
    assert (m = Ok (if opened then <[fill_id fill := b]> (st_open_bindings st) else st_open_bindings st,
                    if opened then <[fill_id fill := r]> (st_open_refs st) else st_open_refs st)) as -> end.
  { unfold opened, r. destruct handoff as [h|]; [|done]. destruct requires; [|done].
    rewrite binding_init_ok by done. cbn [rbind]. by rewrite open_init_ok by done. }
  cbn [rbind fst snd].
  pose proof (references_insert _ _ _ _ (fill_id fill) b (mkUnresolvedFillRef (fill_id fill) digest) r HR Hnf
    eq_refl eq_refl eq_refl eq_refl eq_refl derived opened) as HR'.
  assert (journal_ok L (st_transactions st ++ [TxFill t]) (<[entry L (n + 1) := TxFill t]> (st_entry_index st))) as HJ'.
  { apply journal_snoc; try done; [by exists tx|]. simpl. rewrite Hp. by apply fill_postings_balanced. }
  assert (fills_ok L (st_transactions st ++ [TxFill t]) (<[fill_id fill := b]> (st_fill_index st))
    (<[fill_fact_key fill := b]> (st_fact_index st))) as HF'.
  { by apply (fills_snoc_fill L _ _ _ t (so_fills _ _ Hst)). }
  pose proof (balances_fill L st fill s e t HL Hsp Heff (so_balances _ _ Hst) eq_refl) as HB'.
  assert (Z.of_nat (length (st_transactions st ++ [TxFill t])) = n + 1) as Hlen
    by (rewrite length_app; simpl; lia).
  rewrite snapshot_ok; [|unfold MAX_UINT64 in *; lia|done|done|apply HB'|apply HB'|apply HB'|].
  2:{ rewrite <-Hlen. eapply references_snapshot; [done..|]. rewrite last_snoc. by intros ? [= <-]. }
  cbn [rbind]. rewrite binding_init_ok by done. cbn [rbind].
  rewrite applied_outcome_ok; [|done|done|lia|apply Hfid]. cbn [rbind]. eexists _, _. split; [done|]. split.
  - constructor; simpl; try done.
    + exists t. done.
    + destruct handoff as [h|]; [|done]. eexists. split_and!; [..|reflexivity]; done.
  - constructor; simpl; try done.
    + pose proof (so_funding _ _ Hst) as Hfu. unfold funding_ok in *.
      destruct (st_funding st) as [fb|].
      * destruct Hfu as (ft & Hl & Hrest). exists ft. split; [|done]. by apply lookup_app_l_Some.
      * intros ft [Hin|Hin%list_elem_of_singleton]%elem_of_app; [by apply (Hfu ft)|done].
    + unfold snapshot_current. simpl. rewrite Hlen. split_and!; try done.
      intros t0. rewrite last_snoc. intros [= <-]. by exists tx.
Qed.

(** ** A new fill *)

(** The outcomes of [_apply_new_fill]: a refusal by the specification, a failure that
    keeps the state, or the booked fill. *)
Inductive new_fill_result (st : LedgerState) (fill : Fill) (digest : Sha256Digest)
  (handoff : option Handoff) : res (LedgerApplyOutcome * LedgerState) -> Prop :=
| new_refused x : _require_specification L fill = Raise x -> new_fill_result st fill digest handoff (Raise x)
| new_failed s o code stage : specified L fill s ->
    outcome_code o = code -> failure_stage o = Some stage -> conflict_kind o = None ->
    outcome_snapshot o = st_snapshot st ->
    (stage = LEDGER_SEQUENCE_EXHAUSTED /\ code = OUT_OF_RANGE /\
       Z.of_nat (length (st_transactions st)) = MAX_UINT64 \/
     fill_effect L st fill = Ok (inl (code, stage)) /\ effect_failure (code, stage)) ->
    new_fill_result st fill digest handoff (Ok (o, st))
| new_booked s e o st' : specified L fill s -> fill_effect L st fill = Ok (inr e) ->
    effect_ok st fill s e -> fill_booked st fill digest handoff e o st' -> state_ok L st' ->
    new_fill_result st fill digest handoff (Ok (o, st')).

Lemma failure_ok st fill digest code stage : state_ok L st -> fill_ok L fill ->
  code = OUT_OF_RANGE \/ code = ARITHMETIC_OVERFLOW \/ code = ROUNDING_UNREPRESENTABLE ->
  exists o, _failure L st fill digest code stage = Ok o /\ outcome_code o = code /\
    failure_stage o = Some stage /\ conflict_kind o = None /\ outcome_snapshot o = st_snapshot st.
Proof.
  intros Hst Hfill Hcode. destruct (snapshot_version_bound _ Hst) as [Hv Hb].
  destruct (so_snapshot _ _ Hst) as [Hrun _]. unfold _failure. rewrite Hv.
  destruct (fill_id_ok _ _ Hfill) as [_ Hr]. eexists. split; [|split_and!].
  - apply unchanged_outcome_ok; try done; destruct Hcode as [->|[->| ->]]; done.
  - done.
  - done.
  - done.
  - done.
Qed.

Lemma conflict_ok st fill digest kind entry_b fill_b fact_b : state_ok L st -> fill_ok L fill ->
  exists o, _conflict L st fill digest kind entry_b fill_b fact_b = Ok o /\
    outcome_code o = LEDGER_CONFLICT /\ conflict_kind o = Some kind /\ outcome_snapshot o = st_snapshot st /\
    outcome_transaction o = None /\ failure_stage o = None.
Proof.
  intros Hst Hfill. destruct (snapshot_version_bound _ Hst) as [Hv Hb].
  destruct (so_snapshot _ _ Hst) as [Hrun _]. unfold _conflict. rewrite Hv.
  destruct (fill_id_ok _ _ Hfill) as [_ Hr]. eexists.
  split; [by apply unchanged_outcome_ok|by split_and!].
Qed.

Lemma entry_fresh st : state_ok L st ->
  st_entry_index st !! entry L (Z.of_nat (length (st_transactions st)) + 1) = None.
Proof.
  intros Hst. destruct (st_entry_index st !! _) as [t|] eqn:Hl; [|done].
  apply (jo_index _ _ _ (so_journal _ _ Hst)) in Hl as (k & Hk & He).
  injection He as He. apply lookup_lt_Some in Hk. lia.
Qed.

Lemma apply_new_fill_ok st fill digest handoff :
  ledger_ok L -> state_ok L st -> fill_ok L fill ->
  st_fill_index st !! fill_id fill = None -> st_fact_index st !! fill_fact_key fill = None ->
  handoff_covers fill handoff ->
  new_fill_result st fill digest handoff (_apply_new_fill L st fill digest handoff).
Proof.
  intros HL Hst Hfill Hnf Hnk Hcov. destruct (snapshot_version_bound _ Hst) as [Hv Hb].
  unfold _apply_new_fill. destruct (_require_specification L fill) as [s|x] eqn:Hs; [|by apply new_refused].
  cbn [rbind]. apply (require_specification_ok L) in Hs as Hsp; [|done]. rewrite Hv.
  destruct (Z.eqb_spec (Z.of_nat (length (st_transactions st))) MAX_UINT64) as [Hmax|Hmax].
  - destruct (failure_ok st fill digest OUT_OF_RANGE LEDGER_SEQUENCE_EXHAUSTED) as (o & -> & ? & ? & ? & ?);
      [done..|by left|]. cbn [rbind]. eapply new_failed; eauto.
  - rewrite entry_init by lia. cbn [rbind]. rewrite entry_fresh by done.
    pose proof (fill_effect_spec L st fill s HL Hsp) as Heff.
    destruct (fill_effect L st fill) as [[[code stage]|e]|] eqn:Hfe; [| |done]; cbn [rbind].
    + destruct (failure_ok st fill digest code stage) as (o & -> & ? & ? & ? & ?); [done|done| |].
      { unfold effect_failure in Heff. simpl in Heff. destruct stage; auto; done. }
      cbn [rbind]. eapply new_failed; eauto.
    + destruct (book_fill_ok st fill digest handoff s e) as (o & st' & -> & ? & ?); try done; [lia|].
      by eapply new_booked.
Qed.

(** ** Replays *)

(** How the bindings found under the fill's identity and fact key classify it. *)
Definition replay_class (digest : Sha256Digest) (fill_b fact_b : option ExistingLedgerBinding)
  : option (option LedgerConflictKind) :=
  match fill_b, fact_b with
  | None, None => None
  | Some b, None =>
      Some (Some (if decide (binding_fill_sha256 b = digest) then INDEX_INCONSISTENT else FILL_ID_COLLISION))
  | None, Some b =>
      Some (Some (if decide (binding_fill_sha256 b = digest) then INDEX_INCONSISTENT else FACT_KEY_COLLISION))
  | Some b, Some b' =>
      if decide (b = b') then
        if decide (binding_fill_sha256 b = digest) then Some None else Some (Some FILL_AND_FACT_COLLISION)
      else Some (Some CROSS_INDEX_COLLISION)
  end.

Inductive replay_result (st : LedgerState) (fill : Fill) (digest : Sha256Digest)
  : option (option LedgerConflictKind) -> option LedgerApplyOutcome -> Prop :=
| replay_new : replay_result st fill digest None None
| replay_duplicate t o : TxFill t ∈ st_transactions st -> lt_fill_id t = fill_id fill ->
    lt_fact_key t = fill_fact_key fill -> lt_fill_sha256 t = digest ->
    outcome_code o = LEDGER_DUPLICATE -> outcome_transaction o = Some t ->
    outcome_snapshot o = st_snapshot st -> conflict_kind o = None -> failure_stage o = None ->
    replay_result st fill digest (Some None) (Some o)
| replay_conflict k o : outcome_code o = LEDGER_CONFLICT -> conflict_kind o = Some k ->
    outcome_snapshot o = st_snapshot st -> outcome_transaction o = None -> failure_stage o = None ->
    replay_result st fill digest (Some (Some k)) (Some o).

Lemma indexed_transactions st f k b b' : state_ok L st ->
  st_fill_index st !! f = Some b -> st_fact_index st !! k = Some b' ->
  binding_entry_id b = binding_entry_id b' ->
  exists t, TxFill t ∈ st_transactions st /\ lt_fill_id t = f /\ lt_fact_key t = k /\
    b = fill_binding t /\ b' = fill_binding t.
Proof.
  intros Hst Hb Hb' He. pose proof (so_fills _ _ Hst) as HF.
  apply (fi_fill _ _ _ _ HF) in Hb as (t & Ht & Hid & ->).
  apply (fi_fact _ _ _ _ HF) in Hb' as (t' & Ht' & Hk & ->).
  apply list_elem_of_lookup in Ht as Hl. destruct Hl as [i Hi].
  apply list_elem_of_lookup in Ht' as [j Hj].
  assert (i = j) as <- by (by eapply (journal_entry_inj L); [apply (so_journal _ _ Hst)|..]).
  rewrite Hi in Hj. injection Hj as <-. by exists t.
Qed.

Lemma classify_replay_ok st fill digest : state_ok L st -> fill_ok L fill ->
  let fill_b := st_fill_index st !! fill_id fill in
  let fact_b := st_fact_index st !! fill_fact_key fill in
  exists r, _classify_replay L st fill digest fill_b fact_b = Ok r /\
    replay_result st fill digest (replay_class digest fill_b fact_b) r.
Proof.
  intros Hst Hfill fill_b fact_b. pose proof (conflict_ok st fill digest) as Hcon.
  unfold _classify_replay, replay_class. destruct fill_b as [b|] eqn:Hb, fact_b as [b'|] eqn:Hb'.
  2-4: try (eexists; split; [done|constructor]).
  2:{ destruct (decide (binding_fill_sha256 b = digest)) as [Hd|Hd].
      all: edestruct Hcon as (o & Ho & ? & ? & ? & ? & ?); [done|done|].
      all: (rewrite bool_decide_eq_false_2 by (by intros ?)) || rewrite bool_decide_eq_true_2 by done.
      all: rewrite Ho; eexists; split; [done|by constructor]. }
  2:{ destruct (decide (binding_fill_sha256 b' = digest)) as [Hd|Hd].
      all: edestruct Hcon as (o & Ho & ? & ? & ? & ? & ?); [done|done|].
      all: (rewrite bool_decide_eq_false_2 by (by intros ?)) || rewrite bool_decide_eq_true_2 by done.
      all: rewrite Ho; eexists; split; [done|by constructor]. }
  destruct (decide (binding_entry_id b = binding_entry_id b')) as [He|He].
  - destruct (indexed_transactions st _ _ b b' Hst Hb Hb' He) as (t & Ht & Hid & Hk & -> & ->).
    rewrite bool_decide_eq_false_2 by (by intros ?). rewrite bool_decide_eq_false_2 by (by intros ?).
    rewrite decide_True by done.
    apply list_elem_of_lookup in Ht as Hl. destruct Hl as [i Hi].
    assert (st_entry_index st !! binding_entry_id (fill_binding t) = Some (TxFill t)) as ->.
    { apply (jo_index _ _ _ (so_journal _ _ Hst)). exists i. split; [done|].
      by apply (jo_entries _ _ _ (so_journal _ _ Hst)) in Hi as [? _]. }
    unfold _binding_for. rewrite binding_init_ok.
    2:{ apply (jo_entries _ _ _ (so_journal _ _ Hst)) in Hi as [Hi _]. simpl in Hi. rewrite Hi. apply entry_ok. }
    2:{ rewrite Hid. apply Hfill. }
    cbn [rbind]. rewrite bool_decide_eq_false_2 by (by intros ?). simpl.
    destruct (decide (lt_fill_sha256 t = digest)) as [Hd|Hd].
    + rewrite bool_decide_eq_true_2 by done. destruct (snapshot_version_bound _ Hst) as [Hv Hbd].
      rewrite Hv. destruct (so_snapshot _ _ Hst) as [Hrun _].
      rewrite unchanged_outcome_ok; try done; [|apply Hfill]. eexists. split; [done|].
      by eapply replay_duplicate.
    + rewrite bool_decide_eq_false_2 by done.
      edestruct Hcon as (o & Ho & ? & ? & ? & ? & ?); [done|done|]. rewrite Ho.
      eexists; split; [done|by constructor].
  - rewrite bool_decide_eq_true_2 by done. rewrite decide_False by congruence.
    edestruct Hcon as (o & Ho & ? & ? & ? & ? & ?); [done|done|]. rewrite Ho.
    eexists; split; [done|by constructor].
Qed.

(** ** The operations *)

(** The outcomes of [apply_fill] for a fill of the ledger's run. *)
Inductive fill_result (st : LedgerState) (fill : Fill) (digest : Sha256Digest)
  : res (LedgerApplyOutcome * LedgerState) -> Prop :=
| fill_replayed c o : replay_class digest (st_fill_index st !! fill_id fill)
      (st_fact_index st !! fill_fact_key fill) = Some c ->
    replay_result st fill digest (Some c) (Some o) -> fill_result st fill digest (Ok (o, st))
| fill_new r : st_fill_index st !! fill_id fill = None -> st_fact_index st !! fill_fact_key fill = None ->
    new_fill_result st fill digest None r -> fill_result st fill digest r.

Lemma replay_class_None digest a b : replay_class digest a b = None -> a = None /\ b = None.
Proof. unfold replay_class. destruct a, b; intros Hr; repeat case_decide; done. Qed.

Lemma fill_next_ok st fill : ledger_ok L -> state_ok L st -> fill_ok L fill -> fill_run_id fill = l_run_id L ->
  fill_result st fill (fill_digest fill) (fill_next L st fill).
Proof.
  intros HL Hst Hfill Hrun. unfold fill_next. rewrite bool_decide_eq_true_2 by done. cbn [negb].
  destruct (classify_replay_ok st fill (fill_digest fill) Hst Hfill) as (r & -> & Hr). cbn [rbind].
  destruct (replay_class _ _ _) as [c|] eqn:Hc.
  - assert (exists o, r = Some o) as [o ->] by (inversion Hr; eauto). by eapply fill_replayed.
  - apply replay_class_None in Hc as [Hf Hk]. inversion Hr; subst.
    apply fill_new; [done|done|]. by apply apply_new_fill_ok.
Qed.

Lemma fill_result_preserves st fill digest o st' : state_ok L st ->
  fill_result st fill digest (Ok (o, st')) -> state_ok L st'.
Proof. inversion 2; subst; [done|]. by match goal with Hn : new_fill_result _ _ _ _ _ |- _ => inversion Hn; subst end. Qed.

(** The outcomes of [apply_ledger_application_command] for a command naming a fill. *)
Inductive command_result (st : LedgerState) (command : LedgerApplicationCommand) (fill : Fill)
  : res (LedgerApplyOutcome * LedgerState) -> Prop :=
| command_too_large x : ledger_application_command_digest command = Raise x ->
    command_result st command fill (Raise x)
| command_replayed b : st_handoff_index st !! lc_audited_handoff_sha256 command = Some b ->
    ledger_application_command_digest command = Ok (hb_command_sha256 b) ->
    command_result st command fill (Ok (hb_original_outcome b, st))
| command_rebound b d : st_handoff_index st !! lc_audited_handoff_sha256 command = Some b ->
    ledger_application_command_digest command = Ok d -> d <> hb_command_sha256 b ->
    command_result st command fill (Raise (PortfolioLedgerError CONFLICTING_ID))
| command_unbound o : st_handoff_index st !! lc_audited_handoff_sha256 command = None ->
    ~ (st_fill_index st !! fill_id fill = None /\ st_fact_index st !! fill_fact_key fill = None) ->
    outcome_code o = LEDGER_CONFLICT -> conflict_kind o = Some UNBOUND_EXISTING_FILL ->
    outcome_snapshot o = st_snapshot st -> command_result st command fill (Ok (o, st))
| command_new r d : st_handoff_index st !! lc_audited_handoff_sha256 command = None ->
    st_fill_index st !! fill_id fill = None -> st_fact_index st !! fill_fact_key fill = None ->
    ledger_application_command_digest command = Ok d ->
    new_fill_result st fill (fill_digest fill)
      (Some (mkHandoff (lc_requires_reconciliation command) (lc_processing_outcome_sha256 command)
               (lc_audited_handoff_sha256 command) d)) r ->
    command_result st command fill r.

Definition command_ok (command : LedgerApplicationCommand) (fill : Fill) : Prop :=
  lc_run_id command = l_run_id L /\ lc_fill_id command = fill_id fill /\
  lc_fill_sha256 command = fill_digest fill /\
  (missing_ancestry (fill_order_id fill) (fill_correlation_id fill) (fill_causation_id fill) = true ->
   lc_requires_reconciliation command = true).

Lemma is_none_true {A} (x : option A) : absent x = true <-> x = None.
Proof. by destruct x. Qed.

Lemma command_next_ok st command fill : ledger_ok L -> state_ok L st -> fill_ok L fill ->
  fill_run_id fill = l_run_id L -> command_ok command fill ->
  command_result st command fill (command_next L st command fill).
Proof.
  intros HL Hst Hfill Hrun (Hcr & Hcf & Hcd & Hcm). unfold command_next.
  rewrite !bool_decide_eq_true_2 by done. cbn [negb orb].
  destruct (st_handoff_index st !! lc_audited_handoff_sha256 command) as [b|] eqn:Hh.
  - destruct (ledger_application_command_digest command) as [d|] eqn:Hd; [|by apply command_too_large].
    cbn [rbind]. case_bool_decide as Hb; cbn [negb].
    + apply command_replayed; [done|]. by rewrite Hb.
    + by apply (command_rebound _ _ _ b d).
  - destruct (st_fill_index st !! fill_id fill) as [fb|] eqn:Hf.
    { cbn [absent negb orb]. edestruct (conflict_ok st fill) as (o & Ho & ? & ? & ? & ? & ?); [done..|].
      rewrite Ho. apply command_unbound; try done. by rewrite Hf; intros [? _]. }
    destruct (st_fact_index st !! fill_fact_key fill) as [kb|] eqn:Hk.
    { cbn [absent negb orb]. edestruct (conflict_ok st fill) as (o & Ho & ? & ? & ? & ? & ?); [done..|].
      rewrite Ho. apply command_unbound; try done. by rewrite Hk; intros [_ ?]. }
    cbn [absent negb orb].
    destruct (ledger_application_command_digest command) as [d|] eqn:Hd; [|by apply command_too_large].
    cbn [rbind]. eapply command_new; [done..|]. apply apply_new_fill_ok; try done.
    by intros h [= <-].
Qed.

Lemma command_result_preserves st command fill o st' : state_ok L st ->
  command_result st command fill (Ok (o, st')) -> state_ok L st'.
Proof.
  inversion 2; subst; try done.
  by match goal with Hn : new_fill_result _ _ _ _ _ |- _ => inversion Hn; subst end.
Qed.
End Invariant.
