(* ===== verification/LedgerReach.v ===== *)
(** Reachable ledgers: creation establishes the invariant, funding and reconciliation
    adjustments preserve it, and so does every sequence of operations. *)

From S2P Require Import Prelude PyRegex PyText Outcomes Json Identity Economics Commission.
From S2P Require Import Execution Messages Portfolio Reconciliation Integration Ledger Adjustment.
From S2P Require Import LedgerLemmas LedgerSpec LedgerInvariant.

Open Scope Z_scope.

(** ** Creation *)

Lemma bind_specifications_quanta specs quanta by_i q b c x :
  bind_specifications specs quanta by_i = Ok (q, b) ->
  (q !! c = Some x <-> quanta !! c = Some x \/ exists s, s ∈ specs /\ settlement_currency s = c /\ currency_quantum s = x).
Proof.
  revert quanta by_i; induction specs as [|s specs IH]; intros quanta by_i Hb; simpl in Hb.
  { injection Hb as <- <-. split; [by left|]. intros [?|(? & ?%not_elem_of_nil & _)]; done. }
  res_inv Hb. rewrite (IH _ _ Hb). split.
  - intros [Hl|(s' & ? & ? & ?)].
    + apply lookup_insert_Some in Hl as [[<- <-]|[? ?]]; [right|by left].
      exists s. split; [left|done].
    + right. exists s'. split; [by right|done].
  - intros [Hq|(s' & [->|Hs]%elem_of_cons & <- & <-)].
    + destruct (decide (settlement_currency s = c)) as [<-|Hne]; left.
      * rewrite Hq in E. apply negb_false_iff, bool_decide_eq_true in E as ->. apply lookup_insert_eq.
      * by rewrite lookup_insert_ne.
    + left. apply lookup_insert_eq.
    + right. by exists s'.
Qed.

Lemma bind_specifications_instruments specs quanta by_i q b :
  bind_specifications specs quanta by_i = Ok (q, b) -> NoDup (map spec_instrument specs) ->
  (forall s, s ∈ specs -> b !! spec_instrument s = Some s) /\
  (forall i, i ∉ map spec_instrument specs -> b !! i = by_i !! i).
Proof.
  revert quanta by_i; induction specs as [|s specs IH]; intros quanta by_i Hb Hnd; simpl in Hb.
  { injection Hb as <- <-. split; [by intros s ?%not_elem_of_nil|done]. }
  res_inv Hb. simpl in Hnd. apply NoDup_cons in Hnd as [Hni Hnd].
  destruct (IH _ _ Hb Hnd) as [Hin Hout]. split.
  - intros s' [->|Hs]%elem_of_cons; [|by apply Hin]. rewrite Hout by done. apply lookup_insert_eq.
  - intros i Hi. simpl in Hi. apply not_elem_of_cons in Hi as [Hne Hi]. rewrite Hout by done.
    by apply lookup_insert_ne.
Qed.

Section Reach.
Context `{Sha256}.

Lemma create_portfolio_ledger_ok run_id spec_set L st : spec_set_ok spec_set ->
  create_portfolio_ledger run_id spec_set = Ok (L, st) ->
  ledger_ok L /\ state_ok L st /\ l_run_id L = run_id /\ l_spec_set L = spec_set /\
  st_transactions st = [] /\ st_handoff_index st = ∅.
Proof.
  intros Hss Hc. unfold create_portfolio_ledger in Hc. apply rbind_Ok in Hc as ([q b] & Hb & Hc).
  apply rbind_Ok in Hc as (snap & Hsnap & Hc). injection Hc as <- <-.
  assert (snap = {| snap_run_id := run_id; snap_spec_set_id := spec_set_identifier spec_set;
    snap_spec_set_sha256 := instrument_spec_set_digest spec_set; snapshot_version := 0;
    Portfolio.ledger_sequence := 0; last_entry_id := None; last_transaction_sha256 := None;
    cash_balances := []; position_balances := []; rounding_balances := []; unresolved_fills := [];
    open_reconciliation_bindings := []; open_reconciliation_refs := [] |}) as ->.
  { unfold PortfolioSnapshot_init in Hsnap. res_inv Hsnap. by injection Hsnap. }
  destruct Hss as (Hs & Hnd & Hsort).
  assert (forall c x, q !! c = Some x <-> exists s, s ∈ specifications spec_set /\
            settlement_currency s = c /\ currency_quantum s = x) as Hq.
  { intros c x. rewrite (bind_specifications_quanta _ _ _ _ _ c x Hb), lookup_empty. naive_solver. }
  destruct (bind_specifications_instruments _ _ _ _ _ Hb Hnd) as [Hi _].
  split_and!; try done.
  - constructor; simpl; try done.
    + intros s Hin. apply Hq. by exists s.
    + intros c x. by apply Hq.
  - constructor; simpl.
    + constructor; simpl; try done; [by intros e t; rewrite lookup_empty; split; [|intros (? & ? & _)]|..];
        by intros t ?%not_elem_of_nil.
    + constructor; simpl; try done; by intros ? ?.
    + constructor; simpl; [by intros t ?%not_elem_of_nil|..]; intros k x; rewrite lookup_empty;
        (split; [done|by intros (t & ?%not_elem_of_nil & _)]).
    + constructor; simpl; intros ? ?; by rewrite lookup_empty.
    + by intros t ?%not_elem_of_nil.
    + by split_and!.
Qed.

(** ** Initial funding *)

Context (L : PortfolioLedger).

(** The outcomes of [apply_initial_funding] for a funding of the ledger's run. *)
Inductive funding_result (st : LedgerState) (f : InitialFunding)
  : res (FundingApplyOutcome * LedgerState) -> Prop :=
| funding_refused c :
    (c = CONFLICTING_ID /\ l_currency_quanta L !! funding_currency f = None \/
     c = NOT_QUANTIZED /\ exists q, l_currency_quanta L !! funding_currency f = Some q /\
       ~ on_grid (funding_amount f) q) ->
    funding_result st f (Raise (PortfolioLedgerError c))
| funding_replayed b : st_funding st = Some b -> fb_funding_bytes b = canonical_initial_funding_bytes f ->
    funding_result st f (Ok (fb_outcome b, st))
| funding_conflicts o : st_transactions st <> [] ->
    fo_code o = LEDGER_CONFLICT -> fo_snapshot o = st_snapshot st -> fo_transaction o = None ->
    (forall b, st_funding st = Some b -> fb_funding_bytes b <> canonical_initial_funding_bytes f) ->
    funding_result st f (Ok (o, st))
| funding_applied o st' t : st_transactions st = [] -> st_funding st = None ->
    fo_code o = LEDGER_APPLIED -> fo_transaction o = Some t -> fo_snapshot o = st_snapshot st' ->
    fo_submitted_funding_sha256 o = initial_funding_digest f ->
    st_transactions st' = [TxFunding t] ->
    st_cash st' = {[funding_currency f := funding_amount f]} ->
    st_funding st' = Some (mkFundingBinding (canonical_initial_funding_bytes f) o) ->
    st_handoff_index st' = ∅ -> state_ok L st' -> funding_result st f (Ok (o, st')).

Lemma funding_unchanged st f o_sha : state_ok L st -> funding_run_id f = l_run_id L ->
  exists o, _create_funding_apply_outcome f LEDGER_CONFLICT (snapshot_version (st_snapshot st))
              (snapshot_version (st_snapshot st)) (st_snapshot st) None o_sha = Ok o /\
    fo_code o = LEDGER_CONFLICT /\ fo_snapshot o = st_snapshot st /\ fo_transaction o = None.
Proof.
  intros Hst Hrun. destruct (so_snapshot _ _ Hst) as [Hr _]. unfold _create_funding_apply_outcome.
  simpl. rewrite Hrun, Hr, Z.eqb_refl. rewrite bool_decide_eq_true_2 by done. simpl.
  eexists. split; [done|by split_and!].
Qed.

(** The only transaction of a freshly funded ledger. *)
Definition funded_postings (f : InitialFunding) (negated : CanonicalDecimal) : list LedgerPosting :=
  [mkLedgerPosting PORTFOLIO_CASH (CurrencyCommodity (funding_currency f)) (funding_amount f);
   mkLedgerPosting EXTERNAL_SETTLEMENT (CurrencyCommodity (funding_currency f)) negated].

Lemma funded_booked f n : units n = - units (funding_amount f) ->
  commodity_balanced (funded_postings f n) /\
  (forall i, booked PORTFOLIO_POSITION (InstrumentCommodity i) (funded_postings f n) = 0) /\
  (forall c, booked PORTFOLIO_CASH (CurrencyCommodity c) (funded_postings f n)
             = if decide (funding_currency f = c) then units (funding_amount f) else 0) /\
  (forall c, booked PORTFOLIO_ROUNDING (CurrencyCommodity c) (funded_postings f n) = 0).
Proof.
  intros Hn. unfold funded_postings, commodity_balanced.
  split_and!; intros x; rewrite ?posted_cons, ?booked_cons; unfold posted, booked; simpl;
    repeat case_decide; intuition (congruence || lia).
Qed.

Lemma funding_transaction_ok f negated :
  funding_run_id f = l_run_id L -> units negated = - units (funding_amount f) ->
  _create_funding_transaction f (entry L 1) (spec_set_identifier (l_spec_set L)) (l_spec_set_sha256 L)
    (funded_postings f negated)
  = Ok {| ft_run_id := funding_run_id f; ft_entry_id := entry L 1; ft_ledger_sequence := 1;
          ft_funding_sha256 := initial_funding_digest f; ft_currency := funding_currency f;
          ft_amount := funding_amount f; ft_spec_set_id := spec_set_identifier (l_spec_set L);
          ft_spec_set_sha256 := l_spec_set_sha256 L; ft_postings := funded_postings f negated |}.
Proof.
  intros Hrun Hn. destruct (units_opp_scale (funding_amount f) negated) as [Hs Hc]; [lia|].
  unfold _create_funding_transaction. simpl. rewrite Hrun, Hs, Hc, !Z.eqb_refl.
  by rewrite !bool_decide_eq_true_2.
Qed.

Lemma currency_posting_ok a c amount : instrument_account a = false -> units amount <> 0 ->
  LedgerPosting_init a (CurrencyCommodity c) amount = Ok (mkLedgerPosting a (CurrencyCommodity c) amount).
Proof.
  intros Ha Hu. unfold LedgerPosting_init. by rewrite coefficient_zero, Ha, (proj2 (Z.eqb_neq _ _) Hu).
Qed.

Lemma funding_snapshot_ok f d q : l_currency_quanta L !! funding_currency f = Some q -> 0 < units q ->
  on_grid (funding_amount f) q -> units (funding_amount f) <> 0 ->
  let cash := {[funding_currency f := funding_amount f]} in
  cash_ok L cash /\
  _snapshot L 1 (entry L 1) d cash ∅ ∅ ∅ ∅ ∅
  = Ok (snapshot_of L 1 (entry L 1) d cash ∅ ∅ ∅ ∅ ∅).
Proof.
  intros Hq Hq0 Hg Hnz cash.
  assert (cash_ok L cash) as Hcash.
  { intros c v [<- <-]%lookup_singleton_Some. split; [done|]. by exists q. }
  split; [done|]. by apply snapshot_ok.
Qed.

Lemma funding_next_ok st f : ledger_ok L -> state_ok L st -> 0 < units (funding_amount f) ->
  funding_run_id f = l_run_id L -> funding_result st f (funding_next L st f).
Proof.
  intros HL Hst Hpos Hrun. unfold funding_next. rewrite bool_decide_eq_true_2 by done. cbn [negb].
  destruct (l_currency_quanta L !! funding_currency f) as [q|] eqn:Hq.
  2:{ apply funding_refused. by left. }
  assert (0 < units q) as Hq0.
  { destruct (lo_quanta_from _ HL _ _ Hq) as (s & Hin & _ & <-).
    destruct (lo_specs _ HL) as (Hs & _). rewrite Forall_forall in Hs. by apply Hs in Hin as (_ & _ & ? & _). }
  destruct (require_quantized_ok (funding_amount f) q Hq0) as [[-> Hg]|[-> Hg]].
  2:{ apply funding_refused. right. split; [done|]. by exists q. }
  unfold structurally. cbn [catch_economic rbind].
  destruct (snapshot_version_bound L _ Hst) as [Hv Hb].
  destruct (so_snapshot _ _ Hst) as (Hsr & _ & Hls & _).
  pose proof (so_funding _ _ Hst) as Hfund.
  destruct (st_funding st) as [b|] eqn:Hfs.
  { case_bool_decide as Hbytes; [by apply funding_replayed|].
    edestruct (funding_unchanged st f) as (o & -> & ? & ? & ?); [done..|]. cbn [rbind].
    apply funding_conflicts; try done.
    - intros Hnil. destruct Hfund as (t & Ht & _). by rewrite Hnil in Ht.
    - rewrite Hfs. by intros b' [= <-]. }
  rewrite Hls. destruct (Z.eqb_spec (Z.of_nat (length (st_transactions st))) 0) as [Hz|Hz]; cbn [negb].
  2:{ edestruct (funding_unchanged st f) as (o & -> & ? & ? & ?); [done..|]. cbn [rbind].
      apply funding_conflicts; try done.
      - intros Hnil. by rewrite Hnil in Hz.
      - by rewrite Hfs. }
  assert (st_transactions st = []) as Hnil by (apply nil_length_inv; lia).
  rewrite entry_init by done. cbn [rbind]. rewrite currency_posting_ok by (done || lia). cbn [rbind].
  destruct (signed_spec (funding_amount f) (-1)) as (n & -> & Hn); [by right|]. cbn [rbind].
  rewrite currency_posting_ok by (done || lia). cbn [rbind].
  fold (funded_postings f n). rewrite funding_transaction_ok by (done || lia). cbn [rbind].
  set (t := {| ft_run_id := _ |}).
  destruct (funding_snapshot_ok f (funding_transaction_digest t) q) as [Hcash ->]; try done; [lia|].
  cbn [rbind]. unfold _create_funding_apply_outcome. simpl.
  rewrite Hrun, !bool_decide_eq_true_2 by done. simpl.
  destruct (funded_booked f n) as (Hbal & Hbp & Hbc & Hbr); [lia|].
  eapply (funding_applied st f _ _ t); try done.
  constructor; simpl; try done.
  - apply (journal_snoc L [] ∅ (TxFunding t)); try done; [|by exists (funding_transaction_digest t)].
    constructor; simpl; try done; [by intros e u; rewrite lookup_empty; split; [|intros (? & ? & _)]|..];
      by intros u ?%not_elem_of_nil.
  - constructor; simpl; try done.
    + intros c. rewrite Hbc. unfold balance. case_decide as Hc; [subst|].
      * rewrite lookup_singleton_eq. lia.
      * by rewrite lookup_singleton_ne.
  - constructor; simpl; [by intros u ?%list_elem_of_singleton|..]; intros k x; rewrite lookup_empty;
      (split; [done|by intros (u & ?%list_elem_of_singleton & _)]).
  - by exists t.
  - split_and!; try done. simpl. intros u [= <-]. by exists (funding_transaction_digest t).
Qed.

(** ** Reconciliation adjustments *)

Lemma negated_value v : units v <> 0 ->
  exists n, _negated_decimal_value v = Ok n /\ units n = - units v.
Proof.
  intros Hv. destruct (decimal_flip_sign v Hv) as (n & Hn & Hu). exists n. split; [|done].
  unfold _negated_decimal_value. rewrite coefficient_zero, (proj2 (Z.eqb_neq _ _) Hv), <-Hn.
  by destruct (chars (text v)) as [|[[] [] [] [] [] [] [] []] r].
Qed.

Lemma posting_init_inv a c v p : LedgerPosting_init a c v = Ok p ->
  p = mkLedgerPosting a c v /\ units v <> 0.
Proof.
  unfold LedgerPosting_init. intros Hp. res_inv Hp. injection Hp as <-. split; [done|].
  rewrite coefficient_zero in E. by apply Z.eqb_neq.
Qed.

(** The two postings of a correction. *)
Lemma pair_booked a b c (v w : CanonicalDecimal) : units w = - units v -> a <> b ->
  let ps := [mkLedgerPosting a c v; mkLedgerPosting b c w] in
  commodity_balanced ps /\ forall a' c', a' <> b ->
    booked a' c' ps = if decide (a = a' /\ c = c') then units v else 0.
Proof.
  intros Hw Hab. split.
  - intros x. rewrite !posted_cons. unfold posted; simpl. repeat case_decide; lia.
  - intros a' c' Hb. rewrite !booked_cons. unfold booked; simpl.
    repeat case_decide; intuition (congruence || lia).
Qed.

Lemma currency_quantum_of_spec ss c q : currency_quantum_of ss c = Some q ->
  exists s, s ∈ specifications ss /\ settlement_currency s = c /\ currency_quantum s = q.
Proof.
  unfold currency_quantum_of. set (l := map _ _).
  destruct (remove_dups l) as [|x [|]] eqn:Hr; [done| |done]. intros [= ->].
  assert (q ∈ l) as Hin by (apply elem_of_remove_dups; rewrite Hr; left).
  apply list_elem_of_fmap in Hin as (s & -> & [Hc Hin]%list_elem_of_filter). by exists s.
Qed.

(** What a correction's target says of its command. *)
Lemma correction_target_ok st command q c accounts current : ledger_ok L ->
  correction_target L st command = Ok (q, c, accounts, current) ->
  exists s, s ∈ specifications (l_spec_set L) /\
    ((c = InstrumentCommodity (spec_instrument s) /\ q = quantity_quantum s /\
      accounts = (PORTFOLIO_POSITION, EXTERNAL_INVENTORY) /\ current = st_positions st !! spec_instrument s) \/
     (c = CurrencyCommodity (settlement_currency s) /\ q = currency_quantum s /\
      accounts = (PORTFOLIO_CASH, EXTERNAL_SETTLEMENT) /\ current = st_cash st !! settlement_currency s)).
Proof.
  intros HL Ht. destruct (lo_specs _ HL) as (_ & Hnd & _). unfold correction_target in Ht. res_inv Ht.
  - injection Ht as <- <- <- <-. apply (proj1 (structurally_Ok _ _)) in E1. unfold require_spec in E1.
    apply find_spec_spec in E1 as [Hin <-]; [|done].
    eexists. split; [done|]. left. by split_and!.
  - injection Ht as <- <- <- <-. apply currency_quantum_of_spec in E1 as (s & Hin & <- & <-).
    exists s. split; [done|]. right. by split_and!.
Qed.

(** The balances after a correction or an ancestry resolution. *)
Lemma balances_none txs t cash positions rounding :
  balances_ok L txs cash positions rounding -> tx_postings t = [] ->
  balances_ok L (txs ++ [t]) cash positions rounding.
Proof.
  intros HB Ht. constructor; try apply HB; intros x; rewrite journal_balance_snoc, Ht;
    change (booked _ _ []) with 0; rewrite Z.add_0_r; apply HB.
Qed.

(** A next-balance computation in terms of the balance of the key. *)
Lemma next_balance_Ok {K} `{Countable K} (m : gmap K CanonicalDecimal) k delta v :
  _next_balance (m !! k) delta = Ok v -> units v = balance m k + units delta.
Proof.
  intros Hv. destruct (next_balance_cases (m !! k) delta) as [(d & Hd & Hu)|[Hd _]]; [|congruence].
  rewrite Hd in Hv. injection Hv as <-. unfold balance. done.
Qed.

Definition corrected_cash (st : LedgerState) (c : LedgerCommodity) (v : CanonicalDecimal) :=
  match c with
  | CurrencyCommodity c => _assign_nonzero (st_cash st) c v
  | InstrumentCommodity _ => st_cash st
  end.
Definition corrected_positions (st : LedgerState) (c : LedgerCommodity) (v : CanonicalDecimal) :=
  match c with
  | InstrumentCommodity i => _assign_nonzero (st_positions st) i v
  | CurrencyCommodity _ => st_positions st
  end.

Lemma balances_correction st command q c accounts current delta v w t : ledger_ok L ->
  balances_ok L (st_transactions st) (st_cash st) (st_positions st) (st_rounding st) ->
  correction_target L st command = Ok (q, c, accounts, current) ->
  on_grid delta q -> _next_balance current delta = Ok v -> units w = - units delta ->
  tx_postings t = [mkLedgerPosting accounts.1 c delta; mkLedgerPosting accounts.2 c w] ->
  balances_ok L (st_transactions st ++ [t]) (corrected_cash st c v) (corrected_positions st c v)
    (st_rounding st) /\ commodity_balanced (tx_postings t).
Proof.
  intros HL HB Ht Hg Hv Hw Hp.
  destruct (correction_target_ok _ _ _ _ _ _ HL Ht) as (s & Hin & [(-> & -> & -> & ->)|(-> & -> & -> & ->)]);
    apply next_balance_Ok in Hv; simpl in *.
  - destruct (pair_booked PORTFOLIO_POSITION EXTERNAL_INVENTORY (InstrumentCommodity (spec_instrument s)) delta w)
      as [Hbal Hbk]; [done..|]. rewrite Hp. split; [|done].
    constructor; try apply HB.
    + intros x. rewrite journal_balance_snoc, Hp, Hbk, decide_False by (done || naive_solver).
      rewrite Z.add_0_r. apply HB.
    + intros x. rewrite balance_assign, journal_balance_snoc, Hp, Hbk by done.
      rewrite <-(bo_positions _ _ _ _ _ HB). repeat case_decide; naive_solver lia.
    + intros x. rewrite journal_balance_snoc, Hp, Hbk, decide_False by (done || naive_solver).
      rewrite Z.add_0_r. apply HB.
    + by apply (positions_ok_assign L _ s _ delta); [| |apply HB|..].
  - destruct (pair_booked PORTFOLIO_CASH EXTERNAL_SETTLEMENT (CurrencyCommodity (settlement_currency s)) delta w)
      as [Hbal Hbk]; [done..|]. rewrite Hp. split; [|done].
    constructor; try apply HB.
    + intros x. rewrite balance_assign, journal_balance_snoc, Hp, Hbk by done.
      rewrite <-(bo_cash _ _ _ _ _ HB). repeat case_decide; naive_solver lia.
    + intros x. rewrite journal_balance_snoc, Hp, Hbk, decide_False by (done || naive_solver).
      rewrite Z.add_0_r. apply HB.
    + intros x. rewrite journal_balance_snoc, Hp, Hbk, decide_False by (done || naive_solver).
      rewrite Z.add_0_r. apply HB.
    + by apply (cash_ok_assign L _ s _ delta); [| |apply HB|..].
Qed.

(** What an applied adjustment did to the state. *)
Record adjustment_booked (st : LedgerState) (command : ReconciliationAdjustmentCommand)
  (o : ReconciliationAdjustmentOutcome) (st' : LedgerState) : Prop := {
  ab_transaction : exists t, st_transactions st' = st_transactions st ++ [TxReconciliation t] /\
    rt_adjustment_id t = rc_adjustment_id command /\
    rt_observation_sha256 t = rc_observation_sha256 command /\ rt_variant t = rc_variant command;
  ab_result : ao_result o = APPLIED;
  ab_fills : st_fill_index st' = st_fill_index st;
  ab_funding : st_funding st' = st_funding st;
  ab_handoffs : st_handoff_index st' = st_handoff_index st;
  ab_adjustments : st_adjustment_index st !! rc_adjustment_id command = None /\
    exists d, st_adjustment_index st' = <[rc_adjustment_id command := d]> (st_adjustment_index st);
  ab_observations : st_observation_index st !! rc_observation_sha256 command = None /\
    exists i, st_observation_index st' = <[rc_observation_sha256 command := i]> (st_observation_index st)
}.

Lemma build_adjustment_inv st authorization command e n asha ps t :
  _build_adjustment_transaction L st authorization command e n asha ps = Ok t ->
  rt_entry_id t = e /\ rt_ledger_sequence t = n + 1 /\ rt_postings t = ps /\
  previous_digest st = Ok (rt_previous_transaction_sha256 t) /\
  rt_adjustment_id t = rc_adjustment_id command /\
  rt_observation_sha256 t = rc_observation_sha256 command /\ rt_variant t = rc_variant command /\
  exists d, reconciliation_transaction_digest t = Ok d.
Proof.
  unfold _build_adjustment_transaction. intros Ht.
  apply rbind_Ok in Ht as (p & Hp & Ht). apply rbind_Ok in Ht as (d & Hd & Ht).
  unfold _create_reconciliation_transaction in Ht.
  set (r := {| rt_run_id := _ |}) in Ht.
  do 5 (match type of Ht with (if ?b then _ else _) = _ => destruct b; [done|] end).
  apply rbind_Ok in Ht as ([] & _ & Ht). apply rbind_Ok in Ht as (payload & Hpay & Ht).
  injection Ht as <-. split_and!; try done. unfold reconciliation_transaction_digest. rewrite Hpay. by eexists.
Qed.

(** A derived adjustment, when its parts are consistent with the state. *)
Record derivation_ok (st : LedgerState) (command : ReconciliationAdjustmentCommand)
  (d : AdjustmentDerivation) : Prop := {
  de_transactions : ad_next_transactions d = st_transactions st ++ [TxReconciliation (ad_transaction d)];
  de_ids : rt_adjustment_id (ad_transaction d) = rc_adjustment_id command /\
           rt_observation_sha256 (ad_transaction d) = rc_observation_sha256 command /\
           rt_variant (ad_transaction d) = rc_variant command;
  de_journal : journal_ok L (ad_next_transactions d) (ad_next_entry_index d);
  de_balances : balances_ok L (ad_next_transactions d) (ad_next_cash d) (ad_next_positions d) (st_rounding st);
  de_references : references_ok (st_fill_index st) (ad_next_unresolved d) (ad_next_open_bindings d)
                    (ad_next_open_refs d);
  de_snapshot : exists h, reconciliation_transaction_digest (ad_transaction d) = Ok h /\
    let n := Z.of_nat (length (st_transactions st)) + 1 in
    ad_next_snapshot d = snapshot_of L n (entry L n) h (ad_next_cash d) (ad_next_positions d)
                           (st_rounding st) (ad_next_unresolved d) (ad_next_open_bindings d)
                           (ad_next_open_refs d)
}.

Lemma finish_derivation_ok st authorization command asha ps t cash positions unresolved bindings refs d :
  state_ok L st -> Z.of_nat (length (st_transactions st)) < MAX_UINT64 ->
  let n := Z.of_nat (length (st_transactions st)) in
  _build_adjustment_transaction L st authorization command (entry L (n + 1)) n asha ps = Ok t ->
  commodity_balanced ps -> balances_ok L (st_transactions st ++ [TxReconciliation t]) cash positions (st_rounding st) ->
  references_ok (st_fill_index st) unresolved bindings refs ->
  _finish_adjustment_derivation L st t (entry L (n + 1)) cash positions unresolved bindings refs = Ok d ->
  derivation_ok st command d.
Proof.
  intros Hst Hn n Ht Hbal HB HR Hd.
  destruct (build_adjustment_inv _ _ _ _ _ _ _ _ Ht) as (He & Hs & Hps & Hprev & Hid & Hobs & Hvar & h & Hh).
  unfold _finish_adjustment_derivation in Hd. rewrite Hh in Hd. cbn [rbind] in Hd.
  assert (journal_ok L (st_transactions st ++ [TxReconciliation t])
    (<[entry L (n + 1) := TxReconciliation t]> (st_entry_index st))) as HJ.
  { apply journal_snoc; try done; [apply (so_journal _ _ Hst)|by exists h|]. simpl. by rewrite Hps. }
  assert (Z.of_nat (length (st_transactions st ++ [TxReconciliation t])) = n + 1) as Hlen
    by (rewrite length_app; simpl; lia).
  change (owner_sequence (entry L (n + 1))) with (n + 1) in Hd.
  rewrite snapshot_ok in Hd; [|unfold MAX_UINT64 in *; lia|done|done|apply HB|apply HB|apply HB|].
  2:{ rewrite <-Hlen. eapply references_snapshot; [exact HJ| |exact HR|].
      - apply fills_snoc_other; [apply (so_fills _ _ Hst)|done].
      - rewrite last_snoc. by intros ? [=]. }
  cbn [rbind] in Hd. injection Hd as <-. constructor; try done. simpl. by exists h.
Qed.

Lemma derive_correction_ok st authorization command asha d :
  ledger_ok L -> state_ok L st -> Z.of_nat (length (st_transactions st)) < MAX_UINT64 ->
  let n := Z.of_nat (length (st_transactions st)) in
  _derive_correction L st authorization command (entry L (n + 1)) n asha = Ok d ->
  derivation_ok st command d.
Proof.
  intros HL Hst Hn n Hd. unfold _derive_correction in Hd.
  destruct (absent _ || absent _); [done|]. destruct (rc_delta command) as [delta|]; [|done].
  apply rbind_Ok in Hd as ([[[q c] accounts] current] & Ht & Hd).
  apply rbind_Ok in Hd as (dq & Hq & Hd). apply rbind_Ok in Hd as (v & Hv & Hd).
  apply rbind_Ok in Hd as (p1 & [-> Hnz]%posting_init_inv & Hd).
  apply rbind_Ok in Hd as (w & Hw & Hd). apply rbind_Ok in Hd as (p2 & [-> _]%posting_init_inv & Hd).
  apply rbind_Ok in Hd as (t & Htx & Hd).
  destruct (negated_value delta Hnz) as (w' & Hw' & Hu). rewrite Hw in Hw'. injection Hw' as <-.
  assert (_next_balance current delta = Ok v) as Hv'.
  { destruct (_next_balance current delta) as [|[]]; naive_solver. }
  assert (on_grid delta q) as Hg.
  { destruct (correction_target_ok _ _ _ _ _ _ HL Ht) as (s & Hin & Hc).
    destruct (spec_quanta_pos L s HL Hin) as [Hq1 Hq2].
    assert (0 < units q) as Hq0 by (destruct Hc as [(_ & -> & _)|(_ & -> & _)]; done).
    destruct (require_quantized_ok delta q Hq0) as [[_ ?]|[Hr _]]; [done|]. by rewrite Hr in Hq. }
  destruct (build_adjustment_inv _ _ _ _ _ _ _ _ Htx) as (_ & _ & Hps & _).
  destruct (balances_correction st command q c accounts current delta v w (TxReconciliation t) HL
    (so_balances _ _ Hst) Ht Hg Hv' Hu Hps) as [HB Hbal].
  eapply finish_derivation_ok; try done; [by rewrite <-Hps|apply (so_references _ _ Hst)].
Qed.

Lemma references_delete fills unresolved bindings refs f :
  references_ok fills unresolved bindings refs ->
  references_ok fills (delete f unresolved) (delete f bindings) (delete f refs).
Proof.
  intros HR. constructor; intros g x [Hne Hx]%lookup_delete_Some.
  - by apply (ro_open _ _ _ _ HR).
  - rewrite lookup_delete_ne by done. by apply (ro_ref _ _ _ _ HR).
  - rewrite lookup_delete_ne by done. by eapply (ro_exists _ _ _ _ HR).
  - by apply (ro_unresolved _ _ _ _ HR).
Qed.

Lemma derive_ancestry_ok st authorization command reference asha d :
  ledger_ok L -> state_ok L st -> Z.of_nat (length (st_transactions st)) < MAX_UINT64 ->
  let n := Z.of_nat (length (st_transactions st)) in
  _derive_ancestry_resolution L st authorization command reference (entry L (n + 1)) n asha = Ok d ->
  derivation_ok st command d.
Proof.
  intros HL Hst Hn n Hd. unfold _derive_ancestry_resolution in Hd.
  apply rbind_Ok in Hd as (t & Htx & Hd).
  destruct (build_adjustment_inv _ _ _ _ _ _ _ _ Htx) as (_ & _ & Hps & _).
  eapply finish_derivation_ok; try done.
  - apply balances_none; [apply (so_balances _ _ Hst)|done].
  - apply references_delete, (so_references _ _ Hst).
Qed.

(** The outcomes of [apply_reconciliation_adjustment]. *)
Inductive adjustment_result (st : LedgerState) (asha : Sha256Digest)
  (command : ReconciliationAdjustmentCommand) (o : ReconciliationAdjustmentOutcome) : LedgerState -> Prop :=
| adjustment_replayed : st_adjustment_outcomes st !! asha = Some o ->
    ao_adjustment_id o = rc_adjustment_id command -> adjustment_result st asha command o st
| adjustment_rejected : ao_result o = FAILED \/ ao_result o = CONFLICT_RESULT ->
    adjustment_result st asha command o st
| adjustment_applied st' : adjustment_booked st command o st' -> state_ok L st' ->
    adjustment_result st asha command o st'.

Lemma adjustment_outcome_inv run aid asha osha rsha csha r t f c b a o :
  _create_reconciliation_adjustment_outcome run aid asha osha rsha csha r t f c b a = Ok o -> ao_result o = r.
Proof.
  unfold _create_reconciliation_adjustment_outcome. intros Ho. destruct (_ || _) in Ho; [done|].
  apply rbind_Ok in Ho as ([i d] & _ & Ho).
  match type of Ho with (if ?x then _ else _) = _ => destruct x; [done|] end.
  apply rbind_Ok in Ho as (? & _ & [= <-]). done.
Qed.

Lemma without_effect_inv st command asha r f c o :
  outcome_without_effect L st command asha r f c = Ok o -> ao_result o = r.
Proof. unfold outcome_without_effect. intros (? & _ & Ho)%rbind_Ok. by eapply adjustment_outcome_inv. Qed.

Lemma book_adjustment_ok st command asha csha d o st' : state_ok L st -> derivation_ok st command d ->
  st_adjustment_index st !! rc_adjustment_id command = None ->
  st_observation_index st !! rc_observation_sha256 command = None ->
  book_adjustment L st command asha csha d = Ok (o, st') -> adjustment_result st asha command o st'.
Proof.
  intros Hst Hd Hai Hoi Hb. unfold book_adjustment in Hb.
  apply rbind_Ok in Hb as (o' & Ho & [= <- <-]). apply adjustment_outcome_inv in Ho.
  destruct (de_snapshot _ _ _ Hd) as (h & Hh & Hsnap). simpl in Hsnap.
  apply adjustment_applied.
  - constructor; simpl; try done.
    + exists (ad_transaction d). split; [apply Hd|]. apply Hd.
    + split; [done|by eexists].
    + split; [done|by eexists].
  - constructor; simpl; try apply Hd.
    + rewrite (de_transactions _ _ _ Hd). apply fills_snoc_other; [apply (so_fills _ _ Hst)|done].
    + rewrite (de_transactions _ _ _ Hd). pose proof (so_funding _ _ Hst) as Hf. unfold funding_ok in *.
      destruct (st_funding st) as [fb|].
      * destruct Hf as (ft & Hl & Hrest). exists ft. split; [|done]. by apply lookup_app_l_Some.
      * intros ft [Hin|Hin%list_elem_of_singleton]%elem_of_app; [by apply (Hf ft)|done].
    + unfold snapshot_current. simpl. rewrite (de_transactions _ _ _ Hd), Hsnap.
      assert (Z.of_nat (length (st_transactions st ++ [TxReconciliation (ad_transaction d)]))
        = Z.of_nat (length (st_transactions st)) + 1) as -> by (rewrite length_app; simpl; lia).
      split_and!; try done. intros t. rewrite last_snoc. intros [= <-]. by exists h.
Qed.

Lemma adjustment_next_ok st audited command o st' : ledger_ok L -> state_ok L st ->
  adjustment_next L st audited command = Ok (o, st') ->
  adjustment_result st (audited_authorization_sha256 audited) command o st'.
Proof.
  intros HL Hst Ha. destruct (snapshot_version_bound L _ Hst) as [Hv Hb].
  assert (forall k, _adjustment_failed L st command (audited_authorization_sha256 audited) k = Ok o ->
    adjustment_result st (audited_authorization_sha256 audited) command o st) as Hfail.
  { intros k Hk%without_effect_inv. apply adjustment_rejected. by left. }
  assert (forall k, _adjustment_conflict L st command (audited_authorization_sha256 audited) k = Ok o ->
    adjustment_result st (audited_authorization_sha256 audited) command o st) as Hcon.
  { intros k Hk%without_effect_inv. apply adjustment_rejected. by right. }
  unfold adjustment_next in Ha. rewrite Hv in Ha.
  destruct (_ || _) in Ha; [done|]. apply rbind_Ok in Ha as (csha & Hcsha & Ha).
  match type of Ha with (if ?x then _ else _) = _ => destruct x; [done|] end.
  destruct (negb _) in Ha; [apply rbind_Ok in Ha as (? & Ho & [= <- <-]); by eapply Hfail|].
  destruct (st_adjustment_outcomes st !! _) as [replay|] eqn:Hreplay.
  { destruct (_ && _) eqn:Hc in Ha; [|apply rbind_Ok in Ha as (? & Ho & [= <- <-]); by eapply Hcon].
    injection Ha as <- <-. apply andb_true_iff in Hc as [Hc%bool_decide_eq_true _].
    by apply adjustment_replayed. }
  destruct (st_adjustment_index st !! rc_adjustment_id command) eqn:Hai; cbn [absent negb] in Ha;
    [apply rbind_Ok in Ha as (? & Ho & [= <- <-]); by eapply Hcon|].
  destruct (st_observation_index st !! rc_observation_sha256 command) eqn:Hoi; cbn [absent negb] in Ha;
    [apply rbind_Ok in Ha as (? & Ho & [= <- <-]); by eapply Hcon|].
  destruct (_ || _) in Ha; [apply rbind_Ok in Ha as (? & Ho & [= <- <-]); by eapply Hfail|].
  destruct (Z.eqb_spec (Z.of_nat (length (st_transactions st))) MAX_UINT64) as [Hm|Hm];
    [apply rbind_Ok in Ha as (? & Ho & [= <- <-]); by eapply Hfail|].
  rewrite entry_init in Ha by lia. cbn [rbind] in Ha. rewrite entry_fresh in Ha by done.
  cbn [absent negb] in Ha. destruct (rc_variant command).
  - destruct (_derive_correction L st _ command _ _ _) as [d|x] eqn:Hd.
    + apply derive_correction_ok in Hd; [|done|done|lia]. by eapply book_adjustment_ok.
    + destruct x; try done. apply rbind_Ok in Ha as (? & Ho & [= <- <-]). by eapply Hfail.
  - destruct (bool_decide _) in Ha; [|apply rbind_Ok in Ha as (? & Ho & [= <- <-]); by eapply Hfail].
    destruct (rc_open_reconciliation_ref command) as [r|];
      [|apply rbind_Ok in Ha as (? & Ho & [= <- <-]); by eapply Hfail].
    destruct (negb _) in Ha; [apply rbind_Ok in Ha as (? & Ho & [= <- <-]); by eapply Hfail|].
    apply rbind_Ok in Ha as (d & Hd & Ha). apply derive_ancestry_ok in Hd; [|done|done|lia].
    by eapply book_adjustment_ok.
Qed.

(** ** Sequences of operations *)

(** A fill as [create_fill] issues it; fills are sealed, so every fill is. *)
Definition issued_fill (f : Fill) : Prop := exists i fact ss, create_fill i fact ss = Ok f.

Lemma issued_fill_ok f : issued_fill f -> fill_run_id f = l_run_id L -> fill_ok L f.
Proof.
  intros (i & fact & ss & Hf) Hrun. unfold create_fill in Hf.
  apply rbind_Ok in Hf as (j & Hj & Hf). unfold Messages._require_id_owner in Hj.
  destruct (negb _) eqn:Ho in Hj; [done|]. apply negb_false_iff, bool_decide_eq_true in Ho.
  destruct (fact_kind fact), (fact_payload fact), (fact_instrument fact); try done.
  do 4 apply rbind_Ok in Hf as (? & _ & Hf). apply rbind_Ok in Hf as ([] & Hsr & [= <-]).
  simpl in Hrun. rewrite Hrun in Hsr. unfold _require_same_run in Hsr.
  destruct (forallb _ _) eqn:Hall in Hsr; [|done]. constructor; [split|]; done.
Qed.

Inductive ledger_op : Type :=
| OpFund (f : InitialFunding)
| OpFill (f : Fill)
| OpCommand (c : LedgerApplicationCommand) (f : Fill)
| OpAdjust (a : AuditedReconciliationAdjustmentAuthorization) (c : ReconciliationAdjustmentCommand).

(** The state an operation leaves, whether it returns or raises. *)
Definition apply_op (st : LedgerState) (op : ledger_op) : LedgerState :=
  match op with
  | OpFund f => (apply_initial_funding L st f).2
  | OpFill f => (apply_fill L st f).2
  | OpCommand c f => (apply_ledger_application_command L st c f).2
  | OpAdjust a c => (apply_reconciliation_adjustment L st a c).2
  end.

(** The values an operation is given are those their constructors issue. *)
Definition op_wf (op : ledger_op) : Prop :=
  match op with
  | OpFund f => 0 < units (funding_amount f)
  | OpFill f | OpCommand _ f => issued_fill f
  | OpAdjust _ _ => True
  end.

(** What a step does: nothing, or one appended transaction. *)
Inductive step_effect (st : LedgerState) (op : ledger_op) : LedgerState -> Prop :=
| step_unchanged : step_effect st op st
| step_funded f st' o : op = OpFund f -> funding_result st f (Ok (o, st')) -> fo_code o = LEDGER_APPLIED ->
    st_transactions st = [] -> step_effect st op st'
| step_filled f handoff e o st' :
    op = OpFill f /\ handoff = None \/
    (exists c d, op = OpCommand c f /\ st_handoff_index st !! lc_audited_handoff_sha256 c = None /\
       ledger_application_command_digest c = Ok d /\
       handoff = Some (mkHandoff (lc_requires_reconciliation c) (lc_processing_outcome_sha256 c)
                         (lc_audited_handoff_sha256 c) d)) ->
    st_fill_index st !! fill_id f = None -> st_fact_index st !! fill_fact_key f = None ->
    (exists s, specified L f s /\ effect_ok st f s e) ->
    fill_booked st f (fill_digest f) handoff e o st' -> step_effect st op st'
| step_adjusted a c o st' : op = OpAdjust a c -> adjustment_booked st c o st' -> step_effect st op st'.

Lemma commit_state {A} (st : LedgerState) (r : res (A * LedgerState)) (P : LedgerState -> Prop) :
  P st -> (forall a st', r = Ok (a, st') -> P st') -> P (commit st r).2.
Proof. intros Hst Hr. destruct r as [[a st']|]; simpl; [by eapply Hr|done]. Qed.

(** An outcome without a transaction is not an application. *)
Lemma outcome_applied_transaction f o : _create_ledger_apply_outcome f = Ok o ->
  outcome_transaction f = None -> outcome_code o <> LEDGER_APPLIED.
Proof.
  intros Hf Hn Hcode. unfold _create_ledger_apply_outcome in Hf.
  destruct (negb _) in Hf; [done|]. destruct (_ || _) in Hf; [done|].
  apply rbind_Ok in Hf as (? & _ & Hf). apply rbind_Ok in Hf as (? & _ & Hf).
  destruct (negb _) in Hf; [done|]. rewrite Hn in Hf.
  destruct (bool_decide (outcome_code f = LEDGER_APPLIED)) eqn:Ha; [done|].
  assert (o = f) as -> by (res_inv Hf; by injection Hf).
  by apply bool_decide_eq_false in Ha.
Qed.
Lemma failure_not_applied st f d c g o : _failure L st f d c g = Ok o -> outcome_code o <> LEDGER_APPLIED.
Proof. intros Hf. by eapply outcome_applied_transaction. Qed.
Lemma conflict_not_applied st f d k a b c o : _conflict L st f d k a b c = Ok o -> outcome_code o <> LEDGER_APPLIED.
Proof. intros Hf. by eapply outcome_applied_transaction. Qed.

(** A command that hides a missing ancestry books nothing. *)
Lemma uncovered_unchanged st fill digest h o st' : ~ handoff_covers fill (Some h) ->
  _apply_new_fill L st fill digest (Some h) = Ok (o, st') ->
  st' = st /\ outcome_code o <> LEDGER_APPLIED.
Proof.
  assert (forall r : res LedgerApplyOutcome, (let* o := r in Ok (o, st)) = Ok (o, st') ->
    (forall o, r = Ok o -> outcome_code o <> LEDGER_APPLIED) -> st' = st /\ outcome_code o <> LEDGER_APPLIED)
    as Hun.
  { intros r (o0 & Ho & [= <- <-])%rbind_Ok Hcode. split; [done|by apply Hcode]. }
  intros Hc Hn. unfold _apply_new_fill in Hn. apply rbind_Ok in Hn as (s & _ & Hn).
  destruct (_ =? _) in Hn; [by eapply Hun, failure_not_applied|].
  apply rbind_Ok in Hn as (e & _ & Hn).
  destruct (st_entry_index st !! e) as [[]|]; try (by eapply Hun, conflict_not_applied).
  { apply rbind_Ok in Hn as (? & _ & Hn). by eapply Hun, conflict_not_applied. }
  apply rbind_Ok in Hn as ([[c g]|eff] & _ & Hn); [by eapply Hun, failure_not_applied|].
  unfold book_fill in Hn. destruct (missing_ancestry _ _ _) eqn:Hm in Hn.
  - destruct (handoff_requires_reconciliation h) eqn:Hr; [|done]. destruct Hc. by intros ? [= <-].
  - destruct Hc. intros ? _. by rewrite Hm.
Qed.

Lemma funding_state st f : (apply_initial_funding L st f).2 = (commit st (funding_next L st f)).2.
Proof.
  unfold apply_initial_funding. destruct (commit st (funding_next L st f)) as [[o|x] st']; [|done].
  by destruct (_ && _).
Qed.

Lemma new_fill_step st op f handoff o st' :
  op = OpFill f /\ handoff = None \/
  (exists c d, op = OpCommand c f /\ st_handoff_index st !! lc_audited_handoff_sha256 c = None /\
     ledger_application_command_digest c = Ok d /\
     handoff = Some (mkHandoff (lc_requires_reconciliation c) (lc_processing_outcome_sha256 c)
                       (lc_audited_handoff_sha256 c) d)) ->
  state_ok L st -> st_fill_index st !! fill_id f = None -> st_fact_index st !! fill_fact_key f = None ->
  new_fill_result L st f (fill_digest f) handoff (Ok (o, st')) ->
  state_ok L st' /\ step_effect st op st'.
Proof.
  intros Hop Hst Hf Hk Hr. inversion Hr; subst; [split; [done|apply step_unchanged]|].
  split; [done|]. eapply step_filled; eauto.
Qed.

Lemma apply_op_ok st op : ledger_ok L -> state_ok L st -> op_wf op ->
  state_ok L (apply_op st op) /\ step_effect st op (apply_op st op).
Proof.
  intros HL Hst Hop. pose (P st' := state_ok L st' /\ step_effect st op st').
  assert (P st) as Hun by (split; [done|apply step_unchanged]). change (P (apply_op st op)).
  destruct op as [f|f|c f|a c]; simpl in *.
  - rewrite funding_state. apply (commit_state st (funding_next L st f) P); [done|]. intros o st' Hr.
    destruct (decide (funding_run_id f = l_run_id L)) as [Hrun|Hrun].
    + pose proof (funding_next_ok st f HL Hst Hop Hrun) as Hok. rewrite Hr in Hok.
      inversion Hok; subst; try done. split; [done|]. by eapply step_funded.
    + unfold funding_next in Hr. by rewrite bool_decide_eq_false_2 in Hr.
  - unfold apply_fill. apply (commit_state st _ P); [done|]. intros o st' Hr.
    destruct (decide (fill_run_id f = l_run_id L)) as [Hrun|Hrun].
    + pose proof (fill_next_ok L st f HL Hst (issued_fill_ok f Hop Hrun) Hrun) as Hok. rewrite Hr in Hok.
      inversion Hok; subst; [done|]. eapply new_fill_step; try done. by left.
    + unfold fill_next in Hr. by rewrite bool_decide_eq_false_2 in Hr.
  - unfold apply_ledger_application_command. apply (commit_state st _ P); [done|]. intros o st' Hr. pose proof Hr as Hr0.
    unfold command_next in Hr0. destruct (_ || _) eqn:Hc1 in Hr0; [done|].
    destruct (_ || _) eqn:Hc2 in Hr0; [done|].
    apply orb_false_iff in Hc1 as [Hcr%negb_false_iff%bool_decide_eq_true Hrun%negb_false_iff%bool_decide_eq_true].
    apply orb_false_iff in Hc2 as [Hcf%negb_false_iff%bool_decide_eq_true Hcd%negb_false_iff%bool_decide_eq_true].
    pose proof (issued_fill_ok f Hop Hrun) as Hfill.
    destruct (missing_ancestry (fill_order_id f) (fill_correlation_id f) (fill_causation_id f)
              && negb (lc_requires_reconciliation c)) eqn:Hcov.
    + apply andb_true_iff in Hcov as [Hm Hreq%negb_true_iff].
      assert (st' = st) as ->; [|done].
      destruct (st_handoff_index st !! _) eqn:Hh in Hr0.
      { apply rbind_Ok in Hr0 as (? & _ & Hr0). destruct (negb _) in Hr0; [done|]. by injection Hr0. }
      destruct (_ || _) in Hr0; [by apply rbind_Ok in Hr0 as (? & _ & [= _ <-])|].
      apply rbind_Ok in Hr0 as (d & _ & Hr0).
      eapply (uncovered_unchanged st f); [|exact Hr0]. intros Hcv. specialize (Hcv _ eq_refl Hm). simpl in Hcv. congruence.
    + assert (command_ok L c f) as Hcok.
      { split_and!; try done. intros Hm. rewrite Hm in Hcov. by destruct (lc_requires_reconciliation c). }
      pose proof (command_next_ok L st c f HL Hst Hfill Hrun Hcok) as Hok. rewrite Hr in Hok.
      inversion Hok; subst; try done. eapply new_fill_step; try done. right. by exists c, d.
  - unfold apply_reconciliation_adjustment. apply (commit_state st _ P); [done|]. intros o st' Hr.
    apply adjustment_next_ok in Hr; [|done|done].
    inversion Hr; subst; try done. split; [done|]. by eapply step_adjusted.
Qed.

(** [run] applies operations in order. *)
Definition run (st : LedgerState) (ops : list ledger_op) : LedgerState := fold_left apply_op ops st.

Lemma run_ind (P : LedgerState -> Prop) st ops : ledger_ok L -> state_ok L st -> Forall op_wf ops ->
  P st ->
  (forall st op st', state_ok L st -> op ∈ ops -> P st -> state_ok L st' -> step_effect st op st' -> P st') ->
  state_ok L (run st ops) /\ P (run st ops).
Proof.
  intros HL. revert st; induction ops as [|op ops IH]; intros st Hst Hops HP Hstep; [done|].
  apply Forall_cons in Hops as [Hop Hops]. simpl.
  destruct (apply_op_ok st op HL Hst Hop) as [Hst' Heff]. apply IH; [done|done| |].
  - eapply Hstep; [exact Hst|left|done|done|done].
  - intros s o s' ? Hin. apply Hstep; [done|by right].
Qed.

(** The states a ledger can be in: created, then operated on. *)
Definition reachable (st : LedgerState) : Prop :=
  exists run_id spec_set st0 ops, spec_set_ok spec_set /\
    create_portfolio_ledger run_id spec_set = Ok (L, st0) /\ Forall op_wf ops /\ st = run st0 ops.

Lemma reachable_ok st : reachable st -> ledger_ok L /\ state_ok L st.
Proof.
  intros (run_id & ss & st0 & ops & Hss & Hc & Hops & ->).
  destruct (create_portfolio_ledger_ok _ _ _ _ Hss Hc) as (HL & Hst & _). split; [done|].
  by apply (run_ind (fun _ => True)).
Qed.

Lemma reachable_run st ops : reachable st -> Forall op_wf ops -> reachable (run st ops).
Proof.
  intros (run_id & ss & st0 & ops0 & Hss & Hc & Hops & ->) Hops'. exists run_id, ss, st0, (ops0 ++ ops).
  split_and!; try done; [by apply Forall_app|]. unfold run. by rewrite fold_left_app.
Qed.

(** The journal only grows. *)
Lemma step_appends st op st' : step_effect st op st' ->
  st_transactions st `prefix_of` st_transactions st'.
Proof.
  destruct 1 as [|f st' o _ _ _ Hnil|f h e o st' _ _ _ _ Hb|a c o st' _ Hb].
  - done.
  - rewrite Hnil. apply prefix_nil.
  - destruct (fb_transaction _ _ _ _ _ _ _ Hb) as (t & _ & -> & _). by eexists.
  - destruct (ab_transaction _ _ _ _ Hb) as (t & -> & _). by eexists.
Qed.

(** A transaction is booked once per fill and once per fact. *)
Lemma fills_distinct st i j t u : state_ok L st ->
  st_transactions st !! i = Some (TxFill t) -> st_transactions st !! j = Some (TxFill u) ->
  lt_fill_id t = lt_fill_id u \/ lt_fact_key t = lt_fact_key u -> i = j.
Proof.
  intros Hst Hi Hj Heq. pose proof (so_fills _ _ Hst) as HF. pose proof (so_journal _ _ Hst) as HJ.
  assert (TxFill t ∈ st_transactions st) as Ht by by eapply list_elem_of_lookup_2.
  assert (TxFill u ∈ st_transactions st) as Hu by by eapply list_elem_of_lookup_2.
  assert (fill_binding t = fill_binding u) as Hb.
  { destruct Heq as [Heq|Heq].
    - assert (st_fill_index st !! lt_fill_id t = Some (fill_binding t)) as H1
        by (apply (fi_fill _ _ _ _ HF); by exists t).
      assert (st_fill_index st !! lt_fill_id t = Some (fill_binding u)) as H2
        by (apply (fi_fill _ _ _ _ HF); by exists u). congruence.
    - assert (st_fact_index st !! lt_fact_key t = Some (fill_binding t)) as H1
        by (apply (fi_fact _ _ _ _ HF); by exists t).
      assert (st_fact_index st !! lt_fact_key t = Some (fill_binding u)) as H2
        by (apply (fi_fact _ _ _ _ HF); by exists u). congruence. }
  injection Hb as He _ _ _. by eapply (journal_entry_inj L).
Qed.

(** A bound handoff stays bound to its first outcome. *)
Lemma handoff_kept st op st' k b : state_ok L st -> step_effect st op st' ->
  st_handoff_index st !! k = Some b /\ st_transactions st <> [] ->
  st_handoff_index st' !! k = Some b /\ st_transactions st' <> [].
Proof.
  intros Hst Hs [Hb Hne]. split.
  - destruct Hs as [|f st' o _ _ _ Hnil|f h e o st' Hop _ _ _ Hbk|a c o st' _ Hbk]; [done|done| |].
    + pose proof (fb_handoff _ _ _ _ _ _ _ Hbk) as Hh. destruct Hop as [[_ ->]|(c & d & _ & Hnone & _ & ->)].
      * by rewrite Hh.
      * destruct Hh as (b' & _ & _ & ->). rewrite lookup_insert_ne; [done|]. simpl. congruence.
    + by rewrite (ab_handoffs _ _ _ _ Hbk).
  - apply step_appends in Hs as [l ->]. by destruct (st_transactions st).
Qed.

(** A ledger funded and not corrected keeps every cash balance non-negative. *)
Definition cash_covered (st : LedgerState) : Prop :=
  st_funding st <> None -> forall c, 0 <= balance (st_cash st) c.

Lemma covered_step st op st' : cash_covered st -> state_ok L st -> op_wf op -> 
  (forall a c, op <> OpAdjust a c) -> step_effect st op st' -> cash_covered st'.
Proof.
  intros Hc Hst Hop Hna Hs. destruct Hs as [|f st' o -> Hr Hcode Hnil|f h e o st' _ _ _ (s & _ & Heff) Hb|a c o st' -> _];
    [done| | |by destruct (Hna a c)].
  - inversion Hr; subst; try done; try congruence. intros _ c. simpl in Hop.
    match goal with H : st_cash st' = _ |- _ => rewrite H end. unfold balance.
    destruct (decide (funding_currency f = c)) as [<-|]; [rewrite lookup_singleton_eq; lia|].
    by rewrite lookup_singleton_ne.
  - intros Hf c. rewrite (fb_funding _ _ _ _ _ _ _ Hb) in Hf.
    rewrite (fb_cash _ _ _ _ _ _ _ Hb), balance_assign. case_decide; [by apply (eo_funded _ _ _ _ Heff)|].
    by apply Hc.
Qed.

(** Rule induction over reachable states. *)
Lemma reachable_ind (P : LedgerState -> Prop) :
  (forall st, st_transactions st = [] -> st_handoff_index st = ∅ -> P st) ->
  (forall st op st', state_ok L st -> P st -> state_ok L st' -> step_effect st op st' -> P st') ->
  forall st, reachable st -> P st.
Proof.
  intros H0 Hstep st (run_id & ss & st0 & ops & Hss & Hc & Hops & ->).
  destruct (create_portfolio_ledger_ok _ _ _ _ Hss Hc) as (HL & Hst & _ & _ & Hnil & Hh).
  apply (run_ind P st0 ops HL Hst Hops); [by apply H0|]. intros s op s' H1 _ H2 H3 H4. by apply (Hstep s op).
Qed.

(** Adjustments are indexed by identity and by observation, each once. *)
Definition adjustments_once (st : LedgerState) : Prop :=
  (forall t, TxReconciliation t ∈ st_transactions st ->
     is_Some (st_adjustment_index st !! rt_adjustment_id t) /\
     is_Some (st_observation_index st !! rt_observation_sha256 t)) /\
  forall i j t u, st_transactions st !! i = Some (TxReconciliation t) ->
    st_transactions st !! j = Some (TxReconciliation u) ->
    rt_adjustment_id t = rt_adjustment_id u \/ rt_observation_sha256 t = rt_observation_sha256 u -> i = j.

Lemma adjustments_once_step st op st' : adjustments_once st -> step_effect st op st' -> adjustments_once st'.
Proof.
  intros [Hidx Hdis] Hs.
  destruct Hs as [|f st' o _ Hr Hcode _|f h e o st' _ _ _ _ Hb|a c o st' _ Hb]; [done| | |].
  - inversion Hr; subst; try done; try congruence.
    match goal with H : st_transactions st' = _ |- _ => rename H into Htx end.
    split; rewrite Htx; [by intros u ?%list_elem_of_singleton|].
    by intros i j u v [? ?]%list_lookup_singleton_Some.
  - destruct (fb_transaction _ _ _ _ _ _ _ Hb) as (t & _ & Htx & _).
    destruct (fb_adjustments _ _ _ _ _ _ _ Hb) as [Ha Ho]. unfold adjustments_once. rewrite Htx, Ha, Ho. split.
    + intros u [Hu|Hu%list_elem_of_singleton]%elem_of_app; [by apply Hidx|done].
    + intros i j u v [Hi|[_ Hi]]%lookup_snoc_Some [Hj|[_ Hj]]%lookup_snoc_Some; try done. by eapply Hdis.
  - destruct (ab_transaction _ _ _ _ Hb) as (t & Htx & Hid & Hobs & _).
    destruct (ab_adjustments _ _ _ _ Hb) as (Hna & d & Ha).
    destruct (ab_observations _ _ _ _ Hb) as (Hno & i0 & Ho).
    assert (forall u, TxReconciliation u ∈ st_transactions st ->
      rt_adjustment_id u <> rc_adjustment_id c /\ rt_observation_sha256 u <> rc_observation_sha256 c) as Hne.
    { intros u [[x Hx] [y Hy]]%Hidx. split; congruence. }
    unfold adjustments_once. rewrite Htx, Ha, Ho. split.
    + intros u [Hu|Hu%list_elem_of_singleton]%elem_of_app.
      * destruct (Hne _ Hu). rewrite !lookup_insert_ne by done. by apply Hidx.
      * injection Hu as ->. rewrite Hid, Hobs, !lookup_insert_eq. split; by eexists.
    + intros i j u v [Hi|[-> Hi]]%lookup_snoc_Some [Hj|[-> Hj]]%lookup_snoc_Some Heq.
      * by eapply Hdis.
      * injection Hj as ->. apply list_elem_of_lookup_2, Hne in Hi. rewrite Hid, Hobs in Heq. tauto.
      * injection Hi as ->. apply list_elem_of_lookup_2, Hne in Hj. rewrite Hid, Hobs in Heq.
        destruct Hj, Heq; congruence.
      * done.
Qed.

Lemma reachable_adjustments_once st : reachable st -> adjustments_once st.
Proof.
  apply reachable_ind.
  - intros s Hnil _. split; rewrite Hnil; [by intros t ?%not_elem_of_nil|by intros [] j t u].
  - intros s op s' _ Ho _ Hs. by eapply adjustments_once_step.
Qed.

(** A replayed fill finds the binding of its transaction under both keys. *)
Lemma booked_bindings st t : state_ok L st -> TxFill t ∈ st_transactions st ->
  st_fill_index st !! lt_fill_id t = Some (fill_binding t) /\
  st_fact_index st !! lt_fact_key t = Some (fill_binding t).
Proof.
  intros Hst Ht. pose proof (so_fills _ _ Hst) as HF. split.
  - apply (fi_fill _ _ _ _ HF). by exists t.
  - apply (fi_fact _ _ _ _ HF). by exists t.
Qed.

(** What [apply_fill] returned, as a result and a state. *)
Lemma apply_fill_Ok st f o st' : apply_fill L st f = (Ok o, st') -> fill_next L st f = Ok (o, st').
Proof. unfold apply_fill, commit. destruct (fill_next L st f) as [[]|]; naive_solver. Qed.
Lemma apply_fill_Raise st f x st' : apply_fill L st f = (Raise x, st') -> fill_next L st f = Raise x /\ st' = st.
Proof. unfold apply_fill, commit. destruct (fill_next L st f) as [[]|]; naive_solver. Qed.
Lemma apply_fill_run st f o st' : apply_fill L st f = (Ok o, st') -> fill_run_id f = l_run_id L.
Proof.
  intros Hf%apply_fill_Ok. unfold fill_next in Hf. destruct (bool_decide _) eqn:Hb in Hf; [|done].
  by apply bool_decide_eq_true in Hb.
Qed.

(** An empty ledger has bound no handoff. *)
Lemma reachable_handoffs st : reachable st -> st_transactions st = [] -> st_handoff_index st = ∅.
Proof.
  intros Hr. apply (reachable_ind (fun st => st_transactions st = [] -> st_handoff_index st = ∅)); [done| |done].
  clear. intros st op st' Hst IH _ Hs Hnil.
  destruct Hs as [|f st' o _ Hf Hc _|f h e o st' _ _ _ _ Hb|a c o st' _ Hb]; [by apply IH|..].
  - by inversion Hf; subst; try congruence; apply IH.
  - destruct (fb_transaction _ _ _ _ _ _ _ Hb) as (t & _ & Ht & _). rewrite Ht in Hnil.
    by destruct (st_transactions st).
  - destruct (ab_transaction _ _ _ _ Hb) as (t & Ht & _). rewrite Ht in Hnil.
    by destruct (st_transactions st).
Qed.

Lemma apply_command_Ok st c f o st' : apply_ledger_application_command L st c f = (Ok o, st') ->
  command_next L st c f = Ok (o, st').
Proof.
  unfold apply_ledger_application_command, commit. destruct (command_next L st c f) as [[]|]; naive_solver.
Qed.

(** An applied command has bound its handoff to its own digest and outcome. *)
Lemma applied_command_bound st c f o st' : reachable st -> issued_fill f ->
  apply_ledger_application_command L st c f = (Ok o, st') -> outcome_code o = LEDGER_APPLIED ->
  fill_run_id f = l_run_id L /\ lc_run_id c = l_run_id L /\ lc_fill_id c = fill_id f /\
  lc_fill_sha256 c = fill_digest f /\
  exists b, st_handoff_index st' !! lc_audited_handoff_sha256 c = Some b /\
    ledger_application_command_digest c = Ok (hb_command_sha256 b) /\ hb_original_outcome b = o.
Proof.
  intros Hr Hi Ha%apply_command_Ok Hcode. destruct (reachable_ok st Hr) as [HL Hst].
  pose proof Ha as Ha0. unfold command_next in Ha0. destruct (_ || _) eqn:Hc1 in Ha0; [done|].
  destruct (_ || _) eqn:Hc2 in Ha0; [done|].
  apply orb_false_iff in Hc1 as [Hcr%negb_false_iff%bool_decide_eq_true Hrun%negb_false_iff%bool_decide_eq_true].
  apply orb_false_iff in Hc2 as [Hcf%negb_false_iff%bool_decide_eq_true Hcd%negb_false_iff%bool_decide_eq_true].
  split_and!; try done.
  destruct (missing_ancestry (fill_order_id f) (fill_correlation_id f) (fill_causation_id f)
            && negb (lc_requires_reconciliation c)) eqn:Hcov.
  - apply andb_true_iff in Hcov as [Hm Hreq%negb_true_iff].
    destruct (st_handoff_index st !! _) as [b|] eqn:Hh in Ha0.
    { apply rbind_Ok in Ha0 as (d & Hd & Ha0). case_bool_decide as Hb; [|done]. injection Ha0 as <- <-.
      exists b. split_and!; [done| |done]. by rewrite Hb. }
    destruct (_ || _) in Ha0.
    { apply rbind_Ok in Ha0 as (o1 & Ho1%conflict_not_applied & [= <- _]). done. }
    apply rbind_Ok in Ha0 as (d & _ & Ha0).
    apply uncovered_unchanged in Ha0 as [_ ?]; [done|].
    intros Hcv. specialize (Hcv _ eq_refl Hm). simpl in Hcv. congruence.
  - assert (command_ok L c f) as Hcok.
    { split_and!; try done. intros Hm. rewrite Hm in Hcov. by destruct (lc_requires_reconciliation c). }
    pose proof (command_next_ok L st c f HL Hst (issued_fill_ok f Hi Hrun) Hrun Hcok) as Hok. rewrite Ha in Hok.
    inversion Hok as [|b Hb Hd|b d Hb Hd Hne|o1 Hb Hn Hc Hk Hs|r d Hh Hf Hk Hd Hn]; subst.
    + by exists b.
    + by rewrite Hc in Hcode.
    + inversion Hn as [|s ? code stage Hsp Hoc Hstage _ _ Hwhy|s e ? ? Hsp _ Heff Hbk Hst']; subst.
      * destruct Hwhy as [(_ & Hx & _)|[_ He]]; [by rewrite Hx in Hcode|].
        unfold effect_failure in He. simpl in He. rewrite Hcode in He. by destruct stage.
      * destruct (fb_handoff _ _ _ _ _ _ _ Hbk) as (b & Hbd & Hbo & Hidx).
        cbn [handoff_audited_sha256 handoff_command_sha256] in Hbd, Hidx. exists b. rewrite Hidx, lookup_insert_eq, Hbd. done.
Qed.
End Reach.
