(* ===== verification/LedgerExample.v ===== *)
(** A concrete ledger: one instrument, a funding, a buy and a sell, with the digests of
    [Checksum].  The witnesses of the ledger's theorems run on it. *)

From S2P Require Import Prelude PyRegex PyText Outcomes Json Identity Checksum Economics Commission Execution.
From S2P Require Import Messages Portfolio Reconciliation Integration Ledger Adjustment LedgerLemmas LedgerSpec.
From S2P Require Import LedgerInvariant LedgerReach.

Open Scope Z_scope.

Definition the_run : RunId := mkPatternStr (r := _RUN_ID_PATTERN) "00000000-0000-4000-8000-000000000001" eq_refl.
Definition the_source : SourceNamespace := mkPatternStr (r := _TOKEN_PATTERN) "paper" eq_refl.
Definition the_digest : Sha256Digest :=
  mkPatternStr (r := _DIGEST_PATTERN) "0000000000000000000000000000000000000000000000000000000000000000" eq_refl.
Definition the_instrument : Instrument :=
  mkInstrument (mkPatternStr (r := _VENUE_PATTERN) "XNAS" eq_refl) (mkPatternStr (r := _SYMBOL_PATTERN) "ACME" eq_refl).
Definition usd : SettlementCurrency := mkPatternStr (r := _CURRENCY_PATTERN) "USD" eq_refl.

Definition one : CanonicalDecimal := mkDecimal "1" 1 0 eq_refl.
Definition ten : CanonicalDecimal := mkDecimal "10" 10 0 eq_refl.
Definition cent : CanonicalDecimal := mkDecimal "0.01" 1 2 eq_refl.
Definition hundred_thousand : CanonicalDecimal := mkDecimal "100000" 100000 0 eq_refl.
Definition price_123_45 : CanonicalDecimal := mkDecimal "123.45" 12345 2 eq_refl.

Definition the_spec : InstrumentExecutionSpec :=
  mkSpec the_instrument (mkPatternStr (r := _SPEC_ID_PATTERN) "spec-acme" eq_refl) cent one usd cent one POSITIVE.
Definition the_spec_set : InstrumentExecutionSpecSet := mkSpecSet (mkPatternStr (r := _SPEC_ID_PATTERN) "set" eq_refl) [the_spec].

Lemma the_spec_set_ok : spec_set_ok the_spec_set.
Proof.
  split_and!; simpl.
  - by repeat constructor.
  - apply NoDup_singleton.
  - repeat constructor.
Qed.

Definition the_time : datetime := mkDatetime 2024 1 2 14 30 0 0 eq_refl.
Definition the_provenance : FactProvenance := mkFactProvenance (mkPatternStr (r := _TOKEN_PATTERN) "paper" eq_refl) the_digest.
Definition the_funding : InitialFunding := mkInitialFunding the_run usd hundred_thousand.

(** The value of a computation that succeeds. *)
Definition unwrap {A} (m : res A) : is_ok m = true -> A :=
  match m return is_ok m = true -> A with
  | Ok a => fun _ => a
  | Raise _ => fun H => match (eq_ind false (fun b => if b then False else True) I true H) with end
  end.
Lemma unwrap_ok {A} (m : res A) H : m = Ok (unwrap m H).
Proof. by destruct m. Qed.

Definition trade (n : Z) (side : OrderSide) : res ExecutionFact :=
  create_trade_execution_fact the_source (DedupSequence n) (the_time, Some 0) the_provenance the_spec_set
    the_instrument side ten price_123_45 None None None None None None.
Definition fill_number (n : Z) (side : OrderSide) : res Fill :=
  let* fact := trade n side in
  create_fill (mkEconomicId the_run EXECUTION_FILL n) fact the_spec_set.

Lemma buy_issued : is_ok (fill_number 1 BUY) = true.
Proof. vm_compute. reflexivity. Qed.
Lemma sell_issued : is_ok (fill_number 2 SELL) = true.
Proof. vm_compute. reflexivity. Qed.
Definition the_buy : Fill := unwrap (fill_number 1 BUY) buy_issued.
Definition the_sell : Fill := unwrap (fill_number 2 SELL) sell_issued.

Lemma fill_number_issued n side f : fill_number n side = Ok f -> issued_fill f.
Proof.
  unfold fill_number. destruct (trade n side) as [fact|]; [|done]. cbn [rbind]. intros Hf.
  exists (mkEconomicId the_run EXECUTION_FILL n), fact, the_spec_set. exact Hf.
Qed.

Lemma ledger_created : is_ok (create_portfolio_ledger the_run the_spec_set) = true.
Proof. vm_compute. reflexivity. Qed.
Definition the_creation : PortfolioLedger * LedgerState :=
  unwrap (create_portfolio_ledger the_run the_spec_set) ledger_created.
Definition the_ledger : PortfolioLedger := the_creation.1.
Definition empty_state : LedgerState := the_creation.2.

Lemma the_creation_ok : create_portfolio_ledger the_run the_spec_set = Ok (the_ledger, empty_state).
Proof.
  rewrite (unwrap_ok _ ledger_created). unfold the_ledger, empty_state, the_creation. by destruct (unwrap _ _).
Qed.
Lemma the_ledger_set : l_spec_set the_ledger = the_spec_set.
Proof.
  by destruct (create_portfolio_ledger_ok _ _ _ _ the_spec_set_ok the_creation_ok) as (_ & _ & _ & ? & _).
Qed.
Lemma the_funding_run : funding_run_id the_funding = l_run_id the_ledger.
Proof.
  by destruct (create_portfolio_ledger_ok _ _ _ _ the_spec_set_ok the_creation_ok) as (_ & _ & -> & _).
Qed.

Definition the_ops : list ledger_op := [OpFund the_funding; OpFill the_buy; OpFill the_sell].
Lemma the_ops_wf : Forall op_wf the_ops.
Proof.
  apply Forall_cons. split; [done|]. apply Forall_cons. split.
  { exact (fill_number_issued 1 BUY the_buy (unwrap_ok _ _)). }
  apply Forall_singleton. exact (fill_number_issued 2 SELL the_sell (unwrap_ok _ _)).
Qed.

Lemma the_state_reachable n : reachable the_ledger (run the_ledger empty_state (take n the_ops)).
Proof.
  exists the_run, the_spec_set, empty_state, (take n the_ops). split_and!.
  - apply the_spec_set_ok.
  - exact the_creation_ok.
  - apply Forall_take, the_ops_wf.
  - reflexivity.
Qed.
Definition the_state : LedgerState := run the_ledger empty_state the_ops.

Lemma reachable_state : reachable the_ledger the_state.
Proof. exact (the_state_reachable 3). Qed.

(** The run books three transactions: the funding and both fills. *)
Lemma the_state_books : map (fun t => owner_sequence (tx_entry t)) (st_transactions the_state) = [1; 2; 3].
Proof. vm_compute. reflexivity. Qed.

Lemma empty_journal : st_transactions empty_state = [].
Proof.
  by destruct (create_portfolio_ledger_ok _ _ _ _ the_spec_set_ok the_creation_ok) as (_ & _ & _ & _ & ? & _).
Qed.
Lemma empty_reachable : reachable the_ledger empty_state.
Proof. exact (the_state_reachable 0). Qed.
Lemma is_none_false {A} (x : option A) : absent x = false -> x <> None.
Proof. by destruct x. Qed.
Lemma the_ops_funded : st_funding (run the_ledger empty_state the_ops) <> None.
Proof.
  apply is_none_false. vm_compute. reflexivity.
Qed.

(** The state after the funding, in which the buy is applied. *)
Definition funded_state : LedgerState := run the_ledger empty_state (take 1 the_ops).

Lemma funded_reachable : reachable the_ledger funded_state.
Proof. exact (the_state_reachable 1). Qed.

Lemma the_buy_is_issued : issued_fill the_buy.
Proof. exact (fill_number_issued 1 BUY the_buy (unwrap_ok _ _)). Qed.
Lemma the_sell_is_issued : issued_fill the_sell.
Proof. exact (fill_number_issued 2 SELL the_sell (unwrap_ok _ _)). Qed.
Lemma the_buy_run : fill_run_id the_buy = l_run_id the_ledger.
Proof.
  apply (proj1 (bool_decide_eq_true (fill_run_id the_buy = l_run_id the_ledger))). vm_compute. reflexivity.
Qed.

Definition applied (r : res LedgerApplyOutcome * LedgerState) : bool :=
  match r.1 with Ok o => bool_decide (outcome_code o = LEDGER_APPLIED) | Raise _ => false end.
Lemma applied_spec r : applied r = true -> exists o st', r = (Ok o, st') /\ outcome_code o = LEDGER_APPLIED.
Proof.
  destruct r as [[o|x] st']; unfold applied; simpl; [|done]. intros Ho%bool_decide_eq_true. by exists o, st'.
Qed.

Lemma the_buy_applies : applied (apply_fill the_ledger funded_state the_buy) = true.
Proof. vm_compute. reflexivity. Qed.

(** The buy is the second entry of the journal. *)
Definition books_fill (f : Fill) (t : option CanonicalPortfolioTransaction) : bool :=
  match t with
  | Some (TxFill t) => bool_decide (lt_fill_id t = fill_id f) && bool_decide (lt_fact_key t = fill_fact_key f)
                       && bool_decide (lt_fill_sha256 t = fill_digest f)
  | _ => false
  end.
Lemma books_fill_spec f o : books_fill f o = true -> exists t, o = Some (TxFill t) /\
  lt_fill_id t = fill_id f /\ lt_fact_key t = fill_fact_key f /\ lt_fill_sha256 t = fill_digest f.
Proof.
  unfold books_fill. destruct o as [[| t|]|]; try done.
  intros [[?%bool_decide_eq_true ?%bool_decide_eq_true]%andb_true_iff ?%bool_decide_eq_true]%andb_true_iff.
  by exists t.
Qed.
Lemma the_buy_booked : books_fill the_buy (st_transactions the_state !! 1%nat) = true.
Proof. vm_compute. reflexivity. Qed.

(** The same buy through the audited command path. *)
Definition the_command : LedgerApplicationCommand :=
  mkLedgerApplicationCommand the_run 1 the_digest the_digest (fill_id the_buy) (fill_digest the_buy) true.
Lemma the_command_applies :
  applied (apply_ledger_application_command the_ledger funded_state the_command the_buy) = true.
Proof. vm_compute. reflexivity. Qed.

(** A broker-reported cash balance one cent above the local one, corrected. *)
Definition the_correction (st : LedgerState) (local observed delta : CanonicalDecimal)
  : ReconciliationAdjustmentCommand :=
  {| rc_run_id := the_run; rc_spec_set_id := spec_set_identifier the_spec_set;
     rc_spec_set_sha256 := instrument_spec_set_digest the_spec_set;
     rc_adjustment_id := mkEconomicId the_run RECONCILIATION_ADJUSTMENT 1;
     rc_observation_sha256 := the_digest; rc_reconciliation_outcome_sha256 := the_digest;
     rc_ledger_sequence := Portfolio.ledger_sequence (st_snapshot st);
     rc_local_snapshot_sha256 := portfolio_snapshot_digest (st_snapshot st);
     rc_variant := BALANCE_CORRECTION; rc_target_kind := SETTLEMENT_CASH;
     rc_instrument := None; rc_currency := Some usd;
     rc_local_amount := Some local; rc_observed_amount := Some observed; rc_delta := Some delta;
     rc_open_reconciliation_ref := None; rc_ancestry_order_id := None; rc_ancestry_order_sha256 := None;
     rc_dispatch_sequence := 1 |}.
Definition authorizing (c : ReconciliationAdjustmentCommand) (csha : Sha256Digest)
  : AuditedReconciliationAdjustmentAuthorization :=
  mkAuditedAuthorization
    {| ra_run_id := rc_run_id c; ra_spec_set_id := rc_spec_set_id c; ra_spec_set_sha256 := rc_spec_set_sha256 c;
       ra_authorization_id := mkEconomicId (rc_run_id c) RECONCILIATION_AUTHORIZATION 1;
       ra_adjustment_id := rc_adjustment_id c; ra_observation_sha256 := rc_observation_sha256 c;
       ra_reconciliation_outcome_sha256 := rc_reconciliation_outcome_sha256 c;
       ra_outcome_acknowledgement_sha256 := the_digest;
       ra_ledger_sequence := rc_ledger_sequence c; ra_local_snapshot_sha256 := rc_local_snapshot_sha256 c;
       ra_command_sha256 := csha; ra_policy_id := mkPatternStr (r := VISIBLE_128) "policy" eq_refl;
       ra_policy_version := 1; ra_policy_sha256 := the_digest; ra_decision := ALLOWED;
       ra_available_at := the_time; ra_dispatch_sequence := rc_dispatch_sequence c |} the_digest.

Definition cent_above : CanonicalDecimal := mkDecimal "100000.01" 10000001 2 eq_refl.
Definition correct_cent : ReconciliationAdjustmentCommand :=
  the_correction funded_state hundred_thousand cent_above cent.
Lemma correct_cent_sized : is_ok (reconciliation_adjustment_command_digest correct_cent) = true.
Proof. vm_compute. reflexivity. Qed.
Definition corrected_state : LedgerState :=
  run the_ledger funded_state
    [OpAdjust (authorizing correct_cent (unwrap _ correct_cent_sized)) correct_cent].
Lemma corrected_reachable : reachable the_ledger corrected_state.
Proof. apply reachable_run; [exact funded_reachable|]. by apply Forall_singleton. Qed.

Definition is_adjustment (t : option CanonicalPortfolioTransaction) : bool :=
  match t with Some (TxReconciliation _) => true | _ => false end.
Lemma is_adjustment_spec o : is_adjustment o = true -> exists t, o = Some (TxReconciliation t).
Proof. destruct o as [[| |t]|]; try done. by exists t. Qed.
Lemma correction_booked : is_adjustment (st_transactions corrected_state !! 1%nat) = true.
Proof. vm_compute. reflexivity. Qed.
