(* ===== verification/LedgerTheorems.v ===== *)
(** The ledger's contract, for every reachable state: what the journal, the balances
    and the indexes satisfy, and what each operation returns.  Each theorem with a
    hypothesis is followed by an instance on the ledger of [LedgerExample]. *)

From S2P Require Import Prelude PyRegex PyText Outcomes Json Identity Checksum Economics Commission Execution.
From S2P Require Import Messages Portfolio Reconciliation Integration Ledger Adjustment LedgerLemmas LedgerSpec.
From S2P Require Import LedgerInvariant LedgerReach LedgerExample.

Open Scope Z_scope.

(** The postings of a journal, in order. *)
Definition journal_postings (l : list CanonicalPortfolioTransaction) : list LedgerPosting :=
  flat_map tx_postings l.

Lemma journal_posted c l : (forall t, t ∈ l -> commodity_balanced (tx_postings t)) ->
  posted c (journal_postings l) = 0.
Proof.
  induction l as [|t l IH]; intros Hl; [done|]. unfold journal_postings. cbn [flat_map].
  rewrite posted_app, Hl by left. apply IH. intros u Hu. apply Hl. by right.
Qed.

Lemma journal_booked a c l : journal_balance a c l = booked a c (journal_postings l).
Proof.
  induction l as [|t l IH]; [done|]. unfold journal_postings. cbn [flat_map]. rewrite booked_app. simpl.
  by rewrite IH.
Qed.

Section Theorems.
Context `{Sha256}.

(** The two shapes of an outcome of [fill_next]. *)
Lemma fill_outcome_cases L st f o st' : fill_result L st f (fill_digest f) (Ok (o, st')) ->
  (outcome_code o = LEDGER_APPLIED /\ outcome_snapshot o = st_snapshot st' /\
     exists t, outcome_transaction o = Some t /\ lt_fill_id t = fill_id f /\
       lt_fact_key t = fill_fact_key f /\ st_transactions st' = st_transactions st ++ [TxFill t]) \/
  (outcome_code o <> LEDGER_APPLIED /\ st' = st /\ outcome_snapshot o = st_snapshot st /\
     failure_stage o <> Some COMMODITY_UNBALANCED /\ conflict_kind o <> Some ENTRY_ID_OCCUPIED).
Proof.
  inversion 1 as [c ? Hc Hres|? Hf Hk Hn]; subst.
  - right. unfold replay_class in Hc.
    inversion Hres; subst; split_and!; try congruence.
    destruct (st_fill_index _ !! fill_id f), (st_fact_index _ !! fill_fact_key f);
      repeat case_decide; congruence.
  - inversion Hn as [|s ? code stage Hsp Hoc Hstage Hck Hsnap Hwhy|s e ? ? Hsp _ Heff Hb Hst']; subst.
    + right. rewrite Hstage, Hck. split_and!; try done.
      * destruct Hwhy as [(-> & Hr & _)|[_ He]]; [congruence|].
        unfold effect_failure in He. simpl in He. destruct stage; congruence || done.
      * destruct Hwhy as [(-> & _)|[_ He]]; [done|]. by intros [= ->].
    + left. destruct (fb_transaction _ _ _ _ _ _ _ Hb) as (t & Ho & Ht & Hid & _ & Hkey & _).
      split; [apply Hb|]. split; [apply Hb|]. by exists t.
Qed.

(** An applied outcome comes from the effect of the fill. *)
Lemma fill_applied_effect L st f d o st' : fill_result L st f d (Ok (o, st')) ->
  outcome_code o = LEDGER_APPLIED ->
  exists s e, specified L f s /\ effect_ok st f s e /\ fill_booked st f d None e o st'.
Proof.
  inversion 1 as [c ? Hc Hres|? Hf Hk Hn]; subst; intros Hcode.
  - inversion Hres; congruence.
  - inversion Hn as [|s ? code stage Hsp Hoc Hstage _ _ Hwhy|s e ? ? Hsp _ Heff Hb Hst']; subst.
    + destruct Hwhy as [(-> & Hr & _)|[_ He]]; [congruence|].
      unfold effect_failure in He. simpl in He. destruct stage; congruence || done.
    + by exists s, e.
Qed.

(** C17: in every reachable state the cash, position and rounding balances are exactly
    what replaying the journal's postings to those accounts gives. *)
Theorem balances_replay_journal L st : reachable L st ->
  (forall c, balance (st_cash st) c
             = booked PORTFOLIO_CASH (CurrencyCommodity c) (journal_postings (st_transactions st))) /\
  (forall i, balance (st_positions st) i
             = booked PORTFOLIO_POSITION (InstrumentCommodity i) (journal_postings (st_transactions st))) /\
  (forall c, balance (st_rounding st) c
             = booked PORTFOLIO_ROUNDING (CurrencyCommodity c) (journal_postings (st_transactions st))).
Proof.
  intros Hr. destruct (reachable_ok L st Hr) as [_ Hst]. pose proof (so_balances _ _ Hst) as HB.
  split_and!; intros x; rewrite <-journal_booked; apply HB.
Qed.

(** Double entry: every booked transaction sums to zero in each commodity, and so
    does the whole journal: nothing is created or destroyed. *)
Theorem journal_conserves L st : reachable L st ->
  (forall t, t ∈ st_transactions st -> commodity_balanced (tx_postings t)) /\
  (forall c, posted c (journal_postings (st_transactions st)) = 0).
Proof.
  intros Hr. destruct (reachable_ok L st Hr) as [_ Hst].
  pose proof (jo_balanced _ _ _ (so_journal _ _ Hst)) as Hb. split; [done|]. intros c. by apply journal_posted.
Qed.

(** The journal is a hash chain: entry [k] carries the sequence [k + 1] in the
    ledger's run, names the digest of its predecessor, and is found under its entry
    id and nowhere else. *)
Theorem journal_is_chained L st : reachable L st ->
  (forall k t, st_transactions st !! k = Some t ->
     tx_entry t = mkEconomicId (l_run_id L) LEDGER_ENTRY (Z.of_nat k + 1) /\
     tx_sequence t = Z.of_nat k + 1) /\
  (forall t, st_transactions st !! 0%nat = Some t -> tx_previous t = None) /\
  (forall k t u, st_transactions st !! k = Some t -> st_transactions st !! S k = Some u ->
     exists d, _transaction_digest t = Ok d /\ tx_previous u = Some d) /\
  (forall e t, st_entry_index st !! e = Some t <-> t ∈ st_transactions st /\ tx_entry t = e).
Proof.
  intros Hr. destruct (reachable_ok L st Hr) as [_ Hst]. pose proof (so_journal _ _ Hst) as HJ.
  split_and!.
  - intros k t Hk. by apply (jo_entries _ _ _ HJ).
  - intros t Ht. by apply (jo_chain _ _ _ HJ) in Ht.
  - intros k t u Ht Hu. destruct (jo_chain _ _ _ HJ _ _ Hu) as (p & d & Hp & Hd & ?).
    rewrite Ht in Hp. injection Hp as <-. by exists d.
  - intros e t. rewrite (jo_index _ _ _ HJ). split.
    + intros (k & Hk & ->). split; [by eapply list_elem_of_lookup_2|]. by apply (jo_entries _ _ _ HJ).
    + intros [[k Hk]%list_elem_of_lookup <-]. exists k. split; [done|]. by apply (jo_entries _ _ _ HJ).
Qed.

(** C23: no fill and no broker fact is booked twice: two fill transactions of the
    journal with the same fill id or the same fact key are the same entry. *)
Theorem fills_booked_once L st i j t u : reachable L st ->
  st_transactions st !! i = Some (TxFill t) -> st_transactions st !! j = Some (TxFill u) ->
  lt_fill_id t = lt_fill_id u \/ lt_fact_key t = lt_fact_key u -> i = j.
Proof.
  intros Hr. destruct (reachable_ok L st Hr) as [_ Hst]. by apply (fills_distinct L).
Qed.

(** The published snapshot is the sorted projection of the state: its version is
    the number of transactions and it names the last transaction's entry and digest. *)
Theorem snapshot_projects_state L st : reachable L st ->
  let n := Z.of_nat (length (st_transactions st)) in
  snapshot_version (st_snapshot st) = n /\ Portfolio.ledger_sequence (st_snapshot st) = n /\
  forall t, last (st_transactions st) = Some t -> exists d, _transaction_digest t = Ok d /\
    last_entry_id (st_snapshot st) = Some (tx_entry t) /\
    last_transaction_sha256 (st_snapshot st) = Some d /\
    map (fun b => (cash_currency b, cash_amount b)) (cash_balances (st_snapshot st))
    = sorted_items value (st_cash st) /\
    map (fun b => (position_instrument b, position_quantity b)) (position_balances (st_snapshot st))
    = sorted_items instrument_key (st_positions st) /\
    open_reconciliation_refs (st_snapshot st) = (sorted_items _economic_id_key (st_open_refs st)).*2.
Proof.
  intros Hr n. destruct (reachable_ok L st Hr) as [_ Hst]. destruct (so_snapshot _ _ Hst) as (_ & Hv & Hs & Hl).
  split_and!; [done|done|]. intros t Ht. destruct (Hl t Ht) as (d & Hd & Hsnap). exists d. split; [done|].
  assert (tx_entry t = entry L n) as He.
  { pose proof Ht as Hlast. rewrite last_lookup in Hlast.
    destruct (jo_entries _ _ _ (so_journal _ _ Hst) _ _ Hlast) as [-> _].
    apply lookup_lt_Some in Hlast. f_equal. lia. }
  rewrite Hsnap, He. simpl. rewrite !map_map. simpl.
  assert (forall {K A} (l : list (K * A)), map (fun x => (x.1, x.2)) l = l) as Hid.
  { intros K A l. induction l as [|[k a] l IH]; simpl; [done|]. by rewrite IH. }
  by rewrite !Hid.
Qed.

(** C20: an applied fill settles exactly: for the specification of its instrument, the
    position moves by the signed quantity, cash by the half-even settled amount and
    the fee, the rounding balance by the residual the settlement left, every other
    balance stays, and amount plus residual is the exact product. *)
Theorem apply_fill_settles L st f o st' : reachable L st -> issued_fill f ->
  apply_fill L st f = (Ok o, st') -> outcome_code o = LEDGER_APPLIED ->
  exists s settled fee, s ∈ specifications (l_spec_set L) /\ spec_instrument s = fill_instrument f /\
    fill_fees f = [fee] /\
    settles (fill_price f) (fill_quantity f) (contract_multiplier s) (currency_quantum s) settled /\
    (forall i, balance (st_positions st') i = balance (st_positions st) i
       + if decide (i = fill_instrument f) then fill_sign f * units (fill_quantity f) else 0) /\
    (forall c, balance (st_cash st') c = balance (st_cash st) c
       - if decide (c = settlement_currency s)
         then fill_sign f * units (amount settled) + units (fee_amount fee) else 0) /\
    (forall c, balance (st_rounding st') c = balance (st_rounding st) c
       - if decide (c = settlement_currency s) then fill_sign f * units (rounding_residual settled) else 0).
Proof.
  intros Hr Hi Ha Hcode. destruct (reachable_ok L st Hr) as [HL Hst].
  pose proof (apply_fill_run L st f o st' Ha) as Hrun. apply apply_fill_Ok in Ha.
  pose proof (fill_next_ok L st f HL Hst (issued_fill_ok L f Hi Hrun) Hrun) as Hok. rewrite Ha in Hok.
  destruct (fill_applied_effect _ _ _ _ _ _ Hok Hcode) as (s & e & Hsp & Heff & Hb).
  destruct (eo_settlement _ _ _ _ Heff) as (settled & fee & Hset & Hfee & Hp & Hc & Hrd).
  exists s, settled, fee. split_and!; [apply Hsp|apply Hsp|done|done|..]; intros x;
    rewrite ?(fb_positions _ _ _ _ _ _ _ Hb), ?(fb_cash _ _ _ _ _ _ _ Hb), ?(fb_rounding _ _ _ _ _ _ _ Hb),
      ?(eo_currency _ _ _ _ Heff), balance_assign; repeat case_decide; subst; try done; lia.
Qed.

(** A fill already booked is reported as a duplicate of its own transaction and
    changes nothing, however many operations came between. *)
Theorem booked_fill_is_duplicate L st f t : reachable L st -> issued_fill f -> fill_run_id f = l_run_id L ->
  TxFill t ∈ st_transactions st -> lt_fill_id t = fill_id f -> lt_fact_key t = fill_fact_key f ->
  lt_fill_sha256 t = fill_digest f ->
  exists o, apply_fill L st f = (Ok o, st) /\ outcome_code o = LEDGER_DUPLICATE /\
    outcome_transaction o = Some t /\ outcome_snapshot o = st_snapshot st.
Proof.
  intros Hr Hi Hrun Ht Hid Hk Hd. destruct (reachable_ok L st Hr) as [HL Hst].
  destruct (booked_bindings L st t Hst Ht) as [Hb1 Hb2]. rewrite Hid in Hb1. rewrite Hk in Hb2.
  pose proof (fill_next_ok L st f HL Hst (issued_fill_ok L f Hi Hrun) Hrun) as Hok.
  unfold apply_fill. inversion Hok as [c o Hc Hres Heq|r Hn]; [|congruence].
  rewrite Hb1, Hb2 in Hc. simpl in Hc. rewrite !decide_True in Hc by done. injection Hc as <-.
  inversion Hres as [|u ? Hu Hui Huk _ ? ? ?|]; subst. exists o. split; [done|]. split; [done|]. split; [|done].
  apply list_elem_of_lookup in Ht as [i Hti]. apply list_elem_of_lookup in Hu as [j Huj].
  assert (i = j) as <- by (eapply (fills_distinct L); eauto; left; congruence). congruence.
Qed.

(** A fill whose identity or fact is already booked is never applied: the ledger
    answers as the two bindings it finds prescribe, and stays as it was. *)
Theorem replays_are_classified L st f : reachable L st -> issued_fill f -> fill_run_id f = l_run_id L ->
  match replay_class (fill_digest f) (st_fill_index st !! fill_id f) (st_fact_index st !! fill_fact_key f) with
  | None => st_fill_index st !! fill_id f = None /\ st_fact_index st !! fill_fact_key f = None
  | Some None => exists o, apply_fill L st f = (Ok o, st) /\ outcome_code o = LEDGER_DUPLICATE
  | Some (Some k) => exists o, apply_fill L st f = (Ok o, st) /\ outcome_code o = LEDGER_CONFLICT /\
      conflict_kind o = Some k /\ outcome_transaction o = None
  end.
Proof.
  intros Hr Hi Hrun. destruct (reachable_ok L st Hr) as [HL Hst].
  pose proof (fill_next_ok L st f HL Hst (issued_fill_ok L f Hi Hrun) Hrun) as Hok. unfold apply_fill.
  inversion Hok as [c o Hc Hres Heq|r Hf Hk Hn].
  - rewrite Hc. inversion Hres; subst; exists o; by split_and!.
  - by rewrite Hf, Hk.
Qed.

(** C24: once funded, fills and audited commands never overdraw a cash balance. *)
Theorem funded_cash_never_negative L st ops : reachable L st -> st_transactions st = [] ->
  Forall op_wf ops -> (forall a c, OpAdjust a c ∉ ops) ->
  let st' := run L st ops in st_funding st' <> None -> forall c, 0 <= balance (st_cash st') c.
Proof.
  intros Hr Hnil Hops Hna st'. destruct (reachable_ok L st Hr) as [HL Hst].
  assert (cash_covered st) as Hc0.
  { intros Hf. pose proof (so_funding _ _ Hst) as Hfund. unfold funding_ok in Hfund.
    destruct (st_funding st); [|done]. destruct Hfund as (t & Ht & _). by rewrite Hnil in Ht. }
  apply (run_ind L cash_covered st ops HL Hst Hops Hc0).
  intros s op s' Hs Hin Hcov _ Heff. eapply covered_step; try done.
  - rewrite Forall_forall in Hops. by apply Hops.
  - intros a c ->. by apply (Hna a c).
Qed.

(** Every operation is atomic: whatever it returns or raises, the state is the
    one before it, or has exactly one more transaction. *)
Theorem operations_are_atomic L st op : reachable L st -> op_wf op ->
  apply_op L st op = st \/
  exists t, st_transactions (apply_op L st op) = st_transactions st ++ [t] /\
    snapshot_version (st_snapshot (apply_op L st op)) = snapshot_version (st_snapshot st) + 1.
Proof.
  intros Hr Hop. destruct (reachable_ok L st Hr) as [HL Hst].
  destruct (apply_op_ok L st op HL Hst Hop) as [Hst' Heff].
  destruct (snapshot_version_bound L _ Hst) as [-> _]. destruct (snapshot_version_bound L _ Hst') as [-> _].
  assert (forall t, st_transactions (apply_op L st op) = st_transactions st ++ [t] ->
    exists t, st_transactions (apply_op L st op) = st_transactions st ++ [t] /\
      Z.of_nat (length (st_transactions (apply_op L st op))) = Z.of_nat (length (st_transactions st)) + 1) as Hone.
  { intros t Ht. exists t. split; [done|]. rewrite Ht, length_app. simpl. lia. }
  clear Hst'. revert Heff Hone. generalize (apply_op L st op) as s'. intros s' Heff Hone.
  destruct Heff as [|f st' o _ Hf Hc Hnil|f h e o st' _ _ _ _ Hb|a c o st' _ Hb]; [by left|..].
  - inversion Hf; subst; try congruence.
    { by left. }
    right. match goal with Ht : st_transactions _ = [TxFunding ?t] |- _ =>
      apply (Hone (TxFunding t)); by rewrite Ht, Hnil end.
  - right. destruct (fb_transaction _ _ _ _ _ _ _ Hb) as (t & _ & Ht & _). by apply (Hone _ Ht).
  - right. destruct (ab_transaction _ _ _ _ Hb) as (t & Ht & _). by apply (Hone _ Ht).
Qed.
(** Exactly once: an applied command answers every later resubmission, after any
    operations, with its first outcome, and the resubmission changes nothing. *)
Theorem command_replays_its_outcome L st c f o st' ops : reachable L st -> issued_fill f ->
  apply_ledger_application_command L st c f = (Ok o, st') -> outcome_code o = LEDGER_APPLIED ->
  Forall op_wf ops -> let later := run L st' ops in
  apply_ledger_application_command L later c f = (Ok o, later).
Proof.
  intros Hr Hi Ha Hcode Hops later.
  destruct (applied_command_bound L st c f o st' Hr Hi Ha Hcode)
    as (Hrun & Hcr & Hcf & Hcd & b & Hb & Hd & Ho).
  assert (reachable L st') as Hr'.
  { assert (st' = run L st [OpCommand c f]) as -> by (simpl; by rewrite Ha).
    apply reachable_run; [done|by apply Forall_singleton]. }
  destruct (reachable_ok L st' Hr') as [HL Hst'].
  assert (st_handoff_index later !! lc_audited_handoff_sha256 c = Some b /\ st_transactions later <> []) as [Hlb _].
  { refine (proj2 (run_ind L (fun s => st_handoff_index s !! lc_audited_handoff_sha256 c = Some b /\
      st_transactions s <> []) st' ops HL Hst' Hops _ _)).
    - split; [done|]. intros Hnil. rewrite (reachable_handoffs L st' Hr' Hnil), lookup_empty in Hb. done.
    - intros s op s' Hs _ Hbs _ Heff. by eapply handoff_kept. }
  unfold apply_ledger_application_command, command_next.
  rewrite !bool_decide_eq_true_2 by done. cbn [negb orb]. rewrite Hlb, Hd. cbn [rbind].
  rewrite bool_decide_eq_true_2 by done. cbn [negb commit]. by rewrite Ho.
Qed.

(** No reconciliation adjustment is booked twice, and no broker observation
    justifies two adjustments. *)
Theorem adjustments_booked_once L st i j t u : reachable L st ->
  st_transactions st !! i = Some (TxReconciliation t) ->
  st_transactions st !! j = Some (TxReconciliation u) ->
  rt_adjustment_id t = rt_adjustment_id u \/ rt_observation_sha256 t = rt_observation_sha256 u -> i = j.
Proof. intros Hr. by apply (reachable_adjustments_once L st Hr). Qed.

(** The ledger is funded at most once and before anything else: a funding
    transaction is the first of the journal, a second funding request replays the
    first outcome when its bytes are the same and is a conflict otherwise. *)
Theorem funded_first_and_once L st f : reachable L st -> 0 < units (funding_amount f) ->
  funding_run_id f = l_run_id L ->
  (forall k t, st_transactions st !! k = Some (TxFunding t) -> k = 0%nat) /\
  (st_transactions st <> [] -> forall o st', apply_initial_funding L st f = (Ok o, st') ->
     st' = st /\ match st_funding st with
                 | Some b => if decide (fb_funding_bytes b = canonical_initial_funding_bytes f)
                             then o = fb_outcome b else fo_code o = LEDGER_CONFLICT
                 | None => fo_code o = LEDGER_CONFLICT
                 end).
Proof.
  intros Hr Hpos Hrun. destruct (reachable_ok L st Hr) as [HL Hst]. split.
  - revert st Hr HL Hst. intros st Hr _ _. revert st Hr. refine (reachable_ind L _ _ _).
    + intros st -> _ k t. by rewrite lookup_nil.
    + intros st op st' _ IH _ Hs k t Hk.
      destruct Hs as [|g st' o _ Hf Hc Hnil|g h e o st' _ _ _ _ Hb|a c o st' _ Hb]; [by eapply IH|..].
      * inversion Hf; subst; try (by eapply IH).
        match goal with Ht : st_transactions _ = [_] |- _ => rewrite Ht in Hk end.
        by apply list_lookup_singleton_Some in Hk as [-> _].
      * destruct (fb_transaction _ _ _ _ _ _ _ Hb) as (u & _ & Ht & _). rewrite Ht in Hk.
        apply lookup_snoc_Some in Hk as [Hk|[_ ?]]; [by eapply IH|done].
      * destruct (ab_transaction _ _ _ _ Hb) as (u & Ht & _). rewrite Ht in Hk.
        apply lookup_snoc_Some in Hk as [Hk|[_ ?]]; [by eapply IH|done].
  - intros Hne o st' Ha.
    assert (funding_next L st f = Ok (o, st')) as Hn.
    { unfold apply_initial_funding, commit in Ha.
      destruct (funding_next L st f) as [[o1 st1]|]; [|done]. destruct (_ && _) in Ha; [done|]. by injection Ha as -> ->. }
    pose proof (funding_next_ok L st f HL Hst Hpos Hrun) as Hok. rewrite Hn in Hok.
    inversion Hok as [|b Hb Hbytes|? _ Hc _ _ Hd|]; subst; try congruence.
    + split; [done|]. rewrite Hb. by rewrite decide_True.
    + split; [done|]. destruct (st_funding st') as [b|]; [|done].
      rewrite decide_False; [done|]. by apply Hd.
Qed.

(** A balance correction that overflows never becomes the [FAILED] outcome its
    failure mapping describes: [_derive_correction] raises the overflow through
    [PortfolioLedgerError], whose constructor refuses that code with a [TypeError]. *)
Theorem correction_overflow_escapes L st authorization command e n asha q c accounts current delta :
  rc_delta command = Some delta -> rc_local_amount command <> None -> rc_observed_amount command <> None ->
  correction_target L st command = Ok (q, c, accounts, current) -> 0 < units q -> on_grid delta q ->
  UNIT_BOUND <= Z.abs (match current with Some v => units v | None => 0 end + units delta) ->
  _derive_correction L st authorization command e n asha = Raise TypeError.
Proof.
  intros Hd Hl Ho Ht Hq Hg Hover. unfold _derive_correction. rewrite Hd, Ht.
  destruct (rc_local_amount command); [|done]. destruct (rc_observed_amount command); [|done].
  cbn [absent orb rbind]. destruct (require_quantized_ok delta q Hq) as [[-> _]|[_ ?]]; [|done].
  cbn [catch_economic rbind]. destruct (next_balance_cases current delta) as [(v & _ & Hv)|[-> _]]; [|done].
  pose proof (units_bound v). lia.
Qed.
End Theorems.

Section Instances.
Lemma balances_replay_journal_witness : reachable the_ledger the_state /\
  balance (st_cash the_state) usd
  = booked PORTFOLIO_CASH (CurrencyCommodity usd) (journal_postings (st_transactions the_state)).
Proof.
  split; [exact reachable_state|].
  exact (proj1 (balances_replay_journal the_ledger the_state reachable_state) usd).
Defined.

Lemma journal_conserves_witness : reachable the_ledger the_state /\
  posted (CurrencyCommodity usd) (journal_postings (st_transactions the_state)) = 0.
Proof.
  split; [exact reachable_state|].
  exact (proj2 (journal_conserves the_ledger the_state reachable_state) _).
Defined.

Lemma journal_is_chained_witness : reachable the_ledger the_state /\
  forall t, st_transactions the_state !! 0%nat = Some t -> tx_previous t = None.
Proof.
  split; [exact reachable_state|].
  exact (proj1 (proj2 (journal_is_chained the_ledger the_state reachable_state))).
Defined.

Lemma snapshot_projects_state_witness : reachable the_ledger the_state /\
  snapshot_version (st_snapshot the_state) = Z.of_nat (length (st_transactions the_state)).
Proof.
  split; [exact reachable_state|].
  exact (proj1 (snapshot_projects_state the_ledger the_state reachable_state)).
Defined.
Lemma fills_booked_once_witness : exists i j t u,
  st_transactions the_state !! i = Some (TxFill t) /\ st_transactions the_state !! j = Some (TxFill u) /\
  lt_fill_id t = lt_fill_id u /\ i = j.
Proof.
  destruct (books_fill_spec _ _ the_buy_booked) as (t & Ht & _).
  exists 1%nat, 1%nat, t, t. split_and!; [exact Ht|exact Ht|reflexivity|].
  exact (fills_booked_once the_ledger the_state 1 1 t t reachable_state Ht Ht (or_introl eq_refl)).
Defined.


Lemma apply_fill_settles_witness : exists o st' s fee,
  apply_fill the_ledger funded_state the_buy = (Ok o, st') /\ outcome_code o = LEDGER_APPLIED /\
  s ∈ specifications (l_spec_set the_ledger) /\ fill_fees the_buy = [fee].
Proof.
  destruct (applied_spec _ the_buy_applies) as (o & st' & Ha & Hc).
  destruct (apply_fill_settles the_ledger funded_state the_buy o st' funded_reachable the_buy_is_issued Ha Hc)
    as (s & settled & fee & Hin & _ & Hfee & _).
  exists o, st', s, fee. split; [exact Ha|]. split; [exact Hc|]. split; [exact Hin|exact Hfee].
Defined.

Lemma booked_fill_is_duplicate_witness : exists o,
  apply_fill the_ledger the_state the_buy = (Ok o, the_state) /\ outcome_code o = LEDGER_DUPLICATE.
Proof.
  destruct (books_fill_spec _ _ the_buy_booked) as (t & Ht & Hid & Hk & Hd).
  destruct (booked_fill_is_duplicate the_ledger the_state the_buy t reachable_state the_buy_is_issued the_buy_run
    (list_elem_of_lookup_2 _ _ _ Ht) Hid Hk Hd) as (o & Ha & Hc & _).
  exists o. split; [exact Ha|exact Hc].
Defined.

Lemma replays_are_classified_witness :
  match replay_class (fill_digest the_buy) (st_fill_index the_state !! fill_id the_buy)
          (st_fact_index the_state !! fill_fact_key the_buy) with
  | Some None => exists o, apply_fill the_ledger the_state the_buy = (Ok o, the_state) /\
                   outcome_code o = LEDGER_DUPLICATE
  | _ => True
  end.
Proof.
  pose proof (replays_are_classified the_ledger the_state the_buy reachable_state the_buy_is_issued the_buy_run) as Hc.
  destruct (replay_class _ _ _) as [[k|]|]; [exact I|exact Hc|exact I].
Defined.

Lemma no_adjustments a c : OpAdjust a c ∉ the_ops.
Proof.
  intros Hin. apply elem_of_cons in Hin as [Hin|Hin]; [discriminate|].
  apply elem_of_cons in Hin as [Hin|Hin]; [discriminate|].
  apply list_elem_of_singleton in Hin. discriminate.
Qed.

Lemma funded_cash_never_negative_witness :
  st_funding (run the_ledger empty_state the_ops) <> None /\
  0 <= balance (st_cash (run the_ledger empty_state the_ops)) usd.
Proof.
  split; [exact the_ops_funded|].
  exact (funded_cash_never_negative the_ledger empty_state the_ops empty_reachable empty_journal the_ops_wf
    no_adjustments the_ops_funded usd).
Defined.

Lemma operations_are_atomic_witness :
  apply_op the_ledger funded_state (OpFill the_buy) = funded_state \/
  exists t, st_transactions (apply_op the_ledger funded_state (OpFill the_buy))
            = st_transactions funded_state ++ [t].
Proof.
  destruct (operations_are_atomic the_ledger funded_state (OpFill the_buy) funded_reachable the_buy_is_issued)
    as [Hs|(t & Ht & _)]; [left; exact Hs|right; exists t; exact Ht].
Defined.

Lemma command_replays_its_outcome_witness : exists o st',
  apply_ledger_application_command the_ledger funded_state the_command the_buy = (Ok o, st') /\
  apply_ledger_application_command the_ledger (run the_ledger st' [OpFill the_sell]) the_command the_buy
  = (Ok o, run the_ledger st' [OpFill the_sell]).
Proof.
  destruct (applied_spec _ the_command_applies) as (o & st' & Ha & Hc).
  exists o, st'. split; [exact Ha|].
  refine (command_replays_its_outcome the_ledger funded_state the_command the_buy o st' [OpFill the_sell]
    funded_reachable the_buy_is_issued Ha Hc _).
  apply Forall_singleton. exact the_sell_is_issued.
Defined.

Lemma adjustments_booked_once_witness : exists t,
  st_transactions corrected_state !! 1%nat = Some (TxReconciliation t) /\ 1%nat = 1%nat.
Proof.
  destruct (is_adjustment_spec _ correction_booked) as (t & Ht). exists t. split; [exact Ht|].
  exact (adjustments_booked_once the_ledger corrected_state 1 1 t t corrected_reachable Ht Ht (or_introl eq_refl)).
Defined.

Lemma funded_first_and_once_witness :
  reachable the_ledger the_state /\
  (forall k t, st_transactions the_state !! k = Some (TxFunding t) -> k = 0%nat).
Proof.
  split; [exact reachable_state|].
  refine (proj1 (funded_first_and_once the_ledger the_state the_funding reachable_state _ _)).
  - reflexivity.
  - exact the_funding_run.
Defined.

(** A cash balance already at the largest decimal. *)
Definition largest : CanonicalDecimal := mkDecimal "99999999999999999999" 99999999999999999999 0 eq_refl.
Definition full_state : LedgerState :=
  let st := initial_state (st_snapshot empty_state) in
  {| st_cash := {[usd := largest]}; st_positions := st_positions st; st_rounding := st_rounding st;
     st_unresolved := st_unresolved st; st_fill_index := st_fill_index st; st_fact_index := st_fact_index st;
     st_entry_index := st_entry_index st; st_transactions := st_transactions st; st_funding := None;
     st_open_bindings := st_open_bindings st; st_open_refs := st_open_refs st;
     st_handoff_index := st_handoff_index st; st_authorization_index := st_authorization_index st;
     st_adjustment_index := st_adjustment_index st; st_observation_index := st_observation_index st;
     st_command_index := st_command_index st; st_adjustment_outcomes := st_adjustment_outcomes st;
     st_snapshot := st_snapshot st |}.

Lemma correction_overflow_escapes_witness :
  _derive_correction the_ledger full_state (audited_authorization (authorizing correct_cent the_digest))
    (the_correction full_state largest hundred_thousand largest) (entry the_ledger 1) 0 the_digest
  = Raise TypeError.
Proof.
  refine (correction_overflow_escapes the_ledger full_state _ _ _ _ _ cent (CurrencyCommodity usd)
    (PORTFOLIO_CASH, EXTERNAL_SETTLEMENT) (Some largest) largest _ _ _ _ _ _ _).
  - reflexivity.
  - discriminate.
  - discriminate.
  - unfold correction_target. rewrite the_ledger_set. reflexivity.
  - reflexivity.
  - exists 9999999999999999999900. reflexivity.
  - vm_compute. discriminate.
Defined.
End Instances.
