(* ===== verification/ReconciliationSpec.v ===== *)
(** Reconciliation, the values: the size of a canonical payload against its byte bound,
    exact subtraction of decimals, and the comparison of an observation with a ledger, which
    finds exactly the differences. *)

From S2P Require Import Prelude PyRegex PyText Outcomes Json Identity Economics Commission Execution Messages Orders.
From S2P Require Import Portfolio Reconciliation Observation Integration Ledger Adjustment ReconciliationAuthority.
From S2P Require Import LedgerLemmas LedgerSpec LedgerInvariant LedgerReach.

Open Scope Z_scope.

(** ** The size of a payload *)

(** An upper bound of the encoded length: every character escaped. *)
Definition string_width (s : string) : Z := 6 * Z.of_nat (length (chars s)) + 2.
Definition total (l : list Z) : Z := foldr Z.add 0 l.
Fixpoint json_width (v : json) : Z :=
  match v with
  | JNull => 4
  | JBool _ => 5
  | JStr s => string_width s
  | JInt n => Z.of_nat (length (str_int n))
  | JList l => 2 + total (map (fun w => 1 + json_width w) l)
  | JDict kvs => 2 + total (map (fun kv : string * json => 2 + string_width kv.1 + json_width kv.2) kvs)
  end.

Lemma total_perm l l' : l ≡ₚ l' -> total l = total l'.
Proof. unfold total. induction 1; simpl; lia. Qed.

Lemma encode_str_width s : Z.of_nat (length (encode_str s)) <= string_width s.
Proof.
  unfold encode_str, string_width. cbn [length]. rewrite length_app. cbn [length].
  enough (length (concat (map escape_char (chars s))) <= 6 * length (chars s))%nat by lia.
  induction (chars s) as [|c r IH]; [simpl; lia|]. cbn [map concat length]. rewrite length_app.
  enough (length (escape_char c) <= 6)%nat by lia.
  unfold escape_char. repeat case_match; simpl; lia.
Qed.

Lemma join_width (l : list str) :
  Z.of_nat (length (join [","%char] l)) <= total (map (fun s => 1 + Z.of_nat (length s)) l).
Proof.
  unfold total. induction l as [|s [|t l] IH]; [simpl; lia|simpl; lia|].
  change (join [","%char] (s :: t :: l)) with (s ++ [","%char] ++ join [","%char] (t :: l)).
  rewrite !length_app. cbn [map foldr length] in *. lia.
Qed.

Lemma total_le {A} (f g : A -> Z) l : Forall (fun x => f x <= g x) l -> total (map f l) <= total (map g l).
Proof. unfold total. induction 1; simpl; lia. Qed.

Lemma encode_json_width v : Z.of_nat (length (encode_json v)) <= json_width v.
Proof.
  induction v as [|[]|s|n|l IH|kvs IH] using json_ind'; [done|simpl; lia..| | | |].
  - apply encode_str_width.
  - rewrite encode_json_int, decimal_integer_bytes_str_int. reflexivity.
  - change (encode_json (JList l)) with ("["%char :: join [","%char] (map encode_json l) ++ ["]"%char]).
    cbn [json_width length]. rewrite length_app. cbn [length].
    pose proof (join_width (map encode_json l)) as Hj. rewrite List.map_map in Hj.
    assert (total (map (fun x => 1 + Z.of_nat (length (encode_json x))) l) <= total (map (fun w => 1 + json_width w) l)).
    { apply total_le. eapply Forall_impl; [exact IH|]. simpl. intros x Hx. lia. }
    lia.
  - set (entries := map (fun kv => (kv.1, encode_json kv.2)) kvs).
    change (encode_json (JDict kvs)) with ("{"%char ::
      join [","%char] (map (fun kb : string * str => encode_str kb.1 ++ ":"%char :: kb.2) (py_sorted fst entries)) ++ ["}"%char]).
    cbn [json_width length]. rewrite length_app. cbn [length].
    pose proof (join_width (map (fun kb : string * str => encode_str kb.1 ++ ":"%char :: kb.2) (py_sorted fst entries))) as Hj.
    rewrite List.map_map in Hj.
    rewrite (total_perm _ (map (fun kb : string * str => 1 + Z.of_nat (length (encode_str kb.1 ++ ":"%char :: kb.2))) entries)) in Hj
      by (apply Permutation_map, py_sorted_perm).
    subst entries. rewrite List.map_map in Hj.
    assert (total (map (fun kv : string * json => 1 + Z.of_nat (length (encode_str kv.1 ++ ":"%char :: encode_json kv.2))) kvs)
      <= total (map (fun kv : string * json => 2 + string_width kv.1 + json_width kv.2) kvs)).
    { apply total_le. eapply Forall_impl; [exact IH|]. intros x Hx. cbv beta in Hx |- *. rewrite length_app. cbn [length].
      pose proof (encode_str_width x.1). lia. }
    cbv beta in *. cbn [fst snd] in Hj. lia.
Qed.

(** The longest match of a pattern without repetition. *)
Fixpoint longest (r : regex) : option nat :=
  match r with
  | Void | Eps => Some 0%nat
  | Cls _ => Some 1%nat
  | Cat r1 r2 => match longest r1, longest r2 with Some a, Some b => Some (a + b)%nat | _, _ => None end
  | Alt r1 r2 => match longest r1, longest r2 with Some a, Some b => Some (Nat.max a b) | _, _ => None end
  | Star _ => None
  end.
Lemma matches_longest r s n : matches r s -> longest r = Some n -> (length s <= n)%nat.
Proof.
  intros Hm. revert n. induction Hm; intros n Hn; simpl in *; try (injection Hn as <-; simpl; lia); try done.
  - destruct (longest r1), (longest r2); try done. injection Hn as <-. rewrite length_app.
    specialize (IHHm1 _ eq_refl). specialize (IHHm2 _ eq_refl). lia.
  - destruct (longest r1), (longest r2); try done. injection Hn as <-. specialize (IHHm _ eq_refl). lia.
  - destruct (longest r1), (longest r2); try done. injection Hn as <-. specialize (IHHm _ eq_refl). lia.
Qed.

Lemma pattern_width {r} (p : PatternStr r) n : longest r = Some n -> string_width (value p) <= 6 * Z.of_nat n + 2.
Proof.
  intros Hn. unfold string_width.
  pose proof (matches_longest r (chars (value p)) n (proj1 (fullmatch_spec _ _) (value_ok p)) Hn). lia.
Qed.
Lemma digest_width (d : Sha256Digest) : string_width (value d) <= 386.
Proof. by apply (pattern_width d 64). Qed.
Lemma run_width (r : RunId) : string_width (value r) <= 218.
Proof. by apply (pattern_width r 36). Qed.
Lemma token_width (t : PatternStr _TOKEN_PATTERN) : string_width (value t) <= 770.
Proof. by apply (pattern_width t 128). Qed.
Lemma spec_id_width (t : PatternStr _SPEC_ID_PATTERN) : string_width (value t) <= 770.
Proof. by apply (pattern_width t 128). Qed.
Lemma currency_width (c : SettlementCurrency) : string_width (value c) <= 74.
Proof. by apply (pattern_width c 12). Qed.
Lemma venue_width (v : VenueId) : string_width (value v) <= 194.
Proof. by apply (pattern_width v 32). Qed.
Lemma symbol_width (s : Symbol) : string_width (value s) <= 386.
Proof. by apply (pattern_width s 64). Qed.

Lemma uint64_width n : 0 <= n <= MAX_UINT64 -> json_width (JInt n) <= 20.
Proof.
  intros Hn. simpl. unfold str_int. rewrite (proj2 (Z.ltb_ge n 0)) by lia.
  apply length_digits_le; [lia|lia|]. unfold MAX_UINT64 in Hn. lia.
Qed.

Lemma partition_dot_length s : (length s <= length (partition_dot s).1.1 + 1 + length (partition_dot s).2)%nat.
Proof.
  induction s as [|c s IH]; simpl; [lia|]. case_match; simpl; [lia|].
  destruct (partition_dot s) as [[a b] d]; simpl in *. lia.
Qed.
Lemma partition_dot_absent s : (partition_dot s).1.2 = false -> (partition_dot s).2 = [].
Proof.
  induction s as [|c s IH]; simpl; [done|]. case_match; simpl; [done|].
  destruct (partition_dot s) as [[a b] d]; simpl in *. done.
Qed.
Lemma decimal_width (d : CanonicalDecimal) : string_width (text d) <= 242.
Proof.
  destruct d as [t c s Ht]. simpl. unfold string_width. unfold decimal_post_init in Ht. cbv zeta in Ht.
  pose proof (partition_dot_length (removeprefix_minus (chars t))) as Hl.
  destruct (fullmatch _ _) in Ht; [done|]. destruct (negb _) in Ht; [done|].
  pose proof (partition_dot_absent (removeprefix_minus (chars t))) as Ha.
  destruct (partition_dot _) as [[i b] f]. simpl in Hl, Ha.
  match type of Ht with (if ?x then _ else _) = _ => destruct x eqn:Hx; [done|] end. clear Ht.
  apply orb_false_iff in Hx as [[_ Hi%Z.ltb_ge]%orb_false_iff Hf%Z.ltb_ge].
  unfold MAX_INTEGER_DIGITS, MAX_FRACTIONAL_DIGITS in *.
  assert (length (chars t) <= S (length (removeprefix_minus (chars t))))%nat.
  { unfold removeprefix_minus. destruct (chars t) as [|x r]; [simpl; lia|]. destruct (is_char _ _); simpl; lia. }
  destruct b; [lia|]. rewrite Ha in Hl by done. simpl in Hl. lia.
Qed.

Lemma zero_pad_width w n : (0 < w)%nat -> 0 <= n < 10 ^ Z.of_nat w -> length (zero_pad w (digits n)) = w.
Proof. intros Hw Hn. by apply zero_pad_digits. Qed.
Lemma utc_width (t : datetime) : string_width (utc_text t) <= 164.
Proof.
  unfold string_width, utc_text. rewrite chars_text_of.
  destruct (datetime_ranges t) as (? & ? & ? & ? & ? & ? & ?).
  repeat (rewrite length_app; cbn [length]). rewrite !zero_pad_width by (lia || assumption). lia.
Qed.

(** ** The documents of the adjustments *)

(** Evaluate the widths of the literal strings of a document. *)
Ltac literal_widths :=
  repeat match goal with
  | |- context [string_width (String ?c ?r)] =>
      let n := eval vm_compute in (string_width (String c r)) in
      change (string_width (String c r)) with n
  end.
Ltac open_widths := cbn [json_width total map foldr fst snd]; literal_widths.

Lemma optional_width {A} (f : A -> json) (x : option A) n :
  (forall a, json_width (f a) <= n) -> 4 <= n -> json_width (optional_document f x) <= n.
Proof. intros Hf Hn. by destruct x; [apply Hf|]. Qed.

Definition uint64 (n : Z) : Prop := 0 <= n <= MAX_UINT64.

Lemma economic_id_width i : uint64 (owner_sequence i) -> json_width (_economic_id_document i) <= 700.
Proof.
  intros Hi. unfold _economic_id_document. pose proof (uint64_width _ Hi). pose proof (run_width (id_run_id i)).
  assert (string_width (owner_kind_value (owner_kind i)) <= 200) by (destruct (owner_kind i); vm_compute; congruence).
  open_widths. cbn [json_width] in *. lia.
Qed.
Lemma instrument_width i : json_width (_instrument_document i) <= 660.
Proof.
  unfold _instrument_document. pose proof (venue_width (venue i)). pose proof (symbol_width (symbol i)). open_widths. lia.
Qed.
Lemma posting_width p : json_width (_posting_document p) <= 1500.
Proof.
  unfold _posting_document. pose proof (decimal_width (posting_amount p)).
  assert (string_width (account_value (account p)) <= 200) by (destruct (account p); vm_compute; congruence).
  assert (json_width (_commodity_document (commodity p)) <= 850).
  { unfold _commodity_document. destruct (commodity p) as [i|c].
    - pose proof (instrument_width i). open_widths. lia.
    - pose proof (currency_width c). open_widths. lia. }
  open_widths. lia.
Qed.

Section Payloads.
Context `{Sha256}.

(** A payload below the bound is never refused. *)
Lemma bounded_payload_fits v : json_width v <= MAX_RECONCILIATION_PAYLOAD_BYTES ->
  bounded_payload (encode_json v) = Ok (encode_json v).
Proof.
  intros Hv. pose proof (encode_json_width v). unfold bounded_payload. by rewrite (proj2 (Z.ltb_ge _ _)) by lia.
Qed.

Lemma optional_text_width {r} (p : option (PatternStr r)) n : longest r = Some n ->
  json_width (optional_text_document p) <= Z.max 4 (6 * Z.of_nat n + 2).
Proof.
  intros Hn. apply optional_width; [|lia]. intros a. simpl. pose proof (pattern_width a n Hn). lia.
Qed.
Lemma optional_decimal_width d : json_width (optional_decimal_document d) <= 242.
Proof. apply optional_width; [|lia]. intros a. apply (decimal_width a). Qed.

Lemma reconciliation_transaction_fits t :
  uint64 (owner_sequence (rt_adjustment_id t)) -> uint64 (owner_sequence (rt_entry_id t)) ->
  uint64 (rt_ledger_sequence t) -> (length (rt_postings t) <= 2)%nat -> rt_open_reconciliation_ref t = None ->
  is_ok (canonical_reconciliation_transaction_bytes t) = true.
Proof.
  intros Ha He Hs Hp Hr. unfold canonical_reconciliation_transaction_bytes. rewrite bounded_payload_fits; [done|].
  unfold MAX_RECONCILIATION_PAYLOAD_BYTES. rewrite Hr. cbn [optional_document].
  pose proof (economic_id_width _ Ha). pose proof (economic_id_width _ He). pose proof (uint64_width _ Hs) as Hseq.
  pose proof (digest_width (rt_adjustment_command_sha256 t)). pose proof (digest_width (rt_authorization_sha256 t)).
  pose proof (digest_width (rt_reconciliation_outcome_sha256 t)). pose proof (digest_width (rt_spec_set_sha256 t)).
  pose proof (spec_id_width (rt_spec_set_id t)). pose proof (run_width (rt_run_id t)).
  pose proof (utc_width (rt_occurred_at t)). pose proof (utc_width (rt_available_at t)).
  pose proof (optional_text_width (rt_currency t) 12 eq_refl).
  pose proof (optional_text_width (rt_previous_transaction_sha256 t) 64 eq_refl).
  pose proof (optional_decimal_width (rt_delta t)). pose proof (optional_decimal_width (rt_local_amount t)).
  pose proof (optional_decimal_width (rt_observed_amount t)).
  pose proof (optional_width _ (rt_instrument t) 660 instrument_width ltac:(lia)).
  assert (string_width (target_value (rt_target_kind t)) <= 200) by (destruct (rt_target_kind t); vm_compute; congruence).
  assert (string_width (variant_value (rt_variant t)) <= 200) by (destruct (rt_variant t); vm_compute; congruence).
  assert (total (map (fun w => 1 + json_width w) (map _posting_document (rt_postings t))) <= 3002).
  { destruct (rt_postings t) as [|p [|q [|]]]; [done|..|simpl in Hp; lia]; cbn [map total foldr];
      pose proof (posting_width p); [lia|]. pose proof (posting_width q). lia. }
  open_widths. cbn [json_width] in Hseq. lia.
Qed.

Lemma adjustment_outcome_fits o :
  uint64 (owner_sequence (ao_adjustment_id o)) ->
  (forall i, ao_original_transaction_id o = Some i -> uint64 (owner_sequence i)) ->
  is_ok (canonical_reconciliation_adjustment_outcome_bytes o) = true.
Proof.
  intros Ha Hi. unfold canonical_reconciliation_adjustment_outcome_bytes. rewrite bounded_payload_fits; [done|].
  unfold MAX_RECONCILIATION_PAYLOAD_BYTES. pose proof (economic_id_width _ Ha).
  pose proof (digest_width (ao_adjustment_command_sha256 o)). pose proof (digest_width (ao_after_snapshot_sha256 o)).
  pose proof (digest_width (ao_authorization_sha256 o)). pose proof (digest_width (ao_before_snapshot_sha256 o)).
  pose proof (digest_width (ao_observation_sha256 o)). pose proof (digest_width (ao_reconciliation_outcome_sha256 o)).
  pose proof (run_width (ao_run_id o)). pose proof (optional_text_width (ao_original_transaction_sha256 o) 64 eq_refl).
  assert (json_width (_optional_id_document (ao_original_transaction_id o)) <= 700).
  { destruct (ao_original_transaction_id o); [by apply economic_id_width, Hi|]. simpl. lia. }
  assert (json_width (optional_document (fun k => JStr (adjustment_conflict_value k)) (ao_conflict_kind o)) <= 200)
    by (apply optional_width; [intros []; vm_compute; congruence|lia]).
  assert (json_width (optional_document (fun k => JStr (failure_value k)) (ao_failure_kind o)) <= 200)
    by (apply optional_width; [intros []; vm_compute; congruence|lia]).
  assert (string_width (result_value (ao_result o)) <= 200) by (destruct (ao_result o); vm_compute; congruence).
  open_widths. lia.
Qed.
End Payloads.

(** ** Exact subtraction: stripping characters prints what normalising the number prints *)

Lemma lstrip_zeros n s : lstrip "0" (zeros n ++ s) = lstrip "0" s.
Proof. induction n as [|n IH]; [done|]. exact IH. Qed.
Lemma rev_zeros n : rev (zeros n) = zeros n.
Proof. apply List.rev_repeat. Qed.
Lemma rstrip_zeros s n : rstrip "0" (s ++ zeros n) = rstrip "0" s.
Proof. unfold rstrip. by rewrite rev_app_distr, rev_zeros, lstrip_zeros. Qed.
Lemma rstrip_snoc c d s : Ascii.eqb d c = false -> rstrip c (s ++ [d]) = s ++ [d].
Proof. intros Hd. unfold rstrip. rewrite rev_app_distr. simpl. rewrite Hd. simpl. by rewrite rev_involutive. Qed.

Lemma digits_times_pow n k : 0 < n -> digits (n * 10 ^ Z.of_nat k) = digits n ++ zeros k.
Proof.
  intros Hn. pose proof (pow10_gt0 (Z.of_nat k) ltac:(lia)).
  assert (int_of (digits n ++ zeros k) = n * 10 ^ Z.of_nat k) as Hi
    by (rewrite int_of_app, int_of_digits, int_of_zeros, length_zeros by lia; lia).
  rewrite <-Hi. apply digits_int_of.
  - apply all_digits_app. split; [apply digits_digits; lia|apply all_digits_zeros].
  - apply no_leading_zero_app; [apply digits_no_leading_zero; lia|].
    intros H0. pose proof (int_of_digits n ltac:(lia)) as Hd. rewrite H0 in Hd. vm_compute in Hd. lia.
Qed.

Lemma zero_pad_times_pow n k s : 0 < n -> (k <= s)%nat ->
  zero_pad (S s) (digits (n * 10 ^ Z.of_nat k)) = zero_pad (S (s - k)) (digits n) ++ zeros k.
Proof.
  intros Hn Hk. rewrite digits_times_pow by done. unfold zero_pad. rewrite length_app, length_zeros, app_assoc.
  do 3 f_equal. lia.
Qed.

Lemma last_digit n : 0 < n -> exists s d, digits n = s ++ [d] /\ is_digit d = true /\ dval d = n mod 10.
Proof.
  intros Hn. pose proof (digits_digits n ltac:(lia)) as Hd. pose proof (int_of_digits n ltac:(lia)) as Hi.
  destruct (digits n) as [|d s _] using rev_ind; [by vm_compute in Hi; lia|].
  apply all_digits_snoc in Hd as [Hs Hd]. exists s, d. split_and!; [done..|].
  pose proof (is_digit_dval d Hd). rewrite int_of_snoc in Hi. rewrite <-Hi, Z.add_comm, Z.mul_comm, Z.mod_add by lia.
  by rewrite Z.mod_small by lia.
Qed.

(** The fraction of a padded number whose last digit is not zero survives the stripping. *)
Lemma stripped_fraction n s : 0 < n -> (0 < s)%nat -> n mod 10 <> 0 ->
  let D := zero_pad (S s) (digits n) in
  let t := take (length D - s) D ++ "."%char :: drop (length D - s) D in
  rstrip "." (rstrip "0" t) = t.
Proof.
  intros Hn Hs Hm D t. destruct (last_digit n Hn) as (r & d & Hd & Hdig & Hv).
  assert (S s <= length D)%nat as Hl by (unfold D, zero_pad; rewrite length_app, length_zeros; lia).
  assert (exists r', D = r' ++ [d]) as (r' & HD).
  { unfold D, zero_pad. rewrite Hd, app_assoc. by eexists. }
  assert (t = (take (length D - s) D ++ "."%char :: drop (length D - s) r') ++ [d]) as ->.
  { unfold t. rewrite HD at 4. rewrite drop_app_le; [by rewrite <-app_assoc|].
    rewrite HD, length_app in Hl |- *. simpl in *. lia. }
  assert (Ascii.eqb d "0" = false /\ Ascii.eqb d "." = false) as [H0 Hdot].
  { split; apply Ascii.eqb_neq; intros ->; [by rewrite <-Hv in Hm|done]. }
  by rewrite !rstrip_snoc.
Qed.

Lemma digits_not_zero n : 0 < n -> digits n <> ["0"%char].
Proof. intros Hn H0. pose proof (int_of_digits n ltac:(lia)) as Hd. rewrite H0 in Hd. vm_compute in Hd. lia. Qed.
Lemma zero_pad_one n : 0 < n -> zero_pad 1 (digits n) = digits n.
Proof.
  intros Hn. unfold zero_pad. destruct (digits n) as [|d r] eqn:Hd; [by apply digits_nonempty in Hd; [|lia]|done].
Qed.
(** A whole number loses its zeros and its point. *)
Lemma stripped_whole n k : 0 < n -> rstrip "." (rstrip "0" (digits n ++ "."%char :: zeros k)) = digits n.
Proof.
  intros Hn. change ("."%char :: zeros k) with (["."%char] ++ zeros k). rewrite app_assoc, rstrip_zeros, rstrip_snoc by done.
  destruct (last_digit n Hn) as (r & d & -> & Hdig & _).
  assert (rstrip "." ((r ++ [d]) ++ ["."%char]) = rstrip "." (r ++ [d])) as ->
    by (unfold rstrip; by rewrite (rev_app_distr (r ++ [d]))).
  apply rstrip_snoc, Ascii.eqb_neq. by intros ->.
Qed.

Lemma scaled_decimal_text_normal c s : c <> 0 -> 0 <= s -> (0 < s -> c mod 10 <> 0) ->
  forall k, _scaled_decimal_text (c * 10 ^ Z.of_nat k) (s + Z.of_nat k) = _scaled_text c s.
Proof.
  intros Hc Hs Hm k. pose proof (pow10_gt0 (Z.of_nat k) ltac:(lia)) as Hp.
  assert (_normalize_scaled c s = (c, s)) as Hn.
  { unfold _normalize_scaled. rewrite (proj2 (Z.eqb_neq c 0) Hc).
    destruct (Z.to_nat s) as [|f] eqn:Hf; [done|]. simpl.
    rewrite (proj2 (Z.ltb_lt 0 s)) by lia. by rewrite (proj2 (Z.eqb_neq (c mod 10) 0)) by (apply Hm; lia). }
  unfold _scaled_text. rewrite Hn, (proj2 (Z.eqb_neq c 0) Hc).
  unfold _scaled_decimal_text. rewrite (proj2 (Z.eqb_neq _ 0)) by nia.
  replace (c * 10 ^ Z.of_nat k <? 0) with (c <? 0) by (destruct (Z.ltb_spec c 0), (Z.ltb_spec (c * 10 ^ Z.of_nat k) 0); nia).
  rewrite Z.abs_mul, (Z.abs_eq (10 ^ Z.of_nat k)) by lia.
  replace (Z.to_nat (s + Z.of_nat k + 1)) with (S (Z.to_nat s + k)) by lia.
  rewrite zero_pad_times_pow by lia. replace (Z.to_nat s + k - k)%nat with (Z.to_nat s) by lia.
  set (n := Z.abs c). assert (0 < n) as Hn0 by lia.
  destruct (Z.eqb_spec s 0) as [->|Hs0].
  { change (Z.to_nat 0) with 0%nat. rewrite zero_pad_one by done. rewrite Z.add_0_l.
    assert (forall t, t = digits n -> (if bool_decide (t = ["0"%char]) then "0"%string
      else text_of ((if c <? 0 then ["-"%char] else []) ++ t)) = text_of ((if c <? 0 then ["-"%char] else []) ++ digits n)) as Ht
      by (intros t ->; by rewrite bool_decide_eq_false_2 by by apply digits_not_zero).
    destruct k as [|k]; [apply Ht; by rewrite app_nil_r|]. rewrite (proj2 (Z.eqb_neq _ 0)) by lia. apply Ht.
    rewrite Nat2Z.id, length_app, length_zeros, Nat.add_sub.
    rewrite take_app_length, drop_app_length. by apply stripped_whole. }
  rewrite (proj2 (Z.eqb_neq _ 0)) by lia.
  assert ((if Z.of_nat (length (digits n)) <=? s then zeros (Z.to_nat (s + 1 - Z.of_nat (length (digits n)))) ++ digits n
           else digits n) = zero_pad (S (Z.to_nat s)) (digits n)) as ->.
  { unfold zero_pad. destruct (Z.leb_spec (Z.of_nat (length (digits n))) s).
    - do 2 f_equal. lia.
    - by replace (S (Z.to_nat s) - length (digits n))%nat with 0%nat by lia. }
  set (D := zero_pad (S (Z.to_nat s)) (digits n)).
  assert (S (Z.to_nat s) <= length D)%nat as Hl by (unfold D, zero_pad; rewrite length_app, length_zeros; lia).
  rewrite length_app, length_zeros.
  replace (length D + k - Z.to_nat (s + Z.of_nat k))%nat with (length D - Z.to_nat s)%nat by lia.
  rewrite take_app_le, drop_app_le by lia.
  change ("."%char :: drop (length D - Z.to_nat s) D ++ zeros k) with (("."%char :: drop (length D - Z.to_nat s) D) ++ zeros k).
  rewrite app_assoc, rstrip_zeros. unfold D. rewrite stripped_fraction; [|lia..|]. 2:{ specialize (Hm ltac:(lia)). unfold n.
    destruct (Z.abs_spec c) as [[_ ->]|[_ ->]]; [done|]. Z.to_euclidean_division_equations; lia. }
  rewrite bool_decide_eq_false_2; [done|]. intros H0. apply (f_equal length) in H0.
  rewrite length_app, length_take in H0. cbn [length] in H0. rewrite length_drop in H0. fold D in H0. lia.
Qed.

(** Both printers print the same number. *)
Lemma scaled_decimal_text_eq c s : 0 <= s -> _scaled_decimal_text c s = _scaled_text c s.
Proof.
  intros Hs. rewrite scaled_text_normalized by done. pose proof (normalize_scaled_spec c s Hs) as Hn.
  destruct (_normalize_scaled c s) as [c' s'] eqn:En. destruct Hn as (Hs' & Hc & Hc0 & Heq & Hm).
  destruct (decide (c = 0)) as [->|Hne]; [rewrite (proj2 Hc eq_refl), (Hc0 eq_refl); reflexivity|].
  rewrite <-(scaled_decimal_text_normal c' s' ltac:(tauto) ltac:(lia) Hm (Z.to_nat (s - s'))).
  rewrite Z2Nat.id by lia. rewrite <-Heq. f_equal. lia.
Qed.

Lemma subtract_decimal_units a b :
  (exists d, _subtract_decimal a b = Ok d /\ units d = units a - units b) \/
  (_subtract_decimal a b = Raise (ReconciliationContractError OUT_OF_RANGE) /\ UNIT_BOUND <= Z.abs (units a - units b)).
Proof.
  unfold _subtract_decimal. set (t := Z.max (scale a) (scale b)). set (c := _ - _).
  destruct (decimal_bounds a) as [Ha _], (decimal_bounds b) as [Hb _].
  assert (c * 10 ^ (18 - t) = units a - units b) as Hc.
  { unfold c. rewrite <-(coefficient_at a t), <-(coefficient_at b t) by lia. ring. }
  assert (10 ^ t * 10 ^ (18 - t) = 10 ^ 18) as Hp by (rewrite <-pow10_add by lia; f_equal; lia).
  assert (c * 10 ^ 18 = (units a - units b) * 10 ^ t) as Heq by (rewrite <-Hc, <-Hp; ring).
  pose proof (pow10_gt0 t ltac:(lia)). rewrite scaled_decimal_text_eq by lia.
  destruct (scaled_text_spec c t ltac:(lia)) as [(d & -> & Hd)|[-> Hno]]; [left|right].
  - exists d. split; [done|]. nia.
  - split; [done|]. destruct (Z_lt_le_dec (Z.abs (units a - units b)) UNIT_BOUND) as [Hlt|]; [|done].
    by destruct (Hno _ Hlt).
Qed.

(** ** Balances of a ledger and of an observation *)

(** The ledger's balance of a commodity, in units. *)
Definition ledger_balance (st : LedgerState) (c : LedgerCommodity) : Z :=
  match c with
  | InstrumentCommodity i => balance (st_positions st) i
  | CurrencyCommodity c => balance (st_cash st) c
  end.
(** The observation says the broker's balance of the commodity is [v]. *)
Definition reports (o : ReconciliationObservation) (c : LedgerCommodity) (v : CanonicalDecimal) : Prop :=
  match c with
  | InstrumentCommodity i => PositionReconciliationBalance i v ∈ ob_balances o
  | CurrencyCommodity c => CashReconciliationBalance c v ∈ ob_balances o
  end.
(** The kind of observation that reports the commodity. *)
Definition snapshot_kind (c : LedgerCommodity) : ReconciliationObservationKind :=
  match c with InstrumentCommodity _ => POSITION_SNAPSHOT | CurrencyCommodity _ => CASH_SNAPSHOT end.
Definition discrepancy_at (c : LedgerCommodity) (local observed delta : CanonicalDecimal) : ReconciliationDiscrepancy :=
  match c with
  | InstrumentCommodity i => PositionReconciliationDiscrepancy i local observed delta
  | CurrencyCommodity c => CashReconciliationDiscrepancy c local observed delta
  end.


Definition amount_of {K} `{Countable K} (m : gmap K CanonicalDecimal) (k : K) : CanonicalDecimal := default CANONICAL_0 (m !! k).
Lemma units_amount_of {K} `{Countable K} (m : gmap K CanonicalDecimal) k : units (amount_of m k) = balance m k.
Proof. unfold amount_of, balance. by destruct (m !! k). Qed.

Definition local_amount (st : LedgerState) (c : LedgerCommodity) : CanonicalDecimal :=
  match c with
  | InstrumentCommodity i => amount_of (st_positions st) i
  | CurrencyCommodity c => amount_of (st_cash st) c
  end.
Lemma units_local_amount st c : units (local_amount st c) = ledger_balance st c.
Proof. destruct c; apply units_amount_of. Qed.

(** ** The loop over the targets *)

(** The factory of a commodity's discrepancies. *)
Definition create_discrepancy_of (ss : InstrumentExecutionSpecSet) (c : LedgerCommodity)
  : CanonicalDecimal -> CanonicalDecimal -> res ReconciliationDiscrepancy :=
  match c with
  | InstrumentCommodity i => create_position_reconciliation_discrepancy ss i
  | CurrencyCommodity c => create_cash_reconciliation_discrepancy ss c
  end.

(** What a discrepancy factory does for two amounts of its grid. *)
Definition creates {K} (create : K -> CanonicalDecimal -> CanonicalDecimal -> res ReconciliationDiscrepancy)
  (make : K -> CanonicalDecimal -> CanonicalDecimal -> CanonicalDecimal -> ReconciliationDiscrepancy) (k : K) (l v : CanonicalDecimal) : Prop :=
  (exists d, create k l v = Ok (make k l v d) /\ units d = units v - units l) \/
  (create k l v = Raise (ReconciliationContractError OUT_OF_RANGE) /\ UNIT_BOUND <= Z.abs (units v - units l)).

Section Loop.
Context {K : Type} `{Countable K}.
Context (create : K -> CanonicalDecimal -> CanonicalDecimal -> res ReconciliationDiscrepancy).
Context (make : K -> CanonicalDecimal -> CanonicalDecimal -> CanonicalDecimal -> ReconciliationDiscrepancy).
Context (local observed : gmap K CanonicalDecimal).

Definition differs (k : K) : Prop := balance local k <> balance observed k.
#[export] Instance differs_dec k : Decision (differs k).
Proof. unfold differs. apply _. Defined.
Definition discrepancy_row (k : K) (x : ReconciliationDiscrepancy) : Prop :=
  exists d, x = make k (amount_of local k) (amount_of observed k) d /\ units d = balance observed k - balance local k.

(** The loop gives one row per target whose balances differ, in the order of the targets. *)
Lemma discrepancies_of_rows targets :
  (forall k, k ∈ targets -> differs k -> creates create make k (amount_of local k) (amount_of observed k)) ->
  (exists ds, discrepancies_of create local observed targets = Ok ds /\
     Forall2 discrepancy_row (filter differs targets) ds) \/
  (discrepancies_of create local observed targets = Raise (ReconciliationContractError OUT_OF_RANGE) /\
     exists k, k ∈ targets /\ UNIT_BOUND <= Z.abs (balance observed k - balance local k)).
Proof.
  induction targets as [|k targets IH]; intros Hc; [left; exists []; split; [done|constructor]|].
  cbn [discrepancies_of]. fold (amount_of local k). fold (amount_of observed k). rewrite filter_cons.
  destruct IH as [(ds & Hds & Hrows)|[Hds (k' & Hk' & Hb)]]; [by intros k' Hk'; apply Hc; right| |].
  - assert (units (amount_of local k) = balance local k) as Hl by apply units_amount_of.
    assert (units (amount_of observed k) = balance observed k) as Ho by apply units_amount_of.
    case_bool_decide as Heq.
    + rewrite decide_False by (unfold differs; rewrite <-Hl, <-Ho, Heq; tauto). left. by exists ds.
    + assert (differs k) as Hd by (unfold differs; rewrite <-Hl, <-Ho; by intros ?%units_inj).
      rewrite decide_True by done.
      destruct (Hc k ltac:(left) Hd) as [(d & -> & Hu)|[-> Hb]]; cbn [rbind].
      * rewrite Hds. cbn [rbind]. left. eexists. split; [done|]. constructor; [|done]. exists d. split; [done|lia].
      * right. split; [done|]. exists k. split; [left|lia].
  - right. split.
    + case_bool_decide as Heq; [done|].
      destruct (Hc k ltac:(left)) as [(d & -> & _)|[-> _]]; [|cbn [rbind]; by rewrite Hds|done].
      unfold differs. rewrite <-!units_amount_of. by intros ?%units_inj.
    + exists k'. split; [by right|done].
Qed.
End Loop.

(** ** The dictionaries that are compared *)

Lemma foldl_insert_lookup {K A B} `{Countable K} (f : B -> K) (g : B -> A) (l : list B) m k a : NoDup (f <$> l) ->
  foldl (fun m b => <[f b := g b]> m) m l !! k = Some a <->
  (exists b, b ∈ l /\ f b = k /\ g b = a) \/ (k ∉ f <$> l /\ (m : gmap K A) !! k = Some a).
Proof.
  revert m; induction l as [|b l IH]; intros m Hnd; simpl.
  { split; [intros Hm; right; split; [apply not_elem_of_nil|done]|]. by intros [(b & ?%not_elem_of_nil & _)|[_ ?]]. }
  apply NoDup_cons in Hnd as [Hb Hnd]. rewrite IH by done. rewrite not_elem_of_cons. split.
  - intros [(b' & ? & ? & ?)|[Hk Hm]].
    + left. exists b'. split; [by right|done].
    + apply lookup_insert_Some in Hm as [[<- <-]|[Hne Hm]]; [left; exists b; split; [left|done]|]. right. done.
  - intros [(b' & [->|Hb']%elem_of_cons & <- & <-)|[[Hne Hk] Hm]].
    + right. split; [done|]. apply lookup_insert_eq.
    + left. by exists b'.
    + right. split; [done|]. by rewrite lookup_insert_ne.
Qed.

(** The dictionary built back from the sorted items of a map is the map. *)
Lemma foldl_insert_sorted {K A B S} `{Countable K, PyOrd S} (key : K -> S) (m : gmap K A) (mk : K * A -> B)
  (f : B -> K) (g : B -> A) : (forall kv, f (mk kv) = kv.1) -> (forall kv, g (mk kv) = kv.2) ->
  foldl (fun m b => <[f b := g b]> m) ∅ (map mk (sorted_items key m)) = m.
Proof.
  intros Hf Hg. apply map_eq. intros k. apply option_eq. intros a.
  assert (f <$> map mk (sorted_items key m) = (sorted_items key m).*1) as Hk.
  { change (map mk ?l) with (mk <$> l). rewrite <-list_fmap_compose. apply list_fmap_ext. intros i x _. apply Hf. }
  rewrite foldl_insert_lookup by (rewrite Hk; unfold sorted_items; rewrite py_sorted_perm; apply NoDup_fst_map_to_list).
  rewrite lookup_empty. split; [intros [(b & Hb & <- & <-)|[_ ?]]; [|done]|intros Hm; left].
  - apply list_elem_of_fmap in Hb as ([k a] & -> & Hin). rewrite Hf, Hg. simpl.
    apply elem_of_map_to_list. unfold sorted_items in Hin. by rewrite py_sorted_perm in Hin.
  - exists (mk (k, a)). split; [|by rewrite Hf, Hg]. apply list_elem_of_fmap. exists (k, a). split; [done|].
    unfold sorted_items. rewrite py_sorted_perm. by apply elem_of_map_to_list.
Qed.

Section Dictionaries.
Context `{Sha256} (L : PortfolioLedger).

Lemma snapshot_local st : state_ok L st -> st_transactions st <> [] ->
  local_positions (st_snapshot st) = st_positions st /\ local_cash (st_snapshot st) = st_cash st.
Proof.
  intros Hst Hne. destruct (so_snapshot _ _ Hst) as (_ & _ & _ & Hs).
  destruct (last (st_transactions st)) as [t|] eqn:Hl; [|by apply last_None in Hl].
  destruct (Hs t eq_refl) as (d & _ & ->). split; by apply foldl_insert_sorted.
Qed.
End Dictionaries.

(** ** Observations as the factory issues them *)

Section Issued.
Context `{Sha256} (L : PortfolioLedger).

Definition issued_observation (o : ReconciliationObservation) : Prop :=
  exists id kind source n occurred available ns w scope scope_id prov psha balances,
    create_reconciliation_observation (l_run_id L) (l_spec_set L) id kind source n occurred available ns w scope scope_id
      prov psha balances = Ok o.

(** The grid of a commodity. *)
Definition commodity_grid (c : LedgerCommodity) (q : CanonicalDecimal) : Prop :=
  exists s, s ∈ specifications (l_spec_set L) /\
    match c with
    | InstrumentCommodity i => spec_instrument s = i /\ quantity_quantum s = q
    | CurrencyCommodity c => settlement_currency s = c /\ currency_quantum s = q
    end.
Definition reported_keys (o : ReconciliationObservation) : Prop :=
  match ob_kind o with
  | POSITION_SNAPSHOT => NoDup (omap position_balance (ob_balances o)).*1
  | CASH_SNAPSHOT => NoDup (omap cash_balance (ob_balances o)).*1
  | _ => True
  end.

Record observation_ok (o : ReconciliationObservation) : Prop := {
  oo_run : ob_run_id o = l_run_id L;
  oo_set : ob_spec_set_id o = spec_set_identifier (l_spec_set L);
  oo_set_sha : ob_spec_set_sha256 o = instrument_spec_set_digest (l_spec_set L);
  oo_digest : exists d, reconciliation_observation_digest o = Ok d;
  oo_keys : reported_keys o;
  oo_grid c v : ob_kind o = snapshot_kind c -> reports o c v -> exists q, commodity_grid c q /\ on_grid v q
}.

Lemma canonical_keys_NoDup {T A} `{PyOrd T, EqDecision T} (f : A -> T) l : canonical_keys (map f l) = true -> NoDup l.
Proof.
  unfold canonical_keys. intros [_ Hn]%andb_true_iff. apply bool_decide_eq_true in Hn. by apply NoDup_fmap_1 in Hn.
Qed.
Lemma canonical_keys_fst {K T A} `{PyOrd T, EqDecision T} (f : K -> T) (l : list (K * A)) :
  canonical_keys (map (fun b => f b.1) l) = true -> NoDup l.*1.
Proof.
  unfold canonical_keys. intros [_ Hn]%andb_true_iff. apply bool_decide_eq_true in Hn.
  apply (NoDup_fmap_1 f). by rewrite <-list_fmap_compose.
Qed.

Lemma rmap_elem {E A B} (f : A -> result E B) l ys x : rmap f l = Ok ys -> x ∈ l -> exists y, f x = Ok y.
Proof.
  intros Hr Hx. apply rmap_Ok in Hr. apply list_elem_of_lookup in Hx as (i & Hi).
  destruct (Forall2_lookup_l _ _ _ _ _ Hr Hi) as (y & _ & Hy). by exists y.
Qed.

Lemma rewrapping_Ok {A} (m : res A) a : rewrapping m = Ok a <-> m = Ok a.
Proof. unfold rewrapping, catch_economic. destruct m as [|[]]; naive_solver. Qed.

Lemma currency_quantums_from specs m m' code q : currency_quantums specs m = Ok m' -> m' !! code = Some q ->
  m !! code = Some q \/ exists s, s ∈ specs /\ value (settlement_currency s) = code /\ currency_quantum s = q.
Proof.
  revert m; induction specs as [|s specs IH]; intros m Hm Hq; simpl in Hm.
  { injection Hm as <-. by left. }
  destruct (negb _) eqn:Hn in Hm; [done|]. apply negb_false_iff, bool_decide_eq_true in Hn. rewrite Hn in Hm.
  destruct (IH _ Hm Hq) as [Hl|(s' & Hs' & ? & ?)].
  - apply lookup_insert_Some in Hl as [[<- <-]|[_ ?]]; [right; exists s; split; [left|done]|by left].
  - right. exists s'. split; [by right|done].
Qed.

Lemma check_position_grid i v x : spec_set_ok (l_spec_set L) -> check_position_balance (l_spec_set L) (i, v) = Ok x ->
  exists q, commodity_grid (InstrumentCommodity i) q /\ on_grid v q.
Proof.
  intros (Hs & Hnd & _) Hc. unfold check_position_balance in Hc. apply (proj1 (rewrapping_Ok _ _)) in Hc.
  apply rbind_Ok in Hc as (s & Hf & Hq). unfold require_spec in Hf.
  apply (find_spec_spec _ _ _ Hnd) in Hf as [Hin Hi]. exists (quantity_quantum s). split; [by exists s|].
  rewrite Forall_forall in Hs. destruct (Hs s Hin) as (_ & Hp & _).
  destruct (require_quantized_ok v (quantity_quantum s) Hp) as [[_ ?]|[Hr _]]; [done|]. simpl in Hq. by rewrite Hr in Hq.
Qed.
Lemma check_cash_grid quantums c v x : spec_set_ok (l_spec_set L) ->
  currency_quantums (specifications (l_spec_set L)) ∅ = Ok quantums -> check_cash_balance quantums (c, v) = Ok x ->
  exists q, commodity_grid (CurrencyCommodity c) q /\ on_grid v q.
Proof.
  intros (Hs & _) Hqs Hc. unfold check_cash_balance in Hc. simpl in Hc.
  destruct (quantums !! value c) as [q|] eqn:Hq; [|done]. apply rewrapping_Ok in Hc.
  destruct (currency_quantums_from _ _ _ _ _ Hqs Hq) as [?|(s & Hin & Hv & <-)]; [by rewrite lookup_empty in *|].
  exists (currency_quantum s). split; [exists s; split; [done|]; split; [by apply (inj value)|done]|].
  rewrite Forall_forall in Hs. destruct (Hs s Hin) as (_ & _ & Hp & _).
  destruct (require_quantized_ok v (currency_quantum s) Hp) as [[_ ?]|[Hr _]]; [done|]. by rewrite Hr in Hc.
Qed.

Lemma elem_position_balances i v (l : list ReconciliationBalance) :
  (i, v) ∈ omap position_balance l <-> PositionReconciliationBalance i v ∈ l.
Proof.
  rewrite list_elem_of_omap. split; [|intros ?; by eexists].
  intros ([] & Hin & Hb); simpl in Hb; [by injection Hb as -> ->|done].
Qed.
Lemma elem_cash_balances c v (l : list ReconciliationBalance) :
  (c, v) ∈ omap cash_balance l <-> CashReconciliationBalance c v ∈ l.
Proof.
  rewrite list_elem_of_omap. split; [|intros ?; by eexists].
  intros ([] & Hin & Hb); simpl in Hb; [done|by injection Hb as -> ->].
Qed.

Lemma issued_observation_ok o : spec_set_ok (l_spec_set L) -> issued_observation o -> observation_ok o.
Proof.
  intros Hss (id & kind & source & n & occurred & available & ns & w & scope & scope_id & prov & psha & balances & Ho).
  unfold create_reconciliation_observation in Ho.
  do 4 apply rbind_Ok in Ho as (? & _ & Ho). do 3 (destruct (_ : bool) in Ho; [done|]).
  apply rbind_Ok in Ho as ([] & Hk & Ho). apply rbind_Ok in Ho as (payload & Hp & Ho). injection Ho as <-.
  constructor; try done; simpl.
  - unfold reconciliation_observation_digest. rewrite Hp. by eexists.
  - unfold reported_keys. simpl. unfold _require_kind_scope_and_balances in Hk.
    destruct (negb _) in Hk; [done|]. destruct kind; try done;
      do 2 (destruct (negb _) in Hk; [done|]); destruct (negb _) eqn:Hn in Hk; try done;
      apply negb_false_iff in Hn; by apply canonical_keys_fst in Hn.
  - intros c v Hc Hr. unfold _require_kind_scope_and_balances in Hk. destruct (negb _) in Hk; [done|].
    destruct c as [i|c]; simpl in Hc, Hr; subst kind.
    + destruct (negb _) in Hk; [done|]. destruct (negb _) in Hk; [done|]. destruct (negb _) in Hk; [done|].
      apply rbind_Ok in Hk as (ys & Hy & _). apply elem_position_balances in Hr.
      destruct (rmap_elem _ _ _ _ Hy Hr) as (z & Hz). by eapply check_position_grid.
    + destruct (negb _) in Hk; [done|]. destruct (negb _) in Hk; [done|]. destruct (negb _) in Hk; [done|].
      apply rbind_Ok in Hk as (qs & Hqs & Hk). apply rbind_Ok in Hk as (ys & Hy & _). apply elem_cash_balances in Hr.
      destruct (rmap_elem _ _ _ _ Hy Hr) as (z & Hz). by eapply check_cash_grid.
Qed.
End Issued.

(** ** The comparison *)

Section Compare.
Context `{Sha256} (L : PortfolioLedger).
Context (HL : ledger_ok L).
#[local] Abbreviation ss := (l_spec_set L).

Lemma discrepancy_delta_spec quantum q l v : quantum = Ok q -> 0 < units q -> on_grid l q -> on_grid v q -> units l <> units v ->
  (exists d, discrepancy_delta quantum l v = Ok d /\ units d = units v - units l) \/
  (discrepancy_delta quantum l v = Raise (ReconciliationContractError OUT_OF_RANGE) /\ UNIT_BOUND <= Z.abs (units v - units l)).
Proof.
  intros -> Hq Hl Hv Hne. unfold discrepancy_delta. cbn [rbind].
  destruct (require_quantized_ok l q Hq) as [[-> _]|[_ ?]]; [|done].
  destruct (require_quantized_ok v q Hq) as [[-> _]|[_ ?]]; [|done]. cbn [rewrapping catch_economic rbind].
  destruct (subtract_decimal_units v l) as [(d & -> & Hd)|[-> Hb]]; cbn [rbind]; [left|by right].
  exists d. split; [|done]. rewrite bool_decide_eq_false_2; [done|]. intros Ht.
  assert (d = CANONICAL_0) as -> by (by apply decimal_eq). unfold units in Hd at 1. simpl in Hd. lia.
Qed.

Lemma commodity_grid_pos c q : commodity_grid L c q -> 0 < units q.
Proof.
  intros (s & Hin & Hc). destruct (spec_quanta_pos L s HL Hin) as [Hq1 Hq2].
  destruct c; destruct Hc as [_ <-]; done.
Qed.
Lemma currency_quantum_unique c q : commodity_grid L (CurrencyCommodity c) q -> currency_quantum_of ss c = Some q.
Proof.
  intros (s & Hin & Hc & Hq). unfold currency_quantum_of. set (l := map _ _).
  assert (forall x, x ∈ l -> x = q) as Hall.
  { intros x Hx. apply list_elem_of_fmap in Hx as (s' & -> & [Hc' Hin']%list_elem_of_filter).
    pose proof (lo_quanta L HL s Hin) as H1. pose proof (lo_quanta L HL s' Hin') as H2. rewrite Hc in H1. rewrite Hc' in H2. congruence. }
  assert (q ∈ l) as Hq' by (apply list_elem_of_fmap; exists s; split; [done|]; apply list_elem_of_filter; done).
  pose proof (NoDup_remove_dups l) as Hnd. apply elem_of_remove_dups in Hq'.
  assert (forall x, x ∈ remove_dups l -> x = q) as Hall' by (intros x Hx; apply Hall; by apply elem_of_remove_dups).
  destruct (remove_dups l) as [|x [|y r]]; [by apply not_elem_of_nil in Hq'|f_equal; apply Hall'; left|].
  apply NoDup_cons in Hnd as [Hx _]. destruct Hx. rewrite (Hall' x), (Hall' y); [left|right; left|left].
Qed.
Lemma require_spec_unique i q : commodity_grid L (InstrumentCommodity i) q ->
  exists s, require_spec ss i = Ok s /\ quantity_quantum s = q.
Proof.
  intros (s & Hin & Hi & Hq). exists s. split; [|done]. destruct (lo_specs _ HL) as (_ & Hnd & _).
  unfold require_spec. by apply find_spec_spec.
Qed.

Lemma create_discrepancy_ok c q l v : commodity_grid L c q -> on_grid l q -> on_grid v q -> units l <> units v ->
  creates (create_discrepancy_of ss) discrepancy_at c l v.
Proof.
  intros Hc Hl Hv Hne. pose proof (commodity_grid_pos c q Hc) as Hq. unfold creates. destruct c as [i|c]; simpl.
  - destruct (require_spec_unique i q Hc) as (s & Hs & Hsq). unfold create_position_reconciliation_discrepancy.
    destruct (discrepancy_delta_spec (let* specification := require_spec ss i in Ok (quantity_quantum specification)) q l v)
      as [(d & -> & Hd)|[-> Hb]]; [by rewrite Hs, <-Hsq|done..|left|right; split; [done|lia]].
    exists d. split; [done|lia].
  - unfold create_cash_reconciliation_discrepancy. rewrite (currency_quantum_unique c q Hc).
    destruct (discrepancy_delta_spec (Ok q) q l v) as [(d & -> & Hd)|[-> Hb]]; [done..|left|right; split; [done|lia]].
    exists d. split; [done|lia].
Qed.

(** The ledger's balances are on the grid of their commodity. *)
Lemma ledger_balance_grid st c q : state_ok L st -> commodity_grid L c q -> on_grid (local_amount st c) q.
Proof.
  intros Hst Hc. pose proof (so_balances _ _ Hst) as HB. destruct Hc as (s & Hin & Hc).
  assert (forall q, on_grid CANONICAL_0 q) as H0 by (intros q0; exists 0; reflexivity).
  destruct c as [i|c]; destruct Hc as [<- <-]; simpl; unfold amount_of.
  - destruct (st_positions st !! spec_instrument s) as [d|] eqn:Hd; [|apply H0]. simpl.
    destruct (bo_positions_ok _ _ _ _ _ HB _ _ Hd) as (_ & s' & Hs' & _ & Hg).
    rewrite (lo_instruments _ HL s Hin) in Hs'. by injection Hs' as <-.
  - destruct (st_cash st !! settlement_currency s) as [d|] eqn:Hd; [|apply H0]. simpl.
    destruct (bo_cash_ok _ _ _ _ _ HB _ _ Hd) as (_ & q' & Hq' & _ & Hg).
    rewrite (lo_quanta _ HL s Hin) in Hq'. by injection Hq' as <-.
Qed.
End Compare.

(** ** What the comparison finds *)

Section Find.
Context {K T : Type} `{Countable K, PyOrd T} (key : K -> T).
Context (create : K -> CanonicalDecimal -> CanonicalDecimal -> res ReconciliationDiscrepancy).
Context (make : K -> CanonicalDecimal -> CanonicalDecimal -> CanonicalDecimal -> ReconciliationDiscrepancy).
Context (Hmake : forall k k' l l' v v' d d', make k l v d = make k' l' v' d' -> k = k').
Context (local observed : gmap K CanonicalDecimal).

Definition difference_row (x : ReconciliationDiscrepancy) : Prop :=
  exists k v d, observed !! k = Some v /\ x = make k (amount_of local k) v d /\
    units d = units v - balance local k /\ units d <> 0.

Lemma elem_of_targets k : k ∈ targets_of key local observed <-> is_Some (observed !! k) \/ is_Some (local !! k).
Proof. unfold targets_of. rewrite elem_of_py_sorted, elem_of_elements, elem_of_union, !elem_of_dom. done. Qed.

Lemma compared_rows : (forall k, is_Some (local !! k) -> is_Some (observed !! k)) ->
  (forall k v, observed !! k = Some v -> units v <> balance local k -> creates create make k (amount_of local k) v) ->
  (exists ds, discrepancies_of create local observed (targets_of key local observed) = Ok ds /\
     (forall x, x ∈ ds <-> difference_row x) /\ NoDup ds) \/
  (discrepancies_of create local observed (targets_of key local observed) = Raise (ReconciliationContractError OUT_OF_RANGE) /\
     exists k v, observed !! k = Some v /\ UNIT_BOUND <= Z.abs (units v - balance local k)).
Proof.
  intros Hdom Hc.
  assert (forall k, k ∈ targets_of key local observed -> exists v, observed !! k = Some v /\ amount_of observed k = v /\
    balance observed k = units v) as Hobs.
  { intros k [[v Hv]|Hl]%elem_of_targets; [|destruct (Hdom k Hl) as [v Hv]]; exists v; unfold amount_of, balance; by rewrite Hv. }
  destruct (discrepancies_of_rows create make local observed (targets_of key local observed)) as [(ds & Hds & Hrows)|[Hds (k & Hk & Hb)]].
  - intros k Hk Hd. destruct (Hobs k Hk) as (v & Hv & -> & Hu). apply Hc; [done|]. unfold differs in Hd. lia.
  - left. exists ds. split; [done|]. split.
    + intros x. split.
      * intros Hx. apply list_elem_of_lookup in Hx as (j & Hj).
        destruct (Forall2_lookup_r _ _ _ _ _ Hrows Hj) as (k & Hk & d & -> & Hu).
        apply list_elem_of_lookup_2 in Hk. apply list_elem_of_filter in Hk as [Hdf Hk].
        destruct (Hobs k Hk) as (v & Hv & Ha & Hb). exists k, v, d. rewrite Ha, <-Hb. unfold differs in Hdf. split_and!; (done || lia).
      * intros (k & v & d & Hv & -> & Hu & Hnz).
        assert (k ∈ targets_of key local observed) as Hk by (apply elem_of_targets; left; by exists v).
        destruct (Hobs k Hk) as (v' & Hv' & Ha & Hb). rewrite Hv in Hv'. injection Hv' as <-.
        assert (k ∈ filter (differs local observed) (targets_of key local observed)) as Hf
          by (apply list_elem_of_filter; split; [unfold differs; lia|done]).
        apply list_elem_of_lookup in Hf as (j & Hj). destruct (Forall2_lookup_l _ _ _ _ _ Hrows Hj) as (x & Hx & d' & -> & Hd').
        rewrite Ha in Hx. assert (d = d') as -> by (apply units_inj; lia). by eapply list_elem_of_lookup_2.
    + assert (NoDup (filter (differs local observed) (targets_of key local observed))) as Hnd.
      { apply NoDup_filter. unfold targets_of. rewrite py_sorted_perm. apply NoDup_elements. }
      revert Hnd Hrows. generalize (filter (differs local observed) (targets_of key local observed)) as rows. clear -Hmake.
      intros rows Hnd Hrows. induction Hrows as [|k x ks xs Hx Hr IH]; [constructor|].
      apply NoDup_cons in Hnd as [Hk Hnd]. constructor; [|by apply IH].
      intros Hin. apply list_elem_of_lookup in Hin as (j & Hj). destruct (Forall2_lookup_r _ _ _ _ _ Hr Hj) as (k' & Hk' & d' & Hx' & _).
      destruct Hx as (d & -> & _). apply Hmake in Hx' as ->. apply Hk. by eapply list_elem_of_lookup_2.
  - right. split; [done|]. destruct (Hobs k Hk) as (v & Hv & _ & Hu). exists k, v. split; [done|]. lia.
Qed.
End Find.

Section Found.
Context `{Sha256} (L : PortfolioLedger).

(** A difference of the observation from the ledger, with the amounts and the exact delta. *)
Definition difference (st : LedgerState) (o : ReconciliationObservation) (x : ReconciliationDiscrepancy) : Prop :=
  exists c v d, ob_kind o = snapshot_kind c /\ reports o c v /\ x = discrepancy_at c (local_amount st c) v d /\
    units d = units v - ledger_balance st c /\ units d <> 0.

(** The observation reports every commodity of its kind that the ledger holds. *)
Definition reports_all (st : LedgerState) (o : ReconciliationObservation) : Prop :=
  forall c, ob_kind o = snapshot_kind c -> ledger_balance st c <> 0 -> exists v, reports o c v.

Lemma observed_positions_lookup o i v : ob_kind o = POSITION_SNAPSHOT -> observation_ok L o ->
  observed_positions o !! i = Some v <-> PositionReconciliationBalance i v ∈ ob_balances o.
Proof.
  intros Hk Ho. pose proof (oo_keys _ _ Ho) as Hn. unfold reported_keys in Hn. rewrite Hk in Hn.
  unfold observed_positions. rewrite foldl_insert_lookup by done. rewrite <-elem_position_balances, lookup_empty.
  split; [intros [([] & Hin & <- & <-)|[_ ?]]; done|intros Hin; left; by exists (i, v)].
Qed.
Lemma observed_cash_lookup o c v : ob_kind o = CASH_SNAPSHOT -> observation_ok L o ->
  observed_cash o !! c = Some v <-> CashReconciliationBalance c v ∈ ob_balances o.
Proof.
  intros Hk Ho. pose proof (oo_keys _ _ Ho) as Hn. unfold reported_keys in Hn. rewrite Hk in Hn.
  unfold observed_cash. rewrite foldl_insert_lookup by done. rewrite <-elem_cash_balances, lookup_empty.
  split; [intros [([] & Hin & <- & <-)|[_ ?]]; done|intros Hin; left; by exists (c, v)].
Qed.

Lemma held_not_zero st : state_ok L st -> (forall i, is_Some (st_positions st !! i) <-> balance (st_positions st) i <> 0) /\
  (forall c, is_Some (st_cash st !! c) <-> balance (st_cash st) c <> 0).
Proof.
  intros Hst. pose proof (so_balances _ _ Hst) as HB. unfold balance. split.
  - intros i. destruct (st_positions st !! i) as [d|] eqn:Hd; [|split; [by intros []|done]].
    split; [intros _|by eexists]. by apply (bo_positions_ok _ _ _ _ _ HB i d Hd).
  - intros c. destruct (st_cash st !! c) as [d|] eqn:Hd; [|split; [by intros []|done]].
    split; [intros _|by eexists]. by apply (bo_cash_ok _ _ _ _ _ HB c d Hd).
Qed.
End Found.

Section Exact.
Context `{Sha256} (L : PortfolioLedger) (HL : ledger_ok L) (st : LedgerState) (Hst : state_ok L st).
Context (Hne : st_transactions st <> []).
Context (o : ReconciliationObservation) (Ho : observation_ok L o).

(** The comparison gives exactly the differences, or one of them is not a decimal. *)
Lemma compare_balances_exact : (exists c, ob_kind o = snapshot_kind c) -> reports_all st o ->
  (exists ds, _compare_balances o (st_snapshot st) (l_spec_set L) = Ok ds /\
     (forall x, x ∈ ds <-> difference st o x) /\ NoDup ds) \/
  (_compare_balances o (st_snapshot st) (l_spec_set L) = Raise (ReconciliationContractError OUT_OF_RANGE) /\
     exists c v, ob_kind o = snapshot_kind c /\ reports o c v /\ UNIT_BOUND <= Z.abs (units v - ledger_balance st c)).
Proof.
  intros [c0 Hk] Hall. destruct (snapshot_local L st Hst Hne) as [Hlp Hlc].
  destruct (held_not_zero L st Hst) as [Hzp Hzc]. unfold _compare_balances. destruct c0 as [i0|c0]; simpl in Hk.
  - rewrite bool_decide_eq_true_2 by done. unfold _compare_position_balances. rewrite Hlp.
    destruct (compared_rows instrument_key (create_position_reconciliation_discrepancy (l_spec_set L))
      PositionReconciliationDiscrepancy ltac:(congruence) (st_positions st) (observed_positions o))
      as [(ds & Hds & Hin & Hnd)|[Hds (k & v & Hv & Hb)]].
    + intros i Hi%Hzp. destruct (Hall (InstrumentCommodity i) Hk Hi) as [v Hv]. exists v. by apply (observed_positions_lookup L).
    + intros i v Hv%(observed_positions_lookup L) Hu; [|done..].
      destruct (oo_grid _ _ Ho (InstrumentCommodity i) v Hk Hv) as (q & Hq & Hg).
      apply (create_discrepancy_ok L HL (InstrumentCommodity i) q); [done| |done|rewrite units_amount_of; lia].
      by apply (ledger_balance_grid L HL st (InstrumentCommodity i)).
    + left. exists ds. split; [done|]. split; [|done]. intros x. rewrite Hin. split.
      * intros (i & v & d & Hv%(observed_positions_lookup L) & -> & ? & ?); [|done..]. by exists (InstrumentCommodity i), v, d.
      * intros ([i|c] & v & d & Hkd & Hv & -> & ? & ?); [|simpl in Hkd; congruence].
        exists i, v, d. split; [by apply (observed_positions_lookup L)|done].
    + right. split; [done|]. apply (observed_positions_lookup L) in Hv; [|done..]. by exists (InstrumentCommodity k), v.
  - rewrite bool_decide_eq_false_2 by (rewrite Hk; done). unfold _compare_cash_balances. rewrite Hlc.
    destruct (compared_rows value (create_cash_reconciliation_discrepancy (l_spec_set L))
      CashReconciliationDiscrepancy ltac:(congruence) (st_cash st) (observed_cash o))
      as [(ds & Hds & Hin & Hnd)|[Hds (k & v & Hv & Hb)]].
    + intros c Hc%Hzc. destruct (Hall (CurrencyCommodity c) Hk Hc) as [v Hv]. exists v. by apply (observed_cash_lookup L).
    + intros c v Hv%(observed_cash_lookup L) Hu; [|done..].
      destruct (oo_grid _ _ Ho (CurrencyCommodity c) v Hk Hv) as (q & Hq & Hg).
      apply (create_discrepancy_ok L HL (CurrencyCommodity c) q); [done| |done|rewrite units_amount_of; lia].
      by apply (ledger_balance_grid L HL st (CurrencyCommodity c)).
    + left. exists ds. split; [done|]. split; [|done]. intros x. rewrite Hin. split.
      * intros (c & v & d & Hv%(observed_cash_lookup L) & -> & ? & ?); [|done..]. by exists (CurrencyCommodity c), v, d.
      * intros ([i|c] & v & d & Hkd & Hv & -> & ? & ?); [simpl in Hkd; congruence|].
        exists c, v, d. split; [by apply (observed_cash_lookup L)|done].
    + right. split; [done|]. apply (observed_cash_lookup L) in Hv; [|done..]. by exists (CurrencyCommodity k), v.
Qed.

Lemma in_sorted_map {K A B S} `{Countable K, PyOrd S} (key : K -> S) (m : gmap K A) (mk : K * A -> B) b :
  List.In b (map mk (sorted_items key m)) <-> exists k a, m !! k = Some a /\ b = mk (k, a).
Proof.
  rewrite List.in_map_iff. unfold sorted_items. split.
  - intros ([k a] & <- & Hin). apply list_elem_of_In in Hin. rewrite py_sorted_perm in Hin.
    exists k, a. split; [by apply elem_of_map_to_list|done].
  - intros (k & a & Hk & ->). exists (k, a). split; [done|]. apply list_elem_of_In. rewrite py_sorted_perm.
    by apply elem_of_map_to_list.
Qed.

(** The scope test is that every commodity held is reported. *)
Lemma scope_complete : (exists c, ob_kind o = snapshot_kind c) ->
  _observation_scope_is_complete o (st_snapshot st) = true <-> reports_all st o.
Proof.
  intros [c0 Hk]. destruct (held_not_zero L st Hst) as [Hzp Hzc].
  destruct (so_snapshot _ _ Hst) as (_ & _ & _ & Hs). destruct (last (st_transactions st)) as [t|] eqn:Hl; [|by apply last_None in Hl].
  destruct (Hs t eq_refl) as (d & _ & ->). unfold _observation_scope_is_complete, reports_all.
  destruct c0 as [i0|c0]; simpl in Hk; rewrite Hk; [rewrite bool_decide_eq_true_2 by done|rewrite bool_decide_eq_false_2 by done];
    rewrite forallb_forall; cbn [position_balances cash_balances snapshot_of]; split.
  - intros Hf [i|c] Hkd Hz; [|done]. apply Hzp in Hz as [a Ha].
    specialize (Hf _ (proj2 (in_sorted_map _ _ _ _) (ex_intro _ i (ex_intro _ a (conj Ha eq_refl))))).
    apply bool_decide_eq_true, list_elem_of_fmap in Hf as ([i' v] & Hi & Hin). simpl in Hi. subst i'.
    exists v. by apply elem_position_balances.
  - intros Hall b (i & a & Ha & ->)%in_sorted_map.
    destruct (Hall (InstrumentCommodity i) eq_refl) as [v Hv]; [apply Hzp; by exists a|].
    apply bool_decide_eq_true, list_elem_of_fmap. exists (i, v). split; [done|]. by apply elem_position_balances.
  - intros Hf [i|c] Hkd Hz; [done|]. apply Hzc in Hz as [a Ha].
    specialize (Hf _ (proj2 (in_sorted_map _ _ _ _) (ex_intro _ c (ex_intro _ a (conj Ha eq_refl))))).
    apply bool_decide_eq_true, list_elem_of_fmap in Hf as ([c' v] & Hc & Hin). simpl in Hc. subst c'.
    exists v. by apply elem_cash_balances.
  - intros Hall b (c & a & Ha & ->)%in_sorted_map.
    destruct (Hall (CurrencyCommodity c) eq_refl) as [v Hv]; [apply Hzc; by exists a|].
    apply bool_decide_eq_true, list_elem_of_fmap. exists (c, v). split; [done|]. by apply elem_cash_balances.
Qed.

Lemma reports_unique c v v' : ob_kind o = snapshot_kind c -> reports o c v -> reports o c v' -> v = v'.
Proof.
  intros Hk Hv Hv'. destruct c as [i|c]; simpl in *.
  - apply (observed_positions_lookup L) in Hv, Hv'; [congruence|done..].
  - apply (observed_cash_lookup L) in Hv, Hv'; [congruence|done..].
Qed.
End Exact.
