(* ===== verification/ReconciliationReach.v ===== *)
(** Reconciliation, the calls: the ledger books a correction, a single difference is admitted,
    proposed and authorized, and what the log of an authority justifies. *)

From S2P Require Import Prelude PyRegex PyText Outcomes Json Identity Economics Commission Execution Messages Orders.
From S2P Require Import Portfolio Reconciliation Observation Integration Ledger Adjustment ReconciliationAuthority.
From S2P Require Import Numbering LedgerLemmas LedgerSpec LedgerInvariant LedgerReach ReconciliationSpec.

Open Scope Z_scope.

(** ** A correction in the ledger *)

Definition target_kind_of (c : LedgerCommodity) : ReconciliationAdjustmentTargetKind :=
  match c with InstrumentCommodity _ => INSTRUMENT_POSITION | CurrencyCommodity _ => SETTLEMENT_CASH end.
Definition target_instrument (c : LedgerCommodity) : option Instrument :=
  match c with InstrumentCommodity i => Some i | CurrencyCommodity _ => None end.
Definition target_currency (c : LedgerCommodity) : option SettlementCurrency :=
  match c with InstrumentCommodity _ => None | CurrencyCommodity c => Some c end.
Definition target_accounts (c : LedgerCommodity) : LedgerAccountKind * LedgerAccountKind :=
  match c with
  | InstrumentCommodity _ => (PORTFOLIO_POSITION, EXTERNAL_INVENTORY)
  | CurrencyCommodity _ => (PORTFOLIO_CASH, EXTERNAL_SETTLEMENT)
  end.
Definition held_amount (st : LedgerState) (c : LedgerCommodity) : option CanonicalDecimal :=
  match c with InstrumentCommodity i => st_positions st !! i | CurrencyCommodity c => st_cash st !! c end.

(** A command that corrects the balance of [c] from [l] to [v] by [d]. *)
Record corrects (command : ReconciliationAdjustmentCommand) (c : LedgerCommodity) (l v d : CanonicalDecimal) : Prop := {
  co_variant : rc_variant command = BALANCE_CORRECTION;
  co_kind : rc_target_kind command = target_kind_of c;
  co_instrument : rc_instrument command = target_instrument c;
  co_currency : rc_currency command = target_currency c;
  co_local : rc_local_amount command = Some l;
  co_observed : rc_observed_amount command = Some v;
  co_delta : rc_delta command = Some d;
  co_reference : rc_open_reconciliation_ref command = None
}.

Section Correction.
Context `{Sha256} (L : PortfolioLedger) (HL : ledger_ok L) (st : LedgerState) (Hst : state_ok L st).
Context (Hlen : Z.of_nat (length (st_transactions st)) < MAX_UINT64).
Context (command : ReconciliationAdjustmentCommand) (c : LedgerCommodity) (q v d : CanonicalDecimal).
Context (Hc : commodity_grid L c q) (Hv : on_grid v q).
Context (Hd : units d = units v - ledger_balance st c) (Hnz : units d <> 0).
Context (Hcommand : corrects command c (local_amount st c) v d).
Context (Hid : owner_kind (rc_adjustment_id command) = RECONCILIATION_ADJUSTMENT).
Context (Hrun : id_run_id (rc_adjustment_id command) = l_run_id L) (Hseq : uint64 (owner_sequence (rc_adjustment_id command))).
#[local] Abbreviation n := (Z.of_nat (length (st_transactions st))).

Lemma correction_grids : 0 < units q /\ on_grid (local_amount st c) q /\ on_grid d q.
Proof.
  pose proof (ledger_balance_grid L HL st c q Hst Hc) as Hl. split_and!; [by eapply commodity_grid_pos|done|].
  unfold on_grid in *. rewrite Hd, <-units_local_amount. by apply Z.divide_sub_r.
Qed.

Lemma correction_target_of : correction_target L st command = Ok (q, c, target_accounts c, held_amount st c).
Proof.
  unfold correction_target. rewrite (co_kind _ _ _ _ _ Hcommand), (co_instrument _ _ _ _ _ Hcommand), (co_currency _ _ _ _ _ Hcommand).
  destruct c as [i|k]; simpl.
  - destruct (require_spec_unique L HL i q Hc) as (s & -> & <-). done.
  - by rewrite (currency_quantum_unique L HL k q Hc).
Qed.

Lemma correction_next : _next_balance (held_amount st c) d = Ok v.
Proof.
  assert (match held_amount st c with Some x => units x | None => 0 end = ledger_balance st c) as Hb by (by destruct c).
  destruct (next_balance_cases (held_amount st c) d) as [(x & -> & Hx)|[_ Hx]]; rewrite Hb in Hx.
  - f_equal. apply units_inj. lia.
  - pose proof (units_bound v). lia.
Qed.

Definition correction_postings (w : CanonicalDecimal) : list LedgerPosting :=
  [mkLedgerPosting (target_accounts c).1 c d; mkLedgerPosting (target_accounts c).2 c w].

Lemma correction_fields t w : _negated_decimal_value d = Ok w -> units w = - units d ->
  rt_target_kind t = rc_target_kind command -> rt_instrument t = rc_instrument command -> rt_currency t = rc_currency command ->
  rt_local_amount t = rc_local_amount command -> rt_observed_amount t = rc_observed_amount command ->
  rt_delta t = rc_delta command -> rt_open_reconciliation_ref t = rc_open_reconciliation_ref command ->
  rt_postings t = correction_postings w ->
  _require_balance_correction_fields (l_spec_set L) t = Ok tt.
Proof.
  intros Hw Hu Hk Hi Hcur Hlo Hob Hde Href Hps. destruct correction_grids as (Hq & Hgl & Hgd).
  destruct Hcommand as [_ Ck Ci Cc Cl Co Cd Cr]. unfold _require_balance_correction_fields.
  rewrite Hk, Hi, Hcur, Hlo, Hob, Hde, Href, Hps, Ck, Ci, Cc, Cl, Co, Cd, Cr. cbn [absent negb orb].
  rewrite bool_decide_eq_false_2 by (by destruct c).
  assert (forall a, on_grid a q -> rewrapping (require_quantized a q) = Ok a) as Hgrid.
  { intros a Ha. destruct (require_quantized_ok a q Hq) as [[-> _]|[_ ?]]; done. }
  match goal with |- context [rbind ?m _] =>
    assert (m = Ok (q, c, [(target_accounts c).1; (target_accounts c).2])) as -> end.
  { destruct c as [i|k]; simpl.
    - destruct (require_spec_unique L HL i q Hc) as (s & -> & <-). done.
    - by rewrite (currency_quantum_unique L HL k q Hc). }
  cbn [rbind]. rewrite !Hgrid by done. cbn [rbind].
  rewrite bool_decide_eq_false_2 by (intros ->; by apply Hnz).
  destruct (subtract_decimal_units v (local_amount st c)) as [(x & -> & Hx)|[_ Hx]].
  2:{ pose proof (units_bound d). rewrite units_local_amount in Hx. lia. }
  assert (x = d) as -> by (apply units_inj; rewrite Hx, units_local_amount; lia). cbn [rbind].
  rewrite bool_decide_eq_true_2 by done. cbn [negb]. unfold correction_postings. cbn [map account commodity posting_amount].
  rewrite bool_decide_eq_true_2 by done. cbn [negb existsb]. cbn [commodity]. rewrite bool_decide_eq_true_2 by done. cbn [negb orb].
  change (_negated_decimal d) with (_negated_decimal_value d). rewrite Hw. cbn [rbind].
  rewrite bool_decide_eq_true_2 by done. cbn [negb].
  assert (_postings_sum_to_zero (correction_postings w) = true) as Hz.
  { apply postings_sum_to_zero_iff. apply pair_booked; [done|by destruct c]. }
  unfold correction_postings in Hz. by rewrite Hz.
Qed.

Context (csha : Sha256Digest) (Hcsha : reconciliation_adjustment_command_digest command = Ok csha).
Context (authorization : ReconciliationAdjustmentAuthorization) (asha : Sha256Digest).

(** The transaction that is booked. *)
Definition correction_transaction (previous : option Sha256Digest) (w : CanonicalDecimal) : ReconciliationTransaction :=
  {| rt_run_id := l_run_id L; rt_entry_id := entry L (n + 1); rt_ledger_sequence := n + 1;
     rt_adjustment_id := rc_adjustment_id command; rt_authorization_sha256 := asha;
     rt_observation_sha256 := rc_observation_sha256 command;
     rt_reconciliation_outcome_sha256 := rc_reconciliation_outcome_sha256 command;
     rt_adjustment_command_sha256 := csha; rt_variant := rc_variant command; rt_target_kind := rc_target_kind command;
     rt_instrument := rc_instrument command; rt_currency := rc_currency command; rt_local_amount := rc_local_amount command;
     rt_observed_amount := rc_observed_amount command; rt_delta := rc_delta command;
     rt_open_reconciliation_ref := rc_open_reconciliation_ref command; rt_previous_transaction_sha256 := previous;
     rt_spec_set_id := spec_set_identifier (l_spec_set L); rt_spec_set_sha256 := instrument_spec_set_digest (l_spec_set L);
     rt_postings := correction_postings w; rt_occurred_at := ra_available_at authorization;
     rt_available_at := ra_available_at authorization |}.

Lemma is_ok_Ok {E A} (m : result E A) : is_ok m = true -> exists a, m = Ok a.
Proof. destruct m as [a|]; [by exists a|done]. Qed.

Lemma entry_uint64 : uint64 (n + 1).
Proof. unfold uint64. lia. Qed.

Lemma build_correction w : _negated_decimal_value d = Ok w -> units w = - units d -> exists previous,
  _build_adjustment_transaction L st authorization command (entry L (n + 1)) n asha (correction_postings w)
    = Ok (correction_transaction previous w) /\
  exists h, reconciliation_transaction_digest (correction_transaction previous w) = Ok h.
Proof.
  intros Hw Hu. destruct (journal_previous _ _ _ (so_journal _ _ Hst)) as (p & Hp & Hpn). exists p.
  set (t := correction_transaction p w).
  assert (exists payload, canonical_reconciliation_transaction_bytes t = Ok payload) as [payload Hpay].
  { apply is_ok_Ok, reconciliation_transaction_fits; simpl; [done|apply entry_uint64..|done|apply (co_reference _ _ _ _ _ Hcommand)]. }
  split; [|unfold reconciliation_transaction_digest; rewrite Hpay; by eexists].
  unfold _build_adjustment_transaction, previous_digest. rewrite Hp, Hcsha. cbn [rbind].
  change (_create_reconciliation_transaction (l_spec_set L) t = Ok t).
  unfold _create_reconciliation_transaction.
  rewrite (bool_decide_eq_true_2 (owner_kind (rt_entry_id t) = LEDGER_ENTRY)) by done.
  rewrite (bool_decide_eq_true_2 (id_run_id (rt_entry_id t) = rt_run_id t)) by done.
  rewrite (bool_decide_eq_true_2 (owner_kind (rt_adjustment_id t) = RECONCILIATION_ADJUSTMENT)) by done.
  rewrite (bool_decide_eq_true_2 (id_run_id (rt_adjustment_id t) = rt_run_id t)) by done. cbn [negb orb].
  change (owner_sequence (rt_entry_id t)) with (n + 1). change (rt_ledger_sequence t) with (n + 1).
  rewrite Z.eqb_refl, (proj2 (Z.ltb_ge (n + 1) 1)) by lia. cbn [negb orb].
  change (rt_previous_transaction_sha256 t) with p.
  assert (Bool.eqb (absent p) (n + 1 =? 1) = true) as ->.
  { apply Bool.eqb_true_iff. destruct p as [p|]; cbn [absent]; symmetry.
    - apply Z.eqb_neq. intros H1. assert (st_transactions st = []) as Hnil by (apply nil_length_inv; lia).
      by apply Hpn in Hnil.
    - apply Z.eqb_eq. by rewrite (proj1 Hpn eq_refl). }
  cbn [negb]. change (rt_available_at t) with (rt_occurred_at t). rewrite Z.ltb_irrefl.
  assert (rt_variant t = BALANCE_CORRECTION) as -> by apply (co_variant _ _ _ _ _ Hcommand).
  rewrite (correction_fields t w) by done. cbn [rbind]. rewrite Hpay. done.
Qed.

Lemma finish_correction t h : reconciliation_transaction_digest t = Ok h ->
  rt_entry_id t = entry L (n + 1) -> rt_ledger_sequence t = n + 1 -> previous_digest st = Ok (rt_previous_transaction_sha256 t) ->
  commodity_balanced (rt_postings t) ->
  balances_ok L (st_transactions st ++ [TxReconciliation t]) (corrected_cash st c v) (corrected_positions st c v) (st_rounding st) ->
  exists r, _finish_adjustment_derivation L st t (entry L (n + 1)) (corrected_cash st c v) (corrected_positions st c v)
      (st_unresolved st) (st_open_bindings st) (st_open_refs st) = Ok r /\
    ad_transaction r = t /\ ad_next_cash r = corrected_cash st c v /\ ad_next_positions r = corrected_positions st c v.
Proof.
  intros Hh He Hs Hprev Hbal HB. unfold _finish_adjustment_derivation. rewrite Hh. cbn [rbind].
  assert (journal_ok L (st_transactions st ++ [TxReconciliation t])
    (<[entry L (n + 1) := TxReconciliation t]> (st_entry_index st))) as HJ.
  { apply journal_snoc; try done; [apply (so_journal _ _ Hst)|by exists h]. }
  assert (Z.of_nat (length (st_transactions st ++ [TxReconciliation t])) = n + 1) as Hl by (rewrite length_app; simpl; lia).
  change (owner_sequence (entry L (n + 1))) with (n + 1).
  rewrite snapshot_ok; [|unfold MAX_UINT64 in *; lia|done|done|apply HB|apply HB|apply HB|].
  2:{ rewrite <-Hl. eapply references_snapshot; [exact HJ| |exact (so_references _ _ Hst)|].
      - apply fills_snoc_other; [apply (so_fills _ _ Hst)|done].
      - rewrite last_snoc. by intros ? [=]. }
  cbn [rbind]. eexists. split; [done|]. done.
Qed.

(** Deriving a correction succeeds, and sets the balance to the observed one. *)
Lemma derive_correction : exists r, _derive_correction L st authorization command (entry L (n + 1)) n asha = Ok r /\
  ad_next_cash r = corrected_cash st c v /\ ad_next_positions r = corrected_positions st c v /\
  exists previous w, ad_transaction r = correction_transaction previous w.
Proof.
  destruct correction_grids as (Hq & _ & Hgd). destruct (negated_value d Hnz) as (w & Hw & Hu).
  destruct (build_correction w Hw Hu) as (p & Hb & h & Hh).
  pose proof (build_adjustment_inv _ _ _ _ _ _ _ _ _ Hb) as (_ & _ & _ & Hprev & _).
  destruct (balances_correction L st command q c (target_accounts c) (held_amount st c) d v w
    (TxReconciliation (correction_transaction p w)) HL (so_balances _ _ Hst) correction_target_of Hgd correction_next Hu eq_refl)
    as [HB Hbal].
  destruct (finish_correction _ h Hh eq_refl eq_refl Hprev Hbal HB) as (r & Hr & Ht & Hcash & Hpos).
  exists r. split; [|split_and!; [done..|by exists p, w]].
  unfold _derive_correction. rewrite (co_local _ _ _ _ _ Hcommand), (co_observed _ _ _ _ _ Hcommand), (co_delta _ _ _ _ _ Hcommand).
  cbn [absent orb]. rewrite correction_target_of. cbn [rbind].
  destruct (require_quantized_ok d q Hq) as [[-> _]|[_ ?]]; [|done]. cbn [catch_economic rbind].
  rewrite correction_next. cbn [catch_economic rbind].
  assert (forall a x, a = (target_accounts c).1 \/ a = (target_accounts c).2 -> units x <> 0 ->
    LedgerPosting_init a c x = Ok (mkLedgerPosting a c x)) as Hpost.
  { intros a x Ha Hx. unfold LedgerPosting_init. rewrite coefficient_zero, (proj2 (Z.eqb_neq _ _) Hx).
    destruct c; simpl in Ha; by destruct Ha as [-> | ->]. }
  rewrite Hpost by auto. cbn [rbind]. rewrite Hw. cbn [rbind]. rewrite Hpost by (auto || lia). cbn [rbind].
  change [_; _] with (correction_postings w). rewrite Hb. cbn [rbind]. exact Hr.
Qed.

(** An authorization that fits the command. *)
Record authorizes (a : ReconciliationAdjustmentAuthorization) : Prop := {
  au_run : ra_run_id a = l_run_id L;
  au_command : ra_command_sha256 a = csha;
  au_adjustment : ra_adjustment_id a = rc_adjustment_id command;
  au_observation : ra_observation_sha256 a = rc_observation_sha256 command;
  au_outcome : ra_reconciliation_outcome_sha256 a = rc_reconciliation_outcome_sha256 command;
  au_sequence : ra_ledger_sequence a = rc_ledger_sequence command;
  au_snapshot : ra_local_snapshot_sha256 a = rc_local_snapshot_sha256 command;
  au_dispatch : ra_dispatch_sequence a = rc_dispatch_sequence command;
  au_decision : ra_decision a = ALLOWED
}.
Context (Hauth : authorizes authorization) (Hcrun : rc_run_id command = l_run_id L).
Context (Hcseq : rc_ledger_sequence command = n).
Context (Hcsnap : rc_local_snapshot_sha256 command = portfolio_snapshot_digest (st_snapshot st)).
(** The ledger has seen neither the authorization, nor the adjustment, nor the observation. *)
Context (Hfa : st_adjustment_outcomes st !! asha = None).
Context (Hfi : st_adjustment_index st !! rc_adjustment_id command = None).
Context (Hfo : st_observation_index st !! rc_observation_sha256 command = None).

Lemma book_correction r : _derive_correction L st authorization command (entry L (n + 1)) n asha = Ok r ->
  (exists previous w, ad_transaction r = correction_transaction previous w) ->
  exists out st', book_adjustment L st command asha csha r = Ok (out, st') /\ ao_result out = APPLIED /\
    st_cash st' = ad_next_cash r /\ st_positions st' = ad_next_positions r /\ st_rounding st' = st_rounding st.
Proof.
  intros Hr (p & w & Ht). pose proof (derive_correction_ok L st authorization command asha r HL Hst Hlen Hr) as Hde.
  destruct (de_snapshot _ _ _ _ Hde) as (h & Hh & _). unfold book_adjustment.
  assert (exists out, _create_reconciliation_adjustment_outcome (l_run_id L) (rc_adjustment_id command) asha
    (rc_observation_sha256 command) (rc_reconciliation_outcome_sha256 command) csha APPLIED (Some (ad_transaction r)) None None
    (portfolio_snapshot_digest (st_snapshot st)) (portfolio_snapshot_digest (ad_next_snapshot r)) = Ok out) as [out Hout].
  { unfold _create_reconciliation_adjustment_outcome. rewrite Hh. cbn [rbind]. rewrite Ht.
    cbn [correction_transaction rt_adjustment_id rt_authorization_sha256 rt_observation_sha256 rt_reconciliation_outcome_sha256
         rt_adjustment_command_sha256 rt_entry_id].
    rewrite (bool_decide_eq_true_2 (owner_kind (rc_adjustment_id command) = RECONCILIATION_ADJUSTMENT)) by done.
    rewrite (bool_decide_eq_true_2 (id_run_id (rc_adjustment_id command) = l_run_id L)) by done.
    rewrite !bool_decide_eq_true_2 by done. cbn [negb orb absent].
    match goal with |- context [canonical_reconciliation_adjustment_outcome_bytes ?o] =>
      destruct (is_ok_Ok _ (adjustment_outcome_fits o Hseq ltac:(intros i [= <-]; apply entry_uint64))) as [b ->] end.
    cbn [rbind]. by eexists. }
  rewrite Hout. cbn [rbind]. do 2 eexists. split; [done|]. split; [|done]. by eapply adjustment_outcome_inv.
Qed.

Lemma corrected_balances k : 
  (match k with InstrumentCommodity i => balance (corrected_positions st c v) i | CurrencyCommodity x => balance (corrected_cash st c v) x end)
  = if decide (c = k) then units v else ledger_balance st k.
Proof.
  destruct c as [i|x], k as [j|y]; simpl; rewrite ?balance_assign; repeat case_decide; congruence.
Qed.

Lemma apply_correction : exists out st',
  apply_reconciliation_adjustment L st (mkAuditedAuthorization authorization asha) command = (Ok out, st') /\
  ao_result out = APPLIED /\ state_ok L st' /\ st_transactions st' <> [] /\ st_rounding st' = st_rounding st /\
  forall k, ledger_balance st' k = if decide (c = k) then units v else ledger_balance st k.
Proof.
  destruct derive_correction as (r & Hr & Hcash & Hpos & Ht).
  destruct (book_correction r Hr Ht) as (out & st' & Hb & Hres & Hc' & Hp' & Hr').
  pose proof (derive_correction_ok L st authorization command asha r HL Hst Hlen Hr) as Hde.
  pose proof (book_adjustment_ok L st command asha csha r out st' Hst Hde Hfi Hfo Hb) as Hbook.
  exists out, st'. destruct (snapshot_version_bound L _ Hst) as [Hver _].
  destruct (so_snapshot _ _ Hst) as (_ & _ & Hls & _). destruct Hauth as [A1 A2 A3 A4 A5 A6 A7 A8 A9]. split.
  - unfold apply_reconciliation_adjustment.
    assert (adjustment_next L st (mkAuditedAuthorization authorization asha) command = Ok (out, st')) as ->; [|done].
    unfold adjustment_next. cbn [audited_authorization audited_authorization_sha256].
    rewrite A1, Hcrun, Hrun, Hcsha. rewrite !bool_decide_eq_true_2 by done. cbn [negb orb rbind].
    rewrite ?A2, ?A3, ?A4, ?A5, ?A6, ?A7, ?A8, ?A9, ?Z.eqb_refl, ?bool_decide_eq_true_2 by done. cbn [negb orb].
    rewrite Hfa, Hfi, Hfo. cbn [absent negb]. rewrite Hcseq, Hls, Z.eqb_refl, ?Hcsnap, ?bool_decide_eq_true_2 by done. cbn [negb orb].
    rewrite Hver, (proj2 (Z.eqb_neq _ _)) by lia. rewrite entry_init by lia. cbn [rbind].
    rewrite entry_fresh by done. cbn [absent negb]. rewrite (co_variant _ _ _ _ _ Hcommand), Hr. exact Hb.
  - split; [done|]. split.
    { inversion Hbook; subst; [congruence|destruct_or?; congruence|done]. }
    split.
    { inversion Hbook as [| |? Hab]; subst; [congruence|destruct_or?; congruence|].
      destruct (ab_transaction _ _ _ _ Hab) as (t & -> & _). by destruct (st_transactions st). }
    split; [done|]. intros k. rewrite <-corrected_balances, <-Hcash, <-Hpos, <-Hc', <-Hp'. by destruct k.
Qed.
End Correction.

(** ** The payloads of the authority *)

Section Payloads.
Context `{Sha256}.

Lemma discrepancy_width x : json_width (_discrepancy_document x) <= 1900.
Proof.
  destruct x as [i l v d|c l v d]; unfold _discrepancy_document;
    pose proof (decimal_width l); pose proof (decimal_width v); pose proof (decimal_width d).
  - pose proof (instrument_width i). open_widths. lia.
  - pose proof (currency_width c). open_widths. lia.
Qed.

Lemma reconciliation_outcome_fits o : uint64 (ro_dispatch_sequence o) -> uint64 (ro_local_snapshot_version o) ->
  uint64 (ro_ledger_sequence o) -> (length (ro_discrepancies o) <= 1)%nat ->
  is_ok (canonical_reconciliation_outcome_bytes o) = true.
Proof.
  intros Hd Hv Hs Hl. unfold canonical_reconciliation_outcome_bytes. rewrite bounded_payload_fits; [done|].
  unfold MAX_RECONCILIATION_PAYLOAD_BYTES, _outcome_document.
  pose proof (uint64_width _ Hd) as W1. pose proof (uint64_width _ Hv) as W2. pose proof (uint64_width _ Hs) as W3.
  cbn [json_width] in W1, W2, W3.
  pose proof (digest_width (ro_local_snapshot_sha256 o)). pose proof (digest_width (ro_observation_sha256 o)).
  pose proof (run_width (ro_run_id o)).
  assert (string_width (outcome_value (ro_outcome_code o)) <= 400) by (destruct (ro_outcome_code o); vm_compute; congruence).
  assert (string_width (action_value (ro_requested_action o)) <= 400) by (destruct (ro_requested_action o); vm_compute; congruence).
  assert (string_width (comparison_value (ro_watermark_comparison o)) <= 400)
    by (destruct (ro_watermark_comparison o); vm_compute; congruence).
  assert (total (map (fun w => 1 + json_width w) (map _discrepancy_document (ro_discrepancies o))) <= 1901).
  { destruct (ro_discrepancies o) as [|x [|]]; [done| |simpl in Hl; lia]. cbn [map total foldr].
    pose proof (discrepancy_width x). lia. }
  open_widths. lia.
Qed.

Lemma command_common_width c : uint64 (owner_sequence (rc_adjustment_id c)) -> uint64 (rc_dispatch_sequence c) ->
  uint64 (rc_ledger_sequence c) ->
  total (map (fun kv : string * json => 2 + string_width kv.1 + json_width kv.2) (command_common_entries c)) <= 6500.
Proof.
  intros Ha Hd Hs. unfold command_common_entries. pose proof (economic_id_width _ Ha).
  pose proof (uint64_width _ Hd) as W1. pose proof (uint64_width _ Hs) as W2. cbn [json_width] in W1, W2.
  pose proof (spec_id_width (rc_spec_set_id c)). pose proof (digest_width (rc_spec_set_sha256 c)).
  pose proof (digest_width (rc_local_snapshot_sha256 c)). pose proof (digest_width (rc_observation_sha256 c)).
  pose proof (digest_width (rc_reconciliation_outcome_sha256 c)). pose proof (run_width (rc_run_id c)).
  assert (string_width (variant_value (rc_variant c)) <= 200) by (destruct (rc_variant c); vm_compute; congruence).
  open_widths. lia.
Qed.
Lemma total_app l l' : total (l ++ l') = total l + total l'.
Proof. unfold total. induction l as [|x l IH]; simpl; lia. Qed.

Lemma command_fits command c l v d : corrects command c l v d -> uint64 (owner_sequence (rc_adjustment_id command)) ->
  uint64 (rc_dispatch_sequence command) -> uint64 (rc_ledger_sequence command) ->
  is_ok (canonical_reconciliation_adjustment_command_bytes command) = true.
Proof.
  intros [Cv Ck Ci Cc Cl Co Cd Cr] Ha Hd Hs. pose proof (command_common_width _ Ha Hd Hs) as Hw.
  unfold canonical_reconciliation_adjustment_command_bytes, _adjustment_command_document. rewrite Cv, Cl, Co, Cd, Ck, Ci, Cc.
  pose proof (decimal_width l). pose proof (decimal_width v). pose proof (decimal_width d).
  destruct c as [i|k]; cbn [target_kind_of target_instrument target_currency].
  - rewrite bool_decide_eq_true_2 by done. cbn [rbind]. rewrite bounded_payload_fits; [done|].
    unfold MAX_RECONCILIATION_PAYLOAD_BYTES. pose proof (instrument_width i). cbn [json_width]. rewrite map_app, total_app.
    open_widths. cbn [target_value]. literal_widths. lia.
  - rewrite bool_decide_eq_false_2 by done. cbn [rbind]. rewrite bounded_payload_fits; [done|].
    unfold MAX_RECONCILIATION_PAYLOAD_BYTES. pose proof (currency_width k). cbn [json_width]. rewrite map_app, total_app.
    open_widths. cbn [target_value]. literal_widths. lia.
Qed.

Lemma visible_width (t : PatternStr VISIBLE_128) : string_width (value t) <= 770.
Proof. by apply (pattern_width t 128). Qed.
Lemma authorization_fits a : uint64 (owner_sequence (ra_adjustment_id a)) -> uint64 (owner_sequence (ra_authorization_id a)) ->
  uint64 (ra_dispatch_sequence a) -> uint64 (ra_ledger_sequence a) -> uint64 (ra_policy_version a) ->
  is_ok (canonical_reconciliation_adjustment_authorization_bytes a) = true.
Proof.
  intros Ha Hb Hd Hs Hv. unfold canonical_reconciliation_adjustment_authorization_bytes. rewrite bounded_payload_fits; [done|].
  unfold MAX_RECONCILIATION_PAYLOAD_BYTES, _adjustment_authorization_document.
  pose proof (economic_id_width _ Ha). pose proof (economic_id_width _ Hb).
  pose proof (uint64_width _ Hd) as W1. pose proof (uint64_width _ Hs) as W2. pose proof (uint64_width _ Hv) as W3.
  cbn [json_width] in W1, W2, W3. pose proof (utc_width (ra_available_at a)).
  pose proof (digest_width (ra_command_sha256 a)). pose proof (digest_width (ra_spec_set_sha256 a)).
  pose proof (digest_width (ra_local_snapshot_sha256 a)). pose proof (digest_width (ra_observation_sha256 a)).
  pose proof (digest_width (ra_outcome_acknowledgement_sha256 a)). pose proof (digest_width (ra_policy_sha256 a)).
  pose proof (digest_width (ra_reconciliation_outcome_sha256 a)). pose proof (run_width (ra_run_id a)).
  pose proof (spec_id_width (ra_spec_set_id a)). pose proof (visible_width (ra_policy_id a)).
  assert (string_width (decision_value (ra_decision a)) <= 200) by (destruct (ra_decision a); vm_compute; congruence).
  open_widths. lia.
Qed.
End Payloads.

(** ** One difference *)

Lemma find_sorted {K V B S} `{Countable K, PyOrd S, EqDecision S} (key : K -> S) (m : gmap K V) (mk : K * V -> B)
  (f : B -> K) (g : B -> V) (x : K) : (forall kv, f (mk kv) = kv.1) -> (forall kv, g (mk kv) = kv.2) ->
  g <$> List.find (fun b => bool_decide (f b = x)) (map mk (sorted_items key m)) = m !! x.
Proof.
  intros Hf Hg. destruct (List.find _ _) as [b|] eqn:Hfind; simpl.
  - apply List.find_some in Hfind as [(k' & a' & Hm & ->)%in_sorted_map Hb]. apply bool_decide_eq_true in Hb.
    rewrite Hf in Hb. simpl in Hb. subst. by rewrite Hg.
  - destruct (m !! x) as [a'|] eqn:Hm; [|done].
    pose proof (List.find_none _ _ Hfind (mk (x, a')) (proj2 (in_sorted_map _ _ _ _) (ex_intro _ x (ex_intro _ a' (conj Hm eq_refl))))) as Hb.
    apply bool_decide_eq_false in Hb. by rewrite Hf in Hb.
Qed.

Lemma advance_ok m : 1 <= m < MAX_UINT64 -> _advance m = Ok (Some (m + 1)).
Proof.
  intros Hm. unfold _advance. rewrite (proj2 (Z.leb_le 1 m)), (proj2 (Z.leb_le m _)) by lia. cbn [andb negb].
  by rewrite (proj2 (Z.eqb_neq _ _)) by lia.
Qed.

Lemma canonical_keys_singleton {T} `{PyOrd T, EqDecision T} (x : T) : canonical_keys [x] = true.
Proof.
  unfold canonical_keys, is_sorted_keys, no_duplicates. apply andb_true_iff. split; apply bool_decide_eq_true; [done|apply NoDup_singleton].
Qed.

Section Single.
Context `{Sha256} (L : PortfolioLedger) (HL : ledger_ok L) (st : LedgerState) (Hst : state_ok L st).
Context (Hne : st_transactions st <> []) (Hlen : Z.of_nat (length (st_transactions st)) < MAX_UINT64).
Context (A : Phase1ReconciliationAuthority) (HAr : rx_run_id A = l_run_id L) (HAs : rx_spec_set A = l_spec_set L).
Context (o : ReconciliationObservation) (Ho : observation_ok L o).
Context (Hns : ob_watermark_namespace o = _PORTFOLIO_LEDGER_WATERMARK_NAMESPACE).
Context (Hw : ob_watermark_sequence o = Z.of_nat (length (st_transactions st))) (Hall : reports_all st o).
Context (c : LedgerCommodity) (Hk : ob_kind o = snapshot_kind c) (v d : CanonicalDecimal) (Hv : reports o c v).
Context (Hd : units d = units v - ledger_balance st c) (Hnz : units d <> 0).
(** Every other balance agrees. *)
Context (Hrest : forall c' v', ob_kind o = snapshot_kind c' -> reports o c' v' -> c' <> c -> units v' = ledger_balance st c').
#[local] Abbreviation n := (Z.of_nat (length (st_transactions st))).
#[local] Abbreviation snapshot := (st_snapshot st).
#[local] Abbreviation found := (discrepancy_at c (local_amount st c) v d).

Lemma single_difference : _compare_balances o snapshot (l_spec_set L) = Ok [found].
Proof.
  destruct (compare_balances_exact L HL st Hst Hne o Ho (ex_intro _ c Hk) Hall) as [(ds & -> & Hin & Hnd)|[_ (c' & v' & Hk' & Hv' & Hb)]].
  - f_equal. assert (forall x, x ∈ ds <-> x = found) as Hx.
    { intros x. rewrite Hin. split.
      - intros (c' & v' & d' & Hk' & Hv' & -> & Hd' & Hnz'). destruct (decide (c' = c)) as [->|Hc].
        + assert (v' = v) as -> by (by eapply (reports_unique L)). f_equal. apply units_inj. lia.
        + rewrite (Hrest c' v' Hk' Hv' Hc) in Hd'. lia.
      - intros ->. exists c, v, d. done. }
    destruct ds as [|x [|y ds]].
    + pose proof (proj2 (Hx found) eq_refl) as Hf. by apply not_elem_of_nil in Hf.
    + f_equal. apply Hx. left.
    + apply NoDup_cons in Hnd as [Hn _]. destruct Hn. rewrite (proj1 (Hx x) ltac:(left)), (proj1 (Hx y) ltac:(right; left)). left.
  - pose proof (units_bound d). destruct (decide (c' = c)) as [->|Hc].
    + assert (v' = v) as -> by (by eapply (reports_unique L)). lia.
    + rewrite (Hrest c' v' Hk' Hv' Hc), Z.sub_diag in Hb. unfold UNIT_BOUND in Hb. simpl in Hb. lia.
Qed.

Lemma snapshot_facts : snap_run_id snapshot = l_run_id L /\ snap_spec_set_id snapshot = spec_set_identifier (l_spec_set L) /\
  snap_spec_set_sha256 snapshot = instrument_spec_set_digest (l_spec_set L) /\ snapshot_version snapshot = n /\
  Portfolio.ledger_sequence snapshot = n.
Proof.
  destruct (so_snapshot _ _ Hst) as (H1 & H2 & H3 & Hs). split; [done|].
  destruct (last (st_transactions st)) as [t|] eqn:Hl; [|by apply last_None in Hl].
  destruct (Hs t eq_refl) as (h & _ & He). split_and!; [by rewrite He|rewrite He; apply (lo_digest _ HL)|done..].
Qed.
Lemma snapshot_bound : snapshot_is_bound A snapshot = true.
Proof.
  destruct snapshot_facts as (H1 & H2 & H3 & _). unfold snapshot_is_bound. rewrite HAr, HAs, H1, H2, H3.
  by rewrite !bool_decide_eq_true_2.
Qed.

Context (k : Z) (Hkpos : 1 <= k <= MAX_UINT64) (osha : Sha256Digest) (Hosha : reconciliation_observation_digest o = Ok osha).

Definition single_outcome : ReconciliationOutcome :=
  mkReconciliationOutcome (l_run_id L) k osha n (portfolio_snapshot_digest snapshot) n EQUAL [found]
    RECONCILIATION_MISMATCH PROPOSE_SINGLE_TARGET_ADJUSTMENT true.

Lemma n_uint64 : uint64 n.
Proof. unfold uint64. lia. Qed.
Lemma reconciliation_uint64_ok x : uint64 x -> reconciliation_uint64 x = Ok x.
Proof. intros Hx. unfold reconciliation_uint64. unfold uint64 in Hx. by rewrite (proj2 (Z.leb_le 0 x)), (proj2 (Z.leb_le x _)) by lia. Qed.
Lemma single_outcome_bytes : exists b, canonical_reconciliation_outcome_bytes single_outcome = Ok b.
Proof. apply is_ok_Ok, reconciliation_outcome_fits; simpl; [unfold uint64; lia|apply n_uint64..|lia]. Qed.

(** A current observation of balances is decided by the comparison of the balances. *)
Lemma compare_comparable : _compare_observation A o snapshot k =
  let* ds := _compare_balances o snapshot (l_spec_set L) in
  match ds with
  | [] => _comparison_outcome A osha snapshot k EQUAL [] RECONCILIATION_MATCH NO_ACTION false
  | [_] => _comparison_outcome A osha snapshot k EQUAL ds RECONCILIATION_MISMATCH PROPOSE_SINGLE_TARGET_ADJUSTMENT true
  | _ => _comparison_outcome A osha snapshot k EQUAL ds RECONCILIATION_QUARANTINED MANUAL_EVIDENCE_DECOMPOSITION true
  end.
Proof using HL Hst Hne HAs Hns Hw Hall Hk Hosha.
  destruct snapshot_facts as (_ & _ & _ & _ & H5). unfold _compare_observation. rewrite Hosha. cbn [rbind].
  assert (forall c', snapshot_kind c' <> ORDER_DETAIL /\ snapshot_kind c' <> TRADE_DETAIL) as Hkind by (by intros []).
  rewrite !bool_decide_eq_false_2 by (rewrite Hk; apply Hkind).
  rewrite Hns, bool_decide_eq_true_2 by done. cbn [negb]. rewrite Hw, H5, !Z.ltb_irrefl.
  rewrite (proj2 (scope_complete L st Hst Hne o (ex_intro _ c Hk)) Hall). cbn [negb]. by rewrite HAs.
Qed.

(** An outcome of at most one discrepancy in a row of the matrix is always made. *)
Lemma comparison_outcome_made ds code action halt : (length ds <= 1)%nat ->
  _require_outcome_matrix EQUAL ds code action halt = Ok tt ->
  _comparison_outcome A osha snapshot k EQUAL ds code action halt =
  Ok (mkReconciliationOutcome (l_run_id L) k osha n (portfolio_snapshot_digest snapshot) n EQUAL ds code action halt).
Proof using HL Hst Hne Hlen HAr Hkpos.
  intros Hl Hm. destruct snapshot_facts as (_ & _ & _ & H4 & H5).
  set (out := mkReconciliationOutcome _ _ _ _ _ _ _ _ _ _ _).
  assert (exists b, canonical_reconciliation_outcome_bytes out = Ok b) as [b Hb].
  { apply is_ok_Ok, reconciliation_outcome_fits; simpl; [unfold uint64; lia|apply n_uint64..|done]. }
  unfold _comparison_outcome, create_reconciliation_outcome. rewrite H4, H5, HAr.
  rewrite !reconciliation_uint64_ok by (apply n_uint64 || (unfold uint64; lia)). cbn [rbind].
  rewrite (proj2 (Z.eqb_neq k 0)) by lia. unfold MAX_RECONCILIATION_BALANCES. rewrite (proj2 (Z.ltb_ge _ _)) by lia.
  assert (canonical_keys (map _discrepancy_sort_key ds) = true) as ->.
  { destruct ds as [|x [|]]; [done|apply canonical_keys_singleton|simpl in Hl; lia]. }
  cbn [negb]. rewrite Hm. cbn [rbind]. fold out. by rewrite Hb.
Qed.

Lemma compare_single : _compare_observation A o snapshot k = Ok single_outcome.
Proof.
  rewrite compare_comparable, single_difference. cbn [rbind]. by apply comparison_outcome_made; [|reflexivity].
Qed.

Context (a : _AuthorityState) (Hnew : observation_index a !! (ob_source_namespace o, ob_source_sequence o) = None) (name : Z).

Definition single_object : outcome_object := mkOutcomeObject name single_outcome.
Definition admitted_state : _AuthorityState :=
  mkAuthorityState (<[(ob_source_namespace o, ob_source_sequence o) := osha]> (observation_index a))
    (<[osha := single_object]> (outcome_index a)) (authorization_index a) (adjustment_index a) (command_index a)
    (next_authorization_sequence a) (next_adjustment_sequence a).

Lemma evidence_ok : _require_observation_evidence A o = Ok tt.
Proof.
  unfold _require_observation_evidence. rewrite HAr, HAs, (oo_run _ _ Ho), (oo_set _ _ Ho), (oo_set_sha _ _ Ho).
  by rewrite !bool_decide_eq_true_2.
Qed.

Lemma admit_single : admit_observation A a snapshot name o k = Ok (single_object, admitted_state).
Proof.
  unfold admit_observation. rewrite evidence_ok. cbn [rbind]. unfold authority_uint64.
  rewrite (proj2 (Z.leb_le 0 k)), (proj2 (Z.leb_le k _)) by lia. cbn [andb negb rbind].
  rewrite (proj2 (Z.eqb_neq k 0)) by lia. rewrite Hosha. cbn [rbind]. rewrite Hnew.
  unfold _require_snapshot_view. rewrite snapshot_bound. cbn [negb rbind]. rewrite compare_single. done.
Qed.

(** ** Its command *)

Context (evidence : audit_evidence) (Hbind : binding_run_id evidence = l_run_id L).
Context (Hack : forall payload, canonical_reconciliation_outcome_bytes single_outcome = Ok payload ->
  is_Some (acknowledged evidence payload)).
Context (Hadj : 1 <= next_adjustment_sequence a < MAX_UINT64).

Definition single_adjustment_id : EconomicId := mkEconomicId (l_run_id L) RECONCILIATION_ADJUSTMENT (next_adjustment_sequence a).
Definition single_target : command_target :=
  mkCommandTarget BALANCE_CORRECTION (target_kind_of c) (target_instrument c) (target_currency c)
    (Some (local_amount st c)) (Some v) (Some d) None None.

(** The amount a snapshot shows for the commodity is the ledger's. *)
Lemma snapshot_amount : local_amount st c = match c with
  | InstrumentCommodity i => _snapshot_position_amount snapshot i
  | CurrencyCommodity x => _snapshot_cash_amount snapshot x end.
Proof.
  destruct (so_snapshot _ _ Hst) as (_ & _ & _ & Hs). destruct (last (st_transactions st)) as [t|] eqn:Hl; [|by apply last_None in Hl].
  destruct (Hs t eq_refl) as (h & _ & ->). destruct c as [i|x]; simpl; unfold amount_of.
  - unfold _snapshot_position_amount. cbn [position_balances snapshot_of].
    rewrite <-(find_sorted instrument_key (st_positions st) (fun kv => mkPositionBalance kv.1
      (default kv.2 (quantity_quantum <$> l_spec_by_instrument L !! kv.1)) kv.2) position_instrument position_quantity i) by done.
    by destruct (List.find _ _).
  - unfold _snapshot_cash_amount. cbn [cash_balances snapshot_of].
    rewrite <-(find_sorted value (st_cash st) (fun kv => mkCashBalance kv.1 (default kv.2 (l_currency_quanta L !! kv.1)) kv.2)
      cash_currency cash_amount x) by done.
    by destruct (List.find _ _).
Qed.

Lemma balance_target_single : balance_target o snapshot [found] = Ok single_target.
Proof.
  unfold balance_target, single_target. pose proof snapshot_amount as Ha. pose proof Hv as Hr.
  destruct c as [i|x]; cbn [discrepancy_at] in *; simpl in Hr, Hk; rewrite Hk;
    rewrite (bool_decide_eq_true_2 (_ ∈ ob_balances o)) by done; rewrite !bool_decide_eq_true_2 by done; done.
Qed.

Lemma command_built : exists command csha,
  _build_adjustment_command A single_outcome single_adjustment_id single_target = Ok command /\
  reconciliation_adjustment_command_digest command = Ok csha /\ corrects command c (local_amount st c) v d /\
  rc_run_id command = l_run_id L /\ rc_adjustment_id command = single_adjustment_id /\ rc_observation_sha256 command = osha /\
  rc_ledger_sequence command = n /\ rc_local_snapshot_sha256 command = portfolio_snapshot_digest snapshot /\
  rc_dispatch_sequence command = k /\ rc_spec_set_id command = spec_set_identifier (l_spec_set L) /\
  rc_spec_set_sha256 command = instrument_spec_set_digest (l_spec_set L) /\
  reconciliation_outcome_digest single_outcome = Ok (rc_reconciliation_outcome_sha256 command).
Proof.
  destruct single_outcome_bytes as [b Hb]. unfold _build_adjustment_command.
  destruct (reconciliation_outcome_digest single_outcome) as [h|] eqn:Hh.
  2:{ unfold reconciliation_outcome_digest in Hh. by rewrite Hb in Hh. }
  cbn [rbind]. set (command := {| rc_run_id := _ |}).
  assert (corrects command c (local_amount st c) v d) as Hco by (by constructor).
  destruct (is_ok_Ok _ (command_fits command c (local_amount st c) v d Hco ltac:(simpl; unfold uint64; lia)
    ltac:(simpl; unfold uint64; lia) n_uint64)) as [cb Hcb].
  exists command, (_framed_digest (domain "ea.reconciliation-adjustment-command.v1") cb). rewrite Hcb.
  split; [done|]. unfold reconciliation_adjustment_command_digest. rewrite Hcb. subst command. simpl. rewrite HAs.
  split_and!; done.
Qed.

Lemma create_command : exists command csha,
  _create_reconciliation_adjustment_command A evidence o single_outcome snapshot single_adjustment_id None None None = Ok command /\
  _build_adjustment_command A single_outcome single_adjustment_id single_target = Ok command /\
  reconciliation_adjustment_command_digest command = Ok csha.
Proof.
  destruct command_built as (command & csha & Hb & Hc & _). exists command, csha. split_and!; [|done..].
  destruct snapshot_facts as (H1 & H2 & H3 & H4 & H5). destruct single_outcome_bytes as [payload Hp].
  destruct (Hack payload Hp) as [ack Hack'].
  unfold _create_reconciliation_adjustment_command. rewrite Hbind, Hosha, HAs. cbn [rbind].
  rewrite (oo_run _ _ Ho), (oo_set _ _ Ho), (oo_set_sha _ _ Ho), H1, H2, H3, H4, H5, Hns, Hw.
  cbn [single_outcome ro_run_id ro_observation_sha256 ro_local_snapshot_version ro_ledger_sequence ro_local_snapshot_sha256
       single_adjustment_id id_run_id owner_kind].
  rewrite !Z.eqb_refl, !bool_decide_eq_true_2 by done. cbn [negb orb].
  fold single_outcome. rewrite Hp. cbn [rbind]. rewrite Hack'. cbn [absent negb orb].
  cbn [single_outcome ro_requested_action ro_discrepancies]. rewrite balance_target_single. cbn [rbind].
  fold single_outcome. exact Hb.
Qed.

Lemma propose_single : exists command csha,
  _build_adjustment_command A single_outcome single_adjustment_id single_target = Ok command /\
  reconciliation_adjustment_command_digest command = Ok csha /\
  propose_adjustment_command A admitted_state evidence single_object o snapshot = Ok (command,
    mkAuthorityState (observation_index admitted_state) (outcome_index admitted_state) (authorization_index a)
      (<[single_adjustment_id := csha]> (adjustment_index a)) (<[csha := osha]> (command_index a))
      (next_authorization_sequence a) (next_adjustment_sequence a + 1)).
Proof.
  destruct create_command as (command & csha & Hc & Hb & Hsha). exists command, csha. split_and!; [done..|].
  unfold propose_adjustment_command, _require_outcome_evidence. cbn [single_object outcome_of]. rewrite Hosha. cbn [rbind].
  rewrite HAr, HAs, (oo_run _ _ Ho), (oo_set _ _ Ho), (oo_set_sha _ _ Ho).
  cbn [single_outcome ro_run_id ro_observation_sha256 ro_requested_action ro_discrepancies ro_halt_requested].
  rewrite !bool_decide_eq_true_2 by done. cbn [negb orb rbind]. rewrite snapshot_bound. cbn [negb].
  rewrite bool_decide_eq_false_2 by done.
  assert (is_single_mismatch single_outcome = true) as Hm by reflexivity. rewrite Hm. cbn [length Nat.eqb negb orb].
  fold single_outcome. fold single_object. unfold admitted_state at 1. cbn [outcome_index].
  rewrite (bool_decide_eq_true_2 (_ = Some single_object)) by apply lookup_insert_eq. cbn [negb].
  change (next_adjustment_sequence admitted_state) with (next_adjustment_sequence a). rewrite (advance_ok _ Hadj). cbn [rbind].
  rewrite economic_id_fits by lia. cbn [rbind]. fold single_adjustment_id. rewrite Hc. cbn [rbind]. rewrite Hsha. done.
Qed.

(** ** Its authorization *)

Context (policy : ReconciliationAuthorizationPolicyId) (version : Z) (Hversion : 1 <= version <= MAX_UINT64).
Context (policy_digest : Sha256Digest) (available : datetime).
Context (Hauthn : 1 <= next_authorization_sequence a < MAX_UINT64).
Context (Hunused : authorization_index a !! mkEconomicId (l_run_id L) RECONCILIATION_AUTHORIZATION (next_authorization_sequence a) = None).

Lemma issue_single command csha b : 
  _build_adjustment_command A single_outcome single_adjustment_id single_target = Ok command ->
  reconciliation_adjustment_command_digest command = Ok csha ->
  outcome_index b !! osha = Some single_object -> adjustment_index b !! single_adjustment_id = Some csha ->
  command_index b !! csha = Some osha -> authorization_index b = authorization_index a ->
  next_authorization_sequence b = next_authorization_sequence a ->
  exists authorization b', issue_authorization A b evidence single_object command policy version policy_digest ALLOWED (available, Some 0)
      = Ok (authorization, b') /\ authorizes L command csha authorization.
Proof.
  intros Hb Hcsha Hout Hai Hci Hau Hnx. destruct command_built as (command' & csha' & Hb' & Hcsha' & Hco & C1 & C2 & C3 & C4 & C5 & C6 & C7 & C8 & C9).
  rewrite Hb' in Hb. apply Ok_inj in Hb as ->. rewrite Hcsha' in Hcsha. apply Ok_inj in Hcsha as ->.
  destruct single_outcome_bytes as [payload Hp]. destruct (Hack payload Hp) as [ack Hack'].
  set (authorization := {| ra_run_id := l_run_id L; ra_spec_set_id := spec_set_identifier (l_spec_set L);
    ra_spec_set_sha256 := instrument_spec_set_digest (l_spec_set L);
    ra_authorization_id := mkEconomicId (l_run_id L) RECONCILIATION_AUTHORIZATION (next_authorization_sequence a);
    ra_adjustment_id := rc_adjustment_id command; ra_observation_sha256 := rc_observation_sha256 command;
    ra_reconciliation_outcome_sha256 := rc_reconciliation_outcome_sha256 command;
    ra_outcome_acknowledgement_sha256 := ack; ra_ledger_sequence := rc_ledger_sequence command;
    ra_local_snapshot_sha256 := rc_local_snapshot_sha256 command; ra_command_sha256 := csha;
    ra_policy_id := policy; ra_policy_version := version; ra_policy_sha256 := policy_digest; ra_decision := ALLOWED;
    ra_available_at := available; ra_dispatch_sequence := rc_dispatch_sequence command |}).
  assert (exists ab, canonical_reconciliation_adjustment_authorization_bytes authorization = Ok ab) as [ab Hab].
  { apply is_ok_Ok, authorization_fits; simpl; rewrite ?C2, ?C4, ?C6; [unfold uint64; simpl; lia|unfold uint64; simpl; lia|
      unfold uint64; lia|apply n_uint64|unfold uint64; lia]. }
  assert (_create_reconciliation_adjustment_authorization A evidence single_outcome command
    (mkEconomicId (l_run_id L) RECONCILIATION_AUTHORIZATION (next_authorization_sequence a)) policy version policy_digest ALLOWED
    (available, Some 0) = Ok authorization) as Hcreate.
  { unfold _create_reconciliation_adjustment_authorization. rewrite reconciliation_uint64_ok by (unfold uint64; lia). cbn [rbind].
    rewrite (proj2 (Z.eqb_neq version 0)) by lia. cbn [owner_sequence]. rewrite (proj2 (Z.eqb_neq (next_authorization_sequence a) 0)) by lia.
    assert (reconciliation_time (available, Some 0) = Ok available) as -> by reflexivity. cbn [rbind].
    rewrite Hbind, C9, HAs. cbn [rbind id_run_id owner_kind]. rewrite C1, C3, C4, C5, C6, C7, C8.
    cbn [single_outcome ro_run_id ro_observation_sha256 ro_ledger_sequence ro_local_snapshot_sha256 ro_dispatch_sequence].
    rewrite !Z.eqb_refl, !bool_decide_eq_true_2 by done. cbn [negb orb]. fold single_outcome. rewrite Hp. cbn [rbind].
    rewrite Hack', Hcsha'. cbn [rbind]. rewrite <-C3, <-C4, <-C5, <-C6. fold authorization. rewrite Hab. done. }
  exists authorization. eexists. split.
  - unfold issue_authorization, authority_uint64. cbn [single_object outcome_of].
    rewrite (proj2 (Z.leb_le 0 version)), (proj2 (Z.leb_le version _)) by lia. cbn [andb negb rbind].
    rewrite (proj2 (Z.eqb_neq version 0)) by lia. change (ro_observation_sha256 single_outcome) with osha.
    fold single_object. rewrite (bool_decide_eq_true_2 (outcome_index b !! osha = Some single_object)) by done. cbn [negb].
    rewrite Hcsha', C2. cbn [rbind].
    rewrite (bool_decide_eq_true_2 (adjustment_index b !! single_adjustment_id = Some csha)) by done. cbn [negb].
    rewrite (bool_decide_eq_true_2 (command_index b !! csha = Some osha)) by done. cbn [negb].
    assert (is_single_mismatch single_outcome = true) as Hm by reflexivity. rewrite Hm. cbn [negb].
    rewrite Hnx, (advance_ok _ Hauthn). cbn [rbind]. rewrite HAr, economic_id_fits by lia. cbn [rbind].
    rewrite Hau, Hunused. cbn [absent negb]. rewrite Hcreate. cbn [rbind].
    unfold reconciliation_adjustment_authorization_digest. rewrite Hab. cbn [rbind]. reflexivity.
  - by constructor.
Qed.
End Single.

(** ** The log of an authority *)

Record proposal : Type := mkProposal {
  pr_object : outcome_object;
  pr_observation : ReconciliationObservation;
  pr_snapshot : PortfolioSnapshot;
  pr_command : ReconciliationAdjustmentCommand
}.
Record issue : Type := mkIssue {
  is_object : outcome_object;
  is_command : ReconciliationAdjustmentCommand;
  is_authorization : ReconciliationAdjustmentAuthorization
}.

Section Log.
Context `{Sha256} (A : Phase1ReconciliationAuthority).

(** What was admitted, proposed and issued; a call that raises changes nothing. *)
Inductive authority_log : list (ReconciliationObservation * outcome_object) -> list proposal -> list issue -> _AuthorityState -> Prop :=
| log_created : authority_log [] [] [] empty_authority_state
| log_admitted admissions proposals issues a view name o k object a' :
    authority_log admissions proposals issues a -> admit_observation A a view name o k = Ok (object, a') ->
    authority_log (admissions ++ [(o, object)]) proposals issues a'
| log_proposed admissions proposals issues a evidence object o s command a' :
    authority_log admissions proposals issues a -> propose_adjustment_command A a evidence object o s = Ok (command, a') ->
    authority_log admissions (proposals ++ [mkProposal object o s command]) issues a'
| log_issued admissions proposals issues a evidence object command policy version digest decision available authorization a' :
    authority_log admissions proposals issues a ->
    issue_authorization A a evidence object command policy version digest decision available = Ok (authorization, a') ->
    authority_log admissions proposals (issues ++ [mkIssue object command authorization]) a'.

(** ** Exact discrepancies *)

Definition exact_discrepancy (x : ReconciliationDiscrepancy) : Prop :=
  match x with
  | PositionReconciliationDiscrepancy _ l v d | CashReconciliationDiscrepancy _ l v d => units d = units v - units l
  end.

Lemma discrepancy_delta_exact quantum l v d : discrepancy_delta quantum l v = Ok d -> units d = units v - units l.
Proof.
  unfold discrepancy_delta. intros Hd. do 2 apply rbind_Ok in Hd as (? & _ & Hd). apply rbind_Ok in Hd as (z & Hx & Hd).
  destruct (bool_decide _) in Hd; [done|]. injection Hd as <-.
  destruct (subtract_decimal_units v l) as [(y & Hy & Hu)|[Hy _]]; rewrite Hy in Hx; [by injection Hx as <-|done].
Qed.
Lemma create_discrepancy_exact ss c l v x : create_discrepancy_of ss c l v = Ok x -> exact_discrepancy x.
Proof.
  destruct c as [i|c]; simpl; unfold create_position_reconciliation_discrepancy, create_cash_reconciliation_discrepancy; intros Hx.
  - apply rbind_Ok in Hx as (d & Hd & [= <-]). by apply discrepancy_delta_exact in Hd.
  - destruct (currency_quantum_of ss c); [|done]. apply rbind_Ok in Hx as (d & Hd & [= <-]). by apply discrepancy_delta_exact in Hd.
Qed.
Lemma discrepancies_of_exact {K} `{Countable K} create (local observed : gmap K CanonicalDecimal) targets ds :
  (forall k l v x, create k l v = Ok x -> exact_discrepancy x) ->
  discrepancies_of create local observed targets = Ok ds -> forall x, x ∈ ds -> exact_discrepancy x.
Proof.
  intros Hc. revert ds; induction targets as [|k targets IH]; intros ds Hds x Hx; cbn [discrepancies_of] in Hds.
  { injection Hds as <-. by apply not_elem_of_nil in Hx. }
  destruct (bool_decide _) in Hds; [by eapply IH|]. apply rbind_Ok in Hds as (y & Hy & Hds).
  apply rbind_Ok in Hds as (rest & Hr & [= <-]). apply elem_of_cons in Hx as [->|Hx]; [by eapply Hc|by eapply IH].
Qed.

Lemma outcome_row_made run k osha a b c w ds code action halt out :
  create_reconciliation_outcome run k osha a b c w ds code action halt = Ok out ->
  out = mkReconciliationOutcome run k osha a b c w ds code action halt.
Proof.
  unfold create_reconciliation_outcome. intros Ho. do 3 apply rbind_Ok in Ho as (? & _ & Ho).
  do 3 (match type of Ho with (if ?x then _ else _) = _ => destruct x; [done|] end).
  do 2 apply rbind_Ok in Ho as (? & _ & Ho). by apply Ok_inj in Ho as <-.
Qed.

Lemma compare_exact o view k out : _compare_observation A o view k = Ok out ->
  reconciliation_observation_digest o = Ok (ro_observation_sha256 out) /\ forall x, x ∈ ro_discrepancies out -> exact_discrepancy x.
Proof.
  unfold _compare_observation. intros Ho. apply rbind_Ok in Ho as (osha & Hd & Ho).
  assert (forall w ds code action halt, _comparison_outcome A osha view k w ds code action halt = Ok out ->
    (forall x, x ∈ ds -> exact_discrepancy x) -> reconciliation_observation_digest o = Ok (ro_observation_sha256 out) /\
      forall x, x ∈ ro_discrepancies out -> exact_discrepancy x) as Hout.
  { intros w ds code action halt Hc Hx. apply outcome_row_made in Hc as ->. done. }
  assert (forall w code action halt, _comparison_outcome A osha view k w [] code action halt = Ok out ->
    reconciliation_observation_digest o = Ok (ro_observation_sha256 out) /\
      forall x, x ∈ ro_discrepancies out -> exact_discrepancy x) as Hnil.
  { intros w code action halt Hc. eapply Hout; [exact Hc|]. by intros x ?%not_elem_of_nil. }
  do 6 (match type of Ho with (if ?b then _ else _) = _ => destruct b; [by eapply Hnil|] end).
  apply rbind_Ok in Ho as (ds & Hds & Ho).
  assert (forall x, x ∈ ds -> exact_discrepancy x) as Hx.
  { unfold _compare_balances, _compare_position_balances, _compare_cash_balances in Hds.
    destruct (bool_decide _) in Hds; (eapply discrepancies_of_exact; [|exact Hds]); intros key l v x Hcr.
    - by apply (create_discrepancy_exact (rx_spec_set A) (InstrumentCommodity key) l v).
    - by apply (create_discrepancy_exact (rx_spec_set A) (CurrencyCommodity key) l v). }
  destruct ds as [|x [|y ds]]; by eapply Hout.
Qed.

(** ** What the log justifies *)

(** A proposal corrects one reported balance by the exact difference, of an admitted mismatch. *)
Record justified (admissions : list (ReconciliationObservation * outcome_object)) (p : proposal) : Prop := {
  ju_row : is_single_mismatch (outcome_of (pr_object p)) = true;
  ju_admitted : exists o, (o, pr_object p) ∈ admissions /\
    reconciliation_observation_digest o = reconciliation_observation_digest (pr_observation p);
  ju_exact : exists c l v d, corrects (pr_command p) c l v d /\ reports (pr_observation p) c v /\ units d = units v - units l
}.
(** An authorization is of a proposed command: same identity, same digest. *)
Definition of_proposal (proposals : list proposal) (x : issue) : Prop :=
  exists p, p ∈ proposals /\ rc_adjustment_id (pr_command p) = ra_adjustment_id (is_authorization x) /\
    reconciliation_adjustment_command_digest (pr_command p) = Ok (ra_command_sha256 (is_authorization x)).

Record authority_ok (admissions : list (ReconciliationObservation * outcome_object)) (proposals : list proposal)
  (issues : list issue) (a : _AuthorityState) : Prop := {
  ao_adjustment_ids : numbered (rx_run_id A) RECONCILIATION_ADJUSTMENT (map (fun p => rc_adjustment_id (pr_command p)) proposals)
                        (Some (next_adjustment_sequence a));
  ao_authorization_ids : numbered (rx_run_id A) RECONCILIATION_AUTHORIZATION
                           (map (fun x => ra_authorization_id (is_authorization x)) issues) (Some (next_authorization_sequence a));
  ao_adjustments i h : adjustment_index a !! i = Some h -> exists p, p ∈ proposals /\
    rc_adjustment_id (pr_command p) = i /\ reconciliation_adjustment_command_digest (pr_command p) = Ok h;
  ao_authorizations i : is_Some (authorization_index a !! i) ->
    i ∈ map (fun x => ra_authorization_id (is_authorization x)) issues;
  ao_outcomes osha object : outcome_index a !! osha = Some object -> exists o, (o, object) ∈ admissions /\
    reconciliation_observation_digest o = Ok osha;
  ao_admissions o object : (o, object) ∈ admissions -> forall x, x ∈ ro_discrepancies (outcome_of object) -> exact_discrepancy x;
  ao_proposals p : p ∈ proposals -> justified admissions p;
  ao_issues x : x ∈ issues -> of_proposal proposals x
}.

Lemma authority_created : authority_ok [] [] [] empty_authority_state.
Proof.
  constructor; simpl; try apply numbered_nil; intros *; rewrite ?lookup_empty; try done; try (by intros ?%not_elem_of_nil); by intros [].
Qed.

Lemma justified_mono ads x p : justified ads p -> justified (ads ++ [x]) p.
Proof. intros [H1 (o & Ho & Hd) H3]. constructor; [done| |done]. exists o. split; [by apply elem_of_app; left|done]. Qed.

Lemma admit_ok ads ps xs a view name o k object a' : authority_ok ads ps xs a ->
  admit_observation A a view name o k = Ok (object, a') -> authority_ok (ads ++ [(o, object)]) ps xs a'.
Proof.
  intros Ha Had. unfold admit_observation in Had. do 2 apply rbind_Ok in Had as (? & _ & Had). destruct (_ =? 0) in Had; [done|].
  apply rbind_Ok in Had as (osha & Hosha & Had).
  assert (forall o' object', (o', object') ∈ ads -> (o', object') ∈ ads ++ [(o, object)]) as Hin by (intros; by apply elem_of_app; left).
  destruct (observation_index a !! _) as [prior|].
  - destruct (negb _) in Had; [done|]. destruct (outcome_index a !! osha) as [object'|] eqn:Ho; [|done].
    apply Ok_inj in Had as [= <- <-]. destruct (ao_outcomes _ _ _ _ Ha _ _ Ho) as (o' & Hin' & Hd').
    constructor; try apply Ha.
    + intros d object Hd. destruct (ao_outcomes _ _ _ _ Ha _ _ Hd) as (o'' & ? & ?). exists o''. auto.
    + intros o'' object [Hi|[= -> ->]%list_elem_of_singleton]%elem_of_app; by eapply (ao_admissions _ _ _ _ Ha).
    + intros p Hp. by apply justified_mono, (ao_proposals _ _ _ _ Ha).
  - apply rbind_Ok in Had as (snapshot & _ & Had). apply rbind_Ok in Had as (out & Hc & Had). apply Ok_inj in Had as [= <- <-].
    destruct (compare_exact _ _ _ _ Hc) as [_ Hx]. constructor; try apply Ha; simpl.
    + intros d object [[<- <-]|[_ Hd]]%lookup_insert_Some.
      * exists o. split; [by apply elem_of_app; right; left|done].
      * destruct (ao_outcomes _ _ _ _ Ha _ _ Hd) as (o'' & ? & ?). exists o''. auto.
    + intros o'' object [Hi|[= -> ->]%list_elem_of_singleton]%elem_of_app; [by eapply (ao_admissions _ _ _ _ Ha)|done].
    + intros p Hp. by apply justified_mono, (ao_proposals _ _ _ _ Ha).
Qed.

Lemma balance_target_inv o s ds t : balance_target o s ds = Ok t -> exists c l v d, ds = [discrepancy_at c l v d] /\ reports o c v /\
  t = mkCommandTarget BALANCE_CORRECTION (target_kind_of c) (target_instrument c) (target_currency c) (Some l) (Some v) (Some d) None None.
Proof.
  destruct ds as [|[i l v d|c l v d] [|]]; try done; cbn [balance_target]; intros Ht;
    destruct (_ || _) eqn:Hc in Ht; try done; apply Ok_inj in Ht as <-;
    apply orb_false_iff in Hc as [[_ Hr%negb_false_iff%bool_decide_eq_true]%orb_false_iff _].
  - by exists (InstrumentCommodity i), l, v, d.
  - by exists (CurrencyCommodity c), l, v, d.
Qed.

Lemma build_command_inv out i c l v d command :
  _build_adjustment_command A out i (mkCommandTarget BALANCE_CORRECTION (target_kind_of c) (target_instrument c) (target_currency c)
    (Some l) (Some v) (Some d) None None) = Ok command -> corrects command c l v d /\ rc_adjustment_id command = i.
Proof.
  unfold _build_adjustment_command. intros Hb. do 2 apply rbind_Ok in Hb as (? & _ & Hb). apply Ok_inj in Hb as <-. split; [|done].
  by constructor.
Qed.

Lemma create_command_inv evidence o out s i command : ro_requested_action out = PROPOSE_SINGLE_TARGET_ADJUSTMENT ->
  _create_reconciliation_adjustment_command A evidence o out s i None None None = Ok command ->
  exists c l v d, ro_discrepancies out = [discrepancy_at c l v d] /\ reports o c v /\ corrects command c l v d /\
    rc_adjustment_id command = i.
Proof.
  intros Haction Hc. unfold _create_reconciliation_adjustment_command in Hc. apply rbind_Ok in Hc as (? & _ & Hc).
  match type of Hc with (if ?x then _ else _) = _ => destruct x; [done|] end. apply rbind_Ok in Hc as (? & _ & Hc).
  match type of Hc with (if ?x then _ else _) = _ => destruct x; [done|] end. rewrite Haction in Hc. cbn [absent negb orb] in Hc.
  apply rbind_Ok in Hc as (t & Ht & Hc). destruct (balance_target_inv _ _ _ _ Ht) as (c & l & v & d & Hds & Hr & ->).
  apply build_command_inv in Hc as [Hco Hid]. by exists c, l, v, d.
Qed.

Lemma advance_inv m n : _advance m = Ok (Some n) -> n = m + 1 /\ m <> MAX_UINT64.
Proof. unfold _advance. destruct (negb _); [done|]. destruct (Z.eqb_spec m MAX_UINT64); [done|]. intros Hm. apply Ok_inj in Hm as [= <-]. done. Qed.

Lemma propose_inv a evidence object o s command a' : propose_adjustment_command A a evidence object o s = Ok (command, a') ->
  let out := outcome_of object in
  is_single_mismatch out = true /\ reconciliation_observation_digest o = Ok (ro_observation_sha256 out) /\
  outcome_index a !! ro_observation_sha256 out = Some object /\ next_adjustment_sequence a <> MAX_UINT64 /\
  (exists c l v d, ro_discrepancies out = [discrepancy_at c l v d] /\ reports o c v /\ corrects command c l v d) /\
  exists h, reconciliation_adjustment_command_digest command = Ok h /\
    rc_adjustment_id command = mkEconomicId (rx_run_id A) RECONCILIATION_ADJUSTMENT (next_adjustment_sequence a) /\
    a' = mkAuthorityState (observation_index a) (outcome_index a) (authorization_index a)
      (<[rc_adjustment_id command := h]> (adjustment_index a)) (<[h := ro_observation_sha256 out]> (command_index a))
      (next_authorization_sequence a) (next_adjustment_sequence a + 1).
Proof.
  unfold propose_adjustment_command. intros Hp. cbv zeta in Hp |- *. apply rbind_Ok in Hp as (? & He & Hp).
  unfold _require_outcome_evidence in He. apply rbind_Ok in He as (osha & Hosha & He). destruct (_ || _) eqn:Hb in He; [done|].
  apply orb_false_iff in Hb as [_ Hb%negb_false_iff%bool_decide_eq_true]. rewrite Hosha, <-Hb.
  do 2 (match type of Hp with (if ?x then _ else _) = _ => destruct x; [done|] end).
  match type of Hp with (if ?x then _ else _) = _ => destruct x eqn:Hm; [done|] end.
  apply orb_false_iff in Hm as [[Hm%negb_false_iff _]%orb_false_iff _].
  match type of Hp with (if ?x then _ else _) = _ => destruct x eqn:Hi; [done|] end. apply negb_false_iff, bool_decide_eq_true in Hi.
  apply rbind_Ok in Hp as ([m|] & Hadv & Hp); [|done]. destruct (advance_inv _ _ Hadv) as [-> Hmax].
  apply rbind_Ok in Hp as (i & Hid & Hp). apply rbind_Ok in Hp as (command' & Hc & Hp). apply rbind_Ok in Hp as (h & Hh & Hp).
  apply Ok_inj in Hp as [= -> <-]. apply economic_id_value in Hid as ->.
  assert (ro_requested_action (outcome_of object) = PROPOSE_SINGLE_TARGET_ADJUSTMENT) as Haction.
  { unfold is_single_mismatch in Hm. apply andb_true_iff in Hm as [_ Hm]. by apply bool_decide_eq_true in Hm. }
  destruct (create_command_inv _ _ _ _ _ _ Haction Hc) as (c & l & v & d & Hds & Hr & Hco & Hai).
  split; [done|]. split; [done|]. split; [done|]. split; [done|]. split; [by exists c, l, v, d|].
  exists h. split; [done|]. split; [exact Hai|]. by rewrite Hai.
Qed.

Lemma map_snoc {X Y} (f : X -> Y) l x : map f (l ++ [x]) = map f l ++ [f x].
Proof. by rewrite map_app. Qed.
Lemma numbered_push kind ids n : numbered (rx_run_id A) kind ids (Some n) -> n <> MAX_UINT64 ->
  numbered (rx_run_id A) kind (ids ++ [mkEconomicId (rx_run_id A) kind n]) (Some (n + 1)).
Proof. intros Hn Hmax. pose proof (numbered_snoc _ _ _ _ Hn) as Hs. by rewrite (proj2 (Z.eqb_neq _ _) Hmax) in Hs. Qed.

Lemma propose_ok ads ps xs a evidence object o s command a' : authority_ok ads ps xs a ->
  propose_adjustment_command A a evidence object o s = Ok (command, a') ->
  authority_ok ads (ps ++ [mkProposal object o s command]) xs a'.
Proof.
  intros Ha Hp. destruct (propose_inv _ _ _ _ _ _ _ Hp) as (Hm & Hosha & Hout & Hmax & (c & l & v & d & Hds & Hr & Hco) & h & Hh & Hid & ->).
  destruct (ao_outcomes _ _ _ _ Ha _ _ Hout) as (o' & Hin & Ho').
  pose proof (ao_admissions _ _ _ _ Ha _ _ Hin (discrepancy_at c l v d)) as Hx.
  constructor; try apply Ha; simpl.
  - rewrite map_snoc. simpl. rewrite Hid. apply numbered_push; [apply Ha|done].
  - intros i h' [[<- <-]|[_ Hi]]%lookup_insert_Some.
    + exists (mkProposal object o s command). split; [by apply elem_of_app; right; left|done].
    + destruct (ao_adjustments _ _ _ _ Ha _ _ Hi) as (p & ? & ?). exists p. split; [by apply elem_of_app; left|done].
  - intros p [Hp'| ->%list_elem_of_singleton]%elem_of_app; [by apply (ao_proposals _ _ _ _ Ha)|]. constructor; simpl; [done| |].
    + exists o'. split; [done|]. by rewrite Ho', Hosha.
    + exists c, l, v, d. split_and!; [done..|]. rewrite Hds in Hx. specialize (Hx ltac:(left)). by destruct c.
  - intros x Hx'. destruct (ao_issues _ _ _ _ Ha x Hx') as (p & ? & ?). exists p. split; [by apply elem_of_app; left|done].
Qed.

Lemma issue_inv a evidence object command policy version digest decision available authorization a' :
  issue_authorization A a evidence object command policy version digest decision available = Ok (authorization, a') ->
  exists h hauth, reconciliation_adjustment_command_digest command = Ok h /\ adjustment_index a !! rc_adjustment_id command = Some h /\
    ra_command_sha256 authorization = h /\ ra_adjustment_id authorization = rc_adjustment_id command /\
    next_authorization_sequence a <> MAX_UINT64 /\
    ra_authorization_id authorization = mkEconomicId (rx_run_id A) RECONCILIATION_AUTHORIZATION (next_authorization_sequence a) /\
    a' = mkAuthorityState (observation_index a) (outcome_index a) (<[ra_authorization_id authorization := hauth]> (authorization_index a))
      (adjustment_index a) (command_index a) (next_authorization_sequence a + 1) (next_adjustment_sequence a).
Proof.
  unfold issue_authorization. intros Hi. cbv zeta in Hi. apply rbind_Ok in Hi as (? & _ & Hi).
  do 2 (match type of Hi with (if ?x then _ else _) = _ => destruct x; [done|] end).
  apply rbind_Ok in Hi as (h & Hh & Hi).
  match type of Hi with (if ?x then _ else _) = _ => destruct x eqn:Hai; [done|] end. apply negb_false_iff, bool_decide_eq_true in Hai.
  do 2 (match type of Hi with (if ?x then _ else _) = _ => destruct x; [done|] end).
  apply rbind_Ok in Hi as ([m|] & Hadv & Hi); [|done]. destruct (advance_inv _ _ Hadv) as [-> Hmax].
  apply rbind_Ok in Hi as (i & Hid & Hi). match type of Hi with (if ?x then _ else _) = _ => destruct x; [done|] end.
  apply rbind_Ok in Hi as (auth & Hc & Hi). apply rbind_Ok in Hi as (hauth & _ & Hi). apply Ok_inj in Hi as [= -> <-].
  apply economic_id_value in Hid as ->.
  unfold _create_reconciliation_adjustment_authorization in Hc. apply rbind_Ok in Hc as (? & _ & Hc).
  do 2 (match type of Hc with (if ?x then _ else _) = _ => destruct x; [done|] end). do 2 apply rbind_Ok in Hc as (? & _ & Hc).
  match type of Hc with (if ?x then _ else _) = _ => destruct x; [done|] end. apply rbind_Ok in Hc as (? & _ & Hc).
  destruct (acknowledged _ _); [|done]. rewrite Hh in Hc. cbn [rbind] in Hc. apply rbind_Ok in Hc as (? & _ & Hc). apply Ok_inj in Hc as <-.
  exists h, hauth. split_and!; done.
Qed.

Lemma issue_ok ads ps xs a evidence object command policy version digest decision available authorization a' :
  authority_ok ads ps xs a ->
  issue_authorization A a evidence object command policy version digest decision available = Ok (authorization, a') ->
  authority_ok ads ps (xs ++ [mkIssue object command authorization]) a'.
Proof.
  intros Ha Hi. destruct (issue_inv _ _ _ _ _ _ _ _ _ _ _ Hi) as (h & hauth & Hh & Hai & Hc & Hid & Hmax & Hau & ->).
  constructor; try apply Ha; simpl.
  - rewrite map_snoc. simpl. rewrite Hau. apply numbered_push; [apply Ha|done].
  - intros i [h' [[<- _]|[_ Hl]]%lookup_insert_Some]; rewrite map_snoc; apply elem_of_app; [by right; left|left].
    by apply (ao_authorizations _ _ _ _ Ha).
  - intros x [Hx| ->%list_elem_of_singleton]%elem_of_app; [by apply (ao_issues _ _ _ _ Ha)|].
    destruct (ao_adjustments _ _ _ _ Ha _ _ Hai) as (p & Hp & Hpi & Hpd). exists p. simpl. rewrite Hid, Hc. done.
Qed.

Lemma authority_log_ok ads ps xs a : authority_log ads ps xs a -> authority_ok ads ps xs a.
Proof.
  induction 1; [apply authority_created|by eapply admit_ok|by eapply propose_ok|by eapply issue_ok].
Qed.
End Log.
