(* ===== verification/ReconciliationTheorems.v ===== *)
(** The theorems about reconciliation: comparisons are exact, single differences are repaired,
    and every authorization traces back to admitted evidence. *)

From S2P Require Import Prelude PyRegex PyText Outcomes Json Identity Checksum Economics Commission Execution Messages.
From S2P Require Import Orders.
From S2P Require Import Portfolio Reconciliation Observation Integration Ledger Adjustment ReconciliationAuthority.
From S2P Require Import Numbering LedgerLemmas LedgerSpec LedgerInvariant LedgerReach LedgerExample ReconciliationSpec.
From S2P Require Import ReconciliationReach.

Open Scope Z_scope.

Section Theorems.
Context `{Sha256}.

(** An observation of balances that is current and covers what the ledger holds. *)
Record comparable (L : PortfolioLedger) (st : LedgerState) (o : ReconciliationObservation) : Prop := {
  cm_issued : issued_observation L o;
  cm_kind : exists c, ob_kind o = snapshot_kind c;
  cm_namespace : ob_watermark_namespace o = _PORTFOLIO_LEDGER_WATERMARK_NAMESPACE;
  cm_watermark : ob_watermark_sequence o = Z.of_nat (length (st_transactions st));
  cm_complete : reports_all st o
}.
(** It differs from the ledger at [c] only, where it reports [v]. *)
Record single_mismatch (L : PortfolioLedger) (st : LedgerState) (o : ReconciliationObservation)
  (c : LedgerCommodity) (v : CanonicalDecimal) : Prop := {
  sm_comparable : comparable L st o;
  sm_kind : ob_kind o = snapshot_kind c;
  sm_reported : reports o c v;
  sm_differs : ledger_balance st c <> units v;
  sm_decimal : Z.abs (units v - ledger_balance st c) < UNIT_BOUND;
  sm_rest c' v' : ob_kind o = snapshot_kind c' -> reports o c' v' -> c' <> c -> units v' = ledger_balance st c'
}.

(** The ledger has booked neither the adjustment, nor the observation, nor the authorization. *)
Record unbooked (st : LedgerState) (adjustment_id : EconomicId) (o : ReconciliationObservation)
  (authorization_sha256 : Sha256Digest) : Prop := {
  ub_adjustment : st_adjustment_index st !! adjustment_id = None;
  ub_observation d : reconciliation_observation_digest o = Ok d -> st_observation_index st !! d = None;
  ub_authorization : st_adjustment_outcomes st !! authorization_sha256 = None
}.

Lemma numbered_positive run kind ids n : numbered run kind ids (Some n) -> 1 <= n.
Proof. intros Hn. apply numbered_next in Hn. lia. Qed.

Definition agrees (st : LedgerState) (o : ReconciliationObservation) : Prop :=
  forall c v, ob_kind o = snapshot_kind c -> reports o c v -> units v = ledger_balance st c.

(** Once the balances agree, the comparison finds nothing. *)
Lemma agreeing_balances L st o c : ledger_ok L -> state_ok L st -> st_transactions st <> [] -> observation_ok L o ->
  ob_kind o = snapshot_kind c -> reports_all st o ->
  agrees st o ->
  _compare_balances o (st_snapshot st) (l_spec_set L) = Ok [].
Proof.
  intros HL Hst Hne Ho Hk Hall Hag.
  destruct (compare_balances_exact L HL st Hst Hne o Ho (ex_intro _ c Hk) Hall) as [(ds & -> & Hin & _)|[_ (c' & v' & Hk' & Hr & Hb)]].
  - f_equal. destruct ds as [|x ds]; [done|]. destruct (proj1 (Hin x) ltac:(left)) as (c' & v' & d & Hk' & Hr & _ & Hd & Hnz).
    rewrite (Hag c' v' Hk' Hr) in Hd. lia.
  - rewrite (Hag c' v' Hk' Hr), Z.sub_diag in Hb. unfold UNIT_BOUND in Hb. simpl in Hb. lia.
Qed.

(** C2: a single difference is repaired.  When an observation of a reachable ledger differs
    from it at one commodity, by a decimal, then admitting the observation, proposing the
    command, issuing an allowed authorization and applying it all succeed: the balance of that
    commodity becomes the one the broker reported, no other balance changes, and comparing the
    observation with the ledger again finds no difference. *)
Theorem single_differences_are_repaired L st A admissions proposals issues a o c v k evidence policy version policy_digest
  available name authorization_sha256 :
  reachable L st -> st_transactions st <> [] -> Z.of_nat (length (st_transactions st)) < MAX_UINT64 ->
  authority_log A admissions proposals issues a -> rx_run_id A = l_run_id L -> rx_spec_set A = l_spec_set L ->
  single_mismatch L st o c v -> observation_index a !! (ob_source_namespace o, ob_source_sequence o) = None ->
  next_adjustment_sequence a < MAX_UINT64 -> next_authorization_sequence a < MAX_UINT64 ->
  binding_run_id evidence = l_run_id L -> (forall payload, is_Some (acknowledged evidence payload)) ->
  1 <= k <= MAX_UINT64 -> 1 <= version <= MAX_UINT64 ->
  unbooked st (mkEconomicId (l_run_id L) RECONCILIATION_ADJUSTMENT (next_adjustment_sequence a)) o authorization_sha256 ->
  exists object a1 command a2 authorization a3 outcome st',
    admit_observation A a (st_snapshot st) name o k = Ok (object, a1) /\
    propose_adjustment_command A a1 evidence object o (st_snapshot st) = Ok (command, a2) /\
    issue_authorization A a2 evidence object command policy version policy_digest ALLOWED (available, Some 0) = Ok (authorization, a3) /\
    apply_reconciliation_adjustment L st (mkAuditedAuthorization authorization authorization_sha256) command = (Ok outcome, st') /\
    ao_result outcome = APPLIED /\ reachable L st' /\ ledger_balance st' c = units v /\
    (forall c', c' <> c -> ledger_balance st' c' = ledger_balance st c') /\
    _compare_balances o (st_snapshot st') (l_spec_set L) = Ok [].
Proof.
  intros Hreach Hne Hlen Hlog HAr HAs Hm Hnew Hadj Hauthn Hbind Hack Hk Hversion Hub.
  destruct (reachable_ok L st Hreach) as [HL Hst]. pose proof (authority_log_ok A _ _ _ _ Hlog) as Ha.
  destruct Hm as [[Hiss _ Hns Hw Hall] Hkind Hv Hdif Hdec Hrest]. destruct Hub as [Hfi Hfo Hfa].
  pose proof (issued_observation_ok L o (lo_specs L HL) Hiss) as Ho. destruct (oo_digest _ _ Ho) as [osha Hosha].
  destruct (units_surj _ Hdec) as (d & _ & Hd). assert (units d <> 0) as Hnz by lia.
  destruct (oo_grid _ _ Ho c v Hkind Hv) as (q & Hq & Hg).
  assert (1 <= next_adjustment_sequence a < MAX_UINT64) as Hadj' by (split; [eapply numbered_positive, Ha|done]).
  assert (1 <= next_authorization_sequence a < MAX_UINT64) as Hauthn' by (split; [eapply numbered_positive, Ha|done]).
  assert (authorization_index a !! mkEconomicId (l_run_id L) RECONCILIATION_AUTHORIZATION (next_authorization_sequence a) = None) as Hun.
  { apply eq_None_not_Some. intros Hs. apply (ao_authorizations _ _ _ _ _ Ha) in Hs. rewrite <-HAr in Hs. revert Hs.
    apply numbered_fresh, Ha. }
  pose proof (admit_single L HL st Hst Hne Hlen A HAr HAs o Ho Hns Hw Hall c Hkind v d Hv Hd Hnz Hrest k Hk osha Hosha a Hnew name) as Hadm.
  destruct (propose_single L HL st Hst Hne Hlen A HAr HAs o Ho Hns Hw c Hkind v d Hv Hd Hrest k Hk osha Hosha a name evidence Hbind
    (fun p _ => Hack p) Hadj') as (command & csha & Hb & Hcsha & Hp).
  match type of Hp with _ = Ok (_, ?s) => set (a2 := s) in Hp end.
  destruct (command_built L st Hlen A HAs c v d k Hk osha a Hadj') as (command' & csha' & Hb' & Hcsha' & Hco & C1 & C2 & C3 & C4 & C5 & _).
  rewrite Hb' in Hb. apply Ok_inj in Hb as ->. rewrite Hcsha' in Hcsha. apply Ok_inj in Hcsha as ->.
  destruct (issue_single L st Hlen A HAr HAs c v d k Hk osha a name evidence Hbind (fun p _ => Hack p) Hadj' policy version
    Hversion policy_digest available Hauthn' Hun command csha a2 Hb' Hcsha') as (authorization & a3 & Hi & Hau);
    [apply lookup_insert_eq|apply lookup_insert_eq|apply lookup_insert_eq|done|done|].
  change (mkEconomicId _ _ (next_adjustment_sequence a)) with (single_adjustment_id L a) in Hfi. rewrite <-C2 in Hfi.
  destruct (apply_correction L HL st Hst Hlen command c q v d Hq Hg Hd Hnz Hco ltac:(by rewrite C2) ltac:(by rewrite C2)
    ltac:(rewrite C2; unfold uint64; simpl; lia) csha Hcsha' authorization authorization_sha256 Hau C1 C4 C5 Hfa Hfi
    ltac:(rewrite C3; by apply Hfo)) as (outcome & st' & Happly & Hres & Hst' & Hne' & _ & Hbal).
  exists (single_object L st c v d k osha name), (admitted_state L st o c v d k osha a name), command, a2, authorization, a3, outcome, st'.
  assert (st' = apply_op L st (OpAdjust (mkAuditedAuthorization authorization authorization_sha256) command)) as Hrun
    by (simpl; by rewrite Happly).
  split_and!; try done.
  - rewrite Hrun. by apply (reachable_run L st [OpAdjust _ command] Hreach), Forall_singleton.
  - rewrite Hbal. by rewrite decide_True.
  - intros c' Hc'. rewrite Hbal. by rewrite decide_False.
  - apply (agreeing_balances L st' o c HL Hst' Hne' Ho Hkind).
    + intros c' Hkc Hz. rewrite Hbal in Hz. case_decide as Hc; [subst; by exists v|by apply Hall].
    + intros c' v' Hkc Hr. rewrite Hbal. case_decide as Hc; [subst; f_equal; by eapply (reports_unique L)|by apply Hrest].
Qed.

(** The row of the outcome matrix for a number of discrepancies. *)
Definition balance_row (discrepancies : nat) : OutcomeCode * ReconciliationRequestedAction * bool :=
  match discrepancies with
  | 0%nat => (RECONCILIATION_MATCH, NO_ACTION, false)
  | 1%nat => (RECONCILIATION_MISMATCH, PROPOSE_SINGLE_TARGET_ADJUSTMENT, true)
  | _ => (RECONCILIATION_QUARANTINED, MANUAL_EVIDENCE_DECOMPOSITION, true)
  end.

(** C4: the outcome of a current observation lists exactly the reported balances that differ
    from the ledger, once each, with the two amounts and their exact difference, and is a
    match, a mismatch or a quarantine by their number; when all balances agree there is an
    outcome, and it is a match. *)
Theorem comparison_is_exact L st A o k : reachable L st -> st_transactions st <> [] ->
  Z.of_nat (length (st_transactions st)) < MAX_UINT64 -> rx_run_id A = l_run_id L -> rx_spec_set A = l_spec_set L ->
  comparable L st o -> 1 <= k <= MAX_UINT64 ->
  (forall out, _compare_observation A o (st_snapshot st) k = Ok out ->
     (forall x, x ∈ ro_discrepancies out <-> difference st o x) /\ NoDup (ro_discrepancies out) /\
     (ro_outcome_code out, ro_requested_action out, ro_halt_requested out) = balance_row (length (ro_discrepancies out))) /\
  (agrees st o -> exists out, _compare_observation A o (st_snapshot st) k = Ok out /\
     ro_outcome_code out = RECONCILIATION_MATCH /\ ro_halt_requested out = false).
Proof.
  intros Hreach Hne Hlen HAr HAs [Hiss [c Hkind] Hns Hw Hall] Hk. destruct (reachable_ok L st Hreach) as [HL Hst].
  pose proof (issued_observation_ok L o (lo_specs L HL) Hiss) as Ho. destruct (oo_digest _ _ Ho) as [osha Hosha].
  rewrite (compare_comparable L HL st Hst Hne A HAs o Hns Hw Hall c Hkind k osha Hosha). split.
  - intros out Hout. apply rbind_Ok in Hout as (ds & Hds & Hout).
    destruct (compare_balances_exact L HL st Hst Hne o Ho (ex_intro _ c Hkind) Hall) as [(ds' & Hds' & Hin & Hnd)|[Hr _]]; [|by rewrite Hr in Hds].
    rewrite Hds in Hds'. apply Ok_inj in Hds' as <-.
    destruct ds as [|x [|y ds]]; apply outcome_row_made in Hout as ->; done.
  - intros Hag. rewrite (agreeing_balances L st o c HL Hst Hne Ho Hkind Hall Hag). cbn [rbind].
    rewrite (comparison_outcome_made L HL st Hst Hne Hlen A HAr k Hk osha) by (simpl; lia || reflexivity). by eexists.
Qed.

(** C3: commands and authorizations trace back to admitted evidence.  Whatever the calls,
    adjustment and authorization identities are numbered from one without gaps, every
    authorization is of a proposed command of the same digest, and every proposed command
    corrects a balance the observation reports by the exact difference, for an admitted
    outcome of that observation's digest in the single-mismatch row. *)
Theorem authorizations_trace_back A admissions proposals issues a : authority_log A admissions proposals issues a ->
  numbered (rx_run_id A) RECONCILIATION_ADJUSTMENT (map (fun p => rc_adjustment_id (pr_command p)) proposals)
    (Some (next_adjustment_sequence a)) /\
  numbered (rx_run_id A) RECONCILIATION_AUTHORIZATION (map (fun x => ra_authorization_id (is_authorization x)) issues)
    (Some (next_authorization_sequence a)) /\
  (forall x, x ∈ issues -> of_proposal proposals x) /\ (forall p, p ∈ proposals -> justified admissions p).
Proof. intros Ha%authority_log_ok. split_and!; apply Ha. Qed.
End Theorems.

(** ** Witnesses: the broker reports one cent more cash than the funded ledger holds *)

Definition reported_cash (amount : CanonicalDecimal) : res ReconciliationObservation :=
  create_reconciliation_observation the_run the_spec_set (mkEconomicId the_run RECONCILIATION_OBSERVATION 1) CASH_SNAPSHOT the_source 1
    (the_time, Some 0) (the_time, Some 0) _PORTFOLIO_LEDGER_WATERMARK_NAMESPACE 1 SCOPE_CASH
    (mkPatternStr (r := VISIBLE_128) "cash" eq_refl) (mkPatternStr (r := _TOKEN_PATTERN) "statement" eq_refl) the_digest [CashReconciliationBalance usd amount].
Lemma cent_reported : is_ok (reported_cash cent_above) = true.
Proof. vm_compute. reflexivity. Qed.
Definition the_observation : ReconciliationObservation := unwrap (reported_cash cent_above) cent_reported.
Definition the_authority : Phase1ReconciliationAuthority := mkReconciliationAuthority the_run the_spec_set.
Definition the_evidence : audit_evidence := mkAuditEvidence the_run (fun _ => Some the_digest).

Lemma the_ledger_run : l_run_id the_ledger = the_run.
Proof. by destruct (create_portfolio_ledger_ok _ _ _ _ the_spec_set_ok the_creation_ok) as (_ & _ & ? & _). Qed.
Lemma the_observation_issued : issued_observation the_ledger the_observation.
Proof.
  unfold issued_observation. rewrite the_ledger_run, the_ledger_set.
  exists (mkEconomicId the_run RECONCILIATION_OBSERVATION 1), CASH_SNAPSHOT, the_source, 1, (the_time, Some 0), (the_time, Some 0),
    _PORTFOLIO_LEDGER_WATERMARK_NAMESPACE, 1, SCOPE_CASH, (mkPatternStr (r := VISIBLE_128) "cash" eq_refl),
    (mkPatternStr (r := _TOKEN_PATTERN) "statement" eq_refl), the_digest, [CashReconciliationBalance usd cent_above].
  fold (reported_cash cent_above). apply unwrap_ok.
Qed.
Lemma the_observation_kind : ob_kind the_observation = CASH_SNAPSHOT.
Proof. refine (bool_decide_unpack _ _). vm_compute. exact I. Qed.
Lemma the_observation_balances : ob_balances the_observation = [CashReconciliationBalance usd cent_above].
Proof. refine (bool_decide_unpack _ _). vm_compute. exact I. Qed.
Lemma the_observation_reports c v : ob_kind the_observation = snapshot_kind c -> reports the_observation c v ->
  c = CurrencyCommodity usd /\ v = cent_above.
Proof.
  rewrite the_observation_kind. destruct c as [i|k]; [done|]. intros _. unfold reports. rewrite the_observation_balances.
  intros [= -> ->]%list_elem_of_singleton. done.
Qed.

Lemma funded_cash_held k : ledger_balance funded_state (CurrencyCommodity k) <> 0 -> k = usd.
Proof.
  assert (forallb (fun kv : SettlementCurrency * CanonicalDecimal => bool_decide (kv.1 = usd)) (map_to_list (st_cash funded_state)) = true)
    as Hall by (vm_compute; reflexivity).
  unfold ledger_balance, balance. destruct (st_cash funded_state !! k) as [d|] eqn:Hd; [|intros []; reflexivity]. intros _.
  apply elem_of_map_to_list, list_elem_of_In in Hd. rewrite forallb_forall in Hall. apply Hall in Hd. by apply bool_decide_eq_true in Hd.
Qed.
Lemma funded_cash : ledger_balance funded_state (CurrencyCommodity usd) = 100000 * 10 ^ 18.
Proof. vm_compute. reflexivity. Qed.
Lemma funded_length : Z.of_nat (length (st_transactions funded_state)) = 1.
Proof. vm_compute. reflexivity. Qed.
Lemma funded_nonempty : st_transactions funded_state <> [].
Proof. intros Hn. pose proof funded_length as Hl. rewrite Hn in Hl. discriminate Hl. Qed.

Lemma the_observation_comparable : comparable the_ledger funded_state the_observation.
Proof.
  constructor.
  - exact the_observation_issued.
  - exists (CurrencyCommodity usd). exact the_observation_kind.
  - refine (bool_decide_unpack _ _). vm_compute. exact I.
  - rewrite funded_length. vm_compute. reflexivity.
  - intros [i|k] Hk Hz; [rewrite the_observation_kind in Hk; discriminate Hk|]. apply funded_cash_held in Hz as ->.
    exists cent_above. unfold reports. rewrite the_observation_balances. left.
Qed.
Lemma the_mismatch : single_mismatch the_ledger funded_state the_observation (CurrencyCommodity usd) cent_above.
Proof.
  constructor.
  - exact the_observation_comparable.
  - exact the_observation_kind.
  - unfold reports. rewrite the_observation_balances. left.
  - rewrite funded_cash. vm_compute. discriminate.
  - rewrite funded_cash. vm_compute. reflexivity.
  - intros c' v' Hk Hr Hne. destruct (the_observation_reports c' v' Hk Hr) as [Hc _]. destruct (Hne Hc).
Qed.

Lemma nothing_adjusted : absent (st_adjustment_index funded_state !! mkEconomicId (l_run_id the_ledger) RECONCILIATION_ADJUSTMENT 1)
  && absent (st_adjustment_outcomes funded_state !! the_digest) && (length (map_to_list (st_observation_index funded_state)) =? 0)%nat = true.
Proof. vm_compute. reflexivity. Qed.
Lemma nothing_booked : unbooked funded_state (mkEconomicId (l_run_id the_ledger) RECONCILIATION_ADJUSTMENT 1) the_observation the_digest.
Proof.
  pose proof nothing_adjusted as Hn. apply andb_true_iff in Hn as [Hn Ho]. apply andb_true_iff in Hn as [Hi Ha]. constructor.
  - exact (proj1 (is_none_true _) Hi).
  - intros d _. apply Nat.eqb_eq, nil_length_inv, map_to_list_empty_iff in Ho. rewrite Ho. apply lookup_empty.
  - exact (proj1 (is_none_true _) Ha).
Qed.

Lemma single_differences_are_repaired_witness : exists command authorization st',
  (exists outcome, apply_reconciliation_adjustment the_ledger funded_state (mkAuditedAuthorization authorization the_digest) command
    = (Ok outcome, st') /\ ao_result outcome = APPLIED) /\
  ledger_balance st' (CurrencyCommodity usd) = units cent_above.
Proof.
  destruct (single_differences_are_repaired the_ledger funded_state the_authority [] [] [] empty_authority_state the_observation
    (CurrencyCommodity usd) cent_above 1 the_evidence (mkPatternStr (r := VISIBLE_128) "policy" eq_refl) 1 the_digest the_time 1 the_digest
    funded_reachable funded_nonempty ltac:(rewrite funded_length; reflexivity) (log_created the_authority) (eq_sym the_ledger_run)
    (eq_sym the_ledger_set) the_mismatch (lookup_empty _) ltac:(reflexivity) ltac:(reflexivity) (eq_sym the_ledger_run)
    (fun _ => mk_is_Some _ _ eq_refl) ltac:(split; [discriminate|vm_compute; discriminate])
    ltac:(split; [discriminate|vm_compute; discriminate]) nothing_booked)
    as (object & a1 & command & a2 & authorization & a3 & outcome & st' & _ & _ & _ & Happly & Hres & _ & Hbal & _).
  exists command, authorization, st'. split; [|exact Hbal]. exists outcome. split; [exact Happly|exact Hres].
Defined.

Lemma the_comparison : is_ok (_compare_observation the_authority the_observation (st_snapshot funded_state) 1) = true.
Proof. vm_compute. reflexivity. Qed.
Lemma the_difference : difference funded_state the_observation
  (CashReconciliationDiscrepancy usd (local_amount funded_state (CurrencyCommodity usd)) cent_above cent).
Proof.
  exists (CurrencyCommodity usd), cent_above, cent. rewrite funded_cash. split; [exact the_observation_kind|].
  split; [exact (sm_reported _ _ _ _ _ the_mismatch)|]. split; [reflexivity|]. split; [vm_compute; reflexivity|vm_compute; discriminate].
Qed.
Lemma comparison_is_exact_witness : exists out,
  _compare_observation the_authority the_observation (st_snapshot funded_state) 1 = Ok out /\
  CashReconciliationDiscrepancy usd (local_amount funded_state (CurrencyCommodity usd)) cent_above cent ∈ ro_discrepancies out.
Proof.
  exists (unwrap _ the_comparison). split; [exact (unwrap_ok _ the_comparison)|].
  destruct (comparison_is_exact the_ledger funded_state the_authority the_observation 1 funded_reachable funded_nonempty
    ltac:(rewrite funded_length; reflexivity) (eq_sym the_ledger_run) (eq_sym the_ledger_set) the_observation_comparable
    ltac:(split; [discriminate|vm_compute; discriminate])) as [Hex _].
  destruct (Hex _ (unwrap_ok _ the_comparison)) as [Hin _]. exact (proj2 (Hin _) the_difference).
Defined.

(** The command proposed for the missing cent, and its authorization. *)
Lemma unwrap_pair {X Y} (m : res (X * Y)) (Hm : is_ok m = true) : m = Ok ((unwrap m Hm).1, (unwrap m Hm).2).
Proof. rewrite (unwrap_ok m Hm) at 1. by destruct (unwrap m Hm). Qed.

Definition the_admission_call : res (outcome_object * _AuthorityState) :=
  admit_observation the_authority empty_authority_state (st_snapshot funded_state) 1 the_observation 1.
Lemma admitted : is_ok the_admission_call = true.
Proof. vm_compute. reflexivity. Qed.
Definition the_admission : outcome_object * _AuthorityState := unwrap the_admission_call admitted.
Definition the_proposal_call : res (ReconciliationAdjustmentCommand * _AuthorityState) :=
  propose_adjustment_command the_authority the_admission.2 the_evidence the_admission.1 the_observation (st_snapshot funded_state).
Lemma proposed : is_ok the_proposal_call = true.
Proof. vm_compute. reflexivity. Qed.
Definition the_proposal : ReconciliationAdjustmentCommand * _AuthorityState := unwrap the_proposal_call proposed.
Definition the_issue_call : res (ReconciliationAdjustmentAuthorization * _AuthorityState) :=
  issue_authorization the_authority the_proposal.2 the_evidence the_admission.1 the_proposal.1 (mkPatternStr (r := VISIBLE_128) "policy" eq_refl)
    1 the_digest DENIED (the_time, Some 0).
Lemma issued : is_ok the_issue_call = true.
Proof. vm_compute. reflexivity. Qed.

Definition the_authorization : ReconciliationAdjustmentAuthorization * _AuthorityState := unwrap the_issue_call issued.

Lemma the_admission_ok : the_admission_call = Ok (the_admission.1, the_admission.2).
Proof. unfold the_admission. exact (unwrap_pair the_admission_call admitted). Qed.
Lemma the_proposal_ok : the_proposal_call = Ok (the_proposal.1, the_proposal.2).
Proof. unfold the_proposal. exact (unwrap_pair the_proposal_call proposed). Qed.
Lemma the_authorization_ok : the_issue_call = Ok (the_authorization.1, the_authorization.2).
Proof. unfold the_authorization. exact (unwrap_pair the_issue_call issued). Qed.

Lemma the_log : authority_log the_authority [(the_observation, the_admission.1)]
  [mkProposal the_admission.1 the_observation (st_snapshot funded_state) the_proposal.1]
  [mkIssue the_admission.1 the_proposal.1 the_authorization.1] the_authorization.2.
Proof.
  pose proof the_admission_ok as E1. unfold the_admission_call in E1. pose proof the_proposal_ok as E2. unfold the_proposal_call in E2.
  pose proof the_authorization_ok as E3. unfold the_issue_call in E3.
  generalize dependent the_authorization. generalize dependent the_proposal. generalize dependent the_admission.
  intros [object a1] E1 [command a2] E2 [authorization a3] E3. cbn [fst snd] in *.
  exact (log_issued _ _ _ [] _ _ _ _ _ _ _ _ _ _ _
    (log_proposed _ _ [] [] _ _ _ _ _ _ _ (log_admitted _ [] [] [] _ _ _ _ _ _ _ (log_created the_authority) E1) E2) E3).
Qed.
Lemma authorizations_trace_back_witness :
  of_proposal [mkProposal the_admission.1 the_observation (st_snapshot funded_state) the_proposal.1]
    (mkIssue the_admission.1 the_proposal.1 the_authorization.1).
Proof. exact (proj1 (proj2 (proj2 (authorizations_trace_back _ _ _ _ _ the_log))) _ (list_elem_of_here _ _)). Defined.
