(* ===== verification/OrderExample.v ===== *)
(** A concrete order flow on the instrument of [LedgerExample]: an intent to buy ten, a
    decision that resizes it to nine, a decision that allows it, a refusal, and the
    Order the allowance authorises, with the facts a broker reports about it. *)

From S2P Require Import Prelude PyRegex PyText Outcomes Json Identity Checksum Economics Commission Execution.
From S2P Require Import Messages Orders LedgerExample.

Open Scope Z_scope.

Definition an_id (kind : EconomicOwnerKind) (n : Z) : EconomicId := mkEconomicId the_run kind n.
Definition nine : CanonicalDecimal := mkDecimal "9" 9 0 eq_refl.
Definition four : CanonicalDecimal := mkDecimal "4" 4 0 eq_refl.
Definition six : CanonicalDecimal := mkDecimal "6" 6 0 eq_refl.
Definition later : datetime := mkDatetime 2024 1 2 14 31 0 0 eq_refl.

Definition the_target : TargetLineageRef := mkTargetLineageRef (an_id PORTFOLIO_TARGET 1) the_digest.
Definition the_policy_ref : ExecutionPolicyRef :=
  mkExecutionPolicyRef (mkPatternStr (r := _TOKEN_PATTERN) "policy" eq_refl) the_digest.

Definition hex (s : string) (H : fullmatch _DIGEST_PATTERN (chars s) = true) : Sha256Digest := mkPatternStr s H.
Definition spec_set_sha256 : Sha256Digest :=
  hex "0000000000000000000000000000000000000000000000000000ec20fd9c76b6" eq_refl.
Definition intent_sha256 : Sha256Digest :=
  hex "0000000000000000000000000000000000000000000000000000d430663411b1" eq_refl.
Definition effective_sha256 : Sha256Digest :=
  hex "0000000000000000000000000000000000000000000000000000b670c1db9c45" eq_refl.
Definition decision_sha256 : Sha256Digest :=
  hex "00000000000000000000000000000000000000000000000000006851e627bc40" eq_refl.
Definition approval_sha256 : Sha256Digest :=
  hex "00000000000000000000000000000000000000000000000000001be2cbc3f4f3" eq_refl.

(** ** The messages, and the factories that issue them *)

Definition the_intent : OrderIntent :=
  mkOrderIntent the_run (an_id PORTFOLIO_INTENT 1) (an_id STRATEGY_SIGNAL 1) (an_id PORTFOLIO_TARGET 1) the_target
    the_instrument BUY ten MARKET GOOD_FOR_NEXT_ELIGIBLE_MARKET_EVENT 3 the_time 7 (specification_id the_spec)
    (spec_set_identifier the_spec_set) spec_set_sha256 the_policy_ref.
Lemma the_intent_ok : create_order_intent the_run (an_id PORTFOLIO_INTENT 1) (an_id STRATEGY_SIGNAL 1) the_target
  the_instrument BUY ten 3 (the_time, Some 0) 7 the_spec_set the_policy_ref = Ok the_intent.
Proof. refine (bool_decide_unpack _ _). vm_compute. exact I. Qed.

Definition decide_intent (kind : RiskDecisionKind) (aid : option EconomicId) (q : option CanonicalDecimal)
  : res RiskDecision :=
  _create_risk_decision kind (an_id RISK_DECISION 1) the_intent the_spec_set 5 aid q.
Definition the_approval_id : EconomicId := an_id RISK_APPROVAL 1.

Definition the_approval : ExecutionApproval :=
  mkExecutionApproval the_run the_approval_id (an_id RISK_DECISION 1) (an_id PORTFOLIO_INTENT 1)
    (an_id STRATEGY_SIGNAL 1) (an_id RISK_DECISION 1) intent_sha256 effective_sha256 ten 3 5 the_time 7.
Definition the_decision : RiskDecision :=
  mkRiskDecision the_run (an_id RISK_DECISION 1) (an_id PORTFOLIO_INTENT 1) (an_id STRATEGY_SIGNAL 1)
    (an_id PORTFOLIO_INTENT 1) intent_sha256 ALLOW RISK_ALLOWED 3 5 the_time 7 (Some ten) (Some effective_sha256)
    (Some the_approval).
Lemma the_decision_ok : decide_intent ALLOW (Some the_approval_id) (Some ten) = Ok the_decision.
Proof. refine (bool_decide_unpack _ _). vm_compute. exact I. Qed.

Lemma resize_created : is_ok (decide_intent RESIZE (Some the_approval_id) (Some nine)) = true.
Proof. vm_compute. reflexivity. Qed.
Definition the_resize : RiskDecision := unwrap _ resize_created.
Lemma the_resize_ok : decide_intent RESIZE (Some the_approval_id) (Some nine) = Ok the_resize.
Proof. apply unwrap_ok. Qed.

Definition the_order : Order :=
  mkOrder the_run (an_id EXECUTION_ORDER 1) (an_id PORTFOLIO_INTENT 1) (an_id STRATEGY_SIGNAL 1) the_approval_id
    (an_id RISK_DECISION 1) the_approval_id intent_sha256 effective_sha256 decision_sha256 approval_sha256 3 5 7
    the_instrument BUY ten MARKET GOOD_FOR_NEXT_ELIGIBLE_MARKET_EVENT (specification_id the_spec)
    (spec_set_identifier the_spec_set) spec_set_sha256 the_policy_ref the_time.
Lemma the_order_ok : create_order (an_id EXECUTION_ORDER 1) the_intent the_decision the_spec_set = Ok the_order.
Proof. refine (bool_decide_unpack _ _). vm_compute. exact I. Qed.

(** ** Facts about the Order *)

Definition order_trade (n : Z) (q : CanonicalDecimal) : res ExecutionFact :=
  create_trade_execution_fact the_source (DedupSequence n) (the_time, Some 0) the_provenance the_spec_set
    the_instrument BUY q price_123_45 None (Some (order_client_submission_key the_order)) None
    (Some (od_order_id the_order)) (Some (od_correlation_id the_order)) (Some (od_order_id the_order)).
Definition order_event (n : Z) (kind : ExecutionFactKind) : res ExecutionFact :=
  create_lifecycle_execution_fact kind the_source (DedupSequence n) (the_time, Some 0) the_provenance
    (Some the_instrument) (Some (order_client_submission_key the_order)) None (Some (od_order_id the_order))
    (Some (od_correlation_id the_order)) (Some (od_order_id the_order)) None.
Definition order_query (n : Z) (code : OutcomeCode) : res ExecutionFact :=
  create_submission_query_execution_fact the_source (DedupSequence n) (the_time, Some 0) the_provenance code
    the_order None.

Lemma trade_four_created : is_ok (order_trade 1 four) = true.
Proof. vm_compute. reflexivity. Qed.
Lemma trade_six_created : is_ok (order_trade 2 six) = true.
Proof. vm_compute. reflexivity. Qed.
Lemma acknowledged_created : is_ok (order_event 3 ACKNOWLEDGEMENT) = true.
Proof. vm_compute. reflexivity. Qed.
Lemma query_created : is_ok (order_query 4 RECONCILIATION_SUBMISSION_CONFIRMED_SUBMITTED) = true.
Proof. vm_compute. reflexivity. Qed.
Definition trade_four : ExecutionFact := unwrap _ trade_four_created.
Definition trade_six : ExecutionFact := unwrap _ trade_six_created.
Definition acknowledged : ExecutionFact := unwrap _ acknowledged_created.
Definition queried : ExecutionFact := unwrap _ query_created.
