(* ===== verification/RiskTheorems.v ===== *)
(** The claims about the risk authority, with a concrete run. *)

From S2P Require Import Prelude PyRegex PyText Outcomes Json Identity Checksum Numbering Economics Commission.
From S2P Require Import Execution Messages Orders Decoders Portfolio Risk RiskAuthority RiskSpec LedgerExample.
From S2P Require Import OrderExample Canonical OrderCodec RiskReach.

Open Scope Z_scope.

(** *** A concrete run of the risk authority on the instrument of [LedgerExample], with an
    order limit of nine, a position limit of twelve and a position of six: an intent to
    buy ten is resized to six, one to sell nine is allowed, the first comes back with
    other bytes and halts the authority, and a third is rejected. *)

Definition twelve : CanonicalDecimal := mkDecimal "12" 12 0 eq_refl.
Definition the_limit : InstrumentRiskLimit := mkRiskLimit the_instrument nine twelve.
Definition specs_checksum : Sha256Digest := instrument_spec_set_digest the_spec_set.
Definition the_risk_policy_id : RiskPolicyId := mkPatternStr (r := _TOKEN_PATTERN) "risk" eq_refl.
Lemma the_policy_created : is_ok (create_phase1_risk_policy the_risk_policy_id the_spec_set the_policy_ref [the_limit]) = true.
Proof. vm_compute. reflexivity. Qed.
Definition the_risk_policy : Phase1RiskPolicy := unwrap _ the_policy_created.

Lemma the_risk_created : is_ok (create_phase1_risk_authority the_run the_spec_set the_policy_ref the_risk_policy) = true.
Proof. vm_compute. reflexivity. Qed.
Definition the_risk_creation : RiskAuthorityContext * RiskAuthority._AuthorityState := unwrap _ the_risk_created.
Definition the_risk_context : RiskAuthorityContext := the_risk_creation.1.
Definition the_initial_risk : RiskAuthority._AuthorityState := the_risk_creation.2.

Lemma the_risk_established : established the_risk_context the_initial_risk.
Proof.
  exists the_run, the_spec_set, the_policy_ref, the_risk_policy_id, [the_limit], the_risk_policy.
  split_and!; [exact the_spec_set_ok| |apply unwrap_ok|].
  - constructor; [|constructor]. refine (bool_decide_unpack _ _). vm_compute. exact I.
  - rewrite (unwrap_ok _ the_risk_created). unfold the_risk_context, the_initial_risk, the_risk_creation.
    by destruct (unwrap _ _).
Qed.

Definition the_portfolio : PortfolioSnapshot :=
  {| snap_run_id := the_run;
     snap_spec_set_id := spec_set_identifier the_spec_set;
     snap_spec_set_sha256 := specs_checksum;
     snapshot_version := 3;
     ledger_sequence := 3;
     last_entry_id := None;
     last_transaction_sha256 := None;
     cash_balances := [mkCashBalance usd cent hundred_thousand];
     position_balances := [mkPositionBalance the_instrument one six];
     rounding_balances := [];
     unresolved_fills := [];
     open_reconciliation_bindings := [];
     open_reconciliation_refs := [] |}.

(** The [n]-th intent. *)
Definition an_intent (n : Z) (side : OrderSide) (q : CanonicalDecimal) : OrderIntent :=
  mkOrderIntent the_run (an_id PORTFOLIO_INTENT n) (an_id STRATEGY_SIGNAL n) (an_id PORTFOLIO_TARGET 1) the_target
    the_instrument side q MARKET GOOD_FOR_NEXT_ELIGIBLE_MARKET_EVENT 3 the_time 7 (specification_id the_spec)
    (spec_set_identifier the_spec_set) specs_checksum the_policy_ref.
Definition buy_ten : OrderIntent := an_intent 1 BUY ten.
Definition sell_nine : OrderIntent := an_intent 2 SELL nine.
Definition buy_nine_again : OrderIntent := an_intent 1 BUY nine.
Definition buy_four : OrderIntent := an_intent 3 BUY four.

Definition two_decided : list risk_operation := [Evaluate buy_ten the_portfolio; Evaluate sell_nine the_portfolio].
Definition the_conflict : risk_operation := Evaluate buy_nine_again the_portfolio.
Definition the_refused : risk_operation := Evaluate buy_four the_portfolio.
Definition decided_state : RiskAuthority._AuthorityState := operate the_risk_context the_initial_risk two_decided.
Definition halted_state : RiskAuthority._AuthorityState := perform the_risk_context decided_state the_conflict.

Lemma decided_reachable : reachable the_risk_context decided_state.
Proof. exists the_initial_risk, two_decided. split; [exact the_risk_established|reflexivity]. Qed.
Lemma halted_reachable : reachable the_risk_context halted_state.
Proof.
  exists the_initial_risk, (two_decided ++ [the_conflict]). split; [exact the_risk_established|].
  by rewrite operate_snoc.
Qed.

(** What a run decided, as plain data. *)
Definition risk_summary (st : RiskAuthority._AuthorityState) :=
  (halted (risk_state st), decision_next st, approval_next st,
   map (fun r => (rd_kind (result_decision r), reason_code (result_evidence r),
                  units <$> rd_approved_quantity (result_decision r))) (results st)).
Definition unit_count (n : Z) : Z := n * 10 ^ 18.
Lemma the_risk_summary :
  risk_summary (perform the_risk_context halted_state the_refused)
  = (true, Some 4, Some 3,
     [(RESIZE, RESIZED_POSITION_LIMIT, Some (unit_count 6)); (ALLOW, WITHIN_LIMITS, Some (unit_count 9));
      (REJECT, HALTED, None)]).
Proof. refine (bool_decide_unpack _ _). vm_compute. exact I. Qed.

#[global] Opaque decided_state halted_state.

Definition approved_quantity (r : RiskEvaluationResult) : option CanonicalDecimal :=
  rd_approved_quantity (result_decision r).
Definition approves (r : RiskEvaluationResult) : bool := negb (absent (approved_quantity r)).
Lemma some_approved : existsb approves (results decided_state) = true.
Proof. vm_compute. reflexivity. Qed.
Lemma approved_member (l : list RiskEvaluationResult) : existsb approves l = true ->
  exists r q, r ∈ l /\ rd_approved_quantity (result_decision r) = Some q.
Proof.
  intros (r & Hin & H)%existsb_exists. unfold approves, approved_quantity in H.
  destruct (rd_approved_quantity (result_decision r)) as [q|] eqn:E; [|done].
  exists r, q. split; [by apply list_elem_of_In|exact E].
Qed.
(** What the next evaluation needs. *)
Definition fresh_intent (st : RiskAuthority._AuthorityState) (intent : OrderIntent) : bool :=
  absent (replay_index st !! oi_intent_id intent) && is_ok (_require_structural_intent the_risk_context intent)
  && negb (absent (decision_next st)).
Lemma buy_four_fresh : fresh_intent decided_state buy_four = true.
Proof. vm_compute. reflexivity. Qed.
Lemma halted_is_halted : halted (risk_state halted_state) = true.
Proof. vm_compute. reflexivity. Qed.
Lemma buy_four_evaluates : is_ok (evaluate the_risk_context decided_state buy_four the_portfolio).1 = true.
Proof. vm_compute. reflexivity. Qed.
Lemma negative_refused :
  is_ok (evaluate the_risk_context decided_state buy_nine_again the_portfolio).1 = false.
Proof. vm_compute. reflexivity. Qed.

(** *** The claims about the risk authority with their witnesses on the run. *)

Section Claims.
Context `{hash : Sha256} (context : RiskAuthorityContext).

(** C18: every quantity the authority ever approves is positive, no more than was asked for
    and than the instrument's order limit, and leaves the position of the portfolio
    snapshot it was evaluated on, which is the one the intent was made from, within the
    position limit of the side it moves to. *)
Theorem approvals_stay_within_limits st r q : reachable context st -> r ∈ results st ->
  rd_approved_quantity (result_decision r) = Some q ->
  exists intent snapshot l,
    rd_intent_id (result_decision r) = oi_intent_id intent /\
    re_intent_sha256 (result_evidence r) = order_intent_digest intent /\
    re_portfolio_snapshot_sha256 (result_evidence r) = portfolio_snapshot_digest snapshot /\
    snapshot_version snapshot = oi_portfolio_snapshot_version intent /\
    l ∈ instrument_limits (ra_policy context) /\ limit_instrument l = oi_instrument intent /\
    approves_within (limit_units l) (units (_position_for snapshot (oi_instrument intent))) (oi_side intent)
      (units (oi_quantity intent)) (units q).
Proof.
  intros Hst Hr Hq. destruct (reachable_log _ _ Hst) as (Hb & l & Hl).
  destruct (result_entry _ _ _ _ Hl Hr) as (e & He & Hi & ->). cbn [result_decision result_evidence] in *.
  destruct (is_approved _ _ Hi _ Hq) as (Hlin & _ & (lim & Hlim & Hw) & _).
  destruct (is_decision _ _ Hi) as (k & i & v & aid & q' & Hd & _).
  destruct (created_decision_fields _ _ _ _ _ _ _ _ Hd) as (_ & _ & E3 & _).
  destruct (evidence_inputs _ _ _ _ _ _ _ _ _ _ _ _ (is_evidence _ _ Hi)) as (E4 & E5 & _).
  destruct (bd_limits _ Hb _ _ Hlim) as [Hli _].
  exists (entry_intent e), (entry_snapshot e), lim. split_and!; try done; [by eapply same_version|].
  apply (bd_member _ Hb). by rewrite Hli.
Qed.

(** C19: a structurally valid intent that is new to the authority is decided, and the
    decision, its reason and its quantity are those of the policy on integers: a lineage
    failure fails the evaluation, a halt rejects, otherwise the limits size the intent,
    and an executable verdict fails when no approval number is left. *)
Theorem new_intents_follow_policy st intent snapshot : reachable context st ->
  replay_index st !! oi_intent_id intent = None ->
  is_ok (_require_structural_intent context intent) = true ->
  decision_next st <> None -> 0 <= oi_dispatch_sequence intent -> 0 <= snapshot_version snapshot ->
  exists failure result st', _classify_lineage_failure context intent snapshot = Ok failure /\
    evaluate context st intent snapshot = (Ok result, st') /\
    (rd_kind (result_decision result), reason_code (result_evidence result),
     units <$> rd_approved_quantity (result_decision result))
    = allocated_verdict (approval_next st) (expected_verdict context st intent snapshot failure).
Proof.
  intros Hst Hi Hs Hn Hd Hv. destruct (reachable_log _ _ Hst) as (Hb & l & Hl).
  destruct (decision_next st) as [n|] eqn:En; [|done].
  destruct (evaluate_new_total _ Hb _ _ _ snapshot _ Hl Hs En Hv) as (f & r & st' & Hf & He & Hr).
  exists f, r, st'. split_and!; [done| |done]. unfold evaluate. rewrite (proj2 (Z.ltb_ge _ _) Hd), Hi. by rewrite He.
Qed.

(** A halted authority stays as it is and approves nothing more. *)
Definition only_refuses (st st' : _AuthorityState) : Prop :=
  risk_state st' = risk_state st /\ approval_next st' = approval_next st /\
  exists refused, results st' = results st ++ refused /\
    Forall (fun r => executable_kind (rd_kind (result_decision r)) = false /\ rd_approval (result_decision r) = None) refused.

Lemma only_refuses_refl st : only_refuses st st.
Proof. split_and!; [done|done|]. exists []. by rewrite app_nil_r. Qed.

Lemma halted_evaluation st intent snapshot m st' : reachable context st -> halted (risk_state st) = true ->
  evaluation context st intent snapshot m st' -> only_refuses st st'.
Proof.
  intros Hst Hh [r Hi Hbytes|r Hi Hbytes|result st1 Hreg|e _]; try rewrite Hh; try apply only_refuses_refl.
  destruct (reachable_log _ _ Hst) as (Hb & l & Hl).
  destruct Hreg as [s before after [[k r] q] a d p Hi Hs Hn Ha Hv Hal Hd Hp].
  assert (executable_kind k = false) as Hk.
  { unfold verdict_on in Hv. apply rbind_Ok in Hv as ([f|] & _ & Hv); [by injection Hv as <- <- <-|].
    rewrite Hh in Hv. by injection Hv as <- <- <-. }
  cbn [fst snd] in Hal. unfold allocate_approval in Hal. rewrite Hk in Hal. apply Ok_inj in Hal. subst a.
  assert (exists v, _create_risk_decision k (mkEconomicId (ra_run_id context) RISK_DECISION before) intent
    (ra_spec_set context) v None None = Ok d) as [v Hc].
  { destruct k; [discriminate Hk|discriminate Hk| |]; cbn in Hd; eexists; exact Hd. }
  destruct (created_decision_fields _ _ _ _ _ _ _ _ Hc) as (E1 & _ & _ & _ & _ & _ & _ & _ & _ & _ & _ & _ & Hf).
  change (executable k) with (executable_kind k) in Hf. rewrite Hk in Hf. destruct Hf as [Hf _].
  split_and!; [done|done|]. eexists. split; [done|]. constructor; [|constructor]. cbn. by rewrite E1.
Qed.

(** C25: a halt is final. Whatever is evaluated and whatever halts are asked for after it,
    the halted state is never rewritten, no approval number is spent, and every decision
    made from then on is a refusal without approval. *)
Theorem halt_is_final st ops : reachable context st -> halted (risk_state st) = true ->
  only_refuses st (operate context st ops).
Proof.
  intros Hst Hh. induction ops as [|op ops IH] using rev_ind; [apply only_refuses_refl|].
  assert (reachable context (operate context st ops)) as Hst'.
  { destruct Hst as (st0 & pre & He & ->). exists st0, (pre ++ ops). split; [done|].
    unfold operate. by rewrite fold_left_app. }
  rewrite operate_snoc. revert IH Hst'. generalize (operate context st ops) as mid.
  intros mid (R1 & R2 & refused & R3 & R4) Hmid. assert (halted (risk_state mid) = true) as Hhm by by rewrite R1.
  assert (only_refuses mid (perform context mid op)) as (S1 & S2 & more & S3 & S4).
  { destruct op as [intent snapshot|reason at_ n]; cbn [perform].
    - destruct (evaluate _ _ _ _) as [m st'] eqn:E. apply evaluate_evaluation in E. by eapply halted_evaluation.
    - destruct (engage_halt _ _ _ _ _) as [[s st']|e] eqn:E; [|apply only_refuses_refl].
      apply engage_halt_state in E as (-> & _). rewrite Hhm. apply only_refuses_refl. }
  split_and!; [congruence|congruence|]. exists (refused ++ more). split; [by rewrite S3, R3, app_assoc|].
  by apply Forall_app.
Qed.

(** ** Replays *)

(** An intent identity is settled by its first decision. Whatever happens in between,
    the same intent is answered with the same result, on any portfolio snapshot, and
    nothing changes; a different intent under that identity is refused, engages the halt
    and leaves the decisions and the replay index as they were. *)
Theorem intent_identities_are_settled st intent snapshot r st1 ops intent' snapshot' :
  evaluate context st intent snapshot = (Ok r, st1) ->
  oi_intent_id intent' = oi_intent_id intent -> 0 <= oi_dispatch_sequence intent' ->
  let st2 := operate context st1 ops in
  (intent' = intent -> evaluate context st2 intent' snapshot' = (Ok r, st2)) /\
  (intent' <> intent -> exists st3,
     evaluate context st2 intent' snapshot' = (Raise (RiskAuthorityError CONFLICTING_ID), st3) /\
     halted (risk_state st3) = true /\ results st3 = results st2 /\ replay_index st3 = replay_index st2).
Proof.
  intros He Hid Hd st2. destruct (decided_recorded _ _ _ _ _ _ He) as (x & Hx & Hb & Hr).
  assert (replay_index st2 !! oi_intent_id intent' = Some x) as Hx2 by (rewrite Hid; by apply replay_kept).
  generalize dependent st2. intros st2 Hx2. unfold evaluate. rewrite (proj2 (Z.ltb_ge _ _) Hd), Hx2. split.
  - intros ->. by rewrite (bool_decide_eq_true_2 _ Hb), Hr.
  - intros Hne. rewrite bool_decide_eq_false_2.
    + unfold _engage_identity_conflict. destruct (halted (risk_state st2)) eqn:Hh; [by exists st2|].
      rewrite conflict_snapshot by done. by eexists.
    + rewrite Hb. intros Hbytes. apply Hne. symmetry. by apply (canonical_bytes_inj _order_intent_document).
Qed.

(** ** Numbering and membership *)

(** Decisions, and the approvals they carry, are numbered from one without gaps in
    the order they were made, up to the last unsigned 64-bit number; no intent is decided
    twice; and results, evidence and decisions are the same evaluations. *)
Theorem risk_decisions_are_numbered st : reachable context st ->
  numbered (ra_run_id context) RISK_DECISION (map rd_decision_id (decisions st)) (decision_next st) /\
  numbered (ra_run_id context) RISK_APPROVAL (approvals_of (decisions st)) (approval_next st) /\
  NoDup (map rd_intent_id (decisions st)) /\
  decisions st = map result_decision (results st) /\ evidence st = map result_evidence (results st).
Proof.
  intros Hst. destruct (reachable_log _ _ Hst) as (_ & l & Hl).
  pose proof (lg_issued _ _ _ Hl) as Hi. rewrite Forall_forall in Hi.
  assert (map (fun e => rd_intent_id (entry_decision e)) l = map (fun e => oi_intent_id (entry_intent e)) l) as Hids.
  { apply map_ext_in. intros e He%list_elem_of_In. destruct (is_decision _ _ (Hi _ He)) as (k & i & v & aid & q & Hd & _).
    by destruct (created_decision_fields _ _ _ _ _ _ _ _ Hd) as (_ & _ & ? & _). }
  split_and!; [apply Hl|apply Hl| | |].
  - rewrite (lg_decisions _ _ _ Hl), map_map, Hids. apply Hl.
  - rewrite (lg_decisions _ _ _ Hl), (lg_results _ _ _ Hl), map_map. apply map_ext_in. intros e He%list_elem_of_In.
    by rewrite (is_record _ _ (Hi _ He)).
  - rewrite (lg_evidence _ _ _ Hl), (lg_results _ _ _ Hl), map_map. apply map_ext_in. intros e He%list_elem_of_In.
    by rewrite (is_record _ _ (Hi _ He)) at 2.
Qed.

(** The membership query is sound and complete. It accepts a decision and its evidence
    for an intent only when the authority made them for exactly that intent, and it
    accepts, for ever after, every result an evaluation returned. *)
Theorem membership_is_exact st intent decision proof : reachable context st ->
  (has_issued_result st (oi_intent_id intent) (canonical_order_intent_bytes intent)
     (canonical_risk_decision_bytes decision) (canonical_risk_evaluation_evidence_bytes proof) = true ->
   mkRiskResult decision proof ∈ results st /\
   exists snapshot, issued context (intent, snapshot, record_of intent snapshot decision proof)) /\
  (forall snapshot st1 ops, evaluate context st intent snapshot = (Ok (mkRiskResult decision proof), st1) ->
   has_issued_result (operate context st1 ops) (oi_intent_id intent) (canonical_order_intent_bytes intent)
     (canonical_risk_decision_bytes decision) (canonical_risk_evaluation_evidence_bytes proof) = true).
Proof.
  intros Hst. split.
  - exact (membership_sound context st intent (mkRiskResult decision proof) Hst).
  - intros snapshot st1 ops. by apply (membership_complete context st intent snapshot (mkRiskResult decision proof)).
Qed.

(** An evaluation that raises raises a risk-authority error with one of its four
    codes; no assertion of the authority ever fails; and no decision, approval number or
    replay record is lost or made by it, while the risk state either stays or is halted. *)
Theorem evaluation_errors_are_closed st intent snapshot e st' : reachable context st ->
  evaluate context st intent snapshot = (Raise e, st') ->
  closed_error e /\ results st' = results st /\ replay_index st' = replay_index st /\
  decision_next st' = decision_next st /\ approval_next st' = approval_next st /\
  (risk_state st' = risk_state st \/ halted (risk_state st) = false /\ halted (risk_state st') = true).
Proof.
  intros Hst H. destruct (reachable_log _ _ Hst) as (Hb & l & Hl). split.
  - unfold evaluate in H. destruct (Z.ltb_spec (oi_dispatch_sequence intent) 0) as [|Hd].
    { injection H as <- _. apply raise_closed, list_elem_of_In. vm_compute. tauto. }
    destruct (replay_index st !! oi_intent_id intent) as [x|] eqn:Hx.
    + destruct (bool_decide _); [done|]. assert (e = raise_authority CONFLICTING_ID) as ->.
      { unfold _engage_identity_conflict in H. destruct (halted _); [by injection H|].
        rewrite conflict_snapshot in H by done. by injection H. }
      apply raise_closed, list_elem_of_In. vm_compute. tauto.
    + destruct (evaluate_new _ _ _ _) as [[r next]|e'] eqn:Hn; [done|]. injection H as <- _.
      by eapply evaluate_new_error.
  - apply evaluate_evaluation in H. remember (Raise e) as m eqn:Em.
    destruct H as [| x Hi Hbytes| |e' _]; try done; [|by split_and!; auto].
    destruct (halted (risk_state st)) eqn:Hh; split_and!; auto.
Qed.
End Claims.

(** ** Witnesses *)

Lemma approvals_stay_within_limits_witness : exists r q, r ∈ results decided_state /\
  rd_approved_quantity (result_decision r) = Some q /\ exists intent snapshot l,
    rd_intent_id (result_decision r) = oi_intent_id intent /\ snapshot_version snapshot = oi_portfolio_snapshot_version intent /\
    approves_within (limit_units l) (units (_position_for snapshot (oi_instrument intent))) (oi_side intent)
      (units (oi_quantity intent)) (units q).
Proof.
  destruct (approved_member _ some_approved) as (r & q & Hr & Hq). exists r, q. split; [exact Hr|]. split; [exact Hq|].
  destruct (approvals_stay_within_limits the_risk_context decided_state r q decided_reachable Hr Hq) as
    (intent & snapshot & l & H1 & _ & _ & H2 & _ & _ & H3).
  exists intent, snapshot, l. auto.
Defined.

Lemma new_intents_follow_policy_witness : exists failure result st',
  _classify_lineage_failure the_risk_context buy_four the_portfolio = Ok failure /\
  evaluate the_risk_context decided_state buy_four the_portfolio = (Ok result, st') /\
  (rd_kind (result_decision result), reason_code (result_evidence result),
   units <$> rd_approved_quantity (result_decision result))
  = allocated_verdict (approval_next decided_state)
      (expected_verdict the_risk_context decided_state buy_four the_portfolio failure).
Proof.
  pose proof buy_four_fresh as H. unfold fresh_intent in H. apply andb_true_iff in H as [[H1 H2]%andb_true_iff H3].
  apply (new_intents_follow_policy the_risk_context decided_state buy_four the_portfolio decided_reachable).
  - destruct (replay_index decided_state !! oi_intent_id buy_four); [discriminate H1|reflexivity].
  - exact H2.
  - intros Hn. rewrite Hn in H3. discriminate H3.
  - vm_compute. discriminate.
  - vm_compute. discriminate.
Defined.

Lemma halt_is_final_witness :
  only_refuses halted_state (operate the_risk_context halted_state [the_refused; the_conflict]).
Proof. apply (halt_is_final the_risk_context halted_state _ halted_reachable halted_is_halted). Defined.

Lemma intent_identities_are_settled_witness : exists r st1,
  evaluate the_risk_context decided_state buy_four the_portfolio = (Ok r, st1) /\
  evaluate the_risk_context (operate the_risk_context st1 [the_conflict]) buy_four the_portfolio
  = (Ok r, operate the_risk_context st1 [the_conflict]).
Proof.
  pose proof buy_four_evaluates as H.
  destruct (evaluate the_risk_context decided_state buy_four the_portfolio) as [[r|e] st1] eqn:E; [|discriminate H].
  exists r, st1. split; [reflexivity|].
  assert (0 <= oi_dispatch_sequence buy_four) as Hd by (vm_compute; discriminate).
  destruct (intent_identities_are_settled the_risk_context decided_state buy_four the_portfolio r st1 [the_conflict]
    buy_four the_portfolio E eq_refl Hd) as [Hsame _].
  exact (Hsame eq_refl).
Defined.

Lemma risk_decisions_are_numbered_witness :
  numbered (ra_run_id the_risk_context) RISK_DECISION (map rd_decision_id (decisions decided_state))
    (decision_next decided_state).
Proof. exact (proj1 (risk_decisions_are_numbered the_risk_context decided_state decided_reachable)). Defined.

Lemma membership_is_exact_witness : exists r st1,
  evaluate the_risk_context decided_state buy_four the_portfolio = (Ok r, st1) /\
  has_issued_result st1 (oi_intent_id buy_four) (canonical_order_intent_bytes buy_four)
    (canonical_risk_decision_bytes (result_decision r)) (canonical_risk_evaluation_evidence_bytes (result_evidence r))
  = true.
Proof.
  pose proof buy_four_evaluates as H.
  destruct (evaluate the_risk_context decided_state buy_four the_portfolio) as [[[d p]|e] st1] eqn:E; [|discriminate H].
  exists (mkRiskResult d p), st1. split; [reflexivity|].
  exact (proj2 (membership_is_exact the_risk_context decided_state buy_four d p decided_reachable) the_portfolio st1 [] E).
Defined.

Lemma evaluation_errors_are_closed_witness : exists e st',
  evaluate the_risk_context decided_state buy_nine_again the_portfolio = (Raise e, st') /\ closed_error e /\
  results st' = results decided_state.
Proof.
  pose proof negative_refused as H.
  destruct (evaluate the_risk_context decided_state buy_nine_again the_portfolio) as [[r|e] st'] eqn:E; [discriminate H|].
  exists e, st'. split; [reflexivity|].
  destruct (evaluation_errors_are_closed the_risk_context decided_state buy_nine_again the_portfolio e st'
    decided_reachable E) as (H1 & H2 & _).
  split; [exact H1|exact H2].
Defined.
