(* ===== verification/StrategyTheorems.v ===== *)
(** The claims about the signal authority, with a concrete run. *)

From S2P Require Import Prelude PyRegex PyText Outcomes Json Identity Chronology MarketData MarketDataTheorems.
From S2P Require Import Checksum Economics Execution Messages MarketCodec Runtime Strategy StrategyAuthority.
From S2P Require Import StrategySpec LedgerExample OrderExample Numbering Indexing Canonical.

Open Scope Z_scope.

(** *** A concrete run of the signal authority on two minute bars of the instrument of
    [LedgerExample], live under dispatches seven and eight: the first asks for a long
    position, the second for a flat one, and the first comes back with another direction. *)

Definition the_bar (s e : datetime) : Bar :=
  mkBar the_instrument s e RAW float_1 float_2 float_1 float_2 float_zero.
Definition long_bar : MarketDataEnvelope := mkEnvelope (the_bar minute_0 minute_1) feed minute_1 1 0.
Definition flat_bar : MarketDataEnvelope := mkEnvelope (the_bar minute_1 minute_2) feed minute_2 2 0.

(** The dispatches of the run, and a verifier that vouches for them. *)
Definition the_dispatches : list (MarketDataEnvelope * Z) := [(long_bar, 7); (flat_bar, 8)].
Definition was_live (root : MarketDataEnvelope) (n : Z) : Prop := (root, n) ∈ the_dispatches.
Definition the_verifier_object : BinNums.positive := 3.
Definition the_verifier : verifier_operation := fun root n =>
  if bool_decide ((root, n) ∈ the_dispatches)
  then Ok (mkMarketProof the_run root (canonical_market_data_record_bytes root) (causal_market_digest root) n
             the_verifier_object)
  else Raise (StrategyContractError CONFLICTING_ID).

Definition the_signal_authority : StrategySignalAuthority := mkSignalAuthority the_run the_verifier_object.
Lemma the_signals_created : is_ok (create_strategy_signal_authority the_run the_verifier_object 1 0 None) = true.
Proof. vm_compute. reflexivity. Qed.
Definition no_signals : _AuthorityState := (unwrap _ the_signals_created).2.

Definition issue_on (st : _AuthorityState) (root : MarketDataEnvelope) (n : Z) (d : SignalDirection) :=
  issue the_signal_authority the_verifier st root n d.
Definition first_issue := issue_on no_signals long_bar 7 LONG.
Definition second_issue := issue_on first_issue.2 flat_bar 8 FLAT.
Lemma first_issued : is_ok first_issue.1 = true.
Proof. vm_compute. reflexivity. Qed.
Lemma second_issued : is_ok second_issue.1 = true.
Proof. vm_compute. reflexivity. Qed.
Definition the_long_signal : StrategySignal := unwrap _ first_issued.
Definition the_flat_signal : StrategySignal := unwrap _ second_issued.
Definition signalled_state : _AuthorityState := second_issue.2.
Definition long_taken : taken := mkTaken long_bar 7 LONG.
Definition flat_taken : taken := mkTaken flat_bar 8 FLAT.

Lemma the_verifier_vouches : vouches the_signal_authority was_live the_verifier.
Proof.
  intros root n proof. unfold the_verifier, was_live.
  by destruct (bool_decide_reflect ((root, n) ∈ the_dispatches)).
Qed.

#[local] Abbreviation reached := (signal_reachable the_signal_authority 1 0 None was_live).

Lemma no_signals_reachable : reached no_signals [].
Proof.
  apply signal_start. change (create_strategy_signal_authority the_run the_verifier_object 1 0 None
    = Ok (the_signal_authority, no_signals)).
  rewrite (unwrap_ok _ the_signals_created). f_equal.
Qed.

Lemma issued_pair {A S} (p : res A * S) (H : is_ok p.1 = true) : p = (Ok (unwrap p.1 H), p.2).
Proof. destruct p as [m st]. cbn [fst snd] in *. by rewrite <-(unwrap_ok m H). Qed.
Lemma signalled_reachable : reached signalled_state [long_taken; flat_taken].
Proof.
  pose proof (signal_issued _ _ _ _ _ the_verifier _ _ _ _ _ _ _ no_signals_reachable the_verifier_vouches
    (issued_pair first_issue first_issued)) as H1.
  exact (signal_issued _ _ _ _ _ the_verifier _ _ _ _ _ _ _ H1 the_verifier_vouches (issued_pair second_issue second_issued)).
Qed.

(** The run as plain data: the number, dispatch and direction of each signal. *)
Definition signal_summary (s : StrategySignal) : Z * Z * SignalDirection :=
  (owner_sequence (sg_signal_id s), sg_dispatch_sequence s, sg_direction s).
Lemma the_signal_summary : map signal_summary [the_long_signal; the_flat_signal] = [(1, 7, LONG); (2, 8, FLAT)].
Proof. vm_compute. reflexivity. Qed.
Lemma still_running : ss_halted (sa_public no_signals) = false.
Proof. vm_compute. reflexivity. Qed.
Lemma long_bar_live : is_ok (active_proof the_signal_authority the_verifier long_bar 7) = true.
Proof. vm_compute. reflexivity. Qed.

#[global] Opaque no_signals signalled_state the_long_signal the_flat_signal.

(** *** The claims about the signal authority, with their witnesses on the run. *)

Lemma taken_dispatch log i t : log !! i = Some t -> tk_dispatch t ∈ map tk_dispatch log.
Proof. intros Hi. apply list_elem_of_In, in_map, list_elem_of_In. by eapply list_elem_of_lookup_2. Qed.

Section Claims.
Context `{hash : Sha256} (a : StrategySignalAuthority) (first count : Z) (start : option Z).
Context (live : MarketDataEnvelope -> Z -> Prop).
#[local] Abbreviation reached := (signal_reachable a first count start live).

(** Signals are numbered from the first number without gaps, in the order of their
    dispatches, which strictly increase and start after the last one of an earlier run;
    every one was live when it was taken; and the lookup by dispatch answers exactly the
    signals issued, each with its number, instrument, time, digest of the record and
    direction. *)
Theorem signals_are_numbered st log : reached st log ->
  (forall n signal, lookup_by_dispatch_sequence st n = Ok (Some signal) <->
     exists i t, log !! i = Some t /\ tk_dispatch t = n /\ signal = signal_of a first t i) /\
  in_order start (map tk_dispatch log) /\ Forall (fun t => live (tk_root t) (tk_dispatch t)) log /\
  signal_next (sa_public st) = number_after first (length log) /\ first + Z.of_nat (length log) <= MAX_UINT64 + 1 /\
  issuance_count (sa_public st) = count + Z.of_nat (length log).
Proof.
  intros L%signal_reachable_logged. pose proof (sl_live _ _ _ _ _ _ _ L) as Hlive. split_and!; try apply L.
  - intros n signal. unfold lookup_by_dispatch_sequence. split.
    + destruct (_ || _); [done|]. intros Hs%Ok_inj. apply fmap_Some in Hs as (r & Hr & ->).
      apply (sl_replay _ _ _ _ _ _ _ L) in Hr as (i & t & Hi & Hd & ->). by exists i, t.
    + intros (i & t & Hi & Hd & ->). rewrite Forall_forall in Hlive.
      destruct (Hlive t) as [Hb _]; [by eapply list_elem_of_lookup_2|].
      replace ((n <? 1) || (MAX_UINT64 <? n)) with false by lia.
      assert (replay_by_dispatch st !! n = Some (record_of a first t i)) as ->; [|done].
      apply (sl_replay _ _ _ _ _ _ _ L). by exists i, t.
  - eapply Forall_impl; [exact Hlive|]. by intros t [_ ?].
Qed.

(** A dispatch is settled by its first signal. Asked again about the same record and
    direction, the authority answers the same signal and stays as it is, whatever the
    verifier says; asked about anything else under that dispatch, it refuses with
    CONFLICTING_ID and is halted; and a halted authority never changes again, whatever is
    asked. *)
Theorem dispatches_are_settled st log i t verify root d : reached st log -> log !! i = Some t ->
  (root = tk_root t /\ d = tk_direction t ->
     issue a verify st root (tk_dispatch t) d = (Ok (signal_of a first t i), st)) /\
  (~ (root = tk_root t /\ d = tk_direction t) -> exists st',
     issue a verify st root (tk_dispatch t) d = (Raise (StrategyContractError CONFLICTING_ID), st') /\
     ss_halted (sa_public st') = true /\ replay_by_dispatch st' = replay_by_dispatch st) /\
  (ss_halted (sa_public st) = true -> forall root n d, (issue a verify st root n d).2 = st).
Proof.
  intros L%signal_reachable_logged Hi.
  assert (NoDup (map tk_dispatch log)) as Hnd by exact (in_order_NoDup _ _ (sl_order _ _ _ _ _ _ _ L)).
  assert (forall j u, log !! j = Some u -> tk_dispatch u = tk_dispatch t -> j = i /\ u = t) as Huniq.
  { intros j u Hj Hu. assert (j = i) as ->; [|split; [done|congruence]].
    apply (NoDup_lookup _ j i (tk_dispatch t) Hnd); change (map tk_dispatch log) with (tk_dispatch <$> log);
      rewrite list_lookup_fmap; [by rewrite Hj, <-Hu|by rewrite Hi]. }
  pose proof (taken_dispatch _ _ _ Hi) as Hin.
  split_and!.
  - intros [-> ->]. destruct (issue a verify st (tk_root t) (tk_dispatch t) (tk_direction t)) as [m st'] eqn:E.
    apply (issue_issuance a first count start live _ _ _ _ _ _ _ _ L) in E. replace (mkTaken _ _ _) with t in E by by destruct t.
    inversion E as [j Hj|j u Hj Hd Hne|Ht Hf|Hn|e Hn Hf]; subst; try done.
    + by destruct (Huniq j t Hj eq_refl) as [-> _].
    + destruct (Huniq j u Hj Hd). by destruct Hne.
    + destruct Hn as [_ Hn _ _ _ _]. by destruct (in_order_fresh _ _ _ (sl_order _ _ _ _ _ _ _ L) Hn).
  - intros Hne. destruct (issue a verify st root (tk_dispatch t) d) as [m st'] eqn:E. exists st'.
    apply (issue_issuance a first count start live _ _ _ _ _ _ _ _ L) in E.
    inversion E as [j Hj|j u Hj Hd Hu|Ht Hf|Hn|e Hn Hf]; subst; try done.
    + destruct (Huniq j _ Hj eq_refl) as [_ He]. destruct Hne. by rewrite <-He.
    + split; [done|]. unfold halted_state. pose proof (sl_halt _ _ _ _ _ _ _ L) as Hh.
      destruct (ss_conflict (sa_public st)); [by rewrite Hh|done].
    + destruct Hn as [_ Hn _ _ _ _]. by destruct (in_order_fresh _ _ _ (sl_order _ _ _ _ _ _ _ L) Hn).
  - intros Hh root' n d'. destruct (issue a verify st root' n d') as [m st'] eqn:E. cbn [snd].
    apply (issue_issuance a first count start live _ _ _ _ _ _ _ _ L) in E. pose proof (sl_halt _ _ _ _ _ _ _ L) as Hc. rewrite Hh in Hc.
    inversion E as [j Hj|j u Hj Hd Hu|Ht Hf|[_ _ Hn _ _ _]|e Hn Hf]; subst; try done; try congruence;
      unfold halted_state; by destruct (ss_conflict (sa_public st)).
Qed.

(** A live dispatch gets its signal. While the authority is running and numbers are
    left, a dispatch that comes after all taken ones and for which the verifier answers
    the matching proof becomes the next signal; and no other new dispatch ever does. *)
Theorem live_dispatches_get_signals st log verify root n d : reached st log -> n ∉ map tk_dispatch log ->
  let t := mkTaken root n d in
  (verify root n = Ok (mkMarketProof (sa_run_id a) root (canonical_market_data_record_bytes root)
                         (causal_market_digest root) n (verifier_object a)) ->
   1 <= n <= MAX_UINT64 -> is_after (last_taken start (map tk_dispatch log)) n -> ss_halted (sa_public st) = false ->
   first + Z.of_nat (length log) <= MAX_UINT64 -> count + Z.of_nat (length log) < MAX_UINT64 ->
   exists st', issue a verify st root n d = (Ok (signal_of a first t (length log)), st') /\
     ss_halted (sa_public st') = false /\ last_new_dispatch_sequence (sa_public st') = Some n) /\
  (forall signal st', issue a verify st root n d = (Ok signal, st') ->
   issuable a first count start verify st log t /\ signal = signal_of a first t (length log)).
Proof.
  intros L%signal_reachable_logged Hfresh t.
  assert (forall m st', issue a verify st root n d = (m, st') -> issuable a first count start verify st log t ->
    m = Ok (signal_of a first t (length log)) /\ st' = issued_state a first st t (length log)) as Hnew.
  { intros m st' E Hn. apply (issue_issuance a first count start live _ _ _ _ _ _ _ _ L) in E.
    inversion E as [j Hj|j u Hj Hd Hu|Ht Hf Hl|Hi|e Hi Hf Ha]; subst; try done.
    - by apply taken_dispatch in Hj.
    - apply taken_dispatch in Hj. by rewrite Hd in Hj.
    - by destruct Hn. }
  split.
  - intros Hp Hr Ha Hh Hm Hc. destruct (issue a verify st root n d) as [m st'] eqn:E. exists st'.
    destruct (Hnew m st' eq_refl) as [-> ->]; [|done]. split; try done. unfold active_proof. cbn [t tk_root tk_dispatch].
    rewrite Hp. cbn [strategy_errors rbind]. unfold _require_active_market_dispatch_proof.
    cbn [mp_issuer mp_run_id mp_market_root mp_canonical_market_bytes mp_causal_market_sha256 mp_dispatch_sequence].
    rewrite !bool_decide_true, Z.eqb_refl, !(proj2 (Z.leb_le _ _)) by (done || lia). done.
  - intros signal st' E. pose proof E as E'. apply (issue_issuance a first count start live _ _ _ _ _ _ _ _ L) in E.
    inversion E as [j Hj| | |Hi|]; subst.
    + by apply taken_dispatch in Hj.
    + done.
Qed.
End Claims.

(** ** Witnesses *)

Lemma signals_are_numbered_witness :
  lookup_by_dispatch_sequence signalled_state 8 = Ok (Some (signal_of the_signal_authority 1 flat_taken 1)) /\
  in_order None [7; 8].
Proof.
  destruct (signals_are_numbered the_signal_authority 1 0 None was_live signalled_state [long_taken; flat_taken]
    signalled_reachable) as (H1 & H2 & _).
  split; [|exact H2]. apply H1. exists 1%nat, flat_taken. split; [reflexivity|split; reflexivity].
Defined.

Lemma dispatches_are_settled_witness :
  issue the_signal_authority the_verifier signalled_state long_bar 7 LONG
    = (Ok (signal_of the_signal_authority 1 long_taken 0), signalled_state) /\
  exists st', issue the_signal_authority the_verifier signalled_state long_bar 7 SHORT
                = (Raise (StrategyContractError CONFLICTING_ID), st') /\ ss_halted (sa_public st') = true.
Proof.
  split.
  - destruct (dispatches_are_settled the_signal_authority 1 0 None was_live signalled_state [long_taken; flat_taken]
      0 long_taken the_verifier long_bar LONG signalled_reachable eq_refl) as (H & _). apply H. split; reflexivity.
  - destruct (dispatches_are_settled the_signal_authority 1 0 None was_live signalled_state [long_taken; flat_taken]
      0 long_taken the_verifier long_bar SHORT signalled_reachable eq_refl) as (_ & H & _).
    destruct H as (st' & H & Hh & _); [intros [_ Hd]; discriminate Hd|]. exists st'. split; [exact H|exact Hh].
Defined.

Lemma live_dispatches_get_signals_witness : exists st',
  issue the_signal_authority the_verifier no_signals long_bar 7 LONG
    = (Ok (signal_of the_signal_authority 1 long_taken 0), st') /\ ss_halted (sa_public st') = false.
Proof.
  destruct (live_dispatches_get_signals the_signal_authority 1 0 None was_live no_signals [] the_verifier long_bar 7 LONG
    no_signals_reachable) as [H _].
  - apply not_elem_of_nil.
  - destruct H as (st' & H & Hh & _).
    + unfold the_verifier. rewrite bool_decide_true; [reflexivity|left].
    + vm_compute. split; discriminate.
    + exact I.
    + exact still_running.
    + vm_compute. discriminate.
    + vm_compute. reflexivity.
    + exists st'. split; [exact H|exact Hh].
Defined.
