(* ===== verification/StreamingTheorems.v ===== *)
(** The claims about the live market ingress, alone and joined with the signal authority,
    with a concrete run. *)

From S2P Require Import Prelude PyRegex PyText Outcomes Json Identity Numbering Indexing Chronology MarketData.
From S2P Require Import Checksum Economics Execution Messages FactAuthority MarketCodec Observation Runtime.
From S2P Require Import RuntimeSpec Queue Strategy StrategyAuthority StrategySpec Streaming StreamingSpec.
From S2P Require Import LedgerExample OrderExample MarketDataTheorems StrategyTheorems.

Open Scope Z_scope.

Section Claims.
Context `{hash : Sha256} (rt : StreamingMarketRuntime) (initial : Z).
Implicit Types (st : stream_state) (log : list dispatched).
#[local] Abbreviation reached := (stream_reachable rt initial).

(** C15: dispatches are numbered from the one after the initial number without gaps, one at
    a time, up to the last unsigned 64-bit number; every root was due when its dispatch
    began, a market event visible and a fact available, on a clock that never goes back;
    and market events come in strictly increasing admission order, with strictly
    increasing source sequence and event time, whatever facts come in between. *)
Theorem dispatches_are_ordered st log : reached st log ->
  map dp_sequence log = map (fun i => initial + 1 + Z.of_nat i) (seq 0 (length log)) /\
  initial + Z.of_nat (length log) <= MAX_UINT64 /\
  Forall (fun d => due (dp_root d) (dp_at d)) log /\
  StronglySorted (fun a b => microseconds (dp_at a) <= microseconds (dp_at b)) log /\
  StronglySorted before (markets log).
Proof.
  intros L%stream_reachable_logged. pose proof (sg_sequence _ _ _ _ L). pose proof (sg_bound _ _ _ _ L).
  split_and!; [|lia|apply L|apply L|].
  - apply list_eq. intros i. change (map ?f ?l) with (f <$> l). rewrite !list_lookup_fmap.
    destruct (log !! i) as [d|] eqn:Hi.
    + rewrite lookup_seq_lt by (by eapply lookup_lt_Some). cbn [fmap option_fmap option_map].
      by rewrite (sg_numbers _ _ _ _ L i d Hi).
    + apply lookup_ge_None in Hi. by rewrite lookup_seq_ge.
  - pose proof (sg_order _ _ _ _ L) as Hs. by apply StronglySorted_app_1_l in Hs.
Qed.

(** ** Proofs *)

Lemma live_in_range st log d : stream_log rt initial st log -> live_dispatch st log = Some d ->
  d ∈ log /\ 1 <= dp_sequence d <= MAX_UINT64.
Proof.
  intros L. unfold live_dispatch. destruct (_dispatching st); [|done]. intros Hd.
  pose proof (last_Some_elem_of _ _ Hd) as Hin. split; [done|]. apply list_elem_of_lookup_1 in Hin as [i Hi].
  rewrite (sg_numbers _ _ _ _ L i d Hi). apply lookup_lt_Some in Hi.
  pose proof (sg_initial _ _ _ _ L). pose proof (sg_sequence _ _ _ _ L). pose proof (sg_bound _ _ _ _ L). lia.
Qed.

(** C40: the runtime proves exactly the dispatch that is live. A proof is given for an event
    and a number exactly while the dispatch of that event's object under that number is
    running, and it names the runtime, its run and the record; a fact is resolved to a
    number exactly while its dispatch is running; and before, between and after
    dispatches nothing is proved. *)
Theorem proofs_are_exact st log : reached st log ->
  (forall m n proof, verify_active_market_dispatch rt st m n = Ok proof <->
     exists d m', live_dispatch st log = Some d /\ dp_root d = StreamMarket m' /\ object_name m = object_name m' /\
       envelope m = envelope m' /\ n = dp_sequence d /\
       proof = mkMarketProof (st_run_id rt) (envelope m) (canonical_market_data_record_bytes (envelope m))
                 (causal_market_digest (envelope m)) n (st_object rt)) /\
  (forall identity b f n, resolve_active_issued_fact_dispatch st identity b f = Some n <->
     exists d i, live_dispatch st log = Some d /\ dp_root d = StreamFact i /\ identity = ingress_identity_of i /\
       b = canonical_execution_fact_ingress_bytes i /\ f = canonical_execution_fact_bytes (ingress_fact i) /\
       n = dp_sequence d).
Proof.
  intros L%stream_reachable_logged. split.
  - intros m n proof. unfold verify_active_market_dispatch. rewrite (sg_active_market _ _ _ _ L).
    destruct (live_dispatch st log) as [d|] eqn:Hd; cbn [mbind option_bind].
    2:{ split; [done|]. by intros (d & m' & H & _). }
    unfold live_market. destruct (dp_root d) as [m'|i] eqn:Hr.
    2:{ split; [done|]. intros (d' & m' & [= <-] & H & _). congruence. }
    destruct (live_in_range _ _ _ L Hd) as [_ Hb]. unfold _create_active_market_dispatch_proof. split.
    + destruct (bool_decide_reflect (object_name m = object_name m')) as [Ho|]; [|done].
      destruct (Z.eqb_spec n (dp_sequence d)) as [->|]; [|done].
      destruct (bool_decide_reflect (canonical_market_data_record_bytes (envelope m)
        = canonical_market_data_record_bytes (envelope m'))) as [He|]; [|done]. cbn [negb orb].
      rewrite !(proj2 (Z.ltb_ge _ _)) by lia. cbn [orb]. intros [= <-]. exists d, m'. rewrite He.
      apply market_bytes_inj in He. by split_and!.
    + intros (d' & m2 & [= <-] & Hr2 & Ho & He & -> & ->). assert (m2 = m') as -> by congruence.
      rewrite !bool_decide_true, Z.eqb_refl by congruence. cbn [negb orb].
      rewrite !(proj2 (Z.ltb_ge _ _)) by lia. cbn [orb]. by rewrite He.
  - intros identity b f n. unfold resolve_active_issued_fact_dispatch. rewrite (sg_active_fact _ _ _ _ L).
    destruct (live_dispatch st log) as [d|] eqn:Hd; cbn [mbind option_bind].
    2:{ split; [done|]. by intros (d & m' & H & _). }
    unfold live_fact. destruct (dp_root d) as [m'|i] eqn:Hr.
    { split; [done|]. intros (d' & i & [= <-] & H & _). congruence. }
    split.
    + destruct (_ && _) eqn:E; [|done]. rewrite !andb_true_iff, !bool_decide_eq_true in E. destruct E as [[<- <-] <-].
      intros [= <-]. by exists d, i.
    + intros (d' & i' & [= <-] & Hr2 & -> & -> & -> & ->). assert (i' = i) as -> by congruence.
      by rewrite !bool_decide_true.
Qed.

(** ** Stopping *)

Lemma begin_poll_stopped st log c m st' : stream_log rt initial st log -> _phase st <> RUNNING ->
  begin_poll rt st c = (m, st') -> _phase st' <> RUNNING.
Proof.
  intros L Hp. unfold begin_poll. case_bool_decide; [by intros [= <- <-]|].
  destruct (_dispatching st); [by intros [= <- <-]|]. rewrite (heartbeat_fst rt st c).
  assert (forall s r, _phase s <> RUNNING -> _phase (_drain s r) <> RUNNING) as Hdrain.
  { intros s r Hs. unfold _drain. by rewrite bool_decide_false. }
  assert (_phase (heartbeat rt st c).2 <> RUNNING) as Hh.
  { destruct (heartbeat_cases rt st c) as [->|(now & mono & n & _ & [->| ->])]; [done|done|]. by apply Hdrain. }
  destruct (heartbeat rt st c).1; [|by intros [= <- <-]]. set (sh := (heartbeat rt st c).2) in *.
  destruct (eligible_market rt sh (_last_utc sh)) as [market st1] eqn:Hm.
  destruct (eligible_market_cases rt _ _ _ _ Hm) as [Hst1 _].
  assert (_phase st1 <> RUNNING) as H1 by (destruct Hst1 as [->| ->]; auto).
  destruct (rmap keyed _) as [[|x l]|e]; [by intros [= <- <-]| |by intros [= <- <-]].
  destruct (min_keyed x l) as [[key root]|e]; [|by intros [= <- <-]].
  destruct (if is_market root then _ else _) as [[]|e]; [intros [= <- <-]; by apply Hdrain| |by intros [= <- <-]].
  destruct (_ <=? _); intros [= <- <-]; [by apply Hdrain|]. by destruct root.
Qed.

Lemma called_stopped st x : _phase st <> RUNNING -> _phase (called rt st x) <> RUNNING.
Proof.
  intros Hp. assert (forall s r, _phase s <> RUNNING -> _phase (_drain s r) <> RUNNING) as Hdrain.
  { intros s r Hs. unfold _drain. by rewrite bool_decide_false. }
  destruct x as [c| | |m|issued i| | |]; cbn [called].
  - destruct (heartbeat_cases rt st c) as [->|(now & mono & n & _ & [->| ->])]; [done|done|]. by apply Hdrain.
  - unfold fail_source. by case_bool_decide.
  - unfold fail_heartbeat_callback. by case_bool_decide.
  - unfold receive_market. by rewrite bool_decide_false.
  - destruct (enqueue_fact rt st issued i) as [st'|] eqn:E; [|done]. unfold enqueue_fact in E. res_inv E. by injection E as <-.
  - by apply Hdrain.
  - by apply Hdrain.
  - unfold close. destruct (_dispatching st); [done|]. destruct (_pending_facts _); cbn [snd]; [done|by apply Hdrain].
Qed.

Lemma closed_called st log x : stream_log rt initial st log -> _phase st = CLOSED -> called rt st x = st.
Proof.
  intros L Hc. destruct (sg_closed _ _ _ _ L Hc) as [Hd Hf]. destruct x as [c| | |m|issued i| | |]; cbn [called].
  - unfold heartbeat. by rewrite bool_decide_true.
  - unfold fail_source. by rewrite bool_decide_true.
  - unfold fail_heartbeat_callback. by rewrite bool_decide_true.
  - unfold receive_market. by rewrite Hc.
  - unfold enqueue_fact. by rewrite bool_decide_true.
  - unfold request_stop, _drain. by rewrite Hc.
  - unfold mark_source_exhausted, _drain. by rewrite Hc.
  - unfold close, _drain. rewrite Hd, Hc. cbn [bool_decide]. rewrite bool_decide_false by done. rewrite Hf. cbn [snd].
    destruct st. cbn in *. by subst.
Qed.

Lemma step_stopped p q : stream_step rt p q -> stream_log rt initial p.1 p.2 ->
  (_phase p.1 <> RUNNING -> _phase q.1 <> RUNNING /\ markets q.2 = markets p.2) /\
  (_phase p.1 = CLOSED -> q = p).
Proof.
  intros Hs L. destruct Hs as [st log x Hx|st log c m st' Hb Hm|st log c root n st' Hb|st log d Hd Hl|st log d Hd Hl]; cbn [fst snd] in *.
  - split; [split; [by apply called_stopped|done]|]. intros Hc. f_equal. by eapply closed_called.
  - split; [intros Hp; split; [by eapply begin_poll_stopped|done]|]. intros Hc. unfold begin_poll in Hb.
    rewrite bool_decide_true in Hb by done. by injection Hb as <- <-.
  - split.
    + intros Hp. split; [by eapply begin_poll_stopped|].
      destruct (begin_poll_cases rt initial _ _ _ _ _ L Hb) as [(Hn & _)|(r' & n' & st1 & [= <- <-] & L1 & Hc)];
        [by destruct (Hn (root, n))|]. unfold markets. rewrite omap_app. destruct root as [m|i]; [|by rewrite app_nil_r].
      destruct (ch_root _ _ _ _ _ _ _ Hc) as (Hrun & _). exfalso.
      destruct (heartbeat_cases rt st c) as [E|(now & mono & k & _ & E)];
        destruct (ch_state _ _ _ _ _ _ _ Hc) as [->| ->]; revert Hrun; try (destruct E as [E|E]); rewrite E;
        unfold _drain; repeat case_bool_decide; try done; cbn in *; done.
    + intros Hc. unfold begin_poll in Hb. by rewrite bool_decide_true in Hb.
  - split.
    + intros Hp. split; [|done]. destruct (dp_root d) as [m|i]; cbn [poll_returned snd]; [done|].
      by destruct (remove_first i (_pending_facts st)).
    + intros Hc. destruct (sg_closed _ _ _ _ L Hc). congruence.
  - split; [done|]. intros Hc. destruct (sg_closed _ _ _ _ L Hc). congruence.
Qed.

Lemma steps_stopped p q : rtc (stream_step rt) p q -> stream_log rt initial p.1 p.2 ->
  (_phase p.1 <> RUNNING -> _phase q.1 <> RUNNING /\ markets q.2 = markets p.2) /\
  (_phase p.1 = CLOSED -> q = p).
Proof.
  induction 1 as [p|p q r Hs _ IH]; intros L; [by split|].
  destruct (IH (step_logged rt initial p q Hs L)) as [IH1 IH2]. destruct (step_stopped p q Hs L) as [H1 H2]. split.
  - intros Hp. destruct (H1 Hp) as [Hq Hmk]. destruct (IH1 Hq) as [Hr Hmr]. split; [done|congruence].
  - intros Hc. pose proof (H2 Hc) as ->. by apply IH2.
Qed.

(** Stopping is final. Once the runtime is not running, no call, poll or callback makes
    it run again or dispatches another market event; and a closed runtime stays exactly as
    it is. *)
Theorem stopping_is_final st log st' log' : reached st log -> rtc (stream_step rt) (st, log) (st', log') ->
  (_phase st <> RUNNING -> _phase st' <> RUNNING /\ markets log' = markets log) /\
  (_phase st = CLOSED -> st' = st /\ log' = log).
Proof.
  intros L%stream_reachable_logged Hr. destruct (steps_stopped _ _ Hr L) as [H1 H2]. split; [exact H1|].
  intros Hc. by injection (H2 Hc) as -> ->.
Qed.

(** ** Draining *)

(** Callbacks that return and leave the runtime alone. *)
Definition quiet (r : stream_root) (n : Z) : callback := mkCallback [] None.
Definition polls st (cs : list clocks) : stream_state := fold_left (fun st c => (poll rt st c quiet).2) cs st.

(** Samples of the clocks that are valid, do not go back, and have reached a time. *)
Fixpoint ticking (horizon : Z) (utc : datetime) (mono : float64) (cs : list clocks) : Prop :=
  match cs with
  | [] => True
  | c :: cs => exists now m, require_utc (clock_now c).1 (clock_now c).2 = Ok now /\ _read_monotonic (monotonic c) = Ok m /\
      microseconds utc <= microseconds now /\ float_lt m mono = false /\ horizon <= microseconds now /\ ticking horizon now m cs
  end.

Lemma drained_beat st c now m : _phase st = DRAINING -> require_utc (clock_now c).1 (clock_now c).2 = Ok now ->
  _read_monotonic (monotonic c) = Ok m -> microseconds (_last_utc st) <= microseconds now -> float_lt m (_last_mono st) = false ->
  (heartbeat rt st c).2 = with_clocks st now m (_heartbeat_count st + 1) /\ is_ok (heartbeat rt st c).1 = true.
Proof.
  intros Hp Hn Hm Hle Hlt. unfold heartbeat, _sample. rewrite Hp, Hn, Hm. cbn [rbind]. rewrite Hlt.
  rewrite (proj2 (Z.ltb_ge _ _)) by done. cbn [orb]. fields. by rewrite Hp.
Qed.

Lemma find_eligible st horizon (now : datetime) : Forall (fun i => microseconds (ingress_available_at i) <= horizon) (_pending_facts st) ->
  horizon <= microseconds now -> eligible_facts st now = _pending_facts st.
Proof.
  intros Hf Hle. unfold eligible_facts. induction Hf as [|i l Hi _ IH]; [done|]. cbn [List.filter].
  rewrite (proj2 (Z.leb_le _ _)) by lia. by rewrite IH.
Qed.

(** One poll of a draining runtime takes one of its due facts, while there are any. *)
Lemma poll_draining st log c now m horizon : stream_log rt initial st log -> _phase st = DRAINING -> _dispatching st = false ->
  require_utc (clock_now c).1 (clock_now c).2 = Ok now -> _read_monotonic (monotonic c) = Ok m ->
  microseconds (_last_utc st) <= microseconds now -> float_lt m (_last_mono st) = false ->
  Forall (fun i => microseconds (ingress_available_at i) <= horizon) (_pending_facts st) -> horizon <= microseconds now ->
  _dispatch_sequence st < MAX_UINT64 ->
  let st' := (poll rt st c quiet).2 in
  exists log', stream_log rt initial st' log' /\ _phase st' = DRAINING /\ _dispatching st' = false /\
    _last_utc st' = now /\ _last_mono st' = m /\ incl (_pending_facts st') (_pending_facts st) /\
    length (_pending_facts st') = Nat.pred (length (_pending_facts st)) /\
    _dispatch_sequence st' <= _dispatch_sequence st + 1 /\
    _fact_dispatches st' = _fact_dispatches st + Z.of_nat (length (_pending_facts st)) - Z.of_nat (length (_pending_facts st')).
Proof.
  intros L Hp Hnd Hn Hm Hle Hlt Hf Hh Hroom st'. destruct (drained_beat st c now m Hp Hn Hm Hle Hlt) as [Hb Hok].
  destruct (poll rt st c quiet) as [r s] eqn:Epoll. cbn [snd] in st'. subst st'.
  assert (eligible_facts (heartbeat rt st c).2 now = _pending_facts st) as Hel.
  { rewrite Hb. exact (find_eligible (with_clocks st now m (_heartbeat_count st + 1)) horizon now Hf Hh). }
  assert (forall n, (eligible_market rt (heartbeat rt st c).2 n) = (None, (heartbeat rt st c).2)) as Hem.
  { intros n. rewrite Hb. unfold eligible_market. fields. by rewrite Hp. }
  unfold poll in Epoll. destruct (begin_poll rt st c) as [b s1] eqn:Ebegin.
  destruct (begin_poll_cases rt initial _ _ _ _ _ L Ebegin) as [(Hnone & Ls & Hidle)|(root & n & st1 & -> & L1 & Hc)].
  - assert (_pending_facts st = []) as Hempty.
    { unfold idle in Hidle. destruct Hidle as [H|[H|[H|[H|[_ H]]]]]; try congruence; [lia|].
      rewrite <-Hel. rewrite Hb in H |- *. exact H. }
    assert (b = Ok None /\ s1 = (heartbeat rt st c).2) as [-> ->].
    { unfold begin_poll in Ebegin. rewrite Hp, Hnd, (heartbeat_fst rt st c) in Ebegin. cbn [bool_decide] in Ebegin.
      rewrite bool_decide_false in Ebegin by done. destruct (heartbeat rt st c).1; [|done]. rewrite Hem in Ebegin.
      assert (_last_utc (heartbeat rt st c).2 = now) as Hu by by rewrite Hb. rewrite Hu, Hel, Hempty in Ebegin.
      cbn [map app rmap] in Ebegin. by injection Ebegin as <- <-. }
    injection Epoll as <- <-. exists log. rewrite Hb in Ls |- *. fields. rewrite Hempty. cbn [length Nat.pred].
    split_and!; try done; try apply incl_refl; lia.
  - assert (st1 = (heartbeat rt st c).2) as Hst1.
    { destruct (ch_state _ _ _ _ _ _ _ Hc) as [->| ->]; [done|]. unfold _drain. rewrite bool_decide_false; [done|].
      rewrite Hb. fields. by rewrite Hp. }
    pose proof (ch_root _ _ _ _ _ _ _ Hc) as Hroot. rewrite Hst1, Hb in Hroot.
    destruct root as [mk|i]; [destruct Hroot as [Hr _]; revert Hr; fields; by rewrite Hp|].
    cbn [quiet cb_calls cb_raises fold_left] in Epoll.
    pose proof (leased_logged rt initial _ _ _ _ _ _ _ L1 Hc) as Ll. pose proof (ch_leased _ _ _ _ _ _ _ Hc) as El.
    set (d := mkDispatched (StreamFact i) n (_last_utc s1)) in *.
    destruct (returned_fact_logged rt initial s1 (log ++ [d]) d i Ll) as (facts & Hfacts & Lr);
      [by rewrite El|by rewrite last_snoc|done|].
    exists (log ++ [d]). rewrite Epoll in Lr. cbn [snd] in Lr. split; [done|].
    cbn [poll_returned] in Epoll. rewrite Hfacts in Epoll. injection Epoll as _ <-.
    assert (_pending_facts s1 = _pending_facts st) as Hpf by by rewrite El, Hst1, Hb.
    destruct (remove_first_Some _ _ _ Hfacts) as (l1 & l2 & E1 & E2). rewrite Hpf in E1.
    rewrite E1, !length_app. subst facts. rewrite El, Hst1, Hb. cbn [leased]. fields. rewrite !length_app. cbn [length].
    split_and!; try done; try lia. intros x [Hx|Hx]%in_app_or; apply in_or_app; [by left|by right; right].
Qed.

(** C16: draining terminates. A stopped runtime with facts pending, polled once for each of
    them with callbacks that return, at times of the clock when all are available, and
    with numbers left, has dispatched every one of them, and then closes. *)
Theorem draining_terminates st log horizon cs : reached st log -> _phase st = DRAINING -> _dispatching st = false ->
  Forall (fun i => microseconds (ingress_available_at i) <= horizon) (_pending_facts st) ->
  ticking horizon (_last_utc st) (_last_mono st) cs -> (length (_pending_facts st) <= length cs)%nat ->
  _dispatch_sequence st + Z.of_nat (length cs) <= MAX_UINT64 ->
  let st' := polls st cs in
  _pending_facts st' = [] /\ _fact_dispatches st' = _fact_dispatches st + Z.of_nat (length (_pending_facts st)) /\
  (close st').1 = Ok tt /\ _phase (close st').2 = CLOSED.
Proof.
  intros L%stream_reachable_logged. unfold polls. revert st log L. induction cs as [|c cs IH]; intros st log L Hp Hnd Hf Ht Hlen Hroom.
  - cbn [fold_left]. destruct (_pending_facts st) as [|f l] eqn:Hpf; [|by cbn in Hlen; lia]. cbn [length].
    unfold close, _drain. rewrite Hnd, Hp, bool_decide_false by done. rewrite Hpf. split_and!; [done|lia|done|done].
  - destruct Ht as (now & m & Hn & Hm & Hle & Hlt & Hh & Ht). cbn [fold_left length] in *.
    destruct (poll_draining st log c now m horizon L Hp Hnd Hn Hm Hle Hlt Hf Hh) as (log' & L' & P1 & P2 & P3 & P4 & P5 & P6 & P7 & P8);
      [lia|]. set (s := (poll rt st c quiet).2) in *.
    destruct (IH s log' L' P1 P2) as (Q1 & Q2 & Q3).
    + rewrite Forall_forall in Hf |- *. intros x Hx. apply Hf, list_elem_of_In, P5. by apply list_elem_of_In.
    + by rewrite P3, P4.
    + lia.
    + lia.
    + split; [done|]. split; [|exact Q3]. rewrite Q2, P8. lia.
Qed.
End Claims.

(** ** Joined with the signal authority *)

Section Joined.
Context `{hash : Sha256} (rt : StreamingMarketRuntime) (initial : Z).
Context (a : StrategySignalAuthority) (first count : Z) (start : option Z).
Implicit Types (st : stream_state) (log : list dispatched) (sst : _AuthorityState) (slog : list taken).

(** The verifier of the authority is the runtime, asked about the event of an object. *)
Definition asks_runtime st (object : BinNums.positive) : verifier_operation := fun root n =>
  verify_active_market_dispatch rt st (mkMarketObject object root) n.
Definition dispatched_in log (root : MarketDataEnvelope) (n : Z) : Prop :=
  exists d m, d ∈ log /\ dp_root d = StreamMarket m /\ envelope m = root /\ dp_sequence d = n.

(** Steps of the runtime and calls of the authority, in any order. *)
Inductive joined : stream_state * list dispatched -> _AuthorityState * list taken -> Prop :=
| joined_start st sst : created rt initial st ->
    create_strategy_signal_authority (sa_run_id a) (verifier_object a) first count start = Ok (a, sst) ->
    joined (st, []) (sst, [])
| joined_stream p q s : joined p s -> stream_step rt p q -> joined q s
| joined_issue st log sst slog object root n d m sst' : joined (st, log) (sst, slog) ->
    issue a (asks_runtime st object) sst root n d = (m, sst') ->
    joined (st, log) (sst', log_after slog (mkTaken root n d) m).

Lemma runtime_vouches st log object : stream_log rt initial st log ->
  vouches a (dispatched_in log) (asks_runtime st object).
Proof.
  intros L root n proof. unfold asks_runtime, verify_active_market_dispatch. rewrite (sg_active_market _ _ _ _ L).
  destruct (live_dispatch st log) as [d|] eqn:Hd; cbn [mbind option_bind]; [|done]. unfold live_market.
  destruct (dp_root d) as [m|i] eqn:Hr; [|done]. destruct (negb _ || _ || _) eqn:E; [done|]. intros _ _.
  rewrite !orb_false_iff, !negb_false_iff, !bool_decide_eq_true, Z.eqb_eq in E. destruct E as [[_ ->] He].
  cbn [envelope] in He. apply market_bytes_inj in He as ->. exists d, m. split_and!; try done. by eapply live_in_range.
Qed.

Lemma dispatched_mono log d root n : dispatched_in log root n -> dispatched_in (log ++ [d]) root n.
Proof. intros (e & m & H & Hm). exists e, m. split; [|done]. apply elem_of_app. by left. Qed.
Lemma signal_log_mono (live live' : MarketDataEnvelope -> Z -> Prop) sst slog : (forall r n, live r n -> live' r n) ->
  signal_log a first count start live sst slog -> signal_log a first count start live' sst slog.
Proof.
  intros Hl [? ? ? ? ? ? ? ? Hlive ? ?]. split; try done. eapply Forall_impl; [exact Hlive|].
  intros t [? ?]. split; [done|]. by apply Hl.
Qed.

Lemma joined_logged p s : joined p s ->
  stream_log rt initial p.1 p.2 /\ signal_log a first count start (dispatched_in p.2) s.1 s.2.
Proof.
  induction 1 as [st sst Hc Ha|p q s _ [L S] Hs|st log sst slog object root n d m sst' _ [L S] Hi]; cbn [fst snd] in *.
  - split; [by apply StreamingSpec.stream_created_logged|by apply StrategySpec.created_logged].
  - split; [by eapply step_logged|]. destruct Hs; cbn [fst snd] in *; try done.
    eapply signal_log_mono; [|exact S]. intros r k. by apply dispatched_mono.
  - split; [done|]. apply (issue_issuance _ _ _ _ _ _ _ _ _ _ _ _ _ S) in Hi.
    by apply (issuance_logged _ _ _ _ _ _ _ _ _ _ _ S (runtime_vouches _ _ _ L)) in Hi.
Qed.

(** What a sorted selection says of two elements of the list. *)
Lemma sorted_omap {A B} (f : A -> option B) (R : B -> B -> Prop) l i j x y u v : StronglySorted R (omap f l) ->
  l !! i = Some x -> l !! j = Some y -> (i < j)%nat -> f x = Some u -> f y = Some v -> R u v.
Proof.
  revert i j. induction l as [|z l IH]; intros i j Hs Hi Hj Hij Hx Hy; [done|]. destruct j as [|j]; [lia|].
  cbn [lookup list_lookup] in Hj. destruct i as [|i].
  - cbn in Hi. injection Hi as ->. cbn in Hs. rewrite Hx in Hs. apply StronglySorted_inv in Hs as [_ Hf].
    rewrite Forall_forall in Hf. apply Hf, list_elem_of_omap. exists y. split; [|done]. by eapply list_elem_of_lookup_2.
  - apply (IH i j); [|done|done|lia|done|done]. cbn in Hs. destruct (f z); [|done]. by apply StronglySorted_inv in Hs as [? _].
Qed.
Lemma sorted_lookup {A} (R : A -> A -> Prop) l :
  (forall i j x y, l !! i = Some x -> l !! j = Some y -> (i < j)%nat -> R x y) -> StronglySorted R l.
Proof.
  induction l as [|z l IH]; intros H; [constructor|]. constructor.
  - apply IH. intros i j x y Hi Hj Hij. apply (H (S i) (S j)); [done|done|lia].
  - apply Forall_forall. intros y [j Hj]%list_elem_of_lookup_1. by apply (H 0%nat (S j)); [|done|lia].
Qed.
Lemma in_order_lookup l i j x y : in_order start l -> l !! i = Some x -> l !! j = Some y -> (i < j)%nat -> x < y.
Proof.
  intros [Hs _]. revert i j. induction Hs as [|z l _ IH Hf]; intros i j Hi Hj Hij; [done|]. destruct j as [|j]; [lia|].
  destruct i as [|i]; [|by apply (IH i j); [done|done|lia]]. cbn in Hi, Hj. injection Hi as ->.
  rewrite Forall_forall in Hf. apply Hf. by eapply list_elem_of_lookup_2.
Qed.
Lemma dispatched_lookup st log root n : stream_log rt initial st log -> dispatched_in log root n ->
  exists i d, log !! i = Some d /\ market_in d = Some root /\ n = initial + 1 + Z.of_nat i.
Proof.
  intros L (d & m & [i Hi]%list_elem_of_lookup_1 & Hr & He & <-). exists i, d. split_and!; [done| |by apply (sg_numbers _ _ _ _ L)].
  unfold market_in. by rewrite Hr, He.
Qed.

(** C8: signals follow the market. In a run of the runtime and the signal authority that
    verifies with it, every signal is about a market event the runtime dispatched under
    that number when the event was visible, whatever object it was asked with; and the
    events of successive signals come in strictly increasing admission order and event
    time. *)
Theorem signals_follow_the_market st log sst slog : joined (st, log) (sst, slog) ->
  Forall (fun t => exists d m, d ∈ log /\ dp_root d = StreamMarket m /\ envelope m = tk_root t /\
            dp_sequence d = tk_dispatch t /\ visible (tk_root t) (dp_at d) = true) slog /\
  StronglySorted before (map tk_root slog).
Proof.
  intros [L S]%joined_logged. cbn [fst snd] in *. pose proof (sl_live _ _ _ _ _ _ _ S) as Hlive. split.
  - eapply Forall_impl; [exact Hlive|]. intros t (_ & d & m & Hd & Hr & He & Hn). exists d, m. split_and!; try done.
    pose proof (sg_due _ _ _ _ L) as Hdue. rewrite Forall_forall in Hdue. pose proof (Hdue d Hd) as Hv.
    unfold due in Hv. rewrite Hr in Hv. by rewrite <-He.
  - apply sorted_lookup. intros i j x y. change (map tk_root slog) with (tk_root <$> slog). rewrite !list_lookup_fmap.
    intros (t & Hi & ->)%fmap_Some (u & Hj & ->)%fmap_Some Hij. rewrite Forall_forall in Hlive.
    destruct (Hlive t) as [_ Ht]; [by eapply list_elem_of_lookup_2|]. destruct (Hlive u) as [_ Hu]; [by eapply list_elem_of_lookup_2|].
    apply (dispatched_lookup _ _ _ _ L) in Ht as (p & d & Hp & Hd & Htn), Hu as (q & e & Hq & He & Hun).
    assert (tk_dispatch t < tk_dispatch u) as Hlt.
    { apply (in_order_lookup (map tk_dispatch slog) i j); [apply S| | |done];
        change (map tk_dispatch slog) with (tk_dispatch <$> slog); rewrite list_lookup_fmap; [by rewrite Hi|by rewrite Hj]. }
    pose proof (sg_order _ _ _ _ L) as Ho. apply StronglySorted_app_1_l in Ho.
    by apply (sorted_omap market_in before log p q d e (tk_root t) (tk_root u) Ho); [..|lia| |].
Qed.

(** C9: the running market dispatch gets its signal. While a market event is dispatched, its
    number not yet taken and numbers left, the authority asked with the event's own object
    issues the next signal; any other new question, with another object, event or number
    or while no market event is dispatched, is refused and issues nothing. *)
Theorem running_dispatches_get_signals st log sst slog object root n d : joined (st, log) (sst, slog) ->
  sa_run_id a = st_run_id rt -> verifier_object a = st_object rt -> match start with Some k => k <= initial | None => True end ->
  ss_halted (sa_public sst) = false -> n ∉ map tk_dispatch slog ->
  first + Z.of_nat (length slog) <= MAX_UINT64 -> count + Z.of_nat (length slog) < MAX_UINT64 ->
  let live := exists e m, live_dispatch st log = Some e /\ dp_root e = StreamMarket m /\ object_name m = object /\
                envelope m = root /\ dp_sequence e = n in
  let outcome := issue a (asks_runtime st object) sst root n d in
  (live -> outcome.1 = Ok (signal_of a first (mkTaken root n d) (length slog))) /\
  (~ live -> exists error, outcome.1 = Raise error).
Proof.
  intros J Hrun Hobj Hstart Hh Hfresh Hfirst Hcount live outcome. destruct (joined_logged _ _ J) as [L S]. cbn [fst snd] in *.
  destruct outcome as [m sst'] eqn:E. pose proof E as Hiss. unfold outcome in Hiss.
  apply (issue_issuance _ _ _ _ _ _ _ _ _ _ _ _ _ S) in Hiss. set (t := mkTaken root n d) in *.
  assert (n ∈ map tk_dispatch slog -> False) as Hno by done. cbn [fst]. split.
  - intros (e & mk & He & Hr & Ho & Henv & Hn).
    assert (issuable a first count start (asks_runtime st object) sst slog t) as Hok.
    { destruct (live_in_range rt initial _ _ _ L He) as [Hin Hb]. split; cbn [t tk_root tk_dispatch]; try done; [by subst n| |].
      - destruct (last_taken start (map tk_dispatch slog)) as [k|] eqn:Hk; [|done]. cbn [is_after].
        apply list_elem_of_lookup_1 in Hin as [j Hj]. pose proof (sg_numbers _ _ _ _ L j e Hj) as Hnum.
        unfold last_taken in Hk. destruct (last (map tk_dispatch slog)) as [k'|] eqn:Hl.
        + injection Hk as ->. apply last_Some_elem_of in Hl. pose proof Hl as Hl2.
          apply list_elem_of_In, in_map_iff in Hl as (u & Hu & Hul%list_elem_of_In).
          pose proof (sl_live _ _ _ _ _ _ _ S) as Hlive. rewrite Forall_forall in Hlive. destruct (Hlive u Hul) as [_ Hd].
          apply (dispatched_lookup _ _ _ _ L) in Hd as (p & x & Hp & _ & Hpn). apply lookup_lt_Some in Hp.
          assert (j = Nat.pred (length log)) as ->.
          { unfold live_dispatch in He. destruct (_dispatching st); [|done]. rewrite last_lookup in He.
            pose proof (sg_numbers _ _ _ _ L _ _ He). apply lookup_lt_Some in Hj. lia. }
          destruct (Z.eq_dec k n) as [->|]; [by destruct Hno|]. subst. lia.
        + rewrite Hk in Hstart. lia.
      - unfold active_proof, asks_runtime, verify_active_market_dispatch. rewrite (sg_active_market _ _ _ _ L), He.
        cbn [mbind option_bind]. unfold live_market. rewrite Hr. cbn [object_name envelope]. subst.
        rewrite !bool_decide_true, Z.eqb_refl by done. cbn [negb orb]. unfold _create_active_market_dispatch_proof.
        rewrite !(proj2 (Z.ltb_ge _ _)) by lia. cbn [orb strategy_errors rbind]. unfold _require_active_market_dispatch_proof.
        cbn [mp_issuer mp_run_id mp_market_root mp_canonical_market_bytes mp_causal_market_sha256 mp_dispatch_sequence].
        rewrite !bool_decide_true, Z.eqb_refl, !(proj2 (Z.leb_le _ _)) by (done || lia). done. }
    inversion Hiss as [j Hj|j u Hj Hd Hu|Ht Hf Hl|Hi|x Hi Hf Ha]; subst; try done.
    + by apply taken_dispatch in Hj.
    + apply taken_dispatch in Hj. by rewrite Hd in Hj.
    + by destruct Hok.
  - intros Hne. inversion Hiss as [j Hj|j u Hj Hd Hu|Ht Hf Hl|Hi|x Hi Hf Ha]; subst; eauto.
    + by apply taken_dispatch in Hj.
    + destruct Hne. destruct Hi as [_ _ _ _ _ Hi]. revert Hi. cbn [t tk_root tk_dispatch].
      unfold active_proof, asks_runtime, verify_active_market_dispatch. rewrite (sg_active_market _ _ _ _ L).
      destruct (live_dispatch st log) as [e|] eqn:He; cbn [mbind option_bind]; [|done].
      unfold live_market. destruct (dp_root e) as [mk|i] eqn:Hr; [|done].
      destruct (negb _ || _ || _) eqn:E2; [done|]. intros _.
      rewrite !orb_false_iff, !negb_false_iff, !bool_decide_eq_true, Z.eqb_eq in E2. destruct E2 as [[Ho ->] Hb].
      cbn [envelope object_name] in *. apply market_bytes_inj in Hb as ->. by exists e, mk.
Qed.
End Joined.

(** ** A concrete run: the long bar of [StrategyTheorems] is received and dispatched as
    number seven, becomes signal one, and returns; the runtime is stopped with a fact
    pending, which it drains before it closes. *)

Definition clock_at (m : datetime) : clocks := mkClocks (m, Some 0) float_1.
Definition the_fact_verifier : ExecutionFactIssuanceVerifier :=
  mkIssuanceVerifier the_run the_spec_set the_source (fun _ _ _ => true).
Lemma runtime_created : is_ok (StreamingMarketRuntime_init the_verifier_object the_run the_spec_set feed
  (clock_at minute_1) float_1 float_1 (Some the_fact_verifier) 4 6) = true.
Proof. vm_compute. reflexivity. Qed.
Definition the_runtime : StreamingMarketRuntime := (unwrap _ runtime_created).1.
Definition idle_stream : stream_state := (unwrap _ runtime_created).2.
Definition the_event : market_object := mkMarketObject 5 long_bar.
Lemma event_received : is_ok (receive_market the_runtime idle_stream the_event) = true.
Proof. vm_compute. reflexivity. Qed.
Definition received_stream : stream_state := unwrap _ event_received.
Definition begun := begin_poll the_runtime received_stream (clock_at minute_1).
Definition live_stream : stream_state := begun.2.
Definition begins (m : res (option (stream_root * Z))) (e : market_object) (k : Z) : bool :=
  match m with
  | Ok (Some (StreamMarket (mkMarketObject o root), n)) =>
      bool_decide (o = object_name e) && bool_decide (root = envelope e) && (n =? k)
  | _ => false
  end.
Lemma begins_spec m e k : begins m e k = true -> m = Ok (Some (StreamMarket e, k)).
Proof.
  destruct m as [[[[[o root]|i] n]|]|x]; try done. cbn [begins].
  rewrite !andb_true_iff, !bool_decide_eq_true, Z.eqb_eq. intros [[-> ->] ->]. by destruct e.
Qed.
Lemma begun_ok : begun = (Ok (Some (StreamMarket the_event, 7)), live_stream).
Proof.
  assert (begins begun.1 the_event 7 = true) as H by (vm_compute; reflexivity).
  apply begins_spec in H. unfold live_stream. rewrite <-H. apply surjective_pairing.
Qed.
Definition event_dispatched : dispatched := mkDispatched (StreamMarket the_event) 7 (_last_utc live_stream).
Definition the_fact : ExecutionFactIngress := mkExecutionFactIngress minute_1 the_source 1 trade_four.
Definition returned_stream : stream_state := (poll_returned live_stream (StreamMarket the_event)).2.
Definition stopped_stream : stream_state := request_stop returned_stream.
Lemma fact_enqueued : is_ok (enqueue_fact the_runtime stopped_stream (fun _ _ _ => true) the_fact) = true.
Proof. vm_compute. reflexivity. Qed.
Definition draining_stream : stream_state := unwrap _ fact_enqueued.
Definition first_signal := issue the_signal_authority (asks_runtime the_runtime live_stream 5) no_signals long_bar 7 LONG.
Lemma first_signal_ok : is_ok first_signal.1 = true.
Proof. vm_compute. reflexivity. Qed.

(** Read off as plain data. *)
Lemma live_dispatching : _dispatching live_stream = true.
Proof. vm_compute. reflexivity. Qed.
Lemma same_object : verifier_object the_signal_authority = st_object the_runtime.
Proof. vm_compute. reflexivity. Qed.
Lemma same_run : sa_run_id the_signal_authority = st_run_id the_runtime.
Proof. refine (bool_decide_unpack _ _). vm_compute. exact I. Qed.
Lemma draining_phase : _phase draining_stream = DRAINING.
Proof. vm_compute. reflexivity. Qed.
Lemma draining_idle : _dispatching draining_stream = false.
Proof. vm_compute. reflexivity. Qed.
Lemma one_pending : length (_pending_facts draining_stream) = 1%nat.
Proof. vm_compute. reflexivity. Qed.
Lemma numbers_left : _dispatch_sequence draining_stream + 1 <=? MAX_UINT64 = true.
Proof. vm_compute. reflexivity. Qed.
Lemma pending_available : forallb (fun i => microseconds (ingress_available_at i) <=? microseconds minute_1)
  (_pending_facts draining_stream) = true.
Proof. vm_compute. reflexivity. Qed.
Lemma draining_clock : (microseconds (_last_utc draining_stream) <=? microseconds minute_1)
  && negb (float_lt float_1 (_last_mono draining_stream)) = true.
Proof. vm_compute. reflexivity. Qed.
#[local] Opaque the_runtime idle_stream received_stream live_stream draining_stream.

Lemma the_runtime_created : created the_runtime 6 idle_stream.
Proof.
  do 9 eexists. rewrite (unwrap_ok _ runtime_created). f_equal.
Qed.
Lemma live_steps : rtc (stream_step the_runtime) (idle_stream, []) (live_stream, [event_dispatched]).
Proof.
  eapply rtc_l; [apply (step_call _ _ _ (ReceiveMarket the_event))|].
  - unfold call_ok, timely. vm_compute. discriminate.
  - cbn [called]. rewrite (unwrap_ok _ event_received). eapply rtc_once. exact (step_begin _ _ _ _ _ _ _ begun_ok).
Qed.
Lemma live_reachable : stream_reachable the_runtime 6 live_stream [event_dispatched].
Proof. exists idle_stream. split; [exact the_runtime_created|exact live_steps]. Qed.
Lemma draining_steps : rtc (stream_step the_runtime) (live_stream, [event_dispatched]) (draining_stream, [event_dispatched]).
Proof.
  eapply rtc_l; [exact (step_return _ live_stream [event_dispatched] event_dispatched live_dispatching eq_refl)|].
  eapply rtc_l; [exact (step_call _ _ _ RequestStop I)|]. eapply rtc_once.
  pose proof (step_call the_runtime stopped_stream [event_dispatched] (EnqueueFact (fun _ _ _ => true) the_fact) I) as H.
  cbn [called] in H. rewrite (unwrap_ok _ fact_enqueued) in H. exact H.
Qed.
Lemma draining_reachable : stream_reachable the_runtime 6 draining_stream [event_dispatched].
Proof.
  destruct live_reachable as (st0 & Hc & Hr). exists st0. split; [exact Hc|]. etransitivity; [exact Hr|exact draining_steps].
Qed.

Lemma joined_steps `{hash : Sha256} rt initial a first count start p q s : joined rt initial a first count start p s ->
  rtc (stream_step rt) p q -> joined rt initial a first count start q s.
Proof. intros J H. induction H as [p|p q r Hs _ IH]; [done|]. apply IH. by eapply joined_stream. Qed.
#[local] Abbreviation the_joined := (joined the_runtime 6 the_signal_authority 1 0 None).
Lemma live_joined : the_joined (live_stream, [event_dispatched]) (no_signals, []).
Proof.
  eapply joined_steps; [|exact live_steps]. apply joined_start; [exact the_runtime_created|].
  change (create_strategy_signal_authority the_run the_verifier_object 1 0 None = Ok (the_signal_authority, no_signals)).
  rewrite (unwrap_ok _ the_signals_created). f_equal.
Qed.
Lemma signalled_joined : the_joined (live_stream, [event_dispatched]) (first_signal.2, [long_taken]).
Proof.
  pose proof (joined_issue _ _ _ _ _ _ _ _ _ _ 5 long_bar 7 LONG _ _ live_joined (issued_pair first_signal first_signal_ok)) as H.
  exact H.
Qed.

Lemma minute_utc (m : datetime) : require_utc m (Some 0) = Ok m.
Proof. reflexivity. Qed.
Lemma float_1_read : _read_monotonic float_1 = Ok float_1.
Proof. reflexivity. Qed.
Lemma ticks_once : ticking (microseconds minute_1) (_last_utc draining_stream) (_last_mono draining_stream) [clock_at minute_1].
Proof.
  exists minute_1. exists float_1. pose proof draining_clock as H. apply andb_true_iff in H as [H1 H2].
  exact (conj (minute_utc minute_1) (conj float_1_read (conj (proj1 (Z.leb_le _ _) H1)
    (conj (proj1 (negb_true_iff _) H2) (conj (Z.le_refl _) I))))).
Qed.

(** ** Witnesses *)

Lemma dispatches_are_ordered_witness : map dp_sequence [event_dispatched] = [7] /\
  Forall (fun d => due (dp_root d) (dp_at d)) [event_dispatched].
Proof.
  destruct (dispatches_are_ordered the_runtime 6 draining_stream [event_dispatched] draining_reachable) as (H1 & _ & H2 & _).
  split; [exact H1|exact H2].
Defined.

Lemma proofs_are_exact_witness :
  verify_active_market_dispatch the_runtime live_stream the_event 7
    = Ok (mkMarketProof (st_run_id the_runtime) long_bar (canonical_market_data_record_bytes long_bar)
            (causal_market_digest long_bar) 7 (st_object the_runtime)).
Proof.
  destruct (proofs_are_exact the_runtime 6 live_stream [event_dispatched] live_reachable) as (H & _). apply H.
  exists event_dispatched, the_event. split; [unfold live_dispatch; rewrite live_dispatching; reflexivity|]. repeat split.
Defined.

Lemma stopping_is_final_witness : _phase (called the_runtime draining_stream (ReceiveMarket the_event)) <> RUNNING.
Proof.
  apply (stopping_is_final the_runtime 6 draining_stream [event_dispatched] _ [event_dispatched] draining_reachable).
  - eapply rtc_once. refine (step_call _ _ _ (ReceiveMarket the_event) _). unfold call_ok, timely. vm_compute. discriminate.
  - rewrite draining_phase. discriminate.
Defined.

Lemma draining_terminates_witness : _phase (close (polls the_runtime draining_stream [clock_at minute_1])).2 = CLOSED.
Proof.
  apply (draining_terminates the_runtime 6 draining_stream [event_dispatched] (microseconds minute_1) [clock_at minute_1]
    draining_reachable draining_phase draining_idle).
  - apply Forall_forall. intros i Hi. pose proof pending_available as H. rewrite forallb_forall in H.
    exact (proj1 (Z.leb_le _ _) (H i (proj1 (list_elem_of_In _ _) Hi))).
  - exact ticks_once.
  - exact (Nat.eq_le_incl _ _ one_pending).
  - exact (proj1 (Z.leb_le _ _) numbers_left).
Defined.

Lemma signals_follow_the_market_witness :
  exists d m, d ∈ [event_dispatched] /\ dp_root d = StreamMarket m /\ envelope m = long_bar /\ dp_sequence d = 7.
Proof.
  destruct (signals_follow_the_market the_runtime 6 the_signal_authority 1 0 None live_stream [event_dispatched] _ _
    signalled_joined) as [H _].
  apply Forall_inv in H as (d & m & H1 & H2 & H3 & H4 & _). exists d, m. repeat (split; [assumption|]). exact H4.
Defined.

Lemma running_dispatches_get_signals_witness :
  (issue the_signal_authority (asks_runtime the_runtime live_stream 5) no_signals long_bar 7 LONG).1
    = Ok (signal_of the_signal_authority 1 long_taken 0).
Proof.
  apply (running_dispatches_get_signals the_runtime 6 the_signal_authority 1 0 None live_stream [event_dispatched] no_signals []
    5 long_bar 7 LONG live_joined same_run same_object I still_running).
  - apply not_elem_of_nil.
  - vm_compute. discriminate.
  - vm_compute. reflexivity.
  - exists event_dispatched, the_event. split; [unfold live_dispatch; rewrite live_dispatching; reflexivity|]. repeat split.
Defined.
