(* ===== verification/PlanningTheorems.v ===== *)
(** The claims about the planning authority, alone and joined with the risk authority, with
    their witnesses on a concrete run: the long signal of [StrategyTheorems] planned against
    the portfolio of [RiskTheorems]. *)

From S2P Require Import Prelude PyRegex PyText Outcomes Json Identity Numbering Indexing Chronology Checksum.
From S2P Require Import Economics Execution Messages Orders Decoders Portfolio Risk RiskAuthority RiskSpec.
From S2P Require Import RiskReach OrderCodec Strategy PortfolioPlanning PlanningAuthority PlanningSpec PlanningLog.
From S2P Require Import LedgerExample OrderExample RiskTheorems StrategyTheorems.

Open Scope Z_scope.

Section Claims.
Context `{hash : Sha256} (run_id : RunId) (first_target first_intent count : Z) (start : option Z).
Implicit Types (a : PortfolioPlanningAuthority) (st : PlanningAuthority._AuthorityState) (r : PortfolioPlanningResult).
Implicit Types (signal : StrategySignal) (snapshot : PortfolioSnapshot) (log : list PortfolioPlanningResult).
#[local] Abbreviation reached := (planning_reachable run_id first_target first_intent count start).

Lemma signal_logged log r : r ∈ log -> sg_signal_id (pr_signal r) ∈ map signal_id_of log.
Proof. intros Hr. by apply list_elem_of_In, (in_map signal_id_of), list_elem_of_In. Qed.

(** A new plan is a plan of the specification. *)
Lemma fresh_plan a st log snapshot signal r st' : reached a st log -> sg_signal_id signal ∉ map signal_id_of log ->
  plan a st snapshot signal = (Ok r, st') -> bound a /\ exists n after,
    planned a n (intent_next (pa_public st)) signal snapshot r after.
Proof.
  intros (Ha & Hr & L)%planning_reachable_logged Hf Hp.
  apply (plan_planning run_id first_target first_intent count start) with (log := log) in Hp; try done.
  split; [done|]. inversion Hp as [r' Hr' Hs| | |n r' after _ _ _ _ _ Hpl _ _|]; subst; [|by eexists _, _].
  by apply signal_logged in Hr'.
Qed.

(** ** What a plan is *)

(** C10: a plan asks for exactly the signed position of the policy, and its intent closes
    exactly the gap to it. The difference is target minus current position without
    rounding; an intent is emitted exactly when no fill is unresolved and the gap is not
    zero, is positive, for the signal's instrument and the snapshot's version, and bought
    or sold in full moves the current position onto the target. *)
Theorem plans_close_the_gap a st log snapshot signal r st' : reached a st log ->
  sg_signal_id signal ∉ map signal_id_of log -> plan a st snapshot signal = (Ok r, st') ->
  exists entry, entry ∈ pp_entries (pa_policy a) /\ entry_instrument entry = sg_instrument signal /\
    let target := signed_units (sg_direction signal) (units (target_quantity entry)) in
    let current := units (current_position snapshot (sg_instrument signal)) in
    units (pt_target_position (pr_target r)) = target /\ units (pl_delta (pr_outcome r)) = target - current /\
    match pr_intent r with
    | Some i => unresolved_fills snapshot = [] /\ target <> current /\ 0 < units (oi_quantity i) /\
                moved (oi_side i) current (units (oi_quantity i)) = target /\
                oi_instrument i = sg_instrument signal /\ oi_portfolio_snapshot_version i = snapshot_version snapshot
    | None => unresolved_fills snapshot <> [] \/ target = current
    end.
Proof.
  intros Hst Hf Hp. destruct (fresh_plan _ _ _ _ _ _ _ Hst Hf Hp) as (Ha & n & after & Hpl).
  destruct Hpl as [entry s p d kind intent after Hrun Hown Hent Hspec Hpos Hd He]. exists entry.
  destruct (pb_entry a Ha _ _ Hent) as [Hei Hin]. split_and!; [done|done|]. cbn [pr_target pr_outcome pr_intent
    target_of outcome_of pt_target_position pl_delta]. rewrite Hpos in Hd. split_and!; [done|done|]. destruct intent as [i|].
  - assert (unresolved_fills snapshot = []) as Hu by (inversion He; done).
    apply emits_intent_of in He as (m & q & _ & _ & _ & Hnz & Hq & Hi).
    destruct (emitted_intent_fields a n signal snapshot s p m _ _ i Hi) as (s' & Hs' & Hqp & ->).
    cbn [intent_of oi_quantity oi_side oi_instrument oi_portfolio_snapshot_version].
    split_and!; try done; [lia|]. unfold moved. destruct (Z.ltb_spec 0 (units d)); lia.
  - inversion He; subst; [by left|right; lia].
Qed.

(** ** The log *)

Lemma intents_numbered st log : planning_log run_id first_target first_intent count start st log ->
  forall n, (n <= length log)%nat ->
    map oi_intent_id (intents_of (take n log))
    = map (id_from run_id PORTFOLIO_INTENT first_intent) (seq 0 (length (intents_of (take n log)))).
Proof.
  intros L n. induction n as [|n IH]; intros Hn; [by rewrite take_0|].
  destruct (lookup_lt_is_Some_2 log n) as [r Hr]; [lia|]. rewrite (take_S_r _ _ r) by done.
  assert (intents_of (take n log ++ [r]) = intents_of (take n log) ++ match pr_intent r with Some i => [i] | None => [] end) as ->.
  { unfold intents_of. rewrite omap_app. cbn. by destruct (pr_intent r). }
  destruct (pn_planned _ _ _ _ _ _ _ L n r Hr) as (a & after & _ & Hrun & _ & Hpl).
  destruct (planned_result_facts _ _ _ _ _ _ _ Hpl) as (_ & _ & _ & _ & Hi).
  destruct (pr_intent r) as [i|]; [|rewrite app_nil_r; apply IH; lia].
  destruct Hi as (m & [-> _]%number_after_Some & _ & Hid).
  rewrite map_app, length_app, seq_app, map_app, IH by lia. cbn [map length seq Nat.add]. do 2 f_equal.
  by rewrite Hid, Hrun.
Qed.

(** Targets and intents are numbered from the first numbers without gaps, in the order
    of the plans, whose dispatches strictly increase after those of an earlier run; a plan
    takes an intent number exactly when it has an intent; and the lookup by signal answers
    exactly the plans made. *)
Theorem plans_are_numbered a st log : reached a st log ->
  map (fun r => pt_target_id (pr_target r)) log = map (id_from run_id PORTFOLIO_TARGET first_target) (seq 0 (length log)) /\
  map oi_intent_id (intents_of log) = map (id_from run_id PORTFOLIO_INTENT first_intent) (seq 0 (length (intents_of log))) /\
  target_next (pa_public st) = number_after first_target (length log) /\
  intent_next (pa_public st) = number_after first_intent (length (intents_of log)) /\
  in_order start (map dispatch_of log) /\
  (forall signal_id r, id_fits signal_id STRATEGY_SIGNAL run_id ->
     lookup_by_signal_id a st signal_id = Ok (Some r) <-> r ∈ log /\ signal_id_of r = signal_id).
Proof.
  intros (Ha & Hrun & L)%planning_reachable_logged. split_and!; try apply L.
  - apply list_eq. intros i. change (map (fun r => pt_target_id (pr_target r)) log) with
      ((fun r => pt_target_id (pr_target r)) <$> log). change (map ?f (seq ?x ?y)) with (f <$> seq x y).
    rewrite !list_lookup_fmap. destruct (log !! i) as [r|] eqn:Hi.
    + rewrite lookup_seq_lt by (by eapply lookup_lt_Some). cbn [fmap option_fmap option_map].
      destruct (pn_planned _ _ _ _ _ _ _ L i r Hi) as (a' & after & _ & Hr & _ & Hpl).
      destruct (planned_result_facts _ _ _ _ _ _ _ Hpl) as (_ & _ & _ & -> & _). by rewrite Hr.
    + apply lookup_ge_None in Hi. by rewrite lookup_seq_ge.
  - rewrite <-(firstn_all log) at 1 2. by apply (intents_numbered st).
  - intros k r Hk. unfold lookup_by_signal_id. rewrite (proj2 (valid_planning_id _ _ _)) by (by rewrite Hrun). cbn [rbind].
    pose proof (pn_replay _ _ _ _ _ _ _ L) as Hix. split.
    + intros Hs%Ok_inj. apply fmap_Some in Hs as (rec & Hr & ->). apply Hix in Hr as (r & Hr & <- & <-). done.
    + intros [Hr <-]. by rewrite (indexes_lookup _ _ _ _ _ Hix Hr).
Qed.

(** A signal is settled by its first plan. The same signal is answered with the same
    plan whatever the portfolio has become, and nothing changes; another valid signal under
    its identity is refused with CONFLICTING_ID and halts the authority, whose plans stay;
    and a halted authority never changes again. *)
Theorem planned_signals_are_settled a st log r snapshot signal : reached a st log -> r ∈ log ->
  (signal = pr_signal r -> plan a st snapshot signal = (Ok r, st)) /\
  (sg_signal_id signal = signal_id_of r -> signal <> pr_signal r -> _validate_signal signal = Ok tt ->
   exists st', plan a st snapshot signal = (Raise (PortfolioPlanningError CONFLICTING_ID), st') /\
     ps_halted (pa_public st') = true /\ replay_by_signal_id st' = replay_by_signal_id st) /\
  (ps_halted (pa_public st) = true -> forall snapshot signal, (plan a st snapshot signal).2 = st).
Proof.
  intros (Ha & Hrun & L)%planning_reachable_logged Hr. pose proof (pn_signals _ _ _ _ _ _ _ L) as Hnd.
  assert (forall r', r' ∈ log -> signal_id_of r' = signal_id_of r -> r' = r) as Huniq.
  { intros r' Hr' Hid. apply list_elem_of_lookup_1 in Hr as [i Hi], Hr' as [j Hj].
    assert (i = j) as ->; [|congruence]. apply (NoDup_lookup _ i j (signal_id_of r) Hnd);
      change (map signal_id_of log) with (signal_id_of <$> log); rewrite list_lookup_fmap; [by rewrite Hi|by rewrite Hj, <-Hid]. }
  pose proof (signal_logged _ _ Hr) as Hin. pose proof (pn_halt _ _ _ _ _ _ _ L) as Hhalt. split_and!.
  - intros ->. destruct (plan a st snapshot (pr_signal r)) as [m st'] eqn:E.
    apply (plan_planning run_id first_target first_intent count start) with (log := log) in E; try done.
    inversion E as [r' Hr' Hs|r' Hr' Hk Hne|Hv Hf|n r' after Hv Hf|e Hn Hne]; subst; try done.
    + by rewrite (Huniq r' Hr') by (unfold signal_id_of; by rewrite Hs).
    + by destruct (Huniq r' Hr' Hk).
    + apply list_elem_of_lookup_1 in Hr as [i Hi]. destruct (logged_valid _ _ _ _ _ _ _ _ _ L Hi) as [Hv _].
      by destruct (Hne Hv).
  - intros Hid Hne Hv. destruct (plan a st snapshot signal) as [m st'] eqn:E. exists st'.
    assert (sg_signal_id signal ∈ map signal_id_of log) as Hin' by by rewrite Hid.
    apply (plan_planning run_id first_target first_intent count start) with (log := log) in E; try done.
    inversion E as [r' Hr' Hs|r' Hr' Hk Hn'|Hv' Hf|n r' after Hv' Hf|e Hn Hn']; subst; try done.
    + destruct Hne. by rewrite <-(Huniq r' Hr' Hid).
    + split; [done|]. unfold PlanningSpec.halted_state. destruct (ps_conflict (pa_public st)); [by rewrite Hhalt|done].
    + by destruct (Hn' Hv).
  - intros Hh snapshot' signal'. destruct (plan a st snapshot' signal') as [m st'] eqn:E. cbn [snd].
    apply (plan_planning run_id first_target first_intent count start) with (log := log) in E; try done.
    rewrite Hh in Hhalt. inversion E; subst; try done; try congruence;
      unfold PlanningSpec.halted_state; by destruct (ps_conflict (pa_public st)).
Qed.

(** C11: what can be planned is planned. While the authority is running and numbers are left,
    a valid signal of its run that is new and in order, on an instrument of the policy,
    against a portfolio of its run whose position is on the grid and whose gap fits a
    decimal, gets a plan; the plan's kind is the one the portfolio and the gap ask for, and
    the authority goes on. *)
Theorem plannable_signals_are_planned a st log n snapshot signal : reached a st log ->
  plannable a st n signal snapshot -> sg_signal_id signal ∉ map signal_id_of log ->
  is_after (last_taken start (map dispatch_of log)) (sg_dispatch_sequence signal) ->
  exists r st', plan a st snapshot signal = (Ok r, st') /\ pr_signal r = signal /\ pr_snapshot r = snapshot /\
    pl_kind (pr_outcome r) = expected_kind snapshot (pl_delta (pr_outcome r)) /\
    ps_halted (pa_public st') = false /\ signal_id_of r = sg_signal_id signal /\
    lookup_by_signal_id a st' (sg_signal_id signal) = Ok (Some r).
Proof.
  intros (Ha & Hrun & L)%planning_reachable_logged Hpl Hf Hafter.
  destruct (plan a st snapshot signal) as [m st'] eqn:E.
  apply (plan_planning run_id first_target first_intent count start) with (log := log) in E; try done.
  inversion E as [r Hr Hs|r Hr Hk Hne|Hv _ Hl|m' r after Hv _ _ Hh Hn Hp Hc Haf|e Hn]; subst.
  - by apply signal_logged in Hr.
  - destruct Hf. rewrite <-Hk. apply list_elem_of_In, (in_map signal_id_of), list_elem_of_In, Hr.
  - done.
  - exists r, (planned_state a st m' r after). destruct (planned_result_facts _ _ _ _ _ _ _ Hp) as (E1 & E2 & _).
    assert (signal_id_of r = sg_signal_id signal) as Hid by (unfold signal_id_of; by rewrite E1).
    split_and!; try done.
    + destruct Hp as [entry s p d kind intent after' _ _ _ _ _ _ He]. cbn [pr_outcome outcome_of pl_kind pl_delta].
      by eapply expected_of_emits.
    + unfold lookup_by_signal_id. destruct Hpl as [_ [Hr _] _ _ _ _ _ _ _ _ _].
      apply (proj1 (valid_signal signal)) in Hv as [Hv _].
      rewrite (proj2 (valid_planning_id _ _ _)) by (by rewrite <-Hr). cbn [rbind planned_state replay_by_signal_id].
      by rewrite Hid, lookup_insert_eq.
  - destruct Hn. by exists n.
Qed.

(** ** Joined with the risk authority *)

Lemma created_intent_structural rc run intent_id correlation target instrument side q v t n i :
  create_order_intent run intent_id correlation target instrument side q v t n (ra_spec_set rc) (ra_execution_policy rc) = Ok i ->
  RiskReach.bound rc -> run = ra_run_id rc -> is_ok (_require_structural_intent rc i) = true.
Proof.
  unfold create_order_intent. intros H Hb ->. apply rbind_Ok in H as (? & _ & H).
  apply rbind_Ok in H as (? & _ & H). apply rbind_Ok in H as (? & _ & H). apply rbind_Ok in H as ([s d] & Hs & H).
  apply rbind_Ok in H as (? & Hq & H). apply rbind_Ok in H as (? & _ & H). apply rbind_Ok in H as (? & _ & H).
  apply rbind_Ok in H as (? & _ & H). unfold _require_spec_set in Hs. apply rbind_Ok in Hs as (s' & Hs & He).
  cbn [lineage_conflict] in He. injection He as -> <-. apply Ok_inj in H. subst i.
  unfold _require_structural_intent. cbn [oi_run_id oi_spec_set_id oi_spec_set_sha256 oi_instrument oi_specification_id oi_quantity].
  rewrite (bd_sha256 _ Hb), (proj2 (bd_index _ Hb _ s)) by done. rewrite !bool_decide_true by done. cbn [negb orb].
  unfold _require_quantity in Hq. apply rbind_Ok in Hq as (? & Hp & Hq). rewrite Hp. cbn [rbind].
  apply rbind_Ok in Hq as (? & Hq & _). by rewrite Hq.
Qed.

Lemma position_for_current snapshot i : _position_for snapshot i = current_position snapshot i.
Proof.
  unfold _position_for, current_position. induction (position_balances snapshot) as [|b l IH]; [done|].
  cbn. by case_bool_decide.
Qed.

(** C7: no approved quantity overshoots the plan. An intent the planning authority emits is
    decided by a risk authority of the same run, specification set and execution policy
    that has not seen it, on the snapshot it was planned against; and whatever quantity is
    approved moves the position toward the signed target and not past it, within the limits
    of the risk policy, and onto it when the intent is allowed in full. *)
Theorem approvals_never_overshoot_the_target a st log rc rs snapshot signal r st' i : reached a st log ->
  sg_signal_id signal ∉ map signal_id_of log -> plan a st snapshot signal = (Ok r, st') -> pr_intent r = Some i ->
  RiskSpec.reachable rc rs -> ra_run_id rc = pa_run_id a -> ra_spec_set rc = pa_spec_set a ->
  ra_execution_policy rc = pa_execution_policy a ->
  replay_index rs !! oi_intent_id i = None -> decision_next rs <> None ->
  exists result rs', evaluate rc rs i snapshot = (Ok result, rs') /\
    forall q, rd_approved_quantity (result_decision result) = Some q ->
      let current := units (current_position snapshot (sg_instrument signal)) in
      let target := units (pt_target_position (pr_target r)) in
      let reached := moved (oi_side i) current (units q) in
      (current < reached <= target \/ target <= reached < current) /\
      (rd_kind (result_decision result) = ALLOW -> reached = target) /\
      exists l, l ∈ instrument_limits (ra_policy rc) /\ limit_instrument l = sg_instrument signal /\
        approves_within (limit_units l) current (oi_side i) (units (oi_quantity i)) (units q).
Proof.
  intros Hst Hf Hp Hi Hrs Hrun Hss Hpol Hnew Hdn. destruct (fresh_plan _ _ _ _ _ _ _ Hst Hf Hp) as (Ha & n & after & Hpl).
  destruct Hpl as [entry s p d kind intent after Hsr Hown Hent Hspec Hpos Hd He]. cbn [pr_intent pr_target] in *. subst intent.
  apply emits_intent_of in He as (m & q0 & _ & _ & _ & Hnz & Hq0 & Hc).
  destruct (emitted_intent_fields a n signal snapshot s p m _ _ i Hc) as (s' & Hs' & Hqp & Hi).
  destruct (created_intent_rebuilt _ _ _ _ _ _ _ _ _ _ _ _ _ Hc) as (_ & _ & _ & _ & _ & _ & Hv & Hdisp).
  destruct (RiskReach.reachable_log _ _ Hrs) as (Hb & l & Hl).
  rewrite <-Hss, <-Hpol in Hc. apply created_intent_structural in Hc; [|done|done].
  destruct (decision_next rs) as [dn|] eqn:En; [|done].
  assert (snapshot_version snapshot = oi_portfolio_snapshot_version i) as Hver by by rewrite Hi.
  destruct (evaluate_new_total _ Hb rs l i snapshot dn Hl Hc En ltac:(lia)) as (f & result & rs' & Hfl & Hev & Hr).
  exists result, rs'. split; [unfold evaluate; rewrite (proj2 (Z.ltb_ge _ _) Hdisp), Hnew; by rewrite Hev|].
  intros q Hq. cbv zeta. rewrite Hq in Hr. cbn [fmap option_fmap option_map] in Hr.
  assert (expected_verdict rc rs i snapshot f = (rd_kind (result_decision result), reason_code (result_evidence result), Some (units q))) as Hex.
  { unfold allocated_verdict in Hr. by destruct (_ && _) in Hr. }
  unfold expected_verdict in Hex. destruct f; [done|]. destruct (halted (risk_state rs)); [done|].
  rewrite position_for_current in Hex.
  assert (oi_instrument i = sg_instrument signal /\ oi_side i = (if 0 <? units d then BUY else SELL) /\
          units (oi_quantity i) = Z.abs (units d)) as (E1 & E2 & E3) by (by subst i).
  rewrite E1, E2, E3 in Hex. rewrite E2, E3. destruct (policy_verdict_executable _ _ _ _ _ _ _ Hex) as (_ & _ & Hallow & _).
  apply policy_verdict_within in Hex as (lim & Hlim & Hw); [|lia|].
  2:{ intros lm Hlm. apply fmap_Some in Hlm as (x & Hx & ->). by destruct (bd_limits _ Hb _ _ Hx) as [_ (? & _)]. }
  apply fmap_Some in Hlim as (x & Hx & ->). destruct (bd_limits _ Hb _ _ Hx) as [Hxi _].
  cbn [target_of pt_target_position]. destruct Hw as (W1 & W2 & W3). split_and!.
  - unfold moved. destruct (Z.ltb_spec 0 (units d)); [left|right]; lia.
  - intros Hk. specialize (Hallow Hk). injection Hallow as Hallow. unfold moved. destruct (Z.ltb_spec 0 (units d)); lia.
  - exists x. split_and!; [apply (bd_member _ Hb); by rewrite Hxi|done|exact (conj W1 (conj W2 W3))].
Qed.
End Claims.

(** ** A concrete run: a policy of ten, a position of six, and a signal to be long *)

Definition the_portfolio_policy_id : PortfolioPolicyId := mkPatternStr (r := _TOKEN_PATTERN) "portfolio" eq_refl.
Definition the_entry : Phase1PortfolioPolicyEntry := mkPolicyEntry the_instrument ten.
Lemma the_portfolio_policy_created :
  is_ok (create_phase1_portfolio_policy the_portfolio_policy_id [the_entry] the_spec_set) = true.
Proof. vm_compute. reflexivity. Qed.
Definition the_portfolio_policy : Phase1PortfolioPolicy := unwrap _ the_portfolio_policy_created.

Definition create_planning := create_portfolio_planning_authority the_run the_portfolio the_spec_set the_portfolio_policy
  the_policy_ref 1 1 0 None.
Lemma the_planning_created : is_ok create_planning = true.
Proof. vm_compute. reflexivity. Qed.
Definition the_planning : PortfolioPlanningAuthority := (unwrap _ the_planning_created).1.
Definition no_plans : PlanningAuthority._AuthorityState := (unwrap _ the_planning_created).2.

(** The signal of [StrategyTheorems], field by field. *)
Definition to_be_long : StrategySignal := StrategySpec.signal_of the_signal_authority 1 long_taken 0.
Definition to_be_short : StrategySignal := StrategySpec.signal_of the_signal_authority 1 (StrategySpec.mkTaken long_bar 7 SHORT) 0.
Definition the_plan := plan the_planning no_plans the_portfolio to_be_long.
Lemma the_plan_made : is_ok the_plan.1 = true.
Proof. vm_compute. reflexivity. Qed.
Definition the_result : PortfolioPlanningResult := unwrap _ the_plan_made.
Definition planned_once : PlanningAuthority._AuthorityState := the_plan.2.
Lemma the_plan_is : plan the_planning no_plans the_portfolio to_be_long = (Ok the_result, planned_once).
Proof. exact (issued_pair the_plan the_plan_made). Qed.

Definition plan_summary (r : PortfolioPlanningResult) :=
  (units (pt_target_position (pr_target r)), units (pl_delta (pr_outcome r)), pl_kind (pr_outcome r),
   (fun i => (owner_sequence (oi_intent_id i), oi_side i, units (oi_quantity i))) <$> pr_intent r).
Lemma the_plan_summary :
  plan_summary the_result = (unit_count 10, unit_count 4, INTENT_EMITTED, Some (1, BUY, unit_count 4)).
Proof. refine (bool_decide_unpack _ _). vm_compute. exact I. Qed.

#[local] Abbreviation the_reach := (planning_reachable the_run 1 1 0 None).
Lemma no_plans_reachable : the_reach the_planning no_plans [].
Proof.
  apply (planning_created _ _ _ _ _ the_portfolio the_spec_set the_portfolio_policy the_policy_ref).
  change (create_planning = Ok (the_planning, no_plans)). rewrite (unwrap_ok _ the_planning_created).
  unfold the_planning, no_plans. by destruct (unwrap _ _).
Qed.
Lemma planned_once_reachable : the_reach the_planning planned_once [the_result].
Proof. exact (planning_planned _ _ _ _ _ _ _ _ _ _ _ _ no_plans_reachable the_plan_is). Qed.

Lemma the_intent_planned : exists i, pr_intent the_result = Some i.
Proof.
  assert (negb (absent (pr_intent the_result)) = true) as H by (vm_compute; reflexivity).
  destruct (pr_intent the_result) as [i|]; [by exists i|discriminate H].
Qed.
Lemma target_and_room : target_next (pa_public no_plans) = Some 1 /\ intent_next (pa_public no_plans) = Some 1 /\
  result_count (pa_public no_plans) = 0 /\ ps_halted (pa_public no_plans) = false.
Proof. split_and!; vm_compute; reflexivity. Qed.
Lemma the_planning_entry : entry_by_instrument the_planning !! the_instrument = Some the_entry.
Proof. refine (bool_decide_unpack _ _). vm_compute. exact I. Qed.
Lemma the_planning_specs : pa_spec_set the_planning = the_spec_set /\ pa_run_id the_planning = the_run /\
  pa_execution_policy the_planning = the_policy_ref.
Proof. split_and!; (refine (bool_decide_unpack _ _); vm_compute; exact I). Qed.
Lemma to_be_long_valid : _validate_signal to_be_long = Ok tt.
Proof. vm_compute. reflexivity. Qed.
Lemma to_be_short_valid : _validate_signal to_be_short = Ok tt.
Proof. vm_compute. reflexivity. Qed.
Lemma portfolio_is_own : own_snapshot the_planning the_portfolio.
Proof. split_and!; (refine (bool_decide_unpack _ _); vm_compute; exact I). Qed.

Lemma the_spec_found : require_spec the_spec_set (sg_instrument to_be_long) = Ok the_spec.
Proof. vm_compute. reflexivity. Qed.
Lemma the_only_entry e : entry_by_instrument the_planning !! sg_instrument to_be_long = Some e -> e = the_entry.
Proof. intros He. pose proof (eq_trans (eq_sym the_planning_entry) He) as H. injection H as H. exact (eq_sym H). Qed.

Lemma to_be_long_plannable : plannable the_planning no_plans 1 to_be_long the_portfolio.
Proof.
  destruct target_and_room as (H1 & H2 & H3 & H4), the_planning_specs as (S1 & S2 & _).
  split.
  - exact to_be_long_valid.
  - split; [exact (eq_sym S2)|exact portfolio_is_own].
  - exact H4.
  - exists the_entry. exact the_planning_entry.
  - rewrite H1. split; [reflexivity|split; vm_compute; discriminate].
  - rewrite H3. split; vm_compute; [discriminate|reflexivity].
  - split; vm_compute; discriminate.
  - intros s Hs. rewrite S1, the_spec_found in Hs. apply Ok_inj in Hs as <-. exists 6. vm_compute. reflexivity.
  - intros e He. rewrite (the_only_entry e He). vm_compute. reflexivity.
  - rewrite H2. split; vm_compute; discriminate.
  - intros _ _ _ _. rewrite H2. exists 1. reflexivity.
Qed.
Definition no_bindings {K A} `{Countable K} (m : gmap K A) : bool :=
  match map_to_list m with [] => true | _ => false end.
Lemma no_bindings_lookup {K A} `{Countable K} (m : gmap K A) k : no_bindings m = true -> m !! k = None.
Proof.
  unfold no_bindings. destruct (map_to_list m) eqn:E; [|done]. intros _.
  apply map_to_list_empty_iff in E as ->. apply lookup_empty.
Qed.
Lemma no_decisions : no_bindings (replay_index the_initial_risk) = true.
Proof. vm_compute. reflexivity. Qed.
Lemma fresh_for_risk i : replay_index the_initial_risk !! oi_intent_id i = None.
Proof. exact (no_bindings_lookup _ _ no_decisions). Qed.
Lemma risk_is_fresh : absent (decision_next the_initial_risk) = false /\
  ra_run_id the_risk_context = the_run /\ ra_spec_set the_risk_context = the_spec_set /\
  ra_execution_policy the_risk_context = the_policy_ref.
Proof. split_and!; [vm_compute; reflexivity|..]; (refine (bool_decide_unpack _ _); vm_compute; exact I). Qed.
Lemma initial_risk_reachable : RiskSpec.reachable the_risk_context the_initial_risk.
Proof. exists the_initial_risk, []. split; [exact the_risk_established|reflexivity]. Qed.

#[global] Opaque the_planning no_plans planned_once the_result.

Lemma map_singleton {A B} (f : A -> B) x y : map f [x] = [y] -> f x = y.
Proof. by intros [= <-]. Qed.

(** ** Witnesses *)

Lemma plans_close_the_gap_witness : exists i, pr_intent the_result = Some i /\ 0 < units (oi_quantity i) /\
  moved (oi_side i) (units (current_position the_portfolio the_instrument)) (units (oi_quantity i))
  = units (pt_target_position (pr_target the_result)).
Proof.
  destruct (plans_close_the_gap the_run 1 1 0 None the_planning no_plans [] the_portfolio to_be_long the_result planned_once
    no_plans_reachable (not_elem_of_nil _) the_plan_is) as (entry & _ & _ & H1 & _ & H2).
  destruct the_intent_planned as [i Hi]. rewrite Hi in H2. destruct H2 as (_ & _ & H3 & H4 & _).
  exists i. rewrite H1. split; [exact Hi|split; [exact H3|exact H4]].
Defined.

Lemma plans_are_numbered_witness :
  pt_target_id (pr_target the_result) = mkEconomicId the_run PORTFOLIO_TARGET 1 /\
  target_next (pa_public planned_once) = Some 2.
Proof.
  destruct (plans_are_numbered the_run 1 1 0 None the_planning planned_once [the_result] planned_once_reachable) as
    (H1 & _ & H2 & _).
  split; [|exact H2]. exact (map_singleton _ _ _ H1).
Defined.

Lemma planned_signals_are_settled_witness :
  plan the_planning planned_once the_portfolio (pr_signal the_result) = (Ok the_result, planned_once).
Proof.
  destruct (planned_signals_are_settled the_run 1 1 0 None the_planning planned_once [the_result] the_result the_portfolio
    (pr_signal the_result) planned_once_reachable ltac:(left)) as (H & _). exact (H eq_refl).
Defined.

Lemma plannable_signals_are_planned_witness : exists r st',
  plan the_planning no_plans the_portfolio to_be_long = (Ok r, st') /\ pr_signal r = to_be_long.
Proof.
  destruct (plannable_signals_are_planned the_run 1 1 0 None the_planning no_plans [] 1 the_portfolio to_be_long
    no_plans_reachable to_be_long_plannable (not_elem_of_nil _) I) as (r & st' & H1 & H2 & _).
  exists r, st'. split; [exact H1|exact H2].
Defined.

Lemma approvals_never_overshoot_the_target_witness : exists i result rs', pr_intent the_result = Some i /\
  evaluate the_risk_context the_initial_risk i the_portfolio = (Ok result, rs') /\
  forall q, rd_approved_quantity (result_decision result) = Some q ->
    rd_kind (result_decision result) = ALLOW ->
    moved (oi_side i) (units (current_position the_portfolio the_instrument)) (units q)
    = units (pt_target_position (pr_target the_result)).
Proof.
  destruct the_intent_planned as [i Hi], risk_is_fresh as (R1 & R2 & R3 & R4), the_planning_specs as (S1 & S2 & S3).
  destruct (approvals_never_overshoot_the_target the_run 1 1 0 None the_planning no_plans [] the_risk_context
    the_initial_risk the_portfolio to_be_long the_result planned_once i no_plans_reachable (not_elem_of_nil _) the_plan_is Hi
    initial_risk_reachable) as (result & rs' & H1 & H2).
  - rewrite R2, S2. reflexivity.
  - rewrite R3, S1. reflexivity.
  - rewrite R4, S3. reflexivity.
  - exact (fresh_for_risk i).
  - intros Hn. rewrite Hn in R1. discriminate R1.
  - exists i, result, rs'. split; [exact Hi|split; [exact H1|]]. intros q Hq Hk. exact (proj1 (proj2 (H2 q Hq)) Hk).
Defined.
