(* ===== verification/Pipeline.v ===== *)
(** The risk and Order authorities joined: what the one issues the other accepts. *)

From S2P Require Import Prelude PyRegex PyText Outcomes Json Identity Numbering Indexing Economics Commission.
From S2P Require Import Execution Messages Orders Wire Decoders Portfolio Risk RiskAuthority OrderAuthority.
From S2P Require Import FactAuthority RoundTrip MessageCodec OrderCodec OrderSpec RiskSpec RiskReach.

Open Scope Z_scope.

(** *** The pre-trade pipeline: the risk authority and the Order authority joined as the
    program joins them.  The Order authority asks the risk authority, through its port,
    whether it issued a result; an issued executable result always yields its Order, and
    every Order comes from one. *)

(** The Order authority as the resolver the execution fact authority asks. *)
Definition order_port `{hash : Sha256} (st : _OrderAuthorityState) : OrderResolutionVerifier :=
  {| FactAuthority.resolve_issued_order_by_id := OrderAuthority.resolve_issued_order_by_id st;
     FactAuthority.resolve_issued_order_by_client_submission_key :=
       OrderAuthority.resolve_issued_order_by_client_submission_key st |}.

Section Pipeline.
Context `{hash : Sha256} (rc : RiskAuthorityContext) (oc : OrderAuthorityContext).

(** The risk authority as the port the Order authority asks. *)
Definition risk_port (st : RiskAuthority._AuthorityState) : RiskResultIssuanceVerifier :=
  {| verifier_run_id := ra_run_id rc;
     verifier_spec_set := ra_spec_set rc;
     verifier_execution_policy := ra_execution_policy rc;
     verifier_policy := ra_policy rc;
     verifier_has_issued_result := has_issued_result st |}.

Record pipeline : Type := mkPipeline {
  pipe_risk : RiskAuthority._AuthorityState;
  pipe_orders : _OrderAuthorityState
}.
Inductive pipeline_step : Type :=
| AskRisk (op : risk_operation)
| AskOrder (intent : OrderIntent) (result : RiskEvaluationResult).
Definition advance (p : pipeline) (s : pipeline_step) : pipeline :=
  match s with
  | AskRisk op => mkPipeline (perform rc (pipe_risk p) op) (pipe_orders p)
  | AskOrder intent result =>
      mkPipeline (pipe_risk p) (submit oc (pipe_orders p) (mkSubmission (risk_port (pipe_risk p)) intent result))
  end.
Definition advance_all (p : pipeline) (ss : list pipeline_step) : pipeline := fold_left advance ss p.

(** Both authorities created for one run, specification set, execution policy and risk
    policy, as the program's compositions create them. *)
Definition joined (p : pipeline) : Prop :=
  established rc (pipe_risk p) /\
  @create_phase1_order_authority hash (risk_port (pipe_risk p)) (ra_run_id rc) (ra_spec_set rc)
    (ra_execution_policy rc) (ra_policy rc) = Ok (oc, pipe_orders p).
Definition flows (p : pipeline) : Prop := exists p0 ss, joined p0 /\ p = advance_all p0 ss.

Lemma advance_all_snoc p ss s : advance_all p (ss ++ [s]) = advance (advance_all p ss) s.
Proof. apply fold_left_app. Qed.

(** ** The invariant *)

Record shared : Prop := {
  sh_run : oa_run_id oc = ra_run_id rc;
  sh_specs : oa_spec_set oc = ra_spec_set rc;
  sh_sha256 : oa_spec_set_sha256 oc = instrument_spec_set_digest (ra_spec_set rc);
  sh_execution : oa_execution_policy oc = ra_execution_policy rc;
  sh_policy : oa_risk_policy oc = ra_policy rc;
  sh_policy_sha256 : oa_risk_policy_sha256 oc = phase1_risk_policy_digest (ra_policy rc);
  sh_policy_specs : policy_spec_set_id (ra_policy rc) = spec_set_identifier (ra_spec_set rc);
  sh_policy_specs_sha256 : policy_spec_set_sha256 (ra_policy rc) = instrument_spec_set_digest (ra_spec_set rc);
  sh_policy_execution : policy_execution_policy (ra_policy rc) = ra_execution_policy rc
}.
Record flowing (p : pipeline) (l : list OrderSpec.entry) : Prop := {
  fl_shared : shared;
  fl_risk : RiskSpec.reachable rc (pipe_risk p);
  fl_orders : order_log oc (pipe_orders p) l;
  fl_issued : Forall (fun e => issued_by (pipe_risk p) (OrderSpec.entry_intent e) (entry_result e) = true) l
}.

Lemma joined_shared p : joined p -> shared /\ pipe_orders p = empty_order_state.
Proof.
  intros [_ H]. unfold create_phase1_order_authority in H. apply (proj1 (public_Ok _ _)) in H.
  destruct (bool_decide_reflect (policy_spec_set_id (ra_policy rc) = spec_set_identifier (ra_spec_set rc))); [|done].
  destruct (bool_decide_reflect (policy_spec_set_sha256 (ra_policy rc) = instrument_spec_set_digest (ra_spec_set rc))); [|done].
  destruct (bool_decide_reflect (policy_execution_policy (ra_policy rc) = ra_execution_policy rc)); [|done].
  cbn [negb orb] in H. apply rbind_Ok in H as ([] & _ & H). apply Ok_inj in H. injection H as H1 H2. split; [|by symmetry]. by split; rewrite <-?H1.
Qed.

Lemma submit_flowing p l intent result : flowing p l ->
  exists l', flowing (advance p (AskOrder intent result)) l'.
Proof.
  intros [F1 F2 F3 F4]. cbn [advance]. unfold submit. cbn [sm_port sm_intent sm_result].
  destruct (OrderAuthority.create_order _ _ _ _) as [[o st']|e] eqn:E.
  2:{ exists l. by split. }
  apply create_order_created in E as [[-> _]|Hc]; [by exists l|].
  exists (l ++ [(intent, result, o)]). split; cbn [pipe_risk pipe_orders]; [done|done|by eapply created_log|].
  apply Forall_app. split; [done|]. apply Forall_singleton. destruct Hc as [approval n o' _ Hp _ _ _].
  exact (pv_issued _ _ _ _ Hp).
Qed.

Lemma perform_reachable st op : RiskSpec.reachable rc st -> RiskSpec.reachable rc (perform rc st op).
Proof.
  intros (st0 & ops & He & ->). exists st0, (ops ++ [op]). by rewrite operate_snoc.
Qed.

(** The Order authority of a run is reachable on its own. *)
Lemma flows_orders p : flows p -> OrderSpec.reachable oc (pipe_orders p).
Proof.
  intros (p0 & ss & Hj & ->). induction ss as [|s ss (subs & IH)] using rev_ind.
  - destruct (joined_shared _ Hj) as [_ Ho]. exists []. exact Ho.
  - rewrite advance_all_snoc. destruct s as [op|intent result]; cbn [advance pipe_orders]; [by exists subs|].
    exists (subs ++ [mkSubmission (risk_port (pipe_risk (advance_all p0 ss))) intent result]).
    by rewrite submit_all_snoc, <-IH.
Qed.

Lemma flows_flowing p : flows p -> exists l, flowing p l.
Proof.
  intros (p0 & ss & Hj & ->). induction ss as [|s ss (l & IH)] using rev_ind.
  - destruct (joined_shared _ Hj) as [Hs Ho]. exists []. split; cbn; [done| | |done].
    + exists (pipe_risk p0), []. by destruct Hj.
    + rewrite Ho. apply empty_log.
  - rewrite advance_all_snoc. destruct s as [op|intent result]; [|by eapply submit_flowing].
    exists l. destruct IH as [F1 F2 F3 F4]. split; cbn [advance pipe_risk pipe_orders]; [done|by apply perform_reachable|done|].
    eapply Forall_impl; [exact F4|]. intros e He. by apply (membership_kept rc _ [op]).
Qed.
End Pipeline.

(** *** What the Order authority asks of a submission is what the risk authority put in the
    result: every check of [create_order] passes on an issued executable result, and
    submissions that share an identity are the same. *)

Lemma economic_id_rebuilt i : id_ok i ->
  EconomicId_init (id_run_id i) (owner_kind i) (owner_sequence i) = Ok i.
Proof.
  intros Hi. unfold EconomicId_init, _require_uint64, id_ok in *. rewrite !(proj2 (Z.ltb_ge _ _)) by lia. by destruct i.
Qed.

(** ** The transitions and the truth table *)

Lemma transition_agrees before after i : 1 <= owner_sequence i <= MAX_UINT64 ->
  Risk._require_allocated_transition before after i = Ok tt ->
  OrderAuthority._require_allocated_transition before after i = Ok tt.
Proof.
  unfold Risk._require_allocated_transition, OrderAuthority._require_allocated_transition. intros Hr H.
  apply rbind_Ok in H as (b & Hb & H). apply rbind_Ok in H as (a & Ha & H).
  assert (b = before) as ->.
  { unfold _require_next in Hb. destruct before; [|by injection Hb]. by destruct (_ || _); [|injection Hb]. }
  assert (a = after) as ->.
  { unfold _require_next in Ha. destruct after; [|by injection Ha]. by destruct (_ || _); [|injection Ha]. }
  destruct before as [n|]; [|done]. destruct (Z.eqb_spec (owner_sequence i) n) as [Hn|]; [|done]. cbn [negb] in H.
  subst n. rewrite !(proj2 (Z.ltb_ge _ _)) by lia. cbn [orb]. rewrite Z.eqb_refl. cbn [negb].
  by destruct (bool_decide _).
Qed.

Lemma decimal_le_units a b : decimal_le a b = Ok (units a <=? units b).
Proof.
  unfold decimal_le. rewrite decimal_lt_units, decimal_eqb. cbn [rbind]. f_equal.
  destruct (Z.ltb_spec (units a) (units b)), (Z.eqb_spec (units a) (units b)), (Z.leb_spec (units a) (units b));
    try done; lia.
Qed.

(** A verdict of the policy passes the truth table. *)
Lemma verdict_valid o m position side requested approved k r :
  policy_verdict (Some (units o, m)) position side (units requested) = (k, r, Some (units approved)) ->
  0 < units requested -> 0 < units o ->
  policy_valid k r requested approved o = Ok true.
Proof.
  intros H Hq Ho. cbn [policy_verdict] in H. destruct (_ <=? _) in H; [done|].
  destruct (Z.eqb_spec (Z.min (units requested) (Z.min (units o) (Z.max 0 (room side m position)))) 0) in H; [done|].
  destruct (Z.eqb_spec (Z.min (units requested) (Z.min (units o) (Z.max 0 (room side m position)))) (units requested))
    as [He|He] in H.
  - injection H as <- <- Ha. cbn [policy_valid]. rewrite decimal_le_units, !decimal_eqb. cbn [rbind].
    rewrite (proj2 (Z.eqb_eq _ _)), (proj2 (Z.leb_le _ _)) by lia. done.
  - injection H as <- <- Ha. cbn [policy_valid]. rewrite !decimal_lt_units, decimal_gt_units. cbn [rbind].
    change (units CANONICAL_0) with 0.
    rewrite !decimal_eqb, (proj2 (Z.ltb_lt 0 _)), (proj2 (Z.ltb_lt (units approved) (units requested))) by lia.
    destruct (Z.compare_spec (units o) (Z.max 0 (room side m position))) as [Hc|Hc|Hc].
    + rewrite (proj2 (Z.ltb_lt (units o) _)), (proj2 (Z.eqb_eq _ _)) by lia. done.
    + rewrite (proj2 (Z.ltb_lt (units o) _)), (proj2 (Z.eqb_eq _ _)) by lia. done.
    + rewrite (proj2 (Z.ltb_lt (units approved) (units o))) by lia. done.
Qed.

Lemma find_limit_spec limits i l : find_limit limits i = Some l -> l ∈ limits /\ limit_instrument l = i.
Proof.
  induction limits as [|x limits IH]; [done|]. cbn [find_limit].
  destruct (bool_decide_reflect (limit_instrument x = i)); [intros [= <-]; split; [by left|done]|].
  intros []%IH. split; [by right|done].
Qed.
Lemma find_limit_found limits i l : l ∈ limits -> limit_instrument l = i -> is_Some (find_limit limits i).
Proof.
  induction limits as [|x limits IH]; intros Hin Hi; [by apply not_elem_of_nil in Hin|]. cbn [find_limit].
  destruct (bool_decide_reflect (limit_instrument x = i)); [by eexists|].
  apply elem_of_cons in Hin as [->|Hin]; [done|by apply IH].
Qed.

Section Reach.
Context `{hash : Sha256} (rc : RiskAuthorityContext) (oc : OrderAuthorityContext).

(** The limit the Order authority finds is the one the risk authority sized with. *)
Lemma same_limit intent : bound rc ->
  _instrument_limit (ra_policy rc) intent = limit_by_instrument rc !! oi_instrument intent.
Proof.
  intros Hb. unfold _instrument_limit. destruct (find_limit _ _) as [l|] eqn:Hf.
  - apply find_limit_spec in Hf as [Hin <-]. symmetry. by apply (bd_member _ Hb).
  - destruct (limit_by_instrument rc !! _) as [l|] eqn:Hl; [|done].
    destruct (bd_limits _ Hb _ _ Hl) as [Hi _].
    assert (l ∈ instrument_limits (ra_policy rc)) as Hin by (apply (bd_member _ Hb); by rewrite Hi).
    destruct (find_limit_found _ _ _ Hin Hi) as [x Hx]. by rewrite Hf in Hx.
Qed.

(** ** One issued executable result *)

Section Issued.
Context (st : RiskAuthority._AuthorityState) (l : list RiskReach.entry) (Hl : log_ok rc st l) (Hb : bound rc).
Context (e : RiskReach.entry) (He : e ∈ l) (Hi : issued rc e).
Context (Hkind : executable_kind (rd_kind (entry_decision e)) = true).
Let intent := RiskReach.entry_intent e.
Let d := entry_decision e.
Let evidence := rp_evidence e.2.

(** The identities of an issued decision and of its approval are allocated ones. *)
Lemma decision_id_allocated : 1 <= owner_sequence (rd_decision_id d) <= MAX_UINT64.
Proof.
  apply (numbered_ids _ _ _ _ (rd_decision_id d) (lg_decision_ids _ _ _ Hl)).
  rewrite (lg_decisions _ _ _ Hl), map_map. apply list_elem_of_In, in_map_iff. exists e. split; [done|].
  by apply list_elem_of_In.
Qed.
Lemma approval_id_allocated a : rd_approval d = Some a -> 1 <= owner_sequence (ap_approval_id a) <= MAX_UINT64.
Proof.
  intros Ha. apply (numbered_ids _ _ _ _ (ap_approval_id a) (lg_approval_ids _ _ _ Hl)).
  unfold approvals_of. apply list_elem_of_fmap_2, list_elem_of_omap. exists d. split; [|done].
  rewrite (lg_decisions _ _ _ Hl). by apply (list_elem_of_fmap_2 entry_decision).
Qed.

Lemma issued_approval : exists a q, rd_approval d = Some a /\ rd_approved_quantity d = Some q /\
  ap_approved_quantity a = q.
Proof.
  destruct (is_decision _ _ Hi) as (k & i & v & aid & q' & Hd & _).
  destruct (created_decision_fields _ _ _ _ _ _ _ _ Hd) as (E1 & _ & _ & _ & _ & _ & _ & _ & _ & _ & E11 & _ & Hf).
  subst d. rewrite E1 in Hkind. unfold executable in Hf. unfold executable_kind in Hkind. rewrite Hkind in Hf.
  destruct Hf as (a & x & K1 & -> & K3 & _). by exists a, x.
Qed.

Lemma issued_transitions a : rd_approval d = Some a ->
  Risk._require_allocated_transition (decision_next_before evidence) (decision_next_after evidence) (rd_decision_id d)
  = Ok tt /\
  Risk._require_allocated_transition (approval_next_before evidence) (approval_next_after evidence) (ap_approval_id a)
  = Ok tt /\
  re_run_id evidence = rd_run_id d /\ re_intent_id evidence = rd_intent_id d /\
  re_risk_state_version evidence = rd_risk_state_version d /\ re_decision_id evidence = rd_decision_id d /\
  re_decision_sha256 evidence = risk_decision_digest d /\
  re_approval_sha256 evidence = Some (execution_approval_digest a) /\
  0 <= re_portfolio_snapshot_version evidence /\ 0 <= re_risk_state_version evidence.
Proof.
  intros Ha. pose proof (is_evidence _ _ Hi) as H. cbv zeta in H. fold evidence d in H.
  unfold _create_risk_evaluation_evidence in H.
  destruct (Z.ltb_spec (snapshot_version (entry_snapshot e)) 0) in H; [done|].
  destruct (Z.ltb_spec (rd_risk_state_version d) 0) in H; [done|].
  destruct (negb _) in H; [done|]. destruct (negb _) in H; [done|]. apply rbind_Ok in H as (? & _ & H).
  apply rbind_Ok in H as ([] & T1 & H). destruct (negb _) in H; [done|]. fold d in Hkind. rewrite Hkind, Ha in H.
  apply rbind_Ok in H as (s & Hs & H). apply rbind_Ok in Hs as ([] & T2 & Hs). apply Ok_inj in Hs. subst s.
  apply Ok_inj in H. split; [exact T1|]. split; [exact T2|]. rewrite <-H. by split_and!.
Qed.

(** The evidence, the lineage and the policy pass. *)
Lemma issued_evidence a : rd_approval d = Some a -> intent_ok intent ->
  _require_evidence evidence intent d a (ra_policy rc) (phase1_risk_policy_digest (ra_policy rc)) = Ok tt.
Proof.
  intros Ha Hok. destruct (issued_transitions a Ha) as (T1 & T2 & E1 & E2 & E3 & E4 & E5 & E6 & E7 & E8).
  destruct (evidence_inputs _ _ _ _ _ _ _ _ _ _ _ _ (is_evidence _ _ Hi)) as (F1 & F2 & F3 & F4 & F5 & F6).
  fold evidence d intent in F1, F2, F3, F4, F5, F6.
  destruct (is_decision _ _ Hi) as (k & i & v & aid & q & Hd & _). fold d intent in Hd.
  pose proof (created_decision_run _ _ _ _ _ _ _ _ Hd) as Hrun.
  destruct (created_decision_fields _ _ _ _ _ _ _ _ Hd) as (_ & _ & D3 & _ & _ & _ & _ & _ & D9 & _).
  destruct issued_approval as (a' & q' & Ha' & Hq' & _). destruct (is_approved _ _ Hi _ Hq') as (Hlin & _).
  pose proof (same_version _ _ _ Hlin) as Hver. fold intent in Hver.
  destruct Hok as (I1 & _). rewrite <-D3 in I1.
  unfold _require_evidence, _require_evidence_types. rewrite E6. cbn [absent].
  assert (id_ok (rd_decision_id d)) as I2 by (pose proof decision_id_allocated; unfold id_ok; lia).
  rewrite E2, E4, (economic_id_rebuilt _ I1), (economic_id_rebuilt _ I2).
  cbn [rbind]. rewrite !(proj2 (Z.ltb_ge _ _)) by done. cbn [rbind].
  rewrite (transition_agrees _ _ _ decision_id_allocated T1), (transition_agrees _ _ _ (approval_id_allocated a Ha) T2).
  cbn [rbind].
  assert (exists reasons, _EXECUTABLE_REASONS (rd_kind d) = Some reasons /\ _REASONS_BY_KIND (rd_kind d) = reasons) as
    (reasons & -> & Hr) by (fold d in Hkind; destruct (rd_kind d); try done; by eexists).
  rewrite Hr in F6. rewrite bool_decide_eq_true_2 by done. cbn [negb].
  assert (evidence_binds evidence intent d a (ra_policy rc) (phase1_risk_policy_digest (ra_policy rc)) = true) as ->; [|done].
  unfold evidence_binds. rewrite !andb_true_iff, !bool_decide_eq_true, !Z.eqb_eq, E1, E2, E3, E4, E5, E6, F1, F3, F4, F5, Hrun.
  split_and!; try done; congruence.
Qed.

Lemma issued_policy a : rd_approval d = Some a -> oa_risk_policy oc = ra_policy rc ->
  _require_static_policy_proof intent d evidence a (oa_risk_policy oc) = Ok tt.
Proof.
  intros Ha ->. destruct issued_approval as (a' & q & Ha' & Hq & Haq). rewrite Ha in Ha'. injection Ha' as <-.
  destruct (is_approved _ _ Hi _ Hq) as (_ & _ & (lim & Hlim & _) & Hpol). unfold policy_of in Hpol.
  fold intent d evidence in Hlim, Hpol. unfold _require_static_policy_proof.
  rewrite (same_limit _ Hb), Hlim. rewrite Hlim in Hpol. cbn [fmap option_fmap option_map] in Hpol.
  rewrite Haq. destruct (bd_limits _ Hb _ _ Hlim) as [_ (Hpos & _)].
  destruct (structural_intent _ _ Hb (is_structural _ _ Hi)) as (_ & _ & _ & _ & _ & _ & _ & Hqpos & _).
  by rewrite (verdict_valid _ _ _ _ _ _ _ _ Hpol Hqpos Hpos).
Qed.

Lemma issued_lineage : shared rc oc -> _require_frozen_lineage oc intent evidence = Ok tt.
Proof.
  intros [S1 S2 S3 S4 S5 S6 S7 S8 S9]. unfold _require_frozen_lineage.
  destruct (structural_intent _ _ Hb (is_structural _ _ Hi)) as (_ & _ & _ & R1 & R2 & R3 & _).
  fold intent in R1, R2, R3.
  destruct (evidence_inputs _ _ _ _ _ _ _ _ _ _ _ _ (is_evidence _ _ Hi)) as (_ & _ & _ & F4 & F5 & _).
  fold evidence in F4, F5.
  destruct issued_approval as (a & q & _ & Hq & _). destruct (is_approved _ _ Hi _ Hq) as (Hlin & _). fold intent in Hlin.
  assert (oi_execution_policy intent = ra_execution_policy rc) as Hex.
  { unfold _classify_lineage_failure in Hlin.
    by destruct (bool_decide_reflect (oi_execution_policy intent = ra_execution_policy rc)). }
  rewrite S1, S2, S3, S4, S5, S6, F4, F5, R1, R2, R3, S7, S8, S9, Hex.
  by rewrite !bool_decide_eq_true_2.
Qed.

Lemma issued_proven : shared rc oc -> rebuilt_intent (ra_spec_set rc) intent -> intent_ok intent ->
  issued_by st intent (mkRiskResult d evidence) = true ->
  exists a, @proven hash oc (risk_port rc st) intent (mkRiskResult d evidence) a.
Proof.
  intros Hsh Hre Hok Hby. pose proof Hsh as [S1 S2 S3 S4 S5 S6 S7 S8 S9].
  destruct issued_approval as (a & q & Ha & Hq & _). exists a.
  destruct (is_decision _ _ Hi) as (k & i & v & aid & q' & Hd & Hallow & _). fold d intent in Hd, Hallow.
  destruct (created_decision_fields _ _ _ _ _ _ _ _ Hd) as (_ & D2 & _).
  pose proof (created_approval _ _ _ _ _ _ _ _ Hd) as Haid. rewrite Ha in Haid. cbn in Haid.
  split; cbn [result_decision result_evidence]; try done.
  - rewrite S2. by apply decode_issued_intent.
  - rewrite S2. eapply decode_issued_decision; [exact Hd|exact Hallow|exact Hok| |].
    + rewrite <-D2. pose proof decision_id_allocated. unfold id_ok. lia.
    + rewrite <-Haid. cbn. pose proof (approval_id_allocated a Ha). unfold id_ok. lia.
  - rewrite S5, S6. by apply issued_evidence.
  - by apply issued_lineage.
  - by apply issued_policy.
Qed.

Lemma issued_reconstructs a : shared rc oc -> rd_approval d = Some a -> intent_ok intent ->
  @proven hash oc (risk_port rc st) intent (mkRiskResult d evidence) a ->
  reconstruct oc (_materialize_submitted_input intent (mkRiskResult d evidence)) = Ok (intent, d, a).
Proof.
  intros Hsh Ha Hok Hp. unfold reconstruct, _materialize_submitted_input.
  cbn [sb_intent_bytes sb_intent sb_decision_bytes sb_approval sb_approval_bytes sb_decision result_decision].
  pose proof (pv_decision _ _ _ _ Hp) as Hdec. cbn [result_decision] in Hdec.
  rewrite (pv_intent _ _ _ _ Hp). cbn [rbind]. rewrite bool_decide_eq_true_2 by done. cbn [negb].
  rewrite Hdec. cbn [rbind result_decision]. rewrite Ha. cbn [fmap option_fmap option_map].
  fold d in Hkind. rewrite Hkind. cbn [negb].
  destruct (is_decision _ _ Hi) as (k & i & v & aid & q' & Hd & Hallow & _). fold d intent in Hd.
  destruct (created_decision_fields _ _ _ _ _ _ _ _ Hd) as (E1 & E2 & E3 & E4 & _ & _ & E7 & E8 & _ & _ & _ & E12 & Hf).
  unfold executable in Hf. unfold executable_kind in Hkind. rewrite E1 in Hkind. rewrite Hkind in Hf.
  destruct Hf as (a' & x & K1 & _ & _ & _ & _ & K6 & K7 & K8 & K9 & K10 & K11 & K12).
  rewrite Ha in K1. injection K1 as <-. destruct Hok as (I1 & I2 & _ & _ & _ & I6 & I7).
  assert (id_ok (rd_decision_id d)) as Idec by (pose proof decision_id_allocated; unfold id_ok; lia).
  rewrite E2 in Idec.
  rewrite (decode_issued_approval intent d a); try done.
  - cbn [rbind]. by rewrite !bool_decide_eq_true_2.
  - pose proof (approval_id_allocated a Ha). unfold id_ok. lia.
  - by rewrite K6.
  - by rewrite K7.
  - by rewrite K8.
  - by rewrite K9.
  - by rewrite K10.
  - by rewrite K11.
  - by rewrite K12.
Qed.

(** An Order number suffices. *)
Lemma issued_created os n : shared rc oc -> rebuilt_intent (ra_spec_set rc) intent -> intent_ok intent ->
  issued_by st intent (mkRiskResult d evidence) = true ->
  _classify_replay os (_materialize_submitted_input intent (mkRiskResult d evidence)) = Ok None ->
  order_next os = Some n -> 1 <= n <= MAX_UINT64 ->
  exists order os', @OrderAuthority.create_order hash (risk_port rc st) oc os intent (mkRiskResult d evidence) = Ok (order, os').
Proof.
  intros Hsh Hre Hok Hby Hc Hn Hr. destruct (issued_proven Hsh Hre Hok Hby) as (a & Hp).
  pose proof (pv_approval _ _ _ _ Hp) as Ha. cbn [result_decision] in Ha.
  unfold OrderAuthority.create_order. rewrite Hc. cbn [rbind]. unfold create_new_order.
  rewrite (issued_reconstructs a Hsh Ha Hok Hp). cbn [rbind].
  cbn [sb_evidence _materialize_submitted_input result_evidence].
  destruct Hp as [_ _ _ _ P5 P6 P7 P8]. cbn [result_decision result_evidence] in P5, P6, P7, P8.
  rewrite P5, P6. cbn [rbind]. rewrite P7. cbn [rbind]. unfold _require_issued_result, _materialize_submitted_input.
  cbn [sb_intent sb_intent_bytes sb_decision_bytes sb_evidence_bytes result_decision result_evidence]. rewrite P8. cbn [negb rbind].
  rewrite Hn. unfold OrderAuthority._advance. rewrite !(proj2 (Z.ltb_ge _ _)) by lia. cbn [orb rbind].
  assert (EconomicId_init (oa_run_id oc) EXECUTION_ORDER n = Ok (mkEconomicId (oa_run_id oc) EXECUTION_ORDER n)) as ->
    by (apply (economic_id_rebuilt (mkEconomicId (oa_run_id oc) EXECUTION_ORDER n)); unfold id_ok; cbn; lia).
  cbn [rbind].
  destruct (is_decision _ _ Hi) as (k & i & v & aid & q' & Hd & _). fold d intent in Hd.
  destruct (created_decision_fields _ _ _ _ _ _ _ _ Hd) as (E1 & _).
  destruct (structural_intent _ _ Hb (is_structural _ _ Hi)) as (_ & _ & _ & R1 & _). fold intent in R1.
  fold d in Hkind. rewrite E1 in Hkind.
  destruct (executable_yields_order _ _ _ _ _ _ _ _ (mkEconomicId (oa_run_id oc) EXECUTION_ORDER n) Hkind Hd) as
    (o & x & Ho & _); [done|cbn; by rewrite R1, (sh_run _ _ Hsh)|].
  rewrite (sh_specs _ _ Hsh), Ho. cbn [rbind]. by do 2 eexists.
Qed.
End Issued.

(** ** Submissions of a joined pipeline *)

Lemma submissions_unique p l e intent r : flowing rc oc p l -> e ∈ l -> issued_by (pipe_risk p) intent r = true ->
  shares_identity (OrderSpec.entry_intent e) (entry_result e) intent r ->
  OrderSpec.entry_intent e = intent /\ entry_result e = r.
Proof.
  intros Hf He Hby Hs. destruct (reachable_log _ _ (fl_risk _ _ _ _ Hf)) as (_ & rl & Hrl).
  pose proof (fl_issued _ _ _ _ Hf) as Hall. rewrite Forall_forall in Hall.
  destruct (membership_entry _ _ _ _ _ Hrl (Hall _ He)) as (e1 & He1 & _ & Hi1 & Hr1).
  destruct (membership_entry _ _ _ _ _ Hrl Hby) as (e2 & He2 & _ & Hi2 & Hr2).
  assert (e2 = e1) as ->; [|by rewrite <-Hi1, Hi2, Hr1, Hr2].
  apply (entry_unique _ _ _ _ _ Hrl He1 He2). unfold shares_identity in Hs.
  rewrite Hr1, Hr2, <-Hi1, <-Hi2 in Hs. exact Hs.
Qed.
End Reach.
