(* ===== verification/PipelineTheorems.v ===== *)
(** The claims about the joined risk and Order authorities, with a concrete run. *)

From S2P Require Import Prelude PyRegex PyText Outcomes Json Identity Checksum Numbering Economics Commission.
From S2P Require Import Execution Messages Orders Decoders Portfolio Risk RiskAuthority OrderAuthority RiskSpec.
From S2P Require Import MessageCodec OrderCodec OrderSpec RiskReach Pipeline LedgerExample OrderExample.
From S2P Require Import RiskTheorems Indexing.

Open Scope Z_scope.

(** *** A concrete run of the pipeline of the decisions of [RiskTheorems]: the resized purchase of
    six and the sale of nine become Orders one and two, and a resubmission of the first
    changes nothing. *)

Lemma the_orders_created :
  is_ok (@create_phase1_order_authority _ (risk_port the_risk_context the_initial_risk) (ra_run_id the_risk_context)
    (ra_spec_set the_risk_context) (ra_execution_policy the_risk_context) (ra_policy the_risk_context)) = true.
Proof. vm_compute. reflexivity. Qed.
Definition the_order_creation : OrderAuthorityContext * _OrderAuthorityState := unwrap _ the_orders_created.
Definition the_order_context : OrderAuthorityContext := the_order_creation.1.
Definition the_new_pipeline : pipeline := mkPipeline the_initial_risk the_order_creation.2.

Lemma the_pipeline_joined : joined the_risk_context the_order_context the_new_pipeline.
Proof.
  split; [exact the_risk_established|].
  unfold the_new_pipeline, the_order_context. cbn [pipe_orders pipe_risk]. rewrite <-surjective_pairing.
  exact (unwrap_ok _ the_orders_created).
Qed.

(** The results of the two decisions. *)
Definition nth_result (n : nat) : res RiskEvaluationResult :=
  match results decided_state !! n with Some r => Ok r | None => Raise AssertionError end.
Lemma buy_decided : is_ok (nth_result 0) = true.
Proof. vm_compute. reflexivity. Qed.
Lemma sell_decided : is_ok (nth_result 1) = true.
Proof. vm_compute. reflexivity. Qed.
Definition the_buy_result : RiskEvaluationResult := unwrap (nth_result 0) buy_decided.
Definition the_sell_result : RiskEvaluationResult := unwrap (nth_result 1) sell_decided.

Definition decided_pipeline : pipeline :=
  advance_all the_risk_context the_order_context the_new_pipeline (map AskRisk two_decided).
Definition order_steps : list pipeline_step :=
  [AskOrder buy_ten the_buy_result; AskOrder sell_nine the_sell_result; AskOrder buy_ten the_buy_result].
Definition ordered_pipeline : pipeline :=
  advance_all the_risk_context the_order_context decided_pipeline order_steps.

Lemma decided_flows : flows the_risk_context the_order_context decided_pipeline.
Proof. exists the_new_pipeline, (map AskRisk two_decided). split; [exact the_pipeline_joined|reflexivity]. Qed.
Lemma ordered_flows : flows the_risk_context the_order_context ordered_pipeline.
Proof.
  exists the_new_pipeline, (map AskRisk two_decided ++ order_steps). split; [exact the_pipeline_joined|].
  unfold ordered_pipeline, decided_pipeline, advance_all. symmetry. apply fold_left_app.
Qed.

(** The Orders made, as plain data. *)
Lemma the_orders_made :
  (order_next (pipe_orders ordered_pipeline),
   map (fun o => (owner_sequence (od_order_id o), od_side o, units (od_quantity o))) (oa_orders (pipe_orders ordered_pipeline)))
  = (Some 3, [(1, BUY, unit_count 6); (2, SELL, unit_count 9)]).
Proof. refine (bool_decide_unpack _ _). vm_compute. exact I. Qed.

Lemma buy_issued_by : issued_by (pipe_risk decided_pipeline) buy_ten the_buy_result = true.
Proof. vm_compute. reflexivity. Qed.
Lemma buy_executable : executable_kind (rd_kind (result_decision the_buy_result)) = true.
Proof. vm_compute. reflexivity. Qed.
Lemma order_number_left : is_Some (order_next (pipe_orders decided_pipeline)).
Proof. exists 1. vm_compute. reflexivity. Qed.
Lemma buy_ten_rebuilt : rebuilt_intent (ra_spec_set the_risk_context) buy_ten.
Proof. unfold rebuilt_intent. refine (bool_decide_unpack _ _). vm_compute. exact I. Qed.
Lemma buy_ten_ok : intent_ok buy_ten.
Proof. repeat split; vm_compute; discriminate. Qed.
Lemma ordered_nonempty : exists o, o ∈ oa_orders (pipe_orders ordered_pipeline).
Proof.
  pose proof (f_equal snd the_orders_made) as H. cbn [snd] in H. revert H. generalize (oa_orders (pipe_orders ordered_pipeline)).
  intros [|o os] H; [discriminate H|]. exists o. by left.
Qed.

Definition buy_order : res (Order * _OrderAuthorityState) :=
  @OrderAuthority.create_order _ (risk_port the_risk_context (pipe_risk decided_pipeline)) the_order_context
    (pipe_orders decided_pipeline) buy_ten the_buy_result.
Lemma buy_order_made : is_ok buy_order = true.
Proof. vm_compute. reflexivity. Qed.

#[global] Opaque decided_pipeline ordered_pipeline the_buy_result the_sell_result.

(** *** The claims about the joined risk and Order authorities, with their witnesses. *)

Section Claims.
Context `{hash : Sha256} (rc : RiskAuthorityContext) (oc : OrderAuthorityContext).


(** C6: an approval always becomes an Order. Whenever the risk authority has issued an
    executable result for a factory-made intent, submitting the two yields an Order for
    the approved quantity, whatever else was evaluated and submitted before, as long as
    an Order number is left; no check of the Order authority can refuse it. *)
Theorem issued_approvals_become_orders p intent r : flows rc oc p ->
  issued_by (pipe_risk p) intent r = true -> executable_kind (rd_kind (result_decision r)) = true ->
  rebuilt_intent (ra_spec_set rc) intent -> intent_ok intent -> is_Some (order_next (pipe_orders p)) ->
  exists order next,
    @OrderAuthority.create_order hash (risk_port rc (pipe_risk p)) oc (pipe_orders p) intent r = Ok (order, next) /\
    order ∈ oa_orders next /\ od_intent_id order = oi_intent_id intent /\
    rd_approved_quantity (result_decision r) = Some (od_quantity order).
Proof.
  intros Hp Hby Hk Hre Hok [n Hn]. destruct (flows_flowing _ _ _ Hp) as (l & Hf).
  pose proof (fl_orders _ _ _ _ Hf) as Hl. destruct (reachable_log _ _ (fl_risk _ _ _ _ Hf)) as (Hb & rl & Hrl).
  destruct (membership_entry _ _ _ _ _ Hrl Hby) as (e & He & Hi & <- & ->). cbn [result_decision] in Hk.
  assert (exists order next, @OrderAuthority.create_order hash (risk_port rc (pipe_risk p)) oc (pipe_orders p)
    (RiskReach.entry_intent e) (mkRiskResult (entry_decision e) (rp_evidence e.2)) = Ok (order, next)) as (o & next & Hc).
  { destruct (classify_cases _ _ _ _ _ Hl (fun e' He' => submissions_unique _ _ _ _ e' _ _ Hf He' Hby)) as [Hnone|(o & _ & Hr)].
    - pose proof (ol_numbered _ _ _ Hl) as Hnum. rewrite Hn in Hnum.
      by apply (issued_created rc oc _ _ Hrl Hb e He Hi Hk _ n (fl_shared _ _ _ _ Hf) Hre Hok Hby Hnone Hn (numbered_next _ _ _ _ Hnum)).
    - exists o, (pipe_orders p). unfold OrderAuthority.create_order. by rewrite Hr. }
  destruct (create_order_logged _ _ _ _ _ _ _ _ Hl Hc) as (l1 & Hl1 & Hin). exists o, next.
  pose proof (ol_ok _ _ _ Hl1) as Hall. rewrite Forall_forall in Hall. destruct (Hall _ Hin) as (port & a & m & _ & Ho).
  destruct (created_order_fields _ _ _ _ _ Ho) as (a' & q & _ & Hq & _ & _ & E1 & _ & _ & E4 & _). cbn in *.
  split_and!; [done| |done|by rewrite E4]. rewrite (ol_orders _ _ _ Hl1). by apply (list_elem_of_fmap_2 snd) in Hin.
Qed.
End Claims.

(** ** Witnesses *)


Lemma issued_approvals_become_orders_witness : exists order next,
  @OrderAuthority.create_order _ (risk_port the_risk_context (pipe_risk decided_pipeline)) the_order_context (pipe_orders decided_pipeline) buy_ten the_buy_result = Ok (order, next) /\
  rd_approved_quantity (result_decision the_buy_result) = Some (od_quantity order).
Proof.
  destruct (issued_approvals_become_orders the_risk_context the_order_context decided_pipeline buy_ten the_buy_result
    decided_flows buy_issued_by buy_executable buy_ten_rebuilt buy_ten_ok order_number_left) as (o & next & H1 & _ & _ & H2).
  exists o, next. split; [exact H1|exact H2].
Defined.
