(* ===== verification/OrderTheorems.v ===== *)
(** The claims about the Order authority, and about the command tracker that sends its
    Orders, with their witnesses on the run of [PipelineTheorems]. *)

From S2P Require Import Prelude PyRegex PyText Outcomes Json Identity Checksum Numbering Indexing Economics.
From S2P Require Import Commission Execution Messages Orders Wire Decoders Risk OrderAuthority OrderSpec Portfolio.
From S2P Require Import FactAuthority FactInvariant Pipeline LedgerExample OrderExample RiskTheorems.
From S2P Require Import PipelineTheorems ExecutionState OrderLifecycle.

Open Scope Z_scope.

Section Claims.
Context `{hash : Sha256} (context : OrderAuthorityContext).

(** The Orders of every reachable state are numbered from one without gaps, and each
    consumed an approval, an intent and a decision no other Order consumed. *)
Theorem approvals_are_consumed_once st : OrderSpec.reachable context st ->
  numbered (oa_run_id context) EXECUTION_ORDER (map od_order_id (oa_orders st)) (order_next st) /\
  NoDup (map od_approval_id (oa_orders st)) /\ NoDup (map od_intent_id (oa_orders st)) /\
  NoDup (map od_decision_id (oa_orders st)).
Proof.
  intros Hst. destruct (reachable_order_log _ _ Hst) as (l & Hl). destruct (ol_distinct _ _ _ Hl) as (Ha & Hi & Hd).
  assert (forall e, In e l -> od_intent_id e.2 = key_intent e /\ od_decision_id e.2 = key_decision e) as Hk.
  { intros e He%list_elem_of_In. pose proof (ol_ok _ _ _ Hl) as Hok. rewrite Forall_forall in Hok.
    destruct (Hok _ He) as (port & approval & n & _ & Ho).
    by destruct (created_order_fields _ _ _ _ _ Ho) as (a & q & _ & _ & _ & _ & E1 & E2 & _). }
  split; [apply Hl|]. rewrite (ol_orders _ _ _ Hl), !map_map. split_and!; [exact Ha| |].
  - erewrite map_ext_in; [exact Hi|]. intros e He. by apply Hk.
  - erewrite map_ext_in; [exact Hd|]. intros e He. by apply Hk.
Qed.

(** An Order is made once. Whatever is submitted in between, submitting the same
    intent and result again returns the same Order and changes nothing; and an intent and
    a result that share an identity with them without being them are refused. *)
Theorem orders_are_made_once port st intent result order st1 ss : OrderSpec.reachable context st ->
  @OrderAuthority.create_order hash port context st intent result = Ok (order, st1) ->
  let st2 := submit_all context st1 ss in
  (forall port', @OrderAuthority.create_order hash port' context st2 intent result = Ok (order, st2)) /\
  (forall port' intent' result', shares_identity intent result intent' result' ->
     (intent', result') <> (intent, result) ->
     @OrderAuthority.create_order hash port' context st2 intent' result' = Raise (ExecutionAuthorityError CONFLICTING_ID)).
Proof.
  intros Hst Hc st2. destruct (reachable_order_log _ _ Hst) as (l & Hl).
  destruct (create_order_logged _ _ _ _ _ _ _ _ Hl Hc) as (l1 & Hl1 & He).
  destruct (submit_all_log _ _ _ ss Hl1) as (more & Hl2). fold st2 in Hl2. clearbody st2.
  assert ((intent, result, order) ∈ l1 ++ more) as He2 by (apply elem_of_app; by left).
  pose proof (classify_known _ _ _ _ Hl2 He2) as Hk. cbn in Hk. split.
  - intros port'. unfold OrderAuthority.create_order. by rewrite Hk.
  - intros port' intent' result' Hshare Hne. unfold OrderAuthority.create_order.
    by rewrite (classify_other _ _ _ _ _ _ _ _ Hl2 He2 Hshare Hne).
Qed.

End Claims.

(** ** The command tracker: its steps, joined with those of the Order authority *)

Section Commands.
Context `{hash : Sha256} (oc : OrderAuthorityContext).
Implicit Types (os : _OrderAuthorityState) (records : tracker) (sent : list (SubmitCommand + CancelCommand)).

Definition sent_option {A B} (o : option A) (f : A -> B) : list B := match o with Some a => [f a] | None => [] end.
Definition world : Type := _OrderAuthorityState * tracker * list (SubmitCommand + CancelCommand).

(** Every call that returns; one that raises changes nothing.  The Order authority goes on
    issuing Orders, and the facts a cancellation reads are those of the time. *)
Inductive command_step : world -> world -> Prop :=
| step_order os records sent s : command_step (os, records, sent) (submit oc os s, records, sent)
| step_submit os records sent order c records' : begin_submit os records order = Ok (c, records') ->
    command_step (os, records, sent) (os, records', sent ++ sent_option c inl)
| step_submit_result os records sent c s s' records' : record_submit_result records c s = Ok (s', records') ->
    command_step (os, records, sent) (os, records', sent)
| step_cancel os records sent order fc fs c records' : begin_cancel oc os records order fc fs = Ok (c, records') ->
    command_step (os, records, sent) (os, records', sent ++ sent_option c inr)
| step_cancel_result os records sent c s s' records' : record_cancel_result records c s = Ok (s', records') ->
    command_step (os, records, sent) (os, records', sent).
Definition commands_reachable (w : world) : Prop := rtc command_step (empty_order_state, ∅, []) w.

(** What was sent about an Order. *)
Definition submits_of (i : EconomicId) sent : list SubmitCommand :=
  omap (fun c => match c with inl c => if bool_decide (od_order_id (sc_order c) = i) then Some c else None | inr _ => None end) sent.
Definition cancels_of (i : EconomicId) sent : list CancelCommand :=
  omap (fun c => match c with inr c => if bool_decide (od_order_id (cc_order c) = i) then Some c else None | inl _ => None end) sent.

(** An Order the authority issued, up to the digests the tracker compares. *)
Definition issued_like os order : Prop :=
  exists o, o ∈ oa_orders os /\ od_order_id o = od_order_id order /\ order_digest o = order_digest order /\
    execution_request_digest o = execution_request_digest order.

Record record_ok os (i : EconomicId) (r : _Record) : Prop := {
  ro_id : od_order_id (sc_order (rc_submit r)) = i;
  ro_submit : rc_submit r = mkSubmitCommand (sc_order (rc_submit r)) (order_client_submission_key (sc_order (rc_submit r)))
                (execution_request_digest (sc_order (rc_submit r)));
  ro_issued : issued_like os (sc_order (rc_submit r));
  ro_cancel c : rc_cancel r = Some c ->
    c = mkCancelCommand (sc_order (rc_submit r)) (order_client_submission_key (sc_order (rc_submit r)))
          (execution_request_digest (sc_order (rc_submit r)));
  ro_state : absent (rc_cancel_state r) = absent (rc_cancel r)
}.
Record commands_ok (w : world) : Prop := {
  co_orders : exists l, order_log oc w.1.1 l;
  co_records i r : w.1.2 !! i = Some r -> record_ok w.1.1 i r;
  co_submits i : submits_of i w.2 = sent_option (w.1.2 !! i) rc_submit;
  co_cancels i : cancels_of i w.2 = sent_option (w.1.2 !! i ≫= rc_cancel) id
}.

Lemma issued_like_mono os l s order : order_log oc os l -> issued_like os order -> issued_like (submit oc os s) order.
Proof.
  intros L (o & Ho & H). destruct (submit_log oc os l s L) as [->|(o' & L')]; [by exists o|].
  exists o. split; [|done]. rewrite (ol_orders _ _ _ L'), map_app. rewrite (ol_orders _ _ _ L) in Ho.
  apply elem_of_app. by left.
Qed.
Lemma record_ok_mono os l s i r : order_log oc os l -> record_ok os i r -> record_ok (submit oc os s) i r.
Proof. intros L [? ? ? ? ?]. split; try done. by eapply issued_like_mono. Qed.

Lemma required_issued os l order : order_log oc os l -> _require_issued_order os order = Ok tt -> issued_like os order.
Proof.
  intros L. unfold _require_issued_order. destruct (OrderAuthority.resolve_issued_order_by_id _ _) as [o|] eqn:E; [|done].
  destruct (OrderAuthority.resolve_issued_order_by_client_submission_key _ _) as [k|]; [|done].
  destruct (_ || _) eqn:Hb; [done|]. intros _. rewrite !orb_false_iff, !negb_false_iff, !bool_decide_eq_true in Hb.
  destruct Hb as [[_ H1] H2]. destruct (resolved_by_id _ _ _ _ _ L E) as (e & He & Hk & <-). exists e.2.
  split_and!; try done. rewrite (ol_orders _ _ _ L). by apply (list_elem_of_fmap_2 snd).
Qed.
Lemma required_record records order r : _require_record records order = Ok r ->
  records !! od_order_id order = Some r /\ sc_order (rc_submit r) = order.
Proof.
  unfold _require_record. destruct (records !! _) as [r'|] eqn:E; [|done]. case_bool_decide as H; [|done]. by intros [= <-].
Qed.

(** One Order's record is written: the others stay. *)
Lemma commands_written os records sent extra i r l : commands_ok (os, records, sent) -> order_log oc os l -> record_ok os i r ->
  (forall j, submits_of j extra = if bool_decide (j = i) then sent_option (if absent (records !! i) then Some r else None) rc_submit else []) ->
  (forall j, cancels_of j extra = if bool_decide (j = i) then sent_option (if absent (records !! i ≫= rc_cancel) then rc_cancel r else None) id else []) ->
  (forall r', records !! i = Some r' -> rc_submit r' = rc_submit r /\ (forall c, rc_cancel r' = Some c -> rc_cancel r = Some c)) ->
  commands_ok (os, <[i := r]> records, sent ++ extra).
Proof.
  intros [C1 C2 C3 C4] L Hr H1 H2 H3. cbn [fst snd] in *. split; cbn [fst snd]; [done| | |].
  - intros j r'. rewrite lookup_insert_Some. intros [[<- <-]|[_ ?]]; auto.
  - intros j. unfold submits_of in *. rewrite omap_app, C3, H1. destruct (bool_decide_reflect (j = i)) as [->|Hj].
    + rewrite lookup_insert_eq. destruct (records !! i) as [r'|] eqn:E; [|done]. cbn [absent sent_option].
      by destruct (H3 r' eq_refl) as [-> _].
    + by rewrite lookup_insert_ne, app_nil_r.
  - intros j. unfold cancels_of in *. rewrite omap_app, C4, H2. destruct (bool_decide_reflect (j = i)) as [->|Hj].
    + rewrite lookup_insert_eq. cbn [mbind option_bind]. destruct (records !! i) as [r'|] eqn:E; cbn [mbind option_bind absent sent_option]; [|done].
      destruct (rc_cancel r') as [c|] eqn:Ec; [|done]. destruct (H3 r' eq_refl) as [_ H]. by rewrite (H c Ec).
    + by rewrite lookup_insert_ne, app_nil_r.
Qed.
Lemma nothing_sent i : submits_of i [] = [] /\ cancels_of i [] = [].
Proof. done. Qed.

Lemma result_written os records sent i r r' l : commands_ok (os, records, sent) -> order_log oc os l -> records !! i = Some r ->
  rc_submit r' = rc_submit r -> rc_cancel r' = rc_cancel r -> absent (rc_cancel_state r') = absent (rc_cancel_state r) ->
  commands_ok (os, <[i := r']> records, sent).
Proof.
  intros C L Hi Hs Hc Ha. rewrite <-(app_nil_r sent). eapply commands_written; [done|done| | | |].
  - destruct (co_records _ C i r Hi) as [? ? ? ? ?]. split; rewrite ?Hs, ?Hc, ?Ha; done.
  - intros j. rewrite Hi. by case_bool_decide.
  - intros j. rewrite Hi. cbn [mbind option_bind]. rewrite Hc. by destruct (bool_decide _), (rc_cancel r).
  - intros r0. rewrite Hi. intros [= <-]. by rewrite Hs, Hc.
Qed.

Lemma command_step_ok w w' : command_step w w' -> commands_ok w -> commands_ok w'.
Proof.
  intros H C. destruct (co_orders _ C) as [l L]. destruct H as [os records sent s|os records sent order c records' H|
    os records sent c s s' records' H|os records sent order fc fs c records' H|os records sent c s s' records' H]; cbn [fst snd] in L.
  - destruct C as [C1 C2 C3 C4]. split; cbn [fst snd] in *; try done.
    + destruct (submit_log oc os l s L) as [->|(o & L')]; eauto.
    + intros i r Hi. eapply record_ok_mono; eauto.
  - unfold begin_submit in H. apply rbind_Ok in H as ([] & Hi & H). destruct (records !! od_order_id order) as [r|] eqn:E.
    { injection H as <- <-. by rewrite app_nil_r. }
    injection H as <- <-. eapply commands_written; [done|done| | | |].
    + split; try done. by eapply required_issued.
    + intros j. rewrite E. cbn. rewrite (bool_decide_ext (od_order_id order = j) (j = od_order_id order)) by done. by case_bool_decide.
    + intros j. rewrite E. cbn. by case_bool_decide.
    + intros r'. by rewrite E.
  - unfold record_submit_result in H. case_bool_decide; [done|]. apply rbind_Ok in H as (r & Hr & H).
    apply required_record in Hr as [Hr _]. destruct (negb _); [done|]. case_bool_decide.
    + injection H as <- <-. by eapply result_written.
    + destruct (negb _); [done|]. by injection H as <- <-.
  - unfold begin_cancel in H. apply rbind_Ok in H as ([] & Hi & H). apply rbind_Ok in H as (r & Hr & H).
    apply required_record in Hr as [Hr Ho]. destruct (rc_cancel r) as [c'|] eqn:Ec; cbn [absent negb] in H.
    { injection H as <- <-. by rewrite app_nil_r. }
    apply rbind_Ok in H as (p & _ & H). destruct (match p with Some p => is_terminal p | None => false end); [done|].
    destruct (_ && _); [done|]. injection H as <- <-. destruct (co_records _ C _ _ Hr) as [R1 R2 R3 R4 R5].
    eapply commands_written; [done|done| | | |].
    + split; try done. cbn [rc_cancel rc_submit]. intros c [= <-]. rewrite R2, Ho. cbn [sc_execution_request_sha256]. done.
    + intros j. cbn. rewrite Hr. by case_bool_decide.
    + intros j. rewrite Hr. cbn [mbind option_bind]. rewrite Ec. cbn.
      rewrite (bool_decide_ext (od_order_id order = j) (j = od_order_id order)) by done. by case_bool_decide.
    + intros r'. rewrite Hr. intros [= <-]. split; [done|]. by rewrite Ec.
  - unfold record_cancel_result in H. case_bool_decide; [done|]. apply rbind_Ok in H as (r & Hr & H).
    apply required_record in Hr as [Hr _]. destruct (negb _); [done|]. case_bool_decide as Hp.
    + injection H as <- <-. eapply result_written; try done. cbn [rc_cancel_state]. by rewrite Hp.
    + destruct (negb _); [done|]. by injection H as <- <-.
Qed.

Lemma commands_reachable_ok w : commands_reachable w -> commands_ok w.
Proof.
  assert (forall a b, rtc command_step a b -> commands_ok a -> commands_ok b) as H.
  { induction 1 as [a|a b c Hs _ IH]; [done|]. intros C. by apply IH, (command_step_ok a). }
  intros Hr. apply (H _ _ Hr). split; cbn [fst snd]; [exists []; apply empty_log|..]; by intros *.
Qed.

(** What a step leaves of a record: the commands stay, and what is settled stays settled. *)
Definition settled_in (r r' : _Record) : Prop :=
  rc_submit r' = rc_submit r /\ (rc_submission_state r <> SUBMISSION_PENDING -> rc_submission_state r' = rc_submission_state r) /\
  (forall c, rc_cancel r = Some c -> rc_cancel r' = Some c) /\
  (rc_cancel_state r <> None -> rc_cancel_state r <> Some CANCELLATION_PENDING -> rc_cancel_state r' = rc_cancel_state r).
Lemma settled_refl r : settled_in r r.
Proof. done. Qed.
Lemma settled_insert (records : tracker) i j r0 r0' r : records !! i = Some r0 -> settled_in r0 r0' -> records !! j = Some r ->
  exists r', <[i := r0']> records !! j = Some r' /\ settled_in r r'.
Proof.
  intros Hi Hs Hj. destruct (decide (i = j)) as [->|Hne].
  - exists r0'. rewrite lookup_insert_eq. split; [done|]. by assert (r = r0) as -> by congruence.
  - exists r. by rewrite lookup_insert_ne.
Qed.

Lemma command_step_settled w w' i r : command_step w w' -> commands_ok w -> w.1.2 !! i = Some r ->
  exists r', w'.1.2 !! i = Some r' /\ settled_in r r'.
Proof.
  intros H C Hi. destruct H as [os records sent s|os records sent order c records' H|
    os records sent c s s' records' H|os records sent order fc fs c records' H|os records sent c s s' records' H]; cbn [fst snd] in *.
  - by exists r.
  - unfold begin_submit in H. apply rbind_Ok in H as ([] & _ & H). destruct (records !! od_order_id order) as [r0|] eqn:E.
    { injection H as <- <-. by exists r. }
    injection H as <- <-. exists r. rewrite lookup_insert_ne by congruence. done.
  - unfold record_submit_result in H. case_bool_decide; [done|]. apply rbind_Ok in H as (r0 & Hr & H).
    apply required_record in Hr as [Hr _]. destruct (negb _); [done|]. case_bool_decide.
    + injection H as <- <-. by eapply settled_insert.
    + destruct (negb _); [done|]. injection H as <- <-. by exists r.
  - unfold begin_cancel in H. apply rbind_Ok in H as ([] & _ & H). apply rbind_Ok in H as (r0 & Hr & H).
    apply required_record in Hr as [Hr _]. destruct (rc_cancel r0) as [c'|] eqn:Ec; cbn [absent negb] in H.
    { injection H as <- <-. by exists r. }
    apply rbind_Ok in H as (p & _ & H). destruct (match p with Some p => is_terminal p | None => false end); [done|].
    destruct (_ && _); [done|]. injection H as <- <-. eapply settled_insert; [done| |done].
    pose proof (ro_state _ _ _ (co_records _ C _ _ Hr)) as Ha. rewrite Ec in Ha. split_and!; try done.
    + by rewrite Ec.
    + by destruct (rc_cancel_state r0).
  - unfold record_cancel_result in H. case_bool_decide; [done|]. apply rbind_Ok in H as (r0 & Hr & H).
    apply required_record in Hr as [Hr _]. destruct (negb _); [done|]. case_bool_decide as Hp.
    + injection H as <- <-. eapply settled_insert; [done| |done]. by split_and!.
    + destruct (negb _); [done|]. injection H as <- <-. by exists r.
Qed.
Lemma settled_trans r1 r2 r3 : settled_in r1 r2 -> settled_in r2 r3 -> settled_in r1 r3.
Proof.
  intros (A1 & A2 & A3 & A4) (B1 & B2 & B3 & B4). split_and!; [congruence| |auto|].
  - intros H. rewrite <-(A2 H). apply B2. by rewrite (A2 H).
  - intros H H'. rewrite <-(A4 H H'). apply B4; by rewrite (A4 H H').
Qed.
Lemma commands_settled w w' : rtc command_step w w' -> forall i r, commands_ok w -> w.1.2 !! i = Some r ->
  exists r', w'.1.2 !! i = Some r' /\ settled_in r r'.
Proof.
  induction 1 as [w|w w2 w' Hs _ IH]; intros i r C Hi; [by exists r|].
  destruct (command_step_settled _ _ _ _ Hs C Hi) as (r2 & Hr2 & S2).
  destruct (IH i r2 (command_step_ok _ _ Hs C) Hr2) as (r' & Hr' & S'). exists r'. split; [done|]. by eapply settled_trans.
Qed.
Lemma sent_submit w c : commands_ok w -> inl c ∈ w.2 -> exists r, w.1.2 !! od_order_id (sc_order c) = Some r /\ rc_submit r = c.
Proof.
  intros C Hin. assert (c ∈ submits_of (od_order_id (sc_order c)) w.2) as H.
  { apply list_elem_of_omap. exists (inl c). split; [done|]. by rewrite bool_decide_true. }
  rewrite (co_submits _ C) in H. destruct (w.1.2 !! _) as [r|]; [|by apply not_elem_of_nil in H].
  apply list_elem_of_singleton in H as ->. by exists r.
Qed.
Lemma sent_cancel w c : commands_ok w -> inr c ∈ w.2 ->
  exists r, w.1.2 !! od_order_id (cc_order c) = Some r /\ rc_cancel r = Some c.
Proof.
  intros C Hin. assert (c ∈ cancels_of (od_order_id (cc_order c)) w.2) as H.
  { apply list_elem_of_omap. exists (inr c). split; [done|]. by rewrite bool_decide_true. }
  rewrite (co_cancels _ C) in H. destruct (w.1.2 !! _) as [r|]; cbn [mbind option_bind] in H; [|by apply not_elem_of_nil in H].
  destruct (rc_cancel r) as [c'|] eqn:E; [|by apply not_elem_of_nil in H]. apply list_elem_of_singleton in H as ->. by exists r.
Qed.
Lemma record_sent w i r : commands_ok w -> w.1.2 !! i = Some r -> inl (rc_submit r) ∈ w.2.
Proof.
  intros C Hi. assert (rc_submit r ∈ submits_of i w.2) as H by (rewrite (co_submits _ C), Hi; left).
  apply list_elem_of_omap in H as ([c|c] & Hc & H); [|done]. case_bool_decide; [|done]. by injection H as ->.
Qed.

(** C12: a command is sent once. Whatever Orders are issued and whatever results come back,
    an Order is submitted at most once and cancelled at most once; everything submitted
    has the identity and digests of an Order the authority issued; and a cancellation
    names the key and request of the one submission it cancels. *)
Theorem commands_are_sent_once os records sent : commands_reachable (os, records, sent) ->
  (forall i, (length (submits_of i sent) <= 1)%nat /\ (length (cancels_of i sent) <= 1)%nat) /\
  (forall c, inl c ∈ sent -> issued_like os (sc_order c) /\
     sc_client_submission_key c = order_client_submission_key (sc_order c) /\
     sc_execution_request_sha256 c = execution_request_digest (sc_order c)) /\
  (forall c, inr c ∈ sent -> exists s, inl s ∈ sent /\ sc_order s = cc_order c /\
     sc_client_submission_key s = cc_client_submission_key c /\
     sc_execution_request_sha256 s = cc_execution_request_sha256 c).
Proof.
  intros C%commands_reachable_ok. split_and!.
  - intros i. pose proof (co_submits _ C i) as H1. pose proof (co_cancels _ C i) as H2. cbn [fst snd] in H1, H2.
    rewrite H1, H2. split; [by destruct (records !! i); cbn; lia|]. by destruct (records !! i ≫= _); cbn; lia.
  - intros c Hc. destruct (sent_submit _ _ C Hc) as (r & Hr & <-). destruct (co_records _ C _ _ Hr) as [_ H2 H3 _ _].
    split; [done|]. rewrite H2. done.
  - intros c Hc. destruct (sent_cancel _ _ C Hc) as (r & Hr & Hcr). exists (rc_submit r).
    destruct (co_records _ C _ _ Hr) as [_ H2 _ H4 _]. rewrite (H4 c Hcr).
    split; [exact (record_sent _ _ _ C Hr)|]. by rewrite H2.
Qed.

(** An attempt has one outcome. Once the transport result of a submission or a
    cancellation is recorded, no later call changes it, whatever else happens: the same
    result again is accepted and changes nothing, and another one is refused. *)
Theorem attempts_are_settled w os records sent i r : commands_reachable w -> rtc command_step w (os, records, sent) ->
  w.1.2 !! i = Some r ->
  exists r', records !! i = Some r' /\ rc_submit r' = rc_submit r /\
  (rc_submission_state r <> SUBMISSION_PENDING -> rc_submission_state r' = rc_submission_state r /\
     forall s, s <> SUBMISSION_PENDING -> record_submit_result records (rc_submit r) s =
       if bool_decide (s = rc_submission_state r) then Ok (s, records) else Raise (OrderCommandError CONFLICTING_ID)) /\
  (forall c, rc_cancel r = Some c -> rc_cancel_state r <> Some CANCELLATION_PENDING ->
     rc_cancel_state r' = rc_cancel_state r /\
     forall s, s <> CANCELLATION_PENDING -> record_cancel_result records c s =
       if bool_decide (Some s = rc_cancel_state r) then Ok (s, records) else Raise (OrderCommandError CONFLICTING_ID)).
Proof.
  intros C%commands_reachable_ok Hs Hi. destruct (commands_settled _ _ Hs _ _ C Hi) as (r' & Hr' & S1 & S2 & S3 & S4).
  cbn [fst snd] in Hr'. exists r'. destruct (co_records _ C _ _ Hi) as [R1 R2 _ R4 R5]. split_and!; [done|done| |].
  - intros Hp. split; [by apply S2|]. intros s Hsp. unfold record_submit_result, _require_record.
    rewrite bool_decide_false by done. rewrite R1, Hr', S1. rewrite !bool_decide_true by done. cbn [negb rbind].
    rewrite S1, !bool_decide_true by done. cbn [negb]. rewrite (S2 Hp), bool_decide_false by done.
    destruct (bool_decide_reflect (s = rc_submission_state r)) as [->|Hne]; [by rewrite bool_decide_true|].
    by rewrite bool_decide_false by congruence.
  - intros c Hc Hp. assert (rc_cancel_state r <> None) as Hn.
    { intros E. rewrite E, Hc in R5. done. }
    split; [by apply S4|]. intros s Hsp. unfold record_cancel_result, _require_record.
    rewrite bool_decide_false by done. rewrite (R4 c Hc). cbn [cc_order]. rewrite R1, Hr'. rewrite S1, bool_decide_true by done.
    cbn [negb rbind]. rewrite (S3 c Hc), <-(R4 c Hc), bool_decide_true by done. cbn [negb]. rewrite (S4 Hn Hp), bool_decide_false by done.
    destruct (bool_decide_reflect (Some s = rc_cancel_state r)) as [<-|Hne]; [by rewrite bool_decide_true|].
    by rewrite bool_decide_false by congruence.
Qed.

Lemma issued_required os l order : order_log oc os l -> order ∈ oa_orders os ->
  NoDup (map order_client_submission_key (oa_orders os)) -> _require_issued_order os order = Ok tt.
Proof.
  intros L Ho Hnd. pose proof Ho as Ho'. rewrite (ol_orders _ _ _ L) in Ho'. apply list_elem_of_fmap_1 in Ho' as (e & -> & He).
  unfold _require_issued_order. assert (OrderAuthority.resolve_issued_order_by_id os (od_order_id e.2) = Some e.2) as ->.
  { unfold OrderAuthority.resolve_issued_order_by_id. change (od_order_id e.2) with (key_order e).
    by rewrite (indexes_lookup _ _ _ _ _ (ol_ids _ _ _ L) He). }
  destruct (OrderAuthority.resolve_issued_order_by_client_submission_key os (order_client_submission_key e.2)) as [o|] eqn:E.
  2:{ destruct (ol_clients _ _ _ L e He) as [x Hx]. unfold OrderAuthority.resolve_issued_order_by_client_submission_key in E.
      unfold key_client in Hx. by rewrite Hx in E. }
  destruct (resolved_by_key _ _ _ _ _ L E) as (e' & He' & Hk & <-).
  assert (e'.2 = e.2) as ->; [|by rewrite !bool_decide_true].
  apply list_elem_of_lookup_1 in Ho as [j Hj]. assert (e'.2 ∈ oa_orders os) as Ho2
    by (rewrite (ol_orders _ _ _ L); by apply (list_elem_of_fmap_2 snd)).
  apply list_elem_of_lookup_1 in Ho2 as [k Hk2]. assert (j = k) as <-; [|congruence].
  apply (NoDup_lookup _ j k (order_client_submission_key e.2) Hnd);
    change (map ?f ?x) with (f <$> x); rewrite list_lookup_fmap; [by rewrite Hj|rewrite Hk2; by unfold key_client in Hk; rewrite <-Hk].
Qed.

(** An issued Order can be sent. While client keys are distinct, an issued Order that
    was not yet seen is submitted under its key and request, and after a positive result
    and while the facts of the run do not show it final, it is cancelled. *)
Theorem issued_orders_can_be_sent os records sent order fc fs : commands_reachable (os, records, sent) ->
  order ∈ oa_orders os -> NoDup (map order_client_submission_key (oa_orders os)) -> records !! od_order_id order = None ->
  fa_run_id fc = oa_run_id oc -> fa_spec_set fc = oa_spec_set oc ->
  match projection_for_order fs (od_order_id order) with
  | Some p => is_terminal p = false /\ pj_order_sha256 p = order_digest order /\
      pj_client_submission_key p = order_client_submission_key order
  | None => True
  end ->
  let submit := mkSubmitCommand order (order_client_submission_key order) (execution_request_digest order) in
  let cancel := mkCancelCommand order (order_client_submission_key order) (execution_request_digest order) in
  exists records1 records2 records3, begin_submit os records order = Ok (Some submit, records1) /\
    record_submit_result records1 submit SUBMISSION_SUBMITTED = Ok (SUBMISSION_SUBMITTED, records2) /\
    begin_cancel oc os records2 order fc fs = Ok (Some cancel, records3) /\
    begin_submit os records3 order = Ok (None, records3) /\ begin_cancel oc os records3 order fc fs = Ok (None, records3).
Proof.
  intros C%commands_reachable_ok Ho Hnd Hnone Hrun Hset Hp submit cancel. destruct (co_orders _ C) as [l L]. cbn [fst snd] in L.
  pose proof (issued_required os l order L Ho Hnd) as Hreq.
  set (i := od_order_id order) in *. set (r1 := mkCommandRecord submit SUBMISSION_PENDING None None).
  set (r2 := mkCommandRecord submit SUBMISSION_SUBMITTED None None).
  set (r3 := mkCommandRecord submit SUBMISSION_SUBMITTED (Some cancel) (Some CANCELLATION_PENDING)).
  exists (<[i := r1]> records), (<[i := r2]> (<[i := r1]> records)), (<[i := r3]> (<[i := r2]> (<[i := r1]> records))).
  assert (forall m r, rc_submit r = submit -> _require_record (<[i := r]> m) order = Ok r) as Hrec.
  { intros m r Hr. unfold _require_record. fold i. by rewrite lookup_insert_eq, Hr, bool_decide_true. }
  split_and!.
  - unfold begin_submit. rewrite Hreq. cbn [rbind]. fold i. by rewrite Hnone.
  - unfold record_submit_result. cbn [submit sc_order]. fold submit. rewrite (Hrec records r1 eq_refl).
    cbn [rbind r1 rc_submit rc_submission_state rc_cancel rc_cancel_state].
    by rewrite (bool_decide_true (submit = submit)).
  - unfold begin_cancel. rewrite Hreq. cbn [rbind]. rewrite (Hrec _ r2 eq_refl). cbn [rbind absent r2 rc_cancel negb].
    unfold _require_facts. rewrite Hrun, Hset, !bool_decide_true by done. cbn [negb orb]. fold i.
    destruct (projection_for_order fs i) as [p|]; [|done]. destruct Hp as (T & H1 & H2). rewrite H1, H2, !bool_decide_true by done.
    cbn [negb orb rbind]. by rewrite T.
  - unfold begin_submit. rewrite Hreq. cbn [rbind]. fold i. by rewrite lookup_insert_eq.
  - unfold begin_cancel. rewrite Hreq. cbn [rbind]. rewrite (Hrec _ r3 eq_refl). done.
Qed.
End Commands.

(** ** Witnesses *)

Lemma ordered_reachable : OrderSpec.reachable the_order_context (pipe_orders ordered_pipeline).
Proof. exact (flows_orders _ _ _ ordered_flows). Qed.
Lemma decided_orders_reachable : OrderSpec.reachable the_order_context (pipe_orders decided_pipeline).
Proof. exact (flows_orders _ _ _ decided_flows). Qed.

Lemma approvals_are_consumed_once_witness :
  NoDup (map od_approval_id (oa_orders (pipe_orders ordered_pipeline))).
Proof. exact (proj1 (proj2 (approvals_are_consumed_once the_order_context _ ordered_reachable))). Defined.

Lemma orders_are_made_once_witness : exists order st1, buy_order = Ok (order, st1) /\
  @OrderAuthority.create_order _ (risk_port the_risk_context (pipe_risk ordered_pipeline)) the_order_context st1
    buy_ten the_buy_result = Ok (order, st1).
Proof.
  pose proof buy_order_made as H. destruct buy_order as [[order st1]|e] eqn:E; [|discriminate H].
  exists order, st1. split; [reflexivity|].
  destruct (orders_are_made_once the_order_context _ _ _ _ _ _ [] decided_orders_reachable E) as [Hsame _].
  exact (Hsame _).
Defined.

Definition facts_of (oc : OrderAuthorityContext) : FactAuthorityContext :=
  mkFactAuthorityContext (oa_run_id oc) (oa_spec_set oc).
Lemma facts_share (oc : OrderAuthorityContext) : fa_spec_set (facts_of oc) = oa_spec_set oc.
Proof. reflexivity. Qed.

(** ** The commands of a run: the first Order of the pipeline is submitted, and the
    transport accepts it. *)

Lemma reachable_commands `{hash : Sha256} oc os : OrderSpec.reachable oc os -> commands_reachable oc (os, ∅, []).
Proof.
  intros (ss & ->). unfold commands_reachable, submit_all. generalize empty_order_state.
  induction ss as [|s ss IH]; intros os; [apply rtc_refl|]. eapply rtc_l; [apply (step_order oc os ∅ [] s)|]. apply IH.
Qed.
Definition the_orders : _OrderAuthorityState := (unwrap _ buy_order_made).2.
Lemma the_orders_reachable : OrderSpec.reachable the_order_context the_orders.
Proof.
  destruct decided_orders_reachable as (ss & Hss).
  set (port := risk_port the_risk_context (pipe_risk decided_pipeline)).
  exists (ss ++ [mkSubmission port buy_ten the_buy_result]). rewrite submit_all_snoc, <-Hss. unfold submit. cbn [sm_port sm_intent sm_result].
  change (@OrderAuthority.create_order _ port the_order_context (pipe_orders decided_pipeline) buy_ten the_buy_result) with buy_order.
  rewrite (unwrap_ok _ buy_order_made). unfold the_orders. by destruct (unwrap _ buy_order_made).
Qed.
Lemma one_order : length (oa_orders the_orders) = 1%nat.
Proof. vm_compute. reflexivity. Qed.
#[local] Opaque the_orders.
Lemma order_nonempty : exists o, o ∈ oa_orders the_orders.
Proof. pose proof one_order as H. destruct (oa_orders the_orders) as [|o l]; [discriminate H|]. exists o. left. Qed.
Lemma keys_distinct : NoDup (map order_client_submission_key (oa_orders the_orders)).
Proof.
  pose proof one_order as H. destruct (oa_orders the_orders) as [|o [|o2 l]]; [discriminate H| |discriminate H].
  apply NoDup_singleton.
Qed.
Lemma the_orders_issued : commands_reachable the_order_context (the_orders, ∅, []).
Proof. exact (reachable_commands _ _ the_orders_reachable). Qed.
Definition submit_of (o : Order) : SubmitCommand :=
  mkSubmitCommand o (order_client_submission_key o) (execution_request_digest o).
Definition one_record (o : Order) (s : SubmissionAttemptState) : _Record := mkCommandRecord (submit_of o) s None None.
Lemma order_submitted o : o ∈ oa_orders the_orders ->
  begin_submit the_orders ∅ o = Ok (Some (submit_of o), <[od_order_id o := one_record o SUBMISSION_PENDING]> ∅).
Proof.
  intros Ho. destruct (reachable_order_log _ _ the_orders_reachable) as (l & L). unfold begin_submit.
  rewrite (issued_required _ _ _ _ L Ho keys_distinct). cbn [rbind]. by rewrite lookup_empty.
Qed.
Lemma submitted_reachable o : o ∈ oa_orders the_orders ->
  commands_reachable the_order_context (the_orders, <[od_order_id o := one_record o SUBMISSION_PENDING]> ∅, [inl (submit_of o)]).
Proof.
  intros Ho. eapply rtc_r; [exact the_orders_issued|]. exact (step_submit _ _ _ _ _ _ _ (order_submitted o Ho)).
Qed.
Definition accepted_world (o : Order) : world :=
  (the_orders, <[od_order_id o := one_record o SUBMISSION_SUBMITTED]> (<[od_order_id o := one_record o SUBMISSION_PENDING]> ∅),
   [inl (submit_of o)]).
Lemma accepted_reachable o : o ∈ oa_orders the_orders -> commands_reachable the_order_context (accepted_world o).
Proof.
  intros Ho. eapply rtc_r; [exact (submitted_reachable o Ho)|].
  apply (step_submit_result _ _ _ _ (submit_of o) SUBMISSION_SUBMITTED SUBMISSION_SUBMITTED).
  unfold record_submit_result, _require_record. cbn [submit_of sc_order]. rewrite lookup_insert_eq.
  cbn [one_record rc_submit submit_of sc_order]. rewrite bool_decide_false by done.
  rewrite (bool_decide_true (o = o)) by done. cbn [negb rbind rc_submit]. by rewrite (bool_decide_true (submit_of o = submit_of o)).
Qed.
Lemma accepted_record o : (accepted_world o).1.2 !! od_order_id o = Some (one_record o SUBMISSION_SUBMITTED).
Proof. apply lookup_insert_eq. Qed.

Lemma commands_are_sent_once_witness : exists o, o ∈ oa_orders the_orders /\ issued_like the_orders o.
Proof.
  destruct order_nonempty as (o & Ho). exists o. split; [exact Ho|].
  destruct (commands_are_sent_once the_order_context _ _ _ (submitted_reachable o Ho)) as (_ & H & _).
  destruct (H (submit_of o)) as (H1 & _); [left|]. exact H1.
Defined.

Lemma attempts_are_settled_witness : exists o records, o ∈ oa_orders the_orders /\
  record_submit_result records (submit_of o) SUBMISSION_UNCERTAIN = Raise (OrderCommandError CONFLICTING_ID).
Proof.
  destruct order_nonempty as (o & Ho). exists o, (accepted_world o).1.2. split; [exact Ho|].
  destruct (attempts_are_settled the_order_context _ _ _ _ _ _ (accepted_reachable o Ho) (rtc_refl _ _) (accepted_record o))
    as (r' & _ & _ & H & _).
  destruct H as [_ H]; [discriminate|]. apply (H SUBMISSION_UNCERTAIN). discriminate.
Defined.

Lemma issued_orders_can_be_sent_witness : exists o records1, o ∈ oa_orders the_orders /\
  begin_submit the_orders ∅ o = Ok (Some (submit_of o), records1).
Proof.
  destruct order_nonempty as (o & Ho). exists o.
  destruct (issued_orders_can_be_sent the_order_context _ _ _ o (facts_of the_order_context) FactAuthority.initial_state the_orders_issued Ho
    keys_distinct (lookup_empty _) eq_refl eq_refl I) as (r1 & _ & _ & H & _). exists r1. split; [exact Ho|exact H].
Defined.
