(* ===== verification/PaperTheorems.v ===== *)
(** The claims about the paper venue: what a fill costs, what the venue does with an Order,
    and what it answers about what it issued. *)

From Stdlib Require Import SpecFloat.
From S2P Require Import Prelude PyRegex PyText Outcomes Json Identity Chronology MarketData Economics Commission.
From S2P Require Import Execution Messages Orders Decoders OrderAuthority FactAuthority OrderLifecycle MarketCodec.
From S2P Require Import Runtime Streaming OrderSpec RuntimeSpec MarketDataTheorems StreamingSpec PaperBroker.
From S2P Require Import Checksum Pipeline LedgerExample OrderExample RiskTheorems PipelineTheorems OrderTheorems.

Open Scope Z_scope.

(** ** The text of a price is the canonical text *)

(** The digits of a positive number at a scale, its trailing zeros stripped. *)
Definition scaled_body (n scale : Z) : str :=
  if scale =? 0 then digits n
  else
    let digits := zero_pad (Z.to_nat (scale + 1)) (digits n) in
    let split := (length digits - Z.to_nat scale)%nat in
    drop_dot (rstrip0 (take split digits ++ "."%char :: drop split digits)).

Lemma rstrip0_zero s : rstrip0 (s ++ ["0"%char]) = rstrip0 s.
Proof. unfold rstrip0. rewrite rev_app_distr. done. Qed.
Lemma rstrip0_other s c : c <> "0"%char -> rstrip0 (s ++ [c]) = s ++ [c].
Proof.
  intros Hc. unfold rstrip0. rewrite rev_app_distr. cbn [rev app drop_zeros]. unfold is_char.
  destruct (Ascii.eqb_spec c "0"%char); [done|]. cbn [rev]. by rewrite rev_involutive.
Qed.
Lemma drop_dot_dot s : drop_dot (s ++ ["."%char]) = s.
Proof. unfold drop_dot. rewrite rev_app_distr. cbn. apply rev_involutive. Qed.
Lemma drop_dot_other s c : c <> "."%char -> drop_dot (s ++ [c]) = s ++ [c].
Proof.
  intros Hc. unfold drop_dot. rewrite rev_app_distr. cbn [rev app]. unfold is_char.
  by destruct (Ascii.eqb_spec c "."%char).
Qed.
Lemma digit_chars d : 0 <= d < 10 -> digit d <> "."%char /\ (d <> 0 -> digit d <> "0"%char).
Proof. intros Hd. by digit_cases d. Qed.

Lemma digits_snoc n : 10 <= n -> digits n = digits (n / 10) ++ [digit (n mod 10)].
Proof. intros Hn. rewrite digits_eq by lia. by rewrite (proj2 (Z.ltb_ge n 10)). Qed.
Lemma zero_pad_snoc w s c : zero_pad (S w) (s ++ [c]) = zero_pad w s ++ [c].
Proof. unfold zero_pad. rewrite length_app, app_assoc. cbn [length]. by replace (S w - (length s + 1))%nat with (w - length s)%nat by lia. Qed.
Lemma zero_pad_length w s : (length (zero_pad w s) = Nat.max w (length s))%nat.
Proof. unfold zero_pad. rewrite length_app, length_zeros. lia. Qed.

(** A trailing zero changes nothing. *)
Lemma scaled_body_step n s : 0 < n -> 0 < s -> n mod 10 = 0 -> scaled_body n s = scaled_body (n / 10) (s - 1).
Proof.
  intros Hn Hs Hm. assert (10 <= n) as H10 by (Z.to_euclidean_division_equations; lia).
  unfold scaled_body. rewrite (proj2 (Z.eqb_neq s 0)) by lia. rewrite (digits_snoc n H10), Hm.
  replace (Z.to_nat (s + 1)) with (S (Z.to_nat s)) by lia. rewrite zero_pad_snoc.
  replace (Z.to_nat (s - 1 + 1)) with (Z.to_nat s) by lia. change (digit 0) with "0"%char.
  pose proof (zero_pad_length (Z.to_nat s) (digits (n / 10))) as Hl.
  pose proof (digits_nonempty (n / 10) ltac:(Z.to_euclidean_division_equations; lia)) as Hne.
  set (D := zero_pad (Z.to_nat s) (digits (n / 10))) in *. cbv zeta. rewrite length_app. cbn [length].
  replace (length D + 1 - Z.to_nat s)%nat with (length D - Z.to_nat (s - 1))%nat by lia.
  rewrite take_app_le, drop_app_le by lia. rewrite app_comm_cons, app_assoc, rstrip0_zero.
  destruct (Z.eqb_spec (s - 1) 0) as [Hz|]; [|done]. assert (s = 1) as -> by lia.
  replace (length D - Z.to_nat (1 - 1))%nat with (length D) by lia. rewrite drop_all, firstn_all.
  rewrite rstrip0_other by done. rewrite drop_dot_dot. subst D. unfold zero_pad.
  destruct (digits (n / 10)); [done|]. by replace (Z.to_nat 1 - _)%nat with 0%nat by (cbn; lia).
Qed.

(** Without one there is nothing to strip. *)
Lemma scaled_body_last n s : 0 < n -> 0 < s -> n mod 10 <> 0 ->
  let D := zero_pad (Z.to_nat (s + 1)) (digits n) in let split := (length D - Z.to_nat s)%nat in
  scaled_body n s = take split D ++ "."%char :: drop split D.
Proof.
  intros Hn Hs Hm D split. unfold scaled_body. rewrite (proj2 (Z.eqb_neq s 0)) by lia. fold D. cbv zeta. fold split.
  assert (exists F c, drop split D = F ++ [c] /\ c <> "."%char /\ c <> "0"%char) as (F & c & HF & H1 & H2).
  { destruct (digit_chars (n mod 10) ltac:(Z.to_euclidean_division_equations; lia)) as [Hdot H0].
    assert (exists G, D = G ++ [digit (n mod 10)]) as [G HG].
    { unfold D, zero_pad. destruct (Z_lt_le_dec n 10).
      - rewrite (digits_eq n), (proj2 (Z.ltb_lt n 10)), (Z.mod_small n 10) by lia. by eexists.
      - rewrite (digits_snoc n) by done. rewrite app_assoc. by eexists. }
    exists (drop split G), (digit (n mod 10)). split; [|auto]. rewrite HG. apply drop_app_le.
    assert (length D = S (length G)) by (rewrite HG, length_app; cbn; lia). unfold split. lia. }
  rewrite HF, app_comm_cons, app_assoc, rstrip0_other, drop_dot_other by done. done.
Qed.

Lemma scaled_text_step c s : c <> 0 -> 0 < s -> c mod 10 = 0 -> _scaled_text c s = _scaled_text (c / 10) (s - 1).
Proof.
  intros Hc Hs Hm. unfold _scaled_text. replace (_normalize_scaled c s) with (_normalize_scaled (c / 10) (s - 1)); [done|].
  assert (c / 10 <> 0) by (Z.to_euclidean_division_equations; lia). unfold _normalize_scaled.
  rewrite !(proj2 (Z.eqb_neq _ 0)) by done. replace (Z.to_nat s) with (S (Z.to_nat (s - 1))) by lia. cbn [normalize_loop].
  by rewrite (proj2 (Z.ltb_lt 0 s) Hs), (proj2 (Z.eqb_eq _ 0) Hm).
Qed.
Lemma scaled_text_last c s : 0 <= s -> c <> 0 -> (0 < s -> c mod 10 <> 0) ->
  _scaled_text c s = text_of ((if c <? 0 then ["-"%char] else []) ++ scaled_body (Z.abs c) s).
Proof.
  intros Hs Hc Hm. unfold _scaled_text. assert (_normalize_scaled c s = (c, s)) as ->.
  { unfold _normalize_scaled. rewrite (proj2 (Z.eqb_neq c 0) Hc). destruct (Z.to_nat s) as [|f] eqn:Hf; [done|].
    cbn [normalize_loop]. rewrite (proj2 (Z.ltb_lt 0 s)) by lia. by rewrite (proj2 (Z.eqb_neq (c mod 10) 0)) by (apply Hm; lia). }
  rewrite (proj2 (Z.eqb_neq c 0) Hc). destruct (Z.eqb_spec s 0) as [->|Hs0]; [done|].
  rewrite scaled_body_last by (try specialize (Hm ltac:(lia)); Z.to_euclidean_division_equations; lia). cbv zeta.
  replace (zero_pad _ _) with (if Z.of_nat (length (digits (Z.abs c))) <=? s
    then zeros (Z.to_nat (s + 1 - Z.of_nat (length (digits (Z.abs c))))) ++ digits (Z.abs c) else digits (Z.abs c)); [done|].
  unfold zero_pad. destruct (Z.leb_spec (Z.of_nat (length (digits (Z.abs c)))) s).
  - do 2 f_equal. lia.
  - by replace (Z.to_nat (s + 1) - _)%nat with 0%nat by lia.
Qed.
Lemma scaled_body_text s : 0 <= s -> forall c, c <> 0 ->
  _scaled_text c s = text_of ((if c <? 0 then ["-"%char] else []) ++ scaled_body (Z.abs c) s).
Proof.
  revert s. apply (natlike_ind (fun s => forall c, c <> 0 -> _scaled_text c s = _)).
  - intros c Hc. apply scaled_text_last; lia.
  - intros s Hs IH c Hc. destruct (Z.eq_dec (c mod 10) 0) as [Hm|Hm]; [|apply scaled_text_last; lia].
    rewrite scaled_text_step, scaled_body_step by (Z.to_euclidean_division_equations; lia).
    replace (Z.succ s - 1) with s by lia. rewrite IH by (Z.to_euclidean_division_equations; lia).
    replace (Z.abs (c / 10)) with (Z.abs c / 10) by (Z.to_euclidean_division_equations; lia).
    replace (c / 10 <? 0) with (c <? 0) by (destruct (Z.ltb_spec c 0), (Z.ltb_spec (c / 10) 0); Z.to_euclidean_division_equations; lia).
    done.
Qed.

(** So a coefficient at a scale reads as its value, when that is a decimal. *)
Lemma price_text c s : 0 <= s -> _canonical_decimal_from_coefficient c s = decimal_of_text (_scaled_text c s).
Proof.
  intros Hs. unfold _canonical_decimal_from_coefficient. destruct (Z.eqb_spec c 0) as [->|Hc]; [done|].
  by rewrite scaled_body_text.
Qed.

(** ** The nearest tick *)

(** [t] is the multiple of [d] next to [n]; a tie goes against the side that trades. *)
Definition nearest (n d : Z) (side : OrderSide) (t : Z) : Prop :=
  Z.abs (2 * (t * d - n)) <= d /\ (2 * (n - t * d) = d -> side = SELL) /\ (2 * (t * d - n) = d -> side = BUY).

Lemma nearest_tick_nearest n d side : 0 < d -> nearest n d side (nearest_tick n d side).
Proof.
  intros Hd. unfold nearest, nearest_tick. pose proof (Z.div_mod n d ltac:(lia)) as Hn. pose proof (Z.mod_pos_bound n d Hd) as Hr.
  set (q := n / d) in *. set (r := n mod d) in *. clearbody q r. subst n.
  destruct (Z.ltb_spec d (r * 2)); cbn [orb].
  { split_and!; [nia|intros; nia|intros; nia]. }
  destruct (Z.eqb_spec (r * 2) d), side; cbn [andb]; rewrite ?bool_decide_true, ?bool_decide_false by done;
    split_and!; (nia || (intros; (done || nia))).
Qed.
Lemma nearest_unique n d side t u : 0 < d -> nearest n d side t -> nearest n d side u -> t = u.
Proof.
  intros Hd (A1 & A2 & A3) (B1 & B2 & B3). destruct (Z.lt_trichotomy t u) as [H|[H|H]]; [exfalso|done|exfalso].
  - assert (u = t + 1) by nia. subst u. assert (2 * (n - t * d) = d) as E by nia. assert (2 * ((t + 1) * d - n) = d) as F by nia.
    specialize (A2 E). specialize (B3 F). congruence.
  - assert (t = u + 1) by nia. subst t. assert (2 * (n - u * d) = d) as E by nia. assert (2 * ((u + 1) * d - n) = d) as F by nia.
    specialize (B2 E). specialize (A3 F). congruence.
Qed.
Lemma nearest_cross n d m e side t : 0 < d -> 0 < e -> n * e = m * d -> nearest n d side t -> nearest m e side t.
Proof.
  intros Hd He H (A1 & A2 & A3). unfold nearest. split_and!.
  - apply (Z.mul_le_mono_pos_r _ _ d Hd). rewrite <-(Z.abs_eq d) at 1 by lia. rewrite <-Z.abs_mul.
    replace (2 * (t * e - m) * d) with (2 * (t * d - n) * e) by nia. rewrite Z.abs_mul, (Z.abs_eq e) by lia. nia.
  - intros E. apply A2. apply (Z.mul_reg_r _ _ e); [lia|]. nia.
  - intros E. apply A3. apply (Z.mul_reg_r _ _ e); [lia|]. nia.
Qed.

(** ** The price *)

(** The value of a float as a fraction in lowest terms. *)
Definition is_ratio (x : spec_float) (p q : Z) : Prop :=
  0 < q /\ Z.gcd p q = 1 /\
  match x with
  | S754_finite s m e => p * 2 ^ Z.max (- e) 0 = (if s then - Z.pos m else Z.pos m) * 2 ^ Z.max e 0 * q
  | _ => p = 0
  end.
Lemma integer_ratio_spec x : is_ratio (float_value x) (as_integer_ratio x).1 (as_integer_ratio x).2.
Proof.
  unfold as_integer_ratio. destruct (float_value x) as [s|s| |s m e]; [by split_and!..|]. cbv zeta. cbn [fst snd].
  set (n := _ * 2 ^ Z.max e 0). set (d := 2 ^ Z.max (- e) 0). assert (0 < d) as Hd by (apply Z.pow_pos_nonneg; lia).
  assert (Z.gcd n d <> 0) as Hg by (intros H%Z.gcd_eq_0; lia). pose proof (Z.gcd_nonneg n d) as Hg0.
  destruct (Z.gcd_divide_l n d) as [a Ha]. destruct (Z.gcd_divide_r n d) as [c Hc].
  assert (n / Z.gcd n d = a /\ d / Z.gcd n d = c) as [-> ->] by (split; [rewrite Ha at 1|rewrite Hc at 1]; by apply Z.div_mul).
  split_and!; [nia| |].
  - assert (Z.gcd (Z.gcd n d * a) (Z.gcd n d * c) = Z.gcd n d) as H by (by rewrite <-!(Z.mul_comm _ (Z.gcd n d)), <-Ha, <-Hc || (rewrite !(Z.mul_comm (Z.gcd n d)), <-Ha, <-Hc; done)).
    rewrite Z.gcd_mul_mono_l_nonneg in H by done. apply (Z.mul_reg_l _ _ (Z.gcd n d)); lia.
  - fold n. nia.
Qed.

Definition adverse (side : OrderSide) (x : Z) : Z := match side with BUY => x | SELL => - x end.
Definition slippage_units (bps : option CanonicalDecimal) : Z := match bps with Some b => units b | None => 0 end.
Definition in_domain (domain : PriceDomain) (u : Z) : bool :=
  match domain with POSITIVE => 0 <? u | NON_NEGATIVE => 0 <=? u | SIGNED => true end.

(** The slipped close in units of slippage, its scale and sign. *)
Lemma slipped_spec p q side bps : 0 < q -> (forall b, bps = Some b -> slippage_ok b = true) ->
  exists n d, slipped (p, q) side bps = Ok (n, d) /\ 0 < d /\
    n * (q * 10 ^ 22) = (p * 10 ^ 22 + adverse side (Z.abs p * slippage_units bps)) * d.
Proof.
  intros Hq Hb. destruct bps as [b|]; cbn [slipped slippage_units].
  - rewrite require_slippage_bps_spec, (Hb b eq_refl). cbn [rbind]. do 2 eexists. split; [done|].
    destruct (decimal_bounds b) as [Hs _]. pose proof (pow10_gt0 (scale b) ltac:(lia)) as Hp.
    pose proof (units_scale b) as Hu. split; [nia|]. change (10 ^ 22) with (10000 * 10 ^ 18).
    set (S := 10 ^ scale b) in *. set (T := 10 ^ 18) in *. clearbody S T. unfold adverse.
    destruct side.
    + transitivity (q * 10000 * (p * (10000 * T) * S + Z.abs p * (coefficient b * T))); [ring|]. rewrite <-Hu. ring.
    + transitivity (q * 10000 * (p * (10000 * T) * S - Z.abs p * (coefficient b * T))); [ring|]. rewrite <-Hu. ring.
  - exists p, q. split; [done|]. split; [done|]. destruct side; cbn [adverse]; ring.
Qed.

(** C21: an Order fills at the close, moved against its side by the slippage of its policy, at
    the nearest tick of the instrument, a tie going against the side; exactly, whatever the
    sizes, and it fails just when that price is no decimal or not of the price domain. *)
Theorem fills_at_the_nearest_tick close side spec bps :
  isfinite close = true -> 0 < units (price_quantum spec) -> (forall b, bps = Some b -> slippage_ok b = true) ->
  exists p q t, is_ratio (float_value close) p q /\
  nearest ((p * 10 ^ 22 + adverse side (Z.abs p * slippage_units bps)) * 10 ^ 18)
          (q * 10 ^ 22 * units (price_quantum spec)) side t /\
  let u := t * units (price_quantum spec) in
  match _quantized_historical_close close side spec bps with
  | Ok price => units price = u /\ in_domain (price_domain spec) u = true
  | Raise e => (e = HistoricalMatcherError ARITHMETIC_OVERFLOW /\ UNIT_BOUND <= Z.abs u) \/
               (e = HistoricalMatcherError PRICE_DOMAIN /\ in_domain (price_domain spec) u = false)
  end.
Proof.
  intros Hf Hu Hb. pose proof (integer_ratio_spec close) as Hr. destruct (as_integer_ratio close) as [p q] eqn:E. cbn [fst snd] in Hr.
  pose proof Hr as (Hq & _). destruct (slipped_spec p q side bps Hq Hb) as (n & d & Hs & Hd & Hnd).
  set (Q := price_quantum spec) in *. destruct (decimal_bounds Q) as [Hsc _].
  pose proof (units_scale Q) as HU. pose proof (pow10_gt0 (scale Q) ltac:(lia)) as HS. destruct (coefficient_sign Q) as (Hpos & _).
  set (t := nearest_tick (n * 10 ^ scale Q) (d * coefficient Q) side). exists p, q, t. split; [done|]. split.
  { assert (0 < coefficient Q) as Hc by lia. refine (nearest_cross _ _ _ _ _ _ _ _ _ (nearest_tick_nearest (n * 10 ^ scale Q) (d * coefficient Q) side _)); [nia..| |nia].
    set (S := 10 ^ scale Q) in *. set (T := 10 ^ 18) in *. set (X := p * 10 ^ 22 + _) in *. set (Y := q * 10 ^ 22) in *. clearbody S T X Y.
    transitivity (n * Y * (units Q * S)); [ring|]. rewrite HU, Hnd. ring. }
  cbv zeta. unfold _quantized_historical_close. rewrite Hf. cbn [negb]. fold Q. rewrite (proj2 (Z.leb_gt _ _)) by lia.
  rewrite E, Hs. cbn [rbind fst snd]. fold t. clearbody t. rewrite price_text by lia.
  destruct (scaled_text_spec (t * coefficient Q) (scale Q) ltac:(lia)) as [(price & -> & Hp)|[-> Hn]]; cbn [rbind close_errors].
  - assert (units price = t * units Q) as Hprice by (apply (Z.mul_reg_r _ _ (10 ^ scale Q)); [lia|]; rewrite Hp; transitivity (t * (coefficient Q * 10 ^ 18)); [ring|rewrite <-HU; ring]).
    destruct (coefficient_sign price) as (P1 & P2 & _). rewrite <-Hprice.
    destruct (price_domain spec); cbn [in_domain]; repeat case_bool_decide; try done; cbn [andb].
    + destruct (Z.leb_spec (coefficient price) 0); cbn [close_errors]; [right|]; (split; [done|lia]).
    + destruct (Z.ltb_spec (coefficient price) 0); cbn [close_errors]; [right|]; (split; [done|lia]).
  - left. split; [by vm_compute|]. destruct (Z.le_gt_cases UNIT_BOUND (Z.abs (t * units Q))) as [|Hlt]; [done|exfalso].
    apply (Hn _ Hlt). transitivity (t * (units Q * 10 ^ scale Q)); [ring|]. rewrite HU. ring.
Qed.

(** ** The evidence of what was issued *)

Section Venue.
Context `{hash : Sha256} (b : PaperBroker).
Implicit Types (st : paper_state) (tr : list ExecutionFactIngress).

(** The retained bytes of the ingresses returned so far, numbered from one. *)
Record evidence (issued : gmap IngressIdentity (str * str)) (next : Z) tr : Prop := {
  ev_size : next = Z.of_nat (size issued) + 1;
  ev_bound : Z.of_nat (size issued) <= pb_max_ingresses b;
  ev_source i : i ∈ tr -> ingress_source_namespace i = pb_source b /\ 1 <= ingress_sequence_ i < next;
  ev_issued k v : issued !! k = Some v <-> exists i, i ∈ tr /\ ingress_identity_of i = k /\ _materialize_ingress i = v;
  ev_unique i j : i ∈ tr -> j ∈ tr -> ingress_sequence_ i = ingress_sequence_ j -> i = j;
  ev_numbered n : 1 <= n < next -> exists i, i ∈ tr /\ ingress_sequence_ i = n
}.
(** Ingresses with consecutive numbers. *)
Fixpoint consecutive (n : Z) (out : list ExecutionFactIngress) : Prop :=
  match out with
  | [] => True
  | i :: out => ingress_source_namespace i = pb_source b /\ ingress_sequence_ i = n /\ consecutive (n + 1) out
  end.
Lemma consecutive_elem n out i : consecutive n out -> i ∈ out ->
  ingress_source_namespace i = pb_source b /\ n <= ingress_sequence_ i < n + Z.of_nat (length out).
Proof.
  revert n. induction out as [|j out IH]; intros n; cbn [consecutive length]; [by intros _ ?%not_elem_of_nil|].
  intros (H1 & H2 & H3) [->|H]%elem_of_cons; [split; [done|lia]|]. destruct (IH _ H3 H). split; [done|lia].
Qed.
Lemma consecutive_unique n out i j : consecutive n out -> i ∈ out -> j ∈ out -> ingress_sequence_ i = ingress_sequence_ j -> i = j.
Proof.
  revert n. induction out as [|x out IH]; intros n; cbn [consecutive]; [by intros _ ?%not_elem_of_nil|].
  intros (_ & H2 & H3) [->|Hi]%elem_of_cons [->|Hj]%elem_of_cons Hs; [done| | |by eapply IH].
  - destruct (consecutive_elem _ _ _ H3 Hj). lia.
  - destruct (consecutive_elem _ _ _ H3 Hi). lia.
Qed.
Lemma consecutive_numbered n out m : consecutive n out -> n <= m < n + Z.of_nat (length out) ->
  exists i, i ∈ out /\ ingress_sequence_ i = m.
Proof.
  revert n. induction out as [|x out IH]; intros n; cbn [consecutive length]; [lia|]. intros (_ & H2 & H3) Hm.
  destruct (Z.eq_dec m n) as [->|]; [exists x; split; [left|done]|].
  destruct (IH (n + 1) H3) as (i & Hi & Hs); [lia|]. exists i. split; [by right|done].
Qed.

(** What was returned before may be returned again. *)
Lemma evidence_again issued next tr out : evidence issued next tr -> (forall i, i ∈ out -> i ∈ tr) -> evidence issued next (tr ++ out).
Proof.
  intros [E1 E2 E3 E4 E5 E6] H. assert (forall i, i ∈ tr ++ out <-> i ∈ tr) as X.
  { intros i. rewrite elem_of_app. split; [intros [?|?]; auto|auto]. }
  split; try done; setoid_rewrite X; auto.
Qed.

Lemma stage_ingresses_app issued staged out staged' : stage_ingresses issued staged out = Ok staged' ->
  (forall k v, staged' !! k = Some v <-> staged !! k = Some v \/ exists i, i ∈ out /\ ingress_identity_of i = k /\ _materialize_ingress i = v) /\
  size staged' = (size staged + length out)%nat /\
  (forall i, i ∈ out -> issued !! ingress_identity_of i = None) /\ (map_disjoint staged issued -> map_disjoint staged' issued).
Proof.
  revert staged. induction out as [|i out IH]; intros staged; cbn [stage_ingresses length].
  { intros [= <-]. split_and!; [|lia|by intros ? ?%not_elem_of_nil|done]. intros k v. split; [auto|].
    by intros [?|(i & ?%not_elem_of_nil & _)]. }
  destruct (issued !! _) eqn:E1; [done|]. destruct (staged !! _) eqn:E2; [done|]. cbn [absent negb orb].
  intros H%IH. destruct H as (H1 & H2 & H3 & H4). split_and!.
  - intros k v. rewrite H1, lookup_insert_Some. setoid_rewrite elem_of_cons. split.
    + intros [[[<- <-]|[_ H]]|(j & Hj & H)]; [right; exists i; auto|by left|right; exists j; auto].
    + intros [H|(j & [->|Hj] & Hk & Hv)].
      * left. right. split; [|done]. intros <-. by rewrite E2 in H.
      * left. by left.
      * right. by exists j.
  - rewrite H2, map_size_insert_None by done. lia.
  - intros j [->|Hj]%elem_of_cons; [done|auto].
  - intros Hd. apply H4. by apply map_disjoint_insert_l.
Qed.
Lemma retain_evidence st issued tr out next : evidence (pb_issued st) next tr -> consecutive next out ->
  _retain b st out = Ok issued -> evidence issued (next + Z.of_nat (length out)) (tr ++ out).
Proof.
  intros [E1 E2 E3 E4 E5 E6] C. unfold _retain. destruct (Z.ltb_spec (pb_max_ingresses b) (Z.of_nat (size (pb_issued st)) + Z.of_nat (length out))) as [|Hb]; [done|].
  intros H. apply rbind_Ok in H as (staged & Hs & H). injection H as <-. apply stage_ingresses_app in Hs as (S1 & S2 & S3 & S4).
  specialize (S4 (map_disjoint_empty_l _)). rewrite map_size_empty in S2.
  assert (size (staged ∪ pb_issued st) = (length out + size (pb_issued st))%nat) as Hsize by (rewrite map_size_disj_union; [lia|done]).
  split; rewrite ?Hsize.
  - lia.
  - lia.
  - intros i [Hi|Hi]%elem_of_app; [destruct (E3 i Hi); split; [done|lia]|]. destruct (consecutive_elem _ _ _ C Hi). split; [done|lia].
  - intros k v. rewrite lookup_union_Some by done. rewrite S1, E4, lookup_empty. setoid_rewrite elem_of_app. split.
    + intros [[H|(i & Hi & H)]|(i & Hi & H)]; [done|exists i; auto|exists i; auto].
    + intros (i & [Hi|Hi] & H); [right|left; right]; exists i; auto.
  - intros i j [Hi|Hi]%elem_of_app [Hj|Hj]%elem_of_app Hs; [auto| | |by eapply consecutive_unique].
    + destruct (E3 i Hi), (consecutive_elem _ _ _ C Hj). lia.
    + destruct (E3 j Hj), (consecutive_elem _ _ _ C Hi). lia.
  - intros n Hn. setoid_rewrite elem_of_app. destruct (Z_lt_le_dec n next) as [Hl|Hl].
    + destruct (E6 n) as (i & Hi & H); [lia|]. exists i. auto.
    + destruct (consecutive_numbered _ _ n C) as (i & Hi & H); [lia|]. exists i. auto.
Qed.
(** There is room, and nothing else stops new ingresses. *)
Lemma stage_ingresses_fresh issued staged n out : consecutive n out ->
  (forall k, is_Some (issued !! k) \/ is_Some (staged !! k) -> ingress_sequence k < n) -> is_ok (stage_ingresses issued staged out) = true.
Proof.
  revert n staged. induction out as [|i out IH]; intros n staged; cbn [consecutive stage_ingresses]; [done|].
  intros (H1 & H2 & H3) H. assert (forall m : gmap IngressIdentity (str * str), (forall k, is_Some (m !! k) -> ingress_sequence k < n) -> absent (m !! ingress_identity_of i) = true) as X.
  { intros m Hm. destruct (m !! ingress_identity_of i) eqn:E; [|done]. assert (ingress_sequence (ingress_identity_of i) < n) by (apply Hm; eauto).
    unfold ingress_identity_of in *. cbn [ingress_sequence] in *. lia. }
  rewrite !X by eauto. cbn [negb orb]. apply (IH (n + 1)); [done|]. intros k [Hk|Hk]; [apply Z.lt_lt_succ_r; auto|].
  apply lookup_insert_is_Some in Hk as [<-|[_ Hk]]; [unfold ingress_identity_of; cbn [ingress_sequence]; lia|apply Z.lt_lt_succ_r; auto].
Qed.
Lemma retain_room st tr next out : evidence (pb_issued st) next tr -> consecutive next out ->
  Z.of_nat (size (pb_issued st)) + Z.of_nat (length out) <= pb_max_ingresses b -> is_ok (_retain b st out) = true.
Proof.
  intros E C Hb. unfold _retain. rewrite (proj2 (Z.ltb_ge _ _)) by lia.
  assert (is_ok (stage_ingresses (pb_issued st) ∅ out) = true) as H; [|by destruct (stage_ingresses _ _ _)].
  apply (stage_ingresses_fresh _ _ next); [done|]. intros k [[v Hv]|[v Hv]]; [|by rewrite lookup_empty in Hv].
  apply (ev_issued _ _ _ E) in Hv as (i & Hi & <- & _). apply (ev_source _ _ _ E) in Hi. unfold ingress_identity_of. cbn [ingress_sequence]. lia.
Qed.

(** ** The records *)

Lemma find_set k k' r (l : list (Sha256Digest * _PaperOrder)) : find_record k' (set_record k r l) =
  if bool_decide (k' = k) then (match find_record k l with Some _ => Some r | None => None end) else find_record k' l.
Proof.
  induction l as [|[x y] l IH]; cbn [set_record map find_record fst].
  { by case_bool_decide. }
  fold (set_record k r l). destruct (bool_decide_reflect (x = k)) as [->|Hx]; cbn [find_record].
  - rewrite (bool_decide_ext (k = k') (k' = k)) by done. destruct (bool_decide_reflect (k' = k)) as [->|]; [done|].
    exact IH.
  - destruct (bool_decide_reflect (x = k')) as [<-|]; [|exact IH]. destruct (bool_decide_reflect (x = k)); [done|]. done.
Qed.
Lemma find_snoc k k' r (l : list (Sha256Digest * _PaperOrder)) : find_record k' (l ++ [(k, r)]) =
  match find_record k' l with Some x => Some x | None => if bool_decide (k = k') then Some r else None end.
Proof. induction l as [|[x y] l IH]; cbn [app find_record]; [done|]. by destruct (bool_decide (x = k')). Qed.
Lemma set_keys k r (l : list (Sha256Digest * _PaperOrder)) : map fst (set_record k r l) = map fst l.
Proof.
  induction l as [|[x y] l IH]; cbn [set_record map fst]; [done|]. fold (set_record k r l). rewrite IH.
  by destruct (bool_decide_reflect (x = k)) as [->|].
Qed.
Lemma find_none k (l : list (Sha256Digest * _PaperOrder)) : find_record k l = None -> k ∉ map fst l.
Proof.
  induction l as [|[x y] l IH]; cbn [find_record map fst]; [by intros _ ?%not_elem_of_nil|].
  destruct (bool_decide_reflect (x = k)) as [|Hx]; [done|]. intros H. rewrite not_elem_of_cons. split; [congruence|auto].
Qed.
Lemma find_elem k r (l : list (Sha256Digest * _PaperOrder)) : NoDup (map fst l) -> ((k, r) ∈ l <-> find_record k l = Some r).
Proof.
  induction l as [|[x y] l IH]; cbn [find_record map fst]; [by intros _; split; [intros ?%not_elem_of_nil|]|].
  intros [Hx Hl]%NoDup_cons. rewrite elem_of_cons. destruct (bool_decide_reflect (x = k)) as [->|Hne].
  - split; [|intros [= ->]; by left]. intros [[= ->]|H]; [done|]. destruct Hx. by apply (list_elem_of_fmap_2 fst) in H.
  - rewrite <-IH by done. split; [intros [[= -> ->]|]; done|auto].
Qed.

(** The trade that fills an Order: all of it, on its side, after its latency has passed. *)
Record fills_whole (r : _PaperOrder) (f : ExecutionFact) : Prop := {
  fw_order : fact_order_id f = Some (od_order_id (sc_order (po_command r)));
  fw_payload : exists t, fact_payload f = TradePayload t /\ trade_side t = od_side (sc_order (po_command r)) /\
    trade_quantity t = od_quantity (sc_order (po_command r));
  fw_instrument : fact_instrument f = Some (od_instrument (sc_order (po_command r)));
  fw_latency : execution_latency_allows (fact_occurred_at f) (po_submitted_at r)
    (value (policy_identifier (od_execution_policy (sc_order (po_command r)))))
    (value (policy_sha256 (od_execution_policy (sc_order (po_command r))))) = Ok true
}.
Definition names (r : _PaperOrder) (f : ExecutionFact) : Prop :=
  fact_client_submission_key f = Some (order_client_submission_key (sc_order (po_command r))) /\
  fact_venue_order_id f = Some (po_venue_order_id r).

(** What the venue says of an Order: it has been acknowledged, and how it ended. *)
Definition shows (r : _PaperOrder) (f : ExecutionFact) : Prop :=
  names r f /\
  match fact_kind f with
  | ACKNOWLEDGEMENT => option_map ingress_fact (head (sr_ingresses (po_submit_result r))) = Some f
  | TRADE => po_state r = PAPER_FILLED /\ po_terminal_fact r = Some f /\ fills_whole r f
  | CANCELLATION => po_state r = PAPER_CANCELLED /\ po_terminal_fact r = Some f
  | _ => False
  end.

Definition ends (f : ExecutionFact) : Prop := fact_kind f = TRADE \/ fact_kind f = CANCELLATION.

Record record_ok tr (k : Sha256Digest) (r : _PaperOrder) : Prop := {
  rk_key : k = order_client_submission_key (sc_order (po_command r));
  rk_submit : exists ack, po_submit_result r = mkPaperSubmit SUBMISSION_SUBMITTED (Some (po_venue_order_id r)) [ack] /\
    ack ∈ tr /\ fact_kind (ingress_fact ack) = ACKNOWLEDGEMENT /\ fact_occurred_at (ingress_fact ack) = po_submitted_at r /\
    shows r (ingress_fact ack);
  rk_terminal : match po_state r with
    | PAPER_OPEN => po_terminal_fact r = None /\ po_cancel_command r = None
    | _ => exists i, i ∈ tr /\ po_terminal_fact r = Some (ingress_fact i) /\ ends (ingress_fact i) /\ shows r (ingress_fact i) end;
  rk_cancel : match po_cancel_result r with
    | Some c => forall i, i ∈ cr_ingresses c -> i ∈ tr
    | None => po_cancel_command r = None end
}.
Definition native (i : ExecutionFactIngress) (n : Z) : Prop :=
  fact_source_namespace (ingress_fact i) = pb_source b /\ fact_dedup_identity (ingress_fact i) = DedupSequence n.

(** The last market event the venue took. *)
Definition market_key (e : MarketDataEnvelope) : RuntimeRootOrderKey := key_of (RMarket e).
Definition last_event st (o : option MarketDataEnvelope) : Prop :=
  pb_last_market_key st = option_map market_key o /\ pb_last_market_bytes st = option_map canonical_market_data_record_bytes o.

Record venue_ok st tr : Prop := {
  vo_evidence : evidence (pb_issued st) (pb_ingress_next st) tr;
  vo_keys : NoDup (map fst (pb_records st));
  vo_records k r : find_record k (pb_records st) = Some r -> record_ok tr k r;
  vo_shown i : i ∈ tr -> exists k r, find_record k (pb_records st) = Some r /\ shows r (ingress_fact i);
  vo_next : 1 <= pb_fact_next st <= pb_ingress_next st;
  vo_facts i : i ∈ tr -> exists n, native i n /\ 1 <= n < pb_fact_next st;
  vo_unique i j : i ∈ tr -> j ∈ tr -> fact_dedup_identity (ingress_fact i) = fact_dedup_identity (ingress_fact j) ->
    ingress_fact i = ingress_fact j;
  vo_market : exists o, last_event st o;
  vo_unknown k c r : pb_unknown_cancels st !! k = Some (c, r) -> cr_ingresses r = []
}.

Lemma shows_mono tr out k r : record_ok tr k r -> record_ok (tr ++ out) k r.
Proof.
  intros [H1 (ack & H2 & H3 & H3' & H3'' & H4) H5 H6]. split; [done| | |].
  - exists ack. split_and!; [done|apply elem_of_app; by left|done|done|done].
  - destruct (po_state r); [done| |]; destruct H5 as (i & Hi & H5); exists i; (split; [apply elem_of_app; by left|done]).
  - destruct (po_cancel_result r); [|done]. intros i Hi. apply elem_of_app. left. auto.
Qed.

(** A call that returns nothing new leaves the evidence alone. *)
Lemma venue_again st tr out : venue_ok st tr -> (forall i, i ∈ out -> i ∈ tr) -> venue_ok st (tr ++ out).
Proof.
  intros [V1 V2 V3 V4 V5 V6 V7 V8 V9] H. assert (forall i, i ∈ tr ++ out -> i ∈ tr) as X.
  { intros i [?|?]%elem_of_app; auto. }
  split; auto; [by apply evidence_again|]. intros k r Hr. apply shows_mono. auto.
Qed.

(** New records, all else as it was: each old record keeps what it showed. *)
Definition keeps (l l' : list (Sha256Digest * _PaperOrder)) : Prop :=
  forall k r f, find_record k l = Some r -> shows r f -> exists r', find_record k l' = Some r' /\ shows r' f.
Lemma venue_step st st' tr out : venue_ok st tr -> _retain b st out = Ok (pb_issued st') ->
  consecutive (pb_ingress_next st) out -> pb_ingress_next st' = pb_ingress_next st + Z.of_nat (length out) ->
  NoDup (map fst (pb_records st')) -> keeps (pb_records st) (pb_records st') ->
  (forall k r, find_record k (pb_records st') = Some r -> record_ok (tr ++ out) k r) ->
  (forall i, i ∈ out -> exists k r, find_record k (pb_records st') = Some r /\ shows r (ingress_fact i)) ->
  pb_fact_next st <= pb_fact_next st' <= pb_ingress_next st' ->
  (forall j i, out !! j = Some i -> (native i (pb_fact_next st + Z.of_nat j) /\ pb_fact_next st + Z.of_nat j < pb_fact_next st') \/
     exists i', i' ∈ tr /\ ingress_fact i' = ingress_fact i /\ length out = 1%nat) ->
  (exists o, last_event st' o) ->
  (forall k c r, pb_unknown_cancels st' !! k = Some (c, r) -> cr_ingresses r = []) ->
  venue_ok st' (tr ++ out).
Proof.
  intros [V1 V2 V3 V4 V5 V6 V7 V8 V9] Hret Hcon Hnext Hkeys Hkeep Hrec Hshown Hfn Hnat Hm Hunk.
  assert (forall i, i ∈ out -> (exists j, out !! j = Some i /\ native i (pb_fact_next st + Z.of_nat j) /\ pb_fact_next st + Z.of_nat j < pb_fact_next st') \/
     exists i', i' ∈ tr /\ ingress_fact i' = ingress_fact i /\ length out = 1%nat) as Hnat'.
  { intros i Hi. apply list_elem_of_lookup_1 in Hi as [j Hj]. destruct (Hnat j i Hj) as [H|H]; [left; eauto|by right]. }
  split.
  - rewrite Hnext. by eapply retain_evidence.
  - done.
  - done.
  - intros i [Hi|Hi]%elem_of_app; [|auto]. destruct (V4 i Hi) as (k & r & Hr & Hs). destruct (Hkeep _ _ _ Hr Hs) as (r' & Hr' & Hs'). eauto.
  - lia.
  - intros i [Hi|Hi]%elem_of_app; [destruct (V6 i Hi) as (n & Hn & ?); exists n; split; [done|lia]|].
    destruct (Hnat' i Hi) as [(j & Hj & Hn & ?)|(i' & Hi' & Hf & _)]; [eexists; split; [exact Hn|lia]|].
    destruct (V6 i' Hi') as (n & Hn & ?). exists n. unfold native in *. rewrite <-Hf. split; [done|lia].
  - assert (forall i j, i ∈ tr -> j ∈ out -> fact_dedup_identity (ingress_fact i) = fact_dedup_identity (ingress_fact j) ->
      ingress_fact i = ingress_fact j) as X.
    { intros i j Hi Hj E. destruct (Hnat' j Hj) as [(n & _ & [_ Hn] & _)|(j' & Hj' & Hf & _)].
      - destruct (V6 i Hi) as (m & [_ Hm'] & ?). rewrite Hm', Hn in E. injection E as E. lia.
      - rewrite <-Hf in *. auto. }
    intros i j [Hi|Hi]%elem_of_app [Hj|Hj]%elem_of_app E; [auto|auto|by symmetry; auto|].
    destruct (Hnat' i Hi) as [(n & Hn & [_ Hn'] & _)|(i' & Hi' & Hf & _)]; [|rewrite <-Hf in *; auto].
    destruct (Hnat' j Hj) as [(m & Hm' & [_ Hm''] & _)|(j' & Hj' & Hf & _)]; [|rewrite <-Hf in *; by symmetry; auto].
    rewrite Hn', Hm'' in E. injection E as E. assert (n = m) as <- by lia. congruence.
  - done.
  - done.
Qed.

(** ** What the facts and ingresses carry *)

Lemma utc_time t : _require_time (at_utc t) = Ok t.
Proof. done. Qed.
Lemma ingress_fields f at_ n i : _ingress b f at_ n = Ok i -> ingress_fact i = f /\ ingress_source_namespace i = pb_source b /\
  ingress_sequence_ i = n /\ ingress_available_at i = at_ /\ microseconds (fact_occurred_at f) <= microseconds at_.
Proof.
  unfold _ingress, create_execution_fact_ingress, _require_non_negative. intros H. destruct (n <? 0); [done|]. cbn [rbind] in H.
  apply rbind_Ok in H as (t & Ht & H). rewrite utc_time in Ht. injection Ht as <-.
  destruct (negb _) in H; [done|]. destruct (Z.ltb_spec (microseconds at_) (microseconds (fact_occurred_at f))); [done|].
  by injection H as <-.
Qed.
Lemma ingress_made f at_ n : 0 <= n -> fact_source_namespace f = pb_source b -> microseconds (fact_occurred_at f) <= microseconds at_ ->
  _ingress b f at_ n = Ok (mkExecutionFactIngress at_ (pb_source b) n f).
Proof.
  intros Hn Hs Ht. unfold _ingress, create_execution_fact_ingress, _require_non_negative. rewrite (proj2 (Z.ltb_ge n 0)) by lia.
  cbn [rbind]. rewrite utc_time. cbn [rbind]. rewrite Hs, bool_decide_true by done. cbn [negb].
  by rewrite (proj2 (Z.ltb_ge _ _)) by lia.
Qed.
Lemma lifecycle_fields kind tag order venue n at_ f : lifecycle_fact b kind tag order venue n at_ = Ok f ->
  fact_kind f = kind /\ fact_source_namespace f = pb_source b /\ fact_dedup_identity f = DedupSequence n /\
  fact_order_id f = Some (od_order_id order) /\ fact_client_submission_key f = Some (order_client_submission_key order) /\
  fact_venue_order_id f = Some venue /\ fact_occurred_at f = at_.
Proof.
  unfold lifecycle_fact, SourceNativeSequence_init, _require_non_negative_integer. intros H. destruct (n <? 0); [done|]. cbn [rbind] in H.
  unfold create_lifecycle_execution_fact in H. destruct (_LIFECYCLE_CODE_BY_KIND kind); [|done]. cbn [rbind] in H.
  apply rbind_Ok in H as (t & Ht & H). apply rbind_Ok in H as (p & _ & H). injection H as <-. cbn. split_and!; try done.
  unfold _require_fact_common in Ht. rewrite utc_time in Ht. cbn [rbind] in Ht.
  repeat (apply rbind_Ok in Ht as (? & _ & Ht)). destruct (_ && _ && _) in Ht; [done|]. by injection Ht as ->.
Qed.
Lemma trade_fields e r n f : trade_fact b e r n = Ok f -> let order := sc_order (po_command r) in
  fact_kind f = TRADE /\ fact_source_namespace f = pb_source b /\ fact_dedup_identity f = DedupSequence n /\ names r f /\ fact_order_id f = Some (od_order_id order) /\
  fact_occurred_at f = event_time e /\ fact_instrument f = Some (od_instrument order) /\
  exists t spec slip, fact_payload f = TradePayload t /\ trade_side t = od_side order /\ trade_quantity t = od_quantity order /\
    require_spec (pb_spec_set b) (od_instrument order) = Ok spec /\
    slippage_bps_from_identity (value (policy_identifier (od_execution_policy order))) (value (policy_sha256 (od_execution_policy order))) = Ok slip /\
    _quantized_historical_close (bar_close (payload e)) (od_side order) spec slip = Ok (trade_price t).
Proof.
  intros H order. unfold trade_fact in H. fold order in H. cbv zeta in H. apply rbind_Ok in H as (spec & Hspec & H). apply rbind_Ok in H as (slip & Hslip & H).
  apply rbind_Ok in H as (price & Hp & H). apply rbind_Ok in H as (bps & Hb & H).
  unfold SourceNativeSequence_init, _require_non_negative_integer in H. destruct (n <? 0); [done|]. cbn [rbind] in H.
  unfold create_trade_execution_fact in H. apply rbind_Ok in H as (t & Ht & H). apply rbind_Ok in H as (p & Hpay & H).
  injection H as <-. cbn. split_and!; try done.
  - unfold _require_fact_common in Ht. rewrite utc_time in Ht. cbn [rbind] in Ht.
    repeat (apply rbind_Ok in Ht as (? & _ & Ht)). destruct (_ && _ && _) in Ht; [done|]. by injection Ht as ->.
  - unfold _phase1_trade_payload in Hpay. apply rbind_Ok in Hpay as ([sp dg] & _ & Hpay).
    do 4 (apply rbind_Ok in Hpay as (? & _ & Hpay)). apply rbind_Ok in Hpay as (fee & _ & Hpay). injection Hpay as <-.
    by exists (mkTradeFactPayload (od_side order) (od_quantity order) price [fee] (Execution.specification_id sp)
      (spec_set_identifier (pb_spec_set b)) dg), spec, slip.
Qed.

(** ** Every operation keeps it *)

Lemma emit_one i n : ingress_source_namespace i = pb_source b -> ingress_sequence_ i = n -> consecutive n [i].
Proof. intros. by split_and!. Qed.
Lemma single_lookup {A} (x y : A) (j : nat) : [x] !! j = Some y -> j = 0%nat /\ x = y.
Proof. destruct j; [by intros [= ->]|done]. Qed.

Lemma require_command_order os order key request o : _require_command os order key request = Ok o -> o = order.
Proof.
  unfold _require_command. destruct (OrderAuthority.resolve_issued_order_by_id _ _); [|done]. destruct (_ || _); [done|]. by intros [= ->].
Qed.

Lemma submit_venue os st tr c at_ r st' : venue_ok st tr -> PaperBroker.submit b os st c at_ = Ok (r, st') ->
  venue_ok st' (tr ++ sr_ingresses r).
Proof.
  intros V H. unfold PaperBroker.submit in H. apply rbind_Ok in H as (order & Ho & H). apply require_command_order in Ho as ->.
  apply rbind_Ok in H as (t & Ht & H). destruct (_ <? _) in H; [done|]. set (key := order_client_submission_key (sc_order c)) in *.
  destruct (find_record key (pb_records st)) as [x|] eqn:Ef.
  { destruct (negb _) in H; [done|]. injection H as <- <-. destruct (rk_submit _ _ _ (vo_records _ _ V _ _ Ef)) as (ack & -> & Ha & _).
    apply venue_again; [done|]. by intros i ->%list_elem_of_singleton. }
  destruct (_ <=? _) in H; [injection H as <- <-; cbn; apply venue_again; [done|]; by intros i ?%not_elem_of_nil|].
  destruct (od_order_kind (sc_order c)), (od_time_in_force (sc_order c)); (try done).
  apply rbind_Ok in H as (venue & _ & H). apply rbind_Ok in H as (f & Hf & H). apply rbind_Ok in H as (i & Hi & H).
  apply rbind_Ok in H as (issued & Hr & H). injection H as <- <-. cbn [sr_ingresses].
  apply lifecycle_fields in Hf as (F1 & F2 & F3 & F4 & F5 & F6 & F7). apply ingress_fields in Hi as (I1 & I2 & I3 & _).
  pose proof (find_none _ _ Ef) as Hnew. destruct (vo_next _ _ V) as [N1 N2].
  set (rec := mkPaperOrder c t venue (mkPaperSubmit SUBMISSION_SUBMITTED (Some venue) [i]) PAPER_OPEN None None None).
  assert (shows rec (ingress_fact i)) as Hshow by (rewrite I1; split; [done|by rewrite F1; cbn; rewrite I1]).
  assert (find_record key (pb_records st ++ [(key, rec)]) = Some rec) as Hfind by (by rewrite find_snoc, Ef, bool_decide_true).
  eapply venue_step; [done|exact Hr|by apply emit_one|done| | | | |cbn; lia| |exact (vo_market _ _ V)|exact (vo_unknown _ _ V)]; cbn [pb_records pb_fact_next].
  - rewrite map_app. apply NoDup_app. split_and!; [apply V| |apply NoDup_singleton]. intros k Hk ->%list_elem_of_singleton. done.
  - intros k x y Hx Hs. exists x. by rewrite find_snoc, Hx.
  - intros k x. rewrite find_snoc. destruct (find_record k (pb_records st)) as [y|] eqn:Ey.
    + intros [= <-]. apply shows_mono. by apply (vo_records _ _ V).
    + destruct (bool_decide_reflect (key = k)) as [<-|]; [|done]. intros [= <-]. split; try done.
      exists i. split_and!; [done|apply elem_of_app; right; left|by rewrite I1|by rewrite I1|done].
  - intros j ->%list_elem_of_singleton. eauto.
  - intros j x [-> <-]%single_lookup. left. unfold native. rewrite I1, Z.add_0_r. split_and!; [done|done|lia].
Qed.

Lemma set_keeps st k r r' : find_record k (pb_records st) = Some r -> (forall f, shows r f -> shows r' f) ->
  keeps (pb_records st) (set_record k r' (pb_records st)).
Proof.
  intros Hr H k2 r2 f Hr2 Hs. rewrite find_set, Hr. destruct (bool_decide_reflect (k2 = k)) as [->|]; [|eauto].
  rewrite Hr in Hr2. injection Hr2 as <-. eauto.
Qed.
Lemma set_records_ok st tr out k r r' : venue_ok st tr -> find_record k (pb_records st) = Some r -> record_ok (tr ++ out) k r' ->
  forall k2 r2, find_record k2 (set_record k r' (pb_records st)) = Some r2 -> record_ok (tr ++ out) k2 r2.
Proof.
  intros V Hr H k2 r2. rewrite find_set, Hr. destruct (bool_decide_reflect (k2 = k)) as [->|]; [by intros [= <-]|].
  intros Hr2. apply shows_mono. by apply (vo_records _ _ V).
Qed.
Lemma retain_nothing st : Z.of_nat (size (pb_issued st)) <= pb_max_ingresses b -> _retain b st [] = Ok (pb_issued st).
Proof.
  intros H. unfold _retain. cbn [length stage_ingresses]. rewrite (proj2 (Z.ltb_ge _ _)) by lia. cbn [rbind].
  by rewrite map_empty_union.
Qed.

(** A record goes on: it is the same request, and an end is final. *)
Record extends (r r' : _PaperOrder) : Prop := {
  ex_command : po_command r' = po_command r;
  ex_submitted : po_submitted_at r' = po_submitted_at r;
  ex_venue : po_venue_order_id r' = po_venue_order_id r;
  ex_submit : po_submit_result r' = po_submit_result r;
  ex_end : po_state r <> PAPER_OPEN -> po_state r' = po_state r /\ po_terminal_fact r' = po_terminal_fact r
}.
Lemma extends_refl r : extends r r.
Proof. by split. Qed.
Lemma extends_shows r r' f : extends r r' -> shows r f -> shows r' f.
Proof.
  intros [E1 E2 E3 E4 E5] [[H1 H2] H3]. split; [unfold names; by rewrite E1, E3|].
  destruct (fact_kind f) eqn:Hk; try done; rewrite ?E4; try done.
  - destruct H3 as (Hs & Ht & [W0 W1 W2 W3]). destruct E5 as [-> ->]; [by rewrite Hs|]. split_and!; [done|done|].
    split; rewrite ?E1, ?E2; done.
  - destruct H3 as (Hs & Ht). destruct E5 as [-> ->]; [by rewrite Hs|]. done.
Qed.
Lemma extends_ok tr out k r r' : record_ok tr k r -> extends r r' ->
  (po_state r' = PAPER_OPEN -> po_terminal_fact r' = None /\ po_cancel_command r' = None) ->
  (po_state r = PAPER_OPEN -> po_state r' <> PAPER_OPEN -> exists i, i ∈ tr ++ out /\ po_terminal_fact r' = Some (ingress_fact i) /\ ends (ingress_fact i) /\ shows r' (ingress_fact i)) ->
  match po_cancel_result r' with Some c => forall i, i ∈ cr_ingresses c -> i ∈ tr ++ out | None => po_cancel_command r' = None end ->
  record_ok (tr ++ out) k r'.
Proof.
  intros R E Ho Hn Hc. apply (shows_mono tr out) in R as [R1 (ack & R2 & R3 & R3' & R3'' & R4) R5 R6]. split; [|exists ack| |done].
  - by rewrite (ex_command _ _ E).
  - split_and!; [by rewrite (ex_submit _ _ E), (ex_venue _ _ E)|done|done|by rewrite (ex_submitted _ _ E)|by eapply extends_shows].
  - destruct (decide (po_state r = PAPER_OPEN)) as [Hr|Hr].
    + destruct (po_state r') eqn:Hs; [by apply Ho|by apply Hn|by apply Hn].
    + destruct (ex_end _ _ E Hr) as [Hs Ht]. rewrite Hs, Ht. destruct (po_state r); [done| |];
        destruct R5 as (i & Hi & Hf & He & Hsh); exists i; (split_and!; [done|done|done|by eapply extends_shows]).
Qed.

Lemma cancel_venue os st tr c at_ r st' : venue_ok st tr -> PaperBroker.cancel b os st c at_ = Ok (r, st') ->
  venue_ok st' (tr ++ cr_ingresses r).
Proof.
  intros V H. unfold PaperBroker.cancel in H. apply rbind_Ok in H as (order & Ho & H). apply require_command_order in Ho as ->.
  apply rbind_Ok in H as (t & Ht & H). set (key := order_client_submission_key (cc_order c)) in *.
  pose proof (ev_bound _ _ _ (vo_evidence _ _ V)) as Hb. destruct (vo_next _ _ V) as [N1 N2].
  destruct (pb_unknown_cancels st !! key) as [[c0 r0]|] eqn:Eu.
  { destruct (negb _) in H; [done|]. injection H as <- <-. rewrite (vo_unknown _ _ V _ _ _ Eu). apply venue_again; [done|]. by intros i ?%not_elem_of_nil. }
  destruct (find_record key (pb_records st)) as [x|] eqn:Ef.
  2:{ destruct (_ <=? _) in H; [done|]. injection H as <- <-. cbn [cr_ingresses].
      eapply (venue_step st _ _ []); [done|exact (retain_nothing st Hb)|done|cbn; lia|apply V|intros k r f; eauto| | | |by intros [|j]|apply V|];
        cbn [pb_records pb_fact_next pb_ingress_next pb_unknown_cancels]; try done.
      - intros k r Hr. apply shows_mono. by apply (vo_records _ _ V).
      - by intros i ?%not_elem_of_nil.
      - intros k c1 r1. rewrite lookup_insert_Some. intros [[_ [= _ <-]]|[_ ?]]; [done|]. by eapply (vo_unknown _ _ V). }
  pose proof (vo_records _ _ V _ _ Ef) as R. destruct (po_cancel_command x) as [c0|] eqn:Ec.
  { destruct (negb _) in H; [done|]. pose proof (rk_cancel _ _ _ R) as Rc. destruct (po_cancel_result x) as [r0|]; [|done].
    injection H as <- <-. apply venue_again; auto. }
  destruct (_ <? _) in H; [done|]. destruct (bool_decide_reflect (po_state x = PAPER_OPEN)) as [Hs|Hs]; cbn [negb] in H.
  - apply rbind_Ok in H as (f & Hf & H). apply rbind_Ok in H as (i & Hi & H). apply rbind_Ok in H as (issued & Hr & H). injection H as <- <-.
    cbn [cr_ingresses]. apply lifecycle_fields in Hf as (F1 & F2 & F3 & F4 & F5 & F6 & _). apply ingress_fields in Hi as (I1 & I2 & I3 & _).
    set (y := with_cancel _ _ _ _ _). pose proof (rk_key _ _ _ R) as Hk.
    assert (extends x y) as E by (split; try done; by intros []).
    assert (shows y (ingress_fact i)) as Hshow.
    { rewrite I1. split; [|by rewrite F1]. unfold names. cbn [y with_cancel po_command po_venue_order_id]. fold key in F5. by rewrite F5, F6, Hk. }
    eapply venue_step; [done|exact Hr|by apply emit_one|done| |eapply set_keeps; [done|intros; by eapply extends_shows]| | |cbn; lia| |exact (vo_market _ _ V)|exact (vo_unknown _ _ V)];
      cbn [pb_records pb_fact_next].
    + rewrite set_keys. apply V.
    + eapply set_records_ok; [done|done|]. eapply extends_ok; [done|done|done| |].
      * intros _ _. exists i. split_and!; [apply elem_of_app; right; left|cbn; by rewrite I1|right; by rewrite I1|done].
      * intros j Hj. apply elem_of_app. by right.
    + intros j ->%list_elem_of_singleton. exists key, y. split; [|done]. by rewrite find_set, Ef, bool_decide_true.
    + intros j z [-> <-]%single_lookup. left. unfold native. rewrite I1, Z.add_0_r. split_and!; [done|done|lia].
  - injection H as <- <-. cbn [cr_ingresses].
    set (y := with_cancel _ _ _ _ _). assert (extends x y) as E by by split.
    eapply (venue_step st _ _ []); [done|exact (retain_nothing st Hb)|done|cbn; lia| |eapply set_keeps; [done|intros; by eapply extends_shows]| | | |by intros [|j]|apply V|apply V];
        cbn [pb_records pb_fact_next pb_ingress_next pb_unknown_cancels]; try done.
    + rewrite set_keys. apply V.
    + eapply set_records_ok; [done|done|]. eapply extends_ok; [done|done|done|done|]. by intros j ?%not_elem_of_nil.
    + by intros j ?%not_elem_of_nil.
Qed.

Lemma query_venue st tr k at_ r st' : venue_ok st tr -> query b st k at_ = Ok (r, st') ->
  venue_ok st' (tr ++ option_list (qr_ingress r)).
Proof.
  intros V H. unfold query in H. apply rbind_Ok in H as (t & Ht & H). destruct (find_record k (pb_records st)) as [x|] eqn:Ef.
  2:{ injection H as <- <-. apply venue_again; [done|]. by intros i ?%not_elem_of_nil. }
  pose proof (vo_records _ _ V _ _ Ef) as [R1 (ack & R2 & R3 & R3' & R3'' & R4) R5 _]. destruct (_ <? _) in H; [done|].
  apply rbind_Ok in H as ([code fact] & Hfound & H). cbn [snd fst] in H.
  assert (exists j, j ∈ tr /\ fact = Some (ingress_fact j) /\ shows x (ingress_fact j)) as (j & Hj & -> & Hs).
  { rewrite R2 in Hfound. cbn [sr_ingresses] in Hfound. destruct (po_state x); [injection Hfound as <- <-; by exists ack| |];
      destruct R5 as (j & Hj & Hf & _ & Hs); rewrite Hf in Hfound; injection Hfound as <- <-; by exists j. }
  apply rbind_Ok in H as (i & Hi & H). apply rbind_Ok in H as (issued & Hr & H). injection H as <- <-. cbn [qr_ingress option_list].
  apply ingress_fields in Hi as (I1 & I2 & I3 & _). destruct (vo_next _ _ V) as [N1 N2].
  eapply venue_step; [done|exact Hr|by apply emit_one|done|apply V|intros k2 r2 f; eauto| | |cbn; lia| |exact (vo_market _ _ V)|exact (vo_unknown _ _ V)];
    cbn [pb_records pb_fact_next].
  - intros k2 r2 Hr2. apply shows_mono. by apply (vo_records _ _ V).
  - intros z ->%list_elem_of_singleton. exists k, x. by rewrite I1.
  - intros n z [-> <-]%single_lookup. right. exists j. by rewrite I1.
Qed.

(** ** Market events *)

(** The open Orders of the instrument whose latency has passed. *)
Definition is_due (e : MarketDataEnvelope) (r : _PaperOrder) : bool :=
  let order := sc_order (po_command r) in
  bool_decide (po_state r = PAPER_OPEN) && bool_decide (od_instrument order = bar_instrument (payload e)) &&
  match latency_ms_from_identity (value (policy_identifier (od_execution_policy order)))
          (value (policy_sha256 (od_execution_policy order))) with
  | Ok ms => ms * 1000 <? microseconds (event_time e) - microseconds (po_submitted_at r)
  | Raise _ => false
  end.
Lemma matches_is_due e r x : matches e r = Ok x -> is_due e r = x.
Proof.
  unfold is_due, matches, execution_latency_allows. cbv zeta.
  destruct (bool_decide_reflect (po_state r = PAPER_OPEN)); [|by intros [= <-]]. cbn [negb andb].
  rewrite (bool_decide_ext (od_instrument _ = bar_instrument (payload e)) (bar_instrument (payload e) = od_instrument (sc_order (po_command r)))) by done.
  destruct (bool_decide_reflect (bar_instrument (payload e) = od_instrument (sc_order (po_command r)))); [|by intros [= <-]]. cbn [negb andb].
  destruct (latency_ms_from_identity _ _); [|done]. by intros [= <-].
Qed.

(** What an event does to the records: the due ones are filled in their order, by facts and
    ingresses with the next numbers. *)
Inductive matched (e : MarketDataEnvelope) : Z -> Z -> list (Sha256Digest * _PaperOrder) -> list staged_fill ->
  list (Sha256Digest * _PaperOrder) -> Prop :=
| matched_nil n m : matched e n m [] [] []
| matched_pass n m k r l fs l' : is_due e r = false -> is_ok (matches e r) = true -> matched e n m l fs l' ->
    matched e n m ((k, r) :: l) fs ((k, r) :: l')
| matched_fill n m k r l f i fs l' : is_due e r = true -> trade_fact b e r n = Ok f -> _ingress b f (available_at e) m = Ok i ->
    matched e (n + 1) (m + 1) l fs l' ->
    matched e n m ((k, r) :: l) (mkStaged k f i :: fs) ((k, fill_record r f) :: l').

Lemma fills_skip k r fs (l : list (Sha256Digest * _PaperOrder)) : k ∉ map sf_key fs ->
  fold_left apply_fill fs ((k, r) :: l) = (k, r) :: fold_left apply_fill fs l.
Proof.
  revert l. induction fs as [|f fs IH]; intros l; cbn [map fold_left]; [done|]. rewrite not_elem_of_cons. intros [Hne Hk].
  assert (apply_fill ((k, r) :: l) f = (k, r) :: apply_fill l f) as ->; [|by apply IH].
  unfold apply_fill. cbn [find_record]. rewrite bool_decide_false by done. destruct (find_record (sf_key f) l); [|done].
  cbn [set_record map fst]. by rewrite bool_decide_false by done.
Qed.
Lemma set_absent k r (l : list (Sha256Digest * _PaperOrder)) : k ∉ map fst l -> set_record k r l = l.
Proof.
  induction l as [|[x y] l IH]; cbn [map fst set_record]; [done|]. rewrite not_elem_of_cons. intros [Hne Hk].
  fold (set_record k r l). rewrite IH by done. by rewrite bool_decide_false by done.
Qed.
Lemma stage_keys e l n m fs : stage_fills b e l n m = Ok fs -> forall k, k ∈ map sf_key fs -> k ∈ map fst l.
Proof.
  revert n m fs. induction l as [|[x r] l IH]; intros n m fs; cbn [stage_fills map fst]; [by intros [= <-]|].
  intros H. apply rbind_Ok in H as (hit & _ & H). destruct hit.
  - apply rbind_Ok in H as (f & _ & H). apply rbind_Ok in H as (i & _ & H). apply rbind_Ok in H as (rest & Hr & H). injection H as <-.
    cbn [map sf_key]. intros k [->|Hk]%elem_of_cons; [left|right; eauto].
  - intros k Hk. right. eauto.
Qed.
Lemma stage_matched e l n m fs : NoDup (map fst l) -> stage_fills b e l n m = Ok fs -> matched e n m l fs (fold_left apply_fill fs l).
Proof.
  revert n m fs. induction l as [|[k r] l IH]; intros n m fs; cbn [stage_fills map fst].
  { intros _ [= <-]. constructor. }
  intros [Hk Hl]%NoDup_cons H. apply rbind_Ok in H as (hit & Hhit & H). destruct hit.
  - apply rbind_Ok in H as (f & Hf & H). apply rbind_Ok in H as (i & Hi & H). apply rbind_Ok in H as (rest & Hr & H). injection H as <-.
    cbn [fold_left]. assert (apply_fill ((k, r) :: l) (mkStaged k f i) = (k, fill_record r f) :: l) as ->.
    { unfold apply_fill. cbn [sf_key sf_fact find_record set_record map fst]. rewrite !bool_decide_true by done.
      f_equal. by apply set_absent. }
    rewrite fills_skip by (intros ?%(stage_keys _ _ _ _ _ Hr); done). apply matched_fill; [|done|done|by apply IH].
    by apply matches_is_due.
  - rewrite fills_skip by (intros ?%(stage_keys _ _ _ _ _ H); done). apply matched_pass; [by apply matches_is_due|by rewrite Hhit|by apply IH].
Qed.

Lemma due_open e r : is_due e r = true -> po_state r = PAPER_OPEN /\
  bar_instrument (payload e) = od_instrument (sc_order (po_command r)) /\
  execution_latency_allows (event_time e) (po_submitted_at r)
    (value (policy_identifier (od_execution_policy (sc_order (po_command r)))))
    (value (policy_sha256 (od_execution_policy (sc_order (po_command r))))) = Ok true.
Proof.
  unfold is_due, execution_latency_allows. cbv zeta. intros H. apply andb_true_iff in H as [[H1 H2]%andb_true_iff H3].
  rewrite bool_decide_eq_true in H1, H2. split_and!; [done|done|]. destruct (latency_ms_from_identity _ _); [|done]. cbn [rbind]. by rewrite H3.
Qed.
Lemma filled_extends e r f : is_due e r = true -> extends r (fill_record r f).
Proof. intros (Ho & _)%due_open. by split. Qed.

(** The trade an event makes of a record. *)
Record is_fill (e : MarketDataEnvelope) (r : _PaperOrder) (f : ExecutionFact) : Prop := {
  if_kind : fact_kind f = TRADE;
  if_names : names r f;
  if_whole : fills_whole r f;
  if_time : fact_occurred_at f = event_time e;
  if_price : exists t spec slip, fact_payload f = TradePayload t /\
    require_spec (pb_spec_set b) (od_instrument (sc_order (po_command r))) = Ok spec /\
    slippage_bps_from_identity (value (policy_identifier (od_execution_policy (sc_order (po_command r)))))
      (value (policy_sha256 (od_execution_policy (sc_order (po_command r))))) = Ok slip /\
    _quantized_historical_close (bar_close (payload e)) (od_side (sc_order (po_command r))) spec slip = Ok (trade_price t)
}.
Lemma trade_is_fill e r n f : is_due e r = true -> trade_fact b e r n = Ok f -> is_fill e r f.
Proof.
  intros (_ & _ & Hl)%due_open (F1 & F2 & F3 & F4 & F5 & F6 & F7 & t & spec & slip & F8 & F9 & F10 & F11 & F12 & F13)%trade_fields.
  split; [done|done| |done|by exists t, spec, slip]. split; [done|by exists t|done|]. by rewrite F6.
Qed.

Lemma matched_keys e n m l fs l' : matched e n m l fs l' -> map fst l' = map fst l.
Proof. induction 1; cbn [map fst]; [done|f_equal; assumption|f_equal; assumption]. Qed.
Lemma matched_numbers e n m l fs l' : matched e n m l fs l' -> consecutive m (map sf_ingress fs) /\
  forall j i, map sf_ingress fs !! j = Some i -> native i (n + Z.of_nat j).
Proof.
  induction 1 as [n m|n m k r l fs l' Hd _ _ IH|n m k r l f i fs l' Hd Hf Hi _ [IH1 IH2]]; [done|done|].
  apply ingress_fields in Hi as (I1 & I2 & I3 & _). apply trade_fields in Hf as (F1 & F2 & F3 & _). split; [done|].
  intros [|j] x; cbn [map sf_ingress lookup list_lookup].
  - intros [= <-]. unfold native. rewrite I1, Z.add_0_r. done.
  - intros Hx%IH2. by replace (n + Z.of_nat (S j)) with (n + 1 + Z.of_nat j) by lia.
Qed.
Lemma matched_fills e n m l fs l' : matched e n m l fs l' ->
  Forall2 (fun x i => is_fill e x.2 (ingress_fact i) /\ ingress_available_at i = available_at e)
    (filter (fun x => is_due e x.2 = true) l) (map sf_ingress fs).
Proof.
  induction 1 as [n m|n m k r l fs l' Hd _ _ IH|n m k r l f i fs l' Hd Hf Hi _ IH]; [constructor| |].
  - rewrite filter_cons_False; [done|]. cbn [snd]. by rewrite Hd.
  - rewrite filter_cons_True by done. constructor; [|done]. cbn [snd sf_ingress].
    apply ingress_fields in Hi as (-> & _ & _ & -> & _). split; [by eapply trade_is_fill|done].
Qed.
Lemma matched_find e n m l fs l' k r : matched e n m l fs l' -> find_record k l = Some r ->
  if is_due e r then exists i, i ∈ map sf_ingress fs /\ is_fill e r (ingress_fact i) /\ find_record k l' = Some (fill_record r (ingress_fact i))
  else find_record k l' = Some r.
Proof.
  induction 1 as [n m|n m k2 r2 l fs l' Hd _ _ IH|n m k2 r2 l f i fs l' Hd Hf Hi _ IH]; cbn [find_record]; [done| |].
  - case_bool_decide; [|done]. intros [= <-]. by rewrite Hd.
  - case_bool_decide.
    + intros [= <-]. rewrite Hd. exists i. apply ingress_fields in Hi as (-> & _). cbn [map sf_ingress].
      split_and!; [left|by eapply trade_is_fill|done].
    + intros Hr%IH. destruct (is_due e r); [|done]. destruct Hr as (j & Hj & Hjr). exists j. split; [by right|done].
Qed.
Lemma matched_filled e n m l fs l' i : NoDup (map fst l) -> matched e n m l fs l' -> i ∈ map sf_ingress fs ->
  exists k r, find_record k l = Some r /\ is_due e r = true /\ is_fill e r (ingress_fact i) /\ find_record k l' = Some (fill_record r (ingress_fact i)).
Proof.
  intros Hl. induction 1 as [n m|n m k2 r2 l fs l' Hd _ _ IH|n m k2 r2 l f j fs l' Hd Hf Hi M IH]; cbn [map fst] in Hl.
  - by intros ?%not_elem_of_nil.
  - apply NoDup_cons in Hl as [Hk Hl]. intros H. destruct (IH Hl H) as (k & r & H1 & H2). exists k, r. cbn [find_record].
    rewrite bool_decide_false; [done|]. intros ->. destruct Hk. apply find_elem in H1; [|done]. by apply (list_elem_of_fmap_2 fst) in H1.
  - apply NoDup_cons in Hl as [Hk Hl]. cbn [map sf_ingress]. intros [->|H]%elem_of_cons.
    + exists k2, r2. cbn [find_record]. rewrite bool_decide_true by done. apply ingress_fields in Hi as (-> & _).
      split_and!; [done|done|by eapply trade_is_fill|done].
    + destruct (IH Hl H) as (k & r & H1 & H2). exists k, r. cbn [find_record].
      rewrite bool_decide_false; [done|]. intros ->. destruct Hk. apply find_elem in H1; [|done]. by apply (list_elem_of_fmap_2 fst) in H1.
Qed.
Lemma fill_shows e r f : is_due e r = true -> is_fill e r f -> shows (fill_record r f) f.
Proof.
  intros Hd [F1 F2 [W1 W2 W3 W4] F4 _]. split; [exact F2|]. rewrite F1. split_and!; [done|done|]. by split.
Qed.

(** An event is the last one again, or not after it, or new. *)
Lemma market_cases st o e : last_event st o -> on_market b st e =
  if bool_decide (o = Some e) then Ok ([], st)
  else if match o with Some e0 => py_le (market_key e) (market_key e0) | None => false end
  then Raise (PaperBrokerError CONFLICTING_ID)
  else
    let* staged :=
      if (revision e =? 0) && bool_decide (adjustment (payload e) = RAW)
      then stage_fills b e (pb_records st) (pb_fact_next st) (pb_ingress_next st) else Ok [] in
    let* issued := _retain b st (map sf_ingress staged) in
    Ok (map sf_ingress staged,
        mkPaperState (fold_left apply_fill staged (pb_records st)) (pb_unknown_cancels st) issued
          (pb_fact_next st + Z.of_nat (length staged)) (pb_ingress_next st + Z.of_nat (length staged))
          (Some (market_key e)) (Some (canonical_market_data_record_bytes e))).
Proof.
  intros [L1 L2]. unfold on_market. assert (runtime_root_order_key (RMarket e) = Ok (market_key e)) as -> by done. cbn [rbind].
  rewrite L1, L2. destruct o as [e0|]; cbn [option_map]; [|done].
  destruct (bool_decide_reflect (Some e0 = Some e)) as [[= ->]|Hne].
  - rewrite (bool_decide_true (market_key e = market_key e)) by done.
    by rewrite (bool_decide_true (Some (canonical_market_data_record_bytes e) = _)) by done.
  - rewrite (bool_decide_false (Some (canonical_market_data_record_bytes e0) = _)).
    2:{ intros H. apply (inj Some), market_bytes_inj in H. by subst. }
    rewrite andb_false_r, root_key_le_total by done. cbn [rbind]. by destruct (py_le (market_key e) (market_key e0)).
Qed.

Lemma market_venue st tr e out st' : venue_ok st tr -> on_market b st e = Ok (out, st') -> venue_ok st' (tr ++ out).
Proof.
  intros V H. destruct (vo_market _ _ V) as [o Ho]. rewrite (market_cases _ _ _ Ho) in H.
  destruct (bool_decide _). { injection H as <- <-. apply venue_again; [done|]. by intros i ?%not_elem_of_nil. }
  destruct (match o with Some e0 => _ | None => false end); [done|].
  apply rbind_Ok in H as (staged & Hs & H). apply rbind_Ok in H as (issued & Hr & H). injection H as <- <-.
  assert (exists l', fold_left apply_fill staged (pb_records st) = l' /\
    (matched e (pb_fact_next st) (pb_ingress_next st) (pb_records st) staged l' \/ staged = [] /\ l' = pb_records st)) as (l' & Hl & M).
  { eexists. split; [done|]. destruct (_ && _); [left; by apply stage_matched; [apply V|]|]. injection Hs as <-. by right. }
  rewrite Hl. destruct (vo_next _ _ V) as [N1 N2]. pose proof (ev_bound _ _ _ (vo_evidence _ _ V)) as Hb.
  assert (forall f, f ∈ map sf_ingress staged -> (0 < length staged)%nat) as Hpos by (intros f; destruct staged; [by intros ?%not_elem_of_nil|cbn; lia]).
  destruct M as [M|[-> ->]].
  - destruct (matched_numbers _ _ _ _ _ _ M) as [M1 M2].
    eapply venue_step; [done|exact Hr|done| | | | | | | |by exists (Some e)|exact (vo_unknown _ _ V)]; cbn [pb_records pb_fact_next pb_ingress_next].
    + by rewrite length_map.
    + rewrite (matched_keys _ _ _ _ _ _ M). apply V.
    + intros k r f Hf Hsh. pose proof (matched_find _ _ _ _ _ _ _ _ M Hf) as Hm. destruct (is_due e r) eqn:Hd; [|by exists r].
      destruct Hm as (i & _ & _ & Hm). eexists. split; [exact Hm|]. eapply extends_shows; [by apply (filled_extends e)|done].
    + intros k r' Hr'. destruct (find_record k (pb_records st)) as [r|] eqn:Hf.
      2:{ apply find_none in Hf. rewrite <-(matched_keys _ _ _ _ _ _ M) in Hf. destruct Hf.
          apply find_elem in Hr'; [by apply (list_elem_of_fmap_2 fst) in Hr'|]. rewrite (matched_keys _ _ _ _ _ _ M). apply V. }
      pose proof (vo_records _ _ V _ _ Hf) as R. pose proof (matched_find _ _ _ _ _ _ _ _ M Hf) as Hm. destruct (is_due e r) eqn:Hd.
      * destruct Hm as (i & Hi & Hfill & Hm). rewrite Hm in Hr'. injection Hr' as <-.
        eapply extends_ok; [done|by apply (filled_extends e)|done| |].
        -- intros _ _. exists i. split_and!; [apply elem_of_app; by right|done|left; by apply Hfill|by apply (fill_shows e)].
        -- pose proof (rk_cancel _ _ _ R) as Rc. cbn [fill_record po_cancel_result]. destruct (po_cancel_result r); [|done].
           intros j Hj. apply elem_of_app. left. auto.
      * rewrite Hm in Hr'. injection Hr' as <-. by apply shows_mono.
    + intros i Hi. destruct (matched_filled _ _ _ _ _ _ _ (vo_keys _ _ V) M Hi) as (k & r & _ & Hd & Hfill & Hf). exists k, (fill_record r (ingress_fact i)).
      split; [done|by apply (fill_shows e)].
    + lia.
    + intros j i Hi. left. split; [by apply M2|]. apply list_lookup_lt_Some in Hi || apply lookup_lt_Some in Hi. rewrite length_map in Hi. lia.
  - cbn [map]. eapply (venue_step st); [done|exact Hr|done|cbn; lia|apply V|intros k r f; eauto| | |cbn; lia|by intros [|j]|by exists (Some e)|exact (vo_unknown _ _ V)];
      cbn [pb_records].
    + intros k r Hf. apply shows_mono. by apply (vo_records _ _ V).
    + by intros i ?%not_elem_of_nil.
Qed.

(** ** Runs of the venue beside the authority that issues the Orders *)

Context (oc : OrderAuthorityContext).
Implicit Types (os : _OrderAuthorityState).
Definition paper_world : Type := _OrderAuthorityState * paper_state * list ExecutionFactIngress.

(** Every call that returns, with what it returned; one that raises changes nothing. *)
Inductive paper_step : paper_world -> paper_world -> Prop :=
| paper_order os st tr s : paper_step (os, st, tr) (OrderSpec.submit oc os s, st, tr)
| paper_submit os st tr c at_ r st' : PaperBroker.submit b os st c at_ = Ok (r, st') ->
    paper_step (os, st, tr) (os, st', tr ++ sr_ingresses r)
| paper_cancel os st tr c at_ r st' : PaperBroker.cancel b os st c at_ = Ok (r, st') ->
    paper_step (os, st, tr) (os, st', tr ++ cr_ingresses r)
| paper_query os st tr k at_ r st' : query b st k at_ = Ok (r, st') ->
    paper_step (os, st, tr) (os, st', tr ++ option_list (qr_ingress r))
| paper_market os st tr e out st' : on_market b st e = Ok (out, st') -> paper_step (os, st, tr) (os, st', tr ++ out).
Definition paper_reachable (w : paper_world) : Prop :=
  exists source max_orders st0, PaperBroker_init oc source max_orders = Ok (b, st0) /\ rtc paper_step (empty_order_state, st0, []) w.

Lemma paper_initial source max_orders st0 : PaperBroker_init oc source max_orders = Ok (b, st0) -> venue_ok st0 [].
Proof.
  unfold PaperBroker_init. destruct (negb _) eqn:Hm; [done|]. intros [= Hb <-]. rewrite negb_false_iff in Hm.
  split; cbn [pb_issued pb_ingress_next pb_fact_next pb_records pb_last_market_key pb_unknown_cancels].
  - split; try (intros ? ?%not_elem_of_nil; done).
    + by rewrite map_size_empty.
    + rewrite map_size_empty. unfold pb_max_ingresses. rewrite <-Hb. cbn [pb_max_orders]. lia.
    + intros k v. rewrite lookup_empty. split; [done|]. by intros (i & ?%not_elem_of_nil & _).
    + by intros i j ?%not_elem_of_nil.
    + intros n Hn. lia.
  - apply NoDup_nil_2.
  - done.
  - by intros i ?%not_elem_of_nil.
  - lia.
  - by intros i ?%not_elem_of_nil.
  - by intros i j ?%not_elem_of_nil.
  - by exists None.
  - intros k c r. by rewrite lookup_empty.
Qed.
Lemma paper_step_ok w w' : paper_step w w' -> venue_ok w.1.2 w.2 -> venue_ok w'.1.2 w'.2.
Proof.
  destruct 1; cbn [fst snd]; intros V; [done|by eapply submit_venue|by eapply cancel_venue|by eapply query_venue|by eapply market_venue].
Qed.
Lemma paper_reachable_ok w : paper_reachable w -> venue_ok w.1.2 w.2.
Proof.
  intros (source & mx & st0 & Hinit & Hs). apply paper_initial in Hinit.
  change (venue_ok (empty_order_state, st0, @nil ExecutionFactIngress).1.2 (empty_order_state, st0, @nil ExecutionFactIngress).2) in Hinit.
  induction Hs as [|w1 w2 w3 H _ IH]; [done|]. apply IH. by eapply paper_step_ok.
Qed.

(** The Orders the venue holds are Orders the authority issued. *)
Definition issued_to os (order : Order) : Prop :=
  exists o, o ∈ oa_orders os /\ od_order_id o = od_order_id order /\
    order_client_submission_key o = order_client_submission_key order /\ order_digest o = order_digest order.
Lemma required_issued_to os l order key request o : order_log oc os l -> _require_command os order key request = Ok o -> issued_to os order.
Proof.
  intros L. unfold _require_command. destruct (OrderAuthority.resolve_issued_order_by_id _ _) as [x|] eqn:E; [|done].
  destruct (_ || _) eqn:Hb; [done|]. intros _. rewrite !orb_false_iff, !negb_false_iff, !bool_decide_eq_true in Hb.
  destruct Hb as [[[H1 H2] _] _]. destruct (resolved_by_id _ _ _ _ _ L E) as (e & He & Hk & <-).
  destruct (resolved_by_key _ _ _ _ _ L H1) as (e' & He' & Hk' & Heq). exists e.2. split_and!; try done.
  - rewrite (ol_orders _ _ _ L). by apply (list_elem_of_fmap_2 snd).
  - rewrite <-Heq. exact Hk'.
Qed.
Lemma issued_to_mono os l s order : order_log oc os l -> issued_to os order -> issued_to (OrderSpec.submit oc os s) order.
Proof.
  intros L (o & Ho & H). destruct (submit_log oc os l s L) as [->|(o' & L')]; [by exists o|].
  exists o. split; [|done]. rewrite (ol_orders _ _ _ L'), map_app. rewrite (ol_orders _ _ _ L) in Ho.
  apply elem_of_app. by left.
Qed.

Definition held_issued os st : Prop :=
  forall k r, find_record k (pb_records st) = Some r -> issued_to os (sc_order (po_command r)).
(** A record is a request of before, or its Order has just been checked. *)
Definition holds_from os st st' : Prop :=
  forall k r', find_record k (pb_records st') = Some r' ->
    (exists r, find_record k (pb_records st) = Some r /\ po_command r' = po_command r) \/
    exists key request o, _require_command os (sc_order (po_command r')) key request = Ok o.
Lemma holds_same os st st' : pb_records st' = pb_records st -> holds_from os st st'.
Proof. intros E k r Hr. rewrite E in Hr. left. eauto. Qed.
Lemma holds_set os st st' k r r' : find_record k (pb_records st) = Some r -> po_command r' = po_command r ->
  pb_records st' = set_record k r' (pb_records st) -> holds_from os st st'.
Proof.
  intros Hr Hc E k2 r2. rewrite E, find_set, Hr. destruct (bool_decide_reflect (k2 = k)) as [->|]; [|by left; eauto].
  intros [= <-]. left. eauto.
Qed.
Lemma submit_holds os st c at_ r st' : PaperBroker.submit b os st c at_ = Ok (r, st') -> holds_from os st st'.
Proof.
  intros H. unfold PaperBroker.submit in H. apply rbind_Ok in H as (order & Ho & H). pose proof (require_command_order _ _ _ _ _ Ho) as ->.
  apply rbind_Ok in H as (t & Ht & H). destruct (_ <? _) in H; [done|].
  destruct (find_record _ (pb_records st)) as [x|] eqn:Ef. { destruct (negb _) in H; [done|]. injection H as <- <-. by apply holds_same. }
  destruct (_ <=? _) in H; [injection H as <- <-; by apply holds_same|].
  destruct (od_order_kind (sc_order c)), (od_time_in_force (sc_order c)); (try done).
  do 4 (apply rbind_Ok in H as (? & _ & H)). injection H as <- <-. intros k r. cbn [pb_records]. rewrite find_snoc.
  destruct (find_record k (pb_records st)) eqn:Ek; [intros [= <-]; left; eauto|]. case_bool_decide; [|done]. intros [= <-]. right. eauto.
Qed.
Lemma cancel_holds os st c at_ r st' : PaperBroker.cancel b os st c at_ = Ok (r, st') -> holds_from os st st'.
Proof.
  intros H. unfold PaperBroker.cancel in H. apply rbind_Ok in H as (order & Ho & H). apply rbind_Ok in H as (t & Ht & H).
  destruct (pb_unknown_cancels st !! _) as [[c0 r0]|]. { destruct (negb _) in H; [done|]. injection H as <- <-. by apply holds_same. }
  destruct (find_record _ (pb_records st)) as [x|] eqn:Ef.
  2:{ destruct (_ <=? _) in H; [done|]. injection H as <- <-. by apply holds_same. }
  destruct (po_cancel_command x). { destruct (negb _) in H; [done|]. destruct (po_cancel_result x); [|done]. injection H as <- <-. by apply holds_same. }
  destruct (_ <? _) in H; [done|]. destruct (negb _) in H.
  - injection H as <- <-. eapply holds_set; [exact Ef| |reflexivity]; done.
  - do 3 (apply rbind_Ok in H as (? & _ & H)). injection H as <- <-. eapply holds_set; [exact Ef| |reflexivity]; done.
Qed.
Lemma query_holds os st k at_ r st' : query b st k at_ = Ok (r, st') -> holds_from os st st'.
Proof.
  intros H. unfold query in H. apply rbind_Ok in H as (t & Ht & H). destruct (find_record k (pb_records st)) as [x|].
  2:{ injection H as <- <-. by apply holds_same. }
  destruct (_ <? _) in H; [done|]. apply rbind_Ok in H as (found & _ & H). destruct (found.2); [|done].
  do 2 (apply rbind_Ok in H as (? & _ & H)). injection H as <- <-. by apply holds_same.
Qed.
Lemma market_holds os st tr e out st' : venue_ok st tr -> on_market b st e = Ok (out, st') -> holds_from os st st'.
Proof.
  intros V H. destruct (vo_market _ _ V) as [o Ho]. rewrite (market_cases _ _ _ Ho) in H.
  destruct (bool_decide _). { injection H as <- <-. by apply holds_same. }
  destruct (match o with Some e0 => _ | None => false end); [done|].
  apply rbind_Ok in H as (staged & Hs & H). apply rbind_Ok in H as (issued & _ & H). injection H as <- <-.
  destruct (_ && _); [|injection Hs as <-; intros k r Hr; left; eauto].
  apply stage_matched in Hs; [|apply V]. intros k r' Hr'. cbn [pb_records] in Hr'. left. destruct (find_record k (pb_records st)) as [r|] eqn:Ef.
  - exists r. split; [done|]. pose proof (matched_find _ _ _ _ _ _ _ _ Hs Ef) as Hm.
    destruct (is_due e r); [destruct Hm as (i & _ & _ & Hm)|]; rewrite Hm in Hr'; by injection Hr' as <-.
  - apply find_none in Ef. rewrite <-(matched_keys _ _ _ _ _ _ Hs) in Ef. destruct Ef.
    apply find_elem in Hr'; [by apply (list_elem_of_fmap_2 fst) in Hr'|]. rewrite (matched_keys _ _ _ _ _ _ Hs). apply V.
Qed.
Lemma held_from os l st st' : order_log oc os l -> held_issued os st -> holds_from os st st' -> held_issued os st'.
Proof.
  intros L H Hf k r' Hr'. destruct (Hf k r' Hr') as [(r & Hr & ->)|(key & request & o & Ho)]; [by eapply H|by eapply required_issued_to].
Qed.
Lemma paper_reachable_issued w : paper_reachable w -> (exists l, order_log oc w.1.1 l) /\ held_issued w.1.1 w.1.2.
Proof.
  intros (source & mx & st0 & Hinit & Hs).
  assert (venue_ok st0 [] /\ held_issued empty_order_state st0) as [V Hh].
  { split; [by eapply paper_initial|]. unfold PaperBroker_init in Hinit. destruct (negb _); [done|]. by injection Hinit as _ <-. }
  assert (forall w w' : paper_world, paper_step w w' -> (venue_ok w.1.2 w.2 /\ exists l, order_log oc w.1.1 l) /\ held_issued w.1.1 w.1.2 ->
    (venue_ok w'.1.2 w'.2 /\ exists l, order_log oc w'.1.1 l) /\ held_issued w'.1.1 w'.1.2) as Hstep.
  { intros w1 w2 H [[V1 [l L]] H1]. split; [split; [by eapply paper_step_ok|]|].
    - destruct H; cbn [fst snd] in *; eauto. destruct (submit_log oc os l s L) as [->|(o & L')]; eauto.
    - destruct H; cbn [fst snd] in *; [|eapply held_from; eauto..].
      + intros k r Hr. eapply issued_to_mono; eauto.
      + by eapply submit_holds.
      + by eapply cancel_holds.
      + by eapply query_holds.
      + by eapply market_holds. }
  assert ((venue_ok w.1.2 w.2 /\ exists l, order_log oc w.1.1 l) /\ held_issued w.1.1 w.1.2) as [[_ ?] ?]; [|done].
  assert (forall w0, rtc paper_step w0 w -> (venue_ok w0.1.2 w0.2 /\ exists l, order_log oc w0.1.1 l) /\ held_issued w0.1.1 w0.1.2 ->
    (venue_ok w.1.2 w.2 /\ exists l, order_log oc w.1.1 l) /\ held_issued w.1.1 w.1.2) as X.
  { induction 1; eauto. }
  apply (X _ Hs). cbn [fst snd]. split; [split; [done|]|done]. exists []. apply empty_log.
Qed.

(** ** The claims *)

Definition latency_passed (order : Order) (later earlier : datetime) : Prop :=
  execution_latency_allows later earlier (value (policy_identifier (od_execution_policy order)))
    (value (policy_sha256 (od_execution_policy order))) = Ok true.

Lemma shown_record tr k r f : record_ok tr k r -> shows r f -> ends f -> po_terminal_fact r = Some f.
Proof. intros _ [_ H] [E|E]; rewrite E in H; tauto. Qed.

(** C13: an Order ends at most once at the venue. Whatever is asked, in any order and however
    often, all ends it reports of a client key are one fact: either a cancellation, or one
    trade of the whole quantity, on the side of the issued Order, after the acknowledgement
    by more than the latency of its policy. *)
Theorem orders_end_once os st tr : paper_reachable (os, st, tr) ->
  (forall i j, i ∈ tr -> j ∈ tr -> ends (ingress_fact i) -> ends (ingress_fact j) ->
     fact_client_submission_key (ingress_fact i) = fact_client_submission_key (ingress_fact j) -> ingress_fact i = ingress_fact j) /\
  (forall i, i ∈ tr -> exists order ack, issued_to os order /\ ack ∈ tr /\ fact_kind (ingress_fact ack) = ACKNOWLEDGEMENT /\
     fact_client_submission_key (ingress_fact ack) = Some (order_client_submission_key order) /\
     fact_client_submission_key (ingress_fact i) = Some (order_client_submission_key order) /\
     match fact_kind (ingress_fact i) with
     | ACKNOWLEDGEMENT => ingress_fact i = ingress_fact ack
     | CANCELLATION => True
     | TRADE => fact_order_id (ingress_fact i) = Some (od_order_id order) /\
         (exists t, fact_payload (ingress_fact i) = TradePayload t /\ trade_side t = od_side order /\ trade_quantity t = od_quantity order) /\
         latency_passed order (fact_occurred_at (ingress_fact i)) (fact_occurred_at (ingress_fact ack))
     | _ => False
     end).
Proof.
  intros Hr. pose proof (paper_reachable_ok _ Hr) as V. pose proof (paper_reachable_issued _ Hr) as [_ Hh]. cbn [fst snd] in *. split.
  - intros i j Hi Hj Ei Ej Hk. destruct (vo_shown _ _ V i Hi) as (k & r & Hf & Hs), (vo_shown _ _ V j Hj) as (k' & r' & Hf' & Hs').
    pose proof (vo_records _ _ V _ _ Hf) as R. pose proof (vo_records _ _ V _ _ Hf') as R'.
    assert (k = k') as <-.
    { destruct Hs as [[Hn _] _], Hs' as [[Hn' _] _]. rewrite Hn, Hn' in Hk. apply (inj Some) in Hk. by rewrite (rk_key _ _ _ R), (rk_key _ _ _ R'). }
    rewrite Hf in Hf'. injection Hf' as <-. pose proof (shown_record _ _ _ _ R Hs Ei) as T. rewrite (shown_record _ _ _ _ R Hs' Ej) in T.
    by injection T as ->.
  - intros i Hi. destruct (vo_shown _ _ V i Hi) as (k & r & Hf & [[Hn _] Hs]). pose proof (Hh _ _ Hf) as Hiss.
    destruct (rk_submit _ _ _ (vo_records _ _ V _ _ Hf)) as (ack & Hsub & Ha & Hka & Hta & [[Hna _] _]).
    exists (sc_order (po_command r)), ack. split_and!; try done. destruct (fact_kind (ingress_fact i)); try done.
    + destruct Hs as (_ & _ & [W0 W1 W2 W3]). unfold latency_passed. by rewrite Hta.
    + rewrite Hsub in Hs. by injection Hs as ->.
Qed.

(** C22: the venue vouches for exactly what it issued. The bytes it answers for are those of
    the ingresses it returned; they are numbered from one without gaps, within its bound;
    a number is of one ingress, and a native fact identity is of one fact. *)
Theorem issuance_is_exact os st tr : paper_reachable (os, st, tr) ->
  (forall k ingress_bytes fact_bytes, has_issued_ingress st k ingress_bytes fact_bytes = true <->
     exists i, i ∈ tr /\ ingress_identity_of i = k /\ canonical_execution_fact_ingress_bytes i = ingress_bytes /\
               canonical_execution_fact_bytes (ingress_fact i) = fact_bytes) /\
  (forall n, 1 <= n < pb_ingress_next st <-> exists i, i ∈ tr /\ ingress_identity_of i = mkIngressIdentity (pb_source b) n) /\
  pb_ingress_next st <= pb_max_ingresses b + 1 /\
  (forall i j, i ∈ tr -> j ∈ tr -> ingress_identity_of i = ingress_identity_of j -> i = j) /\
  (forall i j, i ∈ tr -> j ∈ tr -> fact_dedup_key (ingress_fact i) = fact_dedup_key (ingress_fact j) -> ingress_fact i = ingress_fact j).
Proof.
  intros V%paper_reachable_ok. cbn [fst snd] in V. pose proof (vo_evidence _ _ V) as E. split_and!.
  - intros k ib fb. unfold has_issued_ingress. rewrite bool_decide_eq_true, (ev_issued _ _ _ E). unfold _materialize_ingress. split.
    + intros (i & H1 & H2 & [= <- <-]). eauto.
    + intros (i & H1 & H2 & <- & <-). eauto.
  - intros n. split.
    + intros (i & Hi & <-)%(ev_numbered _ _ _ E). exists i. split; [done|]. unfold ingress_identity_of.
      by destruct (ev_source _ _ _ E i Hi) as [-> _].
    + intros (i & Hi & H). unfold ingress_identity_of in H. injection H as _ <-. by apply (ev_source _ _ _ E).
  - rewrite (ev_size _ _ _ E). pose proof (ev_bound _ _ _ E). lia.
  - intros i j Hi Hj H. unfold ingress_identity_of in H. injection H as _ H. by apply (ev_unique _ _ _ E).
  - intros i j Hi Hj H. unfold fact_dedup_key in H. injection H as _ H. by apply (vo_unique _ _ V).
Qed.

Definition known_code (s : _PaperOrderState) : OutcomeCode :=
  match s with
  | PAPER_OPEN => RECONCILIATION_SUBMISSION_CONFIRMED_SUBMITTED
  | PAPER_FILLED => RECONCILIATION_SUBMISSION_CONFIRMED_FILLED
  | PAPER_CANCELLED => ORDER_CANCELLED
  end.

(** C31: a query tells what happened. An unknown client key stays unknown; for a held Order,
    observed no earlier than what is reported, and with room to retain the answer, it is
    answered with the code of its state and the fact it was already shown by, in a fresh
    ingress, and no record changes. *)
Theorem queries_report_what_happened os st tr k at_ : paper_reachable (os, st, tr) ->
  (find_record k (pb_records st) = None ->
     query b st k (at_utc at_) = Ok (mkPaperQuery RECONCILIATION_SUBMISSION_STILL_UNKNOWN None, st)) /\
  (forall r, find_record k (pb_records st) = Some r -> microseconds (po_submitted_at r) <= microseconds at_ ->
     (forall f, po_terminal_fact r = Some f -> microseconds (fact_occurred_at f) <= microseconds at_) ->
     pb_ingress_next st <= pb_max_ingresses b ->
     exists i j st', query b st k (at_utc at_) = Ok (mkPaperQuery (known_code (po_state r)) (Some i), st') /\
       ingress_available_at i = at_ /\ ingress_sequence_ i = pb_ingress_next st /\ j ∈ tr /\ ingress_fact i = ingress_fact j /\
       fact_client_submission_key (ingress_fact i) = Some k /\
       fact_kind (ingress_fact i) = match po_state r with PAPER_OPEN => ACKNOWLEDGEMENT | PAPER_FILLED => TRADE | PAPER_CANCELLED => CANCELLATION end /\
       pb_records st' = pb_records st).
Proof.
  intros V%paper_reachable_ok. cbn [fst snd] in V. pose proof (vo_evidence _ _ V) as E. split.
  - intros Hk. unfold query, at_utc, require_utc. cbn [fst snd]. rewrite bool_decide_true by done. cbn [negb rbind]. by rewrite Hk.
  - intros r Hf Hsub Hterm Hroom. pose proof (vo_records _ _ V _ _ Hf) as [R1 (ack & R2 & R3 & R3' & R3'' & R4) R5 _].
    destruct (vo_next _ _ V) as [N1 N2].
    unfold query, at_utc, require_utc. cbn [fst snd]. rewrite bool_decide_true by done. cbn [negb rbind]. rewrite Hf, (proj2 (Z.ltb_ge _ _)) by lia.
    assert (exists j, j ∈ tr /\ shows r (ingress_fact j) /\ microseconds (fact_occurred_at (ingress_fact j)) <= microseconds at_ /\
      fact_kind (ingress_fact j) = match po_state r with PAPER_OPEN => ACKNOWLEDGEMENT | PAPER_FILLED => TRADE | PAPER_CANCELLED => CANCELLATION end /\
      match po_state r with
        | PAPER_CANCELLED => Ok (ORDER_CANCELLED, po_terminal_fact r)
        | PAPER_FILLED => Ok (RECONCILIATION_SUBMISSION_CONFIRMED_FILLED, po_terminal_fact r)
        | PAPER_OPEN =>
            match sr_ingresses (po_submit_result r) with
            | i :: _ => Ok (RECONCILIATION_SUBMISSION_CONFIRMED_SUBMITTED, Some (ingress_fact i))
            | [] => Raise IndexError
            end
        end = Ok (known_code (po_state r), Some (ingress_fact j))) as (j & Hj & Hs & Ht & Hkind & ->).
    { destruct (po_state r) eqn:Hst.
      - exists ack. rewrite R2. split_and!; try done. rewrite R3''. lia.
      - destruct R5 as (j & Hj & Hf2 & He & Hs). exists j. rewrite Hf2. split_and!; try done; [by apply Hterm|].
        destruct Hs as [_ Hs], He as [He|He]; rewrite He in Hs; [done|by destruct Hs; congruence].
      - destruct R5 as (j & Hj & Hf2 & He & Hs). exists j. rewrite Hf2. split_and!; try done; [by apply Hterm|].
        destruct Hs as [_ Hs], He as [He|He]; rewrite He in Hs; [by destruct Hs; congruence|done]. }
    cbn [rbind snd fst]. destruct (vo_facts _ _ V j Hj) as (n & [Hsrc _] & _). rewrite ingress_made by (done || lia). cbn [rbind].
    set (i := mkExecutionFactIngress _ _ _ _). assert (is_ok (_retain b st [i]) = true) as Hret.
    { eapply retain_room; [exact E|by apply emit_one|]. pose proof (ev_size _ _ _ E). cbn [length]. lia. }
    destruct (_retain b st [i]) as [issued|]; [|done]. cbn [rbind]. do 3 eexists. split; [done|]. cbn [ingress_fact ingress_available_at ingress_sequence_ i].
    destruct Hs as [[Hn _] _]. rewrite Hn. split_and!; try done. by rewrite <-R1.
Qed.

(** A trade that can be made under one number can be made under any. *)
Lemma trade_any e r n : 0 <= n -> is_ok (trade_fact b e r 1) = true -> is_ok (trade_fact b e r n) = true.
Proof.
  intros Hn. unfold trade_fact. cbv zeta. destruct (require_spec _ _) as [spec|]; [|done]. cbn [rbind].
  destruct (slippage_bps_from_identity _ _) as [slip|]; [|done]. cbn [rbind].
  destruct (_quantized_historical_close _ _ _ _) as [price|]; [|done]. cbn [rbind].
  destruct (commission_bps_from_identity _ _) as [bps|]; [|done]. cbn [rbind].
  unfold SourceNativeSequence_init, _require_non_negative_integer. rewrite (proj2 (Z.ltb_ge n 0)) by lia.
  change (1 <? 0) with false. cbn [rbind]. unfold create_trade_execution_fact.
  destruct (_require_fact_common _ _ _ _ _) as [t|]; [|done]. cbn [rbind]. by destruct (_phase1_trade_payload _ _ _ _ _ _).
Qed.
Definition priceable (e : MarketDataEnvelope) (r : _PaperOrder) : bool :=
  is_ok (matches e r) && implb (is_due e r) (is_ok (trade_fact b e r 1)).
Lemma stage_total e l n m : 0 <= n -> 0 <= m -> microseconds (event_time e) <= microseconds (available_at e) ->
  Forall (fun x => priceable e x.2 = true) l -> is_ok (stage_fills b e l n m) = true.
Proof.
  intros Hn Hm Ht Hl. revert n m Hn Hm. induction Hl as [|[k r] l Hx _ IH]; intros n m Hn Hm; cbn [stage_fills]; [done|].
  cbn [snd] in Hx. unfold priceable in Hx. apply andb_true_iff in Hx as [H1 H2].
  destruct (matches e r) as [hit|] eqn:Eh; [|done]. apply matches_is_due in Eh as Ed. rewrite Ed in H2. destruct hit; cbn [rbind implb] in *; [|by apply IH].
  pose proof (trade_any _ _ n Hn H2) as Hok. destruct (trade_fact b e r n) as [f|] eqn:Ef; [|done]. cbn [rbind].
  apply trade_fields in Ef as (_ & F2 & _ & _ & _ & F6 & _). rewrite ingress_made by (done || (rewrite F6; lia) || lia). cbn [rbind].
  specialize (IH (n + 1) (m + 1) ltac:(lia) ltac:(lia)). by destruct (stage_fills b e l (n + 1) (m + 1)).
Qed.
Lemma consecutive_lookup n out j i : consecutive n out -> out !! j = Some i -> ingress_sequence_ i = n + Z.of_nat j.
Proof.
  revert n j. induction out as [|x out IH]; intros n [|j]; cbn [consecutive lookup list_lookup]; [done|done| |].
  - intros (_ & H & _) [= <-]. lia.
  - intros (_ & _ & H) Hj. rewrite (IH (n + 1) j H Hj). lia.
Qed.

Definition venue_before st (e : MarketDataEnvelope) : Prop :=
  forall k, pb_last_market_key st = Some k -> py_le (market_key e) k = false.
Definition due_records st (e : MarketDataEnvelope) : list (Sha256Digest * _PaperOrder) :=
  filter (fun x => is_due e x.2 = true) (pb_records st).

(** C14: a new market event fills what is due. The first revision of a bar, after every event
    the venue took, fills exactly the open Orders of its instrument whose latency has
    passed, in the order of their submission and with the next numbers, at the price of the
    bar, whenever they can be priced and their answers retained; nothing else changes. The
    same event again fills nothing, and an earlier one is refused. *)
Theorem market_events_fill_what_is_due os st tr e : paper_reachable (os, st, tr) ->
  revision e = 0 -> venue_before st e -> microseconds (event_time e) <= microseconds (available_at e) ->
  Forall (fun x => priceable e x.2 = true) (pb_records st) ->
  pb_ingress_next st + Z.of_nat (length (due_records st e)) <= pb_max_ingresses b + 1 ->
  exists out st', on_market b st e = Ok (out, st') /\
  Forall2 (fun x i => is_fill e x.2 (ingress_fact i) /\ ingress_available_at i = available_at e) (due_records st e) out /\
  (forall j i, out !! j = Some i -> ingress_sequence_ i = pb_ingress_next st + Z.of_nat j) /\
  map fst (pb_records st') = map fst (pb_records st) /\
  (forall k r, find_record k (pb_records st) = Some r ->
     if is_due e r
     then exists i r', i ∈ out /\ is_fill e r (ingress_fact i) /\ find_record k (pb_records st') = Some r' /\
       po_command r' = po_command r /\ po_state r' = PAPER_FILLED /\ po_terminal_fact r' = Some (ingress_fact i)
     else find_record k (pb_records st') = Some r) /\
  on_market b st' e = Ok ([], st') /\
  (forall e', e' <> e -> py_le (market_key e') (market_key e) = true -> on_market b st' e' = Raise (PaperBrokerError CONFLICTING_ID)).
Proof.
  intros V%paper_reachable_ok Hrev Hlast Ht Hp Hroom. cbn [fst snd] in V. destruct (vo_market _ _ V) as [o Ho].
  destruct (vo_next _ _ V) as [N1 N2]. pose proof (vo_evidence _ _ V) as E. pose proof (ev_size _ _ _ E) as Hsize.
  pose proof (stage_total e _ (pb_fact_next st) (pb_ingress_next st) ltac:(lia) ltac:(lia) Ht Hp) as Hok.
  destruct (stage_fills b e (pb_records st) (pb_fact_next st) (pb_ingress_next st)) as [fs|] eqn:Ef; [|done].
  pose proof (stage_matched _ _ _ _ _ (vo_keys _ _ V) Ef) as M. pose proof (matched_numbers _ _ _ _ _ _ M) as [M1 _].
  pose proof (matched_fills _ _ _ _ _ _ M) as M2. pose proof (Forall2_length _ _ _ M2) as Hlen. fold (due_records st e) in M2, Hlen.
  assert (is_ok (_retain b st (map sf_ingress fs)) = true) as Hret by (eapply retain_room; [exact E|done|rewrite <-Hlen; lia]).
  destruct (_retain b st (map sf_ingress fs)) as [issued|] eqn:Er; [|done].
  assert (on_market b st e = Ok (map sf_ingress fs, mkPaperState (fold_left apply_fill fs (pb_records st)) (pb_unknown_cancels st) issued
    (pb_fact_next st + Z.of_nat (length fs)) (pb_ingress_next st + Z.of_nat (length fs)) (Some (market_key e))
    (Some (canonical_market_data_record_bytes e)))) as Hm.
  { rewrite (market_cases _ _ _ Ho). destruct Ho as [Hk _]. rewrite bool_decide_false.
    2:{ intros ->. specialize (Hlast _ Hk). by rewrite py_le_refl in Hlast. }
    destruct o as [e0|]; cbn [option_map] in Hk; [rewrite (Hlast _ Hk)|]; rewrite Hrev, bool_decide_true by (by destruct (adjustment _));
      cbn [Z.eqb andb rbind]; rewrite Ef; cbn [rbind]; rewrite Er; done. }
  do 2 eexists. split; [exact Hm|]. set (st' := mkPaperState _ _ _ _ _ _ _).
  assert (last_event st' (Some e)) as Hl by done.
  split; [done|]. split; [intros j i; by apply consecutive_lookup|]. split; [by apply (matched_keys _ _ _ _ _ _ M)|].
  split.
  { intros k r Hr. pose proof (matched_find _ _ _ _ _ _ _ _ M Hr) as Hm'. destruct (is_due e r); [|done].
    destruct Hm' as (i & Hi & Hfill & Hm'). by exists i, (fill_record r (ingress_fact i)). }
  split.
  - rewrite (market_cases _ _ _ Hl). by rewrite bool_decide_true.
  - intros e' Hne Hle. rewrite (market_cases _ _ _ Hl). rewrite bool_decide_false by (intros [= ->]; done). by rewrite Hle.
Qed.
End Venue.

(** ** Witnesses: the first Order of the pipeline is submitted to a venue for sixteen Orders,
    and a bar two minutes later fills it. *)

Definition paper_source : SourceNamespace := mkPatternStr (r := _TOKEN_PATTERN) "paper.local" eq_refl.
Definition the_venue : PaperBroker := mkPaperBroker (oa_run_id the_order_context) (oa_spec_set the_order_context) paper_source 16.
Definition venue_start : paper_state := mkPaperState [] ∅ ∅ 1 1 None None.
Lemma venue_created : PaperBroker_init the_order_context paper_source 16 = Ok (the_venue, venue_start).
Proof. reflexivity. Qed.

Definition venue_order : Order := hd the_order (oa_orders the_orders).
Lemma submit_accepted : is_ok (PaperBroker.submit the_venue the_orders venue_start (submit_of venue_order) (at_utc later)) = true.
Proof. vm_compute. reflexivity. Qed.
Definition submitted_venue : paper_state := (unwrap _ submit_accepted).2.
Definition submit_answer : PaperSubmitResult := (unwrap _ submit_accepted).1.

Definition quarter_past : datetime := mkDatetime 2024 1 2 14 32 0 0 eq_refl.
Definition fill_bar : MarketDataEnvelope :=
  mkEnvelope (mkBar the_instrument later quarter_past RAW float_1 float_2 float_1 float_2 float_zero) feed quarter_past 1 0.
Lemma bar_priced : forallb (fun x => priceable the_venue fill_bar x.2) (pb_records submitted_venue) = true.
Proof. vm_compute. reflexivity. Qed.
Lemma bar_due : length (due_records submitted_venue fill_bar) = 1%nat.
Proof. vm_compute. reflexivity. Qed.
Lemma bar_fills : is_ok (on_market the_venue submitted_venue fill_bar) = true.
Proof. vm_compute. reflexivity. Qed.
Definition filled_venue : paper_state := (unwrap _ bar_fills).2.
Definition filled_out : list ExecutionFactIngress := (unwrap _ bar_fills).1.
Lemma trade_out : map (fun i => fact_kind (ingress_fact i)) filled_out = [TRADE].
Proof. vm_compute. reflexivity. Qed.
Lemma ack_out : map (fun i => fact_kind (ingress_fact i)) (sr_ingresses submit_answer) = [ACKNOWLEDGEMENT].
Proof. vm_compute. reflexivity. Qed.
Lemma no_event_yet : pb_last_market_key submitted_venue = None.
Proof. vm_compute. reflexivity. Qed.
Lemma next_ingress : pb_ingress_next submitted_venue = 2.
Proof. vm_compute. reflexivity. Qed.
Lemma nothing_known : find_record the_digest (pb_records submitted_venue) = None.
Proof. vm_compute. reflexivity. Qed.
Lemma submit_answered : PaperBroker.submit the_venue the_orders venue_start (submit_of venue_order) (at_utc later) = Ok (submit_answer, submitted_venue).
Proof. rewrite (unwrap_ok _ submit_accepted). unfold submit_answer, submitted_venue. by destruct (unwrap _ submit_accepted). Qed.
Lemma bar_answered : on_market the_venue submitted_venue fill_bar = Ok (filled_out, filled_venue).
Proof. rewrite (unwrap_ok _ bar_fills). unfold filled_out, filled_venue. by destruct (unwrap _ bar_fills). Qed.
#[local] Opaque the_orders submitted_venue submit_answer filled_venue filled_out.

Lemma orders_step `{hash : Sha256} b oc os st tr ss : rtc (paper_step b oc) (os, st, tr) (submit_all oc os ss, st, tr).
Proof.
  unfold submit_all. revert os. induction ss as [|s ss IH]; intros os; [apply rtc_refl|].
  eapply rtc_l; [apply (paper_order b oc os st tr s)|]. apply IH.
Qed.
Lemma submitted_venue_reachable : paper_reachable the_venue the_order_context (the_orders, submitted_venue, sr_ingresses submit_answer).
Proof.
  exists paper_source, 16, venue_start. split; [exact venue_created|]. destruct the_orders_reachable as (ss & Hss).
  eapply rtc_r; [|exact (paper_submit the_venue the_order_context _ _ [] _ _ _ _ submit_answered)].
  rewrite Hss. apply orders_step.
Qed.
Lemma filled_venue_reachable : paper_reachable the_venue the_order_context (the_orders, filled_venue, sr_ingresses submit_answer ++ filled_out).
Proof.
  destruct submitted_venue_reachable as (source & mx & st0 & H1 & H2). exists source, mx, st0. split; [exact H1|].
  eapply rtc_r; [exact H2|]. exact (paper_market the_venue the_order_context _ _ _ _ _ _ bar_answered).
Qed.

Lemma orders_end_once_witness : exists i, i ∈ sr_ingresses submit_answer ++ filled_out /\ fact_kind (ingress_fact i) = TRADE /\
  exists order, issued_to the_orders order /\ fact_order_id (ingress_fact i) = Some (od_order_id order).
Proof.
  pose proof trade_out as Ht. destruct filled_out as [|i l] eqn:E; [discriminate Ht|]. rewrite <-E. exists i.
  assert (i ∈ sr_ingresses submit_answer ++ filled_out) as Hi by (apply elem_of_app; right; rewrite E; left).
  cbn [map] in Ht. assert (fact_kind (ingress_fact i) = TRADE) as Hk by (by injection Ht).
  split; [exact Hi|]. split; [exact Hk|].
  destruct (orders_end_once the_venue the_order_context _ _ _ filled_venue_reachable) as [_ H].
  destruct (H i Hi) as (order & ack & H1 & _ & _ & _ & _ & H2). rewrite Hk in H2. exists order. split; [exact H1|exact (proj1 H2)].
Defined.

Lemma issuance_is_exact_witness : exists i, i ∈ sr_ingresses submit_answer /\
  ingress_identity_of i = mkIngressIdentity paper_source 1.
Proof.
  destruct (issuance_is_exact the_venue the_order_context _ _ _ submitted_venue_reachable) as (_ & H & _).
  specialize (H 1). rewrite next_ingress in H. apply H. split; [apply Z.le_refl|reflexivity].
Defined.

Lemma market_events_fill_what_is_due_witness : exists out st', on_market the_venue submitted_venue fill_bar = Ok (out, st') /\ length out = 1%nat.
Proof.
  destruct (market_events_fill_what_is_due the_venue the_order_context _ _ _ fill_bar submitted_venue_reachable) as (out & st' & H1 & H2 & _).
  - reflexivity.
  - intros k Hk. rewrite no_event_yet in Hk. discriminate Hk.
  - vm_compute. discriminate.
  - apply Forall_forall. intros x Hx.
    exact (proj1 (forallb_forall _ _) bar_priced x (proj1 (list_elem_of_In _ _) Hx)).
  - rewrite next_ingress, bar_due. vm_compute. discriminate.
  - exists out, st'. split; [exact H1|]. rewrite <-(Forall2_length _ _ _ H2). exact bar_due.
Defined.

Lemma queries_report_what_happened_witness :
  query the_venue submitted_venue the_digest (at_utc later) = Ok (mkPaperQuery RECONCILIATION_SUBMISSION_STILL_UNKNOWN None, submitted_venue).
Proof.
  exact (proj1 (queries_report_what_happened the_venue the_order_context _ _ _ the_digest later submitted_venue_reachable) nothing_known).
Defined.

Definition two_bps : CanonicalDecimal := mkDecimal "2" 2 0 eq_refl.
Lemma fills_at_the_nearest_tick_witness : exists p q t, is_ratio (float_value float_2) p q /\
  nearest ((p * 10 ^ 22 + Z.abs p * units two_bps) * 10 ^ 18) (q * 10 ^ 22 * units (price_quantum the_spec)) BUY t.
Proof.
  destruct (fills_at_the_nearest_tick float_2 BUY the_spec (Some two_bps)) as (p & q & t & H1 & H2 & _).
  - reflexivity.
  - vm_compute. reflexivity.
  - intros b [= <-]. vm_compute. reflexivity.
  - exists p, q, t. split; [exact H1|exact H2].
Defined.
