(* ===== verification/FactTheorems.v ===== *)
(** The claims about the execution fact authority, with a concrete run. *)

From S2P Require Import Prelude PyRegex PyText Outcomes Json Identity Checksum Economics Commission Execution.
From S2P Require Import Messages Orders Wire Decoders ExecutionState FactAuthority FactInvariant LedgerExample.
From S2P Require Import OrderExample Canonical FactProjection FactTracking.

Open Scope Z_scope.

(** *** A concrete run of the fact authority on the Order of [OrderExample]: the broker
    acknowledges it under a venue identity, fills four and then six, reports the first fill again, and
    cancels what is filled. *)

Definition the_fact_context : FactAuthorityContext := mkFactAuthorityContext the_run the_spec_set.

(** The port knows the one Order; every ingress is the active dispatch. *)
Definition the_orders : OrderResolutionVerifier := {|
  resolve_issued_order_by_id i := if bool_decide (i = od_order_id the_order) then Some the_order else None;
  resolve_issued_order_by_client_submission_key k :=
    if bool_decide (k = order_client_submission_key the_order) then Some the_order else None
|}.
Definition the_dispatch : RuntimeFactDispatchVerifier := {|
  resolve_active_issued_fact_dispatch i _ _ := Some (ingress_sequence i + 1)
|}.
Lemma the_orders_lawful : lawful the_fact_context the_orders.
Proof.
  assert (issued_order the_fact_context the_order) as Hi by (do 3 eexists; exact the_order_ok).
  split; intros k o; cbn; case_bool_decide; intros [= <-]; done.
Qed.

(** The [n]-th ingress carries the fact. *)
Definition ingress (n : Z) (f : ExecutionFact) : ExecutionFactIngress :=
  mkExecutionFactIngress later the_source n f.
Definition the_delivery (n : Z) (f : ExecutionFact) : delivery := mkDelivery the_orders the_dispatch (ingress n f).

Definition the_venue_id : VenueOrderId := mkPatternStr (r := VISIBLE_128) "v-1" eq_refl.
Lemma listed_created : is_ok (create_lifecycle_execution_fact ACKNOWLEDGEMENT the_source (DedupSequence 3)
  (the_time, Some 0) the_provenance (Some the_instrument) (Some (order_client_submission_key the_order))
  (Some the_venue_id) (Some (od_order_id the_order)) (Some (od_correlation_id the_order))
  (Some (od_order_id the_order)) None) = true.
Proof. vm_compute. reflexivity. Qed.
Definition listed : ExecutionFact := unwrap _ listed_created.
Lemma cancelled_created : is_ok (order_event 5 CANCELLATION) = true.
Proof. vm_compute. reflexivity. Qed.
Definition cancelled : ExecutionFact := unwrap _ cancelled_created.

Definition the_deliveries : list delivery :=
  [the_delivery 1 listed; the_delivery 2 trade_four; the_delivery 3 trade_six; the_delivery 4 trade_four;
   the_delivery 5 cancelled].
Definition the_fact_state : _FactAuthorityState := run the_fact_context the_deliveries.
Lemma the_fact_state_reachable : reachable the_fact_context the_fact_state.
Proof.
  exists the_deliveries. split; [|done].
  repeat (apply Forall_cons; split; [exact the_orders_lawful|]). by apply Forall_nil.
Qed.

(** What the run published, read off as plain data. *)
Definition isSome {A} (o : option A) : bool := match o with Some _ => true | None => false end.
Lemma isSome_true {A} (o : option A) : isSome o = true -> is_Some o.
Proof. destruct o; [by eexists|done]. Qed.
Definition fact_summary (st : _FactAuthorityState) :=
  (map po_action (fa_outcomes st), map (fun f => units (fill_quantity f)) (fa_fills st),
   map projection_state (fa_projections st),
   (length (fa_ingresses st), isSome (order_index st !! od_order_id the_order),
    isSome (projection_index st !! od_order_id the_order), isSome (venue_index st !! (the_source, the_venue_id)),
    halt_requested st)).
Lemma the_fact_summary : fact_summary the_fact_state =
  ([ACCEPTED; ACCEPTED; ACCEPTED; DUPLICATE; UNRESOLVED], [4 * 10 ^ 18; 6 * 10 ^ 18],
   [ACKNOWLEDGED; PARTIALLY_FILLED; FILLED], (5%nat, true, true, true, true)).
Proof. vm_compute. reflexivity. Qed.
#[global] Opaque the_fact_state.

(** *** What the fact authority promises in every state it can reach: outcomes are settled,
    a fact is processed once, fills are numbered, and the Orders it tracks follow the
    abstract lifecycle and show what was executed. *)

Section Log.
Context `{hash : Sha256} (context : FactAuthorityContext).

(** The log of a state: its ingresses with their outcomes. *)
Definition log_of (st : _FactAuthorityState) : list (ExecutionFactIngress * ExecutionFactProcessingOutcome) :=
  zip (fa_ingresses st) (fa_outcomes st).
Lemma log_ok_of st l : log_ok st l -> log_of st = l.
Proof.
  intros L. unfold log_of. rewrite (lg_ingresses _ _ L), (lg_outcomes _ _ L).
  apply (zip_fst_snd l).
Qed.

Lemma reachable_log_of st : spec_set_ok (fa_spec_set context) -> reachable context st ->
  log_ok st (log_of st) /\ fills_ok context st (log_of st) /\ tracked context st (log_of st).
Proof. intros Hss (l & L & F & T)%reachable_authority; [|done]. by rewrite (log_ok_of _ _ L). Qed.

(** An entry of the log, by its place in the two lists of the state. *)
Lemma log_entry st k i o : fa_ingresses st !! k = Some i -> fa_outcomes st !! k = Some o -> (i, o) ∈ log_of st.
Proof. intros Hi Ho. apply list_elem_of_lookup. exists k. apply lookup_zip_with_Some. by exists i, o. Qed.

(** Deliveries only extend the log. *)
Lemma deliver_extends st ds : exists ins outs,
  fa_ingresses (fold_left (deliver context) ds st) = fa_ingresses st ++ ins /\
  fa_outcomes (fold_left (deliver context) ds st) = fa_outcomes st ++ outs.
Proof.
  induction ds as [|d ds IH] using rev_ind; [exists [], []; by rewrite !app_nil_r|].
  rewrite fold_left_app. cbn. destruct IH as (ins & outs & Hi & Ho). unfold deliver at 1 3.
  destruct (attempt context _ d) as [[st' o]|e] eqn:Hp; [|by exists ins, outs].
  apply (@process_ingress_Ok hash context (dl_orders d) (dl_dispatch d)) in Hp.
  destruct (processed_log_step _ _ _ _ _ _ _ Hp) as [[-> _]|Hs]; [by exists ins, outs|].
  exists (ins ++ [dl_ingress d]), (outs ++ [o]).
  by rewrite (ls_ingresses _ _ _ _ Hs), (ls_outcomes _ _ _ _ Hs), Hi, Ho, !app_assoc.
Qed.
Lemma reachable_extends st ds : reachable context st -> Forall (fun d => lawful context (dl_orders d)) ds ->
  reachable context (fold_left (deliver context) ds st).
Proof. intros (ds0 & H0 & ->) Hds. exists (ds0 ++ ds). split; [by apply Forall_app|]. unfold run. by rewrite fold_left_app. Qed.

(** The facts that were filled are among the first facts. *)
Lemma filled_first (l : list (ExecutionFactIngress * ExecutionFactProcessingOutcome)) :
  sublist (map fact_dedup_key (omap filled_fact l)) (map fact_dedup_key (omap first_of l)).
Proof.
  assert (forall e f, filled_fact e = Some f -> first_of e = Some f) as Hff.
  { intros [i o] f. unfold filled_fact, first_of, requires_fill, repeats. cbn [fst snd].
    destruct (fact_kind (ingress_fact i)), (fact_payload (ingress_fact i)); try done. by destruct (po_action o). }
  induction l as [|e l IH]; cbn; [constructor|]. destruct (filled_fact e) as [f|] eqn:Hf.
  - rewrite (Hff _ _ Hf). cbn. by apply sublist_skip.
  - destruct (first_of e); cbn; [by apply sublist_cons|done].
Qed.
Lemma filled_keys fills facts : Forall2 (fun fill fact =>
    create_fill (fill_id fill) fact (fa_spec_set context) = Ok fill) fills facts ->
  map fill_fact_key fills = map fact_dedup_key facts.
Proof. induction 1 as [|fl f fills facts Hc Hf IH]; cbn; [done|]. rewrite IH. f_equal. by eapply created_fill_key. Qed.

(** The fills are of the authority's run, and of distinct identities and facts. *)
Lemma issued_fills_distinct st : spec_set_ok (fa_spec_set context) -> reachable context st ->
  NoDup (map fill_id (fa_fills st)) /\ NoDup (map fill_fact_key (fa_fills st)).
Proof.
  intros Hss Hr. destruct (reachable_log_of st Hss Hr) as (L & F & _). split.
  - rewrite (fl_ids _ _ _ F). apply (NoDup_fmap_2_strong (fill_id_at context)); [|apply NoDup_seq].
    intros a b _ _. unfold fill_id_at. intros [= He]. lia.
  - rewrite (filled_keys _ _ (fl_issued _ _ _ F)). eapply sublist_NoDup; [|apply filled_first].
    rewrite <-(lg_first _ _ L). apply L.
Qed.
Lemma fill_in_run st f : spec_set_ok (fa_spec_set context) -> reachable context st -> f ∈ fa_fills st ->
  fill_run_id f = fa_run_id context.
Proof.
  intros Hss Hr Hin. destruct (reachable_log_of st Hss Hr) as (_ & F & _).
  apply list_elem_of_lookup in Hin as [k Hk]. destruct (Forall2_lookup_l _ _ _ _ _ (fl_issued _ _ _ F) Hk) as (fact & _ & Hc).
  assert (fill_id f ∈ map fill_id (fa_fills st)) as Hi.
  { apply list_elem_of_In, in_map. apply list_elem_of_In, list_elem_of_lookup. by exists k. }
  rewrite (fl_ids _ _ _ F) in Hi. apply list_elem_of_In, in_map_iff in Hi as (j & Hj & _).
  rewrite (created_fill_run _ _ _ _ Hc), <-Hj. done.
Qed.
End Log.

(** ** Properties *)

(** C30: a processed ingress is settled: however many deliveries came since, the same ingress
    is answered with its first outcome and changes nothing, whatever the ports answer,
    and another ingress under its identity is refused. *)
Theorem fact_outcomes_are_settled `{Sha256} context st ds k i o :
  spec_set_ok (fa_spec_set context) -> reachable context st ->
  Forall (fun d => lawful context (dl_orders d)) ds ->
  fa_ingresses st !! k = Some i -> fa_outcomes st !! k = Some o ->
  let st' := fold_left (deliver context) ds st in
  forall orders dispatch, @process_ingress _ orders dispatch context st' i = Ok (st', o) /\
    forall j, ingress_identity_of j = ingress_identity_of i -> j <> i ->
      @process_ingress _ orders dispatch context st' j = Raise (ExecutionFactAuthorityError CONFLICTING_ID).
Proof.
  intros Hss Hr Hds Hi Ho st' orders dispatch. destruct (deliver_extends context st ds) as (ins & outs & Ei & Eo).
  destruct (reachable_log_of context st' Hss (reachable_extends _ _ _ Hr Hds)) as (L & _ & _).
  assert (ingress_index st' !! ingress_identity_of i = Some (record_of i o)) as Hrec.
  { apply (lg_index _ _ L). exists i, o. split; [|done]. apply (log_entry _ k).
    - unfold st'. rewrite Ei. by apply lookup_app_l_Some.
    - unfold st'. rewrite Eo. by apply lookup_app_l_Some. }
  split; [by apply process_ingress_Ok, (processed_replay _ _ _ (record_of i o))|].
  intros j Hid Hne. unfold process_ingress, _materialize_ingress, _classify_ingress_replay. rewrite Hid, Hrec.
  cbn [record_of ir_ingress_bytes]. rewrite bool_decide_eq_false_2; [done|].
  intros He. apply Hne. symmetry. by apply (canonical_bytes_inj _ingress_document).
Qed.

(** A fact is processed once: the facts taken first have distinct keys, and every
    other ingress of such a key is a duplicate of that fact or conflicts with it; the
    authority asks to halt exactly when some outcome requires reconciliation. *)
Theorem facts_are_processed_once `{Sha256} context st :
  spec_set_ok (fa_spec_set context) -> reachable context st ->
  NoDup (map fact_dedup_key (first_facts st)) /\
  halt_requested st = existsb po_requires_reconciliation (fa_outcomes st) /\
  forall k i o, fa_ingresses st !! k = Some i -> fa_outcomes st !! k = Some o ->
    po_requires_reconciliation o = halting (po_action o) /\
    if repeats o
    then exists f, f ∈ first_facts st /\ fact_dedup_key f = fact_dedup_key (ingress_fact i) /\
           (po_action o = DUPLICATE <-> f = ingress_fact i)
    else ingress_fact i ∈ first_facts st.
Proof.
  intros Hss Hr. destruct (reachable_log_of context st Hss Hr) as (L & _ & _).
  split; [apply L|]. split.
  { rewrite (lg_halt _ _ L), (lg_outcomes _ _ L). clear. induction (log_of st) as [|e l IH]; cbn; [done|]. by rewrite IH. }
  intros k i o Hi Ho. pose proof (log_entry _ _ _ _ Hi Ho) as Hin. split; [by apply (lg_outcome _ _ L) in Hin as (_ & _ & _ & _ & _ & ?)|].
  destruct (repeats o) eqn:Hrep.
  - destruct (lg_repeat _ _ L _ _ Hin Hrep) as (f & Hf & Hk & Ha). exists f. split_and!; [done|done|]. rewrite Ha.
    case_bool_decide as Hb; [apply (canonical_bytes_inj _fact_document) in Hb; done|].
    split; [done|]. intros ->. done.
  - rewrite (lg_first _ _ L). apply list_elem_of_omap. exists (i, o). split; [done|]. unfold first_of. cbn. by rewrite Hrep.
Qed.

(** Fills are numbered from one without gaps, one for each trade processed first in a
    valid context, in order, and made of that trade; the next number is free. *)
Theorem fills_are_numbered `{Sha256} context st : spec_set_ok (fa_spec_set context) -> reachable context st ->
  map fill_id (fa_fills st) = map (fill_id_at context) (seq 0 (length (fa_fills st))) /\
  Forall2 (fun fill fact => create_fill (fill_id fill) fact (fa_spec_set context) = Ok fill)
    (fa_fills st) (omap filled_fact (log_of st)) /\
  omap po_fill_id (fa_outcomes st) = map fill_id (fa_fills st) /\
  NoDup (map fill_fact_key (fa_fills st)) /\
  fill_next st = (if Z.of_nat (length (fa_fills st)) =? MAX_UINT64 then None
                  else Some (Z.of_nat (length (fa_fills st)) + 1)).
Proof.
  intros Hss Hr. destruct (reachable_log_of context st Hss Hr) as (L & F & _). split_and!; try apply F.
  - rewrite <-(fl_outcomes _ _ _ F), (lg_outcomes _ _ L). clear.
    induction (log_of st) as [|e l IH]; cbn; [done|]. destruct (po_fill_id e.2); by rewrite IH.
  - by apply (issued_fills_distinct context).
Qed.

(** C33: a projection shows its Order: the Order is one the port issued for this run and
    specification set, the quantity shown lies on its grid and fits the state, and while
    the Order is active it is exactly what was observed, short of the whole. *)
Theorem projections_show_orders `{Sha256} context st i p : spec_set_ok (fa_spec_set context) ->
  reachable context st -> projection_index st !! i = Some p ->
  exists o, order_index st !! i = Some o /\ order_in context o /\ od_order_id o = i /\
    pj_order_id p = i /\ pj_order_sha256 p = order_digest o /\
    pj_client_submission_key p = order_client_submission_key o /\
    quantity_fits (projection_state p) (units (projected_executed_quantity p)) (units (od_quantity o)) /\
    gridded context (od_instrument o) (projected_executed_quantity p) /\
    (active (projection_state p) ->
       units (projected_executed_quantity p) = units (observed_of st i) /\
       units (observed_of st i) < units (od_quantity o)).
Proof.
  intros Hss Hr Hp. destruct (reachable_log_of context st Hss Hr) as (_ & _ & T).
  destruct (order_index st !! i) as [o|] eqn:Ho; [|by destruct (tr_unknown _ _ _ T _ Ho) as [E _]; rewrite Hp in E].
  destruct (tr_orders _ _ _ T _ _ Ho) as [Hin Ht]. pose proof (tr_indexed _ _ _ T _ _ Ho) as <-.
  pose proof (ot_kept _ _ _ Ht) as Hk. rewrite Hp in Hk. destruct Hk as [S1 S2 S3 S4 S5 S6].
  exists o. split_and!; try done; by rewrite S1.
Qed.

(** C34: what was observed of an Order is the sum of the trades bound to it without
    conflict, never negative, and nothing is observed of an Order not projected. *)
Theorem observed_is_executed `{Sha256} context st i : spec_set_ok (fa_spec_set context) -> reachable context st ->
  units (observed_quantity_for_order st i) = executed i (log_of st) /\
  0 <= units (observed_quantity_for_order st i) /\
  (projection_for_order st i = None -> executed i (log_of st) = 0).
Proof.
  intros Hss Hr. destruct (reachable_log_of context st Hss Hr) as (_ & _ & T).
  unfold observed_quantity_for_order, projection_for_order. rewrite <-(tr_executed _ _ _ T).
  split; [done|]. destruct (order_index st !! i) as [o|] eqn:Ho.
  - destruct (tr_orders _ _ _ T _ _ Ho) as [_ Ht]. pose proof (tr_indexed _ _ _ T _ _ Ho) as <-.
    split; [apply Ht|]. intros Hn. pose proof (ot_kept _ _ _ Ht) as Hk. by rewrite Hn in Hk.
  - destruct (tr_unknown _ _ _ T _ Ho) as (_ & Hq & _). unfold observed_of. by rewrite Hq.
Qed.

(** C29: the projections an Order goes through are a run of the abstract lifecycle: each
    version follows the one before by one of its moves, they are numbered from one, a
    final state is never left, and the last version is the current one. *)
Theorem projections_follow_lifecycle `{Sha256} context st i o : spec_set_ok (fa_spec_set context) ->
  reachable context st -> order_index st !! i = Some o ->
  history (units (od_quantity o)) (versions st i) (projection_for_order st i) /\
  last (versions st i) = projection_for_order st i /\
  forall k p, versions st i !! k = Some p -> projection_version p = Z.of_nat k + 1 /\
    ((k + 1 < length (versions st i))%nat -> is_terminal_state (projection_state p) = false).
Proof.
  intros Hss Hr Ho. destruct (reachable_log_of context st Hss Hr) as (_ & _ & T).
  destruct (tr_orders _ _ _ T _ _ Ho) as [_ Ht]. pose proof (tr_indexed _ _ _ T _ _ Ho) as <-.
  unfold projection_for_order. split; [apply Ht|]. by eapply history_numbered, Ht.
Qed.

(** Venue identities are one to one: a venue key names one known Order, and an Order
    has at most one venue key. *)
Theorem venue_keys_are_unique `{Sha256} context st k k' o o' : spec_set_ok (fa_spec_set context) ->
  reachable context st -> venue_index st !! k = Some o -> venue_index st !! k' = Some o' ->
  order_index st !! od_order_id o = Some o /\ (od_order_id o = od_order_id o' -> k = k' /\ o = o').
Proof.
  intros Hss Hr Hk Hk'. destruct (reachable_log_of context st Hss Hr) as (_ & _ & T).
  split; [by eapply tr_venues|]. intros Hid. pose proof (tr_venue_once _ _ _ T _ _ _ _ Hk Hk' Hid) as <-.
  split; [done|]. rewrite Hk in Hk'. by injection Hk'.
Qed.

(** ** Witnesses *)

Lemma the_summary_parts :
  map po_action (fa_outcomes the_fact_state) = [ACCEPTED; ACCEPTED; ACCEPTED; DUPLICATE; UNRESOLVED] /\
  map (fun f => units (fill_quantity f)) (fa_fills the_fact_state) = [4 * 10 ^ 18; 6 * 10 ^ 18] /\
  length (fa_ingresses the_fact_state) = 5%nat /\
  is_Some (order_index the_fact_state !! od_order_id the_order) /\
  is_Some (projection_index the_fact_state !! od_order_id the_order) /\
  is_Some (venue_index the_fact_state !! (the_source, the_venue_id)).
Proof.
  pose proof the_fact_summary as H. unfold fact_summary in H.
  apply pair_equal_spec in H as [H H5]. apply pair_equal_spec in H as [H H3]. apply pair_equal_spec in H as [H1 H2].
  apply pair_equal_spec in H5 as [H5 _]. apply pair_equal_spec in H5 as [H5 Hv].
  apply pair_equal_spec in H5 as [H5 Hp].
  apply pair_equal_spec in H5 as [Hl Ho].
  split_and!; [exact H1|exact H2|exact Hl|exact (isSome_true _ Ho)|exact (isSome_true _ Hp)|
    exact (isSome_true _ Hv)].
Qed.
Lemma the_third_entry : exists i o, fa_ingresses the_fact_state !! 3%nat = Some i /\
  fa_outcomes the_fact_state !! 3%nat = Some o /\ po_action o = DUPLICATE.
Proof.
  destruct the_summary_parts as (Ha & _ & Hl & _).
  destruct (lookup_lt_is_Some_2 (fa_ingresses the_fact_state) 3) as [i Hi]; [rewrite Hl; lia|].
  assert ((po_action <$> fa_outcomes the_fact_state) !! 3%nat = Some DUPLICATE) as Ho
    by (change (po_action <$> fa_outcomes the_fact_state) with (map po_action (fa_outcomes the_fact_state)); by rewrite Ha).
  rewrite list_lookup_fmap in Ho. destruct (fa_outcomes the_fact_state !! 3%nat) as [o|]; [|done].
  exists i, o. split_and!; [exact Hi|done|]. by injection Ho.
Qed.

Lemma fact_outcomes_are_settled_witness : reachable the_fact_context the_fact_state /\
  exists i o, po_action o = DUPLICATE /\
    @process_ingress _ the_orders the_dispatch the_fact_context the_fact_state i = Ok (the_fact_state, o).
Proof.
  split; [exact the_fact_state_reachable|]. destruct the_third_entry as (i & o & Hi & Ho & Ha). exists i, o.
  split; [exact Ha|].
  exact (proj1 (fact_outcomes_are_settled the_fact_context the_fact_state [] 3 i o the_spec_set_ok
    the_fact_state_reachable (Forall_nil_2 _) Hi Ho the_orders the_dispatch)).
Defined.

Lemma facts_are_processed_once_witness : reachable the_fact_context the_fact_state /\
  exists i o f, fa_ingresses the_fact_state !! 3%nat = Some i /\ fa_outcomes the_fact_state !! 3%nat = Some o /\
    f ∈ first_facts the_fact_state /\ f = ingress_fact i.
Proof.
  split; [exact the_fact_state_reachable|]. destruct the_third_entry as (i & o & Hi & Ho & Ha).
  destruct (facts_are_processed_once the_fact_context the_fact_state the_spec_set_ok the_fact_state_reachable)
    as (_ & _ & H). destruct (H _ _ _ Hi Ho) as [_ Hr]. unfold repeats in Hr. rewrite Ha in Hr.
  destruct Hr as (f & Hf & _ & Hd). exists i, o, f. split_and!; [exact Hi|exact Ho|exact Hf|by apply Hd].
Defined.

Lemma fills_are_numbered_witness : reachable the_fact_context the_fact_state /\
  map fill_id (fa_fills the_fact_state) = [fill_id_at the_fact_context 0; fill_id_at the_fact_context 1] /\
  NoDup (map fill_fact_key (fa_fills the_fact_state)).
Proof.
  split; [exact the_fact_state_reachable|].
  destruct (fills_are_numbered the_fact_context the_fact_state the_spec_set_ok the_fact_state_reachable)
    as (Hids & _ & _ & Hk & _). split; [|exact Hk].
  destruct the_summary_parts as (_ & Hq & _). assert (length (fa_fills the_fact_state) = 2%nat) as Hl
    by (rewrite <-(length_map (fun f => units (fill_quantity f))), Hq; reflexivity).
  rewrite Hids, Hl. reflexivity.
Defined.

Lemma projections_show_orders_witness : reachable the_fact_context the_fact_state /\
  exists p o, projection_index the_fact_state !! od_order_id the_order = Some p /\
    order_index the_fact_state !! od_order_id the_order = Some o /\ pj_order_sha256 p = order_digest o.
Proof.
  split; [exact the_fact_state_reachable|]. destruct the_summary_parts as (_ & _ & _ & _ & [p Hp] & _).
  destruct (projections_show_orders the_fact_context the_fact_state _ p the_spec_set_ok the_fact_state_reachable Hp)
    as (o & Ho & _ & _ & _ & Hd & _). exists p, o. split_and!; [exact Hp|exact Ho|exact Hd].
Defined.

Lemma observed_is_executed_witness : reachable the_fact_context the_fact_state /\
  units (observed_quantity_for_order the_fact_state (od_order_id the_order))
    = executed (od_order_id the_order) (log_of the_fact_state).
Proof.
  split; [exact the_fact_state_reachable|].
  exact (proj1 (observed_is_executed the_fact_context the_fact_state _ the_spec_set_ok the_fact_state_reachable)).
Defined.

Lemma projections_follow_lifecycle_witness : reachable the_fact_context the_fact_state /\
  last (versions the_fact_state (od_order_id the_order)) =
    projection_for_order the_fact_state (od_order_id the_order).
Proof.
  split; [exact the_fact_state_reachable|]. destruct the_summary_parts as (_ & _ & _ & [o Ho] & _ & _).
  exact (proj1 (proj2 (projections_follow_lifecycle the_fact_context the_fact_state _ o the_spec_set_ok
    the_fact_state_reachable Ho))).
Defined.

Lemma venue_keys_are_unique_witness : reachable the_fact_context the_fact_state /\
  exists o, venue_index the_fact_state !! (the_source, the_venue_id) = Some o /\
    order_index the_fact_state !! od_order_id o = Some o.
Proof.
  split; [exact the_fact_state_reachable|]. destruct the_summary_parts as (_ & _ & _ & _ & _ & [o Ho]).
  exists o. split; [exact Ho|].
  exact (proj1 (venue_keys_are_unique the_fact_context the_fact_state _ _ o o the_spec_set_ok
    the_fact_state_reachable Ho Ho)).
Defined.
