(* ===== verification/RuntimeTheorems.v ===== *)
(** The queue joined with the fact authority; the claims about the runtime plan and the dispatch queue, with a concrete run. *)

From S2P Require Import Prelude PyRegex PyText Outcomes Json Identity Numbering Economics Execution Messages.
From S2P Require Import ExecutionState FactAuthority Observation Runtime Queue Canonical FactInvariant Checksum.
From S2P Require Import MarketData Commission Orders Wire Decoders RuntimeSpec LedgerExample OrderExample.
From S2P Require Import FactTheorems MarketDataTheorems.

Open Scope Z_scope.

(** *** The queue driving the execution fact authority: the facts the authority processes are
    the facts of the plan, under the sequence number of their position in it. *)

Section Dispatch.
Context `{hash : Sha256} (context : FactAuthorityContext) (q : DeterministicRootQueue).

(** A delivery whose dispatch port is the queue, in one of its reachable states. *)
Definition fed (d : delivery) : Prop := exists qst, queue_reachable q qst /\ dl_dispatch d = queue_port qst.

Definition dispatched (i : ExecutionFactIngress) (n : Z) : Prop :=
  1 <= n <= Z.of_nat (length (q_plan q)) /\ q_plan q !! Z.to_nat (n - 1) = Some (RFact i).

Lemma ingress_bytes_inj i j : canonical_execution_fact_ingress_bytes i = canonical_execution_fact_ingress_bytes j -> i = j.
Proof. intros H. by apply (canonical_bytes_inj _ingress_document). Qed.

Lemma active_dispatched qst i n : queue_reachable q qst ->
  @_require_active_dispatch (queue_port qst) i (canonical_execution_fact_ingress_bytes i)
    (canonical_execution_fact_bytes (ingress_fact i)) = Ok n -> dispatched i n.
Proof.
  intros Hq. unfold _require_active_dispatch. cbn [resolve_active_issued_fact_dispatch queue_port].
  destruct (resolve_active _ _ _ _) as [m|] eqn:Hr; [|done].
  apply (resolve_active_Some q _ _ _ _ _ (queue_reachable_ok q _ Hq)) in Hr as (j & Hj & Hc & _ & _ & Hb & _).
  destruct (negb _) eqn:Hm; [done|]. intros [= <-]. apply ingress_bytes_inj in Hb as <-.
  split; [|done]. apply lookup_lt_Some in Hj. lia.
Qed.

(** The log of a run: which ingress produced which outcome. *)
Definition processed_pairs (st : _FactAuthorityState) : list (ExecutionFactIngress * ExecutionFactProcessingOutcome) :=
  zip (fa_ingresses st) (fa_outcomes st).

Lemma processed_dispatched orders qst st i st' o : queue_reachable q qst ->
  @processed hash context orders (queue_port qst) st i st' o ->
  st' = st \/ (fa_ingresses st' = fa_ingresses st ++ [i] /\ fa_outcomes st' = fa_outcomes st ++ [o] /\
               dispatched i (po_dispatch_sequence o)).
Proof.
  intros Hq Hp. pose proof (processed_log_step _ _ _ _ _ _ _ Hp) as [[-> _]|Hl]; [by left|]. right.
  split; [apply Hl|]. split; [apply Hl|].
  destruct Hp as [r Hi H1 H2|n existing action o' Hi Hn Hf Ha Ho|n action found resolution fill projection fill_after ids
    keys o' Hi Hn Hf Hfirst Ho Hd].
  - pose proof (ls_fresh _ _ _ _ Hl) as Hf. by rewrite Hi in Hf.
  - destruct (created_outcome _ _ _ _ _ _ _ _ _ _ _ Ho) as (_ & (_ & _ & _ & _ & _ & -> & _) & _).
    by apply (active_dispatched qst).
  - destruct (created_outcome _ _ _ _ _ _ _ _ _ _ _ Ho) as (_ & (_ & _ & _ & _ & _ & -> & _) & _).
    by apply (active_dispatched qst).
Qed.

Lemma run_dispatched ds : Forall fed ds ->
  length (fa_ingresses (run context ds)) = length (fa_outcomes (run context ds)) /\
  Forall (fun e => dispatched e.1 (po_dispatch_sequence e.2)) (processed_pairs (run context ds)).
Proof.
  unfold processed_pairs. induction ds as [|d ds IH] using rev_ind; intros Hds; [by split|].
  apply Forall_app in Hds as [Hds Hd]. apply Forall_inv in Hd as (qst & Hq & Hport). destruct (IH Hds) as [Hlen Hall].
  rewrite run_snoc. unfold deliver. destruct (attempt context (run context ds) d) as [[st' o]|e] eqn:Hp; [|done].
  unfold attempt in Hp. rewrite Hport in Hp. apply process_ingress_Ok in Hp.
  apply processed_dispatched in Hp as [->|(-> & -> & Hn)]; [done| |done].
  rewrite !length_app, Hlen. split; [done|]. rewrite zip_with_app by done. apply Forall_app. split; [done|by apply Forall_singleton].
Qed.
End Dispatch.

(** *** The claims about the runtime plan and the dispatch queue, with a concrete run. *)

(** *** A concrete run of the runtime: a plan of two facts, a bar, a timer and the end of the
    run, its queue, and the fact authority processing the facts when they are dispatched. *)

Definition the_timer : TimerRoot :=
  mkTimerRoot later STRATEGY_TIMER the_source (mkPatternStr (r := VISIBLE_128) "t-1" eq_refl) 4.
Definition the_end : EndOfRunRoot := mkEndOfRunRoot later BOUNDED_SOURCE_EXHAUSTED the_source 9 the_run.
Definition the_roots : list RuntimeRoot :=
  [REnd the_end; RMarket first_bar; RTimer the_timer; RFact (ingress 1 listed); RFact (ingress 2 trade_four)].
(** Facts before market data before timers before the end; trades before acknowledgements. *)
Definition the_plan : list RuntimeRoot :=
  [RFact (ingress 2 trade_four); RFact (ingress 1 listed); RMarket first_bar; RTimer the_timer; REnd the_end].

#[local] Instance eq_dec_FactDedupIdentity : EqDecision FactDedupIdentity.
Proof. solve_decision. Defined.
#[local] Instance eq_dec_FeeEntry : EqDecision FeeEntry.
Proof. solve_decision. Defined.
#[local] Instance eq_dec_TradeFactPayload : EqDecision TradeFactPayload.
Proof. solve_decision. Defined.
#[local] Instance eq_dec_ExecutionFactPayload : EqDecision ExecutionFactPayload.
Proof. solve_decision. Defined.
#[local] Instance eq_dec_FactProvenance : EqDecision FactProvenance.
Proof. solve_decision. Defined.
#[local] Instance eq_dec_ExecutionFact : EqDecision ExecutionFact.
Proof. solve_decision. Defined.
#[local] Instance eq_dec_ExecutionFactIngress : EqDecision ExecutionFactIngress.
Proof. solve_decision. Defined.
#[local] Instance eq_dec_SafetySubject : EqDecision SafetySubject.
Proof. solve_decision. Defined.
#[local] Instance eq_dec_SafetyRoot : EqDecision SafetyRoot.
Proof. solve_decision. Defined.
#[local] Instance eq_dec_TimerRoot : EqDecision TimerRoot.
Proof. solve_decision. Defined.
#[local] Instance eq_dec_EndOfRunRoot : EqDecision EndOfRunRoot.
Proof. solve_decision. Defined.
#[local] Instance eq_dec_ReconciliationObservationRoot : EqDecision ReconciliationObservationRoot.
Proof. solve_decision. Defined.
#[local] Instance eq_dec_RuntimeRoot : EqDecision RuntimeRoot.
Proof. solve_decision. Defined.

Lemma the_roots_genuine : Forall genuine the_roots.
Proof. repeat (apply Forall_cons; split; [exact I|]). by apply Forall_nil. Qed.
Lemma the_plan_prepared : prepare_bounded_runtime_roots the_roots = Ok the_plan.
Proof. refine (bool_decide_unpack _ _). vm_compute. exact I. Qed.

(** A source that issued everything it is asked about. *)
Definition the_verifier : ExecutionFactIssuanceVerifier :=
  mkIssuanceVerifier the_run the_spec_set the_source (fun _ _ _ => true).
Lemma queue_created : is_ok (create_deterministic_root_queue the_run the_spec_set the_plan [the_verifier]) = true.
Proof. vm_compute. reflexivity. Qed.
Definition the_queue : DeterministicRootQueue := (unwrap _ queue_created).1.
Lemma the_queue_ok : create_deterministic_root_queue the_run the_spec_set the_plan [the_verifier]
  = Ok (the_queue, initial_queue_state).
Proof.
  pose proof (unwrap_ok _ queue_created) as H. destruct (created_queue _ _ _ _ _ _ (eq_trans H (f_equal Ok (surjective_pairing _))))
    as (_ & Hs & _). rewrite H. unfold the_queue. rewrite <-Hs. by destruct (unwrap _ _).
Qed.
Lemma the_queue_plan : q_plan the_queue = the_plan.
Proof. by destruct (created_queue _ _ _ _ _ _ the_queue_ok) as (-> & _). Qed.

Lemma the_queue_issued : all_issued the_queue.
Proof.
  unfold all_issued. rewrite the_queue_plan.
  assert (forall i, RFact i ∈ the_plan -> issued_fact the_queue (RFact i) = Ok (fact_of (RFact i))) as H.
  { intros i Hi. destruct (created_queue _ _ _ _ _ _ the_queue_ok) as (_ & _ & Hv).
    destruct (Hv i Hi) as (v & Hl & Hin & _). cbn [issued_fact]. rewrite Hl.
    apply list_elem_of_singleton in Hin as ->. done. }
  apply Forall_forall. intros [r|r|r|r|r|r] Hr; try done. by apply H.
Qed.

(** The queue after its first [pop]. *)
Lemma first_popped : is_ok (pop the_queue 1 initial_queue_state) = true.
Proof. vm_compute. reflexivity. Qed.
Definition popped : RuntimeDispatchLease * _QueueState := unwrap _ first_popped.
Lemma popped_ok : pop the_queue 1 initial_queue_state = Ok (popped.1, popped.2).
Proof. rewrite (unwrap_ok _ first_popped). unfold popped. by destruct (unwrap _ _). Qed.
Lemma popped_reachable : queue_reachable the_queue popped.2.
Proof. eapply queue_pop; [apply queue_start|exact popped_ok]. Qed.

Definition the_fed_delivery : delivery := mkDelivery the_orders (queue_port popped.2) (ingress 2 trade_four).
Lemma the_fed_deliveries_fed : Forall (fed the_queue) [the_fed_delivery].
Proof. apply Forall_singleton. exists popped.2. split; [exact popped_reachable|done]. Qed.
Definition the_fed_state : _FactAuthorityState := run the_fact_context [the_fed_delivery].
Lemma the_fed_state_sequences : map po_dispatch_sequence (fa_outcomes the_fed_state) = [1].
Proof. vm_compute. reflexivity. Qed.

(** *** The claims about the runtime plan, its queue and the facts dispatched from it, with
    their witnesses on the run. *)

Section Claims.
Context `{hash : Sha256}.

(** C27: the plan of a collection of roots does not depend on the order they arrive in.
    It exists exactly when no two roots share an identity in their domain and the market
    data is consistent, and is then the permutation of the roots in which every root
    precedes the later ones by the order of their keys, a comparison that never fails;
    otherwise the factory refuses the roots. *)
Theorem runtime_plan_is_canonical roots : Forall genuine roots -> roots <> [] ->
  (forall plan, prepare_bounded_runtime_roots roots = Ok plan <->
     plannable roots /\ plan ≡ₚ roots /\
     forall i j a b, plan !! i = Some a -> plan !! j = Some b -> (i < j)%nat -> root_key_lt (key_of a) (key_of b) = Ok true) /\
  (forall err, prepare_bounded_runtime_roots roots = Raise err <->
     ~ plannable roots /\ err = RuntimeOrderingError CONFLICTING_ID) /\
  (forall roots', roots' ≡ₚ roots -> prepare_bounded_runtime_roots roots' = prepare_bounded_runtime_roots roots).
Proof.
  intros Hg Hne. assert (forall plan, plan ≡ₚ roots -> Forall (fun r => well_typed (key_of r)) plan) as Hwt.
  { intros plan Hp. rewrite Hp. eapply Forall_impl; [exact Hg|]. intros r Hr. by apply genuine_key. }
  split; [|split].
  - intros plan. destruct (prepare_cases roots Hg Hne) as [[Hp ->]|[Hn ->]]; [|by split; [|intros [? _]]]. split.
    + intros [= <-]. split; [done|]. split; [apply py_sorted_perm|].
      apply (strictly_ordered (plan_order roots)); [apply Hwt, py_sorted_perm|apply py_sorted_sorted|].
      unfold plan_order. rewrite (py_sorted_perm key_of roots). by apply plannable_keys.
    + intros (_ & Hperm & Hs). f_equal. pose proof (plannable_keys roots Hg Hp) as Hk.
      apply (sorted_by_unique key_of); [apply py_sorted_sorted|by apply keys_sorted; [apply Hwt|]| |].
      * unfold plan_order. by rewrite (py_sorted_perm key_of roots).
      * unfold plan_order. by rewrite (py_sorted_perm key_of roots).
  - intros err. destruct (prepare_cases roots Hg Hne) as [[Hp ->]|[Hn ->]]; [by split; [|intros [? _]]|].
    split; [by intros [= <-]|by intros [_ ->]].
  - intros roots' Hp. assert (Forall genuine roots') as Hg' by (by rewrite Hp).
    assert (roots' <> []) as Hne' by (intros ->; by apply Hne, Permutation_nil).
    destruct (prepare_cases roots Hg Hne) as [[Hpl ->]|[Hn ->]], (prepare_cases roots' Hg' Hne') as [[Hpl' ->]|[Hn' ->]];
      [|by destruct Hn'; eapply plannable_perm|by destruct Hn; eapply plannable_perm|done].
    f_equal. apply (sorted_by_unique key_of); [apply py_sorted_sorted..| |].
    + unfold plan_order. rewrite (py_sorted_perm key_of roots'). by apply plannable_keys.
    + unfold plan_order. by rewrite !py_sorted_perm.
Qed.

(** C28: the queue ends. When the sources confirm the facts of a plan, taking and
    acknowledging one dispatch after another hands out every root of the plan exactly
    once, in its order, under the sequence numbers from one; then every fact is recorded
    with its number, nothing remains, and a further dispatch is refused. *)
Theorem queue_dispatches_the_plan run_id spec_set plan verifiers q st A (handle : RuntimeDispatchLease -> A) objects :
  create_deterministic_root_queue run_id spec_set plan verifiers = Ok (q, st) -> all_issued q ->
  Z.of_nat (length plan) <= MAX_UINT64 -> length objects = length plan ->
  exists st', drain q objects handle st =
      Ok (imap (fun i p => handle (mkLease p.1 p.2 (Z.of_nat i + 1))) (zip objects plan), st') /\
    remaining q st' = 0 /\ acknowledged_fact_dispatches st' = acknowledgements q (length plan) /\
    forall object, pop q object st' = Raise (RuntimeOrderingError OUT_OF_RANGE).
Proof.
  intros Hc Hall Hm Hlen. apply created_queue in Hc as (Hq & -> & _). rewrite <-Hq in *.
  destruct (drain_all q handle objects initial_queue_state) as (st' & Hd & Hst & Ha & Hcur); [constructor|done..|].
  exists st'. cbn [cursor initial_queue_state] in Hd. rewrite drop_0 in Hd. split; [exact Hd|].
  pose proof (queue_reachable_ok q st' Hst) as Hok. split; [unfold remaining; lia|]. split.
  - rewrite (qk_acknowledged _ _ Hok). unfold completed. by rewrite Ha, Hcur.
  - intros object. unfold pop, _current. rewrite Ha, Hcur, lookup_ge_None_2 by lia.
    by rewrite bool_decide_false by (by intros []).
Qed.

(** At most one dispatch is live. In every state calls can reach, the live dispatch
    is the last root taken from the plan under its position; while it lives nothing else
    can be taken, only the very lease handed out for it acknowledges it, and a fact
    resolves exactly when it is the live one; the acknowledged facts are those of the
    dispatches before it, each with its position. *)
Theorem one_dispatch_is_live q st a : queue_reachable q st -> active st = Some a ->
  exists n object, cursor st = S n /\ q_plan q !! n = Some (active_root a) /\
    active_lease st = Some (mkLease object (active_root a) (Z.of_nat n + 1)) /\
    acknowledged_fact_dispatches st = acknowledgements q n /\
    (forall other, pop q other st = Raise (RuntimeOrderingError CONFLICTING_ID)) /\
    (forall lease, is_ok (acknowledge lease st) = bool_decide (lease_object lease = object)) /\
    (forall identity ingress_bytes fact_bytes m, resolve_active st identity ingress_bytes fact_bytes = Some m <->
       m = Z.of_nat n + 1 /\ fact_of (active_root a) = Some (mkFactDispatch identity ingress_bytes fact_bytes)).
Proof.
  intros Hst Ha. pose proof (queue_reachable_ok q st Hst) as Hok.
  destruct (qk_active _ _ Hok a Ha) as (n & object & Hn & Hr & Hs & Hf & Hl). exists n, object.
  split_and!; [done|done|by unfold active_lease; rewrite Ha; cbn; rewrite Hl| | | |].
  - rewrite (qk_acknowledged _ _ Hok). unfold completed. by rewrite Ha, Hn.
  - intros other. unfold pop. by rewrite Ha, bool_decide_true by by eexists.
  - intros lease. unfold acknowledge. rewrite Ha, Hl. cbn [lease_object].
    case_bool_decide as H1; case_bool_decide as H2; cbn; congruence.
  - intros identity ib fb m. unfold resolve_active. rewrite Ha, Hf, Hs. destruct (fact_of (active_root a)) as [f|]; [|naive_solver].
    destruct f as [fi fib ffb]. cbn [fd_identity fd_ingress_bytes fd_fact_bytes].
    destruct (_ && _) eqn:Hb.
    + rewrite !andb_true_iff, !bool_decide_eq_true in Hb. destruct Hb as [[-> ->] ->]. split; [by intros [= <-]|by intros [-> _]].
    + split; [done|]. intros [_ [= -> -> ->]]. by rewrite !bool_decide_true in Hb.
Qed.

(** The execution fact authority, fed by a queue, processes the facts of the plan and
    no others: whatever is delivered while whatever dispatch is live, the ingress behind
    every outcome is the root of the plan at the sequence number the outcome carries. *)
Theorem outcomes_are_of_dispatched_roots context q ds : Forall (fed q) ds ->
  let st := run context ds in
  length (fa_ingresses st) = length (fa_outcomes st) /\
  forall k i o, fa_ingresses st !! k = Some i -> fa_outcomes st !! k = Some o ->
    1 <= po_dispatch_sequence o <= Z.of_nat (length (q_plan q)) /\
    q_plan q !! Z.to_nat (po_dispatch_sequence o - 1) = Some (RFact i).
Proof.
  intros Hds st. destruct (run_dispatched context q ds Hds) as [Hlen Hall]. split; [exact Hlen|].
  intros k i o Hi Ho. rewrite Forall_lookup in Hall. apply (Hall k (i, o)).
  unfold processed_pairs. apply lookup_zip_with_Some. by exists i, o.
Qed.
End Claims.

Lemma runtime_plan_is_canonical_witness : prepare_bounded_runtime_roots (rev the_roots) = Ok the_plan.
Proof.
  destruct (runtime_plan_is_canonical the_roots) as (_ & _ & Hp); [exact the_roots_genuine|discriminate|].
  rewrite (Hp (rev the_roots)); [exact the_plan_prepared|]. symmetry. apply Permutation_rev.
Defined.

Lemma queue_dispatches_the_plan_witness : exists st',
  drain the_queue [10; 20; 30; 40; 50]%positive lease_dispatch_sequence initial_queue_state = Ok ([1; 2; 3; 4; 5], st') /\
  remaining the_queue st' = 0.
Proof.
  destruct (queue_dispatches_the_plan the_run the_spec_set the_plan [the_verifier] the_queue initial_queue_state _
    lease_dispatch_sequence [10; 20; 30; 40; 50]%positive the_queue_ok the_queue_issued) as (st' & Hd & Hr & _).
  - vm_compute. congruence.
  - reflexivity.
  - exists st'. split; [exact Hd|exact Hr].
Defined.

Lemma one_dispatch_is_live_witness : pop the_queue 9%positive popped.2 = Raise (RuntimeOrderingError CONFLICTING_ID).
Proof.
  destruct (active popped.2) as [a|] eqn:Ha.
  - destruct (one_dispatch_is_live the_queue popped.2 a popped_reachable Ha) as (n & object & _ & _ & _ & _ & Hp & _).
    exact (Hp 9%positive).
  - pose proof (proj1 (pop_Ok _ _ _ _ _) popped_ok) as (_ & root & n & _ & _ & _ & _ & _ & Hs). rewrite Hs in Ha. discriminate Ha.
Defined.

Lemma outcomes_are_of_dispatched_roots_witness :
  exists i o, fa_ingresses the_fed_state !! 0%nat = Some i /\ fa_outcomes the_fed_state !! 0%nat = Some o /\
    po_dispatch_sequence o = 1 /\ the_plan !! 0%nat = Some (RFact i).
Proof.
  destruct (outcomes_are_of_dispatched_roots the_fact_context the_queue [the_fed_delivery] the_fed_deliveries_fed) as [Hl Hk].
  change (run the_fact_context [the_fed_delivery]) with the_fed_state in *.
  pose proof the_fed_state_sequences as Hs.
  destruct (fa_outcomes the_fed_state) as [|o l]; [discriminate Hs|]. destruct (fa_ingresses the_fed_state) as [|i l']; [discriminate Hl|].
  injection Hs as Hs _. exists i, o. destruct (Hk 0%nat i o eq_refl eq_refl) as [_ Hp]. rewrite Hs, the_queue_plan in Hp.
  split; [reflexivity|]. split; [reflexivity|]. split; [exact Hs|exact Hp].
Defined.
