(* ===== verification/Composition.v ===== *)
(** The fact authority feeding the portfolio ledger: the fills of one are those the
    other takes, each exactly once. *)

From S2P Require Import Prelude PyRegex PyText Outcomes Json Identity Checksum Economics Commission Execution.
From S2P Require Import Messages Orders Decoders ExecutionState FactAuthority Portfolio Reconciliation Integration.
From S2P Require Import Ledger LedgerSpec LedgerInvariant LedgerReach LedgerExample.
From S2P Require FactInvariant FactTheorems.

Open Scope Z_scope.

Section Composition.
Context `{hash : Sha256} (context : FactAuthorityContext) (L : PortfolioLedger).
Hypothesis Hrun : l_run_id L = fa_run_id context.
Hypothesis Hset : l_spec_set L = fa_spec_set context.
Hypothesis HL : ledger_ok L.

(** *** The ledger's specification check passes on an issued fill *)

Lemma price_checked p s x : _require_price p s = Ok x ->
  is_ok (_require_price_domain p (price_domain s)) = true /\ is_ok (require_quantized p (price_quantum s)) = true.
Proof.
  assert (forall d, bool_decide (price_domain_value d = "positive"%string) = bool_decide (d = POSITIVE)) as H1
    by (by intros []).
  assert (forall d, bool_decide (price_domain_value d = "non_negative"%string) = bool_decide (d = NON_NEGATIVE)) as H2
    by (by intros []).
  unfold _require_price, _require_price_domain. rewrite H1, H2. clear H1 H2.
  destruct (bool_decide (_ = POSITIVE) && _); [done|]. destruct (bool_decide (_ = NON_NEGATIVE) && _); [done|].
  by destruct (require_quantized p (price_quantum s)).
Qed.

Lemma created_fill_specified i f fl : create_fill i f (l_spec_set L) = Ok fl ->
  is_ok (_require_specification L fl) = true.
Proof.
  unfold create_fill. intros H. apply rbind_Ok in H as (? & _ & H).
  destruct (fact_kind f); try done. destruct (fact_payload f) as [|t|]; try done.
  destruct (fact_instrument f) as [instrument|]; [|done].
  apply rbind_Ok in H as ([s digest] & Hs & H). cbn [fst] in H.
  apply rbind_Ok in H as (q & Hq & H). apply rbind_Ok in H as (p & Hp & H).
  apply rbind_Ok in H as (fees & Hf & H). apply rbind_Ok in H as (? & _ & H). apply Ok_inj in H. subst fl.
  pose proof Hs as Hid. unfold _require_spec_set in Hid. apply FactProjection.require_spec_set_Ok in Hs as (Hs & -> & Hb & Hc).
  apply FactProjection.lineage_agrees in Hb, Hc. rewrite Hs in Hid. cbn [rbind] in Hid.
  destruct (lineage_conflict (specification_id s) _) eqn:Ha in Hid; [done|]. apply FactProjection.lineage_agrees in Ha.
  unfold _require_specification, validate_execution_inputs. cbn [fill_instrument fill_specification_id fill_spec_set_id
    fill_spec_set_sha256 fill_price fill_quantity fill_fees].
  rewrite Hs. cbn [rbind structurally catch_economic]. rewrite Ha, Hb, (lo_digest _ HL), Hc.
  rewrite !bool_decide_eq_true_2 by done. cbn [negb orb].
  apply price_checked in Hp as [Hp1 Hp2]. destruct (_require_price_domain _ _); [|done]. cbn [rbind].
  unfold _require_quantity in Hq. destruct (require_positive _); [|done]. cbn [rbind] in Hq |- *.
  destruct (require_quantized (trade_price t) _); [|done]. cbn [rbind].
  destruct (require_quantized (trade_quantity t) _); [|done]. cbn [rbind structurally catch_economic].
  rewrite bool_decide_eq_true_2 by done. cbn [negb].
  unfold _require_phase1_fees in Hf. destruct (trade_fees t) as [|fee [|]]; try done.
  destruct (fee_conflicts _ _ _ _) as [[]|]; try done. cbn [rbind] in Hf |- *.
  by destruct (require_quantized (fee_amount fee) _).
Qed.

(** *** Feeding fills to the ledger *)

(** The fills booked are among those fed. *)
Definition booked_from (st : LedgerState) (fed : list Fill) : Prop :=
  forall t, TxFill t ∈ st_transactions st ->
    lt_fill_id t ∈ map fill_id fed /\ lt_fact_key t ∈ map fill_fact_key fed.

Lemma feed_step st fed f : state_ok L st -> booked_from st fed -> op_wf (OpFill f) ->
  booked_from (apply_op L st (OpFill f)) (fed ++ [f]).
Proof.
  intros Hst Hb Hf. destruct (apply_op_ok L st (OpFill f) HL Hst Hf) as [_ Heff].
  assert (booked_from st (fed ++ [f])) as Hold.
  { intros t Ht. destruct (Hb t Ht) as [H1 H2]. rewrite !map_app, !elem_of_app. split; by left. }
  remember (apply_op L st (OpFill f)) as st' eqn:E. clear E.
  inversion Heff as [|? ? ? [=]|f' h e o ? Hop _ _ _ Hbook|? ? ? ? [=]]; subst; [done|].
  destruct Hop as [[[= <-] _]|(c & d & [=] & _)]. destruct (fb_transaction _ _ _ _ _ _ _ Hbook) as (t & _ & Htx & Hid & _ & Hk & _).
  intros u Hu. rewrite Htx in Hu. apply elem_of_app in Hu as [Hu|Hu%list_elem_of_singleton]; [by apply Hold|].
  injection Hu as ->. rewrite !map_app, !elem_of_app, Hid, Hk. split; right; by left.
Qed.
Lemma feed_run st fed fills : state_ok L st -> booked_from st fed -> Forall op_wf (map OpFill fills) ->
  state_ok L (run L st (map OpFill fills)) /\ booked_from (run L st (map OpFill fills)) (fed ++ fills).
Proof.
  revert st fed. induction fills as [|f fills IH]; intros st fed Hst Hb Hops; [by rewrite app_nil_r|].
  apply Forall_cons in Hops as [Hf Hops]. cbn. rewrite (cons_middle f fed fills), app_assoc.
  apply IH; [by apply (apply_op_ok L st (OpFill f) HL Hst)|by apply feed_step|done].
Qed.

(** A fill of new identity and fact is applied or fails; it is neither refused nor replayed. *)
Lemma new_fill_applies st fed i f fl : state_ok L st -> booked_from st fed ->
  create_fill i f (l_spec_set L) = Ok fl -> fill_run_id fl = l_run_id L ->
  fill_id fl ∉ map fill_id fed -> fill_fact_key fl ∉ map fill_fact_key fed ->
  exists o st', apply_fill L st fl = (Ok o, st') /\
    ((outcome_code o = LEDGER_APPLIED /\
        exists t, st_transactions st' = st_transactions st ++ [TxFill t] /\ lt_fill_id t = fill_id fl /\
          lt_fact_key t = fill_fact_key fl) \/
     (failure_stage o <> None /\ conflict_kind o = None /\ st' = st)).
Proof.
  intros Hst Hb Hc Hr Hnf Hnk.
  assert (issued_fill fl) as Hi by (by exists i, f, (l_spec_set L)).
  pose proof (fill_next_ok L st fl HL Hst (issued_fill_ok L fl Hi Hr) Hr) as Hok.
  pose proof (so_fills _ _ Hst) as HF.
  assert (st_fill_index st !! fill_id fl = None) as Hn1.
  { destruct (st_fill_index st !! fill_id fl) as [b|] eqn:E; [|done].
    apply (fi_fill _ _ _ _ HF) in E as (t & Ht & Hid & _). apply Hb in Ht as [Ht _]. by rewrite Hid in Ht. }
  assert (st_fact_index st !! fill_fact_key fl = None) as Hn2.
  { destruct (st_fact_index st !! fill_fact_key fl) as [b|] eqn:E; [|done].
    apply (fi_fact _ _ _ _ HF) in E as (t & Ht & Hid & _). apply Hb in Ht as [_ Ht]. by rewrite Hid in Ht. }
  unfold apply_fill. inversion Hok as [c o Hclass|r _ _ Hnew]; [by rewrite Hn1, Hn2 in Hclass|].
  inversion Hnew as [x Hx|s o code stage _ _ Hstage Hk _ _|s e o st' _ _ _ Hbook _]; subst.
  - pose proof (created_fill_specified _ _ _ Hc) as Hs. by rewrite Hx in Hs.
  - exists o, st. split; [done|]. right. by rewrite Hstage.
  - exists o, st'. split; [done|]. left. split; [apply Hbook|].
    destruct (fb_transaction _ _ _ _ _ _ _ Hbook) as (t & _ & Htx & Hid & _ & Hkey & _). by exists t.
Qed.
End Composition.

(** C1: the fills of a reachable fact authority, fed in order to a reachable ledger of its run
    and specification set that booked none, are each taken as new: the ledger never
    raises and never answers with a duplicate or a conflict, but books the fill or
    fails it for an arithmetic or cash reason. *)
Theorem fills_feed_the_ledger `{Sha256} context facts L st before fill after :
  spec_set_ok (fa_spec_set context) -> FactInvariant.reachable context facts ->
  LedgerReach.reachable L st -> l_run_id L = fa_run_id context -> l_spec_set L = fa_spec_set context ->
  (forall t, TxFill t ∉ st_transactions st) -> fa_fills facts = before ++ fill :: after ->
  let st1 := run L st (map OpFill before) in
  exists o st2, apply_fill L st1 fill = (Ok o, st2) /\
    ((outcome_code o = LEDGER_APPLIED /\
        exists t, st_transactions st2 = st_transactions st1 ++ [TxFill t] /\ lt_fill_id t = fill_id fill /\
          lt_fact_key t = fill_fact_key fill) \/
     (failure_stage o <> None /\ conflict_kind o = None /\ st2 = st1)).
Proof.
  intros Hss Hf Hr Hrun Hset Hnone Hfills st1. destruct (reachable_ok L st Hr) as [HL Hst].
  destruct (FactTheorems.reachable_log_of context facts Hss Hf) as (Lg & F & _).
  pose proof (FactInvariant.fl_issued _ _ _ F) as Hissued. rewrite <-Hset in Hissued.
  assert (forall f, f ∈ fa_fills facts -> exists i fact, create_fill i fact (l_spec_set L) = Ok f) as Hcreated.
  { intros f [k Hk]%list_elem_of_lookup. destruct (Forall2_lookup_l _ _ _ _ _ Hissued Hk) as (fact & _ & Hc).
    by exists (fill_id f), fact. }
  assert (NoDup (map fill_id (fa_fills facts)) /\ NoDup (map fill_fact_key (fa_fills facts))) as [Hids Hkeys]
    by (by apply (FactTheorems.issued_fills_distinct context)).
  rewrite Hfills, map_app in Hids, Hkeys. apply NoDup_app in Hids as (_ & Hids & _), Hkeys as (_ & Hkeys & _).
  destruct (feed_run L HL st [] before) as [Hst1 Hb1]; [done| | |].
  { intros t Ht. by destruct (Hnone t). }
  { apply Forall_map, Forall_forall. intros f Hin. destruct (Hcreated f) as (i & fact & Hc); [|by exists i, fact, (l_spec_set L)].
    rewrite Hfills. apply elem_of_app. by left. }
  destruct (Hcreated fill) as (i & fact & Hc); [rewrite Hfills; apply elem_of_app; right; by left|].
  eapply new_fill_applies; [exact HL|exact Hst1|exact Hb1|exact Hc| | |].
  - rewrite Hrun. eapply FactTheorems.fill_in_run; [exact Hss|exact Hf|]. rewrite Hfills. apply elem_of_app. right. by left.
  - intros Hin. apply (Hids _ Hin). by left.
  - intros Hin. apply (Hkeys _ Hin). by left.
Qed.

Lemma the_fills : exists a b, fa_fills FactTheorems.the_fact_state = [a; b].
Proof.
  destruct FactTheorems.the_summary_parts as (_ & Hq & _).
  destruct (fa_fills FactTheorems.the_fact_state) as [|a [|b [|]]]; try done. by exists a, b.
Qed.

Lemma fills_feed_the_ledger_witness : FactInvariant.reachable FactTheorems.the_fact_context FactTheorems.the_fact_state /\
  LedgerReach.reachable the_ledger empty_state /\
  exists a b o st2, fa_fills FactTheorems.the_fact_state = [a; b] /\
    apply_fill the_ledger (run the_ledger empty_state [OpFill a]) b = (Ok o, st2).
Proof.
  split; [exact FactTheorems.the_fact_state_reachable|]. split; [exact empty_reachable|].
  destruct the_fills as (a & b & Hab).
  assert (l_run_id the_ledger = the_run) as Hrun
    by (destruct (create_portfolio_ledger_ok _ _ _ _ the_spec_set_ok the_creation_ok) as (_ & _ & Hr & _); exact Hr).
  assert (forall t, TxFill t ∉ st_transactions empty_state) as Hnone
    by (intros t; rewrite empty_journal; apply not_elem_of_nil).
  destruct (fills_feed_the_ledger FactTheorems.the_fact_context FactTheorems.the_fact_state the_ledger empty_state
    [a] b [] the_spec_set_ok FactTheorems.the_fact_state_reachable empty_reachable Hrun the_ledger_set Hnone Hab)
    as (o & st2 & Ho & _). exists a, b, o, st2. split; [exact Hab|exact Ho].
Defined.
