(* ===== verification/MessageTheorems.v ===== *)
(** What the message layer promises: the decoders invert the encoders on issued messages
    and accept nothing else, and an Order is exactly what an executable risk decision
    approved. *)

From S2P Require Import Prelude PyRegex PyText Outcomes Json WireJson Identity Checksum Economics Commission.
From S2P Require Import Execution Messages Orders Wire Decoders Canonical RoundTrip MessageCodec OrderCodec.
From S2P Require Import LedgerExample OrderExample.

Open Scope Z_scope.


(** C39: The decoders accept nothing else: a decoded fact or fill was issued in the context,
    and the payload is its canonical bytes. *)
Theorem decoders_accept_only_issued `{Sha256} payload :
  (forall context f, decode_execution_fact payload context = Ok f ->
    payload = canonical_execution_fact_bytes f /\ issued_fact context f) /\
  (forall fact ss fl, decode_fill payload fact ss = Ok fl ->
    payload = canonical_fill_bytes fl /\ create_fill (fill_id fl) fact ss = Ok fl).
Proof. split; intros *; [apply decoded_fact_issued|apply decoded_fill_issued]. Qed.

(** The messages of the order flow decode to themselves: the intent in the context of
    its target and policy, the decision about it, and the Order they authorise. *)
Theorem order_messages_round_trip `{Sha256} ss run_id intent_id correlation_id target instrument side q v at_ n
  policy intent kind i rv aid approved d oid o :
  create_order_intent run_id intent_id correlation_id target instrument side q v at_ n ss policy = Ok intent ->
  _create_risk_decision kind i intent ss rv aid approved = Ok d ->
  (kind = ALLOW -> approved = Some (oi_quantity intent)) ->
  create_order oid intent d ss = Ok o ->
  intent_ok intent -> id_ok i -> optional_ok id_ok aid -> order_ok o ->
  decode_order_intent (canonical_order_intent_bytes intent) ss target policy = Ok intent /\
  decode_risk_decision (canonical_risk_decision_bytes d) intent ss = Ok d /\
  decode_order (canonical_order_bytes o) intent d ss = Ok o.
Proof.
  intros Hi Hd Ha Ho Hok Hid Haid Hoo.
  destruct (created_intent_rebuilt _ _ _ _ _ _ _ _ _ _ _ _ _ Hi) as (Hr & _ & _ & _ & <- & <- & _).
  split_and!; [by apply decode_issued_intent|by eapply decode_issued_decision|by eapply decode_issued_order].
Qed.

(** An allowed intent becomes an Order for its whole quantity, a resized one for a
    smaller positive quantity on the instrument's grid, bound to the intent and the
    decision by their digests; a rejected or failed one becomes none. *)
Theorem order_is_what_was_approved `{Sha256} ss kind i intent rv aid approved d oid :
  spec_set_ok ss -> _create_risk_decision kind i intent ss rv aid approved = Ok d ->
  owner_kind oid = EXECUTION_ORDER -> id_run_id oid = oi_run_id intent ->
  match kind with
  | ALLOW | RESIZE =>
      exists o s, create_order oid intent d ss = Ok o /\ od_order_id o = oid /\
        od_side o = oi_side intent /\ od_instrument o = oi_instrument intent /\
        od_original_intent_sha256 o = order_intent_digest intent /\
        od_risk_decision_sha256 o = risk_decision_digest d /\
        s ∈ specifications ss /\ spec_instrument s = oi_instrument intent /\
        0 < units (od_quantity o) /\ on_grid (od_quantity o) (quantity_quantum s) /\
        (kind = ALLOW -> od_quantity o = oi_quantity intent) /\
        (kind = RESIZE -> units (od_quantity o) < units (oi_quantity intent))
  | REJECT | EVALUATION_FAILED =>
      create_order oid intent d ss = Raise (ExecutionMessageError CONFLICTING_ID)
  end.
Proof.
  intros Hss Hd Ho Hr. destruct (executable kind) eqn:Hk.
  - destruct (executable_yields_order _ _ _ _ _ _ _ _ _ Hk Hd Ho Hr) as
      (o & x & H1 & H2 & H3 & H4 & H5 & H6 & _ & _ & _ & H10 & H11).
    destruct (created_decision_checked _ _ _ _ _ _ _ _ Hk Hd) as
      (a & x' & s & digest & _ & L2 & L3 & L4 & L5 & L6 & _).
    assert (x' = x) as -> by congruence.
    destruct (require_spec_set_member _ _ _ _ _ _ _ Hss L3) as (Hin & Hi & Hs).
    apply (require_quantity_ok _ _ Hs) in L4 as [Hpos Hgrid].
    assert (units x = units (oi_quantity intent) -> x = oi_quantity intent) by apply units_inj.
    destruct kind; try done; exists o, s; rewrite H3; split_and!; try done; try (intros _; by apply L6);
      intros _; assert (x <> oi_quantity intent) by (intros Hx; by apply L6 in Hx);
      assert (units x <> units (oi_quantity intent)) by auto; lia.
  - pose proof (refusal_yields_no_order _ _ _ _ _ _ _ _ oid Hk Hd). by destruct kind.
Qed.

(** ** Witnesses *)

Lemma trade_four_issued : issued_fact (IndependentFactDecodeContext the_spec_set) trade_four.
Proof. eapply issued_trade. exact (unwrap_ok (order_trade 1 four) trade_four_created). Qed.
Lemma queried_issued : issued_fact (SubmissionQueryFactDecodeContext the_spec_set the_order) queried.
Proof. eapply issued_query. exact (unwrap_ok _ query_created). Qed.
Lemma small_id kind n : 0 <= n <= 10 -> id_ok (an_id kind n).
Proof. unfold id_ok, MAX_UINT64. cbn [owner_sequence an_id]. lia. Qed.
Lemma trade_four_ids : fact_ids_ok trade_four.
Proof.
  assert (fact_dedup_identity trade_four = DedupSequence 1 /\ fact_order_id trade_four = Some (an_id EXECUTION_ORDER 1) /\
          fact_correlation_id trade_four = Some (an_id STRATEGY_SIGNAL 1) /\
          fact_causation_id trade_four = Some (an_id EXECUTION_ORDER 1)) as (E1 & E2 & E3 & E4)
    by (refine (bool_decide_unpack _ _); vm_compute; exact I).
  unfold fact_ids_ok. rewrite E1, E2, E3, E4. cbn [dedup_identity_ok optional_ok].
  split_and!; [done|apply small_id; lia..].
Qed.


Lemma decoders_accept_only_issued_witness :
  canonical_execution_fact_bytes trade_four = canonical_execution_fact_bytes trade_four /\
  issued_fact (IndependentFactDecodeContext the_spec_set) trade_four.
Proof.
  exact (proj1 (decoders_accept_only_issued (canonical_execution_fact_bytes trade_four)) _ _
    (decode_issued_fact _ _ trade_four_issued trade_four_ids)).
Defined.

Lemma order_messages_round_trip_witness :
  intent_ok the_intent /\
  decode_order_intent (canonical_order_intent_bytes the_intent) the_spec_set the_target the_policy_ref = Ok the_intent /\
  decode_risk_decision (canonical_risk_decision_bytes the_decision) the_intent the_spec_set = Ok the_decision /\
  decode_order (canonical_order_bytes the_order) the_intent the_decision the_spec_set = Ok the_order.
Proof.
  assert (intent_ok the_intent) as Hi.
  { unfold intent_ok. cbn [the_intent oi_intent_id oi_correlation_id oi_causation_id oi_target_lineage target_id
      the_target oi_portfolio_snapshot_version oi_dispatch_sequence].
    split_and!; try (apply small_id; lia); try done; lia. }
  split; [exact Hi|].
  eapply order_messages_round_trip.
  - exact the_intent_ok.
  - exact the_decision_ok.
  - intros _. reflexivity.
  - exact the_order_ok.
  - exact Hi.
  - apply small_id. lia.
  - cbn [optional_ok]. apply small_id. lia.
  - unfold order_ok. cbn [the_order od_order_id od_intent_id od_correlation_id od_causation_id od_decision_id
      od_approval_id od_portfolio_snapshot_version od_risk_state_version od_dispatch_sequence].
    split_and!; try (apply small_id; lia); lia.
Defined.

Lemma order_is_what_was_approved_witness :
  spec_set_ok the_spec_set /\
  exists o s, create_order (an_id EXECUTION_ORDER 2) the_intent the_resize the_spec_set = Ok o /\
    s ∈ specifications the_spec_set /\ 0 < units (od_quantity o) /\
    units (od_quantity o) < units (oi_quantity the_intent).
Proof.
  split; [exact the_spec_set_ok|].
  destruct (order_is_what_was_approved the_spec_set RESIZE _ the_intent _ _ _ _ (an_id EXECUTION_ORDER 2)
    the_spec_set_ok the_resize_ok eq_refl eq_refl) as (o & s & H1 & _ & _ & _ & _ & _ & H2 & _ & H3 & _ & _ & H4).
  exists o, s. split_and!; [exact H1|exact H2|exact H3|by apply H4].
Defined.
