(* ===== verification/ValueTheorems.v ===== *)
(** The theorems about the values of the program: canonical decimals and their
    arithmetic, settlement and commission rounding, policy identities, specification
    sets, and the canonical bytes of messages and ledger values. *)

From S2P Require Import Prelude PyRegex PyText Outcomes Json Identity Checksum Economics Commission Execution.
From S2P Require Import Messages Portfolio Reconciliation Integration Ledger Canonical LedgerLemmas LedgerExample.

Open Scope Z_scope.

(** C37: A canonical decimal is an integer number of 10^-18 units below 10^38 in absolute
    value, and every such integer has exactly one canonical decimal: the one its
    canonical text [_scaled_text] parses to.  So equality of texts, of values and of
    units coincide. *)
Theorem decimals_are_bounded_integers :
  (forall d, Z.abs (units d) < UNIT_BOUND) /\
  (forall a b, units a = units b <-> text a = text b) /\
  (forall u, Z.abs u < UNIT_BOUND -> exists d, decimal_of_text (_scaled_text u 18) = Ok d /\ units d = u).
Proof.
  split_and!; [apply units_bound| |apply units_surj].
  intros a b. split; [by intros ->%units_inj|]. by intros ->%decimal_eq.
Qed.

(** [CanonicalDecimal(t)] accepts exactly the texts of the canonical grammar (no
    leading zero, no trailing fractional zero, no negative zero) with at most 18
    fractional digits and a value below 10^20, its text is then [t], and printing its
    coefficient and scale gives [t] back; any other text raises a closed economic
    error, never the [AssertionError] that guards the parse. *)
Theorem decimal_accepts_canonical_text t :
  match decimal_of_text t with
  | Ok d =>
      text d = t /\ _scaled_text (coefficient d) (scale d) = t /\
      exists neg I F, t = text_of (render neg I F) /\ canonical_parts neg I F /\
        zlen F <= 18 /\ int_of (I ++ F) < 10 ^ (20 + zlen F)
  | Raise e =>
      (e = EconomicValidationError NON_FINITE \/ e = EconomicValidationError OUT_OF_RANGE) /\
      forall neg I F, t = text_of (render neg I F) -> canonical_parts neg I F ->
        zlen F <= 18 -> 10 ^ (20 + zlen F) <= int_of (I ++ F)
  end.
Proof.
  destruct (decimal_of_text t) as [d|e] eqn:E.
  - apply decimal_of_text_Ok in E. subst t. split_and!; [done|by rewrite <-decimal_text|].
    destruct (decimal_post_init_inv _ _ _ (text_ok d)) as (neg & I & F & Ht & Hc & _ & Hs & ? & ?).
    exists neg, I, F. rewrite <-Hs. by split_and!.
  - pose proof (decimal_of_text_spec t) as Hp. rewrite E in Hp.
    split; [by eapply decimal_post_init_error|]. intros neg I F -> Hc Hl.
    rewrite decimal_post_init_render in Hp by done. case_bool_decide as Hd; [done|]. lia.
Qed.

(** C36: Settlement rounds half-even to the currency grid: for positive quantity,
    multiplier and quantum it returns the nearest multiple of the quantum with the exact
    residual, or reports overflow exactly when that multiple is not a decimal, or an
    unrepresentable residual exactly when no decimal is the residual. *)
Theorem settlement_rounds_half_even p q m quantum :
  0 < units q -> 0 < units m -> 0 < units quantum ->
  match settle_product p q m quantum with
  | Ok st => settles p q m quantum st
  | Raise e => exists k, half_even (product_units p q m) (units quantum * 10 ^ 36) k /\
      ((e = EconomicValidationError ARITHMETIC_OVERFLOW /\ UNIT_BOUND <= Z.abs (k * units quantum)) \/
       (e = EconomicValidationError ROUNDING_UNREPRESENTABLE /\
        forall r, Z.abs r < UNIT_BOUND ->
          product_units p q m <> (k * units quantum + r) * 10 ^ 36))
  end.
Proof. apply settle_product_correct. Qed.

(** The commission is the half-even rounding of price * quantity * multiplier * bps /
    10^4 to the currency grid; outside the domain of its arguments it raises
    OUT_OF_RANGE, and it overflows exactly when the rounded amount is not a decimal. *)
Theorem commission_rounds_half_even p q m b quantum :
  match commission_amount p q m b quantum with
  | Ok a =>
      (commission_ok b = true /\ 0 < units q /\ 0 < units m /\ 0 < units quantum /\ 0 <= units p) /\
      exists k, units a = k * units quantum /\
        half_even (product_units p q m * units b) (units quantum * 10 ^ 58) k
  | Raise e =>
      (e = EconomicValidationError OUT_OF_RANGE /\
       ~ (commission_ok b = true /\ 0 < units q /\ 0 < units m /\ 0 < units quantum /\ 0 <= units p)) \/
      (e = EconomicValidationError ARITHMETIC_OVERFLOW /\
       exists k, half_even (product_units p q m * units b) (units quantum * 10 ^ 58) k /\
         UNIT_BOUND <= Z.abs (k * units quantum))
  end.
Proof. apply commission_amount_spec. Qed.

(** Adding two decimals is exact, and raises OUT_OF_RANGE exactly when the sum is
    not a decimal: no balance is ever rounded or wrapped. *)
Theorem balance_addition_is_exact a b :
  match _add_decimal a b with
  | Ok d => units d = units a + units b
  | Raise e => e = EconomicValidationError OUT_OF_RANGE /\ UNIT_BOUND <= Z.abs (units a + units b)
  end.
Proof. by destruct (add_decimal_cases a b) as [(d & -> & ?)|[-> ?]]. Qed.

(** The identity of a cost, latency or commission policy carries its parameters: the
    decoders read back from an issued identifier and digest the latency, slippage and
    commission it was issued for. *)
Theorem policy_identity_round_trip p identifier digest : policy_issue p = Ok (identifier, digest) ->
  latency_ms_from_identity identifier digest = Ok (policy_latency p) /\
  slippage_bps_from_identity identifier digest = Ok (policy_slippage p) /\
  commission_bps_from_identity identifier digest = Ok (policy_commission p).
Proof. apply policy_decodes. Qed.

(** A commission read from an identity is always the commission of a policy that
    issues exactly this identity: forged identifiers or digests are refused. *)
Theorem policy_identity_is_unforgeable identifier digest b :
  commission_bps_from_identity identifier digest = Ok (Some b) ->
  exists p, policy_issue p = Ok (identifier, digest) /\ policy_commission p = Some b.
Proof. apply commission_accepted. Qed.

(** Execution inputs are accepted exactly when the instrument has a specification in
    the set, the price is in its domain and on its grid, and the quantity is positive
    and on its grid; the specification returned is that instrument's. *)
Theorem execution_inputs_validated ss i p q s : spec_set_ok ss ->
  validate_execution_inputs ss i p q = Ok s <->
  s ∈ specifications ss /\ spec_instrument s = i /\ price_in_domain p (price_domain s) /\
  0 < units q /\ on_grid p (price_quantum s) /\ on_grid q (quantity_quantum s).
Proof. apply validate_execution_inputs_ok. Qed.

(** The canonical encoder is injective up to the order of dictionary keys: two
    documents have the same bytes exactly when they agree after sorting keys. *)
Theorem canonical_json_injective v w : encode_json v = encode_json w <-> sort_keys v = sort_keys w.
Proof. apply encode_json_inj. Qed.

(** The identities spliced together by hand into canonical bytes (the fact
    deduplication key and the ingress identity) are the canonical JSON of their
    documents. *)
Theorem spliced_identities_are_canonical :
  (forall k, dedup_identity_ok (key_identity k) ->
    canonical_fact_dedup_key_bytes k = encode_json (fact_dedup_key_document k)) /\
  (forall i, 0 <= ingress_sequence i ->
    canonical_ingress_identity_bytes i = encode_json (ingress_identity_document i)).
Proof. split; [apply fact_dedup_key_bytes_encode|apply ingress_identity_bytes_encode]. Qed.

(** Canonical bytes identify their value: facts, ingresses, fills, ledger
    transactions, funding transactions and snapshots with the same bytes are equal. *)
Theorem canonical_bytes_identify `{Sha256} :
  Inj (=) (=) canonical_execution_fact_bytes /\
  Inj (=) (=) canonical_execution_fact_ingress_bytes /\
  Inj (=) (=) canonical_fill_bytes /\
  Inj (=) (=) canonical_ledger_transaction_bytes /\
  Inj (=) (=) canonical_funding_transaction_bytes /\
  Inj (=) (=) canonical_portfolio_snapshot_bytes.
Proof.
  split_and!; intros a b.
  - apply (canonical_bytes_inj _fact_document).
  - apply (canonical_bytes_inj _ingress_document).
  - apply (canonical_bytes_inj _fill_document).
  - apply (canonical_bytes_inj _transaction_document).
  - apply (canonical_bytes_inj _funding_transaction_document).
  - apply (canonical_bytes_inj _snapshot_document).
Qed.

(** The bytes of a reconciliation transaction leave out its observation digest and
    nothing else: transactions with the same bytes and the same observation are equal. *)
Theorem reconciliation_bytes_identify t u p :
  canonical_reconciliation_transaction_bytes t = Ok p ->
  canonical_reconciliation_transaction_bytes u = Ok p ->
  rt_observation_sha256 t = rt_observation_sha256 u -> t = u.
Proof. apply reconciliation_transaction_bytes_inj. Qed.

(** ** Witnesses *)

Lemma settlement_rounds_half_even_witness :
  match settle_product price_123_45 ten one cent with Ok _ => True | Raise _ => False end /\
  match settle_product price_123_45 ten one cent with
  | Ok st => settles price_123_45 ten one cent st
  | Raise _ => True
  end.
Proof.
  pose proof (settlement_rounds_half_even price_123_45 ten one cent) as Hs.
  destruct (settle_product price_123_45 ten one cent) as [st|] eqn:E; [|by vm_compute in E].
  split; [done|]. apply Hs; reflexivity.
Defined.

Definition half_bp : CanonicalDecimal := mkDecimal "0.5" 5 1 eq_refl.
Definition the_policy : policy := LatencyPolicy 250 (Some half_bp) (Some ten).
Lemma policy_issues : is_ok (policy_issue the_policy) = true.
Proof. vm_compute. reflexivity. Qed.

Lemma policy_identity_round_trip_witness :
  match policy_issue the_policy with
  | Ok (identifier, digest) => latency_ms_from_identity identifier digest = Ok 250
  | Raise _ => False
  end.
Proof.
  pose proof policy_issues as Hok. destruct (policy_issue the_policy) as [[identifier digest]|] eqn:E; [|done].
  exact (proj1 (policy_identity_round_trip the_policy identifier digest E)).
Defined.

Lemma policy_identity_is_unforgeable_witness :
  match policy_issue the_policy with
  | Ok (identifier, digest) =>
      exists p, policy_issue p = Ok (identifier, digest) /\ policy_commission p = Some ten
  | Raise _ => False
  end.
Proof.
  pose proof policy_issues as Hok. destruct (policy_issue the_policy) as [[identifier digest]|] eqn:E; [|done].
  apply (policy_identity_is_unforgeable identifier digest ten).
  destruct (policy_decodes _ _ _ E) as (_ & _ & ->). reflexivity.
Defined.

Lemma execution_inputs_validated_witness :
  spec_set_ok the_spec_set /\
  (the_spec ∈ specifications the_spec_set /\ spec_instrument the_spec = the_instrument /\
   price_in_domain price_123_45 (price_domain the_spec) /\ 0 < units ten /\
   on_grid price_123_45 (price_quantum the_spec) /\ on_grid ten (quantity_quantum the_spec)).
Proof.
  split; [exact the_spec_set_ok|].
  apply (execution_inputs_validated the_spec_set the_instrument price_123_45 ten the_spec the_spec_set_ok).
  vm_compute. reflexivity.
Defined.

Definition the_transaction (observation : Sha256Digest) : ReconciliationTransaction :=
  let i := mkEconomicId the_run LEDGER_ENTRY 1 in
  mkReconciliationTransaction the_run i 1 i the_digest observation the_digest the_digest
    BALANCE_CORRECTION SETTLEMENT_CASH None (Some usd) (Some one) (Some ten) (Some one) None None
    (mkPatternStr (r := _SPEC_ID_PATTERN) "set" eq_refl) the_digest [] the_time the_time.

Lemma reconciliation_bytes_identify_witness :
  is_ok (canonical_reconciliation_transaction_bytes (the_transaction the_digest)) = true /\
  (forall d, d = the_digest -> the_transaction d = the_transaction the_digest).
Proof.
  split; [vm_compute; reflexivity|]. intros d ->.
  apply (reconciliation_bytes_identify _ _ (unwrap (canonical_reconciliation_transaction_bytes (the_transaction the_digest)) eq_refl)).
  - apply unwrap_ok.
  - apply unwrap_ok.
  - reflexivity.
Defined.
